(* ===== verification/_CoqProject ===== *)
-Q . S2P
Prelude.v
Bits.v
Ts.v
Crc32.v
BitStream.v
NalBits.v
RingBuffer.v
Packetizer.v
SectionExtractor.v
Pes.v
Clock.v
Histogram.v
HistoryMetric.v
Stats.v
StatsSpec.v
StatsQuery.v
Descriptor.v
Pat.v
PatServices.v
PatPacket.v
Tr101290Events.v
Tr101290Race.v
Tr101290.v
Tr101290Spec.v
Reframer.v
SeiTimestamp.v
Throughput.v
RtpAnalyzer.v
KlQueue.v
PesExtractor.v
PesOrdered.v
PesTransport.v
PcrSmoother.v
PcrSmootherSpec.v
Vbv.v
VbvSpec.v
Nals.v
SliceCounter.v
NalSpec.v
SliceCounterSpec.v
RtpSmoother.v
RtpSmootherSpec.v
Ac3.v
Ac3Spec.v
Demux.v
DemuxSpec.v
StreamModel.v
StreamModelInv.v
StreamModelQuery.v
StreamModelSpec.v
XorgList.v
SegmentWriter.v
SegmentWriterSpec.v
Probes.v
ProcNetUdp.v
Multicast.v
