(* ===== verification/Prelude.v ===== *)
(** * libltntstools, verified: root of the development

    libltntstools is a C library for MPEG transport streams: it builds and
    parses transport packets, PES packets and PSI tables, measures streams,
    monitors them against ETSI TR 101 290, and extracts, reorders and forwards
    their contents.  This development models its core as executable functions
    over integers, lists of bytes and records, one file per component, and
    proves the properties its callers rely on.

    ** Conventions

    - A machine integer is a [Z]; conversions wrap as in C ([u8] ... [i64]
      below).  Signed arithmetic that could overflow goes through [int_ok] or
      [i64_ok].
    - Memory is [list Z]; [rd], [wr], [rds], [wrs], [memset] are the accesses,
      and fail outside the block.  A failed computation ([None] of the outer
      [option]) is undefined behaviour, a failed assertion or a call of abort;
      an error that the code returns is a value.  Theorems that end in
      [Some ...] therefore state memory safety and absence of overflow too.
    - What the code asks of its environment (clocks, success of allocations,
      contents of fresh memory, the tables libdvbpsi decodes) is an argument or
      a Section variable.  A callback is recorded in the state of its caller.
    - A mutex that serialises whole operations is the atomicity of a step; the
      ring buffer, whose mutex is locked again inside an operation, models the
      lock.  Where threads interleave (KlQueue, SegmentWriter) the steps of each
      are operations of one run; the smoothers' and the VBV's threads make any
      sequence of their steps where the other side takes the mutex, or between
      its operations.  The event loop of the TR 101 290 analyser visits its
      table without the mutex: in Tr101290Race a step of either side is one
      access to one field, taken as indivisible and seen in one order by all,
      which the machine gives and C does not promise.
    - Loops whose end is computed take fuel.  The fuel given by the caller is
      one more than the bytes, packets or items the loop can visit, and the
      theorems prove that it is enough by proving that the result exists.
    - A double is the binary64 number of SpecFloat, rounding included (Vbv).
    - Record updates use the setters of coqutil, sequences of partial
      operations the option monad of stdpp, maps from PIDs its [gmap].

    ** The files, what they model (under src/src/) and what they prove

    Foundations
    - Prelude (this file): machine integers, byte access, folds with failure
      and the automation ([zlia], [zdec], [byte_idx], [step], [run]).
    - Bits: bytes and words as lists of bits; masks, shifts and [2 ^ n].
    - XorgList (xorg-list.h): the intrusive circular lists over a store of
      nodes refine sequences, which the other models use for them.

    Building and reading bytes
    - Ts (ts.c, ts.h): the header fields, PCR and PTS values, packet search;
      PCR round trip, alignment of the PCRs found in a buffer.
    - Crc32 (crc32.c): the table-driven CRC is polynomial division; it detects
      every burst of at most 32 bits.
    - BitStream (klbitstream_readwriter.h), NalBits (nal_bitreader.c): the bit
      writer and the two readers; round trips for fields and Exp-Golomb codes,
      and what an overrun does.
    - RingBuffer (klringbuffer.c): a growing ring refines a FIFO of bytes.
    - Pes (pes.c): the packer and the parser of PES packets; round trip.
    - Packetizer (ts_packetizer.c): the packets carry exactly the PES.
    - SectionExtractor (sectionextractor.c): sections laid out as ISO 13818-1
      has them are reassembled, up to two packets of them.
    - Descriptor, Pat, PatServices, PatPacket (descriptor.c, pat.c): the PAT and
      PMT objects built from decoded tables, their enumeration and comparison,
      and the packets written for them, which a reader of ISO 13818-1 sections,
      written as a specification, decodes to the same tables with a good CRC.

    Time and measurement
    - Clock (clocks.c, timeval.h): a clock that unwraps a wrapping counter, and
      the corrected clock for 33-bit time stamps; both track true time.
    - Histogram (histogram.h), HistoryMetric (history-metric.c), Throughput
      (throughput.c, throughput_hires.c): what the counters count.
    - Stats, StatsQuery, StatsSpec (stats.c, stats.h): the statistics of a
      stream; its counters are those of a specification on packet lists, per
      PID and for the stream, whatever the calls that bring the packets.
    - RtpAnalyzer (rtp-analyzer.c): RTP counters and the search for RTP frames.
    - Probes (probes.c): the latency probe tells the time since an encoder's
      stamp, the scheduler probe counts the sleeps that were too long.
    - ProcNetUdp (proc-net-udp.c): the table of the system's sockets; a line
      the kernel prints is read back, and the table follows the file.

    Monitoring
    - Tr101290Events (tr101290-events.c, -alarms.c, -summary.c, tr101290.c):
      the events and the thread that reports them, as whole operations:
      what a visit does, and that a change is reported once, when nothing
      overlaps it.  Tr101290Race: the same operations as programs of single
      accesses, which have these effects when they run alone; an alarm lingers
      however they interleave, and a raise can be lost to a request to clear.
    - Tr101290 (tr101290-p1.c, -p2.c, -timers.c) and Tr101290Spec: the analyses
      are runs of such operations; a write is defined exactly when the update
      of the statistics in it is, sync loss is raised on the fifth
      packet and cleared, counted errors raise their events.  The stream model
      the analyses ask is a class, [StreamModel], any instance of which will do.

    - StreamModel (streammodel.c, -types.h, -extractors.c): the two models of
      the stream and the decoders that fill one of them.  StreamModelInv: what
      libdvbpsi promises, as the class [DvbpsiLaws], what is required of the
      stream and of memory, as [StreamOk] and [PsiMemory], and the invariant of
      a model: which decoder is where, and what was gathered from the tables.
      StreamModelQuery: the object a query builds, and the comparison of two.
      StreamModelSpec: writes of such a stream are safe in any order, a query
      answers with the tables taken, a new version is reported when the content
      differs; and what the code does with other streams.

    Transport
    - PesExtractor (pes-extractor.c): the extractor over the ring, the parser,
      the clock and the statistics implements the assembly of payload units.
    - PesOrdered: its ordered output sorts.
    - PesTransport: packer, packetizer and extractor composed lose nothing.
    - Nals, NalSpec (nal_h264.c, nal_h265.c): the search for NAL headers, whose
      spans tile the buffer, and the removal of emulation prevention, which
      undoes the insertion the standard describes.  SliceCounter,
      SliceCounterSpec: the slice counters refine a list of the slice types
      found in the stream.
    - Ac3, Ac3Spec (ac3.c): the parser of AC-3 headers inverts the syntax of
      A/52 up to the first fields of the first audio block; what it takes the
      rest of the buffer for is another value.  94 bytes are enough.
    - Demux, DemuxSpec (demux.c, demux-pid.c): the demultiplexer makes the
      extractors a PAT asks for, but for private streams of audio, and is the
      product of them.
    - Reframer (reframer.c), KlQueue (kl-queue.c), SeiTimestamp
      (sei-timestamp.c, memmem.h): frames of a fixed size, the FIFO of pointers,
      the search for and the fields of a SEI record.

    Timing of the output
    - PcrSmoother, PcrSmootherSpec (smoother-pcr.c): the smoother for transport
      packets loses nothing from the first PCR on, and hands out exactly the
      items that are due, under every interleaving of its thread.
    - RtpSmoother, RtpSmootherSpec (smoother-rtp.c): the same for RTP frames, as
      invariants of the states that writes, thread steps and queries reach.
    - Vbv, VbvSpec (vbv.c): the model of a decoder's buffer: its queue holds
      what the counts say, and a stream that arrives early enough does not
      underflow it.
    - SegmentWriter, SegmentWriterSpec (segmentwriter.c, time.c): the recorder
      loses nothing it was given while it runs, writes it in bounded time, and
      puts a minute into a file; files are a map from names to contents.

    Reception
    - Multicast (igmp.c, udp_receiver.c): when groups are joined and left on the
      interfaces, and what the callback of the receiver is given.

    ** How the components interact

    Stats is fed by the PES extractor and read by it and by Tr101290 (the error
    counts drive both); it uses Clock, Histogram and HistoryMetric.  The
    smoothers use the searches of Ts and RtpAnalyzer and the histograms, the VBV
    the corrected clock; the NAL layer reads through NalBits, the segment writer
    takes its items from KlQueue, the latency probe its stamps from
    SeiTimestamp.  The
    stream model builds its answers with Pat and feeds SectionExtractor; the
    demultiplexer reads such answers and owns PES extractors.  The
    extractor moves payloads through RingBuffer to the parser of Pes, which
    reads through BitStream.  PatPacket writes sections that Crc32 checks.
    Composition theorems use the lemmas of the components, never their
    definitions, where a component has a specification (StatsSpec, the FIFO of
    RingBuffer, [ts_stream_ok] of Packetizer, [corrected] of Clock).

    ** Not modelled

    Printers and the creation of threads and timers, which have no result the
    library uses; the Rust bindings; the free space of a disk; rates in Mb/s and long double clock
    differences; the release of memory, except where it delivers data.
    libdvbpsi, a library the sources call, is a parameter, the class [Dvbpsi];
    [DvbpsiLaws] states only that tables are of the kind their decoder was
    attached for, with fields in their range.  That no stream shares the PID of
    a PMT and that names fit is a condition on the stream, [StreamOk]; what
    happens otherwise is shown at the end of StreamModelSpec.  The theorems on writes of the stream model are about
    writes without the section checks, whose extractors can read outside a
    malformed packet; Tr101290, which asks for the checks, is proved against the
    class [StreamModel]. *)
From Stdlib Require Import ZArith Lia Bool String Ascii.
From stdpp Require Import base numbers list option.

#[global] Open Scope Z_scope.

(** ** Machine integers

    A C integer is a [Z]; a conversion to a [w]-bit unsigned type is the
    remainder modulo [2^w], a conversion to a signed type is the two's
    complement value of that remainder. *)

Definition u8 (x : Z) : Z := x mod 256.
Definition u16 (x : Z) : Z := x mod 65536.
Definition u32 (x : Z) : Z := x mod 4294967296.
Definition u64 (x : Z) : Z := x mod 18446744073709551616.
Definition i32 (x : Z) : Z := (x + 2147483648) mod 4294967296 - 2147483648.
Definition i64 (x : Z) : Z :=
  (x + 9223372036854775808) mod 18446744073709551616 - 9223372036854775808.

Definition is_byte (b : Z) : Prop := 0 <= b < 256.
Definition bytes (l : list Z) : Prop := Forall is_byte l.

(** Linear integer arithmetic over [/] and [mod] by constants, the machine
    conversions unfolded. *)
Ltac zlia :=
  unfold u8, u16, u32, u64, i32, i64, is_byte in *;
  Z.to_euclidean_division_equations; lia.

(** Boolean comparisons to propositions, everywhere. *)
Ltac zbool :=
  repeat match goal with
  | H : (_ && _) = true |- _ => apply andb_true_iff in H; destruct H
  | H : (_ || _) = false |- _ => apply orb_false_iff in H; destruct H
  | H : (_ && _) = false |- _ => apply andb_false_iff in H
  | H : (_ || _) = true |- _ => apply orb_true_iff in H
  | H : negb _ = true |- _ => apply negb_true_iff in H
  | H : negb _ = false |- _ => apply negb_false_iff in H
  | H : (_ <? _) = true |- _ => apply Z.ltb_lt in H
  | H : (_ <? _) = false |- _ => apply Z.ltb_ge in H
  | H : (_ <=? _) = true |- _ => apply Z.leb_le in H
  | H : (_ <=? _) = false |- _ => apply Z.leb_gt in H
  | H : (_ =? _) = true |- _ => apply Z.eqb_eq in H
  | H : (_ =? _) = false |- _ => apply Z.eqb_neq in H
  end.

(** Case analysis on the first boolean condition of the goal, with the
    comparison turned into an inequality. *)
Ltac case_if :=
  match goal with
  | |- context [if ?b then _ else _] => let E := fresh "E" in destruct b eqn:E; zbool
  end.

(** Rewrite every comparison of the goal that linear arithmetic decides. *)
Ltac zdec :=
  repeat match goal with
  | |- context [?a =? ?b] =>
      first [rewrite (proj2 (Z.eqb_neq a b)) by lia | rewrite (proj2 (Z.eqb_eq a b)) by lia]
  | |- context [?a <? ?b] =>
      first [rewrite (proj2 (Z.ltb_ge a b)) by lia | rewrite (proj2 (Z.ltb_lt a b)) by lia]
  | |- context [?a <=? ?b] =>
      first [rewrite (proj2 (Z.leb_gt a b)) by lia | rewrite (proj2 (Z.leb_le a b)) by lia]
  end.

Lemma u8_range x : 0 <= u8 x < 256.
Proof. zlia. Qed.
Lemma u16_range x : 0 <= u16 x < 65536.
Proof. zlia. Qed.
Lemma u32_range x : 0 <= u32 x < 4294967296.
Proof. zlia. Qed.
Lemma u64_range x : 0 <= u64 x < 18446744073709551616.
Proof. zlia. Qed.
Lemma i32_range x : -2147483648 <= i32 x < 2147483648.
Proof. zlia. Qed.
Lemma u8_id x : 0 <= x < 256 -> u8 x = x.
Proof. zlia. Qed.
Lemma u16_id x : 0 <= x < 65536 -> u16 x = x.
Proof. zlia. Qed.
Lemma u32_id x : 0 <= x < 4294967296 -> u32 x = x.
Proof. zlia. Qed.
Lemma u64_id x : 0 <= x < 18446744073709551616 -> u64 x = x.
Proof. zlia. Qed.
Lemma i32_id x : -2147483648 <= x < 2147483648 -> i32 x = x.
Proof. zlia. Qed.
Lemma i64_id x : -9223372036854775808 <= x < 9223372036854775808 -> i64 x = x.
Proof. zlia. Qed.
Lemma u8_is_byte x : is_byte (u8 x).
Proof. apply u8_range. Qed.

Create HintDb cint.
#[export] Hint Resolve u8_range u16_range u32_range u64_range u8_is_byte : cint.

(** ** Bit operations as arithmetic *)

Lemma land_ones_mod x n m : 0 <= n -> m = 2 ^ n - 1 -> Z.land x m = x mod 2 ^ n.
Proof. intros Hn ->. rewrite <- Z.land_ones by lia. f_equal. rewrite Z.ones_equiv. lia. Qed.

Lemma testbit_small b n i : 0 <= b < 2 ^ n -> 0 <= n <= i -> Z.testbit b i = false.
Proof.
  intros Hb Hi. rewrite <- (Z.mod_small b (2 ^ n)) by lia.
  apply Z.mod_pow2_bits_high. lia.
Qed.

(** Two operands without a common bit: [lor] is [+]. *)
Lemma lor_add a b : Z.land a b = 0 -> Z.lor a b = a + b.
Proof. intros H. rewrite <- Z.lxor_lor by done. symmetry. by apply Z.add_nocarry_lxor. Qed.

Lemma lor_shiftl_add a b n : 0 <= n -> 0 <= b < 2 ^ n -> Z.lor (Z.shiftl a n) b = a * 2 ^ n + b.
Proof.
  intros Hn Hb. rewrite lor_add; [by rewrite Z.shiftl_mul_pow2|].
  apply Z.bits_inj'. intros i Hi. rewrite Z.land_spec, Z.bits_0.
  destruct (Z.ltb_spec i n).
  - by rewrite Z.shiftl_spec_low by lia.
  - rewrite (testbit_small b n i) by lia. by rewrite andb_false_r.
Qed.

Lemma lor_high_low a b n : 0 <= n -> a mod 2 ^ n = 0 -> 0 <= b < 2 ^ n -> Z.lor a b = a + b.
Proof.
  intros Hn Ha Hb. pose proof (Z.pow_pos_nonneg 2 n ltac:(lia) Hn).
  pose proof (Z.div_mod a (2 ^ n) ltac:(lia)) as Hd. rewrite Ha, Z.add_0_r, Z.mul_comm in Hd.
  rewrite Hd at 1. rewrite <- Z.shiftl_mul_pow2, lor_shiftl_add by lia. by rewrite <- Hd.
Qed.

Lemma lxor_high_low a b n : 0 <= n -> a mod 2 ^ n = 0 -> 0 <= b < 2 ^ n -> Z.lxor a b = a + b.
Proof.
  intros Hn Ha Hb. symmetry. apply Z.add_nocarry_lxor.
  apply Z.bits_inj'. intros i Hi. rewrite Z.land_spec, Z.bits_0.
  destruct (Z.ltb_spec i n); [|by rewrite (testbit_small b n i), andb_false_r by lia].
  rewrite <- (Z.mod_pow2_bits_low a n i) by lia. by rewrite Ha, Z.bits_0.
Qed.

(** A single bit, masked. *)
Lemma land_bit x n : 0 <= n -> Z.land x (2 ^ n) = (x / 2 ^ n) mod 2 * 2 ^ n.
Proof.
  intros Hn. rewrite <- Z.testbit_spec' by lia. apply Z.bits_inj'. intros i Hi.
  rewrite Z.land_spec. destruct (Z.eqb_spec i n) as [->|Hne].
  - rewrite Z.pow2_bits_true, andb_true_r by lia.
    destruct (Z.testbit x n); cbn [Z.b2z]; [|by rewrite Z.bits_0].
    by rewrite Z.mul_1_l, Z.pow2_bits_true by lia.
  - rewrite Z.pow2_bits_false, andb_false_r by lia.
    destruct (Z.testbit x n); cbn [Z.b2z]; [|by rewrite Z.bits_0].
    rewrite Z.mul_1_l. by rewrite Z.pow2_bits_false by lia.
Qed.

Lemma land_bit_zero x n : 0 <= n -> (Z.land x (2 ^ n) =? 0) = negb (Z.testbit x n).
Proof.
  intros Hn. rewrite land_bit, <- Z.testbit_spec' by lia.
  pose proof (Z.pow_pos_nonneg 2 n ltac:(lia) Hn).
  destruct (Z.testbit x n); cbn [Z.b2z negb]; [apply Z.eqb_neq|apply Z.eqb_eq]; lia.
Qed.

(** Exhaustive check of a boolean property of a byte. *)
Definition byte_values : list Z := seqZ 0 256.

Lemma forall_byte (P : Z -> bool) :
  forallb P byte_values = true -> forall b, is_byte b -> P b = true.
Proof.
  intros H b Hb. rewrite forallb_forall in H. apply H.
  apply list_elem_of_In, elem_of_seqZ. unfold is_byte in Hb. lia.
Qed.

(** ** Buffers

    A C buffer is the list of its bytes.  An access outside the list is
    undefined behaviour in C: the accessors return [None] there, and a
    function that accesses memory lives in the option monad. *)

Definition len {A} (l : list A) : Z := Z.of_nat (length l).

(** [*(p + i)] where the caller guarantees the range (packet headers). *)
Definition byte_at (p : list Z) (i : Z) : Z := nth (Z.to_nat i) p 0.

(** [*(p + i)], checked. *)
Definition rd (p : list Z) (i : Z) : option Z :=
  if i <? 0 then None else p !! Z.to_nat i.

(** [*(p + i) = v] where the caller guarantees the range. *)
Definition set_at (p : list Z) (i v : Z) : list Z := <[Z.to_nat i := v]> p.

(** [*(p + i) = v], checked. *)
Definition wr (p : list Z) (i v : Z) : option (list Z) :=
  if (0 <=? i) && (i <? len p) then Some (set_at p i v) else None.

(** The [n] bytes at [p + off] (the source of a memcpy), checked. *)
Definition rds (p : list Z) (off n : Z) : option (list Z) :=
  if (0 <=? off) && (0 <=? n) && (off + n <=? len p)
  then Some (take (Z.to_nat n) (drop (Z.to_nat off) p)) else None.

(** [memcpy(p + off, src, len src)], checked. *)
Definition wrs (p : list Z) (off : Z) (src : list Z) : option (list Z) :=
  if (0 <=? off) && (off + len src <=? len p)
  then Some (take (Z.to_nat off) p ++ src ++ drop (Z.to_nat (off + len src)) p) else None.

(** [memset(p + off, v, n)], checked. *)
Definition memset (p : list Z) (off v n : Z) : option (list Z) :=
  if n <? 0 then None else wrs p off (replicate (Z.to_nat n) v).

Section Lengths.
Context {A : Type}.
Implicit Types l k : list A.

Lemma len_nonneg l : 0 <= len l.
Proof. unfold len. lia. Qed.
Lemma len_nil : len (@nil A) = 0.
Proof. done. Qed.
Lemma len_cons x l : len (x :: l) = len l + 1.
Proof. unfold len. simpl. lia. Qed.
Lemma len_app l k : len (l ++ k) = len l + len k.
Proof. unfold len. rewrite length_app. lia. Qed.
Lemma len_take n l : 0 <= n <= len l -> len (take (Z.to_nat n) l) = n.
Proof. unfold len. intros H. rewrite length_take. lia. Qed.
Lemma len_drop n l : 0 <= n <= len l -> len (drop (Z.to_nat n) l) = len l - n.
Proof. unfold len. intros H. rewrite length_drop. lia. Qed.
Lemma len_replicate n (x : A) : 0 <= n -> len (replicate (Z.to_nat n) x) = n.
Proof. unfold len. rewrite length_replicate. lia. Qed.
Lemma len_insert i (x : A) l : len (<[i := x]> l) = len l.
Proof. unfold len. by rewrite length_insert. Qed.

Lemma drop_len_app l k : drop (Z.to_nat (len l)) (l ++ k) = k.
Proof. unfold len. rewrite Nat2Z.id. apply drop_app_length. Qed.
Lemma take_len_app l k : take (Z.to_nat (len l)) (l ++ k) = l.
Proof. unfold len. rewrite Nat2Z.id. apply take_app_length. Qed.
End Lengths.

Create Rewrite HintDb len.
#[export] Hint Rewrite @len_nil @len_cons @len_app @len_insert : len.

(** *** Reads *)

Lemma lookup_byte_at p n : (n < length p)%nat -> p !! n = Some (byte_at p (Z.of_nat n)).
Proof.
  intros Hn. unfold byte_at. rewrite Nat2Z.id.
  destruct (nth_lookup_or_length p n 0) as [->|]; [done|lia].
Qed.

Lemma rd_Some p i : 0 <= i < len p -> rd p i = Some (byte_at p i).
Proof.
  unfold rd, len. intros Hi. destruct (Z.ltb_spec i 0); [lia|].
  rewrite lookup_byte_at by lia. by rewrite Z2Nat.id by lia.
Qed.

Lemma rd_None p i : i < 0 \/ len p <= i -> rd p i = None.
Proof.
  unfold rd, len. intros Hi. destruct (Z.ltb_spec i 0); [done|].
  apply lookup_ge_None. lia.
Qed.

Lemma rd_Some_inv p i v : rd p i = Some v -> 0 <= i < len p /\ v = byte_at p i.
Proof.
  intros H. destruct (Z_lt_dec i 0); [rewrite rd_None in H by lia; done|].
  destruct (Z_lt_dec i (len p)); [|rewrite rd_None in H by lia; done].
  rewrite rd_Some in H by lia. split; [lia|congruence].
Qed.

(** Concrete buffers. *)
Lemma bytes_check l : forallb (fun b => (0 <=? b) && (b <? 256)) l = true -> bytes l.
Proof.
  intros H. apply List.Forall_forall. intros b Hb. rewrite forallb_forall in H.
  specialize (H b Hb). zbool. by split.
Qed.

Lemma byte_at_is_byte p i : bytes p -> is_byte (byte_at p i).
Proof.
  intros Hp. unfold byte_at. destruct (nth_in_or_default (Z.to_nat i) p 0) as [H| ->].
  - unfold bytes in Hp. rewrite List.Forall_forall in Hp. auto.
  - unfold is_byte. lia.
Qed.

Lemma byte_at_ge p i : len p <= i -> byte_at p i = 0.
Proof. unfold byte_at, len. intros H. apply nth_overflow. lia. Qed.

Lemma byte_at_app p q i :
  0 <= i -> byte_at (p ++ q) i = if i <? len p then byte_at p i else byte_at q (i - len p).
Proof.
  unfold byte_at, len. intros Hi. destruct (Z.ltb_spec i (Z.of_nat (length p))).
  - by rewrite app_nth1 by lia.
  - rewrite app_nth2 by lia. f_equal. lia.
Qed.

Lemma byte_at_drop p n i : 0 <= n -> 0 <= i -> byte_at (drop (Z.to_nat n) p) i = byte_at p (n + i).
Proof.
  unfold byte_at. intros. rewrite nth_skipn. f_equal. lia.
Qed.

Lemma byte_at_take p n i : 0 <= i < n -> byte_at (take (Z.to_nat n) p) i = byte_at p i.
Proof.
  unfold byte_at. intros. rewrite nth_firstn.
  by destruct (Nat.ltb_spec (Z.to_nat i) (Z.to_nat n)); [|lia].
Qed.

Lemma byte_at_replicate n v i : 0 <= i < n -> byte_at (replicate (Z.to_nat n) v) i = v.
Proof.
  unfold byte_at. intros Hi.
  destruct (nth_lookup_or_length (replicate (Z.to_nat n) v) (Z.to_nat i) 0) as [H|H].
  - apply lookup_replicate in H as [-> _]. done.
  - rewrite length_replicate in H. lia.
Qed.

(** Two buffers of the same length with the same bytes are equal. *)
Lemma bytes_ext p q :
  len p = len q -> (forall i, 0 <= i < len p -> byte_at p i = byte_at q i) -> p = q.
Proof.
  unfold len. intros Hl H. apply (nth_ext _ _ 0 0); [lia|].
  intros n Hn. specialize (H (Z.of_nat n) ltac:(lia)). unfold byte_at in H.
  by rewrite !Nat2Z.id in H.
Qed.

(** *** Writes *)

Lemma wr_Some p i v : 0 <= i < len p -> wr p i v = Some (set_at p i v).
Proof.
  intros Hi. unfold wr.
  destruct (Z.leb_spec 0 i), (Z.ltb_spec i (len p)); done || lia.
Qed.

Lemma len_set_at p i v : len (set_at p i v) = len p.
Proof. apply len_insert. Qed.

Lemma byte_at_set_at p i v j :
  0 <= i < len p -> 0 <= j -> byte_at (set_at p i v) j = if j =? i then v else byte_at p j.
Proof.
  unfold byte_at, set_at, len. intros Hi Hj. destruct (Z.eqb_spec j i) as [->|Hn].
  - apply (nth_lookup_Some (<[Z.to_nat i:=v]> p)). apply list_lookup_insert_eq. lia.
  - rewrite !nth_lookup, list_lookup_insert_ne by lia. done.
Qed.

Lemma bytes_set_at p i v : bytes p -> is_byte v -> bytes (set_at p i v).
Proof. intros. by apply Forall_insert. Qed.

Lemma rds_Some p off n :
  0 <= off -> 0 <= n -> off + n <= len p ->
  rds p off n = Some (take (Z.to_nat n) (drop (Z.to_nat off) p)).
Proof.
  intros. unfold rds.
  destruct (Z.leb_spec 0 off), (Z.leb_spec 0 n), (Z.leb_spec (off + n) (len p)); done || lia.
Qed.

Lemma wrs_Some p off src :
  0 <= off -> off + len src <= len p ->
  wrs p off src =
    Some (take (Z.to_nat off) p ++ src ++ drop (Z.to_nat (off + len src)) p).
Proof.
  intros. unfold wrs.
  destruct (Z.leb_spec 0 off), (Z.leb_spec (off + len src) (len p)); done || lia.
Qed.

Lemma wrs_len p off src p' : wrs p off src = Some p' -> len p' = len p.
Proof.
  unfold wrs. case_if; [|done]. intros [= <-]. zbool. pose proof (len_nonneg src).
  rewrite !len_app, len_take, len_drop by lia. lia.
Qed.

Lemma drop_wrs p off src p' :
  wrs p off src = Some p' ->
  drop (Z.to_nat off) p' = src ++ drop (Z.to_nat (off + len src)) p.
Proof.
  unfold wrs. case_if; [|done]. intros [= <-]. pose proof (len_nonneg src).
  rewrite drop_app_length'; [done|]. rewrite length_take. unfold len in *. lia.
Qed.

Lemma take_wrs p off src p' :
  wrs p off src = Some p' -> take (Z.to_nat (off + len src)) p' = take (Z.to_nat off) p ++ src.
Proof.
  unfold wrs. case_if; [|done]. intros [= <-]. pose proof (len_nonneg src).
  rewrite app_assoc. replace (off + len src) with (len (take (Z.to_nat off) p ++ src)).
  - apply take_len_app.
  - rewrite len_app, len_take by lia. done.
Qed.

Lemma bytes_wrs p off src p' : wrs p off src = Some p' -> bytes p -> bytes src -> bytes p'.
Proof.
  unfold wrs, bytes. case_if; [|done]. intros [= <-] Hp Hs.
  apply Forall_app; split; [by apply Forall_take|].
  apply Forall_app; split; [done|by apply Forall_drop].
Qed.

Lemma byte_at_wrs p off src p' j :
  wrs p off src = Some p' -> 0 <= j ->
  byte_at p' j = if (off <=? j) && (j <? off + len src) then byte_at src (j - off) else byte_at p j.
Proof.
  unfold wrs. case_if; [|done]. intros [= <-] Hj. pose proof (len_nonneg src).
  rewrite byte_at_app, len_take by lia. destruct (Z.ltb_spec j off).
  - rewrite byte_at_take by lia. by zdec.
  - zdec. cbn [andb]. rewrite byte_at_app by lia.
    replace (j - off <? len src) with (j <? off + len src)
      by (destruct (Z.ltb_spec j (off + len src)), (Z.ltb_spec (j - off) (len src)); lia).
    case_if; [done|]. rewrite byte_at_drop by lia. f_equal. lia.
Qed.

Lemma rds_len p off n q : rds p off n = Some q -> len q = n.
Proof.
  unfold rds. case_if; [|done]. intros [= <-]. zbool. rewrite len_take; [done|].
  rewrite len_drop by lia. lia.
Qed.

Lemma byte_at_rds p off n q i :
  rds p off n = Some q -> 0 <= i < n -> byte_at q i = byte_at p (off + i).
Proof.
  unfold rds. case_if; [|done]. intros [= <-] Hi. zbool.
  by rewrite byte_at_take, byte_at_drop by lia.
Qed.

(** [rds] as a fact about its result, for executing a checked copy. *)
Lemma rds_exists p off n :
  0 <= off -> 0 <= n -> off + n <= len p -> exists q, rds p off n = Some q /\ len q = n.
Proof. intros. eexists. split; [by apply rds_Some|]. eapply rds_len. by apply rds_Some. Qed.

Lemma wrs_exists p off src :
  0 <= off -> off + len src <= len p -> exists q, wrs p off src = Some q /\ len q = len p.
Proof. intros. eexists. split; [by apply wrs_Some|]. eapply wrs_len. by apply wrs_Some. Qed.

Lemma rds_all p : rds p 0 (len p) = Some p.
Proof.
  rewrite rds_Some by (pose proof (len_nonneg p); lia). unfold len.
  by rewrite drop_0, Nat2Z.id, firstn_all.
Qed.

(** Setting the whole of a prefix. *)
Lemma memset_prefix p v n :
  0 <= n <= len p ->
  memset p 0 v n = Some (replicate (Z.to_nat n) v ++ drop (Z.to_nat n) p).
Proof.
  intros Hn. unfold memset. zdec.
  rewrite wrs_Some; rewrite ?len_replicate by lia; done || lia.
Qed.

Lemma bytes_app p q : bytes (p ++ q) <-> bytes p /\ bytes q.
Proof. apply Forall_app. Qed.
Lemma bytes_cons x p : bytes (x :: p) <-> is_byte x /\ bytes p.
Proof. split; [by inversion 1|]. intros [? ?]. by constructor. Qed.
Lemma bytes_take n p : bytes p -> bytes (take n p).
Proof. apply Forall_take. Qed.
Lemma bytes_drop n p : bytes p -> bytes (drop n p).
Proof. apply Forall_drop. Qed.
Lemma bytes_replicate n v : is_byte v -> bytes (replicate n v).
Proof. intros. by apply Forall_replicate. Qed.

(** The [n] bytes of a buffer at [pos]. *)
Definition slice (buf : list Z) (pos n : Z) : list Z := take (Z.to_nat n) (drop (Z.to_nat pos) buf).

Lemma len_slice buf pos n : 0 <= pos -> 0 <= n -> pos + n <= len buf -> len (slice buf pos n) = n.
Proof. intros. unfold slice. rewrite len_take; [done|]. rewrite len_drop by lia. lia. Qed.

Lemma rd_mid (p q : list Z) x o : o = len p -> rd (p ++ x :: q) o = Some x.
Proof.
  intros ->. unfold rd, len. case_if; [lia|]. rewrite Nat2Z.id. by apply list_lookup_middle.
Qed.

Lemma rds_slice buf pos n :
  0 <= pos -> 0 <= n -> pos + n <= len buf -> rds buf pos n = Some (slice buf pos n).
Proof. intros. by apply rds_Some. Qed.

Lemma slice_split buf pos n m :
  0 <= pos -> 0 <= n <= m -> pos + m <= len buf ->
  slice buf pos m = slice buf pos n ++ slice buf (pos + n) (m - n).
Proof.
  intros Hp Hn Hb. unfold slice. rewrite <- (take_drop (Z.to_nat n) (take _ (drop _ _))).
  rewrite take_take, Nat.min_l by lia. f_equal. rewrite skipn_firstn_comm, drop_drop. f_equal; [lia|].
  f_equal. lia.
Qed.

Lemma byte_at_slice s c n i : 0 <= c -> 0 <= i < n -> byte_at (slice s c n) i = byte_at s (c + i).
Proof. intros. unfold slice. by rewrite byte_at_take, byte_at_drop by lia. Qed.

Lemma slice_app_l (V rest : list Z) i n : 0 <= i -> 0 <= n -> i + n <= len V -> slice (V ++ rest) i n = slice V i n.
Proof.
  unfold slice, len. intros Hi Hn H. rewrite drop_app_le by lia. rewrite take_app_le; [done|]. rewrite length_drop. lia.
Qed.

Lemma slice_nil buf pos : slice buf pos 0 = [].
Proof. done. Qed.

Lemma bytes_slice buf pos n : bytes buf -> bytes (slice buf pos n).
Proof. intros H. by apply bytes_take, bytes_drop. Qed.

Lemma rds_app_mid (h m t : list Z) n : n = len h -> rds ((h ++ m) ++ t) n (len m) = Some m.
Proof.
  intros ->. pose proof (len_nonneg h). pose proof (len_nonneg m). pose proof (len_nonneg t).
  rewrite rds_Some by (rewrite ?len_app; lia). by rewrite <- app_assoc, drop_len_app, take_len_app.
Qed.

#[export] Hint Rewrite len_set_at : len.
#[export] Hint Resolve byte_at_is_byte bytes_set_at bytes_take bytes_drop bytes_replicate : cint.

(** Length side conditions: rewrite the lengths, then linear arithmetic. *)
Ltac llia := autorewrite with len in *; lia.

(** Evaluate [byte_at] at a literal index of a literal list. *)
Ltac byte_idx :=
  repeat match goal with
  | |- context [byte_at ?l ?i] =>
      let v := eval cbv [byte_at nth app Z.to_nat Pos.to_nat Pos.iter_op Nat.add] in (byte_at l i) in
      progress change (byte_at l i) with v
  end.

(** One step of a computation in the option monad. *)
Ltac step := cbn [mbind option_bind].
(** Execute the checked accesses whose range [llia] decides. *)
Ltac run :=
  repeat (first [rewrite wr_Some by llia | rewrite rd_Some by llia]; step).

(** ** Arrays and counted loops

    [arr[i]], checked, and the loops [for (i = 0; i < count; i++)] over an
    array: one that stops at its first hit (the test is a function, or a
    computation that can fail), one that threads a state. *)

Definition aget {A} (arr : list A) (i : Z) : option A :=
  if i <? 0 then None else arr !! Z.to_nat i.

Definition aset {A} (arr : list A) (i : Z) (x : A) : option (list A) :=
  if (0 <=? i) && (i <? len arr) then Some (<[Z.to_nat i := x]> arr) else None.

Fixpoint find_from {A B} (f : A -> option B) (arr : list A) (n : nat) (i : Z) : option (option B) :=
  match n with
  | O => Some None
  | S n' =>
      x ← aget arr i;
      match f x with Some y => Some (Some y) | None => find_from f arr n' (i + 1) end
  end.

Definition find_in {A B} (f : A -> option B) (arr : list A) (count : Z) : option (option B) :=
  find_from f arr (Z.to_nat count) 0.

Fixpoint findM_from {A B} (f : A -> option (option B)) (arr : list A) (n : nat) (i : Z)
    : option (option B) :=
  match n with
  | O => Some None
  | S n' =>
      x ← aget arr i; r ← f x;
      match r with Some y => Some (Some y) | None => findM_from f arr n' (i + 1) end
  end.

Definition findM_in {A B} (f : A -> option (option B)) (arr : list A) (count : Z) : option (option B) :=
  findM_from f arr (Z.to_nat count) 0.

Fixpoint fold_from {A T} (f : T -> A -> option T) (arr : list A) (n : nat) (i : Z) (s : T) : option T :=
  match n with
  | O => Some s
  | S n' => x ← aget arr i; s ← f s x; fold_from f arr n' (i + 1) s
  end.

Definition fold_in {A T} (f : T -> A -> option T) (arr : list A) (count : Z) (s : T) : option T :=
  fold_from f arr (Z.to_nat count) 0 s.

(** A signed [int] result that must not overflow. *)
Definition int_ok (x : Z) : option Z :=
  if (-2147483648 <=? x) && (x <=? 2147483647) then Some x else None.

Lemma int_ok_Some x : -2147483648 <= x <= 2147483647 -> int_ok x = Some x.
Proof. intros H. unfold int_ok. by zdec. Qed.

(** The same loops over a list. *)
Fixpoint foldM {A T} (f : T -> A -> option T) (l : list A) (s : T) : option T :=
  match l with [] => Some s | x :: l => s ← f s x; foldM f l s end.

Section Loops.
Context {A : Type}.
Implicit Types arr : list A.

Lemma aget_Some arr i x : aget arr i = Some x <-> 0 <= i /\ arr !! Z.to_nat i = Some x.
Proof. unfold aget. case_if; [|tauto]. split; [done|lia]. Qed.

Lemma aget_lt arr i : 0 <= i < len arr -> exists x, aget arr i = Some x.
Proof.
  unfold len. intros Hi. destruct (lookup_lt_is_Some_2 arr (Z.to_nat i)) as [x Hx]; [lia|].
  exists x. apply aget_Some. split; [lia|done].
Qed.

Lemma aget_ge arr i : len arr <= i -> aget arr i = None.
Proof. unfold aget, len. intros Hi. case_if; [done|]. apply lookup_ge_None. lia. Qed.

Lemma aset_Some arr i x : 0 <= i < len arr -> aset arr i x = Some (<[Z.to_nat i := x]> arr).
Proof. intros Hi. unfold aset. by zdec. Qed.

Lemma drop_aget arr i x : aget arr i = Some x -> drop (Z.to_nat i) arr = x :: drop (Z.to_nat (i + 1)) arr.
Proof.
  intros [Hi H]%aget_Some. rewrite (drop_S _ _ _ H). do 2 f_equal. lia.
Qed.

Lemma find_from_spec {B} (f : A -> option B) arr n : forall i, 0 <= i -> i + Z.of_nat n <= len arr ->
  find_from f arr n i = Some (head (omap f (take n (drop (Z.to_nat i) arr)))).
Proof.
  induction n as [|n IH]; intros i Hi Hn; [done|]. cbn [find_from].
  destruct (aget_lt arr i) as [x Hx]; [lia|]. rewrite Hx. step. rewrite (drop_aget _ _ _ Hx).
  cbn [take omap list_omap]. destruct (f x) eqn:E; [done|]. by rewrite IH by lia.
Qed.

Lemma find_in_spec {B} (f : A -> option B) arr count : 0 <= count <= len arr ->
  find_in f arr count = Some (head (omap f (take (Z.to_nat count) arr))).
Proof. intros Hc. unfold find_in. by rewrite find_from_spec by lia. Qed.

Lemma findM_in_spec {B} (f : A -> option (option B)) (g : A -> option B) arr count :
  0 <= count <= len arr -> (forall x, x ∈ arr -> f x = Some (g x)) ->
  findM_in f arr count = Some (head (omap g (take (Z.to_nat count) arr))).
Proof.
  intros Hc Hf. rewrite <- find_in_spec by done. unfold findM_in, find_in. generalize 0.
  induction (Z.to_nat count) as [|n IH]; intros i; [done|]. cbn [findM_from find_from].
  destruct (aget arr i) as [x|] eqn:E; [|done]. step.
  rewrite Hf by (apply aget_Some in E as [_ E]; by eapply list_elem_of_lookup_2). step. by destruct (g x).
Qed.

Lemma fold_from_spec {T} (f : T -> A -> option T) arr n : forall i s, 0 <= i -> i + Z.of_nat n <= len arr ->
  fold_from f arr n i s = foldM f (take n (drop (Z.to_nat i) arr)) s.
Proof.
  induction n as [|n IH]; intros i s Hi Hn; [done|]. cbn [fold_from].
  destruct (aget_lt arr i) as [x Hx]; [lia|]. rewrite Hx. step. rewrite (drop_aget _ _ _ Hx).
  cbn [take foldM]. destruct (f s x); [|done]. step. by apply IH; lia.
Qed.

Lemma fold_in_spec {T} (f : T -> A -> option T) arr count s : 0 <= count <= len arr ->
  fold_in f arr count s = foldM f (take (Z.to_nat count) arr) s.
Proof. intros Hc. unfold fold_in. by rewrite fold_from_spec by lia. Qed.

Lemma foldM_app {T} (f : T -> A -> option T) l k s :
  foldM f (l ++ k) s = (s ← foldM f l s; foldM f k s).
Proof.
  revert s. induction l as [|x l IH]; intros s; [done|]. cbn [foldM app].
  destruct (f s x); [|done]. step. apply IH.
Qed.

(** A loop whose body keeps an invariant and never fails. *)
Lemma foldM_inv {T} (I : T -> Prop) (f : T -> A -> option T) l :
  (forall s x, x ∈ l -> I s -> exists s', f s x = Some s' /\ I s') ->
  forall s, I s -> exists s', foldM f l s = Some s' /\ I s'.
Proof.
  induction l as [|x l IH]; intros Hf s Hs; [by exists s|]. cbn [foldM].
  destruct (Hf s x) as (s' & -> & Hs'); [by left|done|]. step. apply IH; [|done].
  intros t y Hy. apply Hf. by right.
Qed.
End Loops.

(** The bytes of a string constant. *)
Definition bytes_of_string (s : string) : list Z :=
  map (fun c => Z.of_N (N_of_ascii c)) (list_ascii_of_string s).

(** strncpy: the [n] characters it writes: up to a NUL, then NULs. *)
Fixpoint strncpy_chars (src : list Z) (n : nat) : option (list Z) :=
  match n, src with
  | O, _ => Some []
  | S _, [] => None
  | S n', c :: src => if c =? 0 then Some (replicate n 0) else l ← strncpy_chars src n'; Some (c :: l)
  end.

Definition strncpy (dst src : list Z) (n : Z) : option (list Z) :=
  l ← strncpy_chars src (Z.to_nat n); wrs dst 0 l.

Lemma strncpy_chars_spec n : forall src, (n <= length src)%nat -> exists l, strncpy_chars src n = Some l /\ length l = n.
Proof.
  induction n as [|n IH]; intros src Hl; [by exists []; destruct src|]. destruct src as [|c src]; [cbn in Hl; lia|]. cbn [strncpy_chars].
  destruct (c =? 0); [eexists; split; [done|by rewrite length_replicate]|]. destruct (IH src) as (l & -> & El); [cbn in Hl; lia|]. step.
  eexists. split; [done|]. cbn. lia.
Qed.

Lemma strncpy_spec dst src n : 0 <= n <= len dst -> n <= len src -> exists l, strncpy dst src n = Some l /\ len l = len dst.
Proof.
  intros Hn Hs. unfold strncpy. destruct (strncpy_chars_spec (Z.to_nat n) src) as (l & -> & El); [unfold len in Hs; lia|]. step.
  apply wrs_exists; [lia|]. unfold len in *. lia.
Qed.

(** The digits of a number that is not negative. *)
Definition digit_char (d : Z) : Z := if d <? 10 then 0x30 + d else 0x37 + d.

Fixpoint digits (base : Z) (fuel : nat) (v : Z) : list Z :=
  match fuel with
  | O => []
  | S fuel => if v <? base then [digit_char v] else digits base fuel (v / base) ++ [digit_char (v mod base)]
  end.

(** At least [width] digits, as printf does for [%0<width>]. *)
Definition padded (base : Z) (width : nat) (v : Z) : list Z :=
  let d := digits base 20 v in replicate (width - length d) 0x30 ++ d.

Lemma digits_length base fuel : forall k v, 2 <= base -> 0 <= v < base ^ Z.of_nat (S k) -> (k < fuel)%nat -> (length (digits base fuel v) <= S k)%nat.
Proof.
  induction fuel as [|fuel IH]; intros k v Hb Hv Hk; [lia|]. cbn [digits]. destruct (Z.ltb_spec v base); [cbn; lia|].
  destruct k as [|k]; [change (Z.of_nat 1) with 1 in Hv; rewrite Z.pow_1_r in Hv; lia|]. rewrite (Nat2Z.inj_succ (S k)), Z.pow_succ_r in Hv by lia.
  rewrite length_app. cbn [length]. specialize (IH k (v / base) Hb). assert (0 <= v / base < base ^ Z.of_nat (S k)) by (split; [apply Z.div_pos; lia|apply Z.div_lt_upper_bound; lia]). lia.
Qed.

Lemma padded_length base width v : 2 <= base -> 0 <= v < base ^ Z.of_nat (S width) -> (width < 20)%nat -> length (padded base (S width) v) = S width.
Proof. intros Hb Hv Hw. unfold padded. rewrite length_app, length_replicate. pose proof (digits_length base 20 width v Hb Hv Hw). lia. Qed.
