(* ===== verification/Bits.v ===== *)
(** * Sequences of bits

    The specification language of the two bit readers: a buffer is the
    sequence of its bits, most significant bit of each byte first, and a field
    of [n] bits is a number below 2^n. *)
From Stdlib Require Import ZArith Lia Bool.
From stdpp Require Import base numbers list option.
From S2P Require Import Prelude.

(** The [n] low bits of [v], most significant first. *)
Fixpoint bits_of (n : nat) (v : Z) : list bool :=
  match n with
  | O => []
  | S n' => Z.testbit v (Z.of_nat n') :: bits_of n' v
  end.

Definition byte_bits (b : Z) : list bool := bits_of 8 b.
Definition buf_bits (l : list Z) : list bool := concat (map byte_bits l).

(** The number a sequence of bits denotes. *)
Definition bits_val (l : list bool) : Z := fold_left (fun a b => 2 * a + Z.b2z b) l 0.

(** ** Facts: bit sequences *)

Lemma length_bits_of n v : length (bits_of n v) = n.
Proof. induction n as [|n IH]; [done|]. cbn [bits_of length]. by rewrite IH. Qed.

Lemma bits_of_ext n a b :
  (forall i, 0 <= i < Z.of_nat n -> Z.testbit a i = Z.testbit b i) -> bits_of n a = bits_of n b.
Proof.
  induction n as [|n IH]; intros H; [done|]. cbn [bits_of]. f_equal.
  - apply H. lia.
  - apply IH. intros i Hi. apply H. lia.
Qed.

Lemma bits_of_snoc n v : bits_of (S n) v = bits_of n (Z.shiftr v 1) ++ [Z.testbit v 0].
Proof.
  induction n as [|n IH]; [done|]. cbn [bits_of app] in *. rewrite IH.
  rewrite Z.shiftr_spec by lia. f_equal. f_equal. lia.
Qed.

Lemma length_buf_bits l : length (buf_bits l) = (8 * length l)%nat.
Proof.
  unfold buf_bits. induction l as [|b l IH]; [done|]. cbn [map concat length].
  rewrite length_app, IH. change (length (byte_bits b)) with 8%nat. lia.
Qed.

Lemma buf_bits_app l k : buf_bits (l ++ k) = buf_bits l ++ buf_bits k.
Proof. unfold buf_bits. by rewrite map_app, concat_app. Qed.

Lemma bits_val_acc l : forall a,
  fold_left (fun a b => 2 * a + Z.b2z b) l a = a * 2 ^ Z.of_nat (length l) + bits_val l.
Proof.
  unfold bits_val. induction l as [|b l IH]; intros a; cbn [fold_left length]; [lia|].
  rewrite IH, (IH (2 * 0 + Z.b2z b)), Nat2Z.inj_succ, Z.pow_succ_r by lia. lia.
Qed.

Lemma bits_val_cons b l : bits_val (b :: l) = Z.b2z b * 2 ^ Z.of_nat (length l) + bits_val l.
Proof. unfold bits_val at 1. cbn [fold_left]. rewrite bits_val_acc. lia. Qed.

Lemma bits_val_bits_of n v : bits_val (bits_of n v) = v mod 2 ^ Z.of_nat n.
Proof.
  induction n as [|n IH]; [by rewrite Z.mod_1_r|].
  cbn [bits_of]. rewrite bits_val_cons, IH, length_bits_of, Z.testbit_spec' by lia.
  rewrite Nat2Z.inj_succ, Z.pow_succ_r by lia.
  rewrite (Z.mul_comm 2), Z.rem_mul_r by (try apply Z.pow_nonzero; lia). lia.
Qed.

Lemma bits_val_range l : 0 <= bits_val l < 2 ^ Z.of_nat (length l).
Proof.
  induction l as [|b l IH]; [cbn; lia|]. rewrite bits_val_cons. cbn [length].
  rewrite Nat2Z.inj_succ, Z.pow_succ_r by lia. destruct b; cbn [Z.b2z]; lia.
Qed.

Lemma bits_val_byte b : is_byte b -> bits_val (byte_bits b) = b.
Proof. intros Hb. unfold byte_bits. rewrite bits_val_bits_of. by apply Z.mod_small. Qed.

Lemma u8_testbit x i : 0 <= i -> Z.testbit (u8 x) i = (i <? 8) && Z.testbit x i.
Proof.
  intros Hi. change (u8 x) with (x mod 2 ^ 8). destruct (Z.ltb_spec i 8).
  - by rewrite Z.mod_pow2_bits_low by lia.
  - by rewrite Z.mod_pow2_bits_high by lia.
Qed.

Lemma drop_cons_byte_at p i :
  0 <= i < len p -> drop (Z.to_nat i) p = byte_at p i :: drop (Z.to_nat (i + 1)) p.
Proof.
  unfold len. intros Hi. rewrite (drop_S p (byte_at p i)).
  - f_equal. f_equal. lia.
  - rewrite lookup_byte_at by lia. f_equal. f_equal. lia.
Qed.

(** The bit at position [i] of a buffer. *)
Lemma lookup_byte_bits b i :
  0 <= i < 8 -> byte_bits b !! Z.to_nat i = Some (Z.testbit b (7 - i)).
Proof.
  intros Hi.
  assert (i = 0 \/ i = 1 \/ i = 2 \/ i = 3 \/ i = 4 \/ i = 5 \/ i = 6 \/ i = 7)
    as [->|[->|[->|[->|[->|[->|[->| ->]]]]]]] by lia; reflexivity.
Qed.

Lemma lookup_buf_bits l : forall i,
  0 <= i < 8 * len l ->
  buf_bits l !! Z.to_nat i = Some (Z.testbit (byte_at l (i / 8)) (7 - i mod 8)).
Proof.
  induction l as [|b l IH]; intros i Hi; [unfold len in Hi; cbn in Hi; lia|].
  change (buf_bits (b :: l)) with (byte_bits b ++ buf_bits l). rewrite len_cons in Hi.
  destruct (Z_lt_dec i 8) as [Hlt|Hge].
  - rewrite lookup_app_l by (change (length (byte_bits b)) with 8%nat; lia).
    rewrite lookup_byte_bits, Z.div_small, Z.mod_small by lia. done.
  - rewrite lookup_app_r by (change (length (byte_bits b)) with 8%nat; lia).
    change (length (byte_bits b)) with 8%nat. replace (Z.to_nat i - 8)%nat with (Z.to_nat (i - 8)) by lia.
    rewrite IH by lia. replace (i / 8) with ((i - 8) / 8 + 1) by zlia.
    replace (i mod 8) with ((i - 8) mod 8) by zlia.
    do 2 f_equal. unfold byte_at. rewrite Z2Nat.inj_add by zlia. by rewrite Nat.add_1_r.
Qed.
