(* ===== verification/Ts.v ===== *)
(** * Transport packets: src/libltntstools/ts.h and src/ts.c

    A packet is the list of its bytes.  The inline accessors of ts.h and the
    functions of ts.c that take a [pkt] are called with 188 readable bytes
    (the "Conventions" comment of ts.h); the functions that take a [buf] of
    unaligned data check every access, [None] being undefined behaviour. *)
From Stdlib Require Import ZArith Lia Bool String.
From stdpp Require Import base numbers list option strings pretty.
From S2P Require Import Prelude.

Definition MAX_SCR_VALUE : Z := 2576980377600.
Definition MAX_PTS_VALUE : Z := 8589934591.

(** ** Header accessors *)

Definition ltntstools_sync_present (pkt : list Z) : Z := Z.b2z (byte_at pkt 0 =? 0x47).

Definition ltntstools_tei_set (pkt : list Z) : Z :=
  if Z.land (byte_at pkt 1) 0x80 =? 0 then 0 else 1.

Definition ltntstools_payload_unit_start_indicator (pkt : list Z) : Z :=
  if Z.land (byte_at pkt 1) 0x40 =? 0 then 0 else 1.

Definition ltntstools_transport_priority (pkt : list Z) : Z :=
  if Z.land (byte_at pkt 1) 0x20 =? 0 then 0 else 1.

Definition ltntstools_pid (pkt : list Z) : Z :=
  let pid := u16 (Z.lor (Z.shiftl (byte_at pkt 1) 8) (byte_at pkt 2)) in
  Z.land pid 0x1fff.

Definition ltntstools_transport_scrambling_control (pkt : list Z) : Z :=
  Z.shiftr (byte_at pkt 3) 6.

Definition ltntstools_adaption_field_control (pkt : list Z) : Z :=
  Z.land (Z.shiftr (byte_at pkt 3) 4) 0x03.

Definition ltntstools_has_adaption (pkt : list Z) : Z :=
  let v := Z.land (Z.shiftr (byte_at pkt 3) 4) 0x03 in
  if (v =? 2) || (v =? 3) then 1 else 0.

Definition ltntstools_adaption_field_length (pkt : list Z) : Z := byte_at pkt 4.

Definition ltntstools_continuity_counter (pkt : list Z) : Z := Z.land (byte_at pkt 3) 0x0f.

(** ** Clock arithmetic *)

Definition ltntstools_scr_diff (from to : Z) : Z :=
  if (to <? from) && (to <? 5 * 27000000)
  then i64 (i64 (MAX_SCR_VALUE - from) + to)
  else i64 (to - from).

Definition ltntstools_scr_add (scr ticks : Z) : Z :=
  let clock := i64 (scr + ticks) in
  if MAX_SCR_VALUE <? clock then clock - MAX_SCR_VALUE
  else if clock <? 0 then clock + MAX_SCR_VALUE
  else clock.

Definition ltntstools_pts_diff (from to : Z) : Z :=
  if to <? from then i64 (i64 (MAX_PTS_VALUE - from) + to) else i64 (to - from).

(** ** The PCR field *)

Definition ltntstools_pcrToScr (ptr : list Z) : Z :=
  let pcr_base := Z.shiftl (byte_at ptr 0) 25 in
  let pcr_base := Z.lor pcr_base (Z.shiftl (byte_at ptr 1) 17) in
  let pcr_base := Z.lor pcr_base (Z.shiftl (byte_at ptr 2) 9) in
  let pcr_base := Z.lor pcr_base (Z.shiftl (byte_at ptr 3) 1) in
  let pcr_base := Z.lor pcr_base (Z.shiftr (byte_at ptr 4) 7) in
  let pcr_base := Z.land pcr_base 0x1ffffffff in
  let pcr_ext := Z.shiftl (byte_at ptr 4) 8 in
  let pcr_ext := Z.lor pcr_ext (byte_at ptr 5) in
  let pcr_ext := Z.land pcr_ext 0x1ff in
  u64 (pcr_base * 300 + pcr_ext).

(** [None] is the return value -1, [Some scr] the return value 0 with [*scr]
    written. *)
Definition ltntstools_scr (pkt : list Z) : option Z :=
  if ltntstools_sync_present pkt =? 0 then None else
  if ltntstools_adaption_field_control pkt <? 2 then None else
  let adaption_field_length := byte_at pkt 4 in
  if adaption_field_length =? 0 then None else
  if Z.land (byte_at pkt 5) 0x10 =? 0 then None else
  Some (ltntstools_pcrToScr (drop 6 pkt)).

(** The number of bytes [ltntstools_scr] reads from [pkt], by its early
    returns. *)
Definition scr_extent (pkt : list Z) : Z :=
  if ltntstools_sync_present pkt =? 0 then 1 else
  if ltntstools_adaption_field_control pkt <? 2 then 4 else
  if byte_at pkt 4 =? 0 then 5 else
  if Z.land (byte_at pkt 5) 0x10 =? 0 then 6 else 12.

(** [dst + off] is the destination pointer; the length argument of the C
    function is not used by its body. *)
Definition ltntstools_pcr_packTo (dst : list Z) (off pcr : Z) : option (list Z) :=
  let base := pcr / 300 in
  let ext := pcr mod 300 in
  dst ← wr dst (off + 0) (u8 (Z.shiftr base 25));
  dst ← wr dst (off + 1) (u8 (Z.shiftr base 17));
  dst ← wr dst (off + 2) (u8 (Z.shiftr base 9));
  dst ← wr dst (off + 3) (u8 (Z.shiftr base 1));
  dst ← wr dst (off + 4) (u8 (u64 (Z.shiftl base 7)));
  v ← rd dst (off + 4);
  dst ← wr dst (off + 4) (u8 (Z.lor v 0x7e));
  v ← rd dst (off + 4);
  dst ← wr dst (off + 4) (u8 (Z.lor v (Z.shiftr (Z.land ext 0x100) 8)));
  wr dst (off + 5) (u8 ext).

(** ** Generated packets

    A pointer argument that may be NULL is an [option].  The result holds the
    return value, the buffer and the continuity counter. *)

Definition ltntstools_generatePCROnlyPacket (pkt : option (list Z)) (lengthBytes pid : Z)
    (cc : option Z) (pcr : Z) : option (Z * option (list Z) * option Z) :=
  match pkt, cc with
  | Some p, Some c =>
      if lengthBytes <? 188 then Some (-1, pkt, cc) else
      p ← memset p 0 0xff 188;
      p ← wr p 0 0x47;
      p ← wr p 1 (Z.shiftr (Z.land pid 0x1fff) 8);
      p ← wr p 2 (u8 pid);
      p ← wr p 3 (Z.lor 0x20 (Z.land c 0x0f));
      p ← wr p 4 183;
      p ← wr p 5 0x10;
      p ← ltntstools_pcr_packTo p 6 pcr;
      Some (0, Some p, Some (u8 (c + 1)))
  | _, _ => Some (-1, pkt, cc)
  end.

Definition ltntstools_generateNullPacket (pkt : list Z) : option (list Z) :=
  p ← memset pkt 0 0xff 188;
  p ← wr p 0 0x47;
  p ← wr p 1 0x1f;
  p ← wr p 2 0xff;
  wr p 3 0x10.

(** The header and counter bytes written by both the generate and the update
    function (the two bodies repeat them). *)
Definition write64bCounter (p : list Z) (pid c counter : Z) : option (list Z) :=
  p ← wr p 0 0x47;
  p ← wr p 1 (Z.shiftr (Z.land pid 0x1fff) 8);
  p ← wr p 2 (u8 pid);
  p ← wr p 3 (Z.lor 0x10 (Z.land c 0x0f));
  p ← wr p 8 (u8 (Z.shiftr counter 56));
  p ← wr p 9 (u8 (Z.shiftr counter 48));
  p ← wr p 10 (u8 (Z.shiftr counter 40));
  p ← wr p 11 (u8 (Z.shiftr counter 32));
  p ← wr p 12 (u8 (Z.shiftr counter 24));
  p ← wr p 13 (u8 (Z.shiftr counter 16));
  p ← wr p 14 (u8 (Z.shiftr counter 8));
  wr p 15 (u8 counter).

Definition ltntstools_updatePacketWith64bCounter (pkt : option (list Z)) (lengthBytes pid : Z)
    (cc : option Z) (counter : Z) : option (Z * option (list Z) * option Z) :=
  match pkt, cc with
  | Some p, Some c =>
      if lengthBytes <? 188 then Some (-1, pkt, cc) else
      p ← write64bCounter p pid c counter;
      Some (0, Some p, Some (u8 (c + 1)))
  | _, _ => Some (-1, pkt, cc)
  end.

Definition ltntstools_generatePacketWith64bCounter (pkt : option (list Z)) (lengthBytes pid : Z)
    (cc : option Z) (counter : Z) : option (Z * option (list Z) * option Z) :=
  match pkt, cc with
  | Some p, Some c =>
      if lengthBytes <? 188 then Some (-1, pkt, cc) else
      p ← memset p 0 0xff 188;
      p ← write64bCounter p pid c counter;
      Some (0, Some p, Some (u8 (c + 1)))
  | _, _ => Some (-1, pkt, cc)
  end.

(** The file-scope array [verifyPacket] is filled on first use. *)
Definition verifyPacket_init : list Z := replicate 188 0.

(** [verify] is the value of the static array before the call; the result is
    the return value, the array after the call and [*currentCounter], [None]
    when the call does not write it. *)
Definition ltntstools_verifyPacketWith64bCounter (verify : list Z) (pkt : option (list Z))
    (lengthBytes pid lastCounter : Z) : option (Z * list Z * option Z) :=
  match pkt with
  | None => Some (-1, verify, None)
  | Some p =>
      if lengthBytes <? 188 then Some (-1, verify, None) else
      verify ← (if byte_at verify 0 =? 0 then memset verify 0 0xff 188 else Some verify);
      b0 ← rd p 0;
      if negb (b0 =? 0x47) then Some (-1, verify, None) else
      b1 ← rd p 1;
      if negb (b1 =? Z.shiftr (Z.land pid 0x1fff) 8) then Some (-1, verify, None) else
      b2 ← rd p 2;
      if negb (b2 =? pid) then Some (-1, verify, None) else
      b3 ← rd p 3;
      if negb (Z.land b3 0xf0 =? 0x10) then Some (-1, verify, None) else
      c8 ← rd p 8; c9 ← rd p 9; c10 ← rd p 10; c11 ← rd p 11;
      c12 ← rd p 12; c13 ← rd p 13; c14 ← rd p 14; c15 ← rd p 15;
      let cur := Z.shiftl c8 56 in
      let cur := Z.lor cur (Z.shiftl c9 48) in
      let cur := Z.lor cur (Z.shiftl c10 40) in
      let cur := Z.lor cur (Z.shiftl c11 32) in
      let cur := Z.lor cur (Z.shiftl c12 24) in
      let cur := Z.lor cur (Z.shiftl c13 16) in
      let cur := Z.lor cur (Z.shiftl c14 8) in
      let cur := Z.lor cur c15 in
      if negb (u64 (lastCounter + 1) =? cur) then Some (-1, verify, Some cur) else
      x ← rds verify 16 172;
      y ← rds p 16 172;
      if negb (bool_decide (x = y)) then Some (-1, verify, Some cur) else
      Some (0, verify, Some cur)
  end.

(** ** Searching a buffer *)

Definition pes_pattern : list Z := [0x00; 0x00; 0x01].

(** The loop of [ltntstools_contains_pes_header] from index [i], [n] being the
    number of iterations left. *)
Fixpoint contains_pes_header_from (buf : list Z) (i : Z) (n : nat) : option Z :=
  match n with
  | O => Some (-1)
  | S n' =>
      w ← rds buf i 3;
      if bool_decide (w = pes_pattern) then Some i
      else contains_pes_header_from buf (i + 1) n'
  end.

Definition ltntstools_contains_pes_header (buf : list Z) (lengthBytes : Z) : option Z :=
  contains_pes_header_from buf 0 (Z.to_nat (lengthBytes - 3)).

(** The downward loop: [n] iterations left, the next index is [n - 1]. *)
Fixpoint contains_pes_header_reverse_from (buf : list Z) (n : nat) : option Z :=
  match n with
  | O => Some (-1)
  | S n' =>
      w ← rds buf (Z.of_nat n') 3;
      if bool_decide (w = pes_pattern) then Some (Z.of_nat n')
      else contains_pes_header_reverse_from buf n'
  end.

Definition ltntstools_contains_pes_header_reverse (buf : list Z) (lengthBytes : Z) : option Z :=
  contains_pes_header_reverse_from buf (Z.to_nat (lengthBytes - 3 + 1)).

Definition ltntstools_get_section_tableid (pkt : list Z) : option Z :=
  let section_offset := 5 in
  let section_offset :=
    if negb (ltntstools_has_adaption pkt =? 0)
    then section_offset + 1 + ltntstools_adaption_field_length pkt
    else section_offset in
  rd pkt section_offset.

Fixpoint findSyncPosition_from (buf : list Z) (i : Z) (n : nat) : option Z :=
  match n with
  | O => Some (-1)
  | S n' =>
      a ← rd buf i;
      b ← rd buf (i + 1 * 188);
      c ← rd buf (i + 2 * 188);
      if (a =? 0x47) && (b =? 0x47) && (c =? 0x47) then Some i
      else findSyncPosition_from buf (i + 1) n'
  end.

Definition ltntstools_findSyncPosition (buf : list Z) (lengthBytes : Z) : option Z :=
  if lengthBytes <? 3 * 188 then Some (-1) else findSyncPosition_from buf 0 188.

(** ** PCR positions *)

Record pcr_position := { pos_pcr : Z; pos_offset : Z; pos_pid : Z }.

Definition ltntstools_pcr_position_reset : pcr_position :=
  {| pos_pcr := -1; pos_offset := 0; pos_pid := 0 |}.

Definition ltntstools_pcr_position_append (array : list pcr_position) (p : pcr_position)
    : list pcr_position := array ++ [p].

(** The test [pkt[0] == 0x80 && pkt[12] == 0x47], the second byte being read
    only when the first one matches. *)
Definition is_rtp_header (pkt : list Z) : option bool :=
  b0 ← rd pkt 0;
  if b0 =? 0x80 then b12 ← rd pkt 12; Some (b12 =? 0x47) else Some false.

(** [ltntstools_scr] on the unaligned pointer [pkt], every access checked. *)
Definition scr_checked (pkt : list Z) : option (option Z) :=
  if scr_extent pkt <=? len pkt then Some (ltntstools_scr pkt) else None.

(** The loop of [ltntstools_queryPCRs]: [i] is the loop variable, [limit] is
    [lengthBytes - offset] converted to uint64_t, [fuel] bounds the number of
    iterations. *)
Fixpoint queryPCRs_from (fuel : nat) (buf : list Z) (i limit addr : Z)
    (arr : list pcr_position) : option (list pcr_position) :=
  match fuel with
  | O => None
  | S fuel' =>
      if i <? limit then
        let pkt := drop (Z.to_nat i) buf in
        rtp ← is_rtp_header pkt;
        if (rtp : bool) then queryPCRs_from fuel' buf (i + 12 + 188) limit addr arr else
        r ← scr_checked pkt;
        match r with
        | None => queryPCRs_from fuel' buf (i + 188) limit addr arr
        | Some scr =>
            let e := {| pos_pcr := i64 scr; pos_offset := u64 (addr + i);
                        pos_pid := ltntstools_pid pkt |} in
            queryPCRs_from fuel' buf (i + 188) limit addr (arr ++ [e])
        end
      else Some arr
  end.

(** The return value and the array. *)
Definition ltntstools_queryPCRs (buf : list Z) (lengthBytes addr : Z)
    : option (Z * list pcr_position) :=
  offset ← ltntstools_findSyncPosition buf lengthBytes;
  if offset <? 0 then Some (-1, []) else
  arr ← queryPCRs_from (S (Z.to_nat lengthBytes)) buf offset (u64 (lengthBytes - offset)) addr [];
  Some (0, arr).

Fixpoint queryPCR_pid_from (fuel : nat) (buf : list Z) (i limit pcrPID : Z)
    (pos : pcr_position) : option (Z * pcr_position) :=
  match fuel with
  | O => None
  | S fuel' =>
      if i <? limit then
        let pkt := drop (Z.to_nat i) buf in
        rtp ← is_rtp_header pkt;
        if (rtp : bool) then queryPCR_pid_from fuel' buf (i + 12 + 188) limit pcrPID pos else
        if len pkt <? 3 then None else
        if negb (ltntstools_pid pkt =? pcrPID)
        then queryPCR_pid_from fuel' buf (i + 188) limit pcrPID pos else
        r ← scr_checked pkt;
        match r with
        | None => queryPCR_pid_from fuel' buf (i + 188) limit pcrPID pos
        | Some scr => Some (0, {| pos_pcr := i64 scr; pos_offset := i; pos_pid := pcrPID |})
        end
      else Some (-1, pos)
  end.

(** The inner declaration [int offset] shadows the outer one, which stays 0:
    the loop starts at the first byte of the buffer whatever the sync
    position is. *)
Definition ltntstools_queryPCR_pid (buf : list Z) (lengthBytes : Z) (pos : pcr_position)
    (pcrPID pktAligned : Z) : option (Z * pcr_position) :=
  let offset := 0 in
  sync ← (if pktAligned =? 0 then ltntstools_findSyncPosition buf lengthBytes else Some 0);
  if sync <? 0 then Some (-1, pos) else
  queryPCR_pid_from (S (Z.to_nat lengthBytes)) buf offset (u64 (lengthBytes - offset)) pcrPID pos.

(** ** Elementary stream types *)

Definition ltntstools_is_ESPayloadType_Video (esPayloadType : Z) : Z :=
  if bool_decide (esPayloadType ∈
       [0x01; 0x02; 0x1B; 0x21; 0x24; 0x25; 0x27; 0x28; 0x29; 0x2A; 0x33; 0xd2; 0xdb])
  then 1 else 0.

Definition ltntstools_is_ESPayloadType_Audio (esPayloadType : Z) : Z :=
  if bool_decide (esPayloadType ∈ [0x03; 0x04; 0x07; 0x0F; 0x81; 0xC1; 0xC2; 0xCF])
  then 1 else 0.

Open Scope string_scope.

Definition ltntstools_GetESPayloadTypeDescription (esPayloadType : Z) : string :=
  match esPayloadType with
  | 0x00 => "Reserved"
  | 0x01 => "ISO/IEC 11172 Video"
  | 0x02 => "ISO/IEC 13818-2 Video"
  | 0x03 => "ISO/IEC 11172 Audio"
  | 0x04 => "ISO/IEC 13818-3 Audio"
  | 0x05 => "ISO/IEC 13818-1 Private Section"
  | 0x06 => "ISO/IEC 13818-1 Private PES data packets"
  | 0x07 => "ISO/IEC 13522 MHEG"
  | 0x08 => "ISO/IEC 13818-1 Annex A DSM CC"
  | 0x09 => "H222.1"
  | 0x0A => "ISO/IEC 13818-6 type A"
  | 0x0B => "ISO/IEC 13818-6 type B"
  | 0x0C => "ISO/IEC 13818-6 type C"
  | 0x0D => "ISO/IEC 13818-6 type D"
  | 0x0E => "ISO/IEC 13818-1 auxillary"
  | 0x0F => "ISO/IEC 13818-7 Audio with ADTS transport syntax - AAC"
  | 0x10 => "ISO/IEC 14496-2 (MPEG-4) Visual"
  | 0x11 => "ISO/IEC 14496-3 Audio with the LATM transport syntax as defined in ISO/IEC 14496-3 / AMD 1"
  | 0x12 => "ISO/IEC 14496-1 SL-packetized stream or FlexMux stream carried in PES packets"
  | 0x13 => "ISO/IEC 14496-1 SL-packetized stream or FlexMux stream carried in ISO/IEC14496_sections"
  | 0x14 => "ISO/IEC 13818-6 Synchronized Download Protocol"
  | 0x1B => "AVC/H.264 Video"
  | 0x21 => "JPEG 2000"
  | 0x24 => "HEVC/H.265 Video"
  | 0x25 | 0x27 | 0x28 | 0x29 | 0x2A => "HEVC/H.265 Video"
  | 0x32 => "JPEG-XS Video"
  | 0x33 => "VVC/H.266 Video"
  | 0x81 => "ATSC AC-3 Audio"
  | 0xd2 => "AV1 Video"
  | 0xC1 => "ATSC AC-3 Audio (HLS TS Encryption)"
  | 0xC2 => "ATSC EAC-3 Audio (HLS TS Encryption)"
  | 0xCF => "ISO/IEC 13818-7 Audio with ADTS transport syntax (HLS TS Encryption)"
  | 0xdb => "H.264 Video (HLS TS Encryption)"
  | _ => if (esPayloadType <? 0x80)%Z then "ISO/IEC 13818-1 reserved" else "User Private"
  end.

(** ** Time stamps as text *)

(** The [printf] conversion [%0wd] of an int. *)
Definition printf_d (w : nat) (v : Z) : string :=
  let digits := pretty (Z.abs v) in
  let sign := if (v <? 0)%Z then "-" else "" in
  sign ++ String.concat "" (replicate (w - String.length digits - String.length sign)%nat "0") ++ digits.

Record pts_fields := { f_days : Z; f_hrs : Z; f_mins : Z; f_secs : Z; f_ms : Z }.

Definition pts_to_fields (pts : Z) : pts_fields :=
  let t := Z.quot pts 90000 in
  {| f_ms := i32 (Z.rem (Z.quot pts 90) 1000);
     f_secs := i32 (Z.rem t 60);
     f_mins := i32 (Z.rem (Z.quot t 60) 60);
     f_hrs := i32 (Z.rem (Z.quot t 3600) 24);
     f_days := i32 (Z.quot t 86400) |}.

Definition ltntstools_pts_to_ascii (pts : Z) : string :=
  let f := pts_to_fields pts in
  printf_d 0 (f_days f) ++ "." ++ printf_d 2 (f_hrs f) ++ ":" ++ printf_d 2 (f_mins f) ++ ":" ++
  printf_d 2 (f_secs f) ++ "." ++ printf_d 3 (f_ms f).

Definition ltntstools_pcr_to_ascii (pcr : Z) : string :=
  ltntstools_pts_to_ascii (Z.quot pcr 300).

Close Scope string_scope.

(** ** Facts: the PCR field *)

Lemma pcrToScr_arith p : bytes p ->
  ltntstools_pcrToScr p =
  (byte_at p 0 * 33554432 + byte_at p 1 * 131072 + byte_at p 2 * 512 + byte_at p 3 * 2 + byte_at p 4 / 128) * 300
  + ((byte_at p 4 mod 2) * 256 + byte_at p 5).
Proof.
  intros Hp. unfold ltntstools_pcrToScr.
  pose proof (byte_at_is_byte p 0 Hp). pose proof (byte_at_is_byte p 1 Hp).
  pose proof (byte_at_is_byte p 2 Hp). pose proof (byte_at_is_byte p 3 Hp).
  pose proof (byte_at_is_byte p 4 Hp). pose proof (byte_at_is_byte p 5 Hp).
  generalize dependent (byte_at p 0). generalize dependent (byte_at p 1).
  generalize dependent (byte_at p 2). generalize dependent (byte_at p 3).
  generalize dependent (byte_at p 4). generalize dependent (byte_at p 5).
  intros b5 H5 b4 H4 b3 H3 b2 H2 b1 H1 b0 H0. unfold is_byte in *.
  rewrite !Z.shiftl_mul_pow2, !Z.shiftr_div_pow2 by lia.
  rewrite (lor_high_low (b0 * 2 ^ 25) _ 25) by zlia.
  rewrite (lor_high_low (b0 * 2 ^ 25 + _) (b2 * 2 ^ 9) 17) by zlia.
  rewrite (lor_high_low (b0 * 2 ^ 25 + _ + _) (b3 * 2 ^ 1) 9) by zlia.
  rewrite (lor_high_low (b0 * 2 ^ 25 + _ + _ + _) (b4 / 2 ^ 7) 1) by zlia.
  rewrite (lor_high_low (b4 * 2 ^ 8) _ 8) by zlia.
  rewrite (land_ones_mod _ 33), (land_ones_mod _ 9) by done.
  zlia.
Qed.

(** The six bytes of a PCR field. *)
Definition pcr_field (pcr : Z) : list Z :=
  let base := pcr / 300 in let ext := pcr mod 300 in
  [u8 (base / 2 ^ 25); u8 (base / 2 ^ 17); u8 (base / 2 ^ 9); u8 (base / 2);
   (base mod 2) * 128 + 126 + ext / 256; u8 ext].

Lemma packTo_spec dst off pcr : 0 <= pcr -> 0 <= off -> off + 6 <= len dst ->
  ltntstools_pcr_packTo dst off pcr = wrs dst off (pcr_field pcr).
Proof.
  intros Hp Ho Hl. unfold ltntstools_pcr_packTo.
  rewrite wrs_Some by (change (len (pcr_field pcr)) with 6; lia).
  run. f_equal.
  rewrite !(byte_at_set_at _ (off + 4) _ (off + 4)) by llia. rewrite Z.eqb_refl.
  apply bytes_ext.
  - autorewrite with len. change (len (pcr_field pcr)) with 6. rewrite len_take, len_drop by lia. lia.
  - intros j. autorewrite with len. intros Hj.
    rewrite !byte_at_set_at by llia.
    rewrite byte_at_app, len_take by lia.
    destruct (Z.ltb_spec j off); [by rewrite byte_at_take by lia; zdec|].
    rewrite byte_at_app by lia. change (len (pcr_field pcr)) with 6.
    destruct (Z.ltb_spec (j - off) 6).
    2:{ rewrite byte_at_drop by lia. zdec. f_equal; lia. }
    rewrite !Z.shiftr_div_pow2, Z.shiftl_mul_pow2 by lia.
    assert (j = off \/ j = off+1 \/ j = off+2 \/ j = off+3 \/ j = off+4 \/ j = off+5) as C by lia.
    destruct C as [-> | [-> | [-> | [-> | [-> | ->]]]]]; zdec.
    all: unfold pcr_field.
    + by rewrite Z.sub_diag.
    + by replace (off + 1 - off) with 1 by lia.
    + by replace (off + 2 - off) with 2 by lia.
    + by replace (off + 3 - off) with 3 by lia.
    + replace (off + 4 - off) with 4 by lia. cbn.
      change 256 with (2 ^ 8) at 1. rewrite land_bit by lia.
      rewrite (lor_high_low (u8 (u64 (pcr / 300 * 2 ^ 7))) 126 7) by zlia.
      rewrite (lor_high_low _ _ 1); [change (Z.to_nat 4) with 4%nat; cbv iota|..]; zlia.
    + by replace (off + 5 - off) with 5 by lia.
Qed.

Lemma pcr_field_bytes pcr : 0 <= pcr -> bytes (pcr_field pcr).
Proof. intros. unfold pcr_field. repeat constructor; zlia. Qed.

Lemma base33_digits base :
  u8 (base / 2 ^ 25) * 33554432 + u8 (base / 2 ^ 17) * 131072 + u8 (base / 2 ^ 9) * 512
  + u8 (base / 2) * 2 + base mod 2 = base mod 2 ^ 33.
Proof. zlia. Qed.

Lemma pcr_split pcr : pcr mod MAX_SCR_VALUE = (pcr / 300) mod 2 ^ 33 * 300 + pcr mod 300.
Proof. unfold MAX_SCR_VALUE. zlia. Qed.

(** Decoding the six bytes gives the value back, modulo the range of a
    33-bit base and a 300-valued extension. *)
Lemma pcrToScr_field pcr rest :
  0 <= pcr -> bytes rest ->
  ltntstools_pcrToScr (pcr_field pcr ++ rest) = pcr mod MAX_SCR_VALUE.
Proof.
  intros Hp Hr. rewrite pcrToScr_arith.
  - unfold pcr_field. byte_idx. rewrite pcr_split, <- base33_digits. zlia.
  - apply bytes_app. split; [by apply pcr_field_bytes|done].
Qed.

(** packing any 64-bit PCR into the adaption field of a buffer and
    parsing the six bytes back yields the PCR modulo 2^33 * 300 (the wrap of
    the 27 MHz clock), and no other byte of the buffer changes. *)
Theorem pcr_packTo_roundtrip dst off pcr :
  bytes dst -> 0 <= off -> off + 6 <= len dst -> 0 <= pcr < 2 ^ 64 ->
  exists dst',
    ltntstools_pcr_packTo dst off pcr = Some dst' /\
    ltntstools_pcrToScr (drop (Z.to_nat off) dst') = pcr mod MAX_SCR_VALUE /\
    len dst' = len dst /\
    (forall j, 0 <= j -> j < off \/ off + 6 <= j -> byte_at dst' j = byte_at dst j).
Proof.
  intros Hb Ho Hl Hp. rewrite packTo_spec by lia.
  assert (Hw := wrs_Some dst off (pcr_field pcr) Ho Hl).
  eexists. split; [exact Hw|]. split; [|split].
  - erewrite drop_wrs by exact Hw. apply pcrToScr_field; [lia|by apply bytes_drop].
  - by eapply wrs_len.
  - intros j Hj0 Hj. rewrite byte_at_app, len_take by lia.
    destruct (Z.ltb_spec j off); [by rewrite byte_at_take by lia|].
    rewrite byte_at_app by lia. change (len (pcr_field pcr)) with 6. zdec.
    rewrite byte_at_drop by lia. f_equal. lia.
Qed.

Lemma pcr_packTo_roundtrip_witness :
  exists dst',
    ltntstools_pcr_packTo (replicate 188 7) 6 2576980377601 = Some dst' /\
    ltntstools_pcrToScr (drop (Z.to_nat 6) dst') = 1.
Proof.
  destruct (pcr_packTo_roundtrip (replicate 188 7) 6 2576980377601) as (d & H1 & H2 & _).
  - apply Forall_replicate. unfold is_byte. lia.
  - lia.
  - vm_compute. discriminate.
  - lia.
  - exists d. split; [exact H1|exact H2].
Defined.

(** ** Facts: generated packets *)

(** A null-free call of the PCR packet generator writes this packet. *)
Lemma generatePCROnly_form p lengthBytes pid c pcr :
  188 <= len p -> 188 <= lengthBytes -> 0 <= pcr ->
  ltntstools_generatePCROnlyPacket (Some p) lengthBytes pid (Some c) pcr =
  Some (0, Some ([0x47; Z.shiftr (Z.land pid 0x1fff) 8; u8 pid; Z.lor 0x20 (Z.land c 0x0f); 183; 0x10]
                 ++ pcr_field pcr ++ replicate 176 255 ++ drop 188 p), Some (u8 (c + 1))).
Proof.
  intros Hl Hlb Hp. unfold ltntstools_generatePCROnlyPacket. zdec.
  rewrite memset_prefix by lia. step. change (Z.to_nat 188) with 188%nat.
  assert (Hlen : 188 <= len (replicate 188 255 ++ drop 188 p)).
  { rewrite len_app. change (len (replicate 188 255)) with 188. pose proof (len_nonneg (drop 188 p)). lia. }
  generalize dependent (drop 188 p). intros t Hlen. run.
  rewrite packTo_spec by llia. rewrite wrs_Some; [reflexivity|lia|].
  change (len (pcr_field pcr)) with 6. llia.
Qed.

(** The pid bytes written by the generators read back as the masked pid. *)
Lemma pid_read_back pid b0 rest :
  0 <= pid ->
  ltntstools_pid (b0 :: Z.shiftr (Z.land pid 0x1fff) 8 :: u8 pid :: rest) = Z.land pid 0x1fff.
Proof.
  intros Hp. unfold ltntstools_pid. byte_idx.
  rewrite !(land_ones_mod _ 13 0x1fff) by done.
  rewrite !Z.shiftl_mul_pow2, !Z.shiftr_div_pow2 by lia.
  rewrite (lor_high_low _ _ 8) by zlia. zlia.
Qed.

Lemma low_nibble c : Z.land c 0x0f = c mod 16.
Proof. by rewrite (land_ones_mod _ 4). Qed.

Lemma high_nibble b : is_byte b -> Z.land b 0xf0 = b - b mod 16.
Proof.
  intros Hb. apply Z.eqb_eq.
  by apply (forall_byte (fun b => Z.land b 0xf0 =? b - b mod 16)).
Qed.

(** a packet produced by the PCR packet generator is read back by the
    accessors of ts.h: sync byte, pid, adaption field only, the caller's
    continuity counter and the PCR; the counter of the caller advances by one
    and bytes after the packet are untouched. *)
Theorem generatePCROnlyPacket_reads_back p lengthBytes pid c pcr :
  bytes p -> 188 <= lengthBytes -> 188 <= len p -> 0 <= pid < 65536 -> is_byte c ->
  0 <= pcr < 2 ^ 64 ->
  exists p',
    ltntstools_generatePCROnlyPacket (Some p) lengthBytes pid (Some c) pcr
      = Some (0, Some p', Some (u8 (c + 1))) /\
    len p' = len p /\ drop 188 p' = drop 188 p /\
    ltntstools_sync_present p' = 1 /\ ltntstools_pid p' = Z.land pid 0x1fff /\
    ltntstools_payload_unit_start_indicator p' = 0 /\
    ltntstools_adaption_field_control p' = 2 /\
    ltntstools_continuity_counter p' = c mod 16 /\
    ltntstools_scr p' = Some (pcr mod MAX_SCR_VALUE).
Proof.
  intros Hb Hlb Hl Hpid Hc Hpcr. rewrite generatePCROnly_form by lia.
  eexists. split; [reflexivity|]. split; [|split; [reflexivity|]].
  - autorewrite with len. change (len (pcr_field pcr)) with 6.
    change (len (replicate 176 255)) with 176.
    change 188%nat with (Z.to_nat 188). rewrite len_drop by lia. lia.
  - assert (Hcc : 0 <= c mod 16 < 16) by (apply Z.mod_pos_bound; lia).
    rewrite low_nibble. revert Hcc. generalize (c mod 16). intros n Hn.
    assert (Hn' : Z.lor 0x20 n = 32 + n) by (by rewrite (lor_high_low _ _ 4) by zlia).
    split; [done|]. split; [apply pid_read_back; lia|].
    unfold ltntstools_payload_unit_start_indicator, ltntstools_adaption_field_control,
      ltntstools_continuity_counter, ltntstools_scr, ltntstools_adaption_field_control.
    byte_idx. rewrite Hn'.
    assert (Hafc : Z.land (Z.shiftr (32 + n) 4) 3 = 2).
    { rewrite (land_ones_mod _ 2), Z.shiftr_div_pow2 by done. zlia. }
    rewrite Hafc. split; [|split; [done|split]].
    + change 0x40 with (2 ^ 6). rewrite land_bit by lia.
      rewrite (land_ones_mod _ 13), Z.shiftr_div_pow2 by done. rewrite (proj2 (Z.eqb_eq _ _)); [done|zlia].
    + rewrite low_nibble. zlia.
    + cbn [Z.b2z ltntstools_sync_present]. f_equal. apply pcrToScr_field; [lia|].
      apply bytes_app. split; [apply Forall_replicate; unfold is_byte; lia|by apply Forall_drop].
Qed.

Lemma generatePCROnlyPacket_reads_back_witness :
  exists p',
    ltntstools_generatePCROnlyPacket (Some (replicate 188 0)) 188 0x131 (Some 255) 27000000
      = Some (0, Some p', Some 0) /\ ltntstools_scr p' = Some 27000000.
Proof.
  destruct (generatePCROnlyPacket_reads_back (replicate 188 0) 188 0x131 255 27000000)
    as (p' & H & _ & _ & _ & _ & _ & _ & _ & Hs).
  - apply Forall_replicate. unfold is_byte. lia.
  - lia.
  - vm_compute. discriminate.
  - lia.
  - unfold is_byte. lia.
  - lia.
  - exists p'. split; [exact H|exact Hs].
Defined.

(** ** Facts: the 64-bit counter packets *)

Definition counter_bytes (counter : Z) : list Z :=
  [u8 (Z.shiftr counter 56); u8 (Z.shiftr counter 48); u8 (Z.shiftr counter 40);
   u8 (Z.shiftr counter 32); u8 (Z.shiftr counter 24); u8 (Z.shiftr counter 16);
   u8 (Z.shiftr counter 8); u8 counter].

Definition counter_header (pid c : Z) : list Z :=
  [0x47; Z.shiftr (Z.land pid 0x1fff) 8; u8 pid; Z.lor 0x10 (Z.land c 0x0f)].

(** The twelve writes replace bytes 0..3 and 8..15. *)
Lemma write64_form x0 x1 x2 x3 m x8 x9 x10 x11 x12 x13 x14 x15 t pid c counter :
  length m = 4%nat ->
  write64bCounter ([x0; x1; x2; x3] ++ m ++ [x8; x9; x10; x11; x12; x13; x14; x15] ++ t) pid c counter
  = Some (counter_header pid c ++ m ++ counter_bytes counter ++ t).
Proof.
  intros Hm. destruct m as [|m4 [|m5 [|m6 [|m7 [|]]]]]; try discriminate Hm.
  unfold write64bCounter, counter_bytes. cbn [app].
  pose proof (len_nonneg t). run. reflexivity.
Qed.

Lemma generate64_form p lengthBytes pid c counter :
  188 <= lengthBytes -> 188 <= len p ->
  ltntstools_generatePacketWith64bCounter (Some p) lengthBytes pid (Some c) counter =
  Some (0, Some (counter_header pid c ++ replicate 4 255 ++ counter_bytes counter
                 ++ replicate 172 255 ++ drop 188 p), Some (u8 (c + 1))).
Proof.
  intros Hlb Hl. unfold ltntstools_generatePacketWith64bCounter. zdec.
  rewrite memset_prefix by lia. step. change (Z.to_nat 188) with 188%nat.
  assert (E : replicate 188 255 ++ drop 188 p =
    [255; 255; 255; 255] ++ replicate 4 255 ++ [255; 255; 255; 255; 255; 255; 255; 255]
    ++ (replicate 172 255 ++ drop 188 p)) by reflexivity.
  rewrite E, write64_form by done. reflexivity.
Qed.

(** updating a generated packet in place gives exactly the packet a fresh
    generation with the new counter and continuity counter would give. *)
Theorem update_equiv_generate p lengthBytes pid c counter c' counter' :
  188 <= lengthBytes -> 188 <= len p ->
  (r ← ltntstools_generatePacketWith64bCounter (Some p) lengthBytes pid (Some c) counter;
   ltntstools_updatePacketWith64bCounter r.1.2 lengthBytes pid (Some c') counter')
  = ltntstools_generatePacketWith64bCounter (Some p) lengthBytes pid (Some c') counter'.
Proof.
  intros Hlb Hl. rewrite !generate64_form by lia. step. cbn [fst snd].
  unfold ltntstools_updatePacketWith64bCounter. zdec.
  unfold counter_header at 1, counter_bytes at 1. rewrite write64_form by done. reflexivity.
Qed.

Lemma update_equiv_generate_witness :
  (r ← ltntstools_generatePacketWith64bCounter (Some (replicate 188 0)) 188 0x31 (Some 4) 7;
   ltntstools_updatePacketWith64bCounter r.1.2 188 0x31 (Some 5) 8)
  = ltntstools_generatePacketWith64bCounter (Some (replicate 188 0)) 188 0x31 (Some 5) 8.
Proof. apply (update_equiv_generate (replicate 188 0)); [lia|vm_compute; discriminate]. Defined.

(** Eight big-endian bytes assembled by shifts. *)
Lemma be64_arith b0 b1 b2 b3 b4 b5 b6 b7 :
  is_byte b0 -> is_byte b1 -> is_byte b2 -> is_byte b3 ->
  is_byte b4 -> is_byte b5 -> is_byte b6 -> is_byte b7 ->
  Z.lor (Z.lor (Z.lor (Z.lor (Z.lor (Z.lor (Z.lor (Z.shiftl b0 56) (Z.shiftl b1 48))
    (Z.shiftl b2 40)) (Z.shiftl b3 32)) (Z.shiftl b4 24)) (Z.shiftl b5 16)) (Z.shiftl b6 8)) b7
  = b0 * 2 ^ 56 + b1 * 2 ^ 48 + b2 * 2 ^ 40 + b3 * 2 ^ 32 + b4 * 2 ^ 24 + b5 * 2 ^ 16 + b6 * 2 ^ 8 + b7.
Proof.
  unfold is_byte. intros. rewrite !Z.shiftl_mul_pow2 by lia.
  rewrite (lor_high_low (b0 * 2 ^ 56) _ 56) by zlia.
  rewrite (lor_high_low (b0 * 2 ^ 56 + _) (b2 * 2 ^ 40) 48) by zlia.
  rewrite (lor_high_low (b0 * 2 ^ 56 + _ + _) (b3 * 2 ^ 32) 40) by zlia.
  rewrite (lor_high_low (b0 * 2 ^ 56 + _ + _ + _) (b4 * 2 ^ 24) 32) by zlia.
  rewrite (lor_high_low (b0 * 2 ^ 56 + _ + _ + _ + _) (b5 * 2 ^ 16) 24) by zlia.
  rewrite (lor_high_low (b0 * 2 ^ 56 + _ + _ + _ + _ + _) (b6 * 2 ^ 8) 16) by zlia.
  rewrite (lor_high_low (b0 * 2 ^ 56 + _ + _ + _ + _ + _ + _) b7 8) by zlia.
  done.
Qed.

Lemma be64_digits counter :
  0 <= counter < 2 ^ 64 ->
  u8 (Z.shiftr counter 56) * 2 ^ 56 + u8 (Z.shiftr counter 48) * 2 ^ 48
  + u8 (Z.shiftr counter 40) * 2 ^ 40 + u8 (Z.shiftr counter 32) * 2 ^ 32
  + u8 (Z.shiftr counter 24) * 2 ^ 24 + u8 (Z.shiftr counter 16) * 2 ^ 16
  + u8 (Z.shiftr counter 8) * 2 ^ 8 + u8 counter = counter.
Proof. rewrite !Z.shiftr_div_pow2 by lia. zlia. Qed.

(** The two values the static array can have. *)
Definition verify_state (v : list Z) : Prop :=
  v = verifyPacket_init \/ v = replicate 188 255.

Lemma verify_state_filled v :
  verify_state v ->
  (if byte_at v 0 =? 0 then memset v 0 0xff 188 else Some v) = Some (replicate 188 255).
Proof. intros [-> | ->]; reflexivity. Qed.

(** the verify function accepts a packet made by the generate function
    exactly when its pid argument is below 256: the byte [pkt[2]] is compared
    with the whole 16-bit pid, so no packet of a larger pid ever verifies. *)
Theorem verify_generated_packet v p lengthBytes pid c counter last :
  verify_state v -> 188 <= lengthBytes -> 188 <= len p -> 0 <= pid < 65536 -> is_byte c ->
  0 <= counter < 2 ^ 64 -> u64 (last + 1) = counter ->
  (r ← ltntstools_generatePacketWith64bCounter (Some p) lengthBytes pid (Some c) counter;
   ltntstools_verifyPacketWith64bCounter v r.1.2 lengthBytes pid last)
  = Some (if pid <? 256 then 0 else -1, replicate 188 255,
          if pid <? 256 then Some counter else None).
Proof.
  intros Hv Hlb Hl Hpid Hc Hct Hlast. rewrite generate64_form by lia. step. cbn [fst snd].
  unfold ltntstools_verifyPacketWith64bCounter. zdec. rewrite verify_state_filled by done. step.
  unfold counter_header, counter_bytes. change (replicate 4 255) with [255; 255; 255; 255].
  cbn [app]. pose proof (len_nonneg (drop 188 p)).
  rewrite !rd_Some by (autorewrite with len; change (len (replicate 172 255)) with 172; lia).
  byte_idx. step. rewrite Z.eqb_refl. cbn [negb]. rewrite Z.eqb_refl. cbn [negb].
  destruct (Z.ltb_spec pid 256).
  2: { rewrite (proj2 (Z.eqb_neq (u8 pid) pid)) by zlia. done. }
  rewrite u8_id, Z.eqb_refl by lia. cbn [negb].
  assert (Hn : Z.lor 16 (Z.land c 15) = 16 + c mod 16).
  { rewrite low_nibble. by rewrite (lor_high_low _ _ 4) by zlia. }
  rewrite Hn. clear Hn.
  assert (Hn : Z.land (16 + c mod 16) 0xf0 = 16).
  { assert (0 <= c mod 16 < 16) as Hr by (apply Z.mod_pos_bound; lia). revert Hr.
    generalize (c mod 16). intros n Hn. rewrite high_nibble by (unfold is_byte; lia). zlia. }
  rewrite Hn. cbn [Z.eqb Pos.eqb negb].
  rewrite be64_arith by apply u8_is_byte. rewrite be64_digits by lia.
  rewrite Hlast, Z.eqb_refl. cbn [negb].
  rewrite (rds_Some (replicate 188 255)) by (change (len (replicate 188 255)) with 188; lia). step.
  rewrite rds_Some by (autorewrite with len; change (len (replicate 172 255)) with 172; lia).
  step. reflexivity.
Qed.

Lemma verify_generated_packet_witness :
  (r ← ltntstools_generatePacketWith64bCounter (Some (replicate 188 0)) 188 0x131 (Some 4) 0;
   ltntstools_verifyPacketWith64bCounter verifyPacket_init r.1.2 188 0x131 (2 ^ 64 - 1))
  = Some (-1, replicate 188 255, None).
Proof.
  apply (verify_generated_packet verifyPacket_init (replicate 188 0) 188 0x131 4 0 (2 ^ 64 - 1)).
  - by left.
  - lia.
  - vm_compute. discriminate.
  - lia.
  - unfold is_byte. lia.
  - lia.
  - reflexivity.
Defined.

(** ** Facts: searching *)

(** The start code prefix at index [i]. *)
Definition pes_at (buf : list Z) (i : Z) : Prop := rds buf i 3 = Some pes_pattern.

Lemma contains_pes_header_from_spec buf n : forall i,
  0 <= i -> i + Z.of_nat n + 2 <= len buf ->
  exists r, contains_pes_header_from buf i n = Some r /\
    ((r = -1 /\ forall j, i <= j < i + Z.of_nat n -> ~ pes_at buf j) \/
     (i <= r < i + Z.of_nat n /\ pes_at buf r /\ forall j, i <= j < r -> ~ pes_at buf j)).
Proof.
  induction n as [|n IH]; intros i Hi Hl; cbn [contains_pes_header_from].
  - exists (-1). split; [done|]. left. split; [done|]. lia.
  - assert (Hr := rds_Some buf i 3 ltac:(lia) ltac:(lia) ltac:(lia)). rewrite Hr. step.
    case_bool_decide as Hm.
    + exists i. split; [done|]. right. unfold pes_at. rewrite Hr, Hm. split; [lia|].
      split; [done|]. lia.
    + assert (Hn : ~ pes_at buf i) by (unfold pes_at; rewrite Hr; congruence).
      destruct (IH (i + 1) ltac:(lia) ltac:(lia)) as (r & Hr' & Hcase). exists r. split; [done|].
      destruct Hcase as [[-> Hall]|(Hrange & Hat & Hall)]; [left|right].
      * split; [done|]. intros j Hj. destruct (Z.eq_dec j i) as [->|]; [done|]. apply Hall. lia.
      * split; [lia|]. split; [done|]. intros j Hj.
        destruct (Z.eq_dec j i) as [->|]; [done|]. apply Hall. lia.
Qed.

Lemma contains_pes_header_reverse_from_spec buf n :
  Z.of_nat n + 2 <= len buf ->
  exists r, contains_pes_header_reverse_from buf n = Some r /\
    ((r = -1 /\ forall j, 0 <= j < Z.of_nat n -> ~ pes_at buf j) \/
     (0 <= r < Z.of_nat n /\ pes_at buf r /\ forall j, r < j < Z.of_nat n -> ~ pes_at buf j)).
Proof.
  induction n as [|n IH]; intros Hl; cbn [contains_pes_header_reverse_from].
  - exists (-1). split; [done|]. left. split; [done|]. lia.
  - assert (Hr := rds_Some buf (Z.of_nat n) 3 ltac:(lia) ltac:(lia) ltac:(lia)). rewrite Hr. step.
    case_bool_decide as Hm.
    + exists (Z.of_nat n). split; [done|]. right. unfold pes_at. rewrite Hr, Hm. split; [lia|].
      split; [done|]. lia.
    + assert (Hn : ~ pes_at buf (Z.of_nat n)) by (unfold pes_at; rewrite Hr; congruence).
      destruct (IH ltac:(lia)) as (r & Hr' & Hcase). exists r. split; [done|].
      destruct Hcase as [[-> Hall]|(Hrange & Hat & Hall)]; [left|right].
      * split; [done|]. intros j Hj.
        destruct (Z.eq_dec j (Z.of_nat n)) as [->|]; [done|]. apply Hall. lia.
      * split; [lia|]. split; [done|]. intros j Hj.
        destruct (Z.eq_dec j (Z.of_nat n)) as [->|]; [done|]. apply Hall. lia.
Qed.

(** both searches stay inside the buffer and terminate; the forward search
    returns the first start code at an index below [lengthBytes - 3], the
    reverse search the last one at an index up to and including
    [lengthBytes - 3], and -1 when there is none in that range. *)
Theorem pes_header_search_spec buf lengthBytes :
  3 <= lengthBytes <= len buf ->
  (exists r, ltntstools_contains_pes_header buf lengthBytes = Some r /\
    ((r = -1 /\ forall j, 0 <= j < lengthBytes - 3 -> ~ pes_at buf j) \/
     (0 <= r < lengthBytes - 3 /\ pes_at buf r /\ forall j, 0 <= j < r -> ~ pes_at buf j))) /\
  (exists r, ltntstools_contains_pes_header_reverse buf lengthBytes = Some r /\
    ((r = -1 /\ forall j, 0 <= j <= lengthBytes - 3 -> ~ pes_at buf j) \/
     (0 <= r <= lengthBytes - 3 /\ pes_at buf r /\
      forall j, r < j <= lengthBytes - 3 -> ~ pes_at buf j))).
Proof.
  intros Hl. split.
  - destruct (contains_pes_header_from_spec buf (Z.to_nat (lengthBytes - 3)) 0) as (r & H & Hc);
      [lia|lia|]. exists r. split; [done|]. rewrite Z2Nat.id in Hc by lia. by rewrite Z.add_0_l in Hc.
  - destruct (contains_pes_header_reverse_from_spec buf (Z.to_nat (lengthBytes - 3 + 1)))
      as (r & H & Hc); [lia|]. exists r. split; [done|]. rewrite Z2Nat.id in Hc by lia.
    destruct Hc as [[-> Hall]|(Hr & Hat & Hall)]; [left|right].
    + split; [done|]. intros j Hj. apply Hall. lia.
    + split; [lia|]. split; [done|]. intros j Hj. apply Hall. lia.
Qed.

(** The two searches differ on a buffer that ends with a start code. *)
Lemma pes_header_search_spec_witness :
  let buf := [0xff; 0; 0; 1] in
  ltntstools_contains_pes_header buf 4 = Some (-1) /\
  ltntstools_contains_pes_header_reverse buf 4 = Some 1 /\
  exists r, ltntstools_contains_pes_header_reverse buf 4 = Some r /\ pes_at buf r.
Proof.
  intros buf. split; [reflexivity|]. split; [reflexivity|].
  destruct (pes_header_search_spec buf 4) as [_ (r & Hr & [[-> _]|(_ & Hat & _)])].
  - split; [lia|]. vm_compute. discriminate.
  - vm_compute in Hr. discriminate Hr.
  - exists r. split; [exact Hr|exact Hat].
Defined.

(** ** Facts: PCR positions *)

(** A well-formed packet: 188 bytes starting with the sync byte. *)
Definition ts_packet (p : list Z) : Prop := len p = 188 /\ bytes p /\ byte_at p 0 = 0x47.

(** The PCRs of consecutive packets, the first one at byte [i]: what the query
    functions are meant to compute on aligned data. *)
Fixpoint pcrs_of (pkts : list (list Z)) (i addr : Z) : list pcr_position :=
  match pkts with
  | [] => []
  | p :: ps =>
      match ltntstools_scr p with
      | Some scr => [{| pos_pcr := scr; pos_offset := u64 (addr + i); pos_pid := ltntstools_pid p |}]
      | None => []
      end ++ pcrs_of ps (i + 188) addr
  end.

Lemma byte_at_prefix p r k : len p = 188 -> 0 <= k < 188 -> byte_at (p ++ r) k = byte_at p k.
Proof. intros Hl Hk. rewrite byte_at_app by lia. by zdec. Qed.

(** The accessors look at the first twelve bytes only. *)
Section Prefix.
Context (p r : list Z) (Hp : len p = 188).

Lemma pid_prefix : ltntstools_pid (p ++ r) = ltntstools_pid p.
Proof. unfold ltntstools_pid. by rewrite !byte_at_prefix by lia. Qed.

Lemma pcrToScr_prefix :
  ltntstools_pcrToScr (drop 6 (p ++ r)) = ltntstools_pcrToScr (drop 6 p).
Proof.
  unfold ltntstools_pcrToScr. change 6%nat with (Z.to_nat 6).
  rewrite !byte_at_drop, !byte_at_prefix by lia. done.
Qed.

Lemma scr_prefix : ltntstools_scr (p ++ r) = ltntstools_scr p.
Proof.
  unfold ltntstools_scr, ltntstools_sync_present, ltntstools_adaption_field_control.
  by rewrite !byte_at_prefix, pcrToScr_prefix by lia.
Qed.

Lemma scr_checked_prefix : scr_checked (p ++ r) = Some (ltntstools_scr p).
Proof.
  unfold scr_checked. rewrite scr_prefix.
  destruct (Z.leb_spec (scr_extent (p ++ r)) (len (p ++ r))) as [|Hlt]; [done|exfalso].
  revert Hlt. rewrite len_app, Hp. pose proof (len_nonneg r).
  unfold scr_extent. repeat case_match; lia.
Qed.

Lemma is_rtp_prefix : byte_at p 0 = 0x47 -> is_rtp_header (p ++ r) = Some false.
Proof.
  intros H0. unfold is_rtp_header. rewrite (rd_Some _ 0) by (rewrite len_app, Hp; pose proof (len_nonneg r); lia).
  step. by rewrite byte_at_prefix, H0 by lia.
Qed.
End Prefix.

Lemma pcrToScr_range ptr : 0 <= ltntstools_pcrToScr ptr < 2 ^ 42.
Proof.
  unfold ltntstools_pcrToScr. rewrite !(land_ones_mod _ 33), !(land_ones_mod _ 9) by done. zlia.
Qed.

Lemma scr_range p v : ltntstools_scr p = Some v -> 0 <= v < 2 ^ 42.
Proof.
  unfold ltntstools_scr. repeat case_match; try done. intros [= <-]. apply pcrToScr_range.
Qed.

(** The scanning loop over the packets [todo] that start at byte [i] of a buffer
    that holds [rest] after them. *)
Lemma queryPCRs_from_aligned addr rest todo : Forall ts_packet todo -> forall fuel done_ arr i limit,
  i = len done_ -> limit = i + len (concat todo) -> (length todo < fuel)%nat ->
  queryPCRs_from fuel (done_ ++ concat todo ++ rest) i limit addr arr = Some (arr ++ pcrs_of todo i addr).
Proof.
  induction 1 as [|p ps (Hl & Hb & H0) Hps IH]; intros fuel done_ arr i limit -> -> Hf;
    (destruct fuel as [|fuel]; [cbn [length] in Hf; lia|]); cbn [queryPCRs_from concat pcrs_of].
  - cbn [concat]. rewrite len_nil. zdec. by rewrite app_nil_r.
  - rewrite (len_app p), Hl. pose proof (len_nonneg (concat ps)). pose proof (len_nonneg done_). zdec.
    rewrite drop_len_app, <- app_assoc.
    rewrite is_rtp_prefix by done. step. rewrite scr_checked_prefix by done. step.
    assert (Hstep : forall arr', queryPCRs_from fuel (done_ ++ p ++ concat ps ++ rest) (len done_ + 188)
      (len done_ + (188 + len (concat ps))) addr arr' = Some (arr' ++ pcrs_of ps (len done_ + 188) addr)).
    { intros arr'. rewrite (app_assoc done_ p). apply IH; [llia|llia|cbn [length] in Hf; lia]. }
    destruct (ltntstools_scr p) as [v|] eqn:Hv; rewrite Hstep; [|done].
    apply scr_range in Hv. rewrite i64_id, pid_prefix by lia. by rewrite <- app_assoc.
Qed.

Lemma len_concat_packets pkts : Forall ts_packet pkts -> len (concat pkts) = 188 * len pkts.
Proof.
  induction 1 as [|p ps (Hl & _ & _) _ IH]; [done|]. cbn [concat].
  rewrite len_app, len_cons, IH. lia.
Qed.

Lemma findSync_step buf i n :
  findSyncPosition_from buf i (S n) =
  (a ← rd buf i; b ← rd buf (i + 1 * 188); c ← rd buf (i + 2 * 188);
   if (a =? 0x47) && (b =? 0x47) && (c =? 0x47) then Some i
   else findSyncPosition_from buf (i + 1) n).
Proof. done. Qed.

(** Aligned packets are in sync at index 0. *)
Lemma findSync_aligned pkts rest :
  Forall ts_packet pkts -> 3 <= len pkts ->
  ltntstools_findSyncPosition (concat pkts ++ rest) (len (concat pkts)) = Some 0.
Proof.
  intros Hp Hn. assert (Hlen := len_concat_packets pkts Hp). unfold ltntstools_findSyncPosition. zdec.
  rewrite (findSync_step _ 0 187). pose proof (len_nonneg rest).
  destruct pkts as [|p [|q [|s t]]]; try (autorewrite with len in Hn; lia).
  inversion Hp as [|? ? (L1 & _ & S1) Hp1]; subst. inversion Hp1 as [|? ? (L2 & _ & S2) Hp2]; subst.
  inversion Hp2 as [|? ? (L3 & _ & S3) Hp3]; subst.
  rewrite !rd_Some by llia. step. cbn [concat]. rewrite <- !app_assoc.
  rewrite (byte_at_prefix p) by lia.
  rewrite (byte_at_app p _ (0 + 1 * 188)) by lia. zdec.
  rewrite (byte_at_app p _ (0 + 2 * 188)) by lia. zdec. rewrite L1.
  rewrite (byte_at_prefix q) by lia. rewrite (byte_at_app q) by lia. zdec. rewrite L2.
  change (0 + 1 * 188 - 188) with 0. change (0 + 2 * 188 - 188 - 188) with 0.
  rewrite (byte_at_prefix s) by lia. by rewrite ?S1, S2, S3.
Qed.

(** Three or more packets at the start of a buffer. *)
Lemma queryPCRs_packets pkts rest addr :
  Forall ts_packet pkts -> 3 <= len pkts -> len (concat pkts) < 2 ^ 31 ->
  ltntstools_queryPCRs (concat pkts ++ rest) (len (concat pkts)) addr = Some (0, pcrs_of pkts 0 addr).
Proof.
  intros Hp Hn Hmax. unfold ltntstools_queryPCRs. rewrite findSync_aligned by done. step. zdec.
  assert (Hlen := len_concat_packets pkts Hp). unfold len in Hlen at 2.
  rewrite u64_id by (pose proof (len_nonneg pkts); lia). rewrite Z.sub_0_r.
  change (concat pkts ++ rest) with ([] ++ concat pkts ++ rest). rewrite queryPCRs_from_aligned; done || lia.
Qed.

(** on three or more aligned packets, [ltntstools_queryPCRs] terminates
    without leaving the buffer and returns exactly the PCRs of the packets, in
    order, each with its pid and its byte position. *)
Theorem queryPCRs_aligned pkts addr :
  Forall ts_packet pkts -> 3 <= len pkts -> len (concat pkts) < 2 ^ 31 ->
  ltntstools_queryPCRs (concat pkts) (len (concat pkts)) addr = Some (0, pcrs_of pkts 0 addr).
Proof.
  intros Hp Hn Hmax. rewrite <- (app_nil_r (concat pkts)) at 1. by apply queryPCRs_packets.
Qed.

Lemma gen_packet_ok pid c pcr :
  0 <= pid < 65536 -> is_byte c -> 0 <= pcr -> ts_packet
    ([0x47; Z.shiftr (Z.land pid 0x1fff) 8; u8 pid; Z.lor 0x20 (Z.land c 0x0f); 183; 0x10]
     ++ pcr_field pcr ++ replicate 176 255).
Proof.
  intros Hpid Hc Hp. split; [done|]. split; [|done].
  apply bytes_app. split.
  - rewrite low_nibble, (lor_high_low _ _ 4) by zlia.
    rewrite (land_ones_mod _ 13), Z.shiftr_div_pow2 by done. repeat constructor; zlia.
  - apply bytes_app. split; [by apply pcr_field_bytes|].
    apply Forall_replicate. unfold is_byte. lia.
Qed.

(** A packet of pid 0x100 carrying the given PCR, as the generator makes it. *)
Definition pcr_packet (pcr : Z) : list Z :=
  match ltntstools_generatePCROnlyPacket (Some (replicate 188 0)) 188 0x100 (Some 0) pcr with
  | Some (_, Some p, _) => p
  | _ => []
  end.

Lemma pcr_packet_ok pcr : 0 <= pcr -> ts_packet (pcr_packet pcr).
Proof.
  intros Hp. unfold pcr_packet. rewrite generatePCROnly_form; [|vm_compute; discriminate|lia|done].
  change (drop 188 (replicate 188 0)) with (@nil Z). rewrite app_nil_r.
  apply gen_packet_ok; unfold is_byte; lia.
Qed.

Lemma queryPCRs_aligned_witness :
  ltntstools_queryPCRs (concat [pcr_packet 5; pcr_packet 600; pcr_packet 27000000]) 564 1000 =
  Some (0, [{| pos_pcr := 5; pos_offset := 1000; pos_pid := 0x100 |};
            {| pos_pcr := 600; pos_offset := 1188; pos_pid := 0x100 |};
            {| pos_pcr := 27000000; pos_offset := 1376; pos_pid := 0x100 |}]).
Proof.
  apply (queryPCRs_aligned [pcr_packet 5; pcr_packet 600; pcr_packet 27000000] 1000).
  - repeat apply Forall_cons_2; try apply Forall_nil_2; apply pcr_packet_ok; lia.
  - vm_compute. discriminate.
  - reflexivity.
Defined.

(** An RTP frame: a 12-byte header and the packets of its payload. *)
Definition rtp_frame (pkts : list (list Z)) : list Z := 0x80 :: replicate 11 0 ++ concat pkts.

(** The loop adds 188 to the 12 bytes it skips at an RTP header, so the packet
    behind every header but the first is lost with its PCR: of the four PCRs of
    these two frames only three are returned. *)
Example queryPCRs_loses_packet_after_rtp_header :
  let buf := rtp_frame [pcr_packet 1; pcr_packet 2; pcr_packet 3]
             ++ rtp_frame [pcr_packet 4; pcr_packet 5; pcr_packet 6] in
  option_map (fun r => map pos_pcr r.2) (ltntstools_queryPCRs buf (len buf) 0) = Some [1; 2; 3; 5; 6].
Proof. vm_compute. reflexivity. Qed.

Lemma queryPCR_pid_from_aligned pid pos todo : Forall ts_packet todo -> forall fuel done_ i limit,
  i = len done_ -> limit = i + len (concat todo) -> (length todo < fuel)%nat ->
  i + len (concat todo) < 2 ^ 64 ->
  queryPCR_pid_from fuel (done_ ++ concat todo) i limit pid pos =
  Some match filter (fun e => pos_pid e = pid) (pcrs_of todo i 0) with
       | [] => (-1, pos)
       | e :: _ => (0, e)
       end.
Proof.
  induction 1 as [|p ps (Hl & Hb & H0) Hps IH]; intros fuel done_ i limit -> -> Hf Hmax;
    (destruct fuel as [|fuel]; [cbn [length] in Hf; lia|]);
    cbn [queryPCR_pid_from concat pcrs_of] in *.
  - rewrite len_nil. by zdec.
  - rewrite (len_app p), Hl in *. pose proof (len_nonneg (concat ps)). pose proof (len_nonneg done_). zdec.
    rewrite drop_len_app, is_rtp_prefix by done. step.
    rewrite (len_app p), Hl. zdec. rewrite pid_prefix, scr_checked_prefix by done. step.
    assert (Hstep : queryPCR_pid_from fuel (done_ ++ p ++ concat ps) (len done_ + 188)
      (len done_ + (188 + len (concat ps))) pid pos =
      Some match filter (fun e => pos_pid e = pid) (pcrs_of ps (len done_ + 188) 0) with
           | [] => (-1, pos) | e :: _ => (0, e) end).
    { rewrite (app_assoc done_ p). apply IH; try llia. cbn [length] in Hf. lia. }
    rewrite Hstep. destruct (ltntstools_scr p) as [v|] eqn:Hv; cbn [app].
    + rewrite filter_cons. cbn [pos_pid]. apply scr_range in Hv.
      destruct (Z.eqb_spec (ltntstools_pid p) pid) as [<-|Hne]; cbn [negb].
      * rewrite decide_True by done. rewrite i64_id, u64_id by lia. done.
      * by rewrite decide_False by done.
    + by case_if.
Qed.

(** on aligned packets, [ltntstools_queryPCR_pid] returns the first PCR of
    the requested pid, or -1 with the enumerator untouched when the pid carries
    none. *)
Theorem queryPCR_pid_first pkts pos pid pktAligned :
  Forall ts_packet pkts -> 3 <= len pkts -> len (concat pkts) < 2 ^ 31 ->
  ltntstools_queryPCR_pid (concat pkts) (len (concat pkts)) pos pid pktAligned =
  Some match filter (fun e => pos_pid e = pid) (pcrs_of pkts 0 0) with
       | [] => (-1, pos)
       | e :: _ => (0, e)
       end.
Proof.
  intros Hp Hn Hmax. unfold ltntstools_queryPCR_pid. pose proof (findSync_aligned pkts []) as Hf. rewrite app_nil_r in Hf. rewrite Hf by done.
  assert (Hlen := len_concat_packets pkts Hp). unfold len in Hlen at 2.
  rewrite u64_id by (pose proof (len_nonneg pkts); lia). rewrite Z.sub_0_r.
  destruct (pktAligned =? 0); step; zdec;
    rewrite <- (app_nil_l (concat pkts)) at 2; rewrite queryPCR_pid_from_aligned; done || lia.
Qed.

Lemma queryPCR_pid_first_witness :
  ltntstools_queryPCR_pid (concat [pcr_packet 5; pcr_packet 600; pcr_packet 7]) 564
    ltntstools_pcr_position_reset 0x100 0
  = Some (0, {| pos_pcr := 5; pos_offset := 0; pos_pid := 0x100 |}).
Proof.
  apply (queryPCR_pid_first [pcr_packet 5; pcr_packet 600; pcr_packet 7]
           ltntstools_pcr_position_reset 0x100 0).
  - repeat apply Forall_cons_2; try apply Forall_nil_2; apply pcr_packet_ok; lia.
  - vm_compute. discriminate.
  - reflexivity.
Defined.

(** ** Facts: clock arithmetic and stream types *)

(** advancing a 27 MHz clock by less than five seconds keeps it in range
    and the wrap-aware difference gives the ticks back, across the wrap too;
    the 90 kHz difference is exact without a wrap and one tick short of the
    33-bit difference when the clock wrapped. *)
Theorem clock_difference_spec scr ticks from to :
  0 <= scr <= MAX_SCR_VALUE -> 0 <= ticks < 5 * 27000000 ->
  0 <= from < 2 ^ 33 -> 0 <= to < 2 ^ 33 ->
  0 <= ltntstools_scr_add scr ticks <= MAX_SCR_VALUE /\
  ltntstools_scr_diff scr (ltntstools_scr_add scr ticks) = ticks /\
  ltntstools_pts_diff from to = (to - from) mod 2 ^ 33 - (if to <? from then 1 else 0).
Proof.
  unfold ltntstools_scr_add, ltntstools_scr_diff, ltntstools_pts_diff, MAX_SCR_VALUE, MAX_PTS_VALUE.
  intros Hs Ht Hf Hto. rewrite !(i64_id (scr + ticks)) by lia. split; [|split].
  - repeat case_if; lia.
  - destruct (Z.ltb_spec 2576980377600 (scr + ticks)); [|rewrite (proj2 (Z.ltb_ge (scr + ticks) 0)) by lia];
      case_if; zlia.
  - case_if; zlia.
Qed.

Lemma clock_difference_spec_witness :
  ltntstools_scr_diff 2576980377599 (ltntstools_scr_add 2576980377599 100) = 100 /\
  ltntstools_pts_diff (2 ^ 33 - 1) 0 = 0.
Proof.
  destruct (clock_difference_spec 2576980377599 100 (2 ^ 33 - 1) 0) as (_ & H1 & H2).
  - unfold MAX_SCR_VALUE. lia.
  - lia.
  - lia.
  - lia.
  - split; [exact H1|exact H2].
Defined.

Definition contains_word (w d : string) : bool :=
  match String.index 0 w d with Some _ => true | None => false end.

(** no stream type is both audio and video; the video predicate agrees with
    the word Video of the description except for JPEG 2000 (0x21) and JPEG-XS
    (0x32), the audio predicate with the word Audio except for MHEG (0x07) and
    LATM audio (0x11). *)
Theorem es_types_classified t :
  is_byte t ->
  ltntstools_is_ESPayloadType_Video t + ltntstools_is_ESPayloadType_Audio t <= 1 /\
  (t <> 0x21 -> t <> 0x32 ->
   (ltntstools_is_ESPayloadType_Video t =? 1)
   = contains_word "Video" (ltntstools_GetESPayloadTypeDescription t)) /\
  (t <> 0x07 -> t <> 0x11 ->
   (ltntstools_is_ESPayloadType_Audio t =? 1)
   = contains_word "Audio" (ltntstools_GetESPayloadTypeDescription t)).
Proof.
  intros Ht.
  assert (H := forall_byte (fun t =>
    (ltntstools_is_ESPayloadType_Video t + ltntstools_is_ESPayloadType_Audio t <=? 1) &&
    ((t =? 0x21) || (t =? 0x32) || Bool.eqb (ltntstools_is_ESPayloadType_Video t =? 1)
       (contains_word "Video" (ltntstools_GetESPayloadTypeDescription t))) &&
    ((t =? 0x07) || (t =? 0x11) || Bool.eqb (ltntstools_is_ESPayloadType_Audio t =? 1)
       (contains_word "Audio" (ltntstools_GetESPayloadTypeDescription t)))) ltac:(vm_compute; reflexivity) t Ht).
  cbv beta in H. apply andb_true_iff in H as [H Ha]. apply andb_true_iff in H as [H Hv].
  split; [by apply Z.leb_le|]. split; intros H1 H2.
  - rewrite (proj2 (Z.eqb_neq t 0x21) H1), (proj2 (Z.eqb_neq t 0x32) H2) in Hv. by apply eqb_prop.
  - rewrite (proj2 (Z.eqb_neq t 0x07) H1), (proj2 (Z.eqb_neq t 0x11) H2) in Ha. by apply eqb_prop.
Qed.

Lemma es_types_classified_witness :
  (ltntstools_is_ESPayloadType_Video 0x1B =? 1)
  = contains_word "Video" (ltntstools_GetESPayloadTypeDescription 0x1B).
Proof. apply (es_types_classified 0x1B); [unfold is_byte; lia|discriminate|discriminate]. Defined.
