(* ===== verification/Crc32.v ===== *)
(** * Section CRC: src/crc32.c

    The table-driven CRC-32 of MPEG sections (polynomial 0x04c11db7, most
    significant bit first, initial value all ones, no final complement) and its
    reference, the bit-by-bit remainder. *)
From Stdlib Require Import ZArith Lia Bool.
From stdpp Require Import base numbers list option.
From S2P Require Import Prelude.

Definition crc32_table : list Z :=
  [
   0x00000000; 0x04c11db7; 0x09823b6e; 0x0d4326d9; 0x130476dc; 0x17c56b6b;
   0x1a864db2; 0x1e475005; 0x2608edb8; 0x22c9f00f; 0x2f8ad6d6; 0x2b4bcb61;
   0x350c9b64; 0x31cd86d3; 0x3c8ea00a; 0x384fbdbd; 0x4c11db70; 0x48d0c6c7;
   0x4593e01e; 0x4152fda9; 0x5f15adac; 0x5bd4b01b; 0x569796c2; 0x52568b75;
   0x6a1936c8; 0x6ed82b7f; 0x639b0da6; 0x675a1011; 0x791d4014; 0x7ddc5da3;
   0x709f7b7a; 0x745e66cd; 0x9823b6e0; 0x9ce2ab57; 0x91a18d8e; 0x95609039;
   0x8b27c03c; 0x8fe6dd8b; 0x82a5fb52; 0x8664e6e5; 0xbe2b5b58; 0xbaea46ef;
   0xb7a96036; 0xb3687d81; 0xad2f2d84; 0xa9ee3033; 0xa4ad16ea; 0xa06c0b5d;
   0xd4326d90; 0xd0f37027; 0xddb056fe; 0xd9714b49; 0xc7361b4c; 0xc3f706fb;
   0xceb42022; 0xca753d95; 0xf23a8028; 0xf6fb9d9f; 0xfbb8bb46; 0xff79a6f1;
   0xe13ef6f4; 0xe5ffeb43; 0xe8bccd9a; 0xec7dd02d; 0x34867077; 0x30476dc0;
   0x3d044b19; 0x39c556ae; 0x278206ab; 0x23431b1c; 0x2e003dc5; 0x2ac12072;
   0x128e9dcf; 0x164f8078; 0x1b0ca6a1; 0x1fcdbb16; 0x018aeb13; 0x054bf6a4;
   0x0808d07d; 0x0cc9cdca; 0x7897ab07; 0x7c56b6b0; 0x71159069; 0x75d48dde;
   0x6b93dddb; 0x6f52c06c; 0x6211e6b5; 0x66d0fb02; 0x5e9f46bf; 0x5a5e5b08;
   0x571d7dd1; 0x53dc6066; 0x4d9b3063; 0x495a2dd4; 0x44190b0d; 0x40d816ba;
   0xaca5c697; 0xa864db20; 0xa527fdf9; 0xa1e6e04e; 0xbfa1b04b; 0xbb60adfc;
   0xb6238b25; 0xb2e29692; 0x8aad2b2f; 0x8e6c3698; 0x832f1041; 0x87ee0df6;
   0x99a95df3; 0x9d684044; 0x902b669d; 0x94ea7b2a; 0xe0b41de7; 0xe4750050;
   0xe9362689; 0xedf73b3e; 0xf3b06b3b; 0xf771768c; 0xfa325055; 0xfef34de2;
   0xc6bcf05f; 0xc27dede8; 0xcf3ecb31; 0xcbffd686; 0xd5b88683; 0xd1799b34;
   0xdc3abded; 0xd8fba05a; 0x690ce0ee; 0x6dcdfd59; 0x608edb80; 0x644fc637;
   0x7a089632; 0x7ec98b85; 0x738aad5c; 0x774bb0eb; 0x4f040d56; 0x4bc510e1;
   0x46863638; 0x42472b8f; 0x5c007b8a; 0x58c1663d; 0x558240e4; 0x51435d53;
   0x251d3b9e; 0x21dc2629; 0x2c9f00f0; 0x285e1d47; 0x36194d42; 0x32d850f5;
   0x3f9b762c; 0x3b5a6b9b; 0x0315d626; 0x07d4cb91; 0x0a97ed48; 0x0e56f0ff;
   0x1011a0fa; 0x14d0bd4d; 0x19939b94; 0x1d528623; 0xf12f560e; 0xf5ee4bb9;
   0xf8ad6d60; 0xfc6c70d7; 0xe22b20d2; 0xe6ea3d65; 0xeba91bbc; 0xef68060b;
   0xd727bbb6; 0xd3e6a601; 0xdea580d8; 0xda649d6f; 0xc423cd6a; 0xc0e2d0dd;
   0xcda1f604; 0xc960ebb3; 0xbd3e8d7e; 0xb9ff90c9; 0xb4bcb610; 0xb07daba7;
   0xae3afba2; 0xaafbe615; 0xa7b8c0cc; 0xa379dd7b; 0x9b3660c6; 0x9ff77d71;
   0x92b45ba8; 0x9675461f; 0x8832161a; 0x8cf30bad; 0x81b02d74; 0x857130c3;
   0x5d8a9099; 0x594b8d2e; 0x5408abf7; 0x50c9b640; 0x4e8ee645; 0x4a4ffbf2;
   0x470cdd2b; 0x43cdc09c; 0x7b827d21; 0x7f436096; 0x7200464f; 0x76c15bf8;
   0x68860bfd; 0x6c47164a; 0x61043093; 0x65c52d24; 0x119b4be9; 0x155a565e;
   0x18197087; 0x1cd86d30; 0x029f3d35; 0x065e2082; 0x0b1d065b; 0x0fdc1bec;
   0x3793a651; 0x3352bbe6; 0x3e119d3f; 0x3ad08088; 0x2497d08d; 0x2056cd3a;
   0x2d15ebe3; 0x29d4f654; 0xc5a92679; 0xc1683bce; 0xcc2b1d17; 0xc8ea00a0;
   0xd6ad50a5; 0xd26c4d12; 0xdf2f6bcb; 0xdbee767c; 0xe3a1cbc1; 0xe760d676;
   0xea23f0af; 0xeee2ed18; 0xf0a5bd1d; 0xf464a0aa; 0xf9278673; 0xfde69bc4;
   0x89b8fd09; 0x8d79e0be; 0x803ac667; 0x84fbdbd0; 0x9abc8bd5; 0x9e7d9662;
   0x933eb0bb; 0x97ffad0c; 0xafb010b1; 0xab710d06; 0xa6322bdf; 0xa2f33668;
   0xbcb4666d; 0xb8757bda; 0xb5365d03; 0xb1f740b4].

(** One turn of the while loop. *)
Definition crc32_step (crc b : Z) : Z :=
  Z.lxor (u32 (Z.shiftl crc 8)) (byte_at crc32_table (Z.lxor (Z.shiftr crc 24) b)).

Definition crc32_loop (crc : Z) (l : list Z) : Z := fold_left crc32_step l crc.

(** [buf] is [None] for a NULL pointer; the outer [None] is an access outside
    the buffer. *)
Definition ltntstools_checkCRC32 (buf : option (list Z)) (lengthBytes : Z) : option Z :=
  match buf with
  | None => Some (-1)
  | Some p =>
      if lengthBytes <? 4 then Some (-1) else
      l ← rds p 0 lengthBytes;
      let crc := crc32_loop 0xffffffff l in
      Some (if crc =? 0 then 0 else -1)
  end.

(** The return value and [*crc32], [None] when the call does not write it. *)
Definition ltntstools_getCRC32 (buf : option (list Z)) (lengthBytes : Z) (crc32 : bool)
    : option (Z * option Z) :=
  match buf with
  | None => Some (-1, None)
  | Some p =>
      if (lengthBytes <? 1) || negb crc32 then Some (-1, None) else
      l ← rds p 0 lengthBytes;
      Some (0, Some (crc32_loop 0xffffffff l))
  end.

(** ** The reference: polynomial division bit by bit *)

Definition crc_poly : Z := 0x04c11db7.

Definition crc_bit (x : Z) : Z :=
  Z.lxor (u32 (Z.shiftl x 1)) (if Z.testbit x 31 then crc_poly else 0).

Definition crc_bits (n : nat) (x : Z) : Z := Nat.iter n crc_bit x.

(** Feed one byte: add it to the top of the register and divide eight times. *)
Definition crc_byte (crc b : Z) : Z := crc_bits 8 (Z.lxor crc (Z.shiftl b 24)).

(** ** Facts: the register is a 32-bit word and the division is linear *)

Definition is_u32 (x : Z) : Prop := 0 <= x < 2 ^ 32.

Lemma is_u32_bits x : 0 <= x -> is_u32 x <-> forall i, 32 <= i -> Z.testbit x i = false.
Proof.
  intros Hx. split; [intros H i Hi; apply testbit_small with 32; unfold is_u32 in H; lia|].
  intros H. unfold is_u32. split; [done|]. destruct (Z.eq_dec x 0) as [->|]; [lia|].
  apply Z.log2_lt_pow2; [lia|]. destruct (Z_lt_dec (Z.log2 x) 32); [done|].
  specialize (H (Z.log2 x) ltac:(lia)). rewrite Z.bit_log2 in H by lia. done.
Qed.

Lemma lxor_is_u32 x y : is_u32 x -> is_u32 y -> is_u32 (Z.lxor x y).
Proof.
  intros Hx Hy. assert (0 <= Z.lxor x y) by (apply Z.lxor_nonneg; unfold is_u32 in *; lia).
  apply is_u32_bits; [done|]. intros i Hi. rewrite Z.lxor_spec.
  by rewrite !(testbit_small _ 32) by (unfold is_u32 in *; lia).
Qed.

Lemma u32_is_u32 x : is_u32 (u32 x).
Proof. apply u32_range. Qed.

Lemma u32_bits x i : 0 <= i -> Z.testbit (u32 x) i = (i <? 32) && Z.testbit x i.
Proof.
  intros Hi. change (u32 x) with (x mod 2 ^ 32). destruct (Z.ltb_spec i 32).
  - by rewrite Z.mod_pow2_bits_low by lia.
  - by rewrite Z.mod_pow2_bits_high by lia.
Qed.

Lemma u32_lxor x y : u32 (Z.lxor x y) = Z.lxor (u32 x) (u32 y).
Proof.
  apply Z.bits_inj'. intros i Hi. rewrite !Z.lxor_spec, !u32_bits, Z.lxor_spec by lia.
  by destruct (i <? 32).
Qed.

Lemma crc_bit_lxor x y : crc_bit (Z.lxor x y) = Z.lxor (crc_bit x) (crc_bit y).
Proof.
  unfold crc_bit. rewrite Z.shiftl_lxor, u32_lxor, Z.lxor_spec.
  apply Z.bits_inj'. intros i Hi. rewrite !Z.lxor_spec.
  destruct (Z.testbit x 31), (Z.testbit y 31); cbn [xorb]; rewrite ?Z.bits_0;
    repeat match goal with |- context [Z.testbit ?a i] => destruct (Z.testbit a i) end; done.
Qed.

Lemma crc_bit_u32 x : is_u32 (crc_bit x).
Proof.
  apply lxor_is_u32; [apply u32_is_u32|]. by case_match; vm_compute.
Qed.

(** A division step loses no information: only 0 divides to 0. *)
Lemma crc_bit_zero x : is_u32 x -> crc_bit x = 0 -> x = 0.
Proof.
  unfold crc_bit. intros Hx H. apply Z.lxor_eq in H. revert H.
  rewrite Z.shiftl_mul_pow2 by lia. destruct (Z.testbit x 31) eqn:Hb.
  - intros H. exfalso. cbv iota in H. unfold crc_poly in H. zlia.
  - intros H. cbv iota in H. rewrite Z.testbit_false in Hb by lia. unfold is_u32 in *. zlia.
Qed.

Lemma crc_bits_S n x : crc_bits (S n) x = crc_bit (crc_bits n x).
Proof. done. Qed.

Lemma crc_bits_add n m x : crc_bits (n + m) x = crc_bits n (crc_bits m x).
Proof. induction n as [|n IH]; [done|]. cbn [Nat.add]. by rewrite !crc_bits_S, IH. Qed.

Lemma crc_bits_lxor n x y : crc_bits n (Z.lxor x y) = Z.lxor (crc_bits n x) (crc_bits n y).
Proof. induction n as [|n IH]; [done|]. by rewrite !crc_bits_S, IH, crc_bit_lxor. Qed.

Lemma crc_bits_u32 n x : is_u32 x -> is_u32 (crc_bits n x).
Proof. intros Hx. destruct n; [done|]. apply crc_bit_u32. Qed.

Lemma crc_bits_zero n x : is_u32 x -> crc_bits n x = 0 -> x = 0.
Proof.
  intros Hx. induction n as [|n IH]; [done|]. rewrite crc_bits_S. intros H.
  by apply IH, crc_bit_zero; [apply crc_bits_u32|].
Qed.

Lemma crc_bits_inj n x y : is_u32 x -> is_u32 y -> crc_bits n x = crc_bits n y -> x = y.
Proof.
  intros Hx Hy H. apply Z.lxor_eq, (crc_bits_zero n); [by apply lxor_is_u32|].
  rewrite crc_bits_lxor, H. apply Z.lxor_nilpotent.
Qed.

(** A register whose top [n] bits are clear is only shifted. *)
Lemma crc_bits_low n : forall x, (n <= 32)%nat -> 0 <= x < 2 ^ (32 - Z.of_nat n) ->
  crc_bits n x = x * 2 ^ Z.of_nat n.
Proof.
  induction n as [|n IH]; intros x Hn Hx; [rewrite Z.mul_1_r; done|].
  assert (Hpow : 2 ^ (32 - Z.of_nat n) = 2 * 2 ^ (32 - Z.of_nat (S n))).
  { rewrite <- Z.pow_succ_r by lia. f_equal. lia. }
  rewrite crc_bits_S, IH by lia. unfold crc_bit.
  assert (Hm : x * 2 ^ Z.of_nat n < 2 ^ 31).
  { replace 31 with ((32 - Z.of_nat (S n)) + Z.of_nat n) by lia. rewrite Z.pow_add_r by lia.
    apply Z.mul_lt_mono_pos_r; [apply Z.pow_pos_nonneg|]; lia. }
  assert (0 <= x * 2 ^ Z.of_nat n) by (apply Z.mul_nonneg_nonneg; lia).
  rewrite (testbit_small _ 31), Z.lxor_0_r, Z.shiftl_mul_pow2 by lia.
  rewrite u32_id by lia. rewrite Nat2Z.inj_succ, Z.pow_succ_r by lia. lia.
Qed.

(** ** Facts: the table is the division of a byte *)

Lemma crc32_table_correct b : is_byte b -> byte_at crc32_table b = crc_bits 8 (Z.shiftl b 24).
Proof.
  intros Hb. apply Z.eqb_eq.
  apply (forall_byte (fun b => byte_at crc32_table b =? crc_bits 8 (Z.shiftl b 24))); [|done].
  vm_compute. reflexivity.
Qed.

#[local] Opaque crc_bits crc32_table.

Lemma lxor_byte a b : is_byte a -> is_byte b -> is_byte (Z.lxor a b).
Proof.
  unfold is_byte. intros Ha Hb. assert (0 <= Z.lxor a b) by (apply Z.lxor_nonneg; lia).
  split; [done|]. destruct (Z_lt_dec (Z.lxor a b) 256) as [|Hge]; [done|exfalso].
  assert (Hl : 8 <= Z.log2 (Z.lxor a b)) by (apply (Z.log2_le_pow2 _ 8); lia).
  assert (Hbit := Z.bit_log2 (Z.lxor a b) ltac:(lia)). rewrite Z.lxor_spec in Hbit.
  rewrite !(testbit_small _ 8) in Hbit by lia. done.
Qed.

(** A 32-bit register is its top byte above its low 24 bits. *)
Lemma register_split crc :
  is_u32 crc -> crc = Z.lxor (Z.shiftl (Z.shiftr crc 24) 24) (crc mod 2 ^ 24).
Proof.
  intros Hc. apply Z.bits_inj'. intros i Hi. rewrite Z.lxor_spec. destruct (Z_lt_dec i 24).
  - rewrite Z.shiftl_spec_low, Z.mod_pow2_bits_low by lia. by destruct (Z.testbit crc i).
  - rewrite Z.mod_pow2_bits_high, Z.shiftl_spec, Z.shiftr_spec by lia.
    rewrite xorb_false_r. f_equal. lia.
Qed.

Lemma top_byte crc : is_u32 crc -> is_byte (Z.shiftr crc 24).
Proof. unfold is_u32, is_byte. rewrite Z.shiftr_div_pow2 by lia. zlia. Qed.

(** One table lookup is eight division steps. *)
Lemma crc32_step_byte crc b : is_u32 crc -> is_byte b -> crc32_step crc b = crc_byte crc b.
Proof.
  intros Hc Hb. unfold crc32_step, crc_byte.
  rewrite crc32_table_correct by (apply lxor_byte; [by apply top_byte|done]).
  rewrite (register_split crc Hc) at 3.
  rewrite (Z.lxor_comm _ (crc mod 2 ^ 24)), Z.lxor_assoc, <- Z.shiftl_lxor, crc_bits_lxor.
  f_equal. rewrite crc_bits_low by (unfold is_u32 in Hc; zlia).
  rewrite Z.shiftl_mul_pow2 by lia. unfold is_u32 in Hc. zlia.
Qed.

Lemma byte_shift_u32 b : is_byte b -> is_u32 (Z.shiftl b 24).
Proof. unfold is_byte, is_u32. rewrite Z.shiftl_mul_pow2 by lia. lia. Qed.

Lemma crc32_step_u32 crc b : is_u32 crc -> is_byte b -> is_u32 (crc32_step crc b).
Proof.
  intros Hc Hb. rewrite crc32_step_byte by done. apply crc_bits_u32, lxor_is_u32; [done|].
  by apply byte_shift_u32.
Qed.

Lemma crc32_loop_u32 l : forall crc, is_u32 crc -> bytes l -> is_u32 (crc32_loop crc l).
Proof.
  induction l as [|b l IH]; intros crc Hc Hl; [done|]. inversion Hl; subst.
  apply IH; [by apply crc32_step_u32|done].
Qed.

Lemma fold_left_cons {A B} (f : A -> B -> A) x l a : fold_left f (x :: l) a = fold_left f l (f a x).
Proof. done. Qed.

Lemma crc32_loop_cons b l crc : crc32_loop crc (b :: l) = crc32_loop (crc32_step crc b) l.
Proof. apply fold_left_cons. Qed.

Lemma crc32_loop_app l k crc : crc32_loop crc (l ++ k) = crc32_loop (crc32_loop crc l) k.
Proof. apply fold_left_app. Qed.

(** The big-endian value of four bytes, and the four bytes of a word. *)
Definition be32_value (d0 d1 d2 d3 : Z) : Z :=
  Z.lxor (Z.shiftl d0 24) (Z.lxor (Z.shiftl d1 16) (Z.lxor (Z.shiftl d2 8) d3)).

Definition be32_bytes (x : Z) : list Z :=
  [u8 (Z.shiftr x 24); u8 (Z.shiftr x 16); u8 (Z.shiftr x 8); u8 x].

Lemma crc_bits_feed n x b k :
  is_byte b -> (n <= 24)%nat -> k = 24 - Z.of_nat n ->
  Z.lxor (crc_bits n x) (Z.shiftl b 24) = crc_bits n (Z.lxor x (Z.shiftl b k)).
Proof.
  intros Hb Hn ->. rewrite crc_bits_lxor. f_equal. rewrite !Z.shiftl_mul_pow2 by lia.
  assert (Hlt : b * 2 ^ (24 - Z.of_nat n) < 2 ^ (32 - Z.of_nat n)).
  { replace (32 - Z.of_nat n) with (8 + (24 - Z.of_nat n)) by lia. rewrite Z.pow_add_r by lia.
    apply Z.mul_lt_mono_pos_r; [apply Z.pow_pos_nonneg; lia|]. unfold is_byte in Hb. lia. }
  assert (0 <= b * 2 ^ (24 - Z.of_nat n)) by (apply Z.mul_nonneg_nonneg; unfold is_byte in *; lia).
  rewrite crc_bits_low by lia. rewrite <- Z.mul_assoc, <- Z.pow_add_r by lia. f_equal. f_equal. lia.
Qed.

(** Feeding four bytes is adding the word and dividing 32 times. *)
Lemma crc32_loop_word crc d0 d1 d2 d3 :
  is_u32 crc -> is_byte d0 -> is_byte d1 -> is_byte d2 -> is_byte d3 ->
  crc32_loop crc [d0; d1; d2; d3] = crc_bits 32 (Z.lxor crc (be32_value d0 d1 d2 d3)).
Proof.
  intros Hc H0 H1 H2 H3. cbn [crc32_loop fold_left].
  rewrite !crc32_step_byte by (repeat apply crc32_step_u32; done). unfold crc_byte.
  rewrite (crc_bits_feed 8 _ d1 16), <- (crc_bits_add 8 8) by (done || lia).
  rewrite (crc_bits_feed 16 _ d2 8), <- (crc_bits_add 8 16) by (done || lia).
  rewrite (crc_bits_feed 24 _ d3 0), <- (crc_bits_add 8 24) by (done || lia).
  unfold be32_value. rewrite Z.shiftl_0_r. by rewrite !Z.lxor_assoc.
Qed.

Lemma be32_value_arith d0 d1 d2 d3 :
  is_byte d0 -> is_byte d1 -> is_byte d2 -> is_byte d3 ->
  be32_value d0 d1 d2 d3 = d0 * 2 ^ 24 + d1 * 2 ^ 16 + d2 * 2 ^ 8 + d3.
Proof.
  unfold be32_value, is_byte. intros. rewrite !Z.shiftl_mul_pow2 by lia.
  rewrite (lxor_high_low (d2 * 2 ^ 8) _ 8) by zlia.
  rewrite (lxor_high_low (d1 * 2 ^ 16) _ 16) by zlia.
  rewrite (lxor_high_low (d0 * 2 ^ 24) _ 24) by zlia. lia.
Qed.

Lemma be32_value_inj a0 a1 a2 a3 b0 b1 b2 b3 :
  bytes [a0; a1; a2; a3] -> bytes [b0; b1; b2; b3] ->
  be32_value a0 a1 a2 a3 = be32_value b0 b1 b2 b3 -> [a0; a1; a2; a3] = [b0; b1; b2; b3].
Proof.
  intros Ha Hb. rewrite !bytes_cons in Ha, Hb.
  destruct Ha as (A0 & A1 & A2 & A3 & _), Hb as (B0 & B1 & B2 & B3 & _).
  rewrite !be32_value_arith by done. intros H. repeat f_equal; zlia.
Qed.

Lemma be32_value_u32 d0 d1 d2 d3 :
  bytes [d0; d1; d2; d3] -> is_u32 (be32_value d0 d1 d2 d3).
Proof.
  rewrite !bytes_cons. intros (H0 & H1 & H2 & H3 & _).
  rewrite be32_value_arith by done. unfold is_u32, is_byte in *. lia.
Qed.

Lemma be32_bytes_value x :
  is_u32 x -> be32_value (u8 (Z.shiftr x 24)) (u8 (Z.shiftr x 16)) (u8 (Z.shiftr x 8)) (u8 x) = x.
Proof.
  intros Hx. rewrite be32_value_arith by apply u8_is_byte.
  rewrite !Z.shiftr_div_pow2 by lia. unfold is_u32 in Hx. zlia.
Qed.

Lemma be32_bytes_ok x : bytes (be32_bytes x).
Proof. unfold be32_bytes. repeat apply Forall_cons_2; try apply u8_is_byte. apply Forall_nil_2. Qed.

(** The state after the same bytes tells the states before apart. *)
Lemma crc32_loop_inj l : forall c d,
  is_u32 c -> is_u32 d -> bytes l -> crc32_loop c l = crc32_loop d l -> c = d.
Proof.
  induction l as [|b l IH]; intros c d Hc Hd Hl H; [done|]. inversion Hl; subst.
  rewrite !crc32_loop_cons in H. apply IH in H; [|by apply crc32_step_u32|by apply crc32_step_u32|done].
  rewrite !crc32_step_byte in H by done. unfold crc_byte in H.
  apply crc_bits_inj in H; try (by apply lxor_is_u32; [|apply byte_shift_u32]).
  apply (f_equal (fun x => Z.lxor x (Z.shiftl b 24))) in H.
  by rewrite !Z.lxor_assoc, !Z.lxor_nilpotent, !Z.lxor_0_r in H.
Qed.

Lemma crc32_init_u32 : is_u32 0xffffffff.
Proof. by vm_compute. Qed.

(** The loop of table lookups is the loop of divisions. *)
Lemma crc32_loop_bytes p : forall crc,
  is_u32 crc -> bytes p -> crc32_loop crc p = fold_left crc_byte p crc.
Proof.
  induction p as [|b p IH]; intros crc Hc Hp; [done|]. inversion Hp; subst.
  rewrite crc32_loop_cons, IH by (done || by apply crc32_step_u32).
  by rewrite fold_left_cons, crc32_step_byte by done.
Qed.

(** A buffer followed by its own checksum has checksum 0. *)
Lemma crc32_sealed p : bytes p -> crc32_loop 0xffffffff (p ++ be32_bytes (crc32_loop 0xffffffff p)) = 0.
Proof.
  intros Hp. rewrite crc32_loop_app. assert (Hc := crc32_loop_u32 p 0xffffffff crc32_init_u32 Hp).
  revert Hc. generalize (crc32_loop 0xffffffff p). intros c Hc. unfold be32_bytes.
  rewrite crc32_loop_word by (done || apply u8_is_byte). by rewrite be32_bytes_value, Z.lxor_nilpotent.
Qed.

(** ** Properties *)

(** C31: the table-driven checksum is the bit-by-bit remainder of the data under
    the polynomial 0x04c11db7 with an all-ones initial register, for every
    buffer, with the return value 0; invalid arguments return -1 and write
    nothing.  (crc32.h promises 1 on success.) *)
Theorem getCRC32_is_division p :
  bytes p ->
  ltntstools_getCRC32 (Some p) (len p) true =
    Some (if len p <? 1 then (-1, None) else (0, Some (fold_left crc_byte p 0xffffffff))) /\
  ltntstools_getCRC32 None (len p) true = Some (-1, None) /\
  ltntstools_getCRC32 (Some p) (len p) false = Some (-1, None).
Proof.
  intros Hp. unfold ltntstools_getCRC32. rewrite orb_true_r. split; [|done].
  rewrite orb_false_r. destruct (len p <? 1); [done|]. rewrite rds_all. step.
  do 3 f_equal. by apply crc32_loop_bytes; [apply crc32_init_u32|].
Qed.

Lemma getCRC32_is_division_witness :
  ltntstools_getCRC32 (Some [0x31; 0x32; 0x33]) 3 true
  = Some (0, Some (fold_left crc_byte [0x31; 0x32; 0x33] 0xffffffff)).
Proof.
  apply (getCRC32_is_division [0x31; 0x32; 0x33]). repeat constructor; vm_compute; congruence.
Defined.

(** a section passes [ltntstools_checkCRC32] exactly when its last four
    bytes are the big-endian [ltntstools_getCRC32] checksum of the bytes
    before them. *)
Theorem checkCRC32_iff_checksum p d0 d1 d2 d3 :
  bytes p -> bytes [d0; d1; d2; d3] -> p <> [] ->
  exists crc,
    ltntstools_getCRC32 (Some p) (len p) true = Some (0, Some crc) /\
    ltntstools_checkCRC32 (Some (p ++ [d0; d1; d2; d3])) (len (p ++ [d0; d1; d2; d3]))
    = Some (if bool_decide ([d0; d1; d2; d3] = be32_bytes crc) then 0 else -1).
Proof.
  intros Hp Hd Hne. exists (crc32_loop 0xffffffff p).
  assert (Hc := crc32_loop_u32 p 0xffffffff crc32_init_u32 Hp).
  assert (Hl : 1 <= len p) by (destruct p; [done|rewrite len_cons; pose proof (len_nonneg p); lia]).
  split; [unfold ltntstools_getCRC32; zdec; by rewrite rds_all|].
  unfold ltntstools_checkCRC32.
  rewrite (proj2 (Z.ltb_ge _ 4)) by (rewrite len_app; change (len [d0; d1; d2; d3]) with 4; lia).
  rewrite rds_all. step. rewrite crc32_loop_app. revert Hc. generalize (crc32_loop 0xffffffff p).
  intros c Hc. assert (Hd' := Hd). rewrite !bytes_cons in Hd.
  destruct Hd as (H0 & H1 & H2 & H3 & _). rewrite crc32_loop_word by done.
  assert (Hz : crc_bits 32 (Z.lxor c (be32_value d0 d1 d2 d3)) = 0 <-> [d0; d1; d2; d3] = be32_bytes c).
  { split.
    - intros H. apply crc_bits_zero in H; [|apply lxor_is_u32; [done|by apply be32_value_u32]].
      apply Z.lxor_eq in H. rewrite <- (be32_bytes_value c Hc) in H. symmetry.
      apply be32_value_inj; [apply be32_bytes_ok|done|done].
    - intros [= -> -> -> ->]. rewrite be32_bytes_value by done. by rewrite Z.lxor_nilpotent. }
  case_bool_decide as E.
  - by rewrite (proj2 Hz E).
  - by rewrite (proj2 (Z.eqb_neq _ _)) by (intros H; apply E, Hz, H).
Qed.

Lemma checkCRC32_iff_checksum_witness :
  exists crc,
    ltntstools_getCRC32 (Some [0; 1; 2]) 3 true = Some (0, Some crc) /\
    ltntstools_checkCRC32 (Some [0; 1; 2; 0xef; 0xb2; 0x03; 0x9e]) 7
    = Some (if bool_decide ([0xef; 0xb2; 0x03; 0x9e] = be32_bytes crc) then 0 else -1).
Proof.
  apply (checkCRC32_iff_checksum [0; 1; 2] 0xef 0xb2 0x03 0x9e);
    [repeat constructor; vm_compute; congruence|repeat constructor; vm_compute; congruence|discriminate].
Defined.

Lemma some_pair_inj (r x y : Z) : Some (r, Some x) = Some (r, Some y) -> x = y.
Proof. by intros [= ->]. Qed.

(** a burst of errors confined to four consecutive bytes is always
    detected: two buffers of the same length that differ only there have
    different checksums. *)
Theorem crc32_detects_burst pre post a0 a1 a2 a3 b0 b1 b2 b3 :
  bytes pre -> bytes post -> bytes [a0; a1; a2; a3] -> bytes [b0; b1; b2; b3] ->
  [a0; a1; a2; a3] <> [b0; b1; b2; b3] ->
  let p := pre ++ [a0; a1; a2; a3] ++ post in
  let q := pre ++ [b0; b1; b2; b3] ++ post in
  ltntstools_getCRC32 (Some p) (len p) true <> ltntstools_getCRC32 (Some q) (len q) true.
Proof.
  intros Hpre Hpost Ha Hb Hne p q.
  assert (Hlen : forall x0 x1 x2 x3, (len (pre ++ [x0; x1; x2; x3] ++ post) <? 1) = false).
  { intros. apply Z.ltb_ge. autorewrite with len. pose proof (len_nonneg pre). pose proof (len_nonneg post). lia. }
  unfold ltntstools_getCRC32, p, q. rewrite !Hlen, !rds_all. cbn [orb negb]. step.
  rewrite !crc32_loop_app. assert (Hc := crc32_loop_u32 pre 0xffffffff crc32_init_u32 Hpre).
  revert Hc. generalize (crc32_loop 0xffffffff pre). intros c Hc Heq. assert (H := some_pair_inj _ _ _ Heq). apply Hne.
  apply crc32_loop_inj in H; [|by apply crc32_loop_u32|by apply crc32_loop_u32|done].
  assert (Ha' := Ha). assert (Hb' := Hb). rewrite !bytes_cons in Ha, Hb.
  destruct Ha as (? & ? & ? & ? & _), Hb as (? & ? & ? & ? & _).
  rewrite !crc32_loop_word in H by done.
  apply crc_bits_inj in H; [|apply lxor_is_u32; [done|by apply be32_value_u32]
                            |apply lxor_is_u32; [done|by apply be32_value_u32]].
  apply be32_value_inj; [done|done|].
  apply (f_equal (Z.lxor c)) in H. by rewrite <- !Z.lxor_assoc, !Z.lxor_nilpotent, !Z.lxor_0_l in H.
Qed.

Lemma crc32_detects_burst_witness :
  ltntstools_getCRC32 (Some [9; 1; 2; 3; 4; 8]) 6 true <>
  ltntstools_getCRC32 (Some [9; 1; 2; 3; 5; 8]) 6 true.
Proof.
  apply (crc32_detects_burst [9] [8] 1 2 3 4 1 2 3 5);
    first [discriminate|repeat constructor; vm_compute; congruence].
Defined.
