(* ===== verification/BitStream.v ===== *)
(** * The bit stream reader/writer: src/libltntstools/klbitstream_readwriter.h

    The context holds the buffer, a byte position and an 8-bit shift register.
    [None] is an access outside the buffer (the header is compiled with
    KLBITSTREAM_RETURN_ON_OVERRUN 0: an overrun is flagged and execution goes
    on) or the failure of the one [assert] that is active.  The specification
    is a sequence of bits: a writer appends to it, a reader takes from it. *)
From Stdlib Require Import ZArith Lia Bool.
From stdpp Require Import base numbers list option.
From S2P Require Import Prelude Bits.

Record klbs_context := {
  bs_buf : list Z;
  bs_buflen : Z;
  bs_buflen_used : Z;
  bs_reg_used : Z;
  bs_reg : Z;
  bs_didAllocateStorage : Z;
  bs_overrun : Z;
  bs_truncated : Z
}.

Definition klbs_get_byte_count (ctx : klbs_context) : Z := bs_buflen_used ctx.
Definition klbs_get_buffer_size (ctx : klbs_context) : Z := bs_buflen ctx.
Definition klbs_get_byte_count_free (ctx : klbs_context) : Z :=
  u32 (klbs_get_buffer_size ctx - klbs_get_byte_count ctx).

(** [klbs_init] zeroes the context; the two set_buffer functions then store the
    buffer and its length. *)
Definition klbs_init : klbs_context :=
  {| bs_buf := []; bs_buflen := 0; bs_buflen_used := 0; bs_reg_used := 0; bs_reg := 0;
     bs_didAllocateStorage := 0; bs_overrun := 0; bs_truncated := 0 |}.

Definition klbs_write_set_buffer (buf : list Z) (lengthBytes : Z) : klbs_context :=
  {| bs_buf := buf; bs_buflen := lengthBytes; bs_buflen_used := bs_buflen_used klbs_init;
     bs_reg_used := bs_reg_used klbs_init; bs_reg := bs_reg klbs_init;
     bs_didAllocateStorage := bs_didAllocateStorage klbs_init;
     bs_overrun := bs_overrun klbs_init; bs_truncated := bs_truncated klbs_init |}.

Definition klbs_read_set_buffer (buf : list Z) (lengthBytes : Z) : klbs_context :=
  klbs_write_set_buffer buf lengthBytes.

(** The flag [didAllocateStorage] this function sets does not survive: the
    set_buffer call initialises the whole context again. *)
Definition klbs_alloc_init_with_storage (storageSizeBytes writeMode : Z) : klbs_context :=
  let buf := replicate (Z.to_nat storageSizeBytes) 0 in
  if writeMode =? 0 then klbs_read_set_buffer buf storageSizeBytes
  else klbs_write_set_buffer buf storageSizeBytes.

(** Field updates. *)
Definition set_overrun (ctx : klbs_context) (v : Z) : klbs_context :=
  {| bs_buf := bs_buf ctx; bs_buflen := bs_buflen ctx; bs_buflen_used := bs_buflen_used ctx;
     bs_reg_used := bs_reg_used ctx; bs_reg := bs_reg ctx;
     bs_didAllocateStorage := bs_didAllocateStorage ctx; bs_overrun := v;
     bs_truncated := bs_truncated ctx |}.
Definition set_truncated (ctx : klbs_context) (v : Z) : klbs_context :=
  {| bs_buf := bs_buf ctx; bs_buflen := bs_buflen ctx; bs_buflen_used := bs_buflen_used ctx;
     bs_reg_used := bs_reg_used ctx; bs_reg := bs_reg ctx;
     bs_didAllocateStorage := bs_didAllocateStorage ctx; bs_overrun := bs_overrun ctx;
     bs_truncated := v |}.
Definition set_reg (ctx : klbs_context) (used reg : Z) : klbs_context :=
  {| bs_buf := bs_buf ctx; bs_buflen := bs_buflen ctx; bs_buflen_used := bs_buflen_used ctx;
     bs_reg_used := used; bs_reg := reg;
     bs_didAllocateStorage := bs_didAllocateStorage ctx; bs_overrun := bs_overrun ctx;
     bs_truncated := bs_truncated ctx |}.
Definition set_pos (ctx : klbs_context) (buf : list Z) (used : Z) : klbs_context :=
  {| bs_buf := buf; bs_buflen := bs_buflen ctx; bs_buflen_used := used;
     bs_reg_used := bs_reg_used ctx; bs_reg := bs_reg ctx;
     bs_didAllocateStorage := bs_didAllocateStorage ctx; bs_overrun := bs_overrun ctx;
     bs_truncated := bs_truncated ctx |}.

(** The test [if (ctx->buflen_used >= ctx->buflen) ctx->overrun = 1]. *)
Definition flag_overrun (ctx : klbs_context) : klbs_context :=
  if bs_buflen ctx <=? bs_buflen_used ctx then set_overrun ctx 1 else ctx.

(** ** Writing *)

Definition klbs_write_bit (ctx : klbs_context) (bit : Z) : option klbs_context :=
  let ctx := flag_overrun ctx in
  if bs_buflen ctx <? bs_buflen_used ctx then None (* assert *) else
  let bit := Z.land bit 1 in
  let ctx := if bs_reg_used ctx <? 8
             then set_reg ctx (bs_reg_used ctx + 1) (Z.lor (u8 (Z.shiftl (bs_reg ctx) 1)) bit)
             else ctx in
  if bs_reg_used ctx =? 8 then
    let ctx := flag_overrun ctx in
    buf ← wr (bs_buf ctx) (bs_buflen_used ctx) (bs_reg ctx);
    Some (set_reg (set_pos ctx buf (u32 (bs_buflen_used ctx + 1))) 0 (bs_reg ctx))
  else Some ctx.

(** [while (ctx->reg_used > 0)]: a register holds at most 8 bits. *)
Fixpoint write_byte_stuff_from (fuel : nat) (ctx : klbs_context) (bit : Z) : option klbs_context :=
  match fuel with
  | O => None
  | S fuel' =>
      if 0 <? bs_reg_used ctx then
        ctx ← klbs_write_bit ctx bit;
        write_byte_stuff_from fuel' (flag_overrun ctx) bit
      else Some ctx
  end.

Definition klbs_write_byte_stuff (ctx : klbs_context) (bit : Z) : option klbs_context :=
  write_byte_stuff_from 9 ctx bit.

(** The loop [for (i = bitcount - 1; i >= 0; i--)], [n] being [i + 1]. *)
Fixpoint klbs_write_bits_loop (ctx : klbs_context) (bits : Z) (n : nat) : option klbs_context :=
  match n with
  | O => Some ctx
  | S i =>
      ctx ← klbs_write_bit ctx (u32 (Z.shiftr bits (Z.of_nat i)));
      klbs_write_bits_loop (flag_overrun ctx) bits i
  end.

Definition klbs_write_bits (ctx : klbs_context) (bits bitcount : Z) : option klbs_context :=
  klbs_write_bits_loop ctx (u64 bits) (Z.to_nat bitcount).

(** The loop [for (i = reg_used; i <= 8; i++)] writes [9 - reg_used] bits. *)
Fixpoint write_zero_bits (n : nat) (ctx : klbs_context) : option klbs_context :=
  match n with
  | O => Some ctx
  | S n' => ctx ← klbs_write_bit ctx 0; write_zero_bits n' (flag_overrun ctx)
  end.

Definition klbs_write_buffer_complete (ctx : klbs_context) : option klbs_context :=
  if 0 <? bs_reg_used ctx then write_zero_bits (Z.to_nat (9 - bs_reg_used ctx)) ctx
  else Some ctx.

(** ** Reading *)

Definition klbs_read_bit (ctx : klbs_context) : option (Z * klbs_context) :=
  let ctx := if negb (bs_buflen_used ctx <=? bs_buflen ctx) then set_overrun ctx 1 else ctx in
  ctx ← (if bs_reg_used ctx =? 0 then
           let ctx := flag_overrun ctx in
           b ← rd (bs_buf ctx) (bs_buflen_used ctx);
           Some (set_reg (set_pos ctx (bs_buf ctx) (u32 (bs_buflen_used ctx + 1))) 8 b)
         else Some ctx);
  if bs_reg_used ctx <=? 8 then
    let bit := if Z.land (bs_reg ctx) 0x80 =? 0 then 0 else 1 in
    Some (bit, set_reg ctx (bs_reg_used ctx - 1) (u8 (Z.shiftl (bs_reg ctx) 1)))
  else Some (0, ctx).

Definition klbs_read_byte_aligned (ctx : klbs_context) : option (Z * klbs_context) :=
  let ctx := flag_overrun ctx in
  b ← rd (bs_buf ctx) (bs_buflen_used ctx);
  Some (b, set_pos ctx (bs_buf ctx) (u32 (bs_buflen_used ctx + 1))).

Fixpoint klbs_read_bits_loop (n : nat) (ctx : klbs_context) (bits : Z) : option (Z * klbs_context) :=
  match n with
  | O => Some (bits, ctx)
  | S n' =>
      '(b, ctx) ← klbs_read_bit ctx;
      klbs_read_bits_loop n' (flag_overrun ctx) (Z.lor (u64 (Z.shiftl bits 1)) b)
  end.

Definition klbs_read_bits (ctx : klbs_context) (bitcount : Z) : option (Z * klbs_context) :=
  if (bitcount =? 8) && (bs_reg_used ctx =? 0) then klbs_read_byte_aligned ctx
  else klbs_read_bits_loop (Z.to_nat bitcount) ctx 0.

(** The copy of the context is read; only the overrun flag of the original can
    change.  The guard compares a byte position plus a bit count with a byte
    length. *)
Definition klbs_peek_bits (ctx : klbs_context) (bitcount : Z) : option (Z * klbs_context) :=
  let ctx := if bs_buflen ctx <=? u32 (bs_buflen_used ctx + bitcount)
             then set_overrun ctx 1 else ctx in
  '(v, _) ← klbs_read_bits ctx bitcount;
  Some (v, ctx).

Fixpoint read_byte_stuff_from (fuel : nat) (ctx : klbs_context) : option klbs_context :=
  match fuel with
  | O => None
  | S fuel' =>
      if 0 <? bs_reg_used ctx then
        '(_, ctx) ← klbs_read_bit ctx;
        read_byte_stuff_from fuel' (flag_overrun ctx)
      else Some ctx
  end.

Definition klbs_read_byte_stuff (ctx : klbs_context) : option klbs_context :=
  read_byte_stuff_from 9 ctx.

(** ** Moving bits between two contexts *)

Fixpoint klbs_bitmove (dst src : klbs_context) (bits : nat) : option (klbs_context * klbs_context) :=
  match bits with
  | O => Some (dst, src)
  | S n =>
      '(b, src) ← klbs_read_bit src;
      dst ← klbs_write_bit dst b;
      klbs_bitmove dst src n
  end.

(** The state of [src] but its overrun flag is left alone. *)
Definition klbs_bitcopy (dst src : klbs_context) (bits : nat) : option (klbs_context * klbs_context) :=
  let copy := src in
  let over := (bs_buflen src <=? bs_buflen_used src + Z.of_nat bits)
              || (bs_buflen dst <=? bs_buflen_used dst + Z.of_nat bits) in
  let src := if over then set_overrun src 1 else src in
  let dst := if over then set_overrun dst 1 else dst in
  '(dst, _) ← klbs_bitmove dst copy bits;
  Some (dst, src).

(** ** Specification: sequences of bits (Bits.v) *)

(** What a writer has written: the finished bytes, then the register. *)
Definition written (ctx : klbs_context) : list bool :=
  buf_bits (take (Z.to_nat (bs_buflen_used ctx)) (bs_buf ctx))
  ++ bits_of (Z.to_nat (bs_reg_used ctx)) (bs_reg ctx).

(** What a reader has not read: the register, then the rest of the buffer. *)
Definition unread (ctx : klbs_context) : list bool :=
  take (Z.to_nat (bs_reg_used ctx)) (byte_bits (bs_reg ctx))
  ++ buf_bits (drop (Z.to_nat (bs_buflen_used ctx)) (take (Z.to_nat (bs_buflen ctx)) (bs_buf ctx))).

(** Well-formed contexts: the register is a byte, positions are in range. *)
Record klbs_wf (ctx : klbs_context) : Prop := {
  wf_buf : bytes (bs_buf ctx);
  wf_len : 0 <= bs_buflen ctx <= len (bs_buf ctx);
  wf_max : bs_buflen ctx < 2 ^ 32;
  wf_used : 0 <= bs_buflen_used ctx <= bs_buflen ctx;
  wf_reg : is_byte (bs_reg ctx);
  wf_reg_used : 0 <= bs_reg_used ctx < 8
}.

(** ** Facts: the shift register *)

(** Shifting a bit into the register appends it. *)
Lemma register_shift_in n reg bit :
  (n < 8)%nat ->
  bits_of (S n) (Z.lor (u8 (Z.shiftl reg 1)) (Z.land bit 1)) = bits_of n reg ++ [Z.odd bit].
Proof.
  intros Hn. rewrite bits_of_snoc. f_equal.
  - apply bits_of_ext. intros i Hi.
    rewrite Z.shiftr_spec, Z.lor_spec, u8_testbit, Z.shiftl_spec, Z.land_spec by lia.
    rewrite (testbit_small 1 1 (i + 1)) by lia. rewrite andb_false_r, orb_false_r. zdec.
    cbn [andb]. f_equal. lia.
  - rewrite Z.lor_spec, u8_testbit, Z.land_spec, (Z.shiftl_spec_low reg) by lia.
    rewrite Z.bit0_odd. by destruct (Z.odd bit).
Qed.

(** Shifting a bit out of the register drops the first one. *)
Lemma register_shift_out reg :
  byte_bits (u8 (Z.shiftl reg 1)) = tail (byte_bits reg) ++ [false].
Proof.
  unfold byte_bits. cbn [bits_of tail app Z.of_nat].
  rewrite !u8_testbit by lia. rewrite !Z.shiftl_spec by lia. reflexivity.
Qed.

Lemma register_top reg : (if Z.land reg 0x80 =? 0 then 0 else 1) = Z.b2z (Z.testbit reg 7).
Proof. change 0x80 with (2 ^ 7). rewrite land_bit_zero by lia. by destruct (Z.testbit reg 7). Qed.

Lemma lor_bit_byte reg bit : is_byte (Z.lor (u8 (Z.shiftl reg 1)) (Z.land bit 1)).
Proof.
  rewrite (land_ones_mod bit 1), Z.shiftl_mul_pow2 by done.
  rewrite (lor_high_low _ _ 1) by zlia. zlia.
Qed.

(** ** Facts: writing *)

(** [flag_overrun] only touches the flag. *)
Lemma flag_overrun_id ctx : bs_buflen_used ctx < bs_buflen ctx -> flag_overrun ctx = ctx.
Proof. intros H. unfold flag_overrun. by zdec. Qed.

Lemma flag_overrun_written ctx : written (flag_overrun ctx) = written ctx.
Proof. unfold flag_overrun. by case_match. Qed.
Lemma flag_overrun_unread ctx : unread (flag_overrun ctx) = unread ctx.
Proof. unfold flag_overrun. by case_match. Qed.
Lemma flag_overrun_wf ctx : klbs_wf ctx -> klbs_wf (flag_overrun ctx).
Proof. unfold flag_overrun. intros [? ? ? ? ? ?]. case_match; by constructor. Qed.
Lemma flag_overrun_buflen ctx : bs_buflen (flag_overrun ctx) = bs_buflen ctx.
Proof. unfold flag_overrun. by case_match. Qed.
Lemma flag_overrun_buf ctx : bs_buf (flag_overrun ctx) = bs_buf ctx.
Proof. unfold flag_overrun. by case_match. Qed.
Lemma flag_overrun_used ctx : bs_buflen_used (flag_overrun ctx) = bs_buflen_used ctx.
Proof. unfold flag_overrun. by case_match. Qed.
Lemma flag_overrun_reg_used ctx : bs_reg_used (flag_overrun ctx) = bs_reg_used ctx.
Proof. unfold flag_overrun. by case_match. Qed.

Create Rewrite HintDb flag.
#[export] Hint Rewrite flag_overrun_written flag_overrun_unread flag_overrun_buflen
  flag_overrun_buf flag_overrun_used flag_overrun_reg_used : flag.
#[export] Hint Resolve flag_overrun_wf : cint.

Lemma length_written ctx :
  klbs_wf ctx -> Z.of_nat (length (written ctx)) = 8 * bs_buflen_used ctx + bs_reg_used ctx.
Proof.
  intros [_ Hl _ Hu _ Hr]. unfold written. rewrite length_app, length_buf_bits, length_bits_of, length_take.
  unfold len in Hl. lia.
Qed.

Lemma take_snoc_set_at p i v : 0 <= i < len p ->
  take (Z.to_nat (i + 1)) (set_at p i v) = take (Z.to_nat i) p ++ [v].
Proof.
  unfold set_at, len. intros Hi. replace (Z.to_nat (i + 1)) with (S (Z.to_nat i)) by lia.
  rewrite insert_take_drop by lia. rewrite take_app.
  rewrite take_ge by (rewrite length_take; lia). f_equal. rewrite length_take.
  replace (S (Z.to_nat i) - _)%nat with 1%nat by lia. done.
Qed.

(** A writer with room appends one bit and stays in its buffer. *)
Lemma write_bit_spec ctx bit :
  klbs_wf ctx -> Z.of_nat (length (written ctx)) < 8 * bs_buflen ctx ->
  exists ctx', klbs_write_bit ctx bit = Some ctx' /\ klbs_wf ctx' /\
    written ctx' = written ctx ++ [Z.odd bit] /\
    bs_buflen ctx' = bs_buflen ctx /\ len (bs_buf ctx') = len (bs_buf ctx).
Proof.
  intros Hwf Hroom. rewrite length_written in Hroom by done. assert (Hwf' := Hwf).
  destruct Hwf as [Hb Hl Hm Hu Hreg Hru]. unfold klbs_write_bit.
  rewrite flag_overrun_id by lia. zdec. cbn [set_reg bs_reg_used].
  destruct (Z.eqb_spec (bs_reg_used ctx + 1) 8) as [E|E].
  - rewrite flag_overrun_id by (cbn; lia). cbn [set_reg bs_buf bs_buflen_used bs_reg set_pos].
    rewrite wr_Some by lia. step. eexists. split; [reflexivity|].
    rewrite u32_id by lia. split; [|split; [|split; [done|apply len_set_at]]].
    + constructor; cbn; rewrite ?len_set_at; try lia; try done; [|apply lor_bit_byte].
      apply bytes_set_at; [done|apply lor_bit_byte].
    + unfold written. cbn [bs_buf bs_buflen_used bs_reg_used bs_reg set_reg set_pos].
      rewrite take_snoc_set_at by lia. rewrite buf_bits_app, app_nil_r, <- app_assoc. f_equal.
      rewrite <- register_shift_in by lia. replace (S (Z.to_nat (bs_reg_used ctx))) with 8%nat by lia.
      apply app_nil_r.
  - eexists. split; [reflexivity|]. split; [|split; [|done]].
    + constructor; cbn; try lia; try done. apply lor_bit_byte.
    + unfold written. cbn [bs_buf bs_buflen_used bs_reg_used bs_reg set_reg set_pos].
      rewrite <- app_assoc. f_equal. rewrite <- register_shift_in by lia. f_equal. lia.
Qed.

Lemma odd_shifted_u32 bits i : 0 <= i -> Z.odd (u32 (Z.shiftr bits i)) = Z.testbit bits i.
Proof.
  intros Hi. rewrite <- Z.bit0_odd. change (u32 ?x) with (x mod 2 ^ 32).
  rewrite Z.mod_pow2_bits_low, Z.shiftr_spec by lia. f_equal.
Qed.

Lemma write_bits_loop_spec n : forall ctx bits,
  klbs_wf ctx -> Z.of_nat (length (written ctx)) + Z.of_nat n <= 8 * bs_buflen ctx ->
  exists ctx', klbs_write_bits_loop ctx bits n = Some ctx' /\ klbs_wf ctx' /\
    written ctx' = written ctx ++ bits_of n bits /\
    bs_buflen ctx' = bs_buflen ctx /\ len (bs_buf ctx') = len (bs_buf ctx).
Proof.
  induction n as [|n IH]; intros ctx bits Hwf Hroom; cbn [klbs_write_bits_loop bits_of].
  - exists ctx. by rewrite app_nil_r.
  - destruct (write_bit_spec ctx (u32 (Z.shiftr bits (Z.of_nat n)))) as (c1 & -> & Hw1 & Hb1 & Hl1 & Hn1);
      [done|lia|]. step.
    destruct (IH (flag_overrun c1) bits) as (c2 & -> & Hw2 & Hb2 & Hl2 & Hn2); [by apply flag_overrun_wf|..].
    { autorewrite with flag. rewrite Hb1, Hl1, length_app. cbn [length]. lia. }
    autorewrite with flag in *. exists c2. split; [done|]. split; [done|].
    rewrite Hb2, Hb1, odd_shifted_u32, <- app_assoc by lia. split; [done|]. split; congruence.
Qed.

(** [klbs_write_bits] appends the low [bitcount] bits of its argument. *)
Lemma write_bits_spec ctx bits n :
  klbs_wf ctx -> 0 <= n <= 64 -> Z.of_nat (length (written ctx)) + n <= 8 * bs_buflen ctx ->
  exists ctx', klbs_write_bits ctx bits n = Some ctx' /\ klbs_wf ctx' /\
    written ctx' = written ctx ++ bits_of (Z.to_nat n) bits /\
    bs_buflen ctx' = bs_buflen ctx /\ len (bs_buf ctx') = len (bs_buf ctx).
Proof.
  intros Hwf Hn Hroom. unfold klbs_write_bits.
  destruct (write_bits_loop_spec (Z.to_nat n) ctx (u64 bits)) as (c & -> & Hw & Hb & Hl & Hlen);
    [done|lia|]. exists c. split; [done|]. split; [done|]. split; [|done]. rewrite Hb. f_equal.
  apply bits_of_ext. intros i Hi. change (u64 bits) with (bits mod 2 ^ 64).
  by rewrite Z.mod_pow2_bits_low by lia.
Qed.

(** Stuffing completes the current byte with copies of the bit. *)
Lemma write_byte_stuff_from_spec bit fuel : forall ctx,
  klbs_wf ctx -> Z.of_nat (length (written ctx)) <= 8 * bs_buflen ctx ->
  (Z.to_nat ((8 - bs_reg_used ctx) mod 8) < fuel)%nat ->
  exists ctx', write_byte_stuff_from fuel ctx bit = Some ctx' /\ klbs_wf ctx' /\
    written ctx' = written ctx ++ replicate (Z.to_nat ((8 - bs_reg_used ctx) mod 8)) (Z.odd bit) /\
    bs_reg_used ctx' = 0 /\
    bs_buflen ctx' = bs_buflen ctx /\ len (bs_buf ctx') = len (bs_buf ctx).
Proof.
  induction fuel as [|fuel IH]; intros ctx Hwf Hroom Hf; [lia|]. cbn [write_byte_stuff_from].
  assert (Hru := wf_reg_used ctx Hwf). assert (Hlw := length_written ctx Hwf).
  destruct (Z.ltb_spec 0 (bs_reg_used ctx)).
  2: { exists ctx. replace (bs_reg_used ctx) with 0 by lia. cbn. by rewrite app_nil_r. }
  assert (Hu := wf_used ctx Hwf).
  destruct (write_bit_spec ctx bit) as (c1 & -> & Hw1 & Hb1 & Hl1 & Hn1); [done|lia|]. step.
  assert (Hlw1 := length_written c1 Hw1). rewrite Hb1, length_app in Hlw1. cbn [length] in Hlw1.
  assert (Hru1 := wf_reg_used c1 Hw1).
  assert (Hmod : Z.to_nat ((8 - bs_reg_used ctx) mod 8) = S (Z.to_nat ((8 - bs_reg_used c1) mod 8))).
  { zlia. }
  destruct (IH (flag_overrun c1)) as (c2 & -> & Hw2 & Hb2 & Hr2 & Hl2 & Hn2); autorewrite with flag.
  - by apply flag_overrun_wf.
  - rewrite Hb1, Hl1, length_app. cbn [length]. lia.
  - lia.
  - autorewrite with flag in *. exists c2. split; [done|]. split; [done|].
    rewrite Hmod, Hb2, Hb1, <- app_assoc. cbn [replicate app]. split; [done|]. split; [done|].
    split; congruence.
Qed.

Lemma write_byte_stuff_spec ctx bit :
  klbs_wf ctx -> Z.of_nat (length (written ctx)) <= 8 * bs_buflen ctx ->
  exists ctx', klbs_write_byte_stuff ctx bit = Some ctx' /\ klbs_wf ctx' /\
    written ctx' = written ctx ++ replicate (Z.to_nat ((8 - bs_reg_used ctx) mod 8)) (Z.odd bit) /\
    bs_reg_used ctx' = 0 /\
    bs_buflen ctx' = bs_buflen ctx /\ len (bs_buf ctx') = len (bs_buf ctx).
Proof.
  intros Hwf Hroom. apply write_byte_stuff_from_spec; [done|done|].
  pose proof (Z.mod_pos_bound (8 - bs_reg_used ctx) 8 ltac:(lia)). lia.
Qed.

(** ** Facts: reading *)

(** The first bit of the register, and the register after a read. *)
Lemma take_register n reg :
  (0 < n <= 8)%nat ->
  take n (byte_bits reg) =
  Z.testbit reg 7 :: take (n - 1)%nat (byte_bits (u8 (Z.shiftl reg 1))).
Proof.
  intros Hn. rewrite register_shift_out.
  rewrite take_app_le by (cbn; lia). by destruct n as [|n]; [lia|rewrite Nat.sub_1_r].
Qed.

Lemma unread_bytes ctx : klbs_wf ctx -> bs_buflen_used ctx < bs_buflen ctx ->
  drop (Z.to_nat (bs_buflen_used ctx)) (take (Z.to_nat (bs_buflen ctx)) (bs_buf ctx)) =
  byte_at (bs_buf ctx) (bs_buflen_used ctx)
  :: drop (Z.to_nat (bs_buflen_used ctx + 1)) (take (Z.to_nat (bs_buflen ctx)) (bs_buf ctx)).
Proof.
  intros [_ Hl _ Hu _ _] Hlt. rewrite drop_cons_byte_at by (rewrite len_take; lia).
  by rewrite byte_at_take by lia.
Qed.

Lemma length_unread ctx :
  klbs_wf ctx ->
  Z.of_nat (length (unread ctx)) = 8 * (bs_buflen ctx - bs_buflen_used ctx) + bs_reg_used ctx.
Proof.
  intros [_ Hl _ Hu _ Hr]. unfold unread.
  rewrite length_app, length_buf_bits, length_drop, !length_take.
  change (length (byte_bits (bs_reg ctx))) with 8%nat. unfold len in Hl. lia.
Qed.

(** The read proper, once the register holds at least one bit. *)
Lemma shift_out_spec ctx :
  klbs_wf (set_reg ctx 0 (bs_reg ctx)) -> 0 < bs_reg_used ctx <= 8 ->
  let ctx' := set_reg ctx (bs_reg_used ctx - 1) (u8 (Z.shiftl (bs_reg ctx) 1)) in
  klbs_wf ctx' /\
  unread ctx = Z.testbit (bs_reg ctx) 7 :: unread ctx' /\
  (if Z.land (bs_reg ctx) 0x80 =? 0 then 0 else 1) = Z.b2z (Z.testbit (bs_reg ctx) 7).
Proof.
  intros [Hb Hl Hm Hu Hr _] Hru. cbn in *. split; [|split].
  - constructor; cbn; try done; [apply u8_is_byte|lia].
  - unfold unread. cbn [bs_buf bs_buflen bs_buflen_used bs_reg_used bs_reg set_reg].
    rewrite take_register by lia. cbn [app]. do 3 f_equal. lia.
  - apply register_top.
Qed.

(** A reader with a bit left returns it and moves on. *)
Lemma read_bit_spec ctx b rest :
  klbs_wf ctx -> unread ctx = b :: rest ->
  exists ctx', klbs_read_bit ctx = Some (Z.b2z b, ctx') /\ klbs_wf ctx' /\ unread ctx' = rest /\
    bs_buf ctx' = bs_buf ctx /\ bs_buflen ctx' = bs_buflen ctx.
Proof.
  intros Hwf Hun. assert (Hlen := length_unread ctx Hwf). rewrite Hun in Hlen. cbn [length] in Hlen.
  assert (Hwf' := Hwf). destruct Hwf' as [Hb Hl Hm Hu Hr Hru].
  unfold klbs_read_bit. zdec. cbn [negb]. destruct (Z.eqb_spec (bs_reg_used ctx) 0) as [E|E].
  - rewrite flag_overrun_id by lia. rewrite rd_Some by lia. step.
    set (c := set_reg _ 8 _). assert (Hc : unread c = unread ctx).
    { unfold unread, c. cbn [bs_buf bs_buflen bs_buflen_used bs_reg_used bs_reg set_reg set_pos].
      rewrite (unread_bytes ctx Hwf) by lia. rewrite u32_id, E by lia. reflexivity. }
    destruct (shift_out_spec c) as (Hw & Hu' & Ht).
    { unfold c. constructor; cbn; try done; try rewrite u32_id by lia; try lia.
      by apply byte_at_is_byte. }
    { cbn. lia. }
    change (bs_reg_used c <=? 8) with true. cbv iota. rewrite Ht, Hc, Hun in *. injection Hu' as -> ->.
    eexists. split; [reflexivity|]. done.
  - step. destruct (shift_out_spec ctx) as (Hw & Hu' & Ht); [by constructor; cbn; try lia|lia|].
    zdec. rewrite Ht, Hun in *. injection Hu' as -> ->. eexists. split; [reflexivity|]. done.
Qed.

Lemma flag_overrun_spec ctx :
  klbs_wf ctx -> klbs_wf (flag_overrun ctx) /\ unread (flag_overrun ctx) = unread ctx /\
    bs_buf (flag_overrun ctx) = bs_buf ctx /\ bs_buflen (flag_overrun ctx) = bs_buflen ctx.
Proof. intros H. autorewrite with flag. split; [by apply flag_overrun_wf|done]. Qed.

Lemma lor_append_bit bits b : 0 <= bits < 2 ^ 63 -> Z.lor (u64 (Z.shiftl bits 1)) (Z.b2z b) = 2 * bits + Z.b2z b.
Proof.
  intros Hb. rewrite u64_id by (rewrite Z.shiftl_mul_pow2; lia).
  rewrite (lor_shiftl_add bits (Z.b2z b) 1) by (destruct b; cbn; lia). lia.
Qed.

Lemma read_bits_loop_spec n : forall ctx bits,
  klbs_wf ctx -> (n <= length (unread ctx))%nat -> (n <= 64)%nat ->
  0 <= bits < 2 ^ (64 - Z.of_nat n) ->
  exists ctx', klbs_read_bits_loop n ctx bits =
      Some (bits * 2 ^ Z.of_nat n + bits_val (take n (unread ctx)), ctx') /\
    klbs_wf ctx' /\ unread ctx' = drop n (unread ctx) /\
    bs_buf ctx' = bs_buf ctx /\ bs_buflen ctx' = bs_buflen ctx.
Proof.
  induction n as [|n IH]; intros ctx bits Hwf Hroom Hn Hbits; cbn [klbs_read_bits_loop].
  - exists ctx. split; [|done]. do 2 f_equal. rewrite take_0, Z.pow_0_r, Z.mul_1_r.
    symmetry. apply Z.add_0_r.
  - destruct (unread ctx) as [|b rest] eqn:Hun; [cbn in Hroom; lia|]. cbn [length] in Hroom.
    destruct (read_bit_spec ctx b rest Hwf Hun) as (c1 & -> & Hw1 & Hu1 & Hb1 & Hl1). step.
    destruct (flag_overrun_spec c1 Hw1) as (Hw2 & Hu2 & Hb2 & Hl2).
    assert (Hp : 2 ^ (64 - Z.of_nat n) = 2 * 2 ^ (64 - Z.of_nat (S n))).
    { rewrite <- Z.pow_succ_r by lia. f_equal. lia. }
    pose proof (Z.pow_le_mono_r 2 (64 - Z.of_nat (S n)) 63 ltac:(lia) ltac:(lia)).
    rewrite lor_append_bit by lia.
    destruct (IH (flag_overrun c1) (2 * bits + Z.b2z b)) as (c3 & -> & Hw3 & Hu3 & Hb3 & Hl3).
    { done. }
    { rewrite Hu2, Hu1. lia. }
    { lia. }
    { destruct b; cbn [Z.b2z]; lia. }
    exists c3. rewrite Hu3, Hu2, Hu1. split; [|by rewrite Hb3, Hl3, Hb2, Hl2].
    do 2 f_equal. cbn [take]. rewrite bits_val_cons, length_take, Nat.min_l by lia.
    rewrite Nat2Z.inj_succ, Z.pow_succ_r by lia. ring.
Qed.

(** The byte path of [klbs_read_bits]. *)
Lemma read_byte_aligned_spec ctx :
  klbs_wf ctx -> bs_reg_used ctx = 0 -> 8 <= Z.of_nat (length (unread ctx)) ->
  exists ctx', klbs_read_byte_aligned ctx = Some (bits_val (take 8 (unread ctx)), ctx') /\
    klbs_wf ctx' /\ unread ctx' = drop 8 (unread ctx) /\
    bs_buf ctx' = bs_buf ctx /\ bs_buflen ctx' = bs_buflen ctx.
Proof.
  intros Hwf E Hroom. rewrite (length_unread ctx Hwf) in Hroom.
  assert (Hwf' := Hwf). destruct Hwf' as [Hb Hl Hm Hu Hr Hru].
  assert (Hbyte := byte_at_is_byte _ (bs_buflen_used ctx) Hb).
  unfold klbs_read_byte_aligned. rewrite flag_overrun_id, rd_Some by lia. step.
  assert (Hun : unread ctx = byte_bits (byte_at (bs_buf ctx) (bs_buflen_used ctx)) ++
    unread (set_pos ctx (bs_buf ctx) (bs_buflen_used ctx + 1))).
  { unfold unread. cbn [bs_buf bs_buflen bs_buflen_used bs_reg_used bs_reg set_pos].
    rewrite (unread_bytes ctx Hwf) by lia. rewrite E. done. }
  rewrite Hun, u32_id by lia. eexists (set_pos _ _ _). split; [|split; [|split; [|done]]].
  - rewrite (take_app_length' _ _ 8) by done. rewrite bits_val_byte by done. reflexivity.
  - constructor; cbn; try done; lia.
  - by rewrite (drop_app_length' _ _ 8) by done.
Qed.

(** [klbs_read_bits] takes the next [n] bits, on both of its paths. *)
Lemma read_bits_spec ctx n :
  klbs_wf ctx -> 0 <= n <= 64 -> n <= Z.of_nat (length (unread ctx)) ->
  exists ctx', klbs_read_bits ctx n = Some (bits_val (take (Z.to_nat n) (unread ctx)), ctx') /\
    klbs_wf ctx' /\ unread ctx' = drop (Z.to_nat n) (unread ctx) /\
    bs_buf ctx' = bs_buf ctx /\ bs_buflen ctx' = bs_buflen ctx.
Proof.
  intros Hwf Hn Hroom. unfold klbs_read_bits.
  destruct (Z.eqb_spec n 8) as [->|Hn8]; cbn [andb];
    [destruct (Z.eqb_spec (bs_reg_used ctx) 0) as [E|E]; [by apply read_byte_aligned_spec|]|].
  all: match goal with |- context [klbs_read_bits_loop (Z.to_nat ?m) ?x 0] =>
    destruct (read_bits_loop_spec (Z.to_nat m) x 0) as (c & Hc & Hrest);
      [done|lia|lia|split; [lia|apply Z.pow_pos_nonneg; lia]|] end.
  all: rewrite Z.mul_0_l, Z.add_0_l in Hc; by exists c.
Qed.

(** ** Fields: sequences of writes, sequences of reads

    The clients of the header call [klbs_write_bits] (then
    [klbs_write_byte_stuff]) for the fields of a structure and
    [klbs_read_bits] with the same widths. *)

Fixpoint write_fields (ctx : klbs_context) (fields : list (Z * Z)) : option klbs_context :=
  match fields with
  | [] => Some ctx
  | (v, n) :: rest => ctx ← klbs_write_bits ctx v n; write_fields ctx rest
  end.

Fixpoint read_fields (ctx : klbs_context) (widths : list Z) : option (list Z * klbs_context) :=
  match widths with
  | [] => Some ([], ctx)
  | n :: rest =>
      '(v, ctx) ← klbs_read_bits ctx n;
      '(vs, ctx) ← read_fields ctx rest;
      Some (v :: vs, ctx)
  end.

Definition field_ok (f : Z * Z) : Prop := 0 <= f.2 <= 64.
Definition fields_bits (fields : list (Z * Z)) : list bool :=
  concat (map (fun f => bits_of (Z.to_nat f.2) f.1) fields).

Lemma write_fields_spec fields : forall ctx,
  klbs_wf ctx -> Forall field_ok fields ->
  Z.of_nat (length (written ctx) + length (fields_bits fields)) <= 8 * bs_buflen ctx ->
  exists ctx', write_fields ctx fields = Some ctx' /\ klbs_wf ctx' /\
    written ctx' = written ctx ++ fields_bits fields /\
    bs_buflen ctx' = bs_buflen ctx /\ len (bs_buf ctx') = len (bs_buf ctx).
Proof.
  induction fields as [|[v n] fields IH]; intros ctx Hwf Hf Hroom.
  - exists ctx. split; [done|]. split; [done|]. split; [|done]. by rewrite app_nil_r.
  - apply Forall_cons_1 in Hf as [Hn Hf]. unfold field_ok in Hn. cbn in Hn.
    unfold fields_bits in Hroom. cbn [map concat fst snd] in Hroom.
    rewrite length_app, length_bits_of in Hroom. cbn [write_fields].
    destruct (write_bits_spec ctx v n) as (c1 & -> & Hw1 & Hb1 & Hl1 & Hn1); [done|done|lia|]. step.
    destruct (IH c1) as (c2 & -> & Hw2 & Hb2 & Hl2 & Hn2); [done|done|..].
    { rewrite Hb1, Hl1, length_app, length_bits_of. unfold fields_bits. lia. }
    exists c2. split; [done|]. split; [done|]. rewrite Hb2, Hb1, <- app_assoc. split; [done|].
    split; congruence.
Qed.

Lemma read_fields_spec fields : forall ctx rest,
  klbs_wf ctx -> Forall field_ok fields -> unread ctx = fields_bits fields ++ rest ->
  exists ctx', read_fields ctx (map snd fields) =
      Some (map (fun f => f.1 mod 2 ^ f.2) fields, ctx') /\
    klbs_wf ctx' /\ unread ctx' = rest.
Proof.
  induction fields as [|[v n] fields IH]; intros ctx rest Hwf Hf Hun; [by exists ctx|].
  apply Forall_cons_1 in Hf as [Hn Hf]. unfold field_ok in Hn. cbn in Hn.
  unfold fields_bits in Hun. cbn [map concat fst snd] in Hun. rewrite <- app_assoc in Hun.
  fold (fields_bits fields) in Hun. cbn [map read_fields fst snd].
  assert (Hlen := length_bits_of (Z.to_nat n) v).
  destruct (read_bits_spec ctx n) as (c1 & -> & Hw1 & Hu1 & _); [done|done|..].
  { rewrite Hun, length_app. lia. }
  rewrite Hun, drop_app_length' in Hu1 by done. step.
  destruct (IH c1 rest Hw1 Hf Hu1) as (c2 & -> & Hw2 & Hu2). step. exists c2. split; [|done].
  rewrite Hun, take_app_length', bits_val_bits_of, Z2Nat.id by done || lia. done.
Qed.

Lemma set_buffer_wf buf n :
  bytes buf -> 0 <= n <= len buf -> n < 2 ^ 32 -> klbs_wf (klbs_write_set_buffer buf n).
Proof. intros. constructor; cbn; try done; try lia. Qed.

Lemma written_set_buffer buf n : written (klbs_write_set_buffer buf n) = [].
Proof. reflexivity. Qed.

(** Reading back what a finished writer has in its buffer. *)
Lemma unread_written ctx :
  klbs_wf ctx -> bs_reg_used ctx = 0 ->
  unread (klbs_read_set_buffer (bs_buf ctx) (bs_buflen_used ctx)) = written ctx.
Proof.
  intros Hwf E. unfold unread, written, klbs_read_set_buffer. rewrite E. cbn.
  by rewrite app_nil_r.
Qed.

(** Moving [n] bits appends the next [n] bits of the source to the destination. *)
Lemma bitmove_spec n : forall dst src,
  klbs_wf dst -> klbs_wf src -> (n <= length (unread src))%nat ->
  Z.of_nat (length (written dst) + n) <= 8 * bs_buflen dst ->
  exists dst' src', klbs_bitmove dst src n = Some (dst', src') /\ klbs_wf dst' /\ klbs_wf src' /\
    written dst' = written dst ++ take n (unread src) /\ unread src' = drop n (unread src).
Proof.
  induction n as [|n IH]; intros dst src Hd Hs Hn Hroom; cbn [klbs_bitmove].
  - exists dst, src. by rewrite take_0, drop_0, app_nil_r.
  - destruct (unread src) as [|b rest] eqn:Hun; [cbn in Hn; lia|]. cbn [length] in Hn.
    destruct (read_bit_spec src b rest Hs Hun) as (s1 & -> & Hs1 & Hu1 & _). step.
    destruct (write_bit_spec dst (Z.b2z b) Hd) as (d1 & -> & Hd1 & Hw1 & Hl1 & _); [lia|]. step.
    destruct (IH d1 s1 Hd1 Hs1) as (d2 & s2 & -> & Hd2 & Hs2 & Hw2 & Hu2).
    { rewrite Hu1. lia. }
    { rewrite Hl1, Hw1, length_app. cbn [length]. lia. }
    exists d2, s2. split; [done|]. split; [done|]. split; [done|].
    rewrite Hw2, Hu2, Hw1, Hu1, <- app_assoc. cbn [take drop app]. by destruct b.
Qed.

(** *** The overrun flag *)

Lemma read_bit_overrun ctx v ctx' :
  klbs_wf ctx -> unread ctx <> [] -> klbs_read_bit ctx = Some (v, ctx') ->
  bs_overrun ctx' = bs_overrun ctx.
Proof.
  intros Hwf Hun. assert (Hlen := length_unread ctx Hwf).
  destruct (unread ctx) as [|b rest]; [done|]. cbn [length] in Hlen.
  destruct Hwf as [Hb Hl Hm Hu Hr Hru]. unfold klbs_read_bit. zdec. cbn [negb].
  destruct (Z.eqb_spec (bs_reg_used ctx) 0) as [E|E].
  - rewrite flag_overrun_id by lia. rewrite rd_Some by lia. step.
    intros [= <- <-]. done.
  - step. zdec. by intros [= <- <-].
Qed.

(** The flag says that the buffer position has reached the end. *)
Definition overrun_is_end (ctx : klbs_context) : Prop :=
  bs_overrun ctx = (if bs_buflen ctx <=? bs_buflen_used ctx then 1 else 0).

Lemma read_bit_end ctx v ctx' rest b :
  klbs_wf ctx -> unread ctx = b :: rest -> overrun_is_end ctx ->
  klbs_read_bit ctx = Some (v, ctx') -> overrun_is_end (flag_overrun ctx').
Proof.
  intros Hwf Hun Hend Hr. destruct (read_bit_spec ctx b rest Hwf Hun) as (c & Hc & Hw & Hu & _ & Hl).
  rewrite Hr in Hc. injection Hc as -> ->.
  pose proof (length_unread ctx Hwf) as L1. pose proof (length_unread c Hw) as L2.
  rewrite Hun in L1. rewrite Hu in L2. cbn [length] in L1.
  pose proof (wf_reg_used _ Hw). pose proof (wf_reg_used _ Hwf).
  apply read_bit_overrun in Hr; [|done|by rewrite Hun].
  unfold overrun_is_end in *. autorewrite with flag. unfold flag_overrun.
  destruct (Z.leb_spec (bs_buflen c) (bs_buflen_used c)); [done|].
  rewrite Hr, Hend. zdec. done.
Qed.

Lemma read_bits_loop_end n : forall ctx bits v ctx',
  klbs_wf ctx -> (n <= length (unread ctx))%nat -> overrun_is_end ctx ->
  klbs_read_bits_loop n ctx bits = Some (v, ctx') -> overrun_is_end ctx'.
Proof.
  induction n as [|n IH]; intros ctx bits v ctx' Hwf Hn Hend; cbn [klbs_read_bits_loop].
  - by intros [= <- <-].
  - destruct (unread ctx) as [|b rest] eqn:Hun; [cbn in Hn; lia|]. cbn [length] in Hn.
    destruct (read_bit_spec ctx b rest Hwf Hun) as (c1 & Hc & Hw1 & Hu1 & _).
    rewrite Hc. step. apply IH.
    + by apply flag_overrun_wf.
    + rewrite flag_overrun_unread, Hu1. lia.
    + exact (read_bit_end ctx _ c1 rest b Hwf Hun Hend Hc).
Qed.

(** Reading raises the flag at the end only. *)
Definition overrun_late (ctx : klbs_context) : Prop := bs_overrun ctx = 0 \/ bs_buflen ctx <= bs_buflen_used ctx.

Lemma flag_overrun_late ctx : overrun_late ctx -> overrun_late (flag_overrun ctx).
Proof. unfold overrun_late, flag_overrun. destruct (Z.leb_spec (bs_buflen ctx) (bs_buflen_used ctx)); cbn; lia. Qed.

Lemma read_bits_loop_late n : forall ctx bits v ctx',
  klbs_wf ctx -> (n <= length (unread ctx))%nat -> overrun_late ctx ->
  klbs_read_bits_loop n ctx bits = Some (v, ctx') -> overrun_late ctx'.
Proof.
  induction n as [|n IH]; intros ctx bits v ctx' Hwf Hn Hend; cbn [klbs_read_bits_loop].
  - by intros [= <- <-].
  - destruct (unread ctx) as [|b rest] eqn:Hun; [cbn in Hn; lia|]. cbn [length] in Hn.
    destruct (read_bit_spec ctx b rest Hwf Hun) as (c1 & Hc & Hw1 & Hu1 & _ & Hl1).
    rewrite Hc. step. apply IH.
    + by apply flag_overrun_wf.
    + rewrite flag_overrun_unread, Hu1. lia.
    + apply flag_overrun_late. pose proof (length_unread ctx Hwf) as L1. pose proof (length_unread c1 Hw1) as L2.
      rewrite Hun in L1. rewrite Hu1 in L2. cbn [length] in L1.
      pose proof (wf_reg_used _ Hw1). pose proof (wf_reg_used _ Hwf).
      apply read_bit_overrun in Hc; [|done|by rewrite Hun]. unfold overrun_late in *. rewrite Hc, Hl1. lia.
Qed.

Lemma read_bits_late ctx n v ctx' : klbs_wf ctx -> n <= Z.of_nat (length (unread ctx)) -> overrun_late ctx ->
  klbs_read_bits ctx n = Some (v, ctx') -> overrun_late ctx'.
Proof.
  intros Hwf Hn Hend. unfold klbs_read_bits. destruct (Z.eqb_spec n 8) as [->|]; cbn [andb].
  - destruct (Z.eqb_spec (bs_reg_used ctx) 0) as [E|E].
    + pose proof (length_unread ctx Hwf). pose proof Hwf as []. unfold klbs_read_byte_aligned.
      rewrite flag_overrun_id by lia. rewrite rd_Some by lia. step. intros [= <- <-].
      unfold overrun_late in *. cbn. rewrite u32_id by lia. lia.
    + apply read_bits_loop_late; [done|lia|done].
  - apply read_bits_loop_late; [done|lia|done].
Qed.

(** ** Properties *)

(** C29: what a writer stores a reader reads back: any sequence of fields of 0
    to 64 bits that fits in the buffer, written with [klbs_write_bits] and
    completed with [klbs_write_byte_stuff], occupies the rounded-up number of
    bytes; [klbs_read_bits] with the same widths returns each value modulo 2
    to its width, whatever the alignment of the fields. *)
Theorem klbs_roundtrip (buf : list Z) (fields : list (Z * Z)) (bit : Z) :
  bytes buf -> len buf < 2 ^ 32 -> Forall field_ok fields ->
  Z.of_nat (length (fields_bits fields)) <= 8 * len buf ->
  exists ctx rctx,
    (c ← write_fields (klbs_write_set_buffer buf (len buf)) fields; klbs_write_byte_stuff c bit)
      = Some ctx /\
    len (bs_buf ctx) = len buf /\
    klbs_get_byte_count ctx = (Z.of_nat (length (fields_bits fields)) + 7) / 8 /\
    read_fields (klbs_read_set_buffer (bs_buf ctx) (klbs_get_byte_count ctx)) (map snd fields)
      = Some (map (fun f => f.1 mod 2 ^ f.2) fields, rctx).
Proof.
  intros Hb Hmax Hf Hroom. pose proof (len_nonneg buf).
  assert (Hwf := set_buffer_wf buf (len buf) Hb ltac:(lia) Hmax).
  destruct (write_fields_spec fields _ Hwf Hf) as (c1 & -> & Hw1 & Hb1 & Hl1 & Hn1).
  { rewrite written_set_buffer. cbn [length bs_buflen klbs_write_set_buffer]. lia. }
  step. assert (L1 := length_written c1 Hw1). rewrite written_set_buffer in Hb1.
  cbn [app bs_buflen bs_buf klbs_write_set_buffer] in Hb1, Hl1, Hn1.
  assert (U1 := wf_used c1 Hw1). rewrite Hb1 in L1.
  destruct (write_byte_stuff_spec c1 bit Hw1) as (c2 & -> & Hw2 & Hb2 & Hr2 & Hl2 & Hn2).
  { rewrite Hb1, Hl1. lia. }
  assert (L2 := length_written c2 Hw2). rewrite Hb2, length_app, length_replicate, Hb1, Hr2 in L2.
  destruct (read_fields_spec fields (klbs_read_set_buffer (bs_buf c2) (bs_buflen_used c2))
    (replicate (Z.to_nat ((8 - bs_reg_used c1) mod 8)) (Z.odd bit))) as (c3 & H3 & _).
  { destruct Hw2. apply set_buffer_wf; [done|lia|lia]. }
  { done. }
  { rewrite unread_written by done. by rewrite Hb2, Hb1. }
  exists c2, c3. split; [done|]. split; [congruence|]. split; [|done].
  unfold klbs_get_byte_count. pose proof (wf_reg_used c1 Hw1).
  rewrite Nat2Z.inj_add, Z2Nat.id in L2 by (apply Z.mod_pos_bound; lia).
  clear - L1 L2 H0. zlia.
Qed.

Lemma klbs_roundtrip_witness :
  exists ctx rctx,
    (c ← write_fields (klbs_write_set_buffer [0; 0; 0; 0] 4) [(5, 3); (0x1ff, 9); (300, 8)];
     klbs_write_byte_stuff c 1) = Some ctx /\
    len (bs_buf ctx) = 4 /\ klbs_get_byte_count ctx = 3 /\
    read_fields (klbs_read_set_buffer (bs_buf ctx) (klbs_get_byte_count ctx)) [3; 9; 8]
      = Some ([5; 511; 44], rctx).
Proof.
  apply (klbs_roundtrip [0; 0; 0; 0] [(5, 3); (0x1ff, 9); (300, 8)] 1).
  - by apply bytes_check.
  - done.
  - repeat constructor; done.
  - vm_compute. done.
Defined.

(** [klbs_bitmove] copies the bits unchanged: after it the destination has
    exactly the next [n] unread bits of the source appended, and the source has
    exactly those bits consumed, whatever the two alignments are. *)
Theorem klbs_bitmove_copies (dst src : klbs_context) (n : nat) :
  klbs_wf dst -> klbs_wf src -> (n <= length (unread src))%nat ->
  Z.of_nat (length (written dst) + n) <= 8 * bs_buflen dst ->
  exists dst' src', klbs_bitmove dst src n = Some (dst', src') /\
    written dst' = written dst ++ take n (unread src) /\
    unread src = take n (unread src) ++ unread src'.
Proof.
  intros Hd Hs Hn Hroom.
  destruct (bitmove_spec n dst src Hd Hs Hn Hroom) as (d & s & E & _ & _ & Hw & Hu).
  exists d, s. split; [done|]. split; [done|]. by rewrite Hu, take_drop.
Qed.

Lemma klbs_bitmove_copies_witness :
  exists dst' src',
    klbs_bitmove (klbs_write_set_buffer [0; 0] 2) (klbs_read_set_buffer [0xa5; 0x3c] 2) 12
      = Some (dst', src') /\
    written dst' = [true; false; true; false; false; true; false; true; false; false; true; true] /\
    unread (klbs_read_set_buffer [0xa5; 0x3c] 2) =
      [true; false; true; false; false; true; false; true; false; false; true; true] ++ unread src'.
Proof.
  apply (klbs_bitmove_copies (klbs_write_set_buffer [0; 0] 2) (klbs_read_set_buffer [0xa5; 0x3c] 2) 12).
  - apply set_buffer_wf; [by apply bytes_check|by vm_compute|done].
  - apply set_buffer_wf; [by apply bytes_check|by vm_compute|done].
  - vm_compute. lia.
  - vm_compute. done.
Defined.

(** C39: the overrun flag does not mean that bits were read past the end: after
    an in-range [klbs_read_bits] off the byte path the value is the next [n]
    bits of the buffer and the flag is set exactly when the last byte of the
    buffer has been fetched, even while up to 7 of its bits are still unread. *)
Theorem klbs_read_bits_overrun (ctx : klbs_context) (n : Z) :
  klbs_wf ctx -> overrun_is_end ctx -> 0 <= n <= 64 ->
  (n <> 8 \/ bs_reg_used ctx <> 0) -> n <= Z.of_nat (length (unread ctx)) ->
  exists ctx', klbs_read_bits ctx n = Some (bits_val (take (Z.to_nat n) (unread ctx)), ctx') /\
    (bs_overrun ctx' = 1 <-> Z.of_nat (length (unread ctx')) < 8).
Proof.
  intros Hwf Hend Hn Hpath Hroom.
  destruct (read_bits_spec ctx n Hwf Hn Hroom) as (c & Hc & Hw & Hu & _). exists c.
  split; [done|]. assert (Hend' : overrun_is_end c).
  { unfold klbs_read_bits in Hc. destruct ((n =? 8) && (bs_reg_used ctx =? 0)) eqn:E; [zbool; lia|].
    eapply (read_bits_loop_end (Z.to_nat n)); [exact Hwf|lia|done|exact Hc]. }
  rewrite Hend', length_unread by done.
  destruct (Z.leb_spec (bs_buflen c) (bs_buflen_used c)); destruct Hw; lia.
Qed.

Lemma klbs_read_bits_overrun_witness :
  exists ctx', klbs_read_bits (klbs_read_set_buffer [0xa5] 1) 3 = Some (5, ctx') /\
    (bs_overrun ctx' = 1 <-> Z.of_nat (length (unread ctx')) < 8).
Proof.
  apply (klbs_read_bits_overrun (klbs_read_set_buffer [0xa5] 1) 3).
  - apply set_buffer_wf; [by apply bytes_check|by vm_compute|done].
  - reflexivity.
  - lia.
  - left. lia.
  - vm_compute. done.
Defined.

(** *** [klbs_write_buffer_complete] *)

Lemma write_zero_bits_spec n : forall ctx,
  klbs_wf ctx -> Z.of_nat (length (written ctx) + n) <= 8 * bs_buflen ctx ->
  exists ctx', write_zero_bits n ctx = Some ctx' /\ klbs_wf ctx' /\
    written ctx' = written ctx ++ replicate n false.
Proof.
  induction n as [|n IH]; intros ctx Hwf Hroom; cbn [write_zero_bits replicate].
  - exists ctx. by rewrite app_nil_r.
  - destruct (write_bit_spec ctx 0 Hwf) as (c1 & -> & Hw1 & Hb1 & Hl1 & _); [lia|]. step.
    destruct (IH (flag_overrun c1)) as (c2 & -> & Hw2 & Hb2); autorewrite with flag in *.
    + by apply flag_overrun_wf.
    + rewrite Hl1, Hb1, length_app. cbn [length]. lia.
    + exists c2. split; [done|]. split; [done|]. by rewrite Hb2, Hb1, <- app_assoc.
Qed.

(** [klbs_write_buffer_complete] on a partly filled register writes one
    zero bit more than the padding: the finished byte is flushed, but the
    register then holds one bit, so the context is not byte aligned and a
    second call emits a spurious zero byte. *)
Theorem klbs_write_buffer_complete_extra_bit (ctx : klbs_context) :
  klbs_wf ctx -> 0 < bs_reg_used ctx -> bs_buflen_used ctx + 2 <= bs_buflen ctx ->
  exists ctx', klbs_write_buffer_complete ctx = Some ctx' /\
    written ctx' = written ctx ++ replicate (Z.to_nat (8 - bs_reg_used ctx)) false ++ [false] /\
    klbs_get_byte_count ctx' = klbs_get_byte_count ctx + 1 /\ bs_reg_used ctx' = 1.
Proof.
  intros Hwf Hru Hroom. unfold klbs_write_buffer_complete. zdec.
  assert (L := length_written ctx Hwf). assert (R := wf_reg_used ctx Hwf).
  destruct (write_zero_bits_spec (Z.to_nat (9 - bs_reg_used ctx)) ctx Hwf) as (c & -> & Hw & Hb); [lia|].
  exists c. split; [done|]. assert (L' := length_written c Hw).
  rewrite Hb, length_app, length_replicate in L'. assert (R' := wf_reg_used c Hw). split.
  - rewrite Hb. f_equal. rewrite <- replicate_cons_app. by rewrite <- replicate_S; f_equal; lia.
  - unfold klbs_get_byte_count. lia.
Qed.

Lemma klbs_write_buffer_complete_extra_bit_witness :
  exists ctx', klbs_write_buffer_complete
      {| bs_buf := [0; 0; 0]; bs_buflen := 3; bs_buflen_used := 0; bs_reg_used := 3; bs_reg := 5;
         bs_didAllocateStorage := 0; bs_overrun := 0; bs_truncated := 0 |} = Some ctx' /\
    written ctx' = [true; false; true] ++ [false; false; false; false; false] ++ [false] /\
    klbs_get_byte_count ctx' = 0 + 1 /\ bs_reg_used ctx' = 1.
Proof.
  apply (klbs_write_buffer_complete_extra_bit
    {| bs_buf := [0; 0; 0]; bs_buflen := 3; bs_buflen_used := 0; bs_reg_used := 3; bs_reg := 5;
       bs_didAllocateStorage := 0; bs_overrun := 0; bs_truncated := 0 |}).
  - constructor; cbn; try lia; try done. by apply bytes_check.
  - cbn. lia.
  - cbn. lia.
Defined.
