(* ===== verification/NalBits.v ===== *)
(** * The NAL bit reader: src/nal_bitreader.c

    Fixed-width and Exp-Golomb fields of an H.264/H.265 parameter set or slice
    header.  The reader returns [-1] at the end of its data, and the callers'
    treatment of that [-1] is modelled as written.  [None] is undefined
    behaviour: a read outside the data, or a signed overflow. *)
From Stdlib Require Import ZArith Lia Bool.
From stdpp Require Import base numbers list option.
From S2P Require Import Prelude Bits.

Record NALBitReader := { br_data : list Z; br_size : Z; br_bit_pos : Z }.

Definition NALBitReader_init (data : list Z) (size : Z) : NALBitReader :=
  {| br_data := data; br_size := size; br_bit_pos := 0 |}.

Definition set_bit_pos (br : NALBitReader) (p : Z) : NALBitReader :=
  {| br_data := br_data br; br_size := br_size br; br_bit_pos := p |}.

Definition NALBitReader_read_bit (br : NALBitReader) : option (Z * NALBitReader) :=
  limit ← int_ok (br_size br * 8);
  if limit <=? br_bit_pos br then Some (-1, br) else
  let byte_offset := Z.quot (br_bit_pos br) 8 in
  let bit_offset := 7 - Z.rem (br_bit_pos br) 8 in
  b ← rd (br_data br) byte_offset;
  Some (Z.land (Z.shiftr b bit_offset) 1, set_bit_pos br (br_bit_pos br + 1)).

(** The loop [for (i = 0; i < n; i++)]. *)
Fixpoint skip_bits_loop (n : nat) (br : NALBitReader) : option NALBitReader :=
  match n with
  | O => Some br
  | S n' => '(_, br) ← NALBitReader_read_bit br; skip_bits_loop n' br
  end.

Definition NALBitReader_skip_bits (br : NALBitReader) (n : Z) : option NALBitReader :=
  skip_bits_loop (Z.to_nat n) br.

Definition NALBitReader_skip_to_byte_aligned (br : NALBitReader) : option NALBitReader :=
  let bits_to_skip := Z.rem (br_bit_pos br) 8 in
  if bits_to_skip =? 0 then Some br else NALBitReader_skip_bits br (8 - bits_to_skip).

Fixpoint read_bits_loop (n : nat) (br : NALBitReader) (result : Z) : option (Z * NALBitReader) :=
  match n with
  | O => Some (result, br)
  | S n' =>
      '(bit, br) ← NALBitReader_read_bit br;
      if bit <? 0 then Some (0xFFFFFFFF, br)
      else read_bits_loop n' br (Z.lor (u32 (Z.shiftl result 1)) bit)
  end.

Definition NALBitReader_read_bits (br : NALBitReader) (n : Z) : option (Z * NALBitReader) :=
  read_bits_loop (Z.to_nat n) br 0.

(** [for (b = 0; !b; leadingZeroBits++) { b = read_bit(br); if (b < 0) return -1; }]
    The outer [None] is running out of fuel or undefined behaviour, the inner
    one the early return. *)
Fixpoint leading_zeros_loop (fuel : nat) (br : NALBitReader) (leadingZeroBits : Z)
    : option (option Z * NALBitReader) :=
  match fuel with
  | O => None
  | S fuel' =>
      '(b, br) ← NALBitReader_read_bit br;
      if b <? 0 then Some (None, br)
      else if b =? 0 then leading_zeros_loop fuel' br (leadingZeroBits + 1)
      else Some (Some (leadingZeroBits + 1), br)
  end.

(** Every iteration consumes a bit or returns. *)
Definition ue_fuel (br : NALBitReader) : nat := S (Z.to_nat (br_size br * 8 - br_bit_pos br)).

Definition NALBitReader_read_ue (br : NALBitReader) : option (Z * NALBitReader) :=
  '(r, br) ← leading_zeros_loop (ue_fuel br) br (-1);
  match r with
  | None => Some (-1, br)
  | Some leadingZeroBits =>
      if 31 <? leadingZeroBits then Some (-1, br) else
      '(info, br) ← NALBitReader_read_bits br leadingZeroBits;
      let infoBits := i32 info in
      p ← int_ok (Z.shiftl 1 leadingZeroBits);
      v ← int_ok (p - 1 + infoBits);
      Some (v, br)
  end.

Definition NALBitReader_read_se (br : NALBitReader) : option (Z * NALBitReader) :=
  '(codeNum, br) ← NALBitReader_read_ue br;
  if negb (Z.land codeNum 1 =? 0) then
    c ← int_ok (codeNum + 1);
    Some (Z.shiftr c 1, br)
  else Some (- Z.shiftr codeNum 1, br).

Definition cbp_inter : list Z :=
  [0; 16; 1; 2; 4; 8; 32; 3;
   5; 10; 12; 15; 47; 7; 11; 13;
   14; 6; 9; 31; 35; 37; 42; 44;
   33; 34; 36; 40; 39; 43; 45; 46;
   17; 18; 20; 24; 19; 21; 26; 28;
   23; 27; 29; 30; 22; 25; 38; 41].

Definition cbp_intra : list Z :=
  [47; 31; 15; 0; 23; 27; 29; 30;
   7; 11; 13; 14; 39; 43; 45; 46;
   16; 3; 5; 10; 12; 19; 21; 26;
   28; 35; 37; 42; 44; 1; 2; 4;
   8; 17; 18; 20; 24; 6; 9; 22;
   25; 32; 33; 34; 36; 40; 38; 41].

Definition NALBitReader_read_me (br : NALBitReader) (intra : Z) : option (Z * NALBitReader) :=
  '(codeNum, br) ← NALBitReader_read_ue br;
  if (codeNum <? 0) || (48 <=? codeNum) then Some (-1, br)
  else
    v ← (if intra =? 0 then rd cbp_inter codeNum else rd cbp_intra codeNum);
    Some (v, br).

Definition NALBitReader_read_te (br : NALBitReader) (maxVal : Z) : option (Z * NALBitReader) :=
  if maxVal <? 1 then Some (0, br)
  else if maxVal =? 1 then
    '(bit, br) ← NALBitReader_read_bit br;
    if bit <? 0 then Some (-1, br) else Some (if bit =? 0 then 1 else 0, br)
  else NALBitReader_read_ue br.

(** ** Specification *)

(** The bits still to be read. *)
Definition nal_rest (br : NALBitReader) : list bool :=
  drop (Z.to_nat (br_bit_pos br)) (buf_bits (take (Z.to_nat (br_size br)) (br_data br))).

Record nal_wf (br : NALBitReader) : Prop := {
  nal_bytes : bytes (br_data br);
  nal_size : 0 <= br_size br <= len (br_data br);
  nal_int : br_size br * 8 <= 2147483647;
  nal_pos : 0 <= br_bit_pos br <= br_size br * 8
}.

(** The Exp-Golomb code words of ITU-T H.264 clause 9.1: [v + 1] in binary,
    preceded by one zero less than its number of digits. *)
Definition ue_width (v : Z) : nat := Z.to_nat (Z.log2 (v + 1)).
Definition ue_code (v : Z) : list bool :=
  replicate (ue_width v) false ++ bits_of (S (ue_width v)) (v + 1).

(** Signed values are mapped to code numbers: 1, -1, 2, -2, ... *)
Definition se_codeNum (v : Z) : Z := if 0 <? v then 2 * v - 1 else -2 * v.
Definition se_code (v : Z) : list bool := ue_code (se_codeNum v).

(** ** Facts: one bit *)

Lemma length_nal_rest br :
  nal_wf br -> Z.of_nat (length (nal_rest br)) = br_size br * 8 - br_bit_pos br.
Proof.
  intros [_ Hs _ Hp]. unfold nal_rest. rewrite length_drop, length_buf_bits, length_take.
  unfold len in Hs. lia.
Qed.

Lemma nal_read_bit_end br :
  nal_wf br -> nal_rest br = [] -> NALBitReader_read_bit br = Some (-1, br).
Proof.
  intros Hwf Hr. assert (Hl := length_nal_rest br Hwf). rewrite Hr in Hl. cbn in Hl.
  destruct Hwf. unfold NALBitReader_read_bit. rewrite int_ok_Some by lia. step. by zdec.
Qed.

Lemma nal_read_bit_next br b rest :
  nal_wf br -> nal_rest br = b :: rest ->
  exists br', NALBitReader_read_bit br = Some (Z.b2z b, br') /\ nal_wf br' /\ nal_rest br' = rest /\
    br_bit_pos br' = br_bit_pos br + 1 /\ br_size br' = br_size br.
Proof.
  intros Hwf Hr. assert (Hl := length_nal_rest br Hwf). rewrite Hr in Hl. cbn [length] in Hl.
  destruct Hwf as [Hb Hs Hi Hp]. unfold NALBitReader_read_bit. rewrite int_ok_Some by lia. step. zdec.
  rewrite Z.quot_div_nonneg, Z.rem_mod_nonneg by lia.
  rewrite rd_Some by zlia. step. exists (set_bit_pos br (br_bit_pos br + 1)).
  assert (Hk := lookup_buf_bits (take (Z.to_nat (br_size br)) (br_data br)) (br_bit_pos br)).
  rewrite len_take, byte_at_take in Hk by zlia. specialize (Hk ltac:(lia)).
  unfold nal_rest in Hr. rewrite (drop_S _ _ _ Hk) in Hr. injection Hr as Hb' Hrest.
  split; [|split; [by constructor; cbn; try lia|split; [|done]]].
  - do 2 f_equal. rewrite (land_ones_mod _ 1 1) by done.
    rewrite <- Z.bit0_mod, Z.shiftr_spec by lia. by rewrite <- Hb'.
  - unfold nal_rest. cbn [set_bit_pos br_bit_pos br_size br_data]. rewrite <- Hrest. f_equal. lia.
Qed.

(** ** Facts: fields *)

Lemma lor_bit_append r b : 0 <= r < 2 ^ 31 -> Z.lor (u32 (Z.shiftl r 1)) (Z.b2z b) = 2 * r + Z.b2z b.
Proof.
  intros Hr. rewrite u32_id by (rewrite Z.shiftl_mul_pow2; lia).
  rewrite (lor_shiftl_add r (Z.b2z b) 1) by (destruct b; cbn; lia). lia.
Qed.

Lemma read_bits_loop_next n : forall br bits rest r,
  nal_wf br -> nal_rest br = bits ++ rest -> length bits = n -> (n <= 32)%nat ->
  0 <= r < 2 ^ (32 - Z.of_nat n) ->
  exists br', read_bits_loop n br r = Some (r * 2 ^ Z.of_nat n + bits_val bits, br') /\
    nal_wf br' /\ nal_rest br' = rest.
Proof.
  induction n as [|n IH]; intros br bits rest r Hwf Hr Hn Hle Hv; cbn [read_bits_loop].
  - destruct bits; [|done]. exists br. split; [|done]. do 2 f_equal.
    rewrite Z.pow_0_r, Z.mul_1_r. symmetry. apply Z.add_0_r.
  - destruct bits as [|b bits]; [done|]. cbn [length app] in *.
    destruct (nal_read_bit_next br b _ Hwf Hr) as (b1 & -> & Hw1 & Hr1 & _). step.
    rewrite (proj2 (Z.ltb_ge (Z.b2z b) 0)) by (destruct b; cbn; lia).
    assert (Hp : 2 ^ (32 - Z.of_nat n) = 2 * 2 ^ (32 - Z.of_nat (S n))).
    { rewrite <- Z.pow_succ_r by lia. f_equal. lia. }
    pose proof (Z.pow_le_mono_r 2 (32 - Z.of_nat (S n)) 31 ltac:(lia) ltac:(lia)).
    rewrite lor_bit_append by lia.
    destruct (IH b1 bits rest (2 * r + Z.b2z b)) as (b2 & -> & Hw2 & Hr2);
      [done|done|lia|lia|destruct b; cbn [Z.b2z]; lia|].
    exists b2. split; [|done]. do 2 f_equal. rewrite bits_val_cons.
    replace (length bits) with n by lia. rewrite Nat2Z.inj_succ, Z.pow_succ_r by lia. ring.
Qed.

Lemma nal_read_bits_next br bits rest n :
  nal_wf br -> nal_rest br = bits ++ rest -> n = Z.of_nat (length bits) -> n <= 32 ->
  exists br', NALBitReader_read_bits br n = Some (bits_val bits, br') /\
    nal_wf br' /\ nal_rest br' = rest.
Proof.
  intros Hwf Hr -> Hle. unfold NALBitReader_read_bits. rewrite Nat2Z.id.
  destruct (read_bits_loop_next (length bits) br bits rest 0) as (b' & H & Hw);
    [done|done|done|lia|split; [lia|apply Z.pow_pos_nonneg; lia]|].
  exists b'. by rewrite Z.mul_0_l, Z.add_0_l in H.
Qed.

(** A field that runs past the end reads as [0xFFFFFFFF]. *)
Lemma read_bits_loop_short n : forall br r,
  nal_wf br -> (length (nal_rest br) < n)%nat ->
  exists br', read_bits_loop n br r = Some (0xFFFFFFFF, br') /\ nal_wf br' /\ nal_rest br' = [].
Proof.
  induction n as [|n IH]; intros br r Hwf Hn; [lia|]. cbn [read_bits_loop].
  destruct (nal_rest br) as [|b rest] eqn:Hr.
  - rewrite nal_read_bit_end by done. step. by exists br.
  - destruct (nal_read_bit_next br b rest Hwf Hr) as (b1 & -> & Hw1 & Hr1 & _). step.
    rewrite (proj2 (Z.ltb_ge (Z.b2z b) 0)) by (destruct b; cbn; lia).
    apply IH; [done|]. rewrite Hr1. cbn [length] in Hn. lia.
Qed.

(** ** Facts: Exp-Golomb *)

Lemma leading_zeros_next n : forall fuel br rest z,
  nal_wf br -> nal_rest br = replicate n false ++ true :: rest -> (n < fuel)%nat ->
  exists br', leading_zeros_loop fuel br z = Some (Some (z + Z.of_nat n + 1), br') /\
    nal_wf br' /\ nal_rest br' = rest.
Proof.
  induction n as [|n IH]; intros fuel br rest z Hwf Hr Hf; (destruct fuel as [|fuel]; [lia|]);
    cbn [leading_zeros_loop]; cbn [replicate app] in Hr.
  - destruct (nal_read_bit_next br _ _ Hwf Hr) as (b1 & -> & Hw1 & Hr1 & _). step.
    exists b1. split; [|done]. do 3 f_equal. lia.
  - destruct (nal_read_bit_next br _ _ Hwf Hr) as (b1 & -> & Hw1 & Hr1 & _). step.
    destruct (IH fuel b1 rest (z + 1)) as (b2 & -> & Hw2); [done|done|lia|].
    exists b2. split; [|done]. do 3 f_equal. lia.
Qed.

(** Only zeros are left: the loop consumes them and reports the end. *)
Lemma leading_zeros_end n : forall fuel br z,
  nal_wf br -> nal_rest br = replicate n false -> (n < fuel)%nat ->
  exists br', leading_zeros_loop fuel br z = Some (None, br') /\ nal_wf br'.
Proof.
  induction n as [|n IH]; intros fuel br z Hwf Hr Hf; (destruct fuel as [|fuel]; [lia|]);
    cbn [leading_zeros_loop]; cbn [replicate] in Hr.
  - rewrite nal_read_bit_end by done. step. by exists br.
  - destruct (nal_read_bit_next br _ _ Hwf Hr) as (b1 & -> & Hw1 & Hr1 & _). step.
    apply IH; [done|done|lia].
Qed.

Lemma ue_fuel_enough br n bits :
  nal_wf br -> nal_rest br = replicate n false ++ bits -> (n < ue_fuel br)%nat.
Proof.
  intros Hwf Hr. assert (Hl := length_nal_rest br Hwf). rewrite Hr, length_app, length_replicate in Hl.
  unfold ue_fuel. lia.
Qed.

(** The leading digit of [v + 1], and the others. *)
Lemma bits_of_top v :
  0 <= v -> bits_of (S (ue_width v)) (v + 1) = true :: bits_of (ue_width v) (v + 1) /\
  (v + 1) mod 2 ^ Z.of_nat (ue_width v) = v + 1 - 2 ^ Z.of_nat (ue_width v).
Proof.
  intros Hv. unfold ue_width. pose proof (Z.log2_nonneg (v + 1)).
  pose proof (Z.log2_spec (v + 1) ltac:(lia)) as Hs. cbn [bits_of].
  rewrite Z2Nat.id by lia. split; [by rewrite Z.bit_log2 by lia|].
  rewrite Z.pow_succ_r in Hs by lia. symmetry. apply (Z.mod_unique_pos _ _ 1); lia.
Qed.

Lemma ue_width_small v : 0 <= v < 2147483647 -> (ue_width v <= 30)%nat.
Proof.
  intros Hv. unfold ue_width. assert (Z.log2 (v + 1) < 31); [|lia].
  apply Z.log2_lt_pow2; lia.
Qed.

Lemma pow2_int n : (n <= 30)%nat -> 0 < 2 ^ Z.of_nat n <= 1073741824.
Proof.
  intros. split; [apply Z.pow_pos_nonneg; lia|].
  apply (Z.pow_le_mono_r 2 (Z.of_nat n) 30); lia.
Qed.

(** A code word is decoded, whatever follows it. *)
Lemma read_ue_code br v rest :
  nal_wf br -> 0 <= v < 2147483647 -> nal_rest br = ue_code v ++ rest ->
  exists br', NALBitReader_read_ue br = Some (v, br') /\ nal_wf br' /\ nal_rest br' = rest.
Proof.
  intros Hwf Hv Hr. destruct (bits_of_top v) as [Htop Hmod]; [lia|].
  pose proof (ue_width_small v Hv) as Hw. pose proof (pow2_int _ Hw) as Hp.
  unfold ue_code in Hr. rewrite Htop, <- app_assoc in Hr. cbn [app] in Hr.
  unfold NALBitReader_read_ue.
  destruct (leading_zeros_next (ue_width v) (ue_fuel br) br _ (-1) Hwf Hr) as (b1 & -> & Hw1 & Hr1).
  { by eapply ue_fuel_enough. }
  step. replace (-1 + Z.of_nat (ue_width v) + 1) with (Z.of_nat (ue_width v)) by lia. zdec.
  destruct (nal_read_bits_next b1 _ _ (Z.of_nat (ue_width v)) Hw1 Hr1) as (b2 & -> & Hw2 & Hr2).
  { by rewrite length_bits_of. }
  { lia. }
  step. rewrite bits_val_bits_of, Hmod, Z.shiftl_mul_pow2, Z.mul_1_l by lia.
  pose proof (Z.mod_pos_bound (v + 1) (2 ^ Z.of_nat (ue_width v)) ltac:(lia)) as Hb.
  rewrite Hmod in Hb. rewrite i32_id, int_ok_Some by lia. step.
  rewrite int_ok_Some by lia. step. exists b2. split; [|done]. do 2 f_equal. lia.
Qed.

(** ** Facts: the other descriptors *)

Lemma read_se_code br v rest :
  nal_wf br -> -1073741824 < v < 1073741824 -> nal_rest br = se_code v ++ rest ->
  exists br', NALBitReader_read_se br = Some (v, br') /\ nal_wf br' /\ nal_rest br' = rest.
Proof.
  intros Hwf Hv Hr. unfold se_code in Hr.
  assert (Hc : 0 <= se_codeNum v < 2147483647) by (unfold se_codeNum; case_if; lia).
  destruct (read_ue_code br _ rest Hwf Hc Hr) as (b1 & H1 & Hw1 & Hr1).
  unfold NALBitReader_read_se. rewrite H1. step. exists b1.
  rewrite (land_ones_mod _ 1 1) by done. change (2 ^ 1) with 2.
  unfold se_codeNum in *. destruct (Z.ltb_spec 0 v).
  - replace ((2 * v - 1) mod 2) with 1 by zlia. cbn [negb Z.eqb]. rewrite int_ok_Some by lia. step.
    rewrite Z.shiftr_div_pow2 by lia. change (2 ^ 1) with 2.
    split; [|done]. do 2 f_equal. zlia.
  - replace ((-2 * v) mod 2) with 0 by zlia. cbn [negb Z.eqb].
    rewrite Z.shiftr_div_pow2 by lia. change (2 ^ 1) with 2. split; [|done]. do 2 f_equal. zlia.
Qed.

(** The syntax elements of a parameter set or slice header. *)
Inductive element :=
  | U (n v : Z)
  | UE (v : Z)
  | SE (v : Z)
  | TE (maxVal v : Z).

Definition element_ok (e : element) : Prop :=
  match e with
  | U n v => 0 <= n <= 32 /\ 0 <= v < 2 ^ n
  | UE v => 0 <= v < 2147483647
  | SE v => -1073741824 < v < 1073741824
  | TE m v => 1 <= m < 2147483647 /\ 0 <= v <= m
  end.

(** Their code words in H.264 clause 9.1. *)
Definition element_code (e : element) : list bool :=
  match e with
  | U n v => bits_of (Z.to_nat n) v
  | UE v => ue_code v
  | SE v => se_code v
  | TE m v => if m =? 1 then [v =? 0] else ue_code v
  end.

Definition element_value (e : element) : Z :=
  match e with U _ v | UE v | SE v | TE _ v => v end.

Definition read_element (e : element) (br : NALBitReader) : option (Z * NALBitReader) :=
  match e with
  | U n _ => NALBitReader_read_bits br n
  | UE _ => NALBitReader_read_ue br
  | SE _ => NALBitReader_read_se br
  | TE m _ => NALBitReader_read_te br m
  end.

Fixpoint read_elements (es : list element) (br : NALBitReader) : option (list Z * NALBitReader) :=
  match es with
  | [] => Some ([], br)
  | e :: es =>
      '(v, br) ← read_element e br;
      '(vs, br) ← read_elements es br;
      Some (v :: vs, br)
  end.

Lemma read_te_code br m v rest :
  nal_wf br -> element_ok (TE m v) -> nal_rest br = element_code (TE m v) ++ rest ->
  exists br', NALBitReader_read_te br m = Some (v, br') /\ nal_wf br' /\ nal_rest br' = rest.
Proof.
  intros Hwf [Hm Hv] Hr. cbn [element_code] in Hr. unfold NALBitReader_read_te. zdec.
  destruct (Z.eqb_spec m 1) as [->|].
  - destruct (nal_read_bit_next br _ rest Hwf Hr) as (b1 & -> & Hw1 & Hr1 & _). step. exists b1.
    split; [|done]. assert (v = 0 \/ v = 1) as [-> | ->] by lia; done.
  - apply read_ue_code; [done|lia|done].
Qed.

Lemma read_element_code e br rest :
  nal_wf br -> element_ok e -> nal_rest br = element_code e ++ rest ->
  exists br', read_element e br = Some (element_value e, br') /\ nal_wf br' /\ nal_rest br' = rest.
Proof.
  intros Hwf Hok Hr. destruct e as [n v|v|v|m v]; cbn [read_element element_value].
  - destruct Hok as [Hn Hv]. cbn [element_code] in Hr.
    destruct (nal_read_bits_next br _ _ n Hwf Hr) as (b1 & H1 & Hw); [by rewrite length_bits_of; lia|lia|].
    exists b1. rewrite H1, bits_val_bits_of, Z2Nat.id, Z.mod_small by lia. done.
  - by apply read_ue_code.
  - by apply read_se_code.
  - by apply read_te_code.
Qed.

(** *** All the branches of ue(v) *)

(** What [NALBitReader_read_ue] returns on a sequence of bits, given the zeros
    already counted: [Some (-1)] when no 1 is found or more than 31 zeros
    precede it, [None] (a signed overflow in [1 << 31]) for 31 zeros, and
    [2^n - 2] (an undetected error) when the suffix is cut short. *)
Fixpoint ue_spec (zeros : nat) (l : list bool) : option Z :=
  match l with
  | [] => Some (-1)
  | false :: l => ue_spec (S zeros) l
  | true :: l =>
      let n := Z.of_nat zeros in
      if 31 <? n then Some (-1)
      else if n =? 31 then None
      else if (zeros <=? length l)%nat then Some (2 ^ n - 1 + bits_val (take zeros l))
      else Some (2 ^ n - 2)
  end.

(** Any sequence is some zeros, then nothing or a one. *)
Lemma zeros_split l :
  (exists n, l = replicate n false) \/ (exists n rest, l = replicate n false ++ true :: rest).
Proof.
  induction l as [|b l IH]; [left; by exists O|]. destruct b; [right; by exists O, l|].
  destruct IH as [[n ->]|(n & rest & ->)]; [left; by exists (S n)|right; by exists (S n), rest].
Qed.

Lemma ue_spec_zeros n : forall z l, ue_spec z (replicate n false ++ l) = ue_spec (z + n) l.
Proof.
  induction n as [|n IH]; intros z l; cbn [replicate app ue_spec]; [by rewrite Nat.add_0_r|].
  rewrite IH. f_equal. lia.
Qed.

Lemma read_ue_no_one br n :
  nal_wf br -> nal_rest br = replicate n false ->
  exists br', NALBitReader_read_ue br = Some (-1, br') /\ nal_wf br'.
Proof.
  intros Hwf Hr. unfold NALBitReader_read_ue.
  destruct (leading_zeros_end n (ue_fuel br) br (-1) Hwf Hr) as (b1 & -> & Hw1).
  { apply (ue_fuel_enough br n []); [done|by rewrite app_nil_r]. }
  step. by exists b1.
Qed.

(** The value assembled from [n] zeros and the result of the suffix. *)
Definition ue_assemble (n info : Z) : option Z :=
  p ← int_ok (Z.shiftl 1 n); int_ok (p - 1 + i32 info).

Lemma ue_assemble_spec n info :
  0 <= n < 31 -> -1 <= i32 info < 2 ^ n ->
  ue_assemble n info = Some (2 ^ n - 1 + i32 info).
Proof.
  intros Hn Hi. pose proof (pow2_int (Z.to_nat n) ltac:(lia)) as Hp. rewrite Z2Nat.id in Hp by lia.
  unfold ue_assemble. rewrite Z.shiftl_mul_pow2, Z.mul_1_l, int_ok_Some by lia. step.
  apply int_ok_Some. lia.
Qed.

Lemma read_ue_one br n rest :
  nal_wf br -> nal_rest br = replicate n false ++ true :: rest ->
  fst <$> NALBitReader_read_ue br =
    if 31 <? Z.of_nat n then Some (-1)
    else ue_assemble (Z.of_nat n)
           (if (n <=? length rest)%nat then bits_val (take n rest) else 0xFFFFFFFF).
Proof.
  intros Hwf Hr. unfold NALBitReader_read_ue.
  destruct (leading_zeros_next n (ue_fuel br) br rest (-1) Hwf Hr) as (b1 & -> & Hw1 & Hr1).
  { by eapply ue_fuel_enough. }
  step. replace (-1 + Z.of_nat n + 1) with (Z.of_nat n) by lia.
  destruct (Z.ltb_spec 31 (Z.of_nat n)); [done|].
  destruct (Nat.leb_spec n (length rest)).
  - destruct (nal_read_bits_next b1 (take n rest) (drop n rest) (Z.of_nat n)) as (b2 & -> & _);
      [done|by rewrite take_drop|rewrite length_take; lia|lia|].
    step. unfold ue_assemble. destruct (int_ok (Z.shiftl 1 _)); [step|done].
    by destruct (int_ok _).
  - unfold NALBitReader_read_bits. rewrite Nat2Z.id.
    destruct (read_bits_loop_short n b1 0 Hw1) as (b2 & -> & _); [by rewrite Hr1|].
    step. unfold ue_assemble. destruct (int_ok (Z.shiftl 1 _)); [step|done].
    by destruct (int_ok _).
Qed.

(** ** Properties *)

(** C30: what H.264/H.265 syntax writes with the descriptors u(n), ue(v), se(v)
    and te(v), the reader decodes: from a position where the bits are the code
    words of any list of in-range elements, reading them in order returns
    their values and leaves exactly the bits that follow. *)
Theorem nal_elements_roundtrip (es : list element) :
  forall br rest, nal_wf br -> Forall element_ok es ->
  nal_rest br = concat (map element_code es) ++ rest ->
  exists br', read_elements es br = Some (map element_value es, br') /\ nal_rest br' = rest.
Proof.
  induction es as [|e es IH]; intros br rest Hwf Hok Hr; cbn [read_elements map concat] in *.
  - by exists br.
  - apply Forall_cons_1 in Hok as [He Hok]. rewrite <- app_assoc in Hr.
    destruct (read_element_code e br _ Hwf He Hr) as (b1 & -> & Hw1 & Hr1). step.
    destruct (IH b1 rest Hw1 Hok Hr1) as (b2 & -> & Hr2). step. by exists b2.
Qed.

(** [u(4) = 9], [ue = 5], [se = -3], [te(1) = 0], [te(4) = 2], six bits left. *)
Lemma nal_elements_roundtrip_witness :
  exists br', read_elements [U 4 9; UE 5; SE (-3); TE 1 0; TE 4 2]
      (NALBitReader_init [0x93; 0x1E; 0xC0] 3) = Some ([9; 5; -3; 0; 2], br') /\
    nal_rest br' = [false; false; false; false; false; false].
Proof.
  apply (nal_elements_roundtrip [U 4 9; UE 5; SE (-3); TE 1 0; TE 4 2]
    (NALBitReader_init [0x93; 0x1E; 0xC0] 3) [false; false; false; false; false; false]).
  - constructor; cbn; try lia; try done. by apply bytes_check.
  - repeat constructor; done.
  - reflexivity.
Defined.

(** [NALBitReader_read_ue] always terminates and its result is exactly
    [ue_spec] of the unread bits: the value of the code word; -1 when the data
    end in the zeros or more than 31 of them come first; a signed overflow for
    exactly 31; and [2^n - 2] instead of an error when the data end inside the
    suffix. *)
Theorem read_ue_refines_spec (br : NALBitReader) :
  nal_wf br -> fst <$> NALBitReader_read_ue br = ue_spec 0 (nal_rest br).
Proof.
  intros Hwf. destruct (zeros_split (nal_rest br)) as [[n Hr]|(n & rest & Hr)]; rewrite Hr.
  - destruct (read_ue_no_one br n Hwf Hr) as (b & -> & _).
    rewrite <- (app_nil_r (replicate n false)), ue_spec_zeros. done.
  - rewrite (read_ue_one br n rest Hwf Hr), ue_spec_zeros. cbn [ue_spec Nat.add].
    destruct (Z.ltb_spec 31 (Z.of_nat n)); [done|]. destruct (Z.eqb_spec (Z.of_nat n) 31) as [E|].
    { by rewrite E. }
    pose proof (pow2_int n ltac:(lia)) as Hp. destruct (Nat.leb_spec n (length rest)).
    + pose proof (bits_val_range (take n rest)) as Hb. rewrite length_take, Nat.min_l in Hb by lia.
      rewrite ue_assemble_spec by (rewrite ?i32_id by lia; lia). by rewrite i32_id by lia.
    + rewrite ue_assemble_spec; change (i32 0xFFFFFFFF) with (-1); [f_equal; lia|lia|lia].
Qed.

Lemma read_ue_refines_spec_witness :
  fst <$> NALBitReader_read_ue (NALBitReader_init [0x01] 1) = Some 126.
Proof.
  apply (read_ue_refines_spec (NALBitReader_init [0x01] 1)).
  constructor; cbn; try lia; try done. by apply bytes_check.
Defined.

(** An error is not an error after the signed mapping. *)
Lemma read_se_hides_error :
  fst <$> NALBitReader_read_ue (NALBitReader_init [] 0) = Some (-1) /\
  fst <$> NALBitReader_read_se (NALBitReader_init [] 0) = Some 0.
Proof. by vm_compute. Qed.

(** The position of a value in a table. *)
Fixpoint index_of (x : Z) (l : list Z) : Z :=
  match l with
  | [] => 0
  | y :: l => if y =? x then 0 else index_of x l + 1
  end.

(** A table of 48 numbers 0..47, each occurring once. *)
Definition table_bijective (t : list Z) : bool :=
  forallb (fun x => (0 <=? index_of x t) && (index_of x t <? 48)
                    && bool_decide (rd t (index_of x t) = Some x)) (seqZ 0 48)
  && forallb (fun w => match rd t w with Some x => index_of x t =? w | None => false end) (seqZ 0 48).

Lemma table_bijective_spec t x :
  table_bijective t = true -> 0 <= x < 48 ->
  exists v, 0 <= v < 48 /\ forall w, 0 <= w < 48 -> rd t w = Some x <-> w = v.
Proof.
  unfold table_bijective. intros H Hx. zbool. rewrite forallb_forall in *.
  assert (Hin : forall i, 0 <= i < 48 -> In i (seqZ 0 48)).
  { intros i Hi. apply list_elem_of_In, elem_of_seqZ. lia. }
  specialize (H x (Hin x Hx)). zbool. apply bool_decide_eq_true in H1.
  exists (index_of x t). split; [lia|]. intros w Hw. split; [|by intros ->].
  intros E. specialize (H0 w (Hin w Hw)). rewrite E in H0. zbool. done.
Qed.

Lemma read_me_code br intra w rest :
  nal_wf br -> 0 <= w < 48 -> nal_rest br = ue_code w ++ rest ->
  fst <$> NALBitReader_read_me br intra = rd (if intra =? 0 then cbp_inter else cbp_intra) w.
Proof.
  intros Hwf Hw Hr. unfold NALBitReader_read_me.
  destruct (read_ue_code br w rest Hwf ltac:(lia) Hr) as (b1 & -> & _). step. zdec. cbn [orb].
  by destruct (intra =? 0), (rd _ w).
Qed.

(** me(v) is a bijection: for either table every coded_block_pattern 0..47
    is the decoding of exactly one code number [v] below 48:
    [NALBitReader_read_me] returns it from the code word of [v] and of no other. *)
Theorem read_me_bijective (intra cbp : Z) :
  0 <= cbp < 48 ->
  exists v, 0 <= v < 48 /\
    forall w br rest, 0 <= w < 48 -> nal_wf br -> nal_rest br = ue_code w ++ rest ->
      fst <$> NALBitReader_read_me br intra = Some cbp <-> w = v.
Proof.
  intros Hc. destruct (table_bijective_spec (if intra =? 0 then cbp_inter else cbp_intra) cbp)
    as (v & Hv & Hu); [by destruct (intra =? 0); vm_compute|done|].
  exists v. split; [done|]. intros w br rest Hw Hwf Hr.
  rewrite (read_me_code br intra w rest Hwf Hw Hr). by apply Hu.
Qed.

Lemma read_me_bijective_witness :
  exists v, 0 <= v < 48 /\
    forall w br rest, 0 <= w < 48 -> nal_wf br -> nal_rest br = ue_code w ++ rest ->
      fst <$> NALBitReader_read_me br 1 = Some 47 <-> w = v.
Proof. apply (read_me_bijective 1 47). lia. Defined.
