(* ===== verification/RingBuffer.v ===== *)
(** * The ring buffer: src/klringbuffer.c

    A growable byte FIFO with an optional mutex.  [None] is undefined
    behaviour: an access outside the allocation or through a null pointer, the
    relocking of a mutex the thread already holds, the unlocking of one it does
    not hold.  [malloc] and [realloc] are the C library's. *)
From Stdlib Require Import ZArith Lia Bool.
From stdpp Require Import base numbers list option.
From S2P Require Import Prelude.

Record KLRingBuffer := {
  rb_usingMutex : bool;
  rb_locked : bool; (* the state of the mutex *)
  rb_data : list Z;
  rb_size : Z;
  rb_size_max : Z;
  rb_size_initial : Z;
  rb_head : Z;
  rb_fill : Z
}.

Definition set_locked (rb : KLRingBuffer) (b : bool) : KLRingBuffer :=
  {| rb_usingMutex := rb_usingMutex rb; rb_locked := b; rb_data := rb_data rb;
     rb_size := rb_size rb; rb_size_max := rb_size_max rb;
     rb_size_initial := rb_size_initial rb; rb_head := rb_head rb; rb_fill := rb_fill rb |}.
Definition set_pos (rb : KLRingBuffer) (head fill : Z) : KLRingBuffer :=
  {| rb_usingMutex := rb_usingMutex rb; rb_locked := rb_locked rb; rb_data := rb_data rb;
     rb_size := rb_size rb; rb_size_max := rb_size_max rb;
     rb_size_initial := rb_size_initial rb; rb_head := head; rb_fill := fill |}.
Definition set_data (rb : KLRingBuffer) (data : list Z) (size : Z) : KLRingBuffer :=
  {| rb_usingMutex := rb_usingMutex rb; rb_locked := rb_locked rb; rb_data := data;
     rb_size := size; rb_size_max := rb_size_max rb;
     rb_size_initial := rb_size_initial rb; rb_head := rb_head rb; rb_fill := rb_fill rb |}.

(** The default mutex: locking it twice from one thread deadlocks, unlocking it
    when it is not locked is undefined. *)
Definition RB_LOCK (rb : KLRingBuffer) : option KLRingBuffer :=
  if rb_usingMutex rb then (if rb_locked rb then None else Some (set_locked rb true)) else Some rb.
Definition RB_UNLOCK (rb : KLRingBuffer) : option KLRingBuffer :=
  if rb_usingMutex rb then (if rb_locked rb then Some (set_locked rb false) else None) else Some rb.

(** A read-only access under the lock. *)
Definition locked_get {A} (rb : KLRingBuffer) (f : KLRingBuffer -> A) : option (A * KLRingBuffer) :=
  rb ← RB_LOCK rb;
  let result := f rb in
  rb ← RB_UNLOCK rb;
  Some (result, rb).

Definition _rb_used (rb : KLRingBuffer) : Z := rb_fill rb.
Definition _rb_size (rb : KLRingBuffer) : Z := rb_size rb.
Definition _rb_remain_in_seg (rb : KLRingBuffer) : Z := u64 (rb_size rb - rb_fill rb).

Definition rb_is_empty (rb : KLRingBuffer) : option (bool * KLRingBuffer) :=
  locked_get rb (fun rb => rb_fill rb =? 0).
Definition rb_is_full (rb : KLRingBuffer) : option (bool * KLRingBuffer) :=
  locked_get rb (fun rb => rb_fill rb =? rb_size_max rb).
Definition rb_used (rb : KLRingBuffer) : option (Z * KLRingBuffer) := locked_get rb _rb_used.
Definition rb_unused (rb : KLRingBuffer) : option (Z * KLRingBuffer) :=
  locked_get rb (fun rb => u64 (rb_size_max rb - rb_fill rb)).

Definition rb_empty (rb : KLRingBuffer) : option KLRingBuffer :=
  rb ← RB_LOCK rb; RB_UNLOCK (set_pos rb 0 0).

Definition rb_get_write_pos (rb : KLRingBuffer) : Z :=
  u32 (u64 (rb_head rb + rb_fill rb) mod rb_size rb).
Definition rb_get_read_pos (rb : KLRingBuffer) : Z := u32 (rb_head rb).

Definition _advance_tail (rb : KLRingBuffer) (bytes : Z) : KLRingBuffer :=
  set_pos rb (rb_head rb) (u64 (rb_fill rb + bytes)).
Definition _advance_head (rb : KLRingBuffer) (bytes : Z) : KLRingBuffer :=
  set_pos rb (u64 (rb_head rb + bytes) mod rb_size rb) (u64 (rb_fill rb - bytes)).

Definition rb_discard (rb : KLRingBuffer) (bytes : Z) : option KLRingBuffer :=
  rb ← RB_LOCK rb; RB_UNLOCK (_advance_head rb bytes).

(** There is always memory. *)
Definition malloc_gives (malloc : Z -> option (list Z)) : Prop :=
  forall n, 0 < n -> exists l, malloc n = Some l /\ len l = n.

Section Memory.

(** [malloc n]: the [n] indeterminate bytes of a new allocation, or a failure. *)
Variable malloc : Z -> option (list Z).

Definition realloc (data : list Z) (n : Z) : option (list Z) :=
  if n <=? len data then Some (take (Z.to_nat n) data)
  else extra ← malloc (n - len data); Some (data ++ extra).

(** The inner [None] is the NULL result. *)
Definition rb_new (size size_max : Z) : option KLRingBuffer :=
  if (size =? 0) || (size_max <? size) then None else
  data ← malloc size;
  Some {| rb_usingMutex := false; rb_locked := false; rb_data := data; rb_size := size;
          rb_size_max := size_max; rb_size_initial := size; rb_head := 0; rb_fill := 0 |}.

(** The result of [rb_new] is dereferenced without a check: a NULL there is
    undefined behaviour, not a NULL result. *)
Definition rb_new_threadsafe (size size_max : Z) : option KLRingBuffer :=
  rb ← rb_new size size_max;
  Some {| rb_usingMutex := true; rb_locked := rb_locked rb; rb_data := rb_data rb;
          rb_size := rb_size rb; rb_size_max := rb_size_max rb;
          rb_size_initial := rb_size_initial rb; rb_head := rb_head rb; rb_fill := rb_fill rb |}.

(** The inner [None] is the error result -2; a failed [realloc] leaves a null
    [data] behind, which the caller writes to. *)
Definition _rb_grow (rb : KLRingBuffer) (increment : Z) : option (option KLRingBuffer) :=
  if rb_size_max rb <? u64 (_rb_size rb + increment) then Some None
  else
    data ← realloc (rb_data rb) (u64 (rb_size rb + increment));
    Some (Some (set_data rb data (u64 (rb_size rb + increment)))).

Definition _rb_shrink_reset (rb : KLRingBuffer) : option KLRingBuffer :=
  data ← realloc (rb_data rb) (rb_size_initial rb);
  Some (set_pos (set_data rb data (rb_size_initial rb)) 0 0).

(** The two memcpy branches of a write of [bytes] bytes at [tail]. *)
Definition copy_in (data : list Z) (size tail write_end : Z) (from : list Z) (bytes : Z)
    : option (list Z) :=
  if tail <=? write_end then src ← rds from 0 bytes; wrs data tail src
  else
    let first_write := size - tail in
    src ← rds from 0 first_write;
    data ← wrs data tail src;
    let second_write := u64 (bytes - first_write) in
    src ← rds from first_write second_write;
    wrs data 0 src.

(** [didOverflow] is a pointer: [None] is NULL.  It is written before it is
    tested.  The overflow branch unlocks, discards, and goes on unlocked. *)
Definition rb_write_with_state (rb : KLRingBuffer) (from : list Z) (bytes : Z) (didOverflow : option Z)
    : option (Z * Z * KLRingBuffer) :=
  _ ← didOverflow;
  let didOverflow := 0 in
  rb ← RB_LOCK rb;
  '(rb, didOverflow) ←
    (if _rb_remain_in_seg rb <? bytes then
       g ← _rb_grow rb (u64 (bytes * 128));
       match g with
       | Some rb => Some (rb, didOverflow)
       | None =>
           rb ← RB_UNLOCK rb;
           rb ← rb_discard rb bytes;
           Some (rb, 1)
       end
     else Some (rb, didOverflow));
  let tail := u64 (rb_head rb + rb_fill rb) mod rb_size rb in
  let write_end := u64 (rb_head rb + rb_fill rb + bytes) mod rb_size rb in
  data ← copy_in (rb_data rb) (rb_size rb) tail write_end from bytes;
  let rb := _advance_tail (set_data rb data (rb_size rb)) bytes in
  rb ← RB_UNLOCK rb;
  Some (bytes, didOverflow, rb).

Definition rb_write (rb : KLRingBuffer) (from : list Z) (bytes : Z) : option (Z * KLRingBuffer) :=
  '(n, _, rb) ← rb_write_with_state rb from bytes None;
  Some (n, rb).

(** The two memcpy branches of a read into the caller's buffer [to]. *)
Definition copy_out (data : list Z) (size head end_read : Z) (to : list Z) (bytes : Z)
    : option (list Z) :=
  if end_read <=? head then
    let first_read := size - head in
    src ← rds data head first_read;
    to ← wrs to 0 src;
    let second_read := u64 (bytes - first_read) in
    src ← rds data 0 second_read;
    wrs to first_read src
  else src ← rds data head bytes; wrs to 0 src.

Definition rb_reader (rb : KLRingBuffer) (to : list Z) (bytes : Z) (advance_read_head : bool)
    : option (Z * list Z * KLRingBuffer) :=
  '(used, rb) ← rb_used rb;
  '(bytes, rb) ← (if used <? bytes then rb_used rb else Some (bytes, rb));
  if bytes =? 0 then Some (0, to, rb) else
  rb ← RB_LOCK rb;
  let end_read := u64 (rb_head rb + bytes) mod rb_size rb in
  to ← copy_out (rb_data rb) (rb_size rb) (rb_head rb) end_read to bytes;
  let rb := if advance_read_head then _advance_head rb bytes else rb in
  rb ← (if (_rb_used rb =? 0) && (rb_size_initial rb <? rb_size rb)
        then _rb_shrink_reset rb else Some rb);
  rb ← RB_UNLOCK rb;
  Some (bytes, to, rb).

Definition rb_read (rb : KLRingBuffer) (to : list Z) (bytes : Z) := rb_reader rb to bytes true.
Definition rb_peek (rb : KLRingBuffer) (to : list Z) (bytes : Z) := rb_reader rb to bytes false.

(** Result, the allocated block ([None] for NULL) and the ring. *)
Definition rb_read_alloc (rb : KLRingBuffer) (bytes : Z)
    : option (Z * option (list Z) * KLRingBuffer) :=
  match malloc bytes with
  | None => Some (0, None, rb)
  | Some to => '(n, to, rb) ← rb_reader rb to bytes true; Some (n, Some to, rb)
  end.

(** The loop of [rb_fwrite]; [b] is its 8192-byte local buffer. *)
Fixpoint fwrite_loop (fuel : nat) (rb : KLRingBuffer) (b out : list Z)
    : option (list Z * KLRingBuffer) :=
  match fuel with
  | O => None
  | S fuel' =>
      '(n, b, rb) ← rb_read rb b 8192;
      if n =? 0 then Some (out, rb)
      else chunk ← rds b 0 n; fwrite_loop fuel' rb b (out ++ chunk)
  end.

(** The bytes appended to the file.  Every read but the last takes a byte. *)
Definition rb_fwrite (rb : KLRingBuffer) (b : list Z) : option (list Z * KLRingBuffer) :=
  '(empty, rb) ← rb_is_empty rb;
  if (empty : bool) then Some ([], rb) else
  '(used, rb) ← rb_used rb;
  let rb_len := u32 used in
  let hdrlen := [u8 (Z.shiftr rb_len 24); u8 (Z.shiftr rb_len 16);
                 u8 (Z.shiftr rb_len 8); u8 rb_len] in
  '(out, rb) ← fwrite_loop (S (Z.to_nat used)) rb b ([0x48; 0x45; 0x41; 0x44] ++ hdrlen);
  Some (out ++ [0x54; 0x41; 0x49; 0x4C], rb).

End Memory.

Lemma realloc_grows malloc data n : malloc_gives malloc -> len data < n ->
  exists l, realloc malloc data n = Some (data ++ l) /\ len (data ++ l) = n.
Proof.
  intros Hm Hn. unfold realloc. zdec. destruct (Hm (n - len data)) as (l & -> & Hl); [lia|]. step.
  exists l. split; [done|]. rewrite len_app. lia.
Qed.

(** ** Specification *)

(** The bytes in the ring, oldest first. *)
Definition rb_contents (rb : KLRingBuffer) : list Z :=
  map (fun k => byte_at (rb_data rb) ((rb_head rb + k) mod rb_size rb)) (seqZ 0 (rb_fill rb)).

(** The positions are in range. *)
Record rb_inv (rb : KLRingBuffer) : Prop := {
  rbi_data : len (rb_data rb) = rb_size rb;
  rbi_head : 0 <= rb_head rb < rb_size rb;
  rbi_fill : 0 <= rb_fill rb <= rb_size rb;
  rbi_initial : 0 < rb_size_initial rb <= rb_size rb;
  rbi_max : rb_size rb <= rb_size_max rb;
  rbi_width : rb_size_max rb < 2 ^ 56
}.

(** Between two calls the mutex is free. *)
Definition rb_wf (rb : KLRingBuffer) : Prop := rb_locked rb = false /\ rb_inv rb.

(** ** Facts: modular positions *)

Lemma ring_index h k s :
  0 <= h < s -> 0 <= k <= s -> (h + k) mod s = if h + k <? s then h + k else h + k - s.
Proof.
  intros Hh Hk. destruct (Z.ltb_spec (h + k) s); [apply Z.mod_small; lia|].
  symmetry. apply (Z.mod_unique_pos _ _ 1); lia.
Qed.

Lemma ring_offset j t s :
  0 <= j < s -> 0 <= t < s -> (j - t) mod s = if t <=? j then j - t else j - t + s.
Proof.
  intros Hj Ht. destruct (Z.leb_spec t j); [apply Z.mod_small; lia|].
  symmetry. apply (Z.mod_unique_pos _ _ (-1)); lia.
Qed.

Ltac bcase :=
  repeat match goal with
  | |- context [?a <? ?b] => destruct (Z.ltb_spec a b)
  | |- context [?a <=? ?b] => destruct (Z.leb_spec a b)
  end; cbn [andb].

(** ** Facts: the two copies *)

(** A write of at most one lap stores byte [i] of the source at position
    [tail + i] modulo the size and nothing else, unless it fills the whole
    ring from a position other than 0. *)
Lemma copy_in_spec data size tail from bytes :
  len data = size -> size < 2 ^ 56 -> 0 <= tail < size -> 0 <= bytes <= len from ->
  bytes < size \/ (bytes = size /\ tail = 0) ->
  exists data', copy_in data size tail ((tail + bytes) mod size) from bytes = Some data' /\
    len data' = size /\
    forall j, 0 <= j < size -> byte_at data' j =
      if (j - tail) mod size <? bytes then byte_at from ((j - tail) mod size) else byte_at data j.
Proof.
  intros Hl Hs Ht Hb Hfit. unfold copy_in. rewrite ring_index by lia.
  destruct (Z.leb_spec tail (if tail + bytes <? size then tail + bytes else tail + bytes - size)) as [E|E].
  - destruct (rds_exists from 0 bytes) as (src & Hr & Ls); [lia..|]. rewrite Hr. step.
    assert (tail + bytes <= size) by (revert E; bcase; lia).
    destruct (wrs_exists data tail src) as (d & Hd & Ld); [lia..|]. exists d. split; [done|].
    split; [lia|]. intros j Hj. rewrite (byte_at_wrs _ _ _ _ _ Hd), Ls, ring_offset by lia.
    bcase; try lia; try done; rewrite (byte_at_rds _ _ _ _ _ Hr) by lia; f_equal; lia.
  - assert (size - tail <= bytes) by (revert E; bcase; lia).
    destruct (rds_exists from 0 (size - tail)) as (s1 & Hr1 & L1); [lia..|]. rewrite Hr1. step.
    destruct (wrs_exists data tail s1) as (d1 & Hd1 & Ld1); [lia..|]. rewrite Hd1. step.
    rewrite u64_id by lia.
    destruct (rds_exists from (size - tail) (bytes - (size - tail))) as (s2 & Hr2 & L2); [lia..|].
    rewrite Hr2. step. destruct (wrs_exists d1 0 s2) as (d2 & Hd2 & Ld2); [lia..|].
    exists d2. split; [done|]. split; [lia|]. intros j Hj.
    rewrite (byte_at_wrs _ _ _ _ _ Hd2), (byte_at_wrs _ _ _ _ _ Hd1), L1, L2, ring_offset by lia.
    bcase; try lia; try done.
    all: first [rewrite (byte_at_rds _ _ _ _ _ Hr2) by lia | rewrite (byte_at_rds _ _ _ _ _ Hr1) by lia].
    all: f_equal; lia.
Qed.

(** A read of at most one lap: byte [i] of the destination is the byte at
    position [head + i] modulo the size; the rest of it is untouched. *)
Lemma copy_out_spec data size head to bytes :
  len data = size -> size < 2 ^ 56 -> 0 <= head < size -> 0 < bytes <= size -> bytes <= len to ->
  exists to', copy_out data size head ((head + bytes) mod size) to bytes = Some to' /\
    len to' = len to /\
    forall i, 0 <= i -> byte_at to' i =
      if i <? bytes then byte_at data ((head + i) mod size) else byte_at to i.
Proof.
  intros Hl Hs Hh Hb Hto. unfold copy_out. rewrite ring_index by lia.
  destruct (Z.leb_spec (if head + bytes <? size then head + bytes else head + bytes - size) head) as [E|E].
  - assert (size - head <= bytes) by (revert E; bcase; lia).
    destruct (rds_exists data head (size - head)) as (s1 & Hr1 & L1); [lia..|]. rewrite Hr1. step.
    destruct (wrs_exists to 0 s1) as (d1 & Hd1 & Ld1); [lia..|]. rewrite Hd1. step.
    rewrite u64_id by lia.
    destruct (rds_exists data 0 (bytes - (size - head))) as (s2 & Hr2 & L2); [lia..|].
    rewrite Hr2. step. destruct (wrs_exists d1 (size - head) s2) as (d2 & Hd2 & Ld2); [lia..|].
    exists d2. split; [done|]. split; [lia|]. intros i Hi.
    rewrite (byte_at_wrs _ _ _ _ _ Hd2), (byte_at_wrs _ _ _ _ _ Hd1), L1, L2 by lia.
    destruct (Z.ltb_spec i bytes); [rewrite ring_index by lia|]; bcase; try lia; try done.
    all: first [rewrite (byte_at_rds _ _ _ _ _ Hr2) by lia | rewrite (byte_at_rds _ _ _ _ _ Hr1) by lia].
    all: f_equal; lia.
  - assert (head + bytes < size) by (revert E; bcase; lia).
    destruct (rds_exists data head bytes) as (src & Hr & Ls); [lia..|]. rewrite Hr. step.
    destruct (wrs_exists to 0 src) as (d & Hd & Ld); [lia..|]. exists d. split; [done|].
    split; [lia|]. intros i Hi. rewrite (byte_at_wrs _ _ _ _ _ Hd), Ls by lia.
    destruct (Z.ltb_spec i bytes); [rewrite ring_index by lia|]; bcase; try lia; try done.
    rewrite (byte_at_rds _ _ _ _ _ Hr) by lia. f_equal. lia.
Qed.

(** ** Facts: the contents *)

Lemma len_contents rb : 0 <= rb_fill rb -> len (rb_contents rb) = rb_fill rb.
Proof. intros H. unfold rb_contents, len. rewrite length_map, length_seqZ. lia. Qed.

Lemma byte_at_contents rb i :
  0 <= i < rb_fill rb ->
  byte_at (rb_contents rb) i = byte_at (rb_data rb) ((rb_head rb + i) mod rb_size rb).
Proof.
  intros Hi. unfold byte_at at 1, rb_contents. apply nth_lookup_Some.
  change (map ?f ?l) with (f <$> l). rewrite list_lookup_fmap_Some.
  exists i. split; [done|]. apply lookup_seqZ. lia.
Qed.

(** *** The parts of an operation *)

Lemma lock_wf rb : rb_locked rb = false -> RB_LOCK rb = Some (set_locked rb (rb_usingMutex rb)).
Proof.
  intros H. unfold RB_LOCK. rewrite H. destruct rb as [[] l d s sm si h f]; cbn in *; [done|].
  by subst l.
Qed.

Lemma unlock_wf rb : rb_locked rb = rb_usingMutex rb -> RB_UNLOCK rb = Some (set_locked rb false).
Proof.
  intros H. unfold RB_UNLOCK. destruct rb as [[] l d s sm si h f]; cbn in *; subst l; done.
Qed.

Lemma lock_none rb : rb_usingMutex rb = false -> RB_LOCK rb = Some rb.
Proof. intros H. unfold RB_LOCK. by rewrite H. Qed.
Lemma unlock_none rb : rb_usingMutex rb = false -> RB_UNLOCK rb = Some rb.
Proof. intros H. unfold RB_UNLOCK. by rewrite H. Qed.

Lemma inv_set_locked rb b : rb_inv rb -> rb_inv (set_locked rb b).
Proof. intros [? ? ? ? ? ?]. by constructor. Qed.

Lemma contents_empty rb : rb_fill rb = 0 -> rb_contents rb = [].
Proof. unfold rb_contents. by intros ->. Qed.

(** Advancing the head drops the oldest bytes. *)
Lemma advance_head_spec rb n :
  rb_inv rb -> 0 <= n <= rb_fill rb ->
  rb_inv (_advance_head rb n) /\
  rb_contents (_advance_head rb n) = drop (Z.to_nat n) (rb_contents rb).
Proof.
  intros [Hd Hh Hf Hi Hm Hw] Hn. unfold _advance_head. rewrite !u64_id by lia. split.
  - constructor; cbn [set_pos rb_data rb_size rb_head rb_fill rb_size_initial rb_size_max];
      try lia. apply Z.mod_pos_bound. lia.
  - apply bytes_ext.
    + rewrite len_drop by (rewrite len_contents; lia). rewrite !len_contents by (cbn; lia). done.
    + rewrite len_contents by (cbn; lia). intros i Hi'. cbn [set_pos rb_fill] in Hi'.
      rewrite byte_at_drop, !byte_at_contents by (cbn; lia). cbn [set_pos rb_data rb_head rb_size].
      f_equal. rewrite Zplus_mod_idemp_l. f_equal. lia.
Qed.

(** Storing at the tail appends the source. *)
Lemma store_spec rb from bytes :
  rb_inv rb -> 0 <= bytes <= len from -> rb_fill rb + bytes <= rb_size rb ->
  bytes < rb_size rb \/ rb_head rb = 0 ->
  exists data,
    copy_in (rb_data rb) (rb_size rb) (u64 (rb_head rb + rb_fill rb) mod rb_size rb)
      (u64 (rb_head rb + rb_fill rb + bytes) mod rb_size rb) from bytes = Some data /\
    rb_inv (_advance_tail (set_data rb data (rb_size rb)) bytes) /\
    rb_contents (_advance_tail (set_data rb data (rb_size rb)) bytes) =
      rb_contents rb ++ take (Z.to_nat bytes) from.
Proof.
  intros [Hd Hh Hf Hi Hm Hw] Hb Hroom Hlap. rewrite !u64_id by lia.
  assert (Ht := Z.mod_pos_bound (rb_head rb + rb_fill rb) (rb_size rb) ltac:(lia)).
  destruct (copy_in_spec (rb_data rb) (rb_size rb) ((rb_head rb + rb_fill rb) mod rb_size rb) from bytes)
    as (data & Hc & Hl & Hat); [lia|lia|done|lia|..].
  { destruct (Z.eq_dec bytes (rb_size rb)); [right|left; lia]. split; [done|].
    replace (rb_head rb + rb_fill rb) with 0 by lia. apply Z.mod_0_l. lia. }
  rewrite Zplus_mod_idemp_l in Hc. exists data. split; [done|]. split.
  - unfold _advance_tail. rewrite u64_id by (cbn; lia).
    constructor; cbn [set_pos set_data rb_data rb_size rb_head rb_fill rb_size_initial rb_size_max]; lia.
  - unfold _advance_tail. rewrite u64_id by (cbn; lia). cbn [set_data rb_head rb_fill].
    apply bytes_ext.
    + rewrite len_app, len_take, !len_contents by (cbn; lia). done.
    + rewrite len_contents by (cbn; lia). cbn [set_pos rb_fill]. intros i Hi'.
      rewrite byte_at_contents by (cbn; lia). cbn [set_pos set_data rb_data rb_head rb_size].
      rewrite byte_at_app, len_contents, Hat by (try apply Z.mod_pos_bound; lia).
      rewrite <- Zminus_mod.
      replace (rb_head rb + i - (rb_head rb + rb_fill rb)) with (i - rb_fill rb) by lia.
      destruct (Z.ltb_spec i (rb_fill rb)).
      * rewrite <- (Z.mod_unique_pos (i - rb_fill rb) (rb_size rb) (-1) (i - rb_fill rb + rb_size rb)) by lia.
        zdec. by rewrite byte_at_contents by lia.
      * rewrite Z.mod_small by lia. zdec. by rewrite byte_at_take by lia.
Qed.

(** Growing a ring whose contents do not wrap leaves them alone. *)
Lemma grow_spec rb extra :
  rb_inv rb -> rb_head rb + rb_fill rb <= rb_size rb -> rb_size rb + len extra <= rb_size_max rb ->
  rb_inv (set_data rb (rb_data rb ++ extra) (rb_size rb + len extra)) /\
  rb_contents (set_data rb (rb_data rb ++ extra) (rb_size rb + len extra)) = rb_contents rb.
Proof.
  intros [Hd Hh Hf Hi Hm Hw] Hwrap Hmax. pose proof (len_nonneg extra). split.
  - constructor; cbn [set_data rb_data rb_size rb_head rb_fill rb_size_initial rb_size_max];
      rewrite ?len_app; lia.
  - apply bytes_ext; [by rewrite !len_contents by (cbn; lia)|].
    rewrite len_contents by (cbn; lia). cbn [set_data rb_fill]. intros i Hi'.
    rewrite !byte_at_contents by (cbn; lia). cbn [set_data rb_data rb_head rb_size].
    rewrite !Z.mod_small, byte_at_app by lia. by zdec.
Qed.

(** ** Facts: the operations *)

Section Operations.
Variable malloc : Z -> option (list Z).

(** The mutex and the size limits are not changed by any operation. *)
Definition same_config (rb rb' : KLRingBuffer) : Prop :=
  rb_usingMutex rb' = rb_usingMutex rb /\ rb_size_max rb' = rb_size_max rb /\
  rb_size_initial rb' = rb_size_initial rb.

(** A write that fits. *)
Lemma write_fits rb from bytes :
  rb_wf rb -> 0 <= bytes <= len from -> rb_fill rb + bytes <= rb_size rb ->
  bytes < rb_size rb \/ rb_head rb = 0 ->
  exists rb', rb_write_with_state malloc rb from bytes (Some 0) = Some (bytes, 0, rb') /\
    rb_wf rb' /\ rb_contents rb' = rb_contents rb ++ take (Z.to_nat bytes) from /\
    same_config rb rb' /\ rb_size rb' = rb_size rb.
Proof.
  intros [Hl Hinv] Hb Hroom Hlap. unfold rb_write_with_state. step. rewrite lock_wf by done. step.
  assert (Hinv' := Hinv). destruct Hinv' as [Hd Hh Hf Hi Hm Hw].
  unfold _rb_remain_in_seg. cbn [set_locked rb_size rb_fill]. rewrite u64_id by lia. zdec. step.
  destruct (store_spec (set_locked rb (rb_usingMutex rb)) from bytes) as (data & Hc & Hi1 & Hc1);
    [by apply inv_set_locked|done..|].
  cbn [set_locked rb_head rb_fill rb_size rb_data] in *. rewrite Hc. step.
  rewrite unlock_wf by done. step. eexists. split; [reflexivity|].
  split; [split; [done|by apply inv_set_locked]|]. split; [exact Hc1|done].
Qed.

(** A write that makes an unwrapped ring grow. *)
Lemma write_grows rb from bytes extra :
  rb_wf rb -> 0 <= bytes <= len from -> rb_size rb < rb_fill rb + bytes ->
  rb_size rb + bytes * 128 <= rb_size_max rb -> rb_head rb + rb_fill rb <= rb_size rb ->
  malloc (bytes * 128) = Some extra -> len extra = bytes * 128 ->
  exists rb', rb_write_with_state malloc rb from bytes (Some 0) = Some (bytes, 0, rb') /\
    rb_wf rb' /\ rb_contents rb' = rb_contents rb ++ take (Z.to_nat bytes) from /\
    same_config rb rb'.
Proof.
  intros [Hl Hinv] Hb Hroom Hmax Hwrap Hmal Hex. unfold rb_write_with_state. step.
  rewrite lock_wf by done. step. assert (Hinv' := Hinv). destruct Hinv' as [Hd Hh Hf Hi Hm Hw].
  unfold _rb_remain_in_seg, _rb_grow, _rb_size, realloc. cbn [set_locked rb_size rb_fill rb_size_max rb_data].
  rewrite (u64_id (bytes * 128)), (u64_id (rb_size rb - _)), (u64_id (rb_size rb + _)) by lia. zdec.
  replace (rb_size rb + bytes * 128 - len (rb_data rb)) with (bytes * 128) by lia.
  rewrite Hmal. step.
  destruct (grow_spec (set_locked rb (rb_usingMutex rb)) extra) as [Hi1 Hc1];
    [by apply inv_set_locked|done|cbn; lia|]. cbn [set_locked rb_data rb_size] in Hi1, Hc1.
  rewrite Hex in Hi1, Hc1.
  destruct (store_spec _ from bytes Hi1) as (data & Hc & Hi2 & Hc2); [done|cbn; lia|cbn; lia|].
  rewrite Hc. step. rewrite unlock_wf by done. step. eexists. split; [reflexivity|].
  split; [split; [done|by apply inv_set_locked]|].
  split; [|done]. etransitivity; [exact Hc2|]. by rewrite Hc1.
Qed.

(** A write beyond the maximum drops the oldest bytes first. *)
Lemma write_overflows rb from bytes :
  rb_wf rb -> rb_usingMutex rb = false -> 0 <= bytes <= len from ->
  bytes <= rb_fill rb -> bytes < rb_size rb -> rb_size rb < rb_fill rb + bytes ->
  rb_size_max rb < rb_size rb + bytes * 128 ->
  exists rb', rb_write_with_state malloc rb from bytes (Some 0) = Some (bytes, 1, rb') /\
    rb_wf rb' /\ rb_contents rb' = drop (Z.to_nat bytes) (rb_contents rb) ++ take (Z.to_nat bytes) from /\
    same_config rb rb'.
Proof.
  intros [Hl Hinv] Hmu Hb Hf' Hlt Hroom Hmax. unfold rb_write_with_state. step.
  assert (Hinv' := Hinv). destruct Hinv' as [Hd Hh Hf Hi Hm Hw].
  rewrite lock_none by done. step. unfold _rb_remain_in_seg, _rb_grow, _rb_size.
  rewrite (u64_id (bytes * 128)), (u64_id (rb_size rb - _)), (u64_id (rb_size rb + _)) by lia. zdec.
  step. rewrite unlock_none by done. step. unfold rb_discard. rewrite lock_none by done. step.
  rewrite unlock_none by done. step.
  destruct (advance_head_spec rb bytes Hinv) as [Hi1 Hc1]; [lia|].
  destruct (store_spec _ from bytes Hi1) as (data & Hc & Hi2 & Hc2);
    [done|cbn; rewrite u64_id by lia; lia|cbn; lia|].
  rewrite Hc. step. rewrite unlock_none by done. step. eexists. split; [reflexivity|].
  split; [split; [done|exact Hi2]|]. split; [|done]. etransitivity; [exact Hc2|]. by rewrite Hc1.
Qed.

(** Reading, with or without advancing. *)
Definition read_count (rb : KLRingBuffer) (bytes : Z) : Z := Z.min bytes (rb_fill rb).

Lemma shrink_spec rb :
  rb_inv rb -> exists rb', _rb_shrink_reset malloc rb = Some rb' /\ rb_inv rb' /\
    rb_contents rb' = [] /\ rb_locked rb' = rb_locked rb /\ same_config rb rb'.
Proof.
  intros [Hd Hh Hf Hi Hm Hw]. unfold _rb_shrink_reset, realloc. zdec. step.
  eexists. split; [reflexivity|]. split; [|done].
  constructor; cbn [set_pos set_data rb_data rb_size rb_head rb_fill rb_size_initial rb_size_max];
    rewrite ?len_take by lia; lia.
Qed.

Lemma locked_get_wf {A} rb (f : KLRingBuffer -> A) :
  rb_locked rb = false -> (forall b, f (set_locked rb b) = f rb) -> locked_get rb f = Some (f rb, rb).
Proof.
  intros H Hf. unfold locked_get. rewrite lock_wf by done. step. rewrite unlock_wf by done. step.
  rewrite Hf. do 2 f_equal. destruct rb; cbn in *. by subst.
Qed.

(** The last step of a read: free a large allocation that has become empty. *)
Lemma maybe_shrink rb :
  rb_inv rb -> exists rb',
    (if (_rb_used rb =? 0) && (rb_size_initial rb <? rb_size rb)
     then _rb_shrink_reset malloc rb else Some rb) = Some rb' /\
    rb_inv rb' /\ rb_contents rb' = rb_contents rb /\ rb_locked rb' = rb_locked rb /\
    same_config rb rb'.
Proof.
  intros Hinv. destruct ((_rb_used rb =? 0) && (rb_size_initial rb <? rb_size rb)) eqn:E.
  - zbool. destruct (shrink_spec rb Hinv) as (rb' & H1 & H2 & H3 & H4). exists rb'.
    rewrite H3, (contents_empty rb) by done. done.
  - exists rb. split; [done|]. split; [done|]. by repeat split.
Qed.

Lemma reader_spec rb to bytes adv :
  rb_wf rb -> 0 <= bytes <= len to ->
  exists to' rb', rb_reader malloc rb to bytes adv = Some (read_count rb bytes, to', rb') /\
    rb_wf rb' /\ len to' = len to /\
    take (Z.to_nat (read_count rb bytes)) to' = take (Z.to_nat (read_count rb bytes)) (rb_contents rb) /\
    rb_contents rb' =
      (if adv then drop (Z.to_nat (read_count rb bytes)) (rb_contents rb) else rb_contents rb) /\
    same_config rb rb'.
Proof.
  intros Hwf Hb. assert (Hwf' := Hwf). destruct Hwf' as [Hl Hinv].
  assert (Hinv' := Hinv). destruct Hinv' as [Hd Hh Hf Hi Hm Hw].
  unfold rb_reader, rb_used. do 2 (rewrite locked_get_wf by done; step).
  replace (if _rb_used rb <? bytes then Some (_rb_used rb, rb) else Some (bytes, rb))
    with (Some (read_count rb bytes, rb)).
  2: { unfold read_count, _rb_used. destruct (Z.ltb_spec (rb_fill rb) bytes); do 2 f_equal; lia. }
  step. set (n := read_count rb bytes). assert (Hn : 0 <= n <= rb_fill rb /\ n <= len to).
  { unfold n, read_count. lia. }
  destruct (Z.eqb_spec n 0) as [E|E].
  { exists to, rb. rewrite E. split; [done|]. split; [done|]. split; [done|].
    split; [done|]. split; [by destruct adv|done]. }
  rewrite lock_wf by done. step. cbn [set_locked rb_head rb_size rb_data]. rewrite u64_id by lia.
  destruct (copy_out_spec (rb_data rb) (rb_size rb) (rb_head rb) to n) as (to' & Hc & Hlt & Hat); [lia..|].
  rewrite Hc. step.
  set (rb1 := if adv then _advance_head _ n else _).
  assert (H1 : rb_inv rb1 /\ rb_locked rb1 = rb_usingMutex rb /\ same_config rb rb1 /\
    rb_contents rb1 = if adv then drop (Z.to_nat n) (rb_contents rb) else rb_contents rb).
  { unfold rb1. pose proof (inv_set_locked rb (rb_usingMutex rb) Hinv) as HL. destruct adv; [|done].
    destruct (advance_head_spec _ n HL) as [? ?]; [cbn; lia|]. done. }
  destruct H1 as (Hi1 & Hl1 & (Hu1 & Hs1 & Hn1) & Hc1).
  destruct (maybe_shrink rb1 Hi1) as (rb2 & -> & Hi2 & Hc2 & Hl2 & (Hu2 & Hs2 & Hn2)). step.
  rewrite unlock_wf by congruence. step. exists to', (set_locked rb2 false).
  split; [done|]. split; [split; [done|by apply inv_set_locked]|]. split; [done|]. split; [|split].
  - apply bytes_ext; [rewrite !len_take; rewrite ?len_contents; lia|].
    rewrite len_take by lia. intros i Hi'. rewrite !byte_at_take, Hat by lia. zdec.
    by rewrite byte_at_contents by lia.
  - rewrite <- Hc1, <- Hc2. done.
  - unfold same_config. cbn. by rewrite Hu2, Hs2, Hn2.
Qed.

(** *** The file writer *)

Lemma fwrite_loop_spec fuel : forall rb b out,
  rb_wf rb -> len b = 8192 -> (Z.to_nat (rb_fill rb) < fuel)%nat ->
  exists rb', fwrite_loop malloc fuel rb b out = Some (out ++ rb_contents rb, rb') /\
    rb_wf rb' /\ rb_contents rb' = [].
Proof.
  induction fuel as [|fuel IH]; intros rb b out Hwf Hb Hf; [lia|]. cbn [fwrite_loop].
  assert (Hfill := rbi_fill rb (proj2 Hwf)). unfold rb_read.
  destruct (reader_spec rb b 8192 true Hwf) as (b' & rb1 & -> & Hw1 & Hl1 & Ht1 & Hc1 & _); [lia|].
  step. assert (Hlen := len_contents rb ltac:(lia)).
  destruct (Z.eqb_spec (read_count rb 8192) 0) as [E|E]; unfold read_count in *.
  - assert (E0 : rb_contents rb = []) by (apply contents_empty; lia).
    exists rb1. rewrite E0, app_nil_r, Hc1, E0. split; [done|]. split; [done|]. apply drop_nil.
  - set (n := Z.min 8192 (rb_fill rb)) in *.
    rewrite rds_Some, drop_0, Ht1 by lia. step.
    destruct (IH rb1 b' (out ++ take (Z.to_nat n) (rb_contents rb)) Hw1) as (rb2 & -> & Hw2 & Hc2).
    + lia.
    + assert (L1 := len_contents rb1 (proj1 (rbi_fill rb1 (proj2 Hw1)))).
      rewrite Hc1, len_drop in L1 by lia. lia.
    + exists rb2. rewrite <- app_assoc, Hc1, take_drop. done.
Qed.
End Operations.

(** ** Refinement: a bounded FIFO *)

Inductive rb_op :=
  | OpWrite (from : list Z)
  | OpRead (bytes : Z)
  | OpPeek (bytes : Z)
  | OpDiscard (bytes : Z)
  | OpEmpty
  | OpUsed.

(** The abstract queue: new queue and output. *)
Definition fifo_op (q : list Z) (op : rb_op) : list Z * list Z :=
  match op with
  | OpWrite from => (q ++ from, [len from; 0])
  | OpRead n => (drop (Z.to_nat n) q, take (Z.to_nat n) q)
  | OpPeek n => (q, take (Z.to_nat n) q)
  | OpDiscard n => (drop (Z.to_nat n) q, [])
  | OpEmpty => ([], [])
  | OpUsed => (q, [len q])
  end.

(** The client's obligations: no write beyond the capacity (nor one of the
    whole capacity at once), no discard of more than there is. *)
Definition fifo_ok (cap : Z) (q : list Z) (op : rb_op) : Prop :=
  match op with
  | OpWrite from => len q + len from <= cap /\ len from < cap
  | OpRead n | OpPeek n => 0 <= n
  | OpDiscard n => 0 <= n <= len q
  | OpEmpty | OpUsed => True
  end.

Fixpoint fifo_run (q : list Z) (ops : list rb_op) : list Z * list (list Z) :=
  match ops with
  | [] => (q, [])
  | op :: ops => let (q, o) := fifo_op q op in let (q, os) := fifo_run q ops in (q, o :: os)
  end.

Fixpoint fifo_run_ok (cap : Z) (q : list Z) (ops : list rb_op) : Prop :=
  match ops with
  | [] => True
  | op :: ops => fifo_ok cap q op /\ fifo_run_ok cap (fst (fifo_op q op)) ops
  end.

Section Refinement.
Variable malloc : Z -> option (list Z).

(** The same operations on the ring; a reader brings a buffer of [n] bytes. *)
Definition ring_op (rb : KLRingBuffer) (op : rb_op) : option (KLRingBuffer * list Z) :=
  match op with
  | OpWrite from =>
      '(n, overflow, rb) ← rb_write_with_state malloc rb from (len from) (Some 0);
      Some (rb, [n; overflow])
  | OpRead n =>
      '(k, to, rb) ← rb_read malloc rb (replicate (Z.to_nat n) 0) n;
      Some (rb, take (Z.to_nat k) to)
  | OpPeek n =>
      '(k, to, rb) ← rb_peek malloc rb (replicate (Z.to_nat n) 0) n;
      Some (rb, take (Z.to_nat k) to)
  | OpDiscard n => rb ← rb_discard rb n; Some (rb, [])
  | OpEmpty => rb ← rb_empty rb; Some (rb, [])
  | OpUsed => '(n, rb) ← rb_used rb; Some (rb, [n])
  end.

Fixpoint ring_run (rb : KLRingBuffer) (ops : list rb_op) : option (KLRingBuffer * list (list Z)) :=
  match ops with
  | [] => Some (rb, [])
  | op :: ops => '(rb, o) ← ring_op rb op; '(rb, os) ← ring_run rb ops; Some (rb, o :: os)
  end.

(** The simulation relation: a well-formed ring that holds the queue. *)
Definition ring_sim (cap : Z) (rb : KLRingBuffer) (q : list Z) : Prop :=
  rb_wf rb /\ rb_contents rb = q /\ rb_size_initial rb = cap.

Lemma take_read_count rb n :
  rb_wf rb -> 0 <= n -> take (Z.to_nat (read_count rb n)) (rb_contents rb) = take (Z.to_nat n) (rb_contents rb)
  /\ drop (Z.to_nat (read_count rb n)) (rb_contents rb) = drop (Z.to_nat n) (rb_contents rb).
Proof.
  intros Hwf Hn. assert (Hf := rbi_fill rb (proj2 Hwf)).
  assert (Hl := len_contents rb ltac:(lia)). unfold len in Hl. unfold read_count.
  destruct (Z_le_dec n (rb_fill rb)); [by rewrite Z.min_l by lia|].
  rewrite Z.min_r, !take_ge, !drop_ge by lia. done.
Qed.

Lemma reader_sim cap rb q n adv :
  ring_sim cap rb q -> 0 <= n ->
  exists k to rb', rb_reader malloc rb (replicate (Z.to_nat n) 0) n adv = Some (k, to, rb') /\
    take (Z.to_nat k) to = take (Z.to_nat n) q /\
    ring_sim cap rb' (if adv then drop (Z.to_nat n) q else q).
Proof.
  intros (Hwf & Hq & Hcap) Hn.
  destruct (reader_spec malloc rb (replicate (Z.to_nat n) 0) n adv Hwf)
    as (to & rb' & H1 & Hw & Hl & Ht & Hc & Hcfg); [rewrite len_replicate by lia; lia|].
  destruct (take_read_count rb n Hwf Hn) as [E1 E2]. rewrite E1 in Ht. rewrite E2 in Hc.
  exists (read_count rb n), to, rb'. rewrite <- Hq. split; [done|]. split; [done|].
  split; [done|]. split; [done|]. destruct Hcfg as (_ & _ & ->). done.
Qed.

Lemma ring_op_sim cap rb q op :
  ring_sim cap rb q -> fifo_ok cap q op ->
  exists rb', ring_op rb op = Some (rb', snd (fifo_op q op)) /\ ring_sim cap rb' (fst (fifo_op q op)).
Proof.
  intros Hsim Hok. assert (Hsim' := Hsim). destruct Hsim' as ((Hl & Hinv) & Hq & Hcap).
  assert (Hinv' := Hinv). destruct Hinv' as [Hd Hh Hf Hi Hm Hw].
  assert (Hlen := len_contents rb ltac:(lia)). rewrite Hq in Hlen.
  destruct op as [from|n|n|n| |]; cbn [ring_op fifo_op fst snd fifo_ok] in *.
  - pose proof (len_nonneg from).
    destruct (write_fits malloc rb from (len from)) as (rb' & -> & Hw' & Hc' & (_ & _ & Hs') & _);
      [by split|lia|lia|left; lia|]. step. exists rb'. split; [done|]. split; [done|].
    split; [|congruence]. rewrite Hc', Hq. f_equal. apply take_ge. unfold len. lia.
  - unfold rb_read. destruct (reader_sim cap rb q n true Hsim Hok) as (k & to & rb' & -> & Ht & Hs).
    step. exists rb'. by rewrite Ht.
  - unfold rb_peek. destruct (reader_sim cap rb q n false Hsim Hok) as (k & to & rb' & -> & Ht & Hs).
    step. exists rb'. by rewrite Ht.
  - unfold rb_discard. rewrite lock_wf by done. step.
    destruct (advance_head_spec (set_locked rb (rb_usingMutex rb)) n) as [Hi1 Hc1];
      [by apply inv_set_locked|cbn; lia|].
    rewrite unlock_wf by done. step. eexists. split; [reflexivity|].
    split; [split; [done|by apply inv_set_locked]|]. split; [|done]. rewrite <- Hq. exact Hc1.
  - unfold rb_empty. rewrite lock_wf by done. step. rewrite unlock_wf by done. step.
    eexists. split; [reflexivity|]. split; [split; [done|]|by split].
    constructor; cbn; lia.
  - unfold rb_used. rewrite locked_get_wf by done. step. exists rb. split; [|done].
    unfold _rb_used. by rewrite Hlen.
Qed.

Lemma ring_run_sim cap ops : forall rb q,
  ring_sim cap rb q -> fifo_run_ok cap q ops ->
  exists rb', ring_run rb ops = Some (rb', snd (fifo_run q ops)) /\
    ring_sim cap rb' (fst (fifo_run q ops)).
Proof.
  induction ops as [|op ops IH]; intros rb q Hsim Hok; cbn [ring_run fifo_run fifo_run_ok] in *.
  - by exists rb.
  - destruct Hok as [Hop Hok]. destruct (ring_op_sim cap rb q op Hsim Hop) as (rb1 & -> & Hs1). step.
    destruct (fifo_op q op) as [q1 o]. cbn [fst snd] in *.
    destruct (IH rb1 q1 Hs1 Hok) as (rb2 & -> & Hs2). step. exists rb2.
    by destruct (fifo_run q1 ops).
Qed.
End Refinement.

(** ** Properties *)

(** A concrete allocator for the witnesses. *)
Definition some_malloc (n : Z) : option (list Z) := Some (replicate (Z.to_nat n) 0xEE).



(** a write that does not fit makes the ring grow; when its contents do not
    wrap around the end, nothing is lost: the bytes are appended, no overflow
    is reported, and the ring keeps its limits. *)
Theorem rb_write_grows (malloc : Z -> option (list Z)) (rb : KLRingBuffer) (from extra : list Z) :
  rb_wf rb -> rb_size rb < rb_fill rb + len from ->
  rb_size rb + len from * 128 <= rb_size_max rb -> rb_head rb + rb_fill rb <= rb_size rb ->
  malloc (len from * 128) = Some extra -> len extra = len from * 128 ->
  exists rb', rb_write_with_state malloc rb from (len from) (Some 0) = Some (len from, 0, rb') /\
    rb_wf rb' /\ rb_contents rb' = rb_contents rb ++ from /\ rb_size_max rb' = rb_size_max rb.
Proof.
  intros Hwf Hroom Hmax Hwrap Hmal Hex. pose proof (len_nonneg from).
  destruct (write_grows malloc rb from (len from) extra Hwf) as (rb' & H1 & H2 & H3 & (_ & H4 & _));
    [lia|done..|].
  exists rb'. split; [done|]. split; [done|]. split; [|done]. rewrite H3. f_equal. apply take_ge.
  unfold len. lia.
Qed.

Definition ring_of (mutex : bool) (data : list Z) (size_max head fill : Z) : KLRingBuffer :=
  {| rb_usingMutex := mutex; rb_locked := false; rb_data := data; rb_size := len data;
     rb_size_max := size_max; rb_size_initial := len data; rb_head := head; rb_fill := fill |}.

Lemma rb_write_grows_witness :
  exists rb', rb_write_with_state some_malloc (ring_of false [1; 2; 3; 4] 1000 1 3) [5; 6] 2 (Some 0)
      = Some (2, 0, rb') /\
    rb_wf rb' /\ rb_contents rb' = [2; 3; 4; 5; 6] /\ rb_size_max rb' = 1000.
Proof.
  apply (rb_write_grows some_malloc (ring_of false [1; 2; 3; 4] 1000 1 3) [5; 6] (replicate 256 0xEE)).
  - split; [done|]. constructor; vm_compute; done.
  - done.
  - vm_compute. done.
  - vm_compute. done.
  - reflexivity.
  - reflexivity.
Defined.

(** When the contents do wrap, the bytes at the start of the old allocation are
    not moved, and the ring reads indeterminate memory in their place. *)
Lemma rb_grow_wrapped_corrupts :
  let rb := ring_of false [4; 1; 2; 3] 1000 1 4 in
  rb_contents rb = [1; 2; 3; 4] /\
  (fun r => rb_contents r.2) <$> rb_write_with_state some_malloc rb [5] 1 (Some 0)
    = Some [1; 2; 3; 0xEE; 5].
Proof. by vm_compute. Qed.

(** A write of the whole capacity from a head other than 0 overruns. *)
Lemma rb_write_whole_lap_overruns :
  rb_write_with_state some_malloc (ring_of false [1; 2; 3; 4] 4 1 0) [5; 6; 7; 8] 4 (Some 0) = None.
Proof. by vm_compute. Qed.

(** [rb_write] passes the null pointer that is written unconditionally. *)
Lemma rb_write_crashes malloc rb from bytes : rb_write malloc rb from bytes = None.
Proof. done. Qed.

(** when the maximum size is reached, a write of at most the bytes stored
    and less than a lap drops exactly that many of the oldest bytes, appends
    its own and reports the overflow, if the ring has no mutex; in a
    thread-safe ring the same write, whatever its size, unlocks the mutex a
    second time. *)
Theorem rb_write_overflow (malloc : Z -> option (list Z)) (rb : KLRingBuffer) (from : list Z) :
  rb_wf rb -> rb_size rb < rb_fill rb + len from -> len from < 2 ^ 56 ->
  rb_size_max rb < rb_size rb + len from * 128 ->
  (rb_usingMutex rb = false -> len from <= rb_fill rb -> len from < rb_size rb ->
     exists rb', rb_write_with_state malloc rb from (len from) (Some 0) = Some (len from, 1, rb') /\
       rb_wf rb' /\ rb_contents rb' = drop (Z.to_nat (len from)) (rb_contents rb) ++ from) /\
  (rb_usingMutex rb = true -> rb_write_with_state malloc rb from (len from) (Some 0) = None).
Proof.
  intros Hwf Hroom Hw Hmax. pose proof (len_nonneg from). split.
  - intros Hmu Hf Hlt.
    destruct (write_overflows malloc rb from (len from) Hwf Hmu) as (rb' & H1 & H2 & H3 & _);
      [lia|done..|].
    exists rb'. split; [done|]. split; [done|]. rewrite H3. f_equal. apply take_ge. unfold len. lia.
  - intros Hmu. destruct Hwf as [Hl [Hd Hh Hf Hi Hm Hw']].
    unfold rb_write_with_state. step. rewrite lock_wf by done. step.
    unfold _rb_remain_in_seg, _rb_grow, _rb_size. cbn [set_locked rb_size rb_fill rb_size_max].
    rewrite (u64_id (len from * 128)), (u64_id (rb_size rb - _)), (u64_id (rb_size rb + _)) by lia. zdec.
    step. rewrite unlock_wf by done. step. unfold rb_discard. rewrite lock_wf by done. step.
    rewrite unlock_wf by done. step. destruct (copy_in _ _ _ _ _ _); [step|done].
    unfold RB_UNLOCK. cbn [_advance_tail _advance_head set_pos set_data set_locked rb_usingMutex rb_locked].
    by rewrite Hmu.
Qed.

Lemma rb_write_overflow_witness :
  (false = false -> 2 <= 3 -> 2 < 4 ->
     exists rb', rb_write_with_state some_malloc (ring_of false [3; 9; 1; 2] 4 2 3) [5; 6] 2 (Some 0)
       = Some (2, 1, rb') /\ rb_wf rb' /\ rb_contents rb' = [3; 5; 6]) /\
  (false = true ->
     rb_write_with_state some_malloc (ring_of false [3; 9; 1; 2] 4 2 3) [5; 6] 2 (Some 0) = None).
Proof.
  apply (rb_write_overflow some_malloc (ring_of false [3; 9; 1; 2] 4 2 3) [5; 6]).
  - split; [done|]. constructor; vm_compute; done.
  - done.
  - done.
  - done.
Defined.

(** [rb_fwrite] terminates and drains the ring: nothing is written for an
    empty one; otherwise the file gets HEAD, the big-endian length, all the
    bytes in order in chunks of at most 8192, and TAIL. *)
Theorem rb_fwrite_drains (malloc : Z -> option (list Z)) (rb : KLRingBuffer) (b : list Z) :
  rb_wf rb -> len b = 8192 -> len (rb_contents rb) < 2 ^ 32 ->
  exists out rb', rb_fwrite malloc rb b = Some (out, rb') /\ rb_wf rb' /\ rb_contents rb' = [] /\
    (rb_contents rb = [] -> out = []) /\
    (rb_contents rb <> [] -> exists h0 h1 h2 h3,
       out = [0x48; 0x45; 0x41; 0x44] ++ [h0; h1; h2; h3] ++ rb_contents rb ++ [0x54; 0x41; 0x49; 0x4C] /\
       bytes [h0; h1; h2; h3] /\
       h0 * 2 ^ 24 + h1 * 2 ^ 16 + h2 * 2 ^ 8 + h3 = len (rb_contents rb)).
Proof.
  intros Hwf Hb Hmax. assert (Hf := rbi_fill rb (proj2 Hwf)).
  assert (Hlen := len_contents rb ltac:(lia)). destruct Hwf as [Hl Hinv].
  unfold rb_fwrite, rb_is_empty, rb_used. rewrite locked_get_wf by done. step.
  destruct (Z.eqb_spec (rb_fill rb) 0) as [E|E].
  { exists [], rb. rewrite (contents_empty rb E). split; [done|]. split; [by split|].
    split; [done|]. split; [done|]. by intros []. }
  rewrite locked_get_wf by done. step. unfold _rb_used.
  match goal with |- context [fwrite_loop malloc ?f rb b ?o] =>
    destruct (fwrite_loop_spec malloc f rb b o) as (rb' & -> & Hw' & Hc'); [by split|done|lia|] end.
  step. eexists _, rb'. split; [reflexivity|]. split; [done|]. split; [done|]. split.
  { intros E0. rewrite E0 in Hlen. unfold len in Hlen. cbn in Hlen. lia. }
  intros _. rewrite <- !app_assoc. do 4 eexists. split; [reflexivity|]. split.
  - repeat (apply List.Forall_cons; [apply u8_is_byte|]). constructor.
  - rewrite u32_id, !Z.shiftr_div_pow2, Hlen by lia. clear - Hmax Hlen Hf. zlia.
Qed.

Lemma rb_fwrite_drains_witness :
  exists out rb', rb_fwrite some_malloc (ring_of true [3; 9; 1; 2] 4 2 3) (replicate (Z.to_nat 8192) 0) = Some (out, rb') /\
    rb_wf rb' /\ rb_contents rb' = [] /\
    ([1; 2; 3] = [] -> out = []) /\
    ([1; 2; 3] <> [] -> exists h0 h1 h2 h3,
       out = [0x48; 0x45; 0x41; 0x44] ++ [h0; h1; h2; h3] ++ [1; 2; 3] ++ [0x54; 0x41; 0x49; 0x4C] /\
       bytes [h0; h1; h2; h3] /\ h0 * 2 ^ 24 + h1 * 2 ^ 16 + h2 * 2 ^ 8 + h3 = 3).
Proof.
  apply (rb_fwrite_drains some_malloc (ring_of true [3; 9; 1; 2] 4 2 3) (replicate (Z.to_nat 8192) 0)).
  - split; [done|]. constructor; vm_compute; done.
  - reflexivity.
  - done.
Defined.
