(* ===== verification/Packetizer.v ===== *)
(** * The packetizers: src/ts_packetizer.c

    Both functions cut a PES into transport packets in an array they allocate.
    A NULL argument is [None] (or a [true] flag for the result pointers, which
    are only written); the outer [None] of a result is undefined behaviour.
    [p] is the 188-byte slice of the array a loop iteration works on. *)
From Stdlib Require Import ZArith Lia Bool.
From stdpp Require Import base numbers list option.
From S2P Require Import Prelude Ts.

Section Allocation.

(** [calloc n m]: [n * m] zero bytes, or a failure. *)
Variable calloc : Z -> Z -> option (list Z).

(** ** ltntstools_ts_packetizer *)

(** One iteration, given the bytes left.  Result: the packet and the number of
    payload bytes. *)
Definition packetizer_packet (buf : list Z) (offset rem cnt packetSize cc pid : Z) (p : list Z)
    : option (list Z * Z) :=
  let max := packetSize - 4 in
  let rem := if max <? rem then max else rem in
  p ← wr p 0 0x47;
  p ← wr p 1 (u8 (Z.shiftr pid 8));
  p ← wr p 2 (u8 pid);
  p ← wr p 3 (Z.lor 0x10 (Z.land cc 0x0f));
  src ← rds buf offset rem;
  p ← wrs p 4 src;
  p ← memset p (4 + rem) 0xff (u32 (packetSize - rem - 4));
  p ← (if cnt =? 0 then v ← rd p 1; wr p 1 (Z.lor v 0x40) else Some p);
  Some (p, rem).

Fixpoint packetizer_loop (fuel : nat) (buf : list Z) (byteCount packetSize pid : Z)
    (arr : list Z) (offset cnt cc : Z) : option (list Z * Z * Z) :=
  match fuel with
  | O => None
  | S fuel' =>
      let rem := u32 (byteCount - offset) in
      if rem =? 0 then Some (arr, cnt, cc) else
      p ← rds arr (cnt * packetSize) packetSize;
      '(p, n) ← packetizer_packet buf offset rem cnt packetSize cc pid p;
      arr ← wrs arr (cnt * packetSize) p;
      packetizer_loop fuel' buf byteCount packetSize pid arr (u32 (offset + n)) (cnt + 1) (u8 (cc + 1))
  end.

(** The result of the allocation is not tested. *)
Definition ltntstools_ts_packetizer (buf : option (list Z)) (byteCount : Z)
    (pkts_null packetCount_null : bool) (packetSize : Z) (cc : option Z) (pid : Z)
    : option (Z * option (list Z * Z * Z)) :=
  match buf, cc with
  | Some buf, Some cc =>
      if (byteCount =? 0) || pkts_null || packetCount_null || negb (packetSize =? 188) || (0x1fff <? pid)
      then Some (-1, None) else
      let max := packetSize - 4 in
      let packets := i32 (u32 ((byteCount / max + 1) * packetSize)) in
      arr ← calloc packets packetSize;
      '(arr, cnt, cc) ← packetizer_loop (S (Z.to_nat byteCount)) buf byteCount packetSize pid arr 0 0 cc;
      Some (0, Some (arr, cnt, cc))
  | _, _ => Some (-1, None)
  end.

(** ** ltntstools_ts_packetizer_with_pcr *)

(** [for (i = from; i < to; i++) p[i] = 0xff;] *)
Definition stuff (p : list Z) (from to : Z) : option (list Z) :=
  memset p from 0xff (Z.max 0 (to - from)).

Definition write_pcr (p : list Z) (pcr : Z) : option (list Z) :=
  let base := u64 (Z.quot pcr 300) in
  let ext := u64 (Z.rem pcr 300) in
  p ← wr p 6 (Z.land (Z.shiftr base 25) 0xff);
  p ← wr p 7 (Z.land (Z.shiftr base 17) 0xff);
  p ← wr p 8 (Z.land (Z.shiftr base 9) 0xff);
  p ← wr p 9 (Z.land (Z.shiftr base 1) 0xff);
  p ← wr p 10 (Z.lor (Z.lor (Z.shiftl (Z.land base 1) 7) 0x7e) (Z.land (Z.shiftr ext 8) 1));
  wr p 11 (Z.land ext 0xff).

Definition set_bits (p : list Z) (i mask : Z) : option (list Z) :=
  v ← rd p i; wr p i (Z.lor v mask).

(** The part of an iteration after the header: the adaptation field. *)
Definition adaptation (needPCR needIndicators : bool) (af_flags pcr rem : Z) (p : list Z)
    : option (list Z * Z * Z) :=
  if needPCR then
    p ← set_bits p 3 0x30;
    '(p, cpy, payload_offset) ←
      (if 176 <=? rem then
         p ← wr p 4 7; p ← wr p 5 af_flags; Some (p, 176, 12)
       else
         let adaptation_field_length := 183 - rem in
         let payload_offset := 4 + 1 + adaptation_field_length in
         p ← wr p 4 (u8 adaptation_field_length);
         p ← wr p 5 af_flags;
         p ← stuff p 12 payload_offset;
         Some (p, rem, payload_offset));
    p ← write_pcr p pcr;
    Some (p, cpy, payload_offset)
  else if needIndicators then
    p ← set_bits p 3 0x30;
    if 182 <=? rem then
      p ← wr p 4 1; p ← wr p 5 af_flags; Some (p, 182, 6)
    else
      let adaptation_field_length := 183 - rem in
      let payload_offset := 4 + 1 + adaptation_field_length in
      p ← wr p 4 (u8 adaptation_field_length);
      p ← wr p 5 af_flags;
      p ← stuff p 6 payload_offset;
      Some (p, rem, payload_offset)
  else if 184 <=? rem then
    p ← set_bits p 3 0x10; Some (p, 184, 4)
  else
    let adaptation_field_length := 183 - rem in
    let payload_offset := 4 + 1 + adaptation_field_length in
    p ← set_bits p 3 0x30;
    p ← wr p 4 (u8 adaptation_field_length);
    p ← (if 0 <? adaptation_field_length
         then p ← wr p 5 0; stuff p 6 payload_offset else Some p);
    Some (p, rem, payload_offset).

(** One iteration: the packet and the number of payload bytes [cpy]. *)
Definition with_pcr_packet (buf : list Z) (byteCount pos cnt cc pid pcr
    random_access_indicator elementary_stream_priority_indicator : Z) (p : list Z)
    : option (list Z * Z) :=
  p ← memset p 0 0xff 188;
  let firstPacket := cnt =? 0 in
  let needPCR := negb (pcr =? -1) && firstPacket in
  let rai := negb (random_access_indicator =? 0) in
  let espi := negb (elementary_stream_priority_indicator =? 0) in
  let needIndicators := firstPacket && (rai || espi) in
  let af_flags := 0 in
  let af_flags := if needPCR then Z.lor af_flags 0x10 else af_flags in
  let af_flags := if firstPacket && rai then Z.lor af_flags 0x40 else af_flags in
  let af_flags := if firstPacket && espi then Z.lor af_flags 0x20 else af_flags in
  p ← wr p 0 0x47;
  p ← wr p 1 (Z.land (Z.shiftr pid 8) 0x1f);
  p ← wr p 2 (Z.land pid 0xff);
  p ← wr p 3 (Z.land cc 0x0f);
  p ← (if firstPacket then set_bits p 1 0x40 else Some p);
  let rem := u32 (byteCount - pos) in
  '(p, cpy, payload_offset) ← adaptation needPCR needIndicators af_flags pcr rem p;
  src ← rds buf pos cpy;
  p ← wrs p payload_offset src;
  Some (p, cpy).

Fixpoint with_pcr_loop (fuel : nat) (buf : list Z) (byteCount pid pcr rai espi : Z)
    (arr : list Z) (pos cnt cc : Z) : option (list Z * Z * Z) :=
  match fuel with
  | O => None
  | S fuel' =>
      if pos <? byteCount then
        let off := u32 (cnt * 188) in
        p ← rds arr off 188;
        '(p, cpy) ← with_pcr_packet buf byteCount pos cnt cc pid pcr rai espi p;
        arr ← wrs arr off p;
        with_pcr_loop fuel' buf byteCount pid pcr rai espi arr
          (u32 (pos + cpy)) (u32 (cnt + 1)) (Z.land (cc + 1) 0x0f)
      else Some (arr, cnt, cc)
  end.

Definition ltntstools_ts_packetizer_with_pcr (buf : option (list Z)) (byteCount : Z)
    (pkts_null packetCount_null : bool) (packetSize : Z) (cc : option Z) (pid pcr rai espi : Z)
    : option (Z * option (list Z * Z * Z)) :=
  match buf, cc with
  | Some buf, Some cc =>
      if (byteCount =? 0) || pkts_null || packetCount_null || negb (packetSize =? 188) || (0x1fff <? pid)
      then Some (-1, None) else
      let maxPackets := u32 (u32 (byteCount + 175) / 176 + 2) in
      match calloc maxPackets packetSize with
      | None => Some (-1, None)
      | Some arr =>
          '(arr, cnt, cc) ←
            with_pcr_loop (S (Z.to_nat byteCount)) buf byteCount pid pcr rai espi arr 0 0 cc;
          Some (0, Some (arr, cnt, cc))
      end
  | _, _ => Some (-1, None)
  end.

End Allocation.

(** ** Specification: the demultiplexer's view *)

(** The payload of a packet, by the rules of ISO 13818-1. *)
Definition ts_payload (p : list Z) : list Z :=
  if ltntstools_has_adaption p =? 1
  then drop (Z.to_nat (5 + ltntstools_adaption_field_length p)) p else drop 4 p.

Record ts_packet_ok (pid cc : Z) (pusi : bool) (p : list Z) : Prop := {
  tp_len : len p = 188;
  tp_sync : ltntstools_sync_present p = 1;
  tp_tei : ltntstools_tei_set p = 0;
  tp_pusi : ltntstools_payload_unit_start_indicator p = Z.b2z pusi;
  tp_pid : ltntstools_pid p = pid;
  tp_cc : ltntstools_continuity_counter p = cc mod 16;
  tp_payload : ltntstools_adaption_field_control p = 1 \/
    (ltntstools_adaption_field_control p = 3 /\ 0 <= ltntstools_adaption_field_length p <= 183)
}.

(** Consecutive packets of one PES: only the first starts a unit and the
    continuity counter advances by one. *)
Fixpoint ts_stream_ok (pid cc : Z) (pusi : bool) (pkts : list (list Z)) : Prop :=
  match pkts with
  | [] => True
  | p :: pkts => ts_packet_ok pid cc pusi p /\ ts_stream_ok pid (cc + 1) false pkts
  end.

(** ** Facts: storing packets *)

Lemma slice_app (a r : list Z) n :
  0 <= n <= len r -> rds (a ++ r) (len a) n = Some (take (Z.to_nat n) r).
Proof.
  intros Hn. pose proof (len_nonneg a). rewrite rds_Some; rewrite ?len_app; try lia.
  by rewrite drop_len_app.
Qed.

Lemma store_app (a r p : list Z) :
  len p <= len r -> wrs (a ++ r) (len a) p = Some ((a ++ p) ++ drop (Z.to_nat (len p)) r).
Proof.
  intros Hp. pose proof (len_nonneg a). pose proof (len_nonneg p).
  rewrite wrs_Some; rewrite ?len_app; try lia.
  rewrite take_len_app, <- app_assoc. do 3 f_equal.
  rewrite Z2Nat.inj_add by lia. rewrite drop_app_ge by (unfold len; lia). f_equal. unfold len. lia.
Qed.

Lemma memset_tail (a r : list Z) v :
  memset (a ++ r) (len a) v (len r) = Some (a ++ replicate (length r) v).
Proof.
  unfold memset. pose proof (len_nonneg r). zdec. unfold len at 2. rewrite Nat2Z.id.
  rewrite store_app by (unfold len; rewrite length_replicate; lia).
  unfold len. rewrite length_replicate, Nat2Z.id, drop_all. by rewrite app_nil_r.
Qed.

(** Stores at literal positions of a packet whose first bytes are exposed. *)
Ltac set_idx :=
  repeat match goal with
  | |- context [set_at ?l ?i ?v] =>
      let r := eval cbv [set_at insert list_insert Z.to_nat Pos.to_nat Pos.iter_op Nat.add] in (set_at l i v) in
      change (set_at l i v) with r
  end.
Ltac run_idx := repeat (progress (run; set_idx; byte_idx)).

(** ** Facts: the first packetizer *)

Definition first_bytes (pid : Z) (pusi : bool) : list Z :=
  [0x47; Z.lor (u8 (Z.shiftr pid 8)) (if pusi then 0x40 else 0); u8 pid].

Lemma packetizer_packet_form buf offset rem cnt cc pid p :
  len p = 188 -> 0 <= offset -> 0 < rem -> offset + rem <= len buf -> 0 <= cnt ->
  let n := Z.min rem 184 in
  packetizer_packet buf offset rem cnt 188 cc pid p =
    Some (first_bytes pid (cnt =? 0) ++ [Z.lor 0x10 (Z.land cc 0x0f)] ++ slice buf offset n
          ++ replicate (Z.to_nat (184 - n)) 0xff, n).
Proof.
  intros Hp Ho Hr Hb Hc n. unfold packetizer_packet.
  replace (if 188 - 4 <? rem then 188 - 4 else rem) with n
    by (unfold n; destruct (Z.ltb_spec (188 - 4) rem); lia).
  destruct p as [|x0 [|x1 [|x2 [|x3 t]]]];
    try (unfold len in Hp; cbn in Hp; lia).
  assert (Ht : len t = 184) by (autorewrite with len in Hp; lia).
  pose proof (len_nonneg t). run_idx.
  rewrite rds_slice by lia. step. pose proof (len_slice buf offset n ltac:(lia) ltac:(lia) ltac:(lia)) as Hs.
  match goal with |- context [71 :: ?a :: ?b :: ?c :: t] =>
    set (h := [71; a; b; c]); change (71 :: a :: b :: c :: t) with (h ++ t) end.
  change 4 with (len h) at 1. rewrite store_app by lia. step.
  rewrite u32_id by lia. replace (len h + n) with (len (h ++ slice buf offset n)) by (by rewrite len_app, Hs).
  assert (Hd : len (drop (Z.to_nat (len (slice buf offset n))) t) = 184 - n).
  { rewrite len_drop; lia. }
  replace (188 - n - 4) with (len (drop (Z.to_nat (len (slice buf offset n))) t)) by lia.
  rewrite memset_tail. step. unfold len in Hd at 1.
  replace (length (drop _ t)) with (Z.to_nat (184 - n)) by (unfold len in Hd |- *; lia).
  rewrite <- !app_assoc. unfold h. clear h. cbn [app]. unfold first_bytes. cbn [app].
  pose proof (len_nonneg (slice buf offset n ++ replicate (Z.to_nat (184 - n)) 0xff)) as Hn.
  destruct (cnt =? 0); [|step; by rewrite Z.lor_0_r].
  generalize dependent (slice buf offset n ++ replicate (Z.to_nat (184 - n)) 0xff).
  intros r Hr'. by run_idx.
Qed.

(** ** Facts: the second packetizer *)

Lemma replicate_app {A} (x : A) n m : replicate (n + m) x = replicate n x ++ replicate m x.
Proof. apply replicate_add. Qed.

Lemma len_replicate_nat {A} m (x : A) : len (replicate m x) = Z.of_nat m.
Proof. unfold len. by rewrite length_replicate. Qed.

(** Storing the stuffing value over stuffing changes nothing. *)
Lemma stuff_same h m from to :
  from = len h -> 0 <= to - from <= Z.of_nat m ->
  stuff (h ++ replicate m 0xff) from to = Some (h ++ replicate m 0xff).
Proof.
  intros -> Hm. unfold stuff, memset. rewrite Z.max_r by lia. zdec.
  rewrite store_app by (rewrite !len_replicate_nat; lia).
  rewrite len_replicate_nat, Nat2Z.id, drop_replicate, <- app_assoc.
  rewrite <- replicate_app. do 3 f_equal. lia.
Qed.

(** The payload stored at the end of the packet. *)
Lemma store_end h m off src :
  len h <= off -> off + len src = len h + Z.of_nat m ->
  wrs (h ++ replicate m 0xff) off src = Some (h ++ replicate (Z.to_nat (off - len h)) 0xff ++ src).
Proof.
  intros H1 H2. pose proof (len_nonneg src). pose proof (len_nonneg h).
  replace m with (Z.to_nat (off - len h) + Z.to_nat (len src))%nat by lia.
  remember (Z.to_nat (off - len h)) as k eqn:Ek.
  assert (Hoff : off = len (h ++ replicate k 0xff)) by (rewrite len_app, len_replicate_nat; lia).
  rewrite replicate_app, app_assoc, Hoff.
  rewrite store_app by (rewrite len_replicate_nat; lia).
  rewrite drop_ge by (rewrite length_replicate; lia). by rewrite app_nil_r, <- app_assoc.
Qed.

Lemma write_pcr_form x0 x1 x2 x3 x4 x5 y6 y7 y8 y9 y10 y11 t pcr :
  0 <= pcr < 2 ^ 63 ->
  write_pcr (x0 :: x1 :: x2 :: x3 :: x4 :: x5 :: y6 :: y7 :: y8 :: y9 :: y10 :: y11 :: t) pcr =
  Some ([x0; x1; x2; x3; x4; x5] ++ pcr_field pcr ++ t).
Proof.
  intros Hp. pose proof (len_nonneg t). unfold write_pcr. run_idx. unfold pcr_field. cbn [app].
  rewrite Z.quot_div_nonneg, Z.rem_mod_nonneg, !u64_id by zlia.
  rewrite !(land_ones_mod _ 8 0xff), !(land_ones_mod _ 1 1) by done.
  rewrite !Z.shiftr_div_pow2, Z.shiftl_mul_pow2 by lia.
  rewrite (lor_high_low _ 0x7e 7) by zlia. rewrite (lor_high_low _ _ 1) by zlia.
  rewrite (Z.mod_small (pcr mod 300 / 2 ^ 8)) by zlia. done.
Qed.

(** The bytes before the payload, for a packet that carries [n] of them. *)
Definition packet_prefix (needPCR needIndicators pusi : bool) (af_flags pcr cc pid n : Z) : list Z :=
  let c := Z.land cc 0x0f in
  if needPCR then
    first_bytes pid pusi ++ [Z.lor c 0x30; 183 - n; af_flags] ++ pcr_field pcr
      ++ replicate (Z.to_nat (176 - n)) 0xff
  else if needIndicators then
    first_bytes pid pusi ++ [Z.lor c 0x30; 183 - n; af_flags] ++ replicate (Z.to_nat (182 - n)) 0xff
  else if n =? 184 then first_bytes pid pusi ++ [Z.lor c 0x10]
  else first_bytes pid pusi ++ [Z.lor c 0x30; 183 - n]
         ++ (if n =? 183 then [] else 0 :: replicate (Z.to_nat (182 - n)) 0xff).

Definition packet_capacity (needPCR needIndicators : bool) : Z :=
  if needPCR then 176 else if needIndicators then 182 else 184.

Definition af_flags_of (needPCR rai espi : bool) : Z :=
  Z.lor (Z.lor (if needPCR then 0x10 else 0) (if rai then 0x40 else 0)) (if espi then 0x20 else 0).

Lemma first_bytes_mask pid :
  0 <= pid <= 0x1fff ->
  Z.land (Z.shiftr pid 8) 0x1f = u8 (Z.shiftr pid 8) /\ Z.land pid 0xff = u8 pid.
Proof.
  intros Hp. rewrite (land_ones_mod _ 5), (land_ones_mod _ 8), Z.shiftr_div_pow2 by done. zlia.
Qed.


(** The adaptation field of a packet with header [b0 .. b3] over stuffing. *)
Lemma adaptation_form needPCR needIndicators af_flags pcr rem b0 b1 b2 c :
  0 < rem -> (needPCR = true -> 0 <= pcr < 2 ^ 63) ->
  let n := Z.min rem (packet_capacity needPCR needIndicators) in
  exists h m,
    adaptation needPCR needIndicators af_flags pcr rem ([b0; b1; b2; c] ++ replicate 184 0xff) =
      Some (h ++ replicate m 0xff, n, 188 - n) /\
    len h + Z.of_nat m = 188 /\ len h <= 188 - n /\
    h ++ replicate (Z.to_nat (188 - n - len h)) 0xff =
      if needPCR then
        [b0; b1; b2; Z.lor c 0x30; 183 - n; af_flags] ++ pcr_field pcr
          ++ replicate (Z.to_nat (176 - n)) 0xff
      else if needIndicators then
        [b0; b1; b2; Z.lor c 0x30; 183 - n; af_flags] ++ replicate (Z.to_nat (182 - n)) 0xff
      else if n =? 184 then [b0; b1; b2; Z.lor c 0x10]
      else [b0; b1; b2; Z.lor c 0x30; 183 - n]
             ++ (if n =? 183 then [] else 0 :: replicate (Z.to_nat (182 - n)) 0xff).
Proof.
  intros Hr Hp n. unfold adaptation, packet_capacity in *.
  change ([b0; b1; b2; c] ++ replicate 184 255) with
    (b0 :: b1 :: b2 :: c :: 255 :: 255 :: 255 :: 255 :: 255 :: 255 :: 255 :: 255 :: replicate 176 255).
  assert (Ht : len (replicate 176 255) = 176) by done.
  remember (replicate 176 255) as t eqn:Et. unfold set_bits. destruct needPCR; [|destruct needIndicators].
  - exists ([b0; b1; b2; Z.lor c 0x30; 183 - n; af_flags] ++ pcr_field pcr), 176%nat.
    assert (Hl : len ([b0; b1; b2; Z.lor c 0x30; 183 - n; af_flags] ++ pcr_field pcr) = 12) by done.
    rewrite Hl. split; [|split; [lia|split; [lia|]]].
    + run_idx. replace (if 176 <=? rem then _ else _) with
        (Some (b0 :: b1 :: b2 :: Z.lor c 48 :: 183 - n :: af_flags :: 255 :: 255 :: 255 :: 255 :: 255 :: 255 :: t, n, 188 - n)).
      { step. rewrite write_pcr_form by (by apply Hp). step. by rewrite <- app_assoc, Et. }
      destruct (Z.leb_spec 176 rem).
      * run_idx. replace n with 176 by lia. done.
      * run_idx. replace n with rem by lia. rewrite u8_id by lia.
        match goal with |- context [stuff (?a :: ?b :: ?c :: ?d :: ?e :: ?f :: ?g :: ?h :: ?i :: ?j :: ?k :: ?l :: t) _ _] =>
          change (stuff (a :: b :: c :: d :: e :: f :: g :: h :: i :: j :: k :: l :: t))
            with (stuff ([a; b; c; d; e; f; g; h; i; j; k; l] ++ t)) end.
        rewrite Et, stuff_same by (done || lia). step. cbn [app]. do 3 f_equal; lia.
    + rewrite <- app_assoc. do 3 f_equal. lia.
  - exists [b0; b1; b2; Z.lor c 0x30; 183 - n; af_flags], 182%nat.
    assert (Hl : len [b0; b1; b2; Z.lor c 0x30; 183 - n; af_flags] = 6) by done.
    rewrite Hl. split; [|split; [lia|split; [lia|]]].
    + run_idx. destruct (Z.leb_spec 182 rem).
      * run_idx. rewrite Et. replace n with 182 by lia. done.
      * run_idx. replace n with rem by lia. rewrite u8_id by lia.
        match goal with |- context [stuff (?a :: ?b :: ?c :: ?d :: ?e :: ?f :: ?r) _ _] =>
          change r with ([255; 255; 255; 255; 255; 255] ++ t);
          change (stuff (a :: b :: c :: d :: e :: f :: [255; 255; 255; 255; 255; 255] ++ t))
            with (stuff ([a; b; c; d; e; f] ++ [255; 255; 255; 255; 255; 255] ++ t)) end.
        rewrite Et. change ([255; 255; 255; 255; 255; 255] ++ replicate 176 255) with (replicate 182 255).
        rewrite stuff_same by (done || lia). step. do 3 f_equal; lia.
    + do 2 f_equal. lia.
  - destruct (Z.leb_spec 184 rem).
    + exists [b0; b1; b2; Z.lor c 0x10], 184%nat. replace n with 184 by lia.
      change (len [b0; b1; b2; Z.lor c 0x10]) with 4. split; [|done]. run_idx. by rewrite Et.
    + destruct (Z.eqb_spec rem 183) as [E|E].
      * exists [b0; b1; b2; Z.lor c 0x30; 183 - n], 183%nat.
        change (len [b0; b1; b2; Z.lor c 0x30; 183 - n]) with 5.
        replace n with 183 by lia. split; [|done]. run_idx. rewrite E. zdec. step. by rewrite Et.
      * exists [b0; b1; b2; Z.lor c 0x30; 183 - n; 0], 182%nat.
        change (len [b0; b1; b2; Z.lor c 0x30; 183 - n; 0]) with 6.
        replace n with rem by lia. zdec. split; [|split; [lia|split; [lia|]]].
        -- run_idx. rewrite u8_id by lia. zdec. run_idx.
           match goal with |- context [stuff (?a :: ?b :: ?c :: ?d :: ?e :: ?f :: ?r) _ _] =>
             change r with ([255; 255; 255; 255; 255; 255] ++ t);
             change (stuff (a :: b :: c :: d :: e :: f :: [255; 255; 255; 255; 255; 255] ++ t))
               with (stuff ([a; b; c; d; e; f] ++ [255; 255; 255; 255; 255; 255] ++ t)) end.
           rewrite Et. change ([255; 255; 255; 255; 255; 255] ++ replicate 176 255) with (replicate 182 255).
           rewrite stuff_same by (done || lia). step. do 3 f_equal; lia.
        -- cbn [app]. do 7 f_equal. lia.
Qed.

Lemma with_pcr_packet_form buf byteCount pos cnt cc pid pcr rai espi p :
  len p = 188 -> 0 <= pos < byteCount -> byteCount <= len buf -> byteCount < 2 ^ 32 ->
  0 <= pid <= 0x1fff -> (pcr <> -1 -> 0 <= pcr < 2 ^ 63) ->
  let pusi := cnt =? 0 in
  let needPCR := negb (pcr =? -1) && pusi in
  let rai' := negb (rai =? 0) in let espi' := negb (espi =? 0) in
  let needIndicators := pusi && (rai' || espi') in
  let n := Z.min (byteCount - pos) (packet_capacity needPCR needIndicators) in
  with_pcr_packet buf byteCount pos cnt cc pid pcr rai espi p =
    Some (packet_prefix needPCR needIndicators pusi
            (af_flags_of needPCR (pusi && rai') (pusi && espi')) pcr cc pid n
          ++ slice buf pos n, n).
Proof.
  intros Hp Hpos Hb Hbc Hpid Hpcr pusi needPCR rai' espi' needInd n.
  destruct (first_bytes_mask pid Hpid) as [M1 M2]. unfold with_pcr_packet.
  rewrite memset_prefix by lia. step. rewrite drop_ge, app_nil_r by (unfold len in Hp; lia).
  change (replicate (Z.to_nat 188) 255) with (255 :: 255 :: 255 :: 255 :: replicate 184 255).
  assert (Ht : len (replicate 184 255) = 184) by done.
  remember (replicate 184 255) as t eqn:Et. run_idx. rewrite M1, M2, u32_id by lia.
  fold pusi. fold needPCR. fold rai'. fold espi'. fold needInd.
  match goal with |- context [adaptation _ _ ?f] =>
    replace f with (af_flags_of needPCR (pusi && rai') (pusi && espi'))
      by (unfold af_flags_of; by destruct needPCR, (pusi && rai'), (pusi && espi')) end.
  replace (if pusi then set_bits _ 1 64 else _) with
    (Some (first_bytes pid pusi ++ [Z.land cc 0x0f] ++ t)).
  2: { unfold first_bytes, set_bits. cbn [app]. destruct pusi; [by run_idx|by rewrite Z.lor_0_r]. }
  step. rewrite Et. unfold first_bytes. cbn [app].
  destruct (adaptation_form needPCR needInd (af_flags_of needPCR (pusi && rai') (pusi && espi')) pcr
    (byteCount - pos) 0x47 (Z.lor (u8 (Z.shiftr pid 8)) (if pusi then 0x40 else 0)) (u8 pid) (Z.land cc 0x0f))
    as (h & m & Ha & Hlen & Hle & Hpre); [lia|intros E; apply Hpcr; unfold needPCR in E; zbool; done|].
  fold n in Ha, Hle, Hpre. cbn [app] in Ha. rewrite Ha. step.
  assert (Hn : 0 <= n <= byteCount - pos) by (unfold n, packet_capacity; repeat case_match; lia).
  rewrite rds_slice by lia. step. rewrite store_end by (rewrite ?len_slice by lia; lia). step.
  rewrite app_assoc, Hpre. unfold packet_prefix, first_bytes. by destruct needPCR, needInd.
Qed.

(** ** Facts: reading the packets back *)

Lemma first_bytes_pid pid pusi rest :
  0 <= pid <= 0x1fff ->
  ltntstools_sync_present (first_bytes pid pusi ++ rest) = 1 /\
  ltntstools_tei_set (first_bytes pid pusi ++ rest) = 0 /\
  ltntstools_payload_unit_start_indicator (first_bytes pid pusi ++ rest) = Z.b2z pusi /\
  ltntstools_pid (first_bytes pid pusi ++ rest) = pid.
Proof.
  intros Hp. unfold first_bytes. cbn [app].
  assert (Hb : 0 <= u8 (Z.shiftr pid 8) < 32) by (rewrite Z.shiftr_div_pow2 by lia; zlia).
  assert (H1 : Z.lor (u8 (Z.shiftr pid 8)) (if pusi then 64 else 0) =
    u8 (Z.shiftr pid 8) + (if pusi then 64 else 0)).
  { destruct pusi; [|by rewrite Z.lor_0_r, Z.add_0_r].
    rewrite Z.lor_comm, (lor_high_low _ _ 6) by zlia. lia. }
  rewrite H1. rewrite Z.shiftr_div_pow2 in * by lia.
  split; [done|]. split; [|split].
  - unfold ltntstools_tei_set. byte_idx. change 0x80 with (2 ^ 7). rewrite land_bit by lia.
    replace (_ / 2 ^ 7) with 0; [done|]. symmetry. apply Z.div_small. destruct pusi; lia.
  - unfold ltntstools_payload_unit_start_indicator. byte_idx. change 0x40 with (2 ^ 6). rewrite land_bit by lia.
    destruct pusi; [|by rewrite (Z.div_small _ (2 ^ 6)) by lia].
    replace ((u8 (pid / 2 ^ 8) + 2 ^ 6) / 2 ^ 6) with 1 by zlia. done.
  - unfold ltntstools_pid. byte_idx. rewrite (land_ones_mod _ 13) by done.
    rewrite Z.shiftl_mul_pow2 by lia. rewrite (lor_high_low _ _ 8) by zlia. destruct pusi; zlia.
Qed.

(** Byte 3 with adaptation and payload, or with payload only. *)
Lemma afc_byte cc :
  let c := Z.land cc 0x0f in
  Z.land (Z.shiftr (Z.lor c 0x30) 4) 3 = 3 /\ Z.land (Z.lor c 0x30) 0x0f = cc mod 16 /\
  Z.land (Z.shiftr (Z.lor c 0x10) 4) 3 = 1 /\ Z.land (Z.lor c 0x10) 0x0f = cc mod 16 /\
  Z.lor 0x10 c = Z.lor c 0x10.
Proof.
  intros c. unfold c. rewrite low_nibble.
  assert (Hb : is_byte (cc mod 16)) by zlia. assert (Hs : cc mod 16 < 16) by zlia.
  pose proof (forall_byte (fun b => negb (b <? 16) || (
    (Z.land (Z.shiftr (Z.lor b 0x30) 4) 3 =? 3) && (Z.land (Z.lor b 0x30) 0x0f =? b) &&
    (Z.land (Z.shiftr (Z.lor b 0x10) 4) 3 =? 1) && (Z.land (Z.lor b 0x10) 0x0f =? b) &&
    (Z.lor 0x10 b =? Z.lor b 0x10))) eq_refl (cc mod 16) Hb) as H.
  cbv beta in H. rewrite (proj2 (Z.ltb_lt _ _) Hs) in H. cbn [negb orb] in H. zbool. done.
Qed.

Lemma len_first_bytes pid pusi : len (first_bytes pid pusi) = 3.
Proof. done. Qed.

(** A packet with an adaptation field of [183 - n] bytes. *)
Lemma adapted_packet pid pusi cc n tail payload :
  0 <= pid <= 0x1fff -> 0 <= n <= 183 -> len tail = 183 - n -> len payload = n ->
  let p := (first_bytes pid pusi ++ [Z.lor (Z.land cc 0x0f) 0x30; 183 - n] ++ tail) ++ payload in
  ts_packet_ok pid cc pusi p /\ ts_payload p = payload.
Proof.
  intros Hp Hn Ht Hl. rewrite <- app_assoc.
  destruct (first_bytes_pid pid pusi (([Z.lor (Z.land cc 0x0f) 0x30; 183 - n] ++ tail) ++ payload) Hp)
    as (H1 & H2 & H3 & H4). destruct (afc_byte cc) as (A1 & A2 & _).
  split; [constructor; try done|].
  - rewrite !len_app, len_first_bytes, Ht, Hl. change (len [_; _]) with 2. lia.
  - right. unfold ltntstools_adaption_field_control, ltntstools_adaption_field_length, first_bytes. cbn [app].
    byte_idx. split; [exact A1|lia].
  - unfold ts_payload, ltntstools_has_adaption, ltntstools_adaption_field_length, first_bytes. cbn [app].
    byte_idx. rewrite A1. cbn [Z.eqb Pos.eqb orb].
    replace (5 + (183 - n)) with (5 + len tail) by lia.
    rewrite Z2Nat.inj_add by (pose proof (len_nonneg tail); lia). cbn [Z.to_nat Pos.to_nat Pos.iter_op Nat.add].
    cbn [drop Nat.add]. apply drop_len_app.
Qed.

Lemma plain_packet pid pusi cc payload :
  0 <= pid <= 0x1fff -> len payload = 184 ->
  let p := (first_bytes pid pusi ++ [Z.lor (Z.land cc 0x0f) 0x10]) ++ payload in
  ts_packet_ok pid cc pusi p /\ ts_payload p = payload.
Proof.
  intros Hp Hl. rewrite <- app_assoc.
  destruct (first_bytes_pid pid pusi ([Z.lor (Z.land cc 0x0f) 0x10] ++ payload) Hp)
    as (H1 & H2 & H3 & H4). destruct (afc_byte cc) as (_ & _ & A1 & A2 & _).
  split; [constructor; try done|].
  - rewrite !len_app, len_first_bytes, Hl. done.
  - left. unfold ltntstools_adaption_field_control, first_bytes. cbn [app]. byte_idx. exact A1.
  - unfold ts_payload, ltntstools_has_adaption, first_bytes. cbn [app]. byte_idx. by rewrite A1.
Qed.

Lemma packet_prefix_ok needPCR needInd pusi flags pcr cc pid n payload :
  0 <= pid <= 0x1fff -> 0 < n <= packet_capacity needPCR needInd -> len payload = n ->
  let p := packet_prefix needPCR needInd pusi flags pcr cc pid n ++ payload in
  ts_packet_ok pid cc pusi p /\ ts_payload p = payload.
Proof.
  intros Hp Hn Hl. unfold packet_prefix, packet_capacity in *. destruct needPCR; [|destruct needInd].
  - apply (adapted_packet pid pusi cc n ([flags] ++ pcr_field pcr ++ replicate (Z.to_nat (176 - n)) 255));
      [done|lia| |done].
    rewrite !len_app, len_replicate by lia. change (len [flags]) with 1. change (len (pcr_field pcr)) with 6. lia.
  - apply (adapted_packet pid pusi cc n ([flags] ++ replicate (Z.to_nat (182 - n)) 255)); [done|lia| |done].
    rewrite !len_app, len_replicate by lia. change (len [flags]) with 1. lia.
  - destruct (Z.eqb_spec n 184) as [->|]; [by apply plain_packet|].
    apply adapted_packet; [done|lia| |done].
    destruct (Z.eqb_spec n 183) as [->|]; [done|]. rewrite len_cons, len_replicate by lia. lia.
Qed.

(** ** Facts: streams of packets *)

(** The counter only matters modulo 16. *)
Lemma ts_packet_ok_cc pid cc cc' pusi p :
  cc mod 16 = cc' mod 16 -> ts_packet_ok pid cc pusi p -> ts_packet_ok pid cc' pusi p.
Proof. intros E []. constructor; try done. congruence. Qed.

Lemma ts_stream_ok_cc pid pkts : forall cc cc' pusi,
  cc mod 16 = cc' mod 16 -> ts_stream_ok pid cc pusi pkts -> ts_stream_ok pid cc' pusi pkts.
Proof.
  induction pkts as [|p pkts IH]; intros cc cc' pusi E; [done|]. intros [Hp Hs]. split.
  - by eapply ts_packet_ok_cc.
  - eapply IH; [|exact Hs]. zlia.
Qed.

Lemma scr_of_pcr_packet pusi rai espi pcr cc pid n payload :
  bytes payload -> 0 <= pcr -> 0 <= n <= 176 -> 0 <= pid <= 0x1fff ->
  ltntstools_scr (packet_prefix true false pusi (af_flags_of true rai espi) pcr cc pid n ++ payload) =
    Some (pcr mod MAX_SCR_VALUE).
Proof.
  intros Hb Hp Hn Hpid. unfold packet_prefix. rewrite <- !app_assoc. unfold ltntstools_scr.
  destruct (first_bytes_pid pid pusi ([Z.lor (Z.land cc 0x0f) 0x30; 183 - n; af_flags_of true rai espi] ++
    pcr_field pcr ++ replicate (Z.to_nat (176 - n)) 255 ++ payload) Hpid) as (-> & _).
  destruct (afc_byte cc) as (A1 & _).
  unfold ltntstools_adaption_field_control, first_bytes. cbn [app drop]. byte_idx. rewrite A1. zdec.
  replace (Z.land (af_flags_of true rai espi) 16 =? 0) with false by (by destruct rai, espi).
  cbn [Z.eqb Z.ltb Z.compare Pos.compare Pos.compare_cont]. f_equal.
  apply (pcrToScr_field pcr); [done|]. apply bytes_app. split; [|done]. apply bytes_replicate. done.
Qed.

(** [packet_prefix] does not look at [needIndicators] when a PCR is carried. *)
Lemma packet_prefix_pcr needInd pusi flags pcr cc pid n :
  packet_prefix true needInd pusi flags pcr cc pid n = packet_prefix true false pusi flags pcr cc pid n.
Proof. done. Qed.

Section Loops.
Context (buf : list Z) (byteCount pid : Z).
Hypothesis Hbuf : bytes buf.
Hypothesis Hcount : byteCount <= len buf.
Hypothesis Hsize : byteCount < 2 ^ 30.
Hypothesis Hpid : 0 <= pid <= 0x1fff.

(** The packets still needed never exceed the room reserved for them. *)
Definition room (pos : Z) : Z := (byteCount - pos + 175) / 176.

Lemma with_pcr_loop_spec pcr rai espi fuel : forall pos cnt cc stored rest,
  (pcr <> -1 -> 0 <= pcr < 2 ^ 63) ->
  0 <= pos <= byteCount -> (Z.to_nat (byteCount - pos) < fuel)%nat ->
  0 <= cnt -> len stored = 188 * cnt -> 188 * room pos <= len rest -> 188 * (cnt + room pos) < 2 ^ 32 ->
  exists pkts rest' cc',
    with_pcr_loop fuel buf byteCount pid pcr rai espi (stored ++ rest) pos cnt cc =
      Some (stored ++ concat pkts ++ rest', cnt + len pkts, cc') /\
    (pos < byteCount -> cc' = (cc + len pkts) mod 16 /\ pkts <> []) /\
    ts_stream_ok pid cc (cnt =? 0) pkts /\
    concat (map ts_payload pkts) = slice buf pos (byteCount - pos) /\
    (cnt = 0 -> pcr <> -1 -> forall p ps, pkts = p :: ps -> ltntstools_scr p = Some (pcr mod MAX_SCR_VALUE)).
Proof.
  induction fuel as [|fuel IH]; intros pos cnt cc stored rest Hpcr Hpos Hf Hcnt Hst Hroom Hwidth; [lia|].
  cbn [with_pcr_loop]. destruct (Z.ltb_spec pos byteCount) as [Hlt|Hge].
  2: { exists [], rest, cc. replace (byteCount - pos) with 0 by lia. rewrite slice_nil.
       split; [by rewrite Z.add_0_r|]. split; [lia|]. by split; [|split]. }
  assert (Hr1 : 0 < room pos) by (unfold room; zlia).
  rewrite (u32_id (cnt * 188)) by lia. replace (cnt * 188) with (len stored) by lia.
  rewrite slice_app by lia. step.
  rewrite with_pcr_packet_form by (try rewrite len_take by lia; lia || done). step.
  set (need := negb (pcr =? -1) && (cnt =? 0)). set (ind := (cnt =? 0) && _).
  set (n := Z.min (byteCount - pos) (packet_capacity need ind)). set (fl := af_flags_of _ _ _).
  assert (Hcap : 176 <= packet_capacity need ind <= 184) by (unfold packet_capacity; repeat case_match; lia).
  assert (Hn : 0 < n <= packet_capacity need ind) by lia.
  assert (Hsl := len_slice buf pos n ltac:(lia) ltac:(lia) ltac:(lia)).
  destruct (packet_prefix_ok need ind (cnt =? 0) fl pcr cc pid n (slice buf pos n) Hpid Hn Hsl) as [Hok Hpay].
  assert (Hscr : need = true -> ltntstools_scr (packet_prefix need ind (cnt =? 0) fl pcr cc pid n
    ++ slice buf pos n) = Some (pcr mod MAX_SCR_VALUE)).
  { intros E. unfold fl. fold need. rewrite E. rewrite E in Hn. cbn in Hn. rewrite packet_prefix_pcr.
    apply scr_of_pcr_packet; [by apply bytes_slice| |lia|done].
    unfold need in E. zbool. by apply Hpcr. }
  set (p := packet_prefix _ _ _ _ _ _ _ _ ++ _) in *. assert (Hlp := tp_len _ _ _ _ Hok).
  rewrite store_app by lia. step. rewrite !u32_id by lia.
  assert (Hr2 : room (pos + n) + 1 <= room pos) by (unfold room; zlia).
  destruct (IH (pos + n) (cnt + 1) (Z.land (cc + 1) 0x0f) (stored ++ p) (drop (Z.to_nat (len p)) rest))
    as (pkts & rest' & cc' & HL & Hcc & Hso & Hco & _); [done|lia|lia|lia| | |lia|].
  { rewrite len_app. lia. }
  { rewrite len_drop by lia. lia. }
  rewrite HL. exists (p :: pkts), rest', cc'. cbn [concat map ts_stream_ok]. rewrite len_cons.
  rewrite low_nibble in *. split; [|split; [|split; [|split]]].
  - rewrite <- !app_assoc. do 3 f_equal. lia.
  - intros _. split; [|done]. destruct (Z_lt_dec (pos + n) byteCount) as [H|H].
    + destruct (Hcc H) as [-> _]. zlia.
    + assert (E : pos + n = byteCount) by lia. rewrite E in HL. destruct fuel; [lia|].
      cbn [with_pcr_loop] in HL. rewrite Z.ltb_irrefl in HL. injection HL as _ Hp0 <-.
      replace (len pkts) with 0 by lia. zlia.
  - split; [done|]. replace (cnt + 1 =? 0) with false in Hso by (by zdec).
    eapply ts_stream_ok_cc; [|exact Hso]. zlia.
  - rewrite Hpay, Hco, (slice_split buf pos n (byteCount - pos)) by lia. do 2 f_equal. lia.
  - intros -> Hne p0 ps [= <- <-]. apply Hscr. unfold need. by rewrite (proj2 (Z.eqb_neq _ _) Hne).
Qed.

(** The first packetizer pads the last payload with 0xff. *)
Lemma packetizer_loop_spec fuel : forall offset cnt cc stored rest,
  0 <= offset <= byteCount -> (Z.to_nat (byteCount - offset) < fuel)%nat ->
  0 <= cnt -> len stored = 188 * cnt -> 188 * ((byteCount - offset + 183) / 184) <= len rest ->
  exists pkts rest' cc' k,
    packetizer_loop fuel buf byteCount 188 pid (stored ++ rest) offset cnt cc =
      Some (stored ++ concat pkts ++ rest', cnt + len pkts, cc') /\
    (offset < byteCount -> cc' = u8 (cc + len pkts)) /\
    len pkts = (byteCount - offset + 183) / 184 /\
    ts_stream_ok pid cc (cnt =? 0) pkts /\
    0 <= k < 184 /\
    concat (map ts_payload pkts) =
      slice buf offset (byteCount - offset) ++ replicate (Z.to_nat k) 0xff.
Proof.
  induction fuel as [|fuel IH]; intros offset cnt cc stored rest Hpos Hf Hcnt Hst Hroom; [lia|].
  cbn [packetizer_loop]. rewrite u32_id by lia. destruct (Z.eqb_spec (byteCount - offset) 0) as [Hz|Hnz].
  { exists [], rest, cc, 0. rewrite Hz, slice_nil. split; [by rewrite Z.add_0_r|].
    split; [lia|]. split; [done|]. split; [done|]. by split; [lia|]. }
  replace (cnt * 188) with (len stored) by lia. assert (188 <= len rest) by zlia.
  rewrite slice_app by lia. step.
  rewrite packetizer_packet_form by (try rewrite len_take by lia; lia). step.
  set (n := Z.min (byteCount - offset) 184).
  assert (Hsl := len_slice buf offset n ltac:(lia) ltac:(lia) ltac:(lia)).
  set (payload := slice buf offset n ++ replicate (Z.to_nat (184 - n)) 0xff).
  assert (Hpl : len payload = 184) by (unfold payload; rewrite len_app, len_replicate by lia; lia).
  destruct (plain_packet pid (cnt =? 0) cc payload Hpid Hpl) as [Hok Hpay].
  destruct (afc_byte cc) as (_ & _ & _ & _ & ->).
  rewrite (app_assoc (first_bytes _ _)). set (p := (_ ++ _) ++ payload) in *.
  assert (Hlp := tp_len _ _ _ _ Hok). rewrite store_app by lia. step. rewrite u32_id by lia.
  assert (Hr2 : (byteCount - (offset + n) + 183) / 184 = (byteCount - offset + 183) / 184 - 1) by zlia.
  destruct (IH (offset + n) (cnt + 1) (u8 (cc + 1)) (stored ++ p) (drop (Z.to_nat (len p)) rest))
    as (pkts & rest' & cc' & k & HL & Hcc & Hlen & Hso & Hk & Hco); [lia|lia|lia|..].
  { rewrite len_app. lia. }
  { rewrite len_drop by lia. lia. }
  rewrite HL. exists (p :: pkts), rest', cc', (if n =? 184 then k else 184 - n).
  cbn [concat map ts_stream_ok]. rewrite len_cons.
  split; [|split; [|split; [lia|split; [|split]]]].
  - rewrite <- !app_assoc. do 3 f_equal. lia.
  - intros _. destruct (Z_lt_dec (offset + n) byteCount) as [H'|H'].
    + rewrite (Hcc H'). zlia.
    + assert (E : offset + n = byteCount) by lia. rewrite E in HL. destruct fuel; [lia|].
      cbn [packetizer_loop] in HL. rewrite Z.sub_diag in HL. injection HL as _ Hp0 <-.
      replace (len pkts) with 0 by lia. zlia.
  - split; [done|]. replace (cnt + 1 =? 0) with false in Hso by (by zdec).
    eapply ts_stream_ok_cc; [|exact Hso]. zlia.
  - case_if; lia.
  - rewrite Hpay, Hco, (slice_split buf offset n (byteCount - offset)) by lia. unfold payload.
    replace (byteCount - (offset + n)) with (byteCount - offset - n) by lia.
    destruct (Z.eqb_spec n 184) as [E|E].
    + rewrite E. by rewrite Z.sub_diag, app_nil_r, <- app_assoc.
    + replace (byteCount - offset - n) with 0 by lia. rewrite slice_nil, app_nil_r. cbn [app].
      assert (Hz : len pkts = 0) by zlia. unfold len in Hz. destruct pkts; [|cbn in Hz; lia].
      cbn [map concat] in Hco. symmetry in Hco. apply app_eq_nil in Hco as [_ ->].
      by rewrite app_nil_r.
Qed.
End Loops.

(** ** Properties *)

Definition calloc_ok (calloc : Z -> Z -> option (list Z)) : Prop :=
  forall n m, 0 <= n -> 0 <= m -> calloc n m = Some (replicate (Z.to_nat (n * m)) 0).

Lemma with_pcr_spec (calloc : Z -> Z -> option (list Z)) (buf : list Z)
    (byteCount cc pid pcr rai espi : Z) :
  calloc_ok calloc -> bytes buf -> 0 < byteCount <= len buf -> byteCount < 2 ^ 30 ->
  0 <= pid <= 0x1fff -> (pcr <> -1 -> 0 <= pcr < 2 ^ 63) ->
  exists pkts rest,
    ltntstools_ts_packetizer_with_pcr calloc (Some buf) byteCount false false 188 (Some cc) pid pcr rai espi
      = Some (0, Some (concat pkts ++ rest, len pkts, (cc + len pkts) mod 16)) /\
    ts_stream_ok pid cc true pkts /\
    concat (map ts_payload pkts) = take (Z.to_nat byteCount) buf /\
    (pcr <> -1 -> forall p ps, pkts = p :: ps -> ltntstools_scr p = Some (pcr mod MAX_SCR_VALUE)).
Proof.
  intros Hcal Hb Hbc Hsz Hpid Hpcr. unfold ltntstools_ts_packetizer_with_pcr. zdec. cbn [orb negb].
  rewrite !(u32_id (byteCount + 175)), u32_id by zlia. rewrite Hcal by zlia.
  set (mem := replicate _ 0).
  assert (Hmem : 188 * room byteCount 0 <= len mem).
  { unfold mem, room. rewrite len_replicate by zlia. zlia. }
  destruct (with_pcr_loop_spec buf byteCount pid Hb (proj2 Hbc) Hsz Hpid pcr rai espi
    (S (Z.to_nat byteCount)) 0 0 cc [] mem Hpcr) as (pkts & rest & cc' & HL & Hcc & Hso & Hco & Hp);
    [lia|lia|lia|done|done|unfold room; zlia|].
  cbn [app] in HL. rewrite HL. step. exists pkts, rest. destruct Hcc as [-> _]; [lia|].
  split; [done|]. split; [done|]. split; [|by apply Hp].
  rewrite Hco. unfold slice. by rewrite Z.sub_0_r, drop_0.
Qed.

(** C32: [ltntstools_ts_packetizer_with_pcr] carries exactly the PES: it
    terminates inside its array, every packet is well formed (188 bytes, sync
    byte, pid, unit start on the first only, continuity counter advancing by
    one modulo 16), the payloads concatenate to the PES with no padding, the
    caller's counter is the next one, and the first packet has the PCR. *)
Theorem with_pcr_carries_pes (calloc : Z -> Z -> option (list Z)) (buf : list Z)
    (byteCount cc pid pcr rai espi : Z) :
  calloc_ok calloc -> bytes buf -> 0 < byteCount <= len buf -> byteCount < 2 ^ 30 ->
  0 <= pid <= 0x1fff -> (pcr <> -1 -> 0 <= pcr < 2 ^ 63) ->
  exists pkts rest,
    ltntstools_ts_packetizer_with_pcr calloc (Some buf) byteCount false false 188 (Some cc) pid pcr rai espi
      = Some (0, Some (concat pkts ++ rest, len pkts, (cc + len pkts) mod 16)) /\
    ts_stream_ok pid cc true pkts /\
    concat (map ts_payload pkts) = take (Z.to_nat byteCount) buf /\
    (pcr <> -1 -> forall p ps, pkts = p :: ps -> ltntstools_scr p = Some (pcr mod MAX_SCR_VALUE)).
Proof. exact (with_pcr_spec calloc buf byteCount cc pid pcr rai espi). Qed.

(** [ltntstools_ts_packetizer] produces the rounded-up number of well
    formed packets and their payloads are the PES followed by less than one
    payload of 0xff bytes: the end of the PES is padded inside the payload,
    not by an adaptation field. *)
Theorem packetizer_pads_pes (calloc : Z -> Z -> option (list Z)) (buf : list Z) (byteCount cc pid : Z) :
  calloc_ok calloc -> 0 < byteCount <= len buf -> byteCount < 2 ^ 30 -> 0 <= pid <= 0x1fff ->
  exists pkts rest k,
    ltntstools_ts_packetizer calloc (Some buf) byteCount false false 188 (Some cc) pid
      = Some (0, Some (concat pkts ++ rest, len pkts, u8 (cc + len pkts))) /\
    len pkts = (byteCount + 183) / 184 /\
    ts_stream_ok pid cc true pkts /\ 0 <= k < 184 /\
    concat (map ts_payload pkts) = take (Z.to_nat byteCount) buf ++ replicate (Z.to_nat k) 0xff.
Proof.
  intros Hcal Hbc Hsz Hpid. unfold ltntstools_ts_packetizer. zdec. cbn [orb negb].
  rewrite u32_id, i32_id by zlia. rewrite Hcal by zlia. step. set (mem := replicate _ 0).
  assert (Hmem : 188 * ((byteCount - 0 + 183) / 184) <= len mem).
  { unfold mem. rewrite len_replicate by zlia. change (188 - 4) with 184.
    pose proof (Z.div_pos byteCount 184). nia || zlia. }
  destruct (packetizer_loop_spec buf byteCount pid (proj2 Hbc) Hsz Hpid
    (S (Z.to_nat byteCount)) 0 0 cc [] mem) as (pkts & rest & cc' & k & HL & Hcc & Hlen & Hso & Hk & Hco);
    [lia|lia|lia|done|done|].
  cbn [app] in HL. rewrite HL. step. exists pkts, rest, k. rewrite Hcc by lia.
  split; [done|]. split; [rewrite Hlen; f_equal; lia|]. split; [done|]. split; [done|].
  rewrite Hco. unfold slice. by rewrite Z.sub_0_r, drop_0.
Qed.

Definition some_calloc (n m : Z) : option (list Z) := Some (replicate (Z.to_nat (n * m)) 0).

Lemma with_pcr_carries_pes_witness :
  exists pkts rest,
    ltntstools_ts_packetizer_with_pcr some_calloc (Some [0; 0; 1; 0xe0; 7; 8]) 6 false false 188 (Some 15)
      0x100 81000300 1 0 = Some (0, Some (concat pkts ++ rest, len pkts, (15 + len pkts) mod 16)) /\
    ts_stream_ok 0x100 15 true pkts /\ concat (map ts_payload pkts) = [0; 0; 1; 0xe0; 7; 8] /\
    (81000300 <> -1 -> forall p ps, pkts = p :: ps -> ltntstools_scr p = Some 81000300).
Proof.
  apply (with_pcr_carries_pes some_calloc [0; 0; 1; 0xe0; 7; 8] 6 15 0x100 81000300 1 0).
  - done.
  - by apply bytes_check.
  - vm_compute. done.
  - lia.
  - lia.
  - lia.
Defined.

Lemma packetizer_pads_pes_witness :
  exists pkts rest k,
    ltntstools_ts_packetizer some_calloc (Some [0; 0; 1; 0xe0; 7; 8]) 6 false false 188 (Some 15) 0x100
      = Some (0, Some (concat pkts ++ rest, len pkts, u8 (15 + len pkts))) /\
    len pkts = 1 /\ ts_stream_ok 0x100 15 true pkts /\ 0 <= k < 184 /\
    concat (map ts_payload pkts) = [0; 0; 1; 0xe0; 7; 8] ++ replicate (Z.to_nat k) 0xff.
Proof.
  apply (packetizer_pads_pes some_calloc [0; 0; 1; 0xe0; 7; 8] 6 15 0x100).
  - done.
  - vm_compute. done.
  - lia.
  - lia.
Defined.
