(* ===== verification/SectionExtractor.v ===== *)
(** * The section extractor: src/sectionextractor.c

    Packets of one pid are appended to a 4096-byte buffer until the section
    length is reached.  [pkt] is the rest of the caller's buffer from the packet
    on, as in C: reads are checked against the buffer, not against the packet.
    [None] is an access outside a buffer. *)
From Stdlib Require Import ZArith Lia Bool.
From stdpp Require Import base numbers list option.
From S2P Require Import Prelude Ts Crc32.

Record sectionextractor_ctx := {
  se_tableID : Z;
  se_PID : Z;
  se_complete : Z;
  se_appending : Z;
  se_section : list Z;
  se_sectionLength : Z;
  se_sectionLengthCurrent : Z
}.

(** [section] is the 4096 indeterminate bytes of the allocation. *)
Definition ltntstools_sectionextractor_alloc (PID tableID : Z) (section : list Z)
    : sectionextractor_ctx :=
  {| se_tableID := tableID; se_PID := PID; se_complete := 0; se_appending := 0;
     se_section := section; se_sectionLength := 0; se_sectionLengthCurrent := 0 |}.

Definition set_flags (ctx : sectionextractor_ctx) (complete appending : Z) : sectionextractor_ctx :=
  {| se_tableID := se_tableID ctx; se_PID := se_PID ctx; se_complete := complete;
     se_appending := appending; se_section := se_section ctx;
     se_sectionLength := se_sectionLength ctx;
     se_sectionLengthCurrent := se_sectionLengthCurrent ctx |}.
Definition set_section (ctx : sectionextractor_ctx) (section : list Z) (length current : Z)
    : sectionextractor_ctx :=
  {| se_tableID := se_tableID ctx; se_PID := se_PID ctx; se_complete := se_complete ctx;
     se_appending := se_appending ctx; se_section := section; se_sectionLength := length;
     se_sectionLengthCurrent := current |}.

(** The position of the section data: after the header, the adaptation field
    and the pointer field.  The inner [None] is an early [return 0]. *)
Definition section_position (pkt : list Z) : option (option Z) :=
  let section_offset := 4 in
  b0 ← rd pkt 0;
  if negb (b0 =? 0x47) then Some None else
  _ ← rd pkt 3;
  section_offset ←
    (if negb (ltntstools_has_adaption pkt =? 0) then
       _ ← rd pkt 4; Some (section_offset + 1 + ltntstools_adaption_field_length pkt)
     else Some section_offset);
  if negb (ltntstools_payload_unit_start_indicator pkt =? 0) then
    pointer ← rd pkt section_offset;
    let section_offset := section_offset + pointer + 1 in
    if 180 <=? section_offset then Some None else Some (Some section_offset)
  else Some (Some section_offset).

(** The copy and the completion test.  Result: return value, context,
    [*complete] if it is set, [*crcValid]. *)
Definition append_section (ctx : sectionextractor_ctx) (pkt : list Z) (section_offset copylength : Z)
    (complete : Z) : option (Z * sectionextractor_ctx * Z * Z) :=
  src ← rds pkt section_offset copylength;
  section ← wrs (se_section ctx) (se_sectionLengthCurrent ctx) src;
  let ctx := set_section ctx section (se_sectionLength ctx)
               (u32 (se_sectionLengthCurrent ctx + copylength)) in
  if se_sectionLength ctx =? se_sectionLengthCurrent ctx then
    crc ← ltntstools_checkCRC32 (Some (se_section ctx)) (se_sectionLength ctx);
    let crcValid := if crc =? 0 then 1 else 0 in
    Some (copylength, set_flags ctx 1 0, 1, crcValid)
  else Some (copylength, ctx, complete, 0).

Definition ltntstools_sectionextractor_write_packet (ctx : sectionextractor_ctx) (pkt : list Z)
    (complete : Z) : option (Z * sectionextractor_ctx * Z * Z) :=
  position ← section_position pkt;
  match position with
  | None => Some (0, ctx, complete, 0)
  | Some section_offset =>
      start ← (if (se_appending ctx =? 0) && (se_complete ctx =? 0)
               then b ← rd pkt section_offset; Some (b =? se_tableID ctx) else Some false);
      if (start : bool) then
        b1 ← rd pkt (section_offset + 1);
        b2 ← rd pkt (section_offset + 2);
        let sectionLength := Z.land (Z.lor (Z.shiftl b1 8) b2) 0xfff + 3 in
        let ctx := set_flags (set_section ctx (se_section ctx) sectionLength 0) 0 1 in
        let copylength := if 183 <? sectionLength then 183 else sectionLength in
        append_section ctx pkt section_offset copylength complete
      else if (se_appending ctx =? 1) && (se_complete ctx =? 0) then
        let copylength :=
          if se_sectionLength ctx <? u32 (se_sectionLengthCurrent ctx + 183)
          then i32 (u32 (se_sectionLength ctx - se_sectionLengthCurrent ctx)) else 183 in
        append_section ctx pkt section_offset copylength complete
      else Some (-1, set_flags ctx 0 0, complete, 0)
  end.

(** The loop over the packets; [crcValid] is written by each packet of the pid. *)
Fixpoint write_loop (n : nat) (ctx : sectionextractor_ctx) (pkts : list Z) (i ret complete crcValid : Z)
    : option (Z * sectionextractor_ctx * Z * Z) :=
  match n with
  | O => Some (ret, ctx, complete, crcValid)
  | S n' =>
      let pkt := drop (Z.to_nat (i * 188)) pkts in
      _ ← rd pkt 2;
      if negb (ltntstools_pid pkt =? se_PID ctx)
      then write_loop n' ctx pkts (i + 1) ret complete crcValid
      else
        '(r, ctx, complete, crcValid) ← ltntstools_sectionextractor_write_packet ctx pkt complete;
        write_loop n' ctx pkts (i + 1) (ret + r) complete crcValid
  end.

(** [crcValid] is the caller's variable before the call. *)
Definition ltntstools_sectionextractor_write (ctx : sectionextractor_ctx) (pkts : list Z)
    (packetCount crcValid : Z) : option (Z * sectionextractor_ctx * Z * Z) :=
  '(ret, ctx, complete, crcValid) ← write_loop (Z.to_nat packetCount) ctx pkts 0 0 0 crcValid;
  let ctx := if complete =? 0 then ctx else set_flags ctx 1 (se_appending ctx) in
  Some (ret, ctx, complete, crcValid).

(** [dst] is [None] for NULL; [lengthBytes] is compared as an unsigned int. *)
Definition ltntstools_sectionextractor_query (ctx : sectionextractor_ctx) (dst : option (list Z))
    (lengthBytes : Z) : option (Z * option (list Z) * sectionextractor_ctx) :=
  match dst with
  | None => Some (-1, None, ctx)
  | Some d =>
      if (se_complete ctx =? 0) || (u32 lengthBytes <? u32 (se_sectionLength ctx + 3))
      then Some (-1, Some d, ctx) else
      src ← rds (se_section ctx) 0 (u32 (se_sectionLength ctx + 3));
      d ← wrs d 0 src;
      Some (u32 (se_sectionLength ctx + 3), Some d, set_flags ctx 0 0)
  end.

(** ** Specification *)

(** [pkt] carries the bytes [data] of the section of pid [pid] at [off], inside
    its 188 bytes. *)
Record carries (pid off : Z) (data pkt : list Z) : Prop := {
  ca_sync : byte_at pkt 0 = 0x47;
  ca_len : 188 <= len pkt;
  ca_pid : ltntstools_pid pkt = pid;
  ca_position : section_position pkt = Some (Some off);
  ca_inside : off + len data <= 188;
  ca_data : rds pkt off (len data) = Some data
}.

(** A section: its first byte is the table id and its length field counts the
    bytes after it. *)
Record section_ok (tableID : Z) (s : list Z) : Prop := {
  so_bytes : bytes s;
  so_len : 4 <= len s <= 4096;
  so_table : byte_at s 0 = tableID;
  so_length : (byte_at s 1 * 256 + byte_at s 2) mod 4096 + 3 = len s
}.

(** Packet [i] of [pkts] carries the [i]-th 183 bytes of [s]. *)
Definition carries_section (pid : Z) (s pkts : list Z) : Prop :=
  forall i, 0 <= i < (len s + 182) / 183 ->
    exists off, carries pid off (slice s (183 * i) (Z.min 183 (len s - 183 * i)))
                  (drop (Z.to_nat (i * 188)) pkts).

(** The packets of ISO 13818-1 for a section that starts a packet: no
    adaptation field; the first payload is a pointer field of 0 and 183 bytes,
    the others are 184 bytes, and the last is filled with 0xff. *)
Definition section_packet (start : bool) (pid cc : Z) (payload : list Z) : list Z :=
  [0x47; (if start then 0x40 else 0) + pid / 256; pid mod 256; 0x10 + cc mod 16]
  ++ payload ++ replicate (184 - length payload) 0xff.

Fixpoint iso_rest (n : nat) (pid cc : Z) (s : list Z) : list Z :=
  match n, s with
  | S n', _ :: _ => section_packet false pid cc (take 184 s) ++ iso_rest n' pid (cc + 1) (drop 184 s)
  | _, _ => []
  end.
Definition iso_packets (pid cc : Z) (s : list Z) : list Z :=
  section_packet true pid cc (0 :: take 183 s) ++ iso_rest (length s) pid (cc + 1) (drop 183 s).

Definition ctx_idle (ctx : sectionextractor_ctx) : Prop :=
  se_complete ctx = 0 /\ se_appending ctx = 0 /\ len (se_section ctx) = 4096.

Definition crc_valid (s : list Z) : Z :=
  match ltntstools_checkCRC32 (Some s) (len s) with Some 0 => 1 | _ => 0 end.

(** A section with its CRC. *)
Definition sealed (body : list Z) : list Z := body ++ be32_bytes (crc32_loop 0xffffffff body).

(** ** Facts *)

Lemma take_slice s c n :
  0 <= c -> 0 <= n -> take (Z.to_nat (c + n)) s = take (Z.to_nat c) s ++ slice s c n.
Proof.
  intros. unfold slice. rewrite Z2Nat.inj_add by lia. symmetry. apply take_take_drop.
Qed.

Lemma check_of_prefix p s :
  take (Z.to_nat (len s)) p = s -> len s <= len p ->
  ltntstools_checkCRC32 (Some p) (len s) = ltntstools_checkCRC32 (Some s) (len s).
Proof.
  intros Ht Hl. pose proof (len_nonneg s). unfold ltntstools_checkCRC32.
  destruct (len s <? 4); [done|]. rewrite !rds_Some, !drop_0, Ht by lia.
  rewrite take_ge by (unfold len; lia). done.
Qed.

Lemma check_cases s : 4 <= len s ->
  exists r, ltntstools_checkCRC32 (Some s) (len s) = Some r /\ (if r =? 0 then 1 else 0) = crc_valid s.
Proof.
  intros Hl. unfold crc_valid, ltntstools_checkCRC32. zdec. rewrite rds_Some by lia. step.
  eexists. split; [reflexivity|]. by destruct (crc32_loop _ _ =? 0).
Qed.

(** One more piece of the section [s] is appended. *)
Lemma append_section_spec ctx pkt off s n complete :
  4 <= len s <= 4096 -> len (se_section ctx) = 4096 -> se_sectionLength ctx = len s ->
  let c := se_sectionLengthCurrent ctx in
  0 <= c -> 0 <= n -> c + n <= len s ->
  take (Z.to_nat c) (se_section ctx) = take (Z.to_nat c) s ->
  rds pkt off n = Some (slice s c n) ->
  exists section, len section = 4096 /\
    take (Z.to_nat (c + n)) section = take (Z.to_nat (c + n)) s /\
    append_section ctx pkt off n complete =
      Some (if c + n =? len s
            then (n, set_flags (set_section ctx section (len s) (len s)) 1 0, 1, crc_valid s)
            else (n, set_section ctx section (len s) (c + n), complete, 0)).
Proof.
  intros Hs Hl HL c Hc Hn Hle Ht Hr. assert (Hsl := len_slice s c n Hc Hn Hle).
  unfold append_section. rewrite Hr. step. fold c.
  destruct (wrs_exists (se_section ctx) c (slice s c n)) as (sec & Hw & Hlen); [lia|lia|].
  exists sec. assert (Htake : take (Z.to_nat (c + n)) sec = take (Z.to_nat (c + n)) s).
  { rewrite (take_slice s), <- Ht by lia. rewrite <- (take_wrs _ _ _ _ Hw). by rewrite Hsl. }
  split; [lia|]. split; [done|]. rewrite Hw. step.
  cbn [set_section se_sectionLength se_sectionLengthCurrent se_section].
  rewrite u32_id, HL by lia. rewrite (Z.eqb_sym (len s)). destruct (Z.eqb_spec (c + n) (len s)) as [E|E]; [|done].
  rewrite E in *. destruct (check_cases s) as (r & Hr1 & Hr2); [lia|].
  rewrite check_of_prefix, Hr1; [|by rewrite Htake, take_ge by (unfold len; lia)|lia].
  step. by rewrite Hr2.
Qed.

Lemma rd_of_rds p off n q i :
  rds p off n = Some q -> 0 <= i < n -> rd p (off + i) = Some (byte_at q i).
Proof.
  intros Hr Hi. rewrite (byte_at_rds _ _ _ _ _ Hr) by done.
  revert Hr. unfold rds. case_if; [|done]. intros _. apply rd_Some. lia.
Qed.

(** The first packet of a section. *)
Lemma write_first ctx pkt pid off s complete :
  ctx_idle ctx -> section_ok (se_tableID ctx) s ->
  carries pid off (slice s 0 (Z.min 183 (len s))) pkt ->
  exists section, len section = 4096 /\
    take (Z.to_nat (Z.min 183 (len s))) section = take (Z.to_nat (Z.min 183 (len s))) s /\
    ltntstools_sectionextractor_write_packet ctx pkt complete =
      Some (if Z.min 183 (len s) =? len s
            then (Z.min 183 (len s), set_flags (set_section ctx section (len s) (len s)) 1 0, 1, crc_valid s)
            else (Z.min 183 (len s), set_flags (set_section ctx section (len s) (Z.min 183 (len s))) 0 1, complete, 0)).
Proof.
  intros (Hc & Ha & Hl) [Hb Hs Ht Hlen] [_ _ _ Hpos _ Hdata].
  set (n := Z.min 183 (len s)) in *.
  assert (Hsl := len_slice s 0 n ltac:(lia) ltac:(lia) ltac:(lia)). rewrite Hsl in Hdata.
  unfold ltntstools_sectionextractor_write_packet. rewrite Hpos. step. rewrite Hc, Ha. cbn [Z.eqb andb].
  pose proof (rd_of_rds _ _ _ _ 0 Hdata ltac:(lia)) as R0. rewrite Z.add_0_r in R0. rewrite R0. step.
  pose proof (rd_of_rds _ _ _ _ 1 Hdata ltac:(lia)) as R1.
  pose proof (rd_of_rds _ _ _ _ 2 Hdata ltac:(lia)) as R2.
  rewrite !byte_at_slice in * by lia. rewrite !Z.add_0_l in *. rewrite Ht, Z.eqb_refl, R1, R2. step.
  pose proof (byte_at_is_byte s 2 Hb) as B2. pose proof (byte_at_is_byte s 1 Hb) as B1.
  rewrite (lor_shiftl_add _ _ 8), (land_ones_mod _ 12) by (try done; unfold is_byte in B2; lia).
  change (2 ^ 8) with 256. change (2 ^ 12) with 4096. rewrite Hlen.
  replace (if 183 <? len s then 183 else len s) with n by (unfold n; case_if; lia).
  destruct (append_section_spec
    (set_flags (set_section ctx (se_section ctx) (len s) 0) 0 1) pkt off s n complete)
    as (sec & H1 & H2 & H3); [done|done|done|cbn; lia|lia|cbn; lia|done|done|].
  cbn [set_flags set_section se_sectionLengthCurrent] in *. rewrite Z.add_0_l in *.
  exists sec. split; [done|]. split; [done|]. rewrite H3. by destruct (n =? len s).
Qed.

(** An extractor that holds the first [c] bytes of [s]. *)
Record appending (s : list Z) (c : Z) (ctx : sectionextractor_ctx) : Prop := {
  ap_flags : se_appending ctx = 1 /\ se_complete ctx = 0;
  ap_length : se_sectionLength ctx = len s;
  ap_current : se_sectionLengthCurrent ctx = c;
  ap_room : len (se_section ctx) = 4096;
  ap_data : take (Z.to_nat c) (se_section ctx) = take (Z.to_nat c) s
}.

(** An extractor that holds all of [s]. *)
Record extracted (s : list Z) (ctx : sectionextractor_ctx) : Prop := {
  ex_flags : se_appending ctx = 0 /\ se_complete ctx = 1;
  ex_length : se_sectionLength ctx = len s;
  ex_room : len (se_section ctx) = 4096;
  ex_data : take (Z.to_nat (len s)) (se_section ctx) = s
}.

Lemma write_next ctx pkt pid off s c complete :
  4 <= len s <= 4096 -> 0 < c < len s -> appending s c ctx ->
  carries pid off (slice s c (Z.min 183 (len s - c))) pkt ->
  let n := Z.min 183 (len s - c) in
  exists section, len section = 4096 /\
    take (Z.to_nat (c + n)) section = take (Z.to_nat (c + n)) s /\
    ltntstools_sectionextractor_write_packet ctx pkt complete =
      Some (if c + n =? len s
            then (n, set_flags (set_section ctx section (len s) (len s)) 1 0, 1, crc_valid s)
            else (n, set_section ctx section (len s) (c + n), complete, 0)).
Proof.
  intros Hs Hc [[Ha Hcm] Hlen Hcur Hroom Hdat] [_ _ _ Hpos _ Hdata] n.
  assert (Hsl := len_slice s c n ltac:(lia) ltac:(lia) ltac:(lia)). fold n in Hdata. rewrite Hsl in Hdata.
  unfold ltntstools_sectionextractor_write_packet. rewrite Hpos. step. rewrite Ha, Hcm. cbn [Z.eqb Pos.eqb andb].
  step. cbv iota. rewrite Hlen, Hcur, !u32_id, i32_id by lia.
  replace (if len s <? c + 183 then len s - c else 183) with n by (unfold n; case_if; lia).
  rewrite <- Hcur in *. apply append_section_spec; done || lia.
Qed.

Lemma carries_write pid off data pkt :
  carries pid off data pkt -> (exists v, rd pkt 2 = Some v) /\ ltntstools_pid pkt = pid.
Proof. intros [_ Hl Hp _ _ _]. split; [|done]. eexists. apply rd_Some. lia. Qed.

Lemma take_all_section (s section : list Z) :
  take (Z.to_nat (len s)) section = take (Z.to_nat (len s)) s -> take (Z.to_nat (len s)) section = s.
Proof. intros ->. apply take_ge. unfold len. lia. Qed.

(** The loop over the packets after the first. *)
Lemma write_loop_next s pkts m : forall ctx i ret crcValid,
  section_ok (se_tableID ctx) s -> carries_section (se_PID ctx) s pkts ->
  0 < i -> 183 * i < len s -> Z.of_nat m = (len s + 182) / 183 - i -> appending s (183 * i) ctx ->
  exists ctx', write_loop m ctx pkts i ret 0 crcValid = Some (ret + (len s - 183 * i), ctx', 1, crc_valid s) /\
    extracted s ctx'.
Proof.
  induction m as [|m IH]; intros ctx i ret cv Hok Hca Hi Hlt Hm Hap; [zlia|].
  cbn [write_loop]. assert (Hs := so_len _ _ Hok).
  destruct (Hca i) as (off & Hoff); [zlia|].
  destruct (carries_write _ _ _ _ Hoff) as ((v & ->) & Hpid). step. rewrite Hpid, Z.eqb_refl. cbn [negb].
  destruct (write_next ctx _ _ off s (183 * i) 0 Hs ltac:(lia) Hap Hoff) as (sec & H1 & H2 & H3).
  set (n := Z.min 183 (len s - 183 * i)) in *. rewrite H3. destruct (Z.eqb_spec (183 * i + n) (len s)) as [E|E].
  - step. assert (m = 0%nat) as -> by zlia. cbn [write_loop]. replace (ret + n) with (ret + (len s - 183 * i)) by lia.
    eexists. split; [reflexivity|].
    constructor; cbn; try done. rewrite E in H2. by apply take_all_section.
  - step. assert (n = 183) by lia.
    destruct (IH (set_section ctx sec (len s) (183 * i + n)) (i + 1) (ret + n) 0) as (ctx' & H4 & H5);
      [done|done|lia|lia|lia|..].
    { replace (183 * (i + 1)) with (183 * i + n) by lia. destruct Hap as [[? ?] ? ? ? ?].
      by constructor. }
    exists ctx'. rewrite H4. split; [|done].
    by replace (ret + n + (len s - 183 * (i + 1))) with (ret + (len s - 183 * i)) by lia.
Qed.

(** A section of one packet. *)
Lemma extract_one_packet ctx off s pkt crcValid :
  ctx_idle ctx -> section_ok (se_tableID ctx) s -> len s <= 183 -> carries (se_PID ctx) off s pkt ->
  exists ctx', ltntstools_sectionextractor_write ctx pkt 1 crcValid = Some (len s, ctx', 1, crc_valid s) /\
    extracted s ctx'.
Proof.
  intros Hidle Hok H183 Hca. assert (Hs := so_len _ _ Hok). unfold ltntstools_sectionextractor_write.
  change (Z.to_nat 1) with 1%nat. cbn [write_loop]. change (drop (Z.to_nat (0 * 188)) pkt) with pkt.
  destruct (carries_write _ _ _ _ Hca) as ((v & ->) & Hpid). step. rewrite Hpid, Z.eqb_refl. cbn [negb].
  assert (Hsl : slice s 0 (Z.min 183 (len s)) = s).
  { rewrite Z.min_r by lia. unfold slice. change (Z.to_nat 0) with 0%nat. rewrite drop_0. apply take_ge. unfold len. lia. }
  destruct (write_first ctx pkt (se_PID ctx) off s 0 Hidle Hok) as (sec & H1 & H2 & ->); [by rewrite Hsl|].
  rewrite Z.min_r, Z.eqb_refl in * by lia. step. rewrite Z.add_0_l. eexists. split; [reflexivity|].
  constructor; cbn; try done. by apply take_all_section.
Qed.

(** The packets of the standard, read by the code. *)
Lemma section_packet_carries (start : bool) pid cc (data data' rest : list Z) : 0 <= pid <= 0x1fff ->
  len data <= 183 -> len (data ++ data') <= (if start then 183 else 184) ->
  carries pid (if start then 5 else 4) data
    (section_packet start pid cc ((if start then [0] else []) ++ data ++ data') ++ rest).
Proof.
  intros Hp H183 Hl. set (b1 := (if start then 0x40 else 0) + pid / 256). set (b2 := pid mod 256).
  set (b3 := 0x10 + cc mod 16). assert (B2 : is_byte b2) by (unfold b2, is_byte; zlia).
  assert (B1 : is_byte b1) by (unfold b1, is_byte; destruct start; zlia).
  set (tail := data' ++ replicate (184 - length ((if start then [0] else []) ++ data ++ data')) 0xff ++ rest).
  assert (E : section_packet start pid cc ((if start then [0] else []) ++ data ++ data') ++ rest =
    ([b1 - b1 + 0x47; b1; b2; b3] ++ (if start then [0] else [])) ++ data ++ tail).
  { unfold section_packet, tail. rewrite Z.sub_diag. cbn [Z.add]. by rewrite <- !app_assoc. }
  rewrite Z.sub_diag in E. rewrite E. clear E.
  assert (Hlt : len data + len tail >= 183 + (if start then 0 else 1)).
  { unfold tail, len in *. destruct start; cbn [app length] in *; rewrite !length_app, length_replicate, ?length_app in *; lia. }
  assert (A : Z.land (Z.shiftr b3 4) 3 = 1).
  { unfold b3. rewrite Z.shiftr_div_pow2, (land_ones_mod _ 2) by done. zlia. }
  assert (PU : (Z.land b1 0x40 =? 0) = negb start).
  { assert (F := forall_byte (fun b => negb (b / 64 <? 2) || Bool.eqb (Z.land b 0x40 =? 0) (b / 64 =? 0)) ltac:(done) b1 B1).
    cbv beta in F. assert (b1 / 64 = if start then 1 else 0) as E64 by (unfold b1; destruct start; zlia). rewrite E64 in F.
    apply eqb_prop. by destruct start. }
  constructor.
  - done.
  - destruct start; llia.
  - transitivity (ltntstools_pid [0x47; b1; b2]); [by destruct start|]. unfold ltntstools_pid. byte_idx.
    rewrite lor_shiftl_add, u16_id, (land_ones_mod _ 13) by (done || (unfold is_byte in *; lia)).
    unfold b1, b2. destruct start; zlia.
  - destruct start; unfold section_position, ltntstools_has_adaption, ltntstools_payload_unit_start_indicator;
      cbn [app]; run; byte_idx; rewrite A; cbn [Z.eqb Pos.eqb negb orb].
    + rewrite PU. done.
    + rewrite PU. done.
  - destruct start; lia.
  - rewrite (app_assoc _ data tail). apply rds_app_mid. by destruct start.
Qed.

Lemma iso_carries tableID pid cc s : 0 <= pid <= 0x1fff -> section_ok tableID s -> len s <= 366 ->
  carries_section pid s (iso_packets pid cc s).
Proof.
  intros Hp Hok Hl i Hi. pose proof (so_len _ _ Hok) as Hs. assert (i = 0 \/ i = 1 /\ 183 < len s) as [->|[-> H1]] by zlia.
  - exists 5. change (Z.to_nat (0 * 188)) with 0%nat. rewrite drop_0. unfold iso_packets.
    change (0 :: take 183 s) with ([0] ++ take 183 s). rewrite <- (app_nil_r (take 183 s)) at 1.
    replace (slice s (183 * 0) _) with (take 183 s).
    + apply (section_packet_carries true); [done|..]; unfold len in *; rewrite ?app_nil_r, length_take; lia.
    + unfold slice. change (Z.to_nat (183 * 0)) with 0%nat. rewrite drop_0. destruct (Z.le_gt_cases (len s) 183).
      * rewrite !take_ge; unfold len in *; try done; lia.
      * by rewrite Z.min_l by lia.
  - exists 4. unfold iso_packets. change (Z.to_nat (1 * 188)) with 188%nat.
    assert (L : length (section_packet true pid cc (0 :: take 183 s)) = 188%nat).
    { unfold section_packet. rewrite !length_app, length_replicate. cbn [length]. rewrite length_take. unfold len in *. lia. }
    rewrite drop_app_le, drop_ge by lia. cbn [app]. destruct (drop 183 s) as [|x d] eqn:Ed.
    { apply (f_equal length) in Ed. rewrite length_drop in Ed. unfold len in *. cbn in Ed. lia. }
    assert (Ld : len (x :: d) = len s - 183) by (rewrite <- Ed; unfold len in *; rewrite length_drop; lia).
    destruct (length s) as [|n] eqn:En; [unfold len in *; lia|]. cbn [iso_rest].
    replace (slice s (183 * 1) _) with (x :: d).
    + rewrite (take_ge (x :: d) 184) by (unfold len in *; lia).
      rewrite <- (app_nil_r (x :: d)) at 2. apply (section_packet_carries false pid (cc + 1) (x :: d) []); [done|lia|rewrite app_nil_r; lia].
    + unfold slice. change (Z.to_nat (183 * 1)) with 183%nat. rewrite Ed, take_ge; [done|]. unfold len in *. lia.
Qed.

Lemma crc_valid_sealed body : bytes body -> crc_valid (sealed body) = 1.
Proof.
  intros Hb. unfold crc_valid, ltntstools_checkCRC32.
  rewrite (proj2 (Z.ltb_ge _ 4)) by (unfold sealed; rewrite len_app; change (len (be32_bytes _)) with 4; pose proof (len_nonneg body); lia).
  rewrite rds_all. step. unfold sealed. by rewrite crc32_sealed.
Qed.

(** ** Properties *)


(** after a completed section a query into a large enough buffer returns
    the section followed by three bytes of the buffer that are not part of it,
    counts them in its result, and makes the extractor idle again; a second
    query, a NULL or a short destination returns -1 and changes nothing. *)
Theorem sectionextractor_query_spec (ctx : sectionextractor_ctx) (s d : list Z) (n : Z) :
  extracted s ctx -> len s + 3 <= len d -> 0 <= n < 2 ^ 32 -> len s + 3 <= 4096 ->
  (len s + 3 <= n -> exists x y z d',
     ltntstools_sectionextractor_query ctx (Some d) n = Some (len s + 3, Some d', set_flags ctx 0 0) /\
     take (Z.to_nat (len s + 3)) d' = s ++ [x; y; z] /\
     ltntstools_sectionextractor_query (set_flags ctx 0 0) (Some d') n
       = Some (-1, Some d', set_flags ctx 0 0)) /\
  (n < len s + 3 -> ltntstools_sectionextractor_query ctx (Some d) n = Some (-1, Some d, ctx)) /\
  ltntstools_sectionextractor_query ctx None n = Some (-1, None, ctx).
Proof.
  intros [[Ha Hc] Hl Hr Hd] Hdst Hn Hmax. pose proof (len_nonneg s).
  unfold ltntstools_sectionextractor_query. rewrite Hl, Hc, !u32_id by lia. cbn [Z.eqb Pos.eqb orb].
  split; [|split; [|done]]; intros Hcmp; zdec; [|done].
  rewrite rds_slice by lia. step.
  assert (Hsl := len_slice (se_section ctx) 0 (len s + 3) ltac:(lia) ltac:(lia) ltac:(lia)).
  destruct (wrs_exists d 0 (slice (se_section ctx) 0 (len s + 3))) as (d' & Hw & _); [lia|lia|].
  rewrite Hw. step. exists (byte_at (se_section ctx) (len s)), (byte_at (se_section ctx) (len s + 1)),
    (byte_at (se_section ctx) (len s + 2)), d'. split; [done|]. split; [|done].
  apply take_wrs in Hw. rewrite Hsl, Z.add_0_l in Hw. rewrite Hw. change (Z.to_nat 0) with 0%nat. rewrite take_0. cbn [app].
  rewrite (slice_split _ 0 (len s)) by lia. f_equal.
  - exact Hd.
  - apply bytes_ext; [rewrite len_slice by lia; autorewrite with len; lia|]. rewrite len_slice by lia. intros i Hi.
    rewrite byte_at_slice by lia. assert (i = 0 \/ i = 1 \/ i = 2) as [->|[->| ->]] by lia.
    + change (byte_at [?a; ?b; ?c] 0) with a. f_equal; lia.
    + change (byte_at [?a; ?b; ?c] 1) with b. f_equal; lia.
    + change (byte_at [?a; ?b; ?c] 2) with c. f_equal; lia.
Qed.

(** *** Concrete sections *)

(** A program association section and the packet that carries it on pid 0. *)
Definition pat_section : list Z := sealed [0; 0xb0; 13; 0; 1; 0xc1; 0; 0; 0; 1; 0xe1; 0].
Definition pat_packet : list Z := [0x47; 0x40; 0; 0x10; 0] ++ pat_section ++ replicate 167 0xff.
(** The longest section that two packets of the standard carry to the code. *)
Definition long_section : list Z := sealed ([0; 0xb1; 0x6b] ++ map (fun k => u8 (k * 7)) (seqZ 0 359)).
Definition pat_extractor : sectionextractor_ctx :=
  ltntstools_sectionextractor_alloc 0 0 (replicate (Z.to_nat 4096) 0).


Lemma sectionextractor_query_spec_witness :
  let ctx := set_flags (set_section pat_extractor (pat_section ++ replicate (Z.to_nat 4080) 9) 16 16) 1 0 in
  (16 + 3 <= 64 -> exists x y z d',
     ltntstools_sectionextractor_query ctx (Some (replicate 64 0)) 64 = Some (16 + 3, Some d', set_flags ctx 0 0) /\
     take 19 d' = pat_section ++ [x; y; z] /\
     ltntstools_sectionextractor_query (set_flags ctx 0 0) (Some d') 64
       = Some (-1, Some d', set_flags ctx 0 0)) /\
  (64 < 16 + 3 -> ltntstools_sectionextractor_query ctx (Some (replicate 64 0)) 64
     = Some (-1, Some (replicate 64 0), ctx)) /\
  ltntstools_sectionextractor_query ctx None 64 = Some (-1, None, ctx).
Proof.
  intros ctx. apply (sectionextractor_query_spec ctx pat_section (replicate 64 0) 64).
  - by constructor; vm_compute.
  - by vm_compute.
  - lia.
  - by vm_compute.
Defined.

(** A section of 400 bytes in the packets ISO 13818-1 prescribes (184 bytes in
    each packet after the first) is rejected: a byte of the second is lost. *)
Lemma standard_section_rejected :
  let s := sealed ([0; 0xb1; 0x8d] ++ map (fun k => u8 (k * 7)) (seqZ 0 393)) in
  let pkts := [0x47; 0x40; 0; 0x10; 0] ++ slice s 0 183 ++ [0x47; 0; 0; 0x11] ++ slice s 183 184 ++
              [0x47; 0; 0; 0x12] ++ slice s 367 33 ++ replicate 151 0xff in
  len s = 400 /\ crc_valid s = 1 /\
  (fun r => (r.1.2, r.2)) <$> ltntstools_sectionextractor_write pat_extractor pkts 3 0 = Some (1, 0).
Proof. by vm_compute. Qed.
