(* ===== verification/Pes.v ===== *)
(** * PES packets: src/pes.c over src/libltntstools/klbitstream_readwriter.h

    The struct [ltn_pes_packet_s] is an assignment of its integer fields plus
    the payload pointer.  Packing and parsing are programs of two small monads
    over the bit stream: the inner [None] is an early return of the C function,
    the outer [None] undefined behaviour (an access outside a buffer). *)
From Stdlib Require Import ZArith Lia Bool.
From stdpp Require Import base numbers list option.
From S2P Require Import Prelude Bits BitStream.

Inductive pes_field :=
  | packet_start_code_prefix | stream_id | PES_packet_length
  | PES_scrambling_control | PES_priority | data_alignment_indicator | copyright
  | original_or_copy | PTS_DTS_flags | ESCR_flag | ES_rate_flag | DSM_trick_mode_flag
  | additional_copy_info_flag | PES_CRC_flag | PES_extension_flag | PES_header_data_length
  | PTS | DTS
  | ES_rate | additional_copy_info | previous_PES_packet_CRC
  | PES_private_data_flag | pack_header_field_flag | program_packet_sequence_counter_flag
  | PSTD_buffer_flag | PSTD_buffer_scale | PSTD_buffer_size
  | PES_extension_flag_2 | PES_extension_field_length
  | dataLengthBytes | skipPayloadParsing.

#[export] Instance pes_field_eq_dec : EqDecision pes_field.
Proof. solve_decision. Defined.

(** [data] is [None] for the NULL pointer. *)
Record ltn_pes_packet := { fld : pes_field -> Z; pdata : option (list Z) }.

Definition set_fld (p : ltn_pes_packet) (f : pes_field) (v : Z) : ltn_pes_packet :=
  {| fld := fun g => if decide (g = f) then v else fld p g; pdata := pdata p |}.
Definition set_data (p : ltn_pes_packet) (d : option (list Z)) : ltn_pes_packet :=
  {| fld := fld p; pdata := d |}.

(** calloc, and the memset of the init function. *)
Definition ltn_pes_packet_alloc : ltn_pes_packet := {| fld := fun _ => 0; pdata := None |}.
Definition ltn_pes_packet_init (p : ltn_pes_packet) : ltn_pes_packet := ltn_pes_packet_alloc.

Definition ltn_pes_packet_is_audio (p : ltn_pes_packet) : Z :=
  if (0xc0 <=? fld p stream_id) && (fld p stream_id <=? 0xdf) then 1
  else if (fld p stream_id =? 0xbd) || (0xfd <=? fld p stream_id) then 1 else 0.
Definition ltn_pes_packet_is_video (p : ltn_pes_packet) : Z :=
  if (0xe0 <=? fld p stream_id) && (fld p stream_id <=? 0xef) then 1 else 0.
Definition ltn_pes_packet_has_PTS (p : ltn_pes_packet) : Z :=
  if Z.land (fld p PTS_DTS_flags) 2 =? 0 then 0 else 1.
Definition ltn_pes_packet_has_DTS (p : ltn_pes_packet) : Z :=
  if Z.land (fld p PTS_DTS_flags) 1 =? 0 then 0 else 1.

(** The stream ids whose packets have no header extension: program_stream_map,
    padding_stream, private_stream_2, ECM, EMM, program_stream_directory,
    DSMCC_stream and H.222.1 type E. *)
Definition plain_stream (id : Z) : bool :=
  existsb (fun x => id =? x) [0xBC; 0xBE; 0xBF; 0xF0; 0xF1; 0xFF; 0xF2; 0xF8].
Definition opaque_stream (id : Z) : bool :=
  existsb (fun x => id =? x) [0xBF; 0xF0; 0xF1; 0xFF; 0xF2; 0xF8].

(** ** Packing *)

(** A writer: the bit stream and the bits counted. *)
Definition writer : Type := klbs_context * Z -> option (klbs_context * Z).
Definition wseq (m k : writer) : writer := fun s => s ← m s; k s.
Definition wnop : writer := fun s => Some s.
Definition wbits (v n : Z) : writer := fun '(bs, bits) => bs ← klbs_write_bits bs v n; Some (bs, bits).
Definition wcount (n : Z) : writer := fun '(bs, bits) => Some (bs, bits + n).
Definition wwhen (c : bool) (m : writer) : writer := if c then m else wnop.
Fixpoint wrepeat (n : nat) (m : writer) : writer :=
  match n with O => wnop | S n' => wseq m (wrepeat n' m) end.

Declare Scope pes_scope.
Delimit Scope pes_scope with pes.
Infix ";+" := wseq (at level 60, right associativity) : pes_scope.

Definition write33bit_ts (value : Z) : writer :=
  (wbits (Z.shiftr value 30) 3;+ wbits 1 1;+
   wbits (Z.shiftr value 15) 15;+ wbits 1 1;+
   wbits value 15;+ wbits 1 1)%pes.

(** [for (i = 0; i < n; i++) klbs_write_bits(bs, *(data + i), 8)], eight bits
    counted per byte. *)
Fixpoint wdata (n : nat) (i : Z) (data : option (list Z)) : writer :=
  match n with
  | O => wnop
  | S n' => fun s => d ← data; b ← rd d i; ((wbits b 8;+ wcount 8) ;+ wdata n' (i + 1) data)%pes s
  end.

Definition flag (p : ltn_pes_packet) (f : pes_field) : bool := negb (fld p f =? 0).

Definition pack_flags (p : ltn_pes_packet) : writer :=
  (wbits 2 2;+
   wbits (fld p PES_scrambling_control) 2;+ wbits (fld p PES_priority) 1;+
   wbits (fld p data_alignment_indicator) 1;+ wbits (fld p copyright) 1;+
   wbits (fld p original_or_copy) 1;+ wbits (fld p PTS_DTS_flags) 2;+
   wbits (fld p ESCR_flag) 1;+ wbits (fld p ES_rate_flag) 1;+ wbits (fld p DSM_trick_mode_flag) 1;+
   wbits (fld p additional_copy_info_flag) 1;+ wbits (fld p PES_CRC_flag) 1;+
   wbits (fld p PES_extension_flag) 1;+ wbits (fld p PES_header_data_length) 8;+ wcount 72)%pes.

Definition pack_timestamps (p : ltn_pes_packet) : writer :=
  (if fld p PTS_DTS_flags =? 2 then wbits 2 4;+ write33bit_ts (fld p PTS);+ wcount 40
   else if fld p PTS_DTS_flags =? 3 then
     wbits 3 4;+ write33bit_ts (fld p PTS);+ wcount 40;+
     wbits 1 4;+ write33bit_ts (fld p DTS);+ wcount 40
   else wnop)%pes.

Definition pack_optional (p : ltn_pes_packet) : writer :=
  (wwhen (flag p ESCR_flag) (wbits 0 40;+ wcount 48);+
   wwhen (flag p ES_rate_flag) (wbits 1 1;+ wbits (fld p ES_rate_flag) 22;+ wbits 1 1;+ wcount 24);+
   wwhen (flag p DSM_trick_mode_flag) (wbits 0 8;+ wcount 8);+
   wwhen (flag p additional_copy_info_flag) (wbits 1 1;+ wbits (fld p additional_copy_info) 7;+ wcount 8);+
   wwhen (flag p PES_CRC_flag) (wbits 0 16;+ wcount 16))%pes.

Definition pack_extension (p : ltn_pes_packet) : writer :=
  (wwhen (flag p PES_extension_flag)
    (wbits (fld p PES_private_data_flag) 1;+ wbits (fld p pack_header_field_flag) 1;+
     wbits (fld p program_packet_sequence_counter_flag) 1;+ wbits (fld p PSTD_buffer_flag) 1;+
     wbits 0xff 3;+ wbits (fld p PES_extension_flag_2) 1;+ wcount 8;+
     wwhen (fld p PES_private_data_flag =? 1)
       (wbits 0xffffffff 32;+ wbits 0xffffffff 32;+ wbits 0xffffffff 32;+ wbits 0xffffffff 32;+
        wcount 128);+
     wwhen (fld p program_packet_sequence_counter_flag =? 1) (wcount 16);+
     wwhen (fld p PSTD_buffer_flag =? 1) (wcount 16);+
     wwhen (fld p PES_extension_flag_2 =? 1)
       (wcount 8;+ wrepeat (Z.to_nat (fld p PES_extension_field_length)) (wbits 0xff 8;+ wcount 8))))%pes.

(** The padding loop of the source is nested in the branch of the opaque
    streams, where [stream_id == 0xBE] is false. *)
Definition ltn_pes_packet_pack (p : ltn_pes_packet) (bs : klbs_context) : option (klbs_context * Z) :=
  let id := fld p stream_id in
  (wbits (fld p packet_start_code_prefix) 24;+ wbits id 8;+ wbits (fld p PES_packet_length) 16;+
   if negb (plain_stream id) then
     pack_flags p;+ pack_timestamps p;+ pack_optional p;+ pack_extension p;+
     wdata (Z.to_nat (fld p dataLengthBytes)) 0 (pdata p)
   else if opaque_stream id then
     match pdata p with
     | Some _ => wdata (Z.to_nat (fld p PES_packet_length)) 0 (pdata p)
     | None =>
         wwhen (id =? 0xBE) (wrepeat (Z.to_nat (fld p PES_packet_length)) (wbits 0xff 8;+ wcount 8))
     end
   else wnop)%pes (bs, 0).

(** ** Parsing *)

Record parse_state := { ps_pkt : ltn_pes_packet; ps_bs : klbs_context; ps_bits : Z }.

(** [Some (None, s)] is [return bits]. *)
Definition parser (A : Type) : Type := parse_state -> option (option A * parse_state).
Definition pret {A} (a : A) : parser A := fun s => Some (Some a, s).
Definition pbind {A B} (m : parser A) (k : A -> parser B) : parser B := fun s =>
  '(r, s) ← m s; match r with Some a => k a s | None => Some (None, s) end.
Definition preturn {A} : parser A := fun s => Some (None, s).
Definition pwhen (c : bool) (m : parser unit) : parser unit := if c then m else pret tt.

Notation "x <-- m ;> k" := (pbind m (fun x => k)) (at level 60, m at next level, right associativity) : pes_scope.
Notation "m ;> k" := (pbind m (fun _ => k)) (at level 60, right associativity) : pes_scope.

Definition rbits (n : Z) : parser Z := fun s =>
  '(v, bs) ← klbs_read_bits (ps_bs s) n;
  Some (Some v, {| ps_pkt := ps_pkt s; ps_bs := bs; ps_bits := ps_bits s |}).
Definition skip (n : Z) : parser unit := (_ <-- rbits n;> pret tt)%pes.
Definition get (f : pes_field) : parser Z := fun s => Some (Some (fld (ps_pkt s) f), s).
Definition put (f : pes_field) (v : Z) : parser unit := fun s =>
  Some (Some tt, {| ps_pkt := set_fld (ps_pkt s) f v; ps_bs := ps_bs s; ps_bits := ps_bits s |}).
Definition put_data (d : option (list Z)) : parser unit := fun s =>
  Some (Some tt, {| ps_pkt := set_data (ps_pkt s) d; ps_bs := ps_bs s; ps_bits := ps_bits s |}).
Definition count (n : Z) : parser unit := fun s =>
  Some (Some tt, {| ps_pkt := ps_pkt s; ps_bs := ps_bs s; ps_bits := ps_bits s + n |}).
Definition bits_so_far : parser Z := fun s => Some (Some (ps_bits s), s).
Definition free_count : parser Z := fun s => Some (Some (klbs_get_byte_count_free (ps_bs s)), s).
Definition mark_truncated : parser unit := fun s =>
  Some (Some tt, {| ps_pkt := ps_pkt s; ps_bs := BitStream.set_truncated (ps_bs s) 1;
                    ps_bits := ps_bits s |}).

(** Read [n] bits into a field of [w] bits. *)
Definition rfield (f : pes_field) (n : Z) : parser unit := (v <-- rbits n;> put f v)%pes.

Fixpoint prepeat (n : nat) (m : parser unit) : parser unit :=
  match n with O => pret tt | S n' => (m;> prepeat n' m)%pes end.

Definition read33bit_ts : parser Z :=
  (a <-- rbits 3;> m1 <-- rbits 1;> if negb (m1 =? 1) then pret (-1) else
   b <-- rbits 15;> m2 <-- rbits 1;> if negb (m2 =? 1) then pret (-1) else
   c <-- rbits 15;> m3 <-- rbits 1;> if negb (m3 =? 1) then pret (-1) else
   pret (Z.lor (Z.lor (Z.shiftl a 30) (Z.shiftl b 15)) c))%pes.

Definition parse_start (skipData : Z) : parser unit :=
  (put skipPayloadParsing skipData;>
   rfield packet_start_code_prefix 24;> rfield stream_id 8;> rfield PES_packet_length 16;>
   free <-- free_count;> len <-- get PES_packet_length;>
   pwhen (u32 (i32 free) <? len) (put PES_packet_length (u32 (i32 free))))%pes.

Definition parse_flags : parser unit :=
  (skip 2;>
   rfield PES_scrambling_control 2;> rfield PES_priority 1;> rfield data_alignment_indicator 1;>
   rfield copyright 1;> rfield original_or_copy 1;> rfield PTS_DTS_flags 2;> rfield ESCR_flag 1;>
   rfield ES_rate_flag 1;> rfield DSM_trick_mode_flag 1;> rfield additional_copy_info_flag 1;>
   rfield PES_CRC_flag 1;> rfield PES_extension_flag 1;>
   free <-- free_count;>
   if free <? 1 then preturn else
   rfield PES_header_data_length 8;> count 72)%pes.

Definition parse_timestamps : parser unit :=
  (flags <-- get PTS_DTS_flags;>
   if flags =? 2 then
     skip 4;> pts <-- read33bit_ts;> put PTS pts;> count 40
   else if flags =? 3 then
     skip 4;> pts <-- read33bit_ts;> put PTS pts;> count 40;>
     skip 4;> dts <-- read33bit_ts;> put DTS dts;> count 40
   else pret tt)%pes.

(** The value of ES_rate goes to the flag, as in the source. *)
Definition parse_optional : parser unit :=
  (escr <-- get ESCR_flag;> pwhen (negb (escr =? 0)) (skip 48;> count 48);>
   rate <-- get ES_rate_flag;>
   pwhen (negb (rate =? 0)) (skip 1;> rfield ES_rate_flag 22;> skip 1;> count 24);>
   dsm <-- get DSM_trick_mode_flag;> pwhen (negb (dsm =? 0)) (skip 8;> count 8);>
   info <-- get additional_copy_info_flag;>
   pwhen (negb (info =? 0)) (skip 1;> rfield additional_copy_info 7;> count 8);>
   crc <-- get PES_CRC_flag;>
   pwhen (negb (crc =? 0)) (rfield previous_PES_packet_CRC 16;> count 16))%pes.

Definition parse_private_data : parser unit :=
  (f <-- get PES_private_data_flag;>
   pwhen (f =? 1)
     (free <-- free_count;>
      if free <? 16 then preturn else
      skip 32;> skip 32;> skip 32;> skip 32;> count 128))%pes.

Definition parse_pack_header : parser unit :=
  (f <-- get pack_header_field_flag;>
   pwhen (f =? 1)
     (len <-- rbits 8;> count 8;>
      free <-- free_count;>
      if free <? len then preturn else prepeat (Z.to_nat len) (skip 8;> count 8)))%pes.

(** The truncated length of the extension field: an int stored in a uint8_t;
    the packet length is recomputed from the bits counted so far. *)
Definition parse_extension_field : parser unit :=
  (f <-- get PES_extension_flag_2;>
   pwhen (f =? 1)
     (skip 1;> rfield PES_extension_field_length 7;> count 8;>
      free <-- free_count;>
      let byte_count_free := Z.max 0 (i32 free) in
      len <-- get PES_extension_field_length;>
      pwhen (byte_count_free <? len)
        (put PES_extension_field_length (u8 byte_count_free);>
         len' <-- get PES_extension_field_length;> bits <-- bits_so_far;>
         put PES_packet_length (u32 (Z.quot (bits - 48) 8 + len'));>
         mark_truncated);>
      len'' <-- get PES_extension_field_length;>
      prepeat (Z.to_nat len'') (skip 8;> count 8)))%pes.

Definition parse_extension : parser unit :=
  (ext <-- get PES_extension_flag;>
   pwhen (negb (ext =? 0))
     (rfield PES_private_data_flag 1;> rfield pack_header_field_flag 1;>
      rfield program_packet_sequence_counter_flag 1;> rfield PSTD_buffer_flag 1;>
      skip 3;> rfield PES_extension_flag_2 1;> count 8;>
      parse_private_data;> parse_pack_header;>
      seq <-- get program_packet_sequence_counter_flag;> pwhen (seq =? 1) (skip 16;> count 16);>
      pstd <-- get PSTD_buffer_flag;>
      pwhen (pstd =? 1) (skip 2;> rfield PSTD_buffer_scale 1;> rfield PSTD_buffer_size 13;> count 16);>
      parse_extension_field))%pes.

(** The bytes of the payload: a memcpy when the stream is byte aligned and has
    them, otherwise bit by bit. *)
Definition copy_bytes (n : Z) : parser (list Z) := fun s =>
  d ← rds (bs_buf (ps_bs s)) (bs_buflen_used (ps_bs s)) n;
  Some (Some d, {| ps_pkt := ps_pkt s;
                   ps_bs := BitStream.set_pos (ps_bs s) (bs_buf (ps_bs s))
                              (u32 (bs_buflen_used (ps_bs s) + n));
                   ps_bits := ps_bits s + n * 8 |}).
Fixpoint read_bytes (n : nat) (acc : list Z) : parser (list Z) :=
  match n with
  | O => pret acc
  | S n' => (b <-- rbits 8;> count 8;> read_bytes n' (acc ++ [u8 b]))%pes
  end.
Definition payload_bytes (n : Z) : parser (list Z) := fun s =>
  if (bs_reg_used (ps_bs s) =? 0) && (n <=? klbs_get_byte_count_free (ps_bs s))
  then copy_bytes n s else read_bytes (Z.to_nat n) [] s.

Section Parse.

(** Whether [malloc] of that size succeeds. *)
Variable malloc_ok : Z -> bool.

Definition parse_data (skipData : Z) : parser unit :=
  (put dataLengthBytes 0;> put_data None;>
   pwhen (skipData =? 0)
     (free <-- free_count;>
      let byte_count_free := Z.max 0 (i32 free) in
      len <-- get PES_packet_length;> bits <-- bits_so_far;>
      let header := Z.quot (bits - 48) 8 in
      put dataLengthBytes (u32 (if header <=? len then len - header else byte_count_free));>
      n <-- get dataLengthBytes;>
      pwhen (byte_count_free <? n) (put dataLengthBytes byte_count_free;> mark_truncated);>
      n <-- get dataLengthBytes;>
      if malloc_ok n then d <-- payload_bytes n;> put_data (Some d)
      else put dataLengthBytes 0))%pes.

(** The check of the packet length in the two branches without a header. *)
Definition check_packet_length : parser unit :=
  (free <-- free_count;>
   let byte_count_free := Z.max 0 (i32 free) in
   len <-- get PES_packet_length;>
   pwhen (byte_count_free <? len) (put PES_packet_length byte_count_free;> mark_truncated))%pes.

Definition parse_opaque : parser unit :=
  (check_packet_length;>
   n <-- get PES_packet_length;>
   if malloc_ok n then d <-- payload_bytes n;> put_data (Some d)
   else put_data None;> put dataLengthBytes 0)%pes.

Definition parse_padding : parser unit :=
  (check_packet_length;>
   n <-- get PES_packet_length;> prepeat (Z.to_nat n) (skip 8;> count 8))%pes.

Definition parse_body (skipData : Z) : parser unit :=
  (id <-- get stream_id;>
   if negb (plain_stream id) then
     parse_flags;> parse_timestamps;> parse_optional;> parse_extension;> parse_data skipData
   else if opaque_stream id then parse_opaque
   else if id =? 0xBE then parse_padding
   else pret tt)%pes.

(** The return value is the count of bits of the final state. *)
Definition ltn_pes_packet_parse (p : ltn_pes_packet) (bs : klbs_context) (skipData : Z)
    : option (ltn_pes_packet * klbs_context * Z) :=
  if klbs_get_byte_count_free bs <? 8 then Some (p, bs, 0) else
  '(_, s) ← (parse_start skipData;> parse_body skipData)%pes
              {| ps_pkt := p; ps_bs := bs; ps_bits := 0 |};
  Some (ps_pkt s, ps_bs s, ps_bits s).

End Parse.

(** ** Rules: what a writer writes *)

(** [m] appends the fields [fs] to the stream and counts [k] bits. *)
Definition writes (m : writer) (fs : list (Z * Z)) (k : Z) : Prop :=
  forall bs bits, klbs_wf bs ->
  Z.of_nat (length (written bs) + length (fields_bits fs)) <= 8 * bs_buflen bs ->
  exists bs', m (bs, bits) = Some (bs', bits + k) /\ klbs_wf bs' /\
    written bs' = written bs ++ fields_bits fs /\ bs_buflen bs' = bs_buflen bs.

Lemma fields_bits_app fs gs : fields_bits (fs ++ gs) = fields_bits fs ++ fields_bits gs.
Proof. unfold fields_bits. by rewrite map_app, concat_app. Qed.

Lemma writes_nop : writes wnop [] 0.
Proof.
  intros bs bits Hwf _. exists bs. split; [unfold wnop; do 2 f_equal; lia|].
  by rewrite app_nil_r.
Qed.

Lemma writes_count k : writes (wcount k) [] k.
Proof. intros bs bits Hwf _. exists bs. split; [done|]. by rewrite app_nil_r. Qed.

Lemma writes_bits v n : 0 <= n <= 64 -> writes (wbits v n) [(v, n)] 0.
Proof.
  intros Hn bs bits Hwf Hroom. unfold fields_bits in *. cbn [map concat fst snd] in *.
  rewrite app_nil_r, length_bits_of in *.
  destruct (write_bits_spec bs v n Hwf Hn) as (bs' & H1 & H2 & H3 & H4 & _); [lia|].
  exists bs'. unfold wbits. rewrite H1. step. split; [do 2 f_equal; lia|]. done.
Qed.

Lemma writes_seq m1 m2 fs1 fs2 k1 k2 :
  writes m1 fs1 k1 -> writes m2 fs2 k2 -> writes (wseq m1 m2) (fs1 ++ fs2) (k1 + k2).
Proof.
  intros H1 H2 bs bits Hwf Hroom. rewrite fields_bits_app, length_app in *.
  destruct (H1 bs bits Hwf) as (b1 & E1 & W1 & B1 & L1); [lia|].
  destruct (H2 b1 (bits + k1) W1) as (b2 & E2 & W2 & B2 & L2).
  { rewrite B1, L1, length_app. lia. }
  exists b2. unfold wseq. rewrite E1. step. rewrite E2. split; [do 2 f_equal; lia|].
  split; [done|]. split; [|congruence]. by rewrite B2, B1, <- app_assoc.
Qed.

Lemma writes_when c m fs k :
  writes m fs k -> writes (wwhen c m) (if c then fs else []) (if c then k else 0).
Proof. intros H. destruct c; [done|apply writes_nop]. Qed.

(** Use a rule up to the shape of the list and of the count. *)
Lemma writes_eq m fs fs' k k' : writes m fs k -> fs = fs' -> k = k' -> writes m fs' k'.
Proof. by intros H <- <-. Qed.

Ltac writes_auto :=
  repeat first
    [ apply writes_nop | apply writes_count | apply writes_bits; lia
    | apply writes_when | apply writes_seq ].

Definition data_fields (d : list Z) : list (Z * Z) := map (fun b => (b, 8)) d.

Lemma data_fields_bits d : fields_bits (data_fields d) = buf_bits d.
Proof. unfold fields_bits, data_fields, buf_bits. by rewrite map_map. Qed.

Lemma writes_data n : forall i d,
  0 <= i -> i + Z.of_nat n = len d ->
  writes (wdata n i (Some d)) (data_fields (drop (Z.to_nat i) d)) (8 * Z.of_nat n).
Proof.
  induction n as [|n IH]; intros i d Hi Hn; cbn [wdata].
  - rewrite drop_ge by (unfold len in Hn; lia). eapply writes_eq; [apply writes_nop|done|lia].
  - rewrite drop_cons_byte_at by lia.
    assert (H := IH (i + 1) d ltac:(lia) ltac:(lia)). intros bs bits Hwf Hroom.
    cbn [mbind option_bind]. rewrite rd_Some by lia. cbn [mbind option_bind].
    revert bs bits Hwf Hroom. change (writes (wseq (wseq (wbits (byte_at d i) 8) (wcount 8)) (wdata n (i + 1) (Some d)))
      (data_fields (byte_at d i :: drop (Z.to_nat (i + 1)) d)) (8 * Z.of_nat (S n))).
    eapply writes_eq; [apply writes_seq; [apply writes_seq; [apply writes_bits; lia|apply writes_count]|exact H]|done|lia].
Qed.

(** ** Rules: what a parser reads *)

Section Reading.

(** The number of bits that follow what a parser reads is at least this: the
    tests of the free bytes look beyond the field they precede. *)
Variable need : Z.

(** From a packet [p] and a stream that starts with the fields [fs], the parser
    returns [a], consumes exactly the fields, leaves the packet [p'] and counts
    [n] bits. *)
Definition runs {A} (m : parser A) (p : ltn_pes_packet) (fs : list (Z * Z)) (a : A)
    (p' : ltn_pes_packet) (n : Z) : Prop :=
  forall bs bits rest, klbs_wf bs -> unread bs = fields_bits fs ++ rest ->
  need <= Z.of_nat (length rest) ->
  exists bs', m {| ps_pkt := p; ps_bs := bs; ps_bits := bits |} =
      Some (Some a, {| ps_pkt := p'; ps_bs := bs'; ps_bits := bits + n |}) /\
    klbs_wf bs' /\ unread bs' = rest /\ bs_buf bs' = bs_buf bs /\ bs_buflen bs' = bs_buflen bs /\
    (overrun_late bs -> overrun_late bs').

Lemma runs_ret {A} (a : A) p : runs (pret a) p [] a p 0.
Proof. intros bs bits rest Hwf Hun Hnd. exists bs. by rewrite Z.add_0_r. Qed.
Lemma runs_get f p : runs (get f) p [] (fld p f) p 0.
Proof. intros bs bits rest Hwf Hun Hnd. exists bs. by rewrite Z.add_0_r. Qed.
Lemma runs_put f v p : runs (put f v) p [] tt (set_fld p f v) 0.
Proof. intros bs bits rest Hwf Hun Hnd. exists bs. by rewrite Z.add_0_r. Qed.
Lemma runs_put_data d p : runs (put_data d) p [] tt (set_data p d) 0.
Proof. intros bs bits rest Hwf Hun Hnd. exists bs. by rewrite Z.add_0_r. Qed.
Lemma runs_count n p : runs (count n) p [] tt p n.
Proof. intros bs bits rest Hwf Hun Hnd. by exists bs. Qed.

Lemma runs_bits v n p : 0 <= n <= 64 -> runs (rbits n) p [(v, n)] (v mod 2 ^ n) p 0.
Proof.
  intros Hn bs bits rest Hwf Hun Hnd. unfold fields_bits in Hun. cbn [map concat fst snd] in Hun.
  rewrite app_nil_r in Hun. assert (L := length_bits_of (Z.to_nat n) v).
  destruct (read_bits_spec bs n Hwf Hn) as (bs' & H1 & H2 & H3 & H4 & H5).
  { rewrite Hun, length_app, L. lia. }
  exists bs'. unfold rbits. cbn [ps_bs ps_pkt ps_bits]. rewrite H1. step.
  assert (HL : overrun_late bs -> overrun_late bs').
  { intros Ho. apply (read_bits_late bs n _ bs' Hwf) in H1; [done| |done]. rewrite Hun, length_app, L. lia. }
  rewrite Hun, take_app_length', bits_val_bits_of, Z2Nat.id by (done || lia).
  rewrite Z.add_0_r. split; [done|]. split; [done|]. split; [|done].
  rewrite H3, Hun. by apply drop_app_length'.
Qed.

Lemma runs_bind {A B} (m : parser A) (k : A -> parser B) p fs1 a p1 n1 fs2 b p2 n2 :
  runs m p fs1 a p1 n1 -> runs (k a) p1 fs2 b p2 n2 -> runs (pbind m k) p (fs1 ++ fs2) b p2 (n1 + n2).
Proof.
  intros H1 H2 bs bits rest Hwf Hun Hnd. rewrite fields_bits_app, <- app_assoc in Hun.
  destruct (H1 bs bits _ Hwf Hun) as (b1 & E1 & W1 & U1 & B1 & L1 & O1); [rewrite length_app; lia|].
  destruct (H2 b1 (bits + n1) _ W1 U1 Hnd) as (b2 & E2 & W2 & U2 & B2 & L2 & O2).
  exists b2. unfold pbind. rewrite E1. step. rewrite E2, <- Z.add_assoc.
  split; [done|]. split; [done|]. split; [done|]. split; [congruence|]. split; [congruence|tauto].
Qed.

Lemma runs_eq {A} (m : parser A) p fs fs' a a' p1 p1' n n' :
  runs m p fs a p1 n -> fs = fs' -> a = a' -> p1 = p1' -> n = n' -> runs m p fs' a' p1' n'.
Proof. by intros H <- <- <- <-. Qed.

Lemma runs_skip v n p : 0 <= n <= 64 -> runs (skip n) p [(v, n)] tt p 0.
Proof.
  intros Hn. unfold skip. eapply runs_eq; [eapply runs_bind; [by apply runs_bits|apply runs_ret]|done..].
Qed.

(** A field that fits is read back. *)
Lemma runs_field f n v p :
  0 <= n <= 64 -> 0 <= v < 2 ^ n -> runs (rfield f n) p [(v, n)] tt (set_fld p f v) 0.
Proof.
  intros Hn Hv. unfold rfield. eapply runs_eq; [eapply runs_bind; [by apply runs_bits|apply runs_put]|done..| |done].
  by rewrite Z.mod_small.
Qed.

(** A test of the free bytes passes when the fields that follow need them. *)
Lemma runs_free {A} (k : Z -> parser A) p fs a p' n c :
  8 * c <= Z.of_nat (length (fields_bits fs)) + need ->
  (forall free, c <= free < 2 ^ 32 -> runs (k free) p fs a p' n) ->
  runs (pbind free_count k) p fs a p' n.
Proof.
  intros Hc Hk bs bits rest Hwf Hun Hnd. unfold pbind, free_count. step. cbn [ps_bs].
  apply Hk; [|done|done|done]. assert (Hl := length_unread bs Hwf). rewrite Hun, length_app in Hl.
  destruct Hwf. unfold klbs_get_byte_count_free, klbs_get_buffer_size, klbs_get_byte_count.
  rewrite u32_id by lia. lia.
Qed.

(** The same rules with the rest of the program, for stepping through it. *)
Section Steps.
Context (q p p' : ltn_pes_packet) (fs : list (Z * Z)) (n : Z).

Lemma step_field f w (k : parser unit) :
  0 <= w <= 64 -> 0 <= fld q f < 2 ^ w ->
  runs k (set_fld p f (fld q f)) fs tt p' n -> runs (rfield f w ;> k)%pes p ((fld q f, w) :: fs) tt p' n.
Proof.
  intros Hw Hv H. eapply runs_eq; [eapply runs_bind; [by apply runs_field|exact H]|done..].
Qed.

Lemma step_skip {A} (a : A) v w (k : parser A) :
  0 <= w <= 64 -> runs k p fs a p' n -> runs (skip w ;> k)%pes p ((v, w) :: fs) a p' n.
Proof.
  intros Hw H. eapply runs_eq; [eapply runs_bind; [by apply runs_skip|exact H]|done..].
Qed.

Lemma step_bits {A} (a : A) v w (k : Z -> parser A) :
  0 <= w <= 64 -> runs (k (v mod 2 ^ w)) p fs a p' n -> runs (pbind (rbits w) k) p ((v, w) :: fs) a p' n.
Proof.
  intros Hw H. eapply runs_eq; [eapply runs_bind; [by apply (runs_bits v)|exact H]|done..].
Qed.

Lemma step_count {A} (a : A) c (k : parser A) :
  runs k p fs a p' (n - c) -> runs (count c ;> k)%pes p fs a p' n.
Proof.
  intros H. eapply runs_eq; [eapply runs_bind; [apply runs_count|exact H]|done..|lia].
Qed.

Lemma step_get {A} (a : A) f (k : Z -> parser A) :
  runs (k (fld p f)) p fs a p' n -> runs (pbind (get f) k) p fs a p' n.
Proof. intros H. eapply runs_eq; [eapply runs_bind; [apply runs_get|exact H]|done..]. Qed.

Lemma step_put {A} (a : A) f v (k : parser A) :
  runs k (set_fld p f v) fs a p' n -> runs (put f v ;> k)%pes p fs a p' n.
Proof. intros H. eapply runs_eq; [eapply runs_bind; [apply runs_put|exact H]|done..]. Qed.

Lemma step_end c : c = n -> runs (count c) p [] tt p n.
Proof. intros <-. apply runs_count. Qed.
End Steps.

(** ** Specification: the fields of a header *)

Definition load (q : ltn_pes_packet) (l : list pes_field) (p : ltn_pes_packet) : ltn_pes_packet :=
  fold_left (fun p f => set_fld p f (fld q f)) l p.

(** The fixed fields of the optional header and their widths. *)
Definition flags_table : list (pes_field * Z) :=
  [(PES_scrambling_control, 2); (PES_priority, 1); (data_alignment_indicator, 1); (copyright, 1);
   (original_or_copy, 1); (PTS_DTS_flags, 2); (ESCR_flag, 1); (ES_rate_flag, 1);
   (DSM_trick_mode_flag, 1); (additional_copy_info_flag, 1); (PES_CRC_flag, 1);
   (PES_extension_flag, 1); (PES_header_data_length, 8)].

Definition table_fields (q : ltn_pes_packet) (t : list (pes_field * Z)) : list (Z * Z) :=
  map (fun fw => (fld q fw.1, fw.2)) t.
Definition table_ok (q : ltn_pes_packet) (t : list (pes_field * Z)) : Prop :=
  Forall (fun fw => 0 <= fld q fw.1 < 2 ^ fw.2) t.

Definition ts_fields (v : Z) : list (Z * Z) :=
  [(Z.shiftr v 30, 3); (1, 1); (Z.shiftr v 15, 15); (1, 1); (v, 15); (1, 1)].

Definition timestamp_fields (q : ltn_pes_packet) : list (Z * Z) :=
  if fld q PTS_DTS_flags =? 2 then (2, 4) :: ts_fields (fld q PTS)
  else if fld q PTS_DTS_flags =? 3 then
    ((3, 4) :: ts_fields (fld q PTS)) ++ (1, 4) :: ts_fields (fld q DTS)
  else [].
Definition timestamp_list (q : ltn_pes_packet) : list pes_field :=
  if fld q PTS_DTS_flags =? 2 then [PTS] else if fld q PTS_DTS_flags =? 3 then [PTS; DTS] else [].
Definition timestamp_bits (q : ltn_pes_packet) : Z :=
  if fld q PTS_DTS_flags =? 2 then 40 else if fld q PTS_DTS_flags =? 3 then 80 else 0.

Definition when {A} (c : bool) (l : list A) : list A := if c then l else [].
Definition optional_fields (q : ltn_pes_packet) : list (Z * Z) :=
  when (flag q ES_rate_flag) [(1, 1); (fld q ES_rate_flag, 22); (1, 1)] ++
  when (flag q DSM_trick_mode_flag) [(0, 8)] ++
  when (flag q additional_copy_info_flag) [(1, 1); (fld q additional_copy_info, 7)] ++
  when (flag q PES_CRC_flag) [(0, 16)].
Definition optional_bits (q : ltn_pes_packet) : Z :=
  (if flag q ES_rate_flag then 24 else 0) + (if flag q DSM_trick_mode_flag then 8 else 0) +
  (if flag q additional_copy_info_flag then 8 else 0) + (if flag q PES_CRC_flag then 16 else 0).

(** A header the library can both write and read: no ESCR and no extension. *)
Record header_ok (q : ltn_pes_packet) : Prop := {
  ho_start : table_ok q [(packet_start_code_prefix, 24); (stream_id, 8); (PES_packet_length, 16)];
  ho_stream : plain_stream (fld q stream_id) = false;
  ho_flags : table_ok q flags_table;
  ho_times : table_ok q [(PTS, 33); (DTS, 33)];
  ho_info : table_ok q [(additional_copy_info, 7)];
  ho_escr : fld q ESCR_flag = 0;
  ho_ext : fld q PES_extension_flag = 0
}.

(** ** The parts of a header, written and read *)

Ltac table_inv H :=
  unfold table_ok in H;
  repeat (let E := fresh "F" in apply Forall_cons_1 in H as [E H]; cbn [fst snd] in E).

Lemma ts_value v : 0 <= v < 2 ^ 33 ->
  Z.lor (Z.lor (Z.shiftl (Z.shiftr v 30 mod 2 ^ 3) 30) (Z.shiftl (Z.shiftr v 15 mod 2 ^ 15) 15)) (v mod 2 ^ 15) = v.
Proof.
  intros Hv. rewrite !Z.shiftl_mul_pow2, !Z.shiftr_div_pow2 by lia.
  rewrite (lor_high_low (_ * 2 ^ 30) _ 30) by zlia. rewrite (lor_high_low (_ + _) _ 15) by zlia. zlia.
Qed.

Lemma write33_spec v : writes (write33bit_ts v) (ts_fields v) 0.
Proof. unfold write33bit_ts. eapply writes_eq; [writes_auto|done|done]. Qed.

Lemma read33_spec p v : 0 <= v < 2 ^ 33 -> runs read33bit_ts p (ts_fields v) v p 0.
Proof.
  intros Hv. unfold read33bit_ts, ts_fields.
  do 3 (apply step_bits; [lia|]; apply step_bits; [lia|]; change (negb (1 mod 2 ^ 1 =? 1)) with false; cbv iota).
  rewrite ts_value by done. apply runs_ret.
Qed.

Lemma step_read33 {A} p p' fs (b : A) n v (k : Z -> parser A) :
  0 <= v < 2 ^ 33 -> runs (k v) p fs b p' n -> runs (pbind read33bit_ts k) p (ts_fields v ++ fs) b p' n.
Proof. intros Hv H. eapply runs_eq; [eapply runs_bind; [by apply read33_spec|exact H]|done..]. Qed.

Lemma pack_flags_spec q : writes (pack_flags q) ((2, 2) :: table_fields q flags_table) 72.
Proof. unfold pack_flags. eapply writes_eq; [writes_auto|done|done]. Qed.

Lemma parse_flags_spec q p :
  0 <= need -> table_ok q flags_table ->
  runs parse_flags p ((2, 2) :: table_fields q flags_table) tt (load q (map fst flags_table) p) 72.
Proof.
  intros Hneed Hok. unfold flags_table in Hok. table_inv Hok. unfold parse_flags, flags_table, table_fields. cbn [map fst snd].
  apply step_skip; [lia|]. do 12 (apply step_field; [lia|done|]).
  apply (runs_free _ _ _ _ _ _ 1); [unfold fields_bits; cbn [map concat fst snd]; rewrite length_app, length_bits_of; lia|]. intros free Hf. rewrite (proj2 (Z.ltb_ge free 1)) by lia.
  apply step_field; [lia|done|]. by apply step_end.
Qed.

Lemma pack_timestamps_spec q : writes (pack_timestamps q) (timestamp_fields q) (timestamp_bits q).
Proof.
  unfold pack_timestamps, timestamp_fields, timestamp_bits.
  destruct (fld q PTS_DTS_flags =? 2); [|destruct (fld q PTS_DTS_flags =? 3); [|apply writes_nop]].
  - eapply writes_eq; [apply writes_seq; [writes_auto|apply writes_seq; [apply write33_spec|writes_auto]]|done|done].
  - eapply writes_eq;
      [apply writes_seq; [writes_auto|apply writes_seq; [apply write33_spec|]];
       apply writes_seq; [apply writes_count|apply writes_seq; [writes_auto|]];
       apply writes_seq; [apply write33_spec|apply writes_count]|done|done].
Qed.

Lemma parse_timestamps_spec q p :
  fld p PTS_DTS_flags = fld q PTS_DTS_flags -> table_ok q [(PTS, 33); (DTS, 33)] ->
  runs parse_timestamps p (timestamp_fields q) tt (load q (timestamp_list q) p) (timestamp_bits q).
Proof.
  intros Hf Hok. table_inv Hok. unfold parse_timestamps, timestamp_fields, timestamp_list, timestamp_bits.
  apply step_get. rewrite Hf. destruct (fld q PTS_DTS_flags =? 2).
  - apply step_skip; [lia|]. apply (step_read33 _ _ [] _ _ (fld q PTS)); [done|].
    apply step_put. by apply step_end.
  - destruct (fld q PTS_DTS_flags =? 3); [|apply runs_ret].
    apply step_skip; [lia|]. apply step_read33; [done|]. apply step_put. apply step_count.
    apply step_skip; [lia|]. apply (step_read33 _ _ [] _ _ (fld q DTS)); [done|].
    apply step_put. by apply step_end.
Qed.

Lemma pack_optional_spec q :
  fld q ESCR_flag = 0 -> writes (pack_optional q) (optional_fields q) (optional_bits q).
Proof.
  intros He. unfold pack_optional. eapply writes_eq; [writes_auto| |].
  - unfold flag at 1. rewrite He. done.
  - unfold flag at 1, optional_bits. rewrite He.
    by destruct (flag q ES_rate_flag), (flag q DSM_trick_mode_flag), (flag q additional_copy_info_flag),
      (flag q PES_CRC_flag).
Qed.

(** What parsing the optional fields changes. *)
Definition load_optional (q p : ltn_pes_packet) : ltn_pes_packet :=
  let p := load q (when (flag q ES_rate_flag) [ES_rate_flag]) p in
  let p := load q (when (flag q additional_copy_info_flag) [additional_copy_info]) p in
  if flag q PES_CRC_flag then set_fld p previous_PES_packet_CRC 0 else p.

Lemma step_when {A} (a : A) c p m fs p1 n1 (k : parser A) gs p2 n2 :
  (c = true -> runs m p fs tt p1 n1) -> runs k (if c then p1 else p) gs a p2 n2 ->
  runs (pwhen c m ;> k)%pes p (when c fs ++ gs) a p2 ((if c then n1 else 0) + n2).
Proof.
  intros Hm Hk. eapply runs_bind; [|exact Hk]. destruct c; [by apply Hm|apply runs_ret].
Qed.

Lemma parse_optional_spec q p :
  table_ok q flags_table -> table_ok q [(additional_copy_info, 7)] -> fld q ESCR_flag = 0 ->
  (forall f, In f (map fst flags_table) -> fld p f = fld q f) ->
  runs parse_optional p (optional_fields q) tt (load_optional q p) (optional_bits q).
Proof.
  intros Hf Hi He Hp. unfold flags_table in Hf. table_inv Hf. table_inv Hi. unfold parse_optional.
  apply step_get. rewrite Hp, He by (cbn; tauto). cbn [negb Z.eqb pwhen].
  unfold optional_fields, optional_bits.
  eapply runs_eq; [eapply (runs_bind (pret tt)); [apply runs_ret|]|done..|apply Z.add_0_l].
  apply step_get. rewrite Hp by (cbn; tauto). rewrite <- !Z.add_assoc.
  change (negb (fld q ES_rate_flag =? 0)) with (flag q ES_rate_flag).
  apply (step_when tt _ _ _ _ (load q [ES_rate_flag] p)).
  { intros _. apply step_skip; [lia|]. apply step_field; [lia|lia|]. apply step_skip; [lia|]. by apply step_end. }
  set (p1 := if flag q ES_rate_flag then _ else p).
  assert (H1 : p1 = load q (when (flag q ES_rate_flag) [ES_rate_flag]) p) by (unfold p1; by destruct (flag q ES_rate_flag)).
  assert (Hp1 : forall f, In f (map fst flags_table) -> fld p1 f = fld q f).
  { intros f Hin. unfold p1. destruct (flag q ES_rate_flag); [|by apply Hp]. cbn [load fold_left set_fld fld].
    case_decide; [by subst|by apply Hp]. }
  apply step_get. rewrite Hp1 by (cbn; tauto).
  change (negb (fld q DSM_trick_mode_flag =? 0)) with (flag q DSM_trick_mode_flag).
  apply (step_when tt _ _ _ _ p1).
  { intros _. apply step_skip; [lia|]. by apply step_end. }
  replace (if flag q DSM_trick_mode_flag then p1 else p1) with p1 by (by destruct (flag q DSM_trick_mode_flag)).
  apply step_get. rewrite Hp1 by (cbn; tauto).
  change (negb (fld q additional_copy_info_flag =? 0)) with (flag q additional_copy_info_flag).
  apply (step_when tt _ _ _ _ (load q [additional_copy_info] p1)).
  { intros _. apply step_skip; [lia|]. apply step_field; [lia|lia|]. by apply step_end. }
  set (p2 := if flag q additional_copy_info_flag then _ else p1).
  assert (Hp2 : fld p2 PES_CRC_flag = fld q PES_CRC_flag).
  { unfold p2. destruct (flag q additional_copy_info_flag); cbn; apply Hp1; cbn; tauto. }
  apply step_get. rewrite Hp2. change (negb (fld q PES_CRC_flag =? 0)) with (flag q PES_CRC_flag).
  unfold load_optional. rewrite <- H1.
  replace (load q _ p1) with p2 by (unfold p2; by destruct (flag q additional_copy_info_flag)).
  destruct (flag q PES_CRC_flag); [|apply runs_ret]. unfold pwhen.
  apply (runs_bind _ _ p2 [(0, 16)] tt (set_fld p2 previous_PES_packet_CRC 0) 0 [] tt _ 16);
    [apply runs_field; lia|apply runs_count].
Qed.

Lemma pack_extension_spec q : fld q PES_extension_flag = 0 -> writes (pack_extension q) [] 0.
Proof. intros He. unfold pack_extension, flag. rewrite He. apply writes_nop. Qed.

Lemma parse_extension_spec p :
  fld p PES_extension_flag = 0 -> runs parse_extension p [] tt p 0.
Proof. intros He. unfold parse_extension. apply step_get. rewrite He. apply runs_ret. Qed.

Definition start_table : list (pes_field * Z) :=
  [(packet_start_code_prefix, 24); (stream_id, 8); (PES_packet_length, 16)].

Lemma parse_start_spec q p skipData :
  table_ok q start_table -> 8 * fld q PES_packet_length <= need ->
  runs (parse_start skipData) p (table_fields q start_table) tt
    (load q (map fst start_table) (set_fld p skipPayloadParsing skipData)) 0.
Proof.
  intros Hok Hneed. unfold start_table in Hok. table_inv Hok.
  unfold parse_start, start_table, table_fields. cbn [map fst snd]. apply step_put.
  do 3 (apply step_field; [lia|done|]).
  apply (runs_free _ _ _ _ _ _ (fld q PES_packet_length)); [cbn; lia|].
  intros free Hf. apply step_get. unfold pwhen.
  rewrite (proj2 (Z.ltb_ge _ _)); [apply runs_ret|].
  cbn [set_fld fld]. rewrite decide_True by done. zlia.
Qed.

End Reading.

(** ** The payload *)

Lemma buf_bits_inj l : forall k, bytes l -> bytes k -> buf_bits l = buf_bits k -> l = k.
Proof.
  induction l as [|b l IH]; intros [|c k] Hl Hk E; [done|done|done|].
  apply bytes_cons in Hl as [Hb Hl]. apply bytes_cons in Hk as [Hc Hk].
  change (byte_bits b ++ buf_bits l = byte_bits c ++ buf_bits k) in E.
  apply app_inj_1 in E as [E1 E2]; [|done].
  rewrite <- (bits_val_byte b), <- (bits_val_byte c), E1 by done. f_equal. by apply IH.
Qed.

(** The memcpy path takes exactly the bytes the stream has left. *)
Lemma payload_bytes_spec d p bs bits :
  klbs_wf bs -> bytes d -> unread bs = buf_bits d ->
  klbs_get_byte_count_free bs = len d /\
  exists bs', payload_bytes (len d) {| ps_pkt := p; ps_bs := bs; ps_bits := bits |} =
    Some (Some d, {| ps_pkt := p; ps_bs := bs'; ps_bits := bits + len d * 8 |}) /\
    bs_overrun bs' = bs_overrun bs.
Proof.
  intros Hwf Hd Hun. assert (Hl := length_unread bs Hwf). rewrite Hun, length_buf_bits in Hl.
  assert (Hwf' := Hwf). destruct Hwf' as [Hb Hbl Hmx Hu Hr Hru].
  assert (Hfree : klbs_get_byte_count_free bs = len d).
  { unfold klbs_get_byte_count_free, klbs_get_buffer_size, klbs_get_byte_count.
    rewrite u32_id by lia. unfold len in *. lia. }
  split; [done|]. unfold payload_bytes. cbn [ps_bs]. rewrite Hfree, Z.leb_refl, andb_true_r.
  assert (bs_reg_used bs = 0) as -> by (unfold len in *; lia). cbn [Z.eqb].
  unfold copy_bytes. cbn [ps_bs ps_pkt ps_bits]. rewrite rds_slice by (unfold len in *; lia). step.
  assert (slice (bs_buf bs) (bs_buflen_used bs) (len d) = d) as ->.
  { apply buf_bits_inj; [by apply bytes_slice|done|].
    rewrite <- Hun. unfold unread. replace (bs_reg_used bs) with 0 by (unfold len in *; lia). change (Z.to_nat 0) with 0%nat.
    rewrite take_0. cbn [app]. f_equal. unfold slice. rewrite skipn_firstn_comm. f_equal. f_equal.
    unfold len in *. lia. }
  eexists. split; [reflexivity|reflexivity].
Qed.

Lemma parse_data_spec malloc_ok d p bs bits :
  klbs_wf bs -> bytes d -> unread bs = buf_bits d -> malloc_ok (len d) = true ->
  48 <= bits -> len d < 2 ^ 31 ->
  fld p PES_packet_length = Z.quot (bits - 48) 8 + len d \/
  (fld p PES_packet_length = 0 /\ 0 < Z.quot (bits - 48) 8) ->
  exists bs', parse_data malloc_ok 0 {| ps_pkt := p; ps_bs := bs; ps_bits := bits |} =
    Some (Some tt, {| ps_pkt := set_data (set_fld (set_data (set_fld p dataLengthBytes 0) None)
                                   dataLengthBytes (len d)) (Some d);
                      ps_bs := bs'; ps_bits := bits + len d * 8 |}) /\
    bs_overrun bs' = bs_overrun bs.
Proof.
  intros Hwf Hd Hun Hmal Hbits Hmax Hlen. pose proof (len_nonneg d).
  assert (Hq : 0 <= Z.quot (bits - 48) 8) by (apply Z.quot_pos; lia).
  set (p1 := set_fld (set_data (set_fld p dataLengthBytes 0) None) dataLengthBytes (len d)).
  destruct (payload_bytes_spec d p1 bs bits Hwf Hd Hun) as (Hfree & bs' & Hp & Ho).
  exists bs'. split; [|exact Ho]. unfold parse_data, pbind, put, put_data, pwhen, free_count, get, bits_so_far. cbn [Z.eqb].
  cbn [ps_pkt ps_bs ps_bits mbind option_bind]. rewrite Hfree, i32_id, Z.max_r by lia.
  replace (u32 (if _ <=? _ then _ else _)) with (len d).
  2: { cbn [set_fld set_data fld]. rewrite !decide_False by done.
       destruct (Z.leb_spec (Z.quot (bits - 48) 8) (fld p PES_packet_length));
         rewrite u32_id; lia. }
  fold p1. replace (fld p1 dataLengthBytes) with (len d) by (unfold p1; cbn [set_fld fld]; by rewrite decide_True).
  rewrite Z.ltb_irrefl. unfold pret. cbn [mbind option_bind ps_pkt].
  replace (fld p1 dataLengthBytes) with (len d) by (unfold p1; cbn [set_fld fld]; by rewrite decide_True).
  rewrite Hmal, Hp. reflexivity.
Qed.

(** ** The whole packet *)

Definition header_fields (q : ltn_pes_packet) : list (Z * Z) :=
  table_fields q start_table ++ ((2, 2) :: table_fields q flags_table)
  ++ timestamp_fields q ++ optional_fields q.
Definition header_bits (q : ltn_pes_packet) : Z := 72 + timestamp_bits q + optional_bits q.

(** The fields a reader gets back. *)
Definition carried (q : ltn_pes_packet) : list pes_field :=
  map fst start_table ++ map fst flags_table ++ timestamp_list q
  ++ when (flag q additional_copy_info_flag) [additional_copy_info].

Definition sum_widths (fs : list (Z * Z)) : Z := fold_right (fun f a => f.2 + a) 0 fs.

Lemma length_fields_bits fs :
  Forall field_ok fs -> Z.of_nat (length (fields_bits fs)) = sum_widths fs.
Proof.
  induction fs as [|[v n] fs IH]; intros Hok; [done|]. apply Forall_cons_1 in Hok as [Hn Hok].
  unfold field_ok in Hn. cbn [snd] in Hn. unfold fields_bits. cbn [map concat fst snd sum_widths fold_right].
  rewrite length_app, length_bits_of, Nat2Z.inj_add, Z2Nat.id by lia. f_equal. by apply IH.
Qed.

Lemma header_fields_length q :
  Z.of_nat (length (fields_bits (header_fields q))) = header_bits q.
Proof.
  rewrite length_fields_bits.
  - unfold header_fields, header_bits, timestamp_fields, timestamp_bits, optional_fields, optional_bits.
    destruct (fld q PTS_DTS_flags =? 2), (fld q PTS_DTS_flags =? 3), (flag q ES_rate_flag),
      (flag q DSM_trick_mode_flag), (flag q additional_copy_info_flag), (flag q PES_CRC_flag); reflexivity.
  - unfold header_fields, timestamp_fields, optional_fields, when, table_fields, start_table, flags_table, ts_fields.
    repeat (apply Forall_app; split); repeat case_match; cbn [map app];
      repeat (apply List.Forall_cons; [unfold field_ok; cbn [snd]; lia|]); apply List.Forall_nil.
Qed.

Lemma header_bits_aligned q :
  72 <= header_bits q <= 72 + 80 + 56 /\ 8 * Z.quot (header_bits q - 48) 8 = header_bits q - 48.
Proof.
  unfold header_bits, timestamp_bits, optional_bits.
  destruct (fld q PTS_DTS_flags =? 2), (fld q PTS_DTS_flags =? 3), (flag q ES_rate_flag),
    (flag q DSM_trick_mode_flag), (flag q additional_copy_info_flag), (flag q PES_CRC_flag);
    split; (lia || reflexivity).
Qed.

Lemma pack_spec q d bs :
  header_ok q -> pdata q = Some d -> fld q dataLengthBytes = len d -> klbs_wf bs ->
  Z.of_nat (length (written bs)) + header_bits q + 8 * len d <= 8 * bs_buflen bs ->
  exists bs', ltn_pes_packet_pack q bs = Some (bs', header_bits q + 8 * len d) /\ klbs_wf bs' /\
    written bs' = written bs ++ fields_bits (header_fields q) ++ buf_bits d.
Proof.
  intros Hok Hd Hn Hwf Hroom. pose proof (len_nonneg d). destruct Hok.
  unfold ltn_pes_packet_pack. rewrite ho_stream0, Hd, Hn. cbn [negb].
  match goal with |- context [?w (bs, 0)] =>
    assert (Hw : writes w (header_fields q ++ data_fields d) (header_bits q + 8 * len d)) end.
  { eapply writes_eq.
    - do 3 (apply writes_seq; [apply writes_bits; lia|]).
      apply writes_seq; [apply pack_flags_spec|]. apply writes_seq; [apply pack_timestamps_spec|].
      apply writes_seq; [by apply pack_optional_spec|]. apply writes_seq; [by apply pack_extension_spec|].
      apply (writes_data (Z.to_nat (len d)) 0 d); lia.
    - unfold header_fields. change (Z.to_nat 0) with 0%nat. rewrite drop_0, <- !app_assoc. reflexivity.
    - unfold header_bits. lia. }
  destruct (Hw bs 0 Hwf) as (bs' & H1 & H2 & H3 & _).
  { pose proof (header_fields_length q). rewrite fields_bits_app, length_app, data_fields_bits, length_buf_bits.
    unfold len in *. lia. }
  exists bs'. split; [done|]. split; [done|]. by rewrite H3, fields_bits_app, data_fields_bits.
Qed.

Lemma fld_load_agree q l : forall p f, fld p f = fld q f -> fld (load q l p) f = fld q f.
Proof.
  induction l as [|g l IH]; intros p f H; [done|]. cbn [load fold_left]. apply IH.
  cbn [set_fld fld]. case_decide; [by subst|done].
Qed.

Lemma fld_load_in q l : forall p f, In f l -> fld (load q l p) f = fld q f.
Proof.
  induction l as [|g l IH]; intros p f; [done|]. intros [-> |Hin]; cbn [load fold_left]; [|by apply IH].
  apply fld_load_agree. cbn [set_fld fld]. by rewrite decide_True.
Qed.

(** The packet a reader has after the header. *)
Definition loaded (q p : ltn_pes_packet) (skipData : Z) : ltn_pes_packet :=
  load_optional q (load q (timestamp_list q) (load q (map fst flags_table)
    (load q (map fst start_table) (set_fld p skipPayloadParsing skipData)))).

Lemma load_optional_agree q p f :
  f <> previous_PES_packet_CRC -> fld p f = fld q f -> fld (load_optional q p) f = fld q f.
Proof.
  intros Hne H. unfold load_optional.
  assert (H' := fld_load_agree q (when (flag q additional_copy_info_flag) [additional_copy_info]) _ f
    (fld_load_agree q (when (flag q ES_rate_flag) [ES_rate_flag]) p f H)).
  destruct (flag q PES_CRC_flag); [|done]. cbn [set_fld fld]. by rewrite decide_False.
Qed.

Lemma loaded_carried q p skipData f : In f (carried q) -> fld (loaded q p skipData) f = fld q f.
Proof.
  unfold carried. rewrite !in_app_iff. intros [H|[H|[H|H]]].
  1-3: apply load_optional_agree;
    [intros ->; revert H; unfold start_table, flags_table, timestamp_list; repeat case_match; cbn; intuition done|].
  - do 2 apply fld_load_agree. by apply fld_load_in.
  - apply fld_load_agree. by apply fld_load_in.
  - by apply fld_load_in.
  - unfold loaded, load_optional. set (p1 := load q (when (flag q ES_rate_flag) _) _).
    assert (E := fld_load_in q _ p1 f H). destruct (flag q PES_CRC_flag); [|done]. cbn [set_fld fld].
    rewrite decide_False; [done|]. intros ->. revert H. unfold when. case_match; cbn; intuition done.
Qed.

(** Reading a header, then whatever follows it. *)
Lemma parse_header_spec q p rest skipData bs :
  header_ok q -> klbs_wf bs -> unread bs = fields_bits (header_fields q) ++ rest ->
  8 * fld q PES_packet_length <= header_bits q - 48 + Z.of_nat (length rest) ->
  forall (k : parser unit) (other : Z -> parser unit), exists bs',
    (parse_start skipData ;> (id <-- get stream_id ;>
       if negb (plain_stream id)
       then parse_flags ;> parse_timestamps ;> parse_optional ;> parse_extension ;> k
       else other id))%pes {| ps_pkt := p; ps_bs := bs; ps_bits := 0 |} =
    k {| ps_pkt := loaded q p skipData; ps_bs := bs'; ps_bits := header_bits q |} /\
    klbs_wf bs' /\ unread bs' = rest /\ (overrun_late bs -> overrun_late bs').
Proof.
  intros Hok Hwf Hun Hlen k other. assert (Hh := header_fields_length q). destruct Hok.
  unfold header_fields in Hun, Hh. rewrite fields_bits_app, <- app_assoc in Hun.
  rewrite fields_bits_app, length_app in Hh.
  assert (Hst : length (fields_bits (table_fields q start_table)) = 48%nat).
  { apply Nat2Z.inj. rewrite length_fields_bits; [done|].
    repeat (apply List.Forall_cons; [unfold field_ok; cbn [snd]; lia|]); apply List.Forall_nil. }
  destruct (parse_start_spec (8 * fld q PES_packet_length) q p skipData ho_start0 (Z.le_refl _) bs 0 _ Hwf Hun)
    as (b1 & E1 & W1 & U1 & _ & _ & O1). { rewrite length_app. lia. }
  set (p1 := load q (map fst start_table) _) in *.
  assert (Hid : fld p1 stream_id = fld q stream_id) by (apply fld_load_in; cbn; tauto).
  assert (Hfl : forall f, In f (map fst flags_table) ->
    fld (load q (timestamp_list q) (load q (map fst flags_table) p1)) f = fld q f).
  { intros f Hin. apply fld_load_agree. by apply fld_load_in. }
  assert (H2 : runs 0 (parse_flags ;> parse_timestamps ;> parse_optional ;> parse_extension)%pes p1
    (((2, 2) :: table_fields q flags_table) ++ timestamp_fields q ++ optional_fields q ++ []) tt
    (loaded q p skipData) (72 + (timestamp_bits q + (optional_bits q + 0)))).
  { eapply runs_bind; [by apply parse_flags_spec|].
    eapply runs_bind; [apply parse_timestamps_spec; [apply fld_load_in; cbn; tauto|done]|].
    eapply runs_bind; [by apply parse_optional_spec|].
    apply parse_extension_spec. rewrite <- ho_ext0. apply load_optional_agree; [done|apply Hfl; cbn; tauto]. }
  rewrite app_nil_r in H2. destruct (H2 b1 0 rest W1 U1) as (b2 & E2 & W2 & U2 & _ & _ & O2); [lia|].
  exists b2. split; [|split; [done|split; [done|tauto]]]. unfold pbind at 1. rewrite E1. step. unfold pbind at 1, get at 1. step.
  cbn [ps_pkt]. rewrite Hid, ho_stream0. cbn [negb].
  replace (header_bits q) with (0 + (72 + (timestamp_bits q + (optional_bits q + 0))))
    by (unfold header_bits; lia).
  revert E2. unfold pbind. clear.
  destruct (parse_flags _) as [[[[]|] s1]|]; step; [|done|done].
  destruct (parse_timestamps _) as [[[[]|] s2]|]; step; [|done|done].
  destruct (parse_optional _) as [[[[]|] s3]|]; step; [|done|done].
  intros ->. done.
Qed.

Lemma free_of_read buf n :
  0 <= n < 2 ^ 32 -> klbs_get_byte_count_free (klbs_read_set_buffer buf n) = n.
Proof.
  intros Hn. change (u32 (n - 0) = n). rewrite Z.sub_0_r. by apply u32_id.
Qed.

(** A stream that starts with a header and holds the payload to its end. *)
Lemma parse_packed_spec malloc_ok q p d bs :
  header_ok q -> klbs_wf bs -> unread bs = fields_bits (header_fields q) ++ buf_bits d -> bytes d ->
  len d < 2 ^ 31 -> malloc_ok (len d) = true ->
  fld q PES_packet_length = (header_bits q - 48) / 8 + len d \/ fld q PES_packet_length = 0 ->
  exists p' bs',
    ltn_pes_packet_parse malloc_ok p bs 0 = Some (p', bs', header_bits q + 8 * len d) /\
    pdata p' = Some d /\ fld p' dataLengthBytes = len d /\
    (forall f, In f (carried q) -> fld p' f = fld q f) /\
    (d <> [] -> overrun_late bs -> bs_overrun bs' = 0).
Proof.
  intros Hok Hrw Hun Hbd Hmx Hmal Hpl. pose proof (len_nonneg d). destruct (header_bits_aligned q) as [Hhb Hal].
  assert (Hpl' : 8 * fld q PES_packet_length <= header_bits q - 48 + Z.of_nat (length (buf_bits d))).
  { rewrite length_buf_bits. unfold len in Hpl. destruct Hpl as [-> | ->]; zlia. }
  destruct (parse_header_spec q p _ 0 _ Hok Hrw Hun Hpl' (parse_data malloc_ok 0)
    (fun id => if opaque_stream id then parse_opaque malloc_ok
               else if id =? 0xBE then parse_padding else pret tt)) as (b1 & Hh & W1 & U1 & O1).
  assert (Hq : Z.quot (header_bits q - 48) 8 = (header_bits q - 48) / 8) by (apply Z.quot_div_nonneg; lia).
  assert (Hl : fld (loaded q p 0) PES_packet_length = fld q PES_packet_length)
    by (apply loaded_carried; unfold carried; cbn; tauto).
  destruct (parse_data_spec malloc_ok d (loaded q p 0) b1 (header_bits q) W1 Hbd U1 Hmal) as (b2 & Hp2 & O2);
    [lia|lia|rewrite Hl, Hq; destruct Hpl; [by left|right; split; [done|zlia]]|].
  match type of Hp2 with _ = Some (_, {| ps_pkt := ?p'; ps_bs := _; ps_bits := _ |}) => exists p', b2 end.
  split; [|split; [reflexivity|split; [reflexivity|split]]].
  - unfold ltn_pes_packet_parse, klbs_get_byte_count_free, klbs_get_buffer_size, klbs_get_byte_count.
    assert (Lu := length_unread bs Hrw). rewrite Hun, length_app, length_buf_bits, Nat2Z.inj_add, header_fields_length in Lu.
    destruct Hrw. rewrite u32_id, (proj2 (Z.ltb_ge _ _)) by (unfold len in *; lia).
    unfold parse_body. rewrite Hh, Hp2. step. cbn [ps_pkt ps_bs ps_bits]. by rewrite (Z.mul_comm (len d) 8).
  - intros f Hin. cbn [set_data set_fld fld].
    assert (f <> dataLengthBytes).
    { intros ->. revert Hin. unfold carried, start_table, flags_table, timestamp_list, when.
      repeat case_match; cbn; intuition done. }
    rewrite !decide_False by done. by apply loaded_carried.
  - intros Hd Ho. rewrite O2. destruct (O1 Ho) as [|E]; [done|]. pose proof (length_unread b1 W1) as L.
    rewrite U1, length_buf_bits in L. destruct W1. destruct d; [done|]. cbn [length] in L. lia.
Qed.

(** The bytes of a packed packet, as a stream to read. *)
Lemma packed_stream q d buf :
  header_ok q -> pdata q = Some d -> fld q dataLengthBytes = len d -> bytes d ->
  bytes buf -> len buf < 2 ^ 31 -> header_bits q + 8 * len d <= 8 * len buf ->
  exists bs, ltn_pes_packet_pack q (klbs_write_set_buffer buf (len buf)) = Some (bs, header_bits q + 8 * len d) /\
    klbs_wf bs /\ 8 * klbs_get_byte_count bs = header_bits q + 8 * len d /\
    klbs_wf (klbs_read_set_buffer (bs_buf bs) (klbs_get_byte_count bs)) /\
    unread (klbs_read_set_buffer (bs_buf bs) (klbs_get_byte_count bs)) = fields_bits (header_fields q) ++ buf_bits d.
Proof.
  intros Hok Hd Hn Hbd Hbb Hmx Hroom. pose proof (len_nonneg d). pose proof (len_nonneg buf).
  destruct (header_bits_aligned q) as [Hhb Hal].
  assert (Hwf := set_buffer_wf buf (len buf) Hbb ltac:(lia) ltac:(lia)).
  destruct (pack_spec q d _ Hok Hd Hn Hwf) as (bs & Hpk & Hw & Hb).
  { rewrite written_set_buffer. cbn [length bs_buflen klbs_write_set_buffer]. lia. }
  rewrite written_set_buffer in Hb. cbn [app] in Hb.
  assert (L := length_written bs Hw). rewrite Hb, length_app, length_buf_bits, Nat2Z.inj_add, header_fields_length in L.
  assert (Hru := wf_reg_used bs Hw).
  assert (E : bs_reg_used bs = 0 /\ 8 * bs_buflen_used bs = header_bits q + 8 * len d).
  { unfold len. assert (Hq := Hal). clear - L Hru Hq. zlia. }
  destruct E as [E0 E8]. exists bs. split; [done|]. split; [done|]. split; [done|].
  split; [unfold klbs_get_byte_count; destruct Hw; apply set_buffer_wf; [done|lia|lia]|].
  assert (Hun := unread_written bs Hw E0). by rewrite Hb in Hun.
Qed.

(** ** Properties *)

(** C7: what [ltn_pes_packet_pack] writes [ltn_pes_packet_parse] reads back:
    for a packet with an optional header (a stream ID that has one), no ESCR and
    no extension, whose length field is exact or 0 (unbounded), packing into any
    large enough buffer produces the counted number of bytes, and parsing them,
    whatever the previous contents of the packet, returns the same count, the
    same payload, the start code, stream ID and length, the flags and the header
    length of the optional header, the time stamps that are flagged and the
    additional copy info ([carried]).  The ES rate, the trick mode byte and the
    previous CRC are not among them: the packer writes no values of the packet
    for them ([pes_es_rate_lost]); an ESCR is written with a byte too few
    ([pes_escr_width]). *)
Theorem pes_roundtrip (malloc_ok : Z -> bool) (q p : ltn_pes_packet) (d buf : list Z) :
  header_ok q -> pdata q = Some d -> fld q dataLengthBytes = len d -> bytes d ->
  bytes buf -> len buf < 2 ^ 31 -> header_bits q + 8 * len d <= 8 * len buf ->
  malloc_ok (len d) = true ->
  fld q PES_packet_length = (header_bits q - 48) / 8 + len d \/ fld q PES_packet_length = 0 ->
  exists bs p' bs',
    ltn_pes_packet_pack q (klbs_write_set_buffer buf (len buf)) = Some (bs, header_bits q + 8 * len d) /\
    8 * klbs_get_byte_count bs = header_bits q + 8 * len d /\
    ltn_pes_packet_parse malloc_ok p (klbs_read_set_buffer (bs_buf bs) (klbs_get_byte_count bs)) 0
      = Some (p', bs', header_bits q + 8 * len d) /\
    pdata p' = Some d /\ fld p' dataLengthBytes = len d /\
    (forall f, In f (carried q) -> fld p' f = fld q f).
Proof.
  intros Hok Hd Hn Hbd Hbb Hmx Hroom Hmal Hpl. pose proof (len_nonneg d). destruct (header_bits_aligned q) as [Hhb Hal].
  destruct (packed_stream q d buf Hok Hd Hn Hbd Hbb Hmx Hroom) as (bs & Hpk & Hw & E8 & Hrw & Hun).
  destruct (parse_packed_spec malloc_ok q p d _ Hok Hrw Hun Hbd) as (p' & bs' & Hp & Hd' & Hn' & Hc & _); [lia|done|done|].
  exists bs, p', bs'. split; [done|]. split; [done|]. by split.
Qed.

(** A packet with the given fields. *)
Definition pes_of (l : list (pes_field * Z)) (d : list Z) : ltn_pes_packet :=
  set_data (fold_left (fun p fv => set_fld p fv.1 fv.2) l ltn_pes_packet_alloc) (Some d).

(** A video packet with both time stamps, an ES rate flag and copy info. *)
Definition sample_pes : ltn_pes_packet :=
  pes_of [(packet_start_code_prefix, 1); (stream_id, 0xe0); (PES_packet_length, 22);
          (PES_priority, 1); (PTS_DTS_flags, 3); (ES_rate_flag, 1); (additional_copy_info_flag, 1);
          (additional_copy_info, 0x55); (PES_header_data_length, 14);
          (PTS, 8589934591); (DTS, 5000000000); (dataLengthBytes, 5)] [1; 2; 3; 4; 255].

Lemma pes_roundtrip_witness :
  exists bs p' bs',
    ltn_pes_packet_pack sample_pes (klbs_write_set_buffer (replicate 64 0) 64) = Some (bs, 224) /\
    8 * klbs_get_byte_count bs = 224 /\
    ltn_pes_packet_parse (fun _ => true) ltn_pes_packet_alloc
      (klbs_read_set_buffer (bs_buf bs) (klbs_get_byte_count bs)) 0 = Some (p', bs', 224) /\
    pdata p' = Some [1; 2; 3; 4; 255] /\ fld p' dataLengthBytes = 5 /\
    (forall f, In f (carried sample_pes) -> fld p' f = fld sample_pes f).
Proof.
  apply (pes_roundtrip (fun _ => true) sample_pes ltn_pes_packet_alloc [1; 2; 3; 4; 255] (replicate 64 0)).
  - constructor; try done; repeat (apply List.Forall_cons; [by vm_compute|]); apply List.Forall_nil.
  - reflexivity.
  - reflexivity.
  - by apply bytes_check.
  - by apply bytes_check.
  - reflexivity.
  - by vm_compute.
  - reflexivity.
  - left. reflexivity.
Defined.

(** packets of the opaque streams (private_stream_2, ECM, EMM, program
    stream directory, DSM-CC, H.222.1 type E) are six bytes of header and the
    payload: packing and parsing returns the payload and the length field,
    provided the packet has at least eight bytes, which the parser wants to
    see first; the count of payload bytes is left unset. *)
Theorem pes_opaque_roundtrip (malloc_ok : Z -> bool) (q p : ltn_pes_packet) (d buf : list Z) :
  table_ok q start_table -> plain_stream (fld q stream_id) = true -> opaque_stream (fld q stream_id) = true ->
  pdata q = Some d -> fld q PES_packet_length = len d -> bytes d -> 2 <= len d ->
  bytes buf -> len buf < 2 ^ 31 -> 6 + len d <= len buf -> malloc_ok (len d) = true ->
  exists bs p' bs',
    ltn_pes_packet_pack q (klbs_write_set_buffer buf (len buf)) = Some (bs, 8 * len d) /\
    klbs_get_byte_count bs = 6 + len d /\
    ltn_pes_packet_parse malloc_ok p (klbs_read_set_buffer (bs_buf bs) (klbs_get_byte_count bs)) 0
      = Some (p', bs', 8 * len d) /\
    pdata p' = Some d /\ fld p' dataLengthBytes = fld p dataLengthBytes /\
    (forall f, In f (map fst start_table) -> fld p' f = fld q f).
Proof.
  intros Hst Hpl Hop Hd Hn Hbd Hd2 Hbb Hmx Hroom Hmal. pose proof (len_nonneg buf).
  assert (Hwf := set_buffer_wf buf (len buf) Hbb ltac:(lia) ltac:(lia)).
  assert (Hstart : length (fields_bits (table_fields q start_table)) = 48%nat).
  { apply Nat2Z.inj. rewrite length_fields_bits; [done|].
    repeat (apply List.Forall_cons; [unfold field_ok; cbn [snd]; lia|]); apply List.Forall_nil. }
  assert (Hpk : exists bs, ltn_pes_packet_pack q (klbs_write_set_buffer buf (len buf)) = Some (bs, 8 * len d) /\
    klbs_wf bs /\ written bs = fields_bits (table_fields q start_table) ++ buf_bits d).
  { unfold ltn_pes_packet_pack. rewrite Hpl, Hop, Hd, Hn. cbn [negb].
    match goal with |- context [?w (klbs_write_set_buffer _ _, 0)] =>
      assert (Hw : writes w (table_fields q start_table ++ data_fields d) (8 * len d)) end.
    { eapply writes_eq; [do 3 (apply writes_seq; [apply writes_bits; lia|]);
        apply (writes_data (Z.to_nat (len d)) 0 d); lia|rewrite <- Hn; reflexivity|lia]. }
    destruct (Hw _ 0 Hwf) as (bs & H1 & H2 & H3 & _).
    { rewrite fields_bits_app, !length_app, data_fields_bits, Hstart, length_buf_bits, written_set_buffer.
      cbn [length bs_buflen klbs_write_set_buffer]. unfold len in *. lia. }
    exists bs. rewrite fields_bits_app, data_fields_bits, written_set_buffer in H3. done. }
  destruct Hpk as (bs & Hpk & Hw & Hb). assert (L := length_written bs Hw).
  rewrite Hb, length_app, Hstart, length_buf_bits in L. assert (Hru := wf_reg_used bs Hw).
  assert (E : bs_reg_used bs = 0 /\ bs_buflen_used bs = 6 + len d) by (unfold len; lia).
  destruct E as [E0 E8]. exists bs.
  assert (Hrw : klbs_wf (klbs_read_set_buffer (bs_buf bs) (bs_buflen_used bs))).
  { destruct Hw. apply set_buffer_wf; [done|lia|lia]. }
  assert (Hun := unread_written bs Hw E0). rewrite Hb in Hun.
  destruct (parse_start_spec (8 * len d) q p 0 Hst ltac:(lia) _ 0 _ Hrw Hun) as (b1 & E1 & W1 & U1 & _).
  { rewrite length_buf_bits. unfold len. lia. }
  set (p1 := load q (map fst start_table) _) in *.
  assert (Hf : forall f, In f (map fst start_table) -> fld p1 f = fld q f) by (intros; by apply fld_load_in).
  destruct (payload_bytes_spec d p1 b1 (0 + 0) W1 Hbd U1) as (Hfree & b2 & Hp2 & _).
  exists (set_data p1 (Some d)), b2. split; [done|]. split; [done|].
  split; [|split; [done|split; [|exact Hf]]].
  - unfold ltn_pes_packet_parse, klbs_get_byte_count. destruct Hw.
    rewrite free_of_read, (proj2 (Z.ltb_ge _ _)) by lia.
    unfold parse_body, pbind at 1. rewrite E1. step. unfold pbind, get. step. cbn [ps_pkt].
    rewrite !Hf, Hpl, Hop by (cbn; tauto). cbn [negb].
    unfold parse_opaque, check_packet_length, pbind, free_count, get, pwhen, pret. cbn [mbind option_bind ps_bs ps_pkt].
    rewrite Hfree, i32_id, Z.max_r, Hf, Hn, Z.ltb_irrefl by (lia || (cbn; tauto)). step. cbn [ps_pkt].
    rewrite Hf, Hn, Hmal, Hp2 by (cbn; tauto). step. unfold put_data. cbn [ps_pkt ps_bs ps_bits mbind option_bind].
    by rewrite (Z.mul_comm (len d) 8).
  - unfold p1. cbn [load fold_left map fst start_table set_data set_fld fld].
    by rewrite !decide_False by done.
Qed.

Lemma pes_opaque_roundtrip_witness :
  exists bs p' bs',
    ltn_pes_packet_pack (pes_of [(packet_start_code_prefix, 1); (stream_id, 0xbf); (PES_packet_length, 3)] [7; 8; 9])
      (klbs_write_set_buffer (replicate 16 0) 16) = Some (bs, 24) /\
    klbs_get_byte_count bs = 9 /\
    ltn_pes_packet_parse (fun _ => true) ltn_pes_packet_alloc
      (klbs_read_set_buffer (bs_buf bs) (klbs_get_byte_count bs)) 0 = Some (p', bs', 24) /\
    pdata p' = Some [7; 8; 9] /\ fld p' dataLengthBytes = 0 /\
    (forall f, In f (map fst start_table) -> fld p' f =
       fld (pes_of [(packet_start_code_prefix, 1); (stream_id, 0xbf); (PES_packet_length, 3)] [7; 8; 9]) f).
Proof.
  apply (pes_opaque_roundtrip (fun _ => true)
    (pes_of [(packet_start_code_prefix, 1); (stream_id, 0xbf); (PES_packet_length, 3)] [7; 8; 9])
    ltn_pes_packet_alloc [7; 8; 9] (replicate 16 0)).
  - repeat (apply List.Forall_cons; [by vm_compute|]); apply List.Forall_nil.
  - reflexivity.
  - reflexivity.
  - reflexivity.
  - reflexivity.
  - by apply bytes_check.
  - by vm_compute.
  - by apply bytes_check.
  - reflexivity.
  - by vm_compute.
  - reflexivity.
Defined.

(** *** What modelling showed *)

(** A header that announces a PTS at the end of the buffer is read past it. *)
Lemma pes_parse_overreads :
  ltn_pes_packet_parse (fun _ => true) ltn_pes_packet_alloc
    (klbs_read_set_buffer [0; 0; 1; 0xe0; 0; 0; 0x80; 0x80; 5] 9) 0 = None.
Proof. by vm_compute. Qed.

(** The ESCR field is written with 40 bits, counted and read with 48: the
    first byte of the payload is lost. *)
Lemma pes_escr_width :
  let q := pes_of [(packet_start_code_prefix, 1); (stream_id, 0xe0); (ESCR_flag, 1); (dataLengthBytes, 2)] [1; 2] in
  (r ← ltn_pes_packet_pack q (klbs_write_set_buffer (replicate 64 0) 64);
   '(p, _, _) ← ltn_pes_packet_parse (fun _ => true) ltn_pes_packet_alloc
     (klbs_read_set_buffer (bs_buf r.1) (klbs_get_byte_count r.1)) 0;
   Some (r.2, klbs_get_byte_count r.1, pdata p)) = Some (136, 16, Some [2]).
Proof. by vm_compute. Qed.

(** The 22 bits of the ES rate replace the flag; the rate itself is lost. *)
Lemma pes_es_rate_lost :
  let q := pes_of [(packet_start_code_prefix, 1); (stream_id, 0xe0); (ES_rate_flag, 1); (ES_rate, 777);
                   (dataLengthBytes, 1)] [1] in
  (r ← ltn_pes_packet_pack q (klbs_write_set_buffer (replicate 64 0) 64);
   '(p, _, _) ← ltn_pes_packet_parse (fun _ => true) ltn_pes_packet_alloc
     (klbs_read_set_buffer (bs_buf r.1) (klbs_get_byte_count r.1)) 0;
   Some (fld p ES_rate_flag, fld p ES_rate)) = Some (1, 0).
Proof. by vm_compute. Qed.
