(* ===== verification/Clock.v ===== *)
(** * Clocks: src/clocks.c, libltntstools/clocks.h and libltntstools/timeval.h

    Two clock models.  [ltntstools_clock_s] follows a tick counter that wraps
    and accumulates a monotonic time and its drift from the wall clock;
    [ltntstools_corrected_clock_s] extends a 33-bit time stamp to 64 bits.

    Signed 64-bit arithmetic goes through [i64_ok]: an overflow is undefined
    behaviour, the result [None].  [gettimeofday] is an input of the operations
    that call it.  ltntstools_clock_compare computes in [long double] and is
    not modelled. *)
From Stdlib Require Import ZArith Lia Bool String.
From stdpp Require Import base numbers list option.
From coqutil Require Import Datatypes.RecordSettersUsingExistingGetters.
From S2P Require Import Prelude Ts.

(** ** timeval.h *)

Record timeval := Timeval { tv_sec : Z; tv_usec : Z }.

Definition i64_ok (x : Z) : option Z :=
  if (-9223372036854775808 <=? x) && (x <? 9223372036854775808) then Some x else None.

Definition ltn_timeval_to_ms (tv : timeval) : option Z :=
  s ← i64_ok (tv_sec tv * 1000);
  i64_ok (s + Z.quot (tv_usec tv) 1000).

Definition ltn_timeval_to_us (tv : timeval) : option Z :=
  s ← i64_ok (tv_sec tv * 1000000);
  i64_ok (s + tv_usec tv).

Definition ltn_timeval_subtract_ms (x y : timeval) : option Z :=
  a ← ltn_timeval_to_ms x; b ← ltn_timeval_to_ms y; i64_ok (a - b).

Definition ltn_timeval_subtract_us (x y : timeval) : option Z :=
  a ← ltn_timeval_to_us x; b ← ltn_timeval_to_us y; i64_ok (a - b).

(** ** The wrapping clock *)

Inductive ltntstools_clock_type_e :=
| CLOCK_TYPE_UNKNOWN
| CLOCK_TYPE_PCR
| CLOCK_TYPE_PTS
| CLOCK_TYPE_DTS
| CLOCK_TYPE_RTP
| CLOCK_TYPE_NTP.

Record ltntstools_clock_s := {
  establishedTimebase : Z;
  establishedWT : Z;
  type : ltntstools_clock_type_e;
  name : string;
  ticks_per_second : Z;
  currentTime_ticks : Z;
  monotonicTime_ticks : Z;
  monotonicReference_ticks : Z;
  clockWrapOccurences : Z;
  backwardJumpUnder500msCount : Z;
  forwardJumpOver200msCount : Z;
  discontinuityCount : Z;
  pendingDiscontinuity : Z;
  establishedTime_ticks : Z;
  establishedWalltime : timeval;
  drift_us : Z;
  drift_us_lwm : Z;
  drift_us_hwm : Z;
  drift_us_max : Z;
  clockWrapValue : Z
}.

Definition ltntstools_clock_type_name (t : ltntstools_clock_type_e) : string :=
  match t with
  | CLOCK_TYPE_PCR => "PCR"
  | CLOCK_TYPE_PTS => "PTS"
  | CLOCK_TYPE_DTS => "DTS"
  | CLOCK_TYPE_RTP => "RTP"
  | CLOCK_TYPE_NTP => "NTP"
  | CLOCK_TYPE_UNKNOWN => "UNKNOWN"
  end.

Definition ltntstools_clock_establish_timebase (clk : ltntstools_clock_s) (hz : Z)
    : ltntstools_clock_s :=
  clk <| establishedTimebase := 1 |>
      <| ticks_per_second := hz |>
      <| establishedTime_ticks := 0 |>
      <| currentTime_ticks := 0 |>
      <| monotonicTime_ticks := 0 |>
      <| monotonicReference_ticks := 0 |>
      <| clockWrapOccurences := 0 |>
      <| backwardJumpUnder500msCount := 0 |>
      <| forwardJumpOver200msCount := 0 |>
      <| discontinuityCount := 0 |>
      <| pendingDiscontinuity := 0 |>
      <| clockWrapValue :=
           if hz =? 90000 then MAX_PTS_VALUE
           else if hz =? 27000000 then MAX_SCR_VALUE
           else Z.shiftl 1 32 |>.

(** [snprintf] into the 32-byte field keeps 31 characters. *)
Definition ltntstools_clock_set_metadata (clk : ltntstools_clock_s)
    (t : ltntstools_clock_type_e) (n : option string) : ltntstools_clock_s :=
  let clk := clk <| type := t |> in
  let n := match n with
           | None | Some EmptyString => ltntstools_clock_type_name t
           | Some n => n
           end in
  let clk := clk <| name := substring 0 31 n |> in
  match t with
  | CLOCK_TYPE_PCR => ltntstools_clock_establish_timebase clk 27000000
  | CLOCK_TYPE_PTS | CLOCK_TYPE_DTS | CLOCK_TYPE_RTP => ltntstools_clock_establish_timebase clk 90000
  | CLOCK_TYPE_NTP | CLOCK_TYPE_UNKNOWN => clk
  end.

Definition ltntstools_clock_initialize : ltntstools_clock_s :=
  ltntstools_clock_set_metadata
    {| establishedTimebase := 0; establishedWT := 0; type := CLOCK_TYPE_UNKNOWN; name := "";
       ticks_per_second := 0; currentTime_ticks := 0; monotonicTime_ticks := 0;
       monotonicReference_ticks := 0; clockWrapOccurences := 0;
       backwardJumpUnder500msCount := 0; forwardJumpOver200msCount := 0;
       discontinuityCount := 0; pendingDiscontinuity := 0; establishedTime_ticks := 0;
       establishedWalltime := Timeval 0 0; drift_us := 0; drift_us_lwm := 0;
       drift_us_hwm := 0; drift_us_max := 0; clockWrapValue := 0 |}
    CLOCK_TYPE_UNKNOWN None.

Definition ltntstools_clock_get_type (clk : option ltntstools_clock_s) : ltntstools_clock_type_e :=
  match clk with None => CLOCK_TYPE_UNKNOWN | Some clk => type clk end.

Definition ltntstools_clock_get_name (clk : option ltntstools_clock_s) : string :=
  match clk with
  | None => ltntstools_clock_type_name CLOCK_TYPE_UNKNOWN
  | Some clk =>
      match name clk with
      | EmptyString => ltntstools_clock_type_name CLOCK_TYPE_UNKNOWN
      | n => n
      end
  end.

Definition ltntstools_clock_establish_wallclock (now : timeval) (clk : ltntstools_clock_s)
    (ticks : Z) : ltntstools_clock_s :=
  clk <| establishedWT := 1 |>
      <| establishedWalltime := now |>
      <| establishedTime_ticks := ticks |>
      <| currentTime_ticks := ticks |>
      <| monotonicTime_ticks := ticks |>
      <| monotonicReference_ticks := ticks |>
      <| clockWrapOccurences := 0 |>
      <| backwardJumpUnder500msCount := 0 |>
      <| forwardJumpOver200msCount := 0 |>
      <| pendingDiscontinuity := 0 |>.

Definition ltntstools_clock_compute_delta (clk : ltntstools_clock_s) (ticksnow ticksthen : Z)
    : option Z :=
  if ticksthen <=? ticksnow then i64_ok (ticksnow - ticksthen)
  else x ← i64_ok (clockWrapValue clk - ticksthen); i64_ok (x + ticksnow).

(** The caller announced the discontinuity: start again from [ticks]. *)
Definition clock_rebase (now : timeval) (clk : ltntstools_clock_s) (ticks : Z)
    : ltntstools_clock_s :=
  clk <| pendingDiscontinuity := 0 |>
      <| clockWrapOccurences := 0 |>
      <| currentTime_ticks := ticks |>
      <| monotonicTime_ticks := ticks |>
      <| monotonicReference_ticks := ticks |>
      <| establishedTime_ticks := ticks |>
      <| establishedWalltime := now |>
      <| establishedWT := 1 |>.

(** The monotonic time and the jump counters, after the wrap test. *)
Definition clock_advance (clk : ltntstools_clock_s) (wrapped : bool) (ticks : Z)
    : option ltntstools_clock_s :=
  if wrapped && (0 <? clockWrapValue clk) then
    d ← ltntstools_clock_compute_delta clk ticks (monotonicReference_ticks clk);
    m ← i64_ok (monotonicTime_ticks clk + d);
    Some (clk <| monotonicTime_ticks := m |> <| monotonicReference_ticks := ticks |>)
  else if monotonicReference_ticks clk <? ticks then
    d ← i64_ok (ticks - monotonicReference_ticks clk);
    let clk := if (0 <? ticks_per_second clk) && (Z.quot (ticks_per_second clk) 5 <? d)
               then clk <| forwardJumpOver200msCount := u64 (forwardJumpOver200msCount clk + 1) |>
               else clk in
    m ← i64_ok (monotonicTime_ticks clk + d);
    Some (clk <| monotonicTime_ticks := m |> <| monotonicReference_ticks := ticks |>)
  else if (ticks <? currentTime_ticks clk) && (0 <? ticks_per_second clk) then
    d ← i64_ok (currentTime_ticks clk - ticks);
    Some (if d <? Z.quot (ticks_per_second clk) 2
          then clk <| backwardJumpUnder500msCount := u64 (backwardJumpUnder500msCount clk + 1) |>
          else clk)
  else Some clk.

Definition ltntstools_clock_set_ticks (now : timeval) (clk : ltntstools_clock_s) (ticks : Z)
    : option ltntstools_clock_s :=
  if negb (pendingDiscontinuity clk =? 0) then Some (clock_rebase now clk ticks) else
  let wrapped := ticks <? Z.quot (currentTime_ticks clk) 50 in
  clk ← (if wrapped
         then n ← i64_ok (clockWrapOccurences clk + 1); Some (clk <| clockWrapOccurences := n |>)
         else Some clk);
  clk ← clock_advance clk wrapped ticks;
  Some (clk <| currentTime_ticks := ticks |>).

Definition ltntstools_clock_mark_discontinuity (clk : ltntstools_clock_s) : ltntstools_clock_s :=
  clk <| discontinuityCount := u64 (discontinuityCount clk + 1) |>
      <| pendingDiscontinuity := 1 |>.

Definition ltntstools_clock_get_discontinuity_count (clk : option ltntstools_clock_s) : Z :=
  match clk with None => 0 | Some clk => discontinuityCount clk end.

(** The two loops of ltntstools_clock_add_ticks. *)
Fixpoint wrap_down (fuel : nat) (clk : ltntstools_clock_s) : option ltntstools_clock_s :=
  match fuel with
  | O => None
  | S fuel' =>
      if clockWrapValue clk <=? currentTime_ticks clk then
        c ← i64_ok (currentTime_ticks clk - clockWrapValue clk);
        r ← i64_ok (monotonicReference_ticks clk - clockWrapValue clk);
        n ← i64_ok (clockWrapOccurences clk + 1);
        wrap_down fuel' (clk <| currentTime_ticks := c |> <| monotonicReference_ticks := r |>
                             <| clockWrapOccurences := n |>)
      else Some clk
  end.

Fixpoint wrap_up (fuel : nat) (clk : ltntstools_clock_s) : option ltntstools_clock_s :=
  match fuel with
  | O => None
  | S fuel' =>
      if currentTime_ticks clk <? 0 then
        c ← i64_ok (currentTime_ticks clk + clockWrapValue clk);
        r ← i64_ok (monotonicReference_ticks clk + clockWrapValue clk);
        let n := if 0 <? clockWrapOccurences clk
                 then clockWrapOccurences clk - 1 else clockWrapOccurences clk in
        wrap_up fuel' (clk <| currentTime_ticks := c |> <| monotonicReference_ticks := r |>
                           <| clockWrapOccurences := n |>)
      else Some clk
  end.

(** Each turn of a loop moves the time by a wrap value towards the range. *)
Definition wrap_fuel (clk : ltntstools_clock_s) : nat :=
  S (Z.to_nat (Z.abs (currentTime_ticks clk) / clockWrapValue clk + 1)).

Definition ltntstools_clock_add_ticks (clk : ltntstools_clock_s) (ticks : Z)
    : option ltntstools_clock_s :=
  m ← (if 0 <? ticks then i64_ok (monotonicTime_ticks clk + ticks)
       else Some (monotonicTime_ticks clk));
  c ← i64_ok (currentTime_ticks clk + ticks);
  r ← i64_ok (monotonicReference_ticks clk + ticks);
  let clk := clk <| monotonicTime_ticks := m |> <| currentTime_ticks := c |>
                 <| monotonicReference_ticks := r |> in
  if 0 <? clockWrapValue clk then
    clk ← wrap_down (wrap_fuel clk) clk;
    wrap_up (wrap_fuel clk) clk
  else Some clk.

(** The new drift and its watermarks. *)
Definition clock_set_drift (clk : ltntstools_clock_s) (d : Z) : option ltntstools_clock_s :=
  let clk := clk <| drift_us := d |> in
  let clk := if drift_us_hwm clk <? d then clk <| drift_us_hwm := d |> else clk in
  let clk := if d <=? drift_us_lwm clk then clk <| drift_us_lwm := d |> else clk in
  m ← i64_ok (drift_us_hwm clk - drift_us_lwm clk);
  Some (clk <| drift_us_max := m |>).

Definition ltntstools_clock_get_drift_us (now : timeval) (clk : ltntstools_clock_s)
    : option (ltntstools_clock_s * Z) :=
  if establishedWT clk =? 0 then Some (clk, 0) else
  elapsedWT ← ltn_timeval_subtract_us now (establishedWalltime clk);
  ticks ← i64_ok (monotonicTime_ticks clk - establishedTime_ticks clk);
  us ← i64_ok (ticks * 1000000);
  if ticks_per_second clk =? 0 then None else
  tickTime ← i64_ok (Z.quot us (ticks_per_second clk));
  d ← i64_ok (tickTime - elapsedWT);
  clk ← clock_set_drift clk d;
  Some (clk, d).

Definition ltntstools_clock_get_drift_ms (now : timeval) (clk : ltntstools_clock_s)
    : option (ltntstools_clock_s * Z) :=
  '(clk, d) ← ltntstools_clock_get_drift_us now clk; Some (clk, Z.quot d 1000).

(** ** The corrected clock *)

Record ltntstools_corrected_clock_s := {
  initialized : Z;
  clkMaxTicks : Z;
  lastTickValue : Z;
  unwrapped : Z;
  correctedClk : Z;
  clk_bits : Z;
  clk_mod : Z;
  clk_mask : Z;
  clk_half : Z
}.

Definition JITTER_MAX : Z := Z.quot 90000 2.

Definition pts33_signed_delta (ctx : ltntstools_corrected_clock_s) (curr prev : Z) : option Z :=
  let a := Z.land curr (clk_mask ctx) in
  let b := Z.land prev (clk_mask ctx) in
  let diff := Z.land (u64 (a - b)) (clk_mask ctx) in
  if negb (Z.land diff (clk_half ctx) =? 0) then i64_ok (i64 diff - i64 (clk_mod ctx))
  else Some (i64 diff).

Definition ltntstools_corrected_clock_init (ctx : ltntstools_corrected_clock_s) (hz : Z)
    : ltntstools_corrected_clock_s * Z :=
  if hz =? 90000 then
    let ctx := ctx <| clk_bits := 33 |> in
    let ctx := ctx <| clkMaxTicks := u64 (Z.shiftl 1 (clk_bits ctx)) |> in
    let ctx := ctx <| clk_mod := u64 (Z.shiftl 1 (clk_bits ctx)) |> in
    let ctx := ctx <| clk_mask := u64 (clk_mod ctx - 1) |> in
    let ctx := ctx <| clk_half := u64 (Z.shiftl 1 (u64 (clk_bits ctx - 1))) |> in
    (ctx <| initialized := 1 |> <| lastTickValue := 0 |> <| unwrapped := 0 |>
         <| correctedClk := 0 |>, 0)
  else (ctx, -1).

(** The clamp at the end of ltntstools_corrected_clock_update. *)
Definition corrected_clamp (ctx : ltntstools_corrected_clock_s) (p33 : Z)
    : option (ltntstools_corrected_clock_s * Z) :=
  if unwrapped ctx <? 0 then
    Some (ctx <| correctedClk := p33 |> <| unwrapped := i64 p33 |>, -1)
  else
    late ← i64_ok (i64 (correctedClk ctx) - unwrapped ctx);
    if JITTER_MAX <? late then Some (ctx, 0)
    else if correctedClk ctx <? u64 (unwrapped ctx)
    then Some (ctx <| correctedClk := u64 (unwrapped ctx) |>, 0)
    else Some (ctx, 0).

Definition ltntstools_corrected_clock_update (ctx : option ltntstools_corrected_clock_s) (ticks : Z)
    : option (option ltntstools_corrected_clock_s * Z) :=
  match ctx with
  | None => Some (None, -1)
  | Some ctx =>
      if initialized ctx =? 0 then Some (Some ctx, -1) else
      let p33 := Z.land (u64 ticks) (clk_mask ctx) in
      if initialized ctx =? 0 then
        Some (Some (ctx <| initialized := 1 |> <| lastTickValue := p33 |>
                        <| unwrapped := i64 p33 |> <| correctedClk := u64 (i64 p33) |>), 0)
      else
      d ← pts33_signed_delta ctx p33 (lastTickValue ctx);
      un ← i64_ok (unwrapped ctx + d);
      '(ctx, ret) ← corrected_clamp (ctx <| unwrapped := un |>) p33;
      Some (Some (ctx <| lastTickValue := p33 |>), ret)
  end.

Definition ltntstools_corrected_clock_unwrapped (ctx : option ltntstools_corrected_clock_s) : Z :=
  match ctx with
  | None => 0
  | Some ctx => if initialized ctx =? 0 then 0 else u64 (unwrapped ctx)
  end.

(** ** Signed arithmetic that does not overflow *)

Lemma i64_ok_Some x : -9223372036854775808 <= x < 9223372036854775808 -> i64_ok x = Some x.
Proof. intros H. unfold i64_ok. by zdec. Qed.


(** A generous range that additions of two members do not leave. *)
Definition calm (x : Z) : Prop := -2 ^ 62 <= x < 2 ^ 62.

(** Evaluate the checked operations of the goal that cannot overflow. *)
Ltac iok :=
  repeat (match goal with
          | |- context [i64_ok ?e] => rewrite (i64_ok_Some e) by (unfold calm in *; lia)
          end; cbn [mbind option_bind]).

(** Compute projections of updated records. *)
Ltac rsimpl := cbn; cbv beta delta [const].

(** ** The wrapping clock follows the time *)

(** A run of the handler for every tick value received. *)
Fixpoint clock_run (clk : ltntstools_clock_s) (l : list (timeval * Z)) : option ltntstools_clock_s :=
  match l with
  | [] => Some clk
  | (now, ticks) :: l => clk ← ltntstools_clock_set_ticks now clk ticks; clock_run clk l
  end.

(** [clk] shows time [T] of a counter with period [P]; its wrap value is
    [P - e]. *)
Record tracks (P e : Z) (clk : ltntstools_clock_s) (T : Z) : Prop := {
  tr_pending : pendingDiscontinuity clk = 0;
  tr_wrap : clockWrapValue clk = P - e;
  tr_cur : currentTime_ticks clk = T mod P;
  tr_ref : monotonicReference_ticks clk = T mod P;
  tr_mono : monotonicTime_ticks clk = T - e * (T / P);
  tr_occ : clockWrapOccurences clk = T / P;
  tr_back : backwardJumpUnder500msCount clk = 0
}.

Lemma tracks_step P e clk T now T' :
  50 <= P <= 2 ^ 42 -> 0 <= e <= 1 -> 0 <= T <= T' -> T' < 2 ^ 62 -> 50 * (T' - T) < P ->
  tracks P e clk T ->
  exists clk', ltntstools_clock_set_ticks now clk (T' mod P) = Some clk' /\ tracks P e clk' T'.
Proof.
  intros HP He HT HT' Hd [Hp Hw Hc Hr Hm Ho Hb].
  assert (0 <= T mod P < P /\ 0 <= T' mod P < P) as [Hx Hy] by (split; apply Z.mod_pos_bound; lia).
  pose proof (Z.div_mod T P ltac:(lia)). pose proof (Z.div_mod T' P ltac:(lia)).
  unfold ltntstools_clock_set_ticks, clock_advance, ltntstools_clock_compute_delta.
  rewrite Hp, Hc. cbn [negb Z.eqb]. cbv beta iota.
  remember (T / P) as q eqn:Hq. remember (T' / P) as q' eqn:Hq'.
  remember (T mod P) as r eqn:Hr0. remember (T' mod P) as r' eqn:Hr'.
  assert (q' = q /\ T' - T = r' - r \/ q' = q + 1 /\ T' - T = r' - r + P) as [[Eq Hrr]|[Eq Hrr]].
  { assert (-1 < q' - q < 2) as Hqq by (split; nia).
    destruct (Z.eq_dec q' q); [left; subst q'; split; [done|lia]|right]. split; [lia|]. nia. }
  all: assert (0 <= q) by nia; assert (0 <= e * q <= q) by nia; assert (q <= T) by nia.
  all: rewrite Z.quot_div_nonneg by lia.
  - rewrite (proj2 (Z.ltb_ge r' _)) by zlia.
    cbn [mbind option_bind andb]. rewrite Hr.
    destruct (Z.ltb_spec r r').
    + iok. destruct (_ && _); rsimpl; rewrite Hm; iok; eexists; split; try reflexivity.
      all: constructor; rsimpl; try done; rewrite <- ?Hq', ?Eq; lia.
    + rewrite Hc. replace (r' <? r) with false by lia. rsimpl.
      eexists. split; [reflexivity|]. constructor; rsimpl; try done; rewrite <- ?Hq', ?Eq; lia.
  - rewrite (proj2 (Z.ltb_lt r' _)) by zlia. rewrite Ho. iok.
    rsimpl. rewrite Hw, Hr, Hm. zdec. cbn [andb]. iok. rsimpl.
    eexists. split; [reflexivity|]. constructor; rsimpl; try done; rewrite <- ?Hq', ?Eq; lia.
Qed.

(** The samples of a clock that only runs forward, each less than a fiftieth of
    the wrap value after the one before. *)
Fixpoint ticking (P T : Z) (l : list (timeval * Z)) : Prop :=
  match l with
  | [] => True
  | (_, T') :: l => T <= T' < 2 ^ 62 /\ 50 * (T' - T) < P /\ ticking P T' l
  end.

(** The counter values a receiver sees. *)
Definition sampled (P : Z) (l : list (timeval * Z)) : list (timeval * Z) :=
  map (fun '(now, T) => (now, T mod P)) l.

Fixpoint last_time (T : Z) (l : list (timeval * Z)) : Z :=
  match l with [] => T | (_, T') :: l => last_time T' l end.

Lemma tracks_run P e l clk T :
  50 <= P <= 2 ^ 42 -> 0 <= e <= 1 -> 0 <= T -> ticking P T l -> tracks P e clk T ->
  exists clk', clock_run clk (sampled P l) = Some clk' /\
    tracks P e clk' (last_time T l).
Proof.
  intros HP He. revert clk T. induction l as [|[now T'] l IH]; intros clk T HT Hl Htr; [by exists clk|].
  destruct Hl as (HT' & Hd & Hl).
  destruct (tracks_step P e clk T now T') as (clk1 & E1 & Htr1); try lia; [done|].
  destruct (IH clk1 T') as (clk' & E' & Htr'); [lia|done..|].
  exists clk'. cbn. rewrite E1. by split.
Qed.

Lemma wrap_value_range clk hz :
  4294967296 <= clockWrapValue (ltntstools_clock_establish_timebase clk hz) <= 2576980377600.
Proof.
  destruct clk. cbn. cbv beta delta [const]. unfold MAX_PTS_VALUE, MAX_SCR_VALUE. by repeat case_if.
Qed.

Lemma tracks_established P e now clk T :
  clockWrapValue clk = P - e -> 0 <= T < P ->
  tracks P e (ltntstools_clock_establish_wallclock now clk T) T.
Proof.
  destruct clk. cbn. intros HP HT.
  constructor; rsimpl; rewrite ?(Z.mod_small T P), ?(Z.div_small T P) by done; lia.
Qed.

(** C33: The monotonic time of a clock with a 90 kHz, 27 MHz or other time base
    is the time of a source that runs forward with a period of [e] ticks more
    than the wrap value, less [e] ticks per wrap; every wrap is counted and no
    backward jump is.  The PCR counter has [e = 0], the 33-bit counters of the
    90 kHz clocks [e = 1]. *)
Theorem clock_tracks_time clk hz now T e l :
  let clk0 := ltntstools_clock_establish_timebase clk hz in
  let P := clockWrapValue clk0 + e in
  0 <= e <= 1 -> 0 <= T < P -> ticking P T l ->
  exists clk', clock_run (ltntstools_clock_establish_wallclock now clk0 T) (sampled P l) = Some clk' /\
    currentTime_ticks clk' = last_time T l mod P /\
    monotonicTime_ticks clk' = last_time T l - e * (last_time T l / P) /\
    clockWrapOccurences clk' = last_time T l / P /\
    backwardJumpUnder500msCount clk' = 0.
Proof.
  intros clk0 P He HT Hl. pose proof (wrap_value_range clk hz : _ <= clockWrapValue clk0 <= _).
  clearbody clk0. subst P. remember (clockWrapValue clk0 + e) as P eqn:HP.
  destruct (tracks_run P e l (ltntstools_clock_establish_wallclock now clk0 T) T) as (clk' & E & []);
    [lia..|done|apply tracks_established; lia|eauto 6].
Qed.

Lemma clock_tracks_time_witness :
  exists clk', clock_run
      (ltntstools_clock_establish_wallclock (Timeval 5 0)
         (ltntstools_clock_establish_timebase ltntstools_clock_initialize 27000000) 2576980377000)
      (sampled MAX_SCR_VALUE [(Timeval 6 0, 2576980377599); (Timeval 7 0, 2576980377700)]) = Some clk' /\
    currentTime_ticks clk' = 100 /\ monotonicTime_ticks clk' = 2576980377700 /\
    clockWrapOccurences clk' = 1.
Proof.
  destruct (clock_tracks_time ltntstools_clock_initialize 27000000 (Timeval 5 0) 2576980377000 0
              [(Timeval 6 0, 2576980377599); (Timeval 7 0, 2576980377700)])
    as (clk' & E & Hc & Hm & Ho & _); [lia|by vm_compute|by vm_compute|].
  exists clk'. split; [exact E|]. by rewrite Hc, Hm, Ho.
Defined.

(** ** A monotonic time that survives any input *)

(** The monotonic time of a clock whose high-water mark is a legal tick
    value. *)
Record clock_wf (W : Z) (clk : ltntstools_clock_s) : Prop := {
  cw_pending : pendingDiscontinuity clk = 0;
  cw_wrap : clockWrapValue clk = W;
  cw_cur : 0 <= currentTime_ticks clk <= monotonicReference_ticks clk;
  cw_ref : monotonicReference_ticks clk <= W
}.

Lemma set_ticks_step W clk now ticks :
  0 < W <= 2 ^ 42 -> 0 <= ticks <= W -> clock_wf W clk ->
  0 <= monotonicTime_ticks clk < 2 ^ 62 -> 0 <= clockWrapOccurences clk < 2 ^ 62 ->
  exists clk', ltntstools_clock_set_ticks now clk ticks = Some clk' /\ clock_wf W clk' /\
    currentTime_ticks clk' = ticks /\
    0 <= monotonicTime_ticks clk' - monotonicTime_ticks clk <= W /\
    (monotonicTime_ticks clk' - monotonicTime_ticks clk) mod W =
      (monotonicReference_ticks clk' - monotonicReference_ticks clk) mod W /\
    0 <= clockWrapOccurences clk' - clockWrapOccurences clk <= 1.
Proof.
  intros HW Ht [Hp Hw Hc Hr] Hm Ho.
  unfold ltntstools_clock_set_ticks, clock_advance, ltntstools_clock_compute_delta.
  rewrite Hp. cbn [negb Z.eqb]. cbv beta iota. rewrite Z.quot_div_nonneg by lia.
  destruct (Z.ltb_spec ticks (currentTime_ticks clk / 50)) as [Hlt|Hge].
  - assert (ticks < currentTime_ticks clk) by zlia. iok. rsimpl. rewrite Hw. zdec. cbn [andb]. iok.
    eexists. split; [reflexivity|]. rsimpl. split; [by constructor; rsimpl; lia|].
    repeat split; try lia.
    rewrite <- (Z_mod_plus_full (ticks - _) 1 W). f_equal. lia.
  - cbn [mbind option_bind andb]. destruct (Z.ltb_spec (monotonicReference_ticks clk) ticks).
    + iok. destruct (_ && _); rsimpl; iok; eexists; split; try reflexivity; rsimpl.
      all: split; [by constructor; rsimpl; lia|]; repeat split; try lia; f_equal; lia.
    + iok. repeat case_if; rsimpl; eexists; split; try reflexivity; rsimpl.
      all: split; [by constructor; rsimpl; lia|]; repeat split; try lia; f_equal; lia.
Qed.

(** Whatever tick values in range a clock receives, in any order, it handles
    them all without an overflow, its monotonic time never decreases, a step
    adds at most one wrap value, and what was added agrees with the raw
    high-water mark modulo the wrap value. *)
Theorem clock_monotonic_time W clk l :
  0 < W <= 2 ^ 42 -> clock_wf W clk -> Forall (fun s => 0 <= s.2 <= W) l ->
  0 <= monotonicTime_ticks clk -> monotonicTime_ticks clk + W * len l < 2 ^ 62 ->
  0 <= clockWrapOccurences clk -> clockWrapOccurences clk + len l < 2 ^ 62 ->
  exists clk', clock_run clk l = Some clk' /\ clock_wf W clk' /\
    monotonicTime_ticks clk <= monotonicTime_ticks clk' <= monotonicTime_ticks clk + W * len l /\
    (monotonicTime_ticks clk' - monotonicTime_ticks clk) mod W =
      (monotonicReference_ticks clk' - monotonicReference_ticks clk) mod W /\
    clockWrapOccurences clk <= clockWrapOccurences clk' <= clockWrapOccurences clk + len l.
Proof.
  intros HW. revert clk. induction l as [|[now t] l IH]; intros clk Hwf Hl Hm HM Ho HO.
  { exists clk. rewrite len_nil, !Z.sub_diag. repeat split; try apply Hwf; lia. }
  apply Forall_cons_1 in Hl as [Ht Hl]. cbn in Ht. rewrite len_cons in *. pose proof (len_nonneg l).
  destruct (set_ticks_step W clk now t) as (clk1 & E1 & Hwf1 & _ & Hm1 & Hc1 & Ho1);
    [lia|lia|done|nia|lia|].
  destruct (IH clk1 Hwf1 Hl) as (clk' & E' & Hwf' & Hm' & Hc' & Ho'); [nia..|].
  exists clk'. cbn. rewrite E1. repeat split; try apply Hwf'; try done; try nia.
  replace (monotonicTime_ticks clk' - _)
    with ((monotonicTime_ticks clk' - monotonicTime_ticks clk1)
          + (monotonicTime_ticks clk1 - monotonicTime_ticks clk)) by lia.
  rewrite Z.add_mod, Hc', Hc1, <- Z.add_mod by lia. f_equal. lia.
Qed.

Lemma clock_monotonic_time_witness :
  let clk := ltntstools_clock_establish_wallclock (Timeval 5 0)
               (ltntstools_clock_establish_timebase ltntstools_clock_initialize 90000) 8589934000 in
  exists clk', clock_run clk [(Timeval 6 0, 500); (Timeval 6 1, 3); (Timeval 6 2, 90000)] = Some clk' /\
    8589934000 <= monotonicTime_ticks clk'.
Proof.
  destruct (clock_monotonic_time MAX_PTS_VALUE
              (ltntstools_clock_establish_wallclock (Timeval 5 0)
                 (ltntstools_clock_establish_timebase ltntstools_clock_initialize 90000) 8589934000)
              [(Timeval 6 0, 500); (Timeval 6 1, 3); (Timeval 6 2, 90000)])
    as (clk' & E & _ & Hm & _).
  1, 4, 5, 6, 7: by vm_compute.
  - by constructor; vm_compute.
  - by repeat constructor; vm_compute.
  - exists clk'. split; [exact E|]. apply Hm.
Defined.

(** A small backward step after a restart of the counter is taken for a wrap:
    two frames sent in decoding order at the start of a stream move the
    monotonic time by a whole period, 26 hours. *)
Lemma clock_reorder_counts_wrap :
  let clk := ltntstools_clock_establish_wallclock (Timeval 0 0)
               (ltntstools_clock_establish_timebase ltntstools_clock_initialize 90000) 9009 in
  exists clk', ltntstools_clock_set_ticks (Timeval 0 0) clk 0 = Some clk' /\
    clockWrapOccurences clk' = 1 /\ monotonicTime_ticks clk' = MAX_PTS_VALUE.
Proof. eexists. split; [vm_compute; reflexivity|]. by vm_compute. Qed.

(** ** Adding ticks *)

(** The fields the loops change. *)
Definition rewrapped (clk : ltntstools_clock_s) (c r n : Z) : ltntstools_clock_s :=
  clk <| currentTime_ticks := c |> <| monotonicReference_ticks := r |> <| clockWrapOccurences := n |>.

Lemma rewrapped_twice clk c r n c' r' n' :
  rewrapped (rewrapped clk c r n) c' r' n' = rewrapped clk c' r' n'.
Proof. reflexivity. Qed.

Lemma rewrapped_same clk c r n :
  c = currentTime_ticks clk -> r = monotonicReference_ticks clk -> n = clockWrapOccurences clk ->
  rewrapped clk c r n = clk.
Proof. intros -> -> ->. by destruct clk. Qed.

Lemma rewrapped_fields clk c r n :
  currentTime_ticks (rewrapped clk c r n) = c /\ monotonicReference_ticks (rewrapped clk c r n) = r /\
  clockWrapOccurences (rewrapped clk c r n) = n /\
  clockWrapValue (rewrapped clk c r n) = clockWrapValue clk /\
  monotonicTime_ticks (rewrapped clk c r n) = monotonicTime_ticks clk.
Proof. by destruct clk. Qed.

Lemma div_mod_back c W : 0 < W -> c / W = (c - W) / W + 1 /\ c mod W = (c - W) mod W.
Proof.
  intros HW. replace c with ((c - W) + 1 * W) at 1 3 by lia.
  by rewrite Z.div_add, Z.mod_add by lia.
Qed.

Lemma wrap_down_spec W fuel clk c r n :
  0 < W <= 2 ^ 42 -> clockWrapValue clk = W -> 0 <= c < 2 ^ 62 ->
  calm r -> -2 ^ 62 <= r - c -> 0 <= n -> n + c < 2 ^ 63 ->
  (Z.to_nat (c / W) < fuel)%nat ->
  wrap_down fuel (rewrapped clk c r n) = Some (rewrapped clk (c mod W) (r - W * (c / W)) (n + c / W)).
Proof.
  intros HW Hw. revert c r n. induction fuel as [|fuel IH]; intros c r n Hc Hr Hrc Hn Hnc Hf; [lia|].
  cbn [wrap_down]. destruct (rewrapped_fields clk c r n) as (-> & -> & -> & -> & _). rewrite Hw.
  destruct (Z.leb_spec W c) as [Hle|Hgt].
  - iok. destruct (div_mod_back c W) as [Hd Hm]; [lia|].
    assert (0 <= (c - W) / W) by (apply Z.div_pos; lia).
    fold (rewrapped (rewrapped clk c r n) (c - W) (r - W) (n + 1)). rewrite rewrapped_twice, IH.
    2-7: unfold calm in *; lia.
    rewrite Hm, Hd. do 2 f_equal; lia.
  - by rewrite Z.mod_small, Z.div_small, Z.mul_0_r, Z.sub_0_r, Z.add_0_r by lia.
Qed.

Lemma wrap_up_spec W fuel clk c r n :
  0 < W <= 2 ^ 42 -> clockWrapValue clk = W -> - 2 ^ 62 <= c < W ->
  calm r -> r - c < 2 ^ 61 -> 0 <= n -> (Z.to_nat (- (c / W)) < fuel)%nat ->
  wrap_up fuel (rewrapped clk c r n) =
    Some (rewrapped clk (c mod W) (r - W * (c / W)) (Z.max 0 (n + c / W))).
Proof.
  intros HW Hw. revert c r n. induction fuel as [|fuel IH]; intros c r n Hc Hr Hrc Hn Hf; [lia|].
  cbn [wrap_up]. destruct (rewrapped_fields clk c r n) as (-> & -> & -> & -> & _). rewrite Hw.
  destruct (Z.ltb_spec c 0) as [Hlt|Hge].
  - iok. destruct (div_mod_back (c + W) W) as [Hd Hm]; [lia|].
    rewrite Z.add_simpl_r in Hd, Hm.
    assert ((c + W) / W < 1) by (apply Z.div_lt_upper_bound; lia).
    fold (rewrapped (rewrapped clk c r n) (c + W) (r + W) (if 0 <? n then n - 1 else n)).
    rewrite rewrapped_twice, IH.
    2-6: unfold calm in *; try case_if; lia.
    rewrite Hm, Hd. case_if; do 2 f_equal; lia.
  - rewrite Z.mod_small, Z.div_small by lia. do 2 f_equal; lia.
Qed.

(** The two loops together normalise the time, either side of the range. *)
Lemma wrap_loops_spec W clk t r n :
  0 < W <= 2 ^ 42 -> clockWrapValue clk = W -> - 2 ^ 61 <= t < 2 ^ 61 -> - 2 ^ 61 <= r - t < 2 ^ 60 ->
  0 <= n < 2 ^ 62 ->
  (clk1 ← wrap_down (wrap_fuel (rewrapped clk t r n)) (rewrapped clk t r n);
   wrap_up (wrap_fuel clk1) clk1)
  = Some (rewrapped clk (t mod W) (r - W * (t / W)) (Z.max 0 (n + t / W))).
Proof.
  intros HW Hw Ht Hr Hn. pose proof (rewrapped_fields clk) as Hf. unfold wrap_fuel.
  pose proof (Z.mod_pos_bound t W ltac:(lia)). pose proof (Z.div_mod t W ltac:(lia)).
  destruct (Z.ltb_spec t 0) as [Hneg|Hpos].
  - cbn [wrap_down]. destruct (Hf t r n) as (-> & _ & _ & -> & _). rewrite Hw. zdec.
    cbn [mbind option_bind]. destruct (Hf t r n) as (-> & _ & _ & -> & _). rewrite Hw.
    apply wrap_up_spec; unfold calm; try lia.
    rewrite Z.abs_neq by lia. assert (- (t / W) <= - t / W + 1); [|lia].
    pose proof (Z.div_mod (- t) W ltac:(lia)).
    pose proof (Z.mod_pos_bound (- t) W ltac:(lia)). nia.
  - assert (0 <= t / W) by (apply Z.div_pos; lia).
    assert (t / W <= t) by (apply Z.div_le_upper_bound; nia).
    destruct (Hf t r n) as (-> & _ & _ & -> & _).
    rewrite (wrap_down_spec W) by (unfold calm; rewrite ?Hw, ?Z.abs_eq by lia; lia).
    cbn [mbind option_bind].
    destruct (Hf (t mod W) (r - W * (t / W)) (n + t / W)) as (-> & _ & _ & -> & _).
    rewrite (wrap_up_spec W)
      by (unfold calm; rewrite ?Hw, ?(Z.abs_eq (t mod W)), ?(Z.div_small (t mod W)) by lia; lia).
    rewrite Z.mod_mod, (Z.div_small (t mod W)) by lia. do 2 f_equal; lia.
Qed.

(** Adding ticks, forwards or backwards, ends, and leaves the time in
    range: the two loops compute the remainder and the quotient by the wrap
    value, move the reference with the time, and count the wraps (a count that
    stops at zero on the way back). *)
Theorem clock_add_ticks_wraps W clk ticks :
  0 < W <= 2 ^ 42 -> clockWrapValue clk = W -> 0 <= currentTime_ticks clk < W ->
  0 <= monotonicReference_ticks clk < W -> - 2 ^ 60 <= ticks < 2 ^ 60 ->
  calm (monotonicTime_ticks clk) -> 0 <= clockWrapOccurences clk < 2 ^ 62 ->
  exists clk', ltntstools_clock_add_ticks clk ticks = Some clk' /\
    let t := currentTime_ticks clk + ticks in
    currentTime_ticks clk' = t mod W /\
    monotonicReference_ticks clk' = monotonicReference_ticks clk - currentTime_ticks clk + t mod W /\
    monotonicTime_ticks clk' = monotonicTime_ticks clk + Z.max 0 ticks /\
    clockWrapOccurences clk' = Z.max 0 (clockWrapOccurences clk + t / W).
Proof.
  intros HW Hw Hc Hr Ht Hm Ho. unfold ltntstools_clock_add_ticks.
  set (m := monotonicTime_ticks clk + Z.max 0 ticks).
  assert ((if 0 <? ticks then i64_ok (monotonicTime_ticks clk + ticks)
           else Some (monotonicTime_ticks clk)) = Some m) as ->.
  { unfold m. case_if; [iok|]; f_equal; lia. }
  iok. set (t := currentTime_ticks clk + ticks). set (r := monotonicReference_ticks clk + ticks).
  assert (exists clk1, clk1 = clk <| monotonicTime_ticks := m |>) as [clk1 E1] by eauto.
  assert (clockWrapValue clk1 = W /\ monotonicTime_ticks clk1 = m /\
          clockWrapOccurences clk1 = clockWrapOccurences clk) as (Hw1 & Hm1 & Ho1)
    by (rewrite E1; destruct clk; cbn in *; done).
  assert (clk <| monotonicTime_ticks := m |> <| currentTime_ticks := t |>
              <| monotonicReference_ticks := r |> = rewrapped clk1 t r (clockWrapOccurences clk)) as ->.
  { rewrite E1. by destruct clk. }
  clear E1.
  assert (clockWrapValue (rewrapped clk1 t r (clockWrapOccurences clk)) = W) as ->
    by (by destruct (rewrapped_fields clk1 t r (clockWrapOccurences clk)) as (_ & _ & _ & -> & _)).
  zdec. rewrite (wrap_loops_spec W) by (unfold t, r in *; lia).
  eexists. split; [reflexivity|]. cbn zeta.
  destruct (rewrapped_fields clk1 (t mod W) (r - W * (t / W)) (Z.max 0 (clockWrapOccurences clk + t / W)))
    as (-> & -> & -> & _ & ->).
  pose proof (Z.div_mod t W ltac:(lia)). repeat split; unfold r, t, m in *; lia.
Qed.

Lemma clock_add_ticks_wraps_witness :
  let clk := ltntstools_clock_establish_wallclock (Timeval 5 0)
               (ltntstools_clock_establish_timebase ltntstools_clock_initialize 90000) 1000 in
  exists clk', ltntstools_clock_add_ticks clk (-3000) = Some clk' /\
    currentTime_ticks clk' = 8589932591 /\ clockWrapOccurences clk' = 0.
Proof.
  destruct (clock_add_ticks_wraps MAX_PTS_VALUE
              (ltntstools_clock_establish_wallclock (Timeval 5 0)
                 (ltntstools_clock_establish_timebase ltntstools_clock_initialize 90000) 1000) (-3000))
    as (clk' & E & Hc & _ & _ & Ho); [by vm_compute..|].
  exists clk'. split; [exact E|]. by rewrite Hc, Ho.
Defined.

(** ** Drift from the wall clock *)

Definition timeval_wf (tv : timeval) : Prop := 0 <= tv_sec tv < 2 ^ 40 /\ 0 <= tv_usec tv < 1000000.

Lemma subtract_us_spec x y : timeval_wf x -> timeval_wf y ->
  ltn_timeval_subtract_us x y =
    Some ((tv_sec x - tv_sec y) * 1000000 + (tv_usec x - tv_usec y)).
Proof.
  intros [] []. unfold ltn_timeval_subtract_us, ltn_timeval_to_us. iok. f_equal. lia.
Qed.

Lemma i64_ok_None x : 9223372036854775808 <= x \/ x < -9223372036854775808 -> i64_ok x = None.
Proof.
  intros H. unfold i64_ok. destruct (Z.leb_spec (-9223372036854775808) x); [|done].
  by replace (x <? 9223372036854775808) with false by lia.
Qed.

Lemma set_drift_spec clk v :
  - 2 ^ 60 <= drift_us_lwm clk -> drift_us_hwm clk < 2 ^ 60 -> - 2 ^ 61 < v < 2 ^ 61 ->
  exists clk', clock_set_drift clk v = Some clk' /\ drift_us clk' = v /\
    drift_us_hwm clk' = Z.max (drift_us_hwm clk) v /\
    drift_us_lwm clk' = Z.min (drift_us_lwm clk) v /\
    drift_us_max clk' = drift_us_hwm clk' - drift_us_lwm clk'.
Proof.
  destruct clk as [? ? ? ? ? ? ? ? ? ? ? ? ? ? ? ? lwm hwm ? ?]. cbn. intros Hl Hh Hv.
  unfold clock_set_drift. cbn. unfold const.
  destruct (Z.ltb_spec hwm v); cbn; destruct (Z.leb_spec v lwm); cbn; unfold const; iok.
  all: eexists; split; [reflexivity|]; cbn; unfold const; lia.
Qed.

(** C40: The drift is the tick time since the clock was established less the
    wall time since then, both in microseconds, and updates the watermarks; the
    multiplication overflows, and the behaviour is undefined, as soon as the
    clock has moved more than 9223372036854 ticks, less than four days at
    27 MHz. *)
Theorem clock_drift_spec clk now :
  establishedWT clk <> 0 -> 90000 <= ticks_per_second clk < 2 ^ 62 ->
  timeval_wf now -> timeval_wf (establishedWalltime clk) ->
  calm (monotonicTime_ticks clk - establishedTime_ticks clk) ->
  - 2 ^ 60 <= drift_us_lwm clk -> drift_us_hwm clk < 2 ^ 60 ->
  let ticks := monotonicTime_ticks clk - establishedTime_ticks clk in
  let elapsed := (tv_sec now - tv_sec (establishedWalltime clk)) * 1000000
                 + (tv_usec now - tv_usec (establishedWalltime clk)) in
  let v := Z.quot (ticks * 1000000) (ticks_per_second clk) - elapsed in
  (Z.abs ticks <= 9223372036854 ->
    exists clk', ltntstools_clock_get_drift_us now clk = Some (clk', v) /\ drift_us clk' = v /\
      drift_us_hwm clk' = Z.max (drift_us_hwm clk) v /\
      drift_us_lwm clk' = Z.min (drift_us_lwm clk) v /\
      drift_us_max clk' = drift_us_hwm clk' - drift_us_lwm clk') /\
  (9223372036854 < Z.abs ticks -> ltntstools_clock_get_drift_us now clk = None).
Proof.
  intros HWT Hhz Hnow Hest Hcalm Hl Hh ticks elapsed v. unfold ltntstools_clock_get_drift_us.
  rewrite (proj2 (Z.eqb_neq (establishedWT clk) 0)) by done.
  rewrite subtract_us_spec by done. fold elapsed. cbn [mbind option_bind]. fold ticks in Hcalm.
  rewrite (i64_ok_Some (_ - establishedTime_ticks clk)) by (fold ticks; unfold calm in *; lia).
  fold ticks. cbn [mbind option_bind].
  assert (- 2 ^ 60 < elapsed < 2 ^ 60) as He by (destruct Hnow, Hest; unfold elapsed; lia).
  clearbody ticks elapsed. split; intros Ht; [|by rewrite i64_ok_None by lia].
  assert (- 2 ^ 60 < Z.quot (ticks * 1000000) (ticks_per_second clk) < 2 ^ 60) as Hq
    by (apply Z.abs_lt; rewrite <- Z.quot_abs by lia; rewrite Z.quot_div_nonneg by lia;
        apply Z.div_lt_upper_bound; lia).
  rewrite (i64_ok_Some (_ * _)) by lia. cbn [mbind option_bind]. zdec.
  rewrite (i64_ok_Some (Z.quot _ _)) by lia. cbn [mbind option_bind].
  rewrite (i64_ok_Some (_ - elapsed)) by lia. cbn [mbind option_bind]. fold v.
  destruct (set_drift_spec clk v) as (clk' & -> & Hs); [done|done|unfold v; lia|].
  by exists clk'.
Qed.

Lemma clock_drift_spec_witness :
  let clk := ltntstools_clock_establish_wallclock (Timeval 5 0)
               (ltntstools_clock_establish_timebase ltntstools_clock_initialize 27000000) 0 in
  let late := clk <| monotonicTime_ticks := 54000000 |> in
  (exists clk', ltntstools_clock_get_drift_us (Timeval 8 0) late = Some (clk', -1000000)) /\
  ltntstools_clock_get_drift_us (Timeval 8 0) (clk <| monotonicTime_ticks := 9223372036855 |>) = None.
Proof.
  intros clk late. split.
  - destruct (clock_drift_spec late (Timeval 8 0)) as [(clk' & E & _) _]; [by vm_compute..| |by exists clk'].
    by vm_compute.
  - apply clock_drift_spec; by vm_compute.
Defined.

(** ** The corrected clock *)

(** An initialised context whose last sample was taken at time [T], the
    largest time so far being [M]. *)
Record corrected (ctx : ltntstools_corrected_clock_s) (T M : Z) : Prop := {
  co_init : initialized ctx = 1;
  co_mask : clk_mask ctx = 2 ^ 33 - 1;
  co_mod : clk_mod ctx = 2 ^ 33;
  co_half : clk_half ctx = 2 ^ 32;
  co_last : lastTickValue ctx = T mod 2 ^ 33;
  co_unwrapped : unwrapped ctx = T;
  co_clk : correctedClk ctx = M
}.

Lemma mask33 x : Z.land x (2 ^ 33 - 1) = x mod 2 ^ 33.
Proof. by apply land_ones_mod. Qed.

(** The representative, in [-2^32, 2^32), of a difference on the ring. *)
Lemma signed_delta_spec ctx a b :
  clk_mask ctx = 2 ^ 33 - 1 -> clk_mod ctx = 2 ^ 33 -> clk_half ctx = 2 ^ 32 ->
  pts33_signed_delta ctx a b = Some ((a - b + 2 ^ 32) mod 2 ^ 33 - 2 ^ 32).
Proof.
  intros Hm Hp Hh. unfold pts33_signed_delta. rewrite Hm, Hp, Hh, !mask33.
  assert (u64 (a mod 2 ^ 33 - b mod 2 ^ 33) mod 2 ^ 33 = (a - b) mod 2 ^ 33) as ->.
  { unfold u64. rewrite Z.mod_mod_divide by (by exists 2147483648). by rewrite <- Zminus_mod. }
  pose proof (Z.mod_pos_bound (a - b) (2 ^ 33) ltac:(lia)) as Hr.
  rewrite land_bit by lia.
  rewrite i64_id by lia. rewrite (i64_id (2 ^ 33)) by lia. rewrite <- Zplus_mod_idemp_l.
  set (d := (a - b) mod 2 ^ 33) in *. clearbody d.
  destruct (Z.ltb_spec d (2 ^ 32)).
  - rewrite (Z.div_small d), (Z.mod_small (d + _)) by lia. cbn. f_equal. lia.
  - replace (d / 2 ^ 32) with 1 by (apply Z.div_unique with (d - 2 ^ 32); lia).
    cbn [negb]. change ((1 mod 2 * 2 ^ 32 =? 0)) with false. cbn [negb]. iok. f_equal.
    replace (d + 2 ^ 32) with ((d - 2 ^ 32) + 1 * 2 ^ 33) by lia.
    rewrite Z.mod_add, Z.mod_small by lia. lia.
Qed.

(** The tolerance for late samples has no effect: the corrected time is the
    maximum so far. *)
Lemma corrected_clamp_spec ctx p33 :
  0 <= unwrapped ctx < 2 ^ 62 -> 0 <= correctedClk ctx < 2 ^ 62 ->
  exists ctx', corrected_clamp ctx p33 = Some (ctx', 0) /\
    ctx' = ctx <| correctedClk := Z.max (correctedClk ctx) (unwrapped ctx) |>.
Proof.
  destruct ctx as [? ? ? un co ? ? ? ?]. cbn. intros Hu Hc. unfold corrected_clamp. cbn.
  replace (un <? 0) with false by lia. rewrite (i64_id co), u64_id by lia. iok.
  change JITTER_MAX with 45000.
  destruct (Z.ltb_spec 45000 (co - un)); [|destruct (Z.ltb_spec co un)].
  all: eexists; split; [reflexivity|].
  1, 3: rewrite Z.max_l by (cbn; lia); reflexivity.
  rewrite Z.max_r by (cbn; lia); reflexivity.
Qed.

Lemma corrected_step ctx T M ticks T' :
  corrected ctx T M -> 0 <= T < 2 ^ 62 -> 0 <= M < 2 ^ 62 -> 0 <= T' < 2 ^ 62 ->
  - 2 ^ 32 <= T' - T < 2 ^ 32 -> u64 ticks mod 2 ^ 33 = T' mod 2 ^ 33 ->
  exists ctx', ltntstools_corrected_clock_update (Some ctx) ticks = Some (Some ctx', 0) /\
    corrected ctx' T' (Z.max M T').
Proof.
  intros [Hi Hm Hp Hh Hl Hu Hc] HT HM HT' Hd Ht. unfold ltntstools_corrected_clock_update.
  rewrite Hi, Hm, mask33, Ht. cbn [Z.eqb]. cbv beta iota.
  rewrite signed_delta_spec, Hl by done. cbn [mbind option_bind].
  assert ((T' mod 2 ^ 33 - T mod 2 ^ 33 + 2 ^ 32) mod 2 ^ 33 - 2 ^ 32 = T' - T) as ->.
  { rewrite <- Zplus_mod_idemp_l, <- Zminus_mod, Zplus_mod_idemp_l, Z.mod_small; lia. }
  rewrite Hu. iok. replace (T + (T' - T)) with T' by lia.
  destruct (corrected_clamp_spec (ctx <| unwrapped := T' |>) (T' mod 2 ^ 33)) as (ctx' & E & Ectx);
    [destruct ctx; cbn in *; unfold const; lia..|].
  rewrite E. cbn [mbind option_bind]. eexists. split; [reflexivity|]. subst ctx'.
  clear E. destruct ctx; cbn in *; constructor; cbn; unfold const; try done; lia.
Qed.

(** The corrected clock fed with a list of tick values: the context and the
    results. *)
Fixpoint corrected_run (ctx : option ltntstools_corrected_clock_s) (l : list Z)
    : option (option ltntstools_corrected_clock_s * list Z) :=
  match l with
  | [] => Some (ctx, [])
  | t :: l =>
      '(ctx, r) ← ltntstools_corrected_clock_update ctx t;
      '(ctx, rs) ← corrected_run ctx l; Some (ctx, r :: rs)
  end.

(** Successive times less than half the ring apart. *)
Fixpoint half_ring_steps (T : Z) (l : list Z) : Prop :=
  match l with
  | [] => True
  | T' :: l => 0 <= T' < 2 ^ 62 /\ - 2 ^ 32 <= T' - T < 2 ^ 32 /\ half_ring_steps T' l
  end.

Lemma corrected_run_spec l ctx T M :
  corrected ctx T M -> 0 <= T < 2 ^ 62 -> 0 <= M < 2 ^ 62 -> half_ring_steps T l ->
  exists ctx', corrected_run (Some ctx) (map (fun t => t mod 2 ^ 33) l)
      = Some (Some ctx', map (fun _ => 0) l) /\
    corrected ctx' (List.fold_left (fun _ t => t) l T) (List.fold_left Z.max l M).
Proof.
  revert ctx T M. induction l as [|T' l IH]; intros ctx T M Hco HT HM Hl; [by exists ctx|].
  destruct Hl as (HT' & Hd & Hl).
  destruct (corrected_step ctx T M (T' mod 2 ^ 33) T') as (ctx1 & E1 & H1); try done.
  { pose proof (Z.mod_pos_bound T' (2 ^ 33) ltac:(lia)). rewrite u64_id by lia. by rewrite Z.mod_mod by lia. }
  destruct (IH ctx1 T' (Z.max M T')) as (ctx' & E' & H'); [done|lia|lia|done|].
  exists ctx'. cbn [map corrected_run]. rewrite E1. cbn. rewrite E'. by split.
Qed.

(** C34: From its initialisation, the corrected clock recovers any sequence of
    times whose steps, forwards or backwards, are shorter than half the 33-bit
    ring: every update succeeds, the unwrapped value is the last time and the
    corrected value the largest. *)
Theorem corrected_clock_unwraps ctx l :
  half_ring_steps 0 l ->
  let '(ctx0, r0) := ltntstools_corrected_clock_init ctx 90000 in
  r0 = 0 /\
  exists ctx', corrected_run (Some ctx0) (map (fun t => t mod 2 ^ 33) l)
      = Some (Some ctx', map (fun _ => 0) l) /\
    ltntstools_corrected_clock_unwrapped (Some ctx') = u64 (List.fold_left (fun _ t => t) l 0) /\
    correctedClk ctx' = List.fold_left Z.max l 0.
Proof.
  intros Hl. destruct ctx. cbn. split; [done|].
  match goal with |- context [corrected_run (Some ?c)] => set (ctx0 := c) end.
  destruct (corrected_run_spec l ctx0 0 0) as (ctx' & E & []); [by constructor|lia..|done|].
  exists ctx'. split; [exact E|]. split; [|done]. rewrite co_init0, co_unwrapped0. done.
Qed.

Definition corrected_clock_null : ltntstools_corrected_clock_s :=
  {| initialized := 0; clkMaxTicks := 0; lastTickValue := 0; unwrapped := 0; correctedClk := 0;
     clk_bits := 0; clk_mod := 0; clk_mask := 0; clk_half := 0 |}.

Lemma corrected_clock_unwraps_witness :
  exists ctx', corrected_run (Some (ltntstools_corrected_clock_init corrected_clock_null 90000).1)
      [4000000000; 8000000000; 1; 8589934590; 90000] = Some (Some ctx', [0; 0; 0; 0; 0]) /\
    ltntstools_corrected_clock_unwrapped (Some ctx') = 8590024592.
Proof.
  destruct (corrected_clock_unwraps corrected_clock_null
              [4000000000; 8000000000; 8589934593; 8589934590; 8590024592])
    as (_ & ctx' & E & Hu & _); [by vm_compute|].
  exists ctx'. split; [exact E|]. by rewrite Hu.
Defined.

(** The first sample is measured from tick 0 (the branch that would take it as
    it is cannot be reached): one in the upper half of the ring is reported as
    an error. *)
Lemma corrected_clock_first_sample :
  exists ctx', ltntstools_corrected_clock_update
      (Some (ltntstools_corrected_clock_init corrected_clock_null 90000).1) 5000000000
    = Some (Some ctx', -1) /\ correctedClk ctx' = 5000000000.
Proof. eexists. split; [vm_compute; reflexivity|]. by vm_compute. Qed.
