(* ===== verification/Histogram.v ===== *)
(** * Histograms: libltntools/histogram.h

    A histogram has one bucket per millisecond of its range; a value outside
    the range is only counted as a miss.  [gettimeofday] is an input of the
    operations that call it, an access outside the bucket array is [None].  The
    reports print what they find and are not modelled, apart from the
    aggregation of ltn_histogram_summary_print. *)
From Stdlib Require Import ZArith Lia Bool String.
From stdpp Require Import base numbers list option.
From coqutil Require Import Datatypes.RecordSettersUsingExistingGetters.
From S2P Require Import Prelude Ts Clock.

Record ltn_histogram_bucket_s := Bucket { count : Z; lastUpdate : timeval }.

Record ltn_histogram_s := {
  hist_name : string;
  minValMs : Z;
  maxValMs : Z;
  bucketMissCount : Z;
  bucketCount : Z;
  buckets : list ltn_histogram_bucket_s;
  intervalLast : timeval;
  cumulativeMs : Z;
  cumulativeLast : timeval;
  sampleMs : Z;
  sampleLast : timeval;
  printLast : timeval;
  printSummaryLast : timeval;
  totalCount : Z
}.

Definition time_zero : timeval := Timeval 0 0.
Definition bucket_zero : ltn_histogram_bucket_s := Bucket 0 time_zero.

Definition compareTime (t1 t2 : timeval) : Z :=
  if tv_sec t2 <? tv_sec t1 then 1
  else if tv_sec t1 <? tv_sec t2 then -1
  else if tv_usec t2 <? tv_usec t1 then 1
  else if tv_usec t1 <? tv_usec t2 then -1
  else 0.

(** The index of the bucket of a value: the parameter [ms] is 32 bits wide. *)
Definition ltn_histogram_bucket (ctx : ltn_histogram_s) (ms : Z) : nat :=
  Z.to_nat (u64 (u32 ms - minValMs ctx)).

Definition ltn_histogram_reset (now : timeval) (ctx : ltn_histogram_s) : ltn_histogram_s :=
  ctx <| buckets := replicate (Z.to_nat (bucketCount ctx)) bucket_zero |>
      <| intervalLast := now |>
      <| bucketMissCount := 0 |>
      <| cumulativeMs := 0 |>
      <| totalCount := 0 |>.

(** [ctx_ok] and [buckets_ok]: the two allocations succeed. *)
Definition ltn_histogram_alloc (ctx_ok buckets_ok : bool) (now : timeval) (name : option string)
    (minValMs maxValMs : Z) : option ltn_histogram_s :=
  if minValMs =? maxValMs then None else
  if maxValMs <? minValMs then None else
  if maxValMs =? 0 then None else
  match name with
  | None => None
  | Some name =>
      if 4294967295 - 1 <? maxValMs - minValMs then None else
      if negb ctx_ok then None else
      let bucketCount := u32 (maxValMs - minValMs + 1) in
      if negb buckets_ok then None else
      Some (ltn_histogram_reset now
              {| hist_name := substring 0 128 name; minValMs := minValMs; maxValMs := maxValMs;
                 bucketMissCount := 0; bucketCount := bucketCount;
                 buckets := replicate (Z.to_nat bucketCount) bucket_zero;
                 intervalLast := now; cumulativeMs := 0; cumulativeLast := time_zero;
                 sampleMs := 0; sampleLast := time_zero; printLast := time_zero;
                 printSummaryLast := time_zero; totalCount := 0 |})
  end.

Definition ltn_histogram_alloc_video_defaults (ctx_ok buckets_ok : bool) (now : timeval)
    (name : option string) : option ltn_histogram_s :=
  ltn_histogram_alloc ctx_ok buckets_ok now name 0 (16 * 1000).

(** A value that is in range goes to its bucket, another is a miss. *)
Definition hist_out_of_range (ctx : ltn_histogram_s) (ms : Z) : bool :=
  (ms <? minValMs ctx) || (maxValMs ctx <? ms).

Definition hist_miss (ctx : ltn_histogram_s) : ltn_histogram_s :=
  ctx <| bucketMissCount := u64 (bucketMissCount ctx + 1) |>.

Definition hist_hit (now : timeval) (ctx : ltn_histogram_s) (ms : Z) : option ltn_histogram_s :=
  let i := ltn_histogram_bucket ctx ms in
  b ← buckets ctx !! i;
  Some (ctx <| buckets := <[i := Bucket (u64 (count b + 1)) now]> (buckets ctx) |>
            <| totalCount := totalCount ctx + 1 |>).

Definition ltn_histogram_interval_update_with_value (now : timeval) (ctx : ltn_histogram_s)
    (diffMs : Z) : option (ltn_histogram_s * Z) :=
  if hist_out_of_range ctx diffMs then Some (hist_miss ctx, -1) else
  ctx ← hist_hit now ctx diffMs; Some (ctx, i32 diffMs).

Definition ltn_histogram_interval_update (ctx : ltn_histogram_s) (timestamp : timeval)
    : option (ltn_histogram_s * Z) :=
  d ← ltn_timeval_subtract_ms timestamp (intervalLast ctx);
  let diffMs := u32 d in
  let ctx := ctx <| intervalLast := timestamp |> in
  if hist_out_of_range ctx diffMs then Some (hist_miss ctx, -1) else
  ctx ← hist_hit timestamp ctx diffMs; Some (ctx, i32 diffMs).

Definition ltn_histogram_cumulative_initialize (ctx : ltn_histogram_s) : ltn_histogram_s :=
  ctx <| cumulativeMs := 0 |>.

Definition ltn_histogram_cumulative_begin (now : timeval) (ctx : ltn_histogram_s) : ltn_histogram_s :=
  ctx <| cumulativeLast := now |>.

Definition ltn_histogram_cumulative_end (now : timeval) (ctx : ltn_histogram_s)
    : option (ltn_histogram_s * Z) :=
  d ← ltn_timeval_subtract_ms now (cumulativeLast ctx);
  Some (ctx <| cumulativeMs := u64 (cumulativeMs ctx + u64 d) |>, u64 d).

Definition ltn_histogram_cumulative_finalize (now : timeval) (ctx : ltn_histogram_s)
    : option (ltn_histogram_s * Z) :=
  ctx ← (if hist_out_of_range ctx (cumulativeMs ctx) then Some (hist_miss ctx)
         else hist_hit now ctx (cumulativeMs ctx));
  Some (ctx, cumulativeMs ctx).

Definition ltn_histogram_sample_begin (now : timeval) (ctx : ltn_histogram_s) : ltn_histogram_s :=
  ctx <| sampleLast := now |>.

Definition ltn_histogram_sample_end (now now' : timeval) (ctx : ltn_histogram_s)
    : option (ltn_histogram_s * Z) :=
  d ← ltn_timeval_subtract_ms now (sampleLast ctx);
  let ctx := ctx <| sampleMs := u64 d |> in
  ctx ← (if hist_out_of_range ctx (sampleMs ctx) then Some (hist_miss ctx)
         else hist_hit now' ctx (sampleMs ctx));
  Some (ctx, sampleMs ctx).

(** ** The aggregation of ltn_histogram_summary_print

    The inner loop adds the buckets of the values [j] to [bucketMax] to the
    bucket [d] of [h]; the outer one walks the range in groups of
    [bucketSizeMs].  [fuel] bounds the turns. *)
Fixpoint summary_group (fuel : nat) (ctx : ltn_histogram_s) (bucketMax j : Z) (d : nat)
    (hb : list ltn_histogram_bucket_s) : option (list ltn_histogram_bucket_s) :=
  match fuel with
  | O => None
  | S fuel' =>
      if j <=? bucketMax then
        src ← buckets ctx !! ltn_histogram_bucket ctx j;
        dst ← hb !! d;
        let upd := if 0 <? compareTime (lastUpdate src) (lastUpdate dst)
                   then lastUpdate src else lastUpdate dst in
        summary_group fuel' ctx bucketMax (u64 (j + 1)) d
          (<[d := Bucket (u64 (count dst + count src)) upd]> hb)
      else Some hb
  end.

Definition summary_bucketMax (ctx : ltn_histogram_s) (i bucketSizeMs : Z) : Z :=
  let bucketMax := u64 (i + bucketSizeMs - 1) in
  if (bucketMax <? i) || (maxValMs ctx <? bucketMax) then maxValMs ctx else bucketMax.

Fixpoint summary_loop (fuel : nat) (ctx : ltn_histogram_s) (bucketSizeMs i : Z)
    (h : ltn_histogram_s) : option ltn_histogram_s :=
  match fuel with
  | O => None
  | S fuel' =>
      if i <=? maxValMs ctx then
        let bucketMax := summary_bucketMax ctx i bucketSizeMs in
        hb ← summary_group (S (S (Z.to_nat (bucketMax - i)))) ctx bucketMax i
               (ltn_histogram_bucket h bucketMax) (buckets h);
        let h := h <| buckets := hb |> in
        if u64 (maxValMs ctx - i) <? bucketSizeMs then Some h
        else summary_loop fuel' ctx bucketSizeMs (u64 (i + bucketSizeMs)) h
      else Some h
  end.

(** The histogram that is printed; [None] inside when the report is not due
    (the time stamp is kept) or the allocation fails.  A name that fills the
    field has no terminator, and printing it reads past the field. *)
Definition ltn_histogram_summary (ctx_ok buckets_ok : bool) (now : timeval) (ctx : ltn_histogram_s)
    (seconds bucketSizeMs : Z) : option (ltn_histogram_s * option ltn_histogram_s) :=
  if bucketSizeMs =? 0 then Some (ctx, None) else
  due ← (if seconds =? 0 then Some (Some ctx) else
         d ← ltn_timeval_subtract_ms now (printSummaryLast ctx);
         Some (if u32 d <? u32 (seconds * 1000) then None
               else Some (ctx <| printSummaryLast := now |>)));
  match due with
  | None => Some (ctx, None)
  | Some ctx =>
      if (128 <=? String.length (hist_name ctx))%nat then None else
      let name := (hist_name ctx ++ " - Summarized into buckets of " ++ printf_d 0 (i32 bucketSizeMs) ++ " ms")%string in
      match ltn_histogram_alloc ctx_ok buckets_ok now (Some name) (minValMs ctx) (maxValMs ctx) with
      | None => Some (ctx, None)
      | Some h =>
          h ← summary_loop (S (Z.to_nat (maxValMs ctx - minValMs ctx))) ctx bucketSizeMs (minValMs ctx) h;
          Some (ctx, Some (h <| bucketMissCount := bucketMissCount ctx |>
                             <| totalCount := totalCount ctx |>))
      end
  end.

(** ** What a histogram counts *)

Definition counts (l : list ltn_histogram_bucket_s) : Z := foldr (fun b a => count b + a) 0 l.

#[global] Arguments counts : simpl never.

Lemma counts_cons b l : counts (b :: l) = count b + counts l.
Proof. done. Qed.

Lemma counts_app l k : counts (l ++ k) = counts l + counts k.
Proof. induction l as [|b l IH]; [done|]. rewrite <- app_comm_cons, !counts_cons. lia. Qed.

Lemma counts_zero n : counts (replicate n bucket_zero) = 0.
Proof. induction n as [|n IH]; [done|]. by rewrite replicate_S, counts_cons, IH. Qed.

Lemma counts_insert l i b b' :
  l !! i = Some b -> counts (<[i := b']> l) = counts l + count b' - count b.
Proof.
  revert i. induction l as [|x l IH]; intros [|i] Hi; [done..| |].
  - injection Hi as ->. change (<[0%nat := b']> (b :: l)) with (b' :: l). rewrite !counts_cons. lia.
  - change (<[S i := b']> (x :: l)) with (x :: <[i := b']> l). rewrite !counts_cons, (IH i Hi). lia.
Qed.

Lemma counts_nonneg l : Forall (fun b => 0 <= count b) l -> 0 <= counts l.
Proof. induction 1; [done|]. rewrite counts_cons. lia. Qed.

Lemma counts_bound l i b :
  Forall (fun b => 0 <= count b) l -> l !! i = Some b -> 0 <= count b <= counts l.
Proof.
  intros Hl. revert i. induction Hl as [|x l Hx Hl IH]; intros [|i] Hi; [done..| |];
    rewrite counts_cons; pose proof (counts_nonneg l Hl).
  - injection Hi as ->. lia.
  - specialize (IH i Hi). lia.
Qed.

(** A histogram whose range fits 32 bits: the buckets cover the range and
    their counts add up to the total. *)
Record hist_wf (ctx : ltn_histogram_s) : Prop := {
  hw_range : 0 <= minValMs ctx < maxValMs ctx /\ maxValMs ctx < 2 ^ 32;
  hw_len : len (buckets ctx) = maxValMs ctx - minValMs ctx + 1;
  hw_count : bucketCount ctx = maxValMs ctx - minValMs ctx + 1;
  hw_pos : Forall (fun b => 0 <= count b) (buckets ctx);
  hw_total : counts (buckets ctx) = totalCount ctx;
  hw_miss : 0 <= bucketMissCount ctx;
  hw_times : timeval_wf (intervalLast ctx) /\ timeval_wf (cumulativeLast ctx) /\ timeval_wf (sampleLast ctx)
}.

(** The samples seen. *)
Definition seen (ctx : ltn_histogram_s) : Z := totalCount ctx + bucketMissCount ctx.

Lemma bucket_index ctx ms : hist_wf ctx -> minValMs ctx <= ms <= maxValMs ctx ->
  ltn_histogram_bucket ctx ms = Z.to_nat (ms - minValMs ctx).
Proof. intros [] Hms. unfold ltn_histogram_bucket. by rewrite u32_id, u64_id by lia. Qed.

Lemma bucket_exists ctx ms : hist_wf ctx -> minValMs ctx <= ms <= maxValMs ctx ->
  exists b, buckets ctx !! ltn_histogram_bucket ctx ms = Some b /\ 0 <= count b <= totalCount ctx.
Proof.
  intros Hwf Hms. rewrite bucket_index by done. destruct Hwf. unfold len in *.
  destruct (lookup_lt_is_Some_2 (buckets ctx) (Z.to_nat (ms - minValMs ctx))) as [b Hb]; [lia|].
  exists b. split; [done|]. rewrite <- hw_total0. by eapply counts_bound.
Qed.

Lemma total_nonneg ctx : hist_wf ctx -> 0 <= totalCount ctx.
Proof.
  intros Hwf. destruct (bucket_exists ctx (minValMs ctx) Hwf) as (b & _ & Hb); [|lia].
  destruct Hwf. lia.
Qed.

Lemma hist_miss_wf ctx : hist_wf ctx -> bucketMissCount ctx + 1 < 2 ^ 64 ->
  hist_wf (hist_miss ctx) /\ seen (hist_miss ctx) = seen ctx + 1 /\
  totalCount (hist_miss ctx) = totalCount ctx.
Proof.
  intros [] Hm. destruct ctx; unfold seen, hist_miss in *; cbn in *. unfold const.
  rewrite u64_id by lia.
  split; [by constructor; cbn; unfold const; try lia|split; cbn; unfold const; lia].
Qed.

(** The buckets after a hit: one more in the bucket of the value. *)
Lemma hist_hit_spec now ctx ms :
  hist_wf ctx -> minValMs ctx <= ms <= maxValMs ctx -> totalCount ctx + 1 < 2 ^ 64 ->
  exists ctx' b, hist_hit now ctx ms = Some ctx' /\ hist_wf ctx' /\
    totalCount ctx' = totalCount ctx + 1 /\ bucketMissCount ctx' = bucketMissCount ctx /\
    cumulativeMs ctx' = cumulativeMs ctx /\ sampleMs ctx' = sampleMs ctx /\
    buckets ctx !! Z.to_nat (ms - minValMs ctx) = Some b /\
    buckets ctx' = <[Z.to_nat (ms - minValMs ctx) := Bucket (count b + 1) now]> (buckets ctx).
Proof.
  intros Hwf Hms Ht. destruct (bucket_exists ctx ms Hwf Hms) as (b & Hb & Hc).
  unfold hist_hit. rewrite Hb. cbn [mbind option_bind]. rewrite u64_id by lia.
  rewrite bucket_index in * by done. eexists _, b. split; [reflexivity|].
  destruct ctx; destruct Hwf; cbn in *; unfold const.
  split; [constructor; cbn; unfold const; try done|by repeat split].
  - rewrite len_insert. lia.
  - apply Forall_insert; [done|]. cbn. lia.
  - rewrite (counts_insert _ _ _ _ Hb). cbn [count]. lia.
Qed.

(** ** A run of operations *)

Inductive hist_op :=
| OpValue (now : timeval) (diffMs : Z)
| OpInterval (timestamp : timeval)
| OpCumulativeInitialize
| OpCumulativeBegin (now : timeval)
| OpCumulativeEnd (now : timeval)
| OpCumulativeFinalize (now : timeval)
| OpSampleBegin (now : timeval)
| OpSampleEnd (now now' : timeval)
| OpReset (now : timeval).

Definition hist_step (ctx : ltn_histogram_s) (op : hist_op) : option ltn_histogram_s :=
  match op with
  | OpValue now d => fst <$> ltn_histogram_interval_update_with_value now ctx d
  | OpInterval ts => fst <$> ltn_histogram_interval_update ctx ts
  | OpCumulativeInitialize => Some (ltn_histogram_cumulative_initialize ctx)
  | OpCumulativeBegin now => Some (ltn_histogram_cumulative_begin now ctx)
  | OpCumulativeEnd now => fst <$> ltn_histogram_cumulative_end now ctx
  | OpCumulativeFinalize now => fst <$> ltn_histogram_cumulative_finalize now ctx
  | OpSampleBegin now => Some (ltn_histogram_sample_begin now ctx)
  | OpSampleEnd now now' => fst <$> ltn_histogram_sample_end now now' ctx
  | OpReset now => Some (ltn_histogram_reset now ctx)
  end.

Fixpoint hist_run (ctx : ltn_histogram_s) (ops : list hist_op) : option ltn_histogram_s :=
  match ops with
  | [] => Some ctx
  | op :: ops => ctx ← hist_step ctx op; hist_run ctx ops
  end.

(** The samples recorded since the last reset. *)
Definition recorded (n : Z) (op : hist_op) : Z :=
  match op with
  | OpValue _ _ | OpInterval _ | OpCumulativeFinalize _ | OpSampleEnd _ _ => n + 1
  | OpReset _ => 0
  | _ => n
  end.

Definition op_wf (op : hist_op) : Prop :=
  match op with
  | OpValue _ d => 0 <= d < 2 ^ 32
  | OpInterval t | OpCumulativeBegin t | OpCumulativeEnd t | OpSampleBegin t | OpSampleEnd t _
  | OpReset t => timeval_wf t
  | OpCumulativeInitialize | OpCumulativeFinalize _ => True
  end.

(** The well-formedness is that of the counting fields alone. *)
Lemma hist_wf_fields ctx ctx' :
  hist_wf ctx -> minValMs ctx' = minValMs ctx -> maxValMs ctx' = maxValMs ctx ->
  buckets ctx' = buckets ctx -> bucketCount ctx' = bucketCount ctx ->
  totalCount ctx' = totalCount ctx -> bucketMissCount ctx' = bucketMissCount ctx ->
  timeval_wf (intervalLast ctx') /\ timeval_wf (cumulativeLast ctx') /\ timeval_wf (sampleLast ctx') ->
  hist_wf ctx' /\ seen ctx' = seen ctx.
Proof.
  intros [] E1 E2 E3 E4 E5 E6 Ht.
  split; [|unfold seen; lia]. constructor; rewrite ?E1, ?E2, ?E3, ?E4, ?E5, ?E6; done.
Qed.

Lemma subtract_ms_defined x y : timeval_wf x -> timeval_wf y ->
  exists d, ltn_timeval_subtract_ms x y = Some d.
Proof.
  intros [] []. unfold ltn_timeval_subtract_ms, ltn_timeval_to_ms.
  rewrite !Z.quot_div_nonneg by lia.
  assert (0 <= tv_usec x / 1000 < 1000 /\ 0 <= tv_usec y / 1000 < 1000) as [] by zlia.
  iok. eauto.
Qed.

(** Recording a value counts it, in range or not. *)
Lemma hist_record_spec now ctx ms :
  hist_wf ctx -> seen ctx + 1 < 2 ^ 64 ->
  exists ctx', (if hist_out_of_range ctx ms then Some (hist_miss ctx) else hist_hit now ctx ms) = Some ctx' /\
    hist_wf ctx' /\ seen ctx' = seen ctx + 1.
Proof.
  intros Hwf Hs. pose proof (total_nonneg ctx Hwf). pose proof (hw_miss ctx Hwf).
  unfold hist_out_of_range, seen in *. destruct (_ || _) eqn:E.
  - destruct (hist_miss_wf ctx Hwf) as (Hwf' & Hs' & _); [lia|]. eauto.
  - zbool. destruct (hist_hit_spec now ctx ms Hwf) as (ctx' & b & E' & Hwf' & Ht & Hm & _); [lia..|].
    exists ctx'. split; [done|]. split; [done|lia].
Qed.

Lemma hist_reset_wf now ctx : hist_wf ctx -> timeval_wf now ->
  hist_wf (ltn_histogram_reset now ctx) /\ seen (ltn_histogram_reset now ctx) = 0.
Proof.
  intros [] Hn. destruct ctx; cbn in *. split; [|done].
  constructor; cbn; unfold const; try done; try tauto.
  - rewrite len_replicate by lia. lia.
  - by apply Forall_replicate.
  - apply counts_zero.
Qed.

(** An operation that changes no counting field. *)
Ltac same_counts Hwf :=
  eexists; split; [reflexivity|];
  match type of Hwf with hist_wf ?ctx =>
    apply (hist_wf_fields ctx); [exact Hwf|destruct Hwf, ctx; cbn in *; unfold const; try done; tauto..]
  end.

Lemma hist_step_spec ctx op :
  hist_wf ctx -> op_wf op -> seen ctx + 1 < 2 ^ 64 ->
  exists ctx', hist_step ctx op = Some ctx' /\ hist_wf ctx' /\ seen ctx' = recorded (seen ctx) op.
Proof.
  intros Hwf Hop Hs. pose proof (hw_times ctx Hwf) as (Hti & Htc & Hts).
  destruct op as [now d|ts| |now|now|now|now|now now'|now]; cbn [hist_step recorded op_wf] in *.
  - unfold ltn_histogram_interval_update_with_value.
    destruct (hist_record_spec now ctx d Hwf Hs) as (ctx' & E & H).
    exists ctx'. split; [|done]. destruct (hist_out_of_range ctx d); cbn; [congruence|by rewrite E].
  - unfold ltn_histogram_interval_update.
    destruct (subtract_ms_defined ts (intervalLast ctx)) as [d ->]; [done..|]. cbn [mbind option_bind].
    assert (hist_wf (ctx <| intervalLast := ts |>) /\ seen (ctx <| intervalLast := ts |>) = seen ctx) as [Hwf1 Hs1]
      by (apply (hist_wf_fields ctx); [exact Hwf|destruct ctx; done..]).
    cbv zeta. destruct (hist_record_spec ts _ (u32 d) Hwf1) as (ctx' & E & Hwf' & Hs'); [lia|].
    exists ctx'. split; [|split; [done|lia]].
    destruct (hist_out_of_range _ _); cbn [fmap option_fmap option_map fst]; [by injection E as ->|by rewrite E].
  - same_counts Hwf.
  - same_counts Hwf.
  - unfold ltn_histogram_cumulative_end.
    destruct (subtract_ms_defined now (cumulativeLast ctx)) as [d ->]; [done..|]. cbn [mbind option_bind].
    same_counts Hwf.
  - unfold ltn_histogram_cumulative_finalize.
    destruct (hist_record_spec now ctx (cumulativeMs ctx) Hwf Hs) as (ctx' & -> & H).
    by exists ctx'.
  - same_counts Hwf.
  - unfold ltn_histogram_sample_end.
    destruct (subtract_ms_defined now (sampleLast ctx)) as [d ->]; [done..|]. cbn [mbind option_bind].
    assert (hist_wf (ctx <| sampleMs := u64 d |>) /\ seen (ctx <| sampleMs := u64 d |>) = seen ctx) as [Hwf1 Hs1]
      by (apply (hist_wf_fields ctx); [exact Hwf|destruct ctx; done..]).
    cbv zeta. destruct (hist_record_spec now' _ (sampleMs (ctx <| sampleMs := u64 d |>)) Hwf1) as (ctx' & E & Hwf' & Hs'); [lia|].
    rewrite E. exists ctx'. split; [done|]. split; [done|lia].
  - destruct (hist_reset_wf now ctx Hwf Hop) as [Hwf' Hs']. eauto.
Qed.

Lemma hist_alloc_wf now name lo hi :
  0 <= lo < hi -> hi < 2 ^ 32 - 1 -> timeval_wf now ->
  exists ctx, ltn_histogram_alloc true true now (Some name) lo hi = Some ctx /\ hist_wf ctx /\
    seen ctx = 0 /\ minValMs ctx = lo /\ maxValMs ctx = hi /\ bucketCount ctx = hi - lo + 1 /\
    buckets ctx = replicate (Z.to_nat (hi - lo + 1)) bucket_zero /\ totalCount ctx = 0.
Proof.
  intros Hlo Hhi Hn. unfold ltn_histogram_alloc. zdec. cbn [negb]. cbv zeta.
  rewrite u32_id by lia. eexists. split; [reflexivity|]. split; [|done].
  constructor; cbn; unfold const; try done; try lia.
  - rewrite len_replicate; lia.
  - by apply Forall_replicate.
  - apply counts_zero.
Qed.

Lemma recorded_le n ops : 0 <= n -> 0 <= List.fold_left recorded ops n <= n + len ops.
Proof.
  revert n. induction ops as [|op ops IH]; intros n Hn; cbn [List.fold_left].
  { unfold len. cbn. lia. }
  rewrite len_cons.
  assert (0 <= recorded n op <= n + 1) by (destruct op; cbn; lia).
  specialize (IH (recorded n op)). lia.
Qed.

Lemma hist_run_spec ops ctx :
  hist_wf ctx -> Forall op_wf ops -> seen ctx + len ops < 2 ^ 64 ->
  exists ctx', hist_run ctx ops = Some ctx' /\ hist_wf ctx' /\
    seen ctx' = List.fold_left recorded ops (seen ctx).
Proof.
  revert ctx. induction ops as [|op ops IH]; intros ctx Hwf Hops Hlen; [by exists ctx|].
  apply Forall_cons_1 in Hops as [Hop Hops]. rewrite len_cons in Hlen. pose proof (len_nonneg ops).
  destruct (hist_step_spec ctx op Hwf Hop) as (ctx1 & E1 & Hwf1 & Hs1); [lia|].
  assert (0 <= seen ctx) by (pose proof (total_nonneg ctx Hwf); pose proof (hw_miss ctx Hwf); unfold seen in *; lia).
  destruct (IH ctx1 Hwf1 Hops) as (ctx' & E' & H'); [rewrite Hs1; destruct op; cbn; lia|].
  exists ctx'. cbn [hist_run List.fold_left]. rewrite E1, <- Hs1. done.
Qed.

(** A histogram loses no sample: from its allocation, any sequence of
    operations is handled within the bucket array, the counts of the buckets
    add up to the total, and the total plus the misses is the number of samples
    recorded since the last reset. *)
Theorem histogram_counts_samples now name lo hi ops :
  0 <= lo < hi -> hi < 2 ^ 32 - 1 -> timeval_wf now -> Forall op_wf ops -> len ops < 2 ^ 64 ->
  exists ctx ctx', ltn_histogram_alloc true true now (Some name) lo hi = Some ctx /\
    hist_run ctx ops = Some ctx' /\ len (buckets ctx') = maxValMs ctx' - minValMs ctx' + 1 /\
    counts (buckets ctx') = totalCount ctx' /\
    totalCount ctx' + bucketMissCount ctx' = List.fold_left recorded ops 0.
Proof.
  intros Hlo Hhi Hn Hops Hlen.
  destruct (hist_alloc_wf now name lo hi Hlo Hhi Hn) as (ctx & E & Hwf & Hs & _).
  destruct (hist_run_spec ops ctx Hwf Hops) as (ctx' & E' & [] & Hs'); [lia|].
  exists ctx, ctx'. rewrite Hs in Hs'. by repeat split.
Qed.

Definition sample_ops : list hist_op :=
  [OpValue (Timeval 10 0) 3; OpInterval (Timeval 10 4000); OpSampleBegin (Timeval 11 0);
   OpSampleEnd (Timeval 11 5000) (Timeval 11 5001); OpCumulativeBegin (Timeval 12 0);
   OpCumulativeEnd (Timeval 12 9000); OpCumulativeFinalize (Timeval 12 9001)].

Lemma histogram_counts_samples_witness :
  exists ctx ctx',
    ltn_histogram_alloc true true (Timeval 10 0) (Some "frames"%string) 2 6 = Some ctx /\
    hist_run ctx sample_ops = Some ctx' /\ totalCount ctx' + bucketMissCount ctx' = 4 /\
    map count (buckets ctx') = [0; 1; 1; 1; 0].
Proof.
  destruct (histogram_counts_samples (Timeval 10 0) "frames" 2 6 sample_ops)
    as (ctx & ctx' & E & E' & _ & _ & Hs); try done.
  - repeat constructor; cbn; done.
  - exists ctx, ctx'. repeat split; [done..|exact Hs|].
    vm_compute in E. injection E as <-. vm_compute in E'. by injection E' as <-.
Defined.

(** ** The summary

    What bucket [k] of the summary holds: the count of its group if it is the
    last bucket of a group of [size], nothing otherwise. *)
Definition summary_value (size : Z) (src : list ltn_histogram_bucket_s) (k : Z) : Z :=
  if (k mod size =? size - 1) || (k =? len src - 1)
  then counts (take (Z.to_nat (k mod size + 1)) (drop (Z.to_nat (k - k mod size)) src))
  else 0.

Lemma counts_take_le l n : Forall (fun b => 0 <= count b) l -> 0 <= counts (take n l) <= counts l.
Proof.
  intros Hl. rewrite <- (take_drop n l) in Hl at 1. apply Forall_app in Hl as [H1 H2].
  rewrite <- (take_drop n l) at 3. rewrite counts_app.
  pose proof (counts_nonneg _ H1). pose proof (counts_nonneg _ H2). lia.
Qed.

Lemma counts_slice_le l a b : Forall (fun b => 0 <= count b) l ->
  0 <= counts (take a (drop b l)) <= counts l.
Proof.
  intros Hl. pose proof (counts_take_le (drop b l) a (Forall_drop _ _ _ Hl)).
  rewrite <- (take_drop b l) in Hl at 1. apply Forall_app in Hl as [H1 _].
  rewrite <- (take_drop b l) at 3. rewrite counts_app. pose proof (counts_nonneg _ H1). lia.
Qed.

Lemma summary_group_spec fuel ctx bm j d hb b :
  hist_wf ctx -> totalCount ctx < 2 ^ 63 -> minValMs ctx <= j <= bm + 1 -> bm <= maxValMs ctx ->
  (Z.to_nat (bm - j + 1) < fuel)%nat -> hb !! d = Some b -> 0 <= count b < 2 ^ 63 ->
  let sum := counts (take (Z.to_nat (bm - j + 1)) (drop (Z.to_nat (j - minValMs ctx)) (buckets ctx))) in
  count b + sum < 2 ^ 63 ->
  exists b', summary_group fuel ctx bm j d hb = Some (<[d := b']> hb) /\ count b' = count b + sum.
Proof.
  intros Hwf Ht. revert j hb b. induction fuel as [|fuel IH]; intros j hb b Hj Hbm Hf Hb Hc sum Hs; [lia|].
  cbn [summary_group]. destruct (Z.leb_spec j bm) as [Hle|Hgt].
  - destruct (bucket_exists ctx j Hwf) as (src & Hsrc & Hcs); [lia|]. rewrite Hsrc, Hb.
    cbn [mbind option_bind]. cbv zeta. rewrite bucket_index in Hsrc by (done || lia).
    assert (sum = count src +
      counts (take (Z.to_nat (bm - (j + 1) + 1)) (drop (Z.to_nat (j + 1 - minValMs ctx)) (buckets ctx)))) as Esum.
    { unfold sum. rewrite (drop_S _ _ _ Hsrc).
      replace (Z.to_nat (bm - j + 1)) with (S (Z.to_nat (bm - (j + 1) + 1))) by lia.
      rewrite firstn_cons, counts_cons. do 4 f_equal; lia. }
    pose proof (counts_slice_le (buckets ctx) (Z.to_nat (bm - (j + 1) + 1)) (Z.to_nat (j + 1 - minValMs ctx)) (hw_pos ctx Hwf)).
    pose proof (hw_range ctx Hwf). rewrite !u64_id by lia.
    match goal with |- context [<[d := Bucket ?c ?u]> hb] =>
      destruct (IH (j + 1) (<[d := Bucket c u]> hb) (Bucket c u)) as (b' & -> & Hb') end;
      [lia|lia|lia|apply list_lookup_insert_eq; by eapply lookup_lt_Some|cbn [count]; lia..|].
    exists b'. rewrite list_insert_insert_eq. split; [done|]. rewrite Hb'. cbn [count]. lia.
  - exists b. rewrite list_insert_id by done. split; [done|].
    unfold sum. replace (Z.to_nat (bm - j + 1)) with 0%nat by lia. rewrite take_0. change (counts []) with 0. lia.
Qed.

Lemma summary_value_range ctx size k :
  hist_wf ctx -> 0 <= summary_value size (buckets ctx) k <= totalCount ctx.
Proof.
  intros Hwf. unfold summary_value. case_if; [|split; [done|by apply total_nonneg]].
  rewrite <- (hw_total ctx Hwf). apply counts_slice_le, Hwf.
Qed.

(** The buckets of a summary in progress: final below [n], empty from there. *)
Record summarised (size : Z) (src hb : list ltn_histogram_bucket_s) (n : Z) : Prop := {
  su_len : len hb = len src;
  su_done : forall k, 0 <= k < n -> exists b, hb !! Z.to_nat k = Some b /\ count b = summary_value size src k;
  su_rest : forall k, n <= k < len hb -> exists b, hb !! Z.to_nat k = Some b /\ count b = 0;
  su_counts : counts hb = counts (take (Z.to_nat n) src)
}.

(** One group: from [g * size] to the bucket of [bm], inclusive. *)
Lemma summarised_group size src hb g n b b' :
  0 < size -> 0 <= g -> summarised size src hb (g * size) ->
  g * size < n <= len src -> n = g * size + size \/ n = len src /\ n - g * size < size ->
  hb !! Z.to_nat (n - 1) = Some b ->
  count b' = counts (take (Z.to_nat (n - g * size)) (drop (Z.to_nat (g * size)) src)) ->
  summarised size src (<[Z.to_nat (n - 1) := b']> hb) n.
Proof.
  intros Hsz Hg [Hl Hd Hr Hc] Hn Hend Hb Hb'.
  assert (forall k, g * size <= k < n -> k mod size = k - g * size) as Hmod.
  { intros k Hk. symmetry. apply Z.mod_unique with g; [left|]; lia. }
  constructor; [by rewrite len_insert| | |].
  - intros k Hk. destruct (Z.eq_dec k (n - 1)) as [->|Hne].
    + exists b'. unfold len in *. rewrite list_lookup_insert_eq by lia. split; [done|].
      unfold summary_value, len. rewrite Hmod by lia.
      replace (_ || _) with true by (symmetry; apply orb_true_iff; lia).
      rewrite Hb'. do 2 f_equal; [lia|]. f_equal. lia.
    + rewrite list_lookup_insert_ne by lia. destruct (Z.ltb_spec k (g * size)); [apply Hd; lia|].
      destruct (Hr k) as (b0 & Hb0 & H0); [lia|]. exists b0. split; [done|].
      rewrite H0. unfold summary_value. rewrite Hmod by lia.
      replace (_ || _) with false by (symmetry; apply orb_false_iff; lia). done.
  - intros k Hk. rewrite len_insert in Hk. rewrite list_lookup_insert_ne by lia. apply Hr. lia.
  - rewrite (counts_insert _ _ _ _ Hb), Hc, Hb'.
    destruct (Hr (n - 1)) as (b0 & Hb0 & H0); [lia|]. assert (b0 = b) as -> by congruence.
    replace (Z.to_nat n) with (Z.to_nat (g * size) + Z.to_nat (n - g * size))%nat by lia.
    rewrite <- take_take_drop, counts_app. lia.
Qed.

Lemma summary_bucketMax_spec ctx i size :
  hist_wf ctx -> minValMs ctx <= i <= maxValMs ctx -> 0 < size < 2 ^ 32 ->
  summary_bucketMax ctx i size = Z.min (i + size - 1) (maxValMs ctx).
Proof.
  intros [] Hi Hs. unfold summary_bucketMax. rewrite u64_id by lia.
  destruct (_ || _) eqn:E; zbool; lia.
Qed.

Lemma summary_loop_spec fuel ctx h size g :
  hist_wf ctx -> totalCount ctx < 2 ^ 63 -> 0 < size < 2 ^ 32 -> 0 <= g ->
  minValMs h = minValMs ctx -> hist_wf ctx ->
  minValMs ctx + g * size <= maxValMs ctx -> (Z.to_nat (maxValMs ctx - (minValMs ctx + g * size)) < fuel)%nat ->
  summarised size (buckets ctx) (buckets h) (g * size) ->
  exists h', summary_loop fuel ctx size (minValMs ctx + g * size) h = Some h' /\
    summarised size (buckets ctx) (buckets h') (len (buckets ctx)).
Proof.
  intros Hwf Ht Hsz. revert g h. induction fuel as [|fuel IH]; intros g h Hg Hmin _ Hi Hf Hsu; [lia|].
  cbn [summary_loop]. set (i := minValMs ctx + g * size) in *.
  rewrite (proj2 (Z.leb_le i (maxValMs ctx))) by lia. cbv zeta.
  assert (0 <= g * size) by nia.
  rewrite summary_bucketMax_spec by (done || lia). set (bm := Z.min (i + size - 1) (maxValMs ctx)).
  pose proof (hw_range ctx Hwf). pose proof (hw_len ctx Hwf) as Hlen.
  replace (ltn_histogram_bucket h bm) with (Z.to_nat (bm - minValMs ctx + 1 - 1))
    by (unfold ltn_histogram_bucket; rewrite Hmin, u32_id, u64_id by lia; f_equal; lia).
  pose proof (su_len _ _ _ _ Hsu) as Hlh.
  destruct (su_rest _ _ _ _ Hsu (bm - minValMs ctx)) as (b & Hb & Hb0); [unfold i in *; lia|].
  replace (bm - minValMs ctx + 1 - 1) with (bm - minValMs ctx) by lia.
  pose proof (counts_slice_le (buckets ctx) (Z.to_nat (bm - i + 1)) (Z.to_nat (i - minValMs ctx)) (hw_pos ctx Hwf)) as Hsl.
  rewrite (hw_total ctx Hwf) in Hsl.
  destruct (summary_group_spec (S (S (Z.to_nat (bm - i)))) ctx bm i (Z.to_nat (bm - minValMs ctx)) (buckets h) b)
    as (b' & -> & Hb'); try done; try (unfold i in *; lia).
  cbn [mbind option_bind].
  assert (summarised size (buckets ctx) (<[Z.to_nat (bm - minValMs ctx) := b']> (buckets h)) (bm - minValMs ctx + 1)) as Hsu'.
  { replace (Z.to_nat (bm - minValMs ctx)) with (Z.to_nat (bm - minValMs ctx + 1 - 1)) by lia.
    apply (summarised_group _ _ _ g _ b); try done; try (unfold i in *; lia).
    - replace (bm - minValMs ctx + 1 - 1) with (bm - minValMs ctx) by lia. done.
    - rewrite Hb', Hb0. unfold i in *. rewrite Z.add_0_l. do 2 f_equal; [lia|]. f_equal. lia. }
  rewrite u64_id by lia. destruct (Z.ltb_spec (maxValMs ctx - i) size) as [Hlast|Hmore].
  - eexists. split; [reflexivity|]. destruct h; cbn; unfold const. rewrite Hlen.
    replace (maxValMs ctx - minValMs ctx + 1) with (bm - minValMs ctx + 1) by lia. done.
  - rewrite u64_id by lia. replace (i + size) with (minValMs ctx + (g + 1) * size) by (unfold i; lia).
    apply IH; try done; try (unfold i in *; lia). destruct h; cbn; unfold const.
    cbn in Hsu'. replace ((g + 1) * size) with (bm - minValMs ctx + 1) by (unfold i in *; lia). done.
Qed.

(** The summary of a histogram into groups of [size] milliseconds ends,
    stays within the bucket arrays, and puts the count of every group, the
    last one possibly shorter, in the bucket of its last value: no sample is
    lost or counted twice. *)
Theorem histogram_summary_correct now ctx size :
  hist_wf ctx -> totalCount ctx < 2 ^ 63 -> maxValMs ctx < 2 ^ 32 - 1 ->
  (String.length (hist_name ctx) < 128)%nat -> timeval_wf now -> 0 < size < 2 ^ 32 ->
  exists h, ltn_histogram_summary true true now ctx 0 size = Some (ctx, Some h) /\
    (forall k, 0 <= k < len (buckets ctx) -> exists b, buckets h !! Z.to_nat k = Some b /\
       count b = summary_value size (buckets ctx) k) /\
    counts (buckets h) = counts (buckets ctx) /\
    totalCount h = totalCount ctx /\ bucketMissCount h = bucketMissCount ctx.
Proof.
  intros Hwf Ht Hmax Hname Hnow Hsz. unfold ltn_histogram_summary. zdec. cbn [mbind option_bind].
  destruct (Nat.leb_spec 128 (String.length (hist_name ctx))); [lia|].
  pose proof (hw_range ctx Hwf). pose proof (hw_len ctx Hwf) as Hlen.
  match goal with |- context [ltn_histogram_alloc _ _ _ (Some ?n) _ _] =>
    destruct (hist_alloc_wf now n (minValMs ctx) (maxValMs ctx))
      as (h0 & E0 & _ & _ & Hm0 & _ & _ & Hb0 & _); [lia..|done|] end.
  cbv zeta. rewrite E0.
  destruct (summary_loop_spec (S (Z.to_nat (maxValMs ctx - minValMs ctx))) ctx h0 size 0) as (h & E & Hsu);
    try done; try lia.
  { rewrite Hb0. constructor; rewrite ?len_replicate by lia; try lia.
    - intros k Hk. exists bucket_zero. split; [apply lookup_replicate_2; lia|done].
    - by rewrite counts_zero, take_0. }
  rewrite Z.add_0_r in E. rewrite E. cbn [mbind option_bind]. eexists. split; [reflexivity|].
  destruct Hsu as [_ Hd _ Hc]. destruct h; cbn in *; unfold const. repeat split; [exact Hd|].
  rewrite Hc. unfold len. by rewrite Nat2Z.id, firstn_all.
Qed.

Lemma histogram_summary_correct_witness :
  exists h0 h1 h,
    ltn_histogram_alloc true true (Timeval 10 0) (Some "frames"%string) 2 8 = Some h0 /\
    hist_run h0 (map (OpValue (Timeval 10 0)) [2; 3; 3; 5; 8; 8; 8]) = Some h1 /\
    ltn_histogram_summary true true (Timeval 11 0) h1 0 3 = Some (h1, Some h) /\
    map count (buckets h1) = [1; 2; 0; 1; 0; 0; 3] /\ map count (buckets h) = [0; 0; 3; 0; 0; 1; 3].
Proof.
  destruct (hist_alloc_wf (Timeval 10 0) "frames" 2 8) as (h0 & E0 & Hwf0 & Hs0 & _); [done..|].
  assert (exists h1, hist_run h0 (map (OpValue (Timeval 10 0)) [2; 3; 3; 5; 8; 8; 8]) = Some h1 /\ hist_wf h1)
    as (h1 & E1 & Hwf1).
  { destruct (hist_run_spec (map (OpValue (Timeval 10 0)) [2; 3; 3; 5; 8; 8; 8]) h0 Hwf0)
      as (h1 & E1 & Hwf1 & _); [by repeat constructor|by rewrite Hs0|by exists h1]. }
  exists h0, h1. vm_compute in E0. injection E0 as <-. vm_compute in E1. injection E1 as <-.
  match goal with |- context [ltn_histogram_summary _ _ _ ?c 0 3] =>
    destruct (histogram_summary_correct (Timeval 11 0) c 3 Hwf1) as (h & E & _) end;
    [by vm_compute..|cbn; lia|by vm_compute|by vm_compute|].
  exists h. repeat split; [exact E|]. vm_compute in E. by injection E as <-.
Defined.
