(* ===== verification/HistoryMetric.v ===== *)
(** * Metric history: src/history-metric.c

    A collection holds counts with their times, newest first: the intrusive
    list of the C code is the list of its entries.  [time] is an input of the
    operations that call it; the lock serialises whole operations and is left
    out.  [None] is a use of freed memory. *)
From Stdlib Require Import ZArith Lia Bool String.
From stdpp Require Import base numbers list option.
From coqutil Require Import Datatypes.RecordSettersUsingExistingGetters.
From S2P Require Import Prelude Clock.

Record ltntstools_history_metric_s := Metric { hm_ts : Z; hm_count : Z }.

Record ltntstools_history_metric_collection_s := {
  hm_list : list ltntstools_history_metric_s;
  hm_name : string;
  hm_wasAlloc : Z
}.

Definition ltntstools_history_metric_alloc (now value : Z) : ltntstools_history_metric_s :=
  Metric now value.

Definition ltntstools_history_metric_collection_init (name : option string)
    : option ltntstools_history_metric_collection_s :=
  match name with
  | None => None
  | Some name => Some {| hm_list := []; hm_name := name; hm_wasAlloc := 0 |}
  end.

Definition ltntstools_history_metric_collection_alloc (malloc_ok : bool) (name : option string)
    : option ltntstools_history_metric_collection_s :=
  match name with
  | None => None
  | Some name =>
      if malloc_ok then
        c ← ltntstools_history_metric_collection_init (Some name);
        Some (c <| hm_wasAlloc := 1 |>)
      else None
  end.

(** The expiry loop over the entries still to visit.  What it unlinks and
    frees for an old entry is the entry just added: [live] tells whether that
    one has not been freed yet. *)
Fixpoint expire_loop (window : Z) (live : bool) (l : list ltntstools_history_metric_s) : option bool :=
  match l with
  | [] => Some live
  | e :: l =>
      if hm_ts e <? window then
        if live then expire_loop window false l else None
      else expire_loop window live l
  end.

Definition ltntstools_history_metric_collection_add (now : Z)
    (c : ltntstools_history_metric_collection_s) (m : ltntstools_history_metric_s)
    : option ltntstools_history_metric_collection_s :=
  window ← i64_ok (now - 25 * 60 * 60);
  live ← expire_loop window true (m :: hm_list c);
  Some (c <| hm_list := if live : bool then m :: hm_list c else hm_list c |>).

Definition ltntstools_history_metric_collection_reset (c : ltntstools_history_metric_collection_s)
    : ltntstools_history_metric_collection_s := c <| hm_list := [] |>.

Fixpoint count_loop (now window total : Z) (l : list ltntstools_history_metric_s) : Z :=
  match l with
  | [] => total
  | m :: l => count_loop now window (if now <=? window then u64 (total + hm_count m) else total) l
  end.

Definition ltntstools_history_metric_collection_count_until (now window : Z)
    (c : ltntstools_history_metric_collection_s) : Z := count_loop now window 0 (hm_list c).

(** [now'] is read first, for the window, and [now] in the callee. *)
Definition ltntstools_history_metric_collection_count_until_1hr (now' now : Z)
    (c : ltntstools_history_metric_collection_s) : option Z :=
  window ← i64_ok (now' - 3600);
  Some (ltntstools_history_metric_collection_count_until now window c).

Definition ltntstools_history_metric_collection_count_until_24hr (now' now : Z)
    (c : ltntstools_history_metric_collection_s) : option Z :=
  window ← i64_ok (now' - 86400);
  Some (ltntstools_history_metric_collection_count_until now window c).

(** ** What the collection does *)

Definition old (window : Z) (m : ltntstools_history_metric_s) : Prop := hm_ts m < window.
#[global] Instance old_dec window m : Decision (old window m) := decide (hm_ts m < window).

(** The entries the expiry is meant to remove. *)
Definition expired (now : Z) (l : list ltntstools_history_metric_s) : list ltntstools_history_metric_s :=
  filter (old (now - 90000)) l.

Lemma expire_loop_spec window live l :
  expire_loop window live l =
    match filter (old window) l with
    | [] => Some live
    | [_] => if live then Some false else None
    | _ => None
    end.
Proof.
  revert live. induction l as [|e l IH]; intros live; [done|].
  cbn [expire_loop]. rewrite filter_cons.
  destruct (Z.ltb_spec (hm_ts e) window) as [H|H];
    [rewrite decide_True by done|rewrite decide_False by (unfold old; lia); apply IH].
  destruct live; rewrite ?IH; [|by destruct (filter _ _)].
  by destruct (filter _ _) as [|? []].
Qed.

Lemma history_add_fresh now c m :
  0 <= now < 2 ^ 62 -> now - 90000 <= hm_ts m -> expired now (hm_list c) = [] ->
  ltntstools_history_metric_collection_add now c m = Some (c <| hm_list := m :: hm_list c |>).
Proof.
  intros Hnow Hm He. unfold ltntstools_history_metric_collection_add, expired in *. iok.
  rewrite expire_loop_spec. change (25 * 60 * 60) with 90000.
  rewrite filter_cons_False by (unfold old; lia). by rewrite He.
Qed.

(** While nothing in the collection is older than 25 hours a metric is
    added in front; one older entry makes the new metric disappear instead of
    it; with two, the loop unlinks memory it has freed. *)
Theorem history_add_spec now c m :
  0 <= now < 2 ^ 62 -> now - 90000 <= hm_ts m ->
  ltntstools_history_metric_collection_add now c m =
    match expired now (hm_list c) with
    | [] => Some (c <| hm_list := m :: hm_list c |>)
    | [_] => Some c
    | _ => None
    end.
Proof.
  intros Hnow Hm. unfold ltntstools_history_metric_collection_add. iok.
  rewrite expire_loop_spec. unfold expired. change (25 * 60 * 60) with 90000.
  rewrite filter_cons_False by (unfold old; lia).
  destruct (filter _ _) as [|? []]; [done| |done]. cbn. by destruct c.
Qed.

Lemma history_add_spec_witness :
  let c := {| hm_list := [Metric 1000 1]; hm_name := "cc"%string; hm_wasAlloc := 0 |} in
  ltntstools_history_metric_collection_add 2000 c (Metric 2000 1)
    = Some (c <| hm_list := [Metric 2000 1; Metric 1000 1] |>) /\
  ltntstools_history_metric_collection_add 100000 c (Metric 100000 1) = Some c /\
  ltntstools_history_metric_collection_add 100000 (c <| hm_list := [Metric 2000 1; Metric 1000 1] |>)
    (Metric 100000 1) = None.
Proof.
  intros c. split; [|split].
  - rewrite history_add_spec by by vm_compute. by vm_compute.
  - rewrite history_add_spec by by vm_compute. by vm_compute.
  - rewrite history_add_spec by by vm_compute. by vm_compute.
Defined.

Lemma count_loop_zero now window l : window < now -> count_loop now window 0 l = 0.
Proof. intros H. induction l as [|m l IH]; [done|]. cbn. by replace (now <=? window) with false by lia. Qed.

(** The counts of the last hour and of the last day are always zero: the loop
    compares the current time, not the time of the entry, with the window. *)
Lemma history_counts_nothing now' now c :
  0 <= now' <= now -> now < 2 ^ 62 ->
  ltntstools_history_metric_collection_count_until_1hr now' now c = Some 0 /\
  ltntstools_history_metric_collection_count_until_24hr now' now c = Some 0.
Proof.
  intros H Hn. unfold ltntstools_history_metric_collection_count_until_1hr,
    ltntstools_history_metric_collection_count_until_24hr, ltntstools_history_metric_collection_count_until.
  iok. by rewrite !count_loop_zero by lia.
Qed.
