(* ===== verification/Stats.v ===== *)
(** * Stream and PID statistics: src/stats.c, libltntstools/stats.h

    The state is the stream record with its table of PID records, a finite map
    from PID numbers.  The floating-point fields ([mbps], [a324_mbps], the
    measured [bitrate]) are not modelled, nor are the clocks of a PID other than
    the PCR clock, which stats.c does not use.  A call of a registered callback
    is recorded in [s_calls]; the callbacks receive constant pointers.

    What the environment answers during one call (times, success of the
    allocations) is the record [env].  [None] is undefined behaviour. *)
From Stdlib Require Import ZArith Lia Bool String.
From stdpp Require Import base numbers list option gmap.
From coqutil Require Import Datatypes.RecordSettersUsingExistingGetters.
From S2P Require Import Prelude Ts Clock Histogram HistoryMetric.

Definition MAX_PID : Z := 8192.

(** ** Continuity and payload unit checks *)

Definition ltntstools_isCCInError (pkt : list Z) (oldCC : Z) : Z :=
  let adap := ltntstools_adaption_field_control pkt in
  let cc := ltntstools_continuity_counter pkt in
  if ((adap =? 0) || (adap =? 2)) && (oldCC =? cc) then 0
  else if ((adap =? 1) || (adap =? 3)) && (oldCC =? cc) then 1
  else if Z.land (oldCC + 1) 0x0f =? cc then 0
  else 1.

Definition ltntstools_isPayloadPUSIInError (pkt : list Z) : Z :=
  let adap := ltntstools_adaption_field_control pkt in
  if ((adap =? 0) || (adap =? 2)) && negb (ltntstools_payload_unit_start_indicator pkt =? 0)
  then 1 else 0.

(** ** State *)

Inductive ltntstools_notification_event_e :=
| EVENT_UNDEFINED
| EVENT_UPDATE_PID_PUSI_DELIVERY_TIME
| EVENT_UPDATE_PID_PCR_EXCEEDS_40MS
| EVENT_UPDATE_PID_PCR_WALLTIME
| EVENT_UPDATE_STREAM_CC_COUNT
| EVENT_UPDATE_STREAM_TEI_COUNT
| EVENT_UPDATE_STREAM_SCRAMBLED_COUNT
| EVENT_UPDATE_STREAM_MBPS
| EVENT_UPDATE_PCR_MBPS
| EVENT_UPDATE_STREAM_IAT_HWM.

Definition event_nr (e : ltntstools_notification_event_e) : nat :=
  match e with
  | EVENT_UNDEFINED => 0
  | EVENT_UPDATE_PID_PUSI_DELIVERY_TIME => 1
  | EVENT_UPDATE_PID_PCR_EXCEEDS_40MS => 2
  | EVENT_UPDATE_PID_PCR_WALLTIME => 3
  | EVENT_UPDATE_STREAM_CC_COUNT => 4
  | EVENT_UPDATE_STREAM_TEI_COUNT => 5
  | EVENT_UPDATE_STREAM_SCRAMBLED_COUNT => 6
  | EVENT_UPDATE_STREAM_MBPS => 7
  | EVENT_UPDATE_PCR_MBPS => 8
  | EVENT_UPDATE_STREAM_IAT_HWM => 9
  end.

Definition EVENT_NOTIFICATION_MAX : nat := 10.

Record ltntstools_pid_statistics_s := {
  p_enabled : Z;
  p_pidNr : Z;
  p_packetCount : Z;
  p_ccErrors : Z;
  p_teiErrors : Z;
  p_scrambledCount : Z;
  p_pcrExceeds40ms : Z;
  p_prev_pcrExceeds40ms : Z;
  p_payloadPUSIErrors : Z;
  p_lastCC : Z;
  p_pps_last_update : Z;
  p_pps : Z;
  p_pps_window : Z;
  p_hasPCR : Z;
  p_seenPCR : Z;
  p_pcrclk : ltntstools_clock_s;
  p_pcrTickIntervals : option ltn_histogram_s;
  p_pcrWallDrift : option ltn_histogram_s;
  p_lastPCRWalltimeDriftMs : Z;
  p_pusi_time_first : timeval;
  p_pusi_time_current : timeval;
  p_pusi_time_ms : Z
}.

Record ltntstools_bc_ctx_s := {
  bc_running : Z;
  bc_pcrpidnr : Z;
  bc_pcrFirst : Z;
  bc_pcrSecond : Z;
  bc_packetsInbetween : Z;
  bc_ticksPerPCR : Z;
  bc_ticksPerPacket : Z;
  bc_stc : Z;
  bc_ccErrorsStreamLastWrite : Z
}.

(** [s_notifications] holds the user context of each registered callback. *)
Record ltntstools_stream_statistics_s := {
  s_pids : gmap Z ltntstools_pid_statistics_s;
  s_pidArray : list Z;
  s_packetCount : Z;
  s_teiErrors : Z;
  s_ccErrors : Z;
  s_ccErrorHistory : ltntstools_history_metric_collection_s;
  s_scrambledCount : Z;
  s_pcrExceeds40ms : Z;
  s_prev_pcrExceeds40ms : Z;
  s_payloadPUSIErrors : Z;
  s_pps_last_update : Z;
  s_pps : Z;
  s_pps_window : Z;
  s_a324_sequence_number : Z;
  s_Bps_last_update : Z;
  s_Bps : Z;
  s_Bps_window : Z;
  s_a324_bps : Z;
  s_last_cc_error : Z;
  s_notMultipleOfSevenError : Z;
  s_last_notMultipleOfSeven_error : Z;
  s_iat_lwm_us : Z;
  s_iat_hwm_us : Z;
  s_iat_cur_us : Z;
  s_iat_hwm_us_last_nsecond : Z;
  s_iat_hwm_us_last_nsecond_accumulator : Z;
  s_iat_hwm_us_last_nsecond_time : Z;
  s_iat_last_frame : timeval;
  s_packetIntervals : option ltn_histogram_s;
  s_notifications : list (option Z);
  s_bc_ctx : ltntstools_bc_ctx_s;
  s_calls : list (ltntstools_notification_event_e * option Z)
}.

(** [e_tv] and [e_now]: the readings at the start of a call; [e_hist]: the one
    of the interval histogram; [e_time k i], [e_wall i k], [e_alloc i k]: the
    readings and allocations for packet [i]. *)
Record env := {
  e_tv : timeval;
  e_now : Z;
  e_hist : timeval;
  e_time : nat -> Z -> Z;
  e_wall : Z -> nat -> timeval;
  e_alloc : Z -> nat -> bool
}.

(** ** Notifications *)

Definition ltntstools_notification_register_callback (s : ltntstools_stream_statistics_s)
    (e : ltntstools_notification_event_e) (userContext : Z) (cb_null : bool)
    : ltntstools_stream_statistics_s * Z :=
  if cb_null then (s, -1)
  else (s <| s_notifications := <[event_nr e := Some userContext]> (s_notifications s) |>, 0).

Definition ltntstools_notification_unregister_callback (s : ltntstools_stream_statistics_s)
    (e : ltntstools_notification_event_e) : ltntstools_stream_statistics_s :=
  s <| s_notifications := <[event_nr e := None]> (s_notifications s) |>.

Definition ltntstools_notification_unregister_callbacks (s : ltntstools_stream_statistics_s)
    : ltntstools_stream_statistics_s :=
  s <| s_notifications := replicate EVENT_NOTIFICATION_MAX None |>.

(** [if (stream->notifications[e].cb) stream->notifications[e].cb(...)] *)
Definition notify (e : ltntstools_notification_event_e) (pid : option Z)
    (s : ltntstools_stream_statistics_s) : ltntstools_stream_statistics_s :=
  match s_notifications s !! event_nr e with
  | Some (Some _) => s <| s_calls := s_calls s ++ [(e, pid)] |>
  | _ => s
  end.

(** ** PID records *)

(** The fields of the PCR clock a reset of the statistics clears. *)
Definition clock_forget (clk : ltntstools_clock_s) : ltntstools_clock_s :=
  clk <| drift_us_hwm := 0 |> <| drift_us_lwm := 0 |> <| establishedWT := 0 |>.

Definition ltntstools_pid_statistics_reset (now : timeval) (p : ltntstools_pid_statistics_s)
    : ltntstools_pid_statistics_s :=
  p <| p_enabled := 1 |>
    <| p_packetCount := 0 |>
    <| p_ccErrors := 0 |>
    <| p_teiErrors := 0 |>
    <| p_scrambledCount := 0 |>
    <| p_pcrExceeds40ms := 0 |>
    <| p_prev_pcrExceeds40ms := 0 |>
    <| p_payloadPUSIErrors := 0 |>
    <| p_lastCC := 0 |>
    <| p_pps_last_update := 0 |>
    <| p_pps := 0 |>
    <| p_pps_window := 0 |>
    <| p_pcrclk := clock_forget (p_pcrclk p) |>
    <| p_seenPCR := 0 |>
    <| p_lastPCRWalltimeDriftMs := 0 |>
    <| p_pusi_time_first := Timeval 0 0 |>
    <| p_pusi_time_current := Timeval 0 0 |>
    <| p_pusi_time_ms := 0 |>
    <| p_pcrTickIntervals := ltn_histogram_reset now <$> p_pcrTickIntervals p |>
    <| p_pcrWallDrift := ltn_histogram_reset now <$> p_pcrWallDrift p |>.

(** The memory of a [calloc]. *)
Definition clock_zero : ltntstools_clock_s :=
  {| establishedTimebase := 0; establishedWT := 0; type := CLOCK_TYPE_UNKNOWN; name := "";
     ticks_per_second := 0; currentTime_ticks := 0; monotonicTime_ticks := 0;
     monotonicReference_ticks := 0; clockWrapOccurences := 0; backwardJumpUnder500msCount := 0;
     forwardJumpOver200msCount := 0; discontinuityCount := 0; pendingDiscontinuity := 0;
     establishedTime_ticks := 0; establishedWalltime := Timeval 0 0; drift_us := 0;
     drift_us_lwm := 0; drift_us_hwm := 0; drift_us_max := 0; clockWrapValue := 0 |}.

Definition ltntstools_pid_statistics_alloc (ok : bool) (now : timeval) (pidNr : Z)
    : option ltntstools_pid_statistics_s :=
  if ok then
    Some (ltntstools_pid_statistics_reset now
      {| p_enabled := 0; p_pidNr := pidNr; p_packetCount := 0; p_ccErrors := 0; p_teiErrors := 0;
         p_scrambledCount := 0; p_pcrExceeds40ms := 0; p_prev_pcrExceeds40ms := 0;
         p_payloadPUSIErrors := 0; p_lastCC := 0; p_pps_last_update := 0; p_pps := 0;
         p_pps_window := 0; p_hasPCR := 0; p_seenPCR := 0; p_pcrclk := clock_zero;
         p_pcrTickIntervals := None; p_pcrWallDrift := None; p_lastPCRWalltimeDriftMs := 0;
         p_pusi_time_first := Timeval 0 0; p_pusi_time_current := Timeval 0 0; p_pusi_time_ms := 0 |})
  else None.

Definition ltntstools_pid_stats_get (s : option ltntstools_stream_statistics_s) (pidnr : Z)
    : option ltntstools_pid_statistics_s :=
  s ← s; s_pids s !! Z.land pidnr 0x1fff.

(** The array of the PIDs seen; [realloc_ok]: the array can grow. *)
Definition _pidArrayAdd (realloc_ok : bool) (s : ltntstools_stream_statistics_s) (pidNr : Z)
    : option ltntstools_stream_statistics_s :=
  if MAX_PID <=? len (s_pidArray s) then None
  else if negb realloc_ok then None
  else Some (s <| s_pidArray := s_pidArray s ++ [Z.land pidNr 0x1fff] |>).

(** ** The bitrate calculator *)

Definition ltntstools_bitrate_calculator_reset (bc : ltntstools_bc_ctx_s) : ltntstools_bc_ctx_s :=
  bc <| bc_pcrFirst := -1 |> <| bc_pcrSecond := -1 |> <| bc_packetsInbetween := 0 |>
     <| bc_running := 1 |>.

Definition ltntstools_bitrate_calculator_init (s : ltntstools_stream_statistics_s) (pcrpidnr : Z)
    : ltntstools_stream_statistics_s :=
  let bc := s_bc_ctx s in
  let bc := bc <| bc_pcrpidnr := pcrpidnr |> <| bc_ccErrorsStreamLastWrite := s_ccErrors s |> in
  s <| s_bc_ctx := ltntstools_bitrate_calculator_reset bc |>.

(** What the packet adds: a first or a second PCR. *)
Definition bitrate_take_pcr (bc : ltntstools_bc_ctx_s) (pkt : list Z) : ltntstools_bc_ctx_s :=
  match ltntstools_scr pkt with
  | None => bc
  | Some pcr =>
      if bc_pcrFirst bc =? -1 then bc <| bc_pcrFirst := i64 pcr |> <| bc_packetsInbetween := 0 |>
      else bc <| bc_pcrSecond := i64 pcr |> <| bc_stc := i64 pcr |>
  end.

(** The loop over packets [i], [i + 1], ...; [cc] is the error count of the
    stream, which the loop does not change. *)
Fixpoint bitrate_loop (fuel : nat) (cc : Z) (pkts : list Z) (packetCount i : Z)
    (bc : ltntstools_bc_ctx_s) (complete : bool) : option (ltntstools_bc_ctx_s * bool) :=
  match fuel with
  | O => None
  | S fuel' =>
      if packetCount <=? i then Some (bc, complete) else
      pkt ← rds pkts (i * 188) 188;
      if negb (bc_ccErrorsStreamLastWrite bc =? cc) then
        let bc := ltntstools_bitrate_calculator_reset bc in
        Some (bc <| bc_ccErrorsStreamLastWrite := cc |>, complete)
      else
      let bc := if (-1 <? bc_pcrFirst bc) && (bc_pcrSecond bc =? -1)
                then bc <| bc_packetsInbetween := u32 (bc_packetsInbetween bc + 1) |> else bc in
      if negb (ltntstools_pid pkt =? bc_pcrpidnr bc) && (bc_pcrFirst bc =? -1)
      then bitrate_loop fuel' cc pkts packetCount (i + 1) bc complete else
      let bc := bitrate_take_pcr bc pkt in
      if (-1 <? bc_pcrFirst bc) && (-1 <? bc_pcrSecond bc) then
        let ticksPerPCR := ltntstools_scr_diff (bc_pcrFirst bc) (bc_pcrSecond bc) in
        if (ticksPerPCR <=? 0) || (bc_packetsInbetween bc =? 0)
        then Some (ltntstools_bitrate_calculator_reset bc, complete) else
        let bc := bc <| bc_ticksPerPCR := ticksPerPCR |>
                     <| bc_ticksPerPacket := Z.quot ticksPerPCR (bc_packetsInbetween bc) |>
                     <| bc_running := 0 |> in
        bitrate_loop fuel' cc pkts packetCount (i + 1) (ltntstools_bitrate_calculator_reset bc) true
      else bitrate_loop fuel' cc pkts packetCount (i + 1) bc complete
  end.

Definition ltntstools_bitrate_calculator_write (s : ltntstools_stream_statistics_s) (pkts : list Z)
    (packetCount : Z) : option (ltntstools_stream_statistics_s * bool) :=
  let bc := s_bc_ctx s in
  d ← i64_ok (packetCount * bc_ticksPerPacket bc);
  stc ← i64_ok (bc_stc bc + d);
  let bc := bc <| bc_stc := stc |> in
  if bc_running bc =? 0 then Some (s <| s_bc_ctx := bc |>, false) else
  '(bc, complete) ← bitrate_loop (S (Z.to_nat packetCount)) (s_ccErrors s) pkts packetCount 0 bc false;
  Some (s <| s_bc_ctx := bc |>, complete).

Definition ltntstools_bitrate_calculator_query_ticks_per_packet
    (s : option ltntstools_stream_statistics_s) : option Z :=
  s ← s; Some (bc_ticksPerPacket (s_bc_ctx s)).

Definition ltntstools_bitrate_calculator_query_stc (s : option ltntstools_stream_statistics_s)
    : option Z :=
  s ← s; Some (bc_stc (s_bc_ctx s)).

(** ** The update *)

(** [tv]: the time of the error, given or read. *)
Definition _stream_increment_cc_errors (tv : timeval) (time : Z) (s : ltntstools_stream_statistics_s)
    : option ltntstools_stream_statistics_s :=
  let s := s <| s_ccErrors := u64 (s_ccErrors s + 1) |> <| s_last_cc_error := tv_sec tv |> in
  h ← ltntstools_history_metric_collection_add time (s_ccErrorHistory s)
        (ltntstools_history_metric_alloc (tv_sec tv) 1);
  Some (notify EVENT_UPDATE_STREAM_CC_COUNT None (s <| s_ccErrorHistory := h |>)).

(** The first loop counts the packets with a sync byte. *)
Fixpoint count_sync_loop (fuel : nat) (E : env) (pkts : list Z) (packetCount i : Z)
    (s : ltntstools_stream_statistics_s) : option ltntstools_stream_statistics_s :=
  match fuel with
  | O => None
  | S fuel' =>
      if packetCount <=? i then Some s else
      b ← rd pkts (i * 188);
      s ← (if b =? 0x47 then Some (s <| s_packetCount := u64 (s_packetCount s + 1) |>)
           else _stream_increment_cc_errors (e_tv E) (e_time E 0 i) s);
      count_sync_loop fuel' E pkts packetCount (i + 1) s
  end.

Definition update_multiple_of_seven (now packetCount : Z) (s : ltntstools_stream_statistics_s)
    : ltntstools_stream_statistics_s :=
  if packetCount =? 7 then s
  else s <| s_notMultipleOfSevenError := u64 (s_notMultipleOfSevenError s + 1) |>
         <| s_last_notMultipleOfSeven_error := now |>.

Definition update_bitrate (pkts : list Z) (packetCount : Z) (s : ltntstools_stream_statistics_s)
    : option ltntstools_stream_statistics_s :=
  if bc_pcrpidnr (s_bc_ctx s) =? 0 then Some s else
  '(s, complete) ← ltntstools_bitrate_calculator_write s pkts packetCount;
  Some (if complete : bool then notify EVENT_UPDATE_PCR_MBPS None s else s).

Definition update_pps (now packetCount : Z) (s : ltntstools_stream_statistics_s)
    : ltntstools_stream_statistics_s :=
  let s := if now =? s_pps_last_update s then s
           else notify EVENT_UPDATE_STREAM_MBPS None
                  (s <| s_pps := s_pps_window s |> <| s_pps_window := 0 |> <| s_pps_last_update := now |>) in
  s <| s_pps_window := u32 (s_pps_window s + packetCount) |>.

(** The watermarks of the inter-arrival time. *)
Definition iat_watermarks (cur : Z) (s : ltntstools_stream_statistics_s)
    : ltntstools_stream_statistics_s :=
  let s := s <| s_iat_cur_us := cur |> in
  let s := if cur <=? s_iat_lwm_us s then s <| s_iat_lwm_us := cur |> else s in
  let s := if s_iat_hwm_us s <=? cur
           then notify EVENT_UPDATE_STREAM_IAT_HWM None (s <| s_iat_hwm_us := cur |>) else s in
  if s_iat_hwm_us_last_nsecond_accumulator s <? cur
  then s <| s_iat_hwm_us_last_nsecond_accumulator := cur |> else s.

(** The inter-arrival time since the previous call. *)
Definition update_iat (E : env) (s : ltntstools_stream_statistics_s)
    : option ltntstools_stream_statistics_s :=
  if tv_sec (s_iat_last_frame s) =? 0 then Some s else
  d ← ltn_timeval_subtract_us (e_tv E) (s_iat_last_frame s);
  let cur := i32 d in
  let s := iat_watermarks cur s in
  due ← i64_ok (s_iat_hwm_us_last_nsecond_time s + 5);
  let s := if due <=? e_now E
           then s <| s_iat_hwm_us_last_nsecond_time := e_now E |>
                  <| s_iat_hwm_us_last_nsecond := s_iat_hwm_us_last_nsecond_accumulator s |>
                  <| s_iat_hwm_us_last_nsecond_accumulator := 0 |>
           else s in
  h ← s_packetIntervals s;
  '(h, _) ← ltn_histogram_interval_update_with_value (e_hist E) h (u32 (Z.quot cur 1000));
  Some (s <| s_packetIntervals := Some h |>).

(** *** One packet

    The stages work on the pair of the stream and the record of the packet's
    PID. *)
Definition stats_pair : Type := ltntstools_stream_statistics_s * ltntstools_pid_statistics_s.

Definition packet_pusi_error (pkt : list Z) '((s, p) : stats_pair) : stats_pair :=
  if ltntstools_isPayloadPUSIInError pkt =? 0 then (s, p)
  else (s <| s_payloadPUSIErrors := u64 (s_payloadPUSIErrors s + 1) |>,
        p <| p_payloadPUSIErrors := u64 (p_payloadPUSIErrors p + 1) |>).

(** The delivery time of a payload unit. *)
Definition packet_pusi_time (tv : timeval) (pidnr : Z) (pkt : list Z) '((s, p) : stats_pair)
    : option stats_pair :=
  '(s, p) ←
    (if ltntstools_payload_unit_start_indicator pkt =? 0 then Some (s, p) else
     '(s, p) ←
       (if (tv_sec (p_pusi_time_first p) =? 0) || (tv_sec (p_pusi_time_current p) =? 0) then Some (s, p) else
        d ← ltn_timeval_subtract_ms (p_pusi_time_current p) (p_pusi_time_first p);
        Some (notify EVENT_UPDATE_PID_PUSI_DELIVERY_TIME (Some pidnr) s, p <| p_pusi_time_ms := i32 d |>));
     Some (s, p <| p_pusi_time_first := tv |>));
  Some (s, p <| p_pusi_time_current := tv |>).

Definition packet_pps (now : Z) (p : ltntstools_pid_statistics_s) : ltntstools_pid_statistics_s :=
  let p := if now =? p_pps_last_update p then p
           else p <| p_pps := p_pps_window p |> <| p_pps_window := 0 |> <| p_pps_last_update := now |> in
  p <| p_pps_window := u32 (p_pps_window p + 1) |>.

Definition packet_cc (tv : timeval) (time pidnr : Z) (pkt : list Z) '((s, p) : stats_pair)
    : option stats_pair :=
  if negb (ltntstools_isCCInError pkt (p_lastCC p) =? 0)
     && ((1 <? p_packetCount p) && negb (pidnr =? 0x1fff))
  then s ← _stream_increment_cc_errors tv time s;
       Some (s, p <| p_ccErrors := u64 (p_ccErrors p + 1) |>)
  else Some (s, p).

Definition packet_scrambling (pidnr : Z) (pkt : list Z) '((s, p) : stats_pair) : stats_pair :=
  if ltntstools_transport_scrambling_control pkt =? 0 then (s, p)
  else (notify EVENT_UPDATE_STREAM_SCRAMBLED_COUNT (Some pidnr)
          (s <| s_scrambledCount := u64 (s_scrambledCount s + 1) |>),
        p <| p_scrambledCount := u64 (p_scrambledCount p + 1) |>).

Definition packet_tei (pidnr : Z) (pkt : list Z) '((s, p) : stats_pair) : stats_pair :=
  if ltntstools_tei_set pkt =? 0 then (s, p)
  else (notify EVENT_UPDATE_STREAM_TEI_COUNT (Some pidnr)
          (s <| s_teiErrors := u64 (s_teiErrors s + 1) |>),
        p <| p_teiErrors := u64 (p_teiErrors p + 1) |>).

(** [0x%04x] of a PID. *)
Definition hex_digit (d : Z) : string :=
  substring (Z.to_nat d) 1 "0123456789abcdef".

Definition printf_04x (v : Z) : string :=
  (hex_digit (v / 4096 mod 16) ++ hex_digit (v / 256 mod 16) ++ hex_digit (v / 16 mod 16)
   ++ hex_digit (v mod 16))%string.

(** The one-time set-up of the PCR clock and its histograms. *)
Definition pcr_establish (E : env) (i pidnr : Z) (p : ltntstools_pid_statistics_s)
    : ltntstools_pid_statistics_s :=
  if negb (establishedTimebase (p_pcrclk p) =? 0) then p else
  p <| p_pcrclk := ltntstools_clock_establish_timebase ltntstools_clock_initialize 27000000 |>
    <| p_pcrTickIntervals := ltn_histogram_alloc_video_defaults (e_alloc E i 2) (e_alloc E i 3)
         (e_wall E i 0) (Some ("PCR Tick Intervals PID 0x" ++ printf_04x pidnr)%string) |>
    <| p_pcrWallDrift := ltn_histogram_alloc_video_defaults (e_alloc E i 4) (e_alloc E i 5)
         (e_wall E i 1) (Some ("PCR Jitter PID 0x" ++ printf_04x pidnr ++ " (abs value)")%string) |>.

Definition PCR_LIMIT : Z := 27000 * 40.

(** The interval to the previous PCR. *)
Definition pcr_interval (E : env) (i delta : Z) '((s, p) : stats_pair) : option stats_pair :=
  let p := p <| p_prev_pcrExceeds40ms := p_pcrExceeds40ms p |> in
  let s := s <| s_prev_pcrExceeds40ms := s_pcrExceeds40ms s |> in
  let '(s, p) := if PCR_LIMIT <? delta
                 then (s <| s_pcrExceeds40ms := u64 (s_pcrExceeds40ms s + 1) |>,
                       p <| p_pcrExceeds40ms := u64 (p_pcrExceeds40ms p + 1) |>)
                 else (s, p) in
  h ← p_pcrTickIntervals p;
  '(h, _) ← ltn_histogram_interval_update_with_value (e_wall E i 3) h (u32 (Z.quot delta 27000));
  Some (s, p <| p_pcrTickIntervals := Some h |>).

(** [abs] is the [int] function: the drift is truncated first. *)
Definition int_abs (v : Z) : option Z :=
  let v := i32 v in if v =? -2147483648 then None else Some (Z.abs v).

(** The drift from the wall clock. *)
Definition pcr_drift (E : env) (i pcr : Z) (p : ltntstools_pid_statistics_s)
    : option ltntstools_pid_statistics_s :=
  clk ← ltntstools_clock_set_ticks (e_wall E i 4) (p_pcrclk p) pcr;
  '(clk, _) ← ltntstools_clock_get_drift_us (e_wall E i 5) clk;
  '(clk, d) ← ltntstools_clock_get_drift_us (e_wall E i 6) clk;
  let v := Z.quot d 1000 in
  let p := p <| p_pcrclk := clk |> <| p_lastPCRWalltimeDriftMs := v |> in
  v ← int_abs v;
  h ← p_pcrWallDrift p;
  '(h, _) ← ltn_histogram_interval_update_with_value (e_wall E i 7) h (u32 v);
  Some (p <| p_pcrWallDrift := Some h |>).

Definition int_incr (x : Z) : option Z := if x =? 2147483647 then None else Some (x + 1).

(** The first hundred PCRs of a PID are skipped. *)
Definition packet_pcr (E : env) (i pidnr : Z) (pkt : list Z) '((s, p) : stats_pair)
    : option stats_pair :=
  if p_hasPCR p =? 0 then Some (s, p) else
  match ltntstools_scr pkt with
  | None => Some (s, p)
  | Some pcr =>
      let seen := p_seenPCR p in
      n ← int_incr seen;
      let p := p <| p_seenPCR := n |> in
      if seen <? 100 then Some (s, p) else
      let pcr := i64 pcr in
      let p := pcr_establish E i pidnr p in
      let p := if establishedWT (p_pcrclk p) =? 0
               then p <| p_pcrclk := ltntstools_clock_establish_wallclock (e_wall E i 2) (p_pcrclk p) pcr |>
               else p in
      delta ← ltntstools_clock_compute_delta (p_pcrclk p) pcr (currentTime_ticks (p_pcrclk p));
      '(s, p) ← pcr_interval E i delta (s, p);
      p ← pcr_drift E i pcr p;
      let s := notify EVENT_UPDATE_PID_PCR_WALLTIME (Some pidnr) s in
      Some (if PCR_LIMIT <? delta then notify EVENT_UPDATE_PID_PCR_EXCEEDS_40MS (Some pidnr) s else s, p)
  end.

(** The record of the packet's PID, made on its first packet; [None] inside
    when there is no memory for it. *)
Definition find_pid (E : env) (i pidnr : Z) (s : ltntstools_stream_statistics_s)
    : option stats_pair :=
  match s_pids s !! pidnr with
  | Some p => Some (s, p)
  | None =>
      p ← ltntstools_pid_statistics_alloc (e_alloc E i 0) (e_tv E) pidnr;
      s ← _pidArrayAdd (e_alloc E i 1) s pidnr;
      Some (s, p)
  end.

Definition packet_stages (E : env) (pkt : list Z) (i : Z) '((s, p) : stats_pair)
    : option stats_pair :=
  let pidnr := ltntstools_pid pkt in
  let p := p <| p_enabled := 1 |> <| p_packetCount := u64 (p_packetCount p + 1) |> in
  let '(s, p) := packet_pusi_error pkt (s, p) in
  '(s, p) ← packet_pusi_time (e_tv E) pidnr pkt (s, p);
  let p := packet_pps (e_now E) p in
  '(s, p) ← packet_cc (e_tv E) (e_time E 1 i) pidnr pkt (s, p);
  let '(s, p) := packet_scrambling pidnr pkt (s, p) in
  let p := p <| p_lastCC := ltntstools_continuity_counter pkt |> in
  let '(s, p) := packet_tei pidnr pkt (s, p) in
  packet_pcr E i pidnr pkt (s, p).

Definition update_packet (E : env) (pkt : list Z) (i : Z) (s : ltntstools_stream_statistics_s)
    : option ltntstools_stream_statistics_s :=
  let pidnr := ltntstools_pid pkt in
  match find_pid E i pidnr s with
  | None => Some s
  | Some sp =>
      '(s, p) ← packet_stages E pkt i sp;
      Some (s <| s_pids := <[pidnr := p]> (s_pids s) |>)
  end.

Fixpoint update_loop (fuel : nat) (E : env) (pkts : list Z) (packetCount i : Z)
    (s : ltntstools_stream_statistics_s) : option ltntstools_stream_statistics_s :=
  match fuel with
  | O => None
  | S fuel' =>
      if packetCount <=? i then Some s else
      pkt ← rds pkts (i * 188) 188;
      s ← update_packet E pkt i s;
      update_loop fuel' E pkts packetCount (i + 1) s
  end.

Definition ltntstools_pid_stats_update (E : env) (stream : option ltntstools_stream_statistics_s)
    (pkts : option (list Z)) (packetCount : Z) : option (option ltntstools_stream_statistics_s) :=
  match stream, pkts with
  | Some s, Some pkts =>
      let s := update_multiple_of_seven (e_now E) packetCount s in
      s ← update_bitrate pkts packetCount s;
      s ← count_sync_loop (S (Z.to_nat packetCount)) E pkts packetCount 0 s;
      let s := update_pps (e_now E) packetCount s in
      s ← update_iat E s;
      s ← update_loop (S (Z.to_nat packetCount)) E pkts packetCount 0 s;
      Some (Some (s <| s_iat_last_frame := e_tv E |>))
  | _, _ => Some stream
  end.

(** ** The other stream types *)

Definition update_Bps (now lengthBytes : Z) (s : ltntstools_stream_statistics_s)
    : ltntstools_stream_statistics_s :=
  let s := if now =? s_Bps_last_update s then s
           else s <| s_Bps := s_Bps_window s |> <| s_Bps_window := 0 |>
                  <| s_a324_bps := u32 (s_Bps_window s * 8) |> <| s_Bps_last_update := now |> in
  s <| s_Bps_window := u32 (s_Bps_window s + lengthBytes) |>.

Definition update_seven_packets (now lengthBytes : Z) (s : ltntstools_stream_statistics_s)
    : ltntstools_stream_statistics_s :=
  if lengthBytes =? 7 * 188 then s
  else s <| s_notMultipleOfSevenError := u64 (s_notMultipleOfSevenError s + 1) |>
         <| s_last_notMultipleOfSeven_error := now |>.

Definition ltntstools_bytestream_stats_update (now lengthBytes : Z)
    (s : ltntstools_stream_statistics_s) : ltntstools_stream_statistics_s :=
  let s := s <| s_packetCount := u64 (s_packetCount s + 1) |> in
  let s := update_seven_packets now lengthBytes s in
  update_Bps now lengthBytes s.

Definition ltntstools_ctp_stats_update (now : Z) (tv : timeval) (time : Z) (buf : list Z)
    (lengthBytes : Z) (s : ltntstools_stream_statistics_s) : option ltntstools_stream_statistics_s :=
  let s := update_seven_packets now lengthBytes s in
  if lengthBytes <? 4 then Some s else
  b2 ← rd buf 2; b3 ← rd buf 3;
  let sequence_number := u16 (Z.lor (Z.shiftl b2 8) b3) in
  s ← (if negb (Z.land (s_a324_sequence_number s + 1) 0xffff =? sequence_number)
          && negb (s_packetCount s =? 0)
       then _stream_increment_cc_errors tv time s else Some s);
  let s := s <| s_a324_sequence_number := sequence_number |> in
  let s := s <| s_packetCount := u64 (s_packetCount s + 1) |> in
  Some (update_Bps now lengthBytes s).

(** ** Reset and allocation *)

Definition time0 : timeval := Timeval 0 0.

Definition ltntstools_pid_stats_reset (now : timeval) (s : ltntstools_stream_statistics_s)
    : ltntstools_stream_statistics_s :=
  s <| s_packetCount := 0 |>
    <| s_teiErrors := 0 |>
    <| s_ccErrors := 0 |>
    <| s_ccErrorHistory := ltntstools_history_metric_collection_reset (s_ccErrorHistory s) |>
    <| s_scrambledCount := 0 |>
    <| s_pcrExceeds40ms := 0 |>
    <| s_prev_pcrExceeds40ms := 0 |>
    <| s_payloadPUSIErrors := 0 |>
    <| s_last_cc_error := 0 |>
    <| s_pps_last_update := 0 |>
    <| s_pps := 0 |>
    <| s_pps_window := 0 |>
    <| s_a324_sequence_number := 0 |>
    <| s_Bps_last_update := 0 |>
    <| s_Bps := 0 |>
    <| s_Bps_window := 0 |>
    <| s_a324_bps := 0 |>
    <| s_notMultipleOfSevenError := 0 |>
    <| s_last_notMultipleOfSeven_error := 0 |>
    <| s_iat_lwm_us := 50000000 |>
    <| s_iat_hwm_us := -1 |>
    <| s_iat_cur_us := 0 |>
    <| s_iat_hwm_us_last_nsecond := 0 |>
    <| s_iat_hwm_us_last_nsecond_accumulator := 0 |>
    <| s_iat_hwm_us_last_nsecond_time := 0 |>
    <| s_iat_last_frame := time0 |>
    <| s_packetIntervals := ltn_histogram_reset now <$> s_packetIntervals s |>
    <| s_bc_ctx := ltntstools_bitrate_calculator_reset (s_bc_ctx s) |>
    <| s_pids := ltntstools_pid_statistics_reset now <$> s_pids s |>.

(** [ok n]: the [n]-th allocation succeeds.  A failed histogram fails the
    whole. *)
Definition ltntstools_pid_stats_alloc (ok : nat -> bool) (now : timeval)
    : option ltntstools_stream_statistics_s :=
  if negb (ok 0%nat) then None else
  if negb (ok 1%nat) then None else
  h ← ltntstools_history_metric_collection_init (Some "CC Error History"%string);
  ivl ← ltn_histogram_alloc_video_defaults (ok 2%nat) (ok 3%nat) now (Some "IAT Intervals"%string);
  Some (ltntstools_pid_stats_reset now
    {| s_pids := ∅; s_pidArray := []; s_packetCount := 0; s_teiErrors := 0; s_ccErrors := 0;
       s_ccErrorHistory := h; s_scrambledCount := 0; s_pcrExceeds40ms := 0;
       s_prev_pcrExceeds40ms := 0; s_payloadPUSIErrors := 0; s_pps_last_update := 0; s_pps := 0;
       s_pps_window := 0; s_a324_sequence_number := 0; s_Bps_last_update := 0; s_Bps := 0;
       s_Bps_window := 0; s_a324_bps := 0; s_last_cc_error := 0; s_notMultipleOfSevenError := 0;
       s_last_notMultipleOfSeven_error := 0; s_iat_lwm_us := 0; s_iat_hwm_us := 0; s_iat_cur_us := 0;
       s_iat_hwm_us_last_nsecond := 0; s_iat_hwm_us_last_nsecond_accumulator := 0;
       s_iat_hwm_us_last_nsecond_time := 0; s_iat_last_frame := time0; s_packetIntervals := Some ivl;
       s_notifications := replicate EVENT_NOTIFICATION_MAX None;
       s_bc_ctx := {| bc_running := 0; bc_pcrpidnr := 0; bc_pcrFirst := 0; bc_pcrSecond := 0;
                      bc_packetsInbetween := 0; bc_ticksPerPCR := 0; bc_ticksPerPacket := 0;
                      bc_stc := 0; bc_ccErrorsStreamLastWrite := 0 |};
       s_calls := [] |}).

(** A PID is declared to carry the PCR. *)
Definition ltntstools_pid_stats_pid_set_contains_pcr (E : env) (pidnr : Z)
    (s : ltntstools_stream_statistics_s) : ltntstools_stream_statistics_s :=
  let pidnr := Z.land pidnr 0x1fff in
  match find_pid E 0 pidnr s with
  | None => s
  | Some (s, p) =>
      let s := s <| s_pids := <[pidnr := p <| p_hasPCR := 1 |>]> (s_pids s) |> in
      ltntstools_bitrate_calculator_init s (Z.land pidnr 0x1fff)
  end.

(** ** Queries *)

(** A rate that was not updated for more than two seconds is stale. *)
Definition _expire_per_second_stream_stats (now : Z) (s : ltntstools_stream_statistics_s)
    : ltntstools_stream_statistics_s :=
  if negb (s_Bps_window s =? 0) && (s_Bps_last_update s + 2 <? now)
  then s <| s_Bps := 0 |> <| s_Bps_window := 0 |>
  else if s_pps_last_update s + 2 <? now
  then s <| s_pps := 0 |> <| s_pps_window := 0 |>
  else s.

Definition _expire_per_second_pid_stats (now : Z) (p : ltntstools_pid_statistics_s)
    : ltntstools_pid_statistics_s :=
  if p_pps_last_update p + 2 <? now then p <| p_pps := 0 |> <| p_pps_window := 0 |> else p.

Definition ltntstools_pid_stats_stream_get_pps (now : Z) (s : ltntstools_stream_statistics_s)
    : ltntstools_stream_statistics_s * Z :=
  let s := _expire_per_second_stream_stats now s in (s, s_pps s).

Definition ltntstools_pid_stats_stream_get_bps (now : Z) (s : ltntstools_stream_statistics_s)
    : ltntstools_stream_statistics_s * Z :=
  let s := _expire_per_second_stream_stats now s in (s, u32 (s_pps s * 188 * 8)).

Definition ltntstools_ctp_stats_stream_get_bps (now : Z) (s : ltntstools_stream_statistics_s)
    : ltntstools_stream_statistics_s * Z :=
  let s := _expire_per_second_stream_stats now s in (s, s_a324_bps s).

(** A query of the record of a PID, 0 when there is none. *)
Definition ltntstools_pid_stats_pid_get_pps (now pidnr : Z) (s : ltntstools_stream_statistics_s)
    : ltntstools_stream_statistics_s * Z :=
  let k := Z.land pidnr 0x1fff in
  match s_pids s !! k with
  | None => (s, 0)
  | Some p => let p := _expire_per_second_pid_stats now p in
              (s <| s_pids := <[k := p]> (s_pids s) |>, p_pps p)
  end.

Definition ltntstools_pid_stats_pid_get_bps (now pidnr : Z) (s : ltntstools_stream_statistics_s)
    : ltntstools_stream_statistics_s * Z :=
  let '(s, pps) := ltntstools_pid_stats_pid_get_pps now pidnr s in (s, u32 (pps * 188 * 8)).

(** The share of null packets; the clock is read for each rate. *)
Definition ltntstools_pid_stats_stream_padding_pct (now now' : Z) (s : ltntstools_stream_statistics_s)
    : ltntstools_stream_statistics_s * Z :=
  let '(s, null_bps) := ltntstools_pid_stats_pid_get_bps now 0x1fff s in
  let '(s, stream_bps) := ltntstools_pid_stats_stream_get_bps now' s in
  (s, if stream_bps =? 0 then 0 else u32 (null_bps * 100) / stream_bps).

Definition ltntstools_pid_stats_pid_get_packet_count (pidnr : Z) (s : ltntstools_stream_statistics_s) : Z :=
  match s_pids s !! Z.land pidnr 0x1fff with None => 0 | Some p => p_packetCount p end.

Definition ltntstools_pid_stats_pid_get_cc_errors (pidnr : Z) (s : ltntstools_stream_statistics_s) : Z :=
  match s_pids s !! Z.land pidnr 0x1fff with None => 0 | Some p => p_ccErrors p end.

Definition ltntstools_pid_stats_pid_get_tei_errors (pidnr : Z) (s : ltntstools_stream_statistics_s) : Z :=
  match s_pids s !! Z.land pidnr 0x1fff with None => 0 | Some p => p_teiErrors p end.

Definition ltntstools_pid_stats_pid_get_contains_pcr (pidnr : Z) (s : ltntstools_stream_statistics_s) : Z :=
  match s_pids s !! Z.land pidnr 0x1fff with None => 0 | Some p => p_hasPCR p end.

Definition ltntstools_pid_stats_pid_get_pcr (pidnr : Z) (s : ltntstools_stream_statistics_s) : Z :=
  match s_pids s !! Z.land pidnr 0x1fff with
  | None => 0
  | Some p => if p_hasPCR p =? 0 then 0 else currentTime_ticks (p_pcrclk p)
  end.

Definition ltntstools_pid_stats_stream_did_violate_pcr_timing (s : option ltntstools_stream_statistics_s) : bool :=
  match s with
  | None => true
  | Some s => negb (s_prev_pcrExceeds40ms s =? s_pcrExceeds40ms s)
  end.

Definition ltntstools_pid_stats_pid_did_violate_pcr_timing (pidnr : Z) (s : ltntstools_stream_statistics_s) : bool :=
  match s_pids s !! Z.land pidnr 0x1fff with
  | None => true
  | Some p => negb (p_prev_pcrExceeds40ms p =? p_pcrExceeds40ms p)
  end.

Definition ltntstools_pid_stats_pid_get_pcr_walltime_driftms (pidnr : Z) (s : ltntstools_stream_statistics_s)
    : option Z :=
  p ← s_pids s !! Z.land pidnr 0x1fff;
  if p_hasPCR p =? 0 then None else Some (p_lastPCRWalltimeDriftMs p).
