(* ===== verification/StatsSpec.v ===== *)
(** * What the statistics of a stream count: the theorems of Stats.v

    The specification counts over the list of all packets seen: per PID with
    [pid_counts] over the packets of that PID, for the stream with sums over
    all of them.  The update of Stats.v is shown to implement it. *)
From Stdlib Require Import ZArith Lia Bool String.
From stdpp Require Import base numbers list option gmap.
From coqutil Require Import Datatypes.RecordSettersUsingExistingGetters.
From S2P Require Import Prelude Ts Clock Histogram HistoryMetric Stats.

(** ** The specification *)

(** What is counted for a PID. *)
Record counters := {
  n_packets : Z;
  n_last : Z;
  n_cc : Z;
  n_tei : Z;
  n_scr : Z;
  n_pusi : Z
}.

Definition counters_zero : counters :=
  {| n_packets := 0; n_last := 0; n_cc := 0; n_tei := 0; n_scr := 0; n_pusi := 0 |}.

(** A continuity error is counted from the second packet of a PID on, and not
    for null packets. *)
Definition cc_error (k : Z) (c : counters) (pkt : list Z) : Z :=
  if negb (ltntstools_isCCInError pkt (n_last c) =? 0) && ((0 <? n_packets c) && negb (k =? 0x1fff))
  then 1 else 0.

Definition scrambled (pkt : list Z) : Z :=
  if ltntstools_transport_scrambling_control pkt =? 0 then 0 else 1.

Definition count_packet (k : Z) (c : counters) (pkt : list Z) : counters :=
  {| n_packets := n_packets c + 1;
     n_last := ltntstools_continuity_counter pkt;
     n_cc := n_cc c + cc_error k c pkt;
     n_tei := n_tei c + ltntstools_tei_set pkt;
     n_scr := n_scr c + scrambled pkt;
     n_pusi := n_pusi c + ltntstools_isPayloadPUSIInError pkt |}.

Definition pid_counts (k : Z) (l : list (list Z)) : counters :=
  List.fold_left (count_packet k) l counters_zero.

(** The packets of a PID. *)
Definition of_pid (k : Z) (ps : list (list Z)) : list (list Z) :=
  filter (fun pkt => ltntstools_pid pkt = k) ps.

Definition total (f : list Z -> Z) (ps : list (list Z)) : Z := foldr (fun p a => f p + a) 0 ps.
#[global] Arguments total : simpl never.

(** The continuity errors of [l], following the packets [seen]. *)
Fixpoint cc_total_from (seen l : list (list Z)) : Z :=
  match l with
  | [] => 0
  | pkt :: l =>
      let k := ltntstools_pid pkt in
      cc_error k (pid_counts k (of_pid k seen)) pkt + cc_total_from (seen ++ [pkt]) l
  end.

Definition cc_total (ps : list (list Z)) : Z := cc_total_from [] ps.

Definition unsynced (pkt : list Z) : Z := if byte_at pkt 0 =? 0x47 then 0 else 1.

(** ** Facts about the specification *)

Lemma total_cons f p ps : total f (p :: ps) = f p + total f ps.
Proof. done. Qed.

Lemma total_app f ps qs : total f (ps ++ qs) = total f ps + total f qs.
Proof. induction ps as [|p ps IH]; [done|]. rewrite <- app_comm_cons, !total_cons. lia. Qed.

Lemma total_snoc f ps p : total f (ps ++ [p]) = total f ps + f p.
Proof. rewrite total_app. unfold total at 2. cbn. lia. Qed.

Lemma total_bound f ps : (forall p, 0 <= f p <= 1) -> 0 <= total f ps <= len ps.
Proof.
  intros Hf. induction ps as [|p ps IH]; [done|]. rewrite total_cons, len_cons. specialize (Hf p). lia.
Qed.

Lemma of_pid_snoc k ps pkt :
  of_pid k (ps ++ [pkt]) = if decide (ltntstools_pid pkt = k) then of_pid k ps ++ [pkt] else of_pid k ps.
Proof.
  unfold of_pid. rewrite filter_app. destruct (decide _).
  - by rewrite filter_cons_True.
  - by rewrite filter_cons_False, filter_nil, app_nil_r.
Qed.

Lemma pid_counts_snoc k l pkt : pid_counts k (l ++ [pkt]) = count_packet k (pid_counts k l) pkt.
Proof. unfold pid_counts. by rewrite List.fold_left_app. Qed.

Lemma cc_total_from_snoc seen l pkt :
  cc_total_from seen (l ++ [pkt]) = cc_total_from seen l +
    cc_error (ltntstools_pid pkt) (pid_counts (ltntstools_pid pkt) (of_pid (ltntstools_pid pkt) (seen ++ l))) pkt.
Proof.
  revert seen. induction l as [|p l IH]; intros seen; cbn.
  - rewrite app_nil_r. lia.
  - rewrite IH, <- app_assoc. cbn. lia.
Qed.

Lemma cc_error_bound k c pkt : 0 <= cc_error k c pkt <= 1.
Proof. unfold cc_error. case_if; lia. Qed.
Lemma tei_bound pkt : 0 <= ltntstools_tei_set pkt <= 1.
Proof. unfold ltntstools_tei_set. case_if; lia. Qed.
Lemma scrambled_bound pkt : 0 <= scrambled pkt <= 1.
Proof. unfold scrambled. case_if; lia. Qed.
Lemma pusi_bound pkt : 0 <= ltntstools_isPayloadPUSIInError pkt <= 1.
Proof. unfold ltntstools_isPayloadPUSIInError. case_if; lia. Qed.

Lemma cc_total_bound ps : 0 <= cc_total ps <= len ps.
Proof.
  unfold cc_total. generalize (@nil (list Z)). induction ps as [|p ps IH]; intros seen; [done|].
  cbn [cc_total_from]. rewrite len_cons. specialize (IH (seen ++ [p])).
  pose proof (cc_error_bound (ltntstools_pid p) (pid_counts (ltntstools_pid p) (of_pid (ltntstools_pid p) seen)) p).
  lia.
Qed.

Lemma of_pid_len k ps : len (of_pid k ps) <= len ps.
Proof. unfold len, of_pid. pose proof (length_filter (fun pkt => ltntstools_pid pkt = k) ps). lia. Qed.

Lemma pid_counts_bound k l :
  let c := pid_counts k l in
  n_packets c = len l /\ 0 <= n_cc c <= len l /\ 0 <= n_tei c <= len l /\
  0 <= n_scr c <= len l /\ 0 <= n_pusi c <= len l.
Proof.
  induction l as [|pkt l IH] using rev_ind; [done|]. rewrite pid_counts_snoc, len_app, len_cons, len_nil.
  pose proof (cc_error_bound k (pid_counts k l) pkt). pose proof (tei_bound pkt).
  pose proof (scrambled_bound pkt). pose proof (pusi_bound pkt). cbn in *. lia.
Qed.

Lemma pid_range pkt : 0 <= ltntstools_pid pkt < 8192.
Proof.
  unfold ltntstools_pid. rewrite (land_ones_mod _ 13) by done. apply Z.mod_pos_bound. done.
Qed.

(** ** Views of the state

    The fields the counting theorems are about; a stage of the update that
    leaves the view alone is irrelevant to them. *)
Record core := {
  co_pids : gmap Z ltntstools_pid_statistics_s;
  co_array : list Z;
  co_packets : Z;
  co_tei : Z;
  co_cc : Z;
  co_scr : Z;
  co_pusi : Z;
  co_history : list ltntstools_history_metric_s;
  co_pcrpid : Z;
  co_intervals : option ltn_histogram_s;
  co_last_frame : timeval;
  co_nsecond_time : Z
}.

Definition core_of (s : ltntstools_stream_statistics_s) : core :=
  {| co_pids := s_pids s; co_array := s_pidArray s; co_packets := s_packetCount s;
     co_tei := s_teiErrors s; co_cc := s_ccErrors s; co_scr := s_scrambledCount s;
     co_pusi := s_payloadPUSIErrors s; co_history := hm_list (s_ccErrorHistory s);
     co_pcrpid := bc_pcrpidnr (s_bc_ctx s); co_intervals := s_packetIntervals s;
     co_last_frame := s_iat_last_frame s; co_nsecond_time := s_iat_hwm_us_last_nsecond_time s |}.

(** The view with other counts and another history. *)
Definition core_upd (c : core) (packets tei cc scr pusi : Z)
    (history : list ltntstools_history_metric_s) : core :=
  {| co_pids := co_pids c; co_array := co_array c; co_packets := packets; co_tei := tei; co_cc := cc;
     co_scr := scr; co_pusi := pusi; co_history := history; co_pcrpid := co_pcrpid c;
     co_intervals := co_intervals c; co_last_frame := co_last_frame c;
     co_nsecond_time := co_nsecond_time c |}.

Definition counters_of (p : ltntstools_pid_statistics_s) : counters :=
  {| n_packets := p_packetCount p; n_last := p_lastCC p; n_cc := p_ccErrors p;
     n_tei := p_teiErrors p; n_scr := p_scrambledCount p; n_pusi := p_payloadPUSIErrors p |}.

(** What a PID record needs besides its counters to be updated without
    reading a PCR. *)
Definition pid_quiet (p : ltntstools_pid_statistics_s) : Prop :=
  p_hasPCR p = 0 /\ timeval_wf (p_pusi_time_first p) /\ timeval_wf (p_pusi_time_current p).

Lemma core_notify e k s : core_of (notify e k s) = core_of s.
Proof. unfold notify. by destruct (s_notifications s !! event_nr e) as [[?|]|]. Qed.

(** A history none of whose entries is due to expire before [t0 + 25 h]. *)
Definition fresh (t0 : Z) (l : list ltntstools_history_metric_s) : Prop :=
  Forall (fun m => t0 <= hm_ts m) l.

(** The times of a call: within 25 hours of [t0]. *)
Record env_wf (t0 : Z) (E : env) : Prop := {
  ew_tv : timeval_wf (e_tv E);
  ew_recent : t0 <= tv_sec (e_tv E);
  ew_now : 0 <= e_now E < 2 ^ 62;
  ew_time : forall k i, t0 <= e_time E k i <= t0 + 90000;
  ew_alloc : forall i k, e_alloc E i k = true
}.

Lemma fresh_expired t0 now l : fresh t0 l -> now <= t0 + 90000 -> expired now l = [].
Proof.
  intros Hl Hn. unfold expired. induction Hl as [|m l Hm Hl IH]; [done|].
  rewrite filter_cons_False; [done|]. unfold old. lia.
Qed.

Lemma increment_cc_spec t0 E k i s :
  0 <= t0 < 2 ^ 61 -> env_wf t0 E -> fresh t0 (hm_list (s_ccErrorHistory s)) -> 0 <= s_ccErrors s < 2 ^ 63 ->
  exists s', _stream_increment_cc_errors (e_tv E) (e_time E k i) s = Some s' /\
    core_of s' = core_upd (core_of s) (s_packetCount s) (s_teiErrors s) (s_ccErrors s + 1)
      (s_scrambledCount s) (s_payloadPUSIErrors s) (Metric (tv_sec (e_tv E)) 1 :: hm_list (s_ccErrorHistory s)).
Proof.
  intros Ht0 [Htv Hr _ Ht _] Hf Hc. unfold _stream_increment_cc_errors.
  rewrite u64_id by lia. specialize (Ht k i).
  rewrite history_add_fresh; [|lia|cbn; lia|by apply (fresh_expired t0); [|lia]].
  cbn [mbind option_bind].
  eexists. split; [reflexivity|]. by rewrite core_notify.
Qed.

(** ** Buffers of packets *)

Definition packets (ps : list (list Z)) : Prop := Forall (fun p => len p = 188) ps.

Lemma len_concat ps : packets ps -> len (concat ps) = len ps * 188.
Proof.
  induction 1 as [|p ps Hp Hps IH]; [done|]. cbn [concat]. rewrite len_app, len_cons. lia.
Qed.

Lemma packet_at pre pkt post : packets (pre ++ pkt :: post) ->
  rds (concat (pre ++ pkt :: post)) (len pre * 188) 188 = Some pkt /\
  rd (concat (pre ++ pkt :: post)) (len pre * 188) = Some (byte_at pkt 0).
Proof.
  intros H. apply Forall_app in H as [Hpre H]. apply Forall_cons_1 in H as [Hp _].
  rewrite concat_app. cbn [concat]. pose proof (len_nonneg pre). pose proof (len_nonneg (concat post)).
  rewrite <- (len_concat pre Hpre).
  pose proof (len_nonneg (concat pre)).
  split.
  - rewrite rds_Some by (rewrite ?len_app; lia). rewrite drop_len_app. f_equal.
    replace 188 with (len pkt) by done. apply take_len_app.
  - rewrite rd_Some by (rewrite ?len_app; lia). f_equal.
    rewrite byte_at_app, Z.ltb_irrefl, Z.sub_diag, byte_at_app by lia. by rewrite Hp.
Qed.

(** ** The stages of an update *)

Lemma u64_incr x : 0 <= x < 2 ^ 63 -> u64 (x + 1) = x + 1.
Proof. intros H. by rewrite u64_id by lia. Qed.

Lemma count_sync_spec t0 E pre post fuel s :
  0 <= t0 < 2 ^ 61 -> env_wf t0 E -> packets (pre ++ post) -> fresh t0 (hm_list (s_ccErrorHistory s)) ->
  0 <= s_ccErrors s -> s_ccErrors s + len post < 2 ^ 63 ->
  0 <= s_packetCount s -> s_packetCount s + len post < 2 ^ 63 -> (length post < fuel)%nat ->
  exists s' h, count_sync_loop fuel E (concat (pre ++ post)) (len (pre ++ post)) (len pre) s = Some s' /\
    fresh t0 h /\
    core_of s' = core_upd (core_of s) (s_packetCount s + (len post - total unsynced post))
      (s_teiErrors s) (s_ccErrors s + total unsynced post) (s_scrambledCount s) (s_payloadPUSIErrors s) h.
Proof.
  intros Ht0 HE. revert pre s fuel. induction post as [|pkt post IH];
    intros pre s fuel Hps Hf Hc HC Hp HP Hfuel; (destruct fuel as [|fuel]; [cbn in Hfuel; lia|]);
    cbn [count_sync_loop].
  - rewrite app_nil_r, Z.leb_refl. exists s, (hm_list (s_ccErrorHistory s)).
    split; [done|]. split; [done|]. change (len []) with 0. unfold total. cbn [foldr].
    unfold core_of, core_upd; cbn. f_equal; lia.
  - rewrite (proj2 (Z.leb_gt (len (pre ++ pkt :: post)) (len pre)))
      by (rewrite len_app, len_cons; pose proof (len_nonneg post); lia).
    destruct (packet_at pre pkt post Hps) as [_ ->]. cbn [mbind option_bind].
    rewrite len_cons, total_cons in *. cbn [length] in Hfuel.
    replace (pre ++ pkt :: post) with ((pre ++ [pkt]) ++ post) in * by by rewrite <- app_assoc.
    replace (len pre + 1) with (len (pre ++ [pkt])) by (rewrite len_app; done).
    pose proof (len_nonneg post).
    unfold unsynced at 1 3. destruct (Z.eqb_spec (byte_at pkt 0) 0x47) as [Hb|Hb].
    + cbn [mbind option_bind]. rewrite u64_incr by lia.
      destruct (IH (pre ++ [pkt]) (s <| s_packetCount := s_packetCount s + 1 |>) fuel)
        as (s' & h & -> & Hh & Hs'); try done; try lia; cbn in *; unfold const in *; try lia.
      exists s', h. split; [done|]. split; [done|]. rewrite Hs'. unfold core_of, core_upd; cbn. f_equal; lia.
    + destruct (increment_cc_spec t0 E 0 (len pre) s) as (s1 & -> & Hs1); [done..|lia|].
      cbn [mbind option_bind].
      assert (s_packetCount s1 = s_packetCount s /\ s_ccErrors s1 = s_ccErrors s + 1 /\
        hm_list (s_ccErrorHistory s1) = Metric (tv_sec (e_tv E)) 1 :: hm_list (s_ccErrorHistory s) /\
        s_teiErrors s1 = s_teiErrors s /\ s_scrambledCount s1 = s_scrambledCount s /\
        s_payloadPUSIErrors s1 = s_payloadPUSIErrors s) as (E1 & E2 & E3 & E4 & E5 & E6)
        by (unfold core_of, core_upd in Hs1; cbn in Hs1; injection Hs1; intros; repeat split; congruence).
      destruct (IH (pre ++ [pkt]) s1 fuel) as (s' & h & -> & Hh & Hs'); try done; try lia.
      { rewrite E3. constructor; [|done]. cbn. apply HE. }
      exists s', h. split; [done|]. split; [done|].
      rewrite Hs', Hs1, E1, E2, E4, E5, E6. unfold core_upd; cbn. f_equal; lia.
Qed.

(** ** One packet *)

Lemma core_fields c s n t cc sc pu h : core_of s = core_upd c n t cc sc pu h ->
  s_packetCount s = n /\ s_teiErrors s = t /\ s_ccErrors s = cc /\ s_scrambledCount s = sc /\
  s_payloadPUSIErrors s = pu /\ hm_list (s_ccErrorHistory s) = h /\ s_pids s = co_pids c /\
  s_pidArray s = co_array c.
Proof. unfold core_of, core_upd. intros H. injection H. intros. repeat split; congruence. Qed.

(** The view of a state, written out. *)
Lemma core_upd_id s : core_of s = core_upd (core_of s) (s_packetCount s) (s_teiErrors s) (s_ccErrors s)
  (s_scrambledCount s) (s_payloadPUSIErrors s) (hm_list (s_ccErrorHistory s)).
Proof. done. Qed.

Lemma pusi_error_spec pkt s p :
  0 <= s_payloadPUSIErrors s < 2 ^ 63 -> 0 <= p_payloadPUSIErrors p < 2 ^ 63 -> pid_quiet p ->
  exists s' p', packet_pusi_error pkt (s, p) = (s', p') /\ pid_quiet p' /\
    counters_of p' = Build_counters (p_packetCount p) (p_lastCC p) (p_ccErrors p) (p_teiErrors p)
      (p_scrambledCount p) (p_payloadPUSIErrors p + ltntstools_isPayloadPUSIInError pkt) /\
    core_of s' = core_upd (core_of s) (s_packetCount s) (s_teiErrors s) (s_ccErrors s) (s_scrambledCount s)
      (s_payloadPUSIErrors s + ltntstools_isPayloadPUSIInError pkt) (hm_list (s_ccErrorHistory s)).
Proof.
  intros Hs Hp Hq. unfold packet_pusi_error. pose proof (pusi_bound pkt).
  destruct (Z.eqb_spec (ltntstools_isPayloadPUSIInError pkt) 0) as [->|].
  - exists s, p. rewrite !Z.add_0_r. done.
  - replace (ltntstools_isPayloadPUSIInError pkt) with 1 by lia. rewrite !u64_incr by done.
    by eexists _, _.
Qed.

Lemma pusi_time_spec tv k pkt s p : timeval_wf tv -> pid_quiet p ->
  exists s' p', packet_pusi_time tv k pkt (s, p) = Some (s', p') /\ pid_quiet p' /\
    counters_of p' = counters_of p /\ core_of s' = core_of s.
Proof.
  intros Htv (Hp & Hf & Hc). unfold packet_pusi_time.
  destruct (Z.eqb_spec (ltntstools_payload_unit_start_indicator pkt) 0).
  { cbn [mbind option_bind]. by eexists _, _. }
  destruct (_ || _); cbn [mbind option_bind]; [by eexists _, _|].
  destruct (subtract_ms_defined _ _ Hc Hf) as [d ->]. cbn [mbind option_bind].
  eexists _, _. split; [reflexivity|]. split; [done|]. split; [done|]. apply core_notify.
Qed.

Lemma packet_pps_spec now p : pid_quiet p ->
  pid_quiet (packet_pps now p) /\ counters_of (packet_pps now p) = counters_of p.
Proof. intros Hq. unfold packet_pps. by destruct (now =? p_pps_last_update p). Qed.

Lemma packet_cc_spec t0 E i k pkt s p :
  0 <= t0 < 2 ^ 61 -> env_wf t0 E -> fresh t0 (hm_list (s_ccErrorHistory s)) ->
  0 <= s_ccErrors s < 2 ^ 63 -> 0 <= p_ccErrors p < 2 ^ 63 -> pid_quiet p -> 
  let e := cc_error k (Build_counters (p_packetCount p - 1) (p_lastCC p) 0 0 0 0) pkt in
  exists s' p' h, packet_cc (e_tv E) (e_time E 1 i) k pkt (s, p) = Some (s', p') /\ pid_quiet p' /\
    fresh t0 h /\
    counters_of p' = Build_counters (p_packetCount p) (p_lastCC p) (p_ccErrors p + e) (p_teiErrors p)
      (p_scrambledCount p) (p_payloadPUSIErrors p) /\
    core_of s' = core_upd (core_of s) (s_packetCount s) (s_teiErrors s) (s_ccErrors s + e)
      (s_scrambledCount s) (s_payloadPUSIErrors s) h.
Proof.
  intros Ht0 HE Hf Hs Hp Hq e. unfold packet_cc.
  assert (e = if negb (ltntstools_isCCInError pkt (p_lastCC p) =? 0)
                 && ((1 <? p_packetCount p) && negb (k =? 0x1fff)) then 1 else 0) as ->.
  { unfold e, cc_error. cbn [n_last n_packets].
    by replace (0 <? p_packetCount p - 1) with (1 <? p_packetCount p) by lia. }
  destruct (negb _ && _).
  - destruct (increment_cc_spec t0 E 1 i s) as (s' & -> & Hs'); [done..|]. cbn [mbind option_bind].
    rewrite u64_incr by done.
    eexists _, _, (Metric (tv_sec (e_tv E)) 1 :: hm_list (s_ccErrorHistory s)).
    split; [reflexivity|]. split; [done|]. split; [|done].
    constructor; [|done]. apply HE.
  - exists s, p, (hm_list (s_ccErrorHistory s)). by rewrite !Z.add_0_r.
Qed.

Lemma scrambling_spec k pkt s p :
  0 <= s_scrambledCount s < 2 ^ 63 -> 0 <= p_scrambledCount p < 2 ^ 63 -> pid_quiet p ->
  exists s' p', packet_scrambling k pkt (s, p) = (s', p') /\ pid_quiet p' /\
    counters_of p' = Build_counters (p_packetCount p) (p_lastCC p) (p_ccErrors p) (p_teiErrors p)
      (p_scrambledCount p + scrambled pkt) (p_payloadPUSIErrors p) /\
    core_of s' = core_upd (core_of s) (s_packetCount s) (s_teiErrors s) (s_ccErrors s)
      (s_scrambledCount s + scrambled pkt) (s_payloadPUSIErrors s) (hm_list (s_ccErrorHistory s)).
Proof.
  intros Hs Hp Hq. unfold packet_scrambling, scrambled.
  destruct (_ =? 0); [exists s, p; by rewrite !Z.add_0_r|].
  rewrite !u64_incr by done. eexists _, _. rewrite core_notify. by split.
Qed.

Lemma tei_spec k pkt s p :
  0 <= s_teiErrors s < 2 ^ 63 -> 0 <= p_teiErrors p < 2 ^ 63 -> pid_quiet p ->
  exists s' p', packet_tei k pkt (s, p) = (s', p') /\ pid_quiet p' /\
    counters_of p' = Build_counters (p_packetCount p) (p_lastCC p) (p_ccErrors p)
      (p_teiErrors p + ltntstools_tei_set pkt) (p_scrambledCount p) (p_payloadPUSIErrors p) /\
    core_of s' = core_upd (core_of s) (s_packetCount s) (s_teiErrors s + ltntstools_tei_set pkt) (s_ccErrors s)
      (s_scrambledCount s) (s_payloadPUSIErrors s) (hm_list (s_ccErrorHistory s)).
Proof.
  intros Hs Hp Hq. unfold packet_tei. pose proof (tei_bound pkt).
  destruct (Z.eqb_spec (ltntstools_tei_set pkt) 0) as [->|]; [exists s, p; by rewrite !Z.add_0_r|].
  replace (ltntstools_tei_set pkt) with 1 by lia.
  rewrite !u64_incr by done. eexists _, _. rewrite core_notify. by split.
Qed.

(** The first half of the stages: the checks before the continuity count, and
    the count. *)
Lemma packet_front_spec t0 E i pkt s p :
  0 <= t0 < 2 ^ 61 -> env_wf t0 E -> fresh t0 (hm_list (s_ccErrorHistory s)) -> pid_quiet p ->
  0 <= p_packetCount p < 2 ^ 63 -> 0 <= p_ccErrors p < 2 ^ 63 -> 0 <= p_payloadPUSIErrors p < 2 ^ 63 ->
  0 <= s_ccErrors s < 2 ^ 63 -> 0 <= s_payloadPUSIErrors s < 2 ^ 63 ->
  let k := ltntstools_pid pkt in
  exists s' p' h,
    (let p := p <| p_enabled := 1 |> <| p_packetCount := u64 (p_packetCount p + 1) |> in
     let '(s, p) := packet_pusi_error pkt (s, p) in
     '(s, p) ← packet_pusi_time (e_tv E) k pkt (s, p);
     packet_cc (e_tv E) (e_time E 1 i) k pkt (s, packet_pps (e_now E) p)) = Some (s', p') /\
    pid_quiet p' /\ fresh t0 h /\
    counters_of p' = Build_counters (p_packetCount p + 1) (p_lastCC p)
      (p_ccErrors p + cc_error k (counters_of p) pkt) (p_teiErrors p) (p_scrambledCount p)
      (p_payloadPUSIErrors p + ltntstools_isPayloadPUSIInError pkt) /\
    core_of s' = core_upd (core_of s) (s_packetCount s) (s_teiErrors s)
      (s_ccErrors s + cc_error k (counters_of p) pkt) (s_scrambledCount s)
      (s_payloadPUSIErrors s + ltntstools_isPayloadPUSIInError pkt) h.
Proof.
  intros Ht0 HE Hf Hq Hp1 Hp2 Hp5 Hs1 Hs4 k. cbv zeta.
  set (p0 := p <| p_enabled := 1 |> <| p_packetCount := u64 (p_packetCount p + 1) |>).
  assert (pid_quiet p0) as Hq0 by exact Hq.
  assert (counters_of p0 = Build_counters (p_packetCount p + 1) (p_lastCC p) (p_ccErrors p) (p_teiErrors p)
    (p_scrambledCount p) (p_payloadPUSIErrors p)) as Hc0 by (by rewrite <- u64_incr by done).
  clearbody p0. injection Hc0 as E1 E2 E3 E4 E5 E6.
  destruct (pusi_error_spec pkt s p0) as (s1 & p1 & -> & Hq1 & Hc1 & Hs1'); [done|lia|done|].
  destruct (pusi_time_spec (e_tv E) k pkt s1 p1) as (s2 & p2 & -> & Hq2 & Hc2 & Hs2'); [apply HE|done|].
  cbn [mbind option_bind]. destruct (packet_pps_spec (e_now E) p2 Hq2) as [Hq3 Hc3].
  rewrite Hc2, Hc1, E1, E2, E3, E4, E5, E6 in Hc3. set (p3 := packet_pps (e_now E) p2) in *. clearbody p3.
  injection Hc3 as E31 E32 E33 E34 E35 E36. rewrite Hs1' in Hs2'.
  destruct (core_fields _ _ _ _ _ _ _ _ Hs2') as (F1 & F2 & F3 & F4 & F5 & F6 & _).
  destruct (packet_cc_spec t0 E i k pkt s2 p3) as (s4 & p4 & h & -> & Hq4 & Hh & Hc4 & Hs4');
    [done|done|by rewrite F6|lia|lia|done|].
  replace (cc_error k {| n_packets := p_packetCount p3 - 1; n_last := p_lastCC p3; n_cc := 0; n_tei := 0;
    n_scr := 0; n_pusi := 0 |} pkt) with (cc_error k (counters_of p) pkt) in *
    by (unfold cc_error; cbn; rewrite E32; replace (p_packetCount p3 - 1) with (p_packetCount p) by lia; done).
  exists s4, p4, h. split; [done|]. split; [done|]. split; [done|].
  split; [rewrite Hc4; f_equal; lia|]. rewrite Hs4', Hs2'. unfold core_upd; cbn. f_equal; lia.
Qed.

(** The second half: scrambling, transport errors, and no PCR. *)
Lemma packet_back_spec E i k pkt s p :
  pid_quiet p -> 0 <= p_teiErrors p < 2 ^ 63 -> 0 <= p_scrambledCount p < 2 ^ 63 ->
  0 <= s_teiErrors s < 2 ^ 63 -> 0 <= s_scrambledCount s < 2 ^ 63 ->
  exists s' p',
    (let '(s, p) := packet_scrambling k pkt (s, p) in
     let p := p <| p_lastCC := ltntstools_continuity_counter pkt |> in
     let '(s, p) := packet_tei k pkt (s, p) in
     packet_pcr E i k pkt (s, p)) = Some (s', p') /\
    pid_quiet p' /\
    counters_of p' = Build_counters (p_packetCount p) (ltntstools_continuity_counter pkt) (p_ccErrors p)
      (p_teiErrors p + ltntstools_tei_set pkt) (p_scrambledCount p + scrambled pkt) (p_payloadPUSIErrors p) /\
    core_of s' = core_upd (core_of s) (s_packetCount s) (s_teiErrors s + ltntstools_tei_set pkt) (s_ccErrors s)
      (s_scrambledCount s + scrambled pkt) (s_payloadPUSIErrors s) (hm_list (s_ccErrorHistory s)).
Proof.
  intros Hq Hp1 Hp2 Hs1 Hs2.
  destruct (scrambling_spec k pkt s p) as (s1 & p1 & -> & Hq1 & Hc1 & Hs1'); [done..|]. cbv zeta.
  set (p2 := p1 <| p_lastCC := ltntstools_continuity_counter pkt |>).
  assert (pid_quiet p2) as Hq2 by exact Hq1.
  injection Hc1 as E1 E2 E3 E4 E5 E6.
  destruct (core_fields _ _ _ _ _ _ _ _ Hs1') as (F1 & F2 & F3 & F4 & F5 & F6 & _).
  assert (p_teiErrors p2 = p_teiErrors p) as E4' by exact E4.
  destruct (tei_spec k pkt s1 p2) as (s3 & p3 & -> & Hq3 & Hc3 & Hs3'); [lia|lia|done|].
  exists s3, p3. unfold packet_pcr. rewrite (proj1 Hq3). split; [done|]. split; [done|]. split.
  - rewrite Hc3. change (Build_counters (p_packetCount p1) (ltntstools_continuity_counter pkt) (p_ccErrors p1)
      (p_teiErrors p1 + ltntstools_tei_set pkt) (p_scrambledCount p1) (p_payloadPUSIErrors p1) =
      Build_counters (p_packetCount p) (ltntstools_continuity_counter pkt) (p_ccErrors p)
      (p_teiErrors p + ltntstools_tei_set pkt) (p_scrambledCount p + scrambled pkt) (p_payloadPUSIErrors p)).
    by rewrite E1, E3, E4, E5, E6.
  - rewrite Hs3', Hs1', F1, F2, F3, F4, F5, F6. done.
Qed.

(** The stages of a packet together: one more packet counted for the PID, and
    the same events for the stream. *)
Lemma packet_stages_spec t0 E i pkt s p :
  0 <= t0 < 2 ^ 61 -> env_wf t0 E -> fresh t0 (hm_list (s_ccErrorHistory s)) -> pid_quiet p ->
  0 <= p_packetCount p < 2 ^ 63 -> 0 <= p_ccErrors p < 2 ^ 63 -> 0 <= p_teiErrors p < 2 ^ 63 ->
  0 <= p_scrambledCount p < 2 ^ 63 -> 0 <= p_payloadPUSIErrors p < 2 ^ 63 ->
  0 <= s_ccErrors s < 2 ^ 63 -> 0 <= s_teiErrors s < 2 ^ 63 ->
  0 <= s_scrambledCount s < 2 ^ 63 -> 0 <= s_payloadPUSIErrors s < 2 ^ 63 ->
  let k := ltntstools_pid pkt in
  exists s' p' h, packet_stages E pkt i (s, p) = Some (s', p') /\ pid_quiet p' /\ fresh t0 h /\
    counters_of p' = count_packet k (counters_of p) pkt /\
    core_of s' = core_upd (core_of s) (s_packetCount s) (s_teiErrors s + ltntstools_tei_set pkt)
      (s_ccErrors s + cc_error k (counters_of p) pkt) (s_scrambledCount s + scrambled pkt)
      (s_payloadPUSIErrors s + ltntstools_isPayloadPUSIInError pkt) h.
Proof.
  intros Ht0 HE Hf Hq Hp1 Hp2 Hp3 Hp4 Hp5 Hs1 Hs2 Hs3 Hs4. cbv zeta.
  destruct (packet_front_spec t0 E i pkt s p) as (s1 & p1 & h & Hrun & Hq1 & Hh & Hc1 & Hs1'); [done..|].
  injection Hc1 as E1 E2 E3 E4 E5 E6.
  destruct (core_fields _ _ _ _ _ _ _ _ Hs1') as (F1 & F2 & F3 & F4 & F5 & F6 & _).
  destruct (packet_back_spec E i (ltntstools_pid pkt) pkt s1 p1) as (s2 & p2 & Hback & Hq2 & Hc2 & Hs2'); [done|lia..|].
  exists s2, p2, h. split; [|split; [done|]; split; [done|]; split].
  - unfold packet_stages. cbv zeta in Hrun |- *. destruct (packet_pusi_error _ _) as [s3 p3].
    destruct (packet_pusi_time _ _ _ _) as [[s4 p4]|]; [|done]. cbn [mbind option_bind] in Hrun |- *.
    rewrite Hrun. exact Hback.
  - rewrite Hc2. unfold count_packet; cbn. f_equal; lia.
  - rewrite Hs2', Hs1'. unfold core_upd; cbn. f_equal; first [lia|done].
Qed.

(** ** The invariant

    [ps] are the packets seen, [u] the calls of the error counter for packets
    without a sync byte. *)
Record stats_inv (t0 : Z) (ps : list (list Z)) (u : Z) (s : ltntstools_stream_statistics_s) : Prop := {
  si_pids : forall k,
    match s_pids s !! k with
    | None => of_pid k ps = []
    | Some p => of_pid k ps <> [] /\ counters_of p = pid_counts k (of_pid k ps) /\ pid_quiet p
    end;
  si_nodup : NoDup (s_pidArray s);
  si_array : forall k, k ∈ s_pidArray s <-> of_pid k ps <> [];
  si_tei : s_teiErrors s = total ltntstools_tei_set ps;
  si_scr : s_scrambledCount s = total scrambled ps;
  si_pusi : s_payloadPUSIErrors s = total ltntstools_isPayloadPUSIInError ps;
  si_cc : s_ccErrors s = cc_total ps + u;
  si_unsynced : 0 <= u;
  si_fresh : fresh t0 (hm_list (s_ccErrorHistory s))
}.

(** What the packet loop leaves alone. *)
Definition rest_of (s : ltntstools_stream_statistics_s)
    : Z * (Z * option ltn_histogram_s * timeval * Z) :=
  (s_packetCount s, (bc_pcrpidnr (s_bc_ctx s), s_packetIntervals s, s_iat_last_frame s,
   s_iat_hwm_us_last_nsecond_time s)).

Lemma of_pid_in k ps : of_pid k ps <> [] -> 0 <= k < 8192.
Proof.
  destruct (of_pid k ps) as [|p l] eqn:E; [done|]. intros _.
  assert (p ∈ of_pid k ps) as Hp by (rewrite E; left).
  apply list_elem_of_filter in Hp as [<- _]. apply pid_range.
Qed.

(** There is always room for one more PID. *)
Lemma pid_array_room l k :
  NoDup l -> (forall x, x ∈ l -> 0 <= x < 8192) -> k ∉ l -> 0 <= k < 8192 -> len l < 8192.
Proof.
  intros Hnd Hl Hk Hr. assert (k :: l ⊆+ seqZ 0 8192) as Hsub.
  { apply NoDup_submseteq; [by constructor|]. intros x Hx. apply elem_of_seqZ.
    apply elem_of_cons in Hx as [->|Hx]; [lia|]. specialize (Hl x Hx). lia. }
  apply submseteq_length in Hsub. rewrite length_seqZ in Hsub. cbn [length] in Hsub. unfold len. lia.
Qed.

Lemma find_pid_spec t0 E i ps u s k :
  env_wf t0 E -> stats_inv t0 ps u s -> 0 <= k < 8192 ->
  exists s' p, find_pid E i k s = Some (s', p) /\ counters_of p = pid_counts k (of_pid k ps) /\
    pid_quiet p /\ s_pids s' = s_pids s /\ rest_of s' = rest_of s /\
    s_pidArray s' = (if decide (of_pid k ps = []) then s_pidArray s ++ [k] else s_pidArray s) /\
    core_of s' = {| co_pids := s_pids s; co_array := s_pidArray s'; co_packets := s_packetCount s;
      co_tei := s_teiErrors s; co_cc := s_ccErrors s; co_scr := s_scrambledCount s;
      co_pusi := s_payloadPUSIErrors s; co_history := hm_list (s_ccErrorHistory s);
      co_pcrpid := bc_pcrpidnr (s_bc_ctx s); co_intervals := s_packetIntervals s;
      co_last_frame := s_iat_last_frame s; co_nsecond_time := s_iat_hwm_us_last_nsecond_time s |}.
Proof.
  intros HE Hinv Hk. unfold find_pid. pose proof (si_pids _ _ _ _ Hinv k) as Hp.
  destruct (s_pids s !! k) as [p|].
  - destruct Hp as (Hne & Hc & Hq). exists s, p. rewrite decide_False by done. done.
  - rewrite !(ew_alloc _ _ HE). cbn [ltntstools_pid_statistics_alloc mbind option_bind].
    unfold _pidArrayAdd.
    assert (k ∉ s_pidArray s) as Hnot by (rewrite (si_array _ _ _ _ Hinv); tauto).
    assert (len (s_pidArray s) < 8192) as Hlen.
    { apply (pid_array_room _ k); [apply Hinv| |done|done]. intros x Hx.
      apply (si_array _ _ _ _ Hinv) in Hx. by eapply of_pid_in. }
    unfold MAX_PID. rewrite (proj2 (Z.leb_gt 8192 _)) by done. cbn [negb mbind option_bind].
    rewrite (land_ones_mod k 13), Z.mod_small by (done || lia).
    eexists _, _. split; [reflexivity|]. rewrite Hp, decide_True by done. done.
Qed.

Lemma of_pid_other k ps pkt : k <> ltntstools_pid pkt -> of_pid k (ps ++ [pkt]) = of_pid k ps.
Proof. intros H. rewrite of_pid_snoc, decide_False; congruence. Qed.

Lemma of_pid_same ps pkt :
  of_pid (ltntstools_pid pkt) (ps ++ [pkt]) = of_pid (ltntstools_pid pkt) ps ++ [pkt].
Proof. by rewrite of_pid_snoc, decide_True. Qed.

(** The table and the array after a packet of PID [k]. *)
Lemma pids_step t0 ps u s pkt p' array :
  stats_inv t0 ps u s -> let k := ltntstools_pid pkt in
  counters_of p' = count_packet k (pid_counts k (of_pid k ps)) pkt -> pid_quiet p' ->
  array = (if decide (of_pid k ps = []) then s_pidArray s ++ [k] else s_pidArray s) ->
  (forall k', match (<[k := p']> (s_pids s)) !! k' with
     | None => of_pid k' (ps ++ [pkt]) = []
     | Some p => of_pid k' (ps ++ [pkt]) <> [] /\
                 counters_of p = pid_counts k' (of_pid k' (ps ++ [pkt])) /\ pid_quiet p
     end) /\
  NoDup array /\ (forall k', k' ∈ array <-> of_pid k' (ps ++ [pkt]) <> []).
Proof.
  intros Hinv k Hc Hq ->. repeat split.
  - intros k'. destruct (decide (k' = k)) as [->|Hne].
    + rewrite lookup_insert_eq. unfold k. rewrite of_pid_same, pid_counts_snoc. split; [|done].
      by destruct (of_pid _ ps).
    + rewrite lookup_insert_ne, of_pid_other by done. apply Hinv.
  - destruct (decide _) as [He|]; [|apply Hinv]. apply NoDup_app. repeat split; [apply Hinv| |apply NoDup_singleton].
    intros x Hx%(si_array _ _ _ _ Hinv) Hk. apply list_elem_of_singleton in Hk as ->. done.
  - intros Hk'. destruct (decide (k' = k)) as [->|Hne].
    + unfold k. rewrite of_pid_same. by destruct (of_pid _ ps).
    + rewrite of_pid_other by done. apply (si_array _ _ _ _ Hinv).
      destruct (decide _); [|done]. apply elem_of_app in Hk' as [|Hk']; [done|].
      by apply list_elem_of_singleton in Hk'.
  - intros Hk'. destruct (decide (k' = k)) as [->|Hne].
    + destruct (decide _) as [|Hn]; [apply elem_of_app; right; by apply list_elem_of_singleton|].
      by apply (si_array _ _ _ _ Hinv).
    + rewrite of_pid_other in Hk' by done. apply (si_array _ _ _ _ Hinv) in Hk'.
      destruct (decide _); [|done]. apply elem_of_app. by left.
Qed.

Lemma update_packet_spec t0 E pkt i ps u s :
  0 <= t0 < 2 ^ 61 -> env_wf t0 E -> stats_inv t0 ps u s -> len ps + u < 2 ^ 62 ->
  exists s', update_packet E pkt i s = Some s' /\ stats_inv t0 (ps ++ [pkt]) u s' /\ rest_of s' = rest_of s.
Proof.
  intros Ht0 HE Hinv Hlen. set (k := ltntstools_pid pkt).
  destruct (find_pid_spec t0 E i ps u s k HE Hinv (pid_range pkt))
    as (s1 & p & Hfind & Hc & Hq & Hp1 & Hr1 & Ha1 & Hcore1).
  pose proof (pid_counts_bound k (of_pid k ps)) as (Hn & Hb1 & Hb2 & Hb3 & Hb4).
  rewrite <- Hc in Hn, Hb1, Hb2, Hb3, Hb4. cbn in Hn, Hb1, Hb2, Hb3, Hb4.
  pose proof (of_pid_len k ps). pose proof (len_nonneg (of_pid k ps)). pose proof (cc_total_bound ps).
  pose proof (total_bound _ ps tei_bound). pose proof (total_bound _ ps scrambled_bound).
  pose proof (total_bound _ ps pusi_bound). pose proof (si_unsynced _ _ _ _ Hinv).
  pose proof Hinv as [_ _ _ G1 G2 G3 G4 _ G5].
  assert (s_teiErrors s1 = s_teiErrors s /\ s_ccErrors s1 = s_ccErrors s /\
    s_scrambledCount s1 = s_scrambledCount s /\ s_payloadPUSIErrors s1 = s_payloadPUSIErrors s /\
    hm_list (s_ccErrorHistory s1) = hm_list (s_ccErrorHistory s)) as (D1 & D2 & D3 & D4 & D5)
    by (exact (conj (f_equal co_tei Hcore1) (conj (f_equal co_cc Hcore1) (conj (f_equal co_scr Hcore1)
          (conj (f_equal co_pusi Hcore1) (f_equal co_history Hcore1)))))).
  destruct (packet_stages_spec t0 E i pkt s1 p) as (s2 & p2 & h & Hrun & Hq2 & Hh & Hc2 & Hs2);
    [done|done|by rewrite D5|done|lia..|].
  fold k in Hc2, Hs2. rewrite Hc in Hc2, Hs2.
  destruct (pids_step t0 ps u s pkt p2 (s_pidArray s2) Hinv Hc2 Hq2) as (J1 & J2 & J3).
  { destruct (core_fields _ _ _ _ _ _ _ _ Hs2) as (_ & _ & _ & _ & _ & _ & _ & ->). exact Ha1. }
  exists (s2 <| s_pids := <[k := p2]> (s_pids s2) |>). unfold update_packet. fold k.
  rewrite Hfind, Hrun. split; [done|].
  destruct (core_fields _ _ _ _ _ _ _ _ Hs2) as (F1 & F2 & F3 & F4 & F5 & F6 & F7 & F8).
  split.
  - constructor; try exact J2; try exact J3; try done.
    + change (s_pids (s2 <| s_pids := <[k := p2]> (s_pids s2) |>)) with (<[k := p2]> (s_pids s2)).
      rewrite F7. change (co_pids (core_of s1)) with (s_pids s1). rewrite Hp1. exact J1.
    + rewrite total_snoc, <- G1, <- D1. exact F2.
    + rewrite total_snoc, <- G2, <- D3. exact F4.
    + rewrite total_snoc, <- G3, <- D4. exact F5.
    + unfold cc_total. rewrite cc_total_from_snoc. change (cc_total_from [] ps) with (cc_total ps).
      change (s_ccErrors s2 = cc_total ps + cc_error k (pid_counts k (of_pid k ps)) pkt + u). lia.
    + change (fresh t0 (hm_list (s_ccErrorHistory s2))). by rewrite F6.
  - rewrite <- Hr1. unfold rest_of. change (rest_of s2 = rest_of s1).
    exact (f_equal (fun c => (co_packets c, (co_pcrpid c, co_intervals c, co_last_frame c, co_nsecond_time c))) Hs2).
Qed.

Lemma update_loop_spec t0 E pre post fuel ps u s :
  0 <= t0 < 2 ^ 61 -> env_wf t0 E -> packets (pre ++ post) -> stats_inv t0 ps u s ->
  len ps + len post + u < 2 ^ 62 -> (length post < fuel)%nat ->
  exists s', update_loop fuel E (concat (pre ++ post)) (len (pre ++ post)) (len pre) s = Some s' /\
    stats_inv t0 (ps ++ post) u s' /\ rest_of s' = rest_of s.
Proof.
  intros Ht0 HE. revert pre ps s fuel. induction post as [|pkt post IH];
    intros pre ps s fuel Hps Hinv Hlen Hfuel; (destruct fuel as [|fuel]; [cbn in Hfuel; lia|]);
    cbn [update_loop].
  - rewrite !app_nil_r, Z.leb_refl. by exists s.
  - rewrite (proj2 (Z.leb_gt (len (pre ++ pkt :: post)) (len pre)))
      by (rewrite len_app, len_cons; pose proof (len_nonneg post); lia).
    destruct (packet_at pre pkt post Hps) as [-> _]. cbn [mbind option_bind].
    rewrite len_cons in Hlen. pose proof (len_nonneg post).
    destruct (update_packet_spec t0 E pkt (len pre) ps u s) as (s1 & -> & Hinv1 & Hr1); [done..|lia|].
    cbn [mbind option_bind]. cbn [length] in Hfuel.
    replace (pre ++ pkt :: post) with ((pre ++ [pkt]) ++ post) in * by by rewrite <- app_assoc.
    replace (len pre + 1) with (len (pre ++ [pkt])) by (rewrite len_app; done).
    destruct (IH (pre ++ [pkt]) (ps ++ [pkt]) s1 fuel) as (s' & -> & Hinv' & Hr'); [done|done| |lia|].
    { rewrite len_app. change (len [pkt]) with 1. lia. }
    exists s'. rewrite <- app_assoc in Hinv'. split; [done|]. split; [done|]. congruence.
Qed.

(** ** One call *)

(** The counting fields. *)
Definition counting_of (s : ltntstools_stream_statistics_s) :=
  (s_pids s, s_pidArray s, (s_teiErrors s, s_ccErrors s, s_scrambledCount s, s_payloadPUSIErrors s),
   s_ccErrorHistory s).

Lemma stats_inv_ext t0 ps u s s' : counting_of s' = counting_of s -> stats_inv t0 ps u s -> stats_inv t0 ps u s'.
Proof.
  intros H []. injection H as E1 E2 E3 E4 E5 E6 E7.
  constructor; rewrite ?E1, ?E2, ?E3, ?E4, ?E5, ?E6, ?E7; done.
Qed.

Lemma counting_notify e k s : counting_of (notify e k s) = counting_of s /\ rest_of (notify e k s) = rest_of s.
Proof. unfold notify. by destruct (s_notifications s !! event_nr e) as [[?|]|]. Qed.

(** No PCR is measured, and the interval histogram has counted at most [n]
    calls. *)
Record quiet (n : Z) (s : ltntstools_stream_statistics_s) : Prop := {
  qu_pcrpid : bc_pcrpidnr (s_bc_ctx s) = 0;
  qu_frame : timeval_wf (s_iat_last_frame s);
  qu_nsecond : 0 <= s_iat_hwm_us_last_nsecond_time s < 2 ^ 62;
  qu_hist : exists h, s_packetIntervals s = Some h /\ hist_wf h /\ seen h <= n
}.

Lemma quiet_ext n s s' : (rest_of s').2 = (rest_of s).2 -> quiet n s -> quiet n s'.
Proof. intros H []. injection H as E2 E3 E4 E5. constructor; rewrite ?E2, ?E3, ?E4, ?E5; done. Qed.

Lemma update_pps_same now n s :
  counting_of (update_pps now n s) = counting_of s /\ rest_of (update_pps now n s) = rest_of s.
Proof.
  unfold update_pps. destruct (now =? s_pps_last_update s); [done|].
  match goal with |- context [notify ?e ?k ?x] => destruct (counting_notify e k x) as [H1 H2] end.
  split; [exact H1|exact H2].
Qed.

Lemma iat_watermarks_same cur s :
  counting_of (iat_watermarks cur s) = counting_of s /\ rest_of (iat_watermarks cur s) = rest_of s.
Proof.
  unfold iat_watermarks. cbv zeta.
  set (s1 := s <| s_iat_cur_us := cur |>).
  assert (counting_of s1 = counting_of s /\ rest_of s1 = rest_of s) as [<- <-] by done. clearbody s1.
  set (s2 := if cur <=? s_iat_lwm_us s1 then s1 <| s_iat_lwm_us := cur |> else s1).
  assert (counting_of s2 = counting_of s1 /\ rest_of s2 = rest_of s1) as [<- <-]
    by (unfold s2; by destruct (_ <=? _)). clearbody s2.
  set (s3 := if s_iat_hwm_us s2 <=? cur then _ else _).
  assert (counting_of s3 = counting_of s2 /\ rest_of s3 = rest_of s2) as [<- <-].
  { unfold s3. destruct (_ <=? _); [|done].
    destruct (counting_notify EVENT_UPDATE_STREAM_IAT_HWM None (s2 <| s_iat_hwm_us := cur |>)) as [-> ->]. done. }
  clearbody s3. by destruct (_ <? _).
Qed.

Lemma update_iat_spec t0 E n s :
  env_wf t0 E -> quiet n s -> 0 <= n < 2 ^ 62 ->
  exists s', update_iat E s = Some s' /\ counting_of s' = counting_of s /\ quiet (n + 1) s' /\
    s_packetCount s' = s_packetCount s.
Proof.
  intros HE Hq Hn. unfold update_iat. pose proof Hq as [Q1 Q2 Q3 (h & Q4 & Q5 & Q6)].
  destruct (_ =? 0).
  { exists s. split; [done|]. split; [done|]. split; [|done]. constructor; try done. exists h. split; [done|]. split; [done|lia]. }
  rewrite subtract_us_spec by (apply HE || done). cbn [mbind option_bind].
  set (cur := i32 _). clearbody cur.
  destruct (iat_watermarks_same cur s) as [Hc Hr]. set (s1 := iat_watermarks cur s) in *. clearbody s1.
  pose proof (quiet_ext _ _ _ (f_equal snd Hr) Hq) as [R1 R2 R3 (h1 & R4 & R5 & R6)].
  assert (s_packetCount s1 = s_packetCount s) as Hpc by exact (f_equal fst Hr).
  pose proof (ew_now _ _ HE). rewrite i64_ok_Some by lia. cbn [mbind option_bind].
  match goal with |- context [s_packetIntervals ?x] => set (s2 := x) end.
  assert (s_packetIntervals s2 = Some h1 /\ counting_of s2 = counting_of s1 /\
    bc_pcrpidnr (s_bc_ctx s2) = 0 /\ timeval_wf (s_iat_last_frame s2) /\
    0 <= s_iat_hwm_us_last_nsecond_time s2 < 2 ^ 62 /\ s_packetCount s2 = s_packetCount s1)
    as (-> & D2 & D3 & D4 & D5 & D6).
  { unfold s2. destruct (_ <=? _).
    - exact (conj R4 (conj eq_refl (conj R1 (conj R2 (conj (ew_now _ _ HE) eq_refl))))).
    - exact (conj R4 (conj eq_refl (conj R1 (conj R2 (conj R3 eq_refl))))). }
  clearbody s2. cbn [mbind option_bind]. unfold ltn_histogram_interval_update_with_value.
  destruct (hist_record_spec (e_hist E) h1 (u32 (Z.quot cur 1000)) R5) as (h' & Hh & Hwf' & Hs'); [lia|].
  exists (s2 <| s_packetIntervals := Some h' |>). split; [|split; [by rewrite <- Hc|split; [|by rewrite <- Hpc]]].
  - destruct (hist_out_of_range _ _); [by injection Hh as ->|by rewrite Hh].
  - constructor; try done. exists h'. split; [done|]. split; [done|lia].
Qed.

(** One call of the update: its packets are counted after those seen. *)
Lemma update_spec t0 E ps u n s pkts :
  0 <= t0 < 2 ^ 61 -> env_wf t0 E -> packets pkts -> stats_inv t0 ps u s -> quiet n s ->
  0 <= n < 2 ^ 62 -> 0 <= s_packetCount s <= len ps -> len ps + 2 * len pkts + u < 2 ^ 61 ->
  exists s', ltntstools_pid_stats_update E (Some s) (Some (concat pkts)) (len pkts) = Some (Some s') /\
    stats_inv t0 (ps ++ pkts) (u + total unsynced pkts) s' /\ quiet (n + 1) s' /\
    s_packetCount s' = s_packetCount s + (len pkts - total unsynced pkts).
Proof.
  intros Ht0 HE Hps Hinv Hq Hn Hpc Hlen. unfold ltntstools_pid_stats_update.
  pose proof (len_nonneg pkts). pose proof (len_nonneg ps). pose proof (si_unsynced _ _ _ _ Hinv).
  assert (forall p, 0 <= unsynced p <= 1) as Hub by (intros p; unfold unsynced; destruct (_ =? _); lia).
  pose proof (total_bound _ pkts Hub).
  set (s1 := update_multiple_of_seven _ _ s).
  assert (counting_of s1 = counting_of s /\ rest_of s1 = rest_of s) as [C1 R1]
    by (unfold s1, update_multiple_of_seven; by destruct (_ =? 7)).
  clearbody s1. apply (stats_inv_ext _ _ _ _ _ C1) in Hinv. apply (quiet_ext _ _ _ (f_equal snd R1)) in Hq.
  assert (s_packetCount s = s_packetCount s1) as Ep by (symmetry; exact (f_equal fst R1)).
  rewrite Ep in *. clear s C1 R1 Ep. unfold update_bitrate. rewrite (qu_pcrpid _ _ Hq). cbn [Z.eqb mbind option_bind].
  pose proof (cc_total_bound ps). pose proof (si_cc _ _ _ _ Hinv).
  destruct (count_sync_spec t0 E [] pkts (S (Z.to_nat (len pkts))) s1) as (s2 & h & E2 & Hh & Hs2);
    [done|done|done|apply Hinv|lia|lia|lia|lia|unfold len; lia|].
  cbn [app] in E2. change (len []) with 0 in E2. rewrite E2. cbn [mbind option_bind].
  destruct (core_fields _ _ _ _ _ _ _ _ Hs2) as (F1 & F2 & F3 & F4 & F5 & F6 & F7 & F8).
  assert (stats_inv t0 ps (u + total unsynced pkts) s2) as Hinv2.
  { destruct Hinv. constructor; rewrite ?F2, ?F3, ?F4, ?F5, ?F6, ?F7, ?F8; try done; lia. }
  assert (quiet n s2) as Hq2.
  { apply (quiet_ext n s1); [|done].
    exact (f_equal (fun c => (co_pcrpid c, co_intervals c, co_last_frame c, co_nsecond_time c)) Hs2). }
  destruct (update_pps_same (e_now E) (len pkts) s2) as [C3 R3]. set (s3 := update_pps _ _ s2) in *. clearbody s3.
  apply (stats_inv_ext _ _ _ _ _ C3) in Hinv2. apply (quiet_ext _ _ _ (f_equal snd R3)) in Hq2.
  destruct (update_iat_spec t0 E n s3) as (s4 & -> & C4 & Hq4 & Hp4); [done..|]. cbn [mbind option_bind].
  apply (stats_inv_ext _ _ _ _ _ C4) in Hinv2.
  destruct (update_loop_spec t0 E [] pkts (S (Z.to_nat (len pkts))) ps (u + total unsynced pkts) s4)
    as (s5 & E5 & Hinv5 & R5); [done|done|done|done|lia|unfold len; lia|].
  cbn [app] in E5. change (len []) with 0 in E5. rewrite E5. cbn [mbind option_bind].
  eexists. split; [reflexivity|]. split; [by apply (stats_inv_ext _ _ _ s5)|].
  assert (s_packetCount s5 = s_packetCount s2) as Hp5.
  { rewrite (f_equal fst R5 : s_packetCount s5 = s_packetCount s4), Hp4. exact (f_equal fst R3). }
  apply (quiet_ext _ _ _ (f_equal snd R5)) in Hq4. destruct Hq4 as [Q1 Q2 Q3 Q4].
  split; [by constructor; [|apply HE| |]|]. rewrite <- F1, <- Hp5. done.
Qed.

(** ** A run of calls *)

Fixpoint stats_run (s : ltntstools_stream_statistics_s) (calls : list (env * list (list Z)))
    : option ltntstools_stream_statistics_s :=
  match calls with
  | [] => Some s
  | (E, pkts) :: calls =>
      s ← ltntstools_pid_stats_update E (Some s) (Some (concat pkts)) (len pkts);
      s ← s; stats_run s calls
  end.

Definition all_packets (calls : list (env * list (list Z))) : list (list Z) := concat (map snd calls).

Lemma stats_run_spec t0 calls ps u n s :
  0 <= t0 < 2 ^ 61 -> Forall (fun c => env_wf t0 c.1 /\ packets c.2) calls ->
  stats_inv t0 ps u s -> quiet n s -> 0 <= n -> n + len calls < 2 ^ 62 ->
  0 <= s_packetCount s <= len ps -> len ps + 2 * len (all_packets calls) + u < 2 ^ 61 ->
  exists s', stats_run s calls = Some s' /\
    stats_inv t0 (ps ++ all_packets calls) (u + total unsynced (all_packets calls)) s' /\
    s_packetCount s' = s_packetCount s + (len (all_packets calls) - total unsynced (all_packets calls)).
Proof.
  intros Ht0 Hcalls. revert ps u n s.
  induction Hcalls as [|[E pkts] calls [HE Hps] Hcalls IH]; intros ps u n s Hinv Hq Hn Hn' Hpc Hlen.
  { exists s. unfold all_packets, total; cbn. rewrite app_nil_r, Z.add_0_r. change (len []) with 0. split; [done|]. split; [done|lia]. }
  unfold all_packets in *. cbn [map concat snd fst] in *. set (rest := concat (map snd calls)) in *.
  rewrite len_app in Hlen. rewrite len_cons in Hn'. pose proof (len_nonneg calls).
  pose proof (len_nonneg pkts). pose proof (len_nonneg rest). pose proof (si_unsynced _ _ _ _ Hinv).
  pose proof (len_nonneg ps).
  assert (forall p, 0 <= unsynced p <= 1) as Hub by (intros p; unfold unsynced; destruct (_ =? _); lia).
  pose proof (total_bound _ pkts Hub).
  destruct (update_spec t0 E ps u n s pkts) as (s1 & E1 & Hinv1 & Hq1 & Hp1); [done|done|done|done|done|lia|lia|lia|].
  destruct (IH (ps ++ pkts) (u + total unsynced pkts) (n + 1) s1) as (s' & E' & Hinv' & Hp');
    [done|done|lia|lia|rewrite len_app; lia|rewrite len_app; lia|].
  exists s'. cbn [stats_run]. rewrite E1. cbn [mbind option_bind]. split; [exact E'|].
  rewrite total_app, len_app, app_assoc, Z.add_assoc. split; [done|]. lia.
Qed.

Lemma stats_alloc_spec t0 now :
  timeval_wf now -> 0 <= t0 ->
  exists s, ltntstools_pid_stats_alloc (fun _ => true) now = Some s /\
    stats_inv t0 [] 0 s /\ quiet 0 s /\ s_packetCount s = 0.
Proof.
  intros Hnow Ht0. unfold ltntstools_pid_stats_alloc, ltn_histogram_alloc_video_defaults. cbn [negb].
  destruct (hist_alloc_wf now "IAT Intervals" 0 (16 * 1000)) as (h & -> & Hwf & Hs & _); [lia|lia|done|].
  cbn [ltntstools_history_metric_collection_init mbind option_bind].
  destruct (hist_reset_wf now h Hwf Hnow) as [Hwf' Hs'].
  eexists. split; [reflexivity|]. split; [|split; [|done]].
  - constructor; cbn; unfold const; try done.
    + constructor.
    + intros k. split; [by intros ?%elem_of_nil|done].
    + constructor.
  - constructor; cbn; unfold const; try done.
    exists (ltn_histogram_reset now h). split; [done|]. split; [done|]. rewrite Hs'. done.
Qed.

(** C1: The statistics of a transport stream, of calls of the update from an
    allocation on whose clock readings lie within 25 hours of a time [t0]
    (after a longer pause the difference of two readings overflows,
    [stats_error_after_25_hours]), with no PID declared to carry a PCR: a PID has a record exactly when one of its packets was
    seen, and the record's counters are those of the packets of that PID alone;
    the PID array lists the PIDs once each; the stream counts the packets with
    a sync byte, the continuity errors of all PIDs plus the packets without a
    sync byte, and the flagged packets of all PIDs. *)
Theorem stats_count_packets t0 now calls :
  0 <= t0 < 2 ^ 61 -> timeval_wf now -> Forall (fun c => env_wf t0 c.1 /\ packets c.2) calls ->
  len calls < 2 ^ 60 -> len (all_packets calls) < 2 ^ 59 ->
  let ps := all_packets calls in
  exists s0 s, ltntstools_pid_stats_alloc (fun _ => true) now = Some s0 /\ stats_run s0 calls = Some s /\
    (forall k, match s_pids s !! k with
       | None => of_pid k ps = []
       | Some p => of_pid k ps <> [] /\ counters_of p = pid_counts k (of_pid k ps)
       end) /\
    NoDup (s_pidArray s) /\ (forall k, k ∈ s_pidArray s <-> of_pid k ps <> []) /\
    s_packetCount s = len ps - total unsynced ps /\
    s_ccErrors s = cc_total ps + total unsynced ps /\
    s_teiErrors s = total ltntstools_tei_set ps /\
    s_scrambledCount s = total scrambled ps /\
    s_payloadPUSIErrors s = total ltntstools_isPayloadPUSIInError ps.
Proof.
  intros Ht0 Hnow Hcalls Hn Hlen ps.
  destruct (stats_alloc_spec t0 now Hnow) as (s0 & E0 & Hinv0 & Hq0 & Hp0); [lia|].
  change (len []) with 0 in *. pose proof (len_nonneg (all_packets calls)).
  destruct (stats_run_spec t0 calls [] 0 0 s0) as (s & E & Hinv & Hp);
    [done|done|done|done|lia|lia|rewrite Hp0; done|change (len []) with 0; lia|].
  exists s0, s. cbn [app] in Hinv. rewrite Z.add_0_l in Hinv. fold ps in Hinv, Hp. rewrite Hp0, Z.add_0_l in Hp.
  destruct Hinv as [J1 J2 J3 J4 J5 J6 J7 _ _].
  split; [done|]. split; [done|].
  split; [|exact (conj J2 (conj J3 (conj Hp (conj J7 (conj J4 (conj J5 J6))))))].
  intros k. specialize (J1 k). destruct (s_pids s !! k); [tauto|done].
Qed.

(** Packets of the witness: the header and 184 bytes of payload. *)
Definition test_packet (b1 b2 b3 : Z) : list Z := [0x47; b1; b2; b3] ++ replicate 184 0.

Definition test_env (sec : Z) : env :=
  {| e_tv := Timeval sec 0; e_now := sec; e_hist := Timeval sec 0; e_time := fun _ _ => sec;
     e_wall := fun _ _ => Timeval sec 0; e_alloc := fun _ _ => true |}.

(** PID 0x31 repeats a counter value, PID 0x20 skips one. *)
Definition test_calls : list (env * list (list Z)) :=
  [(test_env 1000, [test_packet 0x40 0x31 0x10; test_packet 0x00 0x20 0x10; test_packet 0x00 0x31 0x11]);
   (test_env 1001, [test_packet 0x00 0x31 0x11; test_packet 0x80 0x20 0x92])].

Lemma test_env_wf sec : 1000 <= sec < 10000 -> env_wf 1000 (test_env sec).
Proof. intros H. split; unfold timeval_wf; cbn; try done; lia. Qed.

Lemma stats_count_packets_witness :
  exists s0 s, ltntstools_pid_stats_alloc (fun _ => true) (Timeval 1000 0) = Some s0 /\
    stats_run s0 test_calls = Some s /\ s_packetCount s = 5 /\ s_ccErrors s = 2 /\
    counters_of <$> (s_pids s !! 0x20) =
      Some {| n_packets := 2; n_last := 2; n_cc := 1; n_tei := 1; n_scr := 1; n_pusi := 0 |}.
Proof.
  destruct (stats_count_packets 1000 (Timeval 1000 0) test_calls) as (s0 & s & E0 & E & Hpids & _ & _ & Hp & Hc & _);
    [done|done| |done|done|].
  { constructor; [split; [by apply test_env_wf|by repeat constructor]|].
    constructor; [split; [by apply test_env_wf|by repeat constructor]|constructor]. }
  exists s0, s. split; [exact E0|]. split; [exact E|]. split; [exact Hp|]. split; [exact Hc|].
  specialize (Hpids 0x20). destruct (s_pids s !! 0x20) as [p|].
  - destruct Hpids as [_ Hk]. cbn. rewrite Hk. by vm_compute.
  - by vm_compute in Hpids.
Defined.

(** ** Behaviour outside the theorem's range *)

(** Two continuity errors, and another one more than 25 hours later: the
    history frees an entry twice. *)
Lemma stats_error_after_25_hours :
  forall s0, ltntstools_pid_stats_alloc (fun _ => true) (Timeval 1000 0) = Some s0 ->
  stats_run s0 [(test_env 1000, [test_packet 0 0x31 0x10; test_packet 0 0x31 0x10; test_packet 0 0x31 0x10]);
                (test_env 91001, [test_packet 0 0x31 0x10])] = None.
Proof. intros s0 H. vm_compute in H. injection H as <-. by vm_compute. Qed.

(** The bitrate is measured between a PCR of the declared PID and the next PCR
    of any PID: here PID 0x40 ends the measurement of PID 0x31. *)
Definition pcr_test_packet (pid_low pcr : Z) : list Z :=
  [0x47; 0; pid_low; 0x20; 183; 0x10] ++ pcr_field pcr ++ replicate 176 0.

Lemma bitrate_ends_on_other_pid :
  exists bc, bitrate_loop 3 0 (concat [pcr_test_packet 0x31 27000; pcr_test_packet 0x40 54000]) 2 0
      {| bc_running := 1; bc_pcrpidnr := 0x31; bc_pcrFirst := -1; bc_pcrSecond := -1;
         bc_packetsInbetween := 0; bc_ticksPerPCR := 0; bc_ticksPerPacket := 0; bc_stc := 0;
         bc_ccErrorsStreamLastWrite := 0 |} false = Some (bc, true) /\ bc_ticksPerPacket bc = 27000.
Proof. eexists. split; [vm_compute; reflexivity|done]. Qed.

(** The percentage of null packets is computed in 32 bits: from 42949673 bits
    per second of null packets on it is wrong.  Here every packet is a null
    packet. *)
Lemma padding_overflow :
  forall s0, ltntstools_pid_stats_alloc (fun _ => true) (Timeval 1000 0) = Some s0 ->
  exists p, ltntstools_pid_statistics_alloc true (Timeval 1000 0) 0x1fff = Some p /\
    (ltntstools_pid_stats_stream_padding_pct 1000 1000
       (s0 <| s_pps := 30000 |> <| s_pps_last_update := 1000 |>
           <| s_pids := {[ 0x1fff := p <| p_pps := 30000 |> <| p_pps_last_update := 1000 |> ]} |>)).2 = 4.
Proof.
  intros s0 H. vm_compute in H. injection H as <-. eexists. split; [reflexivity|]. by vm_compute.
Qed.
