(* ===== verification/StatsQuery.v ===== *)
(** * Queries and copies of the statistics: src/stats.c

    The queries that read a field, the names of the notifications, and the deep
    copy of the stream record.  A NULL stream is [None]. *)
From Stdlib Require Import ZArith Lia Bool String.
From stdpp Require Import base numbers list option gmap.
From coqutil Require Import Datatypes.RecordSettersUsingExistingGetters.
From S2P Require Import Prelude Clock Histogram HistoryMetric Stats.

(** The C parameter is an [int]-like enum: numbers outside it have a name too. *)
Definition ltntstools_notification_event_name (e : Z) : string :=
  if e =? 0 then "EVENT_UNDEFINED"
  else if e =? 1 then "EVENT_UPDATE_PID_PUSI_DELIVERY_TIME"
  else if e =? 2 then "EVENT_UPDATE_PID_PCR_EXCEEDS_40MS"
  else if e =? 3 then "EVENT_UPDATE_PID_PCR_WALLTIME"
  else if e =? 4 then "EVENT_UPDATE_STREAM_CC_COUNT"
  else if e =? 5 then "EVENT_UPDATE_STREAM_TEI_COUNT"
  else if e =? 6 then "EVENT_UPDATE_STREAM_SCRAMBLED_COUNT"
  else if e =? 7 then "EVENT_UPDATE_STREAM_MBPS"
  else if e =? 8 then "EVENT_UPDATE_PCR_MBPS"
  else if e =? 9 then "EVENT_UPDATE_STREAM_IAT_HWM"
  else "EVENT_UNKNOWN".

(** ** Fields of the stream *)

Definition field (f : ltntstools_stream_statistics_s -> Z) (s : option ltntstools_stream_statistics_s) : Z :=
  match s with None => 0 | Some s => f s end.

Definition ltntstools_pid_stats_stream_get_ccerror_count := field s_ccErrors.
Definition ltntstools_pid_stats_stream_get_cc_errors := field s_ccErrors.
Definition ltntstools_pid_stats_stream_get_cc_error_time := field s_last_cc_error.
Definition ltntstools_pid_stats_stream_get_tei_errors := field s_teiErrors.
Definition ltntstools_pid_stats_stream_get_scrambled_count := field s_scrambledCount.
Definition ltntstools_pid_stats_stream_get_packet_count := field s_packetCount.
Definition ltntstools_pid_stats_stream_get_notmultipleofseven_errors := field s_notMultipleOfSevenError.
Definition ltntstools_pid_stats_stream_get_notmultipleofseven_time := field s_last_notMultipleOfSeven_error.
Definition ltntstools_pid_stats_stream_get_iat_hwm_us := field s_iat_hwm_us_last_nsecond.
Definition ltntstools_pid_stats_stream_get_pusi_payload_errors := field s_payloadPUSIErrors.

(** The history is counted with two readings of the clock. *)
Definition ltntstools_pid_stats_stream_get_ccerror_count_1hr (now' now : Z)
    (s : option ltntstools_stream_statistics_s) : option Z :=
  match s with
  | None => Some 0
  | Some s => ltntstools_history_metric_collection_count_until_1hr now' now (s_ccErrorHistory s)
  end.
Definition ltntstools_pid_stats_stream_get_ccerror_count_24hr (now' now : Z)
    (s : option ltntstools_stream_statistics_s) : option Z :=
  match s with
  | None => Some 0
  | Some s => ltntstools_history_metric_collection_count_until_24hr now' now (s_ccErrorHistory s)
  end.

Definition ltntstools_bytestream_stats_stream_get_bps (now : Z) (s : ltntstools_stream_statistics_s)
    : ltntstools_stream_statistics_s * Z :=
  let s := _expire_per_second_stream_stats now s in (s, s_a324_bps s).

(** ** Fields of a PID *)

Definition pid_field (f : ltntstools_pid_statistics_s -> Z) (s : option ltntstools_stream_statistics_s)
    (pidnr : Z) : Z :=
  match s with
  | None => 0
  | Some s => match s_pids s !! Z.land pidnr 0x1fff with None => 0 | Some p => f p end
  end.

Definition ltntstools_pid_stats_pid_get_last_update := pid_field p_pps_last_update.
Definition ltntstools_pid_stats_pid_get_pusi_payload_errors := pid_field p_payloadPUSIErrors.

(** ** The deep copy *)

(** [ok1], [ok2]: the allocations; [now]: the clock at the allocation. *)
Definition ltntstools_histogram_clone (ok1 ok2 : bool) (now : timeval) (src : option ltn_histogram_s)
    : option ltn_histogram_s :=
  src ← src;
  dst ← ltn_histogram_alloc ok1 ok2 now (Some (hist_name src)) (minValMs src) (maxValMs src);
  Some (dst <| buckets := take (Z.to_nat (bucketCount src)) (buckets src)
                          ++ drop (Z.to_nat (bucketCount src)) (buckets dst) |>
            <| bucketMissCount := bucketMissCount src |>
            <| intervalLast := intervalLast src |>
            <| cumulativeMs := cumulativeMs src |>
            <| cumulativeLast := cumulativeLast src |>
            <| sampleMs := sampleMs src |>
            <| sampleLast := sampleLast src |>
            <| printLast := printLast src |>
            <| printSummaryLast := printSummaryLast src |>
            <| totalCount := totalCount src |>).

(** The entries are copied newest first, each in front of those before; [ok k]
    and [time k]: allocation and clock for entry [k].  The inner [None] is the
    failure of an allocation. *)
Fixpoint clone_into_loop (ok : nat -> bool) (time : nat -> Z) (k : nat)
    (l : list ltntstools_history_metric_s) (dst : ltntstools_history_metric_collection_s)
    : option (option ltntstools_history_metric_collection_s) :=
  match l with
  | [] => Some (Some dst)
  | m :: l =>
      if ok k then
        dst ← ltntstools_history_metric_collection_add (time k) dst
                (ltntstools_history_metric_alloc (hm_ts m) (hm_count m));
        clone_into_loop ok time (S k) l dst
      else Some None
  end.

Definition ltntstools_history_metric_collection_clone_into (ok : nat -> bool) (time : nat -> Z)
    (dst src : ltntstools_history_metric_collection_s)
    : option (ltntstools_history_metric_collection_s * Z) :=
  let dst := ltntstools_history_metric_collection_reset dst in
  r ← clone_into_loop ok time 0 (hm_list src) dst;
  Some (match r with
        | Some dst => (dst, 0)
        | None => (ltntstools_history_metric_collection_reset dst, -1)
        end).

(** A copy of a histogram pointer that fails only for a histogram that exists. *)
Definition clone_pointer (ok1 ok2 : bool) (now : timeval) (h : option ltn_histogram_s)
    : option (option ltn_histogram_s) :=
  match h with
  | None => Some None
  | Some h => h ← ltntstools_histogram_clone ok1 ok2 now (Some h); Some (Some h)
  end.

Definition ltntstools_pid_statistics_clone (ok : nat -> bool) (now : nat -> timeval)
    (src : ltntstools_pid_statistics_s) : option ltntstools_pid_statistics_s :=
  if negb (ok 0%nat) then None else
  ticks ← clone_pointer (ok 1%nat) (ok 2%nat) (now 0%nat) (p_pcrTickIntervals src);
  drift ← clone_pointer (ok 3%nat) (ok 4%nat) (now 1%nat) (p_pcrWallDrift src);
  Some (src <| p_pcrTickIntervals := ticks |> <| p_pcrWallDrift := drift |>).

(** What the environment answers during a copy. *)
Record clone_env := {
  c_alloc : nat -> bool;
  c_now : timeval;
  c_array : bool;
  c_hist : bool * bool * timeval;
  c_metric : nat -> bool;
  c_time : nat -> Z;
  c_pid : Z -> nat -> bool;
  c_pid_now : Z -> nat -> timeval
}.

(** Every record of the table is copied, or the whole fails. *)
Definition clone_pids (E : clone_env) (pids : gmap Z ltntstools_pid_statistics_s)
    : option (gmap Z ltntstools_pid_statistics_s) :=
  let clone k p := ltntstools_pid_statistics_clone (c_pid E k) (c_pid_now E k) p in
  if bool_decide (map_Forall (fun k p => is_Some (clone k p)) pids)
  then Some (map_imap clone pids) else None.

(** The inner [None] is the NULL result. *)
Definition ltntstools_pid_stats_clone (E : clone_env) (src : option ltntstools_stream_statistics_s)
    : option (option ltntstools_stream_statistics_s) :=
  match src with
  | None => Some None
  | Some src =>
      match ltntstools_pid_stats_alloc (c_alloc E) (c_now E) with
      | None => Some None
      | Some fresh =>
          if negb (len (s_pidArray src) =? 0) && negb (c_array E) then Some None else
          let packetIntervals :=
            match s_packetIntervals src with
            | None => Some (s_packetIntervals fresh)
            | Some h => h ← ltntstools_histogram_clone (c_hist E).1.1 (c_hist E).1.2 (c_hist E).2 (Some h);
                        Some (Some h)
            end in
          match packetIntervals with
          | None => Some None
          | Some packetIntervals =>
              '(history, ret) ← ltntstools_history_metric_collection_clone_into (c_metric E) (c_time E)
                                  (s_ccErrorHistory fresh) (s_ccErrorHistory src);
              if ret <? 0 then Some None else
              match clone_pids E (s_pids src) with
              | None => Some None
              | Some pids =>
                  Some (Some (src <| s_ccErrorHistory := history |>
                                  <| s_packetIntervals := packetIntervals |>
                                  <| s_pids := pids |>))
              end
          end
      end
  end.

(** ** The copy equals the original *)

(** A histogram as the library makes it. *)
Definition hist_made (h : ltn_histogram_s) : Prop :=
  0 <= minValMs h < maxValMs h /\ maxValMs h < 2 ^ 32 - 1 /\
  bucketCount h = maxValMs h - minValMs h + 1 /\ len (buckets h) = bucketCount h /\
  substring 0 128 (hist_name h) = hist_name h.

Lemma histogram_clone_eq now h : hist_made h -> ltntstools_histogram_clone true true now (Some h) = Some h.
Proof.
  intros (H1 & H2 & H3 & H4 & H5). unfold ltntstools_histogram_clone, ltn_histogram_alloc. step. zdec. cbn [negb].
  destruct h as [nm lo hi miss cnt bk il cm cl sm sl pl ps tot]. cbn in *. rewrite u32_id by lia. subst cnt. f_equal.
  assert (E : take (Z.to_nat (hi - lo + 1)) bk = bk) by (apply take_ge; unfold len in H4; lia).
  cbv [ltn_histogram_reset]. cbn. cbv beta delta [const]. cbn. rewrite E, H5, drop_ge, app_nil_r by (rewrite length_replicate; lia). done.
Qed.

(** The histories are copied in reverse order when no entry is old. *)
Lemma clone_into_loop_spec time l : forall k dst,
  (forall k, 0 <= time k < 2 ^ 62) -> Forall (fun m => forall k, time k - 90000 <= hm_ts m) l ->
  Forall (fun m => forall k, time k - 90000 <= hm_ts m) (hm_list dst) ->
  clone_into_loop (fun _ => true) time k l dst = Some (Some (dst <| hm_list := rev l ++ hm_list dst |>)).
Proof.
  induction l as [|m l IH]; intros k dst Ht Hl Hd; cbn [clone_into_loop rev app]; [by destruct dst|].
  inversion Hl as [|? ? Hm Hl']; subst. unfold ltntstools_history_metric_alloc.
  rewrite history_add_fresh; [|apply Ht|apply Hm|].
  - step. destruct m as [ts ct]. rewrite IH; [|done|done|by constructor].
    cbn. cbv beta delta [const]. cbn. by rewrite <- app_assoc.
  - unfold expired. clear - Hd. induction Hd as [|e l He _ IH]; [done|].
    rewrite filter_cons, decide_False; [done|]. unfold old. specialize (He k). lia.
Qed.

Definition pid_made (p : ltntstools_pid_statistics_s) : Prop :=
  (forall h, p_pcrTickIntervals p = Some h -> hist_made h) /\ (forall h, p_pcrWallDrift p = Some h -> hist_made h).

Lemma clone_pointer_eq now h : (forall x, h = Some x -> hist_made x) -> clone_pointer true true now h = Some h.
Proof. destruct h as [x|]; [|done]. intros Hx. unfold clone_pointer. by rewrite histogram_clone_eq by auto. Qed.

Lemma pid_clone_eq now p : pid_made p -> ltntstools_pid_statistics_clone (fun _ => true) now p = Some p.
Proof.
  intros [H1 H2]. unfold ltntstools_pid_statistics_clone. cbn [negb].
  rewrite (clone_pointer_eq _ _ H1). step. rewrite (clone_pointer_eq _ _ H2). step. by destruct p.
Qed.

(** With the memory it needs and a history of less than 25 hours, the copy is
    the original in every field, except that its error history is reversed. *)
Lemma stats_clone_eq E s h :
  (forall n, c_alloc E n = true) -> c_array E = true -> (c_hist E).1 = (true, true) ->
  c_metric E = (fun _ => true) -> (forall k, c_pid E k = fun _ => true) ->
  (forall k, 0 <= c_time E k < 2 ^ 62) ->
  Forall (fun m => forall k, c_time E k - 90000 <= hm_ts m) (hm_list (s_ccErrorHistory s)) ->
  hm_name (s_ccErrorHistory s) = "CC Error History"%string -> hm_wasAlloc (s_ccErrorHistory s) = 0 ->
  s_packetIntervals s = Some h -> hist_made h -> map_Forall (fun _ p => pid_made p) (s_pids s) ->
  ltntstools_pid_stats_clone E (Some s) =
  Some (Some (s <| s_ccErrorHistory := (s_ccErrorHistory s) <| hm_list := rev (hm_list (s_ccErrorHistory s)) |> |>)).
Proof.
  intros Ha Harr Hh Hm Hp Ht Hfresh Hn Hw Hi Hmade Hpids. unfold ltntstools_pid_stats_clone.
  unfold ltntstools_pid_stats_alloc at 1. rewrite !Ha. cbn [negb].
  destruct (ltn_histogram_alloc_video_defaults true true (c_now E) (Some "IAT Intervals"%string)) as [h0|] eqn:E0;
    [|by vm_compute in E0]. cbn [ltntstools_history_metric_collection_init mbind option_bind].
  rewrite Harr, andb_false_r, Hi, Hh. cbn [fst snd].
  rewrite (histogram_clone_eq (c_hist E).2 h Hmade). step.
  unfold ltntstools_history_metric_collection_clone_into. rewrite Hm.
  rewrite clone_into_loop_spec; [|done|done|constructor]. step. cbn [Z.ltb Z.compare].
  assert (Hc : clone_pids E (s_pids s) = Some (s_pids s)).
  { unfold clone_pids. rewrite bool_decide_true.
    - f_equal. apply map_eq. intros k. rewrite map_lookup_imap. destruct (s_pids s !! k) as [p|] eqn:Ek; [|done].
      cbn [mbind option_bind]. rewrite Hp. by apply pid_clone_eq, (Hpids k).
    - intros k p Hk. rewrite Hp, pid_clone_eq by by apply (Hpids k). by eexists. }
  rewrite Hc. cbn. cbv beta delta [const]. cbn. rewrite app_nil_r. destruct s as [].  cbn in *. subst.
  match goal with H : hm_name ?c = _ |- _ => destruct c; cbn in *; subst; done end.
Qed.
