(* ===== verification/Descriptor.v ===== *)
(** * PSI descriptors: src/descriptor.c, libltntstools/descriptor.h

    A descriptor list is a counter and a fixed array of entries, as in C: an
    access outside the array is undefined behaviour, the result [None]. *)
From Stdlib Require Import ZArith Lia Bool String.
From stdpp Require Import base numbers list option.
From S2P Require Import Prelude.

Record ltntstools_descriptor_entry_s := {
  d_tag : Z;
  d_len : Z;
  d_data : list Z
}.

Definition LTNTSTOOLS_DESCRIPTOR_ENTRIES_MAX : Z := 16.

Record ltntstools_descriptor_list_s := {
  dl_count : Z;
  dl_array : list ltntstools_descriptor_entry_s
}.

(** The memory of a [calloc]. *)
Definition descriptor_zero : ltntstools_descriptor_entry_s :=
  {| d_tag := 0; d_len := 0; d_data := replicate 256 0 |}.
Definition descriptor_list_zero : ltntstools_descriptor_list_s :=
  {| dl_count := 0; dl_array := replicate 16 descriptor_zero |}.

(** ** Names of the tags *)

Definition descriptor_tag_descriptions : list (Z * string) :=
  [
   (0x00, "Reserved");
   (0x01, "Forbidden");
   (0x02, "Video stream descriptor");
   (0x03, "Audio stream descriptor");
   (0x04, "Hierarchy descriptor");
   (0x05, "Registration descriptor (ATSC GA94, DTS, SMPTE registrations)");
   (0x06, "Data stream alignment descriptor");
   (0x07, "Target background grid descriptor");
   (0x08, "Video window descriptor");
   (0x09, "CA descriptor / Conditional Access descriptor");
   (0x0a, "ISO 639 language descriptor (audio language)");
   (0x0b, "System clock descriptor");
   (0x0c, "Multiplex buffer utilization descriptor");
   (0x0d, "Copyright descriptor");
   (0x0e, "Maximum bitrate descriptor (max ES bitrate)");
   (0x0f, "Private data indicator descriptor");
   (0x10, "Smoothing buffer descriptor");
   (0x11, "STD descriptor");
   (0x12, "IBP descriptor");
   (0x13, "Carousel identifier descriptor");
   (0x14, "Association tag descriptor");
   (0x15, "Deferred association tags descriptor");
   (0x16, "ISO/IEC 13818-1 reserved");
   (0x17, "NPT reference descriptor");
   (0x18, "NPT endpoint descriptor");
   (0x19, "Stream mode descriptor");
   (0x1a, "Stream event descriptor");
   (0x1b, "MPEG-4 video descriptor");
   (0x1c, "MPEG-4 audio descriptor");
   (0x1d, "IOD descriptor");
   (0x1e, "SL descriptor");
   (0x1f, "FMC descriptor");
   (0x20, "External ES ID descriptor");
   (0x21, "MuxCode descriptor");
   (0x22, "FmxBufferSize descriptor");
   (0x23, "MultiplexBuffer descriptor");
   (0x24, "Content labeling descriptor");
   (0x25, "Metadata pointer descriptor");
   (0x26, "Metadata descriptor");
   (0x27, "Metadata STD descriptor");
   (0x28, "AVC video descriptor");
   (0x29, "IPMP descriptor");
   (0x2a, "AVC timing and HRD descriptor");
   (0x2b, "MPEG-2 AAC audio descriptor");
   (0x2c, "FlexMuxTiming descriptor");
   (0x2d, "MPEG-4 text descriptor");
   (0x2e, "MPEG-4 audio extension descriptor");
   (0x2f, "Auxiliary video stream descriptor");
   (0x30, "SVC extension descriptor");
   (0x31, "MVC extension descriptor");
   (0x32, "J2K video descriptor");
   (0x33, "MVC operation point descriptor");
   (0x34, "MPEG-2 stereoscopic video format descriptor");
   (0x35, "Stereoscopic program info descriptor");
   (0x36, "Stereoscopic video info descriptor");
   (0x3f, "Extension descriptor");
   (0x40, "Network name descriptor (DVB)");
   (0x41, "Service list descriptor (DVB)");
   (0x42, "Stuffing descriptor (DVB)");
   (0x43, "Satellite delivery system descriptor (DVB)");
   (0x44, "Cable delivery system descriptor (DVB)");
   (0x45, "VBI data descriptor (DVB)");
   (0x46, "VBI teletext descriptor (DVB)");
   (0x47, "Bouquet name descriptor (DVB)");
   (0x48, "Service descriptor (DVB)");
   (0x49, "Country availability descriptor (DVB)");
   (0x4a, "Linkage descriptor (DVB)");
   (0x4b, "NVOD reference descriptor (DVB)");
   (0x4c, "Time shifted service descriptor (DVB)");
   (0x4d, "Short event descriptor (DVB)");
   (0x4e, "Extended event descriptor (DVB)");
   (0x4f, "Time shifted event descriptor (DVB)");
   (0x50, "Component descriptor (DVB)");
   (0x51, "Mosaic descriptor (DVB)");
   (0x52, "Stream identifier descriptor (DVB)");
   (0x53, "CA identifier descriptor (DVB)");
   (0x54, "Content descriptor (DVB)");
   (0x55, "Parental rating descriptor (DVB)");
   (0x56, "Teletext descriptor (DVB)");
   (0x57, "Telephone descriptor (DVB)");
   (0x58, "Local time offset descriptor (DVB)");
   (0x59, "Subtitling descriptor (DVB)");
   (0x5a, "Terrestrial delivery system descriptor (DVB)");
   (0x5b, "Multilingual network name descriptor (DVB)");
   (0x5c, "Multilingual bouquet name descriptor (DVB)");
   (0x5d, "Multilingual service name descriptor (DVB)");
   (0x5e, "Multilingual component descriptor (DVB)");
   (0x5f, "Private data specifier descriptor (DVB)");
   (0x60, "Service move descriptor (DVB)");
   (0x61, "Short smoothing buffer descriptor (DVB)");
   (0x62, "Frequency list descriptor (DVB)");
   (0x63, "Partial transport stream descriptor (DVB)");
   (0x64, "Data broadcast descriptor (DVB)");
   (0x65, "CA system descriptor (DVB)");
   (0x66, "Data broadcast id descriptor (DVB)");
   (0x67, "Transport stream descriptor (DVB)");
   (0x68, "DSNG descriptor (DVB)");
   (0x69, "PDC descriptor (DVB)");
   (0x6a, "AC-3 descriptor (DVB)");
   (0x6b, "Ancillary data descriptor (DVB)");
   (0x6c, "Cell list descriptor (DVB)");
   (0x6d, "Cell frequency link descriptor (DVB)");
   (0x6e, "Announcement support descriptor (DVB)");
   (0x6f, "Application signalling descriptor (DVB)");
   (0x70, "Adaptation field data descriptor (DVB)");
   (0x71, "Service identifier descriptor (DVB)");
   (0x72, "Service availability descriptor (DVB)");
   (0x73, "Default authority descriptor (DVB)");
   (0x74, "Related content descriptor (DVB)");
   (0x75, "TVA id descriptor (DVB)");
   (0x76, "Content identifier descriptor (DVB)");
   (0x77, "Time slice FEC identifier descriptor (DVB)");
   (0x78, "ECM repetition rate descriptor (DVB)");
   (0x79, "S2 satellite delivery system descriptor (DVB)");
   (0x7a, "Enhanced AC-3 descriptor (DVB)");
   (0x7b, "DTS descriptor (DVB)");
   (0x7c, "AAC descriptor (DVB)");
   (0x7d, "XAIT location descriptor (DVB)");
   (0x7e, "FTA content management descriptor (DVB)");
   (0x7f, "Extension descriptor (DVB)");
   (0x80, "Stuffing descriptor (ATSC A/65)");
   (0x81, "AC-3 descriptor (ATSC/private usage)");
   (0x86, "Caption service descriptor (ATSC 608/708 captions)");
   (0x87, "Content advisory descriptor (ATSC A/65)");
   (0xa0, "Extended channel name descriptor (ATSC A/65)");
   (0xa1, "Service location descriptor (ATSC A/65)");
   (0xa2, "Time shifted service descriptor (ATSC A/65)");
   (0xa3, "Component name descriptor (ATSC A/65)");
   (0xa8, "DCC departing request descriptor (ATSC A/65)");
   (0xa9, "DCC arriving request descriptor (ATSC A/65)");
   (0xaa, "Redistribution control descriptor (ATSC A/65)");
   (0xab, "Genre descriptor (ATSC A/65)");
   (0xad, "ATSC private information descriptor");
   (0xb6, "Content identifier descriptor (ATSC A/57/A65)");
   (0xcc, "E-AC-3 audio stream descriptor (ATSC A/65)")]%string.

Definition ltntstools_descriptor_tag_description (tag : Z) : string :=
  match List.find (fun d => fst d =? tag) descriptor_tag_descriptions with
  | Some d => snd d
  | None =>
      if tag <? 0x40 then "ISO/IEC 13818-1 reserved"
      else if (0xa0 <=? tag) && (tag <=? 0xaf) then "Vendor/private descriptor"
      else "User Private"
  end.

(** ** Adding an entry *)

(** [src] is the source buffer, [None] for NULL. *)
Definition ltntstools_descriptor_list_add (l : ltntstools_descriptor_list_s) (tag : Z)
    (src : option (list Z)) (lengthBytes : Z) : option (ltntstools_descriptor_list_s * Z) :=
  if dl_count l =? LTNTSTOOLS_DESCRIPTOR_ENTRIES_MAX then Some (l, -1)
  else if 255 <? lengthBytes then Some (l, -1)
  else match src with
  | None => Some (l, -1)
  | Some src =>
      d ← aget (dl_array l) (dl_count l);
      data ← rds src 0 lengthBytes;
      data ← wrs (d_data d) 0 data;
      array ← aset (dl_array l) (dl_count l) {| d_tag := tag; d_len := lengthBytes; d_data := data |};
      Some ({| dl_count := u32 (dl_count l + 1); dl_array := array |}, 0)
  end.

(** ** Searches *)

(** The first entry that passes a test: [found] is 1 or 0. *)
Definition contains (hit : ltntstools_descriptor_entry_s -> bool) (l : ltntstools_descriptor_list_s)
    : option Z :=
  r ← find_in (fun d => if hit d then Some tt else None) (dl_array l) (dl_count l);
  Some (match r with Some _ => 1 | None => 0 end).

(** The data starts with the characters of [s]. *)
Definition data_is (s : string) (d : ltntstools_descriptor_entry_s) : bool :=
  bool_decide (take (String.length s) (d_data d) = bytes_of_string s).

Definition is_smpte2064_registration (d : ltntstools_descriptor_entry_s) : bool :=
  (d_tag d =? 0x05) && (d_len d =? 0x04) && data_is "LIPS" d.
Definition is_scte35_cue_registration (d : ltntstools_descriptor_entry_s) : bool :=
  (d_tag d =? 0x05) && (d_len d =? 0x04) && data_is "CUEI" d.
Definition is_video_av1_registration (d : ltntstools_descriptor_entry_s) : bool :=
  (d_tag d =? 0x05) && (0x04 <=? d_len d) && data_is "AV01" d.
Definition is_teletext (d : ltntstools_descriptor_entry_s) : bool :=
  (d_tag d =? 0x56) && (d_len d =? 0x05).
Definition is_smpte2038_registration (d : ltntstools_descriptor_entry_s) : bool :=
  if (d_tag d =? 0xc4) && (d_len d =? 0x09) then data_is "SMPTE2038" d
  else if (d_tag d =? 0x05) && (d_len d =? 0x04) then data_is "VANC" d
  else (d_tag d =? 0xc4) && (d_len d =? 0).

Definition ltntstools_descriptor_list_contains_smpte2064_registration := contains is_smpte2064_registration.
Definition ltntstools_descriptor_list_contains_scte35_cue_registration := contains is_scte35_cue_registration.
Definition ltntstools_descriptor_list_contains_video_av1_registration := contains is_video_av1_registration.
Definition ltntstools_descriptor_list_contains_teletext := contains is_teletext.
Definition ltntstools_descriptor_list_contains_smpte2038_registration := contains is_smpte2038_registration.

(** The version [(major, minor, patch)] of the first entry that has one. *)
Definition ltntstools_descriptor_list_contains_ltn_encoder_sw_version (l : ltntstools_descriptor_list_s)
    : option (option (Z * Z * Z)) :=
  find_in (fun d =>
    if (d_tag d =? 0xa2) && (d_len d =? 0x04) && (byte_at (d_data d) 0 =? 0x01)
    then Some (byte_at (d_data d) 1, byte_at (d_data d) 2, byte_at (d_data d) 3) else None)
    (dl_array l) (dl_count l).

(** The three bytes of the language and the audio type of the first entry. *)
Definition ltntstools_descriptor_list_contains_iso639_audio_descriptor (l : ltntstools_descriptor_list_s)
    : option (option (list Z * Z)) :=
  find_in (fun d =>
    if (d_tag d =? 0x0a) && (d_len d =? 0x04)
    then Some ([byte_at (d_data d) 0; byte_at (d_data d) 1; byte_at (d_data d) 2], byte_at (d_data d) 3)
    else None)
    (dl_array l) (dl_count l).

(** ** Well-formed lists *)

Record descriptor_ok (d : ltntstools_descriptor_entry_s) : Prop := {
  do_tag : is_byte (d_tag d);
  do_len : is_byte (d_len d);
  do_data : len (d_data d) = 256;
  do_bytes : bytes (d_data d)
}.

Record descriptor_list_ok (l : ltntstools_descriptor_list_s) : Prop := {
  lo_count : 0 <= dl_count l <= LTNTSTOOLS_DESCRIPTOR_ENTRIES_MAX;
  lo_array : len (dl_array l) = LTNTSTOOLS_DESCRIPTOR_ENTRIES_MAX;
  lo_entries : Forall descriptor_ok (dl_array l)
}.

(** The entries in use: the tag and the data of each. *)
Definition descriptor_view (d : ltntstools_descriptor_entry_s) : Z * list Z :=
  (d_tag d, take (Z.to_nat (d_len d)) (d_data d)).
Definition dl_entries (l : ltntstools_descriptor_list_s) : list ltntstools_descriptor_entry_s :=
  take (Z.to_nat (dl_count l)) (dl_array l).
Definition dl_view (l : ltntstools_descriptor_list_s) : list (Z * list Z) :=
  map descriptor_view (dl_entries l).

Lemma descriptor_zero_ok : descriptor_ok descriptor_zero.
Proof. constructor; [by vm_compute..|apply bytes_replicate; by vm_compute]. Qed.

Lemma descriptor_list_zero_ok : descriptor_list_ok descriptor_list_zero.
Proof. constructor; [by vm_compute..|]. apply Forall_replicate, descriptor_zero_ok. Qed.

Lemma dl_entries_ok l : descriptor_list_ok l -> Forall descriptor_ok (dl_entries l).
Proof. intros [_ _ H]. by apply Forall_take. Qed.

Lemma len_dl_entries l : descriptor_list_ok l -> len (dl_entries l) = dl_count l.
Proof. intros [H1 H2 _]. unfold dl_entries. rewrite len_take by lia. done. Qed.

(** Adding to a list that has room appends the entry; a full list refuses. *)
Lemma descriptor_list_add_spec l tag data n :
  descriptor_list_ok l -> is_byte tag -> bytes data -> 0 <= n <= 255 -> n <= len data ->
  exists l' r, ltntstools_descriptor_list_add l tag (Some data) n = Some (l', r) /\
    descriptor_list_ok l' /\
    if dl_count l =? LTNTSTOOLS_DESCRIPTOR_ENTRIES_MAX then r = -1 /\ l' = l
    else r = 0 /\ dl_view l' = dl_view l ++ [(tag, take (Z.to_nat n) data)].
Proof.
  intros [Hc Ha He] Ht Hd Hn Hl. unfold ltntstools_descriptor_list_add.
  unfold LTNTSTOOLS_DESCRIPTOR_ENTRIES_MAX in *. case_if; [by exists l, (-1)|]. zdec.
  destruct (aget_lt (dl_array l) (dl_count l)) as [d Hg]; [lia|]. rewrite Hg. step.
  assert (Hg' := Hg). apply aget_Some in Hg' as [_ Hg']. assert (Hok : descriptor_ok d) by (eapply Forall_lookup; eauto).
  destruct Hok as [_ _ Hd1 Hd2]. rewrite rds_Some by lia. step. change (Z.to_nat 0) with 0%nat. rewrite drop_0.
  destruct (wrs_exists (d_data d) 0 (take (Z.to_nat n) data)) as (q & Hq & Hq'); [lia|rewrite len_take by lia; lia|].
  rewrite Hq. step. rewrite aset_Some by lia. step.
  assert (Hb : bytes q) by (eapply bytes_wrs; eauto using bytes_take).
  eexists _, 0. split; [done|]. rewrite u32_id by lia. split; [|split; [done|]].
  - constructor; cbn; [unfold LTNTSTOOLS_DESCRIPTOR_ENTRIES_MAX; lia|by rewrite len_insert|]. apply Forall_insert; [done|]. constructor; cbn; [done|unfold is_byte; lia|lia|done].
  - unfold dl_view, dl_entries. cbn. replace (Z.to_nat (dl_count l + 1)) with (S (Z.to_nat (dl_count l))) by lia.
    rewrite (take_S_r _ _ _ (list_lookup_insert_eq _ _ _ (lookup_lt_Some _ _ _ Hg'))), map_app.
    rewrite take_insert_ge by lia. do 3 f_equal. cbn [descriptor_view d_tag d_len d_data].
    unfold descriptor_view. cbn. f_equal. apply drop_wrs in Hq as Hq2. change (Z.to_nat 0) with 0%nat in Hq2.
    rewrite drop_0 in Hq2. rewrite Hq2, take_app_le, take_take, Nat.min_id; [done|].
    rewrite length_take. unfold len in Hl. lia.
Qed.

(** A search answers whether one of the entries in use passes the test. *)
Lemma contains_spec hit l : descriptor_list_ok l ->
  contains hit l = Some (if existsb hit (dl_entries l) then 1 else 0).
Proof.
  intros [Hc Ha _]. unfold contains. rewrite find_in_spec by lia. step. f_equal. unfold dl_entries.
  generalize (take (Z.to_nat (dl_count l)) (dl_array l)). intros k. induction k as [|d k IH]; [done|].
  cbn [omap list_omap existsb]. by destruct (hit d).
Qed.
