(* ===== verification/Pat.v ===== *)
(** * Program tables: src/pat.c, libltntstools/pat.h

    The PAT object with the PMT of each of its programs: fixed arrays and
    counters, as in C; an access outside an array is undefined behaviour
    ([None]).  A pointer to a PMT of the object is the index of its program.

    The tables that libdvbpsi decodes, and the sections it generates, are data
    of that library: records of the fields this file reads. *)
From Stdlib Require Import ZArith Lia Bool String.
From stdpp Require Import base numbers list option.
From S2P Require Import Prelude Ts Crc32 Descriptor.

Definition LTNTSTOOLS_PMT_ENTRIES_MAX : Z := 16.
Definition LTNTSTOOLS_PAT_ENTRIES_MAX : Z := 64.

Record ltntstools_pmt_entry_s := {
  es_stream_type : Z;
  es_elementary_PID : Z;
  es_descr_list : ltntstools_descriptor_list_s
}.

Record ltntstools_pmt_s := {
  pm_version_number : Z;
  pm_program_number : Z;
  pm_current_next_indicator : Z;
  pm_PCR_PID : Z;
  pm_stream_count : Z;
  pm_streams : list ltntstools_pmt_entry_s;
  pm_descr_list : ltntstools_descriptor_list_s
}.

Record ltntstools_pat_program_s := {
  pp_program_number : Z;
  pp_program_map_PID : Z;
  pp_pmt : ltntstools_pmt_s;
  pp_service_id : Z;
  pp_service_type : Z;
  pp_service_name : list Z;
  pp_service_provider : list Z
}.

Record ltntstools_pat_s := {
  pa_transport_stream_id : Z;
  pa_version_number : Z;
  pa_current_next_indicator : Z;
  pa_descr_list : ltntstools_descriptor_list_s;
  pa_program_count : Z;
  pa_programs : list ltntstools_pat_program_s
}.

(** The memory of a [calloc]. *)
Definition pmt_entry_zero : ltntstools_pmt_entry_s :=
  {| es_stream_type := 0; es_elementary_PID := 0; es_descr_list := descriptor_list_zero |}.
Definition pmt_zero : ltntstools_pmt_s :=
  {| pm_version_number := 0; pm_program_number := 0; pm_current_next_indicator := 0;
     pm_PCR_PID := 0; pm_stream_count := 0; pm_streams := replicate 16 pmt_entry_zero;
     pm_descr_list := descriptor_list_zero |}.
Definition program_zero : ltntstools_pat_program_s :=
  {| pp_program_number := 0; pp_program_map_PID := 0; pp_pmt := pmt_zero; pp_service_id := 0;
     pp_service_type := 0; pp_service_name := replicate 32 0; pp_service_provider := replicate 32 0 |}.
Definition pat_zero : ltntstools_pat_s :=
  {| pa_transport_stream_id := 0; pa_version_number := 0; pa_current_next_indicator := 0;
     pa_descr_list := descriptor_list_zero; pa_program_count := 0;
     pa_programs := replicate 64 program_zero |}.

(** [ok]: the allocation succeeds. *)
Definition ltntstools_pat_alloc (ok : bool) : option ltntstools_pat_s :=
  if ok then Some pat_zero else None.

(** The copy is one memcpy of the whole object; the results are pointers,
    [None] for NULL. *)
Definition ltntstools_pat_clone (ok : bool) (pat : option ltntstools_pat_s) : option ltntstools_pat_s :=
  match pat with
  | None => None
  | Some pat => if ok then Some pat else None
  end.

(** ** Conversion of decoded tables *)

Record dvbpsi_pat_t := {
  i_ts_id : Z;
  pat_i_version : Z;
  pat_b_current_next : Z;
  (** the list of [(i_number, i_pid)] *)
  p_first_program : list (Z * Z)
}.

Record dvbpsi_descriptor_t := { i_tag : Z; i_length : Z; p_data : list Z }.

Record dvbpsi_pmt_es_t := {
  es_i_type : Z;
  es_i_pid : Z;
  es_p_first_descriptor : list dvbpsi_descriptor_t
}.

Record dvbpsi_pmt_t := {
  i_program_number : Z;
  pmt_i_version : Z;
  pmt_b_current_next : Z;
  i_pcr_pid : Z;
  pmt_p_first_descriptor : list dvbpsi_descriptor_t;
  p_first_es : list dvbpsi_pmt_es_t
}.

Definition set_program (p : ltntstools_pat_s) (count : Z) (programs : list ltntstools_pat_program_s)
    : ltntstools_pat_s :=
  {| pa_transport_stream_id := pa_transport_stream_id p; pa_version_number := pa_version_number p;
     pa_current_next_indicator := pa_current_next_indicator p; pa_descr_list := pa_descr_list p;
     pa_program_count := count; pa_programs := programs |}.

(** [while (e && program_count < MAX)]: the programs that fit are appended. *)
Fixpoint add_programs (l : list (Z * Z)) (p : ltntstools_pat_s) : option ltntstools_pat_s :=
  match l with
  | [] => Some p
  | (number, pid) :: l =>
      if pa_program_count p <? LTNTSTOOLS_PAT_ENTRIES_MAX then
        g ← aget (pa_programs p) (pa_program_count p);
        programs ← aset (pa_programs p) (pa_program_count p)
          {| pp_program_number := number; pp_program_map_PID := pid; pp_pmt := pp_pmt g;
             pp_service_id := pp_service_id g; pp_service_type := pp_service_type g;
             pp_service_name := pp_service_name g; pp_service_provider := pp_service_provider g |};
        add_programs l (set_program p (pa_program_count p + 1) programs)
      else Some p
  end.

(** The outer [None] is undefined behaviour (the allocation is not tested), the
    inner one the NULL result. *)
Definition ltntstools_pat_alloc_from_existing (ok : bool) (pat : option dvbpsi_pat_t)
    : option (option ltntstools_pat_s) :=
  match pat with
  | None => Some None
  | Some pat =>
      p ← ltntstools_pat_alloc ok;
      p ← add_programs (p_first_program pat)
        {| pa_transport_stream_id := i_ts_id pat; pa_version_number := pat_i_version pat;
           pa_current_next_indicator := pat_b_current_next pat; pa_descr_list := pa_descr_list p;
           pa_program_count := pa_program_count p; pa_programs := pa_programs p |};
      Some (Some p)
  end.

(** The descriptors are added one by one; those that do not fit are skipped. *)
Definition add_descriptors (ds : list dvbpsi_descriptor_t) (l : ltntstools_descriptor_list_s)
    : option ltntstools_descriptor_list_s :=
  foldM (fun l d => r ← ltntstools_descriptor_list_add l (i_tag d) (Some (p_data d)) (i_length d);
                    Some (fst r)) ds l.

Definition set_streams (e : ltntstools_pmt_s) (count : Z) (streams : list ltntstools_pmt_entry_s)
    : ltntstools_pmt_s :=
  {| pm_version_number := pm_version_number e; pm_program_number := pm_program_number e;
     pm_current_next_indicator := pm_current_next_indicator e; pm_PCR_PID := pm_PCR_PID e;
     pm_stream_count := count; pm_streams := streams; pm_descr_list := pm_descr_list e |}.

(** [while (p_es && stream_count < MAX)]: the streams that fit are appended. *)
Fixpoint add_streams (l : list dvbpsi_pmt_es_t) (e : ltntstools_pmt_s) : option ltntstools_pmt_s :=
  match l with
  | [] => Some e
  | s :: l =>
      if pm_stream_count e <? LTNTSTOOLS_PMT_ENTRIES_MAX then
        es ← aget (pm_streams e) (pm_stream_count e);
        d ← add_descriptors (es_p_first_descriptor s) (es_descr_list es);
        streams ← aset (pm_streams e) (pm_stream_count e)
          {| es_stream_type := es_i_type s; es_elementary_PID := es_i_pid s; es_descr_list := d |};
        add_streams l (set_streams e (pm_stream_count e + 1) streams)
      else Some e
  end.

Definition add_pmt (pmt : dvbpsi_pmt_t) (e : ltntstools_pmt_s) : option ltntstools_pmt_s :=
  d ← add_descriptors (pmt_p_first_descriptor pmt) (pm_descr_list e);
  add_streams (p_first_es pmt)
    {| pm_version_number := pmt_i_version pmt; pm_program_number := i_program_number pmt;
       pm_current_next_indicator := pmt_b_current_next pmt; pm_PCR_PID := i_pcr_pid pmt;
       pm_stream_count := pm_stream_count e; pm_streams := pm_streams e; pm_descr_list := d |}.

(** The index of the program that [f] accepts, from [i] on. *)
Fixpoint program_index (f : ltntstools_pat_program_s -> bool) (programs : list ltntstools_pat_program_s)
    (n : nat) (i : Z) : option (option Z) :=
  match n with
  | O => Some None
  | S n' => g ← aget programs i; if f g then Some (Some i) else program_index f programs n' (i + 1)
  end.

Definition with_pmt (g : ltntstools_pat_program_s) (pmt : ltntstools_pmt_s) : ltntstools_pat_program_s :=
  {| pp_program_number := pp_program_number g; pp_program_map_PID := pp_program_map_PID g;
     pp_pmt := pmt; pp_service_id := pp_service_id g; pp_service_type := pp_service_type g;
     pp_service_name := pp_service_name g; pp_service_provider := pp_service_provider g |}.

Definition ltntstools_pat_add_from_existing (pat : option ltntstools_pat_s) (pmt : option dvbpsi_pmt_t)
    : option (option ltntstools_pat_s) :=
  match pat, pmt with
  | Some pat, Some pmt =>
      r ← program_index (fun g => pp_program_number g =? i_program_number pmt) (pa_programs pat)
            (Z.to_nat (pa_program_count pat)) 0;
      match r with
      | None => Some (Some pat)
      | Some i =>
          g ← aget (pa_programs pat) i;
          e ← add_pmt pmt (pp_pmt g);
          programs ← aset (pa_programs pat) i (with_pmt g e);
          Some (Some (set_program pat (pa_program_count pat) programs))
      end
  | pat, _ => Some pat
  end.

(** ** Comparison *)

Definition ltntstools_pmt_entry_compare (a b : ltntstools_pmt_entry_s) : Z :=
  if negb (es_stream_type a =? es_stream_type b) then -1
  else if negb (es_elementary_PID a =? es_elementary_PID b) then -1
  else 0.

(** [for (i...) if (compare(&a[i], &b[i]) != 0) return -1; return 0;] *)
Fixpoint compare_loop {A} (compare : A -> A -> option Z) (a b : list A) (n : nat) (i : Z) : option Z :=
  match n with
  | O => Some 0
  | S n' =>
      x ← aget a i; y ← aget b i;
      r ← compare x y;
      if negb (r =? 0) then Some (-1) else compare_loop compare a b n' (i + 1)
  end.

Definition ltntstools_pmt_compare (a b : ltntstools_pmt_s) : option Z :=
  if negb (pm_version_number a =? pm_version_number b) then Some (-1)
  else if negb (pm_program_number a =? pm_program_number b) then Some (-1)
  else if negb (pm_PCR_PID a =? pm_PCR_PID b) then Some (-1)
  else if negb (pm_current_next_indicator a =? pm_current_next_indicator b) then Some (-1)
  else if negb (pm_stream_count a =? pm_stream_count b) then Some (-1)
  else compare_loop (fun x y => Some (ltntstools_pmt_entry_compare x y)) (pm_streams a) (pm_streams b)
         (Z.to_nat (pm_stream_count a)) 0.

Definition ltntstools_pat_program_compare (a b : ltntstools_pat_program_s) : option Z :=
  if negb (pp_program_number a =? pp_program_number b) then Some (-1)
  else if negb (pp_program_map_PID a =? pp_program_map_PID b) then Some (-1)
  else ltntstools_pmt_compare (pp_pmt a) (pp_pmt b).

Definition ltntstools_pat_compare (a b : ltntstools_pat_s) : option Z :=
  if negb (pa_transport_stream_id a =? pa_transport_stream_id b) then Some (-1)
  else if negb (pa_version_number a =? pa_version_number b) then Some (-1)
  else if negb (pa_current_next_indicator a =? pa_current_next_indicator b) then Some (-1)
  else if negb (pa_program_count a =? pa_program_count b) then Some (-1)
  else compare_loop ltntstools_pat_program_compare (pa_programs a) (pa_programs b)
         (Z.to_nat (pa_program_count a)) 0.

(** ** Well-formed objects *)

Definition pmt_entry_ok (s : ltntstools_pmt_entry_s) : Prop := descriptor_list_ok (es_descr_list s).

Record pmt_ok (m : ltntstools_pmt_s) : Prop := {
  mo_count : 0 <= pm_stream_count m <= LTNTSTOOLS_PMT_ENTRIES_MAX;
  mo_streams : len (pm_streams m) = LTNTSTOOLS_PMT_ENTRIES_MAX;
  mo_entries : Forall pmt_entry_ok (pm_streams m);
  mo_descr : descriptor_list_ok (pm_descr_list m)
}.

Record pat_ok (p : ltntstools_pat_s) : Prop := {
  po_count : 0 <= pa_program_count p <= LTNTSTOOLS_PAT_ENTRIES_MAX;
  po_programs : len (pa_programs p) = LTNTSTOOLS_PAT_ENTRIES_MAX;
  po_pmts : Forall (fun g => pmt_ok (pp_pmt g)) (pa_programs p)
}.

(** The streams and programs in use. *)
Definition pmt_used (m : ltntstools_pmt_s) : list ltntstools_pmt_entry_s :=
  take (Z.to_nat (pm_stream_count m)) (pm_streams m).
Definition pat_used (p : ltntstools_pat_s) : list ltntstools_pat_program_s :=
  take (Z.to_nat (pa_program_count p)) (pa_programs p).
Definition program_key (g : ltntstools_pat_program_s) : Z * Z :=
  (pp_program_number g, pp_program_map_PID g).
Definition stream_view (s : ltntstools_pmt_entry_s) : Z * Z * list (Z * list Z) :=
  (es_stream_type s, es_elementary_PID s, dl_view (es_descr_list s)).

(** A descriptor as libdvbpsi decodes it: 8-bit tag and length, the data there. *)
Definition dvbpsi_descriptor_ok (d : dvbpsi_descriptor_t) : Prop :=
  is_byte (i_tag d) /\ 0 <= i_length d <= 255 /\ i_length d <= len (p_data d) /\ bytes (p_data d).
Definition dvbpsi_view (d : dvbpsi_descriptor_t) : Z * list Z :=
  (i_tag d, take (Z.to_nat (i_length d)) (p_data d)).
Record dvbpsi_pmt_ok (t : dvbpsi_pmt_t) : Prop := {
  vo_outer : Forall dvbpsi_descriptor_ok (pmt_p_first_descriptor t);
  vo_inner : Forall (fun s => Forall dvbpsi_descriptor_ok (es_p_first_descriptor s)) (p_first_es t)
}.

Lemma pmt_zero_ok : pmt_ok pmt_zero.
Proof.
  constructor; [by vm_compute..| |apply descriptor_list_zero_ok].
  apply Forall_replicate, descriptor_list_zero_ok.
Qed.

Lemma pat_zero_ok : pat_ok pat_zero.
Proof. constructor; [by vm_compute..|]. apply Forall_replicate, pmt_zero_ok. Qed.

Lemma pmt_used_ok m : pmt_ok m -> Forall pmt_entry_ok (pmt_used m).
Proof. intros [_ _ H _]. by apply Forall_take. Qed.

Lemma pat_used_ok p : pat_ok p -> Forall (fun g => pmt_ok (pp_pmt g)) (pat_used p).
Proof. intros [_ _ H]. by apply Forall_take. Qed.

(** Storing at the position of the counter extends the part in use. *)
Lemma take_append {A} (arr : list A) n x : 0 <= n < len arr ->
  take (Z.to_nat (n + 1)) (<[Z.to_nat n := x]> arr) = take (Z.to_nat n) arr ++ [x].
Proof.
  intros Hn. unfold len in Hn. replace (Z.to_nat (n + 1)) with (S (Z.to_nat n)) by lia.
  rewrite (take_S_r _ _ x) by (apply list_lookup_insert_eq; lia). by rewrite take_insert_ge by lia.
Qed.

Lemma aget_ok {A} (P : A -> Prop) arr i : Forall P arr -> 0 <= i < len arr -> exists x, aget arr i = Some x /\ P x.
Proof.
  intros HP Hi. destruct (aget_lt arr i Hi) as [x Hx]. exists x. split; [done|].
  apply aget_Some in Hx as [_ Hx]. by eapply Forall_lookup.
Qed.

(** Programs: those that fit, in order. *)
Lemma add_programs_spec l : forall p, pat_ok p -> exists p',
  add_programs l p = Some p' /\ pat_ok p' /\
  map program_key (pat_used p') = take 64 (map program_key (pat_used p) ++ l).
Proof.
  induction l as [|[number pid] l IH]; intros p [Hc Hl Hp]; cbn [add_programs].
  - exists p. split; [done|]. split; [done|]. rewrite app_nil_r, take_ge; [done|].
    rewrite length_map. unfold pat_used. rewrite length_take. unfold LTNTSTOOLS_PAT_ENTRIES_MAX in *. lia.
  - case_if.
    + destruct (aget_ok _ (pa_programs p) (pa_program_count p) Hp) as (g & -> & Hg); [lia|]. step.
      rewrite aset_Some by lia. step. match goal with |- context [set_program p ?c ?q] => destruct (IH (set_program p c q)) as (p' & -> & Hok & Hv) end.
      { constructor; cbn [set_program pa_program_count pa_programs];
          [lia|by rewrite len_insert|]. apply Forall_insert; [done|exact Hg]. }
      exists p'. split; [done|]. split; [done|]. rewrite Hv. f_equal. unfold pat_used.
      cbn [set_program pa_program_count pa_programs]. rewrite take_append by lia.
      by rewrite map_app, <- app_assoc.
    + exists p. split; [done|]. split; [done|]. unfold LTNTSTOOLS_PAT_ENTRIES_MAX in *.
      assert (pa_program_count p = 64) as E1 by lia. unfold pat_used. rewrite E1.
      rewrite take_app_le by (rewrite length_map, length_take; unfold len in Hl; lia).
      symmetry. apply take_ge. rewrite length_map, length_take. lia.
Qed.

Lemma add_descriptors_spec ds : Forall dvbpsi_descriptor_ok ds -> forall l, descriptor_list_ok l ->
  exists l', add_descriptors ds l = Some l' /\ descriptor_list_ok l' /\
    dl_view l' = take 16 (dl_view l ++ map dvbpsi_view ds).
Proof.
  induction 1 as [|d ds (Ht & Hn & Hl & Hb) _ IH]; intros l Hok; unfold add_descriptors; cbn [foldM].
  - exists l. split; [done|]. split; [done|]. cbn [map]. rewrite app_nil_r, take_ge; [done|].
    unfold dl_view, dl_entries. rewrite length_map, length_take. destruct Hok as [Hc _ _].
    unfold LTNTSTOOLS_DESCRIPTOR_ENTRIES_MAX in Hc. lia.
  - destruct (descriptor_list_add_spec l (i_tag d) (p_data d) (i_length d) Hok Ht Hb Hn Hl) as (l1 & r & -> & Hok1 & Hr).
    step. cbn [fst]. destruct (IH l1 Hok1) as (l' & H1 & H2 & H3). exists l'. split; [exact H1|]. split; [done|].
    rewrite H3. revert Hr. case_if; intros [-> Hr]; cbn [map].
    + subst l1. unfold dl_view, dl_entries. destruct Hok as [_ Ha _]. rewrite E. unfold LTNTSTOOLS_DESCRIPTOR_ENTRIES_MAX, len in *.
      rewrite !take_app_le by (rewrite length_map, length_take; lia). done.
    + rewrite Hr, <- app_assoc. done.
Qed.

Lemma add_streams_spec l : Forall (fun s => Forall dvbpsi_descriptor_ok (es_p_first_descriptor s)) l ->
  forall e, pmt_ok e -> exists e', add_streams l e = Some e' /\ pmt_ok e' /\
    map fst (map stream_view (pmt_used e')) =
      take 16 (map fst (map stream_view (pmt_used e)) ++ map (fun s => (es_i_type s, es_i_pid s)) l).
Proof.
  induction 1 as [|s l Hs _ IH]; intros e He; assert (He' := He); destruct He as [Hc Hl Hp Hd]; cbn [add_streams].
  - exists e. split; [done|]. split; [done|]. cbn [map]. rewrite app_nil_r, take_ge; [done|].
    unfold pmt_used. rewrite !length_map, length_take. unfold LTNTSTOOLS_PMT_ENTRIES_MAX in *. lia.
  - case_if.
    + destruct (aget_ok _ (pm_streams e) (pm_stream_count e) Hp) as (x & -> & Hx); [lia|]. step.
      destruct (add_descriptors_spec _ Hs _ Hx) as (d & -> & Hd1 & _). step.
      rewrite aset_Some by lia. step. match goal with |- context [set_streams e ?c ?q] => destruct (IH (set_streams e c q)) as (e' & -> & Hok & Hv) end.
      { constructor; cbn [set_streams pm_stream_count pm_streams pm_descr_list];
          [lia|by rewrite len_insert| |done]. apply Forall_insert; [done|exact Hd1]. }
      exists e'. split; [done|]. split; [done|]. rewrite Hv. f_equal. unfold pmt_used.
      cbn [set_streams pm_stream_count pm_streams]. rewrite take_append by lia.
      by rewrite !map_app, <- app_assoc.
    + exists e. split; [done|]. split; [done|]. unfold LTNTSTOOLS_PMT_ENTRIES_MAX in *.
      assert (pm_stream_count e = 16) as E1 by lia. unfold pmt_used. rewrite E1.
      rewrite take_app_le by (rewrite !length_map, length_take; unfold len in Hl; lia).
      symmetry. apply take_ge. rewrite !length_map, length_take. lia.
Qed.

Lemma add_pmt_spec t e : dvbpsi_pmt_ok t -> pmt_ok e -> exists e',
  add_pmt t e = Some e' /\ pmt_ok e' /\
  map fst (map stream_view (pmt_used e')) =
    take 16 (map fst (map stream_view (pmt_used e)) ++ map (fun s => (es_i_type s, es_i_pid s)) (p_first_es t)).
Proof.
  intros [H1 H2] [Hc Hl Hp Hd]. unfold add_pmt.
  destruct (add_descriptors_spec _ H1 _ Hd) as (d & -> & Hd1 & _). step.
  match goal with |- context [add_streams _ ?e'] => exact (add_streams_spec _ H2 e' ltac:(by constructor)) end.
Qed.

Lemma program_index_spec f p n : forall i, 0 <= i -> i + Z.of_nat n <= len p ->
  exists r, program_index f p n i = Some r /\
    match r with Some j => i <= j < i + Z.of_nat n | None => True end.
Proof.
  induction n as [|n IH]; intros i Hi Hn; cbn [program_index]; [by exists None|].
  destruct (aget_lt p i) as [g ->]; [lia|]. step. destruct (f g); [exists (Some i); split; [done|lia]|].
  destruct (IH (i + 1)) as (r & -> & Hr); [lia|lia|]. exists r. split; [done|]. destruct r; [lia|done].
Qed.

(** Adding a PMT keeps the object well formed and its list of programs. *)
Lemma add_from_existing_spec t p : dvbpsi_pmt_ok t -> pat_ok p -> exists p',
  ltntstools_pat_add_from_existing (Some p) (Some t) = Some (Some p') /\ pat_ok p' /\
  map program_key (pat_used p') = map program_key (pat_used p).
Proof.
  intros Ht [Hc Hl Hp]. unfold ltntstools_pat_add_from_existing.
  destruct (program_index_spec (fun g => pp_program_number g =? i_program_number t) (pa_programs p)
              (Z.to_nat (pa_program_count p)) 0) as (r & -> & Hr); [lia|lia|]. step.
  destruct r as [i|]; [|by exists p]. destruct (aget_lt (pa_programs p) i) as [g Hg]; [lia|].
  assert (Hg' := Hg). apply aget_Some in Hg' as [_ Hg']. rewrite Hg. step.
  destruct (add_pmt_spec t (pp_pmt g) Ht (Forall_lookup_1 _ _ _ _ Hp Hg')) as (e & -> & He & _). step.
  rewrite aset_Some by lia. step. eexists. split; [done|].
  split; [constructor; cbn [set_program pa_program_count pa_programs];
          [done|by rewrite len_insert|apply Forall_insert; done]|].
  unfold pat_used. cbn [set_program pa_program_count pa_programs].
  rewrite take_insert_lt by lia. rewrite list_fmap_insert. apply list_insert_id.
  rewrite list_lookup_fmap, lookup_take_lt by lia. by rewrite Hg'.
Qed.

(** ** Properties *)

(** C36: the object built from any decoded PAT and any sequence of decoded PMTs
    is defined (no access leaves an array), well formed at every level, and
    lists the first 64 programs of the PAT in order with their PIDs. *)
Theorem pat_built_ok (t : dvbpsi_pat_t) (pmts : list dvbpsi_pmt_t) :
  Forall dvbpsi_pmt_ok pmts ->
  exists p0 p,
    ltntstools_pat_alloc_from_existing true (Some t) = Some (Some p0) /\
    foldM (fun p m => ltntstools_pat_add_from_existing p (Some m)) pmts (Some p0) = Some (Some p) /\
    pat_ok p /\ map program_key (pat_used p) = take 64 (p_first_program t).
Proof.
  intros Ht. unfold ltntstools_pat_alloc_from_existing, ltntstools_pat_alloc. step.
  edestruct (add_programs_spec (p_first_program t)) as (p0 & H0 & Hok & Hv); [|rewrite H0; step; exists p0].
  { destruct pat_zero_ok as [H1 H2 H3]. by constructor. }
  destruct (foldM_inv (fun o => exists p, o = Some p /\ pat_ok p /\ map program_key (pat_used p) = map program_key (pat_used p0))
    (fun p m => ltntstools_pat_add_from_existing p (Some m)) pmts) with (s := Some p0) as (o & H1 & p & -> & H2 & H3).
  - intros s m Hm (p & -> & Hp & Hk). destruct (add_from_existing_spec m p (proj1 (List.Forall_forall _ _) Ht m (proj1 (list_elem_of_In _ _) Hm)) Hp) as (p' & -> & Hp' & Hk'). eexists. split; [done|].
    exists p'. split; [done|]. split; [done|]. by rewrite Hk'.
  - by exists p0.
  - exists p. split; [done|]. split; [done|]. split; [done|]. by rewrite H3, Hv.
Qed.

(** A PAT of 65 programs, one PMT added twice. *)
Definition sample_es : dvbpsi_pmt_es_t :=
  {| es_i_type := 0x1b; es_i_pid := 0x31; es_p_first_descriptor := [] |}.
Definition sample_dvbpsi_pmt : dvbpsi_pmt_t :=
  {| i_program_number := 2; pmt_i_version := 1; pmt_b_current_next := 1; i_pcr_pid := 0x31;
     pmt_p_first_descriptor := [{| i_tag := 0x05; i_length := 4; p_data := bytes_of_string "CUEI" |}];
     p_first_es := replicate 17 sample_es |}.
Definition sample_dvbpsi_pat : dvbpsi_pat_t :=
  {| i_ts_id := 1; pat_i_version := 3; pat_b_current_next := 1;
     p_first_program := map (fun n => (n, 0x100 + n)) (seqZ 1 65) |}.

Lemma pat_built_ok_witness : exists p0 p,
  ltntstools_pat_alloc_from_existing true (Some sample_dvbpsi_pat) = Some (Some p0) /\
  foldM (fun p m => ltntstools_pat_add_from_existing p (Some m)) [sample_dvbpsi_pmt; sample_dvbpsi_pmt]
    (Some p0) = Some (Some p) /\
  pat_ok p /\ map program_key (pat_used p) = take 64 (p_first_program sample_dvbpsi_pat).
Proof.
  apply (pat_built_ok sample_dvbpsi_pat). assert (dvbpsi_pmt_ok sample_dvbpsi_pmt).
  { constructor; [|by apply Forall_replicate]. repeat constructor; vm_compute; congruence. }
  by repeat constructor.
Defined.
