(* ===== verification/PatServices.v ===== *)
(** * Services of a PAT: the queries and enumerations of src/pat.c

    An enumeration keeps its position in the caller's variable [*e]: each call
    returns the next program with the service, as the index of the program, or
    -1.  A call takes [*e] and [*pmtptr] and returns
    (return value, [*e], [*pmtptr], ...); [None] as a whole is an access outside
    the array of programs.  [malloc] is an argument of the functions that
    allocate: whether an allocation of that many bytes succeeds. *)
From Stdlib Require Import ZArith Lia Bool String.
From stdpp Require Import base numbers list option.
From coqutil Require Import Datatypes.RecordSettersUsingExistingGetters.
From S2P Require Import Prelude Ts Descriptor Pat.

(** Does a stream of the PMT pass the test?  The loops over the streams break at
    the first one. *)
Definition first_stream {B} (f : ltntstools_pmt_entry_s -> option B) (pmt : ltntstools_pmt_s)
    : option (option B) :=
  find_in f (pm_streams pmt) (pm_stream_count pmt).

(** The streams that pass a test, in order: the loop that stores their PIDs. *)
Definition all_streams {B} (f : ltntstools_pmt_entry_s -> option (option B)) (pmt : ltntstools_pmt_s)
    (l : list B) : option (list B) :=
  fold_in (fun l s => r ← f s; Some (match r with Some x => l ++ [x] | None => l end))
    (pm_streams pmt) (pm_stream_count pmt) l.

Definition has_descriptor (f : ltntstools_descriptor_list_s -> option Z) (s : ltntstools_pmt_entry_s)
    : option bool :=
  r ← f (es_descr_list s); Some (negb (r =? 0)).

(** ** Queries of a PMT *)

(** The PID and the type of the first video stream. *)
Definition ltntstools_pmt_query_video_pid (pmt : option ltntstools_pmt_s) : option (Z * option (Z * Z)) :=
  match pmt with
  | None => Some (-1, None)
  | Some pmt =>
      r ← first_stream (fun s => if negb (ltntstools_is_ESPayloadType_Video (es_stream_type s) =? 0)
                                 then Some (u16 (es_elementary_PID s), u8 (es_stream_type s)) else None) pmt;
      Some (match r with Some v => (0, Some v) | None => (-1, None) end)
  end.

(** 1 for an audio stream type, the tag of an audio descriptor for private
    data, 0 otherwise. *)
Definition ltntstools_pmt_entry_is_audio (s : ltntstools_pmt_entry_s) : option Z :=
  if negb (ltntstools_is_ESPayloadType_Audio (es_stream_type s) =? 0) then Some 1
  else if negb (es_stream_type s =? 0x06) then Some 0
  else
    r ← find_in (fun d => if existsb (Z.eqb (d_tag d)) [0x03; 0x1c; 0x2b; 0x6a; 0x7a; 0x7c]
                          then Some (d_tag d) else None)
          (dl_array (es_descr_list s)) (dl_count (es_descr_list s));
    Some (match r with Some t => t | None => 0 end).

(** The test of the audio loops, with what they keep of the stream. *)
Definition if_audio {B} (keep : ltntstools_pmt_entry_s -> B) (s : ltntstools_pmt_entry_s) : option (option B) :=
  a ← ltntstools_pmt_entry_is_audio s; Some (if a =? 0 then None else Some (keep s)).

(** The entries (pointers into the PMT); NULL, here [None], if there are none. *)
Definition ltntstools_pmt_enum_services_audio (malloc : Z -> bool) (pmt : ltntstools_pmt_s)
    : option (option (list ltntstools_pmt_entry_s) * Z) :=
  if negb (malloc (pm_stream_count pmt * 8)) then Some (None, 0) else
  streams ← all_streams (if_audio (fun s => s)) pmt [];
  Some (if len streams <=? 0 then (None, len streams) else (Some streams, len streams)).

(** The stream of a PID is removed: the entries behind it move down. *)
Fixpoint remove_es_loop (n : nat) (i pid : Z) (pmt : ltntstools_pmt_s) : option ltntstools_pmt_s :=
  match n with
  | O => Some pmt
  | S n' =>
      e ← aget (pm_streams pmt) i;
      if es_elementary_PID e =? pid then
        if i =? pm_stream_count pmt - 1
        then Some (set_streams pmt (pm_stream_count pmt - 1) (pm_streams pmt))
        else
          let count := pm_stream_count pmt - i - 1 in
          if i + 1 + count <=? len (pm_streams pmt) then
            let moved := take (Z.to_nat count) (drop (Z.to_nat (i + 1)) (pm_streams pmt)) in
            Some (set_streams pmt (pm_stream_count pmt - 1)
                    (take (Z.to_nat i) (pm_streams pmt) ++ moved ++
                     drop (Z.to_nat (i + count)) (pm_streams pmt)))
          else None
      else remove_es_loop n' (i + 1) pid pmt
  end.

Definition ltntstools_pmt_remove_es_for_pid (pmt : option ltntstools_pmt_s) (pid : Z)
    : option (option ltntstools_pmt_s * Z) :=
  match pmt with
  | None => Some (None, -1)
  | Some pmt =>
      pmt ← remove_es_loop (Z.to_nat (pm_stream_count pmt)) 0 pid pmt; Some (Some pmt, 0)
  end.

(** ** Enumerations *)

(** The loop [for (i = *e; i < program_count; i++)]: [*e] advances with [i]; the
    program at [*e] that passes the test is the result. *)
Fixpoint enum_loop (hit : ltntstools_pat_program_s -> option bool) (programs : list ltntstools_pat_program_s)
    (n : nat) (e : Z) (pmtptr : option Z) : option (Z * Z * option Z) :=
  match n with
  | O => Some (-1, e, pmtptr)
  | S n' =>
      g ← aget programs e;
      h ← hit g;
      if (h : bool) then Some (0, e + 1, Some e) else enum_loop hit programs n' (e + 1) pmtptr
  end.

(** The common shape of the enumerations: no program is left, or the loop. *)
Definition enum_next (hit : ltntstools_pat_program_s -> option bool) (pat : ltntstools_pat_s)
    (e : Z) (pmtptr : option Z) : option (Z * Z * option Z) :=
  if pa_program_count pat <? u32 (e + 1) then Some (-1, e, pmtptr)
  else enum_loop hit (pa_programs pat) (Z.to_nat (pa_program_count pat - u32 e)) e pmtptr.

Definition has_video (g : ltntstools_pat_program_s) : option bool :=
  r ← first_stream (fun s => if negb (ltntstools_is_ESPayloadType_Video (es_stream_type s) =? 0)
                             then Some tt else None) (pp_pmt g);
  Some (match r with Some _ => true | None => false end).

Definition ltntstools_pat_enum_services_video (pat : ltntstools_pat_s) (e : Z) (pmtptr : option Z)
    : option (Z * Z * option Z) :=
  enum_next has_video pat e pmtptr.

(** A search of the streams whose test reads their descriptors. *)
Definition some_stream {B} (f : ltntstools_pmt_entry_s -> option (option B)) (pmt : ltntstools_pmt_s)
    : option (option B) :=
  findM_in f (pm_streams pmt) (pm_stream_count pmt).

Definition has_teletext (g : ltntstools_pat_program_s) : option bool :=
  r ← some_stream (fun s => b ← has_descriptor ltntstools_descriptor_list_contains_teletext s;
                            Some (if (b : bool) then Some tt else None)) (pp_pmt g);
  Some (match r with Some _ => true | None => false end).

Definition ltntstools_pat_enum_services_teletext (pat : ltntstools_pat_s) (e : Z) (pmtptr : option Z)
    : option (Z * Z * option Z) :=
  enum_next has_teletext pat e pmtptr.

Definition ltntstools_pat_enum_services (pat : ltntstools_pat_s) (e pid : Z) (pmtptr : option Z)
    : option (Z * Z * option Z) :=
  enum_next (fun g => Some (pp_program_map_PID g =? pid)) pat e pmtptr.

(** The PID of the first stream of a PMT that carries SMPTE 2038 data. *)
Definition smpte2038_pid (pmt : ltntstools_pmt_s) : option (option Z) :=
  if pm_program_number pmt =? 0 then Some None else
  some_stream (fun s =>
    if negb (es_stream_type s =? 0x06) then Some None else
    b ← has_descriptor ltntstools_descriptor_list_contains_smpte2038_registration s;
    Some (if (b : bool) then Some (u16 (es_elementary_PID s)) else None)) pmt.

Fixpoint smpte2038_loop (programs : list ltntstools_pat_program_s) (n : nat) (e : Z)
    : option (Z * Z * option Z * Z) :=
  match n with
  | O => Some (-1, e, None, 0)
  | S n' =>
      g ← aget programs e;
      r ← smpte2038_pid (pp_pmt g);
      match r with
      | Some pid => Some (0, e + 1, Some e, pid)
      | None => smpte2038_loop programs n' (e + 1)
      end
  end.

(** Here [*pmtptr] and [*pid] are cleared before the search. *)
Definition ltntstools_pat_enum_services_smpte2038 (pat : option ltntstools_pat_s) (e : Z)
    (pmtptr : option Z) (pid : Z) : option (Z * Z * option Z * Z) :=
  match pat with
  | None => Some (-1, e, pmtptr, pid)
  | Some pat =>
      if pa_program_count pat <? u32 (e + 1) then Some (-1, e, pmtptr, pid)
      else smpte2038_loop (pa_programs pat) (Z.to_nat (pa_program_count pat - u32 e)) e
  end.

(** The two enumerations that return arrays examine program [*e] in a loop that
    starts at 0, whatever [*e]: [n] counts its turns.  The arrays of a turn that
    finds nothing are freed and [*pid_count] stays 0. *)
Fixpoint scte35_loop (malloc : Z -> bool) (programs : list ltntstools_pat_program_s) (n : nat) (e : Z)
    : option (Z * Z * option Z * option (list Z) * Z) :=
  match n with
  | O => Some (-1, e, None, None, 0)
  | S n' =>
      g ← aget programs e;
      let pmt := pp_pmt g in
      cue ← ltntstools_descriptor_list_contains_scte35_cue_registration (pm_descr_list pmt);
      if cue =? 0 then scte35_loop malloc programs n' (e + 1)
      else if negb (malloc (pm_stream_count pmt * 2)) then Some (-1, e, None, None, 0) else
      pids ← all_streams (fun s => Some (if es_stream_type s =? 0x86
                                         then Some (u16 (es_elementary_PID s)) else None)) pmt [];
      if 0 <? len pids then Some (0, e + 1, Some e, Some pids, len pids)
      else scte35_loop malloc programs n' e
  end.

Definition ltntstools_pat_enum_services_scte35 (malloc : Z -> bool) (pat : option ltntstools_pat_s) (e : Z)
    (pmtptr : option Z) (pid_array : option (list Z)) (pid_count : Z)
    : option (Z * Z * option Z * option (list Z) * Z) :=
  match pat with
  | None => Some (-1, e, pmtptr, pid_array, pid_count)
  | Some pat =>
      if pa_program_count pat <? u32 (e + 1) then Some (-1, e, pmtptr, pid_array, pid_count)
      else scte35_loop malloc (pa_programs pat) (Z.to_nat (pa_program_count pat)) e
  end.

(** Result: (return value, [*e], [*pmtptr], [*pid_array], [*stream_type_array],
    [*pid_count]). *)
Fixpoint audio_loop (malloc : Z -> bool) (programs : list ltntstools_pat_program_s) (n : nat) (e : Z)
    : option (Z * Z * option Z * option (list Z) * option (list Z) * Z) :=
  match n with
  | O => Some (-1, e, None, None, None, 0)
  | S n' =>
      g ← aget programs e;
      let pmt := pp_pmt g in
      if negb (malloc (pm_stream_count pmt * 2)) then Some (-1, e, None, None, None, 0)
      else if negb (malloc (pm_stream_count pmt * 4)) then Some (-1, e, None, None, None, 0) else
      found ← all_streams (if_audio (fun s => (u16 (es_elementary_PID s), es_stream_type s))) pmt [];
      if 0 <? len found
      then Some (0, e + 1, Some e, Some (map fst found), Some (map snd found), len found)
      else audio_loop malloc programs n' (e + 1)
  end.

Definition ltntstools_pat_enum_services_audio (malloc : Z -> bool) (pat : option ltntstools_pat_s) (e : Z)
    (pmtptr : option Z) (pid_array stream_type_array : option (list Z)) (pid_count : Z)
    : option (Z * Z * option Z * option (list Z) * option (list Z) * Z) :=
  match pat with
  | None => Some (-1, e, pmtptr, pid_array, stream_type_array, pid_count)
  | Some pat =>
      if pa_program_count pat <? u32 (e + 1) then Some (-1, e, pmtptr, pid_array, stream_type_array, pid_count)
      else audio_loop malloc (pa_programs pat) (Z.to_nat (pa_program_count pat)) e
  end.

(** The teletext PIDs of the whole PAT; one pass counts them, a second one
    stores them. *)
Definition teletext_pids (pat : ltntstools_pat_s) : option (list Z) :=
  fold_in (fun l g =>
      all_streams (fun s => b ← has_descriptor ltntstools_descriptor_list_contains_teletext s;
                            Some (if (b : bool) then Some (u16 (es_elementary_PID s)) else None)) (pp_pmt g) l)
    (pa_programs pat) (pa_program_count pat) [].

Definition ltntstools_pat_get_services_teletext (malloc : Z -> bool) (pat : option ltntstools_pat_s)
    (pid_array : option (list Z)) (pid_count : Z) : option (Z * option (list Z) * Z) :=
  match pat with
  | None => Some (-1, pid_array, pid_count)
  | Some pat =>
      pids ← teletext_pids pat;
      if negb (malloc (len pids * 2)) then Some (-1, None, 0) else Some (0, Some pids, len pids)
  end.

(** ** Specification

    The programs with a service, by position, and what a caller collects who
    calls an enumeration from [*e = 0] until it fails. *)

Fixpoint positions {A} (h : A -> bool) (l : list A) (i : Z) : list Z :=
  match l with
  | [] => []
  | g :: l => if h g then i :: positions h l (i + 1) else positions h l (i + 1)
  end.

Fixpoint collect (next : Z -> option (Z * Z * option Z)) (fuel : nat) (e : Z) : option (list Z) :=
  match fuel with
  | O => None
  | S fuel' =>
      '(ret, e, p) ← next e;
      if ret =? 0 then i ← p; l ← collect next fuel' e; Some (i :: l) else Some []
  end.

Definition some_stream_b (h : ltntstools_pmt_entry_s -> bool) (g : ltntstools_pat_program_s) : bool :=
  existsb h (pmt_used (pp_pmt g)).
Definition descr_b (h : ltntstools_descriptor_entry_s -> bool) (s : ltntstools_pmt_entry_s) : bool :=
  existsb h (dl_entries (es_descr_list s)).
Definition video_program : ltntstools_pat_program_s -> bool :=
  some_stream_b (fun s => negb (ltntstools_is_ESPayloadType_Video (es_stream_type s) =? 0)).
Definition teletext_program : ltntstools_pat_program_s -> bool := some_stream_b (descr_b is_teletext).
Definition smpte2038_stream (s : ltntstools_pmt_entry_s) : bool :=
  (es_stream_type s =? 0x06) && descr_b is_smpte2038_registration s.
Definition smpte2038_program (g : ltntstools_pat_program_s) : bool :=
  negb (pm_program_number (pp_pmt g) =? 0) &&
  some_stream_b smpte2038_stream g.
Definition audio_stream (s : ltntstools_pmt_entry_s) : bool :=
  negb (ltntstools_is_ESPayloadType_Audio (es_stream_type s) =? 0) ||
  ((es_stream_type s =? 0x06) &&
   descr_b (fun d => existsb (Z.eqb (d_tag d)) [0x03; 0x1c; 0x2b; 0x6a; 0x7a; 0x7c]) s).
Definition audio_program : ltntstools_pat_program_s -> bool := some_stream_b audio_stream.

(** ** Lemmas *)

Lemma head_omap_if {A B} (h : A -> bool) (v : A -> B) l :
  head (omap (fun x => if h x then Some (v x) else None) l) = v <$> List.find h l.
Proof. induction l as [|x l IH]; [done|]. cbn [omap list_omap List.find]. by destruct (h x). Qed.

Lemma find_existsb {A} (h : A -> bool) l : existsb h l = match List.find h l with Some _ => true | None => false end.
Proof. induction l as [|x l IH]; [done|]. cbn [existsb List.find]. by destruct (h x). Qed.

Lemma has_descriptor_spec (h : ltntstools_descriptor_entry_s -> bool) s : pmt_entry_ok s ->
  has_descriptor (contains h) s = Some (descr_b h s).
Proof.
  intros Hs. unfold has_descriptor. rewrite contains_spec by done. step. unfold descr_b.
  by destruct (existsb h (dl_entries (es_descr_list s))).
Qed.

(** A loop over the streams, pure or not, finds the first that passes. *)
Lemma first_stream_spec {B} (h : ltntstools_pmt_entry_s -> bool) (v : ltntstools_pmt_entry_s -> B) m :
  pmt_ok m -> first_stream (fun s => if h s then Some (v s) else None) m = Some (v <$> List.find h (pmt_used m)).
Proof. intros [Hc Hl _ _]. unfold first_stream. rewrite find_in_spec by lia. by rewrite head_omap_if. Qed.

Lemma some_stream_spec {B} (f : ltntstools_pmt_entry_s -> option (option B))
    (h : ltntstools_pmt_entry_s -> bool) (v : ltntstools_pmt_entry_s -> B) m :
  pmt_ok m -> (forall s, pmt_entry_ok s -> f s = Some (if h s then Some (v s) else None)) ->
  some_stream f m = Some (v <$> List.find h (pmt_used m)).
Proof.
  intros [Hc Hl He _] Hf. unfold some_stream. rewrite <- head_omap_if. apply findM_in_spec; [lia|].
  intros s Hs. apply Hf. apply (proj1 (List.Forall_forall _ _) He), list_elem_of_In, Hs.
Qed.

Lemma has_video_spec g : pmt_ok (pp_pmt g) -> has_video g = Some (video_program g).
Proof.
  intros Hg. unfold has_video. rewrite (first_stream_spec _ (fun _ => tt)) by done. step.
  unfold video_program, some_stream_b. rewrite find_existsb. by destruct (List.find _ _).
Qed.

Lemma has_teletext_spec g : pmt_ok (pp_pmt g) -> has_teletext g = Some (teletext_program g).
Proof.
  intros Hg. unfold has_teletext. rewrite (some_stream_spec _ (descr_b is_teletext) (fun _ => tt)).
  - step. unfold teletext_program, some_stream_b. rewrite find_existsb. by destruct (List.find _ _).
  - done.
  - intros s Hs. unfold ltntstools_descriptor_list_contains_teletext. by rewrite has_descriptor_spec.
Qed.

Lemma smpte2038_pid_spec m : pmt_ok m ->
  smpte2038_pid m = Some (if pm_program_number m =? 0 then None
                          else (fun s => u16 (es_elementary_PID s)) <$> List.find smpte2038_stream (pmt_used m)).
Proof.
  intros Hm. unfold smpte2038_pid. case_if; [done|]. apply some_stream_spec; [done|]. intros s Hs.
  unfold smpte2038_stream. destruct (es_stream_type s =? 6); [|done]. cbn [negb andb].
  unfold ltntstools_descriptor_list_contains_smpte2038_registration. rewrite has_descriptor_spec by done. by step.
Qed.

(** One call: the next program with the service, or failure when none is left. *)
Lemma enum_loop_spec hit (h : ltntstools_pat_program_s -> bool) programs p n : forall e,
  (forall g, g ∈ programs -> hit g = Some (h g)) -> 0 <= e -> e + Z.of_nat n <= len programs ->
  exists r, enum_loop hit programs n e p = Some r /\
    match r with
    | (ret, e', q) =>
        ret = 0 /\ e < e' <= e + Z.of_nat n /\ q = Some (e' - 1) /\
          positions h (take n (drop (Z.to_nat e) programs)) e
          = (e' - 1) :: positions h (take (Z.to_nat (e + Z.of_nat n - e')) (drop (Z.to_nat e') programs)) e'
        \/ ret = -1 /\ q = p /\ positions h (take n (drop (Z.to_nat e) programs)) e = []
    end.
Proof.
  induction n as [|n IH]; intros e Hh He Hn; cbn [enum_loop].
  - eexists. split; [done|]. by right.
  - destruct (aget_lt programs e) as [g Hg]; [lia|]. rewrite Hg. step.
    rewrite Hh by (apply aget_Some in Hg as [_ Hg]; by eapply list_elem_of_lookup_2). step.
    rewrite (drop_aget _ _ _ Hg). cbn [take positions]. destruct (h g).
    + eexists. split; [done|]. left. split; [done|]. split; [lia|]. split; [f_equal; lia|].
      replace (e + 1 - 1) with e by lia. by replace (Z.to_nat (e + Z.of_nat (S n) - (e + 1))) with n by lia.
    + destruct (IH (e + 1) Hh) as ([[ret e'] q] & -> & Hr); [lia|lia|]. eexists. split; [done|].
      destruct Hr as [(-> & H1 & H2 & H3)|(-> & -> & H1)]; [left|right; done].
      split; [done|]. split; [lia|]. split; [done|]. rewrite H3.
      by replace (e + Z.of_nat (S n) - e') with (e + 1 + Z.of_nat n - e') by lia.
Qed.

(** The part of the PAT from [e] on. *)
Definition rest_of (pat : ltntstools_pat_s) (e : Z) : list ltntstools_pat_program_s :=
  take (Z.to_nat (pa_program_count pat - e)) (drop (Z.to_nat e) (pa_programs pat)).

Lemma rest_of_end pat e : pa_program_count pat <= e -> rest_of pat e = [].
Proof. intros H. unfold rest_of. by replace (Z.to_nat (pa_program_count pat - e)) with 0%nat by lia. Qed.

(** An interface of the enumerations: a call at [e] answers for the programs
    from [e] on. *)
Definition enumerates (h : ltntstools_pat_program_s -> bool) (pat : ltntstools_pat_s)
    (next : Z -> option (Z * Z * option Z)) : Prop :=
  forall e, 0 <= e <= pa_program_count pat -> exists ret e' q, next e = Some (ret, e', q) /\
    (ret = 0 /\ e < e' <= pa_program_count pat /\ q = Some (e' - 1) /\
       positions h (rest_of pat e) e = (e' - 1) :: positions h (rest_of pat e') e'
     \/ ret = -1 /\ positions h (rest_of pat e) e = []).

Lemma collect_spec h pat next fuel : enumerates h pat next -> forall e,
  0 <= e <= pa_program_count pat -> pa_program_count pat - e < Z.of_nat fuel ->
  collect next fuel e = Some (positions h (rest_of pat e) e).
Proof.
  intros Hn. induction fuel as [|fuel IH]; intros e He Hf; [lia|]. cbn [collect].
  destruct (Hn e He) as (ret & e' & q & -> & [(-> & H1 & -> & ->)|[-> ->]]); step; cbn [Z.eqb]; [|done].
  step. rewrite IH by lia. done.
Qed.

Lemma enum_next_enumerates hit h pat p : pat_ok pat ->
  (forall g, g ∈ pa_programs pat -> hit g = Some (h g)) -> enumerates h pat (fun e => enum_next hit pat e p).
Proof.
  intros [Hc Hl _] Hh e He. unfold enum_next, LTNTSTOOLS_PAT_ENTRIES_MAX in *. rewrite !u32_id by lia. case_if.
  - exists (-1), e, p. split; [done|]. right. by rewrite rest_of_end by lia.
  - destruct (enum_loop_spec hit h (pa_programs pat) p (Z.to_nat (pa_program_count pat - e)) e Hh)
      as ([[ret e'] q] & -> & Hr); [lia|lia|]. exists ret, e', q. split; [done|].
    destruct Hr as [(-> & H1 & H2 & H3)|(-> & _ & H1)]; [left|by right].
    split; [done|]. split; [lia|]. split; [done|]. unfold rest_of. rewrite H3.
    by replace (e + Z.of_nat (Z.to_nat (pa_program_count pat - e)) - e') with (pa_program_count pat - e') by lia.
Qed.

Lemma programs_ok pat g : pat_ok pat -> g ∈ pa_programs pat -> pmt_ok (pp_pmt g).
Proof. intros [_ _ H] Hg. by apply (proj1 (List.Forall_forall _ _) H), list_elem_of_In. Qed.

(** *** The enumerations that return more than the program *)

Lemma all_streams_spec {B} (f : ltntstools_pmt_entry_s -> option (option B)) (g : ltntstools_pmt_entry_s -> option B) m l :
  pmt_ok m -> (forall s, pmt_entry_ok s -> f s = Some (g s)) -> all_streams f m l = Some (l ++ omap g (pmt_used m)).
Proof.
  intros [Hc Hl He Hd] Hf. unfold all_streams. rewrite fold_in_spec by lia.
  assert (Hu : Forall pmt_entry_ok (pmt_used m)) by by apply Forall_take.
  revert l. unfold pmt_used in *. induction Hu as [|s k Hs _ IH]; intros l; cbn [foldM omap list_omap].
  - by rewrite app_nil_r.
  - rewrite Hf by done. step. rewrite IH. destruct (g s); [by rewrite <- app_assoc|done].
Qed.

Lemma find_in_descriptors {B} (h : ltntstools_descriptor_entry_s -> bool) (v : ltntstools_descriptor_entry_s -> B) l :
  descriptor_list_ok l ->
  find_in (fun d => if h d then Some (v d) else None) (dl_array l) (dl_count l) = Some (v <$> List.find h (dl_entries l)).
Proof. intros [Hc Ha _]. rewrite find_in_spec by lia. by rewrite head_omap_if. Qed.

Lemma is_audio_spec s : pmt_entry_ok s -> exists a, ltntstools_pmt_entry_is_audio s = Some a /\
  (a =? 0) = negb (audio_stream s).
Proof.
  intros Hs. unfold ltntstools_pmt_entry_is_audio, audio_stream.
  destruct (ltntstools_is_ESPayloadType_Audio (es_stream_type s) =? 0); cbn [negb orb]; [|by exists 1].
  destruct (es_stream_type s =? 6); cbn [negb andb]; [|by exists 0].
  rewrite find_in_descriptors by done. step. eexists. split; [done|]. unfold descr_b. rewrite find_existsb.
  destruct (List.find _ _) as [d|] eqn:E; [|done]. cbn [fmap option_fmap option_map negb].
  apply find_some in E as [_ E]. apply existsb_exists in E as (t & Ht & E%Z.eqb_eq). rewrite E.
  cbn [In] in Ht. apply Z.eqb_neq. lia.
Qed.

Lemma if_audio_spec {B} (keep : ltntstools_pmt_entry_s -> B) s : pmt_entry_ok s ->
  if_audio keep s = Some (if audio_stream s then Some (keep s) else None).
Proof.
  intros Hs. unfold if_audio. destruct (is_audio_spec s Hs) as (a & -> & Ha). step. rewrite Ha.
  by destruct (audio_stream s).
Qed.

Lemma omap_if {A B} (h : A -> bool) (v : A -> B) l :
  omap (fun x => if h x then Some (v x) else None) l = map v (List.filter h l).
Proof.
  induction l as [|x l IH]; [done|]. cbn [omap list_omap List.filter].
  destruct (h x); cbn [map]; [f_equal; exact IH|exact IH].
Qed.

Lemma len_filter_pos {A} (h : A -> bool) l : (0 <? len (List.filter h l)) = existsb h l.
Proof.
  induction l as [|x l IH]; [done|]. cbn [List.filter existsb]. destruct (h x); cbn [orb]; [|done].
  rewrite len_cons. pose proof (len_nonneg (List.filter h l)). apply Z.ltb_lt. lia.
Qed.

Lemma len_map {A B} (f : A -> B) l : len (map f l) = len l.
Proof. unfold len. by rewrite length_map. Qed.

(** The streams of the kept programs. *)
Definition audio_pids (g : ltntstools_pat_program_s) : list Z :=
  map (fun s => u16 (es_elementary_PID s)) (List.filter audio_stream (pmt_used (pp_pmt g))).
Definition audio_types (g : ltntstools_pat_program_s) : list Z :=
  map es_stream_type (List.filter audio_stream (pmt_used (pp_pmt g))).

Section Arrays.
Context (malloc : Z -> bool) (Hmalloc : forall n, malloc n = true).

Lemma audio_loop_spec programs n : forall e, Forall (fun g => pmt_ok (pp_pmt g)) programs ->
  audio_loop malloc programs n e =
    ('(ret, e', q) ← enum_loop (fun g => Some (audio_program g)) programs n e None;
     match q with
     | None => Some (ret, e', None, None, None, 0)
     | Some i => g ← aget programs i;
                 Some (ret, e', Some i, Some (audio_pids g), Some (audio_types g), len (audio_pids g))
     end).
Proof.
  induction n as [|n IH]; intros e Hp; cbn [audio_loop enum_loop]; [done|].
  destruct (aget programs e) as [g|] eqn:Hg; [|done]. step. rewrite !Hmalloc. cbn [negb].
  assert (Hok : pmt_ok (pp_pmt g)).
  { apply aget_Some in Hg as [_ Hg']. by eapply (Forall_lookup_1 _ _ _ _ Hp). }
  erewrite all_streams_spec by (try done; intros s Hs; by apply if_audio_spec). step. cbn [app].
  rewrite omap_if, len_map, len_filter_pos. unfold audio_program at 1, some_stream_b.
  destruct (existsb audio_stream (pmt_used (pp_pmt g))); [|by apply IH].
  step. rewrite Hg. step. unfold audio_pids, audio_types. by rewrite !map_map, len_map.
Qed.

Lemma pids86_spec m : pmt_ok m ->
  all_streams (fun s => Some (if es_stream_type s =? 0x86 then Some (u16 (es_elementary_PID s)) else None)) m []
  = Some (map (fun s => u16 (es_elementary_PID s)) (List.filter (fun s => es_stream_type s =? 0x86) (pmt_used m))).
Proof. intros Hm. erewrite all_streams_spec by done. by rewrite omap_if. Qed.

End Arrays.

Lemma smpte2038_loop_spec programs n : forall e, Forall (fun g => pmt_ok (pp_pmt g)) programs ->
  (fun '(ret, e, q, _) => (ret, e, q)) <$> smpte2038_loop programs n e =
  enum_loop (fun g => Some (smpte2038_program g)) programs n e None.
Proof.
  induction n as [|n IH]; intros e Hp; cbn [smpte2038_loop enum_loop]; [done|].
  destruct (aget programs e) as [g|] eqn:Hg; [|done]. step.
  assert (Hok : pmt_ok (pp_pmt g)).
  { apply aget_Some in Hg as [_ Hg']. by eapply (Forall_lookup_1 _ _ _ _ Hp). }
  rewrite smpte2038_pid_spec by done. step. unfold smpte2038_program at 1, some_stream_b. rewrite find_existsb.
  destruct (pm_program_number (pp_pmt g) =? 0); cbn [negb andb]; [by apply IH|].
  destruct (List.find _ _); cbn [fmap option_fmap option_map]; [done|by apply IH].
Qed.

(** *** Loops that start at 0 *)

Lemma positions_app {A} (h : A -> bool) l k : forall i,
  positions h (l ++ k) i = positions h l i ++ positions h k (i + len l).
Proof.
  induction l as [|x l IH]; intros i; cbn [app positions].
  - by rewrite len_nil, Z.add_0_r.
  - rewrite IH, len_cons. replace (i + 1 + len l) with (i + (len l + 1)) by lia. by destruct (h x).
Qed.

Lemma positions_none {A} (h : A -> bool) l : Forall (fun x => h x = false) l -> forall i, positions h l i = [].
Proof. induction 1 as [|x l Hx _ IH]; intros i; [done|]. cbn [positions]. by rewrite Hx. Qed.

Lemma positions_bound {A} (h : A -> bool) l : forall i x, x ∈ positions h l i -> i <= x < i + len l.
Proof.
  induction l as [|y l IH]; intros i x; cbn [positions]; [by intros ?%elem_of_nil|].
  rewrite len_cons. pose proof (len_nonneg l). destruct (h y).
  - intros [->|Hx]%elem_of_cons; [lia|]. specialize (IH _ _ Hx). lia.
  - intros Hx. specialize (IH _ _ Hx). lia.
Qed.

(** The array behind the programs in use holds no streams (as [calloc] left it). *)
Definition unused_empty (pat : ltntstools_pat_s) : Prop :=
  Forall (fun g => pm_stream_count (pp_pmt g) = 0) (drop (Z.to_nat (pa_program_count pat)) (pa_programs pat)).

Lemma rest_of_long h pat e : pat_ok pat -> unused_empty pat -> 0 <= e <= pa_program_count pat ->
  (forall g, pm_stream_count (pp_pmt g) = 0 -> h g = false) ->
  positions h (take (Z.to_nat (pa_program_count pat)) (drop (Z.to_nat e) (pa_programs pat))) e
  = positions h (rest_of pat e) e.
Proof.
  intros [Hc Hl _] Hu He Hh. unfold rest_of.
  rewrite <- (take_drop (Z.to_nat (pa_program_count pat - e)) (take (Z.to_nat (pa_program_count pat)) _)).
  rewrite take_take, Nat.min_l by lia. rewrite positions_app.
  rewrite (positions_none h (drop _ _)); [by rewrite app_nil_r|].
  rewrite skipn_firstn_comm, drop_drop.
  replace (Z.to_nat e + Z.to_nat (pa_program_count pat - e))%nat with (Z.to_nat (pa_program_count pat)) by lia.
  apply Forall_take. unfold unused_empty in Hu. exact (List.Forall_impl _ Hh Hu).
Qed.

Lemma audio_none g : pm_stream_count (pp_pmt g) = 0 -> audio_program g = false.
Proof. intros H. unfold audio_program, some_stream_b, pmt_used. by rewrite H. Qed.

Lemma enum_from_0 h pat e : pat_ok pat -> unused_empty pat ->
  (forall g, pm_stream_count (pp_pmt g) = 0 -> h g = false) ->
  pa_program_count pat <= 32 -> 0 <= e <= pa_program_count pat ->
  exists ret e' q, enum_loop (fun g => Some (h g)) (pa_programs pat) (Z.to_nat (pa_program_count pat)) e None = Some (ret, e', q) /\
    (ret = 0 /\ e < e' <= pa_program_count pat /\ q = Some (e' - 1) /\
       positions h (rest_of pat e) e = (e' - 1) :: positions h (rest_of pat e') e'
     \/ ret = -1 /\ q = None /\ positions h (rest_of pat e) e = []).
Proof.
  intros Hok Hu Hh H32 He. assert (Hok' := Hok). destruct Hok' as [Hc Hl _]. unfold LTNTSTOOLS_PAT_ENTRIES_MAX in *.
  destruct (enum_loop_spec (fun g => Some (h g)) h (pa_programs pat) None (Z.to_nat (pa_program_count pat)) e)
    as ([[ret e'] q] & -> & Hr); [done|lia|lia|]. exists ret, e', q. split; [done|].
  rewrite rest_of_long in Hr by done. destruct Hr as [(-> & H1 & H2 & H3)|(-> & -> & H1)]; [left|by right].
  assert (Hb : e' - 1 < pa_program_count pat).
  { destruct (positions_bound h (rest_of pat e) e (e' - 1)) as [_ Hb]; [rewrite H3; by left|].
    unfold rest_of in Hb. rewrite len_take in Hb; [lia|]. rewrite len_drop by lia. lia. }
  split; [done|]. split; [lia|]. split; [done|]. rewrite H3. f_equal.
  replace (Z.to_nat (e + Z.of_nat (Z.to_nat (pa_program_count pat)) - e'))
    with (Z.to_nat (pa_program_count pat - e') + Z.to_nat e)%nat by lia.
  rewrite <- (take_drop (Z.to_nat (pa_program_count pat - e')) (take _ _)), take_take, Nat.min_l by lia.
  rewrite positions_app, (positions_none h (drop _ _)); [by rewrite app_nil_r|].
  rewrite skipn_firstn_comm, drop_drop.
  replace (Z.to_nat e' + Z.to_nat (pa_program_count pat - e'))%nat with (Z.to_nat (pa_program_count pat)) by lia.
  apply Forall_take. exact (List.Forall_impl _ Hh Hu).
Qed.

(** *** Each enumeration *)

Lemma smpte2038_enumerates pat p0 pid : pat_ok pat ->
  enumerates smpte2038_program pat (fun e =>
    (fun '(ret, e, q, _) => (ret, e, q)) <$> ltntstools_pat_enum_services_smpte2038 (Some pat) e p0 pid).
Proof.
  intros Hok e He. unfold ltntstools_pat_enum_services_smpte2038.
  assert (Hok' := Hok). destruct Hok' as [Hc _ Hp]. unfold LTNTSTOOLS_PAT_ENTRIES_MAX in Hc.
  destruct (enum_next_enumerates (fun g => Some (smpte2038_program g)) smpte2038_program pat None Hok
    ltac:(done) e He) as (ret & e' & q & Hn & Hr).
  unfold enum_next in Hn. destruct (pa_program_count pat <? u32 (e + 1)).
  - injection Hn as <- <- <-. exists (-1), e, p0. split; [done|]. right. by destruct Hr as [(? & _)|[_ ?]].
  - rewrite smpte2038_loop_spec by done. by exists ret, e', q.
Qed.

Lemma audio_enumerates malloc pat p0 a t c : (forall n, malloc n = true) -> pat_ok pat -> unused_empty pat ->
  pa_program_count pat <= 32 ->
  enumerates audio_program pat (fun e =>
    (fun '(ret, e, q, _, _, _) => (ret, e, q)) <$> ltntstools_pat_enum_services_audio malloc (Some pat) e p0 a t c).
Proof.
  intros Hm Hok Hu H32 e He. unfold ltntstools_pat_enum_services_audio.
  assert (Hok' := Hok). destruct Hok' as [Hc Hl Hp]. unfold LTNTSTOOLS_PAT_ENTRIES_MAX in *.
  rewrite u32_id by lia. case_if.
  - exists (-1), e, p0. split; [done|]. right. by rewrite rest_of_end by lia.
  - rewrite audio_loop_spec by done.
    destruct (enum_from_0 audio_program pat e) as (ret & e' & q & -> & Hr); try done; [by apply audio_none|].
    step. destruct Hr as [(-> & H1 & -> & H2)|(-> & -> & H2)].
    + destruct (aget_lt (pa_programs pat) (e' - 1)) as [g ->]; [lia|]. step.
      exists 0, e', (Some (e' - 1)). split; [done|]. by left.
    + exists (-1), e', None. split; [done|]. by right.
Qed.

(** *** Removing a stream *)

(** The list without its first element that passes. *)
Fixpoint remove_first {A} (h : A -> bool) (l : list A) : list A :=
  match l with [] => [] | x :: l => if h x then l else x :: remove_first h l end.

Lemma remove_es_loop_spec pid m n : forall i, pmt_ok m -> 0 <= i -> i + Z.of_nat n = pm_stream_count m ->
  exists m', remove_es_loop n i pid m = Some m' /\ pmt_ok m' /\
    pmt_used m' = take (Z.to_nat i) (pmt_used m) ++
                  remove_first (fun s => es_elementary_PID s =? pid) (drop (Z.to_nat i) (pmt_used m)).
Proof.
  induction n as [|n IH]; intros i Hm Hi Hn; assert (Hm' := Hm); destruct Hm' as [Hc Hl He Hd]; cbn [remove_es_loop].
  - exists m. split; [done|]. split; [done|]. unfold pmt_used. rewrite (drop_ge (take _ _)); [|rewrite length_take; lia].
    cbn [remove_first]. rewrite app_nil_r, take_take, Nat.min_l by lia. f_equal. lia.
  - destruct (aget_lt (pm_streams m) i) as [s Hs]; [lia|]. rewrite Hs. step.
    assert (Hu : drop (Z.to_nat i) (pmt_used m) = s :: drop (Z.to_nat (i + 1)) (pmt_used m)).
    { apply drop_aget. apply aget_Some. apply aget_Some in Hs as [_ Hs]. split; [lia|]. unfold pmt_used. by rewrite lookup_take_lt by lia. }
    rewrite Hu. cbn [remove_first]. case_if.
    + clear IH. case_if; [|zdec].
      * eexists. split; [done|]. split; [constructor; cbn [set_streams pm_stream_count pm_streams pm_descr_list]; (done || lia)|].
        unfold pmt_used. cbn [set_streams pm_stream_count pm_streams]. rewrite (drop_ge (take _ _)); [|rewrite length_take; lia].
        rewrite app_nil_r, take_take. f_equal. lia.
      * eexists. split; [done|]. unfold LTNTSTOOLS_PMT_ENTRIES_MAX in *. unfold len in Hl. split.
        { constructor; cbn [set_streams pm_stream_count pm_streams pm_descr_list]; unfold LTNTSTOOLS_PMT_ENTRIES_MAX; [lia| | |done].
          - unfold len. rewrite !length_app, !length_take, !length_drop. lia.
          - apply Forall_app. split; [by apply Forall_take|]. apply Forall_app. split; [|by apply Forall_drop].
            by apply Forall_take, Forall_drop. }
        unfold pmt_used. cbn [set_streams pm_stream_count pm_streams]. rewrite take_take, Nat.min_l by lia.
        rewrite app_assoc, take_app_le by (rewrite length_app, !length_take, length_drop; lia).
        rewrite take_ge by (rewrite length_app, !length_take, length_drop; lia).
        f_equal. rewrite skipn_firstn_comm. f_equal. lia.
    + destruct (IH (i + 1)) as (m' & -> & Hok & Hv); [done|lia|lia|]. exists m'. split; [done|]. split; [done|]. rewrite Hv.
      replace (Z.to_nat (i + 1)) with (S (Z.to_nat i)) by lia.
      rewrite (take_S_r _ _ s); [by rewrite <- app_assoc|].
      apply aget_Some in Hs as [_ Hs]. unfold pmt_used. by rewrite lookup_take_lt by lia.
Qed.

(** The first stream of the PID is gone, the order of the others is kept. *)
Lemma pmt_remove_es_spec m pid : pmt_ok m -> exists m',
  ltntstools_pmt_remove_es_for_pid (Some m) pid = Some (Some m', 0) /\ pmt_ok m' /\
  pmt_used m' = remove_first (fun s => es_elementary_PID s =? pid) (pmt_used m).
Proof.
  intros Hm. unfold ltntstools_pmt_remove_es_for_pid.
  destruct (remove_es_loop_spec pid m (Z.to_nat (pm_stream_count m)) 0 Hm) as (m' & -> & H1 & H2);
    [lia|destruct Hm; lia|]. step. by exists m'.
Qed.

(** ** Properties *)

Lemma rest_of_0 pat : rest_of pat 0 = pat_used pat.
Proof. unfold rest_of, pat_used. change (Z.to_nat 0) with 0%nat. by rewrite drop_0, Z.sub_0_r. Qed.

Lemma collect_all h pat next : pat_ok pat -> enumerates h pat next ->
  collect next (S (Z.to_nat (pa_program_count pat))) 0 = Some (positions h (pat_used pat) 0).
Proof. intros [Hc _ _] Hn. rewrite <- rest_of_0. by apply (collect_spec h pat); [|lia|lia]. Qed.

(** C37: a caller who enumerates the services of a well-formed PAT from position
    0 until failure gets exactly the programs with the service, in order, in at
    most one call more than there are programs: video, teletext, a PMT PID and
    SMPTE 2038 data for every PAT, and audio for a PAT of at most 32 programs
    whose unused entries have no streams (the audio enumerator examines as many
    entries from its position on as there are programs, [audio_enum_overruns]).
    A program counts by its streams, whether it has a PCR or not; pat.h speaks
    of programs with a pcr ([services_without_pcr]). *)
Theorem services_enumerated (pat : ltntstools_pat_s) (p : option Z) :
  pat_ok pat ->
  let all next := collect next (S (Z.to_nat (pa_program_count pat))) 0 in
  all (fun e => ltntstools_pat_enum_services_video pat e p) = Some (positions video_program (pat_used pat) 0) /\
  all (fun e => ltntstools_pat_enum_services_teletext pat e p) = Some (positions teletext_program (pat_used pat) 0) /\
  (forall pid, all (fun e => ltntstools_pat_enum_services pat e pid p)
     = Some (positions (fun g => pp_program_map_PID g =? pid) (pat_used pat) 0)) /\
  (forall pid, all (fun e => (fun '(ret, e, q, _) => (ret, e, q)) <$>
                             ltntstools_pat_enum_services_smpte2038 (Some pat) e p pid)
     = Some (positions smpte2038_program (pat_used pat) 0)) /\
  (forall malloc a t c, (forall n, malloc n = true) -> unused_empty pat -> pa_program_count pat <= 32 ->
     all (fun e => (fun '(ret, e, q, _, _, _) => (ret, e, q)) <$>
                   ltntstools_pat_enum_services_audio malloc (Some pat) e p a t c)
     = Some (positions audio_program (pat_used pat) 0)).
Proof.
  intros Hok. cbv zeta. assert (Hg : forall g, g ∈ pa_programs pat -> pmt_ok (pp_pmt g)) by (intros; by eapply programs_ok).
  split; [|split; [|split; [|split]]]; intros; apply collect_all; try done.
  - apply enum_next_enumerates; [done|]. intros. by apply has_video_spec, Hg.
  - apply enum_next_enumerates; [done|]. intros. by apply has_teletext_spec, Hg.
  - by apply enum_next_enumerates.
  - by apply smpte2038_enumerates.
  - by apply audio_enumerates.
Qed.

(** Concrete PATs: [n] programs, those given first. *)
Definition sample_stream (type pid : Z) : ltntstools_pmt_entry_s :=
  {| es_stream_type := type; es_elementary_PID := pid; es_descr_list := descriptor_list_zero |}.
Definition sample_program (number : Z) (streams : list ltntstools_pmt_entry_s) (descr : ltntstools_descriptor_list_s)
    : ltntstools_pat_program_s :=
  {| pp_program_number := number; pp_program_map_PID := 0x100 + number;
     pp_pmt := {| pm_version_number := 0; pm_program_number := number; pm_current_next_indicator := 1;
                  pm_PCR_PID := 0x31; pm_stream_count := len streams;
                  pm_streams := streams ++ replicate (16 - length streams) pmt_entry_zero;
                  pm_descr_list := descr |};
     pp_service_id := 0; pp_service_type := 0; pp_service_name := replicate 32 0;
     pp_service_provider := replicate 32 0 |}.
Definition sample_pat (n : Z) (programs : list ltntstools_pat_program_s) : ltntstools_pat_s :=
  set_program pat_zero n (programs ++ replicate (64 - length programs) program_zero).

Lemma sample_program_ok number streams :
  (length streams <= 16)%nat -> Forall (fun s => es_descr_list s = descriptor_list_zero) streams ->
  pmt_ok (pp_pmt (sample_program number streams descriptor_list_zero)).
Proof.
  intros Hl Hs. constructor; cbn [sample_program pp_pmt pm_stream_count pm_streams pm_descr_list];
    unfold LTNTSTOOLS_PMT_ENTRIES_MAX, len; [lia|rewrite length_app, length_replicate; lia| |apply descriptor_list_zero_ok].
  apply Forall_app. split; [|apply Forall_replicate, descriptor_list_zero_ok].
  eapply List.Forall_impl; [|exact Hs]. intros s E. unfold pmt_entry_ok. rewrite E. apply descriptor_list_zero_ok.
Qed.

Lemma sample_pat_ok n programs : (length programs <= 64)%nat -> 0 <= n <= 64 ->
  Forall (fun g => pmt_ok (pp_pmt g)) programs -> pat_ok (sample_pat n programs).
Proof.
  intros Hl Hn Hp. constructor; cbn [sample_pat set_program pa_program_count pa_programs];
    unfold LTNTSTOOLS_PAT_ENTRIES_MAX, len; [lia|rewrite length_app, length_replicate; lia|].
  apply Forall_app. split; [done|]. apply Forall_replicate, pmt_zero_ok.
Qed.

Definition two_services : ltntstools_pat_s :=
  sample_pat 3 [sample_program 0 [] descriptor_list_zero;
                sample_program 1 [sample_stream 0x1b 0x31; sample_stream 0x0f 0x32] descriptor_list_zero;
                sample_program 2 [sample_stream 0x24 0x41; sample_stream 0x03 0x42] descriptor_list_zero].

Lemma services_enumerated_witness :
  let all next := collect next 4 0 in
  all (fun e => ltntstools_pat_enum_services_video two_services e None) = Some [1; 2] /\
  all (fun e => (fun '(ret, e, q, _, _, _) => (ret, e, q)) <$>
        ltntstools_pat_enum_services_audio (fun _ => true) (Some two_services) e None None None 0) = Some [1; 2].
Proof.
  assert (Hok : pat_ok two_services).
  { apply sample_pat_ok; [cbn; lia|lia|]. repeat (constructor; [apply sample_program_ok; [cbn; lia|repeat constructor]|]). constructor. }
  destruct (services_enumerated two_services None Hok) as (H1 & _ & _ & _ & H2). split.
  - change (collect (fun e => ltntstools_pat_enum_services_video two_services e None)
      (S (Z.to_nat (pa_program_count two_services))) 0 = Some [1; 2]). rewrite H1. by vm_compute.
  - refine (eq_trans (H2 (fun _ => true) None None 0 _ _ _) _); [done| |by vm_compute|by vm_compute].
    unfold unused_empty. change (drop _ _) with (replicate 61 program_zero). by apply Forall_replicate.
Defined.

(** The audio enumeration leaves the array: 64 programs, audio in the first
    only; the second call examines programs 1 to 64. *)
Lemma audio_enum_overruns :
  let pat := sample_pat 64 [sample_program 1 [sample_stream 0x0f 0x32] descriptor_list_zero] in
  let next e := ltntstools_pat_enum_services_audio (fun _ => true) (Some pat) e None None None 0 in
  next 0 = Some (0, 1, Some 0, Some [0x32], Some [0x0f], 1) /\ next 1 = None.
Proof. split; by vm_compute. Qed.

(** A program whose PMT has no PCR PID (0x1fff) is enumerated like the others. *)
Lemma services_without_pcr :
  let g := (sample_program 1 [sample_stream 0x1b 0x31; sample_stream 0x0f 0x32] descriptor_list_zero) in
  let pat := sample_pat 1 [g <| pp_pmt := (pp_pmt g) <| pm_PCR_PID := 0x1fff |> |>] in
  ltntstools_pat_enum_services_video pat 0 None = Some (0, 1, Some 0) /\
  ltntstools_pat_enum_services_audio (fun _ => true) (Some pat) 0 None None None 0
    = Some (0, 1, Some 0, Some [0x32], Some [0x0f], 1).
Proof. split; by vm_compute. Qed.

(** The SCTE-35 enumeration does not pass a program with the registration but
    without a stream: the service of the second program is never reported. *)
Definition cue_list : ltntstools_descriptor_list_s :=
  {| dl_count := 1;
     dl_array := {| d_tag := 0x05; d_len := 4; d_data := bytes_of_string "CUEI" ++ replicate 252 0 |} ::
                 replicate 15 descriptor_zero |}.
Lemma scte35_enum_stuck :
  let pat := sample_pat 2 [sample_program 1 [sample_stream 0x1b 0x31] cue_list;
                           sample_program 2 [sample_stream 0x86 0x51] cue_list] in
  let next e := ltntstools_pat_enum_services_scte35 (fun _ => true) (Some pat) e None None 0 in
  next 0 = Some (-1, 0, None, None, 0) /\ next 1 = Some (0, 2, Some 1, Some [0x51], 1).
Proof. split; by vm_compute. Qed.
