(* ===== verification/PatPacket.v ===== *)
(** * Tables as transport packets: the packet writers of src/pat.c

    [ltntstools_pat_create_packet_ts] and [ltntstools_pmt_create_packet_ts]
    write the section byte by byte behind the packet header and seal it with its
    CRC; [ltntstools_pmt_create_packet_ts2] has libdvbpsi generate the sections
    and copies them with [writePSI].  [None] is a write outside the packet. *)
From Stdlib Require Import ZArith Lia Bool String.
From stdpp Require Import base numbers list option.
From S2P Require Import Prelude Ts Crc32 SectionExtractor Descriptor Pat.

(** [p[i++] = v] for each value in turn, into an array of [uint8_t]. *)
Fixpoint emit (vs : list Z) (st : list Z * Z) : option (list Z * Z) :=
  match vs with
  | [] => Some st
  | v :: vs => let '(p, i) := st in p ← wr p i (u8 v); emit vs (p, i + 1)
  end.

(** ** PAT *)

Definition pat_head (pat : ltntstools_pat_s) (cc : Z) : list Z :=
  [0x47; 0x40; 0x00; Z.lor 0x10 (Z.land cc 0x0f); 0x00;
   0x00; 0xB0;
   9 + pa_program_count pat * 4;
   Z.shiftr (pa_transport_stream_id pat) 8; pa_transport_stream_id pat;
   Z.lor (Z.lor 0xC0 (Z.b2z (Z.land (pa_version_number pat) 0x1f <? 1))) (pa_current_next_indicator pat);
   0x00; 0x00].

Definition pat_entry (g : ltntstools_pat_program_s) : list Z :=
  [Z.shiftr (pm_program_number (pp_pmt g)) 8; pm_program_number (pp_pmt g);
   Z.lor 0xE0 (Z.land (Z.shiftr (pp_program_map_PID g) 8) 0x1F);
   Z.land (pp_program_map_PID g) 0xFF].

(** The checksum of the bytes from [p[5]] on is appended. *)
Definition seal_section (st : list Z * Z) : option (list Z) :=
  let '(p, i) := st in
  '(_, crc) ← ltntstools_getCRC32 (Some (drop 5 p)) (i - 5) true;
  crc ← crc;
  r ← emit [Z.land (Z.shiftr crc 24) 0xFF; Z.land (Z.shiftr crc 16) 0xFF;
            Z.land (Z.shiftr crc 8) 0xFF; Z.land crc 0xFF] (p, i);
  Some (fst r).

(** Result: the packet and the return value. *)
Definition ltntstools_pat_create_packet_ts (pat : option ltntstools_pat_s) (cc : Z)
    (packet : option (list Z)) (packetLength : Z) : option (option (list Z) * Z) :=
  match pat, packet with
  | Some pat, Some packet =>
      if negb (packetLength =? 188) then Some (Some packet, -1) else
      p ← memset packet 0 0xFF packetLength;
      st ← emit (pat_head pat cc) (p, 0);
      st ← fold_in (fun st g => emit (pat_entry g) st) (pa_programs pat) (pa_program_count pat) st;
      p ← seal_section st;
      Some (Some p, 0)
  | _, packet => Some (packet, -1)
  end.

(** ** PMT *)

(** [len + 2] summed over the descriptors. *)
Definition descriptors_length (l : ltntstools_descriptor_list_s) : option Z :=
  fold_in (fun n d => Some (n + (d_len d + 2))) (dl_array l) (dl_count l) 0.

Definition streams_length (pmt : ltntstools_pmt_s) : option Z :=
  fold_in (fun n s => m ← descriptors_length (es_descr_list s); Some (n + m))
    (pm_streams pmt) (pm_stream_count pmt) 0.

Definition pmt_head (pmt : ltntstools_pmt_s) (pid cc outerLen innerLenTotal : Z) : list Z :=
  [0x47; Z.lor 0x40 (Z.shiftr (Z.land pid 0x1fff) 8); Z.land pid 0xff; Z.lor 0x10 (Z.land cc 0x0f); 0x00;
   0x02; 0xB0;
   9 + 4 + (pm_stream_count pmt * 5) + outerLen + innerLenTotal;
   Z.shiftr (pm_program_number pmt) 8; pm_program_number pmt;
   Z.lor (Z.lor 0xC0 (Z.b2z (Z.land (pm_version_number pmt) 0x1f <? 1))) (pm_current_next_indicator pmt);
   0x00; 0x00;
   Z.lor 0xe0 (Z.shiftr (Z.land (pm_PCR_PID pmt) 0x1fff) 8); pm_PCR_PID pmt;
   Z.lor 0xf0 (Z.shiftr (Z.land outerLen 0xfff) 8); outerLen].

Definition descriptor_bytes (d : ltntstools_descriptor_entry_s) : list Z :=
  [d_tag d; d_len d] ++ take (Z.to_nat (d_len d)) (d_data d).

Definition emit_descriptors (l : ltntstools_descriptor_list_s) (st : list Z * Z) : option (list Z * Z) :=
  fold_in (fun st d => emit (descriptor_bytes d) st) (dl_array l) (dl_count l) st.

Definition stream_head (s : ltntstools_pmt_entry_s) (innerLen : Z) : list Z :=
  [es_stream_type s;
   Z.lor 0xe0 (Z.shiftr (Z.land (es_elementary_PID s) 0x1fff) 8); es_elementary_PID s;
   Z.lor 0xf0 (Z.shiftr (Z.land innerLen 0xfff) 8); innerLen].

Definition emit_stream (s : ltntstools_pmt_entry_s) (st : list Z * Z) : option (list Z * Z) :=
  innerLen ← descriptors_length (es_descr_list s);
  st ← emit (stream_head s innerLen) st;
  emit_descriptors (es_descr_list s) st.

Definition ltntstools_pmt_create_packet_ts (pmt : option ltntstools_pmt_s) (pid cc : Z)
    (packet : option (list Z)) (packetLength : Z) : option (option (list Z) * Z) :=
  match pmt, packet with
  | Some pmt, Some packet =>
      if negb (packetLength =? 188) then Some (Some packet, -1) else
      p ← memset packet 0 0xFF packetLength;
      outerLen ← descriptors_length (pm_descr_list pmt);
      innerLenTotal ← streams_length pmt;
      st ← emit (pmt_head pmt pid cc outerLen innerLenTotal) (p, 0);
      st ← emit_descriptors (pm_descr_list pmt) st;
      st ← fold_in (fun st s => emit_stream s st) (pm_streams pmt) (pm_stream_count pmt) st;
      p ← seal_section st;
      Some (Some p, 0)
  | _, packet => Some (packet, -1)
  end.

(** ** Sections of libdvbpsi *)

(** A generated section: its buffer, the offset of [p_payload_end] and the
    syntax indicator, which adds the four bytes of the CRC. *)
Record dvbpsi_psi_section_t := { ps_data : list Z; ps_payload_end : Z; ps_syntax_indicator : bool }.

(** [while ((pos < packet + 188) && (p_byte < p_end)) copy a byte] *)
Fixpoint psi_copy_loop (fuel : nat) (data : list Z) (p_end : Z) (p : list Z) (pos p_byte : Z)
    : option (list Z * Z * Z) :=
  match fuel with
  | O => None
  | S fuel' =>
      if (pos <? 188) && (p_byte <? p_end) then
        v ← rd data p_byte;
        p ← wr p pos v;
        psi_copy_loop fuel' data p_end p (pos + 1) (p_byte + 1)
      else Some (p, pos, p_byte)
  end.

(** [while (pos < packet + 188)] stuff *)
Fixpoint psi_fill_loop (fuel : nat) (p : list Z) (pos : Z) : option (list Z) :=
  match fuel with
  | O => None
  | S fuel' => if pos <? 188 then p ← wr p pos 0xff; psi_fill_loop fuel' p (pos + 1) else Some p
  end.

(** The packet from [pos] on: section bytes, then stuffing; the packet has 188
    positions.  Then [p_packet[3] = (p_packet[3] + 1) & 0x0f]. *)
Definition psi_payload (data : list Z) (p_end : Z) (p : list Z) (pos p_byte : Z) : option (list Z * Z) :=
  '(p, pos, p_byte) ← psi_copy_loop 189 data p_end p pos p_byte;
  p ← psi_fill_loop 189 p pos;
  b ← rd p 3;
  p ← wr p 3 (Z.land (b + 1) 0x0f);
  Some (p, p_byte).

Definition psi_payload_flag (p : list Z) : option (list Z) :=
  b ← rd p 3; wr p 3 (Z.lor (Z.land b 0x0f) 0x10).

(** The outer loop writes every further piece of the section over the last. *)
Fixpoint psi_more_loop (fuel : nat) (data : list Z) (p_end : Z) (p : list Z) (p_byte : Z) : option (list Z) :=
  match fuel with
  | O => None
  | S fuel' =>
      if p_byte <? p_end then
        b ← rd p 1;
        p ← wr p 1 (Z.land b 0xbf);
        p ← psi_payload_flag p;
        '(p, p_byte) ← psi_payload data p_end p 4 p_byte;
        psi_more_loop fuel' data p_end p p_byte
      else Some p
  end.

Definition write_section (p : list Z) (s : dvbpsi_psi_section_t) : option (list Z) :=
  let p_end := ps_payload_end s + (if ps_syntax_indicator s then 4 else 0) in
  b ← rd p 1;
  p ← wr p 1 (Z.lor b 0x40);
  p ← psi_payload_flag p;
  p ← wr p 4 0x00;
  '(p, p_byte) ← psi_payload (ps_data s) p_end p 5 0;
  psi_more_loop (S (Z.to_nat p_end)) (ps_data s) p_end p p_byte.

Definition writePSI (p : list Z) (sections : list dvbpsi_psi_section_t) : option (list Z) :=
  p ← wr p 0 0x47;
  foldM write_section sections p.

(** The table handed to libdvbpsi: its constructors append in call order. *)
Definition dvbpsi_descriptors (l : ltntstools_descriptor_list_s) : option (list dvbpsi_descriptor_t) :=
  fold_in (fun ds d => Some (ds ++ [{| i_tag := d_tag d; i_length := d_len d; p_data := d_data d |}]))
    (dl_array l) (dl_count l) [].

Definition dvbpsi_of_pmt (p : ltntstools_pmt_s) : option dvbpsi_pmt_t :=
  ds ← dvbpsi_descriptors (pm_descr_list p);
  es ← fold_in (fun l s =>
           ds ← dvbpsi_descriptors (es_descr_list s);
           Some (l ++ [{| es_i_type := u8 (es_stream_type s); es_i_pid := u16 (es_elementary_PID s);
                          es_p_first_descriptor := ds |}]))
         (pm_streams p) (pm_stream_count p) [];
  Some {| i_program_number := u16 (pm_program_number p); pmt_i_version := u8 (pm_version_number p);
          pmt_b_current_next := Z.b2z (negb (pm_current_next_indicator p =? 0));
          i_pcr_pid := u16 (pm_PCR_PID p); pmt_p_first_descriptor := ds; p_first_es := es |}.

(** [generate] is dvbpsi_pmt_sections_generate. *)
Definition ltntstools_pmt_create_packet_ts2 (generate : dvbpsi_pmt_t -> list dvbpsi_psi_section_t)
    (p : option ltntstools_pmt_s) (pid cc : Z) (packet : option (list Z)) (packetLength : Z)
    : option (option (list Z) * Z) :=
  match p, packet with
  | Some p, Some packet =>
      if negb (packetLength =? 188) then Some (Some packet, -1) else
      pmt ← dvbpsi_of_pmt p;
      q ← memset packet 0 0 188;
      q ← wr q 0 0x47;
      q ← wr q 1 (u8 (Z.shiftr (Z.land pid 0x1fff) 8));
      q ← wr q 2 (Z.land pid 0xff);
      q ← wr q 3 (Z.land cc 0x0f);
      q ← writePSI q (generate pmt);
      Some (Some q, 0)
  | _, packet => Some (packet, -1)
  end.

(** ** Specification: the syntax of the sections (ISO/IEC 13818-1) *)

Definition be16 (s : list Z) (i : Z) : Z := byte_at s i * 256 + byte_at s (i + 1).

(** Table id, and a section length that counts the bytes after its field. *)
Definition section_of (table : Z) (s : list Z) : bool :=
  (byte_at s 0 =? table) && (be16 s 1 mod 4096 + 3 =? len s).

Fixpoint parse_programs (l : list Z) : option (list (Z * Z)) :=
  match l with
  | [] => Some []
  | a :: b :: c :: d :: l =>
      r ← parse_programs l; Some ((a * 256 + b, (c * 256 + d) mod 8192) :: r)
  | _ => None
  end.

Record pat_table := {
  pt_transport_stream_id : Z;
  pt_version : Z;
  pt_current_next : Z;
  pt_programs : list (Z * Z)
}.

Definition parse_pat (s : list Z) : option pat_table :=
  if section_of 0 s then
    programs ← parse_programs (slice s 8 (len s - 12));
    Some {| pt_transport_stream_id := be16 s 3; pt_version := byte_at s 5 / 2 mod 32;
            pt_current_next := byte_at s 5 mod 2; pt_programs := programs |}
  else None.

Fixpoint parse_descriptors (fuel : nat) (l : list Z) : option (list (Z * list Z)) :=
  match fuel, l with
  | _, [] => Some []
  | S fuel', tag :: n :: l =>
      if n <=? len l then
        r ← parse_descriptors fuel' (drop (Z.to_nat n) l); Some ((tag, take (Z.to_nat n) l) :: r)
      else None
  | _, _ => None
  end.

(** Stream type, PID and descriptors. *)
Fixpoint parse_streams (fuel : nat) (l : list Z) : option (list (Z * Z * list (Z * list Z))) :=
  match fuel, l with
  | _, [] => Some []
  | S fuel', ty :: p1 :: p2 :: n1 :: n2 :: l =>
      let n := (n1 * 256 + n2) mod 4096 in
      if n <=? len l then
        ds ← parse_descriptors (Z.to_nat n) (take (Z.to_nat n) l);
        r ← parse_streams fuel' (drop (Z.to_nat n) l);
        Some ((ty, (p1 * 256 + p2) mod 8192, ds) :: r)
      else None
  | _, _ => None
  end.

Record pmt_table := {
  mt_program_number : Z;
  mt_version : Z;
  mt_current_next : Z;
  mt_PCR_PID : Z;
  mt_descriptors : list (Z * list Z);
  mt_streams : list (Z * Z * list (Z * list Z))
}.

Definition parse_pmt (s : list Z) : option pmt_table :=
  if section_of 2 s then
    let n := be16 s 10 mod 4096 in
    let body := slice s 12 (len s - 16) in
    if n <=? len body then
      ds ← parse_descriptors (Z.to_nat n) (take (Z.to_nat n) body);
      streams ← parse_streams (length body) (drop (Z.to_nat n) body);
      Some {| mt_program_number := be16 s 3; mt_version := byte_at s 5 / 2 mod 32;
              mt_current_next := byte_at s 5 mod 2; mt_PCR_PID := be16 s 8 mod 8192;
              mt_descriptors := ds; mt_streams := streams |}
    else None
  else None.

(** ** The packet as it is written *)

(** [a] is written, the rest of the packet is stuffing. *)
Definition canvas (a : list Z) : list Z * Z := (a ++ replicate (188 - length a) 0xff, len a).

Lemma emit_canvas vs : forall a, len a + len vs <= 188 -> emit vs (canvas a) = Some (canvas (a ++ map u8 vs)).
Proof.
  induction vs as [|v vs IH]; intros a Hl; cbn [emit map]; [by rewrite app_nil_r|].
  rewrite len_cons in Hl. pose proof (len_nonneg vs). unfold canvas at 1.
  rewrite wr_Some by (unfold len in *; rewrite length_app, length_replicate; lia).
  step. replace (set_at _ _ _, len a + 1) with (canvas (a ++ [u8 v])); [rewrite IH|].
  - by rewrite <- app_assoc.
  - rewrite len_app. change (len [u8 v]) with 1. lia.
  - unfold canvas, set_at. f_equal; [|by rewrite len_app].
    unfold len in *. rewrite Nat2Z.id, length_app. cbn [length].
    replace (188 - length a)%nat with (S (188 - (length a + 1))) by lia. cbn [replicate].
    rewrite insert_app_r_alt, Nat.sub_diag by lia. by rewrite <- app_assoc.
Qed.

Lemma emit_overflow vs : forall a, 188 < len a + len vs -> len a <= 188 -> emit vs (canvas a) = None.
Proof.
  induction vs as [|v vs IH]; intros a Hl Ha; [rewrite len_nil in Hl; lia|].
  rewrite len_cons in Hl. destruct (Z.eq_dec (len a) 188) as [E|E].
  - cbn [emit canvas]. unfold wr. rewrite (proj2 (Z.ltb_ge (len a) _)); [by rewrite andb_false_r|].
    unfold len in *. rewrite length_app, length_replicate. lia.
  - assert (H1 := emit_canvas [v] a ltac:(change (len [v]) with 1; lia)). cbn [emit map] in *.
    destruct (canvas a) as [p i]. destruct (wr p i (u8 v)) as [q|]; [|done]. step.
    cbn [mbind option_bind] in H1. assert (H1' : (q, i + 1) = canvas (a ++ [u8 v])) by congruence.
    rewrite H1'. apply IH; rewrite len_app; change (len [u8 v]) with 1; lia.
Qed.

Lemma len_canvas a : len a <= 188 -> len (fst (canvas a)) = 188.
Proof. intros H. unfold canvas, len in *. cbn [fst]. rewrite length_app, length_replicate. lia. Qed.

(** Writing in pieces, in a loop. *)
Lemma emit_app vs ws : forall st, emit (vs ++ ws) st = (st ← emit vs st; emit ws st).
Proof.
  induction vs as [|v vs IH]; intros st; [done|]. cbn [emit app]. destruct st as [p i].
  destruct (wr p i (u8 v)); [|done]. step. apply IH.
Qed.

Lemma emit_fold {A} (f : A -> list Z) (g : list Z * Z -> A -> option (list Z * Z)) l :
  (forall x st, x ∈ l -> g st x = emit (f x) st) -> forall st, foldM g l st = emit (concat (map f l)) st.
Proof.
  induction l as [|x l IH]; intros Hg st; [done|]. cbn [foldM map concat]. rewrite emit_app, Hg by by left.
  destruct (emit (f x) st); [|done]. step. apply IH. intros y t Hy. apply Hg. by right.
Qed.

Lemma u8_land_ff x : u8 (Z.land x 0xff) = u8 x.
Proof. unfold u8. rewrite (land_ones_mod _ 8) by done. change (2 ^ 8) with 256. apply Z.mod_mod. lia. Qed.

Lemma seal_canvas a : 5 < len a -> len a + 4 <= 188 -> bytes (drop 5 a) ->
  seal_section (canvas a) = Some (fst (canvas (take 5 a ++ sealed (drop 5 a)))).
Proof.
  intros Ha Hl Hb. unfold seal_section. remember (canvas a) as st eqn:Hst. destruct st as [p i].
  assert (Hi : i = len a) by (by injection Hst). subst i.
  unfold ltntstools_getCRC32. zdec. cbn [negb orb].
  assert (Hp : rds (drop 5 p) 0 (len a - 5) = Some (drop 5 a)).
  { assert (p = a ++ replicate (188 - length a) 0xff) as -> by (by injection Hst).
    unfold len in *. rewrite drop_app_le by lia. rewrite rds_Some; [|lia|lia|autorewrite with len; unfold len; rewrite length_drop, length_replicate; lia].
    change (Z.to_nat 0) with 0%nat. rewrite drop_0. f_equal. rewrite take_app_le by (rewrite length_drop; lia).
    apply take_ge. rewrite length_drop. lia. }
  rewrite Hp. step. rewrite Hst, emit_canvas by (change (len [_; _; _; _]) with 4; lia). step. do 3 f_equal.
  cbn [map]. rewrite !u8_land_ff. unfold sealed, be32_bytes. by rewrite app_assoc, take_drop.
Qed.

(** A whole packet: the bytes are written and sealed, or run past the end. *)
Lemma emit_sealed vs : 5 < len vs ->
  (st ← emit vs (canvas []); seal_section st) =
  if len vs + 4 <=? 188
  then Some (fst (canvas (take 5 (map u8 vs) ++ sealed (drop 5 (map u8 vs))))) else None.
Proof.
  intros H5. change (canvas []) with (canvas (map u8 [])). assert (Hl : len (map u8 vs) = len vs) by (unfold len; by rewrite length_map).
  destruct (Z.le_gt_cases (len vs) 188) as [H188|H188].
  - rewrite emit_canvas by (cbn [map]; rewrite len_nil; lia). step. cbn [map app]. case_if.
    + rewrite seal_canvas; [done|lia|lia|]. apply bytes_drop. apply List.Forall_forall. intros x (y & <- & _)%in_map_iff. apply u8_is_byte.
    + unfold seal_section. assert (Hov := fun ws => emit_overflow ws (map u8 vs)). destruct (canvas (map u8 vs)) as [p i].
      destruct (ltntstools_getCRC32 _ _ _) as [[r [crc|]]|]; step; [|done|done].
      rewrite Hov; [done|change (len [_; _; _; _]) with 4; lia|lia].
  - rewrite emit_overflow by (cbn [map]; rewrite len_nil; lia). by zdec.
Qed.

(** A packet of five header bytes with payload start, a section and stuffing. *)
Lemma packet_extracted ctx b1 b2 cc s crcValid :
  ctx_idle ctx -> is_byte b1 -> is_byte b2 -> Z.land b1 0x40 <> 0 ->
  se_PID ctx = (b1 * 256 + b2) mod 8192 -> section_ok (se_tableID ctx) s -> len s <= 183 -> crc_valid s = 1 ->
  let p := fst (canvas ([0x47; b1; b2; Z.lor 0x10 (Z.land cc 0x0f); 0] ++ s)) in
  exists ctx', ltntstools_sectionextractor_write ctx p 1 crcValid = Some (len s, ctx', 1, 1) /\ extracted s ctx'.
Proof.
  intros Hidle H1 H2 Hpusi Hpid Hs Hl Hcrc p.
  destruct (extract_one_packet ctx 5 s p crcValid Hidle Hs Hl) as (ctx' & Hw & Hx); [|rewrite Hw, Hcrc; by exists ctx'].
  constructor.
  - done.
  - unfold p. rewrite len_canvas; [lia|]. rewrite len_app. change (len [_; _; _; _; _]) with 5. lia.
  - rewrite Hpid. unfold p, canvas, ltntstools_pid. cbn [fst app]. byte_idx.
    rewrite lor_shiftl_add, u16_id, (land_ones_mod _ 13) by (done || (unfold is_byte in *; lia)). done.
  - unfold section_position, p, canvas, ltntstools_has_adaption, ltntstools_payload_unit_start_indicator.
    cbn [fst app]. set (t := replicate _ _). run. byte_idx. cbn [Z.eqb Pos.eqb negb].
    rewrite (proj2 (Z.eqb_neq _ _) Hpusi). cbn [Z.eqb Pos.eqb negb].
    replace (Z.land (Z.shiftr (Z.lor 16 (Z.land cc 15)) 4) 3) with 1; [cbn [Z.eqb Pos.eqb orb negb]|].
    + run. byte_idx. done.
    + rewrite Z.shiftr_lor, low_nibble. rewrite (Z.shiftr_div_pow2 (cc mod 16)) by lia.
      rewrite Z.div_small by (change (2 ^ 4) with 16; zlia). done.
  - lia.
  - unfold p, canvas. cbn [fst]. apply rds_app_mid. done.
Qed.

(** ** PAT packets *)

(** The table a receiver decodes.  The writer compares the version with 1 where
    it should shift it: the version number is lost and version 0 sets the
    current-next indicator; the program numbers are those of the PMTs. *)
Definition pat_decoded (pat : ltntstools_pat_s) : pat_table :=
  {| pt_transport_stream_id := pa_transport_stream_id pat mod 65536;
     pt_version := 0;
     pt_current_next := if pa_version_number pat mod 32 =? 0 then 1 else pa_current_next_indicator pat;
     pt_programs := map (fun g => (pm_program_number (pp_pmt g) mod 65536, pp_program_map_PID g mod 8192)) (pat_used pat) |}.

Lemma be16_bytes x : u8 (Z.shiftr x 8) * 256 + u8 x = x mod 65536.
Proof. rewrite Z.shiftr_div_pow2 by lia. change (2 ^ 8) with 256. unfold u8. zlia. Qed.

Lemma parse_pat_entries l rest :
  parse_programs (concat (map (fun g => map u8 (pat_entry g)) l) ++ rest) =
  (r ← parse_programs rest;
   Some (map (fun g => (pm_program_number (pp_pmt g) mod 65536, pp_program_map_PID g mod 8192)) l ++ r)).
Proof.
  induction l as [|g l IH]; cbn [map concat app]; [by destruct (parse_programs rest)|].
  rewrite <- app_assoc. remember (concat _ ++ rest) as t eqn:Ht. cbn [pat_entry map app parse_programs].
  rewrite IH. destruct (parse_programs rest); [|done]. step.
  f_equal. f_equal. rewrite u8_land_ff, be16_bytes. f_equal.
  rewrite (land_ones_mod _ 5), (lor_high_low 0xE0 _ 5) by (done || lia || apply Z.mod_pos_bound; lia).
  rewrite Z.shiftr_div_pow2 by lia. change (2 ^ 8) with 256. change (2 ^ 5) with 32. unfold u8. zlia.
Qed.

Lemma flags_byte version cni : cni = 0 \/ cni = 1 ->
  let b := u8 (Z.lor (Z.lor 0xC0 (Z.b2z (Z.land version 0x1f <? 1))) cni) in
  b / 2 mod 32 = 0 /\ b mod 2 = (if version mod 32 =? 0 then 1 else cni).
Proof.
  intros Hc. rewrite (land_ones_mod _ 5) by done. change (2 ^ 5) with 32.
  destruct (Z.eqb_spec (version mod 32) 0) as [->|E]; [by destruct Hc as [->| ->]|].
  assert (H := Z.mod_pos_bound version 32 ltac:(lia)). rewrite (proj2 (Z.ltb_ge _ 1)) by lia. by destruct Hc as [->| ->].
Qed.

Lemma len_concat_map {A} (f : A -> list Z) n l : (forall x, len (f x) = n) -> len (concat (map f l)) = n * len l.
Proof.
  intros Hf. induction l as [|x l IH]; cbn [map concat]; [by rewrite !len_nil, Z.mul_0_r|].
  rewrite len_app, Hf, IH, len_cons. lia.
Qed.

Lemma len_map_u8 l : len (map u8 l) = len l.
Proof. unfold len. by rewrite length_map. Qed.

Lemma bytes_map_u8 l : bytes (map u8 l).
Proof. induction l as [|x l IH]; constructor; [apply u8_is_byte|done]. Qed.

Lemma bytes_concat (l : list (list Z)) : Forall bytes l -> bytes (concat l).
Proof. induction 1; cbn [concat]; [constructor|]. by apply bytes_app. Qed.

(** The section bytes before the CRC. *)
Definition pat_body (pat : ltntstools_pat_s) : list Z :=
  drop 5 (map u8 (pat_head pat 0)) ++ concat (map (fun g => map u8 (pat_entry g)) (pat_used pat)).

Lemma len_pat_body pat : pat_ok pat -> len (pat_body pat) = 8 + 4 * pa_program_count pat.
Proof.
  intros [Hc Hl _]. unfold pat_body. rewrite len_app, (len_concat_map _ 4) by done.
  change (len (drop 5 _)) with 8. unfold pat_used. rewrite len_take by lia. done.
Qed.

Lemma pat_body_bytes pat : bytes (pat_body pat).
Proof.
  unfold pat_body. apply bytes_app. split; [apply bytes_drop, bytes_map_u8|].
  apply bytes_concat, List.Forall_forall. intros x (g & <- & _)%in_map_iff. apply bytes_map_u8.
Qed.

Lemma bytes_sealed b : bytes b -> bytes (sealed b).
Proof. intros H. apply bytes_app. split; [done|apply be32_bytes_ok]. Qed.

Lemma len_sealed b : len (sealed b) = len b + 4.
Proof. unfold sealed. by rewrite len_app. Qed.

Lemma byte_at_sealed b i : 0 <= i < len b -> byte_at (sealed b) i = byte_at b i.
Proof. intros Hi. unfold sealed. rewrite byte_at_app by lia. by zdec. Qed.

Lemma u8_cc cc : u8 (Z.lor 0x10 (Z.land cc 0x0f)) = Z.lor 0x10 (Z.land cc 0x0f).
Proof. rewrite low_nibble, (lor_high_low 16 _ 4) by (done || zlia). apply u8_id. zlia. Qed.

(** The packet is the header and the sealed section. *)
Lemma pat_create_form pat cc packet : pat_ok pat -> len packet = 188 ->
  ltntstools_pat_create_packet_ts (Some pat) cc (Some packet) 188 =
  if pa_program_count pat <=? 42
  then Some (Some (fst (canvas ([0x47; 0x40; 0; Z.lor 0x10 (Z.land cc 0x0f); 0] ++ sealed (pat_body pat)))), 0)
  else None.
Proof.
  intros Hok Hp. assert (Hb := len_pat_body pat Hok). assert (Hok' := Hok). destruct Hok' as [Hc Hl _].
  unfold ltntstools_pat_create_packet_ts. cbn [Z.eqb Pos.eqb negb].
  rewrite memset_prefix, drop_ge, app_nil_r by (unfold len in Hp |- *; lia). step.
  change (replicate (Z.to_nat 188) 255, 0) with (canvas []).
  set (vs := pat_head pat cc ++ concat (map pat_entry (pat_used pat))).
  assert (Hvs : map u8 vs = [0x47; 0x40; 0; Z.lor 0x10 (Z.land cc 0x0f); 0] ++ pat_body pat).
  { unfold vs, pat_body. rewrite map_app, concat_map, map_map, app_assoc. f_equal.
    cbn [map pat_head app drop]. by rewrite u8_cc. }
  assert (Hlen : len vs = 13 + 4 * pa_program_count pat).
  { rewrite <- (len_map_u8 vs), Hvs, len_app, Hb. change (len [_; _; _; _; _]) with 5. lia. }
  assert (Hfold : forall st, fold_in (fun st g => emit (pat_entry g) st) (pa_programs pat) (pa_program_count pat) st
                             = emit (concat (map pat_entry (pat_used pat))) st).
  { intros st. rewrite fold_in_spec by lia. by apply emit_fold. }
  transitivity (p ← (st ← emit vs (canvas []); seal_section st); Some (Some p, 0)).
  { unfold vs. rewrite emit_app. destruct (emit (pat_head pat cc) (canvas [])) as [st|]; [|done]. step.
    rewrite Hfold. by destruct (emit _ st). }
  rewrite emit_sealed, Hvs, Hlen by lia.
  replace (13 + 4 * pa_program_count pat + 4 <=? 188) with (pa_program_count pat <=? 42) by lia.
  by case_if.
Qed.

Lemma pat_section_ok pat : pat_ok pat -> pa_program_count pat <= 42 -> section_ok 0 (sealed (pat_body pat)).
Proof.
  intros Hok Hn. assert (Hl := len_pat_body pat Hok). destruct Hok as [Hc _ _].
  constructor; rewrite ?len_sealed, ?byte_at_sealed by lia; [apply bytes_sealed, pat_body_bytes|lia|done|].
  change (byte_at (pat_body pat) 1) with 0xB0. change (byte_at (pat_body pat) 2) with (u8 (9 + pa_program_count pat * 4)).
  rewrite u8_id by lia. zlia.
Qed.

Lemma parse_pat_section pat : pat_ok pat -> pa_program_count pat <= 42 ->
  pa_current_next_indicator pat = 0 \/ pa_current_next_indicator pat = 1 ->
  parse_pat (sealed (pat_body pat)) = Some (pat_decoded pat).
Proof.
  intros Hok Hn Hcni. assert (Hl := len_pat_body pat Hok). assert (Hok' := Hok). destruct Hok' as [Hc _ _].
  destruct (pat_section_ok pat Hok Hn) as [_ _ Ht Hlen]. unfold parse_pat, section_of, be16. change (1 + 1) with 2.
  rewrite Ht, Hlen, !Z.eqb_refl. cbn [andb].
  assert (Hs : slice (sealed (pat_body pat)) 8 (len (sealed (pat_body pat)) - 12)
               = concat (map (fun g => map u8 (pat_entry g)) (pat_used pat)) ++ []).
  { rewrite len_sealed, Hl. unfold sealed, slice, pat_body in *. rewrite app_nil_r, <- app_assoc.
    change (Z.to_nat 8) with 8%nat. rewrite drop_app_ge by done. change (drop _ ([_; _; _; _; _] ++ _)) with (@nil Z).
    rewrite len_app in Hl. change (len (drop 5 _)) with 8 in Hl. change (8 - length _)%nat with 0%nat. rewrite drop_0.
    rewrite take_app_le by (unfold len in Hl; lia). apply take_ge. unfold len in Hl. lia. }
  rewrite Hs, parse_pat_entries. cbn [parse_programs]. step. rewrite app_nil_r, !byte_at_sealed by lia.
  destruct (flags_byte (pa_version_number pat) (pa_current_next_indicator pat) Hcni) as [F1 F2].
  change (byte_at (pat_body pat) 3) with (u8 (Z.shiftr (pa_transport_stream_id pat) 8)).
  change (byte_at (pat_body pat) (3 + 1)) with (u8 (pa_transport_stream_id pat)).
  change (byte_at (pat_body pat) 5) with
    (u8 (Z.lor (Z.lor 0xC0 (Z.b2z (Z.land (pa_version_number pat) 0x1f <? 1))) (pa_current_next_indicator pat))).
  rewrite be16_bytes, F1, F2. done.
Qed.

(** the packet of a well-formed PAT of up to 42 programs carries one section
    with a valid CRC: the section extractor for PID 0 and table 0 returns it
    from the packet, and a decoder reads the transport stream id, the programs
    in order (with the program numbers of their PMTs) and version 0; the packet
    of a larger PAT is written past its end. *)
Theorem pat_packet_carries_table (pat : ltntstools_pat_s) (cc crcValid : Z) (packet : list Z)
    (ctx : sectionextractor_ctx) :
  pat_ok pat -> pa_current_next_indicator pat = 0 \/ pa_current_next_indicator pat = 1 ->
  len packet = 188 -> ctx_idle ctx -> se_PID ctx = 0 -> se_tableID ctx = 0 ->
  (pa_program_count pat <= 42 -> exists p s ctx',
     ltntstools_pat_create_packet_ts (Some pat) cc (Some packet) 188 = Some (Some p, 0) /\ len p = 188 /\
     ltntstools_sectionextractor_write ctx p 1 crcValid = Some (len s, ctx', 1, 1) /\ extracted s ctx' /\
     parse_pat s = Some (pat_decoded pat)) /\
  (42 < pa_program_count pat -> ltntstools_pat_create_packet_ts (Some pat) cc (Some packet) 188 = None).
Proof.
  intros Hok Hcni Hp Hidle Hpid Htab. rewrite pat_create_form by done.
  split; intros Hn; zdec; [|done]. assert (Hl := len_pat_body pat Hok).
  destruct (packet_extracted ctx 0x40 0 cc (sealed (pat_body pat)) crcValid) as (ctx' & Hw & Hx);
    [done|done|done|done|by rewrite Hpid|rewrite Htab; by apply pat_section_ok|rewrite len_sealed; lia
    |apply crc_valid_sealed, pat_body_bytes|].
  eexists _, _, ctx'. split; [reflexivity|]. split; [|split; [exact Hw|split; [exact Hx|by apply parse_pat_section]]].
  apply len_canvas. rewrite len_app, len_sealed. change (len [_; _; _; _; _]) with 5. lia.
Qed.

(** ** PMT packets *)

(** The bytes of the descriptors and of a stream. *)
Definition dl_bytes (l : ltntstools_descriptor_list_s) : list Z := concat (map descriptor_bytes (dl_entries l)).
Definition stream_bytes (s : ltntstools_pmt_entry_s) : list Z :=
  stream_head s (len (dl_bytes (es_descr_list s))) ++ dl_bytes (es_descr_list s).
Definition streams_bytes (pmt : ltntstools_pmt_s) : list Z := concat (map stream_bytes (pmt_used pmt)).

(** The section without its CRC. *)
Definition pmt_size (pmt : ltntstools_pmt_s) : Z :=
  12 + len (dl_bytes (pm_descr_list pmt)) + len (streams_bytes pmt).

Definition pmt_decoded (pmt : ltntstools_pmt_s) : pmt_table :=
  {| mt_program_number := pm_program_number pmt mod 65536;
     mt_version := 0;
     mt_current_next := if pm_version_number pmt mod 32 =? 0 then 1 else pm_current_next_indicator pmt;
     mt_PCR_PID := pm_PCR_PID pmt mod 8192;
     mt_descriptors := dl_view (pm_descr_list pmt);
     mt_streams := map (fun s => (u8 (es_stream_type s), es_elementary_PID s mod 8192, dl_view (es_descr_list s)))
                     (pmt_used pmt) |}.

Lemma len_descriptor_bytes d : descriptor_ok d -> len (descriptor_bytes d) = d_len d + 2.
Proof.
  intros [_ Hl Hd _]. unfold descriptor_bytes, is_byte in *. rewrite len_app, len_take by lia. change (len [_; _]) with 2. lia.
Qed.

Lemma descriptor_bytes_bytes d : descriptor_ok d -> bytes (descriptor_bytes d).
Proof.
  intros [Ht Hl _ Hb]. apply bytes_app. split; [|by apply bytes_take]. by do 2 (constructor; [done|]).
Qed.

Lemma dl_bytes_bytes l : descriptor_list_ok l -> bytes (dl_bytes l).
Proof.
  intros H%dl_entries_ok. apply bytes_concat. induction H; cbn [map]; constructor; [by apply descriptor_bytes_bytes|done].
Qed.

Lemma map_u8_bytes l : bytes l -> map u8 l = l.
Proof. induction 1 as [|x l Hx _ IH]; [done|]. cbn [map]. by rewrite u8_id, IH. Qed.

(** A sum over a list is the length of the concatenation. *)
Lemma foldM_sum {A} (f : A -> list Z) (g : Z -> A -> option Z) l :
  Forall (fun x => forall n, g n x = Some (n + len (f x))) l ->
  forall n, foldM g l n = Some (n + len (concat (map f l))).
Proof.
  induction 1 as [|x l Hx _ IH]; intros n; cbn [foldM map concat]; [by rewrite len_nil, Z.add_0_r|].
  rewrite Hx. step. rewrite IH, len_app. f_equal. lia.
Qed.

Lemma descriptors_length_spec l : descriptor_list_ok l -> descriptors_length l = Some (len (dl_bytes l)).
Proof.
  intros Hl. assert (He := dl_entries_ok l Hl). destruct Hl as [Hc Ha _]. unfold descriptors_length.
  rewrite fold_in_spec by lia. fold (dl_entries l). rewrite (foldM_sum descriptor_bytes); [by rewrite Z.add_0_l|].
  eapply List.Forall_impl; [|exact He]. intros d Hd n. by rewrite len_descriptor_bytes.
Qed.

Lemma len_stream_bytes s : len (stream_bytes s) = 5 + len (dl_bytes (es_descr_list s)).
Proof. unfold stream_bytes. by rewrite len_app. Qed.

Lemma streams_length_spec pmt : pmt_ok pmt ->
  exists n, streams_length pmt = Some n /\ pm_stream_count pmt * 5 + n = len (streams_bytes pmt).
Proof.
  intros Hm. assert (Hu := pmt_used_ok pmt Hm). destruct Hm as [Hc Hl _ _]. unfold streams_length.
  rewrite fold_in_spec by lia. fold (pmt_used pmt).
  rewrite (foldM_sum (fun s => dl_bytes (es_descr_list s))).
  - eexists. split; [reflexivity|]. unfold streams_bytes.
    assert (Hn : len (pmt_used pmt) = pm_stream_count pmt) by (unfold pmt_used; rewrite len_take by lia; done).
    rewrite <- Hn. clear. induction (pmt_used pmt) as [|s l IH]; [done|]. cbn [map concat].
    rewrite len_cons, !len_app, len_stream_bytes. lia.
  - eapply List.Forall_impl; [|exact Hu]. intros s Hs n. by rewrite descriptors_length_spec.
Qed.

Lemma emit_descriptors_spec l st : descriptor_list_ok l -> emit_descriptors l st = emit (dl_bytes l) st.
Proof.
  intros [Hc Ha _]. unfold emit_descriptors. rewrite fold_in_spec by lia. by apply emit_fold.
Qed.

Lemma emit_stream_spec s st : pmt_entry_ok s -> emit_stream s st = emit (stream_bytes s) st.
Proof.
  intros Hs. unfold emit_stream, stream_bytes. rewrite descriptors_length_spec by done. step. rewrite emit_app.
  destruct (emit _ st); [|done]. step. by apply emit_descriptors_spec.
Qed.

(** All the bytes that are written before the CRC. *)
Definition pmt_bytes (pmt : ltntstools_pmt_s) (pid cc : Z) : list Z :=
  pmt_head pmt pid cc (len (dl_bytes (pm_descr_list pmt)))
    (len (streams_bytes pmt) - pm_stream_count pmt * 5) ++ dl_bytes (pm_descr_list pmt) ++ streams_bytes pmt.

Definition pmt_body (pmt : ltntstools_pmt_s) : list Z := drop 5 (map u8 (pmt_bytes pmt 0 0)).

Lemma len_pmt_bytes pmt pid cc : len (pmt_bytes pmt pid cc) = pmt_size pmt + 5.
Proof. unfold pmt_bytes, pmt_size. rewrite !len_app. change (len (pmt_head _ _ _ _ _)) with 17. lia. Qed.

Lemma len_pmt_body pmt : len (pmt_body pmt) = pmt_size pmt.
Proof.
  assert (H := len_pmt_bytes pmt 0 0). unfold pmt_body, len in *. rewrite length_drop, length_map.
  unfold pmt_size in *. pose proof (len_nonneg (dl_bytes (pm_descr_list pmt))). pose proof (len_nonneg (streams_bytes pmt)). lia.
Qed.

Lemma pmt_body_bytes pmt : bytes (pmt_body pmt).
Proof. apply bytes_drop, bytes_map_u8. Qed.

Definition pid_high (pid : Z) : Z := Z.lor 0x40 (Z.shiftr (Z.land pid 0x1fff) 8).

Lemma pid_high_spec pid : is_byte (pid_high pid) /\ Z.land (pid_high pid) 0x40 = 0x40 /\
  (pid_high pid * 256 + Z.land pid 0xff) mod 8192 = pid mod 8192.
Proof.
  unfold pid_high. rewrite !(land_ones_mod _ 13 0x1fff), (land_ones_mod _ 8 0xff) by done.
  rewrite Z.shiftr_div_pow2 by lia. change (2 ^ 13) with 8192. change (2 ^ 8) with 256.
  rewrite (lor_high_low 0x40 _ 6) by (done || zlia). rewrite (land_bit _ 6) by lia. change (2 ^ 6) with 64.
  split; [unfold is_byte; zlia|]. split; zlia.
Qed.

Lemma pmt_create_form pmt pid cc packet : pmt_ok pmt -> len packet = 188 ->
  ltntstools_pmt_create_packet_ts (Some pmt) pid cc (Some packet) 188 =
  if pmt_size pmt <=? 179
  then Some (Some (fst (canvas ([0x47; pid_high pid; Z.land pid 0xff; Z.lor 0x10 (Z.land cc 0x0f); 0]
                                ++ sealed (pmt_body pmt)))), 0)
  else None.
Proof.
  intros Hok Hp. assert (Hu := pmt_used_ok pmt Hok). assert (Hok' := Hok). destruct Hok' as [Hc Hl _ Hd].
  unfold ltntstools_pmt_create_packet_ts. cbn [Z.eqb Pos.eqb negb].
  rewrite memset_prefix, drop_ge, app_nil_r by (unfold len in Hp |- *; lia). step.
  change (replicate (Z.to_nat 188) 255, 0) with (canvas []).
  rewrite descriptors_length_spec by done. step. destruct (streams_length_spec pmt Hok) as (n & -> & Hn). step.
  assert (Hfold : forall st, fold_in (fun st s => emit_stream s st) (pm_streams pmt) (pm_stream_count pmt) st
                             = emit (streams_bytes pmt) st).
  { intros st. rewrite fold_in_spec by lia. apply emit_fold. intros s st' Hs. apply emit_stream_spec.
    apply (proj1 (List.Forall_forall _ _) Hu), list_elem_of_In, Hs. }
  transitivity (p ← (st ← emit (pmt_bytes pmt pid cc) (canvas []); seal_section st); Some (Some p, 0)).
  { unfold pmt_bytes. rewrite emit_app. replace (len (streams_bytes pmt) - pm_stream_count pmt * 5) with n by lia.
    destruct (emit (pmt_head _ _ _ _ _) (canvas [])) as [st|]; [|done]. step.
    rewrite emit_app, emit_descriptors_spec by done. destruct (emit (dl_bytes _) st) as [st'|]; [|done]. step.
    rewrite Hfold. by destruct (emit _ st'). }
  assert (Hs : 12 <= pmt_size pmt).
  { unfold pmt_size. pose proof (len_nonneg (dl_bytes (pm_descr_list pmt))). pose proof (len_nonneg (streams_bytes pmt)). lia. }
  rewrite emit_sealed, len_pmt_bytes by (rewrite len_pmt_bytes; lia).
  replace (pmt_size pmt + 5 + 4 <=? 188) with (pmt_size pmt <=? 179) by lia. case_if; [|done]. step.
  change (take 5 (map u8 (pmt_bytes pmt pid cc))) with
    [0x47; u8 (pid_high pid); u8 (Z.land pid 0xff); u8 (Z.lor 0x10 (Z.land cc 0x0f)); 0].
  rewrite u8_cc, u8_land_ff, (u8_id (pid_high pid)) by apply pid_high_spec.
  rewrite (land_ones_mod pid 8 0xff) by done. done.
Qed.

(** *** Decoding *)

Lemma parse_descriptors_spec ds : Forall descriptor_ok ds -> forall fuel, (length ds <= fuel)%nat ->
  parse_descriptors fuel (concat (map descriptor_bytes ds)) = Some (map descriptor_view ds).
Proof.
  induction 1 as [|d ds Hd Hds IH]; intros fuel Hf; [by destruct fuel|].
  destruct fuel as [|fuel]; cbn [length] in Hf; [lia|]. destruct Hd as [_ Hl Hdl _]. unfold is_byte in Hl.
  cbn [map concat]. unfold descriptor_bytes at 1. rewrite <- app_assoc. cbn [app parse_descriptors].
  set (data := take (Z.to_nat (d_len d)) (d_data d)).
  assert (Hdata : len data = d_len d) by (unfold data; rewrite len_take by lia; done).
  rewrite len_app, Hdata. pose proof (len_nonneg (concat (map descriptor_bytes ds))). zdec.
  rewrite <- Hdata, drop_len_app, take_len_app, IH by lia. done.
Qed.

Lemma entries_fit l : descriptor_list_ok l -> (length (dl_entries l) <= Z.to_nat (len (dl_bytes l)))%nat.
Proof.
  intros He%dl_entries_ok. unfold dl_bytes. induction He as [|d ds Hd _ IH]; [cbn; lia|]. cbn [map concat length].
  rewrite len_app, len_descriptor_bytes by done. destruct Hd as [_ Hl _ _]. unfold is_byte in Hl.
  pose proof (len_nonneg (concat (map descriptor_bytes ds))). lia.
Qed.

Lemma parse_dl_bytes l : descriptor_list_ok l ->
  parse_descriptors (Z.to_nat (len (dl_bytes l))) (dl_bytes l) = Some (dl_view l).
Proof. intros Hl. apply parse_descriptors_spec; [by apply dl_entries_ok|by apply entries_fit]. Qed.

(** A 12-bit length and a 13-bit PID below their reserved bits. *)
Lemma length12_read n : 0 <= n < 4096 ->
  (u8 (Z.lor 0xf0 (Z.shiftr (Z.land n 0xfff) 8)) * 256 + u8 n) mod 4096 = n.
Proof.
  intros Hn. rewrite (land_ones_mod n 12 0xfff), Z.shiftr_div_pow2 by done. change (2 ^ 12) with 4096. change (2 ^ 8) with 256.
  rewrite (lor_high_low 0xf0 _ 4) by (done || zlia). zlia.
Qed.

Lemma pid13_read pid :
  (u8 (Z.lor 0xe0 (Z.shiftr (Z.land pid 0x1fff) 8)) * 256 + u8 pid) mod 8192 = pid mod 8192.
Proof.
  rewrite (land_ones_mod pid 13 0x1fff), Z.shiftr_div_pow2 by done. change (2 ^ 13) with 8192. change (2 ^ 8) with 256.
  rewrite (lor_high_low 0xe0 _ 5) by (done || zlia). zlia.
Qed.

Lemma parse_streams_spec ss : Forall pmt_entry_ok ss -> Forall (fun s => len (dl_bytes (es_descr_list s)) < 4096) ss ->
  forall fuel, (length ss <= fuel)%nat ->
  parse_streams fuel (map u8 (concat (map stream_bytes ss))) =
  Some (map (fun s => (u8 (es_stream_type s), es_elementary_PID s mod 8192, dl_view (es_descr_list s))) ss).
Proof.
  induction 1 as [|s ss Hs Hss IH]; intros Hlen fuel Hf; [by destruct fuel|].
  destruct fuel as [|fuel]; cbn [length] in Hf; [lia|]. inversion Hlen as [|? ? Hn Hlen']; subst.
  cbn [map concat]. unfold stream_bytes at 1. set (ds := dl_bytes (es_descr_list s)) in *.
  assert (Hds : map u8 ds = ds) by by apply map_u8_bytes, dl_bytes_bytes.
  rewrite <- app_assoc, !map_app, Hds. cbn [stream_head map app parse_streams].
  pose proof (len_nonneg ds). rewrite length12_read, len_app by lia.
  pose proof (len_nonneg (map u8 (concat (map stream_bytes ss)))). zdec.
  rewrite drop_len_app, take_len_app, IH by (done || lia). unfold ds. rewrite parse_dl_bytes by done. step.
  by rewrite pid13_read.
Qed.

Lemma streams_short pmt : Forall (fun s => len (dl_bytes (es_descr_list s)) <= len (streams_bytes pmt)) (pmt_used pmt).
Proof.
  unfold streams_bytes. induction (pmt_used pmt) as [|s l IH]; constructor; cbn [map concat]; rewrite len_app, len_stream_bytes.
  - pose proof (len_nonneg (concat (map stream_bytes l))). lia.
  - eapply List.Forall_impl; [|exact IH]. intros t Ht. cbn beta in *. pose proof (len_nonneg (dl_bytes (es_descr_list s))). lia.
Qed.

Lemma pmt_section_ok pmt : pmt_ok pmt -> pmt_size pmt <= 179 -> section_ok 2 (sealed (pmt_body pmt)).
Proof.
  intros Hok Hn. assert (Hl := len_pmt_body pmt).
  assert (Hs : 12 <= pmt_size pmt).
  { unfold pmt_size. pose proof (len_nonneg (dl_bytes (pm_descr_list pmt))). pose proof (len_nonneg (streams_bytes pmt)). lia. }
  constructor; rewrite ?len_sealed, ?byte_at_sealed by lia; [apply bytes_sealed, pmt_body_bytes|lia|done|].
  change (byte_at (pmt_body pmt) 1) with 0xB0.
  change (byte_at (pmt_body pmt) 2) with (u8 (9 + 4 + pm_stream_count pmt * 5 + len (dl_bytes (pm_descr_list pmt))
    + (len (streams_bytes pmt) - pm_stream_count pmt * 5))).
  unfold pmt_size in *. rewrite u8_id by lia. zlia.
Qed.

Lemma parse_pmt_section pmt : pmt_ok pmt -> pmt_size pmt <= 179 ->
  pm_current_next_indicator pmt = 0 \/ pm_current_next_indicator pmt = 1 ->
  parse_pmt (sealed (pmt_body pmt)) = Some (pmt_decoded pmt).
Proof.
  intros Hok Hn Hcni. assert (Hl := len_pmt_body pmt). assert (Hu := pmt_used_ok pmt Hok).
  destruct (pmt_section_ok pmt Hok Hn) as [_ _ Ht Hlen]. destruct Hok as [_ _ _ Hd].
  set (ds := dl_bytes (pm_descr_list pmt)) in *.
  assert (Hsz : pmt_size pmt = 12 + len ds + len (streams_bytes pmt)) by done.
  pose proof (len_nonneg ds). pose proof (len_nonneg (streams_bytes pmt)).
  assert (Hds : map u8 ds = ds) by by apply map_u8_bytes, dl_bytes_bytes.
  unfold parse_pmt, section_of, be16. change (1 + 1) with 2. change (10 + 1) with 11. change (3 + 1) with 4. change (8 + 1) with 9.
  rewrite Ht, Hlen, !Z.eqb_refl. cbn [andb]. rewrite !byte_at_sealed by lia.
  change (byte_at (pmt_body pmt) 10) with (u8 (Z.lor 0xf0 (Z.shiftr (Z.land (len ds) 0xfff) 8))).
  change (byte_at (pmt_body pmt) 11) with (u8 (len ds)). rewrite length12_read by lia.
  assert (Hs : slice (sealed (pmt_body pmt)) 12 (len (sealed (pmt_body pmt)) - 16) = ds ++ map u8 (streams_bytes pmt)).
  { rewrite len_sealed, Hl. unfold slice, sealed. assert (Hb : pmt_body pmt = drop 5 (map u8 (pmt_head pmt 0 0 (len ds)
      (len (streams_bytes pmt) - pm_stream_count pmt * 5))) ++ ds ++ map u8 (streams_bytes pmt)).
    { unfold pmt_body, pmt_bytes. fold ds. by rewrite !map_app, Hds. }
    rewrite Hb, <- app_assoc. change (Z.to_nat 12) with 12%nat. rewrite drop_app_ge by done.
    change (12 - length _)%nat with 0%nat. rewrite drop_0.
    rewrite take_app_le by (rewrite length_app, length_map; unfold len in *; lia).
    apply take_ge. rewrite length_app, length_map. unfold len in *. lia. }
  rewrite Hs, len_app. pose proof (len_nonneg (map u8 (streams_bytes pmt))). zdec.
  rewrite take_len_app, drop_len_app. unfold ds at 1 2. rewrite parse_dl_bytes by done. step.
  unfold streams_bytes at 2. rewrite parse_streams_spec; [|done| |].
  - step. f_equal. destruct (flags_byte (pm_version_number pmt) (pm_current_next_indicator pmt) Hcni) as [F1 F2].
    change (byte_at (pmt_body pmt) 5) with
      (u8 (Z.lor (Z.lor 0xC0 (Z.b2z (Z.land (pm_version_number pmt) 0x1f <? 1))) (pm_current_next_indicator pmt))).
    change (byte_at (pmt_body pmt) 3) with (u8 (Z.shiftr (pm_program_number pmt) 8)).
    change (byte_at (pmt_body pmt) 4) with (u8 (pm_program_number pmt)).
    change (byte_at (pmt_body pmt) 8) with (u8 (Z.lor 0xe0 (Z.shiftr (Z.land (pm_PCR_PID pmt) 0x1fff) 8))).
    change (byte_at (pmt_body pmt) 9) with (u8 (pm_PCR_PID pmt)).
    by rewrite be16_bytes, pid13_read, F1, F2.
  - eapply List.Forall_impl; [|apply streams_short]. intros s Hsl. cbn beta in *. lia.
  - rewrite length_app, length_map. unfold streams_bytes. clear. induction (pmt_used pmt) as [|s l IH]; cbn [map concat length]; [lia|].
    rewrite length_app. assert (H := len_stream_bytes s). pose proof (len_nonneg (dl_bytes (es_descr_list s))). unfold len in H. lia.
Qed.

(** C8: the packet of a well-formed PMT that fits carries one section with a
    valid CRC on the PID asked for: the section extractor returns it, and a
    decoder reads the program number, the PCR PID, every descriptor and every
    stream with its type, PID and descriptors, and version 0; the packet of a
    PMT that does not fit is written past its end. *)
Theorem pmt_packet_carries_table (pmt : ltntstools_pmt_s) (pid cc crcValid : Z) (packet : list Z)
    (ctx : sectionextractor_ctx) :
  pmt_ok pmt -> pm_current_next_indicator pmt = 0 \/ pm_current_next_indicator pmt = 1 ->
  len packet = 188 -> ctx_idle ctx -> se_PID ctx = pid mod 8192 -> se_tableID ctx = 2 ->
  (pmt_size pmt <= 179 -> exists p s ctx',
     ltntstools_pmt_create_packet_ts (Some pmt) pid cc (Some packet) 188 = Some (Some p, 0) /\ len p = 188 /\
     ltntstools_sectionextractor_write ctx p 1 crcValid = Some (len s, ctx', 1, 1) /\ extracted s ctx' /\
     parse_pmt s = Some (pmt_decoded pmt)) /\
  (179 < pmt_size pmt -> ltntstools_pmt_create_packet_ts (Some pmt) pid cc (Some packet) 188 = None).
Proof.
  intros Hok Hcni Hp Hidle Hpid Htab. rewrite pmt_create_form by done.
  split; intros Hn; zdec; [|done]. assert (Hl := len_pmt_body pmt). destruct (pid_high_spec pid) as (P1 & P2 & P3).
  destruct (packet_extracted ctx (pid_high pid) (Z.land pid 0xff) cc (sealed (pmt_body pmt)) crcValid) as (ctx' & Hw & Hx);
    [done|done| |by rewrite P2|by rewrite Hpid, P3|rewrite Htab; by apply pmt_section_ok|rewrite len_sealed; lia
    |apply crc_valid_sealed, pmt_body_bytes|].
  { rewrite (land_ones_mod _ 8) by done. apply Z.mod_pos_bound. lia. }
  eexists _, _, ctx'. split; [reflexivity|]. split; [|split; [exact Hw|split; [exact Hx|by apply parse_pmt_section]]].
  apply len_canvas. rewrite len_app, len_sealed. change (len [_; _; _; _; _]) with 5. lia.
Qed.

(** *** Concrete packets *)

Definition psi_extractor (pid table : Z) : sectionextractor_ctx :=
  ltntstools_sectionextractor_alloc pid table (replicate (Z.to_nat 4096) 0).
Lemma psi_extractor_idle pid table : ctx_idle (psi_extractor pid table).
Proof. split; [done|]. split; [done|]. unfold psi_extractor. cbn [ltntstools_sectionextractor_alloc se_section]. by rewrite len_replicate. Qed.

(** One program with a PMT of one stream and one descriptor. *)
Definition packet_descriptors : ltntstools_descriptor_list_s :=
  {| dl_count := 1;
     dl_array := {| d_tag := 0x05; d_len := 4; d_data := bytes_of_string "CUEI" ++ replicate 252 0 |} ::
                 replicate 15 descriptor_zero |}.
Definition packet_pmt : ltntstools_pmt_s :=
  {| pm_version_number := 0; pm_program_number := 1; pm_current_next_indicator := 1; pm_PCR_PID := 0x31;
     pm_stream_count := 1;
     pm_streams := {| es_stream_type := 0x1b; es_elementary_PID := 0x31; es_descr_list := packet_descriptors |} ::
                   replicate 15 pmt_entry_zero;
     pm_descr_list := packet_descriptors |}.
Definition packet_pat : ltntstools_pat_s :=
  {| pa_transport_stream_id := 0x1234; pa_version_number := 7; pa_current_next_indicator := 1;
     pa_descr_list := descriptor_list_zero; pa_program_count := 1;
     pa_programs := {| pp_program_number := 1; pp_program_map_PID := 0x100; pp_pmt := packet_pmt; pp_service_id := 0;
                       pp_service_type := 0; pp_service_name := replicate 32 0; pp_service_provider := replicate 32 0 |} ::
                    replicate 63 program_zero |}.

Lemma packet_descriptors_ok : descriptor_list_ok packet_descriptors.
Proof.
  constructor; [by vm_compute..|]. constructor; [|apply Forall_replicate, descriptor_zero_ok].
  constructor; [by vm_compute..|by apply bytes_check].
Qed.

Lemma packet_pmt_ok : pmt_ok packet_pmt.
Proof.
  constructor; [by vm_compute..| |apply packet_descriptors_ok].
  constructor; [apply packet_descriptors_ok|apply Forall_replicate, descriptor_list_zero_ok].
Qed.

Lemma packet_pat_ok : pat_ok packet_pat.
Proof. constructor; [by vm_compute..|]. constructor; [apply packet_pmt_ok|apply Forall_replicate, pmt_zero_ok]. Qed.

Lemma pat_packet_carries_table_witness : exists p s ctx',
  ltntstools_pat_create_packet_ts (Some packet_pat) 3 (Some (replicate 188 0)) 188 = Some (Some p, 0) /\ len p = 188 /\
  ltntstools_sectionextractor_write (psi_extractor 0 0) p 1 0 = Some (len s, ctx', 1, 1) /\ extracted s ctx' /\
  parse_pat s = Some {| pt_transport_stream_id := 0x1234; pt_version := 0; pt_current_next := 1; pt_programs := [(1, 0x100)] |}.
Proof.
  apply (pat_packet_carries_table packet_pat 3 0 (replicate 188 0) (psi_extractor 0 0));
    [apply packet_pat_ok|by right|done|apply psi_extractor_idle|done|done|by vm_compute].
Defined.

Lemma pmt_packet_carries_table_witness : exists p s ctx',
  ltntstools_pmt_create_packet_ts (Some packet_pmt) 0x100 3 (Some (replicate 188 0)) 188 = Some (Some p, 0) /\ len p = 188 /\
  ltntstools_sectionextractor_write (psi_extractor 0x100 2) p 1 0 = Some (len s, ctx', 1, 1) /\ extracted s ctx' /\
  parse_pmt s = Some {| mt_program_number := 1; mt_version := 0; mt_current_next := 1; mt_PCR_PID := 0x31;
                        mt_descriptors := [(0x05, bytes_of_string "CUEI")];
                        mt_streams := [(0x1b, 0x31, [(0x05, bytes_of_string "CUEI")])] |}.
Proof.
  apply (pmt_packet_carries_table packet_pmt 0x100 3 0 (replicate 188 0) (psi_extractor 0x100 2));
    [apply packet_pmt_ok|by right|done|apply psi_extractor_idle|done|done|by vm_compute].
Defined.

(** [writePSI]: the packet of a short section has no payload by its header
    (adaptation field control 0) and the next continuity counter; of a section of
    400 bytes it keeps the last piece, the bytes from 367 on. *)
Definition generated (n : Z) : dvbpsi_psi_section_t :=
  {| ps_data := map u8 (seqZ 0 n); ps_payload_end := n - 4; ps_syntax_indicator := true |}.

Lemma writePSI_broken_header : exists p,
  ltntstools_pmt_create_packet_ts2 (fun _ => [generated 20]) (Some packet_pmt) 0x100 3 (Some (replicate 188 0)) 188
    = Some (Some p, 0) /\
  take 4 p = [0x47; 0x41; 0x00; 0x04] /\ ltntstools_adaption_field_control p = 0 /\
  slice p 5 20 = map u8 (seqZ 0 20).
Proof. eexists. split; [by vm_compute|]. by vm_compute. Qed.

Lemma writePSI_keeps_last_piece : exists p,
  ltntstools_pmt_create_packet_ts2 (fun _ => [generated 400]) (Some packet_pmt) 0x100 3 (Some (replicate 188 0)) 188
    = Some (Some p, 0) /\
  take 4 p = [0x47; 0x01; 0x00; 0x06] /\ slice p 4 33 = map u8 (seqZ 367 33) /\ byte_at p 37 = 0xff.
Proof. eexists. split; [by vm_compute|]. by vm_compute. Qed.
