(* ===== verification/Tr101290Events.v ===== *)
(** * TR 101 290 events and alarms: src/tr101290-events.c, tr101290-alarms.c,
    tr101290-summary.c and the reporting thread of tr101290.c

    The context of an analyser with its table of events.  An event is the number
    of its entry; the table has 16 entries although the enumeration has 17
    events, so that an access to the last one leaves the table: [None].

    Each operation is here its whole effect, as it has it when nothing overlaps
    it.  The writer and the switches run under [s->mutex]; the event loop of the
    thread visits the entries without it, so that its accesses interleave with
    theirs one by one: [Tr101290Race] has the operations as programs of single
    accesses and what they keep in any interleaving.

    Seconds are not bounded here: the code only adds a few seconds to readings of
    the clock.  The log file is not modelled, nor are the POSIX timers, which no
    entry of the table asks for. *)
From Stdlib Require Import ZArith Lia Bool String.
From stdpp Require Import base numbers list option gmap.
From coqutil Require Import Datatypes.RecordSettersUsingExistingGetters.
From S2P Require Import Prelude Clock Histogram Stats Descriptor Pat.

(** ** sys/time.h *)

Definition timeradd (a b : timeval) : timeval :=
  let sec := tv_sec a + tv_sec b in
  let usec := tv_usec a + tv_usec b in
  if 1000000 <=? usec then Timeval (sec + 1) (usec - 1000000) else Timeval sec usec.

(** [timercmp(a, b, >=)] *)
Definition timer_ge (a b : timeval) : bool :=
  if tv_sec a =? tv_sec b then tv_usec b <=? tv_usec a else tv_sec b <=? tv_sec a.

(** ** Events *)

Definition E101290_UNDEFINED : Z := 0.
Definition E101290_P1_1__TS_SYNC_LOSS : Z := 1.
Definition E101290_P1_2__SYNC_BYTE_ERROR : Z := 2.
Definition E101290_P1_3__PAT_ERROR : Z := 3.
Definition E101290_P1_3a__PAT_ERROR_2 : Z := 4.
Definition E101290_P1_4__CONTINUITY_COUNTER_ERROR : Z := 5.
Definition E101290_P1_5__PMT_ERROR : Z := 6.
Definition E101290_P1_5a__PMT_ERROR_2 : Z := 7.
Definition E101290_P1_6__PID_ERROR : Z := 8.
Definition E101290_P2_1__TRANSPORT_ERROR : Z := 9.
Definition E101290_P2_2__CRC_ERROR : Z := 10.
Definition E101290_P2_3__PCR_ERROR : Z := 11.
Definition E101290_P2_3a__PCR_REPETITION_ERROR : Z := 12.
Definition E101290_P2_4__PCR_ACCURACY_ERROR : Z := 13.
Definition E101290_P2_5__PTS_ERROR : Z := 14.
Definition E101290_P2_6__CAT_ERROR : Z := 15.
Definition E101290_P4_1__UDP_DROPS : Z := 16.
Definition E101290_MAX : Z := 17.

(** The [int]s used as Booleans are Booleans. *)
Record tr_event_s := {
  ev_enabled : bool;
  ev_priorityNr : Z;
  ev_id : Z;
  ev_name : string;
  ev_raised : bool;
  ev_lastChanged : timeval;
  ev_lastReported : timeval;
  ev_nextAlarm : timeval;
  ev_reportInterval : timeval;
  ev_autoClearAlarmAfterReport : Z;
  ev_timerRequired : bool;
  ev_timerAlarmPeriodms : Z;
  ev_arg : string
}.

(** An entry of the table: what differs, and the common initialisers. *)
Definition tr_event (enabled : bool) (priorityNr id : Z) (name : string) (autoClear : Z) : tr_event_s :=
  {| ev_enabled := enabled; ev_priorityNr := priorityNr; ev_id := id; ev_name := name;
     ev_raised := false; ev_lastChanged := Timeval 0 0; ev_lastReported := Timeval 0 0;
     ev_nextAlarm := Timeval 0 0; ev_reportInterval := Timeval 1 0;
     ev_autoClearAlarmAfterReport := autoClear; ev_timerRequired := false; ev_timerAlarmPeriodms := 0;
     ev_arg := "" |}.

Definition tr_events_tbl : list tr_event_s :=
  [tr_event false 1 E101290_UNDEFINED "E101290_UNDEFINED" 0;
   tr_event true 1 E101290_P1_1__TS_SYNC_LOSS "E101290_P1_1__TS_SYNC_LOSS" 5000;
   tr_event true 1 E101290_P1_2__SYNC_BYTE_ERROR "E101290_P1_2__SYNC_BYTE_ERROR" 5000;
   tr_event true 1 E101290_P1_3__PAT_ERROR "E101290_P1_3__PAT_ERROR" 5000;
   tr_event true 1 E101290_P1_3a__PAT_ERROR_2 "E101290_P1_3a__PAT_ERROR_2" 5000;
   tr_event true 1 E101290_P1_4__CONTINUITY_COUNTER_ERROR "E101290_P1_4__CONTINUITY_COUNTER_ERROR" 5000;
   tr_event true 1 E101290_P1_5__PMT_ERROR "E101290_P1_5__PMT_ERROR" 5000;
   tr_event true 1 E101290_P1_5a__PMT_ERROR_2 "E101290_P1_5a__PMT_ERROR_2" 5000;
   tr_event true 1 E101290_P1_6__PID_ERROR "E101290_P1_6__PID_ERROR" 5000;
   tr_event true 2 E101290_P2_1__TRANSPORT_ERROR "E101290_P2_1__TRANSPORT_ERROR" 5000;
   tr_event true 2 E101290_P2_2__CRC_ERROR "E101290_P2_2__CRC_ERROR" 5000;
   tr_event true 2 E101290_P2_3__PCR_ERROR "E101290_P2_3__PCR_ERROR" 5000;
   tr_event true 2 E101290_P2_3a__PCR_REPETITION_ERROR "E101290_P2_3a__PCR_REPETITION_ERROR" 5000;
   tr_event false 2 E101290_P2_4__PCR_ACCURACY_ERROR "E101290_P2_4__PCR_ACCURACY_ERROR" 0;
   tr_event false 2 E101290_P2_5__PTS_ERROR "E101290_P2_5__PTS_ERROR" 0;
   tr_event true 2 E101290_P2_6__CAT_ERROR "E101290_P2_6__CAT_ERROR" 5000].

Definition _event_table_entry_count : Z := len tr_events_tbl.

(** The copy every context owns. *)
Definition ltntstools_tr101290_event_table_copy : list tr_event_s := tr_events_tbl.

Definition ltntstools_tr101290_event_name_ascii (event : Z) : option string :=
  ev ← aget tr_events_tbl (if E101290_MAX <=? event then E101290_UNDEFINED else event); Some (ev_name ev).

Definition ltntstools_tr101290_event_priority (event : Z) : option Z :=
  ev ← aget tr_events_tbl (if E101290_MAX <=? event then E101290_UNDEFINED else event); Some (ev_priorityNr ev).

(** ** The context *)

Record ltntstools_tr101290_alarm_s := {
  al_id : Z;
  al_priorityNr : Z;
  al_timestamp : timeval;
  al_raised : bool;
  al_description : string;
  al_arg : string
}.

Record tr_pid_s := { tp_pmtpid : Z; tp_lastChanged : timeval }.

Definition PMT_ARRAY_SIZE : Z := 64.

Record tr_p2_s := {
  lastPAT2 : timeval;
  lastPMT : timeval;
  lastCAT : timeval;
  lastSDT : timeval;
  lastBAT : timeval;
  lastNIT : timeval;
  lastTOT : timeval;
  lastEIT : timeval
}.

(** [t_alarm_tbl]: the first [alarmCount] entries of the alarm table, [None]
    when there is no table; [t_delivered]: the arrays handed to the callback. *)
Record ltntstools_tr101290_s := {
  t_cb_notify : bool;
  t_event_tbl : list tr_event_s;
  t_alarmCount : Z;
  t_alarm_tbl : option (list ltntstools_tr101290_alarm_s);
  t_delivered : list (list ltntstools_tr101290_alarm_s);
  t_consecutiveSyncBytes : Z;
  t_consecutiveSyncErrors : Z;
  t_now : timeval;
  t_lastWriteCall : timeval;
  t_streamStatistics : option ltntstools_stream_statistics_s;
  t_PATCountLastTimer : Z;
  t_CCCounterLastWrite : Z;
  t_preTEIErrors : Z;
  t_preScrambledCount : Z;
  t_lastPAT : timeval;
  t_cachedPAT : option ltntstools_pat_s;
  t_lastPMTArray : list tr_pid_s;
  t_lastPMTArrayIndex : Z;
  t_lastCompleteTime : Z;
  t_p2 : tr_p2_s;
  t_h1 : option ltn_histogram_s
}.

(** [s->event_tbl[event]] is changed by [f]. *)
Definition on_event (f : tr_event_s -> tr_event_s) (event : Z) (s : ltntstools_tr101290_s)
    : option ltntstools_tr101290_s :=
  ev ← aget (t_event_tbl s) event;
  tbl ← aset (t_event_tbl s) event (f ev);
  Some (s <| t_event_tbl := tbl |>).

(** ** Alarms *)

(** The linger time of an event as a [timeval]. *)
Definition linger (ev : tr_event_s) : timeval :=
  Timeval (Z.quot (ev_autoClearAlarmAfterReport ev) 1000)
          (Z.rem (ev_autoClearAlarmAfterReport ev * 1000) 1000000).

Definition event_raise (time_now : timeval) (ev : tr_event_s) : tr_event_s :=
  let ev := if ev_raised ev then ev
            else ev <| ev_raised := true |> <| ev_lastChanged := time_now |> <| ev_arg := ""%string |> in
  ev <| ev_nextAlarm := timeradd time_now (linger ev) |>.

(** The argument keeps 127 characters. *)
Definition event_raise_with_arg (msg : string) (time_now : timeval) (ev : tr_event_s) : tr_event_s :=
  let ev := if ev_raised ev then ev else ev <| ev_raised := true |> <| ev_lastChanged := time_now |> in
  let ev := ev <| ev_arg := substring 0 127 msg |> in
  ev <| ev_nextAlarm := timeradd time_now (linger ev) |>.

Definition event_clear (time_now : timeval) (ev : tr_event_s) : tr_event_s :=
  let ev :=
    if ev_raised ev then
      if timer_ge time_now (timeradd (linger ev) (ev_lastChanged ev))
      then ev <| ev_raised := false |> <| ev_lastChanged := time_now |> <| ev_arg := ""%string |>
      else ev
    else ev in
  ev <| ev_nextAlarm := timeradd time_now (linger ev) |>.

Definition ltntstools_tr101290_alarm_raise (s : ltntstools_tr101290_s) (event : Z) (time_now : timeval)
    : option ltntstools_tr101290_s :=
  if E101290_MAX <=? event then Some s else on_event (event_raise time_now) event s.

Definition ltntstools_tr101290_alarm_raise_with_arg (s : ltntstools_tr101290_s) (event : Z) (msg : string)
    (time_now : timeval) : option ltntstools_tr101290_s :=
  if E101290_MAX <=? event then Some s else on_event (event_raise_with_arg msg time_now) event s.

Definition ltntstools_tr101290_alarm_clear (s : ltntstools_tr101290_s) (event : Z) (time_now : timeval)
    : option ltntstools_tr101290_s :=
  if E101290_MAX <=? event then Some s else on_event (event_clear time_now) event s.

(** [for (i = 1; i < count; i++)], the bound of the table itself. *)
Fixpoint raise_all_loop (n : nat) (i : Z) (s : ltntstools_tr101290_s) : option ltntstools_tr101290_s :=
  match n with
  | O => Some s
  | S n' =>
      ev ← aget (t_event_tbl s) i;
      s ← ltntstools_tr101290_alarm_raise s (ev_id ev) (t_now s);
      raise_all_loop n' (i + 1) s
  end.

Definition ltntstools_tr101290_alarm_raise_all (s : ltntstools_tr101290_s) : option ltntstools_tr101290_s :=
  raise_all_loop (Z.to_nat (_event_table_entry_count - 1)) 1 s.

Definition ltntstools_tr101290_reset_alarms (s : ltntstools_tr101290_s) : option (ltntstools_tr101290_s * Z) :=
  s ← ltntstools_tr101290_alarm_raise_all s; Some (s, 0).

(** ** The application's switches *)

Definition set_enabled (on : bool) (ev : tr_event_s) : tr_event_s := ev <| ev_enabled := on |>.

Definition ltntstools_tr101290_event_processing_enable (s : ltntstools_tr101290_s) (event : Z)
    : option (ltntstools_tr101290_s * Z) :=
  if E101290_MAX <=? event then Some (s, -1) else
  s ← on_event (set_enabled true) event s; Some (s, 0).

Definition ltntstools_tr101290_event_processing_disable (s : ltntstools_tr101290_s) (event : Z)
    : option (ltntstools_tr101290_s * Z) :=
  if E101290_MAX <=? event then Some (s, -1) else
  s ← on_event (set_enabled false) event s; Some (s, 0).

(** [for (i = 1; i < E101290_MAX; i++)] *)
Fixpoint all_events_loop (f : tr_event_s -> tr_event_s) (n : nat) (i : Z) (s : ltntstools_tr101290_s)
    : option ltntstools_tr101290_s :=
  match n with
  | O => Some s
  | S n' => s ← on_event f i s; all_events_loop f n' (i + 1) s
  end.

Definition ltntstools_tr101290_event_processing_disable_all (s : ltntstools_tr101290_s)
    : option (ltntstools_tr101290_s * Z) :=
  s ← all_events_loop (set_enabled false) (Z.to_nat (E101290_MAX - 1)) 1 s; Some (s, 0).

Definition ltntstools_tr101290_event_processing_enable_all (s : ltntstools_tr101290_s)
    : option (ltntstools_tr101290_s * Z) :=
  s ← all_events_loop (set_enabled true) (Z.to_nat (E101290_MAX - 1)) 1 s; Some (s, 0).

Definition _tr101290_event_clear (s : ltntstools_tr101290_s) (event : Z) : option ltntstools_tr101290_s :=
  if E101290_MAX <=? event then Some s else on_event (fun ev => ev <| ev_raised := false |>) event s.

Definition ltntstools_tr101290_event_clear (s : ltntstools_tr101290_s) (event : Z)
    : option (ltntstools_tr101290_s * Z) :=
  if E101290_MAX <=? event then Some (s, -1) else s ← _tr101290_event_clear s event; Some (s, 0).

(** ** The reporting thread *)

(** The entry may be changed by the test: at startup its last report is set to a
    second before its last change. *)
Definition event_should_report (ev : tr_event_s) : tr_event_s * bool :=
  if negb (ev_enabled ev) then (ev, false) else
  let ev := if tv_sec (ev_lastReported ev) =? 0
            then ev <| ev_lastReported :=
                         Timeval (tv_sec (ev_lastChanged ev) - 1) (tv_usec (ev_lastReported ev)) |>
            else ev in
  (ev, negb (timer_ge (ev_lastReported ev) (ev_lastChanged ev))).

Definition ltntstools_tr101290_event_should_report (s : ltntstools_tr101290_s) (event : Z)
    : option (ltntstools_tr101290_s * bool) :=
  if E101290_MAX <=? event then Some (s, false) else
  ev ← aget (t_event_tbl s) event;
  let '(ev, r) := event_should_report ev in
  tbl ← aset (t_event_tbl s) event ev;
  Some (s <| t_event_tbl := tbl |>, r).

(** The record for the application.  [ok]: the table can grow; when it cannot,
    the pointer to it is lost.  The inner [false] is the [continue]. *)
Definition append_alarm (ok : bool) (now : timeval) (ev : tr_event_s) (s : ltntstools_tr101290_s)
    : option (ltntstools_tr101290_s * bool) :=
  if negb ok then Some (s <| t_alarm_tbl := None |>, false) else
  tbl ← match t_alarm_tbl s with
        | Some tbl => Some tbl
        | None => if t_alarmCount s =? 0 then Some [] else None
        end;
  priorityNr ← ltntstools_tr101290_event_priority (ev_id ev);
  description ← ltntstools_tr101290_event_name_ascii (ev_id ev);
  Some (s <| t_alarm_tbl := Some (tbl ++ [{| al_id := ev_id ev; al_priorityNr := priorityNr;
                                             al_timestamp := now; al_raised := ev_raised ev;
                                             al_description := substring 0 255 description;
                                             al_arg := ev_arg ev |}]) |>
          <| t_alarmCount := t_alarmCount s + 1 |>, true).

(** The body of the loop over the events for entry [i], when no other operation
    on the entry overlaps it: the loop does not hold the mutex, and
    [Tr101290Race.visit_prog] is the same body access by access
    ([visit_alone]).  [p2_process_p2_2], called here, returns at once. *)
Definition p2_process_p2_2 (s : ltntstools_tr101290_s) : ltntstools_tr101290_s := s.

Definition thread_event (ok : bool) (now : timeval) (i : Z) (s : ltntstools_tr101290_s)
    : option ltntstools_tr101290_s :=
  ev ← aget (t_event_tbl s) i;
  if negb (ev_enabled ev) then Some s else
  let s := p2_process_p2_2 s in
  '(s, report) ← ltntstools_tr101290_event_should_report s (ev_id ev);
  '(s, go_on) ←
    (if (report : bool) then
       s ← on_event (fun ev => ev <| ev_lastReported := timeradd now (Timeval 0 (1 * 1000)) |>) i s;
       ev ← aget (t_event_tbl s) i;
       append_alarm ok now ev s
     else Some (s, true));
  if negb go_on then Some s else
  ev ← aget (t_event_tbl s) i;
  if timer_ge now (ev_nextAlarm ev) then ltntstools_tr101290_alarm_raise s (ev_id ev) now else Some s.

Fixpoint thread_events (ok : Z -> bool) (now : timeval) (n : nat) (i : Z) (s : ltntstools_tr101290_s)
    : option ltntstools_tr101290_s :=
  match n with
  | O => Some s
  | S n' => s ← thread_event (ok i) now i s; thread_events ok now n' (i + 1) s
  end.

(** The alarms are handed over; without a callback they stay in the table. *)
Definition deliver (malloc_ok : bool) (s : ltntstools_tr101290_s) : option ltntstools_tr101290_s :=
  if t_alarmCount s =? 0 then Some s else
  if negb malloc_ok then None else
  tbl ← t_alarm_tbl s;
  Some (if t_cb_notify s
        then s <| t_delivered := t_delivered s ++ [tbl] |> <| t_alarmCount := 0 |>
               <| t_alarm_tbl := Some [] |>
        else s).

(** One turn of the thread. *)
Definition thread_turn (ok : Z -> bool) (malloc_ok : bool) (now : timeval) (s : ltntstools_tr101290_s)
    : option ltntstools_tr101290_s :=
  s ← thread_events ok now (Z.to_nat (E101290_MAX - 1)) 1 s; deliver malloc_ok s.

(** The thread: all alarms are raised, then a turn every 50 ms. *)
Fixpoint thread_turns (turns : list ((Z -> bool) * bool * timeval)) (s : ltntstools_tr101290_s)
    : option ltntstools_tr101290_s :=
  match turns with
  | [] => Some s
  | (ok, malloc_ok, now) :: turns => s ← thread_turn ok malloc_ok now s; thread_turns turns s
  end.

Definition ltntstools_tr101290_threadFunc (turns : list ((Z -> bool) * bool * timeval))
    (s : ltntstools_tr101290_s) : option ltntstools_tr101290_s :=
  s ← ltntstools_tr101290_alarm_raise_all s; thread_turns turns s.

(** ** The summary *)

Record ltntstools_tr101290_summary_item_s := {
  si_id : Z;
  si_enabled : bool;
  si_priorityNr : Z;
  si_last_update : timeval;
  si_raised : bool;
  si_arg : string
}.

Definition summary_item (ev : tr_event_s) : ltntstools_tr101290_summary_item_s :=
  {| si_id := ev_id ev; si_enabled := ev_enabled ev; si_priorityNr := ev_priorityNr ev;
     si_last_update := ev_lastChanged ev; si_raised := ev_raised ev; si_arg := ev_arg ev |}.

Fixpoint summary_loop (n : nat) (i : Z) (s : ltntstools_tr101290_s)
    : option (list ltntstools_tr101290_summary_item_s) :=
  match n with
  | O => Some []
  | S n' => ev ← aget (t_event_tbl s) (i + 1); l ← summary_loop n' (i + 1) s; Some (summary_item ev :: l)
  end.

(** The items ([None]: nothing is returned) and the return value. *)
Definition ltntstools_tr101290_summary_get (calloc_ok : bool) (s : ltntstools_tr101290_s)
    : option (option (list ltntstools_tr101290_summary_item_s) * Z) :=
  if negb calloc_ok then Some (None, -1) else
  l ← summary_loop (Z.to_nat (_event_table_entry_count - 1)) 0 s; Some (Some l, 0).

(** ** Times in microseconds *)

Definition tv_us (t : timeval) : Z := tv_sec t * 1000000 + tv_usec t.
Definition tv_norm (t : timeval) : Prop := 0 <= tv_usec t < 1000000.

Lemma timer_ge_us a b : tv_norm a -> tv_norm b -> timer_ge a b = (tv_us b <=? tv_us a).
Proof. unfold timer_ge, tv_us, tv_norm. intros. case_if; lia. Qed.

Lemma timeradd_us a b : tv_norm a -> tv_norm b ->
  tv_norm (timeradd a b) /\ tv_us (timeradd a b) = tv_us a + tv_us b.
Proof. unfold timeradd, tv_us, tv_norm. intros. case_if; cbn; lia. Qed.

(** ** Well-formed contexts *)

(** What never changes in an entry. *)
Definition event_key (ev : tr_event_s) : Z * Z := (ev_id ev, ev_autoClearAlarmAfterReport ev).

Record event_wf (ev : tr_event_s) : Prop := {
  ew_changed : tv_norm (ev_lastChanged ev);
  ew_reported : tv_norm (ev_lastReported ev);
  ew_next : tv_norm (ev_nextAlarm ev)
}.

Record ctx_wf (s : ltntstools_tr101290_s) : Prop := {
  cw_key : map event_key (t_event_tbl s) = map event_key tr_events_tbl;
  cw_events : Forall event_wf (t_event_tbl s);
  cw_alarms : t_alarmCount s = match t_alarm_tbl s with Some l => len l | None => 0 end
}.

Lemma ctx_wf_len s : ctx_wf s -> len (t_event_tbl s) = 16.
Proof. intros [H _ _]. apply (f_equal length) in H. rewrite !length_map in H. unfold len. by rewrite H. Qed.

Lemma key_at i ev : map event_key tr_events_tbl !! i = Some (event_key ev) ->
  ev_id ev = Z.of_nat i /\ 0 <= ev_autoClearAlarmAfterReport ev <= 5000.
Proof.
  intros H. do 16 (destruct i as [|i]; [cbn in H; injection H as <- <-; split; [reflexivity|lia]|]). done.
Qed.

(** The entry of an event of the table. *)
Lemma event_lookup s e : ctx_wf s -> 0 <= e < 16 -> exists ev, aget (t_event_tbl s) e = Some ev /\
  event_wf ev /\ ev_id ev = e /\ 0 <= ev_autoClearAlarmAfterReport ev <= 5000.
Proof.
  intros Hs He. assert (Hl := ctx_wf_len s Hs). destruct Hs as [Hk He' _].
  destruct (aget_lt (t_event_tbl s) e) as [ev Hev]; [lia|]. exists ev. split; [done|].
  apply aget_Some in Hev as [_ Hev]. split; [by eapply Forall_lookup_1|].
  assert (H : map event_key (t_event_tbl s) !! Z.to_nat e = Some (event_key ev)) by (by rewrite list_lookup_fmap, Hev).
  rewrite Hk in H. apply key_at in H. rewrite Z2Nat.id in H by lia. done.
Qed.

Lemma linger_us ev : 0 <= ev_autoClearAlarmAfterReport ev ->
  tv_norm (linger ev) /\ tv_us (linger ev) = ev_autoClearAlarmAfterReport ev * 1000.
Proof.
  intros H. unfold linger, tv_norm, tv_us. cbn. rewrite Z.quot_div_nonneg, Z.rem_mod_nonneg by lia. zlia.
Qed.

Lemma len_insert_Z {A} i (x : A) l : len (<[i := x]> l) = len l.
Proof. unfold len. by rewrite length_insert. Qed.

(** Changing an entry. *)
Lemma on_event_spec f e s ev : ctx_wf s -> aget (t_event_tbl s) e = Some ev -> event_key (f ev) = event_key ev ->
  event_wf (f ev) ->
  exists s', on_event f e s = Some s' /\ ctx_wf s' /\ t_event_tbl s' = <[Z.to_nat e := f ev]> (t_event_tbl s) /\
    t_alarm_tbl s' = t_alarm_tbl s /\ t_alarmCount s' = t_alarmCount s /\ t_delivered s' = t_delivered s.
Proof.
  intros [Hk He Ha] Hev Hf Hw. unfold on_event. rewrite Hev. step.
  assert (Hb : 0 <= e < len (t_event_tbl s)).
  { apply aget_Some in Hev as [H1 H2]. apply lookup_lt_Some in H2. unfold len. lia. }
  rewrite aset_Some by done. step. eexists. split; [done|]. split; [|done].
  apply aget_Some in Hev as [_ Hev]. constructor.
  - transitivity (map event_key (<[Z.to_nat e := f ev]> (t_event_tbl s))); [done|]. rewrite <- Hk, list_fmap_insert. apply list_insert_id. by rewrite list_lookup_fmap, Hev, Hf.
  - by apply Forall_insert.
  - done.
Qed.

(** ** Operations on the alarms that do not overlap

    The writer raises and clears events; the thread visits one entry after the
    other.  A sequence of operations is a run in which none begins before the
    one before it has ended; for the others see [Tr101290Race]. *)

Inductive alarm_op :=
| OpRaise (event : Z) (t : timeval)
| OpRaiseArg (event : Z) (msg : string) (t : timeval)
| OpClear (event : Z) (t : timeval)
| OpThread (event : Z) (t : timeval).

Definition alarm_step (s : ltntstools_tr101290_s) (op : alarm_op) : option ltntstools_tr101290_s :=
  match op with
  | OpRaise e t => ltntstools_tr101290_alarm_raise s e t
  | OpRaiseArg e msg t => ltntstools_tr101290_alarm_raise_with_arg s e msg t
  | OpClear e t => ltntstools_tr101290_alarm_clear s e t
  | OpThread e t => thread_event true t e s
  end.

Definition op_event (op : alarm_op) : Z :=
  match op with OpRaise e _ | OpRaiseArg e _ _ | OpClear e _ | OpThread e _ => e end.
Definition op_time (op : alarm_op) : timeval :=
  match op with OpRaise _ t | OpRaiseArg _ _ t | OpClear _ t | OpThread _ t => t end.
Definition op_ok (op : alarm_op) : Prop := 0 <= op_event op < 16 /\ tv_norm (op_time op).

(** What a visit of the thread makes of the entry, and the alarm it appends. *)
Definition reported (t : timeval) (ev : tr_event_s) : tr_event_s * bool :=
  let '(ev, r) := event_should_report ev in
  (if r then ev <| ev_lastReported := timeradd t (Timeval 0 1000) |> else ev, r).
Definition thread_entry (t : timeval) (ev : tr_event_s) : tr_event_s :=
  if negb (ev_enabled ev) then ev else
  let ev := (reported t ev).1 in
  if timer_ge t (ev_nextAlarm ev) then event_raise t ev else ev.
Definition alarm_of (t : timeval) (ev : tr_event_s) : list ltntstools_tr101290_alarm_s :=
  if ev_enabled ev && (reported t ev).2
  then [{| al_id := ev_id ev;
           al_priorityNr := match ltntstools_tr101290_event_priority (ev_id ev) with Some p => p | None => 0 end;
           al_timestamp := t; al_raised := ev_raised ev;
           al_description := match ltntstools_tr101290_event_name_ascii (ev_id ev) with
                             | Some n => substring 0 255 n | None => "" end;
           al_arg := ev_arg ev |}]
  else [].

(** The entry of [e] after an operation. *)
Definition entry_step (e : Z) (ev : tr_event_s) (op : alarm_op) : tr_event_s :=
  if op_event op =? e then
    match op with
    | OpRaise _ t => event_raise t ev
    | OpRaiseArg _ msg t => event_raise_with_arg msg t ev
    | OpClear _ t => event_clear t ev
    | OpThread _ t => thread_entry t ev
    end
  else ev.

Lemma event_raise_wf t ev : event_wf ev -> tv_norm t -> 0 <= ev_autoClearAlarmAfterReport ev ->
  event_wf (event_raise t ev) /\ event_key (event_raise t ev) = event_key ev.
Proof.
  intros [H1 H2 H3] Ht Ha. destruct (linger_us ev Ha) as [Hl _]. destruct (timeradd_us t (linger ev) Ht Hl) as [Hn _].
  unfold event_raise. destruct (ev_raised ev); split; try done; constructor; cbn; done.
Qed.

Lemma event_raise_with_arg_wf msg t ev : event_wf ev -> tv_norm t -> 0 <= ev_autoClearAlarmAfterReport ev ->
  event_wf (event_raise_with_arg msg t ev) /\ event_key (event_raise_with_arg msg t ev) = event_key ev.
Proof.
  intros [H1 H2 H3] Ht Ha. destruct (linger_us ev Ha) as [Hl _]. destruct (timeradd_us t (linger ev) Ht Hl) as [Hn _].
  unfold event_raise_with_arg. destruct (ev_raised ev); split; try done; constructor; cbn; done.
Qed.

Lemma event_clear_wf t ev : event_wf ev -> tv_norm t -> 0 <= ev_autoClearAlarmAfterReport ev ->
  event_wf (event_clear t ev) /\ event_key (event_clear t ev) = event_key ev.
Proof.
  intros [H1 H2 H3] Ht Ha. destruct (linger_us ev Ha) as [Hl _]. destruct (timeradd_us t (linger ev) Ht Hl) as [Hn _].
  unfold event_clear. destruct (ev_raised ev); [destruct (timer_ge _ _)|]; split; try done; constructor; cbn; done.
Qed.

Definition alarms (s : ltntstools_tr101290_s) : list ltntstools_tr101290_alarm_s :=
  match t_alarm_tbl s with Some l => l | None => [] end.

(** A step changes the table at [e] and keeps the rest. *)
Definition steps_to (e : Z) (ev' : tr_event_s) (new : list ltntstools_tr101290_alarm_s)
    (s s' : ltntstools_tr101290_s) : Prop :=
  ctx_wf s' /\ t_event_tbl s' = <[Z.to_nat e := ev']> (t_event_tbl s) /\
  alarms s' = alarms s ++ new /\ t_delivered s' = t_delivered s.

Lemma on_event_steps f e s ev : ctx_wf s -> aget (t_event_tbl s) e = Some ev ->
  event_wf (f ev) /\ event_key (f ev) = event_key ev ->
  exists s', on_event f e s = Some s' /\ steps_to e (f ev) [] s s' /\ t_alarm_tbl s' = t_alarm_tbl s /\ t_alarmCount s' = t_alarmCount s.
Proof.
  intros Hs Hev [Hw Hk]. destruct (on_event_spec f e s ev Hs Hev Hk Hw) as (s' & -> & H1 & H2 & H3 & H4 & H5).
  exists s'. split; [done|]. split; [|done]. split; [done|]. split; [done|]. split; [|done].
  unfold alarms. by rewrite H3, app_nil_r.
Qed.

Lemma event_should_report_wf ev : event_wf ev ->
  event_wf (event_should_report ev).1 /\ event_key (event_should_report ev).1 = event_key ev.
Proof.
  intros [H1 H2 H3]. unfold event_should_report. destruct (ev_enabled ev); cbn [negb]; [|done].
  destruct (tv_sec (ev_lastReported ev) =? 0); [|done]. split; [|done]. constructor; done.
Qed.

Lemma should_report_steps s e ev : ctx_wf s -> 0 <= e < 16 -> aget (t_event_tbl s) e = Some ev -> event_wf ev ->
  exists s', ltntstools_tr101290_event_should_report s e = Some (s', (event_should_report ev).2) /\
    steps_to e (event_should_report ev).1 [] s s'.
Proof.
  intros Hs He Hev Hw.
  destruct (on_event_steps (fun ev => (event_should_report ev).1) e s ev Hs Hev (event_should_report_wf ev Hw))
    as (s' & H1 & H2 & _). exists s'. split; [|done]. unfold on_event in H1. rewrite Hev in H1. cbn [mbind option_bind] in H1.
  unfold ltntstools_tr101290_event_should_report, E101290_MAX. zdec. rewrite Hev. step.
  destruct (event_should_report ev) as [ev1 r]. cbn [fst snd mbind option_bind] in *.
  destruct (aset _ _ _); [|done]. step. cbn [mbind option_bind] in H1. injection H1 as <-. done.
Qed.

Lemma steps_to_aget e ev' new s s' : 0 <= e < 16 -> ctx_wf s -> steps_to e ev' new s s' ->
  aget (t_event_tbl s') e = Some ev' /\ forall k, k <> e -> aget (t_event_tbl s') k = aget (t_event_tbl s) k.
Proof.
  intros He Hs (_ & Ht & _). assert (Hl := ctx_wf_len s Hs). rewrite Ht. unfold len in Hl. split.
  - apply aget_Some. split; [lia|]. apply list_lookup_insert_eq. lia.
  - intros k Hk. unfold aget. case_if; [done|]. apply list_lookup_insert_ne. lia.
Qed.

Lemma steps_to_trans e ev1 ev2 n1 n2 s s1 s2 : steps_to e ev1 n1 s s1 -> steps_to e ev2 n2 s1 s2 ->
  steps_to e ev2 (n1 ++ n2) s s2.
Proof.
  intros (_ & H2 & H3 & H4) (G1 & G2 & G3 & G4). split; [done|]. split; [by rewrite G2, H2, list_insert_insert_eq|].
  split; [by rewrite G3, H3, app_assoc|]. by rewrite G4.
Qed.

Lemma steps_to_id e ev s : 0 <= e -> ctx_wf s -> aget (t_event_tbl s) e = Some ev -> steps_to e ev [] s s.
Proof.
  intros He Hs [_ Hev]%aget_Some. split; [done|]. rewrite app_nil_r. split; [|done]. symmetry. by apply list_insert_id.
Qed.

(** The names and priorities of the table's events. *)
Lemma event_described e : 0 <= e < 16 -> exists p n,
  ltntstools_tr101290_event_priority e = Some p /\ ltntstools_tr101290_event_name_ascii e = Some n.
Proof.
  intros He. unfold ltntstools_tr101290_event_priority, ltntstools_tr101290_event_name_ascii, E101290_MAX. zdec.
  destruct (aget_lt tr_events_tbl e) as [ev ->]; [by change (len tr_events_tbl) with 16|]. step. by eexists _, _.
Qed.

Lemma append_alarm_steps t ev s : ctx_wf s -> 0 <= ev_id ev < 16 ->
  exists a s', append_alarm true t ev s = Some (s', true) /\ ctx_wf s' /\ t_event_tbl s' = t_event_tbl s /\
    alarms s' = alarms s ++ [a] /\ t_delivered s' = t_delivered s /\
    a = {| al_id := ev_id ev;
           al_priorityNr := match ltntstools_tr101290_event_priority (ev_id ev) with Some p => p | None => 0 end;
           al_timestamp := t; al_raised := ev_raised ev;
           al_description := match ltntstools_tr101290_event_name_ascii (ev_id ev) with
                             | Some n => substring 0 255 n | None => "" end;
           al_arg := ev_arg ev |}.
Proof.
  intros [Hk He Ha] Hid. destruct (event_described (ev_id ev) Hid) as (p & n & Hp & Hn).
  unfold append_alarm. cbn [negb].
  assert (Htbl : match t_alarm_tbl s with Some tbl => Some tbl | None => if t_alarmCount s =? 0 then Some [] else None end
                 = Some (alarms s)).
  { unfold alarms. destruct (t_alarm_tbl s); [done|]. by rewrite Ha. }
  rewrite Htbl, Hp, Hn. step. eexists _, _. split; [done|]. split; [|done]. constructor; [done|done|].
  cbn. cbv beta delta [const]. rewrite len_app. change (len [_]) with 1. rewrite Ha. unfold alarms. by destruct (t_alarm_tbl s).
Qed.

Lemma reported_key t ev : event_wf ev -> tv_norm t ->
  event_wf (reported t ev).1 /\ event_key (reported t ev).1 = event_key ev.
Proof.
  intros Hw Ht. unfold reported. destruct (event_should_report_wf ev Hw) as [H1 H2].
  destruct (event_should_report ev) as [ev1 r]. cbn [fst] in *. destruct r; [|done]. split; [|done].
  destruct H1 as [G1 G2 G3]. constructor; [done| |done]. apply (timeradd_us t (Timeval 0 1000) Ht).
  unfold tv_norm. cbn. lia.
Qed.

(** A visit of the thread. *)
Lemma thread_event_steps s e ev t : ctx_wf s -> 0 <= e < 16 -> tv_norm t -> aget (t_event_tbl s) e = Some ev ->
  exists s', thread_event true t e s = Some s' /\ steps_to e (thread_entry t ev) (alarm_of t ev) s s'.
Proof.
  intros Hs He Ht Hev. destruct (event_lookup s e Hs He) as (ev' & Hev' & Hw & Hid & Ha).
  rewrite Hev in Hev'. injection Hev' as <-. unfold thread_event, thread_entry, alarm_of. rewrite Hev. step.
  destruct (ev_enabled ev) eqn:Een; cbn [negb andb]; [|exists s; split; [done|by apply steps_to_id; [lia|..]]].
  unfold p2_process_p2_2. rewrite Hid. destruct (should_report_steps s e ev Hs He Hev Hw) as (s1 & -> & S1). step.
  destruct (reported_key t ev Hw Ht) as [Rw Rk].
  assert (Hrest : forall s2, steps_to e (reported t ev).1 (if (reported t ev).2 then alarm_of t ev else []) s s2 ->
    exists s', (ev ← aget (t_event_tbl s2) e;
                if timer_ge t (ev_nextAlarm ev) then ltntstools_tr101290_alarm_raise s2 (ev_id ev) t else Some s2) = Some s' /\
      steps_to e (if timer_ge t (ev_nextAlarm (reported t ev).1) then event_raise t (reported t ev).1 else (reported t ev).1)
        (if (reported t ev).2 then alarm_of t ev else []) s s').
  { intros s2 S2. destruct (steps_to_aget _ _ _ _ _ He Hs S2) as [-> _]. step.
    destruct (timer_ge t (ev_nextAlarm (reported t ev).1)); [|by exists s2].
    assert (Hid' : ev_id (reported t ev).1 = e) by (injection Rk as -> _; done).
    unfold ltntstools_tr101290_alarm_raise, E101290_MAX. rewrite Hid'. zdec.
    destruct (on_event_steps (event_raise t) e s2 (reported t ev).1) as (s3 & -> & S3 & _).
    - apply S2.
    - apply (steps_to_aget _ _ _ _ _ He Hs S2).
    - apply event_raise_wf; [done|done|]. injection Rk as _ ->. lia.
    - exists s3. split; [done|]. assert (E := steps_to_trans _ _ _ _ _ _ _ _ S2 S3). by rewrite app_nil_r in E. }
  revert Hrest. unfold alarm_of. rewrite Een. cbn [andb]. unfold reported.
  destruct (event_should_report ev) as [ev1 r] eqn:Er. cbn [fst snd] in *.
  destruct r; cbn [fst snd]; intros Hrest.
  - destruct (on_event_steps (fun ev => ev <| ev_lastReported := timeradd t (Timeval 0 (1 * 1000)) |>) e s1 ev1)
      as (s2 & -> & S2 & _).
    + apply S1.
    + apply (steps_to_aget _ _ _ _ _ He Hs S1).
    + unfold reported in Rw, Rk. rewrite Er in Rw, Rk. cbn [fst] in Rw, Rk. split; [done|]. done.
    + step. assert (S12 := steps_to_trans _ _ _ _ _ _ _ _ S1 S2).
      destruct (steps_to_aget _ _ _ _ _ He Hs S12) as [-> _]. step.
      assert (Hk1 : ev_id ev1 = e /\ ev_raised ev1 = ev_raised ev /\ ev_arg ev1 = ev_arg ev).
      { revert Er. unfold event_should_report. rewrite Een. cbn [negb]. intros [= <- _]. by case_if. }
      destruct Hk1 as (K1 & K2 & K3).
      destruct (append_alarm_steps t (ev1 <| ev_lastReported := timeradd t (Timeval 0 (1 * 1000)) |>) s2)
        as (a & s3 & -> & W3 & T3 & A3 & D3 & Ea); [apply S12|cbn; lia|]. step. cbn [negb].
      rewrite Hid in Hrest. apply Hrest. destruct S12 as (_ & T12 & A12 & D12). cbn [app] in *.
      split; [done|]. split; [by rewrite T3, T12|]. split; [|by rewrite D3, D12].
      rewrite A3, A12, app_nil_r. rewrite Ea. cbn. cbv beta delta [const]. by rewrite K1, K2, K3.
  - step. cbn [negb]. apply Hrest. done.
Qed.

(** One operation and a run of operations, entry by entry. *)
Lemma step_entry s e ev' new s' : 0 <= e < 16 -> ctx_wf s -> steps_to e ev' new s s' -> forall k ev,
  aget (t_event_tbl s) k = Some ev -> aget (t_event_tbl s') k = Some (if k =? e then ev' else ev).
Proof.
  intros He Hs Hst k ev Hk. destruct (steps_to_aget _ _ _ _ _ He Hs Hst) as [H1 H2].
  destruct (Z.eqb_spec k e) as [->|Hne]; [done|]. by rewrite H2.
Qed.

Lemma alarm_step_spec s op : ctx_wf s -> op_ok op -> exists s',
  alarm_step s op = Some s' /\ ctx_wf s' /\
  forall k ev, aget (t_event_tbl s) k = Some ev -> aget (t_event_tbl s') k = Some (entry_step k ev op).
Proof.
  intros Hs [He Ht]. destruct (event_lookup s (op_event op) Hs He) as (ev & Hev & Hw & Hid & Ha).
  assert (exists ev' new s', alarm_step s op = Some s' /\ steps_to (op_event op) ev' new s s' /\
            ev' = entry_step (op_event op) ev op) as (ev' & new & s' & H1 & H2 & H3).
  { destruct op as [e t|e msg t|e t|e t]; cbn [op_event op_time alarm_step] in *; unfold entry_step; cbn [op_event];
      rewrite Z.eqb_refl; unfold ltntstools_tr101290_alarm_raise, ltntstools_tr101290_alarm_raise_with_arg,
      ltntstools_tr101290_alarm_clear, E101290_MAX; zdec.
    - destruct (on_event_steps (event_raise t) e s ev Hs Hev) as (s' & -> & H & _); [by apply event_raise_wf; try lia|].
      by eexists _, _, s'.
    - destruct (on_event_steps (event_raise_with_arg msg t) e s ev Hs Hev) as (s' & -> & H & _);
        [by apply event_raise_with_arg_wf; try lia|]. by eexists _, _, s'.
    - destruct (on_event_steps (event_clear t) e s ev Hs Hev) as (s' & -> & H & _); [by apply event_clear_wf; try lia|].
      by eexists _, _, s'.
    - destruct (thread_event_steps s e ev t Hs He Ht Hev) as (s' & -> & H). by eexists _, _, s'. }
  exists s'. split; [done|]. split; [apply H2|]. intros k ev0 Hk.
  rewrite (step_entry s _ _ _ _ He Hs H2 k ev0 Hk). f_equal. destruct (Z.eqb_spec k (op_event op)) as [->|Hne].
  - rewrite Hev in Hk. by injection Hk as ->.
  - unfold entry_step. by rewrite (proj2 (Z.eqb_neq _ _)) by done.
Qed.

Lemma alarm_run_spec ops : forall s, ctx_wf s -> Forall op_ok ops -> exists s',
  foldM alarm_step ops s = Some s' /\ ctx_wf s' /\
  forall k ev, aget (t_event_tbl s) k = Some ev -> aget (t_event_tbl s') k = Some (foldl (entry_step k) ev ops).
Proof.
  induction ops as [|op ops IH]; intros s Hs Hops; [by exists s|]. inversion Hops as [|? ? Hop Hops']; subst.
  destruct (alarm_step_spec s op Hs Hop) as (s1 & H1 & W1 & E1). destruct (IH s1 W1 Hops') as (s2 & H2 & W2 & E2).
  exists s2. cbn [foldM foldl]. rewrite H1. step. split; [done|]. split; [done|]. intros k ev Hk. by apply E2, E1.
Qed.

Lemma entry_step_wf e ev op : event_wf ev -> 0 <= ev_autoClearAlarmAfterReport ev -> op_ok op ->
  event_wf (entry_step e ev op) /\ event_key (entry_step e ev op) = event_key ev /\
  ev_enabled (entry_step e ev op) = ev_enabled ev.
Proof.
  intros Hw Ha [_ Ht]. unfold entry_step. destruct (op_event op =? e); [|done].
  destruct op as [k t|k msg t|k t|k t]; cbn [op_time] in Ht.
  - destruct (event_raise_wf t ev Hw Ht Ha). split; [done|]. split; [done|]. unfold event_raise. by destruct (ev_raised ev).
  - destruct (event_raise_with_arg_wf msg t ev Hw Ht Ha). split; [done|]. split; [done|].
    unfold event_raise_with_arg. by destruct (ev_raised ev).
  - destruct (event_clear_wf t ev Hw Ht Ha). split; [done|]. split; [done|]. unfold event_clear.
    destruct (ev_raised ev); [destruct (timer_ge _ _)|]; done.
  - unfold thread_entry. destruct (ev_enabled ev) eqn:Een; cbn [negb]; [|done].
    destruct (reported_key t ev Hw Ht) as [R1 R2].
    assert (R3 : ev_enabled (reported t ev).1 = true).
    { unfold reported, event_should_report. rewrite Een. cbn [negb]. do 2 case_if; done. }
    destruct (timer_ge t _); [|done].
    assert (Ha' : 0 <= ev_autoClearAlarmAfterReport (reported t ev).1) by (injection R2 as _ ->; done).
    destruct (event_raise_wf t _ R1 Ht Ha') as [G1 G2]. split; [done|]. split; [by rewrite G2|].
    unfold event_raise. by destruct (ev_raised (reported t ev).1).
Qed.

Lemma reported_same t ev : ev_raised (reported t ev).1 = ev_raised ev /\
  ev_lastChanged (reported t ev).1 = ev_lastChanged ev /\ ev_nextAlarm (reported t ev).1 = ev_nextAlarm ev.
Proof. unfold reported, event_should_report. destruct (ev_enabled ev); cbn [negb]; [|done]. do 2 case_if; done. Qed.

(** A raised entry stays raised until its linger time has passed. *)
Lemma entry_step_raised e ev op : event_wf ev -> 0 <= ev_autoClearAlarmAfterReport ev -> op_ok op ->
  ev_raised ev = true -> tv_us (op_time op) < tv_us (ev_lastChanged ev) + ev_autoClearAlarmAfterReport ev * 1000 ->
  ev_raised (entry_step e ev op) = true /\ ev_lastChanged (entry_step e ev op) = ev_lastChanged ev.
Proof.
  intros Hw Ha [_ Ht] Hr Hlt. unfold entry_step. destruct (op_event op =? e); [|done].
  destruct (linger_us ev Ha) as [L1 L2].
  destruct op as [k t|k msg t|k t|k t]; cbn [op_time] in *.
  - unfold event_raise. by rewrite Hr.
  - unfold event_raise_with_arg. by rewrite Hr.
  - unfold event_clear. rewrite Hr. destruct (timeradd_us (linger ev) (ev_lastChanged ev) L1 (ew_changed _ Hw)) as [A1 A2].
    rewrite timer_ge_us, A2, L2 by done. rewrite (proj2 (Z.leb_gt _ _)) by lia. done.
  - unfold thread_entry. destruct (ev_enabled ev); cbn [negb]; [|done].
    destruct (reported_same t ev) as (R1 & R2 & _). destruct (timer_ge t _); [|by rewrite R1, R2].
    unfold event_raise. rewrite R1, Hr. cbn. by rewrite R1, R2.
Qed.

Lemma entry_run_raised e ops : forall ev, event_wf ev -> 0 <= ev_autoClearAlarmAfterReport ev -> Forall op_ok ops ->
  ev_raised ev = true ->
  Forall (fun op => tv_us (op_time op) < tv_us (ev_lastChanged ev) + ev_autoClearAlarmAfterReport ev * 1000) ops ->
  let ev' := foldl (entry_step e) ev ops in
  ev_raised ev' = true /\ ev_lastChanged ev' = ev_lastChanged ev /\ event_wf ev' /\ event_key ev' = event_key ev.
Proof.
  induction ops as [|op ops IH]; intros ev Hw Ha Hok Hr Hlt; [done|]. cbn [foldl].
  inversion Hok as [|? ? Hop Hok']; inversion Hlt as [|? ? Hop' Hlt']; subst.
  destruct (entry_step_raised e ev op Hw Ha Hop Hr Hop') as [R1 R2].
  destruct (entry_step_wf e ev op Hw Ha Hop) as (W1 & W2 & _). assert (W3 := W2). injection W3 as _ W3.
  destruct (IH (entry_step e ev op)) as (I1 & I2 & I3 & I4); [done|by rewrite W3|done|done|by rewrite R2, W3|].
  split; [done|]. split; [by rewrite I2|]. split; [done|]. by rewrite I4.
Qed.

(** An entry that nobody clears: it is raised, or its next alarm is still due. *)
Lemma entry_run_due e ops T : forall ev, event_wf ev -> 0 <= ev_autoClearAlarmAfterReport ev -> Forall op_ok ops ->
  Forall (fun op => op_event op = e -> exists t, op = OpThread e t) ops ->
  ev_raised ev = true \/ ev_nextAlarm ev = T ->
  let ev' := foldl (entry_step e) ev ops in
  (ev_raised ev' = true \/ ev_nextAlarm ev' = T) /\ event_wf ev' /\ ev_enabled ev' = ev_enabled ev /\
  event_key ev' = event_key ev.
Proof.
  induction ops as [|op ops IH]; intros ev Hw Ha Hok Hq Hd; [done|]. cbn [foldl].
  inversion Hok as [|? ? Hop Hok']; inversion Hq as [|? ? Hop' Hq']; subst.
  destruct (entry_step_wf e ev op Hw Ha Hop) as (W1 & W2 & W3). assert (W4 := W2). injection W4 as _ W4.
  destruct (IH (entry_step e ev op)) as (I1 & I2 & I3 & I4); [done|lia|done|done| |].
  - unfold entry_step. destruct (Z.eqb_spec (op_event op) e) as [E|E]; [|done].
    destruct (Hop' E) as [t ->]. unfold thread_entry. destruct (ev_enabled ev); cbn [negb]; [|done].
    destruct (reported_same t ev) as (R1 & _ & R3). destruct (timer_ge t _); [|by rewrite R1, R3].
    left. unfold event_raise. destruct (ev_raised (reported t ev).1) eqn:Er; [exact Er|done].
  - split; [done|]. split; [done|]. split; [by rewrite I3|]. by rewrite I4.
Qed.

(** ** Properties *)

(** once raised, an alarm stays raised for its linger time, to the microsecond,
    under operations that do not overlap, in any order; the first request to
    clear it after that time clears it. *)
Theorem alarm_lingers (s : ltntstools_tr101290_s) (e : Z) (ev : tr_event_s) (t0 : timeval) (ops : list alarm_op) :
  ctx_wf s -> 0 <= e < 16 -> aget (t_event_tbl s) e = Some ev -> ev_raised ev = false -> tv_norm t0 ->
  Forall op_ok ops ->
  Forall (fun op => tv_us (op_time op) < tv_us t0 + ev_autoClearAlarmAfterReport ev * 1000) ops ->
  exists s1 ev1,
    foldM alarm_step (OpRaise e t0 :: ops) s = Some s1 /\ aget (t_event_tbl s1) e = Some ev1 /\
    ev_raised ev1 = true /\ ev_lastChanged ev1 = t0 /\
    forall t, tv_norm t -> tv_us t0 + ev_autoClearAlarmAfterReport ev * 1000 <= tv_us t ->
    exists s2 ev2, alarm_step s1 (OpClear e t) = Some s2 /\ aget (t_event_tbl s2) e = Some ev2 /\
      ev_raised ev2 = false /\ ev_lastChanged ev2 = t.
Proof.
  intros Hs He Hev Hr Ht0 Hok Hlt. assert (Hok0 : op_ok (OpRaise e t0)) by by split.
  destruct (alarm_run_spec (OpRaise e t0 :: ops) s Hs) as (s1 & -> & W1 & E1); [by constructor|].
  exists s1. specialize (E1 e ev Hev). cbn [foldl] in E1.
  destruct (event_lookup s e Hs He) as (ev' & Hev' & Hw & Hid & Ha). rewrite Hev in Hev'. injection Hev' as <-.
  assert (H0 : ev_raised (entry_step e ev (OpRaise e t0)) = true /\ ev_lastChanged (entry_step e ev (OpRaise e t0)) = t0).
  { unfold entry_step. cbn [op_event]. rewrite Z.eqb_refl. unfold event_raise. by rewrite Hr. }
  destruct H0 as [R1 R2]. destruct (entry_step_wf e ev (OpRaise e t0) Hw (proj1 Ha) Hok0) as (W2 & W3 & _).
  assert (W4 := W3). injection W4 as _ W4.
  destruct (entry_run_raised e ops (entry_step e ev (OpRaise e t0))) as (I1 & I2 & I3 & I4);
    [done|lia|done|done|by rewrite R2, W4|].
  set (ev1 := foldl (entry_step e) _ ops) in *. exists ev1. split; [done|]. split; [exact E1|]. split; [done|].
  split; [by rewrite I2|]. intros t Ht Hge. destruct (alarm_step_spec s1 (OpClear e t) W1) as (s2 & -> & _ & E2); [by split|].
  exists s2. eexists. split; [done|]. split; [by apply E2|]. unfold entry_step. cbn [op_event]. rewrite Z.eqb_refl.
  unfold event_clear. rewrite I1. assert (K : ev_autoClearAlarmAfterReport ev1 = ev_autoClearAlarmAfterReport ev).
  { rewrite W3 in I4. by injection I4. }
  destruct (linger_us ev1) as [L1 L2]; [lia|].
  destruct (timeradd_us (linger ev1) (ev_lastChanged ev1) L1 (ew_changed _ I3)) as [A1 A2].
  rewrite timer_ge_us, A2, L2, I2, R2, K by done. by zdec.
Qed.

(** an enabled event that nobody clears any more is raised: at the first visit
    of its entry that comes its linger time after the last clear, among
    operations that do not overlap.  This is a property of single visits: a full
    turn of the thread goes on to an entry behind the table
    ([thread_overruns]). *)
Theorem silence_raises (s : ltntstools_tr101290_s) (e : Z) (ev : tr_event_s) (t1 t2 : timeval) (ops : list alarm_op) :
  ctx_wf s -> 0 <= e < 16 -> aget (t_event_tbl s) e = Some ev -> ev_enabled ev = true ->
  tv_norm t1 -> tv_norm t2 -> Forall op_ok ops ->
  Forall (fun op => op_event op = e -> exists t, op = OpThread e t) ops ->
  tv_us t1 + ev_autoClearAlarmAfterReport ev * 1000 <= tv_us t2 ->
  exists s2 ev2, foldM alarm_step (OpClear e t1 :: ops ++ [OpThread e t2]) s = Some s2 /\
    aget (t_event_tbl s2) e = Some ev2 /\ ev_raised ev2 = true.
Proof.
  intros Hs He Hev Hen Ht1 Ht2 Hok Hq Hge.
  destruct (alarm_run_spec (OpClear e t1 :: ops ++ [OpThread e t2]) s Hs) as (s2 & -> & _ & E2).
  { constructor; [by split|]. apply Forall_app. split; [done|]. apply Forall_singleton. by split. }
  exists s2. eexists. split; [done|]. split; [by apply E2|]. cbn [foldl]. rewrite foldl_app. cbn [foldl].
  destruct (event_lookup s e Hs He) as (ev' & Hev' & Hw & Hid & Ha). rewrite Hev in Hev'. injection Hev' as <-.
  destruct (entry_step_wf e ev (OpClear e t1) Hw (proj1 Ha)) as (W1 & W2 & W3); [by split|].
  assert (W4 := W2). injection W4 as _ W4.
  destruct (entry_run_due e ops (timeradd t1 (linger ev)) (entry_step e ev (OpClear e t1))) as (I1 & I2 & I3 & I4);
    [done|lia|done|done| |].
  { right. unfold entry_step. cbn [op_event]. rewrite Z.eqb_refl. unfold event_clear.
    destruct (ev_raised ev); [destruct (timer_ge _ _)|]; done. }
  set (ev1 := foldl _ _ _) in *. unfold entry_step. cbn [op_event]. rewrite Z.eqb_refl.
  unfold thread_entry. rewrite I3, W3, Hen. cbn [negb]. destruct (reported_same t2 ev1) as (R1 & _ & R3).
  rewrite R3. destruct I1 as [I1|I1].
  - assert (R := eq_trans R1 I1). destruct (timer_ge t2 _); [unfold event_raise; rewrite R|]; exact R.
  - destruct (linger_us ev (proj1 Ha)) as [L1 L2]. destruct (timeradd_us t1 (linger ev) Ht1 L1) as [A1 A2].
    rewrite I1, timer_ge_us, A2, L2 by done. zdec. unfold event_raise. destruct (ev_raised (reported t2 ev1).1) eqn:Er; [exact Er|done].
Qed.

(** The record of a report. *)
Definition report (t : timeval) (ev : tr_event_s) : ltntstools_tr101290_alarm_s :=
  {| al_id := ev_id ev;
     al_priorityNr := match ltntstools_tr101290_event_priority (ev_id ev) with Some p => p | None => 0 end;
     al_timestamp := t; al_raised := ev_raised ev;
     al_description := match ltntstools_tr101290_event_name_ascii (ev_id ev) with
                       | Some n => substring 0 255 n | None => "" end;
     al_arg := ev_arg ev |}.

Lemma alarm_of_spec t ev : event_wf ev -> ev_enabled ev = true -> tv_sec (ev_lastReported ev) <> 0 ->
  alarm_of t ev = (if tv_us (ev_lastReported ev) <? tv_us (ev_lastChanged ev) then [report t ev] else []) /\
  ev_lastReported (reported t ev).1 =
    (if tv_us (ev_lastReported ev) <? tv_us (ev_lastChanged ev) then timeradd t (Timeval 0 1000) else ev_lastReported ev).
Proof.
  intros [H1 H2 H3] Hen Hs. unfold alarm_of, reported, event_should_report. rewrite Hen. cbn [negb].
  rewrite (proj2 (Z.eqb_neq _ _) Hs), timer_ge_us by done. cbn [snd andb].
  rewrite Z.ltb_antisym. by destruct (tv_us (ev_lastChanged ev) <=? tv_us (ev_lastReported ev)).
Qed.

(** a visit of the thread appends exactly one alarm, with the event, its
    state, its argument and the time, if the event changed after its last
    report, and none otherwise; after a report of a past change the next visit
    appends none. *)
Theorem thread_reports_once (s : ltntstools_tr101290_s) (e : Z) (ev : tr_event_s) (t : timeval) :
  ctx_wf s -> 0 <= e < 16 -> aget (t_event_tbl s) e = Some ev -> ev_enabled ev = true ->
  tv_sec (ev_lastReported ev) <> 0 -> tv_norm t -> 0 <= tv_sec t ->
  exists s', thread_event true t e s = Some s' /\
    alarms s' = alarms s ++ (if tv_us (ev_lastReported ev) <? tv_us (ev_lastChanged ev) then [report t ev] else []) /\
    (tv_us (ev_lastReported ev) < tv_us (ev_lastChanged ev) -> tv_us (ev_lastChanged ev) <= tv_us t -> 0 < tv_sec t ->
     forall t', tv_norm t' -> exists s2, thread_event true t' e s' = Some s2 /\ alarms s2 = alarms s').
Proof.
  intros Hs He Hev Hen Hsec Ht Hpos. destruct (event_lookup s e Hs He) as (ev' & Hev' & Hw & Hid & Ha).
  rewrite Hev in Hev'. injection Hev' as <-. destruct (thread_event_steps s e ev t Hs He Ht Hev) as (s' & -> & St).
  destruct (alarm_of_spec t ev Hw Hen Hsec) as [Al Lr]. exists s'. split; [done|].
  split; [by rewrite <- Al; apply St|]. intros Hch Hpast Hsec' t' Ht'.
  destruct (steps_to_aget _ _ _ _ _ He Hs St) as [Hev' _].
  destruct (thread_event_steps s' e _ t' (proj1 St) He Ht' Hev') as (s2 & -> & St2). exists s2. split; [done|].
  assert (Hnone : alarm_of t' (thread_entry t ev) = []); [|by rewrite (proj1 (proj2 (proj2 St2))), Hnone, app_nil_r].
  destruct (event_lookup s' e (proj1 St) He) as (ev2 & Hev2 & Hw2 & _). rewrite Hev' in Hev2. injection Hev2 as Hev2.
  assert (Hfin : ev_lastReported (thread_entry t ev) = timeradd t (Timeval 0 1000) /\
                 tv_us (ev_lastChanged (thread_entry t ev)) <= tv_us t /\ ev_enabled (thread_entry t ev) = true).
  { destruct (entry_step_wf e ev (OpThread e t) Hw (proj1 Ha)) as (_ & _ & Hen'); [by split|].
    unfold entry_step in Hen'. cbn [op_event] in Hen'. rewrite Z.eqb_refl in Hen'. rewrite Hen', Hen. clear Hen'.
    unfold thread_entry. rewrite Hen. cbn [negb]. destruct (reported_same t ev) as (R1 & R2 & R3).
    rewrite (proj2 (Z.ltb_lt _ _) Hch) in Lr. destruct (timer_ge t _); [|by rewrite Lr, R2].
    unfold event_raise. destruct (ev_raised _); cbn; cbv beta delta [const]; rewrite Lr; split; try done; split; try done.
    by rewrite R2. }
  destruct Hfin as (F1 & F2 & F3).
  destruct (timeradd_us t (Timeval 0 1000) Ht) as [A1 A2]; [unfold tv_norm; cbn; lia|].
  assert (Hs2 : tv_sec (ev_lastReported (thread_entry t ev)) <> 0).
  { rewrite F1. unfold timeradd. cbn. case_if; cbn; lia. }
  subst ev2. destruct (alarm_of_spec t' (thread_entry t ev) Hw2 F3 Hs2) as [-> _].
  rewrite F1, A2. change (tv_us (Timeval 0 1000)) with 1000. by rewrite (proj2 (Z.ltb_ge _ _)) by lia.
Qed.

(** ** Concrete contexts *)

Definition p2_zero : tr_p2_s :=
  {| lastPAT2 := Timeval 0 0; lastPMT := Timeval 0 0; lastCAT := Timeval 0 0; lastSDT := Timeval 0 0;
     lastBAT := Timeval 0 0; lastNIT := Timeval 0 0; lastTOT := Timeval 0 0; lastEIT := Timeval 0 0 |}.

(** The fields after the [calloc] and the table copy. *)
Definition ctx_fresh (cb : bool) : ltntstools_tr101290_s :=
  {| t_cb_notify := cb; t_event_tbl := ltntstools_tr101290_event_table_copy; t_alarmCount := 0;
     t_alarm_tbl := None; t_delivered := []; t_consecutiveSyncBytes := 0; t_consecutiveSyncErrors := 0;
     t_now := Timeval 0 0; t_lastWriteCall := Timeval 0 0; t_streamStatistics := None; t_PATCountLastTimer := 0;
     t_CCCounterLastWrite := 0; t_preTEIErrors := 0; t_preScrambledCount := 0; t_lastPAT := Timeval 0 0;
     t_cachedPAT := None; t_lastPMTArray := replicate 64 {| tp_pmtpid := 0; tp_lastChanged := Timeval 0 0 |};
     t_lastPMTArrayIndex := 0; t_lastCompleteTime := 0; t_p2 := p2_zero; t_h1 := None |}.

Lemma ctx_fresh_wf cb : ctx_wf (ctx_fresh cb).
Proof. constructor; [done| |done]. repeat (constructor; [constructor; unfold tv_norm; cbn; lia|]). constructor. Qed.

Lemma alarm_lingers_witness : exists s1 ev1,
  foldM alarm_step [OpRaise 1 (Timeval 100 0); OpClear 1 (Timeval 104 999999); OpThread 1 (Timeval 104 0); OpClear 2 (Timeval 101 0)]
    (ctx_fresh true) = Some s1 /\ aget (t_event_tbl s1) 1 = Some ev1 /\
  ev_raised ev1 = true /\ ev_lastChanged ev1 = Timeval 100 0 /\
  forall t, tv_norm t -> tv_us (Timeval 100 0) + 5000 * 1000 <= tv_us t ->
  exists s2 ev2, alarm_step s1 (OpClear 1 t) = Some s2 /\ aget (t_event_tbl s2) 1 = Some ev2 /\
    ev_raised ev2 = false /\ ev_lastChanged ev2 = t.
Proof.
  apply (alarm_lingers (ctx_fresh true) 1 (tr_event true 1 E101290_P1_1__TS_SYNC_LOSS "E101290_P1_1__TS_SYNC_LOSS" 5000)
           (Timeval 100 0) [OpClear 1 (Timeval 104 999999); OpThread 1 (Timeval 104 0); OpClear 2 (Timeval 101 0)]).
  - apply ctx_fresh_wf.
  - lia.
  - done.
  - done.
  - unfold tv_norm. cbn. lia.
  - repeat (constructor; [split; [cbn; lia|unfold tv_norm; cbn; lia]|]). constructor.
  - repeat (constructor; [exact eq_refl|]). constructor.
Defined.

Lemma silence_raises_witness : exists s2 ev2,
  foldM alarm_step [OpClear 1 (Timeval 100 0); OpThread 1 (Timeval 104 0); OpRaise 2 (Timeval 104 0); OpThread 1 (Timeval 105 0)]
    (ctx_fresh true) = Some s2 /\ aget (t_event_tbl s2) 1 = Some ev2 /\ ev_raised ev2 = true.
Proof.
  apply (silence_raises (ctx_fresh true) 1 (tr_event true 1 E101290_P1_1__TS_SYNC_LOSS "E101290_P1_1__TS_SYNC_LOSS" 5000)
           (Timeval 100 0) (Timeval 105 0) [OpThread 1 (Timeval 104 0); OpRaise 2 (Timeval 104 0)]).
  - apply ctx_fresh_wf.
  - lia.
  - done.
  - done.
  - unfold tv_norm. cbn. lia.
  - unfold tv_norm. cbn. lia.
  - repeat (constructor; [split; [cbn; lia|unfold tv_norm; cbn; lia]|]). constructor.
  - constructor; [by eexists|]. constructor; [|constructor]. cbn. lia.
  - vm_compute. intros H. discriminate H.
Defined.

(** An event raised at 100 s and last reported at 99 s. *)
Definition changed_event : tr_event_s :=
  event_raise (Timeval 100 0) (tr_event true 1 E101290_P1_1__TS_SYNC_LOSS "E101290_P1_1__TS_SYNC_LOSS" 5000)
  <| ev_lastReported := Timeval 99 0 |>.
Definition changed_ctx : ltntstools_tr101290_s :=
  (ctx_fresh true) <| t_event_tbl := <[1%nat := changed_event]> (t_event_tbl (ctx_fresh true)) |>.

Lemma thread_reports_once_witness : exists s',
  thread_event true (Timeval 100 50000) 1 changed_ctx = Some s' /\
  alarms s' = [report (Timeval 100 50000) changed_event].
Proof.
  destruct (thread_reports_once changed_ctx 1 changed_event (Timeval 100 50000)) as (s' & H1 & H2 & _).
  - constructor; [done| |done]. repeat (apply List.Forall_cons; [constructor; (split; [by vm_compute|exact eq_refl])|]). constructor.
  - lia.
  - done.
  - done.
  - done.
  - unfold tv_norm. cbn. lia.
  - cbn. lia.
  - exists s'. split; [exact H1|]. rewrite H2. by vm_compute.
Defined.

(** The loop over the events reads entry 16 of a table of 16 entries, in every
    turn of the thread and in both [_all] switches. *)
Lemma thread_overruns ok malloc_ok now s : len (t_event_tbl s) = 16 -> thread_turn ok malloc_ok now s = None.
Proof.
  assert (H : forall n i s, len (t_event_tbl s) = 16 -> i + Z.of_nat n = 17 -> 1 <= i <= 16 ->
    thread_events ok now n i s = None); [|intros Hl; unfold thread_turn; by rewrite H].
  assert (Hlen : forall ok i s s', len (t_event_tbl s) = 16 -> thread_event ok now i s = Some s' -> len (t_event_tbl s') = 16).
  { assert (On : forall f e s s', on_event f e s = Some s' -> len (t_event_tbl s') = len (t_event_tbl s)).
    { intros f e t t'. unfold on_event. destruct (aget _ _); [|done]. step. unfold aset. case_if; [|done]. step.
      intros [= <-]. cbn. cbv beta delta [const]. apply len_insert_Z. }
    assert (Ra : forall e s s', ltntstools_tr101290_alarm_raise s e now = Some s' -> len (t_event_tbl s') = len (t_event_tbl s)).
    { intros e t t'. unfold ltntstools_tr101290_alarm_raise. case_if; [by intros [= <-]|apply On]. }
    intros o i t t' Hl. unfold thread_event. destruct (aget (t_event_tbl t) i) as [ev|]; [|done]. step.
    destruct (ev_enabled ev); cbn [negb]; [|by intros [= <-]]. unfold p2_process_p2_2.
    destruct (ltntstools_tr101290_event_should_report t (ev_id ev)) as [[t1 r]|] eqn:E1; [|done]. step.
    assert (H1 : len (t_event_tbl t1) = 16).
    { revert E1. unfold ltntstools_tr101290_event_should_report. case_if; [by intros [= <- _]|].
      destruct (aget _ _); [|done]. step. destruct (event_should_report _) as [x y]. unfold aset. case_if; [|done]. step.
      intros [= <- _]. cbn. cbv beta delta [const]. by rewrite len_insert_Z. }
    destruct r; step.
    - destruct (on_event _ i t1) as [t2|] eqn:E2; [|done]. step. apply On in E2.
      destruct (aget (t_event_tbl t2) i); [|done]. step.
      unfold append_alarm. destruct o; cbn [negb].
      + destruct (match t_alarm_tbl t2 with Some _ => _ | None => _ end); [|done]. step.
        destruct (ltntstools_tr101290_event_priority _); [|done]. step.
        destruct (ltntstools_tr101290_event_name_ascii _); [|done]. step. cbn [negb].
        match goal with |- context [aget (t_event_tbl ?x) i] => assert (H3 : len (t_event_tbl x) = 16) by (cbn; cbv beta delta [const]; lia); revert H3; generalize x end.
        intros t3 H3. destruct (aget _ _); [|done]. step. destruct (timer_ge _ _); [intros H; apply Ra in H; lia|by intros [= <-]].
      + step. cbn [negb]. intros [= <-]. cbn. cbv beta delta [const]. lia.
    - cbn [negb]. destruct (aget _ _); [|done]. step. destruct (timer_ge _ _); [intros H; apply Ra in H; lia|by intros [= <-]]. }
  induction n as [|n IH]; intros i t Hl Hi Hr; [lia|]. cbn [thread_events].
  destruct (Z.eq_dec i 16) as [->|Hne].
  - unfold thread_event. by rewrite aget_ge by lia.
  - destruct (thread_event (ok i) now i t) as [t'|] eqn:E; [|done]. step. apply Hlen in E; [|done]. apply IH; [done|lia|lia].
Qed.

(** A raise in the same visit as a report is never reported: its time is before
    the time the report is marked with. *)
Lemma raise_not_reported : exists s1 s2,
  let ev := event_clear (Timeval 100 0) (event_raise (Timeval 10 0)
    (tr_event true 1 E101290_P1_1__TS_SYNC_LOSS "E101290_P1_1__TS_SYNC_LOSS" 5000)) <| ev_lastReported := Timeval 99 0 |> in
  let s := (ctx_fresh true) <| t_event_tbl := <[1%nat := ev]> (t_event_tbl (ctx_fresh true)) |> in
  thread_event true (Timeval 106 0) 1 s = Some s1 /\ map al_raised (alarms s1) = [false] /\
  (ev_raised <$> aget (t_event_tbl s1) 1) = Some true /\
  thread_event true (Timeval 200 0) 1 s1 = Some s2 /\ alarms s2 = alarms s1.
Proof. eexists _, _. cbv zeta. split; [by vm_compute|]. split; [by vm_compute|]. split; [by vm_compute|]. split; by vm_compute. Qed.

(** Without a callback the alarms are never removed. *)
Lemma alarms_kept_without_callback s : t_cb_notify s = false -> t_alarm_tbl s <> None -> deliver true s = Some s.
Proof.
  intros Hcb Ht. unfold deliver. case_if; [done|]. cbn [negb]. destruct (t_alarm_tbl s); [|done]. step. by rewrite Hcb.
Qed.
