(* ===== verification/Tr101290Race.v ===== *)
(** * The event table without its mutex: src/tr101290.c, tr101290-alarms.c, tr101290-events.c

    The writer and the application's switches change the entries of the event
    table under [s->mutex]; the event loop of the thread (tr101290.c:129-208)
    takes the mutex only to copy the alarms, and [reset_alarms] takes that of
    the log file.  Their accesses to an entry interleave one by one.

    An operation is therefore a program of single accesses to the fields of the
    entry, in the order of the source; the two halves of a [struct timeval] are
    two fields.  A state of the race is the entry and the programs under way;
    any of them takes the next access.  A program that runs alone has the effect
    of the operation of [Tr101290Events] (the lemmas named [.._alone]).

    Two things are taken as the machine has them and not as C defines them: an
    access to a word is indivisible, and accesses are seen in one order by all.
    C leaves a data race undefined.  The argument of an event, an array of 128
    bytes, is one field: nothing is claimed of its text while it is raced for. *)
From Stdlib Require Import ZArith Lia Bool String.
From stdpp Require Import base numbers list option.
From coqutil Require Import Datatypes.RecordSettersUsingExistingGetters.
From S2P Require Import Prelude Clock Histogram Stats Descriptor Pat Tr101290Events.

(** ** Programs of single accesses *)

(** The fields of [struct tr_event_s] that an operation reads or writes. *)
Inductive entry_field : Type -> Type :=
| f_enabled : entry_field bool
| f_raised : entry_field bool
| f_changed_sec : entry_field Z
| f_changed_usec : entry_field Z
| f_reported_sec : entry_field Z
| f_reported_usec : entry_field Z
| f_next_sec : entry_field Z
| f_next_usec : entry_field Z
| f_autoClear : entry_field Z
| f_id : entry_field Z
| f_arg : entry_field string.

Definition get {A} (f : entry_field A) (ev : tr_event_s) : A :=
  match f in entry_field A return A with
  | f_enabled => ev_enabled ev
  | f_raised => ev_raised ev
  | f_changed_sec => tv_sec (ev_lastChanged ev)
  | f_changed_usec => tv_usec (ev_lastChanged ev)
  | f_reported_sec => tv_sec (ev_lastReported ev)
  | f_reported_usec => tv_usec (ev_lastReported ev)
  | f_next_sec => tv_sec (ev_nextAlarm ev)
  | f_next_usec => tv_usec (ev_nextAlarm ev)
  | f_autoClear => ev_autoClearAlarmAfterReport ev
  | f_id => ev_id ev
  | f_arg => ev_arg ev
  end.

Definition put {A} (f : entry_field A) : A -> tr_event_s -> tr_event_s :=
  match f in entry_field A return A -> tr_event_s -> tr_event_s with
  | f_enabled => fun v ev => ev <| ev_enabled := v |>
  | f_raised => fun v ev => ev <| ev_raised := v |>
  | f_changed_sec => fun v ev => ev <| ev_lastChanged := Timeval v (tv_usec (ev_lastChanged ev)) |>
  | f_changed_usec => fun v ev => ev <| ev_lastChanged := Timeval (tv_sec (ev_lastChanged ev)) v |>
  | f_reported_sec => fun v ev => ev <| ev_lastReported := Timeval v (tv_usec (ev_lastReported ev)) |>
  | f_reported_usec => fun v ev => ev <| ev_lastReported := Timeval (tv_sec (ev_lastReported ev)) v |>
  | f_next_sec => fun v ev => ev <| ev_nextAlarm := Timeval v (tv_usec (ev_nextAlarm ev)) |>
  | f_next_usec => fun v ev => ev <| ev_nextAlarm := Timeval (tv_sec (ev_nextAlarm ev)) v |>
  | f_autoClear => fun v ev => ev <| ev_autoClearAlarmAfterReport := v |>
  | f_id => fun v ev => ev <| ev_id := v |>
  | f_arg => fun v ev => ev <| ev_arg := v |>
  end.

Inductive prog : Type :=
| Done
| Load {A : Type} (f : entry_field A) (k : A -> prog)
| Store {A : Type} (f : entry_field A) (v : A) (k : prog)
| Emit (a : ltntstools_tr101290_alarm_s) (k : prog).

Declare Scope prog_scope.
Delimit Scope prog_scope with prog.
Notation "x '<~' f ';;' k" := (Load f (fun x => k%prog)) (at level 60, f at level 50, k at level 61, right associativity) : prog_scope.
Notation "f '~>' v ';;' k" := (Store f v k%prog) (at level 60, v at level 50, k at level 61, right associativity) : prog_scope.
Open Scope prog_scope.

(** The interval of the code: it is read from the entry. *)
Definition interval (autoClear : Z) : timeval :=
  Timeval (Z.quot autoClear 1000) (Z.rem (autoClear * 1000) 1000000).

(** [timeradd(a, b, &ev->f)]: the macro works in the field itself. *)
Definition timeradd_prog (a b : timeval) (f_sec f_usec : entry_field Z) (k : prog) : prog :=
  f_sec ~> (tv_sec a + tv_sec b) ;;
  f_usec ~> (tv_usec a + tv_usec b) ;;
  u <~ f_usec ;;
  (if 1000000 <=? u then
     s <~ f_sec ;; f_sec ~> (s + 1) ;;
     u <~ f_usec ;; f_usec ~> (u - 1000000) ;; k
   else k).

(** The timer of the entry: the last lines of every operation on an alarm. *)
Definition next_prog (time_now : timeval) (k : prog) : prog :=
  a <~ f_autoClear ;; timeradd_prog time_now (interval a) f_next_sec f_next_usec k.

Definition raise_prog (time_now : timeval) (k : prog) : prog :=
  r <~ f_raised ;;
  (if (r : bool) then next_prog time_now k
   else f_raised ~> true ;;
        f_changed_sec ~> (tv_sec time_now) ;; f_changed_usec ~> (tv_usec time_now) ;;
        f_arg ~> ""%string ;; next_prog time_now k).

Definition raise_with_arg_prog (msg : string) (time_now : timeval) (k : prog) : prog :=
  r <~ f_raised ;;
  (if (r : bool) then f_arg ~> (substring 0 127 msg) ;; next_prog time_now k
   else f_raised ~> true ;;
        f_changed_sec ~> (tv_sec time_now) ;; f_changed_usec ~> (tv_usec time_now) ;;
        f_arg ~> (substring 0 127 msg) ;; next_prog time_now k).

Definition clear_prog (time_now : timeval) (k : prog) : prog :=
  r <~ f_raised ;;
  (if (r : bool) then
     a <~ f_autoClear ;; s <~ f_changed_sec ;; u <~ f_changed_usec ;;
     (if timer_ge time_now (timeradd (interval a) (Timeval s u)) then
        f_raised ~> false ;;
        f_changed_sec ~> (tv_sec time_now) ;; f_changed_usec ~> (tv_usec time_now) ;;
        f_arg ~> ""%string ;; next_prog time_now k
      else next_prog time_now k)
   else next_prog time_now k).

(** [timercmp(&ev->lastReported, &ev->lastChanged, >=)]: the seconds are read
    for the test and once more for the answer. *)
Definition should_report_test (k : bool -> prog) : prog :=
  rs <~ f_reported_sec ;; cs <~ f_changed_sec ;;
  (if rs =? cs then ru <~ f_reported_usec ;; cu <~ f_changed_usec ;; k (negb (cu <=? ru))
   else rs <~ f_reported_sec ;; cs <~ f_changed_sec ;; k (negb (cs <=? rs))).

(** [ltntstools_tr101290_event_should_report]; the time [nextReport] it
    computes is not used. *)
Definition should_report_prog (k : bool -> prog) : prog :=
  en <~ f_enabled ;;
  (if negb en then k false else
   rs <~ f_reported_sec ;;
   (if rs =? 0 then cs <~ f_changed_sec ;; f_reported_sec ~> (cs - 1) ;; should_report_test k
    else should_report_test k)).

(** The alarm of the application; [continue] when the table cannot grow. *)
Definition report_prog (ok : bool) (now : timeval) (next : prog) : prog :=
  timeradd_prog now (Timeval 0 (1 * 1000)) f_reported_sec f_reported_usec
    (if negb ok then Done else
     id <~ f_id ;; r <~ f_raised ;; arg <~ f_arg ;;
     Emit {| al_id := id;
             al_priorityNr := match ltntstools_tr101290_event_priority id with Some p => p | None => 0 end;
             al_timestamp := now; al_raised := r;
             al_description := match ltntstools_tr101290_event_name_ascii id with
                               | Some n => substring 0 255 n | None => "" end;
             al_arg := arg |} next).

(** [timercmp(&now, &ev->nextAlarm, >=)] and the raise. *)
Definition due_prog (now : timeval) : prog :=
  s <~ f_next_sec ;;
  (if tv_sec now =? s then u <~ f_next_usec ;; (if u <=? tv_usec now then raise_prog now Done else Done)
   else s <~ f_next_sec ;; (if s <=? tv_sec now then raise_prog now Done else Done)).

(** The body of the event loop for the entry.  The periodic status report and
    its log only read. *)
Definition visit_prog (ok : bool) (now : timeval) : prog :=
  en <~ f_enabled ;;
  (if negb en then Done else
   should_report_prog (fun r => if (r : bool) then report_prog ok now (due_prog now) else due_prog now)).

(** ** The operations that race for an entry *)

Inductive race_op :=
| RRaise (t : timeval)
| RRaiseArg (msg : string) (t : timeval)
| RClear (t : timeval)
| RVisit (ok : bool) (t : timeval)
| REnable (on : bool)
| RForceClear.

Definition prog_of (op : race_op) : prog :=
  match op with
  | RRaise t => raise_prog t Done
  | RRaiseArg msg t => raise_with_arg_prog msg t Done
  | RClear t => clear_prog t Done
  | RVisit ok t => visit_prog ok t
  | REnable on => f_enabled ~> on ;; Done
  | RForceClear => f_raised ~> false ;; Done
  end.

(** One access. *)
Definition access (p : prog) (ev : tr_event_s) : prog * tr_event_s * list ltntstools_tr101290_alarm_s :=
  match p with
  | Done => (Done, ev, [])
  | Load f k => (k (get f ev), ev, [])
  | Store f v k => (k, put f v ev, [])
  | Emit a k => (k, ev, [a])
  end.

Record race := { r_entry : tr_event_s; r_active : list prog; r_alarms : list ltntstools_tr101290_alarm_s }.

(** What happens next: an operation begins, or the [i]th one takes its next
    access. *)
Inductive race_event := Begin (op : race_op) | Access (i : nat).

Definition race_step (s : race) (e : race_event) : race :=
  match e with
  | Begin op => s <| r_active := r_active s ++ [prog_of op] |>
  | Access i =>
      match r_active s !! i with
      | Some p => let '(p', ev, new) := access p (r_entry s) in
                  {| r_entry := ev; r_active := <[i := p']> (r_active s); r_alarms := r_alarms s ++ new |}
      | None => s
      end
  end.

Definition race_run : race -> list race_event -> race := foldl race_step.

(** A program run alone to its end. *)
Fixpoint alone (p : prog) (ev : tr_event_s) : tr_event_s * list ltntstools_tr101290_alarm_s :=
  match p with
  | Done => (ev, [])
  | Load f k => alone (k (get f ev)) ev
  | Store f v k => alone k (put f v ev)
  | Emit a k => let '(ev, l) := alone k ev in (ev, a :: l)
  end.

(** What is left of a program under way, whatever it read. *)
Inductive under_way : prog -> prog -> Prop :=
| uw_here p : under_way p p
| uw_load {A} (f : entry_field A) k v q : under_way (k v) q -> under_way (Load f k) q
| uw_store {A} (f : entry_field A) v k q : under_way k q -> under_way (Store f v k) q
| uw_emit a k q : under_way k q -> under_way (Emit a k) q.

(** ** Alone, a program is the operation *)

Lemma interval_linger ev : interval (ev_autoClearAlarmAfterReport ev) = linger ev.
Proof. done. Qed.

Ltac fields := cbn; cbv beta delta [const]; try done.

Lemma next_alone t k ev : alone (next_prog t k) ev = alone k (ev <| ev_nextAlarm := timeradd t (linger ev) |>).
Proof. unfold next_prog, timeradd. rewrite <- interval_linger. fields. by case_if. Qed.

Lemma raise_alone t k ev : alone (raise_prog t k) ev = alone k (event_raise t ev).
Proof.
  unfold raise_prog, event_raise. cbn [alone get]. destruct (ev_raised ev); cbn [alone put]; rewrite next_alone; [done|].
  by destruct t.
Qed.

Lemma raise_with_arg_alone msg t k ev :
  alone (raise_with_arg_prog msg t k) ev = alone k (event_raise_with_arg msg t ev).
Proof.
  unfold raise_with_arg_prog, event_raise_with_arg. cbn [alone get].
  destruct (ev_raised ev); cbn [alone put]; rewrite next_alone; [done|]. by destruct t.
Qed.

Lemma clear_alone t k ev : alone (clear_prog t k) ev = alone k (event_clear t ev).
Proof.
  unfold clear_prog, event_clear. cbn [alone get]. destruct (ev_raised ev); cbn [alone get put]; [|by rewrite next_alone].
  rewrite interval_linger. destruct (ev_lastChanged ev) as [s u] eqn:E. cbn [tv_sec tv_usec].
  destruct (timer_ge t _); cbn [alone put]; rewrite next_alone; [|done]. by destruct t.
Qed.

Lemma due_alone t ev :
  alone (due_prog t) ev = (if timer_ge t (ev_nextAlarm ev) then event_raise t ev else ev, []).
Proof.
  unfold due_prog, timer_ge. cbn [alone get]. case_if; cbn [alone get]; case_if; by rewrite ?raise_alone.
Qed.

Lemma should_report_alone k ev : ev_enabled ev = true ->
  alone (should_report_prog k) ev = let '(ev, r) := event_should_report ev in alone (k r) ev.
Proof.
  intros Hen. unfold should_report_prog, event_should_report, should_report_test, timer_ge.
  cbn [alone get]. rewrite Hen. cbn [negb alone get].
  destruct (tv_sec (ev_lastReported ev) =? 0); fields;
    match goal with |- context [if ?b then _ else _] => destruct b end; fields.
Qed.

Lemma reported_time_alone t k ev :
  alone (timeradd_prog t (Timeval 0 (1 * 1000)) f_reported_sec f_reported_usec k) ev =
  alone k (ev <| ev_lastReported := timeradd t (Timeval 0 1000) |>).
Proof.
  unfold timeradd_prog, timeradd. cbn [alone get put tv_sec tv_usec]. change (1 * 1000) with 1000.
  cbn. cbv beta delta [const].
  destruct (1000000 <=? tv_usec t + 1000); reflexivity.
Qed.

(** A visit that nothing overlaps is the operation of the other file: the
    entry it leaves and the alarm it appends. *)
Lemma visit_alone t ev : alone (visit_prog true t) ev = (thread_entry t ev, alarm_of t ev).
Proof.
  unfold visit_prog, thread_entry, alarm_of, reported. cbn [alone get].
  destruct (ev_enabled ev) eqn:Hen; cbn [negb andb]; [|done]. rewrite should_report_alone by done.
  destruct (event_should_report ev) as [ev1 r] eqn:Er. cbn [fst snd].
  destruct r; cbn [fst snd]; [|by rewrite due_alone].
  assert (K : ev_id ev1 = ev_id ev /\ ev_raised ev1 = ev_raised ev /\ ev_arg ev1 = ev_arg ev).
  { revert Er. unfold event_should_report. rewrite Hen. cbn [negb]. intros [= <- _]. by case_if. }
  destruct K as (K1 & K2 & K3). unfold report_prog. rewrite reported_time_alone. cbn [negb alone get].
  rewrite due_alone. fields. by rewrite K1, K2, K3.
Qed.

(** ** What every interleaving keeps

    [keeps I p]: no store of [p] breaks [I], if the loads see entries of [I]. *)
Fixpoint keeps (I : tr_event_s -> Prop) (p : prog) : Prop :=
  match p with
  | Done => True
  | Load f k => forall ev, I ev -> keeps I (k (get f ev))
  | Store f v k => (forall ev, I ev -> I (put f v ev)) /\ keeps I k
  | Emit _ k => keeps I k
  end.

(** [stores I p]: no store of [p] breaks [I], whatever the loads see. *)
Fixpoint stores (I : tr_event_s -> Prop) (p : prog) : Prop :=
  match p with
  | Done => True
  | Load f k => forall v, stores I (k v)
  | Store f v k => (forall ev, I ev -> I (put f v ev)) /\ stores I k
  | Emit _ k => stores I k
  end.

Lemma stores_keeps I p : stores I p -> keeps I p.
Proof. induction p as [|A f k IH|A f v k IH|a k IH]; cbn; intuition auto. Qed.

Lemma stores_under_way I p q : under_way p q -> stores I p -> stores I q.
Proof. induction 1; cbn; intuition auto. Qed.

Lemma keeps_access I p ev : I ev -> keeps I p -> let '(p', ev', _) := access p ev in I ev' /\ keeps I p'.
Proof. destruct p; cbn; intuition auto. Qed.

Definition begins_ok (I : tr_event_s -> Prop) (e : race_event) : Prop :=
  match e with Begin op => keeps I (prog_of op) | Access _ => True end.

Lemma keeps_race I es : forall s, I (r_entry s) -> Forall (keeps I) (r_active s) -> Forall (begins_ok I) es ->
  I (r_entry (race_run s es)) /\ Forall (keeps I) (r_active (race_run s es)).
Proof.
  induction es as [|e es IH]; intros s Hi Hp Hes; [done|]. inversion Hes as [|? ? He Hes']; subst.
  unfold race_run. cbn [foldl]. enough (I (r_entry (race_step s e)) /\ Forall (keeps I) (r_active (race_step s e))) as [H1 H2]
    by (by apply IH). destruct e as [op|i]; cbn [race_step].
  - split; [exact Hi|]. fields. apply Forall_app. split; [done|]. by apply Forall_singleton.
  - destruct (r_active s !! i) as [p|] eqn:E; [|done]. assert (Hk := keeps_access I p (r_entry s) Hi).
    destruct (access p (r_entry s)) as [[p' ev'] new]. destruct Hk as [H1 H2]; [by eapply Forall_lookup_1|].
    split; [exact H1|]. fields. by apply Forall_insert.
Qed.

(** ** A raised entry is kept *)

(** The entry is raised and was not changed before second [m]; [a] is its
    linger time in milliseconds, which nothing changes. *)
Record held (m a : Z) (ev : tr_event_s) : Prop := {
  h_raised : ev_raised ev = true;
  h_changed : m <= tv_sec (ev_lastChanged ev);
  h_auto : ev_autoClearAlarmAfterReport ev = a
}.

(** What may begin: raises and visits from second [m] on, requests to clear
    that carry a second before [m] and the linger time, and the switch. *)
Definition op_allowed (m a : Z) (op : race_op) : Prop :=
  match op with
  | RRaise t | RRaiseArg _ t | RVisit _ t => m <= tv_sec t
  | RClear t => tv_sec t < m + Z.quot a 1000
  | REnable _ => True
  | RForceClear => False
  end.

Definition is_clear (op : race_op) : bool :=
  match op with RClear _ | RForceClear => true | _ => false end.

Definition event_allowed (m a : Z) (e : race_event) : Prop :=
  match e with Begin op => op_allowed m a op | Access _ => True end.

Section Held.
Context (m a : Z).

Lemma timeradd_stores t b f_sec f_usec k :
  (forall v ev, held m a ev -> held m a (put f_sec v ev)) ->
  (forall v ev, held m a ev -> held m a (put f_usec v ev)) ->
  stores (held m a) k -> stores (held m a) (timeradd_prog t b f_sec f_usec k).
Proof. intros Hs Hu Hk. cbn. do 2 (split; [auto|]). intros v. case_if; cbn; auto. Qed.

Ltac still_held := let ev := fresh in intros ev []; constructor; fields; lia.

Lemma next_stores t k : stores (held m a) k -> stores (held m a) (next_prog t k).
Proof.
  intros Hk. intros v. apply timeradd_stores; [intros w; still_held|intros w; still_held|done].
Qed.

Lemma raise_stores t k : m <= tv_sec t -> stores (held m a) k -> stores (held m a) (raise_prog t k).
Proof.
  intros Ht Hk v. destruct v; [by apply next_stores|]. do 4 (split; [still_held|]). by apply next_stores.
Qed.

Lemma raise_with_arg_stores msg t k : m <= tv_sec t -> stores (held m a) k ->
  stores (held m a) (raise_with_arg_prog msg t k).
Proof.
  intros Ht Hk v. destruct v; [split; [still_held|]; by apply next_stores|]. do 4 (split; [still_held|]). by apply next_stores.
Qed.

Lemma due_stores t : m <= tv_sec t -> stores (held m a) (due_prog t).
Proof. intros Ht s. case_if; intros u; case_if; [by apply raise_stores|done|by apply raise_stores|done]. Qed.

Lemma report_stores ok t next : stores (held m a) next -> stores (held m a) (report_prog ok t next).
Proof. intros Hn. apply timeradd_stores; [intros w; still_held|intros w; still_held|]. destruct ok; [by intros id r arg|done]. Qed.

Lemma should_report_stores k : (forall r, stores (held m a) (k r)) -> stores (held m a) (should_report_prog k).
Proof.
  intros Hk en. case_if; [done|]. assert (T : stores (held m a) (should_report_test k)).
  { intros rs cs. case_if; intros u w; apply Hk. }
  intros rs. case_if; [|done]. intros cs. split; [still_held|done].
Qed.

Lemma visit_stores ok t : m <= tv_sec t -> stores (held m a) (visit_prog ok t).
Proof.
  intros Ht en. case_if; [done|]. apply should_report_stores. intros r.
  destruct r; [apply report_stores|]; by apply due_stores.
Qed.

(** A request to clear that comes too early stores nothing but the timer:
    the one load that matters sees an entry of the invariant. *)
Lemma clear_keeps t : tv_sec t < m + Z.quot a 1000 -> keeps (held m a) (clear_prog t Done).
Proof.
  intros Ht. assert (N : keeps (held m a) (next_prog t Done)) by by apply stores_keeps, next_stores.
  intros ev1 H1. destruct (get f_raised ev1); [|done]. intros ev2 [_ _ H2] ev3 [_ H3 _] ev4 _. cbn [get] in *.
  subst a. unfold timer_ge, timeradd, interval. cbn [tv_sec tv_usec].
  destruct (1000000 <=? _); cbn [tv_sec tv_usec]; rewrite (proj2 (Z.eqb_neq _ _)) by lia;
    rewrite (proj2 (Z.leb_gt _ _)) by lia; exact N.
Qed.

Lemma allowed_stores op : op_allowed m a op -> is_clear op = false -> stores (held m a) (prog_of op).
Proof.
  destruct op; intros H Hc; [by apply raise_stores|by apply raise_with_arg_stores|done|by apply visit_stores| |done].
  split; [still_held|done].
Qed.

Lemma allowed_keeps op : op_allowed m a op -> keeps (held m a) (prog_of op).
Proof.
  intros H. destruct (is_clear op) eqn:E; [|by apply stores_keeps, allowed_stores].
  destruct op; try done. by apply clear_keeps.
Qed.
End Held.

Lemma access_alone p ev ps l n :
  race_run {| r_entry := ev; r_active := ps ++ [p]; r_alarms := l |} (replicate (S n) (Access (length ps))) =
  race_run {| r_entry := (access p ev).1.2; r_active := ps ++ [(access p ev).1.1]; r_alarms := l ++ (access p ev).2 |}
    (replicate n (Access (length ps))).
Proof.
  cbn [replicate race_run foldl race_step r_active r_entry r_alarms]. unfold race_run. rewrite list_lookup_middle by done.
  destruct (access p ev) as [[p' ev'] new]. cbn [fst snd]. by rewrite insert_app_r_alt, Nat.sub_diag by lia.
Qed.

(** A program that nothing interrupts: as many accesses as it takes. *)
Lemma race_alone p : forall ev ps l, exists n,
  race_run {| r_entry := ev; r_active := ps ++ [p]; r_alarms := l |} (replicate n (Access (length ps))) =
  {| r_entry := (alone p ev).1; r_active := ps ++ [Done]; r_alarms := l ++ (alone p ev).2 |}.
Proof.
  induction p as [|A f k IH|A f v k IH|a k IH]; intros ev ps l.
  - exists 0%nat. cbn. by rewrite app_nil_r.
  - destruct (IH (get f ev) ev ps l) as [n Hn]. exists (S n). by rewrite access_alone, app_nil_r.
  - destruct (IH (put f v ev) ps l) as [n Hn]. exists (S n). by rewrite access_alone, app_nil_r.
  - destruct (IH ev ps (l ++ [a])) as [n Hn]. exists (S n). rewrite access_alone. cbn [access fst snd alone].
    rewrite Hn. destruct (alone k ev). cbn [fst snd]. by rewrite <- app_assoc.
Qed.

(** ** Properties *)


(** Without the condition that no request to clear is under way a raise can be
    lost: the request sees the flag of the raise and the time of the change
    before it.  Both are done in second 100, and the event is not raised. *)
Lemma raise_lost :
  let ev := (tr_event true 1 E101290_P1_1__TS_SYNC_LOSS "E101290_P1_1__TS_SYNC_LOSS" 5000)
            <| ev_lastChanged := Timeval 10 0 |> in
  let t := Timeval 100 0 in
  let raise n := replicate n (Access 0) in
  let clear n := replicate n (Access 1) in
  let s := race_run {| r_entry := ev; r_active := []; r_alarms := [] |}
             ([Begin (RRaise t); Begin (RClear t)] ++ raise 2%nat ++ clear 5%nat ++ raise 20%nat ++ clear 20%nat) in
  r_active s = [Done; Done] /\ ev_raised (r_entry s) = false /\
  ev_raised (event_clear t (event_raise t ev)) = true /\ ev_raised (event_raise t (event_clear t ev)) = true.
Proof. by vm_compute. Qed.

(** The entry of P1.1 raised at 100.9 s; a raise of the writer, a visit of the
    thread that was under way and an early request to clear run access by
    access in turn. *)
Definition raised_entry : tr_event_s :=
  event_raise (Timeval 100 900000) (tr_event true 1 E101290_P1_1__TS_SYNC_LOSS "E101290_P1_1__TS_SYNC_LOSS" 5000).

Definition raised_race : race :=
  {| r_entry := raised_entry; r_active := [visit_prog true (Timeval 100 950000)]; r_alarms := [] |}.

Definition raised_events : list race_event :=
  [Begin (RRaise (Timeval 101 0)); Begin (RClear (Timeval 104 999999))] ++
  concat (replicate 20 [Access 0; Access 2; Access 1; Access 2]).


(** The run ends all three programs: the alarm is reported once, raised. *)
Lemma raised_events_end : r_active (race_run raised_race raised_events) = [Done; Done; Done] /\
  map al_raised (r_alarms (race_run raised_race raised_events)) = [true].
Proof. by vm_compute. Qed.
