(* ===== verification/Tr101290.v ===== *)
(** * TR 101 290 analysis: src/tr101290-p1.c, tr101290-p2.c, the timer handler
    of tr101290-timers.c and the write path of tr101290.c

    The analyser of a transport stream: the counters of Stats, the tables of a
    stream model, and the events of Tr101290Events.  The stream model is an
    interface: an instance gives what a write reports and what a query returns.
    The printing and the log are not modelled. *)
From Stdlib Require Import ZArith Lia Bool String.
From stdpp Require Import base numbers list option gmap.
From coqutil Require Import Datatypes.RecordSettersUsingExistingGetters.
From S2P Require Import Prelude Ts Clock Histogram Stats StatsSpec StatsQuery Descriptor Pat Tr101290Events.

(** ** The stream model *)

Definition STREAMMODEL_CB_CRC_STATUS : Z := 1.
Definition CRC_ARG_INVALID : Z := 0.
Definition STREAMMODEL_CB_CONTEXT_PAT : Z := 1.
Definition STREAMMODEL_CB_CONTEXT_PMT : Z := 2.
Definition STREAMMODEL_CB_CONTEXT_CAT : Z := 3.
Definition STREAMMODEL_CB_CONTEXT_SDT : Z := 4.
Definition STREAMMODEL_CB_CONTEXT_BAT : Z := 5.
Definition STREAMMODEL_CB_CONTEXT_NIT : Z := 6.
Definition STREAMMODEL_CB_CONTEXT_TOT : Z := 7.
Definition STREAMMODEL_CB_CONTEXT_EIT : Z := 8.

Record streammodel_callback_args_s := { cb_status : Z; cb_context : Z; cb_arg : Z }.

(** [sm_write]: the callbacks made during the write, in their order, and the
    [complete] result; [sm_query]: the model, or none. *)
Class StreamModel := {
  sm_state : Type;
  sm_write : sm_state -> list Z -> Z -> timeval -> sm_state * list streammodel_callback_args_s * bool;
  sm_query : sm_state -> sm_state * option ltntstools_pat_s
}.

(** The readings of the clock and the allocations of one write: those of the
    statistics, those of [p2_process_pat_model] for each program, the two
    [time(NULL)] of [p1_process_p1_56] and the copy of the PAT. *)
Record write_env := {
  w_stats : env;
  w_pcr : Z -> env;
  w_time : Z;
  w_complete_time : Z;
  w_clone_ok : bool
}.

(** ** The loop over the packets of a buffer *)

(** The body gets [&buf[i * 188]], the buffer from packet [i] on. *)
Fixpoint packet_loop {T} (f : T -> list Z -> option T) (n : nat) (i : Z) (buf : list Z) (s : T) : option T :=
  match n with
  | O => Some s
  | S n' =>
      if i * 188 + 188 <=? len buf then
        s ← f s (drop (Z.to_nat (i * 188)) buf);
        packet_loop f n' (i + 1) buf s
      else None
  end.

Definition packet_fold {T} (f : T -> list Z -> option T) (packetCount : Z) (buf : list Z) (s : T) : option T :=
  packet_loop f (Z.to_nat packetCount) 0 buf s.

(** ** P1.1 and P1.2: synchronisation *)

Definition SYNC_LOSS_THRESHOLD : Z := 2.

Definition p1_sync_packet (time_now : timeval) (s : ltntstools_tr101290_s) (pkt : list Z)
    : option ltntstools_tr101290_s :=
  if negb (ltntstools_sync_present pkt =? 0) then
    let s := s <| t_consecutiveSyncBytes := t_consecutiveSyncBytes s + 1 |> <| t_consecutiveSyncErrors := 0 |> in
    s ← (if 5 <? t_consecutiveSyncBytes s then
           s ← ltntstools_tr101290_alarm_clear s E101290_P1_2__SYNC_BYTE_ERROR time_now;
           ltntstools_tr101290_alarm_clear s E101290_P1_1__TS_SYNC_LOSS time_now
         else Some s);
    Some (if 50000 <=? t_consecutiveSyncBytes s then s <| t_consecutiveSyncBytes := 16 |> else s)
  else
    errors ← int_incr (t_consecutiveSyncErrors s);
    let s := s <| t_consecutiveSyncBytes := 0 |> <| t_consecutiveSyncErrors := errors |> in
    s ← ltntstools_tr101290_alarm_raise s E101290_P1_2__SYNC_BYTE_ERROR time_now;
    if SYNC_LOSS_THRESHOLD <=? t_consecutiveSyncErrors s
    then ltntstools_tr101290_alarm_raise s E101290_P1_1__TS_SYNC_LOSS time_now
    else Some s.

(** ** P1.3: PAT *)

(** The first loop: the number of issues, and whether there was a PAT. *)
Definition p1_3_packet '((patIssue, gotPAT) : Z * bool) (pkt : list Z) : option (Z * bool) :=
  if ltntstools_pid pkt =? 0 then
    tableid ← ltntstools_get_section_tableid pkt;
    let patIssue := if negb (tableid =? 0) then patIssue + 1 else patIssue in
    let patIssue := if negb (ltntstools_transport_scrambling_control pkt =? 0) then patIssue + 1 else patIssue in
    Some (patIssue, true)
  else Some (patIssue, gotPAT).

(** Half a second after [tv]. *)
Definition half_second_after (tv : timeval) : timeval := timeradd tv (Timeval 0 (500 * 1000)).

(** Two events, raised or cleared together. *)
Definition raise_two (e1 e2 : Z) (time_now : timeval) (s : ltntstools_tr101290_s) : option ltntstools_tr101290_s :=
  s ← ltntstools_tr101290_alarm_raise s e1 time_now; ltntstools_tr101290_alarm_raise s e2 time_now.
Definition clear_two (e1 e2 : Z) (time_now : timeval) (s : ltntstools_tr101290_s) : option ltntstools_tr101290_s :=
  s ← ltntstools_tr101290_alarm_clear s e1 time_now; ltntstools_tr101290_alarm_clear s e2 time_now.

Definition p1_process_p1_3 (s : ltntstools_tr101290_s) (buf : list Z) (packetCount : Z) (time_now : timeval)
    : option ltntstools_tr101290_s :=
  '(patIssue, gotPAT) ← packet_fold p1_3_packet packetCount buf (0, false);
  let patIssue := if negb gotPAT && timer_ge time_now (half_second_after (t_lastPAT s))
                  then patIssue + 1 else patIssue in
  let s := if (gotPAT : bool) then s <| t_lastPAT := time_now |> else s in
  if negb (patIssue =? 0)
  then raise_two E101290_P1_3__PAT_ERROR E101290_P1_3a__PAT_ERROR_2 time_now s
  else clear_two E101290_P1_3__PAT_ERROR E101290_P1_3a__PAT_ERROR_2 time_now s.

(** ** P1.4: continuity *)

Definition p1_process_p1_4 (s : ltntstools_tr101290_s) (time_now : timeval) : option ltntstools_tr101290_s :=
  let count := ltntstools_pid_stats_stream_get_cc_errors (t_streamStatistics s) in
  s ← (if negb (t_CCCounterLastWrite s =? count)
       then ltntstools_tr101290_alarm_raise s E101290_P1_4__CONTINUITY_COUNTER_ERROR time_now
       else ltntstools_tr101290_alarm_clear s E101290_P1_4__CONTINUITY_COUNTER_ERROR time_now);
  Some (s <| t_CCCounterLastWrite := count |>).

(** ** P1.6: the PIDs of the tables *)

(** 1: a packet of the PID within five seconds. *)
Definition isPIDActive (s : ltntstools_tr101290_s) (pidNr now : Z) : Z :=
  let ptv := ltntstools_pid_stats_pid_get_last_update (t_streamStatistics s) pidNr in
  if ptv <=? now - 5 then 0 else 1.

(** The issues and the message of 255 characters at most. *)
Definition check_active (s : ltntstools_tr101290_s) (now : Z) '((raiseIssue, msg) : Z * string) (pid : Z)
    : Z * string :=
  if isPIDActive s (u16 pid) now =? 0
  then (raiseIssue + 1, substring 0 255 (msg ++ "0x" ++ printf_04x pid ++ " "))
  else (raiseIssue, msg).

Definition p1_6_program (s : ltntstools_tr101290_s) (now : Z) (acc : Z * string) (prg : ltntstools_pat_program_s)
    : option (Z * string) :=
  let acc := check_active s now acc (pp_program_map_PID prg) in
  fold_in (fun acc strm => Some (check_active s now acc (es_elementary_PID strm)))
    (pm_streams (pp_pmt prg)) (pm_stream_count (pp_pmt prg)) acc.

Definition p1_process_p1_6 (s : ltntstools_tr101290_s) (pat : ltntstools_pat_s) (time_now : timeval) (now : Z)
    : option ltntstools_tr101290_s :=
  '(raiseIssue, msg) ← fold_in (p1_6_program s now) (pa_programs pat) (pa_program_count pat) (0, ""%string);
  if raiseIssue =? 0
  then ltntstools_tr101290_alarm_clear s E101290_P1_6__PID_ERROR time_now
  else ltntstools_tr101290_alarm_raise_with_arg s E101290_P1_6__PID_ERROR msg time_now.

(** ** P2: PCR, CRC, transport errors, CAT *)

(** The PIDs that carry a PCR are declared to the statistics. *)
Definition p2_pat_program (E : write_env) (i : Z) (prg : ltntstools_pat_program_s) (s : ltntstools_tr101290_s)
    : option ltntstools_tr101290_s :=
  let pid := pm_PCR_PID (pp_pmt prg) in
  if pid =? 0 then Some s else
  st ← t_streamStatistics s;
  Some (s <| t_streamStatistics := Some (ltntstools_pid_stats_pid_set_contains_pcr (w_pcr E i) (u16 pid) st) |>).

Fixpoint p2_pat_loop (E : write_env) (pat : ltntstools_pat_s) (n : nat) (i : Z) (s : ltntstools_tr101290_s)
    : option ltntstools_tr101290_s :=
  match n with
  | O => Some s
  | S n' => prg ← aget (pa_programs pat) i; s ← p2_pat_program E i prg s; p2_pat_loop E pat n' (i + 1) s
  end.

Definition p2_process_pat_model (E : write_env) (s : ltntstools_tr101290_s) (pat : ltntstools_pat_s)
    : option ltntstools_tr101290_s :=
  p2_pat_loop E pat (Z.to_nat (pa_program_count pat)) 0 s.

Definition raise_alarm_p2_table (s : ltntstools_tr101290_s) (tv : timeval) : bool :=
  timer_ge (t_now s) (half_second_after tv).

(** The time of the table and the name of the message. *)
Definition p2_table (context : Z) (now : timeval) (p2 : tr_p2_s) : option (tr_p2_s * string) :=
  if context =? STREAMMODEL_CB_CONTEXT_PAT then Some (p2 <| lastPAT2 := now |>, "PAT"%string)
  else if context =? STREAMMODEL_CB_CONTEXT_PMT then Some (p2 <| lastPMT := now |>, "PMT"%string)
  else if context =? STREAMMODEL_CB_CONTEXT_CAT then Some (p2 <| lastCAT := now |>, "CAT"%string)
  else if context =? STREAMMODEL_CB_CONTEXT_SDT then Some (p2 <| lastSDT := now |>, "SDT"%string)
  else if context =? STREAMMODEL_CB_CONTEXT_BAT then Some (p2 <| lastBAT := now |>, "BAT"%string)
  else if context =? STREAMMODEL_CB_CONTEXT_NIT then Some (p2 <| lastNIT := now |>, "NIT"%string)
  else if context =? STREAMMODEL_CB_CONTEXT_TOT then Some (p2 <| lastTOT := now |>, "TOT"%string)
  else if context =? STREAMMODEL_CB_CONTEXT_EIT then Some (p2 <| lastEIT := now |>, "EIT"%string)
  else None.

Definition p2_streammodel_callback (s : ltntstools_tr101290_s) (args : streammodel_callback_args_s)
    : option ltntstools_tr101290_s :=
  if negb (cb_status args =? STREAMMODEL_CB_CRC_STATUS) then Some s else
  match p2_table (cb_context args) (t_now s) (t_p2 s) with
  | None => Some s
  | Some (p2, name) =>
      let s := s <| t_p2 := p2 |> in
      if cb_arg args =? CRC_ARG_INVALID
      then ltntstools_tr101290_alarm_raise_with_arg s E101290_P2_2__CRC_ERROR name (t_now s)
      else ltntstools_tr101290_alarm_clear s E101290_P2_2__CRC_ERROR (t_now s)
  end.

(** The PIDs with a violation, in [arr].  The message stays empty: the size
    passed to [snprintf] is [s - strlen(msg)] with [s = strlen(msg)], zero. *)
Definition p2_3_packet (st : ltntstools_stream_statistics_s) (arr : list Z) (pkt : list Z) : option (list Z) :=
  let pid := ltntstools_pid pkt in
  if ltntstools_pid_stats_pid_get_contains_pcr pid st =? 0 then Some arr else
  if ltntstools_pid_stats_pid_did_violate_pcr_timing pid st then
    if existsb (Z.eqb pid) arr then Some arr
    else if len arr <? 32 then Some (arr ++ [pid]) else None
  else Some arr.

Definition p2_process_p2_3 (s : ltntstools_tr101290_s) (buf : list Z) (packetCount : Z) (time_now : timeval)
    : option ltntstools_tr101290_s :=
  if 31 <=? packetCount then Some s else
  st ← t_streamStatistics s;
  arr ← packet_fold (p2_3_packet st) packetCount buf [];
  if negb (len arr =? 0) then
    s ← ltntstools_tr101290_alarm_raise_with_arg s E101290_P2_3__PCR_ERROR "" time_now;
    ltntstools_tr101290_alarm_raise_with_arg s E101290_P2_3a__PCR_REPETITION_ERROR "" time_now
  else clear_two E101290_P2_3__PCR_ERROR E101290_P2_3a__PCR_REPETITION_ERROR time_now s.

(** P2.1 and P2.6. *)
Definition p2_tei (s : ltntstools_tr101290_s) (time_now : timeval) : option ltntstools_tr101290_s :=
  if negb (t_preTEIErrors s =? ltntstools_pid_stats_stream_get_tei_errors (t_streamStatistics s))
  then ltntstools_tr101290_alarm_raise s E101290_P2_1__TRANSPORT_ERROR time_now
  else ltntstools_tr101290_alarm_clear s E101290_P2_1__TRANSPORT_ERROR time_now.

Definition p2_cat (s : ltntstools_tr101290_s) (time_now : timeval) : option ltntstools_tr101290_s :=
  if raise_alarm_p2_table s (lastCAT (t_p2 s)) &&
     negb (t_preScrambledCount s =? ltntstools_pid_stats_stream_get_scrambled_count (t_streamStatistics s))
  then ltntstools_tr101290_alarm_raise s E101290_P2_6__CAT_ERROR time_now
  else ltntstools_tr101290_alarm_clear s E101290_P2_6__CAT_ERROR time_now.

Definition p2_write (s : ltntstools_tr101290_s) (buf : list Z) (packetCount : Z) (time_now : timeval)
    : option ltntstools_tr101290_s :=
  let s := s <| t_now := time_now |> in
  s ← p2_tei s time_now;
  s ← p2_cat s time_now;
  p2_process_p2_3 s buf packetCount time_now.

(** ** P1.5: the PMTs *)

(** 0: half a second has passed. *)
Definition timer_expired (s : ltntstools_tr101290_s) (tv : timeval) : Z :=
  if timer_ge (t_now s) (half_second_after tv) then 0 else 1.

(** The PIDs of the PMTs, with the time of the model. *)
Fixpoint pmt_array_loop (pat : ltntstools_pat_s) (time_now : timeval) (n : nat) (i : Z) (s : ltntstools_tr101290_s)
    : option ltntstools_tr101290_s :=
  match n with
  | O => Some s
  | S n' =>
      prg ← aget (pa_programs pat) i;
      if pp_program_number prg =? 0 then pmt_array_loop pat time_now n' (i + 1) s else
      arr ← aset (t_lastPMTArray s) (t_lastPMTArrayIndex s)
              {| tp_pmtpid := pp_program_map_PID prg; tp_lastChanged := time_now |};
      let s := s <| t_lastPMTArray := arr |> <| t_lastPMTArrayIndex := t_lastPMTArrayIndex s + 1 |> in
      if t_lastPMTArrayIndex s =? PMT_ARRAY_SIZE then Some s else pmt_array_loop pat time_now n' (i + 1) s
  end.

(** A complete model is taken over. *)
Definition take_model (E : write_env) (pat : ltntstools_pat_s) (time_now : timeval) (s : ltntstools_tr101290_s)
    : option ltntstools_tr101290_s :=
  let s := s <| t_cachedPAT := ltntstools_pat_clone (w_clone_ok E) (Some pat) |>
             <| t_lastCompleteTime := w_complete_time E |> <| t_lastPMTArrayIndex := 0 |> in
  pmt_array_loop pat time_now (Z.to_nat (pa_program_count pat)) 0 s.

Definition check_model (E : write_env) (time_now : timeval) (s : ltntstools_tr101290_s)
    : option ltntstools_tr101290_s :=
  match t_cachedPAT s with
  | None => Some s
  | Some pat =>
      s ← clear_two E101290_P1_5__PMT_ERROR E101290_P1_5a__PMT_ERROR_2 time_now s;
      s ← p2_process_pat_model E s pat;
      p1_process_p1_6 s pat time_now (w_time E)
  end.

(** A packet of a PMT's PID restarts the timer of that PID. *)
Definition touch_pmt (pid : Z) (time_now : timeval) (e : tr_pid_s) : tr_pid_s :=
  if pid =? tp_pmtpid e then {| tp_pmtpid := tp_pmtpid e; tp_lastChanged := time_now |} else e.

Definition pmt_packet (time_now : timeval) (s : ltntstools_tr101290_s) (pkt : list Z)
    : option ltntstools_tr101290_s :=
  let pid := ltntstools_pid pkt in
  if (pid =? 0) || (pid =? 0x1fff) then Some s else
  let n := Z.to_nat (t_lastPMTArrayIndex s) in
  let arr := t_lastPMTArray s in
  if t_lastPMTArrayIndex s <=? len arr
  then Some (s <| t_lastPMTArray := map (touch_pmt pid time_now) (take n arr) ++ drop n arr |>)
  else None.

Definition pmt_timers (time_now : timeval) (s : ltntstools_tr101290_s) : option ltntstools_tr101290_s :=
  gotPMTError ← fold_in (fun n e => Some (if timer_expired s (tp_lastChanged e) =? 0 then n + 1 else n))
                  (t_lastPMTArray s) (t_lastPMTArrayIndex s) 0;
  if negb (gotPMTError =? 0) then raise_two E101290_P1_5__PMT_ERROR E101290_P1_5a__PMT_ERROR_2 time_now s
  else if negb (t_lastPMTArrayIndex s =? 0)
       then clear_two E101290_P1_5__PMT_ERROR E101290_P1_5a__PMT_ERROR_2 time_now s
       else Some s.

(** ** The write *)

Section Write.
Context {SM : StreamModel}.

Definition tr_ctx : Type := ltntstools_tr101290_s * sm_state.

Definition p1_process_p1_56 (E : write_env) '((s, sm) : tr_ctx) (buf : list Z) (packetCount : Z)
    (time_now : timeval) : option tr_ctx :=
  let '(sm, calls, complete) := sm_write sm buf packetCount time_now in
  s ← foldM p2_streammodel_callback calls s;
  '(s, sm) ←
    (if (complete : bool) then
       let '(sm, pat) := sm_query sm in
       s ← match pat with None => Some s | Some pat => take_model E pat time_now s end;
       Some (s, sm)
     else Some (s, sm));
  s ← check_model E time_now s;
  s ← packet_fold (pmt_packet time_now) packetCount buf s;
  s ← pmt_timers time_now s;
  Some (s, sm).

Definition p1_write (E : write_env) '((s, sm) : tr_ctx) (buf : list Z) (packetCount : Z) (time_now : timeval)
    : option tr_ctx :=
  let s := s <| t_now := time_now |> in
  s ← packet_fold (p1_sync_packet time_now) packetCount buf s;
  s ← p1_process_p1_3 s buf packetCount time_now;
  s ← p1_process_p1_4 s time_now;
  p1_process_p1_56 E (s, sm) buf packetCount time_now.

(** The time is read when there is no timestamp; the histogram then reads the
    null pointer. *)
Definition ltntstools_tr101290_write (E : write_env) '((s, sm) : tr_ctx) (buf : list Z) (packetCount : Z)
    (timestamp : option timeval) : option (tr_ctx * Z) :=
  timestamp ← timestamp;
  let s := s <| t_now := timestamp |> in
  h ← t_h1 s;
  '(h, _) ← ltn_histogram_interval_update h timestamp;
  let s := s <| t_h1 := Some h |> <| t_lastWriteCall := t_now s |>
             <| t_preTEIErrors := ltntstools_pid_stats_stream_get_tei_errors (t_streamStatistics s) |>
             <| t_preScrambledCount := ltntstools_pid_stats_stream_get_scrambled_count (t_streamStatistics s) |> in
  st ← ltntstools_pid_stats_update (w_stats E) (t_streamStatistics s) (Some buf) packetCount;
  let s := s <| t_streamStatistics := st |> in
  '(s, sm) ← p1_write E (s, sm) buf packetCount (t_now s);
  s ← p2_write s buf packetCount (t_now s);
  Some ((s, sm), packetCount).
End Write.

(** ** The timer of an event

    No event of the table asks for one. *)
Definition timer_thread_handler (s : ltntstools_tr101290_s) (event : Z) : option ltntstools_tr101290_s :=
  ev ← aget (t_event_tbl s) event;
  if ev_id ev =? E101290_P1_3__PAT_ERROR then
    st ← t_streamStatistics s;
    let count := ltntstools_pid_stats_pid_get_packet_count 0 st in
    s ← (if t_PATCountLastTimer s =? count
         then raise_two E101290_P1_3__PAT_ERROR E101290_P1_3a__PAT_ERROR_2 (t_now s) s
         else clear_two E101290_P1_3__PAT_ERROR E101290_P1_3a__PAT_ERROR_2 (t_now s) s);
    Some (s <| t_PATCountLastTimer := count |>)
  else ltntstools_tr101290_alarm_raise s (ev_id ev) (t_now s).

(** ** Allocation

    [alloc_ok] and [now] are those of the histogram and of the statistics. *)
Definition ltntstools_tr101290_alloc (hist_ok1 hist_ok2 : bool) (stats_ok : nat -> bool) (now : nat -> timeval)
    (cb_notify : bool) : option ltntstools_tr101290_s :=
  st ← ltntstools_pid_stats_alloc stats_ok (now 1%nat);
  Some {| t_cb_notify := cb_notify; t_event_tbl := ltntstools_tr101290_event_table_copy; t_alarmCount := 0;
     t_alarm_tbl := None; t_delivered := []; t_consecutiveSyncBytes := 0; t_consecutiveSyncErrors := 0;
     t_now := Timeval 0 0; t_lastWriteCall := Timeval 0 0;
     t_streamStatistics := Some (ltntstools_pid_stats_reset (now 2%nat) st); t_PATCountLastTimer := 0;
     t_CCCounterLastWrite := 0; t_preTEIErrors := 0; t_preScrambledCount := 0; t_lastPAT := Timeval 0 0;
     t_cachedPAT := None; t_lastPMTArray := replicate 64 {| tp_pmtpid := 0; tp_lastChanged := Timeval 0 0 |};
     t_lastPMTArrayIndex := 0; t_lastCompleteTime := 0; t_p2 := p2_zero;
     t_h1 := ltn_histogram_alloc_video_defaults hist_ok1 hist_ok2 (now 0%nat) (Some "write arrival latency"%string) |}.
