(* ===== verification/Tr101290Spec.v ===== *)
(** * What a write makes of the events (Tr101290)

    A write is a run of operations on the alarms: the operations of each
    analysis are computed from the packets, the times and the counters. *)
From Stdlib Require Import ZArith Lia Bool String.
From stdpp Require Import base numbers list option gmap.
From coqutil Require Import Datatypes.RecordSettersUsingExistingGetters.
From S2P Require Import Prelude Ts Clock Histogram Stats StatsSpec StatsQuery Descriptor Pat Tr101290Events Tr101290.

(** ** Runs of operations *)

(** From [s] to [s'] the operations [ops] act on the entries of the table. *)
Definition traces (s : ltntstools_tr101290_s) (ops : list alarm_op) (s' : ltntstools_tr101290_s) : Prop :=
  ctx_wf s' /\ Forall op_ok ops /\
  forall k ev, aget (t_event_tbl s) k = Some ev -> aget (t_event_tbl s') k = Some (foldl (entry_step k) ev ops).

(** All but the table. *)
Definition rest (s : ltntstools_tr101290_s) : ltntstools_tr101290_s := s <| t_event_tbl := [] |>.

(** The fields of the alarms. *)
Definition alarm_fields (s : ltntstools_tr101290_s) := (t_event_tbl s, t_alarm_tbl s, t_alarmCount s).

Lemma traces_nil s s' : ctx_wf s -> alarm_fields s' = alarm_fields s -> traces s [] s'.
Proof.
  intros [H1 H2 H3] E. injection E as E1 E2 E3. split; [|split; [done|by rewrite E1]].
  constructor; by rewrite ?E1, ?E2, ?E3.
Qed.

Lemma traces_app s1 s2 s3 o1 o2 : traces s1 o1 s2 -> traces s2 o2 s3 -> traces s1 (o1 ++ o2) s3.
Proof.
  intros (_ & H2 & H3) (G1 & G2 & G3). split; [done|]. split; [by apply Forall_app|].
  intros k ev Hk. rewrite foldl_app. by apply G3, H3.
Qed.

(** Fields of other parts may change before and after. *)
Lemma traces_ext s s0 s' s1 ops : traces s ops s' -> alarm_fields s0 = alarm_fields s ->
  alarm_fields s1 = alarm_fields s' -> traces s0 ops s1.
Proof.
  intros ([H1 H2 H3] & H4 & H5) E0 E1. injection E0 as A1 A2 A3. injection E1 as B1 B2 B3.
  split; [constructor; by rewrite ?B1, ?B2, ?B3|]. split; [done|]. by rewrite A1, B1.
Qed.

Lemma traces_wf s ops s' : traces s ops s' -> ctx_wf s'.
Proof. by intros [H _]. Qed.

(** The operations of the writer. *)
Definition writer_op (op : alarm_op) : Prop := match op with OpThread _ _ => False | _ => True end.

Lemma on_event_rest f e s s' : on_event f e s = Some s' -> rest s' = rest s.
Proof.
  unfold on_event. destruct (aget _ _); [|done]. step. destruct (aset _ _ _); [|done]. step. by intros [= <-].
Qed.

Lemma op_acts s op : ctx_wf s -> op_ok op -> writer_op op ->
  exists s', alarm_step s op = Some s' /\ traces s [op] s' /\ rest s' = rest s.
Proof.
  intros Hs Hop Hw. destruct (alarm_step_spec s op Hs Hop) as (s' & E & W & A). exists s'. split; [done|].
  split; [split; [done|split; [by constructor|done]]|]. revert E. destruct Hop as [He _].
  destruct op; cbn [alarm_step op_event] in *;
    unfold ltntstools_tr101290_alarm_raise, ltntstools_tr101290_alarm_raise_with_arg, ltntstools_tr101290_alarm_clear;
    try done; case_if; try (by intros [= <-]); apply on_event_rest.
Qed.

(** What [op_acts] gives, for each operation. *)
Lemma raise_acts s e t : ctx_wf s -> 0 <= e < 16 -> tv_norm t ->
  exists s', ltntstools_tr101290_alarm_raise s e t = Some s' /\ traces s [OpRaise e t] s' /\ rest s' = rest s.
Proof. intros. by apply (op_acts s (OpRaise e t)). Qed.
Lemma raise_arg_acts s e msg t : ctx_wf s -> 0 <= e < 16 -> tv_norm t ->
  exists s', ltntstools_tr101290_alarm_raise_with_arg s e msg t = Some s' /\ traces s [OpRaiseArg e msg t] s' /\
    rest s' = rest s.
Proof. intros. by apply (op_acts s (OpRaiseArg e msg t)). Qed.
Lemma clear_acts s e t : ctx_wf s -> 0 <= e < 16 -> tv_norm t ->
  exists s', ltntstools_tr101290_alarm_clear s e t = Some s' /\ traces s [OpClear e t] s' /\ rest s' = rest s.
Proof. intros. by apply (op_acts s (OpClear e t)). Qed.

Lemma raise_two_acts s e1 e2 t : ctx_wf s -> 0 <= e1 < 16 -> 0 <= e2 < 16 -> tv_norm t ->
  exists s', raise_two e1 e2 t s = Some s' /\ traces s [OpRaise e1 t; OpRaise e2 t] s' /\ rest s' = rest s.
Proof.
  intros Hs H1 H2 Ht. unfold raise_two. destruct (raise_acts s e1 t Hs H1 Ht) as (s1 & -> & T1 & R1). step.
  destruct (raise_acts s1 e2 t (traces_wf _ _ _ T1) H2 Ht) as (s2 & -> & T2 & R2). exists s2. split; [done|].
  split; [exact (traces_app _ _ _ _ _ T1 T2)|by rewrite R2].
Qed.
Lemma clear_two_acts s e1 e2 t : ctx_wf s -> 0 <= e1 < 16 -> 0 <= e2 < 16 -> tv_norm t ->
  exists s', clear_two e1 e2 t s = Some s' /\ traces s [OpClear e1 t; OpClear e2 t] s' /\ rest s' = rest s.
Proof.
  intros Hs H1 H2 Ht. unfold clear_two. destruct (clear_acts s e1 t Hs H1 Ht) as (s1 & -> & T1 & R1). step.
  destruct (clear_acts s1 e2 t (traces_wf _ _ _ T1) H2 Ht) as (s2 & -> & T2 & R2). exists s2. split; [done|].
  split; [exact (traces_app _ _ _ _ _ T1 T2)|by rewrite R2].
Qed.

(** Operations on other events. *)
Lemma foldl_other k ev ops : Forall (fun op => op_event op <> k) ops -> foldl (entry_step k) ev ops = ev.
Proof.
  intros H. revert ev. induction H as [|op ops Hop _ IH]; intros ev; [done|]. cbn [foldl]. rewrite IH.
  unfold entry_step. by rewrite (proj2 (Z.eqb_neq _ _)).
Qed.

(** ** The loop over the packets *)

(** The buffer from each packet on. *)
Fixpoint tails (ps : list (list Z)) : list (list Z) :=
  match ps with [] => [] | p :: ps' => concat (p :: ps') :: tails ps' end.

Lemma packet_loop_spec {T} (f : T -> list Z -> option T) pre ps s : packets (pre ++ ps) ->
  packet_loop f (length ps) (len pre) (concat (pre ++ ps)) s = foldM f (tails ps) s.
Proof.
  revert pre s. induction ps as [|p ps IH]; intros pre s H; [done|]. cbn [length packet_loop tails foldM].
  pose proof H as H'. apply Forall_app in H' as [Hpre Hps]. pose proof (Forall_inv Hps) as Hp.
  rewrite concat_app, len_app. pose proof (len_concat pre Hpre) as L1. pose proof (len_concat (p :: ps) Hps) as L2.
  rewrite len_cons in L2. pose proof (len_nonneg ps). zdec. rewrite <- L1, drop_len_app.
  destruct (f s (concat (p :: ps))); [|done]. step.
  specialize (IH (pre ++ [p])). rewrite <- app_assoc, len_app in IH. cbn [app] in IH.
  rewrite concat_app in IH. change (len [p]) with 1 in IH. by apply IH.
Qed.

Lemma packet_fold_spec {T} (f : T -> list Z -> option T) ps s : packets ps ->
  packet_fold f (len ps) (concat ps) s = foldM f (tails ps) s.
Proof. intros H. unfold packet_fold, len. rewrite Nat2Z.id. exact (packet_loop_spec f [] ps s H). Qed.

(** The header of the packet is the header of the rest of the buffer. *)
Lemma header_at p q i : len p = 188 -> 0 <= i < 188 -> byte_at (p ++ q) i = byte_at p i.
Proof. intros Hp Hi. rewrite byte_at_app by lia. by zdec. Qed.

Lemma header_pid p q : len p = 188 -> ltntstools_pid (p ++ q) = ltntstools_pid p.
Proof. intros Hp. unfold ltntstools_pid. by rewrite !header_at by lia. Qed.

(** A loop that reads the packet alone. *)
Lemma tails_fold {T} (f g : T -> list Z -> option T) ps s :
  packets ps -> (forall s p q, p ∈ ps -> len p = 188 -> f s (p ++ q) = g s p) -> foldM f (tails ps) s = foldM g ps s.
Proof.
  intros H Hf. revert s. induction H as [|p ps Hp Hps IH]; intros s; [done|]. cbn [tails concat foldM].
  rewrite Hf by (try left; done). destruct (g s p); [|done]. step. apply IH. intros ? ? ? ?. apply Hf. by right.
Qed.

(** ** P1.1 and P1.2 *)

Definition synced (pkt : list Z) : bool := byte_at pkt 0 =? 0x47.

(** The operations for packets with and without a sync byte, after [b] packets
    with and [e] packets without one. *)
Fixpoint sync_ops (t : timeval) (good : list bool) (b e : Z) : list alarm_op :=
  match good with
  | [] => []
  | true :: good =>
      (if 5 <? b + 1 then [OpClear 2 t; OpClear 1 t] else []) ++
      sync_ops t good (if 50000 <=? b + 1 then 16 else b + 1) 0
  | false :: good =>
      (OpRaise 2 t :: (if 2 <=? e + 1 then [OpRaise 1 t] else [])) ++ sync_ops t good 0 (e + 1)
  end.

(** All but the table and the two counters. *)
Definition rest_sync (s : ltntstools_tr101290_s) : ltntstools_tr101290_s :=
  (rest s) <| t_consecutiveSyncBytes := 0 |> <| t_consecutiveSyncErrors := 0 |>.

Lemma rest_fields s s' : rest s' = rest s ->
  t_consecutiveSyncBytes s' = t_consecutiveSyncBytes s /\ t_consecutiveSyncErrors s' = t_consecutiveSyncErrors s /\
  t_alarm_tbl s' = t_alarm_tbl s /\ t_alarmCount s' = t_alarmCount s /\ rest_sync s' = rest_sync s.
Proof.
  intros H. unfold rest_sync. rewrite H. split; [exact (f_equal t_consecutiveSyncBytes H)|].
  split; [exact (f_equal t_consecutiveSyncErrors H)|]. split; [exact (f_equal t_alarm_tbl H)|].
  split; [exact (f_equal t_alarmCount H)|done].
Qed.

Lemma sync_good_step s pkt t : ctx_wf s -> tv_norm t -> synced pkt = true -> let b := t_consecutiveSyncBytes s + 1 in
  exists s', p1_sync_packet t s pkt = Some s' /\
    traces s (if 5 <? b then [OpClear 2 t; OpClear 1 t] else []) s' /\ rest_sync s' = rest_sync s /\
    t_consecutiveSyncBytes s' = (if 50000 <=? b then 16 else b) /\ t_consecutiveSyncErrors s' = 0.
Proof.
  intros Hs Ht Hg b. unfold p1_sync_packet, ltntstools_sync_present. unfold synced in Hg. rewrite Hg. cbn [Z.b2z Z.eqb negb].
  set (s1 := s <| t_consecutiveSyncBytes := t_consecutiveSyncBytes s + 1 |> <| t_consecutiveSyncErrors := 0 |>).
  change (t_consecutiveSyncBytes s1) with b. assert (T1 : traces s [] s1) by by apply traces_nil.
  assert (exists s2, (if 5 <? b then s2 ← ltntstools_tr101290_alarm_clear s1 E101290_P1_2__SYNC_BYTE_ERROR t;
                        ltntstools_tr101290_alarm_clear s2 E101290_P1_1__TS_SYNC_LOSS t else Some s1) = Some s2 /\
            traces s (if 5 <? b then [OpClear 2 t; OpClear 1 t] else []) s2 /\ rest s2 = rest s1) as (s2 & -> & T2 & R2).
  { destruct (5 <? b); [|by exists s1].
    destruct (clear_two_acts s1 2 1 t (traces_wf _ _ _ T1)) as (s2 & E2 & T2 & R2); [lia..|done|].
    exists s2. split; [exact E2|]. split; [exact (traces_app _ _ _ _ _ T1 T2)|done]. }
  step. destruct (rest_fields _ _ R2) as (F1 & F2 & F3 & F4 & F5). change (t_consecutiveSyncBytes s1) with b in F1.
  change (t_consecutiveSyncErrors s1) with 0 in F2. rewrite F1. destruct (50000 <=? b).
  - eexists. split; [done|]. split; [by eapply traces_ext|]. split; [exact F5|]. done.
  - exists s2. split; [done|]. split; [done|]. split; [exact F5|]. done.
Qed.

Lemma sync_bad_step s pkt t : ctx_wf s -> tv_norm t -> synced pkt = false -> let e := t_consecutiveSyncErrors s + 1 in
  e < 2 ^ 31 ->
  exists s', p1_sync_packet t s pkt = Some s' /\
    traces s (OpRaise 2 t :: (if 2 <=? e then [OpRaise 1 t] else [])) s' /\ rest_sync s' = rest_sync s /\
    t_consecutiveSyncBytes s' = 0 /\ t_consecutiveSyncErrors s' = e.
Proof.
  intros Hs Ht Hg e He. unfold p1_sync_packet, ltntstools_sync_present. unfold synced in Hg. rewrite Hg. cbn [Z.b2z Z.eqb negb].
  unfold int_incr. rewrite (proj2 (Z.eqb_neq _ _)) by lia. step. fold e.
  set (s1 := s <| t_consecutiveSyncBytes := 0 |> <| t_consecutiveSyncErrors := e |>).
  assert (T1 : traces s [] s1) by by apply traces_nil.
  destruct (raise_acts s1 E101290_P1_2__SYNC_BYTE_ERROR t (traces_wf _ _ _ T1)) as (s2 & -> & T2 & R2); [done|done|]. step.
  destruct (rest_fields _ _ R2) as (F1 & F2 & _ & _ & F5). change (t_consecutiveSyncBytes s1) with 0 in F1.
  change (t_consecutiveSyncErrors s1) with e in F2. rewrite F2. unfold SYNC_LOSS_THRESHOLD.
  assert (T12 := traces_app _ _ _ _ _ T1 T2). destruct (2 <=? e).
  - destruct (raise_acts s2 E101290_P1_1__TS_SYNC_LOSS t (traces_wf _ _ _ T2)) as (s3 & -> & T3 & R3); [done|done|].
    destruct (rest_fields _ _ R3) as (G1 & G2 & _ & _ & G5). exists s3. split; [done|].
    split; [exact (traces_app _ _ _ _ _ T12 T3)|]. rewrite G5, G1, G2. done.
  - exists s2. split; [done|]. split; [exact T12|]. done.
Qed.

Lemma sync_spec t ps : forall s, ctx_wf s -> tv_norm t -> 0 <= t_consecutiveSyncErrors s ->
  t_consecutiveSyncErrors s + len ps < 2 ^ 31 ->
  exists s', foldM (p1_sync_packet t) ps s = Some s' /\
    traces s (sync_ops t (map synced ps) (t_consecutiveSyncBytes s) (t_consecutiveSyncErrors s)) s' /\
    rest_sync s' = rest_sync s /\ 0 <= t_consecutiveSyncErrors s' <= t_consecutiveSyncErrors s + len ps.
Proof.
  induction ps as [|p ps IH]; intros s Hs Ht He Hl.
  { exists s. split; [done|]. split; [by apply traces_nil|]. split; [done|]. change (len []) with 0. lia. }
  rewrite len_cons in *. pose proof (len_nonneg ps). cbn [foldM map sync_ops]. destruct (synced p) eqn:Eg.
  - destruct (sync_good_step s p t Hs Ht Eg) as (s1 & -> & T1 & R1 & B1 & E1). step.
    destruct (IH s1 (traces_wf _ _ _ T1) Ht) as (s2 & -> & T2 & R2 & E2); [lia|lia|].
    exists s2. split; [done|]. rewrite B1, E1 in T2. split; [exact (traces_app _ _ _ _ _ T1 T2)|].
    split; [by rewrite R2|lia].
  - destruct (sync_bad_step s p t Hs Ht Eg) as (s1 & -> & T1 & R1 & B1 & E1); [lia|]. step.
    destruct (IH s1 (traces_wf _ _ _ T1) Ht) as (s2 & -> & T2 & R2 & E2); [lia|lia|].
    exists s2. split; [done|]. rewrite B1, E1 in T2. split; [exact (traces_app _ _ _ _ _ T1 T2)|].
    split; [by rewrite R2|lia].
Qed.

(** *** What the operations make of the two events *)

(** Two adjacent packets without a sync byte, [prev]: the packet before had
    none. *)
Fixpoint adjacent_bad (prev : bool) (good : list bool) : bool :=
  match good with [] => false | g :: good => (prev && negb g) || adjacent_bad (negb g) good end.

(** Raised at [t], or as at the start with nothing raised since. *)
Lemma clear_same_time t ev : event_wf ev -> tv_norm t -> 0 < ev_autoClearAlarmAfterReport ev ->
  ev_raised ev = true -> ev_lastChanged ev = t -> ev_raised (event_clear t ev) = true /\
  ev_lastChanged (event_clear t ev) = t.
Proof.
  intros Hw Ht Ha Hr Hc. destruct (linger_us ev) as [L1 L2]; [lia|]. unfold event_clear. rewrite Hr.
  destruct (timeradd_us (linger ev) (ev_lastChanged ev) L1 (ew_changed _ Hw)) as [A1 A2].
  rewrite timer_ge_us, A2, L2, Hc by done. rewrite (proj2 (Z.leb_gt _ _)) by lia. done.
Qed.

(** Writer operations at one time. *)
Definition ops_at (t : timeval) (ops : list alarm_op) : Prop :=
  Forall (fun op => op_ok op /\ writer_op op /\ op_time op = t) ops.

(** A literal list of them. *)
Ltac ops_at :=
  repeat (apply Forall_cons_2; [split; [split; [cbn; lia|done]|done]|]); try apply Forall_nil_2.

Lemma ops_at_ok t ops : ops_at t ops -> Forall op_ok ops.
Proof. apply List.Forall_impl. tauto. Qed.

Lemma ops_at_app t o1 o2 : ops_at t o1 -> ops_at t o2 -> ops_at t (o1 ++ o2).
Proof. intros. by apply Forall_app. Qed.

(** All operations at one time: an event that was not raised is raised
    afterwards exactly when one of them raises it. *)
Definition raises (e : Z) (op : alarm_op) : bool :=
  match op with OpRaise k _ | OpRaiseArg k _ _ => k =? e | _ => false end.

Lemma one_time_raised e t ops : forall ev, event_wf ev -> 0 < ev_autoClearAlarmAfterReport ev -> tv_norm t ->
  ops_at t ops ->
  ev_raised ev = false \/ ev_lastChanged ev = t ->
  ev_raised (foldl (entry_step e) ev ops) = ev_raised ev || existsb (raises e) ops.
Proof.
  induction ops as [|op ops IH]; intros ev Hw Ha Ht Hops Hr; [by rewrite orb_false_r|]. cbn [foldl existsb].
  inversion Hops as [|? ? (Hop & Hwr & Htm) Hops']; subst.
  destruct (entry_step_wf e ev op Hw) as (W1 & W2 & _); [lia|done|]. assert (W3 := W2). injection W3 as _ W3.
  assert (ev_raised (entry_step e ev op) = ev_raised ev || raises e op /\
          (ev_raised (entry_step e ev op) = false \/ ev_lastChanged (entry_step e ev op) = op_time op)) as [E1 E2].
  { unfold entry_step. destruct op as [k u|k msg u|k u|k u]; [..|done]; cbn [op_event op_time raises] in *;
      destruct (k =? e); try (by rewrite orb_false_r).
    - unfold event_raise. destruct (ev_raised ev) eqn:Er; cbn; rewrite ?Er; (split; [done|]); right; [by destruct Hr|done].
    - unfold event_raise_with_arg. destruct (ev_raised ev) eqn:Er; cbn; rewrite ?Er; (split; [done|]); right; [by destruct Hr|done].
    - rewrite orb_false_r. destruct (ev_raised ev) eqn:Er.
      + destruct Hr as [?|Hr]; [done|]. destruct (clear_same_time u ev Hw Ht Ha Er Hr) as [-> ->]. by split; [|right].
      + unfold event_clear. rewrite Er. cbn. rewrite Er. by split; [|left]. }
  rewrite IH; [|done|by rewrite W3|done|done|done]. by rewrite E1, orb_assoc.
Qed.

Lemma sync_ops_at t good : forall b e, tv_norm t -> ops_at t (sync_ops t good b e).
Proof.
  intros b e Ht. revert b e. induction good as [|[|] good IH]; intros b e; [ops_at|..]; cbn [sync_ops];
    apply ops_at_app; try apply IH.
  - destruct (5 <? b + 1); ops_at.
  - destruct (2 <=? e + 1); ops_at.
Qed.

Lemma sync_ops_raise2 t good : forall b e, existsb (raises 2) (sync_ops t good b e) = existsb negb good.
Proof.
  induction good as [|[|] good IH]; intros b e; [done|..]; cbn [sync_ops existsb negb]; rewrite existsb_app, IH.
  - by destruct (5 <? b + 1).
  - done.
Qed.

Lemma sync_ops_raise1 t good : forall b e, 0 <= e ->
  existsb (raises 1) (sync_ops t good b e) = adjacent_bad (1 <=? e) good.
Proof.
  induction good as [|[|] good IH]; intros b e He; [done|..]; cbn [sync_ops adjacent_bad negb]; rewrite existsb_app, IH by lia.
  - rewrite andb_false_r. by destruct (5 <? b + 1).
  - rewrite andb_true_r. replace (2 <=? e + 1) with (1 <=? e) by lia. replace (1 <=? e + 1) with true by lia.
    by destruct (1 <=? e).
Qed.

(** ** P1.3 *)

(** Where the table id of a section that starts in the packet is. *)
Definition section_offset (p : list Z) : Z :=
  if negb (ltntstools_has_adaption p =? 0) then 6 + ltntstools_adaption_field_length p else 5.

Definition is_pat (p : list Z) : bool := ltntstools_pid p =? 0.
Definition pat_bad (p : list Z) : bool :=
  is_pat p && (negb (byte_at p (section_offset p) =? 0) || negb (ltntstools_transport_scrambling_control p =? 0)).

(** The byte read as the table id of a PAT is in its packet. *)
Definition pat_inside (p : list Z) : Prop := is_pat p = true -> 0 <= section_offset p < 188.

Lemma tableid_at p q : len p = 188 -> 0 <= section_offset p < 188 ->
  ltntstools_get_section_tableid (p ++ q) = Some (byte_at p (section_offset p)).
Proof.
  intros Hp Ho. unfold ltntstools_get_section_tableid.
  assert (E : (if negb (ltntstools_has_adaption (p ++ q) =? 0) then 5 + 1 + ltntstools_adaption_field_length (p ++ q) else 5)
            = section_offset p).
  { unfold section_offset, ltntstools_has_adaption, ltntstools_adaption_field_length. by rewrite !header_at by lia. }
  cbv zeta. rewrite E. pose proof (len_nonneg q). rewrite rd_Some by (rewrite len_app; lia). by rewrite header_at by lia.
Qed.

Lemma p1_3_packet_at p q n g : len p = 188 -> pat_inside p -> 0 <= n -> exists n',
  p1_3_packet (n, g) (p ++ q) = Some (n', g || is_pat p) /\ 0 <= n' /\ (n' =? 0) = (n =? 0) && negb (pat_bad p).
Proof.
  intros Hp Hin Hn. unfold p1_3_packet, pat_bad, pat_inside in *. rewrite header_pid by done.
  change (ltntstools_pid p =? 0) with (is_pat p). destruct (is_pat p).
  - rewrite tableid_at by (try done; by apply Hin). step. unfold ltntstools_transport_scrambling_control.
    rewrite header_at by lia. eexists. split; [by rewrite orb_true_r|].
    destruct (byte_at p (section_offset p) =? 0), (Z.shiftr (byte_at p 3) 6 =? 0); cbn [negb andb orb]; lia.
  - eexists. split; [by rewrite orb_false_r|]. split; [done|]. by rewrite andb_true_r.
Qed.

Lemma p1_3_spec ps : packets ps -> Forall pat_inside ps -> exists n,
  packet_fold p1_3_packet (len ps) (concat ps) (0, false) = Some (n, existsb is_pat ps) /\
  0 <= n /\ (n =? 0) = negb (existsb pat_bad ps).
Proof.
  intros Hps Hin. rewrite packet_fold_spec by done.
  assert (H : forall n g, 0 <= n -> exists n', foldM p1_3_packet (tails ps) (n, g) = Some (n', g || existsb is_pat ps) /\
    0 <= n' /\ (n' =? 0) = (n =? 0) && negb (existsb pat_bad ps)); [|by apply (H 0 false)].
  induction Hps as [|p ps Hp Hps IH]; intros n g Hn.
  { exists n. by rewrite orb_false_r, andb_true_r. }
  inversion Hin as [|? ? Hpin Hin']; subst. cbn [tails concat foldM existsb].
  destruct (p1_3_packet_at p (concat ps) n g Hp Hpin Hn) as (n1 & -> & Hn1 & E1). step.
  destruct (IH Hin' n1 (g || is_pat p) Hn1) as (n2 & -> & Hn2 & E2). exists n2. rewrite orb_assoc. split; [done|].
  split; [done|]. by rewrite E2, E1, negb_orb, andb_assoc.
Qed.

(** An issue: a bad PAT, or none for half a second. *)
Definition pat_issue (t lastPAT : timeval) (ps : list (list Z)) : bool :=
  existsb pat_bad ps || (negb (existsb is_pat ps) && timer_ge t (half_second_after lastPAT)).

Lemma process_p1_3_spec s ps t : ctx_wf s -> tv_norm t -> packets ps -> Forall pat_inside ps ->
  exists s', p1_process_p1_3 s (concat ps) (len ps) t = Some s' /\
    traces s (if pat_issue t (t_lastPAT s) ps then [OpRaise 3 t; OpRaise 4 t] else [OpClear 3 t; OpClear 4 t]) s' /\
    rest s' = (rest s) <| t_lastPAT := if existsb is_pat ps then t else t_lastPAT s |>.
Proof.
  intros Hs Ht Hps Hin. unfold p1_process_p1_3. destruct (p1_3_spec ps Hps Hin) as (n & -> & Hn & En). step. cbv zeta.
  set (s1 := if existsb is_pat ps then s <| t_lastPAT := t |> else s).
  assert (rest s1 = (rest s) <| t_lastPAT := if existsb is_pat ps then t else t_lastPAT s |>) as <-
    by (unfold s1; destruct (existsb is_pat ps); [done|]; by destruct s).
  assert (T1 : traces s [] s1) by (apply traces_nil; [done|unfold s1; by destruct (existsb is_pat ps)]).
  match goal with |- context [negb (?x =? 0)] => replace (negb (x =? 0)) with (pat_issue t (t_lastPAT s) ps) end.
  - destruct (pat_issue _ _ _).
    + destruct (raise_two_acts s1 3 4 t (traces_wf _ _ _ T1)) as (s2 & E2 & T2 & R2); [lia..|done|].
      exists s2. split; [exact E2|]. split; [exact (traces_app _ _ _ _ _ T1 T2)|done].
    + destruct (clear_two_acts s1 3 4 t (traces_wf _ _ _ T1)) as (s2 & E2 & T2 & R2); [lia..|done|].
      exists s2. split; [exact E2|]. split; [exact (traces_app _ _ _ _ _ T1 T2)|done].
  - unfold pat_issue. rewrite <- (negb_involutive (existsb pat_bad ps)), <- En.
    destruct (negb (existsb is_pat ps) && timer_ge t _); [|by rewrite orb_false_r].
    rewrite orb_true_r. by zdec.
Qed.

(** ** P1.4 *)

Definition cc_changed (s : ltntstools_tr101290_s) : bool :=
  negb (t_CCCounterLastWrite s =? ltntstools_pid_stats_stream_get_cc_errors (t_streamStatistics s)).

Lemma process_p1_4_spec s t : ctx_wf s -> tv_norm t ->
  exists s', p1_process_p1_4 s t = Some s' /\
    traces s [if cc_changed s then OpRaise 5 t else OpClear 5 t] s' /\
    rest s' = (rest s) <| t_CCCounterLastWrite := ltntstools_pid_stats_stream_get_cc_errors (t_streamStatistics s) |>.
Proof.
  intros Hs Ht. unfold p1_process_p1_4. fold (cc_changed s). destruct (cc_changed s).
  - destruct (raise_acts s E101290_P1_4__CONTINUITY_COUNTER_ERROR t Hs) as (s1 & -> & T1 & R1); [done|done|]. step.
    eexists. split; [done|]. split; [by eapply traces_ext|]. by rewrite <- R1.
  - destruct (clear_acts s E101290_P1_4__CONTINUITY_COUNTER_ERROR t Hs) as (s1 & -> & T1 & R1); [done|done|]. step.
    eexists. split; [done|]. split; [by eapply traces_ext|]. by rewrite <- R1.
Qed.

(** ** The other analyses *)

Record tr_wf (s : ltntstools_tr101290_s) : Prop := {
  tw_ctx : ctx_wf s;
  tw_array : len (t_lastPMTArray s) = PMT_ARRAY_SIZE;
  tw_index : 0 <= t_lastPMTArrayIndex s <= PMT_ARRAY_SIZE;
  tw_cached : forall pat, t_cachedPAT s = Some pat -> pat_ok pat;
  tw_errors : 0 <= t_consecutiveSyncErrors s;
  tw_stats : is_Some (t_streamStatistics s)
}.

(** The stream counters that the events are computed from. *)
Definition stream_counts (st : option ltntstools_stream_statistics_s) : Z * Z * Z :=
  (ltntstools_pid_stats_stream_get_cc_errors st, ltntstools_pid_stats_stream_get_tei_errors st,
   ltntstools_pid_stats_stream_get_scrambled_count st).

(** What the analyses below leave alone. *)
Definition kept (s : ltntstools_tr101290_s) :=
  ((t_h1 s, t_now s), t_CCCounterLastWrite s, t_preTEIErrors s, t_preScrambledCount s, t_lastPAT s,
   t_consecutiveSyncBytes s, t_consecutiveSyncErrors s, stream_counts (t_streamStatistics s)).

(** [s'] comes from [s] by operations on the events of [es], at the time [t_now s]. *)
Definition acts (es : list Z) (s s' : ltntstools_tr101290_s) : Prop :=
  tr_wf s' /\ kept s' = kept s /\
  exists ops, traces s ops s' /\ ops_at (t_now s) ops /\ Forall (fun op => op_event op ∈ es) ops.

Lemma acts_trans es s1 s2 s3 : acts es s1 s2 -> acts es s2 s3 -> acts es s1 s3.
Proof.
  intros (_ & K1 & o1 & T1 & A1 & F1) (W & K2 & o2 & T2 & A2 & F2). split; [done|]. split; [by rewrite K2|].
  exists (o1 ++ o2). split; [by eapply traces_app|]. split; [|by apply Forall_app].
  apply ops_at_app; [done|]. assert (E : t_now s2 = t_now s1) by exact (f_equal (fun k => k.1.1.1.1.1.1.1.2) K1).
  by rewrite <- E.
Qed.

(** Changes outside the events. *)
Lemma acts_same es s s' : tr_wf s -> alarm_fields s' = alarm_fields s -> kept s' = kept s ->
  len (t_lastPMTArray s') = PMT_ARRAY_SIZE -> 0 <= t_lastPMTArrayIndex s' <= PMT_ARRAY_SIZE ->
  (forall pat, t_cachedPAT s' = Some pat -> pat_ok pat) -> is_Some (t_streamStatistics s') -> acts es s s'.
Proof.
  intros W A K L I C S. pose proof (traces_nil s s' (tw_ctx _ W) A) as T. split.
  - constructor; try done; [apply T|].
    rewrite (f_equal (fun k => k.1.2) K : t_consecutiveSyncErrors s' = t_consecutiveSyncErrors s). apply W.
  - split; [done|]. exists []. split; [done|]. split; [ops_at|done].
Qed.

Lemma acts_refl es s : tr_wf s -> acts es s s.
Proof. intros W. apply acts_same; try done; apply W. Qed.

(** Operations. *)
Lemma tr_wf_rest s s' : ctx_wf s' -> rest s' = rest s -> tr_wf s -> tr_wf s'.
Proof.
  intros C R [W1 W2 W3 W4 W5 W6]. constructor; [done|..].
  - by rewrite (f_equal t_lastPMTArray R : t_lastPMTArray s' = t_lastPMTArray s).
  - by rewrite (f_equal t_lastPMTArrayIndex R : t_lastPMTArrayIndex s' = t_lastPMTArrayIndex s).
  - by rewrite (f_equal t_cachedPAT R : t_cachedPAT s' = t_cachedPAT s).
  - by rewrite (f_equal t_consecutiveSyncErrors R : t_consecutiveSyncErrors s' = t_consecutiveSyncErrors s).
  - by rewrite (f_equal t_streamStatistics R : t_streamStatistics s' = t_streamStatistics s).
Qed.

Lemma acts_ops es s ops s' : tr_wf s -> traces s ops s' -> ops_at (t_now s) ops ->
  Forall (fun op => op_event op ∈ es) ops -> rest s' = rest s -> acts es s s'.
Proof.
  intros W T A F R. split; [by eapply tr_wf_rest; [apply T|..]|]. split; [exact (f_equal kept R)|]. by exists ops.
Qed.

Lemma op_acts_on es s op : tr_wf s -> tv_norm (t_now s) -> op_ok op -> writer_op op -> op_time op = t_now s ->
  op_event op ∈ es -> exists s', alarm_step s op = Some s' /\ acts es s s'.
Proof.
  intros W Ht Hop Hw Htm He. destruct (op_acts s op (tw_ctx _ W) Hop Hw) as (s' & E & T & R). exists s'.
  split; [done|]. apply (acts_ops es s [op]); try done; apply Forall_singleton; done.
Qed.

(** The event numbers are literals. *)
Ltac in_events := first [done | apply list_elem_of_In; cbn; tauto].

Lemma raise_acts_on es s e : tr_wf s -> tv_norm (t_now s) -> 0 <= e < 16 -> e ∈ es ->
  exists s', ltntstools_tr101290_alarm_raise s e (t_now s) = Some s' /\ acts es s s'.
Proof. intros. by apply (op_acts_on es s (OpRaise e (t_now s))). Qed.
Lemma raise_arg_acts_on es s e msg : tr_wf s -> tv_norm (t_now s) -> 0 <= e < 16 -> e ∈ es ->
  exists s', ltntstools_tr101290_alarm_raise_with_arg s e msg (t_now s) = Some s' /\ acts es s s'.
Proof. intros. by apply (op_acts_on es s (OpRaiseArg e msg (t_now s))). Qed.
Lemma clear_acts_on es s e : tr_wf s -> tv_norm (t_now s) -> 0 <= e < 16 -> e ∈ es ->
  exists s', ltntstools_tr101290_alarm_clear s e (t_now s) = Some s' /\ acts es s s'.
Proof. intros. by apply (op_acts_on es s (OpClear e (t_now s))). Qed.

Lemma acts_now es s s' : acts es s s' -> t_now s' = t_now s.
Proof. intros (_ & K & _). exact (f_equal (fun k => k.1.1.1.1.1.1.1.2) K). Qed.
Lemma acts_wf es s s' : acts es s s' -> tr_wf s'.
Proof. by intros [W _]. Qed.

Lemma raise_two_acts_on es s e1 e2 : tr_wf s -> tv_norm (t_now s) -> 0 <= e1 < 16 -> 0 <= e2 < 16 -> e1 ∈ es -> e2 ∈ es ->
  exists s', raise_two e1 e2 (t_now s) s = Some s' /\ acts es s s'.
Proof.
  intros W Ht H1 H2 M1 M2. unfold raise_two. destruct (raise_acts_on es s e1 W Ht H1 M1) as (s1 & -> & A1). step.
  rewrite <- (acts_now _ _ _ A1) in *. destruct (raise_acts_on es s1 e2 (acts_wf _ _ _ A1) Ht H2 M2) as (s2 & -> & A2).
  exists s2. split; [done|]. by eapply acts_trans.
Qed.
Lemma clear_two_acts_on es s e1 e2 : tr_wf s -> tv_norm (t_now s) -> 0 <= e1 < 16 -> 0 <= e2 < 16 -> e1 ∈ es -> e2 ∈ es ->
  exists s', clear_two e1 e2 (t_now s) s = Some s' /\ acts es s s'.
Proof.
  intros W Ht H1 H2 M1 M2. unfold clear_two. destruct (clear_acts_on es s e1 W Ht H1 M1) as (s1 & -> & A1). step.
  rewrite <- (acts_now _ _ _ A1) in *. destruct (clear_acts_on es s1 e2 (acts_wf _ _ _ A1) Ht H2 M2) as (s2 & -> & A2).
  exists s2. split; [done|]. by eapply acts_trans.
Qed.

(** *** The callbacks of the stream model *)

Definition model_events : list Z := [6; 7; 8; 10].

Lemma callback_acts s args : tr_wf s -> tv_norm (t_now s) ->
  exists s', p2_streammodel_callback s args = Some s' /\ acts model_events s s'.
Proof.
  intros W Ht. unfold p2_streammodel_callback. destruct (negb _); [by exists s; split; [|apply acts_refl]|].
  destruct (p2_table _ _ _) as [[p2 name]|]; [|by exists s; split; [|apply acts_refl]]. cbv zeta.
  set (s1 := s <| t_p2 := p2 |>).
  assert (A1 : acts model_events s s1) by (apply acts_same; try done; apply W).
  assert (W1 : tr_wf s1) by apply A1. assert (Ht1 : tv_norm (t_now s1)) by done. clearbody s1.
  destruct (_ =? CRC_ARG_INVALID).
  - destruct (raise_arg_acts_on model_events s1 E101290_P2_2__CRC_ERROR name W1 Ht1) as (s2 & -> & A2); [done|in_events|].
    exists s2. split; [done|]. by eapply acts_trans.
  - destruct (clear_acts_on model_events s1 E101290_P2_2__CRC_ERROR W1 Ht1) as (s2 & -> & A2); [done|in_events|].
    exists s2. split; [done|]. by eapply acts_trans.
Qed.

(** A fold whose steps act. *)
Lemma fold_acts {A} es (f : ltntstools_tr101290_s -> A -> option ltntstools_tr101290_s) l :
  (forall s x, x ∈ l -> tr_wf s -> tv_norm (t_now s) -> exists s', f s x = Some s' /\ acts es s s') ->
  forall s, tr_wf s -> tv_norm (t_now s) -> exists s', foldM f l s = Some s' /\ acts es s s'.
Proof.
  induction l as [|x l IH]; intros Hf s W Ht; [by exists s; split; [|apply acts_refl]|]. cbn [foldM].
  destruct (Hf s x) as (s1 & -> & A1); [by left|done|done|]. step.
  destruct (IH (fun s y Hy => Hf s y (list_elem_of_further _ _ _ Hy)) s1) as (s2 & -> & A2); [apply A1| |].
  - destruct A1 as (_ & K & _). by rewrite (f_equal (fun k => k.1.1.1.1.1.1.1.2) K : t_now s1 = t_now s).
  - exists s2. split; [done|]. by eapply acts_trans.
Qed.

(** *** The complete model *)

Lemma pmt_array_acts pat t n : forall i s, pat_ok pat -> 0 <= i -> i + Z.of_nat n <= pa_program_count pat ->
  tr_wf s -> t_lastPMTArrayIndex s <= i -> i < 64 \/ n = 0%nat ->
  exists s', pmt_array_loop pat t n i s = Some s' /\ acts model_events s s'.
Proof.
  induction n as [|n IH]; intros i s Hp Hi Hn W Hx Hlt; [by exists s; split; [|apply acts_refl]|].
  cbn [pmt_array_loop]. destruct Hlt as [Hlt|]; [|done]. pose proof (po_count _ Hp) as Hc. unfold LTNTSTOOLS_PAT_ENTRIES_MAX in *.
  pose proof (po_programs _ Hp) as Hl. unfold LTNTSTOOLS_PAT_ENTRIES_MAX in *.
  destruct (aget_lt (pa_programs pat) i) as [prg ->]; [lia|]. step.
  destruct (_ =? 0); [apply IH; try done; lia|].
  pose proof (tw_array _ W) as Ha. pose proof (tw_index _ W) as Hix. unfold PMT_ARRAY_SIZE in *.
  rewrite aset_Some by lia. step. cbv zeta.
  match goal with |- context [pmt_array_loop pat t n (i + 1) ?x] => set (s1 := x) end.
  assert (A1 : acts model_events s s1).
  { apply acts_same; try done; try apply W.
    - unfold s1. cbn. unfold const. by rewrite len_insert.
    - unfold s1. cbn. unfold const, PMT_ARRAY_SIZE. lia. }
  assert (X1 : t_lastPMTArrayIndex s1 = t_lastPMTArrayIndex s + 1) by done. clearbody s1.
  destruct (_ =? 64); [by exists s1|].
  destruct (IH (i + 1) s1) as (s2 & -> & A2); [done|lia|lia|apply A1|lia|lia|].
  exists s2. split; [done|]. by eapply acts_trans.
Qed.

Lemma take_model_acts E pat t s : tr_wf s -> pat_ok pat ->
  exists s', take_model E pat t s = Some s' /\ acts model_events s s'.
Proof.
  intros W Hp. unfold take_model. match goal with |- context [pmt_array_loop pat t _ 0 ?x] => set (s1 := x) end.
  assert (A1 : acts model_events s s1).
  { apply acts_same; try done; try apply W.
    intros p. unfold s1. cbn. unfold const. destruct (w_clone_ok E); [|done]. by intros [= <-]. }
  destruct (pmt_array_acts pat t (Z.to_nat (pa_program_count pat)) 0 s1 Hp) as (s2 & E2 & A2);
    [lia|pose proof (po_count _ Hp); lia|apply A1|done|lia|].
  exists s2. split; [exact E2|]. exact (acts_trans _ _ _ _ A1 A2).
Qed.

Lemma set_contains_pcr_counts E pid st :
  stream_counts (Some (ltntstools_pid_stats_pid_set_contains_pcr E pid st)) = stream_counts (Some st).
Proof.
  unfold ltntstools_pid_stats_pid_set_contains_pcr, find_pid. destruct (s_pids st !! _); [done|].
  destruct (ltntstools_pid_statistics_alloc _ _ _); [|done]. step. unfold _pidArrayAdd. destruct (MAX_PID <=? _); [done|]. by destruct (e_alloc E 0 1).
Qed.

Lemma pat_program_acts E i prg s : tr_wf s -> exists s', p2_pat_program E i prg s = Some s' /\ acts model_events s s'.
Proof.
  intros W. unfold p2_pat_program. cbv zeta. destruct (_ =? 0); [by exists s; split; [|apply acts_refl]|].
  destruct (tw_stats _ W) as [st Hst]. rewrite Hst. step. eexists. split; [done|]. apply acts_same; try done; try apply W.
  unfold kept. cbn. unfold const. rewrite Hst. by rewrite set_contains_pcr_counts.
Qed.

Lemma pat_model_acts E pat s : tr_wf s -> pat_ok pat ->
  exists s', p2_process_pat_model E s pat = Some s' /\ acts model_events s s'.
Proof.
  intros W Hp. unfold p2_process_pat_model.
  assert (H : forall n i s, tr_wf s -> 0 <= i -> i + Z.of_nat n <= pa_program_count pat ->
    exists s', p2_pat_loop E pat n i s = Some s' /\ acts model_events s s').
  { clear s W. induction n as [|n IH]; intros i s W Hi Hn; [by exists s; split; [|apply acts_refl]|]. cbn [p2_pat_loop].
    destruct (aget_lt (pa_programs pat) i) as [prg ->]; [rewrite (po_programs _ Hp); pose proof (po_count _ Hp); lia|]. step.
    destruct (pat_program_acts E i prg s W) as (s1 & -> & A1). step.
    destruct (IH (i + 1) s1) as (s2 & -> & A2); [apply A1|lia|lia|]. exists s2. split; [done|]. by eapply acts_trans. }
  apply H; [done|lia|pose proof (po_count _ Hp); lia].
Qed.

Lemma foldM_total {A T} (f : T -> A -> option T) l :
  (forall a x, x ∈ l -> is_Some (f a x)) -> forall a, is_Some (foldM f l a).
Proof.
  intros Hf a. destruct (foldM_inv (fun _ => True) f l) with (s := a) as (b & -> & _); [|done|done].
  intros s x Hx _. destruct (Hf s x Hx) as [b ->]. by exists b.
Qed.

Lemma p1_6_acts s pat now : tr_wf s -> pat_ok pat -> tv_norm (t_now s) ->
  exists s', p1_process_p1_6 s pat (t_now s) now = Some s' /\ acts model_events s s'.
Proof.
  intros W Hp Ht. unfold p1_process_p1_6. pose proof (po_count _ Hp). pose proof (po_programs _ Hp) as Hl.
  rewrite fold_in_spec by lia.
  destruct (foldM_total (p1_6_program s now) (take (Z.to_nat (pa_program_count pat)) (pa_programs pat))) with (a := (0, ""%string))
    as [[n msg] ->].
  { intros acc g Hg. assert (Hm : pmt_ok (pp_pmt g)).
    { pose proof (po_pmts _ Hp) as Hall. rewrite List.Forall_forall in Hall. apply Hall, list_elem_of_In.
      by apply elem_of_take in Hg as (i & Hg & _); eapply list_elem_of_lookup_2. }
    unfold p1_6_program. cbv zeta. rewrite fold_in_spec by (rewrite (mo_streams _ Hm); apply Hm).
    apply foldM_total. by eexists. }
  step. destruct (n =? 0); [by apply clear_acts_on; [| | |in_events]|by apply raise_arg_acts_on; [| | |in_events]].
Qed.

Lemma check_model_acts E s : tr_wf s -> tv_norm (t_now s) ->
  exists s', check_model E (t_now s) s = Some s' /\ acts model_events s s'.
Proof.
  intros W Ht. unfold check_model. destruct (t_cachedPAT s) as [pat|] eqn:Ep; [|by exists s; split; [|apply acts_refl]].
  pose proof (tw_cached _ W pat Ep) as Hp.
  destruct (clear_two_acts_on model_events s 6 7 W Ht) as (s1 & E1 & A1); [lia..|in_events|in_events|].
  unfold E101290_P1_5__PMT_ERROR, E101290_P1_5a__PMT_ERROR_2. rewrite E1. step.
  destruct (pat_model_acts E pat s1 (acts_wf _ _ _ A1) Hp) as (s2 & -> & A2). step.
  assert (A12 := acts_trans _ _ _ _ A1 A2). rewrite <- (acts_now _ _ _ A12) in *.
  destruct (p1_6_acts s2 pat (w_time E) (acts_wf _ _ _ A2) Hp Ht) as (s3 & -> & A3).
  exists s3. split; [done|]. exact (acts_trans _ _ _ _ A12 A3).
Qed.

Lemma pmt_packet_acts t s pkt : tr_wf s -> exists s', pmt_packet t s pkt = Some s' /\ acts model_events s s'.
Proof.
  intros W. unfold pmt_packet. cbv zeta. destruct (_ || _); [by exists s; split; [|apply acts_refl]|].
  pose proof (tw_array _ W) as Ha. pose proof (tw_index _ W). rewrite (proj2 (Z.leb_le _ _)) by lia.
  eexists. split; [done|]. apply acts_same; try done; try apply W. cbn. unfold const.
  rewrite len_app, <- Ha. unfold len. rewrite length_map, length_take, length_drop. lia.
Qed.

Lemma pmt_timers_acts s : tr_wf s -> tv_norm (t_now s) ->
  exists s', pmt_timers (t_now s) s = Some s' /\ acts model_events s s'.
Proof.
  intros W Ht. unfold pmt_timers. pose proof (tw_array _ W). pose proof (tw_index _ W). rewrite fold_in_spec by lia.
  match goal with |- context [foldM ?f ?l ?x] => destruct (fun H => foldM_total f l H x) as [n ->]; [by eexists|] end.
  step. destruct (negb _); [by apply raise_two_acts_on; try lia; try in_events|].
  destruct (negb _); [by apply clear_two_acts_on; try lia; try in_events|].
  exists s. split; [done|]. by apply acts_refl.
Qed.

(** The promise of the stream model: a model that is returned is in its
    bounds. *)
Class StreamModelOk (SM : StreamModel) : Prop :=
  sm_query_ok : forall sm pat, snd (sm_query sm) = Some pat -> pat_ok pat.

Section Write.
Context {SM : StreamModel} {SMO : StreamModelOk SM}.

Lemma process_p1_56_acts E s sm ps : tr_wf s -> tv_norm (t_now s) -> packets ps ->
  exists s' sm', p1_process_p1_56 E (s, sm) (concat ps) (len ps) (t_now s) = Some (s', sm') /\ acts model_events s s'.
Proof using SMO.
  intros W Ht Hps. unfold p1_process_p1_56. destruct (sm_write sm (concat ps) (len ps) (t_now s)) as [[sm1 calls] complete].
  destruct (fold_acts model_events p2_streammodel_callback calls (fun s x _ => callback_acts s x) s W Ht) as (s1 & -> & A1). step.
  assert (exists s2 sm2, (if complete then let '(sm, pat) := sm_query sm1 in
            s ← match pat with None => Some s1 | Some pat => take_model E pat (t_now s) s1 end; Some (s, sm)
            else Some (s1, sm1)) = Some (s2, sm2) /\ acts model_events s1 s2) as (s2 & sm2 & -> & A2).
  { destruct complete; [|by exists s1, sm1; split; [|apply acts_refl, A1]].
    pose proof (sm_query_ok sm1) as Hq. destruct (sm_query sm1) as [sm2 [pat|]]; cbn [snd] in Hq.
    - destruct (take_model_acts E pat (t_now s) s1 (acts_wf _ _ _ A1) (Hq _ eq_refl)) as (s2 & -> & A2). step. by exists s2, sm2.
    - step. exists s1, sm2. split; [done|]. apply acts_refl, A1. }
  step. assert (A12 := acts_trans _ _ _ _ A1 A2). rewrite <- (acts_now _ _ _ A12) in *.
  destruct (check_model_acts E s2 (acts_wf _ _ _ A2) Ht) as (s3 & -> & A3). step.
  rewrite <- (acts_now _ _ _ A3) in *. rewrite packet_fold_spec by done.
  destruct (fold_acts model_events (pmt_packet (t_now s3)) (tails ps) (fun s x _ W _ => pmt_packet_acts (t_now s3) s x W) s3
    (acts_wf _ _ _ A3) Ht) as (s4 & -> & A4). step. rewrite <- (acts_now _ _ _ A4) in *.
  destruct (pmt_timers_acts s4 (acts_wf _ _ _ A4) Ht) as (s5 & -> & A5). step. exists s5, sm2. split; [done|].
  eapply acts_trans; [exact A12|]. eapply acts_trans; [exact A3|]. eapply acts_trans; [exact A4|exact A5].
Qed.
End Write.

(** ** P2 *)

Definition pcr_events : list Z := [11; 12].

Lemma p2_3_loop st ps : packets ps -> forall arr, len arr + len ps < 32 ->
  is_Some (foldM (p2_3_packet st) (tails ps) arr).
Proof.
  intros Hps. induction Hps as [|p ps Hp Hps IH]; intros arr Hl; [by eexists|]. rewrite len_cons in Hl.
  pose proof (len_nonneg ps). cbn [tails foldM].
  assert (exists arr', p2_3_packet st arr (concat (p :: ps)) = Some arr' /\ len arr' <= len arr + 1) as (arr' & -> & Hl').
  { unfold p2_3_packet. cbv zeta. destruct (_ =? 0); [exists arr; split; [done|lia]|].
    destruct (ltntstools_pid_stats_pid_did_violate_pcr_timing _ _); [|exists arr; split; [done|lia]].
    destruct (existsb _ arr); [exists arr; split; [done|lia]|]. zdec. eexists. split; [done|]. rewrite len_app. done. }
  step. apply IH. lia.
Qed.

Lemma p2_3_acts s ps : tr_wf s -> tv_norm (t_now s) -> packets ps ->
  exists s', p2_process_p2_3 s (concat ps) (len ps) (t_now s) = Some s' /\ acts pcr_events s s'.
Proof.
  intros W Ht Hps. unfold p2_process_p2_3. case_if; [by exists s; split; [|apply acts_refl]|].
  destruct (tw_stats _ W) as [st ->]. step. rewrite packet_fold_spec by done.
  destruct (p2_3_loop st ps Hps []) as [arr ->]; [change (len []) with 0; lia|]. step.
  destruct (negb _); [|by apply clear_two_acts_on; try lia; try in_events].
  destruct (raise_arg_acts_on pcr_events s E101290_P2_3__PCR_ERROR "" W Ht) as (s1 & -> & A1); [done|in_events|]. step.
  rewrite <- (acts_now _ _ _ A1) in *.
  destruct (raise_arg_acts_on pcr_events s1 E101290_P2_3a__PCR_REPETITION_ERROR "" (acts_wf _ _ _ A1) Ht) as (s2 & -> & A2);
    [done|in_events|].
  exists s2. split; [done|]. exact (acts_trans _ _ _ _ A1 A2).
Qed.

Definition tei_changed (s : ltntstools_tr101290_s) : bool :=
  negb (t_preTEIErrors s =? ltntstools_pid_stats_stream_get_tei_errors (t_streamStatistics s)).
Definition cat_missing (s : ltntstools_tr101290_s) : bool :=
  raise_alarm_p2_table s (lastCAT (t_p2 s)) &&
  negb (t_preScrambledCount s =? ltntstools_pid_stats_stream_get_scrambled_count (t_streamStatistics s)).

(** The operation of a condition. *)
Definition cond_op (b : bool) (e : Z) (t : timeval) : alarm_op := if b then OpRaise e t else OpClear e t.

Lemma cond_op_acts es s b e : tr_wf s -> tv_norm (t_now s) -> 0 <= e < 16 -> e ∈ es ->
  exists s', alarm_step s (cond_op b e (t_now s)) = Some s' /\ acts es s s' /\
    traces s [cond_op b e (t_now s)] s' /\ rest s' = rest s.
Proof.
  intros W Ht He Hin. assert (Hop : op_ok (cond_op b e (t_now s)) /\ writer_op (cond_op b e (t_now s)) /\
    op_event (cond_op b e (t_now s)) = e /\ op_time (cond_op b e (t_now s)) = t_now s) by by destruct b.
  destruct Hop as (H1 & H2 & H3 & H4).
  destruct (op_acts s _ (tw_ctx _ W) H1 H2) as (s' & E & T & R). exists s'. split; [done|]. split; [|done].
  apply (acts_ops es s [cond_op b e (t_now s)]); try done; apply Forall_singleton; [done|by rewrite H3].
Qed.

Lemma p2_tei_eq s t : p2_tei s t = alarm_step s (cond_op (tei_changed s) 9 t).
Proof. unfold p2_tei, tei_changed. by destruct (negb _). Qed.
Lemma p2_cat_eq s t : p2_cat s t = alarm_step s (cond_op (cat_missing s) 15 t).
Proof. unfold p2_cat, cat_missing. by destruct (_ && _). Qed.

Lemma rest_counts s s' : rest s' = rest s -> cat_missing s' = cat_missing s.
Proof. intros R. exact (f_equal cat_missing R). Qed.

(** The operations of the P2 layer: [o] are those of the PCRs. *)
Lemma p2_write_spec s ps t : tr_wf s -> t_now s = t -> tv_norm t -> packets ps ->
  exists s' o, p2_write s (concat ps) (len ps) t = Some s' /\ tr_wf s' /\ kept s' = kept s /\
    traces s ([cond_op (tei_changed s) 9 t; cond_op (cat_missing s) 15 t] ++ o) s' /\
    ops_at t o /\ Forall (fun op => op_event op ∈ pcr_events) o.
Proof.
  intros W Hn Ht Hps. unfold p2_write. replace (s <| t_now := t |>) with s by (subst t; by destruct s). subst t.
  cbv zeta. rewrite p2_tei_eq.
  destruct (cond_op_acts [9] s (tei_changed s) 9 W Ht) as (s1 & -> & A1 & T1 & R1); [done|in_events|]. step.
  rewrite p2_cat_eq, (rest_counts _ _ R1). rewrite <- (acts_now _ _ _ A1) in *.
  destruct (cond_op_acts [15] s1 (cat_missing s) 15 (acts_wf _ _ _ A1) Ht) as (s2 & -> & A2 & T2 & _); [done|in_events|]. step.
  rewrite <- (acts_now _ _ _ A2) in *.
  destruct (p2_3_acts s2 ps (acts_wf _ _ _ A2) Ht Hps) as (s3 & -> & W3 & K3 & o & T3 & O3 & F3).
  exists s3, o. split; [done|]. split; [done|]. split; [by rewrite K3, (proj1 (proj2 A2)), (proj1 (proj2 A1))|].
  split; [|done]. exact (traces_app _ _ _ _ _ (traces_app _ _ _ _ _ T1 T2) T3).
Qed.

(** ** The write *)

Lemma tr_wf_fields s s' : tr_wf s -> ctx_wf s' -> t_lastPMTArray s' = t_lastPMTArray s ->
  t_lastPMTArrayIndex s' = t_lastPMTArrayIndex s -> t_cachedPAT s' = t_cachedPAT s ->
  0 <= t_consecutiveSyncErrors s' -> is_Some (t_streamStatistics s') -> tr_wf s'.
Proof. intros [] ? E1 E2 E3 ? ?. constructor; by rewrite ?E1, ?E2, ?E3. Qed.

Lemma sync_packet_at t s p q : len p = 188 -> p1_sync_packet t s (p ++ q) = p1_sync_packet t s p.
Proof. intros Hp. unfold p1_sync_packet, ltntstools_sync_present. by rewrite header_at by lia. Qed.

Definition cond_two (b : bool) (e1 e2 : Z) (t : timeval) : list alarm_op := [cond_op b e1 t; cond_op b e2 t].

(** The counters and times that the first analyses leave behind. *)
Definition before_model (s s' : ltntstools_tr101290_s) : Prop :=
  t_now s' = t_now s /\ t_preTEIErrors s' = t_preTEIErrors s /\ t_preScrambledCount s' = t_preScrambledCount s /\
  t_streamStatistics s' = t_streamStatistics s /\ t_h1 s' = t_h1 s.

Lemma p1_front_spec t s ps : tr_wf s -> t_now s = t -> tv_norm t -> packets ps -> Forall pat_inside ps ->
  t_consecutiveSyncErrors s + len ps < 2 ^ 31 ->
  exists s', (s ← packet_fold (p1_sync_packet t) (len ps) (concat ps) s;
              s ← p1_process_p1_3 s (concat ps) (len ps) t; p1_process_p1_4 s t) = Some s' /\
    tr_wf s' /\ before_model s s' /\
    t_CCCounterLastWrite s' = ltntstools_pid_stats_stream_get_cc_errors (t_streamStatistics s) /\
    t_consecutiveSyncErrors s' <= t_consecutiveSyncErrors s + len ps /\
    t_lastPAT s' = (if existsb is_pat ps then t else t_lastPAT s) /\
    traces s (sync_ops t (map synced ps) (t_consecutiveSyncBytes s) (t_consecutiveSyncErrors s) ++
              cond_two (pat_issue t (t_lastPAT s) ps) 3 4 t ++ [cond_op (cc_changed s) 5 t]) s'.
Proof.
  intros W Hn Ht Hps Hin Hl. rewrite packet_fold_spec, (tails_fold _ (p1_sync_packet t)) by (try done; intros; by apply sync_packet_at).
  destruct (sync_spec t ps s (tw_ctx _ W) Ht (tw_errors _ W) Hl) as (s1 & -> & T1 & R1 & E1). step.
  destruct (process_p1_3_spec s1 ps t (traces_wf _ _ _ T1) Ht Hps Hin) as (s2 & -> & T2 & R2). step.
  destruct (process_p1_4_spec s2 t (traces_wf _ _ _ T2) Ht) as (s3 & -> & T3 & R3). exists s3. split; [done|].
  assert (F1 : t_lastPAT s1 = t_lastPAT s) by exact (f_equal t_lastPAT R1).
  assert (F2 : t_streamStatistics s2 = t_streamStatistics s)
    by (transitivity (t_streamStatistics s1); [exact (f_equal t_streamStatistics R2)|exact (f_equal t_streamStatistics R1)]).
  assert (F3 : t_CCCounterLastWrite s2 = t_CCCounterLastWrite s)
    by (transitivity (t_CCCounterLastWrite s1); [exact (f_equal t_CCCounterLastWrite R2)|exact (f_equal t_CCCounterLastWrite R1)]).
  assert (G : forall {T} (f : ltntstools_tr101290_s -> T), (forall s, f s = f (rest_sync s)) ->
    (forall x s, f (rest_sync (s <| t_lastPAT := x |>)) = f (rest_sync s)) ->
    (forall x s, f (rest_sync (s <| t_CCCounterLastWrite := x |>)) = f (rest_sync s)) -> f s3 = f s).
  { intros T f H1 H2 H3. rewrite (H1 s), <- R1, (H1 s3).
    assert (Er : forall s, rest_sync s = rest_sync (rest s)) by done.
    rewrite (Er s3), R3, H3, <- (Er s2), (Er s2), R2, H2. done. }
  split; [|split; [|split; [|split; [|split]]]].
  - apply (tr_wf_fields s); [done|apply T3|by apply (G _ t_lastPMTArray)|by apply (G _ t_lastPMTArrayIndex)|by apply (G _ t_cachedPAT)| |].
    + transitivity (t_consecutiveSyncErrors s1); [lia|]. apply Z.eq_le_incl. symmetry.
      transitivity (t_consecutiveSyncErrors s2); [exact (f_equal t_consecutiveSyncErrors R3)|exact (f_equal t_consecutiveSyncErrors R2)].
    + assert (E : t_streamStatistics s3 = t_streamStatistics s) by by apply (G _ t_streamStatistics). rewrite E. apply W.
  - split; [by apply (G _ t_now)|]. split; [by apply (G _ t_preTEIErrors)|]. split; [by apply (G _ t_preScrambledCount)|].
    split; [by apply (G _ t_streamStatistics)|by apply (G _ t_h1)].
  - rewrite <- F2. exact (f_equal t_CCCounterLastWrite R3).
  - transitivity (t_consecutiveSyncErrors s1); [|lia]. apply Z.eq_le_incl.
    transitivity (t_consecutiveSyncErrors s2); [exact (f_equal t_consecutiveSyncErrors R3)|exact (f_equal t_consecutiveSyncErrors R2)].
  - transitivity (t_lastPAT s2); [exact (f_equal t_lastPAT R3)|]. rewrite <- F1. exact (f_equal t_lastPAT R2).
  - assert (Ec : cc_changed s2 = cc_changed s) by (unfold cc_changed; by rewrite F2, F3).
    rewrite F1 in T2. rewrite Ec in T3. eapply traces_app; [exact T1|]. eapply traces_app; [|exact T3].
    unfold cond_two, cond_op. by destruct (pat_issue _ _ _).
Qed.

Section Write.
Context {SM : StreamModel} {SMO : StreamModelOk SM}.

(** The operations of the P1 layer: [o] are those of the model. *)
Lemma p1_write_spec E t s sm ps : tr_wf s -> t_now s = t -> tv_norm t -> packets ps -> Forall pat_inside ps ->
  t_consecutiveSyncErrors s + len ps < 2 ^ 31 ->
  exists s' sm' o, p1_write E (s, sm) (concat ps) (len ps) t = Some (s', sm') /\ tr_wf s' /\
    t_now s' = t /\ t_h1 s' = t_h1 s /\ t_preTEIErrors s' = t_preTEIErrors s /\ t_preScrambledCount s' = t_preScrambledCount s /\
    stream_counts (t_streamStatistics s') = stream_counts (t_streamStatistics s) /\
    t_CCCounterLastWrite s' = ltntstools_pid_stats_stream_get_cc_errors (t_streamStatistics s) /\
    t_consecutiveSyncErrors s' <= t_consecutiveSyncErrors s + len ps /\
    t_lastPAT s' = (if existsb is_pat ps then t else t_lastPAT s) /\
    traces s ((sync_ops t (map synced ps) (t_consecutiveSyncBytes s) (t_consecutiveSyncErrors s) ++
               cond_two (pat_issue t (t_lastPAT s) ps) 3 4 t ++ [cond_op (cc_changed s) 5 t]) ++ o) s' /\
    ops_at t o /\ Forall (fun op => op_event op ∈ model_events) o.
Proof using SMO.
  intros W Hn Ht Hps Hin Hl. unfold p1_write. replace (s <| t_now := t |>) with s by (subst t; by destruct s). cbv zeta.
  destruct (p1_front_spec t s ps W Hn Ht Hps Hin Hl) as (s1 & E1 & W1 & (B1 & B2 & B3 & B4 & B8) & B5 & B6 & B7 & T1).
  destruct (packet_fold (p1_sync_packet t) (len ps) (concat ps) s) as [sa|]; [|done]. cbn [mbind option_bind] in E1 |- *.
  destruct (p1_process_p1_3 sa (concat ps) (len ps) t) as [sb|]; [|done]. cbn [mbind option_bind] in E1 |- *.
  rewrite E1. step. clear sa sb E1. assert (N1 : t = t_now s1) by by rewrite B1. rewrite N1 in Ht |- *.
  destruct (process_p1_56_acts E s1 sm ps W1 Ht Hps) as (s2 & sm2 & -> & W2 & K2 & o & T2 & O2 & F2).
  exists s2, sm2, o. split; [done|]. split; [done|].
  split; [exact (f_equal (fun k => k.1.1.1.1.1.1.1.2) K2)|].
  split; [rewrite <- B8; exact (f_equal (fun k => k.1.1.1.1.1.1.1.1) K2)|].
  split; [rewrite <- B2; exact (f_equal (fun k => k.1.1.1.1.1.2) K2)|].
  split; [rewrite <- B3; exact (f_equal (fun k => k.1.1.1.1.2) K2)|].
  split; [rewrite <- B4; exact (f_equal (fun k => k.2) K2)|].
  split; [rewrite <- B5; exact (f_equal (fun k => k.1.1.1.1.1.1.2) K2)|].
  split; [transitivity (t_consecutiveSyncErrors s1); [apply Z.eq_le_incl; exact (f_equal (fun k => k.1.2) K2)|done]|].
  split; [rewrite <- N1, <- B7; exact (f_equal (fun k => k.1.1.1.2) K2)|].
  split; [rewrite <- N1; by eapply traces_app|done].
Qed.
End Write.

(** A context, its histogram and a call with the packets [ps] at the time [t].
    Nothing is said of the statistics. *)
Record write_ok (s : ltntstools_tr101290_s) (ps : list (list Z)) (t : timeval) : Prop := {
  wo_wf : tr_wf s;
  wo_time : timeval_wf t;
  wo_packets : packets ps;
  wo_pat : Forall pat_inside ps;
  wo_errors : t_consecutiveSyncErrors s + len ps < 2 ^ 31;
  wo_hist : exists h, t_h1 s = Some h /\ hist_wf h /\ seen h + 1 < 2 ^ 64
}.

(** The update of the statistics inside the write gives [st]. *)
Definition stats_after (E : write_env) (s : ltntstools_tr101290_s) (ps : list (list Z))
    (st : ltntstools_stream_statistics_s) : Prop :=
  ltntstools_pid_stats_update (w_stats E) (t_streamStatistics s) (Some (concat ps)) (len ps) = Some (Some st).

Lemma update_some E st buf n r : ltntstools_pid_stats_update E (Some st) (Some buf) n = Some r -> is_Some r.
Proof.
  unfold ltntstools_pid_stats_update. destruct (update_bitrate _ _ _); [|done]. step.
  destruct (count_sync_loop _ _ _ _ _ _); [|done]. step. destruct (update_iat _ _); [|done]. step.
  destruct (update_loop _ _ _ _ _ _); [|done]. step. by intros [= <-].
Qed.

(** The operations on the events that the packets decide: [cat]: the condition
    of P2.6, [o1] and [o2]: the operations of the model and of the PCRs. *)
Definition write_ops (s : ltntstools_tr101290_s) (ps : list (list Z)) (t : timeval)
    (st : ltntstools_stream_statistics_s) (cat : bool) (o1 o2 : list alarm_op) : list alarm_op :=
  let old := t_streamStatistics s in
  ((sync_ops t (map synced ps) (t_consecutiveSyncBytes s) (t_consecutiveSyncErrors s) ++
    cond_two (pat_issue t (t_lastPAT s) ps) 3 4 t ++
    [cond_op (negb (t_CCCounterLastWrite s =? s_ccErrors st)) 5 t]) ++ o1) ++
  ([cond_op (negb (ltntstools_pid_stats_stream_get_tei_errors old =? s_teiErrors st)) 9 t; cond_op cat 15 t] ++ o2).

Section Calls.
Context {SM : StreamModel} {SMO : StreamModelOk SM}.

Lemma write_spec E s sm ps t st : write_ok s ps t -> stats_after E s ps st ->
  exists s' sm' cat o1 o2,
    ltntstools_tr101290_write E (s, sm) (concat ps) (len ps) (Some t) = Some ((s', sm'), len ps) /\
    tr_wf s' /\ (exists h, t_h1 s' = Some h /\ hist_wf h) /\
    t_CCCounterLastWrite s' = s_ccErrors st /\ t_consecutiveSyncErrors s' <= t_consecutiveSyncErrors s + len ps /\
    traces s (write_ops s ps t st cat o1 o2) s' /\
    ops_at t o1 /\ Forall (fun op => op_event op ∈ model_events) o1 /\
    ops_at t o2 /\ Forall (fun op => op_event op ∈ pcr_events) o2.
Proof using SMO.
  intros [W Ht Hps Hin Hl (h & Hh & Hhw & Hhs)] Hst. unfold ltntstools_tr101290_write. step.
  assert (Hn : tv_norm t) by apply Ht. change (t_h1 (s <| t_now := t |>)) with (t_h1 s). rewrite Hh. step.
  destruct (hist_step_spec h (OpInterval t) Hhw Ht Hhs) as (h' & Eh & Hhw' & _). cbn [hist_step] in Eh.
  destruct (ltn_histogram_interval_update h t) as [[h1 r]|]; [|done]. injection Eh as <-. step. cbv zeta.
  match goal with |- context [ltntstools_pid_stats_update _ ?x _ _] => change x with (t_streamStatistics s) end.
  rewrite Hst. step.
  match goal with |- context [p1_write E (?x, sm)] => set (s1 := x) end. change (t_now s1) with t.
  assert (W1 : tr_wf s1).
  { apply (tr_wf_fields s); try done; [|apply W]. eapply traces_wf. by apply traces_nil; [apply W|]. }
  destruct (p1_write_spec E t s1 sm ps W1 eq_refl Hn Hps Hin Hl)
    as (s2 & sm2 & o1 & -> & W2 & N2 & H2 & T2 & C2 & S2 & K2 & L2 & _ & R2 & O1 & F1). step.
  rewrite N2. destruct (p2_write_spec s2 ps t W2 N2 Hn Hps) as (s3 & o2 & -> & W3 & K3 & R3 & O2 & F2). step.
  exists s3, sm2, (cat_missing s2), o1, o2. split; [done|]. split; [done|].
  split; [exists h1; split; [|done]; transitivity (t_h1 s2); [exact (f_equal (fun k => k.1.1.1.1.1.1.1.1) K3)|done]|].
  split; [transitivity (t_CCCounterLastWrite s2); [exact (f_equal (fun k => k.1.1.1.1.1.1.2) K3)|done]|].
  split; [transitivity (t_consecutiveSyncErrors s2); [apply Z.eq_le_incl; exact (f_equal (fun k => k.1.2) K3)|done]|].
  split; [|done]. unfold write_ops. assert (Et : tei_changed s2 = negb (ltntstools_pid_stats_stream_get_tei_errors (t_streamStatistics s) =? s_teiErrors st)).
  { unfold tei_changed. rewrite T2. f_equal. f_equal. exact (f_equal (fun c => c.1.2) S2). }
  rewrite <- Et. assert (R12 := traces_app _ _ _ _ _ R2 R3). eapply traces_ext; [exact R12|done|done].
Qed.

(** The histogram is updated first, then the statistics. *)
Lemma write_undefined E s sm ps t : write_ok s ps t ->
  ltntstools_pid_stats_update (w_stats E) (t_streamStatistics s) (Some (concat ps)) (len ps) = None ->
  ltntstools_tr101290_write E (s, sm) (concat ps) (len ps) (Some t) = None.
Proof.
  intros [W Ht Hps Hin Hl (h & Hh & Hhw & Hhs)] Hst. unfold ltntstools_tr101290_write. step.
  change (t_h1 (s <| t_now := t |>)) with (t_h1 s). rewrite Hh. step.
  destruct (ltn_histogram_interval_update h t) as [[h1 r]|]; [|done]. step. cbv zeta.
  match goal with |- context [ltntstools_pid_stats_update _ ?x _ _] => change x with (t_streamStatistics s) end.
  by rewrite Hst.
Qed.

(** *** Entries after a call *)

Lemma exists_unsynced ps : existsb negb (map synced ps) = existsb (fun p => negb (synced p)) ps.
Proof. induction ps as [|p ps IH]; [done|]. cbn [map existsb]. by rewrite IH. Qed.

Lemma cond_op_entry k ev b t : entry_step k ev (cond_op b k t) = if b then event_raise t ev else event_clear t ev.
Proof. unfold entry_step. by destruct b; cbn; rewrite Z.eqb_refl. Qed.

Lemma cond_op_other k e ev b t : e <> k -> entry_step k ev (cond_op b e t) = ev.
Proof. intros H. unfold entry_step. destruct b; cbn; by rewrite (proj2 (Z.eqb_neq _ _)). Qed.

Lemma foldl_not_in k ev (es : list Z) ops : k ∉ es -> Forall (fun op => op_event op ∈ es) ops -> foldl (entry_step k) ev ops = ev.
Proof. intros Hk H. apply foldl_other. eapply List.Forall_impl; [|exact H]. intros op Hop E. apply Hk. by rewrite <- E. Qed.

Lemma sync_ops_events t good : forall b e, Forall (fun op => op_event op ∈ [1; 2]) (sync_ops t good b e).
Proof.
  induction good as [|[|] good IH]; intros b e; [done|..]; cbn [sync_ops]; apply Forall_app; split; try apply IH;
    case_if; repeat (apply Forall_cons_2; [in_events|]); apply Forall_nil_2.
Qed.

(** A literal list of numbers does not hold the number. *)
Ltac not_in_events := rewrite list_elem_of_In; cbn; lia.

Lemma write_ops_sync s ps t st cat o1 o2 k ev :
  Forall (fun op => op_event op ∈ model_events) o1 -> Forall (fun op => op_event op ∈ pcr_events) o2 -> 1 <= k <= 2 ->
  foldl (entry_step k) ev (write_ops s ps t st cat o1 o2) =
  foldl (entry_step k) ev (sync_ops t (map synced ps) (t_consecutiveSyncBytes s) (t_consecutiveSyncErrors s)).
Proof.
  intros F1 F2 Hk. unfold write_ops. cbv zeta. rewrite !foldl_app. unfold cond_two. cbn [foldl].
  rewrite !(cond_op_other k) by lia. rewrite (foldl_not_in k _ model_events o1) by (try done; not_in_events).
  by rewrite (foldl_not_in k _ pcr_events o2) by (try done; not_in_events).
Qed.

Lemma write_ops_entry s ps t st cat o1 o2 ev :
  Forall (fun op => op_event op ∈ model_events) o1 -> Forall (fun op => op_event op ∈ pcr_events) o2 ->
  let at_ k := foldl (entry_step k) ev (write_ops s ps t st cat o1 o2) in
  let act (b : bool) := if b then event_raise t ev else event_clear t ev in
  at_ 3 = act (pat_issue t (t_lastPAT s) ps) /\ at_ 4 = act (pat_issue t (t_lastPAT s) ps) /\
  at_ 5 = act (negb (t_CCCounterLastWrite s =? s_ccErrors st)) /\
  at_ 9 = act (negb (ltntstools_pid_stats_stream_get_tei_errors (t_streamStatistics s) =? s_teiErrors st)).
Proof.
  intros F1 F2. cbv zeta. unfold write_ops. cbv zeta. rewrite !foldl_app. unfold cond_two. cbn [foldl].
  assert (Hs : forall k, 3 <= k -> foldl (entry_step k) ev (sync_ops t (map synced ps) (t_consecutiveSyncBytes s)
                                     (t_consecutiveSyncErrors s)) = ev).
  { intros k Hk. apply (foldl_not_in k _ [1; 2]); [not_in_events|apply sync_ops_events]. }
  rewrite !Hs by lia.
  split; [|split; [|split]].
  - rewrite !(cond_op_other 3) by lia. rewrite cond_op_entry, (foldl_not_in 3 _ model_events o1), (foldl_not_in 3 _ pcr_events o2)
      by (try done; not_in_events). by rewrite ?(cond_op_other 3) by lia.
  - rewrite !(cond_op_other 4) by lia. rewrite cond_op_entry, (foldl_not_in 4 _ model_events o1), (foldl_not_in 4 _ pcr_events o2)
      by (try done; not_in_events). by rewrite ?(cond_op_other 4) by lia.
  - rewrite !(cond_op_other 5) by lia. rewrite cond_op_entry, (foldl_not_in 5 _ model_events o1), (foldl_not_in 5 _ pcr_events o2)
      by (try done; not_in_events). by rewrite ?(cond_op_other 5) by lia.
  - rewrite !(cond_op_other 9) by lia. rewrite (foldl_not_in 9 _ model_events o1), cond_op_entry, (foldl_not_in 9 _ pcr_events o2)
      by (try done; not_in_events). by rewrite ?(cond_op_other 9) by lia.
Qed.

Lemma event_autoclear s e ev : ctx_wf s -> 1 <= e <= 12 -> aget (t_event_tbl s) e = Some ev ->
  event_wf ev /\ ev_autoClearAlarmAfterReport ev = 5000.
Proof.
  intros Hs He Hev. destruct (event_lookup s e Hs) as (ev' & Hev' & Hw & _); [lia|]. rewrite Hev in Hev'. injection Hev' as <-.
  split; [done|]. apply aget_Some in Hev as [_ Hev].
  assert (H : map event_key (t_event_tbl s) !! Z.to_nat e = Some (event_key ev)) by (by rewrite list_lookup_fmap, Hev).
  rewrite (cw_key _ Hs) in H. assert (Hn : (1 <= Z.to_nat e <= 12)%nat) by lia. revert H Hn. generalize (Z.to_nat e).
  intros n H Hn. do 13 (destruct n as [|n]; [try lia; cbn in H; injection H as _ <-; reflexivity|]). lia.
Qed.
(** ** Properties *)


(** Synchronisation: after a write, a sync byte error that was not raised
    before is raised exactly when a packet of the write has no sync byte, and a
    loss of synchronisation exactly when two adjacent packets have none, the
    last packet of the previous write included. *)
Theorem sync_loss_detected (E : write_env) (s : ltntstools_tr101290_s) (sm : sm_state) (ps : list (list Z))
    (t : timeval) (st : ltntstools_stream_statistics_s) (ev1 ev2 : tr_event_s) :
  write_ok s ps t -> stats_after E s ps st ->
  aget (t_event_tbl s) E101290_P1_1__TS_SYNC_LOSS = Some ev1 -> ev_raised ev1 = false ->
  aget (t_event_tbl s) E101290_P1_2__SYNC_BYTE_ERROR = Some ev2 -> ev_raised ev2 = false ->
  exists s' sm' ev1' ev2',
    ltntstools_tr101290_write E (s, sm) (concat ps) (len ps) (Some t) = Some ((s', sm'), len ps) /\
    aget (t_event_tbl s') E101290_P1_1__TS_SYNC_LOSS = Some ev1' /\
    aget (t_event_tbl s') E101290_P1_2__SYNC_BYTE_ERROR = Some ev2' /\
    ev_raised ev2' = existsb (fun p => negb (synced p)) ps /\
    ev_raised ev1' = adjacent_bad (1 <=? t_consecutiveSyncErrors s) (map synced ps).
Proof using SMO.
  intros H Hu H1 R1 H2 R2. pose proof (wo_wf _ _ _ H) as W. assert (Ht : tv_norm t) by apply H.
  destruct (write_spec E s sm ps t st H Hu) as (s' & sm' & cat & o1 & o2 & E1 & _ & _ & _ & _ & (_ & _ & T) & _ & F1 & _ & F2).
  exists s', sm'. do 2 eexists. split; [done|]. split; [by apply T|]. split; [by apply T|].
  rewrite !write_ops_sync by done. unfold E101290_P1_1__TS_SYNC_LOSS, E101290_P1_2__SYNC_BYTE_ERROR in *.
  destruct (event_autoclear s 1 ev1 (tw_ctx _ W)) as [W1 A1]; [lia|done|].
  destruct (event_autoclear s 2 ev2 (tw_ctx _ W)) as [W2 A2]; [lia|done|].
  rewrite !(one_time_raised _ t) by (try done; try lia; try (by apply sync_ops_at); by left).
  rewrite R1, R2, sync_ops_raise1, sync_ops_raise2, exists_unsynced by apply W. done.
Qed.

(** Errors become events: with statistics that have counted the packets
    [seen], a write of [ps] raises the continuity event exactly when the
    statistics count a continuity error or a packet without a sync byte among
    [ps], the transport error event exactly when one of [ps] has the error bit,
    and the two PAT events exactly when a PAT of [ps] is bad or there was none
    for half a second; otherwise it asks to clear them.  The counter for the
    next write is the new one. *)
Theorem errors_raise_events (E : write_env) (s : ltntstools_tr101290_s) (sm : sm_state) (st : ltntstools_stream_statistics_s)
    (t0 u n : Z) (seen ps : list (list Z)) (t : timeval) :
  tr_wf s -> t_streamStatistics s = Some st -> timeval_wf t -> packets ps -> Forall pat_inside ps ->
  t_consecutiveSyncErrors s + len ps < 2 ^ 31 -> (exists h, t_h1 s = Some h /\ hist_wf h /\ Histogram.seen h + 1 < 2 ^ 64) ->
  0 <= t0 < 2 ^ 61 -> env_wf t0 (w_stats E) -> stats_inv t0 seen u st -> quiet n st -> 0 <= n < 2 ^ 62 ->
  0 <= s_packetCount st <= len seen -> len seen + 2 * len ps + u < 2 ^ 61 ->
  t_CCCounterLastWrite s = s_ccErrors st ->
  exists s' sm', ltntstools_tr101290_write E (s, sm) (concat ps) (len ps) (Some t) = Some ((s', sm'), len ps) /\
    t_CCCounterLastWrite s' = cc_total (seen ++ ps) + u + total unsynced ps /\
    forall k ev, aget (t_event_tbl s) k = Some ev ->
      let act (b : bool) := Some (if b then event_raise t ev else event_clear t ev) in
      (k = E101290_P1_4__CONTINUITY_COUNTER_ERROR -> aget (t_event_tbl s') k =
         act (negb (cc_total (seen ++ ps) - cc_total seen + total unsynced ps =? 0))) /\
      (k = E101290_P2_1__TRANSPORT_ERROR -> aget (t_event_tbl s') k =
         act (negb (total ltntstools_tei_set ps =? 0))) /\
      (k = E101290_P1_3__PAT_ERROR \/ k = E101290_P1_3a__PAT_ERROR_2 -> aget (t_event_tbl s') k =
         act (pat_issue t (t_lastPAT s) ps)).
Proof using SMO.
  intros W Hst Ht Hps Hin Hl Hh Ht0 HE Hinv Hq Hn Hpc Hlen Hcc.
  destruct (update_spec t0 (w_stats E) seen u n st ps) as (st' & Eu & Hinv' & _ & _); [done..|].
  assert (Ho : write_ok s ps t) by done. assert (Hu : stats_after E s ps st') by (unfold stats_after; by rewrite Hst).
  destruct (write_spec E s sm ps t st' Ho Hu) as (s' & sm' & cat & o1 & o2 & E1 & _ & _ & C1 & _ & (_ & _ & T) & _ & F1 & _ & F2).
  pose proof (si_cc _ _ _ _ Hinv). pose proof (si_cc _ _ _ _ Hinv') as Ecc.
  pose proof (si_tei _ _ _ _ Hinv). pose proof (si_tei _ _ _ _ Hinv') as Ete. rewrite total_app in Ete.
  exists s', sm'. split; [done|]. split; [rewrite C1; lia|]. intros k ev Hk. cbv zeta. rewrite (T k ev Hk).
  destruct (write_ops_entry s ps t st' cat o1 o2 ev F1 F2) as (P3 & P4 & P5 & P9). cbv zeta in *.
  unfold E101290_P1_4__CONTINUITY_COUNTER_ERROR, E101290_P2_1__TRANSPORT_ERROR, E101290_P1_3__PAT_ERROR, E101290_P1_3a__PAT_ERROR_2.
  split; [|split].
  - intros ->. assert (Eb : (s_ccErrors st =? s_ccErrors st') = (cc_total (seen ++ ps) - cc_total seen + total unsynced ps =? 0))
      by lia. by rewrite P5, Hcc, Eb.
  - intros ->. assert (Eb : (s_teiErrors st =? s_teiErrors st') = (total ltntstools_tei_set ps =? 0)) by lia.
    rewrite P9, Hst, <- Eb. done.
  - intros [-> | ->]; by rewrite ?P3, ?P4.
Qed.
End Calls.

(** ** Allocation *)

Lemma stats_reset_inv t0 now st : timeval_wf now -> stats_inv t0 [] 0 st -> quiet 0 st ->
  stats_inv t0 [] 0 (ltntstools_pid_stats_reset now st) /\ quiet 0 (ltntstools_pid_stats_reset now st) /\
  s_packetCount (ltntstools_pid_stats_reset now st) = 0.
Proof.
  intros Hnow [J1 J2 J3 J4 J5 J6 J7 J8 J9] [Q1 Q2 Q3 (h & Q4 & Q5 & Q6)]. split; [|split; [|done]].
  - constructor; try done.
    + intros k. specialize (J1 k). cbn. unfold const. rewrite lookup_fmap. destruct (s_pids st !! k); [by destruct J1|done].
    + constructor.
  - constructor; try done. exists (ltn_histogram_reset now h). cbn. unfold const. rewrite Q4. split; [done|].
    destruct (hist_reset_wf now h Q5 Hnow) as [H1 H2]. split; [done|]. rewrite H2. done.
Qed.

Lemma tr101290_alloc_spec t0 now cb : timeval_wf now -> 0 <= t0 ->
  exists s st, ltntstools_tr101290_alloc true true (fun _ => true) (fun _ => now) cb = Some s /\ tr_wf s /\
    t_streamStatistics s = Some st /\ stats_inv t0 [] 0 st /\ quiet 0 st /\ s_packetCount st = 0 /\
    (exists h, t_h1 s = Some h /\ hist_wf h /\ Histogram.seen h = 0) /\ t_CCCounterLastWrite s = 0 /\
    t_consecutiveSyncErrors s = 0 /\ t_event_tbl s = tr_events_tbl /\ t_lastPAT s = Timeval 0 0.
Proof.
  intros Hnow Ht0. unfold ltntstools_tr101290_alloc.
  destruct (stats_alloc_spec t0 now Hnow Ht0) as (st & -> & Hinv & Hq & _). step.
  destruct (stats_reset_inv t0 now st Hnow Hinv Hq) as (Hinv' & Hq' & Hp').
  unfold ltn_histogram_alloc_video_defaults.
  destruct (hist_alloc_wf now "write arrival latency" 0 (16 * 1000)) as (h & -> & Hwf & Hs & _); [lia|lia|done|].
  eexists _, _. split; [reflexivity|]. split; [|split; [reflexivity|]].
  - constructor; try done. apply (traces_wf (ctx_fresh cb) []). apply traces_nil; [apply ctx_fresh_wf|done].
  - split; [done|]. split; [done|]. split; [done|]. split; [by exists h|]. done.
Qed.

(** ** Concrete calls *)

(** A model that is complete at every write: one program, no callback fails. *)
Definition test_pat : ltntstools_pat_s :=
  pat_zero <| pa_program_count := 1 |>
           <| pa_programs := <[0%nat := {| pp_program_number := 1; pp_program_map_PID := 0x30; pp_pmt := pmt_zero;
                pp_service_id := 0; pp_service_type := 0; pp_service_name := []; pp_service_provider := [] |}]>
                (pa_programs pat_zero) |>.

#[local] Instance test_model : StreamModel :=
  {| sm_state := nat;
     sm_write n _ _ _ := (S n, [{| cb_status := 1; cb_context := 1; cb_arg := 1 |}], true);
     sm_query n := (n, Some test_pat) |}.

#[local] Instance test_model_ok : StreamModelOk test_model.
Proof.
  intros sm pat. cbn. intros [= <-]. destruct pat_zero_ok as [H1 H2 H3]. constructor; [done| |].
  - by vm_compute.
  - apply (Forall_insert (fun g => pmt_ok (pp_pmt g)) (pa_programs pat_zero) 0); [done|]. exact (Forall_inv H3).
Qed.

Definition test_write_env : write_env :=
  {| w_stats := test_env 1000; w_pcr := fun _ => test_env 1000; w_time := 1000; w_complete_time := 1000; w_clone_ok := true |}.

(** A PAT, a packet with the error bit, and two packets without a sync byte. *)
Definition test_write_packets : list (list Z) :=
  [test_packet 0x40 0x00 0x10; test_packet 0x80 0x31 0x10; 0x46 :: drop 1 (test_packet 0 0x31 0x11);
   0x46 :: drop 1 (test_packet 0 0x31 0x12)].

Lemma test_write_ok : exists s st st',
  ltntstools_tr101290_alloc true true (fun _ => true) (fun _ => Timeval 1000 0) true = Some s /\
  t_streamStatistics s = Some st /\ stats_inv 1000 [] 0 st /\ quiet 0 st /\ s_packetCount st = 0 /\
  t_CCCounterLastWrite s = s_ccErrors st /\ t_event_tbl s = tr_events_tbl /\ t_lastPAT s = Timeval 0 0 /\
  t_consecutiveSyncErrors s = 0 /\ write_ok s test_write_packets (Timeval 1000 0) /\
  stats_after test_write_env s test_write_packets st'.
Proof.
  destruct (tr101290_alloc_spec 1000 (Timeval 1000 0) true) as (s & st & E & W & Hst & Hinv & Hq & Hp & (h & Hh) & Hc & He & Ht & Hl);
    [done|done|].
  assert (Hps : packets test_write_packets) by by repeat constructor.
  destruct (update_spec 1000 (test_env 1000) [] 0 0 st test_write_packets) as (st' & Eu & _);
    [done|by apply test_env_wf|done|done|done|done|by rewrite Hp|done|].
  exists s, st, st'. split; [done|]. split; [done|]. split; [done|]. split; [done|]. split; [done|].
  split; [rewrite Hc; symmetry; exact (si_cc _ _ _ _ Hinv)|]. split; [done|]. split; [done|]. split; [done|].
  split; [|unfold stats_after; by rewrite Hst]. constructor; try done.
  - apply Forall_cons_2; [intros _; by vm_compute|]. repeat (apply Forall_cons_2; [by intros Hpat; vm_compute in Hpat|]).
    apply Forall_nil_2.
  - by rewrite He.
  - exists h. destruct Hh as (H1 & H2 & H3). split; [done|]. split; [done|]. by rewrite H3.
Qed.


Lemma sync_loss_detected_witness : exists s s' sm' ev1 ev2,
  ltntstools_tr101290_alloc true true (fun _ => true) (fun _ => Timeval 1000 0) true = Some s /\
  ltntstools_tr101290_write test_write_env (s, 0%nat) (concat test_write_packets) 4 (Some (Timeval 1000 0))
    = Some ((s', sm'), 4) /\
  aget (t_event_tbl s') 1 = Some ev1 /\ aget (t_event_tbl s') 2 = Some ev2 /\
  ev_raised ev1 = true /\ ev_raised ev2 = true.
Proof.
  destruct test_write_ok as (s & st & st' & E & _ & _ & _ & _ & _ & Ht & _ & He & Hw & Hu).
  destruct (sync_loss_detected (SM := test_model) test_write_env s 0%nat test_write_packets (Timeval 1000 0) st'
    (tr_event true 1 E101290_P1_1__TS_SYNC_LOSS "E101290_P1_1__TS_SYNC_LOSS" 5000)
    (tr_event true 1 E101290_P1_2__SYNC_BYTE_ERROR "E101290_P1_2__SYNC_BYTE_ERROR" 5000) Hw Hu)
    as (s' & sm' & ev1 & ev2 & E' & H1 & H2 & R2 & R1); [by rewrite Ht|done|by rewrite Ht|done|].
  exists s, s', sm', ev1, ev2. split; [exact E|]. split; [exact E'|]. split; [exact H1|]. split; [exact H2|].
  rewrite R1, R2, He. by vm_compute.
Defined.

Lemma errors_raise_events_witness : exists s s' sm',
  ltntstools_tr101290_alloc true true (fun _ => true) (fun _ => Timeval 1000 0) true = Some s /\
  ltntstools_tr101290_write test_write_env (s, 0%nat) (concat test_write_packets) 4 (Some (Timeval 1000 0))
    = Some ((s', sm'), 4) /\
  forall ev, aget (t_event_tbl s) 9 = Some ev -> aget (t_event_tbl s') 9 = Some (event_raise (Timeval 1000 0) ev).
Proof.
  destruct test_write_ok as (s & st & st' & E & Hst & Hinv & Hq & Hp & Hc & Ht & _ & He & [W1 W2 W3 W4 W5 W6] & _).
  destruct (errors_raise_events (SM := test_model) test_write_env s 0%nat st 1000 0 0 [] test_write_packets (Timeval 1000 0))
    as (s' & sm' & E' & _ & H); [done..|by apply test_env_wf|done|done|done|by rewrite Hp|done|done|].
  exists s, s', sm'. split; [exact E|]. split; [exact E'|]. intros ev Hev.
  destruct (H 9 ev Hev) as (_ & H9 & _). rewrite H9 by done.
  assert (B : (total ltntstools_tei_set test_write_packets =? 0) = false) by by vm_compute. cbv zeta. by rewrite B.
Defined.
