(* ===== verification/Reframer.v ===== *)
(** * The reframer: src/reframer.c, libltntools/reframer.h

    Bytes written in pieces of any size are handed to a callback in frames of a
    fixed size; what is left over stays in the buffer.  [rf_calls]: the frames
    handed over, oldest first. *)
From Stdlib Require Import ZArith Lia Bool.
From stdpp Require Import base numbers list option.
From coqutil Require Import Datatypes.RecordSettersUsingExistingGetters.
From S2P Require Import Prelude.

Record ltntstools_reframer_ctx_s := {
  rf_sendBuffer : list Z;
  rf_sendIndex : Z;
  rf_minSendBytes : Z;
  rf_calls : list (list Z)
}.

(** [cb]: the callback is given; [malloc]: the contents of the memory. *)
Definition ltntstools_reframer_alloc (cb : bool) (malloc : Z -> list Z) (frameSizeBytes : Z)
    : option ltntstools_reframer_ctx_s :=
  if negb cb then None else
  Some {| rf_sendBuffer := malloc frameSizeBytes; rf_sendIndex := 0;
          rf_minSendBytes := i32 frameSizeBytes; rf_calls := [] |}.

Definition callback (ctx : ltntstools_reframer_ctx_s) (buf : list Z) : ltntstools_reframer_ctx_s :=
  ctx <| rf_calls := rf_calls ctx ++ [buf] |>.

Fixpoint reframer_loop (fuel : nat) (buf : list Z) (len_ offset : Z) (ctx : ltntstools_reframer_ctx_s)
    : option ltntstools_reframer_ctx_s :=
  match fuel with
  | O => None
  | S fuel' =>
      if len_ <=? 0 then Some ctx else
      let cplen := if rf_minSendBytes ctx - rf_sendIndex ctx <? len_
                   then rf_minSendBytes ctx - rf_sendIndex ctx else len_ in
      src ← rds buf offset cplen;
      buffer ← wrs (rf_sendBuffer ctx) (rf_sendIndex ctx) src;
      let ctx := ctx <| rf_sendBuffer := buffer |> <| rf_sendIndex := rf_sendIndex ctx + cplen |> in
      frame ← (if rf_sendIndex ctx =? rf_minSendBytes ctx
               then f ← rds (rf_sendBuffer ctx) 0 (rf_minSendBytes ctx); Some (Some f) else Some None);
      let ctx := match frame with
                 | Some f => (callback ctx f) <| rf_sendIndex := 0 |>
                 | None => ctx
                 end in
      reframer_loop fuel' buf (len_ - cplen) (offset + cplen) ctx
  end.

(** The context is a pointer; the result is the context and the value returned. *)
Definition ltststools_reframer_write (ctx : option ltntstools_reframer_ctx_s) (buf : list Z) (lengthBytes : Z)
    : option (option ltntstools_reframer_ctx_s * Z) :=
  match ctx with
  | None => Some (None, -1)
  | Some ctx =>
      ctx ← (if rf_minSendBytes ctx =? 0 then b ← rds buf 0 lengthBytes; Some (callback ctx b)
             else reframer_loop (S (Z.to_nat lengthBytes)) buf lengthBytes 0 ctx);
      Some (Some ctx, 0)
  end.

(** ** The specification: a stream of bytes cut into frames of [n] bytes *)

Record framed (n : Z) (bs : list Z) (ctx : ltntstools_reframer_ctx_s) : Prop := {
  fr_size : rf_minSendBytes ctx = n;
  fr_buffer : len (rf_sendBuffer ctx) = n;
  fr_index : 0 <= rf_sendIndex ctx < n;
  fr_frames : Forall (fun f => len f = n) (rf_calls ctx);
  fr_bytes : concat (rf_calls ctx) ++ take (Z.to_nat (rf_sendIndex ctx)) (rf_sendBuffer ctx) = bs
}.

(** The frames are determined by the bytes. *)
Lemma framed_unique n bs c1 c2 : framed n bs c1 -> framed n bs c2 ->
  rf_calls c1 = rf_calls c2 /\ rf_sendIndex c1 = rf_sendIndex c2.
Proof.
  intros [_ B1 I1 F1 E1] [_ B2 I2 F2 E2].
  assert (H : forall l1 l2 (r1 r2 : list Z), Forall (fun f => len f = n) l1 -> Forall (fun f => len f = n) l2 ->
    len r1 < n -> len r2 < n -> concat l1 ++ r1 = concat l2 ++ r2 -> l1 = l2 /\ r1 = r2).
  { induction l1 as [|x l1 IH]; intros [|y l2] r1 r2 H1 H2 L1 L2 H; cbn [concat] in H.
    - done.
    - exfalso. apply (f_equal len) in H. rewrite !len_app, len_nil in H. inversion H2; subst.
      pose proof (len_nonneg (concat l2)). pose proof (len_nonneg r2). lia.
    - exfalso. apply (f_equal len) in H. rewrite !len_app, len_nil in H. inversion H1; subst.
      pose proof (len_nonneg (concat l1)). pose proof (len_nonneg r1). lia.
    - inversion H1; inversion H2; subst. rewrite <- !app_assoc in H. apply app_inj_1 in H as [-> H]; [|unfold len in *; lia].
      destruct (IH l2 r1 r2) as [-> ->]; done. }
  destruct (H (rf_calls c1) (rf_calls c2) (take (Z.to_nat (rf_sendIndex c1)) (rf_sendBuffer c1))
              (take (Z.to_nat (rf_sendIndex c2)) (rf_sendBuffer c2))) as [-> E]; try done.
  - rewrite len_take by lia. lia.
  - rewrite len_take by lia. lia.
  - by rewrite E1, E2.
  - split; [done|]. apply (f_equal len) in E. rewrite !len_take in E by lia. done.
Qed.

(** One turn of the loop. *)
Lemma reframer_loop_spec n buf fuel : forall l off bs ctx, 0 < n -> framed n bs ctx -> 0 <= off -> 0 <= l ->
  off + l = len buf -> l < Z.of_nat fuel ->
  exists ctx', reframer_loop fuel buf l off ctx = Some ctx' /\ framed n (bs ++ drop (Z.to_nat off) buf) ctx'.
Proof.
  induction fuel as [|fuel IH]; intros l off bs ctx Hn Hf Hoff Hl Hb Hfuel; [lia|]. cbn [reframer_loop].
  destruct Hf as [S1 S2 S3 S4 S5]. case_if.
  { exists ctx. split; [done|]. rewrite drop_ge by (unfold len in *; lia). rewrite app_nil_r. by constructor. }
  rewrite S1. cbv zeta. set (cp := if n - rf_sendIndex ctx <? l then n - rf_sendIndex ctx else l).
  assert (Hcp : 0 < cp <= l /\ rf_sendIndex ctx + cp <= n) by (unfold cp; case_if; lia).
  rewrite rds_slice by lia. step. pose proof (len_slice buf off cp) as Ls.
  destruct (wrs_exists (rf_sendBuffer ctx) (rf_sendIndex ctx) (slice buf off cp)) as (p & Hp & Hlp); [lia|lia|].
  rewrite Hp. step. cbn. unfold const. rewrite S1.
  pose proof (take_wrs _ _ _ _ Hp) as Ht. rewrite Ls in Ht by lia.
  assert (Hsp : drop (Z.to_nat off) buf = slice buf off cp ++ drop (Z.to_nat (off + cp)) buf).
  { unfold slice. rewrite <- (take_drop (Z.to_nat cp) (drop (Z.to_nat off) buf)) at 1. rewrite drop_drop. do 2 f_equal. lia. }
  rewrite Hsp, app_assoc. case_if.
  - rewrite rds_slice by lia. step. apply IH; try lia. constructor; try done; cbn; unfold const; try lia.
    + apply Forall_app. split; [done|]. apply Forall_singleton. by rewrite len_slice by lia.
    + rewrite app_nil_r, concat_app, <- S5, <- app_assoc. f_equal. cbn [concat]. rewrite app_nil_r, <- Ht by lia.
      unfold slice at 1. cbn [drop Z.to_nat]. do 2 f_equal. lia.
  - step. apply IH; try lia. constructor; try done; cbn; unfold const; try lia.
    rewrite Ht by lia. by rewrite app_assoc, S5.
Qed.

Lemma reframer_write_spec n w bs ctx : 0 < n -> framed n bs ctx ->
  exists ctx', ltststools_reframer_write (Some ctx) w (len w) = Some (Some ctx', 0) /\ framed n (bs ++ w) ctx'.
Proof.
  intros Hn Hf. unfold ltststools_reframer_write. rewrite (fr_size _ _ _ Hf). zdec. pose proof (len_nonneg w).
  destruct (reframer_loop_spec n w (S (Z.to_nat (len w))) (len w) 0 bs ctx) as (c1 & -> & H1); [lia|done|lia|lia|lia|lia|].
  step. by exists c1.
Qed.

(** A run of writes. *)
Definition reframer_run (ctx : ltntstools_reframer_ctx_s) (writes : list (list Z)) : option ltntstools_reframer_ctx_s :=
  foldM (fun ctx buf => '(ctx, _) ← ltststools_reframer_write (Some ctx) buf (len buf); ctx) writes ctx.

(** However the bytes are cut into writes, the callback gets exactly the
    frames of [n] bytes that the written bytes consist of, in order; the rest,
    less than a frame, is kept for the next write. *)
Theorem reframer_frames (n : Z) (malloc : Z -> list Z) (writes : list (list Z)) :
  0 < n < 2 ^ 31 -> len (malloc n) = n ->
  exists ctx ctx', ltntstools_reframer_alloc true malloc n = Some ctx /\ reframer_run ctx writes = Some ctx' /\
    Forall (fun f => len f = n) (rf_calls ctx') /\
    concat (rf_calls ctx') = take (Z.to_nat (n * (len (concat writes) / n))) (concat writes) /\
    rf_sendIndex ctx' = len (concat writes) mod n /\
    take (Z.to_nat (rf_sendIndex ctx')) (rf_sendBuffer ctx') = drop (Z.to_nat (n * (len (concat writes) / n))) (concat writes).
Proof.
  intros Hn Hm. eexists. unfold ltntstools_reframer_alloc. cbn [negb]. rewrite i32_id by lia.
  set (ctx0 := Build_ltntstools_reframer_ctx_s _ _ _ _).
  assert (H : forall writes ctx bs, framed n bs ctx -> exists ctx', reframer_run ctx writes = Some ctx' /\ framed n (bs ++ concat writes) ctx').
  { clear writes. induction writes as [|w writes IH]; intros ctx bs Hf; [exists ctx; by rewrite app_nil_r|].
    unfold reframer_run. cbn [foldM]. destruct (reframer_write_spec n w bs ctx) as (c1 & -> & H1); [lia|done|]. step.
    destruct (IH c1 (bs ++ w) H1) as (c2 & E & H2). exists c2. split; [exact E|].
    cbn [concat]. by rewrite app_assoc. }
  destruct (H writes ctx0 []) as (ctx' & E & Hf); [constructor; cbn; try done; lia|].
  exists ctx'. split; [done|]. split; [exact E|]. destruct Hf as [S1 S2 S3 S4 S5]. split; [done|]. cbn [app] in S5.
  assert (Hq : len (concat (rf_calls ctx')) = n * len (rf_calls ctx')).
  { clear - S4. revert S4. generalize (rf_calls ctx'). intros l0 S4. induction S4 as [|f l Hf _ IH]; [unfold len; cbn [concat length]; lia|]. cbn [concat]. rewrite len_app, len_cons, IH. lia. }
  assert (Hlen : len (concat writes) = n * len (rf_calls ctx') + rf_sendIndex ctx')
    by (rewrite <- S5, len_app, len_take by lia; lia).
  assert (Hdiv : n * (len (concat writes) / n) = len (concat (rf_calls ctx'))).
  { rewrite Hlen, Hq, (Z.mul_comm n (len (rf_calls ctx'))), Z.div_add_l, Z.div_small by lia. lia. }
  assert (Hmod : len (concat writes) mod n = rf_sendIndex ctx').
  { rewrite Hlen, Z.add_comm, (Z.mul_comm n), Z.mod_add, Z.mod_small by lia. done. }
  rewrite Hdiv, Hmod, <- S5, take_len_app, drop_len_app. done.
Qed.

Lemma reframer_frames_witness : exists ctx',
  reframer_run {| rf_sendBuffer := [0; 0; 0]; rf_sendIndex := 0; rf_minSendBytes := 3; rf_calls := [] |}
    [[1; 2]; [3; 4; 5; 6; 7]; []; [8]] = Some ctx' /\
  concat (rf_calls ctx') = [1; 2; 3; 4; 5; 6] /\ rf_sendIndex ctx' = 2.
Proof.
  destruct (reframer_frames 3 (fun n => replicate (Z.to_nat n) 0) [[1; 2]; [3; 4; 5; 6; 7]; []; [8]])
    as (ctx & ctx' & E & E' & _ & H & Hi & _); [lia|done|].
  vm_compute in E. injection E as <-. exists ctx'. split; [exact E'|]. split; [exact H|exact Hi].
Defined.

(** A frame size of 0 hands every buffer over as it is; from 2^31 on the size is
    negative and the first write is undefined. *)
Lemma reframer_unframed ctx buf : rf_minSendBytes ctx = 0 ->
  ltststools_reframer_write (Some ctx) buf (len buf) = Some (Some (callback ctx buf), 0).
Proof.
  intros H. unfold ltststools_reframer_write. rewrite H. cbn [Z.eqb]. rewrite rds_slice by (pose proof (len_nonneg buf); lia).
  step. unfold slice. cbn [drop Z.to_nat]. unfold len. rewrite Nat2Z.id. by rewrite firstn_all.
Qed.
