(* ===== verification/SeiTimestamp.v ===== *)
(** * SEI time stamps: src/sei-timestamp.c, src/sei-timestamp.h and src/memmem.h

    A record of a 16-byte UUID and nine 32-bit fields, each cut into two halves
    that a marker byte follows, and the search for the UUID in a NAL.  The
    hexdump is not modelled. *)
From Stdlib Require Import ZArith Lia Bool.
From stdpp Require Import base numbers list option.
From S2P Require Import Prelude Clock.

(** ** memmem.h: the search for a string *)

(** [memcmp(x + 2, y + j + 2, m - 2) == 0] *)
Definition tails_equal (x y : list Z) (m j : Z) : option bool :=
  a ← rds x 2 (m - 2); b ← rds y (j + 2) (m - 2); Some (bool_decide (a = b)).

(** The while loop; [j], [k], [l], [n], [m] are of type [size_t]. *)
Fixpoint memmem_loop (fuel : nat) (y x : list Z) (n m k l j : Z) : option (option Z) :=
  match fuel with
  | O => None
  | S fuel' =>
      if j <=? n - m then
        x1 ← rd x 1; y1 ← rd y (j + 1);
        if negb (x1 =? y1) then memmem_loop fuel' y x n m k l (j + k) else
        eq ← tails_equal x y m j;
        x0 ← rd x 0; y0 ← rd y j;
        if (eq : bool) && (x0 =? y0) then Some (Some j) else memmem_loop fuel' y x n m k l (j + l)
      else Some None
  end.

(** [memchr] *)
Fixpoint memchr (y : list Z) (c i : Z) : option Z :=
  match y with [] => None | b :: y => if b =? c then Some i else memchr y c (i + 1) end.

(** The offset of the first occurrence; the inner [None] is the null pointer. *)
Definition ltn_memmem (haystack : list Z) (n : Z) (needle : list Z) (m : Z) : option (option Z) :=
  if (n <? m) || (m =? 0) || (n =? 0) then Some None else
  if 1 <? m then
    x0 ← rd needle 0; x1 ← rd needle 1;
    let '(k, l) := if x0 =? x1 then (2, 1) else (1, 2) in
    memmem_loop (S (Z.to_nat n)) haystack needle n m k l 0
  else
    h ← rds haystack 0 n; c ← rd needle 0; Some (memchr h c 0).

(** ** The record *)

Definition SEI_BIT_DELIMITER : Z := 0x81.
Definition SEI_TIMESTAMP_FIELD_COUNT : Z := 9.
Definition ltn_uuid_sei_timestamp : list Z :=
  [0x59; 0x96; 0xFF; 0x28; 0x17; 0xCA; 0x41; 0x96; 0x8D; 0xE3; 0xE5; 0x3F; 0xE2; 0xF9; 0x92; 0xAE].
Definition SEI_TIMESTAMP_PAYLOAD_LENGTH : Z := len ltn_uuid_sei_timestamp + SEI_TIMESTAMP_FIELD_COUNT * 6.

Definition sei_timestamp_alloc (ok : bool) : option (list Z) :=
  if negb ok then None else
  wrs (replicate (Z.to_nat SEI_TIMESTAMP_PAYLOAD_LENGTH) 0) 0 ltn_uuid_sei_timestamp.

Definition sei_timestamp_init (buf : list Z) (lengthBytes : Z) : option (list Z * Z) :=
  if lengthBytes <? SEI_TIMESTAMP_PAYLOAD_LENGTH then Some (buf, -1) else
  buf ← memset buf 0 0 lengthBytes;
  buf ← wrs buf 0 ltn_uuid_sei_timestamp;
  Some (buf, 0).

(** The offset of field [nr]. *)
Definition field_offset (nr : Z) : Z := len ltn_uuid_sei_timestamp + (nr - 1) * 6.

Definition sei_timestamp_field_set (buffer : list Z) (lengthBytes nr value : Z) : option (list Z * Z) :=
  if (nr <? 1) || (SEI_TIMESTAMP_FIELD_COUNT <? nr) then Some (buffer, -1) else
  let p := field_offset nr in
  if lengthBytes - p <? 6 then Some (buffer, -1) else
  buffer ← wr buffer p (Z.land (Z.shiftr value 24) 0xff);
  buffer ← wr buffer (p + 1) (Z.land (Z.shiftr value 16) 0xff);
  buffer ← wr buffer (p + 2) SEI_BIT_DELIMITER;
  buffer ← wr buffer (p + 3) (Z.land (Z.shiftr value 8) 0xff);
  buffer ← wr buffer (p + 4) (Z.land (Z.shiftr value 0) 0xff);
  buffer ← wr buffer (p + 5) SEI_BIT_DELIMITER;
  Some (buffer, 0).

(** The value, if one is stored, and the result. *)
Definition sei_timestamp_field_get (buffer : list Z) (nr : Z) : option (option Z * Z) :=
  if (nr <? 1) || (SEI_TIMESTAMP_FIELD_COUNT <? nr) then Some (None, -1) else
  let p := field_offset nr in
  a ← rd buffer p; b ← rd buffer (p + 1); c ← rd buffer (p + 3); d ← rd buffer (p + 4);
  Some (Some (u32 (Z.lor (Z.lor (Z.lor (Z.shiftl a 24) (Z.shiftl b 16)) (Z.shiftl c 8)) d)), 0).

Definition ltn_uuid_find (buf : list Z) (lengthBytes : Z) : option Z :=
  if lengthBytes <? SEI_TIMESTAMP_PAYLOAD_LENGTH then Some (-1) else
  r ← ltn_memmem buf lengthBytes ltn_uuid_sei_timestamp (len ltn_uuid_sei_timestamp);
  Some (match r with Some j => j | None => -1 end).

(** A value that was not stored is not initialised: reading it is undefined. *)
Definition stored (r : option Z * Z) : option Z := fst r.

Definition sei_timestamp_value_timeval_query (buffer : list Z) (nr : Z) : option (timeval * Z) :=
  s ← sei_timestamp_field_get buffer nr; u ← sei_timestamp_field_get buffer (nr + 1);
  s ← stored s; u ← stored u; Some (Timeval s u, 0).

(** [t]: the time given, or the time of day. *)
Definition sei_timestamp_value_timeval_set (buffer : list Z) (lengthBytes nr : Z) (t : timeval)
    : option (list Z * Z) :=
  '(buffer, _) ← sei_timestamp_field_set buffer lengthBytes nr (u32 (tv_sec t));
  '(buffer, _) ← sei_timestamp_field_set buffer lengthBytes (nr + 1) (u32 (tv_usec t));
  Some (buffer, 0).

(** [v[i]] is field [i]; fields 0 to 7 are read, field 0 does not exist. *)
Definition sei_timestamp_query_codec_latency_ms (buffer : list Z) : option Z :=
  _ ← sei_timestamp_field_get buffer 0; _ ← sei_timestamp_field_get buffer 1;
  _ ← sei_timestamp_field_get buffer 2; _ ← sei_timestamp_field_get buffer 3;
  v4 ← sei_timestamp_field_get buffer 4; v5 ← sei_timestamp_field_get buffer 5;
  v6 ← sei_timestamp_field_get buffer 6; v7 ← sei_timestamp_field_get buffer 7;
  v4 ← stored v4; v5 ← stored v5; v6 ← stored v6; v7 ← stored v7;
  ltn_timeval_subtract_ms (Timeval v6 v7) (Timeval v4 v5).

(** ** The search finds the first occurrence *)

Definition occurs (x y : list Z) (j : Z) : Prop := 0 <= j /\ j + len x <= len y /\ slice y j (len x) = x.

(** What a search returns. *)
Definition first_occurrence (x y : list Z) (from : Z) (r : option Z) : Prop :=
  match r with
  | Some j => from <= j /\ occurs x y j /\ forall i, from <= i < j -> ~ occurs x y i
  | None => forall i, from <= i -> ~ occurs x y i
  end.

Lemma occurs_byte x y j i : occurs x y j -> 0 <= i < len x -> byte_at y (j + i) = byte_at x i.
Proof.
  intros (H1 & H2 & H3) Hi. rewrite <- H3 at 1. unfold slice. rewrite byte_at_take by lia.
  by rewrite byte_at_drop by lia.
Qed.

Lemma occurs_split x y m j : m = len x -> 2 <= m -> 0 <= j -> j + m <= len y ->
  occurs x y j <-> byte_at x 1 = byte_at y (j + 1) /\ slice x 2 (m - 2) = slice y (j + 2) (m - 2) /\ byte_at x 0 = byte_at y j.
Proof.
  intros -> Hm Hj Hl. split.
  - intros Ho. pose proof (occurs_byte x y j 1 Ho) as B1. pose proof (occurs_byte x y j 0 Ho) as B0.
    rewrite Z.add_0_r in B0. rewrite B1, B0 by lia. split; [done|]. split; [|done].
    apply bytes_ext; rewrite !len_slice by lia; [done|]. intros i Hi. unfold slice.
    rewrite !byte_at_take, !byte_at_drop by lia. rewrite <- (occurs_byte x y j (2 + i)) by (done || lia). f_equal. lia.
  - intros (B1 & Bs & B0). split; [done|]. split; [done|]. apply bytes_ext; rewrite len_slice by lia; [done|].
    intros i Hi. unfold slice. rewrite byte_at_take, byte_at_drop by lia.
    destruct (Z.eq_dec i 0) as [->|]; [by rewrite Z.add_0_r|]. destruct (Z.eq_dec i 1) as [->|]; [done|].
    apply (f_equal (fun l => byte_at l (i - 2))) in Bs. unfold slice in Bs.
    rewrite !byte_at_take, !byte_at_drop in Bs by lia. rewrite (Zplus_minus 2 i) in Bs. rewrite Bs. f_equal. lia.
Qed.

(** A step of [s] positions over which the string cannot occur. *)
Lemma first_from x y j s r : (forall i, j <= i < j + s -> ~ occurs x y i) -> 0 <= s ->
  first_occurrence x y (j + s) r -> first_occurrence x y j r.
Proof.
  intros Hno Hs. destruct r as [p|]; cbn.
  - intros (H1 & H2 & H3). split; [lia|]. split; [done|]. intros i Hi.
    destruct (Z_lt_dec i (j + s)); [apply Hno; lia|apply H3; lia].
  - intros H i Hi. destruct (Z_lt_dec i (j + s)); [apply Hno; lia|apply H; lia].
Qed.

Lemma memmem_loop_spec y x k l fuel : 2 <= len x <= len y ->
  (k, l) = (if byte_at x 0 =? byte_at x 1 then (2, 1) else (1, 2)) -> forall j, 0 <= j -> 0 < Z.of_nat fuel -> len y < j + Z.of_nat fuel ->
  exists r, memmem_loop fuel y x (len y) (len x) k l j = Some r /\ first_occurrence x y j r.
Proof.
  intros Hl Hkl. induction fuel as [|fuel IH]; intros j Hj Hf0 Hf; [lia|]. cbn [memmem_loop].
  destruct (Z.leb_spec j (len y - len x)) as [Hle|Hle].
  2: { exists None. split; [done|]. intros i Hi (_ & Hb & _). lia. }
  rewrite !rd_Some by lia. step. pose proof (occurs_split x y (len x) j eq_refl) as Ho.
  assert (Hk : 1 <= k /\ 1 <= l) by (destruct (_ =? _); injection Hkl as -> ->; lia).
  destruct (Z.eqb_spec (byte_at x 1) (byte_at y (j + 1))) as [E1|E1]; cbn [negb].
  - unfold tails_equal. rewrite !rds_slice by lia. step.
    destruct (bool_decide_reflect (slice x 2 (len x - 2) = slice y (j + 2) (len x - 2))) as [Es|Es]; cbn [andb];
      [destruct (Z.eqb_spec (byte_at x 0) (byte_at y j)) as [E0|E0]|].
    + exists (Some j). split; [done|]. split; [lia|]. split; [by apply Ho; [lia..|]|]. lia.
    + destruct (IH (j + l)) as (r & -> & Hr); [lia..|]. exists r. split; [done|]. apply (first_from x y j l); [|lia|done].
      intros i Hi Hoc. destruct (Z.eq_dec i j) as [->|]; [by apply Ho in Hoc as (_ & _ & ?); [|lia..]|].
      destruct (Z.eqb_spec (byte_at x 0) (byte_at x 1)) as [E|E]; injection Hkl as -> ->; [lia|].
      assert (i = j + 1) as -> by lia. pose proof (occurs_byte x y _ 0 Hoc) as B. rewrite Z.add_0_r in B.
      apply E. rewrite <- B by lia. done.
    + destruct (IH (j + l)) as (r & -> & Hr); [lia..|]. exists r. split; [done|]. apply (first_from x y j l); [|lia|done].
      intros i Hi Hoc. destruct (Z.eq_dec i j) as [->|]; [by apply Ho in Hoc as (_ & ? & _); [|lia..]|].
      destruct (Z.eqb_spec (byte_at x 0) (byte_at x 1)) as [E|E]; injection Hkl as -> ->; [lia|].
      assert (i = j + 1) as -> by lia. pose proof (occurs_byte x y _ 0 Hoc) as B. rewrite Z.add_0_r in B.
      apply E. rewrite <- B by lia. done.
  - destruct (IH (j + k)) as (r & -> & Hr); [lia..|]. exists r. split; [done|]. apply (first_from x y j k); [|lia|done].
    intros i Hi Hoc. destruct (Z.eq_dec i j) as [->|]; [by apply Ho in Hoc as (? & _); [|lia..]|].
    destruct (Z.eqb_spec (byte_at x 0) (byte_at x 1)) as [E|E]; injection Hkl as -> ->; [|lia].
    assert (i = j + 1) as -> by lia. pose proof (occurs_byte x y _ 0 Hoc) as B. rewrite Z.add_0_r in B.
    apply E1. rewrite <- E. symmetry. apply B. lia.
Qed.

Lemma memchr_spec c y : forall pre, first_occurrence [c] (pre ++ y) (len pre) (memchr y c (len pre)).
Proof.
  assert (Hoc : forall pre b y, occurs [c] (pre ++ b :: y) (len pre) <-> b = c).
  { intros pre b y'. split.
    - intros Ho. pose proof (occurs_byte _ _ _ 0 Ho) as B. rewrite Z.add_0_r in B. rewrite byte_at_app in B by apply len_nonneg.
      rewrite Z.ltb_irrefl, Z.sub_diag in B. change (len [c]) with 1 in B. exact (B ltac:(lia)).
    - intros ->. pose proof (len_nonneg pre). split; [done|]. split; [rewrite len_app, !len_cons, len_nil; pose proof (len_nonneg y'); lia|].
      unfold slice. rewrite drop_len_app. done. }
  induction y as [|b y IH]; intros pre; cbn [memchr].
  - intros i Hi (_ & Hb & _). rewrite len_app, len_nil in Hb. change (len [c]) with 1 in Hb. lia.
  - destruct (Z.eqb_spec b c) as [E|E].
    + split; [lia|]. split; [by apply Hoc|]. lia.
    + specialize (IH (pre ++ [b])). rewrite <- app_assoc, len_app in IH. change (len [b]) with 1 in IH.
      cbn [app] in IH. apply (first_from _ _ _ 1); [|lia|done]. intros i Hi.
      assert (i = len pre) as -> by lia. by rewrite Hoc.
Qed.

(** The search of memmem.h, which skips positions by the first two bytes of
    the string, terminates within the buffer and returns the first occurrence of
    the string, or none exactly when it does not occur. *)
Theorem memmem_first_occurrence (haystack needle : list Z) :
  needle <> [] ->
  exists r, ltn_memmem haystack (len haystack) needle (len needle) = Some r /\ first_occurrence needle haystack 0 r.
Proof.
  intros Hne. assert (Hm : 1 <= len needle) by (destruct needle; [done|]; rewrite len_cons; pose proof (len_nonneg needle); lia).
  pose proof (len_nonneg haystack). unfold ltn_memmem. rewrite (proj2 (Z.eqb_neq (len needle) 0)) by lia. rewrite orb_false_r.
  destruct (Z.ltb_spec (len haystack) (len needle)) as [Hs|Hs]; cbn [orb].
  { exists None. split; [done|]. intros i Hi (_ & Hb & _). lia. }
  rewrite (proj2 (Z.eqb_neq (len haystack) 0)) by lia. case_if.
  - rewrite !rd_Some by lia. step. destruct (if byte_at needle 0 =? byte_at needle 1 then _ else _) as [k l] eqn:Ekl.
    apply memmem_loop_spec; [lia|done|lia..].
  - rewrite rds_slice, rd_Some by lia. step. eexists. split; [done|]. destruct needle as [|c [|c' needle]]; [done| |].
    + unfold slice, len at 1. cbn [drop Z.to_nat]. rewrite Nat2Z.id, firstn_all. exact (memchr_spec c haystack []).
    + rewrite !len_cons in E. pose proof (len_nonneg needle). lia.
Qed.

Lemma memmem_first_occurrence_witness : exists r,
  ltn_memmem [1; 1; 2; 1; 1; 3; 1; 1; 3] 9 [1; 1; 3] 3 = Some r /\ r = Some 3.
Proof.
  destruct (memmem_first_occurrence [1; 1; 2; 1; 1; 3; 1; 1; 3] [1; 1; 3]) as (r & E & H); [done|].
  exists r. split; [exact E|]. vm_compute in E. by injection E as <-.
Defined.

(** ** Fields *)

Lemma halves v : 0 <= v < 2 ^ 32 ->
  u32 (Z.lor (Z.lor (Z.lor (Z.shiftl (Z.land (Z.shiftr v 24) 0xff) 24) (Z.shiftl (Z.land (Z.shiftr v 16) 0xff) 16))
    (Z.shiftl (Z.land (Z.shiftr v 8) 0xff) 8)) (Z.land (Z.shiftr v 0) 0xff)) = v.
Proof.
  intros Hv. rewrite !(land_ones_mod _ 8 0xff), !Z.shiftr_div_pow2, !Z.shiftl_mul_pow2 by (done || lia).
  change (2 ^ 24) with 16777216. change (2 ^ 16) with 65536. change (2 ^ 8) with 256. change (2 ^ 0) with 1.
  rewrite (lor_high_low _ (v / 65536 mod 256 * 65536) 24), (lor_high_low _ (v / 256 mod 256 * 256) 16), (lor_high_low _ (v / 1 mod 256) 8);
    change (2 ^ 24) with 16777216; change (2 ^ 16) with 65536; change (2 ^ 8) with 256; zlia.
Qed.

(** A field that is set is read back, in a record of 70 bytes, and no other
    field of the record, nor its UUID, changes. *)
Theorem sei_field_roundtrip (buffer : list Z) (lengthBytes nr value : Z) :
  SEI_TIMESTAMP_PAYLOAD_LENGTH <= lengthBytes <= len buffer -> 1 <= nr <= 9 -> 0 <= value < 2 ^ 32 ->
  exists buffer', sei_timestamp_field_set buffer lengthBytes nr value = Some (buffer', 0) /\
    len buffer' = len buffer /\
    sei_timestamp_field_get buffer' nr = Some (Some value, 0) /\
    (forall nr', nr' <> nr -> sei_timestamp_field_get buffer' nr' = sei_timestamp_field_get buffer nr') /\
    slice buffer' 0 16 = slice buffer 0 16.
Proof.
  intros Hl Hn Hv. unfold sei_timestamp_field_set, SEI_TIMESTAMP_FIELD_COUNT. zdec. cbn [orb].
  change SEI_TIMESTAMP_PAYLOAD_LENGTH with 70 in *.
  assert (Ho : field_offset nr = 16 + (nr - 1) * 6) by done. cbv zeta. rewrite Ho. clear Ho. zdec. run.
  eexists. split; [reflexivity|]. split; [llia|]. split; [|split].
  - unfold sei_timestamp_field_get, SEI_TIMESTAMP_FIELD_COUNT. zdec. cbn [orb]. change (field_offset nr) with (16 + (nr - 1) * 6).
    cbv zeta. run. do 2 f_equal. f_equal. rewrite !byte_at_set_at by llia. zdec. by apply halves.
  - intros nr' Hne. unfold sei_timestamp_field_get, SEI_TIMESTAMP_FIELD_COUNT. destruct (_ || _) eqn:E; [done|].
    apply orb_false_iff in E as [E1 E2]. zbool. change (field_offset nr') with (16 + (nr' - 1) * 6). cbv zeta. run.
    rewrite !byte_at_set_at by llia. by zdec.
  - apply bytes_ext; rewrite !len_slice by llia; [done|]. intros i Hi. unfold slice.
    rewrite !byte_at_take, !byte_at_drop by lia. rewrite !byte_at_set_at by llia. by zdec.
Qed.

Lemma sei_field_roundtrip_witness : exists buffer',
  sei_timestamp_field_set (ltn_uuid_sei_timestamp ++ replicate 54 0) 70 3 0xdeadbeef = Some (buffer', 0) /\
  sei_timestamp_field_get buffer' 3 = Some (Some 0xdeadbeef, 0) /\
  sei_timestamp_field_get buffer' 4 = Some (Some 0, 0).
Proof.
  destruct (sei_field_roundtrip (ltn_uuid_sei_timestamp ++ replicate 54 0) 70 3 0xdeadbeef) as (b & E & _ & H & H' & _);
    [by vm_compute|lia|lia|]. exists b. split; [exact E|]. split; [exact H|]. rewrite H' by lia. by vm_compute.
Defined.

(** The record that is made is found in any buffer that holds it. *)
Lemma uuid_found pre post r : sei_timestamp_alloc true = Some r ->
  exists j, ltn_uuid_find (pre ++ r ++ post) (len (pre ++ r ++ post)) = Some j /\ 0 <= j <= len pre /\
    slice (pre ++ r ++ post) j 16 = ltn_uuid_sei_timestamp.
Proof.
  intros Hr. vm_compute in Hr. injection Hr as <-. set (r := _ :: _).
  assert (Lr : len r = 70) by done. unfold ltn_uuid_find. pose proof (len_nonneg pre). pose proof (len_nonneg post).
  change SEI_TIMESTAMP_PAYLOAD_LENGTH with 70. rewrite (proj2 (Z.ltb_ge _ _)) by (rewrite !len_app; lia).
  assert (Hoc : occurs ltn_uuid_sei_timestamp (pre ++ r ++ post) (len pre)).
  { split; [done|]. split; [rewrite !len_app; change (len ltn_uuid_sei_timestamp) with 16; lia|].
    unfold slice. rewrite drop_len_app. change (Z.to_nat (len ltn_uuid_sei_timestamp)) with 16%nat.
    rewrite take_app_le by (unfold len in Lr; lia). by vm_compute. }
  pose proof (memmem_loop_spec (pre ++ r ++ post) ltn_uuid_sei_timestamp 1 2) as Hs.
  unfold ltn_memmem. change (len ltn_uuid_sei_timestamp) with 16 in *.
  assert (Hlen : 70 <= len (pre ++ r ++ post)) by (rewrite !len_app; lia).
  set (y := pre ++ r ++ post) in *. clearbody y. zdec. cbn [orb]. change (rd ltn_uuid_sei_timestamp 0) with (Some 0x59).
  change (rd ltn_uuid_sei_timestamp 1) with (Some 0x96). step. change (0x59 =? 0x96) with false. cbv match.
  destruct (Hs (S (Z.to_nat (len y)))) with (j := 0) as (q & -> & Hq); [lia|done|lia..|]. step.
  destruct q as [j|]; [|by destruct (Hq (len pre))]. destruct Hq as (H1 & (H2 & H3 & H4) & H5). exists j. split; [done|].
  split; [|exact H4]. split; [lia|]. destruct (Z_le_gt_dec j (len pre)); [done|]. exfalso. apply (H5 (len pre)); [lia|done].
Qed.

(** The getter does not look at the length of the buffer. *)
Lemma field_get_overruns : sei_timestamp_field_get (ltn_uuid_sei_timestamp ++ replicate 48 0) 9 = None.
Proof. done. Qed.
