(* ===== verification/Throughput.v ===== *)
(** * Throughput: src/throughput.c and src/throughput_hires.c

    [ltntstools_throughput_s] counts bytes per second of the clock; its two
    floating-point rates, computed from [Bps] when the second changes, are not
    modelled.  The high-resolution meter keeps every value with its time and its
    channel on a list of busy items, newest first, and recycles items through a
    list of free ones. *)
From Stdlib Require Import ZArith Lia Bool.
From stdpp Require Import base numbers list option.
From coqutil Require Import Datatypes.RecordSettersUsingExistingGetters.
From S2P Require Import Prelude Clock.

(** ** throughput.c *)

Record ltntstools_throughput_s := {
  tp_byteCount : Z;
  tp_Bps_last_update : Z;
  tp_Bps : Z;
  tp_Bps_window : Z
}.

Definition second_changed (now : Z) (stream : ltntstools_throughput_s) : ltntstools_throughput_s :=
  if now =? tp_Bps_last_update stream then stream
  else stream <| tp_Bps := tp_Bps_window stream |> <| tp_Bps_window := 0 |> <| tp_Bps_last_update := now |>.

Definition ltntstools_throughput_write_value (now : Z) (stream : ltntstools_throughput_s) (value : Z)
    : ltntstools_throughput_s :=
  let stream := second_changed now stream in
  stream <| tp_Bps_window := u32 (tp_Bps_window stream + value) |>.

Definition ltntstools_throughput_write (now : Z) (stream : ltntstools_throughput_s) (byteCount : Z)
    : ltntstools_throughput_s :=
  let stream := second_changed now stream in
  stream <| tp_Bps_window := u32 (tp_Bps_window stream + byteCount) |>.

Definition ltntstools_throughput_reset (stream : ltntstools_throughput_s) : ltntstools_throughput_s :=
  stream <| tp_byteCount := 0 |>.

Definition expire_per_second_stats (now : Z) (stream : ltntstools_throughput_s) : ltntstools_throughput_s :=
  if tp_Bps_last_update stream + 2 <? now then stream <| tp_Bps := 0 |> <| tp_Bps_window := 0 |> else stream.

Definition ltntstools_throughput_get_bps (now : Z) (stream : ltntstools_throughput_s)
    : ltntstools_throughput_s * Z :=
  let stream := expire_per_second_stats now stream in (stream, u32 (tp_Bps stream * 8)).

Definition ltntstools_throughput_get_value (now : Z) (stream : ltntstools_throughput_s)
    : ltntstools_throughput_s * Z :=
  let stream := expire_per_second_stats now stream in (stream, tp_Bps stream).

(** Writes in the second [t], then one in a later second: the rate is that of
    the second [t]. *)
Lemma throughput_second stream t t' bs b : tp_Bps_last_update stream <> t -> t <> t' ->
  Forall (fun x => 0 <= x) bs -> foldr Z.add 0 bs < 2 ^ 32 ->
  let run := foldl (fun s n => ltntstools_throughput_write t s n) stream bs in
  bs <> [] -> tp_Bps (ltntstools_throughput_write t' run b) = foldr Z.add 0 bs.
Proof.
  intros Ht Ht' Hbs Hsum. cbv zeta.
  assert (H : forall bs s, tp_Bps_last_update s = t -> Forall (fun x => 0 <= x) bs -> 0 <= tp_Bps_window s ->
    tp_Bps_window s + foldr Z.add 0 bs < 2 ^ 32 ->
    let run := foldl (fun s n => ltntstools_throughput_write t s n) s bs in
    tp_Bps_last_update run = t /\ tp_Bps_window run = tp_Bps_window s + foldr Z.add 0 bs).
  { clear. induction bs as [|x bs IH]; intros s Hs Hb H0 Hl; [cbn; lia|]. inversion Hb as [|? ? Hx Hb']; subst.
    cbn [foldl foldr] in *. assert (Hf : 0 <= foldr Z.add 0 bs) by (clear - Hb'; induction Hb'; cbn; lia).
    assert (Ew : tp_Bps_window (ltntstools_throughput_write (tp_Bps_last_update s) s x) = tp_Bps_window s + x).
    { unfold ltntstools_throughput_write, second_changed. rewrite Z.eqb_refl. cbn. unfold const. apply u32_id. lia. }
    assert (El : tp_Bps_last_update (ltntstools_throughput_write (tp_Bps_last_update s) s x) = tp_Bps_last_update s).
    { unfold ltntstools_throughput_write, second_changed. rewrite Z.eqb_refl. done. }
    destruct (IH (ltntstools_throughput_write (tp_Bps_last_update s) s x)) as [H1 H2]; [done|done|lia|lia|].
    split; [done|]. rewrite H2, Ew. lia. }
  destruct bs as [|x bs]; [done|]. intros _. inversion Hbs as [|? ? Hx Hb']; subst. cbn [foldl foldr] in *.
  assert (Hf : 0 <= foldr Z.add 0 bs) by (clear - Hb'; induction Hb'; cbn; lia).
  set (s1 := ltntstools_throughput_write t stream x).
  assert (E1 : tp_Bps_last_update s1 = t /\ tp_Bps_window s1 = x).
  { unfold s1, ltntstools_throughput_write, second_changed. rewrite (proj2 (Z.eqb_neq _ _)) by congruence. cbn. unfold const.
    split; [done|]. apply u32_id. lia. }
  destruct E1 as [E1 E2]. destruct (H bs s1) as [R1 R2]; [done|done|lia|lia|].
  unfold ltntstools_throughput_write at 1, second_changed. rewrite R1. rewrite (proj2 (Z.eqb_neq _ _)) by congruence.
  cbn. unfold const. rewrite R2. lia.
Qed.

(** ** throughput_hires.c *)

Record throughput_hires_item_s := HiresItem { hi_timestamp : Z; hi_channel : Z; hi_value_i64 : Z }.

Record throughput_hires_context_s := {
  itemsFree : list throughput_hires_item_s;
  itemsBusy : list throughput_hires_item_s
}.

Definition makeTimestampFromTimeval (ts : timeval) : Z := u64 (i64 (tv_sec ts * 1000000) + tv_usec ts).
Definition makeTimestampFrom1SecondAgo (now : timeval) : Z :=
  makeTimestampFromTimeval (Timeval (tv_sec now - 1) (tv_usec now)).
(** As written: one second. *)
Definition makeTimestampFrom2SecondAgo (now : timeval) : Z :=
  makeTimestampFromTimeval (Timeval (tv_sec now - 1) (tv_usec now)).

Definition itemAlloc : throughput_hires_item_s := HiresItem 0 0 0.

(** [ok]: how many of the allocations succeed. *)
Definition throughput_hires_alloc (ok : nat) : throughput_hires_context_s :=
  {| itemsFree := replicate ok itemAlloc; itemsBusy := [] |}.

(** Without a free item the list head is taken for an item: undefined. *)
Definition throughput_hires_write_i64 (ok : nat) (ctx : throughput_hires_context_s) (channel value : Z) (ts : timeval)
    : option throughput_hires_context_s :=
  let free := match itemsFree ctx with [] => replicate ok itemAlloc | l => l end in
  match free with
  | [] => None
  | _ :: free => Some {| itemsFree := free;
                         itemsBusy := HiresItem (makeTimestampFromTimeval ts) channel value :: itemsBusy ctx |}
  end.

Definition throughput_hires_expire (ctx : throughput_hires_context_s) (ts : timeval)
    : throughput_hires_context_s * Z :=
  let timestamp := makeTimestampFromTimeval ts in
  let expired := List.filter (fun e => hi_timestamp e <? timestamp) (itemsBusy ctx) in
  ({| itemsFree := itemsFree ctx ++ expired;
      itemsBusy := List.filter (fun e => negb (hi_timestamp e <? timestamp)) (itemsBusy ctx) |}, len expired).

Definition in_window (channel begin end_ : Z) (e : throughput_hires_item_s) : bool :=
  (hi_channel e =? channel) && (begin <=? hi_timestamp e) && (hi_timestamp e <=? end_).

Fixpoint sumtotal_loop (channel begin end_ : Z) (l : list throughput_hires_item_s) (total : Z) : option Z :=
  match l with
  | [] => Some total
  | e :: l =>
      total ← (if in_window channel begin end_ e then i64_ok (total + hi_value_i64 e) else Some total);
      if hi_timestamp e <? begin then Some total else sumtotal_loop channel begin end_ l total
  end.

Definition throughput_hires_sumtotal_i64 (ctx : throughput_hires_context_s) (channel : Z) (from to : timeval) : option Z :=
  sumtotal_loop channel (makeTimestampFromTimeval from) (makeTimestampFromTimeval to) (itemsBusy ctx) 0.

(** The smallest, the largest, the sum (from -1 on) and the number. *)
Fixpoint minmaxavg_loop (channel begin end_ : Z) (l : list throughput_hires_item_s) (st : Z * Z * Z * Z)
    : option (Z * Z * Z * Z) :=
  match l with
  | [] => Some st
  | e :: l =>
      let '(vmin, vmax, vavg, items) := st in
      let v := hi_value_i64 e in
      st ← (if in_window channel begin end_ e
            then s ← i64_ok (vavg + v);
                 Some (if v <=? vmin then v else vmin, if vmax <? v then v else vmax, s, items + 1)
            else Some st);
      if hi_timestamp e <? end_ then Some st else minmaxavg_loop channel begin end_ l st
  end.

Definition throughput_hires_minmaxavg_i64 (ctx : throughput_hires_context_s) (channel : Z) (from to : timeval)
    : option (Z * Z * Z) :=
  '(vmin, vmax, vavg, items) ←
    minmaxavg_loop channel (makeTimestampFromTimeval from) (makeTimestampFromTimeval to) (itemsBusy ctx)
      (2 ^ 62, -1, -1, 0);
  Some (vmin, vmax, if negb (items =? 0) then Z.quot vavg items else -1).

(** ** What the meter sums *)

(** The operations of a run: a value, or an expiry. *)
Inductive hires_op := HiresWrite (channel value : Z) (ts : timeval) | HiresExpire (ts : timeval).

Definition hires_step (ctx : throughput_hires_context_s) (op : hires_op) : option throughput_hires_context_s :=
  match op with
  | HiresWrite c v ts => throughput_hires_write_i64 64 ctx c v ts
  | HiresExpire ts => Some (throughput_hires_expire ctx ts).1
  end.

Definition hires_us (ts : timeval) : Z := tv_sec ts * 1000000 + tv_usec ts.

(** The values of a channel written in a window of time. *)
Definition written (channel begin end_ : Z) (op : hires_op) : Z :=
  match op with
  | HiresWrite c v ts => if (c =? channel) && (begin <=? hires_us ts) && (hires_us ts <=? end_) then v else 0
  | HiresExpire _ => 0
  end.

Definition op_timeval (op : hires_op) : timeval := match op with HiresWrite _ _ ts | HiresExpire ts => ts end.
Definition op_wf (op : hires_op) : Prop :=
  timeval_wf (op_timeval op) /\ match op with HiresWrite _ v _ => Z.abs v < 2 ^ 40 | HiresExpire _ => True end.

(** Values are written in the order of their times; nothing in the window is
    expired. *)
Fixpoint in_order (last begin : Z) (ops : list hires_op) : Prop :=
  match ops with
  | [] => True
  | HiresWrite _ _ ts :: ops => last <= hires_us ts /\ in_order (hires_us ts) begin ops
  | HiresExpire ts :: ops => hires_us ts <= begin /\ in_order last begin ops
  end.

Lemma makeTimestamp_us ts : timeval_wf ts -> makeTimestampFromTimeval ts = hires_us ts /\ 0 <= hires_us ts < 2 ^ 62.
Proof.
  intros [H1 H2]. unfold makeTimestampFromTimeval, hires_us. rewrite i64_id, u64_id by lia. lia.
Qed.

(** Newest first, at most [last]. *)
Fixpoint newest_first (last : Z) (l : list throughput_hires_item_s) : Prop :=
  match l with [] => True | e :: l => hi_timestamp e <= last /\ newest_first (hi_timestamp e) l end.

Lemma newest_first_le last last' l : last <= last' -> newest_first last l -> newest_first last' l.
Proof. destruct l as [|e l]; [done|]. cbn. intros ? []. split; [lia|done]. Qed.

Lemma newest_first_all last l : newest_first last l -> Forall (fun e => hi_timestamp e <= last) l.
Proof.
  revert last. induction l as [|e l IH]; intros last; [done|]. cbn. intros [H1 H2]. constructor; [done|].
  eapply List.Forall_impl; [|exact (IH _ H2)]. cbn. intros. lia.
Qed.

Lemma newest_first_filter P last l : newest_first last l -> newest_first last (List.filter P l).
Proof.
  revert last. induction l as [|e l IH]; intros last; [done|]. cbn [newest_first List.filter]. intros [H1 H2].
  destruct (P e); cbn [newest_first].
  - split; [done|]. by apply IH.
  - apply IH. by eapply newest_first_le.
Qed.

(** The sum over the busy items of a window. *)
Definition window_sum (channel begin end_ : Z) (l : list throughput_hires_item_s) : Z :=
  foldr (fun e a => (if in_window channel begin end_ e then hi_value_i64 e else 0) + a) 0 l.

Lemma window_sum_cons c b e x l :
  window_sum c b e (x :: l) = (if in_window c b e x then hi_value_i64 x else 0) + window_sum c b e l.
Proof. done. Qed.

Lemma window_sum_bound c b e l : Forall (fun x => Z.abs (hi_value_i64 x) < 2 ^ 40) l -> Z.abs (window_sum c b e l) <= len l * 2 ^ 40.
Proof. induction 1 as [|x l Hx _ IH]; [unfold len; cbn; lia|]. rewrite len_cons.
  rewrite window_sum_cons. destruct (in_window c b e x); lia. Qed.

Lemma window_sum_old c b e l : Forall (fun x => hi_timestamp x < b) l -> window_sum c b e l = 0.
Proof.
  induction 1 as [|x l Hx _ IH]; [done|]. cbn [window_sum foldr] in *. unfold in_window.
  rewrite (proj2 (Z.leb_gt _ _)) by done. by rewrite andb_false_r.
Qed.

Lemma sumtotal_spec c b e l : forall last total, newest_first last l ->
  Forall (fun x => Z.abs (hi_value_i64 x) < 2 ^ 40) l -> Z.abs total + len l * 2 ^ 40 < 2 ^ 63 ->
  sumtotal_loop c b e l total = Some (total + window_sum c b e l).
Proof.
  induction l as [|x l IH]; intros last total Hn Hv Hl; [cbn; do 2 f_equal; lia|]. destruct Hn as [_ Hn].
  inversion Hv as [|? ? Hx Hv']; subst. rewrite len_cons in Hl. pose proof (len_nonneg l). cbn [sumtotal_loop].
  set (v := if in_window c b e x then hi_value_i64 x else 0).
  assert (Hbv : Z.abs v < 2 ^ 40) by (unfold v; case_if; lia).
  assert (E1 : (if in_window c b e x then i64_ok (total + hi_value_i64 x) else Some total) = Some (total + v)).
  { unfold v. destruct (in_window c b e x); [apply i64_ok_Some; lia|f_equal; lia]. }
  rewrite E1. step. change (window_sum c b e (x :: l)) with (v + window_sum c b e l). destruct (Z.ltb_spec (hi_timestamp x) b).
  - rewrite window_sum_old; [f_equal; lia|]. eapply List.Forall_impl; [|exact (newest_first_all _ _ Hn)]. cbn. intros. lia.
  - rewrite (IH _ _ Hn Hv') by lia. f_equal. lia.
Qed.

Lemma window_sum_filter c b e t l : t <= b ->
  window_sum c b e (List.filter (fun x => negb (hi_timestamp x <? t)) l) = window_sum c b e l.
Proof.
  intros Ht. induction l as [|x l IH]; [done|]. cbn [List.filter window_sum foldr] in *.
  destruct (Z.ltb_spec (hi_timestamp x) t); cbn [negb]; [|cbn [foldr]; unfold window_sum in *; by rewrite IH].
  unfold window_sum in *. rewrite IH. unfold in_window. rewrite (proj2 (Z.leb_gt b _)) by lia. by rewrite andb_false_r.
Qed.

Lemma filter_bound {A} (P : A -> bool) l : len (List.filter P l) <= len l.
Proof. induction l as [|x l IH]; [done|]. cbn. destruct (P x); rewrite ?len_cons; lia. Qed.

Lemma hires_run_spec c b e ops : forall ctx last, newest_first last (itemsBusy ctx) ->
  Forall (fun x => Z.abs (hi_value_i64 x) < 2 ^ 40) (itemsBusy ctx) -> Forall op_wf ops -> in_order last b ops ->
  exists ctx' last', foldM hires_step ops ctx = Some ctx' /\ newest_first last' (itemsBusy ctx') /\
    Forall (fun x => Z.abs (hi_value_i64 x) < 2 ^ 40) (itemsBusy ctx') /\
    len (itemsBusy ctx') <= len (itemsBusy ctx) + len ops /\
    window_sum c b e (itemsBusy ctx') = window_sum c b e (itemsBusy ctx) + foldr (fun op a => written c b e op + a) 0 ops.
Proof.
  induction ops as [|op ops IH]; intros ctx last Hn Hv Hops Ho; [exists ctx, last; split; [done|]; split; [done|]; split; [done|]; split; [unfold len; cbn; lia|cbn; lia]|].
  inversion Hops as [|? ? Hop Hops']; subst. cbn [foldM foldr]. rewrite len_cons.
  destruct op as [c' v ts|ts]; destruct Hop as [Hts Hval]; destruct (makeTimestamp_us ts Hts) as [Et Ht]; destruct Ho as [H1 H2];
    cbn [hires_step].
  - unfold throughput_hires_write_i64.
    destruct (match itemsFree ctx with [] => replicate 64 itemAlloc | l => l end) as [|it free] eqn:Ef;
      [by destruct (itemsFree ctx)|]. step.
    match goal with |- context [foldM hires_step ops ?x] => destruct (IH x (hires_us ts)) as (ctx' & last' & -> & R1 & R2 & R3 & R4) end;
      [cbn; rewrite Et; split; [lia|by eapply newest_first_le]|by constructor|done|done|].
    exists ctx', last'. split; [done|]. split; [done|]. split; [done|]. cbn [itemsBusy] in R3, R4. rewrite len_cons in R3.
    split; [lia|]. rewrite R4, window_sum_cons. unfold in_window at 1. cbn [hi_channel hi_timestamp hi_value_i64 written].
    rewrite Et. lia.
  - destruct (IH (throughput_hires_expire ctx ts).1 last) as (ctx' & last' & E & R1 & R2 & R3 & R4); [by apply newest_first_filter| |done|done|].
    + apply List.Forall_forall. intros x Hx. apply List.filter_In in Hx as [Hx _]. rewrite List.Forall_forall in Hv. by apply Hv.
    + exists ctx', last'. split; [exact E|]. split; [done|]. split; [done|]. cbn [throughput_hires_expire fst itemsBusy] in R3, R4.
      pose proof (filter_bound (fun e => negb (hi_timestamp e <? makeTimestampFromTimeval ts)) (itemsBusy ctx)).
      split; [lia|]. rewrite R4, Et, window_sum_filter by done. cbn [written]. lia.
Qed.

(** The sum of a channel over a window is that of the values written to the
    channel in the window, after any writes in the order of their times and any
    expiries that do not reach into the window. *)
Theorem hires_sums_window (ok : nat) (ops : list hires_op) (channel : Z) (from to : timeval) :
  timeval_wf from -> timeval_wf to -> Forall op_wf ops -> len ops < 2 ^ 20 -> in_order 0 (hires_us from) ops ->
  exists ctx, foldM hires_step ops (throughput_hires_alloc ok) = Some ctx /\
    throughput_hires_sumtotal_i64 ctx channel from to =
      Some (foldr (fun op a => written channel (hires_us from) (hires_us to) op + a) 0 ops).
Proof.
  intros Hf Ht Hops Hl Ho. destruct (makeTimestamp_us from Hf) as [Ef _]. destruct (makeTimestamp_us to Ht) as [Et _].
  destruct (hires_run_spec channel (hires_us from) (hires_us to) ops (throughput_hires_alloc ok) 0)
    as (ctx & last & E & R1 & R2 & R3 & R4); [done|done|done|done|].
  exists ctx. split; [done|]. unfold throughput_hires_sumtotal_i64. rewrite Ef, Et. cbn [itemsBusy throughput_hires_alloc] in R3, R4.
  rewrite len_nil in R3. rewrite (sumtotal_spec _ _ _ _ _ _ R1 R2) by lia. f_equal. rewrite R4. cbn. lia.
Qed.

Lemma hires_sums_window_witness : exists ctx,
  foldM hires_step [HiresWrite 1 10 (Timeval 100 0); HiresWrite 2 7 (Timeval 100 5); HiresExpire (Timeval 99 0);
                    HiresWrite 1 20 (Timeval 101 0); HiresWrite 1 30 (Timeval 103 0)] (throughput_hires_alloc 1) = Some ctx /\
  throughput_hires_sumtotal_i64 ctx 1 (Timeval 100 0) (Timeval 102 0) = Some 30.
Proof.
  destruct (hires_sums_window 1 [HiresWrite 1 10 (Timeval 100 0); HiresWrite 2 7 (Timeval 100 5); HiresExpire (Timeval 99 0);
    HiresWrite 1 20 (Timeval 101 0); HiresWrite 1 30 (Timeval 103 0)] 1 (Timeval 100 0) (Timeval 102 0)) as (ctx & E & H).
  - by vm_compute.
  - by vm_compute.
  - repeat (apply Forall_cons_2; [by vm_compute|]). apply Forall_nil_2.
  - by vm_compute.
  - by vm_compute.
  - exists ctx. split; [exact E|]. rewrite H. by vm_compute.
Defined.

(** The minimum, maximum and average stop at the first item before the end of
    the window instead of its beginning, and the sum starts at -1: of the values
    10, 20 and 30 written a second apart, only 30 is seen, and the average is
    29. *)
Lemma minmaxavg_sees_one : exists ctx,
  foldM hires_step [HiresWrite 1 10 (Timeval 100 0); HiresWrite 1 20 (Timeval 101 0); HiresWrite 1 30 (Timeval 102 0)]
    (throughput_hires_alloc 3) = Some ctx /\
  throughput_hires_minmaxavg_i64 ctx 1 (Timeval 99 0) (Timeval 103 0) = Some (30, 30, 29).
Proof. eexists. split; [reflexivity|]. by vm_compute. Qed.
