(* ===== verification/RtpAnalyzer.v ===== *)
(** * RTP headers: src/rtp-analyzer.c

    The counters over a sequence of RTP headers, and the search for RTP frames
    of transport packets in a buffer.  A header is its fields as the
    little-endian build lays them out; [seq], [ts] and [ssrc] are in the byte
    order of the network.  The reports are not modelled. *)
From Stdlib Require Import ZArith Lia Bool String.
From stdpp Require Import base numbers list option.
From coqutil Require Import Datatypes.RecordSettersUsingExistingGetters.
From S2P Require Import Prelude Ts Clock Histogram.

Record rtp_hdr := {
  rh_cc : Z; rh_x : Z; rh_p : Z; rh_version : Z; rh_pt : Z; rh_m : Z;
  rh_seq : Z; rh_ts : Z; rh_ssrc : Z
}.

Definition hdr_zero : rtp_hdr :=
  {| rh_cc := 0; rh_x := 0; rh_p := 0; rh_version := 0; rh_pt := 0; rh_m := 0; rh_seq := 0; rh_ts := 0; rh_ssrc := 0 |}.

(** The header at [p]. *)
Definition hdr_at (p : list Z) : rtp_hdr :=
  let b := byte_at p in
  {| rh_cc := Z.land (b 0) 15; rh_x := Z.land (Z.shiftr (b 0) 4) 1; rh_p := Z.land (Z.shiftr (b 0) 5) 1;
     rh_version := Z.shiftr (b 0) 6; rh_pt := Z.land (b 1) 127; rh_m := Z.shiftr (b 1) 7;
     rh_seq := b 2 + 256 * b 3;
     rh_ts := b 4 + 256 * b 5 + 65536 * b 6 + 16777216 * b 7;
     rh_ssrc := b 8 + 256 * b 9 + 65536 * b 10 + 16777216 * b 11 |}.

Definition ntohs (v : Z) : Z := v mod 256 * 256 + v / 256 mod 256.
Definition ntohl (v : Z) : Z :=
  v mod 256 * 16777216 + v / 256 mod 256 * 65536 + v / 65536 mod 256 * 256 + v / 16777216 mod 256.

Record rtp_hdr_analyzer_s := {
  ra_last : rtp_hdr;
  ra_totalPackets : Z;
  ra_totalFrames : Z;
  ra_discontinuityEvents : Z;
  ra_illegalPayloadTypeEvents : Z;
  ra_illegal2110TimestampMovementEvents : Z;
  ra_illegal2110TimestampStallEvents : Z;
  ra_illegalTSTimestampMovementEvents : Z;
  ra_illegalTSTimestampStallEvents : Z;
  ra_illegalTSCounterMovementEvents : Z;
  ra_tsInterval : option ltn_histogram_s;
  ra_tsArrival : option ltn_histogram_s
}.

(** [ok]: the allocations; [now]: the clock. *)
Definition rtp_analyzer_init (ok : nat -> bool) (now : nat -> timeval) : rtp_hdr_analyzer_s :=
  {| ra_last := hdr_zero; ra_totalPackets := 0; ra_totalFrames := 0; ra_discontinuityEvents := 0;
     ra_illegalPayloadTypeEvents := 0; ra_illegal2110TimestampMovementEvents := 0;
     ra_illegal2110TimestampStallEvents := 0; ra_illegalTSTimestampMovementEvents := 0;
     ra_illegalTSTimestampStallEvents := 0; ra_illegalTSCounterMovementEvents := 0;
     ra_tsArrival := ltn_histogram_alloc_video_defaults (ok 0%nat) (ok 1%nat) (now 0%nat)
                       (Some "RTP Header - Inter-RTP-Frame Arrival Times - IAT (ms)"%string);
     ra_tsInterval := ltn_histogram_alloc_video_defaults (ok 2%nat) (ok 3%nat) (now 1%nat)
                       (Some "RTP Header - Clock/Timestamp Intervals 90KHz (ms)"%string) |}.

Definition rtp_hdr_is_payload_type_valid (hdr : rtp_hdr) : Z :=
  if (rh_pt hdr <? 96) || (127 <? rh_pt hdr) then (if rh_pt hdr =? 33 then 1 else 0) else 1.

Definition rtp_hdr_is_continious (ctx : rtp_hdr_analyzer_s) (hdr : rtp_hdr) : rtp_hdr_analyzer_s * Z :=
  let match_ := if 0 <? rh_seq (ra_last ctx)
                then (if (ntohs (rh_seq (ra_last ctx)) + 1) mod 65536 =? ntohs (rh_seq hdr) then 1 else 0)
                else 1 in
  (ctx <| ra_last := hdr |>, match_).

(** The clock measurement between the last header and this one. *)
Definition measure_clock (now : timeval) (hdr : rtp_hdr) (ctx : rtp_hdr_analyzer_s) : option rtp_hdr_analyzer_s :=
  if rh_ts (ra_last ctx) =? 0 then Some ctx else
  let ticks := Z.quot (ltntstools_pts_diff (ntohl (rh_ts (ra_last ctx))) (ntohl (rh_ts hdr))) 90 in
  h ← ra_tsInterval ctx;
  '(h, _) ← ltn_histogram_interval_update_with_value now h (u32 ticks);
  let ctx := ctx <| ra_tsInterval := Some h |> in
  Some (if ticks =? 0
        then ctx <| ra_illegalTSTimestampStallEvents := ra_illegalTSTimestampStallEvents ctx + 1 |>
        else if 3 <=? ticks
        then ctx <| ra_illegalTSTimestampMovementEvents := ra_illegalTSTimestampMovementEvents ctx + 1 |>
        else ctx).

Definition check_2110 (hdr : rtp_hdr) (ctx : rtp_hdr_analyzer_s) : rtp_hdr_analyzer_s :=
  let last := ra_last ctx in
  let ctx := if negb (rh_ts last =? 0) && negb (rh_ts last =? rh_ts hdr) && (rh_m last =? 0)
                && ((96 <=? rh_pt hdr) && (rh_pt hdr <=? 127))
             then ctx <| ra_illegal2110TimestampMovementEvents := ra_illegal2110TimestampMovementEvents ctx + 1 |>
             else ctx in
  if negb (rh_ts last =? 0) && (rh_ts last =? rh_ts hdr) && (rh_m last =? 1)
  then ctx <| ra_illegal2110TimestampStallEvents := ra_illegal2110TimestampStallEvents ctx + 1 |>
  else ctx.

(** The counters are 64-bit; they do not reach the limit here. *)
Definition rtp_hdr_write (now now' : timeval) (ctx : rtp_hdr_analyzer_s) (hdr : rtp_hdr)
    : option (rtp_hdr_analyzer_s * Z) :=
  let ctx := ctx <| ra_totalPackets := ra_totalPackets ctx + 1 |> in
  h ← ra_tsArrival ctx;
  '(h, _) ← ltn_histogram_interval_update h now;
  let ctx := ctx <| ra_tsArrival := Some h |> in
  ctx ← measure_clock now' hdr ctx;
  let ctx := check_2110 hdr ctx in
  let '(ctx, continious) := rtp_hdr_is_continious ctx hdr in
  let ctx := if continious =? 0 then ctx <| ra_discontinuityEvents := ra_discontinuityEvents ctx + 1 |> else ctx in
  let ctx := if negb (rh_ts (ra_last ctx) =? 0) &&
                (negb (ntohs (rh_seq hdr) =? 0) && (ntohs (rh_seq hdr) <? ntohs (rh_seq (ra_last ctx))))
             then ctx <| ra_illegalTSCounterMovementEvents := ra_illegalTSCounterMovementEvents ctx + 1 |> else ctx in
  let ctx := if rtp_hdr_is_payload_type_valid hdr =? 0
             then ctx <| ra_illegalPayloadTypeEvents := ra_illegalPayloadTypeEvents ctx + 1 |> else ctx in
  let ctx := if rh_m hdr =? 0 then ctx else ctx <| ra_totalFrames := ra_totalFrames ctx + 1 |> in
  Some (ctx, 0).

Definition rtp_analyzer_reset (now : timeval) (ctx : rtp_hdr_analyzer_s) : rtp_hdr_analyzer_s :=
  ctx <| ra_totalPackets := 0 |> <| ra_totalFrames := 0 |> <| ra_discontinuityEvents := 0 |>
      <| ra_illegalPayloadTypeEvents := 0 |> <| ra_illegal2110TimestampMovementEvents := 0 |>
      <| ra_illegal2110TimestampStallEvents := 0 |> <| ra_illegalTSTimestampMovementEvents := 0 |>
      <| ra_illegalTSTimestampStallEvents := 0 |> <| ra_illegalTSCounterMovementEvents := 0 |>
      <| ra_tsArrival := ltn_histogram_reset now <$> ra_tsArrival ctx |>
      <| ra_tsInterval := ltn_histogram_reset now <$> ra_tsInterval ctx |>.

(** ** Frames in a buffer *)

Record rtp_frame_position_s := { fp_offset : Z; fp_lengthBytes : Z; fp_frame : rtp_hdr }.

(** The tests on the bytes at [p]. *)
Definition is_frame (p : list Z) (ssrc : Z) : bool :=
  let hdr := hdr_at p in
  if negb (rh_version hdr =? 2) then false else
  if negb (rh_pt hdr =? 33) then false else
  if rh_x hdr =? 1 then false else
  if negb (rh_cc hdr =? 0) then false else
  if negb (rh_ssrc hdr =? ssrc) then false else
  if negb (byte_at p 12 =? 0x47) then false else
  if negb (byte_at p (12 + 188) =? 0x47) then
    if negb (Z.shiftr (byte_at p (12 + 188)) 6 =? 2) then false else
    if negb (byte_at p (12 + 188 + 12) =? 0x47) then false else true
  else true.

(** The new entry, and the length of the entry before it. *)
Definition add_position (arr : list rtp_frame_position_s) (offset : Z) (hdr : rtp_hdr) : list rtp_frame_position_s :=
  let new := {| fp_offset := offset; fp_lengthBytes := 0; fp_frame := hdr |} in
  match reverse arr with
  | [] => [new]
  | last :: before => reverse before ++ [last <| fp_lengthBytes := u32 (offset - fp_offset last) |>; new]
  end.

(** [realloc n]: the array can grow to [n] entries.  The inner [None] is the
    failure of the function. *)
Fixpoint positions_loop (fuel : nat) (realloc : Z -> bool) (buf : list Z) (lengthBytes addr ssrc i : Z)
    (arr : list rtp_frame_position_s) : option (option (list rtp_frame_position_s)) :=
  match fuel with
  | O => None
  | S fuel' =>
      if i <? lengthBytes - 2 * 188 then
        p ← rds buf i (12 + 188 + 12 + 1);
        if is_frame p ssrc then
          if realloc (len arr + 1) then
            positions_loop fuel' realloc buf lengthBytes addr ssrc (i + (12 + 188 - 1) + 1)
              (add_position arr (u64 (addr + i)) (hdr_at p))
          else Some None
        else positions_loop fuel' realloc buf lengthBytes addr ssrc (i + 1) arr
      else Some (Some arr)
  end.

Definition rtp_frame_queryPositions (realloc : Z -> bool) (buf : list Z) (lengthBytes addr ssrc : Z)
    : option (option (list rtp_frame_position_s) * Z) :=
  r ← positions_loop (S (Z.to_nat lengthBytes)) realloc buf lengthBytes addr ssrc 0 [];
  Some (match r with Some arr => (Some arr, 0) | None => (None, -1) end).

(** ** What the counters count *)

(** A header that does not continue the one before: not seen after the
    sequence number 0. *)
Definition breaks (prev hdr : rtp_hdr) : Z :=
  if (0 <? rh_seq prev) && negb ((ntohs (rh_seq prev) + 1) mod 65536 =? ntohs (rh_seq hdr)) then 1 else 0.

Fixpoint breaks_from (prev : rtp_hdr) (hdrs : list rtp_hdr) : Z :=
  match hdrs with [] => 0 | h :: hdrs => breaks prev h + breaks_from h hdrs end.

Definition count (f : rtp_hdr -> bool) (hdrs : list rtp_hdr) : Z := len (List.filter f hdrs).

Definition rtp_run (ctx : rtp_hdr_analyzer_s) (calls : list (timeval * timeval * rtp_hdr)) : option rtp_hdr_analyzer_s :=
  foldM (fun ctx '(now, now', h) => '(ctx, _) ← rtp_hdr_write now now' ctx h; Some ctx) calls ctx.

(** At most [n] clock measurements and [m] arrivals are in the histograms. *)
Record rtp_wf (n m : Z) (ctx : rtp_hdr_analyzer_s) : Prop := {
  rw_interval : exists h, ra_tsInterval ctx = Some h /\ hist_wf h /\ seen h <= n;
  rw_arrival : exists h, ra_tsArrival ctx = Some h /\ hist_wf h /\ seen h <= m
}.

(** The counters of the theorem. *)
Definition tallies (ctx : rtp_hdr_analyzer_s) :=
  (ra_totalPackets ctx, ra_totalFrames ctx, ra_discontinuityEvents ctx, ra_illegalPayloadTypeEvents ctx,
   ra_illegalTSCounterMovementEvents ctx).

Lemma measure_clock_spec now hdr n m ctx : rtp_wf n m ctx -> 0 <= n < 2 ^ 63 -> exists ctx',
  measure_clock now hdr ctx = Some ctx' /\ rtp_wf (n + 1) m ctx' /\ tallies ctx' = tallies ctx /\ ra_last ctx' = ra_last ctx.
Proof.
  intros [(h & H1 & H2 & H3) (h2 & A1 & A2 & A3)] Hn. unfold measure_clock. destruct (_ =? 0).
  { exists ctx. split; [done|]. split; [|done]. constructor; [exists h|exists h2]; (split; [done|split; [done|lia]]). }
  cbv zeta. set (ticks := Z.quot _ 90). rewrite H1. step. unfold ltn_histogram_interval_update_with_value.
  destruct (hist_record_spec now h (u32 ticks) H2) as (h' & Eh & W' & S'); [lia|].
  assert (exists r, (if hist_out_of_range h (u32 ticks) then Some (hist_miss h, -1)
            else c ← hist_hit now h (u32 ticks); Some (c, i32 (u32 ticks))) = Some (h', r)) as [r ->].
  { destruct (hist_out_of_range _ _); [injection Eh as ->; by eexists|rewrite Eh; by eexists]. }
  step. eexists. split; [done|].
  assert (W1 : rtp_wf (n + 1) m (ctx <| ra_tsInterval := Some h' |>))
    by (constructor; [exists h'|exists h2]; (split; [done|split; [done|lia]])).
  destruct W1 as [W1 W2]. destruct (ticks =? 0); [by split; [constructor|]|]. destruct (3 <=? ticks); by split; [constructor|].
Qed.

Lemma check_2110_same hdr n m ctx : rtp_wf n m ctx -> rtp_wf n m (check_2110 hdr ctx) /\
  tallies (check_2110 hdr ctx) = tallies ctx /\ ra_last (check_2110 hdr ctx) = ra_last ctx.
Proof.
  intros [W1 W2]. unfold check_2110. cbv zeta. destruct (_ && (_ && _)), (_ && _ && _); (split; [by constructor|done]).
Qed.

Lemma rtp_hdr_write_spec now now' n ctx hdr : rtp_wf n n ctx -> 0 <= n < 2 ^ 63 -> timeval_wf now -> exists ctx',
  rtp_hdr_write now now' ctx hdr = Some (ctx', 0) /\ rtp_wf (n + 1) (n + 1) ctx' /\ ra_last ctx' = hdr /\
  ra_totalPackets ctx' = ra_totalPackets ctx + 1 /\
  ra_totalFrames ctx' = ra_totalFrames ctx + (if rh_m hdr =? 0 then 0 else 1) /\
  ra_discontinuityEvents ctx' = ra_discontinuityEvents ctx + breaks (ra_last ctx) hdr /\
  ra_illegalPayloadTypeEvents ctx' = ra_illegalPayloadTypeEvents ctx +
    (if rtp_hdr_is_payload_type_valid hdr =? 0 then 1 else 0) /\
  ra_illegalTSCounterMovementEvents ctx' = ra_illegalTSCounterMovementEvents ctx.
Proof.
  intros [(h & H1 & H2 & H3) (h2 & A1 & A2 & A3)] Hn Hnow. unfold rtp_hdr_write. cbv zeta.
  change (ra_tsArrival (ctx <| ra_totalPackets := ra_totalPackets ctx + 1 |>)) with (ra_tsArrival ctx). rewrite A1. step.
  destruct (hist_step_spec h2 (OpInterval now) A2 Hnow) as (h2' & E2 & W2 & S2); [lia|]. cbn [hist_step recorded] in *.
  destruct (ltn_histogram_interval_update h2 now) as [[x r]|]; [|done]. injection E2 as ->. step.
  match goal with |- context [measure_clock now' hdr ?x] => set (c1 := x) end.
  assert (W1 : rtp_wf n (n + 1) c1) by (constructor; [exists h|exists h2']; (split; [done|split; [done|lia]])).
  assert (T1 : tallies c1 = (ra_totalPackets ctx + 1, ra_totalFrames ctx, ra_discontinuityEvents ctx,
    ra_illegalPayloadTypeEvents ctx, ra_illegalTSCounterMovementEvents ctx) /\ ra_last c1 = ra_last ctx) by done.
  clearbody c1.
  destruct (measure_clock_spec now' hdr n (n + 1) c1 W1) as (c2 & -> & W2' & T2 & L2); [lia|]. step.
  destruct (check_2110_same hdr _ _ c2 W2') as (W3 & T3 & L3). set (c3 := check_2110 hdr c2) in *. clearbody c3.
  destruct T1 as [T1 L1]. rewrite T2, T1 in T3. rewrite L2, L1 in L3. injection T3 as B1 B2 B3 B4 B5.
  unfold rtp_hdr_is_continious. rewrite L3.
  assert (Eb : breaks (ra_last ctx) hdr = 1 - (if 0 <? rh_seq (ra_last ctx) then
      if (ntohs (rh_seq (ra_last ctx)) + 1) mod 65536 =? ntohs (rh_seq hdr) then 1 else 0 else 1)).
  { unfold breaks. destruct (0 <? _); [|done]. by destruct (_ =? _). }
  rewrite Eb. set (cont := if 0 <? _ then _ else 1).
  assert (Hcont : cont = 0 \/ cont = 1) by (unfold cont; destruct (0 <? _); [destruct (_ =? _)|]; auto). clearbody cont.
  eexists. split; [reflexivity|]. destruct W3 as [W3 W4].
  assert (Hlt : forall c, ra_last c = hdr -> negb (rh_ts (ra_last c) =? 0) &&
      (negb (ntohs (rh_seq hdr) =? 0) && (ntohs (rh_seq hdr) <? ntohs (rh_seq (ra_last c)))) = false).
  { intros c ->. rewrite Z.ltb_irrefl. by rewrite !andb_false_r. }
  destruct Hcont as [-> | ->]; cbn [Z.eqb]; rewrite Hlt by done;
    destruct (rtp_hdr_is_payload_type_valid hdr =? 0), (rh_m hdr =? 0); cbn; unfold const; rewrite ?B1, ?B2, ?B3, ?B4, ?B5;
    (split; [by constructor|]); repeat split; lia.
Qed.

Lemma rtp_run_spec n calls : forall ctx, rtp_wf n n ctx -> 0 <= n -> n + len calls < 2 ^ 62 ->
  Forall (fun c => timeval_wf c.1.1) calls ->
  let hdrs := map snd calls in
  exists ctx', rtp_run ctx calls = Some ctx' /\
    ra_totalPackets ctx' = ra_totalPackets ctx + len calls /\
    ra_totalFrames ctx' = ra_totalFrames ctx + count (fun h => negb (rh_m h =? 0)) hdrs /\
    ra_discontinuityEvents ctx' = ra_discontinuityEvents ctx + breaks_from (ra_last ctx) hdrs /\
    ra_illegalPayloadTypeEvents ctx' = ra_illegalPayloadTypeEvents ctx +
      count (fun h => rtp_hdr_is_payload_type_valid h =? 0) hdrs /\
    ra_illegalTSCounterMovementEvents ctx' = ra_illegalTSCounterMovementEvents ctx.
Proof.
  revert n. induction calls as [|[[now now'] h] calls IH]; intros n ctx W Hn Hl Hc; cbv zeta in *.
  { exists ctx. split; [done|]. unfold count, len. cbn. repeat split; lia. }
  inversion Hc as [|? ? Hnow Hc']; subst. rewrite len_cons in *. cbn [fst] in Hnow. pose proof (len_nonneg calls).
  destruct (rtp_hdr_write_spec now now' n ctx h W) as (c1 & E1 & W1 & L1 & P1 & P2 & P3 & P4 & P5); [lia|done|].
  destruct (IH (n + 1) c1 W1) as (c2 & E2 & R1 & R2 & R3 & R4 & R5); [lia|lia|done|].
  exists c2. split. { unfold rtp_run in *. cbn [foldM]. rewrite E1. step. exact E2. }
  cbn [map snd]. unfold count in *. cbn [List.filter breaks_from]. rewrite L1 in R3.
  destruct (rh_m h =? 0), (rtp_hdr_is_payload_type_valid h =? 0); cbn [negb]; rewrite ?len_cons; repeat split; lia.
Qed.

(** After any sequence of headers the analyser has counted the packets, the
    frames (headers with the marker bit), the illegal payload types, and the
    breaks of the sequence numbers, each header compared with the one before,
    but never a break after the sequence number 0 and never a step back. *)
Theorem rtp_counts (now : nat -> timeval) (calls : list (timeval * timeval * rtp_hdr)) :
  (forall k, timeval_wf (now k)) -> len calls < 2 ^ 61 -> Forall (fun c => timeval_wf c.1.1) calls ->
  let hdrs := map snd calls in
  exists ctx, rtp_run (rtp_analyzer_init (fun _ => true) now) calls = Some ctx /\
    ra_totalPackets ctx = len calls /\
    ra_totalFrames ctx = count (fun h => negb (rh_m h =? 0)) hdrs /\
    ra_discontinuityEvents ctx = breaks_from hdr_zero hdrs /\
    ra_illegalPayloadTypeEvents ctx = count (fun h => rtp_hdr_is_payload_type_valid h =? 0) hdrs /\
    ra_illegalTSCounterMovementEvents ctx = 0.
Proof.
  intros Hnow Hl Hc. cbv zeta. assert (W : rtp_wf 0 0 (rtp_analyzer_init (fun _ => true) now)).
  { constructor; cbn [rtp_analyzer_init ra_tsInterval ra_tsArrival]; unfold ltn_histogram_alloc_video_defaults.
    - destruct (hist_alloc_wf (now 1%nat) "RTP Header - Clock/Timestamp Intervals 90KHz (ms)" 0 (16 * 1000)) as (h & -> & Hw & Hs & _);
        [lia|lia|done|]. exists h. split; [done|]. split; [done|lia].
    - destruct (hist_alloc_wf (now 0%nat) "RTP Header - Inter-RTP-Frame Arrival Times - IAT (ms)" 0 (16 * 1000)) as (h & -> & Hw & Hs & _);
        [lia|lia|done|]. exists h. split; [done|]. split; [done|lia]. }
  destruct (rtp_run_spec 0 calls _ W) as (ctx & E & R1 & R2 & R3 & R4 & R5); [lia|lia|done|].
  exists ctx. split; [exact E|]. cbn [rtp_analyzer_init ra_totalPackets ra_totalFrames ra_discontinuityEvents ra_last
    ra_illegalPayloadTypeEvents ra_illegalTSCounterMovementEvents] in *. rewrite R1, R2, R3, R4, R5. done.
Qed.

Definition test_hdr (seq m : Z) : rtp_hdr :=
  hdr_zero <| rh_version := 2 |> <| rh_pt := 33 |> <| rh_seq := ntohs seq |> <| rh_ts := 1 |> <| rh_m := m |>.

Lemma rtp_counts_witness : exists ctx,
  rtp_run (rtp_analyzer_init (fun _ => true) (fun _ => Timeval 10 0))
    [(Timeval 10 0, Timeval 10 0, test_hdr 7 0); (Timeval 10 0, Timeval 10 0, test_hdr 9 1);
     (Timeval 10 0, Timeval 10 0, test_hdr 0 0); (Timeval 10 0, Timeval 10 0, test_hdr 5 0)] = Some ctx /\
  ra_discontinuityEvents ctx = 2 /\ ra_totalFrames ctx = 1.
Proof.
  destruct (rtp_counts (fun _ => Timeval 10 0)
    [(Timeval 10 0, Timeval 10 0, test_hdr 7 0); (Timeval 10 0, Timeval 10 0, test_hdr 9 1);
     (Timeval 10 0, Timeval 10 0, test_hdr 0 0); (Timeval 10 0, Timeval 10 0, test_hdr 5 0)]) as (ctx & E & _ & H1 & H2 & _).
  - by intros _.
  - by vm_compute.
  - repeat (apply Forall_cons_2; [done|]). apply Forall_nil_2.
  - exists ctx. split; [exact E|]. split; [exact H2|exact H1].
Defined.

(** The 32-bit RTP timestamp is compared with the 33-bit difference of PTS: a
    step of 90 ticks across its end measures 2^32 ticks more. *)
Lemma rtp_wrap_measured : ltntstools_pts_diff (2 ^ 32 - 45) 45 = 2 ^ 32 + 89.
Proof. done. Qed.

(** ** What the search finds *)

(** Consecutive entries are a frame apart, and carry the distance. *)
Fixpoint chained (arr : list rtp_frame_position_s) : Prop :=
  match arr with
  | [] => True
  | a :: rest =>
      match rest with
      | [] => fp_lengthBytes a = 0
      | b :: _ => fp_offset a + 200 <= fp_offset b /\ fp_lengthBytes a = u32 (fp_offset b - fp_offset a) /\ chained rest
      end
  end.

Lemma add_position_nil o h : add_position [] o h = [{| fp_offset := o; fp_lengthBytes := 0; fp_frame := h |}].
Proof. done. Qed.
Lemma add_position_one a o h : add_position [a] o h =
  [a <| fp_lengthBytes := u32 (o - fp_offset a) |>; {| fp_offset := o; fp_lengthBytes := 0; fp_frame := h |}].
Proof. done. Qed.
Lemma add_position_cons a arr o h : arr <> [] -> add_position (a :: arr) o h = a :: add_position arr o h.
Proof.
  intros Hne. unfold add_position. rewrite reverse_cons. destruct (reverse arr) as [|x l] eqn:E.
  - apply (f_equal reverse) in E. rewrite reverse_involutive in E. done.
  - cbn [app]. by rewrite reverse_snoc.
Qed.

(** The entries without their lengths. *)
Definition entry_key (e : rtp_frame_position_s) : Z * rtp_hdr := (fp_offset e, fp_frame e).

Lemma add_position_keys arr o h : map entry_key (add_position arr o h) = map entry_key arr ++ [(o, h)].
Proof.
  induction arr as [|a arr IH]; [done|]. destruct arr as [|b arr]; [done|].
  rewrite add_position_cons by done. cbn [map app]. by rewrite IH.
Qed.

Lemma add_position_chained arr o h : chained arr -> Forall (fun e => fp_offset e + 200 <= o) arr ->
  chained (add_position arr o h).
Proof.
  induction arr as [|a arr IH]; intros Hc Hf; [done|]. inversion Hf as [|? ? Ha Hf']; subst.
  destruct arr as [|b arr]; [done|]. rewrite add_position_cons by done. destruct Hc as (C1 & C2 & C3). specialize (IH C3 Hf').
  destruct arr as [|c arr].
  - rewrite add_position_one in *. cbn. unfold const. split; [done|]. split; [done|]. exact IH.
  - rewrite add_position_cons in * by done. split; [done|]. split; [done|]. exact IH.
Qed.

(** Found: the entry is a frame of the buffer. *)
Definition frame_at (buf : list Z) (ssrc addr : Z) (e : rtp_frame_position_s) : Prop :=
  exists i, 0 <= i /\ fp_offset e = addr + i /\ is_frame (slice buf i 213) ssrc = true /\ fp_frame e = hdr_at (slice buf i 213).

(** The bytes at [i] begin a frame and are passed over by no entry. *)
Definition covered (addr i : Z) (arr : list rtp_frame_position_s) : Prop :=
  exists o, o ∈ map fst (map entry_key arr) /\ o <= addr + i < o + 200.

Record scanned (buf : list Z) (ssrc addr i : Z) (arr : list rtp_frame_position_s) : Prop := {
  sc_chain : chained arr;
  sc_frames : Forall (frame_at buf ssrc addr) arr;
  sc_before : Forall (fun e => fp_offset e + 200 <= addr + i) arr;
  sc_all : forall k, 0 <= k < i -> is_frame (slice buf k 213) ssrc = true -> covered addr k arr
}.

Lemma keys_forall (P : Z * rtp_hdr -> Prop) arr : Forall (fun e => P (entry_key e)) arr <-> Forall P (map entry_key arr).
Proof. by rewrite Forall_map. Qed.

Lemma scanned_add buf ssrc addr i arr : scanned buf ssrc addr i arr -> 0 <= i ->
  is_frame (slice buf i 213) ssrc = true ->
  scanned buf ssrc addr (i + 200) (add_position arr (addr + i) (hdr_at (slice buf i 213))).
Proof.
  intros [C F B A] Hi Hf. set (P1 := fun k : Z * rtp_hdr => exists j, 0 <= j /\ k.1 = addr + j /\
    is_frame (slice buf j 213) ssrc = true /\ k.2 = hdr_at (slice buf j 213)).
  set (P2 := fun k : Z * rtp_hdr => k.1 + 200 <= addr + (i + 200)). constructor.
  - by apply add_position_chained.
  - change (Forall (fun e => P1 (entry_key e)) (add_position arr (addr + i) (hdr_at (slice buf i 213)))).
    rewrite keys_forall, add_position_keys. apply Forall_app. split; [by apply keys_forall|]. apply Forall_singleton.
    exists i. done.
  - change (Forall (fun e => P2 (entry_key e)) (add_position arr (addr + i) (hdr_at (slice buf i 213)))).
    rewrite keys_forall, add_position_keys. apply Forall_app. split.
    + apply keys_forall. eapply List.Forall_impl; [|exact B]. unfold P2. cbn. intros. lia.
    + apply Forall_singleton. unfold P2. cbn. lia.
  - intros k Hk Hkf. unfold covered. rewrite add_position_keys, map_app. destruct (Z_lt_dec k i) as [Hlt|Hge].
    + destruct (A k) as (o & Ho & Hr); [lia|done|]. exists o. split; [|done]. apply elem_of_app. by left.
    + exists (addr + i). split; [|lia]. apply elem_of_app. right. by left.
Qed.

Lemma positions_loop_spec buf lengthBytes addr ssrc fuel : forall i arr,
  0 <= lengthBytes <= len buf -> 0 <= addr -> addr + lengthBytes < 2 ^ 64 -> 0 <= i -> lengthBytes < i + Z.of_nat fuel ->
  (0 < fuel)%nat -> scanned buf ssrc addr i arr ->
  exists arr' j, positions_loop fuel (fun _ => true) buf lengthBytes addr ssrc i arr = Some (Some arr') /\
    scanned buf ssrc addr j arr' /\ lengthBytes - 376 <= j <= Z.max i (lengthBytes - 177).
Proof.
  induction fuel as [|fuel IH]; intros i arr Hl Ha Hal Hi Hf Hf0 Hs; [lia|]. cbn [positions_loop].
  destruct (Z.ltb_spec i (lengthBytes - 2 * 188)) as [Hlt|Hge]; [|exists arr, i; split; [done|]; split; [done|lia]].
  rewrite rds_slice by lia. step. change (12 + 188 + 12 + 1) with 213. destruct (is_frame (slice buf i 213) ssrc) eqn:Ef.
  - rewrite u64_id by lia. replace (i + (12 + 188 - 1) + 1) with (i + 200) by lia.
    edestruct (IH (i + 200)) as (arr' & j & E & S & Hj); [..|by apply scanned_add|]; try lia. exists arr', j. split; [exact E|]. split; [done|lia].
  - edestruct (IH (i + 1) arr) as (arr' & j & E & S & Hj); [..|exists arr', j; split; [exact E|]; split; [done|lia]]; try lia.
    destruct Hs as [C F B A]. constructor; [done|done| |].
    + eapply List.Forall_impl; [|exact B]. cbn. intros. lia.
    + intros k Hk Hkf. destruct (Z.eq_dec k i) as [->|]; [congruence|]. apply A; [lia|done].
Qed.

(** The search stays inside the buffer, and finds the frames: every entry is
    a frame at its offset, the entries are at least a frame apart and carry the
    distance to the next one (zero for the last), more than 376 bytes before the
    end; and every such position where a frame begins is an entry or inside one. *)
Theorem rtp_positions_found (buf : list Z) (lengthBytes addr ssrc : Z) :
  0 <= lengthBytes <= len buf -> 0 <= addr -> addr + lengthBytes < 2 ^ 64 ->
  exists arr, rtp_frame_queryPositions (fun _ => true) buf lengthBytes addr ssrc = Some (Some arr, 0) /\
    chained arr /\ Forall (frame_at buf ssrc addr) arr /\ Forall (fun e => fp_offset e + 376 < addr + lengthBytes) arr /\
    forall k, 0 <= k < lengthBytes - 376 -> is_frame (slice buf k 213) ssrc = true -> covered addr k arr.
Proof.
  intros Hl Ha Hal. unfold rtp_frame_queryPositions.
  destruct (positions_loop_spec buf lengthBytes addr ssrc (S (Z.to_nat lengthBytes)) 0 []) as (arr & j & -> & [C F B A] & Hj);
    [done|done|done|lia|lia|lia|constructor; [done|done|done|lia]|].
  step. exists arr. split; [done|]. split; [done|]. split; [done|]. split; [|intros k Hk; apply A; lia].
  destruct arr as [|e arr]; [constructor|]. destruct (Z_lt_dec 0 (lengthBytes - 177)) as [Hp|Hp].
  - eapply List.Forall_impl; [|exact B]. cbn. intros. lia.
  - apply Forall_cons_1 in B as [Be _]. apply Forall_cons_1 in F as [(i & Hi & Eo & _) _]. lia.
Qed.

Definition test_rtp_frame : list Z :=
  [0x80; 33; 0; 1; 0; 0; 0; 1; 0xaa; 0; 0; 0] ++ 0x47 :: replicate 187 0.

Lemma rtp_positions_found_witness : exists a b,
  rtp_frame_queryPositions (fun _ => true) (0 :: test_rtp_frame ++ test_rtp_frame ++ test_rtp_frame ++ replicate 12 0) 613 1000 0xaa
    = Some (Some [a; b], 0) /\
  fp_offset a = 1001 /\ fp_lengthBytes a = 200 /\ fp_offset b = 1201 /\ fp_lengthBytes b = 0.
Proof.
  destruct (rtp_positions_found (0 :: test_rtp_frame ++ test_rtp_frame ++ test_rtp_frame ++ replicate 12 0) 613 1000 0xaa)
    as (arr & E & _); [by vm_compute|lia|lia|].
  assert (E2 := E). vm_compute in E2. injection E2 as <-. eexists _, _. split; [exact E|]. by vm_compute.
Defined.
