(* ===== verification/KlQueue.v ===== *)
(** * The pointer queue: src/kl-queue.c

    A list of items under a mutex, with its count.  Each function is one step,
    save the wait of a pop, during which other threads may push. *)
From Stdlib Require Import ZArith Lia Bool.
From stdpp Require Import base numbers list option.
From coqutil Require Import Datatypes.RecordSettersUsingExistingGetters.
From S2P Require Import Prelude.

Section Queue.
Context {A : Type}.

Record klqueue_s := { q_head : list A; q_item_count : Z }.

Definition klqueue_initialize : klqueue_s := {| q_head := []; q_item_count := 0 |}.
Definition klqueue_count (q : klqueue_s) : Z := q_item_count q.
Definition klqueue_empty (q : klqueue_s) : Z := if klqueue_count q =? 0 then 1 else 0.

(** The items are dropped; the caller's pointers are lost. *)
Definition klqueue_destroy (q : klqueue_s) : klqueue_s :=
  {| q_head := []; q_item_count := u64 (q_item_count q - len (q_head q)) |}.

(** [ok]: there is memory for the item; without it, the item is dropped. *)
Definition klqueue_push (ok : bool) (q : klqueue_s) (item : A) : klqueue_s :=
  if negb ok then q else
  {| q_head := q_head q ++ [item]; q_item_count := u64 (q_item_count q + 1) |}.

(** How the wait on an empty queue ends, with what was pushed meanwhile. *)
Inductive wait_result := WaitTimedOut (pushed : list A) | WaitSignalled (pushed : list A) | WaitError.

Definition ETIMEDOUT : Z := 110.

(** The first item is taken; [None]: nothing is stored in [*item]. *)
Definition take_first (q : klqueue_s) : klqueue_s * option A :=
  match q_head q with
  | [] => (q, None)
  | x :: l => ({| q_head := l; q_item_count := u64 (q_item_count q - 1) |}, Some x)
  end.

(** The outer [None] is the failed assertion. *)
Definition klqueue_pop_non_blocking (wait : wait_result) (q : klqueue_s) : option (klqueue_s * option A * Z) :=
  match q_head q with
  | [] =>
      match wait with
      | WaitTimedOut pushed => Some (foldl (klqueue_push true) q pushed, None, ETIMEDOUT)
      | WaitSignalled pushed => let '(q, item) := take_first (foldl (klqueue_push true) q pushed) in Some (q, item, 0)
      | WaitError => None
      end
  | _ => let '(q, item) := take_first q in Some (q, item, 0)
  end.

(** ** The queue is a FIFO *)

Inductive queue_op := QPush (item : A) | QPop (wait : wait_result).

(** The items pushed by an operation and during it. *)
Definition pushed_by (q : klqueue_s) (op : queue_op) : list A :=
  match op with
  | QPush x => [x]
  | QPop w => match q_head q, w with
              | [], WaitTimedOut l | [], WaitSignalled l => l
              | _, _ => []
              end
  end.

(** The queue, the items pushed and the items popped. *)
Definition queue_step (st : klqueue_s * list A * list A) (op : queue_op) : option (klqueue_s * list A * list A) :=
  let '(q, i, o) := st in
  match op with
  | QPush x => Some (klqueue_push true q x, i ++ [x], o)
  | QPop w => '(q', item, _) ← klqueue_pop_non_blocking w q;
              Some (q', i ++ pushed_by q op, o ++ match item with Some x => [x] | None => [] end)
  end.

Lemma push_all q l : q_item_count q = len (q_head q) -> len (q_head q) + len l < 2 ^ 63 ->
  q_head (foldl (klqueue_push true) q l) = q_head q ++ l /\
  q_item_count (foldl (klqueue_push true) q l) = len (q_head q ++ l).
Proof.
  revert q. induction l as [|x l IH]; intros q Hq Hl; [by rewrite app_nil_r|]. rewrite len_cons in Hl.
  pose proof (len_nonneg l). pose proof (len_nonneg (q_head q)). cbn [foldl].
  assert (E1 : q_head (klqueue_push true q x) = q_head q ++ [x]) by done.
  assert (E2 : q_item_count (klqueue_push true q x) = len (q_head q ++ [x])).
  { cbn [klqueue_push negb q_item_count]. rewrite Hq, u64_id, len_app by lia. done. }
  destruct (IH (klqueue_push true q x)) as [H1 H2].
  - by rewrite E1, E2.
  - rewrite E1, len_app. change (len [x]) with 1. lia.
  - rewrite H1, H2, E1. by rewrite <- app_assoc.
Qed.

(** Whatever the threads push during a wait, the items popped and then the
    items in the queue are the items pushed, in order, and the count is that of
    the queue. *)
Theorem klqueue_fifo (ops : list queue_op) :
  Forall (fun op => op <> QPop WaitError) ops ->
  forall bound, (forall q, Forall (fun op => len (pushed_by q op) <= bound) ops) -> len ops * (bound + 1) < 2 ^ 63 ->
  exists q i o, foldM queue_step ops (klqueue_initialize, [], []) = Some (q, i, o) /\
    o ++ q_head q = i /\ klqueue_count q = len (q_head q).
Proof.
  intros Hw bound Hb Hl.
  assert (H : forall ops q i o, Forall (fun op => op <> QPop WaitError) ops ->
    (forall q, Forall (fun op => len (pushed_by q op) <= bound) ops) ->
    q_item_count q = len (q_head q) -> o ++ q_head q = i -> len (q_head q) + len ops * (bound + 1) < 2 ^ 63 ->
    exists q' i' o', foldM queue_step ops (q, i, o) = Some (q', i', o') /\ o' ++ q_head q' = i' /\
      q_item_count q' = len (q_head q')); [|destruct (H ops klqueue_initialize [] []) as (q & i & o & ?); try done; by exists q, i, o].
  clear. induction ops as [|op ops IH]; intros q i o Hw Hb Hq Hi Hl; [by exists q, i, o|].
  inversion Hw as [|? ? Hop Hw']; subst. rewrite len_cons in Hl. pose proof (len_nonneg ops) as L1. pose proof (len_nonneg (q_head q)) as L2.
  assert (Hb' : forall q, Forall (fun op => len (pushed_by q op) <= bound) ops) by (intros q0; specialize (Hb q0); by inversion Hb).
  assert (Hb1 : len (pushed_by q op) <= bound) by (specialize (Hb q); by inversion Hb). pose proof (len_nonneg (pushed_by q op)) as L3.
  assert (exists q' o', queue_step (q, o ++ q_head q, o) op = Some (q', (o ++ q_head q) ++ pushed_by q op, o') /\
    o' ++ q_head q' = (o ++ q_head q) ++ pushed_by q op /\ q_item_count q' = len (q_head q') /\
    len (q_head q') <= len (q_head q) + (bound + 1)) as (q' & o' & E & H1 & H2 & H3).
  { destruct op as [x|w]; cbn [queue_step].
    - eexists _, _. split; [done|]. cbn [klqueue_push negb q_head q_item_count]. rewrite app_assoc, len_app. change (len [x]) with 1.
      split; [done|]. cbn [pushed_by] in *. change (len [x]) with 1 in *. rewrite Hq, u64_id by nia. split; [done|nia].
    - unfold klqueue_pop_non_blocking, take_first, pushed_by in *. destruct (q_head q) as [|y l] eqn:Eh.
      + destruct w as [p|p|]; [..|done].
        * step. destruct (push_all q p) as [P1 P2]; [by rewrite Eh|rewrite Eh, len_nil; nia|]. rewrite Eh in P1, P2. cbn [app] in *.
          eexists _, _. split; [done|]. rewrite P1, P2, !app_nil_r. split; [done|]. split; [done|]. rewrite len_nil. nia.
        * destruct (push_all q p) as [P1 P2]; [by rewrite Eh|rewrite Eh, len_nil; nia|]. rewrite Eh in P1, P2. cbn [app] in *.
          rewrite P1. destruct p as [|z p]; step.
          -- eexists _, _. split; [done|]. rewrite P1, P2, !app_nil_r. split; [done|]. split; [done|]. rewrite len_nil. nia.
          -- eexists _, _. split; [done|]. cbn [q_head q_item_count]. rewrite P2, app_nil_r, <- app_assoc, !len_cons in *.
             pose proof (len_nonneg p). split; [done|]. split; [rewrite u64_id by nia; lia|]. rewrite len_nil. nia.
      + step. eexists _, _. split; [done|]. cbn [q_head q_item_count]. rewrite Hq, len_cons in *. pose proof (len_nonneg l).
        rewrite app_nil_r, <- app_assoc. split; [done|]. split; [rewrite u64_id by nia; lia|nia]. }
  cbn [foldM]. rewrite E. step. apply IH; try done. nia.
Qed.
End Queue.

Arguments klqueue_s : clear implicits.
Arguments wait_result : clear implicits.
Arguments queue_op : clear implicits.

Lemma klqueue_fifo_witness : exists q i o,
  foldM queue_step [QPush 1; QPop (WaitTimedOut []); QPop (WaitSignalled [2; 3]); QPop (WaitTimedOut [])]
    (klqueue_initialize, [], []) = Some (q, i, o) /\ o ++ q_head q = i /\ i = [1; 2; 3] /\ o = [1; 2; 3].
Proof.
  destruct (klqueue_fifo [QPush 1; QPop (WaitTimedOut []); QPop (WaitSignalled [2; 3]); QPop (WaitTimedOut [])])
    with (bound := 2) as (q & i & o & E & H & _).
  - repeat (apply Forall_cons_2; [done|]). apply Forall_nil_2.
  - intros q. repeat (apply Forall_cons_2; [cbn [pushed_by]; destruct (q_head q); by vm_compute|]). apply Forall_nil_2.
  - by vm_compute.
  - exists q, i, o. split; [exact E|]. split; [exact H|]. vm_compute in E. by injection E as <- <- <-.
Defined.

(** A wake-up without an item returns success and stores nothing. *)
Lemma klqueue_wakes_without_item : klqueue_pop_non_blocking (WaitSignalled []) (klqueue_initialize (A := Z)) =
  Some (klqueue_initialize, None, 0).
Proof. done. Qed.
