(* ===== verification/PesExtractor.v ===== *)
(** * The PES extractor: src/pes-extractor.c

    The packets of one PID are appended to a ring buffer; a packet that starts
    a payload unit ends the one before it, which is parsed and handed to a
    callback, at once or through a list ordered by time stamps.  The ring, the
    parser, the clock and the statistics are those of their own files.

    [None] is undefined behaviour or a call of abort.  The messages and the
    debugging code are not modelled; contexts and packets are freed by the
    host.  The lists are lists, the head of an xorg_list first. *)
From Stdlib Require Import ZArith Lia Bool.
From stdpp Require Import base numbers list option.
From coqutil Require Import Datatypes.RecordSettersUsingExistingGetters.
From S2P Require Import Prelude Ts BitStream RingBuffer Pes Clock Stats StatsSpec StatsQuery.

Definition ORDERED_LIST_DEPTH : Z := 60.
Definition MAX_PCR_ITEMS : Z := 12.

Record pcr_item_s := { pi_pcr : Z; pi_ringPos : Z; pi_updateTime : Z }.

(** A parsed packet, with the fields the extractor stores in it. *)
Record extracted_pes := {
  ex_pes : ltn_pes_packet;
  ex_pcr : Z;
  ex_arrivalMs : Z;
  ex_rawBuffer : list Z
}.

Record item_s := { it_correctedPTS : Z; it_pes : option extracted_pes }.

(** [pe_cb]: a callback is given; [pe_calls]: the packets it was given. *)
Record pes_extractor_s := {
  pe_pid : Z;
  pe_rb : option KLRingBuffer;
  pe_appending : Z;
  pe_streamId : Z;
  pe_skipDataExtraction : Z;
  pe_cb : bool;
  pe_calls : list extracted_pes;
  pe_orderedOutput : Z;
  pe_listOrdered : list item_s;
  pe_correctedClock : ltntstools_corrected_clock_s;
  pe_computedRingSize : Z;
  pe_largestRingFrame : Z;
  pe_lastCCCounter : Z;
  pe_libstats : option ltntstools_stream_statistics_s;
  pe_pcrList : list pcr_item_s;
  pe_pusi_time_ms : Z;
  pe_preventWrites : Z
}.

(** ** The callback of the statistics *)

(** [pid]: the record of the PID of the event, whatever that PID is; the
    statistics pass one with this event. *)
Definition notification_callback (ctx : pes_extractor_s) (event : ltntstools_notification_event_e)
    (pid : option ltntstools_pid_statistics_s) : pes_extractor_s :=
  match event, pid with
  | EVENT_UPDATE_PID_PUSI_DELIVERY_TIME, Some p => ctx <| pe_pusi_time_ms := p_pusi_time_ms p |>
  | _, _ => ctx
  end.

(** The update of the statistics with one packet, and the callbacks it made:
    the record of the packet's PID has its delivery time when it is passed. *)
Definition update_stats (E : env) (ctx : pes_extractor_s) (pkt : list Z) : option pes_extractor_s :=
  let before := match pe_libstats ctx with Some s => s_calls s | None => [] end in
  stats ← ltntstools_pid_stats_update E (pe_libstats ctx) (Some pkt) 1;
  let calls := match stats with Some s => drop (length before) (s_calls s) | None => [] end in
  Some (foldl (fun ctx '(event, pidnr) =>
                 notification_callback ctx event (s ← stats; pidnr ← pidnr; s_pids s !! (pidnr : Z)))
              (ctx <| pe_libstats := stats |>) calls).

(** ** The ordered list *)

(** [_list_insert]: before the first item with a later time or no packet. *)
Fixpoint _list_insert (l : list item_s) (newitem : item_s) : list item_s :=
  match l with
  | [] => [newitem]
  | e :: l' =>
      if it_correctedPTS newitem <? it_correctedPTS e then newitem :: l
      else match it_pes e with None => newitem :: l | Some _ => e :: _list_insert l' newitem end
  end.

(** The first of the items with the smallest time, and the list without it. *)
Fixpoint oldest_from (oldest : item_s) (before : list item_s) (seen l : list item_s) : item_s * list item_s :=
  match l with
  | [] => (oldest, before ++ seen)
  | e :: l =>
      if it_correctedPTS e <? it_correctedPTS oldest
      then oldest_from e (before ++ oldest :: seen) [] l
      else oldest_from oldest before (seen ++ [e]) l
  end.

Definition _list_find_oldest (l : list item_s) : option (item_s * list item_s) :=
  match l with [] => None | e :: l => Some (oldest_from e [] [] l) end.

Definition callback (ctx : pes_extractor_s) (pes : extracted_pes) : pes_extractor_s :=
  ctx <| pe_calls := pe_calls ctx ++ [pes] |>.

Definition deliver_pes (pes : option extracted_pes) (ctx : pes_extractor_s) : pes_extractor_s :=
  match pes with Some p => callback ctx p | None => ctx end.

(** The oldest packet is delivered; its item takes the new one. *)
Definition order_output (ctx : pes_extractor_s) (pes : extracted_pes) : option pes_extractor_s :=
  match _list_find_oldest (pe_listOrdered ctx) with
  | None => Some ctx
  | Some (item, rest) =>
      let ctx := deliver_pes (it_pes item) ctx in
      '(clk, _) ← ltntstools_corrected_clock_update (Some (pe_correctedClock ctx)) (fld (ex_pes pes) PTS);
      clk ← clk;
      let item := {| it_correctedPTS := i64 (ltntstools_corrected_clock_unwrapped (Some clk));
                     it_pes := Some pes |} in
      Some (ctx <| pe_correctedClock := clk |> <| pe_listOrdered := _list_insert rest item |>)
  end.

(** [_flushOrderedOutput]: every packet that waits is delivered. *)
Fixpoint flush_loop (fuel : nat) (l : list item_s) (ctx : pes_extractor_s) : option pes_extractor_s :=
  match fuel with
  | O => None
  | S fuel' =>
      match _list_find_oldest l with
      | None => Some (ctx <| pe_listOrdered := [] |>)
      | Some (item, rest) => flush_loop fuel' rest (deliver_pes (it_pes item) ctx)
      end
  end.
Definition _flushOrderedOutput (ctx : pes_extractor_s) : option pes_extractor_s :=
  flush_loop (S (length (pe_listOrdered ctx))) (pe_listOrdered ctx) ctx.

(** ** The list of PCRs *)

(** The last item of an empty list is not NULL: it is the head, taken for an
    item. *)
Definition updatePcrList (now : Z) (ctx : pes_extractor_s) (pcr ringPos : Z) : option pes_extractor_s :=
  match reverse (pe_pcrList ctx) with
  | [] => None
  | _ :: before =>
      Some (ctx <| pe_pcrList := {| pi_pcr := pcr; pi_ringPos := ringPos; pi_updateTime := now |} :: reverse before |>)
  end.

Fixpoint find_pcr (l : list pcr_item_s) (ringPos : Z) : Z :=
  match l with
  | [] => -1
  | e :: l => if pi_ringPos e =? ringPos then pi_pcr e else find_pcr l ringPos
  end.
Definition findPcrFromPosition (ctx : pes_extractor_s) (ringPos : Z) : Z := find_pcr (pe_pcrList ctx) ringPos.

Section Memory.

(** [malloc n]: the [n] bytes of an allocation, or a failure; [malloc_ok]: the
    allocations of the parser. *)
Variable malloc : Z -> option (list Z).
Variable malloc_ok : Z -> bool.

(** [items], [pcr_items]: how many of the items of the two lists could be
    allocated.  Without statistics the registration dereferences NULL. *)
Definition ltntstools_pes_extractor_alloc (stats_ok : nat -> bool) (items pcr_items : nat) (tv : timeval)
    (now : Z) (pid streamId : Z) (cb : bool) (buffer_min buffer_max : Z) : option pes_extractor_s :=
  let buffer_min := if buffer_min =? -1 then 4 * 1048576 else buffer_min in
  let buffer_max := if buffer_max =? -1 then 32 * 1048576 else buffer_max in
  let clk := {| initialized := 0; clkMaxTicks := 0; lastTickValue := 0; unwrapped := 0; correctedClk := 0;
                clk_bits := 0; clk_mod := 0; clk_mask := 0; clk_half := 0 |} in
  stats ← ltntstools_pid_stats_alloc stats_ok tv;
  let '(stats, _) := ltntstools_notification_register_callback stats EVENT_UPDATE_PID_PUSI_DELIVERY_TIME 0 false in
  Some {| pe_pid := pid; pe_rb := rb_new malloc (u64 buffer_min) (u64 buffer_max); pe_appending := 0;
          pe_streamId := streamId; pe_skipDataExtraction := 0; pe_cb := cb; pe_calls := [];
          pe_orderedOutput := 0;
          pe_listOrdered := replicate (items `min` Z.to_nat ORDERED_LIST_DEPTH)
                              {| it_correctedPTS := 0; it_pes := None |};
          pe_correctedClock := (ltntstools_corrected_clock_init clk 90000).1;
          pe_computedRingSize := 0; pe_largestRingFrame := 0; pe_lastCCCounter := 0;
          pe_libstats := Some stats;
          pe_pcrList := replicate (pcr_items `min` Z.to_nat MAX_PCR_ITEMS)
                          {| pi_pcr := 0; pi_ringPos := 0; pi_updateTime := now |};
          pe_pusi_time_ms := 0; pe_preventWrites := 0 |}.

Definition ltntstools_pes_extractor_set_ordered_output (ctx : pes_extractor_s) (tf : Z) : pes_extractor_s * Z :=
  (ctx <| pe_orderedOutput := tf |>, 0).
Definition ltntstools_pes_extractor_set_skip_data (ctx : pes_extractor_s) (tf : Z) : pes_extractor_s * Z :=
  (ctx <| pe_skipDataExtraction := tf |>, 0).
Definition ltntstools_pes_extractor_set_pcr_pid (E : env) (ctx : pes_extractor_s) (pcrpidnr : Z)
    : option (pes_extractor_s * Z) :=
  s ← pe_libstats ctx;
  Some (ctx <| pe_libstats := Some (ltntstools_pid_stats_pid_set_contains_pcr E (Z.land pcrpidnr 0x1fff) s) |>, 0).

(** What the release of the context delivers. *)
Definition ltntstools_pes_extractor_free (ctx : pes_extractor_s) : option pes_extractor_s :=
  let ctx := ctx <| pe_preventWrites := 0 |> in
  if pe_orderedOutput ctx =? 0 then Some ctx else _flushOrderedOutput ctx.

(** The bytes [buf] of the ring, [rlen] of them, as a packet.  A packet that
    is not delivered is not freed. *)
Definition process_unit (ctx : pes_extractor_s) (rb : KLRingBuffer) (buf : list Z) (rlen : Z)
    : option (pes_extractor_s * Z) :=
  let ctx := if pe_largestRingFrame ctx <? rlen then ctx <| pe_largestRingFrame := rlen |> else ctx in
  '(pes, bs, bitsProcessed) ←
    ltn_pes_packet_parse malloc_ok ltn_pes_packet_alloc (klbs_read_set_buffer buf rlen) (pe_skipDataExtraction ctx);
  let pcr := findPcrFromPosition ctx (rb_get_read_pos rb) in
  let overrun := negb (bs_overrun bs =? 0) in
  ctx ←
    (if negb overrun && negb (bitsProcessed =? 0) && pe_cb ctx then
       raw ← malloc rlen;
       src ← rds buf 0 rlen;
       raw ← wrs raw 0 src;
       let pes := {| ex_pes := pes; ex_pcr := pcr; ex_arrivalMs := pe_pusi_time_ms ctx; ex_rawBuffer := raw |} in
       if pe_orderedOutput ctx =? 0 then Some (callback ctx pes) else order_output ctx pes
     else Some ctx);
  Some (ctx, if overrun then -2 else 0).

Definition _processRing (ctx : pes_extractor_s) : option (pes_extractor_s * Z) :=
  rb ← pe_rb ctx;
  '(used, rb) ← rb_used rb;
  let rlen := i32 used in
  if rlen =? 0 then Some (ctx <| pe_rb := Some rb |>, -1) else
  if negb (pe_computedRingSize ctx =? rlen) then None else
  if rlen <? 16 then None else
  match malloc rlen with
  | None => Some (ctx <| pe_rb := Some rb |>, 0)
  | Some buf =>
      '(plen, buf, rb) ← rb_peek malloc rb buf rlen;
      let ctx := ctx <| pe_rb := Some rb |> in
      if plen =? rlen then process_unit ctx rb buf rlen else Some (ctx, 0)
  end.

(** [rb_empty(ctx->rb); ctx->computedRingSize = 0;] *)
Definition clean_ring (ctx : pes_extractor_s) : option pes_extractor_s :=
  rb ← pe_rb ctx; rb ← rb_empty rb;
  Some (ctx <| pe_rb := Some rb |> <| pe_computedRingSize := 0 |>).

(** The payload of a packet, from [offset] on, is written; result: whether the
    ring overflowed.  The size is an int, the ring takes a size_t. *)
Definition append_payload (ctx : pes_extractor_s) (pkt : list Z) (offset : Z) : option (pes_extractor_s * Z) :=
  let wsize := 188 - offset in
  rb ← pe_rb ctx;
  size ← int_ok (pe_computedRingSize ctx + wsize);
  '(_, didOverflow, rb) ← rb_write_with_state malloc rb (drop (Z.to_nat offset) pkt) (u64 wsize) (Some 0);
  Some (ctx <| pe_rb := Some rb |> <| pe_computedRingSize := size |>, didOverflow).

(** A packet of the PID, once the statistics have counted it. *)
Definition check_loss (ctx : pes_extractor_s) : option pes_extractor_s :=
  let c := ltntstools_pid_stats_stream_get_cc_errors (pe_libstats ctx) in
  ctx ← (if pe_lastCCCounter ctx =? c then Some ctx else clean_ring (ctx <| pe_appending := 0 |>));
  Some (ctx <| pe_lastCCCounter := c |>).

(** Past the adaptation field. *)
Definition payload_offset (pkt : list Z) : Z :=
  if ltntstools_has_adaption pkt =? 0 then 4 else 5 + ltntstools_adaption_field_length pkt.

Definition append_packet (now : Z) (ctx : pes_extractor_s) (pkt : list Z) : option pes_extractor_s :=
  let pusi := ltntstools_payload_unit_start_indicator pkt in
  if ltntstools_adaption_field_control pkt =? 0x02 then Some ctx else
  if (pusi =? 0) && (pe_appending ctx =? 0) then Some ctx else
  ctx ← (if negb (pusi =? 0) && (pe_appending ctx =? 0) then clean_ring (ctx <| pe_appending := 1 |>) else Some ctx);
  let offset := payload_offset pkt in
  if (pusi =? 0) && (pe_appending ctx =? 1) then '(ctx, _) ← append_payload ctx pkt offset; Some ctx
  else if (pusi =? 1) && (pe_appending ctx =? 1) then
    '(ctx, _) ← _processRing ctx;
    ctx ← clean_ring ctx;
    pcr ← ltntstools_bitrate_calculator_query_stc (pe_libstats ctx);
    rb ← pe_rb ctx;
    ctx ← updatePcrList now ctx pcr (rb_get_write_pos rb);
    '(ctx, didOverflow) ← append_payload ctx pkt offset;
    if didOverflow =? 0 then Some ctx else None
  else Some ctx.

Definition extractor_packet (E : env) (now : Z) (ctx : pes_extractor_s) (pkt : list Z) : option pes_extractor_s :=
  ctx ← update_stats E ctx pkt;
  if negb (ltntstools_pid pkt =? pe_pid ctx) then Some ctx else
  ctx ← check_loss ctx; append_packet now ctx pkt.

(** [E i], [now i]: what the environment answers for packet [i]. *)
Fixpoint extractor_loop (fuel : nat) (E : Z -> env) (now : Z -> Z) (pkts : list Z) (packetCount i : Z)
    (ctx : pes_extractor_s) : option pes_extractor_s :=
  match fuel with
  | O => None
  | S fuel' =>
      if packetCount <=? i then Some ctx else
      pkt ← rds pkts (i * 188) 188;
      ctx ← extractor_packet (E i) (now i) ctx pkt;
      extractor_loop fuel' E now pkts packetCount (i + 1) ctx
  end.

Definition ltntstools_pes_extractor_write (E : Z -> env) (now : Z -> Z) (ctx : pes_extractor_s) (pkts : list Z)
    (packetCount : Z) : option (pes_extractor_s * Z) :=
  if negb (pe_preventWrites ctx =? 0) then Some (ctx, 0) else
  ctx ← extractor_loop (S (Z.to_nat packetCount)) E now pkts packetCount 0 ctx;
  Some (ctx, packetCount).

End Memory.

(** ** The ring between two units *)

(** The ring holds the bytes [l], from its first byte on. *)
Record ring_holds (max : Z) (rb : KLRingBuffer) (l : list Z) : Prop := {
  rh_wf : rb_wf rb;
  rh_mutex : rb_usingMutex rb = false;
  rh_max : rb_size_max rb = max;
  rh_head : rb_head rb = 0;
  rh_contents : rb_contents rb = l
}.

Lemma ring_fill max rb l : ring_holds max rb l -> rb_fill rb = len l.
Proof. intros [[_ Hi] _ _ _ <-]. rewrite len_contents; [done|]. apply Hi. Qed.

Lemma ring_used max rb l : ring_holds max rb l -> rb_used rb = Some (len l, rb).
Proof.
  intros H. unfold rb_used. rewrite locked_get_wf; [|apply H|done]. unfold _rb_used. by rewrite (ring_fill _ _ _ H).
Qed.

Lemma ring_empty max rb l : ring_holds max rb l -> exists rb', rb_empty rb = Some rb' /\ ring_holds max rb' [].
Proof.
  intros [[H1 [J1 J2 J3 J4 J5 J6]] H2 H3 H4 H5]. unfold rb_empty. rewrite lock_none by done. step.
  rewrite unlock_none by done. eexists. split; [done|]. constructor; [|done|done|done|by apply contents_empty].
  split; [done|]. constructor; cbn; lia.
Qed.

(** A write that does not overflow leaves the head. *)
Lemma write_keeps_head malloc rb from n n' rb' : rb_usingMutex rb = false ->
  rb_write_with_state malloc rb from n (Some 0) = Some (n', 0, rb') -> rb_head rb' = rb_head rb.
Proof.
  intros Hm. unfold rb_write_with_state. step. rewrite lock_none by done. step.
  assert (Hu : forall r (d : Z) x, rb_usingMutex r = false -> (rb ← RB_UNLOCK r; Some (n, d, rb)) = Some x -> x = (n, d, r)).
  { intros r d x Hr. rewrite unlock_none by done. step. by intros [= <-]. }
  destruct (_rb_remain_in_seg rb <? n).
  - unfold _rb_grow. destruct (_ <? _).
    + step. destruct (RB_UNLOCK rb) as [r1|]; step; [|done]. destruct (rb_discard r1 n) as [r2|]; step; [|done].
      destruct (copy_in _ _ _ _ _ _); step; [|done]. destruct (RB_UNLOCK _); step; done.
    + destruct (realloc malloc _ _) as [d|]; step; [|done]. destruct (copy_in _ _ _ _ _ _); step; [|done].
      intros H. apply Hu in H; [|done]. by injection H as _ ->.
  - step. destruct (copy_in _ _ _ _ _ _); step; [|done]. intros H. apply Hu in H; [|done]. by injection H as _ ->.
Qed.

Lemma ring_append malloc max rb l p : malloc_gives malloc -> ring_holds max rb l -> len p <= 184 ->
  len l + len p <= max - 128 * 184 ->
  exists rb', rb_write_with_state malloc rb p (len p) (Some 0) = Some (len p, 0, rb') /\ ring_holds max rb' (l ++ p).
Proof.
  intros Hmal H Hp Hmax. assert (Hf := ring_fill _ _ _ H). destruct H as [[H1 Hi] H2 H3 H4 H5].
  pose proof (len_nonneg p). pose proof (len_nonneg l). pose proof Hi as [J1 J2 J3 J4 J5 J6].
  assert (exists rb', rb_write_with_state malloc rb p (len p) (Some 0) = Some (len p, 0, rb') /\
    rb_wf rb' /\ rb_contents rb' = rb_contents rb ++ take (Z.to_nat (len p)) p /\ same_config rb rb')
    as (rb' & E & W & C & (S1 & S2 & _)).
  { destruct (Z_le_dec (rb_fill rb + len p) (rb_size rb)).
    - destruct (write_fits malloc rb p (len p)) as (rb' & ? & ? & ? & ? & _); [done|lia|lia|by right|]. by exists rb'.
    - destruct (Hmal (len p * 128)) as (x & Hx & Lx); [lia|].
      apply (write_grows malloc rb p (len p) x); try done; lia. }
  exists rb'. split; [done|]. rewrite H5 in C. unfold len at 1 in C. rewrite Nat2Z.id, firstn_all in C.
  constructor; [done|congruence|congruence| |done]. by rewrite (write_keeps_head _ _ _ _ _ _ H2 E).
Qed.

(** A read that does not advance leaves the head where it is, at 0. *)
Lemma peek_keeps_head malloc rb to n x : rb_usingMutex rb = false -> rb_head rb = 0 ->
  rb_peek malloc rb to n = Some x -> rb_head x.2 = 0.
Proof.
  intros Hm Hh.
  assert (EL : rb_used rb = Some (_rb_used rb, rb)).
  { unfold rb_used, locked_get. rewrite lock_none by done. step. by rewrite unlock_none by done. }
  unfold rb_peek, rb_reader. rewrite EL. step. rewrite EL.
  replace (if _rb_used rb <? n then Some (_rb_used rb, rb) else Some (n, rb))
    with (Some (if _rb_used rb <? n then _rb_used rb else n, rb)) by (by destruct (_ <? _)).
  step. set (k := if _rb_used rb <? n then _ else _). destruct (k =? 0); [by intros [= <-]|]. rewrite lock_none by done. step.
  destruct (copy_out _ _ _ _ _ _); step; [|done]. destruct (_ && _).
  - unfold _rb_shrink_reset. destruct (realloc _ _ _); step; [|done]. rewrite unlock_none by done. step.
    by intros [= <-].
  - step. rewrite unlock_none by done. step. by intros [= <-].
Qed.

Lemma ring_peek malloc max rb l buf : ring_holds max rb l -> len buf = len l ->
  exists rb', rb_peek malloc rb buf (len l) = Some (len l, l, rb') /\ ring_holds max rb' l.
Proof.
  intros H Hb. assert (Hf := ring_fill _ _ _ H). destruct H as [H1 H2 H3 H4 H5]. pose proof (len_nonneg l).
  destruct (reader_spec malloc rb buf (len l) false H1) as (to & rb' & E & W & Lt & T & C & (S1 & S2 & _)); [lia|].
  unfold read_count in *. rewrite Hf, Z.min_id in *. rewrite H5 in T.
  assert (to = l) as -> by (rewrite !take_ge in T by (unfold len in *; lia); done).
  exists rb'. split; [exact E|]. constructor; [done|congruence|congruence| |congruence].
  exact (peek_keeps_head malloc rb buf (len l) _ H2 H4 E).
Qed.

(** ** The specification: payload units

    The extractor without its ring, its statistics and its lists: the unit
    being assembled is a list of bytes, the errors are those of the packets
    seen. *)

(** The errors counted by the statistics of these packets. *)
Definition errors_of (ps : list (list Z)) : Z := cc_total ps + total unsynced ps.

(** [as_unit]: the bytes since the last unit start, if one was seen since the
    last error. *)
Record assembly := {
  as_seen : list (list Z);
  as_errors : Z;
  as_unit : option (list Z);
  as_out : list (list Z * ltn_pes_packet)
}.

Section Spec.
Variable malloc_ok : Z -> bool.

(** [max]: the size of the largest unit. *)
Variables pid skip max : Z.

(** The unit is complete. *)
Definition end_unit (out : list (list Z * ltn_pes_packet)) (unit : list Z) : option (list (list Z * ltn_pes_packet)) :=
  if len unit =? 0 then Some out else
  if len unit <? 16 then None else
  '(pes, bs, bits) ← ltn_pes_packet_parse malloc_ok ltn_pes_packet_alloc (klbs_read_set_buffer unit (len unit)) skip;
  Some (if (bs_overrun bs =? 0) && negb (bits =? 0) then out ++ [(unit, pes)] else out).

Definition append (unit pkt : list Z) : option (list Z) :=
  if 188 <? payload_offset pkt then None else
  let unit := unit ++ drop (Z.to_nat (payload_offset pkt)) pkt in
  if max <? len unit then None else Some unit.

Definition assemble (unit : option (list Z)) (out : list (list Z * ltn_pes_packet)) (pkt : list Z)
    : option (option (list Z) * list (list Z * ltn_pes_packet)) :=
  if ltntstools_adaption_field_control pkt =? 2 then Some (unit, out) else
  if ltntstools_payload_unit_start_indicator pkt =? 0 then
    match unit with
    | None => Some (None, out)
    | Some u => u ← append u pkt; Some (Some u, out)
    end
  else
    out ← end_unit out (default [] unit);
    u ← append [] pkt; Some (Some u, out).

Definition assembly_step (st : assembly) (pkt : list Z) : option assembly :=
  let seen := as_seen st ++ [pkt] in
  if negb (ltntstools_pid pkt =? pid)
  then Some {| as_seen := seen; as_errors := as_errors st; as_unit := as_unit st; as_out := as_out st |}
  else
    let unit := if as_errors st =? errors_of seen then as_unit st else None in
    '(unit, out) ← assemble unit (as_out st) pkt;
    Some {| as_seen := seen; as_errors := errors_of seen; as_unit := unit; as_out := out |}.

Definition assembly_start : assembly := {| as_seen := []; as_errors := 0; as_unit := None; as_out := [] |}.

End Spec.

(** ** The statistics of the extractor *)

Record counted (t0 : Z) (ps : list (list Z)) (s : ltntstools_stream_statistics_s) : Prop := {
  cn_inv : stats_inv t0 ps (total unsynced ps) s;
  cn_quiet : quiet (len ps) s;
  cn_count : 0 <= s_packetCount s <= len ps
}.

Lemma unsynced_bound p : 0 <= unsynced p <= 1.
Proof. unfold unsynced. destruct (_ =? _); lia. Qed.

Lemma counted_errors t0 ps s : counted t0 ps s -> len ps < 2 ^ 59 ->
  ltntstools_pid_stats_stream_get_cc_errors (Some s) = errors_of ps.
Proof. intros [[] _ _] Hl. done. Qed.

Lemma notified ctx stats calls : exists v,
  foldl (fun ctx '(event, pidnr) =>
    notification_callback ctx event (s ← stats; pidnr ← pidnr; s_pids s !! (pidnr : Z))) ctx calls
  = ctx <| pe_pusi_time_ms := v |>.
Proof.
  revert ctx. induction calls as [|[e k] calls IH]; intros ctx; [exists (pe_pusi_time_ms ctx); by destruct ctx|].
  cbn [foldl]. destruct (IH (notification_callback ctx e (s ← stats; pidnr ← k; s_pids s !! (pidnr : Z)))) as [v ->].
  exists v. unfold notification_callback. destruct e; try done. by destruct (_ ≫= _).
Qed.

Lemma update_stats_spec t0 E ctx s ps pkt : pe_libstats ctx = Some s -> counted t0 ps s ->
  0 <= t0 < 2 ^ 61 -> env_wf t0 E -> len pkt = 188 -> len ps < 2 ^ 59 ->
  exists s' v, update_stats E ctx pkt = Some (ctx <| pe_libstats := Some s' |> <| pe_pusi_time_ms := v |>) /\
    counted t0 (ps ++ [pkt]) s'.
Proof.
  intros Hs [Hi Hq Hc] Ht HE Hp Hl. pose proof (len_nonneg ps). pose proof (total_bound _ ps unsynced_bound).
  destruct (update_spec t0 E ps (total unsynced ps) (len ps) s [pkt]) as (s' & E1 & I1 & Q1 & C1);
    [done|done|by constructor|done|done|lia|lia|change (len [pkt]) with 1; lia|].
  cbn [concat] in E1. rewrite app_nil_r in E1. change (len [pkt]) with 1 in E1, C1.
  unfold update_stats. rewrite Hs, E1. step.
  destruct (notified (ctx <| pe_libstats := Some s' |>) (Some s') (drop (length (s_calls s)) (s_calls s'))) as [v Hv].
  exists s', v. split; [exact (f_equal Some Hv)|]. pose proof (unsynced_bound pkt).
  rewrite <- total_app in I1. rewrite total_snoc in *. change (total unsynced [pkt]) with (unsynced pkt + 0) in *.
  constructor; [by rewrite total_snoc|by rewrite len_app|rewrite len_app; change (len [pkt]) with 1; lia].
Qed.

(** ** The extractor implements the assembly *)

Section Refinement.
Context (malloc : Z -> option (list Z)) (malloc_ok : Z -> bool) (Hmalloc : malloc_gives malloc).
Context (t0 pid skip max : Z) (Ht0 : 0 <= t0 < 2 ^ 61) (Hmax : max < 2 ^ 31).

(** What was handed to the callback: the bytes and the packet. *)
Definition outputs (ctx : pes_extractor_s) : list (list Z * ltn_pes_packet) :=
  map (fun o => (ex_rawBuffer o, ex_pes o)) (pe_calls ctx).

(** The units leave the ring room to grow once more. *)
Definition unit_max : Z := max - 128 * 184.

Record holds (unit : option (list Z)) (ctx : pes_extractor_s) : Prop := {
  ho_ring : exists rb, pe_rb ctx = Some rb /\ ring_holds max rb (default [] unit);
  ho_appending : pe_appending ctx = match unit with Some _ => 1 | None => 0 end;
  ho_size : pe_computedRingSize ctx = len (default [] unit);
  ho_bound : len (default [] unit) <= Z.max 0 unit_max
}.

Record settings (ctx : pes_extractor_s) : Prop := {
  se_pid : pe_pid ctx = pid;
  se_skip : pe_skipDataExtraction ctx = skip;
  se_cb : pe_cb ctx = true;
  se_ordered : pe_orderedOutput ctx = 0;
  se_writes : pe_preventWrites ctx = 0;
  se_pcrs : pe_pcrList ctx <> []
}.

Record extracts (st : assembly) (ctx : pes_extractor_s) : Prop := {
  xt_stats : exists s, pe_libstats ctx = Some s /\ counted t0 (as_seen st) s;
  xt_unit : holds (as_unit st) ctx;
  xt_errors : pe_lastCCCounter ctx = as_errors st;
  xt_out : outputs ctx = as_out st;
  xt_settings : settings ctx
}.

Lemma clean_ring_spec ctx unit : (exists rb, pe_rb ctx = Some rb /\ ring_holds max rb unit) ->
  exists rb', clean_ring ctx = Some (ctx <| pe_rb := Some rb' |> <| pe_computedRingSize := 0 |>) /\
    ring_holds max rb' [].
Proof.
  intros (rb & E & H). unfold clean_ring. rewrite E. step. destruct (ring_empty _ _ _ H) as (rb' & -> & H').
  step. by exists rb'.
Qed.

Lemma append_payload_spec ctx unit pkt unit' : len pkt = 188 -> 4 <= payload_offset pkt ->
  (exists rb, pe_rb ctx = Some rb /\ ring_holds max rb unit) -> pe_computedRingSize ctx = len unit ->
  append unit_max unit pkt = Some unit' ->
  exists rb', append_payload malloc ctx pkt (payload_offset pkt) =
      Some (ctx <| pe_rb := Some rb' |> <| pe_computedRingSize := len unit' |>, 0) /\
    ring_holds max rb' unit' /\ len unit' <= Z.max 0 unit_max.
Proof.
  intros Hp Ho (rb & E & H) Hs. unfold append. destruct (Z.ltb_spec 188 (payload_offset pkt)); [done|].
  destruct (Z.ltb_spec unit_max (len (unit ++ drop (Z.to_nat (payload_offset pkt)) pkt))) as [|L]; [done|].
  intros [= <-]. set (p := drop _ pkt) in *. assert (Lp : len p = 188 - payload_offset pkt) by (unfold p; rewrite len_drop by lia; lia).
  rewrite len_app in L. unfold unit_max in *. pose proof (len_nonneg unit). unfold append_payload. rewrite E. step.
  rewrite Hs, int_ok_Some by lia. step.
  rewrite u64_id by lia. fold p. rewrite <- Lp.
  destruct (ring_append malloc max rb unit p Hmalloc H) as (rb' & -> & H'); [lia|lia|]. step.
  exists rb'. split; [by rewrite len_app|]. split; [done|]. rewrite len_app. lia.
Qed.

Lemma process_ring_spec ctx unit out : (exists rb, pe_rb ctx = Some rb /\ ring_holds max rb unit) ->
  settings ctx -> pe_computedRingSize ctx = len unit -> len unit < 2 ^ 31 ->
  end_unit malloc_ok skip (outputs ctx) unit = Some out ->
  exists rb' g calls r, _processRing malloc malloc_ok ctx =
      Some (ctx <| pe_rb := Some rb' |> <| pe_largestRingFrame := g |> <| pe_calls := calls |>, r) /\
    ring_holds max rb' unit /\ map (fun o => (ex_rawBuffer o, ex_pes o)) calls = out.
Proof.
  intros (rb & E & H) [S1 S2 S3 S4 S5 S6] Hs Hl. pose proof (len_nonneg unit). unfold end_unit, _processRing. rewrite E. step.
  rewrite (ring_used _ _ _ H). step. rewrite i32_id by lia. destruct (Z.eqb_spec (len unit) 0) as [L0|L0].
  { intros [= <-]. exists rb, (pe_largestRingFrame ctx), (pe_calls ctx), (-1). split; [by destruct ctx|done]. }
  rewrite Hs, Z.eqb_refl. cbn [negb]. destruct (Z.ltb_spec (len unit) 16) as [|L16]; [done|].
  destruct (Hmalloc (len unit)) as (buf & -> & Lb); [lia|].
  destruct (ring_peek malloc _ _ _ buf H Lb) as (rb' & -> & H'). step. rewrite Z.eqb_refl. unfold process_unit.
  set (ctx1 := if _ <? _ then _ else _).
  assert (exists g, ctx1 = ctx <| pe_rb := Some rb' |> <| pe_largestRingFrame := g |>) as [g ->].
  { unfold ctx1. destruct (_ <? _); eexists; [reflexivity|by destruct ctx]. }
  set (ctx2 := ctx <| pe_rb := _ |> <| pe_largestRingFrame := g |>).
  assert (pe_skipDataExtraction ctx2 = skip /\ pe_cb ctx2 = true /\ pe_orderedOutput ctx2 = 0) as (-> & -> & ->) by done.
  destruct (ltn_pes_packet_parse malloc_ok _ _ skip) as [[[pes bs] bits]|]; step; [|done]. rewrite negb_involutive.
  intros [= <-]. rewrite andb_true_r. destruct ((bs_overrun bs =? 0) && negb (bits =? 0)).
  - destruct (Hmalloc (len unit)) as (raw & -> & Lr); [lia|]. step.
    rewrite rds_Some by lia. step. replace (take _ _) with unit by (rewrite drop_0, take_ge; [done|unfold len; lia]).
    rewrite wrs_Some by lia. step. replace (take _ _ ++ _ ++ _) with unit.
    2: { rewrite Z.add_0_l, Lr || idtac. rewrite take_0, drop_ge by (unfold len in *; lia). by rewrite app_nil_r. }
    eexists rb', g, _, _. split; [reflexivity|]. split; [done|]. cbn. unfold const. rewrite map_app. done.
  - step. exists rb', g, (pe_calls ctx), (if negb (bs_overrun bs =? 0) then -2 else 0). split; [by destruct ctx|done].
Qed.
Lemma settings_ext ctx ctx' : settings ctx ->
  (pe_pid ctx', pe_skipDataExtraction ctx', pe_cb ctx', pe_orderedOutput ctx', pe_preventWrites ctx') =
  (pe_pid ctx, pe_skipDataExtraction ctx, pe_cb ctx, pe_orderedOutput ctx, pe_preventWrites ctx) ->
  pe_pcrList ctx' <> [] -> settings ctx'.
Proof. intros [] [= E1 E2 E3 E4 E5] H. constructor; congruence. Qed.

Lemma payload_offset_ge pkt : bytes pkt -> 4 <= payload_offset pkt.
Proof.
  intros H. unfold payload_offset, ltntstools_adaption_field_length. pose proof (byte_at_is_byte pkt 4 H). unfold is_byte in *.
  destruct (_ =? 0); lia.
Qed.

Lemma updatePcrList_spec now ctx pcr pos : pe_pcrList ctx <> [] ->
  exists l, updatePcrList now ctx pcr pos = Some (ctx <| pe_pcrList := l |>) /\ l <> [].
Proof.
  intros H. unfold updatePcrList. destruct (reverse (pe_pcrList ctx)) as [|x l] eqn:E; [|by eexists].
  apply (f_equal reverse) in E. by rewrite reverse_involutive in E.
Qed.

Lemma append_packet_spec now ctx pkt unit unit' out : len pkt = 188 -> bytes pkt -> holds unit ctx -> settings ctx ->
  (exists s, pe_libstats ctx = Some s) -> assemble malloc_ok skip unit_max unit (outputs ctx) pkt = Some (unit', out) ->
  exists ctx', append_packet malloc malloc_ok now ctx pkt = Some ctx' /\ holds unit' ctx' /\ settings ctx' /\
    outputs ctx' = out /\ pe_libstats ctx' = pe_libstats ctx /\ pe_lastCCCounter ctx' = pe_lastCCCounter ctx.
Proof.
  intros Hl Hb [R A S B] Hset [st Hst]. pose proof (payload_offset_ge pkt Hb) as Hoff.
  assert (HP : ltntstools_payload_unit_start_indicator pkt = 0 \/ ltntstools_payload_unit_start_indicator pkt = 1)
    by (unfold ltntstools_payload_unit_start_indicator; destruct (_ =? 0); tauto).
  unfold assemble, append_packet. destruct (_ =? 2); [intros [= <- <-]; by exists ctx|].
  destruct HP as [-> | ->]; cbn [Z.eqb negb andb].
  - destruct unit as [u|]; rewrite A; cbn [Z.eqb].
    + step. rewrite A. cbn [Z.eqb]. destruct (append _ u pkt) as [u'|] eqn:E; step; [|done]. intros [= <- <-].
      destruct (append_payload_spec ctx u pkt u' Hl Hoff R S E) as (rb' & -> & H' & L'). step.
      eexists. split; [reflexivity|].
      split; [constructor; [by exists rb'|exact A|done|done]|]. split; [by apply (settings_ext ctx), Hset|done].
    + intros [= <- <-]. exists ctx. done.
  - assert (exists ctx1, (if pe_appending ctx =? 0 then clean_ring (ctx <| pe_appending := 1 |>) else Some ctx) = Some ctx1 /\
      (exists rb, pe_rb ctx1 = Some rb /\ ring_holds max rb (default [] unit)) /\ pe_appending ctx1 = 1 /\
      pe_computedRingSize ctx1 = len (default [] unit) /\ settings ctx1 /\ outputs ctx1 = outputs ctx /\
      pe_libstats ctx1 = pe_libstats ctx /\ pe_lastCCCounter ctx1 = pe_lastCCCounter ctx)
      as (ctx1 & -> & R1 & A1 & S1 & Hset1 & O1 & T1 & C1).
    { destruct unit as [u|]; rewrite A; cbn [Z.eqb]; [by exists ctx|].
      match goal with |- context [clean_ring ?c] => destruct (clean_ring_spec c [] R) as (rb' & -> & H') end.
      eexists. split; [reflexivity|].
      split; [by exists rb'|]. split; [done|]. split; [done|]. split; [by apply (settings_ext ctx), Hset|done]. }
    step. rewrite A1, <- O1. cbn [Z.eqb]. destruct (end_unit _ _ _ _) as [out1|] eqn:E; step; [|done].
    destruct (append _ [] pkt) as [u'|] eqn:Ea; step; [|done]. intros [= <- <-].
    assert (Hsz : len (default [] unit) < 2 ^ 31) by (unfold unit_max in B; lia).
    destruct (process_ring_spec ctx1 _ _ R1 Hset1 S1 Hsz E) as (rb2 & g & calls & r & -> & H2 & O2). step.
    match goal with |- context [clean_ring ?c] => set (ctx2 := c); assert (Hr2 : exists rb, pe_rb ctx2 = Some rb /\
      ring_holds max rb (default [] unit)) by (by exists rb2); destruct (clean_ring_spec ctx2 _ Hr2) as (rb3 & -> & H3) end. step.
    match goal with |- context [pe_libstats ?c] => set (ctx3 := c) end.
    replace (pe_libstats ctx3) with (Some st) by (rewrite <- Hst, <- T1; done).
    change (ltntstools_bitrate_calculator_query_stc (Some st)) with (Some (bc_stc (s_bc_ctx st))). step.
    change (pe_rb ctx3) with (Some rb3). step.
    destruct (updatePcrList_spec now ctx3 (bc_stc (s_bc_ctx st)) (rb_get_write_pos rb3)) as (l & -> & Hlne);
      [exact (se_pcrs _ Hset1)|]. step.
    destruct (append_payload_spec (ctx3 <| pe_pcrList := l |>) [] pkt u' Hl Hoff) as (rb4 & -> & H4 & L4);
      [by exists rb3|done|done|]. step. eexists. split; [reflexivity|].
    split; [constructor; [by exists rb4|exact A1|done|done]|].
    split; [by apply (settings_ext ctx1)|]. split; [done|]. by split.
Qed.

Lemma extractor_packet_spec E now st ctx pkt st' : env_wf t0 E -> len pkt = 188 -> bytes pkt -> len (as_seen st) < 2 ^ 58 ->
  extracts st ctx -> assembly_step malloc_ok pid skip unit_max st pkt = Some st' ->
  exists ctx', extractor_packet malloc malloc_ok E now ctx pkt = Some ctx' /\ extracts st' ctx'.
Proof.
  intros HE Hl Hb Hn [(s & Es & Hs) Hu He Ho Hset]. unfold assembly_step, extractor_packet.
  destruct (update_stats_spec t0 E ctx s _ pkt Es Hs) as (s' & v & -> & Hs'); [done|done|done|lia|]. step.
  set (ctx1 := ctx <| pe_libstats := _ |> <| pe_pusi_time_ms := v |>).
  change (pe_pid ctx1) with (pe_pid ctx). rewrite (se_pid _ Hset).
  assert (Hset1 : settings ctx1) by (apply (settings_ext ctx); [done|done|apply Hset]).
  assert (Hu1 : holds (as_unit st) ctx1) by (by destruct Hu; constructor).
  destruct (negb (ltntstools_pid pkt =? pid)).
  { intros [= <-]. exists ctx1. split; [done|]. constructor; [by exists s'|done|done|done|done]. }
  assert (Hc : ltntstools_pid_stats_stream_get_cc_errors (pe_libstats ctx1) = errors_of (as_seen st ++ [pkt])).
  { change (pe_libstats ctx1) with (Some s'). apply (counted_errors t0); [done|].
    rewrite len_app. change (len [pkt]) with 1. lia. }
  destruct (assemble _ _ _ _ _ _) as [[unit' out]|] eqn:Ea; step; [|done]. intros [= <-].
  set (unit := if as_errors st =? _ then _ else _) in *.
  assert (exists ctx2, check_loss ctx1 = Some ctx2 /\ holds unit ctx2 /\ settings ctx2 /\ outputs ctx2 = outputs ctx1 /\
    pe_libstats ctx2 = Some s' /\ pe_lastCCCounter ctx2 = errors_of (as_seen st ++ [pkt]))
    as (ctx2 & -> & Hu2 & Hset2 & O2 & T2 & C2).
  { unfold check_loss, unit. rewrite Hc. change (pe_lastCCCounter ctx1) with (pe_lastCCCounter ctx). rewrite He.
    destruct (as_errors st =? _).
    - step. eexists. split; [reflexivity|]. split; [by destruct Hu1; constructor|].
      split; [apply (settings_ext ctx1); [done|done|apply Hset1]|done].
    - match goal with |- context [clean_ring ?c] => destruct (clean_ring_spec c _ (ho_ring _ _ Hu1)) as (rb' & -> & H') end.
      step. eexists. split; [reflexivity|]. split; [constructor; [by exists rb'|done|done|apply Z.le_max_l]|].
      split; [apply (settings_ext ctx1); [done|done|apply Hset1]|done]. }
  step. destruct (append_packet_spec now ctx2 pkt unit unit' out Hl Hb Hu2 Hset2) as (ctx' & E' & Hu' & Hset' & O' & T' & C');
    [by exists s'|by rewrite O2; change (outputs ctx1) with (outputs ctx); rewrite Ho|].
  exists ctx'. split; [done|]. constructor; [exists s'; by rewrite T'|done|by rewrite C'|done|done].
Qed.
End Refinement.

(** ** Runs *)

(** A call of the write: the environment, the clock and the packets. *)
Definition extractor_call : Type := (Z -> env) * (Z -> Z) * list (list Z).

Section Runs.
Context (malloc : Z -> option (list Z)) (malloc_ok : Z -> bool) (Hmalloc : malloc_gives malloc).
Context (t0 : Z) (Ht0 : 0 <= t0 < 2 ^ 61).

Definition extractor_run (ctx : pes_extractor_s) (calls : list extractor_call) : option pes_extractor_s :=
  foldM (fun ctx '(E, now, ps) =>
           '(ctx, _) ← ltntstools_pes_extractor_write malloc malloc_ok E now ctx (concat ps) (len ps); Some ctx)
        calls ctx.

Definition sent (calls : list extractor_call) : list (list Z) := concat (map snd calls).

Definition call_ok (c : extractor_call) : Prop :=
  (forall i, env_wf t0 (c.1.1 i)) /\ packets c.2 /\ Forall bytes c.2.

Section Config.
Context (pid skip max : Z) (Hmax : max < 2 ^ 31).

Lemma assembly_seen m st pkt st' : assembly_step malloc_ok pid skip m st pkt = Some st' -> as_seen st' = as_seen st ++ [pkt].
Proof.
  unfold assembly_step. destruct (negb _); [by intros [= <-]|]. destruct (assemble _ _ _ _ _ _) as [[]|]; step; [|done].
  by intros [= <-].
Qed.

Lemma extractor_loop_spec E now post fuel : forall pre st ctx st', (forall i, env_wf t0 (E i)) ->
  packets (pre ++ post) -> Forall bytes post -> len (as_seen st) + len post < 2 ^ 58 ->
  extracts t0 pid skip max st ctx -> foldM (assembly_step malloc_ok pid skip (unit_max max)) post st = Some st' ->
  (length post < fuel)%nat ->
  exists ctx', extractor_loop malloc malloc_ok fuel E now (concat (pre ++ post)) (len (pre ++ post)) (len pre) ctx = Some ctx' /\
    extracts t0 pid skip max st' ctx'.
Proof.
  revert fuel. induction post as [|pkt post IH]; intros [|fuel] pre st ctx st' HE Hp Hb Hl Hx Hf Hfuel; try (cbn in Hfuel; lia).
  - injection Hf as <-. exists ctx. cbn [extractor_loop]. rewrite app_nil_r, Z.leb_refl. done.
  - cbn [extractor_loop foldM] in *. inversion Hb as [|? ? Hb1 Hb2]; subst.
    rewrite len_app, len_cons in *. pose proof (len_nonneg post). pose proof (len_nonneg pre).
    destruct (Z.leb_spec (len pre + (len post + 1)) (len pre)); [lia|].
    rewrite (proj1 (packet_at _ _ _ Hp)). step.
    destruct (assembly_step _ _ _ _ st pkt) as [st1|] eqn:E1; [|done]. cbn [mbind option_bind] in Hf.
    assert (Hpk : len pkt = 188) by (apply (proj1 (List.Forall_forall _ _) Hp), List.in_or_app; right; by left).
    destruct (extractor_packet_spec malloc malloc_ok Hmalloc t0 pid skip max Ht0 Hmax (E (len pre)) (now (len pre)) st ctx pkt st1)
      as (ctx1 & -> & Hx1); [done|done|done|lia|done|done|]. step.
    assert (Eq : pre ++ pkt :: post = (pre ++ [pkt]) ++ post) by by rewrite <- app_assoc.
    destruct (IH fuel (pre ++ [pkt]) st1 ctx1 st') as (ctx' & E2 & Hx2); [done|by rewrite <- Eq|done| |done|done|cbn in Hfuel; lia|].
    { rewrite (assembly_seen _ _ _ _ E1), len_app. change (len [pkt]) with 1. lia. }
    exists ctx'. split; [|done]. rewrite <- E2, <- Eq, !len_app, len_cons. reflexivity.
Qed.

Lemma extractor_run_spec calls : forall st ctx st', Forall call_ok calls -> len (as_seen st) + len (sent calls) < 2 ^ 58 ->
  extracts t0 pid skip max st ctx ->
  foldM (assembly_step malloc_ok pid skip (unit_max max)) (sent calls) st = Some st' ->
  exists ctx', extractor_run ctx calls = Some ctx' /\ extracts t0 pid skip max st' ctx'.
Proof.
  induction calls as [|[[E now] ps] calls IH]; intros st ctx st' Hok Hl Hx Hf; [injection Hf as <-; by exists ctx|].
  inversion Hok as [|? ? (HE & Hp & Hb) Hok']; subst. cbn [fst snd] in *. unfold sent in *. cbn [map concat snd] in *.
  rewrite foldM_app in Hf. destruct (foldM _ ps st) as [st1|] eqn:E1; [|done]. cbn [mbind option_bind] in Hf.
  rewrite len_app in Hl. pose proof (len_nonneg (concat (map snd calls))). pose proof (len_nonneg ps).
  destruct (extractor_loop_spec E now ps (S (Z.to_nat (len ps))) [] st ctx st1) as (ctx1 & E2 & Hx1);
    [done|done|done|lia|done|done|unfold len; lia|].
  cbn [extractor_run foldM]. unfold ltntstools_pes_extractor_write. rewrite (se_writes _ _ _ (xt_settings _ _ _ _ _ _ Hx)). cbn [Z.eqb negb].
  cbn [app] in E2. change (len []) with 0 in E2. rewrite E2. step. apply (IH st1); [done| |done|done].
  assert (as_seen st1 = as_seen st ++ ps) as ->; [|rewrite len_app; lia].
  clear - E1. revert st E1. induction ps as [|p ps IH]; intros st H; [injection H as <-; by rewrite app_nil_r|].
  cbn [foldM] in H. destruct (assembly_step _ _ _ _ st p) as [st2|] eqn:E; [|done]. rewrite (IH st2 H), (assembly_seen _ _ _ _ E).
  by rewrite <- app_assoc.
Qed.
End Config.

(** A new context, of which data extraction can be set. *)
Lemma extractor_alloc_spec items pcr_items tv now pid streamId skip size max :
  timeval_wf tv -> (0 < pcr_items)%nat -> 0 < size <= max -> max < 2 ^ 31 ->
  exists ctx, ltntstools_pes_extractor_alloc malloc (fun _ => true) items pcr_items tv now pid streamId true size max = Some ctx /\
    extracts t0 pid skip max assembly_start (ltntstools_pes_extractor_set_skip_data ctx skip).1.
Proof.
  intros Htv Hi Hs Hm. unfold ltntstools_pes_extractor_alloc.
  destruct (stats_alloc_spec t0 tv Htv) as (s & -> & Is & Qs & Cs); [lia|]. step. zdec.
  destruct (Hmalloc size) as (data & Hd & Ld); [lia|]. unfold rb_new. rewrite (u64_id size), (u64_id max) by lia. zdec. cbn [orb]. rewrite Hd. step.
  eexists. split; [reflexivity|]. constructor.
  - eexists. split; [reflexivity|]. constructor.
    + apply (stats_inv_ext _ _ _ s); [done|exact Is].
    + destruct Qs. by constructor.
    + assert (H : 0 <= s_packetCount s <= 0) by lia. exact H.
  - constructor; [|done|done|apply Z.le_max_l]. eexists. split; [reflexivity|]. constructor; [|done|done|done|done].
    split; [done|]. constructor; cbn; lia.
  - done.
  - done.
  - constructor; try done. cbn. destruct pcr_items; [lia|]. cbn. done.
Qed.

End Runs.

(** ** Properties *)

(** C3: The extractor implements the assembly of payload units: whatever the
    calls of the write that bring the packets, the callback gets, in order, for
    each payload unit of the PID that ends, exactly the bytes since its start,
    parsed; a unit interrupted by an error the statistics count is dropped, and
    packets before the first start are skipped.  (The ring may grow and never
    overflows, the calls are within 25 hours, no PCR PID is set; the assembly
    is undefined on units shorter than 16 bytes, where the code aborts, and
    where the parser reads outside the unit.) *)
Theorem extractor_assembles (malloc : Z -> option (list Z)) (malloc_ok : Z -> bool) (t0 : Z) (tv : timeval)
    (items pcr_items : nat) (now pid streamId skip size max : Z) (calls : list extractor_call) (st : assembly) :
  malloc_gives malloc -> 0 <= t0 < 2 ^ 61 -> timeval_wf tv -> (0 < pcr_items)%nat -> 0 < size <= max -> max < 2 ^ 31 ->
  Forall (call_ok t0) calls -> len (sent calls) < 2 ^ 58 ->
  foldM (assembly_step malloc_ok pid skip (max - 128 * 184)) (sent calls) assembly_start = Some st ->
  exists ctx ctx',
    ltntstools_pes_extractor_alloc malloc (fun _ => true) items pcr_items tv now pid streamId true size max = Some ctx /\
    extractor_run malloc malloc_ok (ltntstools_pes_extractor_set_skip_data ctx skip).1 calls = Some ctx' /\
    outputs ctx' = as_out st.
Proof.
  intros Hmal Ht Htv Hi Hs Hm Hok Hl Hst.
  destruct (extractor_alloc_spec malloc Hmal t0 Ht items pcr_items tv now pid streamId skip size max Htv Hi Hs Hm)
    as (ctx & E & Hx).
  destruct (extractor_run_spec malloc malloc_ok Hmal t0 Ht pid skip max Hm calls assembly_start _ st Hok Hl Hx Hst) as (ctx' & Er & Hx').
  exists ctx, ctx'. split; [done|]. split; [done|]. apply Hx'.
Qed.

(** A packet of PID 0x31 with the given payload. *)
Definition unit_packet (pusi cc : Z) (payload : list Z) : list Z :=
  [0x47; 0x40 * pusi; 0x31; 0x10 + cc] ++ payload ++ replicate (Z.to_nat (184 - len payload)) 7.

(** The header of a video packet of unbounded length with a PTS. *)
Definition unit_header : list Z := [0; 0; 1; 0xe0; 0; 0; 0x80; 0x80; 5; 0x21; 0; 5; 0xbf; 0x21].

(** Two packets of one unit and the start of the next, in two calls. *)
Definition unit_calls : list extractor_call :=
  [(fun _ => test_env 1000, fun _ => 1000, [unit_packet 0 1 []; unit_packet 1 2 unit_header]);
   (fun _ => test_env 1001, fun _ => 1001, [unit_packet 0 3 [9]; unit_packet 1 4 unit_header])].

Lemma extractor_assembles_witness : exists st ctx ctx',
  ltntstools_pes_extractor_alloc some_malloc (fun _ => true) 60 12 (Timeval 1000 0) 1000 0x31 0xe0 true 65536 1048576 = Some ctx /\
  extractor_run some_malloc (fun _ => true) (ltntstools_pes_extractor_set_skip_data ctx 0).1 unit_calls = Some ctx' /\
  outputs ctx' = as_out st /\
  map fst (as_out st) = [unit_header ++ replicate 170 7 ++ [9] ++ replicate 183 7] /\
  map (fun o => fld (snd o) PTS) (as_out st) = [90000].
Proof.
  destruct (foldM (assembly_step (fun _ => true) 0x31 0 (1048576 - 128 * 184)) (sent unit_calls) assembly_start) as [st|] eqn:E.
  2: { exfalso. vm_compute in E. discriminate E. }
  exists st.
  destruct (extractor_assembles some_malloc (fun _ => true) 1000 (Timeval 1000 0) 60 12 1000 0x31 0xe0 0 65536 1048576 unit_calls st)
    as (ctx & ctx' & H1 & H2 & H3).
  - intros n Hn. eexists. split; [reflexivity|]. apply len_replicate. lia.
  - lia.
  - split; cbn; lia.
  - lia.
  - lia.
  - lia.
  - repeat (apply Forall_cons_2; [split; [intros i; apply test_env_wf; lia|split; [|by repeat (apply Forall_cons_2; [by apply bytes_check|]); apply Forall_nil_2]]|]);
      [..|apply Forall_nil_2]; unfold packets; repeat (apply Forall_cons_2; [reflexivity|]); apply Forall_nil_2.
  - vm_compute. reflexivity.
  - exact E.
  - exists ctx, ctx'. split; [exact H1|]. split; [exact H2|]. split; [exact H3|].
    vm_compute in E. injection E as <-. split; reflexivity.
Defined.

(** A unit of 1 to 15 bytes aborts the process. *)
Lemma short_unit_aborts malloc malloc_ok max ctx rb l : pe_rb ctx = Some rb -> ring_holds max rb l -> 0 < len l < 16 ->
  _processRing malloc malloc_ok ctx = None.
Proof.
  intros E H Hl. unfold _processRing. rewrite E. step. rewrite (ring_used _ _ _ H). step. rewrite i32_id by lia. zdec.
  by destruct (negb _).
Qed.

(** A continuity error of PID 0x32 drops the unit of PID 0x31 it falls into. *)
Definition other_packet (cc : Z) : list Z := [0x47; 0; 0x32; 0x10 + cc] ++ replicate 184 7.
Lemma other_pid_error_drops_unit :
  as_out <$> foldM (assembly_step (fun _ => true) 0x31 0 (2 ^ 20))
    [unit_packet 1 2 unit_header; other_packet 1; other_packet 5; unit_packet 0 3 [9]; unit_packet 1 4 unit_header] assembly_start
  = Some [].
Proof. vm_compute. reflexivity. Qed.
