(* ===== verification/PesOrdered.v ===== *)
(** * The ordered output of the PES extractor (PesExtractor)

    With the ordered output a packet is cached and the oldest cached packet is
    delivered in its place; the release of the context delivers what is left.
    The list of items is a priority queue of fixed capacity, and it sorts every
    sequence in which no packet is overtaken by as many packets as it holds. *)
From Stdlib Require Import ZArith Lia Bool Sorting.Sorted.
From stdpp Require Import base numbers list option sorting.
From coqutil Require Import Datatypes.RecordSettersUsingExistingGetters.
From S2P Require Import Prelude Pes Clock Stats PesExtractor.

(** ** The specification: a bounded priority queue *)

Section Queue.
Context {A : Type}.

(** The queue: times and values, the oldest first. *)
Fixpoint pq_insert (x : Z * A) (q : list (Z * A)) : list (Z * A) :=
  match q with
  | [] => [x]
  | y :: q' => if x.1 <? y.1 then x :: q else y :: pq_insert x q'
  end.

(** A full queue first gives its oldest entry. *)
Definition pq_step (depth : nat) (st : list (Z * A) * list (Z * A)) (x : Z * A) : list (Z * A) * list (Z * A) :=
  let '(q, out) := st in
  if (length q <? depth)%nat then (pq_insert x q, out)
  else match q with [] => (q, out) | m :: q => (pq_insert x q, out ++ [m]) end.

Definition ascending (l : list (Z * A)) : Prop := StronglySorted (fun x y : Z * A => x.1 <= y.1) l.

(** How many entries of [l] are later than [x]. *)
Definition overtaking (x : Z * A) (l : list (Z * A)) : nat := length (List.filter (fun y : Z * A => x.1 <? y.1) l).

Lemma pq_insert_perm x q : Permutation (pq_insert x q) (x :: q).
Proof.
  induction q as [|y q IH]; [done|]. cbn. destruct (_ <? _); [done|]. rewrite IH. apply perm_swap.
Qed.

Lemma pq_insert_length x q : length (pq_insert x q) = S (length q).
Proof. by rewrite (Permutation_length (pq_insert_perm x q)). Qed.

Lemma pq_insert_forall (P : Z * A -> Prop) x q : P x -> Forall P q -> Forall P (pq_insert x q).
Proof. intros. rewrite pq_insert_perm. by constructor. Qed.

Lemma pq_insert_sorted x q : ascending q -> ascending (pq_insert x q).
Proof.
  unfold ascending. induction 1 as [|y q Hq IH Hy]; cbn; [by repeat constructor|].
  destruct (Z.ltb_spec x.1 y.1).
  - constructor; [by constructor|]. constructor; [lia|]. revert Hy. apply List.Forall_impl. intros z. lia.
  - constructor; [done|]. apply pq_insert_forall; [lia|done].
Qed.

Lemma ascending_app l k :
  ascending (l ++ k) <-> ascending l /\ ascending k /\ Forall (fun x => Forall (fun y => x.1 <= y.1) k) l.
Proof.
  unfold ascending. induction l as [|x l IH]; cbn; [split; [by repeat constructor|by intros (_ & ? & _)]|]. split.
  - intros H. inversion H as [|? ? H1 H2]; subst. apply IH in H1 as (I1 & I2 & I3). apply Forall_app in H2 as [H2 H3].
    split; [by constructor|]. split; [done|by constructor].
  - intros (H1 & H2 & H3). inversion H1; subst. inversion H3; subst. constructor; [by apply IH|by apply Forall_app].
Qed.

Lemma overtaking_perm x l k : Permutation l k -> overtaking x l = overtaking x k.
Proof.
  unfold overtaking. induction 1 as [|y l k _ IH|y z l|l k m _ IH1 _ IH2]; cbn; try done.
  - by destruct (_ <? _); cbn; rewrite IH.
  - by destruct (_ <? _), (_ <? _).
  - congruence.
Qed.

Lemma overtaking_all x l : Forall (fun y => x.1 < y.1) l -> overtaking x l = length l.
Proof.
  unfold overtaking. induction 1 as [|y l H _ IH]; [done|]. cbn. destruct (Z.ltb_spec x.1 y.1); [cbn; congruence|lia].
Qed.

Lemma overtaking_app x l k : overtaking x (l ++ k) = (overtaking x l + overtaking x k)%nat.
Proof. unfold overtaking. by rewrite List.filter_app, length_app. Qed.

(** The state of the queue after the entries [pre]. *)
Record sorting (depth : nat) (pre q out : list (Z * A)) : Prop := {
  so_perm : Permutation (out ++ q) pre;
  so_sorted : ascending (out ++ q);
  so_length : (length q <= depth)%nat;
  so_filling : (length q < depth)%nat -> out = []
}.

Lemma sorting_step depth pre q out x : (0 < depth)%nat -> sorting depth pre q out -> (overtaking x pre < depth)%nat ->
  let '(q', out') := pq_step depth (q, out) x in sorting depth (pre ++ [x]) q' out'.
Proof.
  intros Hd [Hp Hs Hl He] Hx. unfold pq_step. destruct (Nat.ltb_spec (length q) depth) as [L|L].
  { rewrite (He L) in *. cbn [app] in *. constructor; [|by apply pq_insert_sorted|rewrite pq_insert_length; lia|done].
    cbn. rewrite pq_insert_perm, Hp. apply Permutation_cons_append. }
  destruct q as [|m q]; [cbn in L; lia|]. cbn [length] in *.
  rewrite (cons_middle m out q), app_assoc in Hs. apply ascending_app in Hs as (S1 & S2 & S3).
  apply ascending_app in S1 as (S0 & _ & S1). apply Forall_app in S3 as [S3 S4]. inversion S4 as [|? ? Hq _]; subst.
  assert (Hm : m.1 <= x.1).
  { destruct (Z_le_dec m.1 x.1) as [|Hm]; [done|]. exfalso. rewrite <- (overtaking_perm x _ _ Hp), overtaking_app in Hx.
    rewrite (overtaking_all x (m :: q)) in Hx; [cbn in Hx; lia|].
    constructor; [lia|]. revert Hq. apply List.Forall_impl. intros y. lia. }
  constructor; [| |rewrite pq_insert_length; lia|rewrite pq_insert_length; lia].
  - rewrite <- app_assoc, pq_insert_perm, <- Hp, <- Permutation_cons_append. cbn [app].
    rewrite (perm_swap x m q). symmetry. apply Permutation_middle.
  - apply ascending_app. split; [|split; [by apply pq_insert_sorted|]].
    + apply ascending_app. split; [done|]. split; [by repeat constructor|done].
    + apply Forall_app. split; [|by constructor; [apply pq_insert_forall|]].
      rewrite Forall_forall in *. intros y Hy. specialize (S1 y Hy). inversion S1; subst.
      apply pq_insert_forall; [lia|by apply S3].
Qed.

(** The queue sorts what is not overtaken too often. *)
Lemma pq_sorts depth xs : (0 < depth)%nat ->
  (forall pre x post, xs = pre ++ x :: post -> (overtaking x pre < depth)%nat) ->
  let '(q, out) := foldl (pq_step depth) ([], []) xs in Permutation (out ++ q) xs /\ ascending (out ++ q).
Proof.
  intros Hd. assert (H : forall post pre q out, sorting depth pre q out ->
    (forall p x s, pre ++ post = p ++ x :: s -> (overtaking x p < depth)%nat) ->
    let '(q', out') := foldl (pq_step depth) (q, out) post in sorting depth (pre ++ post) q' out').
  { induction post as [|x post IH]; intros pre q out Hq Ho; [by rewrite app_nil_r|]. cbn [foldl].
    assert (H := sorting_step depth pre q out x Hd Hq (Ho pre x post eq_refl)).
    destruct (pq_step depth (q, out) x) as [q1 out1]. rewrite (cons_middle x pre post), app_assoc in *. by apply IH. }
  intros Ho. specialize (H xs [] [] []). cbn [app] in H. destruct (foldl _ _ xs) as [q out].
  destruct H as [H1 H2 _ _]; [|done|by split]. constructor; [done|constructor|cbn; lia|done].
Qed.
End Queue.

(** ** The list of items is the queue *)

Definition item (x : Z * extracted_pes) : item_s := {| it_correctedPTS := x.1; it_pes := Some x.2 |}.
Definition free_item : item_s := {| it_correctedPTS := 0; it_pes := None |}.

(** The cached packets, then the items without a packet. *)
Definition items (q : list (Z * extracted_pes)) (free : nat) : list item_s := map item q ++ replicate free free_item.

(** The first smallest item of a list: the head, or one after it. *)
Lemma oldest_head o before seen l : Forall (fun e => it_correctedPTS o <= it_correctedPTS e) l ->
  oldest_from o before seen l = (o, before ++ seen ++ l).
Proof.
  intros H. revert seen. induction H as [|e l He _ IH]; intros seen; cbn; [by rewrite app_nil_r|].
  destruct (Z.ltb_spec (it_correctedPTS e) (it_correctedPTS o)); [lia|]. rewrite IH. by rewrite <- app_assoc.
Qed.

Lemma oldest_later o seen l e l' : Forall (fun x => it_correctedPTS o <= it_correctedPTS x) l ->
  it_correctedPTS e < it_correctedPTS o -> Forall (fun x => it_correctedPTS e <= it_correctedPTS x) l' ->
  oldest_from o [] seen (l ++ e :: l') = (e, o :: seen ++ l ++ l').
Proof.
  intros H He Hl'. revert seen. induction H as [|x l Hx _ IH]; intros seen; cbn.
  - rewrite (proj2 (Z.ltb_lt _ _) He), oldest_head by done. done.
  - destruct (Z.ltb_spec (it_correctedPTS x) (it_correctedPTS o)); [lia|]. rewrite IH. by rewrite <- app_assoc.
Qed.

Lemma free_items_later t n : t <= 0 -> Forall (fun x => t <= it_correctedPTS x) (replicate n free_item).
Proof. intros H. by apply Forall_replicate. Qed.

(** While there is a free item it is the oldest. *)
Lemma oldest_free q free : Forall (fun x : Z * extracted_pes => 0 < x.1) q -> ascending q ->
  _list_find_oldest (items q (S free)) = Some (free_item, items q free).
Proof.
  unfold items. intros Hq Hs. destruct q as [|x q]; cbn.
  - by rewrite oldest_head by (apply free_items_later; done).
  - inversion Hq; subst. inversion Hs as [|? ? _ Hx]; subst. rewrite oldest_later; [done| |done|by apply free_items_later].
    apply Forall_map. revert Hx. apply List.Forall_impl. done.
Qed.

Lemma oldest_full x q : ascending (x :: q) -> _list_find_oldest (items (x :: q) 0) = Some (item x, items q 0).
Proof.
  unfold items. intros Hs. cbn. rewrite !app_nil_r. inversion Hs as [|? ? _ Hx]; subst. rewrite oldest_head; [done|].
  apply Forall_map. revert Hx. apply List.Forall_impl. done.
Qed.

Lemma list_insert_items x q free : 0 < x.1 -> _list_insert (items q free) (item x) = items (pq_insert x q) free.
Proof.
  intros Hx. unfold items. induction q as [|y q IH]; cbn.
  - destruct free; [done|]. cbn. destruct (Z.ltb_spec x.1 0); [lia|done].
  - destruct (_ <? _); [done|]. by rewrite IH.
Qed.

Record cached (depth : nat) (T : Z) (q out : list (Z * extracted_pes)) (ctx : pes_extractor_s) : Prop := {
  ca_items : pe_listOrdered ctx = items q (depth - length q);
  ca_calls : pe_calls ctx = map snd out;
  ca_times : Forall (fun x => 0 < x.1) q;
  ca_sorted : ascending q;
  ca_length : (length q <= depth)%nat;
  ca_clock : exists M, corrected (pe_correctedClock ctx) T M /\ 0 <= M < 2 ^ 62;
  ca_ordered : pe_orderedOutput ctx <> 0
}.

Lemma order_output_step depth T T' q out ctx pes : (0 < depth)%nat -> cached depth T q out ctx -> 0 <= T < 2 ^ 62 ->
  0 < T' < 2 ^ 62 -> - 2 ^ 32 <= T' - T < 2 ^ 32 -> fld (ex_pes pes) PTS = T' mod 2 ^ 33 ->
  exists ctx', order_output ctx pes = Some ctx' /\
    let '(q', out') := pq_step depth (q, out) (T', pes) in cached depth T' q' out' ctx'.
Proof.
  intros Hd [Hi Hc Ht Hs Hl (M & Hclk & HM) Hord] HT HT' Hstep Hp. unfold order_output, pq_step.
  assert (Hu : u64 (fld (ex_pes pes) PTS) mod 2 ^ 33 = T' mod 2 ^ 33).
  { rewrite Hp. pose proof (Z.mod_pos_bound T' (2 ^ 33) ltac:(lia)). rewrite u64_id by lia. by rewrite Z.mod_mod by lia. }
  destruct (corrected_step _ T M (fld (ex_pes pes) PTS) T' Hclk) as (clk & Eclk & Hclk'); [done|done|lia|done|done|].
  assert (Hw : i64 (ltntstools_corrected_clock_unwrapped (Some clk)) = T').
  { unfold ltntstools_corrected_clock_unwrapped. destruct Hclk' as [-> _ _ _ _ -> _]. cbn [Z.eqb]. rewrite u64_id, i64_id by lia. done. }
  destruct (Nat.ltb_spec (length q) depth) as [L|L].
  - rewrite Hi. replace (depth - length q)%nat with (S (depth - S (length q))) by lia.
    rewrite oldest_free by done. cbn [deliver_pes it_pes free_item]. rewrite Eclk. step. rewrite Hw.
    rewrite (list_insert_items (T', pes)) by (cbn; lia). eexists. split; [reflexivity|].
    constructor; cbn; unfold const; try done.
    + by rewrite pq_insert_length.
    + apply pq_insert_forall; [cbn; lia|done].
    + by apply pq_insert_sorted.
    + rewrite pq_insert_length. lia.
    + exists (Z.max M T'). split; [done|lia].
  - assert (length q = depth) as Lq by lia. rewrite Lq, Nat.sub_diag in Hi.
    destruct q as [|m q]; [cbn in L; lia|]. rewrite Hi, oldest_full by done. cbn [deliver_pes it_pes item].
    change (pe_correctedClock (callback ctx m.2)) with (pe_correctedClock ctx). rewrite Eclk. step. rewrite Hw.
    rewrite (list_insert_items (T', pes)) by (cbn; lia). eexists. split; [reflexivity|].
    clear Hw. inversion Ht; subst. inversion Hs; subst. cbn [length] in *.
    constructor; cbn; unfold const; try done.
    + rewrite pq_insert_length. by replace (S (length q) - S (length q))%nat with 0%nat by lia.
    + by rewrite Hc, map_app.
    + apply pq_insert_forall; [cbn; lia|done].
    + by apply pq_insert_sorted.
    + rewrite pq_insert_length. lia.
    + exists (Z.max M T'). split; [done|lia].
Qed.

(** The release delivers the free items, that is nothing, then the queue. *)
Lemma flush_spec q : forall free fuel ctx, Forall (fun x => 0 < x.1) q -> ascending q -> (length q + free < fuel)%nat ->
  exists ctx', flush_loop fuel (items q free) ctx = Some ctx' /\ pe_calls ctx' = pe_calls ctx ++ map snd q.
Proof.
  intros free. induction free as [|free IHf] in q |- *; intros fuel ctx Hq Hs Hl; (destruct fuel as [|fuel]; [lia|]); cbn [flush_loop].
  - revert fuel ctx Hl. induction q as [|x q IH]; intros fuel ctx Hl.
    { eexists. split; [reflexivity|]. cbn. by rewrite app_nil_r. }
    rewrite oldest_full by done. cbn [deliver_pes it_pes item]. inversion Hq; subst. inversion Hs; subst.
    destruct fuel as [|fuel]; [cbn in Hl; lia|]. cbn [flush_loop length] in *.
    destruct (IH ltac:(done) ltac:(done) fuel (callback ctx x.2)) as (ctx' & E & C); [lia|].
    exists ctx'. split; [exact E|]. rewrite C. cbn. unfold const. by rewrite <- app_assoc.
  - rewrite oldest_free by done. cbn [deliver_pes it_pes free_item]. apply IHf; [done|done|lia].
Qed.

Lemma ordered_run depth xs : forall T q out ctx, (0 < depth)%nat -> cached depth T q out ctx -> 0 <= T < 2 ^ 62 ->
  half_ring_steps T (map fst xs) -> Forall (fun x => 0 < x.1 /\ fld (ex_pes x.2) PTS = x.1 mod 2 ^ 33) xs ->
  exists ctx' T', foldM order_output (map snd xs) ctx = Some ctx' /\
    let '(q', out') := foldl (pq_step depth) (q, out) xs in cached depth T' q' out' ctx'.
Proof.
  induction xs as [|[T' pes] xs IH]; intros T q out ctx Hd Hc HT Hs Hx; [by exists ctx, T|].
  cbn [map fst snd half_ring_steps foldM foldl] in *. destruct Hs as (H1 & H2 & H3). inversion Hx as [|? ? [H4 H5] Hx']; subst.
  destruct (order_output_step depth T T' q out ctx pes Hd Hc HT) as (ctx1 & -> & Hc1); [cbn in H4; lia|done|done|]. step.
  destruct (pq_step depth (q, out) (T', pes)) as [q1 out1]. by apply (IH T').
Qed.

(** ** Properties *)

(** C28: The ordered output sorts: given packets whose time stamps are the low
    33 bits of times less than half the ring apart, none of which is overtaken
    by as many later ones as the list has items (60), the writes and the
    release together deliver_pes every packet exactly once, in ascending order of
    time, whatever the order of arrival. *)
Theorem ordered_output_sorts (malloc : Z -> option (list Z)) (stats_ok : nat -> bool) (n pcr_items : nat)
    (tv : timeval) (now pid streamId size max tf : Z) (ctx : pes_extractor_s) (xs : list (Z * extracted_pes)) :
  (0 < n)%nat -> tf <> 0 ->
  ltntstools_pes_extractor_alloc malloc stats_ok n pcr_items tv now pid streamId true size max = Some ctx ->
  half_ring_steps 0 (map fst xs) -> Forall (fun x => 0 < x.1 /\ fld (ex_pes x.2) PTS = x.1 mod 2 ^ 33) xs ->
  (forall pre x post, xs = pre ++ x :: post -> (overtaking x pre < n `min` 60)%nat) ->
  exists ctx1 ctx2 outs,
    foldM order_output (map snd xs) (ltntstools_pes_extractor_set_ordered_output ctx tf).1 = Some ctx1 /\
    ltntstools_pes_extractor_free ctx1 = Some ctx2 /\
    pe_calls ctx2 = map snd outs /\ Permutation outs xs /\ ascending outs.
Proof.
  intros Hn Htf Ha Hs Hx Ho. unfold ltntstools_pes_extractor_alloc in Ha.
  destruct (ltntstools_pid_stats_alloc stats_ok tv) as [st|]; cbn [mbind option_bind] in Ha; [|done].
  destruct (ltntstools_notification_register_callback _ _ _ _) as [st' ?]. injection Ha as <-.
  set (depth := (n `min` 60)%nat) in *. assert (Hd : (0 < depth)%nat) by lia.
  match goal with |- context [ltntstools_pes_extractor_set_ordered_output ?c tf] =>
    set (ctx0 := (ltntstools_pes_extractor_set_ordered_output c tf).1) end.
  assert (Hc0 : cached depth 0 [] [] ctx0).
  { constructor; try done; [|constructor|cbn; lia|].
    - cbn. unfold items. cbn. by rewrite Nat.sub_0_r.
    - exists 0. split; [by constructor|lia]. }
  destruct (ordered_run depth xs 0 [] [] ctx0 Hd Hc0 ltac:(lia) Hs Hx) as (ctx1 & T & E & Hc1).
  assert (Hq := pq_sorts depth xs Hd Ho). destruct (foldl (pq_step depth) ([], []) xs) as [q out].
  destruct Hq as [Hp Hasc]. destruct Hc1 as [Hi Hcalls Ht Hso Hl _ Hord].
  destruct (flush_spec q (depth - length q) (S (length (items q (depth - length q)))) (ctx1 <| pe_preventWrites := 0 |>) Ht Hso)
    as (ctx2 & E2 & C2). { unfold items. rewrite length_app, length_map, length_replicate. lia. }
  exists ctx1, ctx2, (out ++ q). split; [done|]. split; [|split; [|by split]].
  - unfold ltntstools_pes_extractor_free, _flushOrderedOutput.
    change (pe_orderedOutput (ctx1 <| pe_preventWrites := 0 |>)) with (pe_orderedOutput ctx1).
    change (pe_listOrdered (ctx1 <| pe_preventWrites := 0 |>)) with (pe_listOrdered ctx1).
    rewrite (proj2 (Z.eqb_neq _ _) Hord), Hi. exact E2.
  - rewrite C2, map_app, <- Hcalls. done.
Qed.

(** Four packets, the third of them overtaken by the two before it. *)
Definition test_pes (pts : Z) : extracted_pes :=
  {| ex_pes := pes_of [(PTS, pts)] []; ex_pcr := 0; ex_arrivalMs := 0; ex_rawBuffer := [] |}.
Definition test_arrivals : list (Z * extracted_pes) := map (fun t => (t, test_pes t)) [9000; 18000; 3000; 21000].

Lemma ordered_output_sorts_witness : exists ctx ctx1 ctx2,
  ltntstools_pes_extractor_alloc (fun n => None) (fun _ => true) 60 12 (Timeval 1000 0) 1000 0x31 0xe0 true 1 1 = Some ctx /\
  foldM order_output (map snd test_arrivals) (ltntstools_pes_extractor_set_ordered_output ctx 1).1 = Some ctx1 /\
  ltntstools_pes_extractor_free ctx1 = Some ctx2 /\
  map (fun p => fld (ex_pes p) PTS) (pe_calls ctx2) = [3000; 9000; 18000; 21000].
Proof.
  destruct (ltntstools_pes_extractor_alloc (fun n => None) (fun _ => true) 60 12 (Timeval 1000 0) 1000 0x31 0xe0 true 1 1)
    as [ctx|] eqn:E; [|exfalso; vm_compute in E; discriminate E].
  destruct (ordered_output_sorts (fun n => None) (fun _ => true) 60 12 (Timeval 1000 0) 1000 0x31 0xe0 1 1 1 ctx test_arrivals)
    as (ctx1 & ctx2 & outs & H1 & H2 & H3 & H4 & H5).
  - lia.
  - lia.
  - exact E.
  - cbn. lia.
  - repeat (apply Forall_cons_2; [split; [cbn; lia|reflexivity]|]). apply Forall_nil_2.
  - intros pre x post Hx. apply (Nat.le_lt_trans _ (length pre)).
    + apply List.filter_length_le.
    + apply (f_equal length) in Hx. rewrite length_app in Hx. cbn in Hx. lia.
  - exists ctx, ctx1, ctx2. split; [reflexivity|]. split; [exact H1|]. split; [exact H2|]. rewrite H3, map_map.
    assert (Ef : map fst outs = [3000; 9000; 18000; 21000]).
    { apply (StronglySorted_unique Z.le).
      - clear - H5. unfold ascending in H5. induction H5 as [|x l _ IH Hx]; [constructor|]. cbn. constructor; [done|].
        apply Forall_map. exact Hx.
      - repeat (constructor; [|repeat (apply Forall_cons_2; [lia|]); apply Forall_nil_2]). constructor.
      - rewrite H4. cbn. apply (Permutation_trans (perm_skip 9000 (perm_swap 3000 18000 [21000]))). apply perm_swap. }
    rewrite <- Ef. apply map_ext_Forall. rewrite H4. repeat (apply Forall_cons_2; [reflexivity|]). apply Forall_nil_2.
Defined.
