(* ===== verification/PesTransport.v ===== *)
(** * A PES packet through the library

    The packer (Pes), the packetizer (Packetizer) and the extractor
    (PesExtractor), composed: a packet that is packed, cut into transport
    packets and sent is the packet the callback gets. *)
From Stdlib Require Import ZArith Lia Bool.
From stdpp Require Import base numbers list option.
From coqutil Require Import Datatypes.RecordSettersUsingExistingGetters.
From S2P Require Import Prelude Ts Bits BitStream Pes Packetizer RingBuffer Clock Stats StatsSpec PesExtractor.

(** ** One packet of a stream *)

Lemma payload_packet_ok pid cc pusi p : ts_packet_ok pid cc pusi p ->
  payload_offset p <= 188 /\ drop (Z.to_nat (payload_offset p)) p = ts_payload p /\
  ltntstools_adaption_field_control p <> 2 /\ len (ts_payload p) <= 184.
Proof.
  intros [Hl _ _ _ _ _ Hc]. unfold payload_offset, ts_payload.
  assert (ltntstools_has_adaption p = if ltntstools_adaption_field_control p =? 3 then 1 else
    if ltntstools_adaption_field_control p =? 2 then 1 else 0) as ->.
  { unfold ltntstools_has_adaption, ltntstools_adaption_field_control. destruct (Z.eqb_spec (Z.land (Z.shiftr (byte_at p 3) 4) 3) 2) as [-> |];
      [done|]. cbn [orb]. by destruct (_ =? 3). }
  destruct Hc as [-> | [-> H]]; cbn [Z.eqb Pos.eqb]; (split; [lia|]; split; [done|]; split; [done|]); unfold len in *; rewrite length_drop; lia.
Qed.

Lemma append_ok pid cc pusi p max u : ts_packet_ok pid cc pusi p -> len u + len (ts_payload p) <= max ->
  append max u p = Some (u ++ ts_payload p).
Proof.
  intros Hp Hm. destruct (payload_packet_ok _ _ _ _ Hp) as (H1 & H2 & _). unfold append. rewrite H2.
  destruct (Z.ltb_spec 188 (payload_offset p)); [lia|]. rewrite len_app. destruct (Z.ltb_spec max (len u + len (ts_payload p))); [lia|done].
Qed.

(** The counters of a PID before a packet with the counter [cc]. *)
Definition expects (pid cc : Z) (seen : list (list Z)) : Prop :=
  let c := pid_counts pid (of_pid pid seen) in n_packets c = 0 \/ n_last c = (cc - 1) mod 16.

Lemma expected_packet pid cc pusi p seen : ts_packet_ok pid cc pusi p -> expects pid cc seen ->
  errors_of (seen ++ [p]) = errors_of seen /\ expects pid (cc + 1) (seen ++ [p]).
Proof.
  intros [Hl Hs _ _ Hpid Hcc Hc] He. unfold errors_of, cc_total, expects in *. cbv zeta in *.
  rewrite cc_total_from_snoc, total_snoc, Hpid. cbn [app].
  rewrite of_pid_snoc, decide_True, pid_counts_snoc by done. unfold count_packet at 1 2. cbn [n_packets n_last].
  set (c := pid_counts pid (of_pid pid seen)) in *. split.
  - assert (cc_error pid c p = 0) as ->.
    { unfold cc_error. destruct He as [-> | He]; [by rewrite andb_false_r|]. rewrite He. unfold ltntstools_isCCInError. rewrite Hcc.
      assert (((cc - 1) mod 16 =? cc mod 16) = false) as -> by (apply Z.eqb_neq; zlia).
      assert ((Z.land ((cc - 1) mod 16 + 1) 15 =? cc mod 16) = true) as ->.
      { apply Z.eqb_eq. rewrite (land_ones_mod _ 4) by done. change (2 ^ 4) with 16. zlia. }
      by rewrite !andb_false_r. }
    assert (unsynced p = 0) as ->; [|lia].
    unfold ltntstools_sync_present in Hs. unfold unsynced. by destruct (byte_at p 0 =? 71).
  - right. rewrite Hcc. f_equal. lia.
Qed.

(** ** The packets of one unit *)

Section Unit.
Context (malloc_ok : Z -> bool) (pid skip max : Z).

Lemma assembly_step_ok st p cc pusi : ts_packet_ok pid cc pusi p -> errors_of (as_seen st ++ [p]) = as_errors st ->
  assembly_step malloc_ok pid skip max st p =
    ('(u, out) ← (if negb pusi then match as_unit st with
                                    | None => Some (None, as_out st)
                                    | Some u => u ← append max u p; Some (Some u, as_out st)
                                    end
                  else out ← end_unit malloc_ok skip (as_out st) (default [] (as_unit st));
                       u ← append max [] p; Some (Some u, out));
     Some {| as_seen := as_seen st ++ [p]; as_errors := as_errors st; as_unit := u; as_out := out |}).
Proof.
  intros Hp Er. destruct (payload_packet_ok _ _ _ _ Hp) as (_ & _ & Hc & _). unfold assembly_step.
  rewrite (tp_pid _ _ _ _ Hp), Z.eqb_refl, Er, Z.eqb_refl. cbn [negb]. unfold assemble.
  rewrite (proj2 (Z.eqb_neq _ _) Hc), (tp_pusi _ _ _ _ Hp). by destruct pusi.
Qed.

Lemma unit_continues pkts : forall seen e u out cc, e = errors_of seen -> expects pid cc seen ->
  ts_stream_ok pid cc false pkts -> len u + len (concat (map ts_payload pkts)) <= max ->
  foldM (assembly_step malloc_ok pid skip max) pkts {| as_seen := seen; as_errors := e; as_unit := Some u; as_out := out |} =
    Some {| as_seen := seen ++ pkts; as_errors := e; as_unit := Some (u ++ concat (map ts_payload pkts)); as_out := out |} /\
  errors_of (seen ++ pkts) = e /\ expects pid (cc + len pkts) (seen ++ pkts).
Proof.
  induction pkts as [|p pkts IH]; intros seen e u out cc -> He Hs Hm.
  { cbn. rewrite !app_nil_r, len_nil, Z.add_0_r. done. }
  destruct Hs as [Hp Hs]. cbn [map concat foldM] in *. rewrite len_app in Hm. pose proof (len_nonneg (concat (map ts_payload pkts))).
  destruct (expected_packet _ _ _ _ _ Hp He) as [Er He'].
  rewrite (assembly_step_ok _ _ _ _ Hp) by done. cbn [negb as_seen as_errors as_unit as_out].
  rewrite (append_ok _ _ _ _ _ _ Hp) by lia. step.
  destruct (IH (seen ++ [p]) (errors_of seen) (u ++ ts_payload p) out (cc + 1)) as (E & E1 & E2); [by rewrite Er|done|done|rewrite len_app; lia|].
  rewrite E, <- !app_assoc. cbn [app]. rewrite <- app_assoc in E1, E2. rewrite len_cons. split; [done|]. split; [done|].
  by replace (cc + (len pkts + 1)) with (cc + 1 + len pkts) by lia.
Qed.

(** A unit and the packet that starts the next one. *)
Lemma unit_assembled pkts next cc : pkts <> [] -> ts_stream_ok pid cc true pkts ->
  ts_packet_ok pid (cc + len pkts) true next -> 184 <= max -> len (concat (map ts_payload pkts)) <= max ->
  foldM (assembly_step malloc_ok pid skip max) (pkts ++ [next]) assembly_start =
    (out ← end_unit malloc_ok skip [] (concat (map ts_payload pkts));
     Some {| as_seen := pkts ++ [next]; as_errors := 0; as_unit := Some (ts_payload next); as_out := out |}).
Proof.
  intros Hne Hs Hn Hm Hl. destruct pkts as [|p pkts]; [done|]. destruct Hs as [Hp Hs].
  cbn [app map concat foldM] in *. rewrite len_app in Hl. pose proof (len_nonneg (concat (map ts_payload pkts))).
  assert (He : expects pid cc []) by by left.
  destruct (expected_packet _ _ _ _ _ Hp He) as [Er He']. destruct (payload_packet_ok _ _ _ _ Hp) as (_ & _ & _ & Hlp).
  cbn [app] in Er. change (errors_of []) with 0 in Er.
  rewrite (assembly_step_ok _ _ _ _ Hp) by done. cbn [negb assembly_start as_seen as_errors as_unit as_out default from_option id].
  change (end_unit malloc_ok skip [] []) with (Some (@nil (list Z * ltn_pes_packet))). step. rewrite (append_ok _ _ _ _ _ _ Hp) by (rewrite len_nil; lia). step. cbn [app].
  rewrite foldM_app.
  destruct (unit_continues pkts [p] 0 (ts_payload p) [] (cc + 1)) as (E & E1 & E2); [done|exact He'|done|lia|].
  rewrite E. step. cbn [foldM app].
  replace (cc + len (p :: pkts)) with (cc + 1 + len pkts) in Hn by (rewrite len_cons; lia).
  destruct (expected_packet _ _ _ _ _ Hn E2) as [En _]. destruct (payload_packet_ok _ _ _ _ Hn) as (_ & _ & _ & Hln). cbn [app] in En, E1.
  rewrite (assembly_step_ok _ _ _ _ Hn) by (cbn [as_seen as_errors app]; congruence). cbn [negb as_seen as_errors as_unit as_out default from_option id].
  destruct (end_unit _ _ [] (ts_payload p ++ concat (map ts_payload pkts))) as [out|]; step; [|done].
  rewrite (append_ok _ _ _ _ _ _ Hn) by (rewrite len_nil; lia). step. done.
Qed.
End Unit.

(** ** The packed bytes as a unit *)

Lemma read_prefix buf n : 0 <= n <= len buf ->
  unread (klbs_read_set_buffer (take (Z.to_nat n) buf) n) = unread (klbs_read_set_buffer buf n).
Proof. intros H. unfold unread. cbn. by rewrite take_take, Nat.min_id. Qed.

Lemma end_packed malloc_ok q d buf n : header_ok q -> bytes d -> d <> [] -> len d < 2 ^ 31 -> malloc_ok (len d) = true ->
  fld q PES_packet_length = (header_bits q - 48) / 8 + len d \/ fld q PES_packet_length = 0 ->
  0 <= n <= len buf -> n < 2 ^ 31 -> bytes buf -> 8 * n = header_bits q + 8 * len d -> 16 <= n ->
  unread (klbs_read_set_buffer buf n) = fields_bits (header_fields q) ++ buf_bits d ->
  exists p', end_unit malloc_ok 0 [] (take (Z.to_nat n) buf) = Some [(take (Z.to_nat n) buf, p')] /\
    pdata p' = Some d /\ (forall f, In f (carried q) -> fld p' f = fld q f).
Proof.
  intros Hok Hbd Hne Hmx Hmal Hpl Hn Hn31 Hb H8 H16 Hun. rewrite <- (read_prefix buf n Hn) in Hun.
  set (unit := take (Z.to_nat n) buf) in *. assert (Lu : len unit = n) by (apply len_take; lia).
  assert (Hw : klbs_wf (klbs_read_set_buffer unit n)) by (apply set_buffer_wf; [by apply Forall_take|lia|lia]).
  destruct (parse_packed_spec malloc_ok q ltn_pes_packet_alloc d _ Hok Hw Hun Hbd Hmx Hmal Hpl) as (p' & bs' & Hp & Hd & _ & Hf & Ho).
  exists p'. split; [|done]. unfold end_unit. rewrite Lu. zdec. rewrite Hp. step. rewrite Ho; [|done|by left]. cbn [Z.eqb andb].
  destruct (Z.eqb_spec (header_bits q + 8 * len d) 0); [lia|done].
Qed.

(** ** Properties *)

(** C2: A PES packet with an optional header (a stream ID that has one), no ESCR
    and no extension, at least 16 bytes long, whose length field is exact or 0,
    survives the transport: packed, cut into transport packets with or without
    a PCR and written to an extractor in calls of any sizes, followed by the
    first packet of the next unit, it is the only packet the callback gets, with
    its payload, its start code, stream ID and length, the flags and the header
    length of its optional header, the time stamps that are flagged and the
    additional copy info.  The ES rate, the trick mode byte and the previous CRC
    are not carried ([Pes.carried]: the writer has no values for them). *)
Theorem pes_crosses_transport (malloc : Z -> option (list Z)) (malloc_ok : Z -> bool) (calloc : Z -> Z -> option (list Z))
    (t0 : Z) (tv : timeval) (items pcr_items : nat) (now streamId size max : Z)
    (q : ltn_pes_packet) (d buf : list Z) (pid cc pcr rai espi : Z) :
  malloc_gives malloc -> calloc_ok calloc -> 0 <= t0 < 2 ^ 61 -> timeval_wf tv -> (0 < pcr_items)%nat ->
  0 < size <= max -> max < 2 ^ 31 ->
  header_ok q -> pdata q = Some d -> fld q dataLengthBytes = len d -> bytes d -> d <> [] -> malloc_ok (len d) = true ->
  fld q PES_packet_length = (header_bits q - 48) / 8 + len d \/ fld q PES_packet_length = 0 ->
  bytes buf -> len buf < 2 ^ 30 -> header_bits q + 8 * len d <= 8 * len buf ->
  128 <= header_bits q + 8 * len d -> header_bits q + 8 * len d <= 8 * (max - 129 * 184) ->
  0 <= pid <= 0x1fff -> (pcr <> -1 -> 0 <= pcr < 2 ^ 63) ->
  exists bs pkts rest,
    ltn_pes_packet_pack q (klbs_write_set_buffer buf (len buf)) = Some (bs, header_bits q + 8 * len d) /\
    ltntstools_ts_packetizer_with_pcr calloc (Some (bs_buf bs)) (klbs_get_byte_count bs) false false 188 (Some cc) pid pcr rai espi
      = Some (0, Some (concat pkts ++ rest, len pkts, (cc + len pkts) mod 16)) /\
    ts_stream_ok pid cc true pkts /\
    forall next calls, ts_packet_ok pid (cc + len pkts) true next -> Forall (call_ok t0) calls ->
    sent calls = pkts ++ [next] -> len (sent calls) < 2 ^ 58 ->
    exists ctx ctx' p',
      ltntstools_pes_extractor_alloc malloc (fun _ => true) items pcr_items tv now pid streamId true size max = Some ctx /\
      extractor_run malloc malloc_ok (ltntstools_pes_extractor_set_skip_data ctx 0).1 calls = Some ctx' /\
      outputs ctx' = [(take (Z.to_nat (klbs_get_byte_count bs)) (bs_buf bs), p')] /\
      pdata p' = Some d /\ (forall f, In f (carried q) -> fld p' f = fld q f).
Proof.
  intros Hmal Hcal Ht0 Htv Hpi Hsz Hmax Hok Hd Hdl Hbd Hne Hmk Hpl Hbb Hbl Hroom H128 Hcap Hpid Hpcr. pose proof (len_nonneg d).
  destruct (header_bits_aligned q) as [Hhb _].
  destruct (packed_stream q d buf Hok Hd Hdl Hbd Hbb) as (bs & Hpk & Hw & H8 & _ & Hun); [lia|done|].
  assert (Hpos := wf_used bs Hw). assert (Hlen := wf_len bs Hw). set (n := klbs_get_byte_count bs) in *.
  assert (Hn : 0 <= n <= len (bs_buf bs)) by (unfold n, klbs_get_byte_count; lia).
  destruct (with_pcr_spec calloc (bs_buf bs) n cc pid pcr rai espi Hcal (wf_buf bs Hw)) as (pkts & rest & Hpz & Hso & Hco & _);
    [lia|lia|done|done|].
  exists bs, pkts, rest. split; [done|]. split; [done|]. split; [done|]. intros next calls Hnx Hcalls Hsent Hsl.
  assert (Lu : len (concat (map ts_payload pkts)) = n) by (rewrite Hco; apply len_take; lia).
  assert (Hpk1 : pkts <> []) by (intros ->; cbn in Lu; rewrite len_nil in Lu; lia).
  destruct (end_packed malloc_ok q d (bs_buf bs) n Hok Hbd Hne) as (p' & He & Hpd & Hf); try done; [lia|lia|apply (wf_buf bs Hw)|lia|].
  destruct (extractor_alloc_spec malloc Hmal t0 Ht0 items pcr_items tv now pid streamId 0 size max Htv Hpi Hsz Hmax) as (ctx & Ea & Hx).
  assert (Hfold := unit_assembled malloc_ok pid 0 (unit_max max) pkts next cc Hpk1 Hso Hnx).
  rewrite Hco, He in Hfold. cbn [mbind option_bind] in Hfold. rewrite <- Hsent in Hfold at 1.
  specialize (Hfold ltac:(unfold unit_max; lia) ltac:(unfold unit_max; rewrite <- Hco, Lu; lia)).
  destruct (extractor_run_spec malloc malloc_ok Hmal t0 Ht0 pid 0 max Hmax calls assembly_start _ _ Hcalls Hsl Hx Hfold) as (ctx' & Er & Hx').
  exists ctx, ctx', p'. split; [done|]. split; [exact Er|]. split; [|done]. apply Hx'.
Qed.

(** The sample packet of Pes, packed, and its transport packets. *)
Definition test_packed : klbs_context :=
  match ltn_pes_packet_pack sample_pes (klbs_write_set_buffer (replicate 64 0) 64) with Some (bs, _) => bs | None => klbs_init end.
Definition test_packets : list Z * Z * Z :=
  match ltntstools_ts_packetizer_with_pcr some_calloc (Some (bs_buf test_packed)) (klbs_get_byte_count test_packed)
          false false 188 (Some 14) 0x31 27000000 0 0 with
  | Some (_, Some r) => r
  | _ => ([], 0, 0)
  end.

Lemma pes_crosses_transport_witness : exists bs pkts rest calls ctx ctx' p',
  ltn_pes_packet_pack sample_pes (klbs_write_set_buffer (replicate 64 0) 64) = Some (bs, 224) /\
  ltntstools_ts_packetizer_with_pcr some_calloc (Some (bs_buf bs)) 28 false false 188 (Some 14) 0x31 27000000 0 0
    = Some (0, Some (concat pkts ++ rest, 1, 15)) /\
  sent calls = pkts ++ [unit_packet 1 15 unit_header] /\
  ltntstools_pes_extractor_alloc some_malloc (fun _ => true) 60 12 (Timeval 1000 0) 1000 0x31 0xe0 true 65536 1048576 = Some ctx /\
  extractor_run some_malloc (fun _ => true) (ltntstools_pes_extractor_set_skip_data ctx 0).1 calls = Some ctx' /\
  map snd (outputs ctx') = [p'] /\
  pdata p' = Some [1; 2; 3; 4; 255] /\ fld p' PTS = 8589934591 /\ fld p' DTS = 5000000000.
Proof.
  destruct (pes_crosses_transport some_malloc (fun _ => true) some_calloc 1000 (Timeval 1000 0) 60 12 1000 0xe0 65536 1048576
    sample_pes [1; 2; 3; 4; 255] (replicate 64 0) 0x31 14 27000000 0 0) as (bs & pkts & rest & H1 & H2 & H3 & H4).
  - intros n Hn. eexists. split; [reflexivity|]. apply len_replicate. lia.
  - intros n m Hn Hm. reflexivity.
  - lia.
  - split; cbn; lia.
  - lia.
  - lia.
  - lia.
  - constructor; try done; repeat (apply List.Forall_cons; [by vm_compute|]); apply List.Forall_nil.
  - reflexivity.
  - reflexivity.
  - by apply bytes_check.
  - done.
  - reflexivity.
  - left. reflexivity.
  - by apply bytes_check.
  - reflexivity.
  - by vm_compute.
  - by vm_compute.
  - by vm_compute.
  - lia.
  - lia.
  - change (len (replicate 64 0)) with 64 in H1.
    assert (bs = test_packed) as -> by (unfold test_packed; rewrite H1; reflexivity).
    assert (E : ltntstools_ts_packetizer_with_pcr some_calloc (Some (bs_buf test_packed)) (klbs_get_byte_count test_packed)
      false false 188 (Some 14) 0x31 27000000 0 0 = Some (0, Some test_packets)) by (vm_compute; reflexivity).
    assert (Et : test_packets = (concat pkts ++ rest, len pkts, (14 + len pkts) mod 16)) by congruence.
    assert (Hl : len pkts = 1) by (transitivity (test_packets.1.2); [by rewrite Et|vm_compute; reflexivity]).
    destruct pkts as [|p [|p2 pkts]]; [done| |rewrite !len_cons in Hl; pose proof (len_nonneg pkts); lia].
    destruct H3 as [Hp _]. assert (Hpt : p = take 188 test_packets.1.1).
    { rewrite Et. cbn [fst concat]. rewrite app_nil_r. change 188%nat with (Z.to_nat 188). rewrite <- (tp_len _ _ _ _ Hp). symmetry. apply take_len_app. }
    set (calls := [(fun _ : Z => test_env 1000, fun _ : Z => 1000, [p; unit_packet 1 15 unit_header])]).
    destruct (H4 (unit_packet 1 15 unit_header) calls) as (ctx & ctx' & p' & R1 & R2 & R3 & R4 & R5).
    + constructor; try (vm_compute; reflexivity). left. vm_compute. reflexivity.
    + apply Forall_cons_2; [|apply Forall_nil_2]. split; [intros i; apply test_env_wf; lia|]. split.
      * apply Forall_cons_2; [exact (tp_len _ _ _ _ Hp)|]. apply Forall_cons_2; [reflexivity|apply Forall_nil_2].
      * apply Forall_cons_2; [rewrite Hpt; by apply bytes_check|]. apply Forall_cons_2; [by apply bytes_check|apply Forall_nil_2].
    + reflexivity.
    + change (sent calls) with [p; unit_packet 1 15 unit_header]. rewrite !len_cons, len_nil. lia.
    + exists test_packed, [p], rest, calls, ctx, ctx', p'. split; [exact H1|].
      split; [rewrite Hl in H2; exact H2|]. split; [reflexivity|]. split; [exact R1|]. split; [exact R2|].
      split; [by rewrite R3|]. split; [exact R4|]. split; apply R5; vm_compute; tauto.
Defined.
