(* ===== verification/PcrSmoother.v ===== *)
(** * The PCR smoother: src/smoother-pcr.c, libltntools/smoother-pcr.h

    Packets written in bursts are cut, between the PCRs of one PID, into items
    of at most seven packets, queued with the wall-clock time at which their PCR
    is due, and handed to a callback by a thread.  The writer and the thread
    share the queues under a mutex: the critical sections and what lies between
    them are the steps of each.  The writer asks the environment, whenever it is
    about to take the mutex, which steps the thread makes first ([interfere]);
    the model therefore has every interleaving.  [sm_calls]: what the callback
    was given, oldest first. *)
From Stdlib Require Import ZArith Lia Bool String.
From stdpp Require Import base numbers list option.
From coqutil Require Import Datatypes.RecordSettersUsingExistingGetters.
From S2P Require Import Prelude Ts RingBuffer Clock Histogram.

Record smoother_pcr_item_s := {
  si_seqno : Z;
  si_buf : list Z;
  si_lengthBytes : Z;
  si_maxLengthBytes : Z;
  si_pcrComputed : Z;
  si_pcrIntervalPerPacketTicks : Z;
  si_pcrdata : pcr_position;
  si_received_TSuS : Z;
  si_scheduled_TSuS : Z;
  si_pcrDidReset : Z
}.

(** ** The contiguous buffer *)

Record byte_array_s := { ba_buf : list Z; ba_maxLengthBytes : Z; ba_lengthBytes : Z }.

Section ByteArray.
Context (malloc : Z -> option (list Z)).

Definition byte_array_init (lengthBytes : Z) : option byte_array_s :=
  buf ← malloc lengthBytes; Some {| ba_buf := buf; ba_maxLengthBytes := lengthBytes; ba_lengthBytes := 0 |}.

(** The length that is compared with the size of the buffer, as unsigned, is an
    int; a failed [realloc] makes the copy write through NULL. *)
Definition byte_array_append (ba : byte_array_s) (src : list Z) (lengthBytes : Z) : option (byte_array_s * Z) :=
  let newLengthBytes := i32 (u32 (ba_lengthBytes ba + lengthBytes)) in
  ba ← (if ba_maxLengthBytes ba <? u32 newLengthBytes
        then b ← realloc malloc (ba_buf ba) (u64 newLengthBytes);
             Some (ba <| ba_buf := b |> <| ba_maxLengthBytes := u32 newLengthBytes |>)
        else Some ba);
  s ← rds src 0 lengthBytes;
  b ← wrs (ba_buf ba) (ba_lengthBytes ba) s;
  Some (ba <| ba_buf := b |> <| ba_lengthBytes := u32 newLengthBytes |>, newLengthBytes).

Definition byte_array_trim (ba : byte_array_s) (lengthBytes : Z) : option byte_array_s :=
  if ba_lengthBytes ba <? lengthBytes then Some ba else
  s ← rds (ba_buf ba) lengthBytes (ba_lengthBytes ba - lengthBytes);
  b ← wrs (ba_buf ba) 0 s;
  Some (ba <| ba_buf := b |> <| ba_lengthBytes := ba_lengthBytes ba - lengthBytes |>).
End ByteArray.

Definition byte_array_addr (ba : byte_array_s) : list Z := ba_buf ba.

Definition byte_array_free (ba : byte_array_s) : byte_array_s :=
  ba <| ba_lengthBytes := 0 |> <| ba_maxLengthBytes := 0 |>.

(** ** The context *)

(** The arguments of a call of the callback, with the item's number. *)
Record output_call := { oc_seqno : Z; oc_buf : list Z; oc_pcrs : list pcr_position }.

Record smoother_pcr_context_s := {
  itemsFree : list smoother_pcr_item_s;
  qFreeCount : Z;
  itemsBusy : list smoother_pcr_item_s;
  qBusyCount : Z;
  totalUserBytes : Z;
  itemLengthBytes : Z;
  outputCb : bool;
  walltimeFirstPCRuS : Z;
  pcrFirst : Z;
  pcrTail : Z;
  pcrHead : Z;
  pcrPID : Z;
  blockingWrites : Z;
  verbose : Z;
  latencyuS : Z;
  bitsReceivedSinceLastPCR : Z;
  sm_seqno : Z;
  last_seqno : Z;
  ba : byte_array_s;
  didPcrReset : Z;
  lastPcrResetTime : Z;
  pcrIntervalPerPacketTicksLast : Z;
  pcrIntervalTicksLast : Z;
  measuredLatencyMs : Z;
  measuredLatencyMs_hwm : Z;
  histReceive : ltn_histogram_s;
  histTransmit : ltn_histogram_s;
  totalAllocFootprintBytes : Z;
  totalItemGrowth : Z;
  totalItems : Z;
  (* the thread's local list: items to output, items that were output *)
  th_loc : list smoother_pcr_item_s;
  th_spent : list smoother_pcr_item_s;
  (* the calls made; how often the writer met the thread *)
  sm_calls : list output_call;
  sm_turn : nat
}.

Record smoother_pcr_statistics := {
  st_measuredLatencyMs_hwm : Z;
  st_totalAllocFootprintBytes : Z;
  st_totalItemGrowth : Z;
  st_totalItems : Z;
  st_totalUserBytes : Z;
  st_qFreeCount : Z;
  st_qBusyCount : Z
}.

(** [s]: whether the second argument is given. *)
Definition smoother_pcr_get_statistics (ctx : option smoother_pcr_context_s) (s : bool)
    : option smoother_pcr_statistics * Z :=
  match ctx, s with
  | Some ctx, true =>
      (Some {| st_measuredLatencyMs_hwm := measuredLatencyMs_hwm ctx;
               st_totalAllocFootprintBytes := totalAllocFootprintBytes ctx;
               st_totalItemGrowth := totalItemGrowth ctx; st_totalItems := totalItems ctx;
               st_totalUserBytes := u64 (totalUserBytes ctx); st_qFreeCount := qFreeCount ctx;
               st_qBusyCount := qBusyCount ctx |}, 0)
  | _, _ => (None, -1)
  end.

Definition getScheduledOutputuS (ctx : smoother_pcr_context_s) (pcr pcrIntervalTicks : Z) : Z :=
  let ticks := ltntstools_scr_diff (pcrFirst ctx) pcr in
  let scheduledTimeuS := u64 (walltimeFirstPCRuS ctx + Z.quot ticks 27) in
  u64 (scheduledTimeuS + latencyuS ctx).

Definition makeTimestampFromTimeval (ts : timeval) : Z := u64 (i64 (tv_sec ts * 1000000) + tv_usec ts).

(** ** Items *)

Definition itemReset (item : smoother_pcr_item_s) : smoother_pcr_item_s :=
  item <| si_lengthBytes := 0 |> <| si_received_TSuS := 0 |> <| si_scheduled_TSuS := 0 |>
       <| si_pcrComputed := 0 |> <| si_pcrdata := ltntstools_pcr_position_reset |>.

(** How the two allocations of an item end. *)
Inductive alloc_result := AllocOk | NoItem | NoBuffer.

(** The outer [None]: without memory for the buffer the item is freed, its
    pointer cleared, and then written through. *)
Definition itemAlloc (r : alloc_result) (lengthBytes : Z) : option (option smoother_pcr_item_s) :=
  match r with
  | NoItem => Some None
  | NoBuffer => None
  | AllocOk =>
      Some (Some (itemReset {| si_seqno := 0; si_buf := replicate (Z.to_nat lengthBytes) 0; si_lengthBytes := 0;
        si_maxLengthBytes := u32 lengthBytes; si_pcrComputed := 0; si_pcrIntervalPerPacketTicks := 0;
        si_pcrdata := {| pos_pcr := 0; pos_offset := 0; pos_pid := 0 |};
        si_received_TSuS := 0; si_scheduled_TSuS := 0; si_pcrDidReset := 0 |}))
  end.

(** An item of the first allocations, and one of those that grow the list: the
    second does not enter the footprint. *)
Definition add_item (ctx : smoother_pcr_context_s) (r : alloc_result) (bytes : Z) : option smoother_pcr_context_s :=
  item ← itemAlloc r bytes;
  match item with
  | None => Some ctx
  | Some item =>
      Some (ctx <| itemsFree := itemsFree ctx ++ [item] |>
                <| qFreeCount := u64 (qFreeCount ctx + 1) |>
                <| totalItems := u64 (totalItems ctx + 1) |>
                <| totalAllocFootprintBytes := u64 (totalAllocFootprintBytes ctx + bytes) |>)
  end.

Definition grow_item (ctx : smoother_pcr_context_s) (r : alloc_result) : option smoother_pcr_context_s :=
  item ← itemAlloc r (itemLengthBytes ctx);
  match item with
  | None => Some ctx
  | Some item =>
      Some (ctx <| itemsFree := itemsFree ctx ++ [item] |>
                <| qFreeCount := u64 (qFreeCount ctx + 1) |>
                <| totalItemGrowth := u64 (totalItemGrowth ctx + 1) |>
                <| totalItems := u64 (totalItems ctx + 1) |>)
  end.

(** ** The thread *)

(** The items that are due, up to the first one that is not, leave the busy
    list.  [first]: no item has been looked at. *)
Fixpoint makeloc_loop (l : list smoother_pcr_item_s) (uS : Z) (first : bool) (ctx : smoother_pcr_context_s)
    (loclist : list smoother_pcr_item_s) : smoother_pcr_context_s * list smoother_pcr_item_s :=
  match l with
  | [] => (ctx, loclist)
  | e :: next =>
      let ctx := if first then ctx <| pcrHead := pos_pcr (si_pcrdata e) |> else ctx in
      if si_scheduled_TSuS e <=? u64 uS
      then makeloc_loop next uS false
             (ctx <| itemsBusy := next |> <| qBusyCount := u64 (qBusyCount ctx - 1) |>) (loclist ++ [e])
      else (ctx, loclist)
  end.

Definition _queueProcess_makeloc (ctx : smoother_pcr_context_s) (uS : Z)
    : smoother_pcr_context_s * list smoother_pcr_item_s :=
  makeloc_loop (itemsBusy ctx) uS true ctx [].

(** A PCR for each of the [n] packets of an item from packet [i] on. *)
Fixpoint item_pcrs (e : smoother_pcr_item_s) (i : Z) (n : nat) (array : list pcr_position)
    : option (list pcr_position) :=
  match n with
  | O => Some array
  | S n' =>
      step ← i64_ok (i * si_pcrIntervalPerPacketTicks e);
      pcr ← i64_ok (pos_pcr (si_pcrdata e) + step);
      pkt ← rds (si_buf e) (i * 188) 3;
      item_pcrs e (i + 1) n' (ltntstools_pcr_position_append array
        {| pos_pcr := pcr; pos_offset := i * 188; pos_pid := ltntstools_pid pkt |})
  end.

(** The body of the loop over the local list, with the update of the byte count
    under the mutex. *)
Definition output_item (ctx : smoother_pcr_context_s) (tv : timeval) (e : smoother_pcr_item_s)
    : option smoother_pcr_context_s :=
  if negb (outputCb ctx) then Some ctx else
  array ← item_pcrs e 0 (Z.to_nat (si_lengthBytes e / 188)) [];
  '(h, _) ← ltn_histogram_interval_update (histTransmit ctx) tv;
  buf ← rds (si_buf e) 0 (si_lengthBytes e);
  n ← i64_ok (totalUserBytes ctx - si_lengthBytes e);
  Some (ctx <| histTransmit := h |>
            <| sm_calls := sm_calls ctx ++ [{| oc_seqno := si_seqno e; oc_buf := buf; oc_pcrs := array |}] |>
            <| totalUserBytes := n |>
            <| last_seqno := si_seqno e |>).

(** The steps of smoother_pcr_threadFunc and _queueProcess: take the items due
    under the mutex, output the next of them, return them under the mutex. *)
Inductive thread_step := ThreadTake (uS : Z) | ThreadOutput (tv : timeval) | ThreadReturn.

Definition return_item (ctx : smoother_pcr_context_s) (e : smoother_pcr_item_s) : smoother_pcr_context_s :=
  ctx <| itemsFree := itemsFree ctx ++ [itemReset e] |> <| qFreeCount := u64 (qFreeCount ctx + 1) |>.

(** A step the thread is not at is not made. *)
Definition thread_do (ctx : smoother_pcr_context_s) (op : thread_step) : option smoother_pcr_context_s :=
  match op, th_loc ctx, th_spent ctx with
  | ThreadTake uS, [], [] =>
      let '(ctx, loclist) := _queueProcess_makeloc ctx uS in Some (ctx <| th_loc := loclist |>)
  | ThreadOutput tv, e :: l, _ =>
      ctx ← output_item ctx tv e;
      Some (ctx <| th_loc := l |> <| th_spent := th_spent ctx ++ [e] |>)
  | ThreadReturn, [], spent => Some ((foldl return_item ctx spent) <| th_spent := [] |>)
  | _, _, _ => Some ctx
  end.

(** ** The writer *)

Section Writer.
(** The C library's [malloc]; the thread's steps, the clocks and the outcomes of
    allocations by the number of the turn; how often a blocked writer looks. *)
Context (malloc : Z -> option (list Z)) (sched : nat -> list thread_step).
Context (gettimeofday : nat -> timeval) (time : nat -> Z) (alloc : nat -> nat -> alloc_result) (patience : nat).

(** Taking the mutex. *)
Definition interfere (ctx : smoother_pcr_context_s) : option smoother_pcr_context_s :=
  foldM thread_do (sched (sm_turn ctx)) (ctx <| sm_turn := S (sm_turn ctx) |>).

(** A blocking writer looks again until there is a free item. *)
Fixpoint wait_free (n : nat) (ctx : smoother_pcr_context_s) : option smoother_pcr_context_s :=
  match n with
  | O => None
  | S n' => ctx ← interfere ctx; match itemsFree ctx with [] => wait_free n' ctx | _ => Some ctx end
  end.

Definition grow_free (ctx : smoother_pcr_context_s) : option smoother_pcr_context_s :=
  match itemsFree ctx with
  | [] => foldM grow_item (map (alloc (sm_turn ctx)) (seq 0 64)) ctx
  | _ => Some ctx
  end.

(** The first critical section: an item leaves the free list.  The first entry
    of an empty list is the list head, which is no item: undefined. *)
Definition take_item (ctx : smoother_pcr_context_s) : option (smoother_pcr_context_s * smoother_pcr_item_s) :=
  ctx ← (if negb (blockingWrites ctx =? 0) then wait_free patience ctx else ctx ← interfere ctx; grow_free ctx);
  match itemsFree ctx with
  | [] => None
  | item :: l => Some (ctx <| itemsFree := l |> <| qFreeCount := u64 (qFreeCount ctx - 1) |>, item)
  end.

(** Between the critical sections: the item is filled and scheduled. *)
Definition fill_item (ctx : smoother_pcr_context_s) (item : smoother_pcr_item_s) (src : list Z) (lengthBytes : Z)
    (pcrValue pcrIntervalPerPacketTicks pcrIntervalTicks : Z)
    : option (smoother_pcr_context_s * smoother_pcr_item_s) :=
  let item := item <| si_received_TSuS := makeTimestampFromTimeval (gettimeofday (sm_turn ctx)) |>
                   <| si_pcrIntervalPerPacketTicks := pcrIntervalPerPacketTicks |> in
  '(ctx, item) ← (if si_maxLengthBytes item <? lengthBytes
                  then b ← realloc malloc (si_buf item) lengthBytes;
                       Some (ctx <| totalAllocFootprintBytes := u64 (totalAllocFootprintBytes ctx + lengthBytes) |>,
                             item <| si_buf := b |> <| si_maxLengthBytes := lengthBytes |>)
                  else Some (ctx, item));
  b ← wrs (si_buf item) 0 src;
  let item := item <| si_buf := b |> <| si_lengthBytes := lengthBytes |>
                   <| si_pcrdata := (si_pcrdata item) <| pos_pcr := pcrValue |> |> in
  let ctx := if pcrFirst ctx =? -1
             then ctx <| pcrFirst := pos_pcr (si_pcrdata item) |> <| walltimeFirstPCRuS := si_received_TSuS item |>
             else ctx in
  let ctx := ctx <| bitsReceivedSinceLastPCR := 0 |> <| pcrTail := pos_pcr (si_pcrdata item) |> in
  Some (ctx, item <| si_scheduled_TSuS := getScheduledOutputuS ctx pcrValue pcrIntervalTicks |>
                  <| si_pcrComputed := 0 |>).

(** An item that would go before the last one queued goes after it instead. *)
Definition order_item (ctx : smoother_pcr_context_s) (item : smoother_pcr_item_s) : option smoother_pcr_item_s :=
  match list.last (itemsBusy ctx) with
  | None => Some item
  | Some lst =>
      if si_scheduled_TSuS item <? si_scheduled_TSuS lst
      then t ← i64_ok (pcrIntervalPerPacketTicksLast ctx * (si_lengthBytes item / 188));
           Some (item <| si_scheduled_TSuS := u64 (si_scheduled_TSuS lst + Z.quot t 27) |>)
      else Some item
  end.

(** The second critical section: the item enters the busy list. *)
Definition queue_item (ctx : smoother_pcr_context_s) (item : smoother_pcr_item_s) : option smoother_pcr_context_s :=
  ctx ← interfere ctx;
  let item := item <| si_seqno := sm_seqno ctx |> in
  n ← i64_ok (totalUserBytes ctx + si_lengthBytes item);
  let ctx := ctx <| sm_seqno := u64 (sm_seqno ctx + 1) |> <| totalUserBytes := n |> in
  item ← order_item ctx item;
  Some (ctx <| itemsBusy := itemsBusy ctx ++ [item] |> <| qBusyCount := u64 (qBusyCount ctx + 1) |>).

Definition smoother_pcr_write2 (ctx : smoother_pcr_context_s) (src : list Z) (lengthBytes pcrValue
    pcrIntervalPerPacketTicks pcrIntervalTicks : Z) : option smoother_pcr_context_s :=
  '(ctx, item) ← take_item ctx;
  '(ctx, item) ← fill_item ctx item src lengthBytes pcrValue pcrIntervalPerPacketTicks pcrIntervalTicks;
  queue_item ctx item.

(** The PCRs of the preferred PID: how many, up to three, and the first two. *)
Fixpoint find_pcrs (pid : Z) (array : list pcr_position) (pcrCount : Z) (p0 p1 : option pcr_position)
    : Z * option pcr_position * option pcr_position :=
  match array with
  | [] => (pcrCount, p0, p1)
  | e :: l =>
      let '(pcrCount, p0, p1) :=
        if pos_pid e =? pid
        then (pcrCount + 1,
              if (pcrCount + 1 =? 1) && bool_decide (p0 = None) then Some e else p0,
              if (pcrCount + 1 =? 2) && bool_decide (p1 = None) then Some e else p1)
        else (pcrCount, p0, p1) in
      if pcrCount =? 3 then (pcrCount, p0, p1) else find_pcrs pid l pcrCount p0 p1
  end.

(** The loop that cuts an interval into items. *)
Fixpoint write_items (fuel : nat) (ctx : smoother_pcr_context_s) (base idx rem pcrValue ticks ival : Z)
    : option smoother_pcr_context_s :=
  match fuel with
  | O => None
  | S fuel' =>
      if rem <=? 0 then Some ctx else
      let cplen := if rem <? 7 * 188 then rem else 7 * 188 in
      src ← rds (ba_buf (ba ctx)) (base + idx) cplen;
      ctx ← smoother_pcr_write2 ctx src cplen pcrValue ticks ival;
      step ← i64_ok (ticks * (cplen / 188));
      write_items fuel' ctx base (idx + cplen) (rem - cplen) (ltntstools_scr_add pcrValue step) ticks ival
  end.

(** A jump of more than 15 seconds: the last interval is used instead. *)
Definition check_jump (ctx : smoother_pcr_context_s) (ticks ival : Z) : smoother_pcr_context_s * Z * Z :=
  if 15 * 27000000 <? ival
  then (ctx <| didPcrReset := 1 |>, pcrIntervalPerPacketTicksLast ctx, pcrIntervalTicksLast ctx)
  else (ctx, ticks, ival).

Definition measure_latency (ctx : smoother_pcr_context_s) : smoother_pcr_context_s :=
  let m := Z.quot (ltntstools_scr_diff (pcrHead ctx) (pcrTail ctx)) 27000 in
  ctx <| measuredLatencyMs := m |>
      <| measuredLatencyMs_hwm := if measuredLatencyMs_hwm ctx <? m then m else measuredLatencyMs_hwm ctx |>.

(** The end of a turn: the time base is reset every ten seconds, and after a
    jump. *)
Definition check_reset (ctx : smoother_pcr_context_s) (now ticks ival : Z) : smoother_pcr_context_s :=
  let ctx := if lastPcrResetTime ctx + 10 <=? now
             then ctx <| lastPcrResetTime := now |> <| didPcrReset := 1 |> else ctx in
  let ctx := ctx <| pcrIntervalPerPacketTicksLast := ticks |> <| pcrIntervalTicksLast := ival |> in
  if negb (didPcrReset ctx =? 0) then ctx <| pcrFirst := -1 |> <| didPcrReset := 0 |> else ctx.

(** One interval, from the PCR [p0] to the PCR [p1]. *)
Definition write_interval (ctx : smoother_pcr_context_s) (p0 p1 : pcr_position) : option smoother_pcr_context_s :=
  let byteCount := i32 (pos_offset p1 - pos_offset p0) in
  let pktCount := Z.quot byteCount 188 in
  let pcrIntervalTicks := ltntstools_scr_diff (pos_pcr p0) (pos_pcr p1) in
  if pktCount =? 0 then None else
  let '(ctx, ticks, ival) := check_jump ctx (Z.quot pcrIntervalTicks pktCount) pcrIntervalTicks in
  ctx ← interfere ctx;
  let ctx := measure_latency ctx in
  ctx ← write_items (S (Z.to_nat byteCount)) ctx (pos_offset p0) 0 byteCount (pos_pcr p0) ticks ival;
  b ← byte_array_trim (ba ctx) (u32 (pos_offset p1));
  Some (check_reset (ctx <| ba := b |>) (time (sm_turn ctx)) ticks ival).

Fixpoint write_loop (fuel : nat) (ctx : smoother_pcr_context_s) : option smoother_pcr_context_s :=
  match fuel with
  | O => None
  | S fuel' =>
      '(r, array) ← ltntstools_queryPCRs (ba_buf (ba ctx)) (i32 (ba_lengthBytes (ba ctx))) 0;
      if r <? 0 then Some ctx else
      let '(pcrCount, p0, p1) := find_pcrs (pcrPID ctx) array 0 None None in
      match p0, p1 with
      | Some p0, Some p1 =>
          ctx ← write_interval ctx p0 p1;
          if 2 <? pcrCount then write_loop fuel' ctx else Some ctx
      | _, _ => Some ctx
      end
  end.

Definition smoother_pcr_write (ctx : smoother_pcr_context_s) (src : list Z) (lengthBytes : Z) (ts : timeval)
    : option (smoother_pcr_context_s * Z) :=
  '(h, _) ← ltn_histogram_interval_update (histReceive ctx) ts;
  '(b, _) ← byte_array_append malloc (ba ctx) src (u32 lengthBytes);
  let ctx := ctx <| histReceive := h |> <| ba := b |> in
  ctx ← write_loop (S (Z.to_nat (ba_lengthBytes b))) ctx;
  Some (ctx, 0).

(** ** The other operations *)

Definition smoother_pcr_get_size (ctx : smoother_pcr_context_s) : option (smoother_pcr_context_s * Z) :=
  ctx ← interfere ctx;
  Some (ctx, if 0 <? totalUserBytes ctx then totalUserBytes ctx else 0).

Definition smoother_pcr_reset (ctx : smoother_pcr_context_s) : option smoother_pcr_context_s :=
  ctx ← interfere ctx;
  let ctx := ctx <| walltimeFirstPCRuS := 0 |> <| pcrFirst := -1 |> <| pcrHead := -1 |> <| pcrTail := -1 |>
                 <| totalUserBytes := 0 |> in
  Some (foldl (fun ctx e => return_item (ctx <| itemsBusy := tail (itemsBusy ctx) |>
                                             <| qBusyCount := u64 (qBusyCount ctx - 1) |>) e)
          ctx (itemsBusy ctx)).

(** [hist] and [now]: the histograms' memory and clock; [cb]: a callback is
    given.  The inner [None] is the return value -1. *)
Definition smoother_pcr_alloc (ctx_ok cb : bool) (hist : nat -> bool) (now : timeval) (itemsPerSecond bytes pid latencyMS : Z)
    : option (option smoother_pcr_context_s) :=
  if negb ctx_ok || (pid <=? 16) || (0x1ffe <? pid) || (latencyMS <? 50) || negb (bytes =? 7 * 188) then Some None else
  latency ← int_ok (latencyMS * 1000);
  b ← byte_array_init malloc (8000 * 188);
  hr ← ltn_histogram_alloc_video_defaults (hist 0%nat) (hist 1%nat) now (Some "receive arrival times"%string);
  ht ← ltn_histogram_alloc_video_defaults (hist 2%nat) (hist 3%nat) now (Some "transmit arrival times"%string);
  ctx ← foldM (fun ctx i => add_item ctx (alloc 0 i) bytes) (seq 0 (Z.to_nat itemsPerSecond))
    {| itemsFree := []; qFreeCount := 0; itemsBusy := []; qBusyCount := 0; totalUserBytes := 0;
       itemLengthBytes := bytes; outputCb := cb; walltimeFirstPCRuS := 0; pcrFirst := -1; pcrTail := -1;
       pcrHead := -1; pcrPID := pid; blockingWrites := 0; verbose := 0; latencyuS := latency;
       bitsReceivedSinceLastPCR := 0; sm_seqno := 0; last_seqno := 0; ba := b; didPcrReset := 0;
       lastPcrResetTime := time 0; pcrIntervalPerPacketTicksLast := 0; pcrIntervalTicksLast := 0;
       measuredLatencyMs := 0; measuredLatencyMs_hwm := 0; histReceive := hr; histTransmit := ht;
       totalAllocFootprintBytes := 0; totalItemGrowth := 0; totalItems := 0;
       th_loc := []; th_spent := []; sm_calls := []; sm_turn := 0 |};
  Some (Some ctx).
End Writer.

(** [None] of the context is NULL. *)
Definition smoother_pcr_set_blocking_writes (ctx : option smoother_pcr_context_s) (tf : Z)
    : option smoother_pcr_context_s * Z :=
  match ctx with
  | None => (None, -1)
  | Some ctx => (Some (ctx <| blockingWrites := u32 tf |>), 0)
  end.

Definition smoother_pcr_set_verbose (ctx : option smoother_pcr_context_s) (v : Z)
    : option smoother_pcr_context_s * Z :=
  match ctx with
  | None => (None, -1)
  | Some ctx => (Some (ctx <| verbose := u32 v |>), 0)
  end.
