(* ===== verification/PcrSmootherSpec.v ===== *)
(** * What the PCR smoother promises

    Nothing that enters at the first PCR is lost, repeated or reordered,
    whatever the thread and the clocks do between the writer's steps; items
    leave in the order of their schedule, when they are due. *)
From Stdlib Require Import ZArith Lia Bool String Sorting.Sorted.
From stdpp Require Import base numbers list option.
From coqutil Require Import Datatypes.RecordSettersUsingExistingGetters.
From S2P Require Import Prelude Ts RingBuffer Clock Histogram PcrSmoother.

(** ** Items and their contents *)

(** What the writer puts in one item: one to seven packets. *)
Definition piece_of (ps : list (list Z)) (b : list Z) : Prop :=
  b = concat ps /\ Forall ts_packet ps /\ 1 <= len ps <= 7.

Definition piece_ok (b : list Z) : Prop := exists ps, piece_of ps b.

Definition item_bytes (e : smoother_pcr_item_s) : list Z := take (Z.to_nat (si_lengthBytes e)) (si_buf e).

Definition item_room (e : smoother_pcr_item_s) : Prop := si_maxLengthBytes e = 1316 /\ len (si_buf e) = 1316.

Record item_full (e : smoother_pcr_item_s) : Prop := {
  if_room : item_room e;
  if_piece : piece_ok (item_bytes e);
  if_length : si_lengthBytes e = len (item_bytes e);
  if_pcr : Z.abs (pos_pcr (si_pcrdata e)) <= 2 ^ 62;
  if_ticks : Z.abs (si_pcrIntervalPerPacketTicks e) <= 2 ^ 43
}.

(** A call of the callback: whole packets, a position for each of them. *)
Definition call_ok (c : output_call) : Prop :=
  exists ps, piece_of ps (oc_buf c) /\
    map (fun p => (pos_offset p, pos_pid p)) (oc_pcrs c) = imap (fun i p => (188 * Z.of_nat i, ltntstools_pid p)) ps.

Lemma piece_len b : piece_ok b -> 188 <= len b <= 1316.
Proof. intros (ps & -> & H & Hn). rewrite len_concat_packets by done. lia. Qed.

Lemma piece_packets ps b : piece_of ps b -> len b / 188 = len ps.
Proof. intros (-> & H & _). rewrite len_concat_packets by done. rewrite Z.mul_comm. apply Z.div_mul. lia. Qed.

Lemma pid_of_prefix p r : len p = 188 -> ltntstools_pid (take 3 (p ++ r)) = ltntstools_pid p.
Proof.
  intros Hp. unfold ltntstools_pid. change 3%nat with (Z.to_nat 3). by rewrite !byte_at_take, !byte_at_prefix by lia.
Qed.

(** The positions of an item. *)
Lemma item_pcrs_spec e ps : item_full e -> piece_of ps (item_bytes e) -> forall n i arr,
  0 <= i -> i + Z.of_nat n = len ps ->
  exists l, item_pcrs e i n arr = Some (arr ++ l) /\
    map (fun p => (pos_offset p, pos_pid p)) l =
      imap (fun k p => (188 * (i + Z.of_nat k), ltntstools_pid p)) (drop (Z.to_nat i) ps).
Proof.
  intros [[Hm Hb] _ Hl Hp Ht] (Hps & Hok & Hn). induction n as [|n IH]; intros i arr Hi Hin.
  { exists []. cbn [item_pcrs]. rewrite app_nil_r. split; [done|]. rewrite drop_ge; [done|]. unfold len in *. lia. }
  cbn [item_pcrs]. destruct (lookup_lt_is_Some_2 ps (Z.to_nat i)) as [p Hpi]; [unfold len in *; lia|].
  rewrite i64_ok_Some by nia. step. rewrite i64_ok_Some by nia. step. rewrite rds_slice by lia. step.
  assert (ltntstools_pid (slice (si_buf e) (i * 188) 3) = ltntstools_pid p) as ->.
  { assert (Hc := take_drop_middle ps (Z.to_nat i) p Hpi).
    assert (Hd : si_buf e = concat (take (Z.to_nat i) ps) ++ p ++ concat (drop (S (Z.to_nat i)) ps) ++ drop (Z.to_nat (si_lengthBytes e)) (si_buf e)).
    { rewrite <- (take_drop (Z.to_nat (si_lengthBytes e)) (si_buf e)) at 1. fold (item_bytes e). rewrite Hps, <- Hc at 1.
      rewrite concat_app. cbn [concat]. by rewrite <- !app_assoc. }
    assert (Hlt : len (concat (take (Z.to_nat i) ps)) = i * 188).
    { rewrite len_concat_packets by (by apply Forall_take). rewrite len_take; unfold len in *; lia. }
    unfold slice. rewrite Hd, <- Hlt, drop_len_app. apply pid_of_prefix.
    rewrite List.Forall_forall in Hok. apply (Hok p). apply list_elem_of_In. by eapply list_elem_of_lookup_2. }
  destruct (IH (i + 1) (ltntstools_pcr_position_append arr
    {| pos_pcr := pos_pcr (si_pcrdata e) + i * si_pcrIntervalPerPacketTicks e; pos_offset := i * 188; pos_pid := ltntstools_pid p |}))
    as (l & E & Hl'); [lia|lia|].
  eexists. split; [rewrite E; unfold ltntstools_pcr_position_append; rewrite <- app_assoc; reflexivity|].
  cbn [map app pos_offset pos_pid]. rewrite Hl', (drop_S _ _ _ Hpi). cbn [imap].
  replace (Z.to_nat (i + 1)) with (S (Z.to_nat i)) by lia. f_equal; [f_equal; lia|].
  apply imap_ext. intros k q _. cbn. f_equal. lia.
Qed.

(** ** The invariant of the shared state

    [held]: the items the writer holds; [sent]: the pieces queued so far. *)

Definition queued_bytes (l : list smoother_pcr_item_s) : Z := len (concat (map item_bytes l)).

Record sm_inv (held : Z) (sent : list (list Z)) (ctx : smoother_pcr_context_s) : Prop := {
  iv_free : Forall item_room (itemsFree ctx);
  iv_busy : Forall item_full (itemsBusy ctx);
  iv_loc : Forall item_full (th_loc ctx);
  iv_spent : Forall item_room (th_spent ctx);
  iv_qfree : qFreeCount ctx = u64 (len (itemsFree ctx));
  iv_qbusy : qBusyCount ctx = u64 (len (itemsBusy ctx));
  iv_total : totalItems ctx =
    u64 (len (itemsFree ctx) + len (itemsBusy ctx) + len (th_loc ctx) + len (th_spent ctx) + held);
  iv_bytes : totalUserBytes ctx = queued_bytes (th_loc ctx ++ itemsBusy ctx);
  iv_sent : map oc_buf (sm_calls ctx) ++ map item_bytes (th_loc ctx ++ itemsBusy ctx) = sent;
  iv_seq : map oc_seqno (sm_calls ctx) ++ map si_seqno (th_loc ctx ++ itemsBusy ctx) = seqZ 0 (len sent);
  iv_next : sm_seqno ctx = len sent;
  iv_calls : Forall call_ok (sm_calls ctx);
  iv_hist : hist_wf (histTransmit ctx);
  iv_seen : seen (histTransmit ctx) = len (sm_calls ctx);
  iv_size : itemLengthBytes ctx = 1316;
  iv_cb : outputCb ctx = true
}.

(** The fields the invariant speaks of, and the fields only the writer changes. *)
Definition shared (ctx : smoother_pcr_context_s) :=
  (itemsFree ctx, itemsBusy ctx, th_loc ctx, th_spent ctx, (qFreeCount ctx, qBusyCount ctx, totalItems ctx, totalUserBytes ctx),
   (sm_calls ctx, sm_seqno ctx, histTransmit ctx, itemLengthBytes ctx, outputCb ctx)).

Definition writers (ctx : smoother_pcr_context_s) :=
  (ba ctx, pcrPID ctx, blockingWrites ctx, histReceive ctx, (pcrFirst ctx, walltimeFirstPCRuS ctx, latencyuS ctx, pcrTail ctx),
   (didPcrReset ctx, lastPcrResetTime ctx, pcrIntervalPerPacketTicksLast ctx, pcrIntervalTicksLast ctx)).

Lemma sm_inv_ext held sent c c' : shared c' = shared c -> sm_inv held sent c -> sm_inv held sent c'.
Proof. intros [= E1 E2 E3 E4 E5 E6 E7 E8 E9 E10 E11 E12 E13] []. constructor; congruence. Qed.

(** ** The thread *)

Definition due (uS : Z) (e : smoother_pcr_item_s) : bool := si_scheduled_TSuS e <=? u64 uS.

(** The list the thread takes is the longest prefix that is due. *)
Lemma makeloc_loop_spec uS l : forall first ctx loc, itemsBusy ctx = l -> qBusyCount ctx = u64 (len l) ->
  exists k h, makeloc_loop l uS first ctx loc =
    (ctx <| pcrHead := h |> <| itemsBusy := drop k l |> <| qBusyCount := u64 (len (drop k l)) |>, loc ++ take k l) /\
    Forall (fun e => due uS e = true) (take k l) /\
    match drop k l with [] => True | e :: _ => due uS e = false end.
Proof.
  induction l as [|e l IH]; intros first ctx loc Hb Hq; cbn [makeloc_loop].
  { exists 0%nat, (pcrHead ctx). cbn [take drop]. rewrite app_nil_r. split; [|by split]. f_equal. destruct ctx; cbn in *; subst; reflexivity. }
  fold (due uS e). destruct (due uS e) eqn:Ed.
  - assert (H : forall ctx', itemsBusy ctx' = e :: l -> qBusyCount ctx' = u64 (len (e :: l)) ->
      exists k h, makeloc_loop l uS false (ctx' <| itemsBusy := l |> <| qBusyCount := u64 (qBusyCount ctx' - 1) |>) (loc ++ [e]) =
        (ctx' <| pcrHead := h |> <| itemsBusy := drop k l |> <| qBusyCount := u64 (len (drop k l)) |>, (loc ++ [e]) ++ take k l) /\
      Forall (fun e => due uS e = true) (take k l) /\ match drop k l with [] => True | e :: _ => due uS e = false end).
    { intros ctx' Hb' Hq'.
      destruct (IH false (ctx' <| itemsBusy := l |> <| qBusyCount := u64 (qBusyCount ctx' - 1) |>) (loc ++ [e])) as (k & h & E & H).
      - done.
      - cbn. unfold const. rewrite Hq', len_cons. zlia.
      - exists k, h. rewrite E. split; [|done]. done. }
    destruct (H (if first then ctx <| pcrHead := pos_pcr (si_pcrdata e) |> else ctx)) as (k & h & E & H1 & H2); [by destruct first|by destruct first|].
    exists (S k), h. rewrite E. cbn [take drop]. rewrite <- app_assoc. split; [|split; [by constructor|done]].
    f_equal. by destruct first, ctx.
  - exists 0%nat, (if first then pos_pcr (si_pcrdata e) else pcrHead ctx). cbn [take drop]. rewrite app_nil_r.
    split; [|by split]. f_equal. destruct first, ctx; cbn in *; subst; reflexivity.
Qed.

Lemma return_items l : forall ctx, qFreeCount ctx = u64 (len (itemsFree ctx)) ->
  foldl return_item ctx l =
    ctx <| itemsFree := itemsFree ctx ++ map itemReset l |>
        <| qFreeCount := u64 (len (itemsFree ctx ++ map itemReset l)) |>.
Proof.
  induction l as [|e l IH]; intros ctx Hq; cbn [foldl map].
  { rewrite app_nil_r. destruct ctx; cbn in *; subst; reflexivity. }
  rewrite IH.
  - unfold return_item. cbn. unfold const. rewrite <- !app_assoc. by destruct ctx.
  - unfold return_item. cbn. unfold const. rewrite Hq, len_app. change (len [itemReset e]) with 1. zlia.
Qed.

Lemma item_full_room e : item_full e -> item_room e.
Proof. by intros []. Qed.

Lemma full_rooms l : Forall item_full l -> Forall item_room l.
Proof. apply List.Forall_impl, item_full_room. Qed.

Lemma queued_cons e l : queued_bytes (e :: l) = len (item_bytes e) + queued_bytes l.
Proof. unfold queued_bytes. cbn [map concat]. by rewrite len_app. Qed.

Lemma queued_app l k : queued_bytes (l ++ k) = queued_bytes l + queued_bytes k.
Proof. unfold queued_bytes. by rewrite map_app, concat_app, len_app. Qed.

Lemma queued_bound l : Forall item_full l -> 0 <= queued_bytes l <= 1316 * len l.
Proof.
  induction 1 as [|e l [_ Hp _ _ _] _ IH]; [by vm_compute|]. rewrite queued_cons, len_cons.
  apply piece_len in Hp. lia.
Qed.

Lemma piece_nonempty b : piece_ok b -> b <> [].
Proof. intros H ->. apply piece_len in H. rewrite len_nil in H. lia. Qed.

(** What is queued is part of what was sent. *)
Lemma sm_inv_sizes held sent ctx : sm_inv held sent ctx ->
  len (sm_calls ctx) + len (th_loc ctx) + len (itemsBusy ctx) = len sent.
Proof. intros H. rewrite <- (iv_sent _ _ _ H). unfold len. rewrite length_app, !length_map, length_app. lia. Qed.

Definition step_ok (op : thread_step) : Prop :=
  match op with ThreadOutput tv => timeval_wf tv | _ => True end.

Lemma output_item_spec held sent ctx tv e l : sm_inv held sent ctx -> th_loc ctx = e :: l -> len sent < 2 ^ 50 ->
  timeval_wf tv -> exists h array, output_item ctx tv e =
    Some (ctx <| histTransmit := h |>
              <| sm_calls := sm_calls ctx ++ [{| oc_seqno := si_seqno e; oc_buf := item_bytes e; oc_pcrs := array |}] |>
              <| totalUserBytes := queued_bytes (l ++ itemsBusy ctx) |> <| last_seqno := si_seqno e |>) /\
    call_ok {| oc_seqno := si_seqno e; oc_buf := item_bytes e; oc_pcrs := array |} /\
    hist_wf h /\ seen h = len (sm_calls ctx) + 1.
Proof.
  intros Hinv Hloc Hs Htv. assert (Hsz := sm_inv_sizes _ _ _ Hinv). destruct Hinv. rewrite Hloc in *.
  apply Forall_cons_1 in iv_loc0 as [He Hl]. assert (He' := He). destruct He' as [[Hm Hb] (ps & Hps) Hlen _ _].
  unfold output_item. rewrite iv_cb0. cbn [negb].
  assert (Hdiv : si_lengthBytes e / 188 = len ps) by (rewrite Hlen; by apply piece_packets).
  destruct (item_pcrs_spec e ps He Hps (Z.to_nat (si_lengthBytes e / 188)) 0 []) as (array & -> & Harr); [lia|rewrite Hdiv; pose proof (len_nonneg ps); lia|]. step.
  pose proof (len_nonneg (sm_calls ctx)). pose proof (len_nonneg (itemsBusy ctx)). rewrite len_cons in Hsz. pose proof (len_nonneg l).
  destruct (hist_step_spec (histTransmit ctx) (OpInterval tv) iv_hist0 Htv) as (h & Eh & Hh & Hseen); [lia|].
  cbn [hist_step] in Eh. destruct (ltn_histogram_interval_update _ _) as [[h' z]|]; [|done]. injection Eh as ->. step.
  assert (Hp := if_piece _ He). apply piece_len in Hp. rewrite rds_slice by lia. step.
  change (slice (si_buf e) 0 (si_lengthBytes e)) with (item_bytes e).
  cbn [app] in iv_bytes0. rewrite queued_cons in iv_bytes0.
  assert (Hq : 0 <= queued_bytes (l ++ itemsBusy ctx) <= 1316 * len (l ++ itemsBusy ctx)) by (apply queued_bound; by apply Forall_app).
  rewrite len_app in Hq. rewrite i64_ok_Some by lia. step. exists h, array. split.
  - by replace (totalUserBytes ctx - si_lengthBytes e) with (queued_bytes (l ++ itemsBusy ctx)) by lia.
  - split; [|split; [done|rewrite Hseen; cbn [recorded]; lia]]. exists ps. split; [done|]. exact Harr.
Qed.

Lemma thread_do_spec held sent ctx op : sm_inv held sent ctx -> len sent < 2 ^ 50 -> step_ok op ->
  exists ctx', thread_do ctx op = Some ctx' /\ sm_inv held sent ctx' /\ writers ctx' = writers ctx /\
    exists k, itemsBusy ctx' = drop k (itemsBusy ctx).
Proof.
  intros Hinv Hs Hop. assert (Hstay : exists ctx', Some ctx = Some ctx' /\ sm_inv held sent ctx' /\ writers ctx' = writers ctx /\
    exists k, itemsBusy ctx' = drop k (itemsBusy ctx)) by (exists ctx; split; [done|]; split; [done|]; split; [done|]; by exists 0%nat).
  unfold thread_do. destruct op as [uS|tv|]; destruct (th_loc ctx) as [|e l] eqn:El; try exact Hstay.
  - destruct (th_spent ctx) as [|e l] eqn:Ee; [|exact Hstay]. unfold _queueProcess_makeloc.
    destruct (makeloc_loop_spec uS (itemsBusy ctx) true ctx [] eq_refl (iv_qbusy _ _ _ Hinv)) as (k & h & -> & _).
    eexists. split; [reflexivity|]. split; [|split; [done|by exists k]].
    destruct Hinv. rewrite El in *. constructor; cbn; unfold const; try done.
    + by apply Forall_drop.
    + by apply Forall_take.
    + rewrite iv_total0, Ee. rewrite <- (take_drop k (itemsBusy ctx)) at 1. rewrite len_app. f_equal. llia.
    + by rewrite take_drop.
    + by rewrite take_drop.
    + by rewrite take_drop.
  - destruct (output_item_spec held sent ctx tv e l Hinv El Hs Hop) as (h & array & -> & Hc & Hh & Hseen). step.
    eexists. split; [reflexivity|]. split; [|split; [done|by exists 0%nat]].
    destruct Hinv. rewrite El in *. apply Forall_cons_1 in iv_loc0 as [He Hl].
    constructor; cbn; unfold const; try done.
    + apply Forall_app. split; [done|]. constructor; [by apply item_full_room|done].
    + rewrite iv_total0. f_equal. autorewrite with len. lia.
    + rewrite map_app, <- app_assoc. exact iv_sent0.
    + rewrite map_app, <- app_assoc. exact iv_seq0.
    + apply Forall_app. split; [done|]. by constructor.
    + rewrite len_app. exact Hseen.
  - eexists. split; [reflexivity|]. rewrite return_items by (by destruct Hinv).
    split; [|split; [done|by exists 0%nat]]. destruct Hinv. rewrite El in *. constructor; cbn; unfold const; try done.
    + apply Forall_app. split; [done|]. apply Forall_map. revert iv_spent0. apply List.Forall_impl. by intros e [? ?].
    + by rewrite El.
    + rewrite iv_total0, El, len_app. f_equal. unfold len. rewrite length_map. cbn [length]. lia.
    + by rewrite El.
    + by rewrite El.
    + by rewrite El.
Qed.

(** ** The PCRs of the preferred PID *)

Definition pcr_on (pid : Z) (p : list Z) : option Z := if ltntstools_pid p =? pid then ltntstools_scr p else None.
Definition without_pcr (pid : Z) (ps : list (list Z)) : Prop := Forall (fun p => pcr_on pid p = None) ps.

Lemma split_pcr pid P :
  without_pcr pid P \/ exists A a v C, P = A ++ a :: C /\ without_pcr pid A /\ pcr_on pid a = Some v.
Proof.
  induction P as [|p P IH]; [left; constructor|]. destruct (pcr_on pid p) as [v|] eqn:E.
  - right. exists [], p, v, P. by repeat constructor.
  - destruct IH as [H|(A & a & v & C & -> & H & Hv)]; [left; by constructor|right].
    exists (p :: A), a, v, C. split; [done|]. split; [by constructor|done].
Qed.

Lemma pcrs_of_app X Y : forall i addr, pcrs_of (X ++ Y) i addr = pcrs_of X i addr ++ pcrs_of Y (i + 188 * len X) addr.
Proof.
  induction X as [|p X IH]; intros i addr; cbn [pcrs_of app].
  { by rewrite Z.add_0_r. }
  rewrite IH, <- app_assoc. do 3 f_equal. rewrite len_cons. lia.
Qed.

(** The position of the PCR [v] in packet number [n]. *)
Definition position (pid n v : Z) : pcr_position := {| pos_pcr := v; pos_offset := 188 * n; pos_pid := pid |}.

Lemma find_pcrs_skip pid A l p0 p1 c : without_pcr pid A -> c < 3 -> forall i,
  find_pcrs pid (pcrs_of A i 0 ++ l) c p0 p1 = find_pcrs pid l c p0 p1.
Proof.
  intros HA Hc. induction HA as [|p A Hp HA IH]; intros i; cbn [pcrs_of app]; [done|].
  rewrite <- app_assoc. unfold pcr_on in Hp. destruct (ltntstools_scr p) as [v|] eqn:Ev; [|apply IH].
  cbn [app find_pcrs pos_pid]. destruct (ltntstools_pid p =? pid) eqn:E; [done|]. zdec. apply IH.
Qed.

Lemma pcrs_of_hit pid a v C n : pcr_on pid a = Some v -> 0 <= n < 2 ^ 50 ->
  pcrs_of (a :: C) (188 * n) 0 = position pid n v :: pcrs_of C (188 * (n + 1)) 0.
Proof.
  unfold pcr_on, position. destruct (Z.eqb_spec (ltntstools_pid a) pid) as [E|]; [|done]. intros Ev Hn. cbn [pcrs_of].
  rewrite Ev, E, Z.add_0_l, u64_id by lia. cbn [app]. f_equal. f_equal. lia.
Qed.

Lemma find_pcrs_none pid P : without_pcr pid P -> find_pcrs pid (pcrs_of P 0 0) 0 None None = (0, None, None).
Proof. intros H. rewrite <- (app_nil_r (pcrs_of P 0 0)). by rewrite find_pcrs_skip. Qed.

Lemma find_pcrs_one pid A a v C : without_pcr pid A -> pcr_on pid a = Some v -> without_pcr pid C -> len A < 2 ^ 50 ->
  find_pcrs pid (pcrs_of (A ++ a :: C) 0 0) 0 None None = (1, Some (position pid (len A) v), None).
Proof.
  intros HA Ha HC Hl. pose proof (len_nonneg A). rewrite pcrs_of_app, find_pcrs_skip, Z.add_0_l by done.
  rewrite (pcrs_of_hit pid a v) by done. cbn [find_pcrs position pos_pid]. rewrite Z.eqb_refl. cbn.
  rewrite <- (app_nil_r (pcrs_of C _ _)). by rewrite find_pcrs_skip.
Qed.

Lemma find_pcrs_two pid A a v B b w C : without_pcr pid A -> pcr_on pid a = Some v -> without_pcr pid B ->
  pcr_on pid b = Some w -> len A + len B < 2 ^ 49 ->
  exists n, find_pcrs pid (pcrs_of (A ++ a :: B ++ b :: C) 0 0) 0 None None =
    (n, Some (position pid (len A) v), Some (position pid (len A + 1 + len B) w)) /\
    ((2 <? n) = false -> without_pcr pid C).
Proof.
  intros HA Ha HB Hb Hl. pose proof (len_nonneg A). pose proof (len_nonneg B).
  rewrite pcrs_of_app, find_pcrs_skip, Z.add_0_l by done.
  rewrite (pcrs_of_hit pid a v) by (done || lia). cbn [find_pcrs position pos_pid]. rewrite Z.eqb_refl. cbn [bool_decide].
  change ((0 + 1 =? 1) && _) with true. change ((0 + 1 =? 2) && _) with false. change (0 + 1 =? 3) with false. cbv iota beta.
  rewrite pcrs_of_app, find_pcrs_skip by (done || lia).
  replace (188 * (len A + 1) + 188 * len B) with (188 * (len A + 1 + len B)) by lia.
  rewrite (pcrs_of_hit pid b w) by (done || lia). cbn [find_pcrs position pos_pid]. rewrite Z.eqb_refl.
  change ((0 + 1 + 1 =? 1) && _) with false. change ((0 + 1 + 1 =? 2) && _) with true. change (0 + 1 + 1 =? 3) with false. cbv iota beta.
  destruct (split_pcr pid C) as [HC|(C1 & c & x & C2 & -> & HC1 & Hc)].
  - exists 2. split; [|done]. rewrite <- (app_nil_r (pcrs_of C _ _)). by rewrite find_pcrs_skip.
  - exists 3. split; [|done]. rewrite pcrs_of_app, find_pcrs_skip by (done || lia).
    cbn [pcrs_of]. unfold pcr_on in Hc. destruct (ltntstools_pid c =? pid) eqn:E; [|done]. rewrite Hc. cbn [app find_pcrs pos_pid].
    by rewrite E.
Qed.

(** No step backwards, as [ltntstools_scr_diff] measures it, from a PCR to the
    next. *)
Fixpoint forward (l : list Z) : Prop :=
  match l with
  | x :: l' => match l' with [] => True | y :: _ => 0 <= ltntstools_scr_diff x y end /\ forward l'
  | [] => True
  end.

Definition pcr_values (pid : Z) (ps : list (list Z)) : list Z := omap (pcr_on pid) ps.

Lemma pcr_values_app pid X Y : pcr_values pid (X ++ Y) = pcr_values pid X ++ pcr_values pid Y.
Proof. apply omap_app. Qed.

Lemma pcr_values_without pid X : without_pcr pid X -> pcr_values pid X = [].
Proof. induction 1 as [|p X Hp _ IH]; [done|]. unfold pcr_values in *. cbn. by rewrite Hp. Qed.

Lemma pcr_values_cons pid a v C : pcr_on pid a = Some v -> pcr_values pid (a :: C) = v :: pcr_values pid C.
Proof. intros H. unfold pcr_values. cbn. by rewrite H. Qed.

Lemma forward_app l k : forward (l ++ k) -> forward k.
Proof. induction l as [|x l IH]; [done|]. cbn [app forward]. intros [_ H]. by apply IH. Qed.

(** ** The contents of the contiguous buffer *)

Record ba_holds (ps : list (list Z)) (b : byte_array_s) : Prop := {
  bh_bytes : exists rest, ba_buf b = concat ps ++ rest;
  bh_length : ba_lengthBytes b = 188 * len ps;
  bh_max : ba_maxLengthBytes b = len (ba_buf b);
  bh_packets : Forall ts_packet ps
}.

Lemma trim_spec X Y b : ba_holds (X ++ Y) b ->
  exists b', byte_array_trim b (188 * len X) = Some b' /\ ba_holds Y b'.
Proof.
  intros [[rest Hr] Hl Hm Hp]. apply Forall_app in Hp as [HX HY].
  pose proof (len_concat_packets X HX) as LX. pose proof (len_concat_packets Y HY) as LY.
  rewrite concat_app in Hr. rewrite len_app in Hl. pose proof (len_nonneg X). pose proof (len_nonneg Y). pose proof (len_nonneg rest).
  assert (Lb : len (ba_buf b) = 188 * len X + 188 * len Y + len rest) by (rewrite Hr, !len_app; lia).
  unfold byte_array_trim. rewrite Hl. zdec. rewrite rds_slice by lia. step.
  assert (slice (ba_buf b) (188 * len X) (188 * (len X + len Y) - 188 * len X) = concat Y) as ->.
  { unfold slice. rewrite Hr, <- LX, <- app_assoc, drop_len_app.
    replace (188 * (len X + len Y) - len (concat X)) with (len (concat Y)) by lia. apply take_len_app. }
  rewrite wrs_Some by lia. step. eexists. split; [reflexivity|].
  constructor; cbn; unfold const; [|lia| |done].
  - eexists. change (Z.to_nat 0) with 0%nat. rewrite take_0. reflexivity.
  - rewrite Hm. change (Z.to_nat 0) with 0%nat. rewrite take_0. cbn [app]. rewrite len_app, len_drop by lia. lia.
Qed.

Lemma append_spec malloc ps w b : malloc_gives malloc -> ba_holds ps b -> Forall ts_packet w ->
  len ps + len w < 2 ^ 23 ->
  exists b' n, byte_array_append malloc b (concat w) (len (concat w)) = Some (b', n) /\ ba_holds (ps ++ w) b'.
Proof.
  intros Hmal [[rest Hr] Hl Hm Hp] Hw Hn. pose proof (len_concat_packets ps Hp) as LP. pose proof (len_concat_packets w Hw) as LW.
  pose proof (len_nonneg ps). pose proof (len_nonneg w). pose proof (len_nonneg rest).
  unfold byte_array_append. rewrite Hl, LW, (u32_id (188 * len ps + _)) by lia. rewrite i32_id, u32_id by lia. cbv zeta.
  assert (exists b1 r1, (if ba_maxLengthBytes b <? 188 * len ps + 188 * len w
     then b0 ← realloc malloc (ba_buf b) (u64 (188 * len ps + 188 * len w));
          Some (b <| ba_buf := b0 |> <| ba_maxLengthBytes := 188 * len ps + 188 * len w |>)
     else Some b) = Some b1 /\ ba_buf b1 = concat ps ++ r1 /\ ba_maxLengthBytes b1 = len (ba_buf b1) /\
     ba_lengthBytes b1 = 188 * len ps /\ 188 * len w <= len r1) as (b1 & r1 & -> & B1 & B2 & B3 & B4).
  { rewrite Hm. case_if.
    - rewrite u64_id by lia. destruct (realloc_grows malloc (ba_buf b) (188 * len ps + 188 * len w) Hmal) as (l & -> & Hll); [lia|]. step.
      eexists _, (rest ++ l). split; [reflexivity|]. cbn. unfold const. split; [by rewrite Hr, <- app_assoc|].
      split; [done|]. split; [done|]. rewrite Hr, <- app_assoc, len_app in Hll. lia.
    - exists b, rest. split_and!; try done. rewrite Hr, len_app in E. lia. }
  step. rewrite rds_slice by lia. step. assert (slice (concat w) 0 (188 * len w) = concat w) as ->.
  { unfold slice. rewrite <- LW. change (Z.to_nat 0) with 0%nat. rewrite drop_0. unfold len. rewrite Nat2Z.id. apply firstn_all. }
  rewrite B3, B1. rewrite wrs_Some by (rewrite ?len_app; lia). step. eexists _, _. split; [reflexivity|].
  constructor; cbn; unfold const.
  - eexists. rewrite concat_app, <- LP, take_len_app, <- app_assoc. reflexivity.
  - rewrite len_app. lia.
  - rewrite B2, B1. rewrite !len_app, len_take, len_drop; rewrite ?len_app; lia.
  - by apply Forall_app.
Qed.

(** ** The schedule

    The busy list is in the order of its schedule, each item at most 2^28
    microseconds after the one before it or after a reading of the clock; the
    bounds exclude a wrap of the unsigned times. *)

Definition before (e e' : smoother_pcr_item_s) : Prop := si_scheduled_TSuS e <= si_scheduled_TSuS e'.

Record timed (n : Z) (ctx : smoother_pcr_context_s) : Prop := {
  tm_order : StronglySorted before (itemsBusy ctx);
  tm_bound : Forall (fun e => 0 <= si_scheduled_TSuS e <= 2 ^ 61 + n * 2 ^ 28) (itemsBusy ctx);
  tm_last : 0 <= pcrIntervalPerPacketTicksLast ctx <= 2 ^ 29;
  tm_wall : pcrFirst ctx = -1 \/ Z.abs (pcrFirst ctx) <= 2 ^ 49 /\ 2 ^ 47 <= walltimeFirstPCRuS ctx < 2 ^ 60;
  tm_latency : 0 <= latencyuS ctx < 2 ^ 31
}.

Lemma sorted_drop k l : StronglySorted before l -> StronglySorted before (drop k l).
Proof.
  revert l. induction k as [|k IH]; intros [|e l] H; try done. cbn [drop]. apply IH. by inversion H.
Qed.

Lemma sorted_snoc l e : StronglySorted before l -> match list.last l with Some e' => before e' e | None => True end ->
  StronglySorted before (l ++ [e]).
Proof.
  induction 1 as [|x l Hl IH Hx]; intros He; cbn [app].
  { constructor; [constructor|constructor]. }
  assert (Hlast : before (default x (list.last l)) e /\ (list.last l = None -> l = [])).
  { destruct l as [|y l]; [by split|]. rewrite list.last_cons_cons in He. destruct (list.last (y :: l)) eqn:El.
    - split; [exact He|done].
    - by apply list.last_None in El. }
  constructor.
  - apply IH. destruct (list.last l); [apply Hlast|done].
  - apply Forall_app. split; [done|]. apply Forall_singleton. destruct Hlast as [H1 H2].
    destruct (list.last l) as [y|] eqn:El; [|exact H1]. apply list.last_Some in El as [l' ->].
    apply Forall_app in Hx as [_ Hx]. apply Forall_cons_1 in Hx as [Hx _]. change (before y e) in H1. exact (Z.le_trans _ _ _ Hx H1).
Qed.

Lemma scr_diff_bound a b B : Z.abs a <= B -> Z.abs b <= B -> 2 ^ 42 <= B < 2 ^ 61 ->
  Z.abs (ltntstools_scr_diff a b) <= 2 * B.
Proof.
  intros. unfold ltntstools_scr_diff, MAX_SCR_VALUE. case_match; zbool.
  - rewrite (i64_id (2576980377600 - a)) by lia. rewrite i64_id by lia. lia.
  - rewrite i64_id by lia. lia.
Qed.

Lemma scr_add_bound v s B : Z.abs v + Z.abs s <= B -> 2 ^ 42 <= B < 2 ^ 63 -> Z.abs (ltntstools_scr_add v s) <= B.
Proof.
  intros. unfold ltntstools_scr_add, MAX_SCR_VALUE. rewrite i64_id by lia. cbv zeta. repeat case_if; lia.
Qed.

Lemma scheduled_bound ctx pcr ival : Z.abs (pcrFirst ctx) <= 2 ^ 49 -> Z.abs pcr <= 2 ^ 49 ->
  2 ^ 47 <= walltimeFirstPCRuS ctx < 2 ^ 60 -> 0 <= latencyuS ctx < 2 ^ 31 ->
  0 <= getScheduledOutputuS ctx pcr ival <= 2 ^ 61.
Proof.
  intros Hf Hp Hw Hl. unfold getScheduledOutputuS. cbv zeta.
  pose proof (scr_diff_bound (pcrFirst ctx) pcr (2 ^ 49) Hf Hp ltac:(lia)) as Hd.
  assert (Z.abs (Z.quot (ltntstools_scr_diff (pcrFirst ctx) pcr) 27) <= 2 ^ 46) by zlia.
  rewrite !u64_id; rewrite ?u64_id; lia.
Qed.

(** ** The writer's steps *)

Section Writer.
Context (malloc : Z -> option (list Z)) (sched : nat -> list thread_step).
Context (gettimeofday : nat -> timeval) (time : nat -> Z) (alloc : nat -> nat -> alloc_result) (patience : nat).
Context (Hmalloc : malloc_gives malloc) (Hsched : forall n, Forall step_ok (sched n)).
Context (Hclock : forall n, timeval_wf (gettimeofday n) /\ 2 ^ 47 <= tv_sec (gettimeofday n) * 1000000).
Context (Hbuf : forall n i, alloc n i <> NoBuffer) (Hitem : forall n, exists i, (i < 64)%nat /\ alloc n i = AllocOk).

(** The fields that cutting and queueing an interval leaves alone. *)
Definition steady (ctx : smoother_pcr_context_s) :=
  (ba ctx, pcrPID ctx, blockingWrites ctx, histReceive ctx, latencyuS ctx,
   (didPcrReset ctx, lastPcrResetTime ctx, pcrIntervalPerPacketTicksLast ctx, pcrIntervalTicksLast ctx)).

Lemma steady_writers c c' : writers c' = writers c -> steady c' = steady c.
Proof. unfold writers, steady. congruence. Qed.

Lemma interfere_spec held sent ctx : sm_inv held sent ctx -> len sent < 2 ^ 50 ->
  exists ctx', interfere sched ctx = Some ctx' /\ sm_inv held sent ctx' /\ writers ctx' = writers ctx /\
    exists k, itemsBusy ctx' = drop k (itemsBusy ctx).
Proof.
  intros Hinv Hs. unfold interfere.
  apply (foldM_inv (fun c => sm_inv held sent c /\ writers c = writers ctx /\ exists k, itemsBusy c = drop k (itemsBusy ctx))).
  - intros c op Hin (Hc & Hw & k & Hk). destruct (thread_do_spec held sent c op Hc Hs) as (c' & E & Hc' & Hw' & k' & Hk').
    { specialize (Hsched (sm_turn ctx)). rewrite List.Forall_forall in Hsched. apply Hsched. by apply list_elem_of_In. }
    exists c'. split; [done|]. split; [done|]. split; [by rewrite Hw'|]. exists (k + k')%nat. by rewrite Hk', Hk, drop_drop.
  - split; [by apply (sm_inv_ext _ _ ctx)|]. split; [done|]. by exists 0%nat.
Qed.

Lemma grow_items held sent rs : forall ctx, sm_inv held sent ctx -> Forall (fun r => r <> NoBuffer) rs ->
  exists ctx', foldM grow_item rs ctx = Some ctx' /\ sm_inv held sent ctx' /\ writers ctx' = writers ctx /\
    itemsBusy ctx' = itemsBusy ctx /\ (AllocOk ∈ rs \/ itemsFree ctx <> [] -> itemsFree ctx' <> []).
Proof.
  induction rs as [|r rs IH]; intros ctx Hinv Hrs.
  { exists ctx. repeat (split; [done|]). intros [H|H]; [by apply not_elem_of_nil in H|done]. }
  apply Forall_cons_1 in Hrs as [Hr Hrs]. cbn [foldM]. unfold grow_item at 2, itemAlloc. destruct r; [|step|done].
  - step. match goal with |- context [foldM _ _ ?c] => destruct (IH c) as (ctx' & -> & H1 & H2 & H3 & H4) end.
    + destruct Hinv. constructor; cbn; unfold const; try done.
      * apply Forall_app. split; [done|]. apply Forall_singleton. rewrite iv_size0. by vm_compute.
      * rewrite iv_qfree0, len_app. change (len [_]) with 1. zlia.
      * rewrite iv_total0, len_app. change (len [_]) with 1. zlia.
    + done.
    + exists ctx'. split; [done|]. split; [done|]. split; [by rewrite H2|]. split; [by rewrite H3|].
      intros _. apply H4. right. cbn. unfold const. by destruct (itemsFree ctx).
  - destruct (IH ctx Hinv Hrs) as (ctx' & -> & H1 & H2 & H3 & H4). exists ctx'. repeat (split; [done|]).
    intros [H|H]; apply H4; [left|by right]. by inversion H.
Qed.

Lemma take_item_spec sent ctx : sm_inv 0 sent ctx -> len sent < 2 ^ 50 -> blockingWrites ctx = 0 ->
  exists ctx' item, take_item sched alloc patience ctx = Some (ctx', item) /\ sm_inv 1 sent ctx' /\ item_room item /\
    writers ctx' = writers ctx /\ exists k, itemsBusy ctx' = drop k (itemsBusy ctx).
Proof.
  intros Hinv Hs Hb. unfold take_item. rewrite Hb. cbn [Z.eqb negb].
  destruct (interfere_spec 0 sent ctx Hinv Hs) as (c1 & -> & H1 & W1 & k & K1). step.
  assert (exists c2, grow_free alloc c1 = Some c2 /\ sm_inv 0 sent c2 /\ writers c2 = writers c1 /\
    itemsBusy c2 = itemsBusy c1 /\ itemsFree c2 <> []) as (c2 & -> & H2 & W2 & B2 & N2).
  { unfold grow_free. destruct (itemsFree c1) eqn:E; [|exists c1; rewrite E; split_and!; done].
    destruct (grow_items 0 sent (map (alloc (sm_turn c1)) (seq 0 64)) c1 H1) as (c2 & -> & ? & ? & ? & N); [|exists c2; repeat (split; [done|])].
    - apply Forall_map, List.Forall_forall. intros i _. apply Hbuf.
    - apply N. left. destruct (Hitem (sm_turn c1)) as (i & Hi & Ha). rewrite <- Ha. apply list_elem_of_In, in_map, in_seq. lia. }
  step. destruct (itemsFree c2) as [|item l] eqn:E; [done|]. eexists _, item. split; [reflexivity|].
  destruct H2. rewrite E in *. apply Forall_cons_1 in iv_free0 as [Hi Hl]. split; [|split; [done|split; [cbn; by rewrite <- W1, <- W2|exists k; cbn; unfold const; by rewrite B2]]].
  constructor; cbn; unfold const; try done.
  - rewrite iv_qfree0, len_cons. zlia.
  - rewrite iv_total0, len_cons. f_equal. lia.
Qed.

(** The filled item holds the piece, scheduled by the clock of the new state. *)
Lemma fill_item_spec held sent ctx item src pcr ticks ival : sm_inv held sent ctx -> item_room item -> piece_ok src ->
  Z.abs pcr <= 2 ^ 62 -> Z.abs ticks <= 2 ^ 43 ->
  exists ctx' item', fill_item malloc gettimeofday ctx item src (len src) pcr ticks ival = Some (ctx', item') /\
    sm_inv held sent ctx' /\ steady ctx' = steady ctx /\ itemsBusy ctx' = itemsBusy ctx /\
    item_full item' /\ item_bytes item' = src /\ si_scheduled_TSuS item' = getScheduledOutputuS ctx' pcr ival /\
    (pcrFirst ctx', walltimeFirstPCRuS ctx') =
      (if pcrFirst ctx =? -1 then (pcr, makeTimestampFromTimeval (gettimeofday (sm_turn ctx))) else (pcrFirst ctx, walltimeFirstPCRuS ctx)).
Proof.
  intros Hinv [Hm Hb] Hsrc Hp Ht. assert (Hl := piece_len _ Hsrc). unfold fill_item. cbv zeta.
  change (si_maxLengthBytes (item <| si_received_TSuS := _ |> <| si_pcrIntervalPerPacketTicks := _ |>)) with (si_maxLengthBytes item).
  rewrite Hm. zdec. step.
  match goal with |- context [si_buf (item <| si_received_TSuS := ?a |> <| si_pcrIntervalPerPacketTicks := ?b |>)] =>
    change (si_buf (item <| si_received_TSuS := a |> <| si_pcrIntervalPerPacketTicks := b |>)) with (si_buf item) end.
  rewrite wrs_Some by lia. step. rewrite Z.add_0_l. change (take (Z.to_nat 0) (si_buf item)) with (@nil Z). cbn [app].
  assert (Hbl : len (src ++ drop (Z.to_nat (len src)) (si_buf item)) = 1316) by (rewrite len_app, len_drop by lia; lia).
  assert (Hbt : take (Z.to_nat (len src)) (src ++ drop (Z.to_nat (len src)) (si_buf item)) = src) by apply take_len_app.
  destruct (pcrFirst ctx =? -1); eexists _, _; (split; [reflexivity|]);
    (split; [by apply (sm_inv_ext _ _ ctx)|]; split; [done|]; split; [done|]; split; [|split; [exact Hbt|split; [done|done]]]).
  - constructor; cbn; unfold const; try done; unfold item_bytes; cbn; unfold const; by rewrite ?Hbt.
  - constructor; cbn; unfold const; try done; unfold item_bytes; cbn; unfold const; by rewrite ?Hbt.
Qed.

Lemma order_item_spec ctx item : Z.abs (pcrIntervalPerPacketTicksLast ctx) <= 2 ^ 43 -> 0 <= si_lengthBytes item <= 1316 ->
  exists t, order_item ctx item = Some (item <| si_scheduled_TSuS := t |>) /\
    match list.last (itemsBusy ctx) with
    | Some lst =>
        if si_scheduled_TSuS item <? si_scheduled_TSuS lst
        then t = u64 (si_scheduled_TSuS lst + Z.quot (pcrIntervalPerPacketTicksLast ctx * (si_lengthBytes item / 188)) 27)
        else t = si_scheduled_TSuS item
    | None => t = si_scheduled_TSuS item
    end.
Proof.
  intros Ht Hl. unfold order_item. assert (Hsame : Some item = Some (item <| si_scheduled_TSuS := si_scheduled_TSuS item |>)) by (by destruct item).
  destruct (list.last (itemsBusy ctx)) as [lst|]; [|by exists (si_scheduled_TSuS item)].
  case_if; [|by exists (si_scheduled_TSuS item)].
  assert (0 <= si_lengthBytes item / 188 <= 7) by zlia. rewrite i64_ok_Some by nia. step. by eexists.
Qed.

(** The state in which an item is queued, and its place in the schedule. *)
Lemma queue_item_spec sent ctx item : sm_inv 1 sent ctx -> len sent + 1 < 2 ^ 50 -> item_full item ->
  Z.abs (pcrIntervalPerPacketTicksLast ctx) <= 2 ^ 43 ->
  exists c1 t ctx', interfere sched ctx = Some c1 /\ queue_item sched ctx item = Some ctx' /\
    sm_inv 0 (sent ++ [item_bytes item]) ctx' /\ writers ctx' = writers ctx /\
    (exists k, itemsBusy c1 = drop k (itemsBusy ctx)) /\
    itemsBusy ctx' = itemsBusy c1 ++ [item <| si_seqno := len sent |> <| si_scheduled_TSuS := t |>] /\
    match list.last (itemsBusy c1) with
    | Some lst =>
        if si_scheduled_TSuS item <? si_scheduled_TSuS lst
        then t = u64 (si_scheduled_TSuS lst + Z.quot (pcrIntervalPerPacketTicksLast ctx * (si_lengthBytes item / 188)) 27)
        else t = si_scheduled_TSuS item
    | None => t = si_scheduled_TSuS item
    end.
Proof.
  intros Hinv Hs Hi Ht. destruct (interfere_spec 1 sent ctx Hinv) as (c1 & E1 & H1 & W1 & K1); [lia|].
  unfold queue_item. rewrite E1. step. cbv zeta. assert (Hp := piece_len _ (if_piece _ Hi)). rewrite <- (if_length _ Hi) in Hp.
  assert (Hsz := sm_inv_sizes _ _ _ H1).
  pose proof (len_nonneg (sm_calls c1)) as L1. pose proof (len_nonneg (itemsBusy c1)) as L2. pose proof (len_nonneg (th_loc c1)) as L3.
  assert (Hq : 0 <= queued_bytes (th_loc c1 ++ itemsBusy c1) <= 1316 * len (th_loc c1 ++ itemsBusy c1))
    by (apply queued_bound, Forall_app; split; [apply (iv_loc _ _ _ H1)|apply (iv_busy _ _ _ H1)]). rewrite len_app in Hq.
  change (si_lengthBytes (item <| si_seqno := sm_seqno c1 |>)) with (si_lengthBytes item).
  rewrite i64_ok_Some by (rewrite (iv_bytes _ _ _ H1); lia). step.
  assert (HL : pcrIntervalPerPacketTicksLast c1 = pcrIntervalPerPacketTicksLast ctx) by (unfold writers in W1; congruence).
  match goal with |- context [order_item ?c ?i] => destruct (order_item_spec c i) as (t & -> & Hord) end; [cbn; by rewrite HL|cbn; lia|].
  step. exists c1, t. eexists. split; [done|]. split; [reflexivity|].
  cbn in Hord. unfold const in Hord. rewrite HL in Hord.
  split; [|split; [exact W1|split; [exact K1|split; [cbn; unfold const; by rewrite (iv_next _ _ _ H1)|exact Hord]]]].
  assert (Hll : len (sent ++ [item_bytes item]) = len sent + 1) by (by rewrite len_app).
  destruct H1. constructor; cbn; unfold const; try done.
  - apply Forall_app. split; [done|]. apply Forall_singleton. destruct Hi. by constructor.
  - rewrite iv_qbusy0, len_app. change (len [_]) with 1. zlia.
  - rewrite iv_total0, len_app. change (len [_]) with 1. f_equal. lia.
  - rewrite app_assoc, queued_app, iv_bytes0. f_equal. rewrite (if_length _ Hi). unfold queued_bytes. cbn [map concat]. by rewrite app_nil_r.
  - rewrite app_assoc, map_app, app_assoc, iv_sent0. done.
  - rewrite app_assoc, map_app, app_assoc, iv_seq0, Hll, iv_next0. rewrite seqZ_app by (try apply len_nonneg; lia). f_equal.
  - rewrite iv_next0, Hll, u64_id by (pose proof (len_nonneg sent); lia). done.
Qed.

(** The clock in microseconds. *)
Lemma now_us n : 2 ^ 47 <= makeTimestampFromTimeval (gettimeofday n) < 2 ^ 60.
Proof.
  destruct (Hclock n) as [[Hs Hu] H]. unfold makeTimestampFromTimeval. rewrite i64_id by lia. rewrite u64_id by lia. lia.
Qed.

Lemma queue_item_timed n c1 ctx' item t T : StronglySorted before (itemsBusy c1) ->
  Forall (fun e => 0 <= si_scheduled_TSuS e <= 2 ^ 61 + n * 2 ^ 28) (itemsBusy c1) -> 0 <= n < 2 ^ 34 ->
  0 <= si_scheduled_TSuS item <= 2 ^ 61 -> 0 <= T <= 2 ^ 29 -> 0 <= si_lengthBytes item <= 1316 ->
  itemsBusy ctx' = itemsBusy c1 ++ [item <| si_seqno := n |> <| si_scheduled_TSuS := t |>] ->
  match list.last (itemsBusy c1) with
  | Some lst => if si_scheduled_TSuS item <? si_scheduled_TSuS lst
                then t = u64 (si_scheduled_TSuS lst + Z.quot (T * (si_lengthBytes item / 188)) 27)
                else t = si_scheduled_TSuS item
  | None => t = si_scheduled_TSuS item
  end ->
  StronglySorted before (itemsBusy ctx') /\
  Forall (fun e => 0 <= si_scheduled_TSuS e <= 2 ^ 61 + (n + 1) * 2 ^ 28) (itemsBusy ctx').
Proof.
  intros Hso Hbo Hn Hi HT Hl -> Ht.
  assert (Hb : match list.last (itemsBusy c1) with Some e' => si_scheduled_TSuS e' <= t | None => True end /\
    0 <= t <= 2 ^ 61 + (n + 1) * 2 ^ 28).
  { destruct (list.last (itemsBusy c1)) as [lst|] eqn:El; [|rewrite Ht; split; [done|lia]].
    apply list.last_Some in El as [l' El]. rewrite El in Hbo. apply Forall_app in Hbo as [_ Hbo].
    apply Forall_cons_1 in Hbo as [Hbo _]. revert Ht. case_if; intros ->; [|lia].
    assert (0 <= si_lengthBytes item / 188 <= 7) by zlia.
    assert (0 <= Z.quot (T * (si_lengthBytes item / 188)) 27 <= 2 ^ 28) by (split; [apply Z.quot_pos|apply Z.quot_le_upper_bound]; nia).
    rewrite u64_id by lia. lia. }
  destruct Hb as [Hlast Hr]. split; [apply sorted_snoc; [done|by destruct (list.last (itemsBusy c1))]|].
  apply Forall_app. split.
  - revert Hbo. apply List.Forall_impl. lia.
  - apply Forall_singleton. exact Hr.
Qed.

Lemma write2_spec sent ctx src pcr ticks ival : sm_inv 0 sent ctx -> len sent + 1 < 2 ^ 50 -> blockingWrites ctx = 0 ->
  piece_ok src -> Z.abs pcr <= 2 ^ 62 -> Z.abs ticks <= 2 ^ 43 -> Z.abs (pcrIntervalPerPacketTicksLast ctx) <= 2 ^ 43 ->
  exists ctx', smoother_pcr_write2 malloc sched gettimeofday alloc patience ctx src (len src) pcr ticks ival = Some ctx' /\
    sm_inv 0 (sent ++ [src]) ctx' /\ steady ctx' = steady ctx /\
    (timed (len sent) ctx -> Z.abs pcr <= 2 ^ 49 -> len sent < 2 ^ 34 -> timed (len sent + 1) ctx').
Proof.
  intros Hinv Hs Hb Hsrc Hp Ht HL. unfold smoother_pcr_write2.
  destruct (take_item_spec sent ctx Hinv) as (c1 & item & -> & H1 & Hroom & W1 & k1 & K1); [lia|done|]. step.
  destruct (fill_item_spec 1 sent c1 item src pcr ticks ival H1 Hroom Hsrc Hp Ht) as (c2 & it & -> & H2 & S2 & B2 & Hfull & Hby & Hsch & Hfirst). step.
  assert (S2' : steady c2 = steady ctx) by (rewrite S2; by apply steady_writers).
  assert (HL2 : pcrIntervalPerPacketTicksLast c2 = pcrIntervalPerPacketTicksLast ctx) by (unfold steady in S2'; congruence).
  destruct (queue_item_spec sent c2 it H2 Hs Hfull) as (c3 & t & ctx' & _ & -> & H3 & W3 & (k3 & K3) & B3 & T3); [by rewrite HL2|].
  exists ctx'. split; [done|]. rewrite Hby in H3. split; [done|]. split; [by rewrite <- S2'; apply steady_writers|].
  intros [To Tb Tl Tw Tla] Hp' Hn. assert (Hwr : writers c1 = writers ctx) by done.
  assert (Hf1 : pcrFirst c1 = pcrFirst ctx /\ walltimeFirstPCRuS c1 = walltimeFirstPCRuS ctx) by (unfold writers in Hwr; by injection Hwr).
  destruct Hf1 as [Hf1 Hw1]. rewrite Hf1, Hw1 in Hfirst.
  assert (Hla : latencyuS c2 = latencyuS ctx) by (unfold steady in S2'; congruence).
  assert (Hw2 : Z.abs (pcrFirst c2) <= 2 ^ 49 /\ 2 ^ 47 <= walltimeFirstPCRuS c2 < 2 ^ 60).
  { destruct (Z.eqb_spec (pcrFirst ctx) (-1)); injection Hfirst as -> ->.
    - split; [done|apply now_us].
    - destruct Tw; [done|done]. }
  assert (Hpl := piece_len _ Hsrc). rewrite HL2 in T3.
  pose proof (scheduled_bound c2 pcr ival (proj1 Hw2) Hp' (proj2 Hw2) ltac:(by rewrite Hla)) as Hsb. rewrite <- Hsch in Hsb.
  assert (Hle : si_lengthBytes it = len src) by (by rewrite (if_length _ Hfull), Hby).
  destruct (queue_item_timed (len sent) c3 ctx' it t (pcrIntervalPerPacketTicksLast ctx)) as [R1 R2]; try done; try lia.
  - rewrite K3, B2, K1. by do 2 apply sorted_drop.
  - rewrite K3, B2, K1. by do 2 apply Forall_drop.
  - pose proof (len_nonneg sent). lia.
  - assert (HW : pcrIntervalPerPacketTicksLast ctx' = pcrIntervalPerPacketTicksLast ctx /\ pcrFirst ctx' = pcrFirst c2 /\
      walltimeFirstPCRuS ctx' = walltimeFirstPCRuS c2 /\ latencyuS ctx' = latencyuS ctx) by (unfold writers in W3; split_and!; congruence).
    destruct HW as (E1 & E2 & E3 & E4). constructor; rewrite ?E1, ?E2, ?E3, ?E4; try done. by right.
Qed.

Lemma timed_le n m ctx : n <= m -> timed n ctx -> timed m ctx.
Proof. intros Hnm []. constructor; try done. revert tm_bound0. apply List.Forall_impl. lia. Qed.

Lemma write_items_spec T ticks ival base : Z.abs ticks <= T -> T <= 2 ^ 43 -> 0 <= base -> forall fuel P sent ctx k pcr,
  Forall ts_packet P -> sm_inv 0 sent ctx -> blockingWrites ctx = 0 -> Z.abs (pcrIntervalPerPacketTicksLast ctx) <= 2 ^ 43 ->
  Z.abs pcr <= 2 ^ 43 + k * T -> 0 <= k -> k + len P < 2 ^ 19 -> len sent + len P < 2 ^ 50 ->
  base + 188 * k + 188 * len P <= len (ba_buf (ba ctx)) ->
  slice (ba_buf (ba ctx)) (base + 188 * k) (188 * len P) = concat P -> (length P < fuel)%nat ->
  exists ctx' pieces,
    write_items malloc sched gettimeofday alloc patience fuel ctx base (188 * k) (188 * len P) pcr ticks ival = Some ctx' /\
    sm_inv 0 (sent ++ pieces) ctx' /\ steady ctx' = steady ctx /\ concat pieces = concat P /\ len pieces <= len P /\
    (timed (len sent) ctx -> T <= 2 ^ 29 -> len sent + len P < 2 ^ 34 -> timed (len (sent ++ pieces)) ctx').
Proof.
  intros Ht HT Hbase. induction fuel as [|fuel IH]; intros P sent ctx k pcr HP Hinv Hbw HL Hp Hk Hkn Hs Hb Hsl Hf; [lia|].
  cbn [write_items]. pose proof (len_nonneg P) as LP. destruct (Z.eq_dec (len P) 0) as [H0|H0].
  { exists ctx, []. destruct P; [|rewrite len_cons in H0; pose proof (len_nonneg P); lia]. rewrite H0. zdec.
    rewrite app_nil_r. split_and!; done. }
  zdec. set (n := Z.min 7 (len P)).
  assert (Hc : (if 188 * len P <? 7 * 188 then 188 * len P else 7 * 188) = 188 * n) by (unfold n; case_if; lia).
  rewrite Hc. cbv zeta. set (P1 := take (Z.to_nat n) P). set (P2 := drop (Z.to_nat n) P).
  assert (HP12 : Forall ts_packet P1 /\ Forall ts_packet P2) by (by split; [apply Forall_take|apply Forall_drop]). destruct HP12 as [HP1 HP2].
  assert (L1 : len P1 = n) by (apply len_take; lia). assert (L2 : len P2 = len P - n) by (apply len_drop; lia).
  assert (Hsplit : slice (ba_buf (ba ctx)) (base + 188 * k) (188 * n) = concat P1 /\
    slice (ba_buf (ba ctx)) (base + 188 * (k + n)) (188 * len P2) = concat P2).
  { rewrite (slice_split _ _ (188 * n)) in Hsl by lia.
    assert (HcP : concat P = concat P1 ++ concat P2) by (rewrite <- concat_app; unfold P1, P2; by rewrite take_drop).
    rewrite HcP in Hsl. apply app_inj_1 in Hsl as [A B]; [split; [done|]|].
    - rewrite <- B. f_equal; lia.
    - pose proof (len_slice (ba_buf (ba ctx)) (base + 188 * k) (188 * n)) as A. pose proof (len_concat_packets P1 HP1) as B.
      unfold len in *. lia. }
  destruct Hsplit as [S1 S2]. rewrite rds_slice by lia. step. rewrite S1.
  assert (Hpiece : piece_ok (concat P1)) by (exists P1; split; [done|split; [done|lia]]).
  assert (HkT : k * T <= (2 ^ 19 - 1) * 2 ^ 43) by nia.
  destruct (write2_spec sent ctx (concat P1) pcr ticks ival Hinv) as (c1 & E1 & H1 & W1 & T1); try done; try lia.
  assert (Hl1 : len (concat P1) = 188 * n) by (rewrite len_concat_packets by done; lia). rewrite Hl1 in E1. rewrite E1. step.
  replace (188 * n / 188) with n by (rewrite Z.mul_comm, Z.div_mul; lia).
  rewrite i64_ok_Some by nia. step.
  assert (E3 : ba c1 = ba ctx /\ blockingWrites c1 = 0 /\ pcrIntervalPerPacketTicksLast c1 = pcrIntervalPerPacketTicksLast ctx)
    by (unfold steady in W1; split_and!; congruence). destruct E3 as (Eb & Ew & El).
  replace (188 * k + 188 * n) with (188 * (k + n)) by lia. replace (188 * len P - 188 * n) with (188 * len P2) by lia.
  destruct (IH P2 (sent ++ [concat P1]) c1 (k + n) (ltntstools_scr_add pcr (ticks * n))) as (ctx' & pieces & E & H2 & W2 & Hcat & Hlen & T2);
    try done; try (rewrite ?Eb, ?El, ?len_app; change (len [concat P1]) with 1; lia).
  { apply scr_add_bound; nia. }
  { by rewrite Eb. }
  { unfold len in *. lia. }
  exists ctx', (concat P1 :: pieces). split; [done|]. rewrite <- (app_assoc sent) in H2. split; [done|]. split; [by rewrite W2|].
  split; [cbn [concat]; rewrite Hcat, <- concat_app; unfold P1, P2; by rewrite take_drop|]. split; [rewrite len_cons; lia|].
  intros Htm HT' Hs'. rewrite <- (app_assoc sent) in T2. apply T2; [|done|rewrite len_app; change (len [concat P1]) with 1; lia].
  rewrite len_app. change (len [concat P1]) with 1. apply T1; [done|nia|lia].
Qed.

(** Between the turns of the loop: the shared state, the buffer, the pace. *)
Record writing (P sent : list (list Z)) (ctx : smoother_pcr_context_s) : Prop := {
  wr_inv : sm_inv 0 sent ctx;
  wr_block : blockingWrites ctx = 0;
  wr_last : Z.abs (pcrIntervalPerPacketTicksLast ctx) <= 2 ^ 43;
  wr_ba : ba_holds P (ba ctx)
}.

Lemma timed_ext n c c' k : timed n c -> writers c' = writers c -> itemsBusy c' = drop k (itemsBusy c) -> timed n c'.
Proof.
  intros [To Tb Tl Tw Tla] Hw Hk.
  assert (HW : pcrIntervalPerPacketTicksLast c' = pcrIntervalPerPacketTicksLast c /\ pcrFirst c' = pcrFirst c /\
    walltimeFirstPCRuS c' = walltimeFirstPCRuS c /\ latencyuS c' = latencyuS c) by (unfold writers in Hw; split_and!; congruence).
  destruct HW as (E1 & E2 & E3 & E4). constructor; rewrite ?E1, ?E2, ?E3, ?E4, ?Hk; try done;
    [by apply sorted_drop|by apply Forall_drop].
Qed.

Lemma scr_value pid p v : pcr_on pid p = Some v -> 0 <= v < 2 ^ 42.
Proof. unfold pcr_on. case_if; [|done]. apply scr_range. Qed.

Lemma pace_bound v w n : 0 <= v < 2 ^ 42 -> 0 <= w < 2 ^ 42 -> 0 < n ->
  Z.abs (Z.quot (ltntstools_scr_diff v w) n) <= 2 ^ 43.
Proof.
  intros Hv Hw Hn. pose proof (scr_diff_bound v w (2 ^ 42) ltac:(lia) ltac:(lia) ltac:(lia)).
  rewrite <- Z.quot_abs, (Z.abs_eq n), Z.quot_div_nonneg by lia.
  apply Z.div_le_upper_bound; nia.
Qed.

(** The pace of an interval: in any case no more than 2^43 ticks per packet, and
    within 2^29 if the PCR steps forward. *)
Lemma check_jump_spec ctx v w n : 0 <= v < 2 ^ 42 -> 0 <= w < 2 ^ 42 -> 0 < n ->
  Z.abs (pcrIntervalPerPacketTicksLast ctx) <= 2 ^ 43 ->
  exists c1 ticks ival,
    check_jump ctx (Z.quot (ltntstools_scr_diff v w) n) (ltntstools_scr_diff v w) = (c1, ticks, ival) /\
    shared c1 = shared ctx /\ ba c1 = ba ctx /\ blockingWrites c1 = blockingWrites ctx /\
    pcrIntervalPerPacketTicksLast c1 = pcrIntervalPerPacketTicksLast ctx /\ pcrPID c1 = pcrPID ctx /\
    histReceive c1 = histReceive ctx /\ Z.abs ticks <= 2 ^ 43 /\
    forall m, timed m ctx -> timed m c1 /\ (0 <= ltntstools_scr_diff v w -> 0 <= ticks <= 2 ^ 29).
Proof.
  intros Hv Hw Hn HL. unfold check_jump. case_if; eexists _, _, _; (split; [reflexivity|]).
  - split_and!; try done. intros m H. split; [by destruct H|]. intros _. by destruct H.
  - split_and!; try done; [by apply pace_bound|]. intros m H. split; [done|]. intros Hd. split; [by apply Z.quot_pos; lia|].
    etransitivity; [apply (Z.quot_le_upper_bound _ _ (15 * 27000000)); nia|lia].
Qed.

Lemma check_reset_spec ctx now ticks ival P sent : Z.abs ticks <= 2 ^ 43 -> writing P sent ctx ->
  writing P sent (check_reset ctx now ticks ival) /\
  (timed (len sent) ctx -> 0 <= ticks <= 2 ^ 29 -> timed (len sent) (check_reset ctx now ticks ival)).
Proof.
  intros Ht [Hi Hb Hl Hba]. unfold check_reset. split.
  - constructor; repeat case_match; try done; by apply (sm_inv_ext _ _ ctx).
  - intros [] Hr. constructor; repeat case_match; try done; cbn; unfold const; tauto.
Qed.

Lemma write_interval_spec pid A a v B b w C sent ctx : pcrPID ctx = pid ->
  writing (A ++ a :: B ++ b :: C) sent ctx -> pcr_on pid a = Some v -> pcr_on pid b = Some w ->
  len (A ++ a :: B ++ b :: C) < 2 ^ 19 -> len sent + len (a :: B) < 2 ^ 50 ->
  exists ctx' pieces,
    write_interval malloc sched gettimeofday time alloc patience ctx (position pid (len A) v) (position pid (len A + 1 + len B) w) = Some ctx' /\
    writing (b :: C) (sent ++ pieces) ctx' /\ pcrPID ctx' = pid /\ histReceive ctx' = histReceive ctx /\
    concat pieces = concat (a :: B) /\ len pieces <= len (a :: B) /\
    (timed (len sent) ctx -> 0 <= ltntstools_scr_diff v w -> len sent + len (a :: B) < 2 ^ 34 -> timed (len (sent ++ pieces)) ctx').
Proof.
  intros Hpid [Hi Hbw HL Hba] Ha Hb Hlen Hs. apply scr_value in Ha. apply scr_value in Hb.
  rewrite !len_app, !len_cons, !len_app, !len_cons in Hlen. rewrite len_cons in *.
  pose proof (len_nonneg A) as LA. pose proof (len_nonneg B) as LB. pose proof (len_nonneg C) as LC. pose proof (len_nonneg sent) as LS.
  unfold write_interval. cbn [position pos_offset pos_pcr]. rewrite i32_id by lia. cbv zeta.
  replace (188 * (len A + 1 + len B) - 188 * len A) with (188 * (len B + 1)) by lia.
  rewrite (Z.mul_comm 188 (len B + 1)), Z.quot_mul, (Z.mul_comm (len B + 1) 188) by lia. zdec.
  destruct (check_jump_spec ctx v w (len B + 1)) as (c1 & ticks & ival & -> & S1 & A1 & B1 & L1 & P1 & R1 & Ht & T1); try done; [lia|].
  destruct (interfere_spec 0 sent c1) as (c2 & -> & H2 & W2 & k & K2); [by apply (sm_inv_ext _ _ ctx)|lia|]. step.
  set (c3 := measure_latency c2). assert (W3 : writers c3 = writers c1) by done.
  assert (F3 : ba c3 = ba ctx /\ blockingWrites c3 = 0 /\ pcrIntervalPerPacketTicksLast c3 = pcrIntervalPerPacketTicksLast ctx)
    by (unfold writers in W3; split_and!; congruence). destruct F3 as (F1 & F2 & F3).
  assert (Hb3 : ba_holds (A ++ (a :: B) ++ (b :: C)) (ba c3)) by (rewrite F1; exact Hba).
  assert (Hp3 := bh_packets _ _ Hb3). apply Forall_app in Hp3 as [PA PBC]. apply Forall_app in PBC as [PB PC].
  destruct (bh_bytes _ _ Hb3) as [rest Hrest].
  assert (LcA := len_concat_packets A PA). assert (LcB := len_concat_packets _ PB). assert (LcC := len_concat_packets _ PC).
  rewrite !concat_app in Hrest. assert (Lall : len (ba_buf (ba c3)) = 188 * len A + 188 * len (a :: B) + 188 * len (b :: C) + len rest)
    by (rewrite Hrest, !len_app; lia). rewrite !len_cons in Lall. pose proof (len_nonneg rest).
  set (T := if (0 <=? ticks) && (ticks <=? 2 ^ 29) then 2 ^ 29 else 2 ^ 43).
  assert (HT : Z.abs ticks <= T <= 2 ^ 43) by (unfold T; case_if; lia).
  destruct (write_items_spec T ticks ival (188 * len A) ltac:(lia) ltac:(lia) ltac:(lia) (S (Z.to_nat (188 * (len B + 1)))) (a :: B) sent c3 0 v)
    as (c4 & pieces & E4 & H4 & W4 & Hcat & Hlp & T4); rewrite ?len_cons; try done; try (rewrite ?F3; lia).
  { by apply (sm_inv_ext _ _ c2). }
  { unfold slice. rewrite Hrest, Z.mul_0_r, Z.add_0_r, <- LcA, <- app_assoc, drop_len_app. replace (len B + 1) with (len (a :: B)) by (rewrite len_cons; lia). rewrite <- LcB, <- app_assoc. apply take_len_app. }
  { unfold len in *. cbn [length]. lia. }
  rewrite Z.mul_0_r, len_cons in E4. rewrite E4. step.
  assert (F4 : ba c4 = ba ctx /\ blockingWrites c4 = 0 /\ pcrIntervalPerPacketTicksLast c4 = pcrIntervalPerPacketTicksLast ctx /\
    pcrPID c4 = pid /\ histReceive c4 = histReceive ctx).
  { unfold steady in W4. unfold writers in W3. split_and!; congruence. }
  destruct F4 as (Q1 & Q2 & Q3 & Q4 & Q5).
  destruct (trim_spec (A ++ a :: B) (b :: C) (ba c4)) as (b' & Htr & Hb'); [rewrite Q1, <- app_assoc; exact Hba|].
  rewrite u32_id by lia. replace (188 * (len A + 1 + len B)) with (188 * len (A ++ a :: B)) by (rewrite len_app, len_cons; lia).
  rewrite Htr. step. eexists _, pieces. split; [reflexivity|].
  destruct (check_reset_spec (c4 <| ba := b' |>) (time (sm_turn (c4 <| ba := b' |>))) ticks ival (b :: C) (sent ++ pieces) Ht) as [R2 R3].
  { constructor; [by apply (sm_inv_ext _ _ c4)|exact Q2|cbn; by rewrite Q3|exact Hb']. }
  split; [exact R2|]. split; [unfold check_reset; repeat case_match; exact Q4|]. split; [unfold check_reset; repeat case_match; exact Q5|].
  split; [done|]. split; [rewrite len_cons in Hlp; lia|]. intros Htm Hd Hs34. destruct (T1 _ Htm) as [T1a T1b]. specialize (T1b Hd).
  apply R3; [|done]. assert (Htm4 : timed (len (sent ++ pieces)) c4); [|by destruct Htm4].
  apply T4; [|unfold T; case_if; lia|rewrite ?len_cons; lia].
  apply (timed_ext (len sent) c1 c3 k); [exact T1a|done|exact K2].
Qed.

(** A turn finds nothing to write: fewer than three packets, or fewer than two
    PCRs. *)
Definition settled (pid : Z) (P : list (list Z)) : Prop := len P < 3 \/ len (pcr_values pid P) <= 1.
Definition starts_pcr (pid : Z) (P : list (list Z)) : Prop := exists p r v, P = p :: r /\ pcr_on pid p = Some v.

Lemma without_starts pid A P : without_pcr pid A -> starts_pcr pid (A ++ P) -> A = [].
Proof. intros HA (p & r & v & E & Hp). destruct A as [|x A]; [done|]. injection E as -> _. inversion HA. congruence. Qed.

(** What one call of the loop has done to the packets [P]: [A] is dropped, [Q]
    is sent as [pieces], [P'] is kept. *)
Record advanced (pid : Z) (P A Q P' pieces : list (list Z)) : Prop := {
  ad_split : P = A ++ Q ++ P';
  ad_lost : without_pcr pid A;
  ad_pieces : concat pieces = concat Q;
  ad_len : len pieces <= len Q;
  ad_start : Q = [] /\ A = [] \/ starts_pcr pid Q /\ starts_pcr pid P'
}.

Lemma advanced_nothing pid P : advanced pid P [] [] P [].
Proof. constructor; try done; [constructor|by left]. Qed.

Lemma write_loop_spec pid fuel : forall P sent ctx, pcrPID ctx = pid -> writing P sent ctx -> len P < 2 ^ 19 ->
  len sent + len P < 2 ^ 50 -> (length P < fuel)%nat ->
  exists ctx' A Q P' pieces, write_loop malloc sched gettimeofday time alloc patience fuel ctx = Some ctx' /\
    advanced pid P A Q P' pieces /\ writing P' (sent ++ pieces) ctx' /\ pcrPID ctx' = pid /\
    histReceive ctx' = histReceive ctx /\ settled pid P' /\
    (timed (len sent) ctx -> forward (pcr_values pid P) -> len sent + len P < 2 ^ 34 -> timed (len (sent ++ pieces)) ctx').
Proof.
  induction fuel as [|fuel IH]; intros P sent ctx Hpid Hwr Hlen Hs Hf; [lia|].
  assert (Hstop : settled pid P -> exists ctx' A Q P' pieces, Some ctx = Some ctx' /\
    advanced pid P A Q P' pieces /\ writing P' (sent ++ pieces) ctx' /\ pcrPID ctx' = pid /\
    histReceive ctx' = histReceive ctx /\ settled pid P' /\
    (timed (len sent) ctx -> forward (pcr_values pid P) -> len sent + len P < 2 ^ 34 -> timed (len (sent ++ pieces)) ctx')).
  { intros Hset. exists ctx, [], [], P, []. rewrite app_nil_r. split_and!; try done. apply advanced_nothing. }
  cbn [write_loop]. destruct (wr_ba _ _ _ Hwr) as [[rest Hrest] Hbl _ Hok]. pose proof (len_nonneg P).
  rewrite Hbl, i32_id by lia. destruct (Z_lt_dec (len P) 3) as [H3|H3].
  { unfold ltntstools_queryPCRs, ltntstools_findSyncPosition. zdec. step. cbn. apply Hstop. by left. }
  assert (LP := len_concat_packets P Hok). rewrite <- LP, Hrest, queryPCRs_packets by (done || lia). step. cbn [Z.ltb Z.compare].
  rewrite Hpid. destruct (split_pcr pid P) as [HP|(A & a & v & C & -> & HA & Ha)].
  { rewrite find_pcrs_none by done. apply Hstop. right. rewrite pcr_values_without by done. done. }
  rewrite len_app, len_cons in Hlen, Hs. pose proof (len_nonneg A). pose proof (len_nonneg C).
  destruct (split_pcr pid C) as [HC|(B & b & w & D & -> & HB & Hb)].
  { rewrite (find_pcrs_one pid A a v) by (done || lia). apply Hstop. right.
    rewrite pcr_values_app, (pcr_values_without pid A), (pcr_values_cons pid a v), (pcr_values_without pid C) by done. done. }
  rewrite len_app, len_cons in Hlen, Hs. pose proof (len_nonneg B). pose proof (len_nonneg D).
  destruct (find_pcrs_two pid A a v B b w D) as (n & -> & Hn); try done; [lia|].
  assert (Hfw : forward (pcr_values pid (A ++ a :: B ++ b :: D)) -> 0 <= ltntstools_scr_diff v w /\ forward (pcr_values pid (b :: D))).
  { rewrite pcr_values_app, (pcr_values_without pid A), (pcr_values_cons pid a v), pcr_values_app, (pcr_values_without pid B),
      (pcr_values_cons pid b w) by done. cbn [app forward]. tauto. }
  destruct (write_interval_spec pid A a v B b w D sent ctx Hpid Hwr Ha Hb) as (c1 & pieces & -> & W1 & P1 & R1 & Hcat & Hlp & T1);
    [rewrite !len_app, !len_cons, !len_app, !len_cons; lia|rewrite len_cons; lia|]. step.
  assert (Hadv : advanced pid (A ++ a :: B ++ b :: D) A (a :: B) (b :: D) pieces).
  { constructor; try done. right. split; eexists _, _, _; done. }
  destruct (2 <? n) eqn:E2.
  - rewrite len_cons in Hlp.
    destruct (IH (b :: D) (sent ++ pieces) c1) as (ctx' & A' & Q' & P' & pcs & E & [S1 S2 S3 S4 S5] & W2 & P2 & R2 & Hset & T2); try done.
    + rewrite len_cons. lia.
    + rewrite len_app, len_cons. lia.
    + revert Hf. rewrite length_app. cbn [length]. rewrite length_app. cbn [length]. lia.
    + assert (A' = []) as -> by (apply (without_starts pid A' (Q' ++ P')); [done|rewrite <- S1; by eexists _, _, _]).
      exists ctx', A, ((a :: B) ++ Q'), P', (pieces ++ pcs). split; [done|]. split.
      { constructor; try done.
        - rewrite <- app_assoc. cbn [app] in *. by rewrite S1.
        - by rewrite !concat_app, Hcat, S3.
        - rewrite !len_app, len_cons. lia.
        - right. split; [by eexists _, _, _|]. destruct S5 as [[-> _]|[_ ?]]; [|done]. cbn [app] in S1. rewrite <- S1. by eexists _, _, _. }
      rewrite app_assoc. split_and!; try done; [by rewrite R2|].
      intros Htm Hfwd Hs34. apply Hfw in Hfwd as [Hd Hfwd]. rewrite !len_app, !len_cons, !len_app, !len_cons in Hs34.
      apply T2; [apply T1; [done|done|rewrite len_cons; lia]|done|]. rewrite len_app, len_cons. lia.
  - exists c1, A, (a :: B), (b :: D), pieces. split_and!; try done.
    + right. rewrite (pcr_values_cons pid b w), (pcr_values_without pid D) by (by try apply Hn). done.
    + intros Htm Hfwd Hs34. apply Hfw in Hfwd as [Hd _]. rewrite !len_app, !len_cons, !len_app, !len_cons in Hs34.
      apply T1; [done|done|rewrite len_cons; lia].
Qed.

(** ** Runs *)

(** A write: its packets and its time stamp. *)
Definition smoother_write : Type := list (list Z) * timeval.

Definition packets_of (writes : list smoother_write) : list (list Z) := concat (map fst writes).

Definition smoother_run (ctx : smoother_pcr_context_s) (writes : list smoother_write) : option smoother_pcr_context_s :=
  foldM (fun ctx '(ps, ts) =>
    fst <$> smoother_pcr_write malloc sched gettimeofday time alloc patience ctx (concat ps) (len (concat ps)) ts) writes ctx.

(** Every [n] packets in a row have a PCR on the PID. *)
Definition regular (pid n : Z) (ps : list (list Z)) : Prop :=
  forall A B C, ps = A ++ B ++ C -> len B = n -> ~ without_pcr pid B.

Definition write_ok (w : smoother_write) : Prop := Forall ts_packet w.1 /\ len w.1 <= 2 ^ 17 /\ timeval_wf w.2.

(** What is so after any writes of the packets [all]: [lost] was dropped, [W]
    sent, [P] kept. *)
Record smoothed (pid : Z) (all lost W P sent : list (list Z)) (ctx : smoother_pcr_context_s) : Prop := {
  sd_split : all = lost ++ W ++ P;
  sd_lost : without_pcr pid lost;
  sd_sent : concat sent = concat W;
  sd_len : len sent <= len W;
  sd_start : W = [] /\ lost = [] \/ starts_pcr pid W /\ starts_pcr pid P;
  sd_settled : settled pid P;
  sd_writing : writing P sent ctx;
  sd_pid : pcrPID ctx = pid;
  sd_hist : hist_wf (histReceive ctx)
}.

Lemma has_value pid B : ~ without_pcr pid B -> 1 <= len (pcr_values pid B).
Proof.
  intros H. destruct (split_pcr pid B) as [|(A & a & v & C & -> & HA & Ha)]; [done|].
  rewrite pcr_values_app, (pcr_values_cons pid a v) by done. rewrite len_app, len_cons.
  pose proof (len_nonneg (pcr_values pid A)). pose proof (len_nonneg (pcr_values pid C)). lia.
Qed.

Lemma settled_short pid n X P : 2 <= n -> regular pid n (X ++ P) -> settled pid P -> len P < 2 * n.
Proof.
  intros Hn Hr [H|H]; [lia|]. destruct (Z_lt_dec (len P) (2 * n)) as [|Hl]; [done|exfalso].
  pose proof (take_drop (Z.to_nat n) P) as E1. pose proof (take_drop (Z.to_nat n) (drop (Z.to_nat n) P)) as E2.
  set (P1 := take (Z.to_nat n) P) in *. set (P2 := take (Z.to_nat n) (drop (Z.to_nat n) P)) in *.
  set (P3 := drop (Z.to_nat n) (drop (Z.to_nat n) P)) in *.
  assert (L1 : len P1 = n) by (apply len_take; lia).
  assert (L2 : len P2 = n) by (apply len_take; rewrite len_drop; lia).
  pose proof (has_value pid P1) as V1. pose proof (has_value pid P2) as V2. rewrite <- E1, <- E2, !pcr_values_app, !len_app in H.
  pose proof (len_nonneg (pcr_values pid P3)).
  assert (H1 : ~ without_pcr pid P1) by (apply (Hr X P1 (P2 ++ P3)); [by rewrite E2, E1|done]).
  assert (H2 : ~ without_pcr pid P2) by (apply (Hr (X ++ P1) P2 P3); [by rewrite E2, <- app_assoc, E1|done]).
  specialize (V1 H1). specialize (V2 H2). lia.
Qed.

Lemma smoother_write_spec pid all lost W P sent ctx ps ts : smoothed pid all lost W P sent ctx -> write_ok (ps, ts) ->
  regular pid (2 ^ 17) (all ++ ps) -> len (all ++ ps) < 2 ^ 50 -> seen (histReceive ctx) + 1 < 2 ^ 64 ->
  exists ctx' lost' W' P' sent',
    smoother_pcr_write malloc sched gettimeofday time alloc patience ctx (concat ps) (len (concat ps)) ts = Some (ctx', 0) /\
    smoothed pid (all ++ ps) lost' W' P' sent' ctx' /\ seen (histReceive ctx') = seen (histReceive ctx) + 1 /\
    (timed (len sent) ctx -> forward (pcr_values pid (all ++ ps)) -> len (all ++ ps) < 2 ^ 34 -> timed (len sent') ctx').
Proof.
  intros [-> S2 S3 S4 S5 S6 S7 S8 S9] (Hps & Hlp & Hts) Hreg Hall Hseen. cbn [fst snd] in *.
  assert (HP : len P < 2 * 2 ^ 17).
  { apply (settled_short pid (2 ^ 17) (lost ++ W)); [lia| |done]. intros A B C E HB. apply (Hreg A B (C ++ ps)); [|done].
    rewrite <- !app_assoc in E. by rewrite (app_assoc B), (app_assoc A), <- E, <- !app_assoc. }
  rewrite <- !app_assoc in Hall. rewrite <- !app_assoc in *. rewrite !len_app in Hall.
  pose proof (len_nonneg lost). pose proof (len_nonneg W). pose proof (len_nonneg P). pose proof (len_nonneg ps). pose proof (len_nonneg sent).
  unfold smoother_pcr_write.
  destruct (hist_step_spec (histReceive ctx) (OpInterval ts) S9 Hts) as (h & Eh & Hh & Hsn); [lia|].
  cbn [hist_step] in Eh. destruct (ltn_histogram_interval_update _ _) as [[h' z]|]; [|done]. injection Eh as ->. step.
  rewrite u32_id by (rewrite len_concat_packets by done; lia).
  destruct (append_spec malloc P ps (ba ctx) Hmalloc (wr_ba _ _ _ S7) Hps) as (b & n & -> & Hb); [lia|]. step. cbv zeta.
  destruct S7 as [V1 V2 V3 V4].
  destruct (write_loop_spec pid (S (Z.to_nat (ba_lengthBytes b))) (P ++ ps) sent (ctx <| histReceive := h |> <| ba := b |>))
    as (ctx' & A & Q & P' & pieces & -> & [D1 D2 D3 D4 D5] & W1 & W2 & W3 & W4 & W5); try done.
  { constructor; try done. by apply (sm_inv_ext _ _ ctx). }
  { rewrite len_app. lia. }
  { rewrite len_app. lia. }
  { rewrite (bh_length _ _ Hb). unfold len. lia. }
  step. assert (HW : lost ++ A = lost \/ W = [] /\ lost = []).
  { destruct S5 as [S5|[_ (p & r & v & -> & Hp)]]; [by right|left]. rewrite (without_starts pid A (Q ++ P')); [by rewrite app_nil_r|done|].
    rewrite <- D1. by eexists _, _, _. }
  exists ctx', (lost ++ A), (W ++ Q), P', (sent ++ pieces). split; [done|]. split; [|split; [rewrite W3; exact Hsn|]].
  - assert (HA : A = [] \/ W = [] /\ lost = []).
    { destruct HW as [HW|HW]; [left|by right]. by apply (f_equal length) in HW; rewrite length_app in HW; destruct A; [|cbn in HW; lia]. }
    constructor; try done.
    + rewrite D1. destruct HA as [->|[-> ->]]; cbn [app]; by rewrite <- ?app_assoc, ?app_nil_r.
    + by apply Forall_app.
    + by rewrite !concat_app, S3, D3.
    + rewrite !len_app. lia.
    + destruct D5 as [[-> ->]|[D5 D6]].
      * rewrite !app_nil_r. cbn [app] in D1. rewrite <- D1. destruct S5 as [S5|[S5 (p & r & v & -> & Hp)]]; [by left|right].
        split; [done|by eexists _, _, _].
      * right. split; [|done]. destruct S5 as [[-> _]|[(p & r & v & -> & Hp) _]]; [done|by eexists _, _, _].
    + by rewrite W3.
  - intros Htm Hfw Hs. rewrite !len_app in Hs. apply W5.
    + by destruct Htm.
    + rewrite !pcr_values_app in Hfw. rewrite pcr_values_app. do 2 apply forward_app in Hfw. exact Hfw.
    + rewrite len_app. lia.
Qed.

Lemma smoother_run_spec pid writes : forall all lost W P sent ctx, smoothed pid all lost W P sent ctx -> Forall write_ok writes ->
  regular pid (2 ^ 17) (all ++ packets_of writes) -> len (all ++ packets_of writes) < 2 ^ 50 ->
  seen (histReceive ctx) + len writes < 2 ^ 63 ->
  exists ctx' lost' W' P' sent', smoother_run ctx writes = Some ctx' /\
    smoothed pid (all ++ packets_of writes) lost' W' P' sent' ctx' /\
    (timed (len sent) ctx -> forward (pcr_values pid (all ++ packets_of writes)) ->
     len (all ++ packets_of writes) < 2 ^ 34 -> timed (len sent') ctx').
Proof.
  unfold packets_of. induction writes as [|[ps ts] writes IH]; intros all lost W P sent ctx Hsm Hok Hreg Hall Hseen.
  { exists ctx, lost, W, P, sent. cbn [map concat]. rewrite app_nil_r. by split_and!. }
  apply Forall_cons_1 in Hok as [Hw Hok]. cbn [map concat fst] in *. rewrite len_cons in Hseen. pose proof (len_nonneg writes).
  rewrite app_assoc in *. rewrite len_app in Hall. pose proof (len_nonneg (concat (map fst writes))) as L1.
  assert (Hr1 : regular pid (2 ^ 17) (all ++ ps)).
  { intros A B C E. apply (Hreg A B (C ++ concat (map fst writes))). by rewrite E, <- !app_assoc. }
  destruct (smoother_write_spec pid all lost W P sent ctx ps ts Hsm Hw Hr1) as (c1 & l1 & W1 & P1 & s1 & E1 & H1 & N1 & T1); [lia|lia|].
  destruct (IH (all ++ ps) l1 W1 P1 s1 c1 H1 Hok Hreg) as (ctx' & l2 & W2 & P2 & s2 & E2 & H2 & T2); [rewrite len_app; lia|lia|].
  exists ctx', l2, W2, P2, s2. split.
  { unfold smoother_run. cbn [foldM]. rewrite E1. exact E2. }
  split; [done|]. intros Htm Hfw Hl. apply T2; [|done|done]. apply T1; [done| |rewrite len_app in Hl; lia].
  rewrite pcr_values_app in Hfw. revert Hfw. generalize (pcr_values pid (all ++ ps)) as l. clear.
  induction l as [|x [|y l] IH]; [done|done|]. intros [H1 H2]. split; [exact H1|]. apply IH. exact H2.
Qed.

Lemma add_items rs : forall ctx, sm_inv 0 [] ctx -> itemsBusy ctx = [] -> Forall (fun r => r <> NoBuffer) rs ->
  exists ctx', foldM (fun ctx r => add_item ctx r 1316) rs ctx = Some ctx' /\ sm_inv 0 [] ctx' /\ itemsBusy ctx' = [] /\
    writers ctx' = writers ctx.
Proof.
  induction rs as [|r rs IH]; intros ctx Hinv Hb Hrs; [by exists ctx|]. apply Forall_cons_1 in Hrs as [Hr Hrs].
  cbn [foldM]. unfold add_item at 2, itemAlloc. destruct r; [|step; by apply IH|done]. step.
  match goal with |- context [foldM _ _ ?c] => destruct (IH c) as (ctx' & -> & H1 & H2 & H3) end; try done.
  - destruct Hinv. constructor; cbn; unfold const; try done.
    + apply Forall_app. split; [done|]. by apply Forall_singleton.
    + rewrite iv_qfree0, len_app. change (len [_]) with 1. zlia.
    + rewrite iv_total0, len_app. change (len [_]) with 1. zlia.
  - by exists ctx'.
Qed.

Lemma foldM_map {A B C} (f : C -> B -> option C) (g : A -> B) l c : foldM f (map g l) c = foldM (fun c a => f c (g a)) l c.
Proof. revert c. induction l as [|a l IH]; intros c; [done|]. cbn [map foldM]. destruct (f c (g a)); [apply IH|done]. Qed.

Lemma alloc_spec now n pid latencyMS : timeval_wf now -> 16 < pid <= 0x1ffe -> 50 <= latencyMS < 2 ^ 21 ->
  exists ctx, smoother_pcr_alloc malloc time alloc true true (fun _ => true) now n 1316 pid latencyMS = Some (Some ctx) /\
    smoothed pid [] [] [] [] [] ctx /\ seen (histReceive ctx) = 0 /\ timed 0 ctx.
Proof.
  intros Hnow Hpid Hl. unfold smoother_pcr_alloc. zdec. cbn [negb orb]. change (1316 =? 7 * 188) with true. cbn [negb].
  rewrite int_ok_Some by lia. step. unfold byte_array_init. destruct (Hmalloc (8000 * 188)) as (b & -> & Hb); [lia|]. step.
  unfold ltn_histogram_alloc_video_defaults.
  destruct (hist_alloc_wf now "receive arrival times" 0 (16 * 1000)) as (h1 & -> & W1 & N1 & _); [lia|lia|done|]. step.
  destruct (hist_alloc_wf now "transmit arrival times" 0 (16 * 1000)) as (h2 & -> & W2 & N2 & _); [lia|lia|done|]. step.
  rewrite <- (foldM_map (fun ctx r => add_item ctx r 1316) (alloc 0)).
  match goal with |- context [foldM _ _ ?c] => destruct (add_items (map (alloc 0) (seq 0 (Z.to_nat n))) c) as (ctx & -> & H1 & H2 & H3) end.
  - by constructor.
  - done.
  - apply Forall_map, List.Forall_forall. intros i _. apply Hbuf.
  - step. exists ctx. split; [done|]. unfold writers in H3. cbn in H3. injection H3. intros.
    assert (settled pid []) by (left; rewrite len_nil; lia).
    split; [|split; [congruence|]].
    + constructor; try done; [constructor|by left| |congruence]. constructor; [done|done|lia|].
      replace (ba ctx) with {| ba_buf := b; ba_maxLengthBytes := 8000 * 188; ba_lengthBytes := 0 |} by congruence.
      constructor; cbn; [by eexists|done|done|constructor].
    + constructor; rewrite ?H2; try constructor; lia.
Qed.
End Writer.

(** ** The smoother as a whole *)

(** The environment: there is memory, the thread's steps and the clock are well
    formed, the clock is past 1974, and of 64 new items one at least is made. *)
Record environment_ok (malloc : Z -> option (list Z)) (sched : nat -> list thread_step) (gettimeofday : nat -> timeval)
    (alloc : nat -> nat -> alloc_result) : Prop := {
  en_malloc : malloc_gives malloc;
  en_sched : forall n, Forall step_ok (sched n);
  en_clock : forall n, timeval_wf (gettimeofday n) /\ 2 ^ 47 <= tv_sec (gettimeofday n) * 1000000;
  en_buffer : forall n i, alloc n i <> NoBuffer;
  en_item : forall n, exists i, (i < 64)%nat /\ alloc n i = AllocOk
}.

Lemma smoother_started malloc sched gettimeofday time alloc patience now n pid latencyMS writes :
  environment_ok malloc sched gettimeofday alloc -> timeval_wf now -> 16 < pid <= 0x1ffe -> 50 <= latencyMS < 2 ^ 21 ->
  Forall write_ok writes -> regular pid (2 ^ 17) (packets_of writes) -> len (packets_of writes) < 2 ^ 50 -> len writes < 2 ^ 62 ->
  exists ctx ctx' lost W P sent,
    smoother_pcr_alloc malloc time alloc true true (fun _ => true) now n 1316 pid latencyMS = Some (Some ctx) /\
    smoother_run malloc sched gettimeofday time alloc patience ctx writes = Some ctx' /\
    smoothed pid (packets_of writes) lost W P sent ctx' /\
    (forward (pcr_values pid (packets_of writes)) -> len (packets_of writes) < 2 ^ 34 -> timed (len sent) ctx').
Proof.
  intros [E1 E2 E3 E4 E5] Hnow Hpid Hl Hw Hr Hlen Hn.
  destruct (alloc_spec malloc time alloc patience E1 E4 now n pid latencyMS Hnow Hpid Hl) as (ctx & Ea & Hs & Hseen & Ht).
  destruct (smoother_run_spec malloc sched gettimeofday time alloc patience E1 E2 E3 E4 E5 pid writes [] [] [] [] [] ctx)
    as (ctx' & lost & W & P & sent & Er & Hs' & Ht'); [done|done|done|done|lia|].
  exists ctx, ctx', lost, W, P, sent. split_and!; try done. intros Hf H34. by apply Ht'.
Qed.

(** C4: Whatever steps the thread makes between those of the writer, the smoother
    runs without a fault; of the packets written only those before the first PCR
    are dropped; what the callback got, in order, then what the thread holds,
    then the busy list are the packets from there on, up to the last PCR, after
    which they wait in the buffer.  The callback gets whole packets, seven at
    most, with a position for each, and consecutive items; the counts of the
    queues and of the bytes held are exact. *)
Theorem smoother_loses_nothing malloc sched gettimeofday time alloc patience now n pid latencyMS writes :
  environment_ok malloc sched gettimeofday alloc -> timeval_wf now -> 16 < pid <= 0x1ffe -> 50 <= latencyMS < 2 ^ 21 ->
  Forall write_ok writes -> regular pid (2 ^ 17) (packets_of writes) -> len (packets_of writes) < 2 ^ 50 -> len writes < 2 ^ 62 ->
  exists ctx ctx' lost W P,
    smoother_pcr_alloc malloc time alloc true true (fun _ => true) now n 1316 pid latencyMS = Some (Some ctx) /\
    smoother_run malloc sched gettimeofday time alloc patience ctx writes = Some ctx' /\
    packets_of writes = lost ++ W ++ P /\ without_pcr pid lost /\
    concat (map oc_buf (sm_calls ctx')) ++ concat (map item_bytes (th_loc ctx')) ++ concat (map item_bytes (itemsBusy ctx')) = concat W /\
    take (Z.to_nat (ba_lengthBytes (ba ctx'))) (ba_buf (ba ctx')) = concat P /\ settled pid P /\
    (W = [] /\ lost = [] \/ starts_pcr pid W /\ starts_pcr pid P) /\
    Forall call_ok (sm_calls ctx') /\ map oc_seqno (sm_calls ctx') = seqZ 0 (len (sm_calls ctx')) /\
    qFreeCount ctx' = u64 (len (itemsFree ctx')) /\ qBusyCount ctx' = u64 (len (itemsBusy ctx')) /\
    totalUserBytes ctx' = len (concat (map item_bytes (th_loc ctx' ++ itemsBusy ctx'))).
Proof.
  intros Henv Hnow Hpid Hl Hw Hr Hlen Hn.
  destruct (smoother_started malloc sched gettimeofday time alloc patience now n pid latencyMS writes Henv)
    as (ctx & ctx' & lost & W & P & sent & Ea & Er & [S1 S2 S3 S4 S5 S6 [V1 _ _ V4] S8 S9] & _); try done.
  exists ctx, ctx', lost, W, P. split; [done|]. split; [done|]. split; [done|]. split; [done|]. destruct V1. split_and!; try done.
  - by rewrite <- S3, <- iv_sent0, !map_app, !concat_app.
  - destruct (bh_bytes _ _ V4) as [rest ->]. rewrite (bh_length _ _ V4), <- (len_concat_packets P) by apply (bh_packets _ _ V4).
    apply take_len_app.
  - apply (f_equal (take (length (sm_calls ctx')))) in iv_seq0. rewrite take_app_le, take_ge in iv_seq0 by (rewrite length_map; lia).
    rewrite iv_seq0, <- iv_sent0. apply list_eq. intros i. unfold len. rewrite length_app, length_map.
    destruct (Nat.lt_ge_cases i (length (sm_calls ctx'))) as [Hi|Hi].
    + rewrite lookup_take_lt by done. rewrite !lookup_seqZ_lt by lia. done.
    + rewrite lookup_take_ge, lookup_seqZ_ge by lia. done.
Qed.

Definition witness_sched (n : nat) : list thread_step :=
  [ThreadTake (1700000000000000 + 50000 * Z.of_nat n); ThreadOutput (Timeval 1700000000 0); ThreadReturn].

Definition witness_writes : list smoother_write :=
  [([pcr_packet 0; pcr_packet 2700; pcr_packet 5400; pcr_packet 8100], Timeval 1700000000 0);
   ([pcr_packet 10800], Timeval 1700000000 400)].

Lemma witness_environment :
  environment_ok (fun n => Some (replicate (Z.to_nat n) 0)) witness_sched (fun _ => Timeval 1700000000 0) (fun _ _ => AllocOk).
Proof.
  constructor; try done.
  - intros m Hm. eexists. split; [done|]. apply len_replicate. lia.
  - intros m. repeat constructor; cbn; lia.
  - intros m. by exists 0%nat; split; [lia|].
Qed.

Lemma witness_writes_ok : Forall write_ok witness_writes.
Proof.
  repeat constructor; cbn [fst snd tv_sec tv_usec]; try (apply pcr_packet_ok; lia); try lia; try by vm_compute.
  all: match goal with |- context [Forall ts_packet] => repeat constructor; apply pcr_packet_ok; lia | _ => idtac end.
Qed.

Lemma few_regular pid ps : len ps < 2 ^ 17 -> regular pid (2 ^ 17) ps.
Proof.
  intros Hl A B C -> HB. rewrite !len_app in Hl. pose proof (len_nonneg A). pose proof (len_nonneg C). lia.
Qed.

Lemma smoother_loses_nothing_witness : exists ctx ctx' lost W P,
  smoother_pcr_alloc (fun n => Some (replicate (Z.to_nat n) 0)) (fun _ => 1700000000) (fun _ _ => AllocOk) true true (fun _ => true)
    (Timeval 1700000000 0) 4 1316 0x100 100 = Some (Some ctx) /\
  smoother_run (fun n => Some (replicate (Z.to_nat n) 0)) witness_sched (fun _ => Timeval 1700000000 0) (fun _ => 1700000000)
    (fun _ _ => AllocOk) 1 ctx witness_writes = Some ctx' /\
  packets_of witness_writes = lost ++ W ++ P /\
  concat (map oc_buf (sm_calls ctx')) ++ concat (map item_bytes (th_loc ctx')) ++ concat (map item_bytes (itemsBusy ctx')) = concat W.
Proof.
  destruct (smoother_loses_nothing (fun n => Some (replicate (Z.to_nat n) 0)) witness_sched (fun _ => Timeval 1700000000 0)
    (fun _ => 1700000000) (fun _ _ => AllocOk) 1 (Timeval 1700000000 0) 4 0x100 100 witness_writes)
    as (ctx & ctx' & lost & W & P & H1 & H2 & H3 & _ & H5 & _).
  - exact witness_environment.
  - split; cbn; lia.
  - lia.
  - lia.
  - exact witness_writes_ok.
  - apply few_regular. by vm_compute.
  - by vm_compute.
  - by vm_compute.
  - exists ctx, ctx', lost, W, P. repeat (split; [assumption|]). assumption.
Defined.

Lemma sorted_due uS l k : StronglySorted before l -> Forall (fun e => due uS e = true) (take k l) ->
  match drop k l with [] => True | e :: _ => due uS e = false end ->
  take k l = List.filter (due uS) l /\ drop k l = List.filter (fun e => negb (due uS e)) l.
Proof.
  revert k. induction l as [|e l IH]; intros k Hs Ht Hd; [by rewrite take_nil, drop_nil|].
  inversion Hs as [|? ? Hs' Hall]; subst. destruct k as [|k]; cbn [take drop List.filter] in *.
  - rewrite Hd. cbn [negb].
    assert (H : Forall (fun x => due uS x = false) l).
    { revert Hall. apply List.Forall_impl. unfold before, due in *. intros x Hx. apply Z.leb_gt in Hd. apply Z.leb_gt. lia. }
    clear - H. induction H as [|x l Hx _ [IH1 IH2]]; [done|]. cbn [List.filter]. rewrite Hx. cbn [negb]. split; [done|].
    injection IH2 as IH2. by rewrite <- IH2.
  - apply Forall_cons_1 in Ht as [He Ht]. rewrite He. cbn [negb]. destruct (IH k Hs' Ht Hd) as [-> ->]. done.
Qed.

(** C12: If the PCRs step forward, the busy list is at all times in the order of
    its schedule, although the time base is reset now and then, and so the
    thread takes, whenever it looks, exactly the items that are due: none early,
    none left behind one that is not. *)
Theorem smoother_keeps_schedule malloc sched gettimeofday time alloc patience now n pid latencyMS writes :
  environment_ok malloc sched gettimeofday alloc -> timeval_wf now -> 16 < pid <= 0x1ffe -> 50 <= latencyMS < 2 ^ 21 ->
  Forall write_ok writes -> regular pid (2 ^ 17) (packets_of writes) -> len (packets_of writes) < 2 ^ 34 -> len writes < 2 ^ 62 ->
  forward (pcr_values pid (packets_of writes)) ->
  exists ctx ctx',
    smoother_pcr_alloc malloc time alloc true true (fun _ => true) now n 1316 pid latencyMS = Some (Some ctx) /\
    smoother_run malloc sched gettimeofday time alloc patience ctx writes = Some ctx' /\
    StronglySorted before (itemsBusy ctx') /\
    forall uS, exists ctx'', _queueProcess_makeloc ctx' uS = (ctx'', List.filter (due uS) (itemsBusy ctx')) /\
      itemsBusy ctx'' = List.filter (fun e => negb (due uS e)) (itemsBusy ctx').
Proof.
  intros Henv Hnow Hpid Hl Hw Hr Hlen Hn Hfw.
  destruct (smoother_started malloc sched gettimeofday time alloc patience now n pid latencyMS writes Henv)
    as (ctx & ctx' & lost & W & P & sent & Ea & Er & Hs & Ht); try done; [lia|].
  destruct (Ht Hfw Hlen) as [To _ _ _ _]. exists ctx, ctx'. split_and!; try done. intros uS.
  destruct (makeloc_loop_spec uS (itemsBusy ctx') true ctx' [] eq_refl (iv_qbusy _ _ _ (wr_inv _ _ _ (sd_writing _ _ _ _ _ _ _ Hs))))
    as (k & h & E & Hk & Hd). destruct (sorted_due uS (itemsBusy ctx') k To Hk Hd) as [H1 H2].
  unfold _queueProcess_makeloc. rewrite E. cbn [app]. rewrite <- H1, <- H2. by eexists.
Qed.

Lemma smoother_keeps_schedule_witness : exists ctx ctx',
  smoother_pcr_alloc (fun n => Some (replicate (Z.to_nat n) 0)) (fun _ => 1700000000) (fun _ _ => AllocOk) true true (fun _ => true)
    (Timeval 1700000000 0) 4 1316 0x100 100 = Some (Some ctx) /\
  smoother_run (fun n => Some (replicate (Z.to_nat n) 0)) witness_sched (fun _ => Timeval 1700000000 0) (fun _ => 1700000000)
    (fun _ _ => AllocOk) 1 ctx witness_writes = Some ctx' /\ StronglySorted before (itemsBusy ctx').
Proof.
  destruct (smoother_keeps_schedule (fun n => Some (replicate (Z.to_nat n) 0)) witness_sched (fun _ => Timeval 1700000000 0)
    (fun _ => 1700000000) (fun _ _ => AllocOk) 1 (Timeval 1700000000 0) 4 0x100 100 witness_writes)
    as (ctx & ctx' & H1 & H2 & H3 & _).
  - exact witness_environment.
  - split; cbn; lia.
  - lia.
  - lia.
  - exact witness_writes_ok.
  - apply few_regular. by vm_compute.
  - by vm_compute.
  - by vm_compute.
  - replace (pcr_values 0x100 (packets_of witness_writes)) with [0; 2700; 5400; 8100; 10800] by (symmetry; vm_compute; reflexivity).
    repeat split; discriminate.
  - exists ctx, ctx'. split; [exact H1|]. split; [exact H2|exact H3].
Defined.

(** ** What the code does outside these hypotheses *)

Definition small_context (b : byte_array_s) (h : ltn_histogram_s) : smoother_pcr_context_s :=
  {| itemsFree := []; qFreeCount := 0; itemsBusy := []; qBusyCount := 0; totalUserBytes := 0;
     itemLengthBytes := 1316; outputCb := true; walltimeFirstPCRuS := 0; pcrFirst := -1; pcrTail := -1;
     pcrHead := -1; pcrPID := 0x100; blockingWrites := 0; verbose := 0; latencyuS := 100000;
     bitsReceivedSinceLastPCR := 0; sm_seqno := 0; last_seqno := 0; ba := b; didPcrReset := 0;
     lastPcrResetTime := 1700000000; pcrIntervalPerPacketTicksLast := 0; pcrIntervalTicksLast := 0;
     measuredLatencyMs := 0; measuredLatencyMs_hwm := 0; histReceive := h; histTransmit := h;
     totalAllocFootprintBytes := 0; totalItemGrowth := 0; totalItems := 0;
     th_loc := []; th_spent := []; sm_calls := []; sm_turn := 0 |}.

Definition small_write (sched : nat -> list thread_step) (ps : list (list Z)) : option smoother_pcr_context_s :=
  h ← ltn_histogram_alloc true true (Timeval 1700000000 0) (Some "receive"%string) 0 10;
  fst <$> smoother_pcr_write (fun n => Some (replicate (Z.to_nat n) 0)) sched (fun _ => Timeval 1700000000 0)
    (fun _ => 1700000000) (fun _ _ => AllocOk) 1
    (small_context {| ba_buf := []; ba_maxLengthBytes := 0; ba_lengthBytes := 0 |} h) (concat ps) (len (concat ps)) (Timeval 1700000000 0).

(** A PCR that steps back by less than the whole range gives a negative
    interval, which is no jump; the schedule of the items then runs backwards. *)
Example backward_pcr_unsorted :
  map si_scheduled_TSuS <$> (itemsBusy <$> small_write (fun _ => [])
    [pcr_packet 2000000000; pcr_packet 1000000000; pcr_packet 900000000; pcr_packet 800000000]) =
  Some [1700000000100000; 1699999963062963].
Proof. vm_compute. reflexivity. Qed.

(** Between five and ten seconds after the PCR wraps, the time since the first
    PCR is negative: items are due a day before they arrive. *)
Example schedule_after_wrap (h : ltn_histogram_s) :
  let ctx := (small_context {| ba_buf := []; ba_maxLengthBytes := 0; ba_lengthBytes := 0 |} h)
               <| pcrFirst := MAX_SCR_VALUE - 27000000 |> <| walltimeFirstPCRuS := 1700000000000000 |> in
  getScheduledOutputuS ctx (4 * 27000000) 0 = 1700000005100000 /\
  getScheduledOutputuS ctx (6 * 27000000) 0 = 1699904563382312.
Proof. by vm_compute. Qed.

(** The positions of an item are not reduced to the range of the clock. *)
Example positions_beyond_wrap :
  map pos_pcr <$> item_pcrs {| si_seqno := 0; si_buf := pcr_packet 0 ++ pcr_packet 0; si_lengthBytes := 376; si_maxLengthBytes := 376;
    si_pcrComputed := 0; si_pcrIntervalPerPacketTicks := 2700;
    si_pcrdata := {| pos_pcr := MAX_SCR_VALUE; pos_offset := 0; pos_pid := 0 |};
    si_received_TSuS := 0; si_scheduled_TSuS := 0; si_pcrDidReset := 0 |} 0 2 [] = Some [MAX_SCR_VALUE; MAX_SCR_VALUE + 2700].
Proof. by vm_compute. Qed.

(** A reset while the thread holds items: the bytes it then outputs are taken
    off a count that is 0 already. *)
Example reset_in_flight :
  (ctx ← small_write (fun _ => []) [pcr_packet 0; pcr_packet 2700; pcr_packet 5400];
   ctx ← thread_do ctx (ThreadTake 1700000000100000);
   ctx ← smoother_pcr_reset (fun _ => []) ctx;
   ctx ← thread_do ctx (ThreadOutput (Timeval 1700000000 0));
   Some (totalUserBytes ctx)) = Some (-188).
Proof. vm_compute. reflexivity. Qed.
