(* ===== verification/Vbv.v ===== *)
(** * The video buffer verifier: src/vbv.c, libltntools/vbv.h, timespec of time.c

    PES packets enter a buffer of a given size; a thread that plays the decoder
    takes them out when they are due.  A write is one step: its critical section
    and, outside it, the event it raises.  The thread's turn is three steps, one
    per critical section, between which the writer may run.  A double is a
    binary64 value of [SpecFloat], whose operations round as IEEE 754 says.
    [v_events]: the events given to the callback, oldest first; [v_taken]: the
    packets the decoder took. *)
From Stdlib Require Import ZArith Lia Bool String Floats.SpecFloat.
From stdpp Require Import base numbers list option.
From coqutil Require Import Datatypes.RecordSettersUsingExistingGetters.
From S2P Require Import Prelude Ts BitStream Pes Clock.

(** ** Doubles *)

Definition double : Type := spec_float.
Definition double_of (n : Z) : double := binary_normalize 53 1024 n 0 false.
Definition double_div (x y : double) : double := SFdiv 53 1024 x y.
Definition double_mul (x y : double) : double := SFmul 53 1024 x y.

(** A literal with two decimals: both operands are exact. *)
Definition literal (hundredths : Z) : double := double_div (double_of hundredths) (double_of 100).

(** The conversion to uint32_t drops the fraction; a value out of range is
    undefined. *)
Definition double_to_u32 (x : double) : option Z :=
  match x with
  | S754_zero _ => Some 0
  | S754_finite s m e =>
      let n := if 0 <=? e then Z.pos m * 2 ^ e else Z.pos m / 2 ^ (- e) in
      let n := if s then - n else n in
      if (0 <=? n) && (n <? 2 ^ 32) then Some n else None
  | _ => None
  end.

(** ** Time *)

Record timespec := Timespec { ts_sec : Z; ts_nsec : Z }.

Definition libltntstools_timespec_diff_ms (next_time last_time : timespec) : Z :=
  let sec := ts_sec next_time - ts_sec last_time in
  let nsec := ts_nsec next_time - ts_nsec last_time in
  let '(sec, nsec) := if nsec <? 0 then (sec - 1, nsec + 1000000000) else (sec, nsec) in
  i32 (sec * 1000 + Z.quot nsec 1000000).

Definition elapsedTicks90k (start end_ : timespec) : Z :=
  let sec := ts_sec end_ - ts_sec start in
  let nsec := ts_nsec end_ - ts_nsec start in
  let '(sec, nsec) := if nsec <? 0 then (sec - 1, nsec + 1000000000) else (sec, nsec) in
  if sec <? 0 then 0 else sec * 90000 + Z.quot (nsec * 90000) 1000000000.

(** ** Profiles *)

Inductive ltntstools_vbv_event_e :=
| EVENT_VBV_UNDEFINED
| EVENT_VBV_FULLNESS_PCT_LT_10PCT
| EVENT_VBV_FULLNESS_PCT_GT_90PCT
| EVENT_VBV_BPS
| EVENT_VBV_UNDERFLOW
| EVENT_VBV_OVERFLOW
| EVENT_VBV_OOO_DTS.

#[export] Instance vbv_event_eq_dec : EqDecision ltntstools_vbv_event_e.
Proof. solve_decision. Defined.

Definition ltntstools_vbv_event_name (e : ltntstools_vbv_event_e) : string :=
  match e with
  | EVENT_VBV_UNDEFINED => "EVENT_VBV_UNDEFINED"
  | EVENT_VBV_UNDERFLOW => "EVENT_VBV_UNDERFLOW"
  | EVENT_VBV_OVERFLOW => "EVENT_VBV_OVERFLOW"
  | EVENT_VBV_FULLNESS_PCT_LT_10PCT => "EVENT_VBV_FULLNESS_PCT_LT_10PCT"
  | EVENT_VBV_FULLNESS_PCT_GT_90PCT => "EVENT_VBV_FULLNESS_PCT_GT_90PCT"
  | EVENT_VBV_BPS => "EVENT_VBV_BPS"
  | EVENT_VBV_OOO_DTS => "EVENT_VBV_OOO_DTS"
  end.

Record vbv_bitrate_s := VbvBitrate { br_codec : Z; br_levelX10 : Z; br_bitdepth : Z }.

Definition vbv_bitrates : list vbv_bitrate_s :=
  [VbvBitrate 1 10 64; VbvBitrate 1 11 192; VbvBitrate 1 12 384; VbvBitrate 1 13 768; VbvBitrate 1 20 2400;
   VbvBitrate 1 21 4000; VbvBitrate 1 22 4000; VbvBitrate 1 30 10000; VbvBitrate 1 31 14000; VbvBitrate 1 32 20000;
   VbvBitrate 1 40 20000; VbvBitrate 1 41 50000; VbvBitrate 1 42 50000; VbvBitrate 1 50 135000; VbvBitrate 1 51 240000].

Definition ltntstools_vbv_bitrate_lookup (codec levelX10 : Z) : Z :=
  match List.find (fun b => (br_codec b =? u32 codec) && (br_levelX10 b =? u32 levelX10)) vbv_bitrates with
  | Some b => i32 (u32 (br_bitdepth b * 1000) / 8)
  | None => -1
  end.

Record vbv_decoder_profile_s := VbvProfile { vbv_buffer_size : Z; framerate : double }.

Definition framerates : list double := map literal [2398; 2400; 2500; 2997; 3000; 5000; 5994; 6000].

Definition isValidFramerate (f : double) : Z := if existsb (SFeqb f) framerates then 1 else 0.

Definition ltntstools_vbv_profile_validate (dp : vbv_decoder_profile_s) : Z :=
  if isValidFramerate (framerate dp) =? 0 then 0 else 1.

(** The profile is given by the caller, or NULL. *)
Definition ltntstools_vbv_profile_defaults (dp : option vbv_decoder_profile_s) (codec levelX10 : Z) (f : double)
    : option vbv_decoder_profile_s * Z :=
  match dp with
  | None => (None, -1)
  | Some dp =>
      let b := ltntstools_vbv_bitrate_lookup codec levelX10 in
      if b <? 0 then (Some dp, -1) else
      if isValidFramerate f =? 0 then (Some dp, -1) else
      (Some (VbvProfile (u32 b) f), 0)
  end.

Definition framerateToNs (f : double) : option Z := double_to_u32 (double_div (double_of 1000000000) f).
Definition framerateToUs (f : double) : option Z := double_to_u32 (double_div (double_of 1000000) f).
Definition framerateToTicks (f : double) : option Z :=
  double_to_u32 (double_mul (double_div (double_of 1000000) f) (double_of 27)).

(** ** The context *)

(** A packet without its data: the fields and the length of the raw buffer. *)
Record pkt_item_s := { pk_pkt : ltn_pes_packet; pk_raw : Z; pk_ts : timespec }.

Record vbv_statistic_s := Statistic { sc_ts : timespec; sc_count : Z }.
Definition ts_zero : timespec := Timespec 0 0.
Definition statistic_zero : vbv_statistic_s := Statistic ts_zero 0.

Record vbv_statistics_s := {
  vs_overflow : vbv_statistic_s;
  vs_underflow : vbv_statistic_s;
  vs_pkt : vbv_statistic_s;
  vs_ooo_dts : vbv_statistic_s;
  vs_fullness : vbv_statistic_s
}.

Definition stats_zero : vbv_statistics_s :=
  {| vs_overflow := statistic_zero; vs_underflow := statistic_zero; vs_pkt := statistic_zero;
     vs_ooo_dts := statistic_zero; vs_fullness := statistic_zero |}.

(** Where the thread is in its turn. *)
Inductive vbv_phase := AtGeneration | AtPermit | AtTake.

Record vbv_ctx_s := {
  v_pid : Z;
  v_verbose : Z;
  v_cb : bool;
  v_profile : vbv_decoder_profile_s;
  pktList : list pkt_item_s;
  usedBytes : Z;
  dts_lwm : Z;
  dts_hwm : Z;
  dts_last : Z;
  v_stats : vbv_statistics_s;
  decoder_stc : Z;
  encoder_stc : Z;
  diag_bytes_in : Z;
  diag_bytes_out : Z;
  diag_pkts_in : Z;
  diag_pkts_out : Z;
  diag_underflows : Z;
  diag_last_ts : timespec;
  lastInputTs : timespec;
  resetGeneration : Z;
  (* the thread's variables *)
  th_phase : vbv_phase;
  th_now : timespec;
  th_permit : Z;
  th_generation : Z;
  v_events : list ltntstools_vbv_event_e;
  v_taken : list pkt_item_s
}.

Definition INT64_MAX : Z := 9223372036854775807.
Definition DEFAULT_VBV_SIZE : Z := 800 * 1024.

Definition ltntstools_vbv_verbose (ctx : option vbv_ctx_s) (level : Z) : option vbv_ctx_s * Z :=
  match ctx with
  | None => (None, -1)
  | Some ctx => (Some (ctx <| v_verbose := i32 level |>), 0)
  end.

Definition statsReset (ctx : vbv_ctx_s) : vbv_ctx_s := ctx <| v_stats := stats_zero |>.

Definition bump (now : timespec) (s : vbv_statistic_s) : vbv_statistic_s := Statistic now (u64 (sc_count s + 1)).

(** The statistic of an event is counted, if it has one, and the event reported. *)
Definition raiseEvent (ctx : vbv_ctx_s) (now : timespec) (e : ltntstools_vbv_event_e) : vbv_ctx_s :=
  let st := v_stats ctx in
  let st := match e with
            | EVENT_VBV_UNDERFLOW => st <| vs_underflow := bump now (vs_underflow st) |>
            | EVENT_VBV_OVERFLOW => st <| vs_overflow := bump now (vs_overflow st) |>
            | EVENT_VBV_FULLNESS_PCT_LT_10PCT | EVENT_VBV_FULLNESS_PCT_GT_90PCT =>
                st <| vs_fullness := bump now (vs_fullness st) |>
            | _ => st
            end in
  let ctx := ctx <| v_stats := st |> in
  if v_cb ctx then ctx <| v_events := v_events ctx ++ [e] |> else ctx.

Definition clearPktListLocked (ctx : vbv_ctx_s) : vbv_ctx_s := ctx <| pktList := [] |>.

Definition resetModelLocked (ctx : vbv_ctx_s) (now : timespec) : vbv_ctx_s :=
  (clearPktListLocked ctx) <| usedBytes := 0 |> <| dts_hwm := 0 |> <| dts_lwm := INT64_MAX |> <| dts_last := INT64_MAX |>
    <| decoder_stc := INT64_MAX |> <| encoder_stc := 0 |>
    <| diag_bytes_in := 0 |> <| diag_bytes_out := 0 |> <| diag_pkts_in := 0 |> <| diag_pkts_out := 0 |>
    <| diag_underflows := 0 |> <| lastInputTs := ts_zero |> <| diag_last_ts := now |>
    <| resetGeneration := u64 (resetGeneration ctx + 1) |>.

Definition pktClock (pkt : ltn_pes_packet) : Z :=
  if negb (ltn_pes_packet_has_DTS pkt =? 0) then fld pkt DTS
  else if negb (ltn_pes_packet_has_PTS pkt =? 0) then fld pkt PTS
  else 0.

(** ** The writer *)

(** How the encoder's clock follows the time stamps. *)
Definition advance_encoder (ctx : vbv_ctx_s) (clk : Z) : option Z :=
  if dts_last ctx =? INT64_MAX then i64_ok (clk * 300)
  else if clk =? dts_last ctx then i64_ok (encoder_stc ctx + 0 * 300)
  else if dts_last ctx <? clk then
    d ← i64_ok (clk - dts_last ctx); t ← i64_ok (d * 300); i64_ok (encoder_stc ctx + t)
  else
    d ← i64_ok (MAX_PTS_VALUE - dts_last ctx); t ← i64_ok (d * 300);
    e ← i64_ok (encoder_stc ctx + t); c ← i64_ok (clk * 300); i64_ok (e + c).

(** The packet is appended: the body of the condition on the space. *)
Definition append_pkt (ctx : vbv_ctx_s) (item : pkt_item_s) (clk : Z) (now : timespec) : option vbv_ctx_s :=
  stc ← advance_encoder ctx clk;
  Some (ctx <| pktList := pktList ctx ++ [item] |>
            <| usedBytes := u32 (usedBytes ctx + pk_raw item) |>
            <| diag_bytes_in := u64 (diag_bytes_in ctx + pk_raw item) |>
            <| diag_pkts_in := u64 (diag_pkts_in ctx + 1) |>
            <| lastInputTs := now |>
            <| encoder_stc := stc |>
            <| dts_last := clk |>
            <| dts_hwm := if dts_hwm ctx <? clk then clk else dts_hwm ctx |>
            <| dts_lwm := if negb (clk =? 0) && (clk <=? dts_lwm ctx) && negb (clk =? 0) then clk else dts_lwm ctx |>).

(** [mem]: there is memory for the item; [now], [real]: the monotonic and the
    wall clock. *)
Definition addItem (ctx : vbv_ctx_s) (mem : bool) (now real : timespec) (pkt : ltn_pes_packet) (raw : Z)
    : option (vbv_ctx_s * Z) :=
  if negb mem then Some (ctx, -1) else
  let item := {| pk_pkt := set_data pkt None; pk_raw := raw; pk_ts := real |} in
  let clk := pktClock pkt in
  reset ← (if negb (clk =? 0) && negb (dts_last ctx =? INT64_MAX)
           then d ← i64_ok (dts_last ctx - clk); Some (90000 <=? d) else Some false);
  let ctx := if reset : bool then resetModelLocked ctx now else ctx in
  if u32 (usedBytes ctx + raw) <? vbv_buffer_size (v_profile ctx)
  then ctx ← append_pkt ctx item clk now; Some (ctx, 0)
  else Some (raiseEvent ctx real EVENT_VBV_OVERFLOW, -1).

Definition ltntstools_vbv_write (ctx : option vbv_ctx_s) (mem : bool) (now real : timespec)
    (pkt : option (ltn_pes_packet * Z)) : option (option vbv_ctx_s * Z) :=
  match ctx, pkt with
  | Some ctx, Some (pkt, raw) =>
      '(ctx, r) ← addItem ctx mem now real pkt raw;
      Some (Some ctx, if r <? 0 then -1 else 0)
  | _, _ => Some (ctx, -1)
  end.

Definition fullness_pct (used size : Z) : double :=
  double_mul (double_div (double_of used) (double_of size)) (double_of 100).

Definition ltntstools_vbv_get_fullness (ctx : option vbv_ctx_s) : option double * Z :=
  match ctx with
  | None => (None, -1)
  | Some ctx => (Some (fullness_pct (usedBytes ctx) (vbv_buffer_size (v_profile ctx))), 0)
  end.

(** ** The thread *)

(** 60% of a second. *)
Definition initial_cpb_removal_delay : Z := 90000 / 100 * 60.

(** A reset of the model, seen by its generation, closes the drain. *)
Definition check_generation (ctx : vbv_ctx_s) (now : timespec) : vbv_ctx_s :=
  let ctx := ctx <| th_now := now |> <| th_phase := AtPermit |> in
  if negb (th_generation ctx =? resetGeneration ctx)
  then ctx <| th_generation := resetGeneration ctx |> <| th_permit := 0 |> else ctx.

(** The drain opens when the time stamps span the initial delay; closed, the
    turn is over. *)
Definition check_permit (ctx : vbv_ctx_s) : option vbv_ctx_s :=
  if negb (th_permit ctx =? 0) then Some (ctx <| th_phase := AtTake |>) else
  full ← (if negb (dts_lwm ctx =? INT64_MAX) && negb (dts_hwm ctx =? 0)
          then d ← i64_ok (dts_hwm ctx - dts_lwm ctx); Some (initial_cpb_removal_delay <? d) else Some false);
  Some (if full : bool then ctx <| th_permit := 1 |> <| th_phase := AtTake |> else ctx <| th_phase := AtGeneration |>).

Definition printDiagnostics (ctx : vbv_ctx_s) (now : timespec) : vbv_ctx_s :=
  if libltntstools_timespec_diff_ms now (diag_last_ts ctx) <? 1000 then ctx else
  ctx <| diag_bytes_in := 0 |> <| diag_bytes_out := 0 |> <| diag_pkts_in := 0 |> <| diag_pkts_out := 0 |>
      <| diag_underflows := 0 |> <| diag_last_ts := now |>.

(** How far beyond now the first packet is due. *)
Definition ticks_until_due (ctx : vbv_ctx_s) (item : pkt_item_s) : option Z :=
  hwm ← (if negb (ts_sec (lastInputTs ctx) =? 0) || negb (ts_nsec (lastInputTs ctx) =? 0)
         then i64_ok (dts_hwm ctx + elapsedTicks90k (lastInputTs ctx) (th_now ctx)) else Some (dts_hwm ctx));
  due ← i64_ok (hwm - initial_cpb_removal_delay);
  i64_ok (pktClock (pk_pkt item) - due).

(** The decoder takes the first packet if it is due; it finds none: underflow.
    [real], [now]: the clocks of the event and of the diagnostics. *)
Definition decode (ctx : vbv_ctx_s) (real now : timespec) : option vbv_ctx_s :=
  ctx ← match pktList ctx with
        | item :: l =>
            t ← ticks_until_due ctx item;
            if t <=? 0 then
              let ctx := ctx <| decoder_stc := pktClock (pk_pkt item) |> <| pktList := l |>
                             <| usedBytes := u32 (usedBytes ctx - pk_raw item) |>
                             <| diag_bytes_out := u64 (diag_bytes_out ctx + pk_raw item) |>
                             <| diag_pkts_out := u64 (diag_pkts_out ctx + 1) |>
                             <| v_taken := v_taken ctx ++ [item] |> in
              let pct := fullness_pct (usedBytes ctx) (vbv_buffer_size (v_profile ctx)) in
              Some (if SFltb pct (double_of 10) then raiseEvent ctx real EVENT_VBV_FULLNESS_PCT_LT_10PCT
                    else if SFltb (double_of 90) pct then raiseEvent ctx real EVENT_VBV_FULLNESS_PCT_GT_90PCT
                    else ctx)
            else Some ctx
        | [] =>
            (* the time the thread sleeps *)
            _ ← framerateToUs (framerate (v_profile ctx));
            Some (raiseEvent (ctx <| diag_underflows := u64 (diag_underflows ctx + 1) |>) real EVENT_VBV_UNDERFLOW)
        end;
  let ctx := if negb (v_verbose ctx =? 0) then printDiagnostics ctx now else ctx in
  Some (ctx <| th_phase := AtGeneration |>).

(** The next critical section of vbv_threadFunc. *)
Definition vbv_thread_step (ctx : vbv_ctx_s) (now real : timespec) : option vbv_ctx_s :=
  match th_phase ctx with
  | AtGeneration => Some (check_generation ctx now)
  | AtPermit => check_permit ctx
  | AtTake => decode ctx real now
  end.

(** [None]: no memory, or no profile. *)
Definition ltntstools_vbv_alloc (mem : bool) (pid : Z) (cb : bool) (p : option vbv_decoder_profile_s) (now : timespec)
    : option vbv_ctx_s :=
  match mem, p with
  | true, Some p =>
      let p := if vbv_buffer_size p =? 0 then VbvProfile DEFAULT_VBV_SIZE (framerate p) else p in
      Some (statsReset
        {| v_pid := pid; v_verbose := 0; v_cb := cb; v_profile := p; pktList := []; usedBytes := 0;
           dts_lwm := INT64_MAX; dts_hwm := 0; dts_last := INT64_MAX; v_stats := stats_zero;
           decoder_stc := INT64_MAX; encoder_stc := 0; diag_bytes_in := 0; diag_bytes_out := 0;
           diag_pkts_in := 0; diag_pkts_out := 0; diag_underflows := 0; diag_last_ts := now;
           lastInputTs := ts_zero; resetGeneration := 0;
           th_phase := AtGeneration; th_now := now; th_permit := 0; th_generation := 0;
           v_events := []; v_taken := [] |})
  | _, _ => None
  end.
