(* ===== verification/VbvSpec.v ===== *)
(** * What the video buffer verifier promises

    The buffer is a bounded queue whatever the writer and the thread do, and a
    stream that keeps coming never underflows it. *)
From Stdlib Require Import ZArith Lia Bool String Floats.SpecFloat Sorting.Sorted.
From stdpp Require Import base numbers list option.
From coqutil Require Import Datatypes.RecordSettersUsingExistingGetters.
From S2P Require Import Prelude Ts BitStream Pes Clock Vbv.

(** ** Runs: writes and turns of the thread in any order *)

Inductive vbv_op :=
| VbvWrite (mem : bool) (now real : timespec) (pkt : ltn_pes_packet) (raw : Z)
| VbvThread (now real : timespec).

Definition vbv_step (ctx : vbv_ctx_s) (op : vbv_op) : option (vbv_ctx_s * Z) :=
  match op with
  | VbvWrite mem now real pkt raw =>
      '(c, r) ← ltntstools_vbv_write (Some ctx) mem now real (Some (pkt, raw)); c ← c; Some (c, r)
  | VbvThread now real => ctx ← vbv_thread_step ctx now real; Some (ctx, 0)
  end.

(** The context and the values returned. *)
Definition vbv_run (ctx : vbv_ctx_s) (ops : list vbv_op) : option (vbv_ctx_s * list Z) :=
  foldM (fun '(c, rs) op => '(c, r) ← vbv_step c op; Some (c, rs ++ [r])) ops (ctx, []).

Definition timespec_ok (t : timespec) : Prop := 0 <= ts_sec t < 2 ^ 40 /\ 0 <= ts_nsec t < 1000000000.

Definition op_ok (op : vbv_op) : Prop :=
  match op with
  | VbvWrite mem now _ pkt raw => mem = true /\ timespec_ok now /\ 0 <= raw < 2 ^ 31 /\ 0 <= pktClock pkt < 2 ^ 33
  | VbvThread now _ => timespec_ok now
  end.

(** The item a write would queue. *)
Definition item_of (op : vbv_op) : list pkt_item_s :=
  match op with
  | VbvWrite _ _ real pkt raw => [{| pk_pkt := set_data pkt None; pk_raw := raw; pk_ts := real |}]
  | VbvThread _ _ => []
  end.

Definition bytes_queued (l : list pkt_item_s) : Z := foldr (fun i n => pk_raw i + n) 0 l.

Lemma bytes_queued_app l k : bytes_queued (l ++ k) = bytes_queued l + bytes_queued k.
Proof. induction l as [|i l IH]; cbn [app bytes_queued foldr]; [done|]. unfold bytes_queued in *. lia. Qed.

Lemma bytes_queued_nonneg l : Forall (fun i => 0 <= pk_raw i) l -> 0 <= bytes_queued l.
Proof. induction 1; unfold bytes_queued in *; cbn [foldr]; lia. Qed.

(** ** The invariant

    [n]: the steps so far; [all]: the items accepted; [lost]: the number refused. *)

Definition item_ok (i : pkt_item_s) : Prop := 0 <= pk_raw i < 2 ^ 31 /\ 0 <= pktClock (pk_pkt i) < 2 ^ 33.

Lemma items_nonneg l : Forall item_ok l -> 0 <= bytes_queued l.
Proof. intros H. apply bytes_queued_nonneg. revert H. apply List.Forall_impl. intros i [Hi _]. lia. Qed.

Definition stamp_ok (c : Z) : Prop := c = INT64_MAX \/ 0 <= c < 2 ^ 33.

Record vbv_inv (size n lost : Z) (all : list pkt_item_s) (ctx : vbv_ctx_s) : Prop := {
  vi_size : vbv_buffer_size (v_profile ctx) = size;
  vi_rate : isValidFramerate (framerate (v_profile ctx)) = 1;
  vi_items : Forall item_ok (pktList ctx);
  vi_used : usedBytes ctx = bytes_queued (pktList ctx);
  vi_room : usedBytes ctx < size;
  vi_last : stamp_ok (dts_last ctx);
  vi_lwm : stamp_ok (dts_lwm ctx);
  vi_hwm : 0 <= dts_hwm ctx < 2 ^ 33;
  vi_stc : 0 <= encoder_stc ctx <= (n + 1) * (300 * 2 ^ 33);
  vi_input : timespec_ok (lastInputTs ctx);
  vi_now : timespec_ok (th_now ctx);
  vi_order : (v_taken ctx ++ pktList ctx) `sublist_of` all;
  vi_lost : sc_count (vs_overflow (v_stats ctx)) = u64 lost
}.

Lemma elapsed_bound a b : timespec_ok a -> timespec_ok b -> 0 <= elapsedTicks90k a b < 2 ^ 58.
Proof.
  intros [Ha1 Ha2] [Hb1 Hb2]. unfold elapsedTicks90k. cbv zeta.
  destruct (ts_nsec b - ts_nsec a <? 0) eqn:E; zbool; case_if; try lia.
  - assert (0 <= Z.quot ((ts_nsec b - ts_nsec a + 1000000000) * 90000) 1000000000 < 90000) by zlia. lia.
  - assert (0 <= Z.quot ((ts_nsec b - ts_nsec a) * 90000) 1000000000 < 90000) by zlia. lia.
Qed.

(** A valid frame rate is one of the doubles of the table. *)
Lemma eqb_finite f s m e : SFeqb f (S754_finite s m e) = true -> f = S754_finite s m e.
Proof.
  destruct f as [[]|[]| |[] m' e']; destruct s; cbn; try done; unfold SFeqb, SFcompare;
    destruct (Z.compare_spec e' e) as [->| |]; try done;
    destruct (Pos.compare_spec m' m) as [->| |]; cbn; try done;
    change (PosDef.Pos.compare_cont Eq m' m) with (Pos.compare m' m);
    first [rewrite (proj2 (Pos.compare_lt_iff m' m)) by done|rewrite (proj2 (Pos.compare_gt_iff m' m)) by lia]; done.
Qed.

Lemma rate_defined f : isValidFramerate f = 1 -> exists us, framerateToUs f = Some us.
Proof.
  unfold isValidFramerate. case_if; [|done]. intros _. unfold framerates in E.
  repeat match type of E with context [literal ?x] =>
    let v := eval vm_compute in (literal x) in change (literal x) with v in E end.
  cbn [existsb map] in E.
  repeat (apply orb_true_iff in E as [E|E]; [apply eqb_finite in E as ->; eexists; vm_compute; reflexivity|]). done.
Qed.

Lemma pkt_clock_data p : pktClock (set_data p None) = pktClock p.
Proof. done. Qed.

Lemma stamp_bound c : stamp_ok c -> 0 <= c <= INT64_MAX.
Proof. unfold stamp_ok, INT64_MAX. lia. Qed.

Lemma raise_inv size n lost all ctx now e : vbv_inv size n lost all ctx -> 0 <= lost ->
  vbv_inv size n (lost + if decide (e = EVENT_VBV_OVERFLOW) then 1 else 0) all (raiseEvent ctx now e).
Proof.
  intros [] Hl. unfold raiseEvent. cbv zeta.
  match goal with |- context [v_cb ?c] => change (v_cb c) with (v_cb ctx) end.
  destruct (decide (e = EVENT_VBV_OVERFLOW)) as [->|Hne].
  - constructor; destruct (v_cb ctx); try done; cbn; unfold const; rewrite vi_lost0; zlia.
  - rewrite Z.add_0_r. constructor; destruct (v_cb ctx), e; done.
Qed.

Lemma raise_other_inv size n lost all ctx now e : vbv_inv size n lost all ctx -> 0 <= lost -> e <> EVENT_VBV_OVERFLOW ->
  vbv_inv size n lost all (raiseEvent ctx now e).
Proof. intros H Hl He. pose proof (raise_inv _ _ _ _ _ now e H Hl) as H'. by rewrite decide_False, Z.add_0_r in H' by done. Qed.

Lemma underflows_inv size n lost all ctx k : vbv_inv size n lost all ctx -> vbv_inv size n lost all (ctx <| diag_underflows := k |>).
Proof. intros []. by constructor. Qed.

Lemma reset_inv size n lost all ctx now : vbv_inv size n lost all ctx -> 0 < size -> 0 <= n ->
  vbv_inv size n lost all (resetModelLocked ctx now).
Proof.
  intros [] Hs Hn. constructor; cbn; unfold const; try done; try (by left); try lia.
  rewrite app_nil_r. etransitivity; [|exact vi_order0]. by apply sublist_inserts_r.
Qed.

Lemma advance_encoder_spec size n lost all ctx clk : vbv_inv size n lost all ctx -> 0 <= clk < 2 ^ 33 -> 0 <= n < 2 ^ 21 ->
  exists s, advance_encoder ctx clk = Some s /\ 0 <= s <= (n + 2) * (300 * 2 ^ 33).
Proof.
  intros [] Hc Hn. unfold advance_encoder, MAX_PTS_VALUE. destruct vi_last0 as [E|E].
  { rewrite E, Z.eqb_refl. rewrite i64_ok_Some by lia. eexists. split; [done|]. lia. }
  rewrite (proj2 (Z.eqb_neq _ _)) by (unfold INT64_MAX; lia). repeat case_if.
  - rewrite i64_ok_Some by lia. eexists. split; [done|]. lia.
  - rewrite i64_ok_Some by lia. step. rewrite i64_ok_Some by lia. step. rewrite i64_ok_Some by lia. eexists. split; [done|]. lia.
  - repeat (rewrite i64_ok_Some by lia; step). eexists. split; [done|]. lia.
Qed.

Lemma append_inv size n lost all ctx item now : vbv_inv size n lost all ctx -> item_ok item -> timespec_ok now ->
  size < 2 ^ 31 -> 0 <= n < 2 ^ 21 -> usedBytes ctx + pk_raw item < size ->
  exists ctx', append_pkt ctx item (pktClock (pk_pkt item)) now = Some ctx' /\ vbv_inv size (n + 1) lost (all ++ [item]) ctx'.
Proof.
  intros Hinv [Hr Hc] Hnow Hs Hn Hroom. unfold append_pkt.
  destruct (advance_encoder_spec _ _ _ _ _ (pktClock (pk_pkt item)) Hinv Hc Hn) as (s & -> & Hb). step.
  eexists. split; [reflexivity|]. destruct Hinv.
  assert (0 <= usedBytes ctx) by (rewrite vi_used0; by apply items_nonneg).
  constructor; cbn; unfold const; try done.
  - apply Forall_app. split; [done|]. by apply Forall_singleton.
  - rewrite bytes_queued_app, u32_id by lia. change (bytes_queued [item]) with (pk_raw item + 0). lia.
  - rewrite u32_id by lia. lia.
  - by right.
  - case_if; [right; lia|done].
  - case_if; lia.
  - lia.
  - rewrite app_assoc. by apply sublist_app.
Qed.

Lemma inv_weaken size n n' lost all ctx : vbv_inv size n lost all ctx -> n <= n' -> vbv_inv size n' lost all ctx.
Proof. intros [] Hn. constructor; try done; lia. Qed.

Lemma write_inv size n lost all ctx now real pkt raw : vbv_inv size n lost all ctx -> op_ok (VbvWrite true now real pkt raw) ->
  0 < size < 2 ^ 31 -> 0 <= n < 2 ^ 21 -> 0 <= lost ->
  exists ctx' r, vbv_step ctx (VbvWrite true now real pkt raw) = Some (ctx', r) /\ (r = 0 \/ r = -1) /\
    vbv_inv size (n + 1) (lost + if r =? -1 then 1 else 0) (all ++ if r =? -1 then [] else item_of (VbvWrite true now real pkt raw)) ctx'.
Proof.
  intros Hinv (_ & Hnow & Hr & Hc) Hs Hn Hlost. cbn [vbv_step ltntstools_vbv_write]. unfold addItem. cbn [negb].
  set (item := {| pk_pkt := set_data pkt None; pk_raw := raw; pk_ts := real |}).
  assert (exists b, (if negb (pktClock pkt =? 0) && negb (dts_last ctx =? INT64_MAX)
    then d ← i64_ok (dts_last ctx - pktClock pkt); Some (90000 <=? d) else Some false) = Some b) as [b ->].
  { case_match; [|by eexists]. rewrite i64_ok_Some; [by eexists|]. pose proof (stamp_bound _ (vi_last _ _ _ _ _ Hinv)). unfold INT64_MAX in *. lia. }
  step. set (c1 := if b then resetModelLocked ctx now else ctx).
  assert (H1 : vbv_inv size n lost all c1) by (unfold c1; destruct b; [apply reset_inv; done || lia|done]).
  assert (0 <= usedBytes c1) by (rewrite (vi_used _ _ _ _ _ H1); apply items_nonneg, (vi_items _ _ _ _ _ H1)).
  rewrite (vi_size _ _ _ _ _ H1). assert (Hroom := vi_room _ _ _ _ _ H1). rewrite u32_id by lia. cbv zeta. case_if.
  - destruct (append_inv size n lost all c1 item now H1) as (c2 & E2 & H2); try done; try lia.
    change (pktClock pkt) with (pktClock (pk_pkt item)). rewrite E2. step. exists c2, 0. split; [done|]. split; [by left|].
    cbn [Z.eqb]. by rewrite Z.add_0_r.
  - step. eexists _, (-1). split; [reflexivity|]. split; [by right|]. cbn [Z.eqb Pos.eqb].
    pose proof (raise_inv size n lost all c1 real EVENT_VBV_OVERFLOW H1 Hlost) as H2.
    rewrite decide_True in H2 by done. rewrite app_nil_r. apply (inv_weaken _ n); [done|lia].
Qed.

Lemma diagnostics_inv size n lost all ctx now : vbv_inv size n lost all ctx -> vbv_inv size n lost all (printDiagnostics ctx now).
Proof. intros H. unfold printDiagnostics. case_if; [done|]. destruct H. by constructor. Qed.

Lemma phase_inv size n lost all ctx p : vbv_inv size n lost all ctx -> vbv_inv size n lost all (ctx <| th_phase := p |>).
Proof. intros []. by constructor. Qed.

Lemma due_defined size n lost all ctx item : vbv_inv size n lost all ctx -> item_ok item ->
  exists t, ticks_until_due ctx item = Some t.
Proof.
  intros [] [_ Hc]. unfold ticks_until_due. change initial_cpb_removal_delay with 54000. pose proof (elapsed_bound _ _ vi_input0 vi_now0).
  assert (exists h, (if negb (ts_sec (lastInputTs ctx) =? 0) || negb (ts_nsec (lastInputTs ctx) =? 0)
    then i64_ok (dts_hwm ctx + elapsedTicks90k (lastInputTs ctx) (th_now ctx)) else Some (dts_hwm ctx)) = Some h /\
    0 <= h < 2 ^ 59) as (h & -> & Hh).
  { case_match; [rewrite i64_ok_Some by lia|]; eexists; split; done || lia. }
  step. rewrite i64_ok_Some by lia. step. rewrite i64_ok_Some by lia. by eexists.
Qed.

(** The head of the list leaves. *)
Lemma taken_inv size n lost all ctx item l k1 k2 k3 : vbv_inv size n lost all ctx -> size < 2 ^ 31 -> pktList ctx = item :: l ->
  vbv_inv size n lost all (ctx <| decoder_stc := k1 |> <| pktList := l |> <| usedBytes := u32 (usedBytes ctx - pk_raw item) |>
    <| diag_bytes_out := k2 |> <| diag_pkts_out := k3 |> <| v_taken := v_taken ctx ++ [item] |>).
Proof.
  intros [] Hs El. rewrite El in *. apply Forall_cons_1 in vi_items0 as [[Hr Hc] Hl].
  assert (0 <= bytes_queued l) by (by apply items_nonneg).
  unfold bytes_queued in vi_used0. cbn [foldr] in vi_used0. fold (bytes_queued l) in vi_used0.
  assert (u32 (usedBytes ctx - pk_raw item) = bytes_queued l) as Hu by (rewrite u32_id; lia).
  constructor; cbn; unfold const; rewrite ?Hu; try done; [lia|]. by rewrite <- app_assoc.
Qed.

Lemma thread_inv size n lost all ctx now real : vbv_inv size n lost all ctx -> timespec_ok now -> 0 < size < 2 ^ 31 -> 0 <= lost ->
  exists ctx', vbv_thread_step ctx now real = Some ctx' /\ vbv_inv size n lost all ctx'.
Proof.
  intros Hinv Hnow Hs Hlost. unfold vbv_thread_step. destruct (th_phase ctx).
  - eexists. split; [done|]. unfold check_generation. case_match; destruct Hinv; by constructor.
  - unfold check_permit. case_match; [eexists; split; [done|by apply phase_inv]|].
    assert (exists b, (if negb (dts_lwm ctx =? INT64_MAX) && negb (dts_hwm ctx =? 0)
      then d ← i64_ok (dts_hwm ctx - dts_lwm ctx); Some (initial_cpb_removal_delay <? d) else Some false) = Some b) as [b ->].
    { case_match; [|by eexists]. rewrite i64_ok_Some; [by eexists|]. pose proof (stamp_bound _ (vi_lwm _ _ _ _ _ Hinv)).
      pose proof (vi_hwm _ _ _ _ _ Hinv). unfold INT64_MAX in *. lia. }
    step. eexists. split; [done|]. destruct b; destruct Hinv; by constructor.
  - unfold decode. destruct (pktList ctx) as [|item l] eqn:El.
    + destruct (rate_defined _ (vi_rate _ _ _ _ _ Hinv)) as [us ->]. step. eexists. split; [reflexivity|].
      assert (H := raise_other_inv _ _ _ _ _ real EVENT_VBV_UNDERFLOW (underflows_inv _ _ _ _ _ (u64 (diag_underflows ctx + 1)) Hinv) Hlost ltac:(done)).
      apply phase_inv. case_match; [by apply diagnostics_inv|done].
    + assert (Hi : item_ok item) by (generalize (vi_items _ _ _ _ _ Hinv); rewrite El; intros H; by inversion H).
      destruct (due_defined _ _ _ _ _ item Hinv Hi) as [t ->]. step.
      match goal with |- context [if t <=? 0 then ?x else ?y] => assert (H : exists c, (if t <=? 0 then x else y) = Some c /\ vbv_inv size n lost all c) end.
      { case_if; [|by eexists]. eexists. split; [reflexivity|].
        pose proof (taken_inv size n lost all ctx item l (pktClock (pk_pkt item)) (u64 (diag_bytes_out ctx + pk_raw item)) (u64 (diag_pkts_out ctx + 1)) Hinv (proj2 Hs) El) as Ht.
        repeat case_match; [by apply raise_other_inv|by apply raise_other_inv|done]. }
      destruct H as (c & -> & Hc). step. eexists. split; [reflexivity|]. apply phase_inv. case_match; [by apply diagnostics_inv|done].
Qed.

(** One operation. *)
Definition kept (op : vbv_op) (r : Z) : list pkt_item_s := if r =? -1 then [] else item_of op.
Definition refused (r : Z) : Z := if r =? -1 then 1 else 0.

Lemma step_inv size n lost all ctx op : vbv_inv size n lost all ctx -> op_ok op -> 0 < size < 2 ^ 31 -> 0 <= n < 2 ^ 21 ->
  0 <= lost ->
  exists ctx' r, vbv_step ctx op = Some (ctx', r) /\ vbv_inv size (n + 1) (lost + refused r) (all ++ kept op r) ctx'.
Proof.
  intros Hinv Hop Hs Hn Hl. destruct op as [mem now real pkt raw|now real].
  - destruct mem; [|by destruct Hop]. destruct (write_inv _ _ _ _ _ _ _ _ _ Hinv Hop Hs Hn Hl) as (c & r & E & _ & H). by exists c, r.
  - destruct (thread_inv _ _ _ _ _ now real Hinv Hop Hs Hl) as (c & E & H). cbn [vbv_step]. rewrite E. step.
    exists c, 0. split; [done|]. unfold kept, refused. cbn [Z.eqb item_of]. rewrite app_nil_r, Z.add_0_r.
    apply (inv_weaken _ n); [done|lia].
Qed.

Definition accepted (ops : list vbv_op) (rs : list Z) : list pkt_item_s := concat (zip_with kept ops rs).
Definition refusals (rs : list Z) : Z := foldr (fun r n => refused r + n) 0 rs.

Lemma run_cons ctx op ops :
  vbv_run ctx (op :: ops) =
    ('(c, r) ← vbv_step ctx op; '(c', rs) ← vbv_run c ops; Some (c', r :: rs)).
Proof.
  unfold vbv_run. cbn [foldM]. destruct (vbv_step ctx op) as [[c r]|]; [|done]. step. cbn [app].
  assert (H : forall ops c rs, foldM (fun '(c, rs) op => '(c, r) ← vbv_step c op; Some (c, rs ++ [r])) ops (c, r :: rs) =
    ('(c', rs) ← foldM (fun '(c, rs) op => '(c, r) ← vbv_step c op; Some (c, rs ++ [r])) ops (c, rs); Some (c', r :: rs))).
  { clear. induction ops as [|op ops IH]; intros c rs; cbn [foldM]; [done|].
    destruct (vbv_step c op) as [[c' r']|]; [|done]. step. cbn [app]. apply IH. }
  apply H.
Qed.

Lemma run_inv size ops : forall n lost all ctx, vbv_inv size n lost all ctx -> Forall op_ok ops -> 0 < size < 2 ^ 31 ->
  0 <= n -> n + len ops < 2 ^ 21 -> 0 <= lost ->
  exists ctx' rs, vbv_run ctx ops = Some (ctx', rs) /\
    vbv_inv size (n + len ops) (lost + refusals rs) (all ++ accepted ops rs) ctx' /\ 0 <= refusals rs <= len ops.
Proof.
  induction ops as [|op ops IH]; intros n lost all ctx Hinv Hops Hs Hn Hlen Hl.
  - exists ctx, []. split; [done|]. unfold accepted. cbn [zip_with concat refusals foldr]. rewrite app_nil_r, !Z.add_0_r.
    split; [done|]. pose proof (len_nonneg (@nil vbv_op)). lia.
  - apply Forall_cons_1 in Hops as [Hop Hops]. rewrite len_cons in Hlen. pose proof (len_nonneg ops).
    destruct (step_inv _ _ _ _ _ op Hinv Hop Hs) as (c & r & E & H1); [lia..|].
    assert (0 <= refused r <= 1) by (unfold refused; case_if; lia).
    destruct (IH (n + 1) (lost + refused r) (all ++ kept op r) c) as (c' & rs & E' & H2 & H3); try done; try lia.
    exists c', (r :: rs). rewrite run_cons, E. step. rewrite E'. step. split; [done|]. rewrite len_cons.
    unfold accepted in *. cbn [zip_with concat refusals foldr] in *. fold (refusals rs). rewrite <- app_assoc in H2.
    split; [|lia]. replace (n + (len ops + 1)) with (n + 1 + len ops) by lia. by rewrite Z.add_assoc.
Qed.

Lemma alloc_inv pid cb p now ctx : ltntstools_vbv_alloc true pid cb (Some p) now = Some ctx ->
  isValidFramerate (framerate p) = 1 -> 0 <= vbv_buffer_size p -> timespec_ok now ->
  0 < vbv_buffer_size (v_profile ctx) /\ vbv_inv (vbv_buffer_size (v_profile ctx)) 0 0 [] ctx.
Proof.
  intros [= <-] Hf Hs Hnow. cbn. destruct (vbv_buffer_size p =? 0) eqn:E; zbool; (split; [cbn; unfold DEFAULT_VBV_SIZE; lia|]);
    constructor; cbn; unfold const; try done; try (by left); unfold DEFAULT_VBV_SIZE; lia.
Qed.

Lemma alloc_small pid cb p now ctx : ltntstools_vbv_alloc true pid cb (Some p) now = Some ctx ->
  vbv_buffer_size p < 2 ^ 31 -> vbv_buffer_size (v_profile ctx) < 2 ^ 31.
Proof. intros [= <-]. cbn. case_match; cbn; unfold DEFAULT_VBV_SIZE; lia. Qed.

(** ** A bounded queue *)

(** C19: whatever writes and turns of the thread are interleaved, fewer than
    2^21 of them (about four million small steps back of the time stamp overflow
    the encoder's clock, [encoder_overflows]), the buffer is a bounded queue:
    every step is defined; the bytes counted are the bytes of
    the packets held and stay below the size of the buffer; the packets the
    decoder took, then the ones held, are packets that were accepted, in their
    order; each write that was refused is one overflow of the statistics. *)
Theorem vbv_bounded_queue pid cb p t0 ctx ops : ltntstools_vbv_alloc true pid cb (Some p) t0 = Some ctx ->
  isValidFramerate (framerate p) = 1 -> 0 <= vbv_buffer_size p < 2 ^ 31 -> timespec_ok t0 ->
  Forall op_ok ops -> len ops < 2 ^ 21 ->
  exists ctx' rs, vbv_run ctx ops = Some (ctx', rs) /\
    usedBytes ctx' = bytes_queued (pktList ctx') /\
    usedBytes ctx' < vbv_buffer_size (v_profile ctx) /\
    (v_taken ctx' ++ pktList ctx') `sublist_of` accepted ops rs /\
    sc_count (vs_overflow (v_stats ctx')) = refusals rs.
Proof.
  intros Hctx Hf Hs Ht Hops Hlen. destruct (alloc_inv _ _ _ _ _ Hctx Hf) as [Hpos Hinv]; [lia|done|].
  pose proof (alloc_small _ _ _ _ _ Hctx (proj2 Hs)).
  destruct (run_inv _ ops 0 0 [] ctx Hinv Hops) as (ctx' & rs & E & [] & Hr); try lia.
  exists ctx', rs. split_and!; try done. rewrite vi_lost0, Z.add_0_l. apply u64_id. lia.
Qed.

(** ** A live stream *)

(** The time stamps written do not go back. *)
Fixpoint clocks_from (c : Z) (ops : list vbv_op) : Prop :=
  match ops with
  | [] => True
  | VbvWrite _ _ _ pkt _ :: ops => c <= pktClock pkt /\ clocks_from (pktClock pkt) ops
  | VbvThread _ _ :: ops => clocks_from c ops
  end.

(** When the thread comes to take a packet, the last one accepted is less than
    600 ms old. *)
Fixpoint never_silent (ctx : vbv_ctx_s) (ops : list vbv_op) : Prop :=
  match ops with
  | [] => True
  | op :: ops =>
      match op, th_phase ctx with
      | VbvThread _ _, AtTake => elapsedTicks90k (lastInputTs ctx) (th_now ctx) < initial_cpb_removal_delay
      | _, _ => True
      end /\
      match vbv_step ctx op with
      | Some (ctx', _) => never_silent ctx' ops
      | None => True
      end
  end.

Definition no_underflow (ctx : vbv_ctx_s) : Prop :=
  ~ In EVENT_VBV_UNDERFLOW (v_events ctx) /\ sc_count (vs_underflow (v_stats ctx)) = 0.

(** Nothing was accepted yet and the drain is closed; or the last packet held
    carries the highest time stamp. *)
Definition fed (c : Z) (ctx : vbv_ctx_s) : Prop :=
  (dts_last ctx = INT64_MAX /\ dts_hwm ctx = 0 /\ pktList ctx = [] /\ th_permit ctx = 0 /\ th_phase ctx <> AtTake) \/
  (dts_last ctx = dts_hwm ctx /\ 0 < dts_hwm ctx <= c /\
   exists l i, pktList ctx = l ++ [i] /\ pktClock (pk_pkt i) = dts_hwm ctx).

Lemma raise_quiet ctx now e : no_underflow ctx -> e <> EVENT_VBV_UNDERFLOW -> no_underflow (raiseEvent ctx now e).
Proof.
  intros [H1 H2] He. unfold raiseEvent, no_underflow. cbv zeta.
  match goal with |- context [v_cb ?c] => change (v_cb c) with (v_cb ctx) end.
  destruct (v_cb ctx), e; cbn; unfold const; split; try done; rewrite in_app_iff; by intros [?|[?|[]]].
Qed.

Lemma raise_fed c ctx now e : fed c ctx -> fed c (raiseEvent ctx now e).
Proof.
  unfold raiseEvent, fed. cbv zeta. match goal with |- context [v_cb ?c] => change (v_cb c) with (v_cb ctx) end.
  by destruct (v_cb ctx).
Qed.

(** A time stamp that does not go back resets nothing. *)
Lemma write_fed size n lost all c ctx mem now real pkt raw ctx' r : vbv_inv size n lost all ctx -> fed c ctx -> no_underflow ctx ->
  op_ok (VbvWrite mem now real pkt raw) -> 0 < c <= pktClock pkt ->
  vbv_step ctx (VbvWrite mem now real pkt raw) = Some (ctx', r) -> fed (pktClock pkt) ctx' /\ no_underflow ctx'.
Proof.
  intros Hinv Hfed Hq (-> & _ & _ & Hclk) Hc. cbn [vbv_step ltntstools_vbv_write]. unfold addItem. cbn [negb].
  assert ((if negb (pktClock pkt =? 0) && negb (dts_last ctx =? INT64_MAX)
    then d ← i64_ok (dts_last ctx - pktClock pkt); Some (90000 <=? d) else Some false) = Some false) as ->.
  { case_match eqn:E; [|done]. zbool. destruct Hfed as [(Hf & _)|(H1 & H2 & _)]; [done|].
    rewrite i64_ok_Some by lia. step. f_equal. apply Z.leb_gt. lia. }
  step. cbv zeta. case_if; step.
  - unfold append_pkt. destruct (advance_encoder ctx (pktClock pkt)) as [stc|]; [|done]. step. intros [= <- _].
    split; [|done]. right. cbn. unfold const.
    assert (dts_hwm ctx <= pktClock pkt) by (destruct Hfed as [(_ & Hh & _)|(_ & Hh & _)]; lia).
    replace (if dts_hwm ctx <? pktClock pkt then pktClock pkt else dts_hwm ctx) with (pktClock pkt) by (case_if; lia).
    split; [done|]. split; [lia|]. by eexists _, _.
  - intros [= <- _]. split; [|by apply raise_quiet]. apply raise_fed.
    destruct Hfed as [Hf|(H1 & H2 & H3)]; [by left|]. right. split; [done|]. split; [lia|done].
Qed.

Lemma diagnostics_fed c ctx now : fed c ctx -> fed c (printDiagnostics ctx now).
Proof. unfold printDiagnostics. by case_if. Qed.

Lemma diagnostics_quiet ctx now : no_underflow ctx -> no_underflow (printDiagnostics ctx now).
Proof. unfold printDiagnostics. by case_if. Qed.

(** The last packet held is not due while the stream is not silent. *)
Lemma last_not_due ctx item : pktClock (pk_pkt item) = dts_hwm ctx -> 0 <= dts_hwm ctx < 2 ^ 33 ->
  0 <= elapsedTicks90k (lastInputTs ctx) (th_now ctx) < initial_cpb_removal_delay ->
  exists t, ticks_until_due ctx item = Some t /\ 0 < t.
Proof.
  unfold ticks_until_due. change initial_cpb_removal_delay with 54000. intros -> Hh He. case_match.
  - repeat (rewrite i64_ok_Some by lia; step). eexists. split; [done|lia].
  - step. repeat (rewrite i64_ok_Some by lia; step). eexists. split; [done|lia].
Qed.

Lemma rest_fed c ctx : fed c ctx -> fed c (ctx <| th_phase := AtGeneration |>).
Proof. intros [(H1 & H2 & H3 & H4 & H5)|H]; [left; by split_and!|by right]. Qed.

Lemma thread_fed size n lost all c ctx now real ctx' : vbv_inv size n lost all ctx -> fed c ctx -> no_underflow ctx ->
  (th_phase ctx = AtTake -> elapsedTicks90k (lastInputTs ctx) (th_now ctx) < initial_cpb_removal_delay) ->
  vbv_thread_step ctx now real = Some ctx' -> fed c ctx' /\ no_underflow ctx'.
Proof.
  intros Hinv Hfed Hq Hel. unfold vbv_thread_step. destruct (th_phase ctx) eqn:Ep.
  - intros [= <-]. unfold check_generation. cbv zeta. case_match; (split; [|done]);
      (destruct Hfed as [(H1 & H2 & H3 & H4 & H5)|(H1 & H2 & H3)]; [left|right]); cbn; unfold const; split_and!; done || lia.
  - unfold check_permit. destruct Hfed as [(H1 & H2 & H3 & H4 & H5)|H].
    + rewrite H4, H2, Z.eqb_refl, andb_false_r. cbn [negb]. step. intros [= <-]. split; [left; cbn; unfold const; by split_and!|done].
    + case_match; [intros [= <-]; split; [by right|done]|].
      match goal with |- context [mbind ?k ?o] => destruct o as [b|]; [|done] end. step. intros [= <-].
      destruct b; (split; [by right|done]).
  - unfold decode. destruct Hfed as [(_ & _ & _ & _ & H)|(H1 & H2 & l & i & El & Hi)]; [done|].
    destruct (pktList ctx) as [|item k] eqn:Ek; [by destruct l|].
    destruct (ticks_until_due ctx item) as [t|] eqn:Et; [|done]. step.
    match goal with |- context [if t <=? 0 then ?x else ?y] => assert (H : exists c', (if t <=? 0 then x else y) = Some c' /\ fed c c' /\ no_underflow c') end.
    { case_if; [|eexists; split; [done|]; split; [right; rewrite Ek; split; [done|]; split; [lia|by exists l, i]|done]].
      destruct l as [|i0 l]; cbn [app] in El; simplify_eq.
      { destruct (last_not_due ctx i Hi) as (t' & Et' & Ht'); [exact (vi_hwm _ _ _ _ _ Hinv)| |simplify_eq; lia].
        pose proof (elapsed_bound _ _ (vi_input _ _ _ _ _ Hinv) (vi_now _ _ _ _ _ Hinv)). split; [lia|by apply Hel]. }
      eexists. split; [reflexivity|].
      repeat case_match; split; repeat first [apply raise_fed|apply raise_quiet]; try done;
        right; cbn; unfold const; (split; [done|]; split; [lia|]; by exists l, i). }
    destruct H as (c' & -> & H3 & H4). step. intros [= <-].
    split; [apply rest_fed|]; (case_match; [first [by apply diagnostics_fed|by apply diagnostics_quiet]|done]).
Qed.

Lemma run_fed size ops : forall n lost all c ctx, vbv_inv size n lost all ctx -> fed c ctx -> no_underflow ctx ->
  Forall op_ok ops -> 0 < size < 2 ^ 31 -> 0 <= n -> n + len ops < 2 ^ 21 -> 0 <= lost ->
  0 < c -> clocks_from c ops -> never_silent ctx ops ->
  exists ctx' rs, vbv_run ctx ops = Some (ctx', rs) /\ no_underflow ctx'.
Proof.
  induction ops as [|op ops IH]; intros n lost all c ctx Hinv Hfed Hq Hops Hs Hn Hlen Hl Hc Hclk Htime.
  { by exists ctx, []. }
  apply Forall_cons_1 in Hops as [Hop Hops]. rewrite len_cons in Hlen. pose proof (len_nonneg ops).
  destruct (step_inv _ _ _ _ _ op Hinv Hop Hs) as (ctx1 & r & E & H1); [lia..|].
  cbn [never_silent] in Htime. rewrite E in Htime. destruct Htime as [Hsil Htime].
  assert (exists c', fed c' ctx1 /\ no_underflow ctx1 /\ 0 < c' /\ clocks_from c' ops) as (c' & Hf1 & Hq1 & Hc1 & Hclk1).
  { destruct op as [mem now real pkt raw|now real]; cbn [clocks_from] in Hclk.
    - exists (pktClock pkt). destruct Hclk as [Hle Hclk].
      destruct (write_fed _ _ _ _ c _ _ _ _ _ _ _ _ Hinv Hfed Hq Hop ltac:(lia) E). split_and!; done || lia.
    - exists c. cbn [vbv_step] in E. destruct (vbv_thread_step ctx now real) as [ctx2|] eqn:E2; [|done]. cbn in E. simplify_eq.
      destruct (thread_fed _ _ _ _ c _ now real ctx1 Hinv Hfed Hq) as [Hf1 Hq1]; [intros Ep; by rewrite Ep in Hsil|done|].
      by split_and!. }
  assert (0 <= refused r) by (unfold refused; case_if; lia).
  destruct (IH _ _ _ c' _ H1 Hf1 Hq1) as (ctx' & rs & E' & Hq'); try done; try lia.
  exists ctx', (r :: rs). rewrite run_cons, E. step. rewrite E'. by step.
Qed.

(** C18: a stream that keeps coming does not underflow the buffer: if the time
    stamps written are positive and do not go back, and the last accepted packet
    is never older than 600 ms when the thread comes to take one, then no
    underflow is raised or counted, whatever the interleaving, the sizes of the
    packets and the packets refused. *)
Theorem vbv_live_no_underflow pid cb p t0 ctx ops : ltntstools_vbv_alloc true pid cb (Some p) t0 = Some ctx ->
  isValidFramerate (framerate p) = 1 -> 0 <= vbv_buffer_size p < 2 ^ 31 -> timespec_ok t0 ->
  Forall op_ok ops -> len ops < 2 ^ 21 -> clocks_from 1 ops -> never_silent ctx ops ->
  exists ctx' rs, vbv_run ctx ops = Some (ctx', rs) /\
    ~ In EVENT_VBV_UNDERFLOW (v_events ctx') /\ sc_count (vs_underflow (v_stats ctx')) = 0.
Proof.
  intros Hctx Hf Hs Ht Hops Hlen Hclk Htime.
  destruct (alloc_inv _ _ _ _ _ Hctx Hf) as [Hpos Hinv]; [lia|done|].
  pose proof (alloc_small _ _ _ _ _ Hctx (proj2 Hs)).
  assert (fed 1 ctx /\ no_underflow ctx) as [H1 H2] by (injection Hctx as <-; split; [left; by split_and!|by split; [intros []|]]).
  by apply (run_fed _ ops 0 0 [] 1 ctx Hinv H1 H2 Hops).
Qed.

(** ** A concrete stream: 25 packets a second *)

Definition sample_profile : vbv_decoder_profile_s := VbvProfile 30000 (literal 2500).

Definition sample_pkt (dts : Z) : ltn_pes_packet := set_fld (set_fld ltn_pes_packet_alloc PTS_DTS_flags 3) DTS dts.

Definition at_ms (ms : Z) : timespec := Timespec (1 + ms / 1000) (ms mod 1000 * 1000000).

(** A write, then a whole turn of the thread. *)
Definition sample_frame (bytes i : Z) : list vbv_op :=
  let t := at_ms (40 * i) in
  [VbvWrite true t t (sample_pkt (1000 + 3600 * i)) bytes; VbvThread t t; VbvThread t t; VbvThread t t].

Definition sample_stream (bytes n : Z) : list vbv_op :=
  concat (map (fun i => sample_frame bytes (Z.of_nat i)) (seq 0 (Z.to_nat n))).

Lemma sample_valid : isValidFramerate (framerate sample_profile) = 1.
Proof. vm_compute. reflexivity. Defined.

Lemma sample_clock t : pktClock (sample_pkt t) = t.
Proof. reflexivity. Qed.

Lemma at_ms_ok t : 0 <= t < 1000000 -> timespec_ok (at_ms t).
Proof. intros H. unfold timespec_ok, at_ms. cbn [ts_sec ts_nsec]. split; zlia. Qed.

Lemma sample_ops_ok : Forall op_ok (sample_stream 1000 40).
Proof.
  apply List.Forall_concat, Forall_map, List.Forall_forall. intros i Hi%in_seq. change (Z.to_nat 40) with 40%nat in Hi.
  repeat apply List.Forall_cons; try done; unfold op_ok; rewrite ?sample_clock; split_and?; try done; try apply at_ms_ok; lia.
Qed.

Lemma vbv_bounded_queue_witness : exists ctx ctx' rs,
  ltntstools_vbv_alloc true 256 true (Some sample_profile) (at_ms 0) = Some ctx /\
  vbv_run ctx (sample_stream 1000 40) = Some (ctx', rs) /\
  usedBytes ctx' = bytes_queued (pktList ctx') /\ usedBytes ctx' < 30000 /\
  sc_count (vs_overflow (v_stats ctx')) = refusals rs.
Proof.
  eexists.
  destruct (vbv_bounded_queue 256 true sample_profile (at_ms 0) _ (sample_stream 1000 40) eq_refl sample_valid)
    as (ctx' & rs & E & H1 & H2 & _ & H3);
    [vm_compute; split; [discriminate|reflexivity]|vm_compute; repeat split; discriminate|exact sample_ops_ok|vm_compute; reflexivity|].
  exists ctx', rs. split; [reflexivity|]. split; [exact E|]. split; [exact H1|]. split; [exact H2|exact H3].
Defined.

Lemma vbv_live_no_underflow_witness : exists ctx ctx' rs,
  ltntstools_vbv_alloc true 256 true (Some sample_profile) (at_ms 0) = Some ctx /\
  vbv_run ctx (sample_stream 1000 40) = Some (ctx', rs) /\ ~ In EVENT_VBV_UNDERFLOW (v_events ctx').
Proof.
  eexists.
  destruct (vbv_live_no_underflow 256 true sample_profile (at_ms 0) _ (sample_stream 1000 40) eq_refl sample_valid)
    as (ctx' & rs & E & H1 & _);
    [vm_compute; split; [discriminate|reflexivity]|vm_compute; repeat split; discriminate|exact sample_ops_ok
    |vm_compute; reflexivity|vm_compute; repeat split; discriminate|vm_compute; repeat split|].
  exists ctx', rs. split; [reflexivity|]. split; [exact E|exact H1].
Defined.

(** What a run from a new context leaves. *)
Definition sample_run {A} (f : vbv_ctx_s -> A) (ops : list vbv_op) : option A :=
  ctx ← ltntstools_vbv_alloc true 256 true (Some sample_profile) (at_ms 0);
  '(ctx, _) ← vbv_run ctx ops; Some (f ctx).

(** The decoder takes the packets 600 ms behind. *)
Example sample_taken : sample_run (fun c => (len (v_taken c), len (pktList c), len (v_events c))) (sample_stream 1000 40) = Some (24, 16, 0).
Proof. vm_compute. reflexivity. Qed.

(** The drain opens on the time stamps of accepted packets only: packets that
    fill the buffer before they span 600 ms are never taken, and every later
    one is refused. *)
Example full_before_drain :
  sample_run (fun c => (len (v_taken c), len (pktList c), sc_count (vs_overflow (v_stats c)))) (sample_stream 5000 100) = Some (0, 5, 95).
Proof. vm_compute. reflexivity. Qed.

Definition two_writes (a b raw1 raw2 : Z) : list vbv_op :=
  [VbvWrite true (at_ms 0) (at_ms 0) (sample_pkt a) raw1; VbvWrite true (at_ms 40) (at_ms 40) (sample_pkt b) raw2].

(** A time stamp 100 ticks back advances the encoder's clock by almost a whole
    period of 33 bits. *)
Example jitter_encoder_stc : sample_run encoder_stc (two_writes 9000 8900 100 100) = Some ((2 ^ 33 - 1 + 8900) * 300).
Proof. vm_compute. reflexivity. Qed.

(** A step back of 3000 ticks, which the comment in the code allows, adds so much
    that the signed clock of the encoder overflows in the end. *)
Example encoder_overflows ctx : dts_last ctx = 93000 -> 2 ^ 63 - 2 ^ 41 <= encoder_stc ctx < 2 ^ 63 ->
  advance_encoder ctx 90000 = None.
Proof.
  intros E H. unfold advance_encoder. rewrite E. change (93000 =? INT64_MAX) with false. change (90000 =? 93000) with false.
  change (93000 <? 90000) with false. cbv iota. unfold MAX_PTS_VALUE. repeat (rewrite i64_ok_Some by lia; step).
  unfold i64_ok. by zdec.
Qed.

(** A wrap of the 33-bit time stamp resets the model. *)
Example wrap_resets : sample_run (fun c => (resetGeneration c, len (pktList c))) (two_writes (2 ^ 33 - 1800) 1800 100 100) = Some (1, 1).
Proof. vm_compute. reflexivity. Qed.

(** The room is computed modulo 2^32. *)
Example huge_packet_accepted : sample_run usedBytes (two_writes 9000 12600 100 (2 ^ 32 - 50)) = Some 50.
Proof. vm_compute. reflexivity. Qed.
