(* ===== verification/Nals.v ===== *)
(** * NAL units: src/nal_h264.c, src/nal_h265.c and libltntools/nals.h

    The search for start codes, the arrays of NAL and SEI headers, the removal
    of emulation prevention and the tables of names; the slice counters are in
    SliceCounter.  A pointer of a header is its offset in the buffer.  [None]
    is undefined behaviour: an access outside an array, or a NULL string that is
    printed. *)
From Stdlib Require Import ZArith Lia Bool String Ascii.
From stdpp Require Import base numbers list option.
From S2P Require Import Prelude Bits SeiTimestamp NalBits.

Record ltn_nal_headers_s := NalHeader { h_ptr : Z; h_lengthBytes : Z; h_nalType : Z; h_nalName : option string }.
Record ltn_sei_headers_s := SeiHeader { sh_ptr : Z; sh_lengthBytes : Z; sh_seiType : Z; sh_seiName : option string }.

(** A table of C strings: beyond its end is undefined, the inner [None] is NULL. *)
Definition table_name (t : list (option string)) (i : Z) : option (option string) :=
  if i <? 0 then None else t !! Z.to_nat i.

(** [names] from index [i] of a table of [n] entries; the others are NULL. *)
Fixpoint table_at (rows : list (Z * string)) (i : Z) : option string :=
  match rows with [] => None | (j, s) :: rows => if j =? i then Some s else table_at rows i end.
Definition make_table (rows : list (Z * string)) (n : Z) : list (option string) :=
  map (fun i => table_at rows (Z.of_nat i)) (seq 0 (Z.to_nat n)).

(** ** Start codes *)

Definition start_code : list Z := [0; 0; 1].

(** The loop [for (i = *offset + 1; i < lengthBytes - 3; i++)]. *)
Fixpoint findHeader_loop (fuel : nat) (buffer : list Z) (lengthBytes i : Z) : option (option Z) :=
  match fuel with
  | O => None
  | S fuel =>
      if i <? lengthBytes - 3 then
        s ← rds buffer i 3;
        if decide (s = start_code) then
          b ← rd buffer (i + 3);
          if negb (Z.land b 0x80 =? 0) then findHeader_loop fuel buffer lengthBytes (i + 1) else Some (Some i)
        else findHeader_loop fuel buffer lengthBytes (i + 1)
      else Some None
  end.

(** The new offset, or none: -1 is returned and the offset kept. *)
Definition ltn_nal_h264_findHeader (buffer : list Z) (lengthBytes offset : Z) : option (option Z) :=
  findHeader_loop (S (Z.to_nat (lengthBytes - offset))) buffer lengthBytes (offset + 1).

Definition ltn_nal_h265_findHeader (buffer : list Z) (lengthBytes offset : Z) : option (option Z) :=
  findHeader_loop (S (Z.to_nat (lengthBytes - offset))) buffer lengthBytes (offset + 1).

(** ** Names *)

Definition h264Nals : list (option string) := make_table
  [(0, "UNSPECIFIED"); (1, "slice_layer_without_partitioning_rbsp non-IDR"); (2, "slice_data_partition_a_layer_rbsp(");
   (3, "slice_data_partition_b_layer_rbsp("); (4, "slice_data_partition_c_layer_rbsp(");
   (5, "slice_layer_without_partitioning_rbsp IDR"); (6, "SEI"); (7, "SPS"); (8, "PPS"); (9, "AUD"); (10, "EO SEQ");
   (11, "EO STREAM"); (12, "FILLER"); (13, "SPS-EX"); (14, "PNU"); (15, "SSPS"); (16, "DPS"); (19, "ACP"); (20, "CSE");
   (21, "CSEDV")]%string 22.

Definition h264Nals_types : list (option string) := make_table
  [(0, "AUTO"); (1, "P"); (2, "P"); (3, "P"); (4, "P"); (5, "IDR"); (6, ""); (7, ""); (8, ""); (9, ""); (10, ""); (11, "");
   (12, ""); (13, ""); (14, ""); (15, ""); (16, ""); (19, ""); (20, ""); (21, "")]%string 22.

Definition h264Nals_lookupName (nalType : Z) : option (option string) := table_name h264Nals nalType.
Definition h264Nals_lookupType (nalType : Z) : option (option string) := table_name h264Nals_types nalType.

Definition hevcNals : list (option string) := make_table
  [(0, "TRAIL_N"); (1, "TRAIL_R"); (2, "TSA_N"); (3, "TSA_R"); (4, "STSA_N"); (5, "STSA_R"); (6, "RADL_N"); (7, "RADL_R");
   (8, "RASL_N"); (9, "RASL_R"); (10, "RSV_VCL_N10"); (11, "RSV_VCL_R11"); (12, "RSV_VCL_N12"); (13, "RSV_VCL_R13");
   (14, "RSV_VCL_N14"); (15, "RSV_VCL_R15"); (16, "BLA_W_LP"); (17, "BLA_W_RADL"); (18, "BLA_N_LP"); (19, "IDR_W_RADL");
   (20, "IDR_N_LP"); (21, "CRA"); (22, "RSV_IRAP_VCL22"); (23, "RSV_IRAP_VCL23"); (32, "VPS"); (33, "SPS"); (34, "PPS");
   (35, "AUD"); (36, "EOS"); (37, "EOB"); (38, "FD filler_data_rbsp()"); (39, "PREFIX_SEI"); (40, "SUFFIX_SEI")]%string 41.

Definition hevcNals_types : list (option string) := make_table
  [(0, "AUTO"); (1, "IDR"); (2, "I"); (3, "P"); (4, "BREF"); (5, "B"); (19, "IDR")]%string 41.

Definition h265Nals_lookupName (nalType : Z) : option (option string) := table_name hevcNals nalType.
Definition h265Nals_lookupType (nalType : Z) : option (option string) := table_name hevcNals_types nalType.

(** The text: 128 bytes with the terminator, and the list of names in it; a
    NULL name is printed, which is undefined. *)
Fixpoint findNalTypes_loop (find : Z -> option (option Z)) (name : Z -> option (option string)) (fuel : nat)
    (offset items : Z) (arr : string) : option (Z * string) :=
  match fuel with
  | O => None
  | S fuel =>
      r ← find offset;
      match r with
      | None => Some (items, arr)
      | Some offset =>
          n ← name offset; n ← n;
          let arr := String.append (if 0 <? items then String.append arr ", " else arr) n in
          if 127 <? Z.of_nat (String.length arr) then None else
          findNalTypes_loop find name fuel offset (items + 1) arr
      end
  end.

(** [mem]: calloc gives the memory, else NULL is written to.  The inner [None]
    is NULL. *)
Definition ltn_nal_h264_findNalTypes (mem : bool) (buffer : list Z) (lengthBytes : Z) : option (option string) :=
  if negb mem then None else
  '(items, arr) ← findNalTypes_loop (ltn_nal_h264_findHeader buffer lengthBytes)
    (fun o => b ← rd buffer (o + 3); h264Nals_lookupName (Z.land b 0x1f)) (S (Z.to_nat lengthBytes)) (-1) 0 "";
  Some (if items =? 0 then None else Some arr).

Definition ltn_nal_h265_findNalTypes (mem : bool) (buffer : list Z) (lengthBytes : Z) : option (option string) :=
  if negb mem then None else
  '(items, arr) ← findNalTypes_loop (ltn_nal_h265_findHeader buffer lengthBytes)
    (fun o => b ← rd buffer (o + 3); h265Nals_lookupName (Z.land (Z.shiftr b 1) 0x3f)) (S (Z.to_nat lengthBytes)) (-1) 0 "";
  Some (if items =? 0 then None else Some arr).

(** ** The arrays of headers *)

(** [a[idx - 1].lengthBytes = q - a[idx - 1].ptr] *)
Fixpoint end_last (a : list ltn_nal_headers_s) (q : Z) : list ltn_nal_headers_s :=
  match a with
  | [] => []
  | [h] => [NalHeader (h_ptr h) (u32 (q - h_ptr h)) (h_nalType h) (h_nalName h)]
  | h :: a => h :: end_last a q
  end.

(** The loop [while (p < end - 3)]; [realloc_ok]: the memory for so many items.
    The inner [None] is the return of -1; a length is written when the next
    header is found, and is 0 here until then. *)
Fixpoint h264_headers_loop (fuel : nat) (realloc_ok : Z -> bool) (buf : list Z) (lengthBytes p maxitems : Z)
    (a : list ltn_nal_headers_s) : option (option (list ltn_nal_headers_s)) :=
  match fuel with
  | O => None
  | S fuel =>
      if p <? lengthBytes - 3 then
        r ← ltn_memmem (drop (Z.to_nat p) buf) (lengthBytes - p) start_code 3;
        match r with
        | None => Some (Some a)
        | Some j =>
            let p := p + j in
            maxitems' ← (if maxitems <=? len a then int_ok (maxitems * 2) else Some maxitems);
            if (maxitems <=? len a) && negb (realloc_ok maxitems') then Some None else
            b ← rd buf (p + 3);
            let nalType := Z.land b 0x1f in
            name ← h264Nals_lookupName nalType;
            h264_headers_loop fuel realloc_ok buf lengthBytes (p + 3) maxitems' (end_last a p ++ [NalHeader p 0 nalType name])
        end
      else Some (Some a)
  end.

(** The array, and the result: none is given on an error. *)
Definition ltn_nal_h264_find_headers (malloc_ok : bool) (realloc_ok : Z -> bool) (buf : list Z) (lengthBytes : Z)
    : option (option (list ltn_nal_headers_s) * Z) :=
  if negb malloc_ok then Some (None, -1) else
  r ← h264_headers_loop (S (Z.to_nat lengthBytes)) realloc_ok buf lengthBytes 0 64 [];
  match r with
  | None => Some (None, -1)
  | Some a => Some (Some (end_last a lengthBytes), 0)
  end.

(** The array has 64 items and does not grow. *)
Fixpoint h265_headers_loop (fuel : nat) (buf : list Z) (lengthBytes offset : Z) (a : list ltn_nal_headers_s)
    : option (list ltn_nal_headers_s) :=
  match fuel with
  | O => None
  | S fuel =>
      r ← ltn_nal_h265_findHeader buf lengthBytes offset;
      match r with
      | None => Some a
      | Some offset =>
          if 64 <=? len a then None else
          b ← rd buf (offset + 3);
          let nalType := Z.land (Z.shiftr b 1) 0x3f in
          name ← h265Nals_lookupName nalType;
          h265_headers_loop fuel buf lengthBytes offset (end_last a offset ++ [NalHeader offset 0 nalType name])
      end
  end.

(** Without a header the last length is computed from a pointer that was never
    written. *)
Definition ltn_nal_h265_find_headers (malloc_ok : bool) (buf : list Z) (lengthBytes : Z)
    : option (option (list ltn_nal_headers_s) * Z) :=
  if negb malloc_ok then Some (None, -1) else
  a ← h265_headers_loop (S (Z.to_nat lengthBytes)) buf lengthBytes (-1) [];
  if len a =? 0 then None else Some (Some (end_last a lengthBytes), 0).

(** ** Emulation prevention *)

(** [memcpy(p + dst, p + dst + 1, n)]: the regions overlap when more than one
    byte is copied, which is undefined; [forward]: the implementation copies
    from the first byte to the last all the same. *)
Definition memcpy_down (forward : bool) (p : list Z) (dst n : Z) : option (list Z) :=
  if (1 <? n) && negb forward then None else s ← rds p (dst + 1) n; wrs p dst s.

(** The loop over [i]; [p]: the bytes from [h->ptr] on. *)
Fixpoint strip_loop (fuel : nat) (forward : bool) (p : list Z) (lengthBytes i dropped : Z) : option (list Z * Z) :=
  match fuel with
  | O => None
  | S fuel =>
      if i <? lengthBytes then
        found ← (if i + 2 <? lengthBytes
                 then a ← rd p i; b ← rd p (i + 1); c ← rd p (i + 2); Some ((a =? 0) && (b =? 0) && (c =? 3))
                 else Some false);
        if found : bool then
          p ← memcpy_down forward p (i + 2) (lengthBytes - i - 3);
          strip_loop fuel forward p lengthBytes (i + 1) (dropped + 1)
        else strip_loop fuel forward p lengthBytes (i + 1) dropped
      else Some (p, dropped)
  end.

(** [h]: NULL, or a header whose pointer is NULL or to the bytes given.  The
    bytes, the new length and the result. *)
Definition ltn_nal_h264_strip_emulation_prevention (forward : bool) (h : option (option (list Z) * Z))
    : option (option (option (list Z) * Z) * Z) :=
  match h with
  | None | Some (None, _) => Some (h, -1)
  | Some (Some p, lengthBytes) =>
      if lengthBytes <? 4 then Some (h, -1) else
      '(p, dropped) ← strip_loop (S (Z.to_nat lengthBytes)) forward p lengthBytes 1 0;
      Some (Some (Some p, u32 (lengthBytes - dropped)), 0)
  end.

(** ** SEI headers *)

Definition h264SEIs : list (option string) := make_table
  [(0, "buffer_period"); (1, "pic_timing"); (2, "pan_scan_rect"); (3, "filler_payload"); (4, "user_data_registered_itu_t_t35");
   (5, "user_data_unregistered"); (6, "recovery_point"); (7, "dec_ref_pic_marking_repetition"); (8, "spare_pic");
   (9, "scene_info"); (10, "sub_seq_info"); (11, "sub_seq_layer_characteristics"); (12, "sub_seq_characteristics");
   (13, "full_frame_freeze"); (14, "full_frame_freeze_release"); (15, "full_frame_snapshot");
   (16, "progressive_refinement_segment_start"); (17, "progressive_refinement_segment_end");
   (18, "motion_constrained_slice_group_set"); (64, "undefined in spec 2004")]%string 65.

Definition ltn_sei_h264_lookupName (seiType : Z) : option (option string) :=
  if seiType <=? 18 then table_name h264SEIs seiType else table_name h264SEIs 64.

Definition h265SEIs : list (option string) := make_table
  [(0, "buffer_period"); (1, "pic_timing"); (2, "pan_scan_rect"); (3, "filler_payload"); (4, "user_data_registered_itu_t_t35");
   (5, "user_data_unregistered"); (6, "recovery_point"); (9, "scene_info"); (15, "picture_snapshot");
   (16, "progressive_refinement_segment_start"); (17, "progressive_refinement_segment_end"); (19, "film_grain_characteristics");
   (22, "post_filter_hint"); (23, "tone_mapping_info"); (45, "frame_packing_arrangement"); (47, "display_orientation");
   (56, "green_metadata"); (128, "structure_of_pictures_info"); (129, "active_parameter_sets"); (130, "decoding_unit_info");
   (131, "temporal_sub_layer_zero_idx"); (133, "scalable_nesting"); (134, "region_refresh_info"); (135, "no_display");
   (136, "time_code"); (137, "mastering_display_colour_volume"); (138, "segmented_rect_frame_packing_arrangement");
   (139, "temporal_motion_constrained_tile_sets"); (140, "chroma_resampling_filter_hint"); (141, "knee_function_info");
   (142, "colour_remapping_info"); (143, "deinterlaced_field_identification"); (144, "content_light_level_info");
   (145, "dependent_rap_indication"); (146, "coded_region_completion"); (147, "alternative_transfer_characteristics");
   (148, "ambient_viewing_environment"); (149, "content_colour_volume"); (150, "equirectangular_projection");
   (151, "cubemap_projection"); (154, "sphere_rotation"); (155, "regionwise_packing"); (156, "omni_viewport");
   (157, "regional_nesting"); (158, "mcts_extraction_info_sets"); (159, "mcts_extraction_info_nesting");
   (160, "layers_not_present"); (161, "inter_layer_constrained_tile_sets"); (162, "bsp_nesting");
   (163, "bsp_initial_arrival_time"); (164, "sub_bitstream_property"); (165, "alpha_channel_info"); (166, "overlay_info");
   (167, "temporal_mv_prediction_constraints"); (168, "frame_field_info"); (176, "three_dimensional_reference_displays_info");
   (177, "depth_representation_info"); (178, "multiview_scene_info"); (179, "multiview_acquisition_info");
   (180, "multiview_view_position"); (181, "alternative_depth_info"); (255, "undefined in spec ITU-T H.265 v5 (02/2018)")]%string 256.

Definition ltn_sei_h265_lookupName (seiType : Z) : option (option string) :=
  n ← table_name h265SEIs seiType;
  match n with Some _ => Some n | None => table_name h265SEIs 255 end.

(** The loop over the NALs: the SEI NALs are stored, in an array of 64 items
    that does not grow; [mem]: it was given. *)
Fixpoint sei_headers_loop (is_sei : Z -> bool) (lookup : Z -> option (option string)) (mem : bool) (buf : list Z)
    (nals : list ltn_nal_headers_s) (a : list ltn_sei_headers_s) : option (list ltn_sei_headers_s) :=
  match nals with
  | [] => Some a
  | n :: nals =>
      if is_sei (h_nalType n) then
        seiType ← rd buf (h_ptr n + 4);
        if negb mem || (64 <=? len a) then None else
        name ← lookup seiType;
        sei_headers_loop is_sei lookup mem buf nals (a ++ [SeiHeader (h_ptr n) (h_lengthBytes n) seiType name])
      else sei_headers_loop is_sei lookup mem buf nals a
  end.

(** [want_length]: the pointer for the length is not NULL; [nals]: NULL, or the
    array. *)
Definition ltn_sei_h264_find_headers (want_length mem : bool) (buf : list Z) (nals : option (list ltn_nal_headers_s))
    : option (option (list ltn_sei_headers_s) * Z) :=
  match want_length, nals with
  | true, Some nals => a ← sei_headers_loop (Z.eqb 6) ltn_sei_h264_lookupName mem buf nals []; Some (if mem then Some a else None, 0)
  | _, _ => Some (None, -1)
  end.

Definition ltn_sei_h265_find_headers (want_length mem : bool) (buf : list Z) (nals : option (list ltn_nal_headers_s))
    : option (option (list ltn_sei_headers_s) * Z) :=
  match want_length, nals with
  | true, Some nals =>
      a ← sei_headers_loop (fun t => (t =? 39) || (t =? 40)) ltn_sei_h265_lookupName mem buf nals []; Some (if mem then Some a else None, 0)
  | _, _ => Some (None, -1)
  end.
