(* ===== verification/SliceCounter.v ===== *)
(** * Slice counters: the second halves of src/nal_h264.c and src/nal_h265.c

    The slice headers found in transport packets are decoded with the NAL bit
    reader and counted by type; the last twenty letters are kept in a ring.
    [None] is undefined behaviour: an access outside an array or outside the
    packets. *)
From Stdlib Require Import ZArith Lia Bool String Ascii.
From stdpp Require Import base numbers list option.
From coqutil Require Import Datatypes.RecordSettersUsingExistingGetters.
From S2P Require Import Prelude Bits Ts SeiTimestamp NalBits Nals.

Record slice_data_s := SliceData { sd_slice_type : Z; sd_count : Z; sd_name : string }.

(** [name[0]] *)
Definition first_char (s : string) : ascii := match s with String c _ => c | EmptyString => zero end.

(** [array[i]] of structures. *)
Definition item_at {A} (l : list A) (i : Z) : option A := if i <? 0 then None else l !! Z.to_nat i.

(** ** H.264 *)

Definition MAX_H264_SLICE_TYPES : Z := 10.
Definition H264_SLICE_COUNTER_HISTORY_LENGTH : Z := 20.

Definition h264_slice_defaults : list slice_data_s :=
  [SliceData 0 0 "P"; SliceData 1 0 "B"; SliceData 2 0 "I"; SliceData 3 0 "p"; SliceData 4 0 "i";
   SliceData 5 0 "P"; SliceData 6 0 "B"; SliceData 7 0 "I"; SliceData 8 0 "p"; SliceData 9 0 "i"].

Definition h264_is_slice_type_iframe (sliceType : Z) : Z := if existsb (Z.eqb sliceType) [2; 4; 7; 9] then 1 else 0.
Definition h264_is_slice_type_pframe (sliceType : Z) : Z := if existsb (Z.eqb sliceType) [0; 3; 5; 8] then 1 else 0.
Definition h264_is_slice_type_bframe (sliceType : Z) : Z := if existsb (Z.eqb sliceType) [1; 6] then 1 else 0.

Definition h264_slice_name_ascii (slice_type : Z) : option string :=
  sd_name <$> item_at h264_slice_defaults (Z.rem slice_type MAX_H264_SLICE_TYPES).

(** [sliceHistory]: the twenty characters before the terminator. *)
Record h264_slice_counter_s := {
  sc_pid : Z;
  sc_slice : list slice_data_s;
  nextHistoryPos : Z;
  sliceHistory : list ascii
}.

Definition blank_history : list ascii := replicate (Z.to_nat H264_SLICE_COUNTER_HISTORY_LENGTH) " "%char.

Definition h264_slice_counter_reset (s : h264_slice_counter_s) : h264_slice_counter_s :=
  s <| sc_slice := h264_slice_defaults |> <| sliceHistory := blank_history |>.

(** [m]: what the memory given holds, if any is given. *)
Definition h264_slice_counter_alloc (m : option h264_slice_counter_s) (pid : Z) : option h264_slice_counter_s :=
  s ← m; Some (h264_slice_counter_reset (s <| sc_pid := pid |>)).

Definition h264_slice_counter_update (s : h264_slice_counter_s) (slice_type : Z) : option h264_slice_counter_s :=
  d ← item_at (sc_slice s) slice_type;
  let s := s <| sc_slice := <[Z.to_nat slice_type := SliceData (sd_slice_type d) (u64 (sd_count d + 1)) (sd_name d)]> (sc_slice s) |> in
  let i := Z.rem (nextHistoryPos s) H264_SLICE_COUNTER_HISTORY_LENGTH in
  next ← int_ok (nextHistoryPos s + 1);
  if i <? 0 then None else
  Some (s <| nextHistoryPos := next |> <| sliceHistory := <[Z.to_nat i := first_char (sd_name d)]> (sliceHistory s) |>).

(** The NAL types whose slice header is read. *)
Definition h264_has_slice_type (nalType : Z) : bool := existsb (Z.eqb nalType) [1; 2; 5; 19].

(** From the four bytes after the NAL header: first_mb_in_slice, slice_type. *)
Definition h264_read_slice_type (data : list Z) : option Z :=
  '(_, br) ← NALBitReader_read_ue (NALBitReader_init data 4);
  '(st, _) ← NALBitReader_read_ue br;
  Some st.

(** The bytes are those at [hdr->ptr]; the slice type, if it is stored. *)
Definition h264_nal_get_slice_type_for_nal (hdr : option (list Z * Z)) (want : bool) : option (option Z * Z) :=
  match hdr, want with
  | Some (bytes, nalType), true =>
      if h264_has_slice_type nalType then
        st ← h264_read_slice_type (drop 4 bytes);
        if st <? MAX_H264_SLICE_TYPES then Some (Some (u32 st), 0) else Some (None, -1)
      else Some (None, -1)
  | _, _ => Some (None, -1)
  end.

(** The header is searched, its type read where it is found, and the slice type
    always at the start. *)
Definition h264_nal_get_slice_type (bytes : list Z) (lengthBytes : Z) : option (option string * Z) :=
  r ← ltn_nal_h264_findHeader bytes (i32 lengthBytes) (-1);
  match r with
  | None => Some (None, -1)
  | Some offset =>
      b ← rd bytes (offset + 3);
      if h264_has_slice_type (Z.land b 0x1f) then
        st ← h264_read_slice_type (drop 4 bytes);
        if st <? MAX_H264_SLICE_TYPES then n ← h264_slice_name_ascii st; Some (Some n, 0) else Some (None, 0)
      else Some (None, -1)
  end.

(** The loop [while (offset < 188 - 5)]; [pkt]: the bytes from the packet on. *)
Fixpoint h264_packet_loop (fuel : nat) (pkt : list Z) (offset : Z) (s : h264_slice_counter_s) : option h264_slice_counter_s :=
  match fuel with
  | O => None
  | S fuel =>
      if offset <? 188 - 5 then
        r ← ltn_nal_h264_findHeader pkt 188 offset;
        match r with
        | None => Some s
        | Some offset =>
            b ← rd pkt (offset + 3);
            if h264_has_slice_type (Z.land b 0x1f) then
              st ← h264_read_slice_type (drop (Z.to_nat (offset + 4)) pkt);
              s ← (if st <? MAX_H264_SLICE_TYPES then h264_slice_counter_update s st else Some s);
              h264_packet_loop fuel pkt offset s
            else h264_packet_loop fuel pkt offset s
        end
      else Some s
  end.

Definition h264_slice_counter_write_packet (s : h264_slice_counter_s) (pkt : list Z) : option h264_slice_counter_s :=
  h264_packet_loop 190 pkt (-1) s.

Fixpoint h264_write_loop (n : nat) (s : h264_slice_counter_s) (pkts : list Z) : option h264_slice_counter_s :=
  match n with
  | O => Some s
  | S n =>
      _ ← rds pkts 1 2;
      s ← (if (sc_pid s =? 0x2000) || (ltntstools_pid pkts =? sc_pid s) then h264_slice_counter_write_packet s pkts else Some s);
      h264_write_loop n s (drop 188 pkts)
  end.

Definition h264_slice_counter_write (s : h264_slice_counter_s) (pkts : list Z) (pktCount : Z) : option h264_slice_counter_s :=
  h264_write_loop (Z.to_nat pktCount) s pkts.

Record h264_slice_counter_results_s := SliceResults {
  r_i : Z; r_b : Z; r_p : Z; r_si : Z; r_sp : Z; r_sliceHistory : list ascii
}.

Definition count_at (l : list slice_data_s) (i : Z) : option Z := sd_count <$> item_at l i.

Definition sum_at (l : list slice_data_s) (i j : Z) : option Z :=
  a ← count_at l i; b ← count_at l j; Some (u64 (a + b)).

(** The ring from position [p] on. *)
Fixpoint history_loop (n : nat) (ring : list ascii) (p : Z) : option (list ascii) :=
  match n with
  | O => Some []
  | S n =>
      c ← item_at ring (Z.rem p H264_SLICE_COUNTER_HISTORY_LENGTH);
      p ← int_ok (p + 1);
      l ← history_loop n ring p;
      Some (c :: l)
  end.

Definition h264_slice_counter_query (s : h264_slice_counter_s) : option h264_slice_counter_results_s :=
  i ← sum_at (sc_slice s) 2 7; b ← sum_at (sc_slice s) 1 6; p ← sum_at (sc_slice s) 0 5;
  si ← sum_at (sc_slice s) 4 9; sp ← sum_at (sc_slice s) 3 8;
  h ← history_loop (Z.to_nat H264_SLICE_COUNTER_HISTORY_LENGTH) (sliceHistory s) (nextHistoryPos s);
  Some (SliceResults i b p si sp h).

Definition h264_slice_counter_get_pid (s : h264_slice_counter_s) : Z := sc_pid s.

Definition h264_slice_counter_reset_pid (s : h264_slice_counter_s) (pid : Z) : h264_slice_counter_s :=
  h264_slice_counter_reset (s <| sc_pid := pid |>).

(** ** H.265 *)

Definition MAX_H265_SLICE_TYPES : Z := 3.
Definition H265_SLICE_COUNTER_HISTORY_LENGTH : Z := 20.

Definition h265_slice_defaults : list slice_data_s := [SliceData 0 0 "B"; SliceData 1 0 "P"; SliceData 2 0 "I"].

Definition h265_slice_name_ascii (slice_type : Z) : option string :=
  sd_name <$> item_at h265_slice_defaults (Z.rem slice_type MAX_H265_SLICE_TYPES).

Record h265_slice_counter_s := {
  hc_pid : Z;
  hc_slice : list slice_data_s;
  hc_nextHistoryPos : Z;
  hc_sliceHistory : list ascii;
  spsValid : Z;
  sps_video_parameter_set_id : Z;
  sps_max_sub_layers_minus1 : Z;
  sps_temporal_id_nesting_flag : Z;
  ppsValid : Z;
  pps_pic_parameter_set_id : Z;
  pps_seq_parameter_set_id : Z;
  dependent_slice_segments_enabled_flag : Z;
  output_flag_present_flag : Z;
  num_extra_slice_header_bits : Z
}.

(** The last character is the terminator. *)
Definition h265_slice_counter_reset (s : h265_slice_counter_s) : h265_slice_counter_s :=
  s <| hc_slice := h265_slice_defaults |> <| hc_sliceHistory := replicate 19 " "%char ++ [zero] |>.

Definition h265_slice_counter_alloc (m : option h265_slice_counter_s) (pid : Z) : option h265_slice_counter_s :=
  s ← m; Some (h265_slice_counter_reset (s <| hc_pid := pid |>)).

Definition h265_slice_counter_update (s : h265_slice_counter_s) (slice_type : Z) : option h265_slice_counter_s :=
  d ← item_at (hc_slice s) slice_type;
  let s := s <| hc_slice := <[Z.to_nat slice_type := SliceData (sd_slice_type d) (u64 (sd_count d + 1)) (sd_name d)]> (hc_slice s) |> in
  let i := Z.rem (hc_nextHistoryPos s) H265_SLICE_COUNTER_HISTORY_LENGTH in
  next ← int_ok (hc_nextHistoryPos s + 1);
  if i <? 0 then None else
  Some (s <| hc_nextHistoryPos := next |> <| hc_sliceHistory := <[Z.to_nat i := first_char (sd_name d)]> (hc_sliceHistory s) |>).

Definition h265_sps (s : h265_slice_counter_s) (data : list Z) : option h265_slice_counter_s :=
  if negb (spsValid s =? 0) then Some s else
  '(vps, br) ← NALBitReader_read_bits (NALBitReader_init data 4) 4;
  '(sub, br) ← NALBitReader_read_bits br 3;
  '(nest, _) ← NALBitReader_read_bits br 1;
  Some (s <| sps_video_parameter_set_id := vps |> <| sps_max_sub_layers_minus1 := sub |>
          <| sps_temporal_id_nesting_flag := nest |> <| spsValid := 1 |>).

Definition h265_pps (s : h265_slice_counter_s) (data : list Z) : option h265_slice_counter_s :=
  if negb (ppsValid s =? 0) then Some s else
  '(pic, br) ← NALBitReader_read_ue (NALBitReader_init data 4);
  '(seq, br) ← NALBitReader_read_ue br;
  '(dep, br) ← NALBitReader_read_bits br 1;
  '(out, br) ← NALBitReader_read_bits br 1;
  '(ext, _) ← NALBitReader_read_bits br 3;
  Some (s <| pps_pic_parameter_set_id := u32 pic |> <| pps_seq_parameter_set_id := u32 seq |>
          <| dependent_slice_segments_enabled_flag := dep |> <| output_flag_present_flag := out |>
          <| num_extra_slice_header_bits := ext |> <| ppsValid := 1 |>).

(** The slice header as far as the slice type; a dependent segment has none,
    and the type is -1. *)
Definition h265_read_slice_type (s : h265_slice_counter_s) (nalType : Z) (data : list Z) : option Z :=
  '(first, br) ← NALBitReader_read_bits (NALBitReader_init data 4) 1;
  '(_, br) ← (if (16 <=? nalType) && (nalType <=? 23) then NALBitReader_read_bits br 1 else Some (0, br));
  '(_, br) ← NALBitReader_read_ue br;
  '(dependent, br) ←
    (if first =? 0 then
       '(dep, br) ← (if negb (dependent_slice_segments_enabled_flag s =? 0) then NALBitReader_read_bits br 1 else Some (0, br));
       '(_, br) ← NALBitReader_read_bits br 1; (* slice_segment_address *)
       Some (dep, br)
     else Some (0, br));
  if dependent =? 0 then
    br ← NALBitReader_skip_bits br (num_extra_slice_header_bits s);
    '(st, _) ← NALBitReader_read_ue br; Some st
  else Some (-1).

Definition h265_has_slice_type (nalType : Z) : bool :=
  (0 <=? nalType) && (nalType <=? 9) || (16 <=? nalType) && (nalType <=? 21).

(** The switch over the NAL type; [data]: the bytes after the first byte of the
    NAL header.  A type too large is printed, with twelve bytes of the NAL. *)
Definition h265_nal (s : h265_slice_counter_s) (nalType : Z) (pkt : list Z) (offset : Z) : option h265_slice_counter_s :=
  let data := drop (Z.to_nat (offset + 4)) pkt in
  if nalType =? 33 then h265_sps s data
  else if nalType =? 34 then h265_pps s data
  else if h265_has_slice_type nalType then
    if ppsValid s =? 0 then Some s else
    st ← h265_read_slice_type s nalType data;
    if st <? MAX_H265_SLICE_TYPES then h265_slice_counter_update s st
    else _ ← rds pkt offset 12; Some s
  else Some s.

Fixpoint h265_packet_loop (fuel : nat) (pkt : list Z) (offset : Z) (s : h265_slice_counter_s) : option h265_slice_counter_s :=
  match fuel with
  | O => None
  | S fuel =>
      if offset <? 188 - 5 then
        r ← ltn_nal_h265_findHeader pkt 188 offset;
        match r with
        | None => Some s
        | Some offset =>
            b ← rd pkt (offset + 3);
            s ← h265_nal s (Z.land (Z.shiftr b 1) 0x3f) pkt offset;
            h265_packet_loop fuel pkt offset s
        end
      else Some s
  end.

Definition h265_slice_counter_write_packet (s : h265_slice_counter_s) (pkt : list Z) : option h265_slice_counter_s :=
  h265_packet_loop 190 pkt (-1) s.

Fixpoint h265_write_loop (n : nat) (s : h265_slice_counter_s) (pkts : list Z) : option h265_slice_counter_s :=
  match n with
  | O => Some s
  | S n =>
      _ ← rds pkts 1 2;
      s ← (if (hc_pid s =? 0x2000) || (ltntstools_pid pkts =? hc_pid s) then h265_slice_counter_write_packet s pkts else Some s);
      h265_write_loop n s (drop 188 pkts)
  end.

Definition h265_slice_counter_write (s : h265_slice_counter_s) (pkts : list Z) (pktCount : Z) : option h265_slice_counter_s :=
  h265_write_loop (Z.to_nat pktCount) s pkts.

(** The fields not written keep what the caller's structure holds. *)
Definition h265_slice_counter_query (s : h265_slice_counter_s) (r : h264_slice_counter_results_s)
    : option h264_slice_counter_results_s :=
  i ← count_at (hc_slice s) 2; b ← count_at (hc_slice s) 0; p ← count_at (hc_slice s) 1;
  h ← history_loop (Z.to_nat H265_SLICE_COUNTER_HISTORY_LENGTH) (hc_sliceHistory s) (hc_nextHistoryPos s);
  Some (SliceResults i b p (r_si r) (r_sp r) h).

Definition h265_slice_counter_get_pid (s : h265_slice_counter_s) : Z := hc_pid s.

Definition h265_slice_counter_reset_pid (s : h265_slice_counter_s) (pid : Z) : h265_slice_counter_s :=
  h265_slice_counter_reset (s <| hc_pid := pid |>).
