(* ===== verification/NalSpec.v ===== *)
(** * What the NAL routines promise

    The removal of emulation prevention undoes the encoder's insertion; the
    array of headers cuts the buffer at its start codes. *)
From Stdlib Require Import ZArith Lia Bool String Ascii Sorting.Sorted.
From stdpp Require Import base numbers list option.
From S2P Require Import Prelude Bits SeiTimestamp NalBits Nals.

(** ** Emulation prevention

    The encoder of ITU-T H.264 clause 7.3.1 puts a 3 before a byte of at most 3
    that follows two zeros, and at the end after two zeros; [z]: the zeros just
    written. *)
Fixpoint protect (z : nat) (l : list Z) : list Z :=
  match l with
  | [] => if (2 <=? z)%nat then [3] else []
  | b :: l =>
      let rest z := b :: protect (if b =? 0 then S z else O) l in
      if (2 <=? z)%nat && (b <=? 3) then 3 :: rest O else rest z
  end.

(** What the code computes: after a byte is dropped the second zero before it
    still counts. *)
Fixpoint strip_z (z : nat) (l : list Z) : list Z :=
  match l with
  | [] => []
  | b :: l => if (2 <=? z)%nat && (b =? 3) then strip_z 1 l else b :: strip_z (if b =? 0 then S z else O) l
  end.

(** No 3 comes after three or more zeros. *)
Fixpoint safe (k : nat) (l : list Z) : Prop :=
  match l with
  | [] => True
  | b :: l => (b = 3 -> (k < 3)%nat) /\ safe (if b =? 0 then S k else O) l
  end.

Lemma safe_of_absent l : forall k, (forall pre post, replicate k 0 ++ l <> pre ++ [0; 0; 0; 3] ++ post) -> safe k l.
Proof.
  induction l as [|b l IH]; intros k H; cbn [safe]; [done|]. split.
  - intros ->. destruct (Nat.ltb_spec k 3) as [|Hk]; [done|]. exfalso. apply (H (replicate (k - 3) 0) l).
    replace k with ((k - 3) + 3)%nat at 1 by lia. rewrite replicate_add. by rewrite <- app_assoc.
  - apply IH. intros pre post E. destruct (Z.eqb_spec b 0) as [->|].
    + apply (H pre post). rewrite <- E. rewrite replicate_S_end, <- app_assoc. done.
    + cbn [replicate app] in E. apply (H (replicate k 0 ++ b :: pre) post). rewrite E. by rewrite <- app_assoc.
Qed.

Lemma strip_protect l : forall ze zd k, (zd = ze \/ (1 <= ze /\ zd = S ze /\ 3 <= k))%nat -> (ze <= k)%nat -> safe k l ->
  strip_z zd (protect ze l) = l.
Proof.
  induction l as [|b l IH]; intros ze zd k Hr Hk Hs; cbn [protect].
  - destruct (Nat.leb_spec 2 ze); [|done]. cbn [strip_z]. by rewrite (proj2 (Nat.leb_le 2 zd)) by lia.
  - destruct Hs as [Hb Hs]. destruct (Nat.leb_spec 2 ze) as [Hz|Hz]; cbn [andb].
    + case_if.
      * cbn [strip_z]. rewrite (proj2 (Nat.leb_le 2 zd)) by lia. cbn [andb Z.eqb Pos.eqb strip_z]. cbn [Nat.leb andb].
        f_equal. destruct (b =? 0); refine (IH _ _ _ _ _ Hs); lia.
      * cbn [strip_z]. rewrite (proj2 (Z.eqb_neq b 3)) by lia. rewrite andb_false_r. f_equal.
        destruct (Z.eqb_spec b 0); [lia|]. by apply (IH O O O); [left|lia|].
    + cbn [strip_z]. replace ((2 <=? zd)%nat && (b =? 3)) with false.
      * f_equal. destruct (b =? 0); [refine (IH _ _ _ _ _ Hs); lia|]. by apply (IH O O O); [left|lia|].
      * symmetry. apply andb_false_iff. destruct (Z.eqb_spec b 3) as [E|]; [|by right]. left. apply Nat.leb_gt.
        specialize (Hb E). lia.
Qed.

(** The windows of three bytes that the loop looks at, one byte further each
    time. *)
Inductive stripped : list Z -> list Z -> Prop :=
| Stripped_nil : stripped [] []
| Stripped_drop u out : stripped (0 :: u) out -> stripped (0 :: 0 :: 3 :: u) (0 :: out)
| Stripped_keep x t out : (forall u, x :: t <> 0 :: 0 :: 3 :: u) -> stripped t out -> stripped (x :: t) (x :: out).

Lemma stripped_z l : forall z, stripped (replicate z 0 ++ l) (replicate z 0 ++ strip_z z l).
Proof.
  induction l as [|b l IH]; intros z; cbn [strip_z].
  - rewrite !app_nil_r. induction z as [|z IH]; cbn [replicate]; [constructor|]. constructor; [|done].
    intros u E. by destruct z as [|[|z]].
  - destruct ((2 <=? z)%nat && (b =? 3)) eqn:E.
    + apply andb_true_iff in E as [Hz ->%Z.eqb_eq]. apply Nat.leb_le in Hz.
      replace z with ((z - 2) + 2)%nat by lia. rewrite !replicate_add, <- !app_assoc. cbn [replicate app].
      specialize (IH 1%nat). cbn [replicate app] in IH.
      induction (z - 2)%nat as [|k IHk]; cbn [replicate app]; [by constructor|]. constructor; [|done].
      intros u E. by destruct k as [|[|k]].
    + destruct (Z.eqb_spec b 0) as [->|Hb].
      * specialize (IH (S z)). by rewrite replicate_S_end, <- !app_assoc in IH.
      * specialize (IH O). cbn [replicate app] in IH.
        assert (H3 : b = 3 -> (z < 2)%nat) by (intros ->; apply andb_false_iff in E as [?%Nat.leb_gt|?]; [lia|done]).
        clear E. induction z as [|z IHz]; cbn [replicate app].
        { by constructor; [intros u [=]|]. }
        constructor; [|apply IHz; lia]. intros u E. destruct z as [|[|z]]; cbn [replicate app] in E; simplify_eq. lia.
Qed.

Lemma stripped_len l out : stripped l out -> (length out <= length l)%nat.
Proof. induction 1; cbn [length] in *; lia. Qed.

Lemma last_cons_ne {A} (x : A) l : l <> [] -> list.last (x :: l) = list.last l.
Proof. by destruct l. Qed.

(** Access in the middle of a buffer. *)
Lemma rds_mid (p s q : list Z) o n : o = len p -> n = len s -> rds (p ++ s ++ q) o n = Some s.
Proof.
  intros -> ->. pose proof (len_nonneg p). pose proof (len_nonneg s). pose proof (len_nonneg q).
  rewrite rds_Some by (rewrite ?len_app; lia). unfold len. by rewrite !Nat2Z.id, drop_app_length, take_app_length.
Qed.

Lemma wrs_mid (p s s' q : list Z) o : o = len p -> len s' = len s -> wrs (p ++ s ++ q) o s' = Some (p ++ s' ++ q).
Proof.
  intros -> Hs. pose proof (len_nonneg p). pose proof (len_nonneg s). pose proof (len_nonneg q).
  rewrite wrs_Some by (rewrite ?len_app; lia). rewrite Hs. unfold len in *. rewrite Nat2Z.id, take_app_length.
  replace (Z.to_nat (Z.of_nat (length p) + Z.of_nat (length s))) with (length (p ++ s)) by (rewrite length_app; lia).
  by rewrite (app_assoc p s q), drop_app_length.
Qed.

(** The bytes after the removed one move down by one; the last one stays. *)
Lemma memcpy_down_spec pre w tail x :
  memcpy_down true (pre ++ x :: w ++ tail) (len pre) (len w) = Some (pre ++ w ++ [default x (list.last w)] ++ tail).
Proof.
  assert (exists w', x :: w = w' ++ [default x (list.last w)]) as [w' E].
  { destruct (list.last w) as [y|] eqn:Ey; [apply last_Some in Ey as [k ->]; by exists (x :: k)|].
    apply last_None in Ey as ->. by exists []. }
  unfold memcpy_down. rewrite andb_false_r.
  assert (len w' = len w) by (apply (f_equal len) in E; unfold len in *; rewrite length_app in E; cbn in E; lia).
  change (x :: w ++ tail) with ([x] ++ w ++ tail). rewrite app_assoc.
  rewrite rds_mid by (rewrite ?len_app; done). step. rewrite <- app_assoc. rewrite (app_assoc [x] w tail).
  change ([x] ++ w) with (x :: w). rewrite E, <- app_assoc. by apply wrs_mid.
Qed.

Lemma last_app_replicate (u : list Z) d c : (0 < d)%nat -> list.last (u ++ replicate d c) = Some c.
Proof. destruct d as [|d]; [lia|]. intros _. by rewrite replicate_S_end, app_assoc, last_snoc. Qed.

(** With [d] copies of [c] behind [u]. *)
Lemma memcpy_down_stale pre u d c tail : exists c',
  memcpy_down true (pre ++ (0 :: 0 :: 3 :: u ++ replicate d c) ++ tail) (len pre + 2) (len u + Z.of_nat d) =
    Some (pre ++ (0 :: 0 :: u) ++ replicate (S d) c' ++ tail) /\
  (u <> [] -> ((0 < d)%nat -> list.last u = Some c) -> list.last u = Some c').
Proof.
  exists (default 3 (list.last (u ++ replicate d c))). split.
  - pose proof (memcpy_down_spec (pre ++ [0; 0]) (u ++ replicate d c) tail 3) as H.
    rewrite len_app in H. change (len [0; 0]) with 2 in H. rewrite len_app in H.
    replace (len (replicate d c)) with (Z.of_nat d) in H by (unfold len; by rewrite length_replicate).
    rewrite <- !app_assoc in H. cbn [app] in *. rewrite <- !app_assoc. rewrite H. do 4 f_equal.
    destruct d as [|d]; [done|]. rewrite last_app_replicate by lia. rewrite (replicate_S_end (S d)), <- !app_assoc. done.
  - intros Hu Hc. destruct d as [|d].
    + rewrite app_nil_r. destruct (list.last u) eqn:E; [done|]. by apply last_None in E.
    + rewrite last_app_replicate by lia. apply Hc. lia.
Qed.

Lemma len_snoc (l : list Z) x : len (l ++ [x]) = len l + 1.
Proof. unfold len. rewrite length_app. cbn. lia. Qed.

Definition hit (l : list Z) : bool :=
  match l with a :: b :: c :: _ => (a =? 0) && (b =? 0) && (c =? 3) | _ => false end.

(** One turn of the loop, where [x :: t] remains. *)
Lemma strip_loop_step fuel pre x t tail L k : L = len pre + len (x :: t) ->
  strip_loop (S fuel) true (pre ++ (x :: t) ++ tail) L (len pre) k =
    if hit (x :: t) then
      p ← memcpy_down true (pre ++ (x :: t) ++ tail) (len pre + 2) (L - len pre - 3);
      strip_loop fuel true p L (len (pre ++ [x])) (k + 1)
    else strip_loop fuel true ((pre ++ [x]) ++ t ++ tail) L (len (pre ++ [x])) k.
Proof.
  intros ->. cbn [strip_loop]. rewrite len_snoc, len_cons. pose proof (len_nonneg t).
  rewrite (proj2 (Z.ltb_lt (len pre) _)) by lia.
  assert ((if len pre + 2 <? len pre + (len t + 1) then a ← rd (pre ++ (x :: t) ++ tail) (len pre);
    b ← rd (pre ++ (x :: t) ++ tail) (len pre + 1); c ← rd (pre ++ (x :: t) ++ tail) (len pre + 2);
    Some ((a =? 0) && (b =? 0) && (c =? 3)) else Some false) = Some (hit (x :: t))) as ->.
  { destruct t as [|y [|z t]]; cbn [hit].
    - change (len []) with 0. case_if; [lia|done].
    - change (len [y]) with 1. case_if; [lia|done].
    - rewrite !len_cons. pose proof (len_nonneg t). rewrite (proj2 (Z.ltb_lt _ _)) by lia. cbn [app].
      rewrite (rd_mid pre _ x (len pre)) by done. step. rewrite (cons_middle x), app_assoc.
      rewrite (rd_mid (pre ++ [x]) _ y (len pre + 1)) by (rewrite len_snoc; lia). step. rewrite (cons_middle y), app_assoc.
      rewrite (rd_mid ((pre ++ [x]) ++ [y]) _ z (len pre + 2)) by (rewrite !len_snoc; lia). by step. }
  step. rewrite (cons_middle x), app_assoc. cbn [app]. rewrite <- !app_assoc. by case_if.
Qed.

Lemma hit_replicate d c : hit (replicate d c) = false.
Proof. destruct d as [|[|[|d]]]; cbn [replicate hit]; try done. destruct (Z.eqb_spec c 0) as [->|]; done. Qed.

Lemma strip_loop_const d c : forall fuel pre tail k, (d < fuel)%nat ->
  strip_loop fuel true (pre ++ replicate d c ++ tail) (len pre + Z.of_nat d) (len pre) k = Some (pre ++ replicate d c ++ tail, k).
Proof.
  induction d as [|d IH]; intros fuel pre tail k Hf; (destruct fuel as [|fuel]; [lia|]).
  - cbn [strip_loop]. by rewrite (proj2 (Z.ltb_ge _ _)) by lia.
  - change (replicate (S d) c) with (c :: replicate d c).
    rewrite strip_loop_step by (rewrite len_cons; unfold len; rewrite length_replicate; lia).
    change (c :: replicate d c) with (replicate (S d) c) at 1. rewrite hit_replicate.
    replace (len pre + Z.of_nat (S d)) with (len (pre ++ [c]) + Z.of_nat d) by (rewrite len_snoc; lia).
    rewrite IH by lia. by rewrite <- app_assoc.
Qed.

(** No window that reaches into the stale bytes is taken for one to strip. *)
Lemma hit_stale x t d c : (forall u, x :: t <> 0 :: 0 :: 3 :: u) ->
  (x :: t <> [0] -> (0 < d)%nat -> list.last (x :: t) = Some c) -> hit (x :: t ++ replicate d c) = false.
Proof.
  intros Hx Hc. destruct (hit _) eqn:E; [|done]. exfalso. destruct t as [|y [|z t]]; cbn [app] in E.
  - destruct d as [|[|d]]; [done|done|]. cbn in E. zbool. subst. lia.
  - destruct d as [|d]; [done|]. cbn in E. zbool. subst. specialize (Hc ltac:(done) ltac:(lia)). by cbn in Hc.
  - cbn in E. zbool. subst. by apply (Hx t).
Qed.

(** What remains after the loop has come to the suffix [l], with [d] copies of
    the last byte behind it. *)
Lemma strip_loop_spec l out : stripped l out -> forall fuel pre d c tail,
  (l <> [] -> l <> [0] -> (0 < d)%nat -> list.last l = Some c) ->
  (length l + d < fuel)%nat ->
  exists stale, strip_loop fuel true (pre ++ l ++ replicate d c ++ tail) (len pre + len l + Z.of_nat d) (len pre) (Z.of_nat d) =
    Some (pre ++ out ++ stale ++ tail, Z.of_nat d + len l - len out) /\ len stale = Z.of_nat d + len l - len out.
Proof.
  induction 1 as [|u out Ho IH|x t out Hx Ho IH]; intros fuel pre d c tail Hc Hf.
  - exists (replicate d c). cbn [app]. rewrite len_nil, Z.add_0_r, strip_loop_const by done. split; [f_equal; f_equal; lia|].
    unfold len. rewrite length_replicate. lia.
  - destruct fuel as [|fuel]; [lia|]. cbn [length] in Hf.
    replace (pre ++ (0 :: 0 :: 3 :: u) ++ replicate d c ++ tail) with (pre ++ (0 :: 0 :: 3 :: u ++ replicate d c) ++ tail)
      by (cbn [app]; by rewrite <- !app_assoc).
    rewrite strip_loop_step by (unfold len; cbn [length]; rewrite length_app, length_replicate; lia). cbn [hit Z.eqb Pos.eqb andb].
    destruct (memcpy_down_stale pre u d c tail) as (c' & E & Hc').
    replace (len pre + len (0 :: 0 :: 3 :: u) + Z.of_nat d - len pre - 3) with (len u + Z.of_nat d) by (rewrite !len_cons; lia).
    rewrite E. step.
    destruct (IH fuel (pre ++ [0]) (S d) c' tail) as (stale & E' & Hs).
    { intros _ Hne _. destruct u as [|y u]; [done|]. cbn [list.last] in *. apply Hc'; [done|]. intros Hd. by apply Hc. }
    { cbn [length]. lia. }
    rewrite len_snoc, !len_cons in E'. rewrite !len_cons in Hs. exists stale. rewrite !len_cons, len_snoc.
    replace (pre ++ (0 :: 0 :: u) ++ replicate (S d) c' ++ tail) with ((pre ++ [0]) ++ (0 :: u) ++ replicate (S d) c' ++ tail)
      by (by rewrite <- app_assoc).
    replace (len pre + (len u + 1 + 1 + 1) + Z.of_nat d) with (len pre + 1 + (len u + 1) + Z.of_nat (S d)) by lia.
    replace (Z.of_nat d + 1) with (Z.of_nat (S d)) by lia. rewrite E'. split; [|lia]. rewrite <- app_assoc. do 2 f_equal. lia.
  - destruct fuel as [|fuel]; [lia|]. cbn [length] in Hf.
    replace (pre ++ (x :: t) ++ replicate d c ++ tail) with (pre ++ (x :: t ++ replicate d c) ++ tail)
      by (cbn [app]; by rewrite <- !app_assoc).
    rewrite strip_loop_step by (unfold len; cbn [length]; rewrite length_app, length_replicate; lia).
    rewrite hit_stale by (done || (intros ??; by apply Hc)). rewrite len_snoc.
    destruct (IH fuel (pre ++ [x]) d c tail) as (stale & E' & Hs).
    { intros Hne Hz Hd. rewrite <- (Hc ltac:(done)); [by destruct t| |done]. intros [= -> ->]. done. }
    { lia. }
    rewrite len_snoc in E'. exists stale. rewrite !len_cons. rewrite <- (app_assoc t).
    replace (len pre + (len t + 1) + Z.of_nat d) with (len pre + 1 + len t + Z.of_nat d) by lia. rewrite E'.
    split; [|lia]. rewrite <- app_assoc. do 2 f_equal. lia.
Qed.

(** C22: The removal of emulation prevention undoes the insertion: from a NAL
    whose payload was protected as the standard says, and which does not hold
    the bytes 0 0 0 3, [ltn_nal_h264_strip_emulation_prevention] recovers the
    payload, for any payload and with any bytes behind it, where a memcpy to the
    byte before copies forwards. *)
Theorem strip_inverts_protection (t : Z) (x tail : list Z) : t <> 0 -> len (protect 0 x) < 2 ^ 31 ->
  (forall pre post, x <> pre ++ [0; 0; 0; 3] ++ post) ->
  let nal := [0; 0; 1; t] ++ protect 0 x in
  exists bytes', ltn_nal_h264_strip_emulation_prevention true (Some (Some (nal ++ tail), len nal)) =
      Some (Some (Some bytes', 4 + len x), 0) /\
    take (Z.to_nat (4 + len x)) bytes' = [0; 0; 1; t] ++ x /\
    drop (length nal) bytes' = tail.
Proof.
  intros Ht Hlen Hx nal. set (y := protect 0 x) in *. pose proof (len_nonneg y). pose proof (len_nonneg x).
  assert (Hy : strip_z 0 y = x) by (apply (strip_protect x O O O); [by left|lia|]; by apply safe_of_absent).
  assert (Hw : stripped ([0; 1; t] ++ y) ([0; 1; t] ++ x)).
  { pose proof (stripped_z y O) as H3. cbn [replicate app] in H3. rewrite Hy in H3.
    repeat (constructor; [by intros u [=]|]). exact H3. }
  assert (Hn : len nal = 4 + len y) by (unfold nal; rewrite len_app; done).
  destruct (strip_loop_spec _ _ Hw (S (Z.to_nat (len nal))) [0] O 0 tail) as (stale & E & Hs); [lia| |].
  { apply Nat.lt_succ_r. rewrite Nat.add_0_r. rewrite Hn. rewrite length_app. cbn [length]. unfold len. lia. }
  exists ([0] ++ ([0; 1; t] ++ x) ++ stale ++ tail). cbn [ltn_nal_h264_strip_emulation_prevention].
  rewrite !len_app in E, Hs. change (len [0; 1; t]) with 3 in *. change (len [0]) with 1 in *. cbn [replicate app] in E.
  rewrite (proj2 (Z.ltb_ge _ _)) by lia.
  replace (1 + (3 + len y) + Z.of_nat 0) with (len nal) in E by lia. change (Z.of_nat 0) with 0 in *.
  change (0 :: 0 :: 1 :: t :: y ++ tail) with (nal ++ tail) in E. rewrite E. step.
  pose proof (len_nonneg stale). rewrite u32_id by lia. replace (len nal - (0 + (3 + len y) - (3 + len x))) with (4 + len x) by lia.
  split_and!; [done| |].
  - replace (Z.to_nat (4 + len x)) with (length ([0; 0; 1; t] ++ x)) by (unfold len; rewrite length_app; cbn [length]; lia).
    change ([0] ++ ([0; 1; t] ++ x) ++ stale ++ tail) with (([0; 0; 1; t] ++ x) ++ stale ++ tail). apply take_app_length.
  - replace (length nal) with (length (([0; 0; 1; t] ++ x) ++ stale)).
    + change ([0] ++ ([0; 1; t] ++ x) ++ stale ++ tail) with (([0; 0; 1; t] ++ x) ++ stale ++ tail).
      rewrite (app_assoc _ stale). apply drop_app_length.
    + rewrite !length_app. unfold len in *. cbn [length]. lia.
Qed.

Lemma strip_inverts_protection_witness : exists bytes',
  ltn_nal_h264_strip_emulation_prevention true (Some (Some [0; 0; 1; 0x67; 0; 0; 3; 1; 5; 0; 0; 3; 0; 0; 3; 9; 9], 15)) =
    Some (Some (Some bytes', 12), 0) /\
  take 12 bytes' = [0; 0; 1; 0x67; 0; 0; 1; 5; 0; 0; 0; 0].
Proof.
  destruct (strip_inverts_protection 0x67 [0; 0; 1; 5; 0; 0; 0; 0] [9; 9]) as (b & E & Ht & _);
    [discriminate|vm_compute; reflexivity| |exists b; split; [exact E|exact Ht]].
  intros pre post E. do 6 (destruct pre as [|? pre]; [discriminate E|injection E as _ E]).
  apply (f_equal (@length Z)) in E. rewrite !length_app in E. cbn in E. lia.
Defined.

(** The bytes 0 0 0 3, protected as 0 0 3 0 3, lose the 3. *)
Example strip_drops_data :
  protect 0 [0; 0; 0; 3; 7] = [0; 0; 3; 0; 3; 7] /\
  ltn_nal_h264_strip_emulation_prevention true (Some (Some [0; 0; 1; 0x67; 0; 0; 3; 0; 3; 7], 10)) =
    Some (Some (Some [0; 0; 1; 0x67; 0; 0; 0; 7; 7; 7], 8), 0).
Proof. split; reflexivity. Qed.

(** As C defines memcpy, the first removal with two bytes behind it is undefined. *)
Example strip_overlaps : ltn_nal_h264_strip_emulation_prevention false (Some (Some [0; 0; 1; 0x67; 0; 0; 3; 1; 2], 9)) = None.
Proof. reflexivity. Qed.

(** ** The array of headers *)

(** The headers of NALs at [ps], each of which ends where the next starts and
    the last at [e]. *)
Section Headers.
  Variables (ty : Z -> Z) (name : Z -> option string).

Definition header_at (p q : Z) : ltn_nal_headers_s := NalHeader p (u32 (q - p)) (ty p) (name p).

Fixpoint headers (e : Z) (ps : list Z) : list ltn_nal_headers_s :=
  match ps with [] => [] | p :: ps => header_at p (hd e ps) :: headers e ps end.

Lemma headers_len e ps : len (headers e ps) = len ps.
Proof. induction ps as [|p ps IH]; cbn [headers]; [done|]. rewrite !len_cons. lia. Qed.

Lemma headers_end e q ps : end_last (headers e ps) q = headers q ps.
Proof.
  induction ps as [|p ps IH]; cbn [headers]; [done|]. destruct ps as [|p' ps]; [done|].
  transitivity (header_at p p' :: end_last (headers e (p' :: ps)) q); [done|]. by rewrite IH.
Qed.

Lemma headers_snoc e q ps : headers q ps ++ [header_at q e] = headers e (ps ++ [q]).
Proof.
  induction ps as [|p ps IH]; cbn [headers app]; [done|]. rewrite IH. f_equal. by destruct ps.
Qed.

Lemma headers_ptr e ps : map h_ptr (headers e ps) = ps.
Proof. induction ps as [|p ps IH]; cbn [headers map]; [done|]. by rewrite IH. Qed.

(** The NALs are the buffer from the first start code on. *)
Lemma headers_tile buf ps : StronglySorted Z.lt ps -> Forall (fun p => 0 <= p <= len buf) ps -> len buf < 2 ^ 32 ->
  concat (map (fun h => slice buf (h_ptr h) (h_lengthBytes h)) (headers (len buf) ps)) = drop (Z.to_nat (hd (len buf) ps)) buf.
Proof.
  intros Hs Hr Hb. induction Hs as [|p ps Hs IH Hp]; cbn [headers map concat].
  - cbn [hd]. symmetry. apply drop_ge. unfold len. lia.
  - apply Forall_cons_1 in Hr as [Hp0 Hr]. rewrite (IH Hr). cbn [hd]. unfold header_at. cbn [h_ptr h_lengthBytes].
    assert (p <= hd (len buf) ps <= len buf).
    { destruct ps as [|q ps]; cbn [hd]; [lia|]. inversion Hp. inversion Hr. lia. }
    rewrite u32_id by lia. unfold slice. replace (Z.to_nat (hd (len buf) ps)) with (Z.to_nat p + Z.to_nat (hd (len buf) ps - p))%nat by lia.
    by rewrite <- drop_drop, take_drop.
Qed.

End Headers.

(** [ps]: the places before [p] where [P] holds, in order. *)
Definition places (P : Z -> Prop) (p : Z) (ps : list Z) : Prop :=
  StronglySorted Z.lt ps /\ forall q, In q ps <-> P q /\ q < p.

Lemma places_more P p p' ps : places P p ps -> p <= p' -> (forall q, p <= q < p' -> ~ P q) -> places P p' ps.
Proof.
  intros [H1 H2] Hp Hn. split; [done|]. intros q. rewrite H2. split; intros [H3 H4]; (split; [done|]); [lia|].
  destruct (Z.lt_ge_cases q p); [done|]. exfalso. by apply (Hn q).
Qed.

Lemma places_sorted_snoc ps q : StronglySorted Z.lt ps -> (forall p, In p ps -> p < q) -> StronglySorted Z.lt (ps ++ [q]).
Proof.
  induction 1 as [|p ps Hs IH Hp]; intros Hq; cbn [app]; [by repeat constructor|]. constructor.
  - apply IH. intros x Hx. apply Hq. by right.
  - apply List.Forall_app. split; [done|]. constructor; [|done]. apply Hq. by left.
Qed.

Lemma places_add P p q ps : places P p ps -> p <= q -> (forall x, p <= x < q -> ~ P x) -> P q -> places P (q + 1) (ps ++ [q]).
Proof.
  intros Hp Hq Hn HP. destruct (places_more _ _ q _ Hp Hq Hn) as [H1 H2]. split.
  - apply places_sorted_snoc; [done|]. intros x Hx. by apply H2.
  - intros x. rewrite in_app_iff, H2. cbn. split; [intros [[? ?]|[->|[]]]; (split; [done|lia])|].
    intros [Hx Hlt]. destruct (Z.eq_dec x q) as [->|]; [by right; left|]. left. split; [done|lia].
Qed.

Lemma occurs_drop x y p j : 0 <= p <= len y -> 0 <= j -> occurs x (drop (Z.to_nat p) y) j <-> occurs x y (p + j).
Proof.
  intros Hp Hj. unfold occurs, slice. rewrite len_drop by lia. rewrite drop_drop.
  replace (Z.to_nat p + Z.to_nat j)%nat with (Z.to_nat (p + j)) by lia. intuition lia.
Qed.

Definition h264_type (buf : list Z) (p : Z) : Z := Z.land (byte_at buf (p + 3)) 0x1f.
Definition h264_name (buf : list Z) (p : Z) : option string := default None (h264Nals_lookupName (h264_type buf p)).

Lemma lookup_h264 t : 0 <= t < 22 -> h264Nals_lookupName t = Some (default None (h264Nals_lookupName t)).
Proof.
  intros H. unfold h264Nals_lookupName, table_name. rewrite (proj2 (Z.ltb_ge _ _)) by lia.
  destruct (lookup_lt_is_Some_2 h264Nals (Z.to_nat t)) as [x E]; [change (length h264Nals) with 22%nat; lia|]. by rewrite E.
Qed.

(** Start codes do not overlap. *)
Lemma codes_apart buf p q : occurs start_code buf p -> p < q < p + 3 -> ~ occurs start_code buf q.
Proof.
  intros Hp Hq Hc.
  pose proof (occurs_byte _ _ _ 2 Hp ltac:(change (len start_code) with 3; lia)) as H2.
  pose proof (occurs_byte _ _ _ (p + 2 - q) Hc ltac:(change (len start_code) with 3; lia)) as H0.
  replace (q + (p + 2 - q)) with (p + 2) in H0 by lia. rewrite H2 in H0.
  assert (p + 2 - q = 0 \/ p + 2 - q = 1) as [E|E] by lia; rewrite E in H0; discriminate.
Qed.

Section Tile.
  Variables (buf : list Z).
  Hypothesis Hsmall : len buf < 2 ^ 31.
  (* no start code is the end of the buffer *)
  Hypothesis Hend : ~ occurs start_code buf (len buf - 3).
  (* the types are in the table of names *)
  Hypothesis Htype : forall p, occurs start_code buf p -> h264_type buf p < 22.

Lemma code_bound p : occurs start_code buf p -> 0 <= p < len buf - 3.
Proof.
  intros H. destruct (Z.eq_dec p (len buf - 3)) as [->|]; [done|]. destruct H as (H1 & H2 & _).
  change (len start_code) with 3 in H2. lia.
Qed.

Lemma h264_loop_spec fuel : forall p maxitems e ps, 0 <= p <= len buf -> places (occurs start_code buf) p ps ->
  3 * len ps <= p -> 64 <= maxitems <= 64 + 2 * len ps -> (Z.to_nat (len buf - p) < fuel)%nat ->
  exists e' ps', h264_headers_loop fuel (fun _ => true) buf (len buf) p maxitems (headers (h264_type buf) (h264_name buf) e ps) =
      Some (Some (headers (h264_type buf) (h264_name buf) e' ps')) /\ places (occurs start_code buf) (len buf) ps'.
Proof.
  induction fuel as [|fuel IH]; intros p maxitems e ps Hp Hps Hl Hm Hf; [lia|]. cbn [h264_headers_loop].
  destruct (Z.ltb_spec p (len buf - 3)) as [Hlt|Hge].
  2:{ exists e, ps. split; [done|]. apply (places_more _ p); [done|lia|]. intros q Hq Hc. apply code_bound in Hc. lia. }
  rewrite <- (len_drop p) by lia.
  destruct (memmem_first_occurrence (drop (Z.to_nat p) buf) start_code) as (r & E & Hr); [done|].
  change (len start_code) with 3 in E. rewrite E. step. destruct r as [j|].
  2:{ exists e, ps. split; [done|]. apply (places_more _ p); [done|lia|]. intros q Hq Hc.
      apply (Hr (q - p)); [lia|]. apply occurs_drop; [lia|lia|]. by replace (p + (q - p)) with q by lia. }
  cbn [first_occurrence] in Hr. destruct Hr as (Hj & Hc & Hn). apply occurs_drop in Hc; [|lia|lia].
  pose proof (code_bound _ Hc) as Hb. pose proof (Htype _ Hc) as Ht. rewrite headers_len.
  assert (exists m, (if maxitems <=? len ps then int_ok (maxitems * 2) else Some maxitems) = Some m /\ 64 <= m <= 64 + 2 * (len ps + 1))
    as (m & Em & Hm').
  { case_if; [rewrite int_ok_Some by lia|]; eexists; (split; [done|lia]). }
  rewrite Em. step. cbn [negb]. rewrite andb_false_r. rewrite rd_Some by lia. step. change (Z.land (byte_at buf (p + j + 3)) 31) with (h264_type buf (p + j)).
  assert (0 <= h264_type buf (p + j)) by (apply Z.land_nonneg; by right).
  rewrite lookup_h264 by lia. step. rewrite headers_end.
  change (NalHeader (p + j) 0 (h264_type buf (p + j)) (default None (h264Nals_lookupName (h264_type buf (p + j)))))
    with (NalHeader (p + j) (u32 0) (h264_type buf (p + j)) (h264_name buf (p + j))).
  replace (NalHeader (p + j) (u32 0) (h264_type buf (p + j)) (h264_name buf (p + j)))
    with (header_at (h264_type buf) (h264_name buf) (p + j) (p + j)) by (unfold header_at; by rewrite Z.sub_diag).
  rewrite headers_snoc. apply IH; [lia| |rewrite len_snoc; lia|rewrite len_snoc; lia|lia].
  apply (places_more _ (p + j + 1)); [|lia|].
  - apply (places_add _ p); [done|lia| |done]. intros q Hq Hc'. apply (Hn (q - p)); [lia|].
    apply occurs_drop; [lia|lia|]. by replace (p + (q - p)) with q by lia.
  - intros q Hq. apply (codes_apart _ (p + j)); [done|lia].
Qed.

End Tile.

(** C21: [ltn_nal_h264_find_headers] cuts the buffer at its start codes: if the
    buffer does not end with a start code and the NAL types are in the table of
    names, then the headers are at the places where a start code is, all of
    them and in order; their bytes put together are the buffer from the first
    start code on; each carries the type and the name of its NAL. *)
Theorem h264_headers_tile (buf : list Z) : len buf < 2 ^ 31 -> ~ occurs start_code buf (len buf - 3) ->
  (forall p, occurs start_code buf p -> h264_type buf p < 22) ->
  exists hs, ltn_nal_h264_find_headers true (fun _ => true) buf (len buf) = Some (Some hs, 0) /\
    (forall p, In p (map h_ptr hs) <-> occurs start_code buf p) /\ StronglySorted Z.lt (map h_ptr hs) /\
    concat (map (fun h => slice buf (h_ptr h) (h_lengthBytes h)) hs) = drop (Z.to_nat (hd (len buf) (map h_ptr hs))) buf /\
    Forall (fun h => h_nalType h = h264_type buf (h_ptr h) /\ h264Nals_lookupName (h_nalType h) = Some (h_nalName h)) hs.
Proof.
  intros Hs Hend Hty. pose proof (len_nonneg buf).
  destruct (h264_loop_spec buf Hs Hend Hty (S (Z.to_nat (len buf))) 0 64 0 []) as (e & ps & E & Hps).
  - lia.
  - split; [constructor|]. intros q. split; [done|]. intros [(? & _) ?]. lia.
  - done.
  - done.
  - lia.
  - cbn [headers] in E. unfold ltn_nal_h264_find_headers. cbn [negb]. rewrite E. step. rewrite headers_end. destruct Hps as [H1 H2].
    assert (H3 : forall p, In p ps <-> occurs start_code buf p).
    { intros p. rewrite H2. split; [by intros [? _]|]. intros Hc. split; [done|]. pose proof (code_bound buf Hend p Hc). lia. }
    eexists. split; [done|]. rewrite headers_ptr. split_and!; [done|done| |].
    + apply headers_tile; [done| |lia]. apply List.Forall_forall. intros p Hp%H3%(code_bound buf Hend). lia.
    + clear E H1 H2. assert (Hall : Forall (fun p => occurs start_code buf p) ps) by (apply List.Forall_forall; intros p; apply H3). clear H3.
      induction Hall as [|p ps Hp _ IH]; cbn [headers]; constructor; [|done]. split; [done|]. apply lookup_h264.
      split; [apply Z.land_nonneg; by right|by apply Hty].
Qed.

Definition sample_nals : list Z := [9; 0; 0; 1; 0x67; 1; 2; 0; 0; 1; 0x65; 7; 7; 7].

Lemma h264_headers_tile_witness : exists hs,
  ltn_nal_h264_find_headers true (fun _ => true) sample_nals 14 = Some (Some hs, 0) /\
  concat (map (fun h => slice sample_nals (h_ptr h) (h_lengthBytes h)) hs) =
    drop (Z.to_nat (hd 14 (map h_ptr hs))) sample_nals.
Proof.
  destruct (h264_headers_tile sample_nals) as (hs & E & _ & _ & H & _).
  - reflexivity.
  - intros (_ & _ & H). discriminate H.
  - intros p (H1 & H2 & H3). change (p + 3 <= 14) in H2.
    assert (H : Z.to_nat p = 0%nat \/ Z.to_nat p = 1%nat \/ Z.to_nat p = 2%nat \/ Z.to_nat p = 3%nat \/ Z.to_nat p = 4%nat \/
      Z.to_nat p = 5%nat \/ Z.to_nat p = 6%nat \/ Z.to_nat p = 7%nat \/ Z.to_nat p = 8%nat \/ Z.to_nat p = 9%nat \/ Z.to_nat p = 10%nat \/ Z.to_nat p = 11%nat) by lia.
    unfold slice in H3. rewrite <- (Z2Nat.id p) by exact H1. 
    repeat (destruct H as [H|H]; [rewrite H in *; try discriminate H3; reflexivity|]). rewrite H in H3. discriminate H3.
  - exists hs. split; [exact E|exact H].
Defined.

(** A start code in the last three bytes: the type is read past the end. *)
Example last_code_overrun : ltn_nal_h264_find_headers true (fun _ => true) [0; 0; 1; 0x67; 1; 0; 0; 1] 8 = None.
Proof. reflexivity. Qed.

(** A NAL type beyond the table of names. *)
Example type_beyond_table : ltn_nal_h264_find_headers true (fun _ => true) [0; 0; 1; 24; 0] 5 = None /\
  ltn_nal_h265_find_headers true [0; 0; 1; 96; 0] 5 = None.
Proof. split; reflexivity. Qed.

(** The H.265 array: without a header a pointer that was not written is read,
    and the 65th header is written past the end. *)
Example hevc_headers_bounds : ltn_nal_h265_find_headers true [1; 2; 3; 4; 5] 5 = None /\
  ltn_nal_h265_find_headers true (concat (replicate 65 [0; 0; 1; 2; 9])) 325 = None /\
  ltn_nal_h265_find_headers true (concat (replicate 64 [0; 0; 1; 2; 9])) 320 <> None.
Proof. split_and!; vm_compute; done. Qed.

(** The names of three slices do not fit the 128 bytes of the text. *)
Example nal_types_overflow : ltn_nal_h264_findNalTypes true (concat (replicate 3 [0; 0; 1; 1; 9])) 15 = None /\
  ltn_nal_h264_findNalTypes true (concat (replicate 2 [0; 0; 1; 9; 9])) 10 = Some (Some "AUD, AUD"%string).
Proof. split; vm_compute; done. Qed.
