(* ===== verification/SliceCounterSpec.v ===== *)
(** * What the H.264 slice counter promises

    It refines the list of the slice types it has seen: the totals count that
    list, the history is its last twenty letters. *)
From Stdlib Require Import ZArith Lia Bool String Ascii.
From stdpp Require Import base numbers list option.
From coqutil Require Import Datatypes.RecordSettersUsingExistingGetters.
From S2P Require Import Prelude Bits Ts SeiTimestamp NalBits Nals NalSpec SliceCounter.

(** ** The search for a header *)

(** A start code, and the forbidden zero bit is zero. *)
Definition header_code (buf : list Z) (i : Z) : Prop :=
  occurs start_code buf i /\ Z.land (byte_at buf (i + 3)) 0x80 = 0.

Lemma occurs_rds buf i : 0 <= i -> i + 3 <= len buf -> rds buf i 3 = Some (slice buf i 3) /\
  (occurs start_code buf i <-> slice buf i 3 = start_code).
Proof.
  intros Hi Hl. split; [by apply rds_slice|]. split; [by intros (_ & _ & H)|]. intros H. split; [done|]. split; [done|exact H].
Qed.

Lemma findHeader_loop_spec buf L fuel : 0 <= L <= len buf -> forall i, 0 <= i -> (Z.to_nat (L - i) < fuel)%nat ->
  exists r, findHeader_loop fuel buf L i = Some r /\
    match r with
    | Some j => i <= j < L - 3 /\ header_code buf j /\ forall k, i <= k < j -> ~ header_code buf k
    | None => forall k, i <= k < L - 3 -> ~ header_code buf k
    end.
Proof.
  intros HL. induction fuel as [|fuel IH]; intros i Hi Hf; [lia|]. cbn [findHeader_loop].
  destruct (Z.ltb_spec i (L - 3)) as [Hlt|Hge].
  2:{ exists None. split; [done|]. intros k Hk. lia. }
  destruct (occurs_rds buf i) as [-> Hc]; [lia|lia|]. step.
  assert (Hnext : ~ header_code buf i -> exists r, findHeader_loop fuel buf L (i + 1) = Some r /\
    match r with
    | Some j => i <= j < L - 3 /\ header_code buf j /\ forall k, i <= k < j -> ~ header_code buf k
    | None => forall k, i <= k < L - 3 -> ~ header_code buf k
    end).
  { intros Hn. destruct (IH (i + 1)) as (r & E & Hr); [lia|lia|]. exists r. split; [done|].
    assert (Hi' : forall k, k = i \/ i + 1 <= k \/ k < i) by lia. destruct r as [j|].
    - destruct Hr as (H1 & H2 & H3). split; [lia|]. split; [done|]. intros k Hk. destruct (Hi' k) as [->|[|]]; [done|apply H3; lia|lia].
    - intros k Hk. destruct (Hi' k) as [->|[|]]; [done|apply Hr; lia|lia]. }
  destruct (decide (slice buf i 3 = start_code)) as [Hs|Hs].
  2:{ apply Hnext. intros [Hx _]. apply Hs. by apply (proj1 Hc). }
  rewrite rd_Some by lia. step. destruct (Z.eqb_spec (Z.land (byte_at buf (i + 3)) 0x80) 0) as [Hz|Hz]; cbn [negb].
  - exists (Some i). split; [done|]. split; [lia|]. split; [split; [by apply (proj2 Hc)|done]|]. intros k Hk. lia.
  - apply Hnext. by intros [_ ?].
Qed.

Lemma findHeader_spec buf L offset : 0 <= L <= len buf -> -1 <= offset ->
  exists r, ltn_nal_h264_findHeader buf L offset = Some r /\
    match r with
    | Some j => offset < j < L - 3 /\ header_code buf j /\ forall k, offset < k < j -> ~ header_code buf k
    | None => forall k, offset < k < L - 3 -> ~ header_code buf k
    end.
Proof.
  intros HL Ho. destruct (findHeader_loop_spec buf L (S (Z.to_nat (L - offset))) HL (offset + 1)) as (r & E & Hr); [lia|lia|].
  exists r. split; [done|]. destruct r as [j|].
  - destruct Hr as (H1 & H2 & H3). split; [lia|]. split; [done|]. intros k Hk. apply H3. lia.
  - intros k Hk. apply Hr. lia.
Qed.

(** ** The slices of a packet *)

Definition slice_nal (pkt : list Z) (i : Z) : Prop :=
  header_code pkt i /\ h264_has_slice_type (Z.land (byte_at pkt (i + 3)) 0x1f) = true.

(** The slice types in the packet from byte [i] on: a slice NAL has, in the four
    bytes after its header, the code words of first_mb_in_slice and slice_type. *)
Inductive packet_slices (pkt : list Z) : Z -> list Z -> Prop :=
| SlicesEnd i : 185 <= i -> packet_slices pkt i []
| SlicesOther i l : i < 185 -> ~ slice_nal pkt i -> packet_slices pkt (i + 1) l -> packet_slices pkt i l
| SlicesOne i mb st rest l : i < 185 -> slice_nal pkt i -> i + 8 <= len pkt ->
    0 <= mb < 2147483647 -> 0 <= st < 2147483647 ->
    buf_bits (slice pkt (i + 4) 4) = ue_code mb ++ ue_code st ++ rest ->
    packet_slices pkt (i + 1) l -> packet_slices pkt i (st :: l).

(** The ones counted. *)
Definition counted (l : list Z) : list Z := List.filter (fun st => st <? 10) l.

(** [n] packets given to a counter of a PID. *)
Inductive buffer_slices (pid : Z) : nat -> list Z -> list Z -> Prop :=
| BufferEnd pkts : buffer_slices pid 0 pkts []
| BufferPacket n pkts l k : bytes pkts -> 188 <= len pkts -> pid = 0x2000 \/ ltntstools_pid pkts = pid ->
    packet_slices pkts 0 l -> buffer_slices pid n (drop 188 pkts) k -> buffer_slices pid (S n) pkts (l ++ k)
| BufferOther n pkts k : 188 <= len pkts -> pid <> 0x2000 -> ltntstools_pid pkts <> pid ->
    buffer_slices pid n (drop 188 pkts) k -> buffer_slices pid (S n) pkts k.

Lemma slices_skip pkt i l : packet_slices pkt i l -> forall j, i <= j -> (forall k, i <= k < j -> ~ header_code pkt k) -> packet_slices pkt j l.
Proof.
  induction 1 as [i Hi|i l Hi Hn Hp IH|i mb st rest l Hi Hs Hr Hmb Hst Hb Hp IH]; intros j Hj Hh.
  - constructor. lia.
  - destruct (Z.eq_dec i j) as [->|]; [by apply SlicesOther|]. apply IH; [lia|]. intros k Hk. apply Hh. lia.
  - destruct (Z.eq_dec i j) as [->|]; [exact (SlicesOne _ _ _ _ _ _ Hi Hs Hr Hmb Hst Hb Hp)|]. exfalso. apply (Hh i); [lia|]. apply Hs.
Qed.

Lemma slices_end pkt i l : packet_slices pkt i l -> (forall k, i <= k < 185 -> ~ header_code pkt k) -> l = [].
Proof.
  intros Hp Hh. destruct (Z.le_gt_cases 185 i) as [Hi|Hi]; [inversion Hp; [done|lia|lia]|].
  pose proof (slices_skip _ _ _ Hp 185 ltac:(lia) Hh) as H. by inversion H.
Qed.

(** The slice header is read as the standard writes it. *)
Lemma read_slice_type_code data mb st rest : bytes data -> 4 <= len data -> 0 <= mb < 2147483647 -> 0 <= st < 2147483647 ->
  buf_bits (take 4 data) = ue_code mb ++ ue_code st ++ rest -> h264_read_slice_type data = Some st.
Proof.
  intros Hb Hl Hmb Hst Hbits. unfold h264_read_slice_type.
  destruct (read_ue_code (NALBitReader_init data 4) mb (ue_code st ++ rest)) as (b1 & -> & Hw & Hr); [by constructor|done|done|]. step.
  destruct (read_ue_code b1 st rest Hw Hst Hr) as (b2 & -> & _). by step.
Qed.

(** ** The counter refines the list of the types it has seen *)

Definition occ (seen : list Z) (i : Z) : Z := Z.of_nat (count_occ Z.eq_dec seen i).

Definition tally (seen : list Z) : list slice_data_s :=
  map (fun d => SliceData (sd_slice_type d) (occ seen (sd_slice_type d)) (sd_name d)) h264_slice_defaults.

Definition letter (st : Z) : ascii := nth (Z.to_nat st) ["P"; "B"; "I"; "p"; "i"; "P"; "B"; "I"; "p"; "i"]%char zero.

(** The last twenty letters. *)
Definition history_of (seen : list Z) : list ascii := drop (length seen) (blank_history ++ map letter seen).

(** Read from position [p] on, the ring is [h]. *)
Definition ring_view (ring : list ascii) (p : Z) (h : list ascii) : Prop :=
  length ring = 20%nat /\ length h = 20%nat /\
  forall k, (k < 20)%nat -> ring !! Z.to_nat ((p + Z.of_nat k) mod 20) = h !! k.

Record counter_repr (pid p0 : Z) (seen : list Z) (s : h264_slice_counter_s) : Prop := {
  cr_pid : sc_pid s = pid;
  cr_slice : sc_slice s = tally seen;
  cr_pos : nextHistoryPos s = p0 + len seen;
  cr_ring : ring_view (sliceHistory s) (nextHistoryPos s) (history_of seen)
}.

Lemma ring_push ring p h c : 0 <= p -> ring_view ring p h ->
  ring_view (<[Z.to_nat (p mod 20) := c]> ring) (p + 1) (drop 1 h ++ [c]).
Proof.
  intros Hp (H1 & H2 & H3). split; [by rewrite length_insert|]. split; [rewrite length_app, length_drop; cbn; lia|].
  intros k Hk. destruct (Nat.eq_dec k 19%nat) as [->|Hk'].
  - replace ((p + 1 + Z.of_nat 19%nat) mod 20) with (p mod 20) by zlia. rewrite list_lookup_insert_eq by (rewrite H1; zlia).
    rewrite lookup_app_r by (rewrite length_drop; lia). by rewrite length_drop, H2.
  - rewrite list_lookup_insert_ne by zlia. rewrite lookup_app_l by (rewrite length_drop; lia). rewrite lookup_drop.
    rewrite <- H3 by lia. f_equal. f_equal. f_equal. lia.
Qed.

Lemma history_snoc seen st : history_of (seen ++ [st]) = drop 1 (history_of seen) ++ [letter st].
Proof.
  unfold history_of. rewrite map_app, length_app. cbn [map length]. rewrite drop_drop, app_assoc.
  rewrite drop_app_le; [done|]. rewrite length_app, length_map. change (length blank_history) with 20%nat. lia.
Qed.

Lemma occ_snoc seen st i : occ (seen ++ [st]) i = occ seen i + if st =? i then 1 else 0.
Proof. unfold occ. rewrite count_occ_app. cbn [count_occ]. destruct (Z.eq_dec st i), (Z.eqb_spec st i); lia. Qed.

Lemma occ_bound seen i : 0 <= occ seen i <= len seen.
Proof. unfold occ, len. pose proof (count_occ_bound Z.eq_dec i seen). lia. Qed.

Lemma tally_update seen st : 0 <= st < 10 -> len seen < 2 ^ 32 ->
  exists d, item_at (tally seen) st = Some d /\ first_char (sd_name d) = letter st /\
    <[Z.to_nat st := SliceData (sd_slice_type d) (u64 (sd_count d + 1)) (sd_name d)]> (tally seen) = tally (seen ++ [st]).
Proof.
  intros Hst Hl. pose proof (occ_bound seen st).
  assert (Hi : exists d, item_at (tally seen) st = Some d /\ sd_count d = occ seen st /\ first_char (sd_name d) = letter st /\
    <[Z.to_nat st := SliceData (sd_slice_type d) (occ seen st + 1) (sd_name d)]> (tally seen) = tally (seen ++ [st])).
  { assert (st = 0 \/ st = 1 \/ st = 2 \/ st = 3 \/ st = 4 \/ st = 5 \/ st = 6 \/ st = 7 \/ st = 8 \/ st = 9) as E by lia.
    unfold tally, h264_slice_defaults. cbn [map sd_slice_type sd_name]. rewrite !occ_snoc.
    repeat (destruct E as [->|E]; [eexists; split_and!; [reflexivity..|cbn [Z.eqb Pos.eqb]; by rewrite !Z.add_0_r]|]). subst st.
    eexists; split_and!; [reflexivity..|cbn [Z.eqb Pos.eqb]; by rewrite !Z.add_0_r]. }
  destruct Hi as (d & H1 & H2 & H3 & H4). exists d. rewrite H2, u64_id by lia. by split_and!.
Qed.

(** One slice. *)
Lemma update_repr pid p0 seen s st : counter_repr pid p0 seen s -> 0 <= st < 10 -> 0 <= p0 -> p0 + len seen < 2147483647 ->
  exists s', h264_slice_counter_update s st = Some s' /\ counter_repr pid p0 (seen ++ [st]) s'.
Proof.
  intros [H1 H2 H3 H4] Hst Hp Hlen. pose proof (len_nonneg seen).
  destruct (tally_update seen st Hst ltac:(lia)) as (d & Ed & Ec & Eu). unfold h264_slice_counter_update.
  rewrite H2, Ed. step. cbv zeta. change (nextHistoryPos (s <| sc_slice := ?x |>)) with (nextHistoryPos s).
  rewrite int_ok_Some by lia. step. change H264_SLICE_COUNTER_HISTORY_LENGTH with 20. rewrite Z.rem_mod_nonneg by lia.
  rewrite (proj2 (Z.ltb_ge _ _)) by zlia. eexists. split; [reflexivity|].
  constructor; cbn; unfold const.
  - done.
  - exact Eu.
  - rewrite len_snoc. lia.
  - rewrite Ec, history_snoc. by apply ring_push; [lia|].
Qed.

(** The slices from the byte after [offset] on. *)
Lemma packet_loop_repr pid p0 pkt fuel : bytes pkt -> 188 <= len pkt -> 0 <= p0 -> forall offset l seen s,
  offset = -1 \/ 0 <= offset /\ header_code pkt offset -> packet_slices pkt (offset + 1) l -> counter_repr pid p0 seen s ->
  p0 + len seen + len l < 2147483647 -> (Z.to_nat (188 - offset) < fuel)%nat ->
  exists s', h264_packet_loop fuel pkt offset s = Some s' /\ counter_repr pid p0 (seen ++ counted l) s'.
Proof.
  intros Hb Hl Hp0. induction fuel as [|fuel IH]; intros offset l seen s Ho Hsl Hr Hlen Hf; [lia|]. cbn [h264_packet_loop].
  change (188 - 5) with 183. destruct (Z.ltb_spec offset 183) as [Hlt|Hge].
  2:{ assert (l = []) as ->.
      { apply (slices_end _ _ _ Hsl). intros k Hk [Hc _]. destruct Ho as [|[_ [Ho _]]]; [lia|]. by apply (codes_apart pkt offset k); [|lia|]. }
      exists s. split; [done|]. by rewrite app_nil_r. }
  destruct (findHeader_spec pkt 188 offset) as (r & -> & Hh); [lia|lia|]. step. destruct r as [j|].
  2:{ assert (l = []) as -> by (apply (slices_end _ _ _ Hsl); intros k Hk; apply Hh; lia).
      exists s. split; [done|]. by rewrite app_nil_r. }
  destruct Hh as (Hj & Hc & Hn). rewrite rd_Some by lia. step.
  apply (slices_skip _ _ _) with (j := j) in Hsl; [|lia|intros k Hk; apply Hn; lia].
  inversion Hsl as [|? ? _ Hno Hrest|? mb st rest k _ Hyes Hroom Hmb Hst Hbits Hrest]; subst; [lia| |].
  - assert (h264_has_slice_type (Z.land (byte_at pkt (j + 3)) 31) = false) as ->.
    { destruct (h264_has_slice_type _) eqn:E; [|done]. by destruct Hno. }
    apply IH; try done; [right; split; [lia|done]|lia].
  - destruct Hyes as [_ ->]. rewrite (read_slice_type_code _ mb st rest); [|by apply bytes_drop|rewrite len_drop by lia; lia|done|done|exact Hbits].
    step. unfold counted. cbn [List.filter]. change MAX_H264_SLICE_TYPES with 10. rewrite len_cons in Hlen. pose proof (len_nonneg k).
    destruct (Z.ltb_spec st 10).
    + destruct (update_repr pid p0 seen s st) as (s1 & -> & H1); [done|lia|done|lia|]. step.
      destruct (IH j k (seen ++ [st]) s1) as (s2 & E & H2); try done; [right; split; [lia|done]|rewrite len_snoc; lia|lia|].
      exists s2. split; [done|]. by rewrite <- app_assoc in H2.
    + step. apply IH; try done; [right; split; [lia|done]|lia|lia].
Qed.

Lemma counted_len l : len (counted l) <= len l.
Proof. unfold counted. induction l as [|x l IH]; cbn [List.filter]; [lia|]. case_if; rewrite ?len_cons in *; lia. Qed.

Lemma write_repr pid p0 n : 0 <= p0 -> forall pkts l seen s, buffer_slices pid n pkts l -> counter_repr pid p0 seen s ->
  p0 + len seen + len l < 2147483647 ->
  exists s', h264_write_loop n s pkts = Some s' /\ counter_repr pid p0 (seen ++ counted l) s'.
Proof.
  intros Hp0. induction n as [|n IH]; intros pkts l seen s Hb Hr Hlen; cbn [h264_write_loop].
  - inversion Hb; subst. exists s. split; [done|]. by rewrite app_nil_r.
  - inversion Hb as [|? ? l1 k Hby Hl Hpid Hsl Hrest|? ? k Hl Hq1 Hq2 Hrest]; subst; rewrite (cr_pid _ _ _ _ Hr);
      rewrite rds_slice by lia; step.
    + replace ((pid =? 8192) || (ltntstools_pid pkts =? pid)) with true
        by (symmetry; apply orb_true_iff; destruct Hpid as [->| ->]; [by left|right; apply Z.eqb_refl]).
      rewrite len_app in Hlen. pose proof (len_nonneg k). pose proof (len_nonneg l1). pose proof (counted_len l1).
      destruct (packet_loop_repr pid p0 pkts 190 Hby Hl Hp0 (-1) l1 seen s) as (s1 & E & Hr1); [by left|done|done|lia|lia|].
      unfold h264_slice_counter_write_packet. rewrite E. step.
      destruct (IH (drop 188 pkts) k (seen ++ counted l1) s1) as (s2 & E2 & Hr2); [done|done|rewrite len_app; lia|].
      exists s2. split; [done|]. unfold counted in *. by rewrite filter_app, app_assoc.
    + rewrite (proj2 (Z.eqb_neq _ _)) by done. rewrite (proj2 (Z.eqb_neq _ _)) by done. cbn [orb]. step. by apply IH.
Qed.

(** The calls: each gives a buffer and the number of packets in it. *)
Inductive calls_slices (pid : Z) : list (list Z * Z) -> list Z -> Prop :=
| CallsEnd : calls_slices pid [] []
| CallsOne pkts n calls l k : buffer_slices pid (Z.to_nat n) pkts l -> calls_slices pid calls k ->
    calls_slices pid ((pkts, n) :: calls) (l ++ k).

Definition write_calls (s : h264_slice_counter_s) (calls : list (list Z * Z)) : option h264_slice_counter_s :=
  foldM (fun s '(pkts, n) => h264_slice_counter_write s pkts n) calls s.

Lemma calls_repr pid p0 calls l : 0 <= p0 -> calls_slices pid calls l -> forall seen s, counter_repr pid p0 seen s ->
  p0 + len seen + len l < 2147483647 ->
  exists s', write_calls s calls = Some s' /\ counter_repr pid p0 (seen ++ counted l) s'.
Proof.
  intros Hp0. induction 1 as [|pkts n calls l k Hb _ IH]; intros seen s Hr Hlen; unfold write_calls; cbn [foldM].
  - exists s. split; [done|]. by rewrite app_nil_r.
  - rewrite len_app in Hlen. pose proof (len_nonneg k). pose proof (len_nonneg l). pose proof (counted_len l).
    destruct (write_repr pid p0 (Z.to_nat n) Hp0 pkts l seen s Hb Hr) as (s1 & E & Hr1); [lia|].
    unfold h264_slice_counter_write at 2. rewrite E. step.
    destruct (IH (seen ++ counted l) s1 Hr1) as (s2 & E2 & Hr2); [rewrite len_app; lia|].
    exists s2. split; [done|]. unfold counted in *. by rewrite filter_app, app_assoc.
Qed.

Lemma ring_blank p : 0 <= p -> ring_view blank_history p blank_history.
Proof.
  intros Hp. split; [done|]. split; [done|]. intros k Hk. unfold blank_history. change (Z.to_nat H264_SLICE_COUNTER_HISTORY_LENGTH) with 20%nat.
  rewrite !lookup_replicate_2; [done|lia|zlia].
Qed.

Lemma alloc_repr m pid s : h264_slice_counter_alloc (Some m) pid = Some s -> 0 <= nextHistoryPos m ->
  counter_repr pid (nextHistoryPos m) [] s.
Proof.
  intros [= <-] Hp. constructor; try done; cbn; unfold const; [by rewrite Z.add_0_r|]. by apply ring_blank.
Qed.

(** The history read out. *)
Lemma history_loop_spec ring n : forall p h, 0 <= p -> p + Z.of_nat n <= 2147483647 -> length h = n ->
  (forall k, (k < n)%nat -> ring !! Z.to_nat ((p + Z.of_nat k) mod 20) = h !! k) -> history_loop n ring p = Some h.
Proof.
  induction n as [|n IH]; intros p h Hp Hb Hl Hv; cbn [history_loop].
  - by destruct h.
  - destruct h as [|c h]; [done|]. injection Hl as Hl. unfold item_at. change H264_SLICE_COUNTER_HISTORY_LENGTH with 20.
    rewrite Z.rem_mod_nonneg by lia. rewrite (proj2 (Z.ltb_ge _ _)) by zlia.
    pose proof (Hv O ltac:(lia)) as H0. rewrite Z.add_0_r in H0. rewrite H0. change ((c :: h) !! 0%nat) with (Some c). step.
    rewrite int_ok_Some by lia. step. rewrite (IH (p + 1) h); [done|lia|lia|done|].
    intros k Hk. pose proof (Hv (S k) ltac:(lia)) as H1. change ((c :: h) !! S k) with (h !! k) in H1. rewrite <- H1. f_equal. f_equal. f_equal. lia.
Qed.

Lemma occ_sum seen i j : len seen < 2 ^ 32 -> 0 <= occ seen i + occ seen j < 2 ^ 64.
Proof. intros H. pose proof (occ_bound seen i). pose proof (occ_bound seen j). lia. Qed.


(** ** A concrete packet: a start code, an IDR slice of type 7, stuffing *)

Definition sample_slice_packet : list Z := [0x47; 1; 0; 0x10; 0; 0; 1; 0x65; 0x88; 0x80; 0; 0x10] ++ replicate 176 0xff.

Lemma slices_none pkt n : forall i, 185 - i = Z.of_nat n ->
  forallb (fun k => negb (bool_decide (slice pkt (i + Z.of_nat k) 3 = start_code))) (seq 0 n) = true -> packet_slices pkt i [].
Proof.
  induction n as [|n IH]; intros i Hi Hb; [apply SlicesEnd; lia|]. cbn [seq forallb] in Hb. apply andb_true_iff in Hb as [H1 H2].
  apply SlicesOther; [lia| |].
  - rewrite Z.add_0_r in H1. apply negb_true_iff, bool_decide_eq_false in H1. by intros [[(_ & _ & H) _] _].
  - apply IH; [lia|]. rewrite <- seq_shift, forallb_forall in H2. apply forallb_forall. intros k Hk.
    replace (i + 1 + Z.of_nat k) with (i + Z.of_nat (S k)) by lia. apply H2. by apply in_map.
Qed.

Lemma sample_slices : packet_slices sample_slice_packet 0 [7].
Proof.
  do 4 (apply SlicesOther; [reflexivity|intros [[(_ & _ & H) _] _]; vm_compute in H; discriminate H|]).
  eapply (SlicesOne _ 4 0 7); [reflexivity| |vm_compute; discriminate|split; [discriminate|reflexivity]|split; [discriminate|reflexivity]
    |vm_compute; reflexivity|apply (slices_none _ 180); [reflexivity|vm_compute; reflexivity]].
  split; [split; [split; [discriminate|split; [vm_compute; discriminate|reflexivity]]|reflexivity]|reflexivity].
Defined.


(** A slice header cut short by the four bytes read is taken for slice type -1:
    the counter before the array is incremented. *)
Example short_header_out_of_bounds : h264_slice_counter_alloc (Some {| sc_pid := 0; sc_slice := []; nextHistoryPos := 0; sliceHistory := [] |}) 256
  ≫= (fun s => h264_slice_counter_write s ([0x47; 1; 0; 0x10; 0; 0; 1; 1] ++ replicate 180 0) 1) = None.
Proof. vm_compute. reflexivity. Qed.

(** A start code in the last bytes of the last packet: the read goes past it. *)
Example last_header_overrun : h264_slice_counter_alloc (Some {| sc_pid := 0; sc_slice := []; nextHistoryPos := 0; sliceHistory := [] |}) 256
  ≫= (fun s => h264_slice_counter_write s ([0x47; 1; 0; 0x10] ++ replicate 178 0xff ++ [0; 0; 1; 1; 0; 0]) 1) = None.
Proof. vm_compute. reflexivity. Qed.

(** The state of a zeroed H.265 counter. *)
Definition hevc_zero : h265_slice_counter_s :=
  {| hc_pid := 0; hc_slice := []; hc_nextHistoryPos := 0; hc_sliceHistory := []; spsValid := 0; sps_video_parameter_set_id := 0;
     sps_max_sub_layers_minus1 := 0; sps_temporal_id_nesting_flag := 0; ppsValid := 0; pps_pic_parameter_set_id := 0;
     pps_seq_parameter_set_id := 0; dependent_slice_segments_enabled_flag := 0; output_flag_present_flag := 0;
     num_extra_slice_header_bits := 0 |}.

(** A dependent slice segment has slice type -1, which is counted. *)
Example hevc_dependent_out_of_bounds : h265_slice_counter_alloc (Some hevc_zero) 256
  ≫= (fun s => h265_slice_counter_write s
        ([0x47; 1; 0; 0x10; 0; 0; 1; 0x44; 0xE0; 0; 0; 0; 0; 0; 1; 2; 0x60; 0; 0; 0] ++ replicate 168 0xff) 1) = None.
Proof. vm_compute. reflexivity. Qed.

(** A picture parameter set is read from the second byte of its NAL header: the
    payload 0xC0 carries the ids 0 and 0, the counter reads 223. *)
Example hevc_pps_misread :
  (s ← h265_slice_counter_alloc (Some hevc_zero) 256;
   s ← h265_slice_counter_write s ([0x47; 1; 0; 0x10; 0; 0; 1; 0x44; 0x01; 0xC0; 0; 0] ++ replicate 176 0xff) 1;
   Some (ppsValid s, pps_pic_parameter_set_id s)) = Some (1, 223).
Proof. vm_compute. reflexivity. Qed.
