(* ===== verification/RtpSmoother.v ===== *)
(** * The RTP smoother: src/smoother-rtp.c

    RTP frames written in bursts, or in fragments, are found again in a buffer,
    queued with the wall-clock time at which their time stamp is due, and handed
    to a callback by a thread.  The writer and the thread share the queues under
    a mutex, and their steps interleave as in PcrSmoother.  [rs_calls]: what the
    callback was given, oldest first, with the item's number. *)
From Stdlib Require Import ZArith Lia Bool String.
From stdpp Require Import base numbers list option.
From coqutil Require Import Datatypes.RecordSettersUsingExistingGetters.
From S2P Require Import Prelude Ts RingBuffer Clock Histogram RtpAnalyzer.

Record smoother_rtp_item_s := {
  ri_seqno : Z;
  ri_buf : list Z;
  ri_lengthBytes : Z;
  ri_maxLengthBytes : Z;
  ri_tsComputed : Z;
  ri_pcrdata : pcr_position;
  ri_received_TSuS : Z;
  ri_scheduled_TSuS : Z;
  ri_pcrDidReset : Z
}.

(** ** The contiguous buffer: its lengths are of type int *)

Record byte_array_s := { ba_buf : list Z; ba_maxLengthBytes : Z; ba_lengthBytes : Z }.

Section ByteArray.
Context (malloc : Z -> option (list Z)).

(** Without memory the fields stay zero and the pointer NULL. *)
Definition byte_array_init (lengthBytes : Z) : byte_array_s * Z :=
  match malloc lengthBytes with
  | Some buf => ({| ba_buf := buf; ba_maxLengthBytes := lengthBytes; ba_lengthBytes := 0 |}, 0)
  | None => ({| ba_buf := []; ba_maxLengthBytes := 0; ba_lengthBytes := 0 |}, -1)
  end.

(** A failed [realloc] makes the copy write through NULL. *)
Definition byte_array_append (ba : byte_array_s) (src : list Z) (lengthBytes : Z) : option (byte_array_s * Z) :=
  newLengthBytes ← int_ok (ba_lengthBytes ba + lengthBytes);
  ba ← (if ba_maxLengthBytes ba <? newLengthBytes
        then b ← realloc malloc (ba_buf ba) newLengthBytes;
             Some (ba <| ba_buf := b |> <| ba_maxLengthBytes := newLengthBytes |>)
        else Some ba);
  s ← rds src 0 lengthBytes;
  b ← wrs (ba_buf ba) (ba_lengthBytes ba) s;
  Some (ba <| ba_buf := b |> <| ba_lengthBytes := newLengthBytes |>, newLengthBytes).

Definition byte_array_trim (ba : byte_array_s) (lengthBytes : Z) : option byte_array_s :=
  if ba_lengthBytes ba <? lengthBytes then Some ba else
  s ← rds (ba_buf ba) lengthBytes (ba_lengthBytes ba - lengthBytes);
  b ← wrs (ba_buf ba) 0 s;
  Some (ba <| ba_buf := b |> <| ba_lengthBytes := ba_lengthBytes ba - lengthBytes |>).
End ByteArray.

Definition byte_array_free (ba : byte_array_s) : byte_array_s :=
  ba <| ba_lengthBytes := 0 |> <| ba_maxLengthBytes := 0 |>.

(** ** The context *)

Record smoother_rtp_context_s := {
  itemsFree : list smoother_rtp_item_s;
  itemsBusy : list smoother_rtp_item_s;
  outputCb : bool;
  walltimeFirstTimestampuS : Z;
  tsFirst : Z;
  tsTail : Z;
  tsHead : Z;
  latencyuS : Z;
  bitsReceivedSinceLastPCR : Z;
  rs_seqno : Z;
  last_seqno : Z;
  voteCompleteSSRC : Z;
  expectedSSRC : Z;
  expectedCount : Z;
  expectedValidateConditions : Z;
  itemLengthBytes : Z;
  totalSizeBytes : Z;
  ba : byte_array_s;
  didTimestampReset : Z;
  lastTimestampResetTime : Z;
  measuredLatencyMs : Z;
  histReceive : ltn_histogram_s;
  histTransmit : ltn_histogram_s;
  (* the thread's local list: items to output, items that were output *)
  th_loc : list smoother_rtp_item_s;
  th_spent : list smoother_rtp_item_s;
  (* the calls made; how often the writer met the thread *)
  rs_calls : list (Z * list Z);
  rs_turn : nat
}.

Definition getScheduledOutputuS (ctx : smoother_rtp_context_s) (tsValue : Z) : Z :=
  let ticks := ltntstools_pts_diff (tsFirst ctx) tsValue in
  let scheduledTimeuS := u64 (walltimeFirstTimestampuS ctx + Z.quot (i64 (ticks * 300)) 27) in
  u64 (scheduledTimeuS + latencyuS ctx).

Definition makeTimestampFromTimeval (ts : timeval) : Z := u64 (i64 (tv_sec ts * 1000000) + tv_usec ts).

(** ** Items *)

Definition itemReset (item : smoother_rtp_item_s) : smoother_rtp_item_s :=
  item <| ri_lengthBytes := 0 |> <| ri_received_TSuS := 0 |> <| ri_scheduled_TSuS := 0 |>
       <| ri_tsComputed := 0 |> <| ri_pcrdata := ltntstools_pcr_position_reset |>.

(** How the two allocations of an item end. *)
Inductive alloc_result := AllocOk | NoItem | NoBuffer.

(** The outer [None]: without memory for the buffer the item is freed, its
    pointer cleared, and then written through. *)
Definition itemAlloc (r : alloc_result) (lengthBytes : Z) : option (option smoother_rtp_item_s) :=
  match r with
  | NoItem => Some None
  | NoBuffer => None
  | AllocOk =>
      Some (Some (itemReset {| ri_seqno := 0; ri_buf := replicate (Z.to_nat lengthBytes) 0; ri_lengthBytes := 0;
        ri_maxLengthBytes := lengthBytes; ri_tsComputed := 0; ri_pcrdata := {| pos_pcr := 0; pos_offset := 0; pos_pid := 0 |};
        ri_received_TSuS := 0; ri_scheduled_TSuS := 0; ri_pcrDidReset := 0 |}))
  end.

Definition add_item (ctx : smoother_rtp_context_s) (r : alloc_result) : option smoother_rtp_context_s :=
  item ← itemAlloc r (itemLengthBytes ctx);
  Some (match item with Some item => ctx <| itemsFree := itemsFree ctx ++ [item] |> | None => ctx end).

(** ** The thread *)

Definition due (uS : Z) (e : smoother_rtp_item_s) : bool := ri_scheduled_TSuS e <=? u64 uS.

(** Every item that is due leaves the busy list, wherever it is; the first item
    of the list is the head of the time stamps. *)
Definition queue_take (ctx : smoother_rtp_context_s) (uS : Z) : smoother_rtp_context_s :=
  let l := itemsBusy ctx in
  ctx <| tsHead := match l with e :: _ => pos_pcr (ri_pcrdata e) | [] => tsHead ctx end |>
      <| th_loc := List.filter (due uS) l |>
      <| itemsBusy := List.filter (fun e => negb (due uS e)) l |>.

(** The body of the loop over the local list. *)
Definition output_item (ctx : smoother_rtp_context_s) (tv : timeval) (e : smoother_rtp_item_s) : option smoother_rtp_context_s :=
  if negb (outputCb ctx) then Some ctx else
  '(h, _) ← ltn_histogram_interval_update (histTransmit ctx) tv;
  buf ← rds (ri_buf e) 0 (ri_lengthBytes e);
  n ← i64_ok (totalSizeBytes ctx - ri_lengthBytes e);
  Some (ctx <| histTransmit := h |> <| rs_calls := rs_calls ctx ++ [(ri_seqno e, buf)] |>
            <| totalSizeBytes := n |> <| last_seqno := ri_seqno e |>).

(** The steps of _threadFunc and _queueProcess: take the items due under the
    mutex, output the next of them, return them under the mutex. *)
Inductive thread_step := ThreadTake (uS : Z) | ThreadOutput (tv : timeval) | ThreadReturn.

(** A step the thread is not at is not made. *)
Definition thread_do (ctx : smoother_rtp_context_s) (op : thread_step) : option smoother_rtp_context_s :=
  match op, th_loc ctx, th_spent ctx with
  | ThreadTake uS, [], [] => Some (queue_take ctx uS)
  | ThreadOutput tv, e :: l, _ =>
      ctx ← output_item ctx tv e;
      Some (ctx <| th_loc := l |> <| th_spent := th_spent ctx ++ [e] |>)
  | ThreadReturn, [], spent => Some (ctx <| itemsFree := itemsFree ctx ++ map itemReset spent |> <| th_spent := [] |>)
  | _, _, _ => Some ctx
  end.

(** ** The writer *)

Section Writer.
(** The C library's [malloc]; the growth of the array of positions; the thread's
    steps, the clocks and the outcomes of allocations by the number of the turn. *)
Context (malloc : Z -> option (list Z)) (grow : Z -> bool) (sched : nat -> list thread_step).
Context (gettimeofday : nat -> timeval) (time : nat -> Z) (alloc : nat -> nat -> alloc_result).

(** Taking the mutex. *)
Definition interfere (ctx : smoother_rtp_context_s) : option smoother_rtp_context_s :=
  foldM thread_do (sched (rs_turn ctx)) (ctx <| rs_turn := S (rs_turn ctx) |>).

(** The first critical section: an item leaves the free list, which grows when
    it is empty.  The first entry of an empty list is the list head, which is no
    item: undefined. *)
Definition take_item (ctx : smoother_rtp_context_s) : option (smoother_rtp_context_s * smoother_rtp_item_s) :=
  ctx ← interfere ctx;
  ctx ← (match itemsFree ctx with
         | [] => foldM add_item (map (alloc (rs_turn ctx)) (seq 0 64)) ctx
         | _ => Some ctx
         end);
  match itemsFree ctx with
  | [] => None
  | item :: l => Some (ctx <| itemsFree := l |>, item)
  end.

(** Between the critical sections: the item is filled and scheduled. *)
Definition fill_item (ctx : smoother_rtp_context_s) (item : smoother_rtp_item_s) (src : list Z) (lengthBytes tsValue : Z)
    : option (smoother_rtp_context_s * smoother_rtp_item_s) :=
  let item := item <| ri_received_TSuS := makeTimestampFromTimeval (gettimeofday (rs_turn ctx)) |> in
  item ← (if ri_maxLengthBytes item <? lengthBytes
          then b ← realloc malloc (ri_buf item) lengthBytes;
               Some (item <| ri_buf := b |> <| ri_maxLengthBytes := lengthBytes |>)
          else Some item);
  b ← wrs (ri_buf item) 0 src;
  let item := item <| ri_buf := b |> <| ri_lengthBytes := lengthBytes |>
                   <| ri_pcrdata := (ri_pcrdata item) <| pos_pcr := tsValue |> |> in
  let ctx := if tsFirst ctx =? -1
             then ctx <| tsFirst := tsValue |> <| walltimeFirstTimestampuS := ri_received_TSuS item |>
             else ctx in
  let ctx := ctx <| bitsReceivedSinceLastPCR := 0 |> <| tsTail := tsValue |> in
  Some (ctx, item <| ri_scheduled_TSuS := getScheduledOutputuS ctx tsValue |> <| ri_tsComputed := 0 |>).

(** The schedule of a new item: never before the last one queued. *)
Definition order_time (busy : list smoother_rtp_item_s) (t : Z) : Z :=
  match list.last busy with
  | Some lst => if t <? ri_scheduled_TSuS lst then u64 (ri_scheduled_TSuS lst + 1) else t
  | None => t
  end.

(** The second critical section: the item enters the busy list. *)
Definition queue_item (ctx : smoother_rtp_context_s) (item : smoother_rtp_item_s) : option smoother_rtp_context_s :=
  ctx ← interfere ctx;
  n ← i64_ok (totalSizeBytes ctx + ri_lengthBytes item);
  let item := item <| ri_seqno := rs_seqno ctx |>
                   <| ri_scheduled_TSuS := order_time (itemsBusy ctx) (ri_scheduled_TSuS item) |> in
  Some (ctx <| rs_seqno := u64 (rs_seqno ctx + 1) |> <| totalSizeBytes := n |> <| itemsBusy := itemsBusy ctx ++ [item] |>).

Definition smoother_rtp_write2 (ctx : smoother_rtp_context_s) (src : list Z) (lengthBytes tsValue : Z) : option smoother_rtp_context_s :=
  '(ctx, item) ← take_item ctx;
  '(ctx, item) ← fill_item ctx item src lengthBytes tsValue;
  queue_item ctx item.

(** The vote on the SSRC: the first buffer names it, which nine that start with
    the same confirm. *)
Definition vote (ctx : smoother_rtp_context_s) (src : list Z) : option smoother_rtp_context_s :=
  if negb (voteCompleteSSRC ctx =? 0) then Some ctx else
  hdr ← rds src 0 12;
  let ssrc := rh_ssrc (hdr_at hdr) in
  let ctx := ctx <| expectedCount := u32 (expectedCount ctx + 1) |> in
  let ctx := if expectedValidateConditions ctx =? 0
             then ctx <| expectedSSRC := ssrc |> <| expectedValidateConditions := 1 |>
             else if expectedSSRC ctx =? ssrc
             then ctx <| expectedValidateConditions := u32 (expectedValidateConditions ctx + 1) |>
             else ctx in
  Some (if expectedValidateConditions ctx =? 10 then ctx <| voteCompleteSSRC := 1 |> else ctx).

(** The time stamps of the first two entries only are put in the host's order. *)
Definition frame_ts (i : Z) (e : rtp_frame_position_s) : Z :=
  if i <? 2 then ntohl (rh_ts (fp_frame e)) else rh_ts (fp_frame e).

(** Every frame up to the last, whose length is zero, is written; where the
    processed bytes end. *)
Fixpoint write_frames (ctx : smoother_rtp_context_s) (array : list rtp_frame_position_s) (i trimOffset : Z)
    : option (smoother_rtp_context_s * Z) :=
  match array with
  | [] => Some (ctx, trimOffset)
  | e :: l =>
      if fp_lengthBytes e =? 0 then Some (ctx, trimOffset) else
      src ← rds (ba_buf (ba ctx)) (fp_offset e) (i32 (fp_lengthBytes e));
      ctx ← smoother_rtp_write2 ctx src (i32 (fp_lengthBytes e)) (frame_ts i e);
      write_frames ctx l (i + 1) (u32 (fp_offset e + fp_lengthBytes e))
  end.

(** A jump of more than 15 seconds between the first two frames. *)
Definition check_jump (ctx : smoother_rtp_context_s) (e0 e1 : rtp_frame_position_s) : smoother_rtp_context_s :=
  if 15 * 90000 <? ltntstools_pts_diff (frame_ts 0 e0) (frame_ts 1 e1) then ctx <| didTimestampReset := 1 |> else ctx.

(** The end of a write: the time base is reset every minute, and after a jump. *)
Definition check_reset (ctx : smoother_rtp_context_s) (now : Z) : smoother_rtp_context_s :=
  let ctx := if lastTimestampResetTime ctx + 60 <=? now
             then ctx <| lastTimestampResetTime := now |> <| didTimestampReset := 1 |> else ctx in
  if negb (didTimestampReset ctx =? 0) then ctx <| tsFirst := -1 |> <| didTimestampReset := 0 |> else ctx.

Definition process_frames (ctx : smoother_rtp_context_s) (array : list rtp_frame_position_s) (e0 e1 : rtp_frame_position_s)
    : option smoother_rtp_context_s :=
  let ctx := check_jump ctx e0 e1 in
  let ctx := ctx <| measuredLatencyMs := Z.quot (ltntstools_pts_diff (tsHead ctx) (tsTail ctx)) 90 |> in
  '(ctx, trimOffset) ← write_frames ctx array 0 0;
  b ← byte_array_trim (ba ctx) (i32 trimOffset);
  Some (check_reset (ctx <| ba := b |>) (time (rs_turn ctx))).

Definition smoother_rtp_write (ctx : smoother_rtp_context_s) (src : list Z) (lengthBytes : Z) (ts : timeval)
    : option (smoother_rtp_context_s * Z) :=
  '(h, _) ← ltn_histogram_interval_update (histReceive ctx) ts;
  ctx ← vote (ctx <| histReceive := h |>) src;
  '(b, _) ← byte_array_append malloc (ba ctx) src lengthBytes;
  let ctx := ctx <| ba := b |> in
  '(array, r) ← rtp_frame_queryPositions grow (ba_buf b) (ba_lengthBytes b) 0 (expectedSSRC ctx);
  if r <? 0 then Some (ctx, 0) else
  match array with
  | Some ((e0 :: e1 :: _) as array) => ctx ← process_frames ctx array e0 e1; Some (ctx, 0)
  | _ => Some (ctx, 0)
  end.

(** ** The other operations *)

Definition smoother_rtp_get_size (ctx : smoother_rtp_context_s) : option (smoother_rtp_context_s * Z) :=
  ctx ← interfere ctx;
  Some (ctx, if 0 <? totalSizeBytes ctx then totalSizeBytes ctx else 0).

Definition smoother_rtp_reset (ctx : smoother_rtp_context_s) : option smoother_rtp_context_s :=
  ctx ← interfere ctx;
  Some (ctx <| walltimeFirstTimestampuS := 0 |> <| tsFirst := -1 |> <| tsHead := -1 |> <| tsTail := -1 |>
            <| totalSizeBytes := 0 |> <| itemsFree := itemsFree ctx ++ map itemReset (itemsBusy ctx) |> <| itemsBusy := [] |>).

(** [hist] and [now]: the histograms' memory and clock; [cb]: a callback is
    given.  The inner [None] is the return value -1. *)
Definition smoother_rtp_alloc (ctx_ok cb : bool) (hist : nat -> bool) (now : timeval) (itemsPerSecond bytes latencyMS : Z)
    : option (option smoother_rtp_context_s) :=
  if negb ctx_ok then Some None else
  let bytes := if bytes <? 12 + 7 * 188 then 12 + 7 * 188 else bytes in
  latency ← int_ok (latencyMS * 1000);
  let '(b, _) := byte_array_init malloc (8000 * 188) in
  hr ← ltn_histogram_alloc_video_defaults (hist 0%nat) (hist 1%nat) now (Some "receive arrival times"%string);
  ht ← ltn_histogram_alloc_video_defaults (hist 2%nat) (hist 3%nat) now (Some "transmit arrival times"%string);
  ctx ← foldM add_item (map (alloc 0) (seq 0 (Z.to_nat itemsPerSecond)))
    {| itemsFree := []; itemsBusy := []; outputCb := cb; walltimeFirstTimestampuS := 0; tsFirst := -1; tsTail := -1; tsHead := -1;
       latencyuS := latency; bitsReceivedSinceLastPCR := 0; rs_seqno := 0; last_seqno := 0; voteCompleteSSRC := 0;
       expectedSSRC := 0; expectedCount := 0; expectedValidateConditions := 0; itemLengthBytes := bytes;
       totalSizeBytes := 0; ba := b; didTimestampReset := 0; lastTimestampResetTime := time 0; measuredLatencyMs := 0;
       histReceive := hr; histTransmit := ht; th_loc := []; th_spent := []; rs_calls := []; rs_turn := 0 |};
  Some (Some ctx).
End Writer.
