(* ===== verification/RtpSmootherSpec.v ===== *)
(** * What the RTP smoother promises

    From the first RTP header on no byte is lost, repeated or reordered,
    however the stream is cut into writes and whatever the thread and the clocks
    do between the writer's steps; the items are in the order of their schedule,
    so that the ones due are the first ones. *)
From Stdlib Require Import ZArith Lia Bool String Sorting.Sorted.
From stdpp Require Import base numbers list option.
From coqutil Require Import Datatypes.RecordSettersUsingExistingGetters.
From S2P Require Import Prelude Ts RingBuffer Clock Histogram RtpAnalyzer RtpSmoother.

(** ** Items *)

Definition item_bytes (e : smoother_rtp_item_s) : list Z := take (Z.to_nat (ri_lengthBytes e)) (ri_buf e).
Definition item_room (e : smoother_rtp_item_s) : Prop := ri_maxLengthBytes e = len (ri_buf e).
Definition item_full (e : smoother_rtp_item_s) : Prop := item_room e /\ 0 <= ri_lengthBytes e <= len (ri_buf e).
Definition queued_bytes (l : list smoother_rtp_item_s) : Z := len (concat (map item_bytes l)).
Definition before (e e' : smoother_rtp_item_s) : Prop := ri_scheduled_TSuS e <= ri_scheduled_TSuS e'.

Lemma item_length e : item_full e -> len (item_bytes e) = ri_lengthBytes e.
Proof. intros [_ H]. unfold item_bytes. by apply len_take. Qed.

Lemma rtp_queued_cons e l : queued_bytes (e :: l) = len (item_bytes e) + queued_bytes l.
Proof. unfold queued_bytes. cbn [map concat]. by rewrite len_app. Qed.

Lemma rtp_queued_app l k : queued_bytes (l ++ k) = queued_bytes l + queued_bytes k.
Proof. unfold queued_bytes. by rewrite map_app, concat_app, len_app. Qed.

Lemma rtp_full_rooms l : Forall item_full l -> Forall item_room l.
Proof. apply List.Forall_impl. by intros e []. Qed.

Lemma sorted_filter f l : StronglySorted before l -> StronglySorted before (List.filter f l).
Proof.
  induction 1 as [|e l Hl IH He]; cbn [List.filter]; [constructor|]. destruct (f e); [|done]. constructor; [done|].
  clear - He. induction He as [|x l Hx _ IH]; cbn [List.filter]; [constructor|]. destruct (f x); [by constructor|done].
Qed.

Lemma forall_filter (P : smoother_rtp_item_s -> Prop) f l : Forall P l -> Forall P (List.filter f l).
Proof. induction 1 as [|x l Hx _ IH]; cbn [List.filter]; [constructor|]. destruct (f x); [by constructor|done]. Qed.

(** The items due are the first ones. *)
Lemma due_prefix uS l : StronglySorted before l -> List.filter (due uS) l ++ List.filter (fun e => negb (due uS e)) l = l.
Proof.
  induction 1 as [|e l Hl IH He]; cbn [List.filter]; [done|]. destruct (due uS e) eqn:Ed; cbn [negb app]; [by rewrite IH|].
  assert (List.filter (due uS) l = []) as E.
  { clear - He Ed. induction He as [|x l Hx _ IH]; cbn [List.filter]; [done|]. unfold due, before in *. apply Z.leb_gt in Ed.
    destruct (Z.leb_spec (ri_scheduled_TSuS x) (u64 uS)); [lia|done]. }
  rewrite E in *. cbn [app] in *. by rewrite IH.
Qed.

Lemma sorted_item_snoc l e : StronglySorted before l -> Forall (fun x => before x e) l -> StronglySorted before (l ++ [e]).
Proof.
  induction 1 as [|x l Hl IH Hx]; intros He; cbn [app]; [by repeat constructor|]. apply Forall_cons_1 in He as [H1 H2].
  constructor; [by apply IH|]. apply Forall_app. split; [done|]. by apply Forall_singleton.
Qed.

Lemma sorted_last l e : StronglySorted before l -> list.last l = Some e -> Forall (fun x => before x e) l.
Proof.
  intros Hs Hl. apply list.last_Some in Hl as [k ->]. induction k as [|x k IH]; cbn [app] in *.
  - apply Forall_singleton. unfold before. lia.
  - inversion Hs as [|? ? Hs' Hx]; subst. constructor; [|by apply IH]. apply Forall_app in Hx as [_ Hx]. by apply Forall_cons_1 in Hx as [Hx _].
Qed.

(** ** The invariant: [sent], the pieces queued so far *)

Record rs_inv (sent : list (list Z)) (ctx : smoother_rtp_context_s) : Prop := {
  iv_free : Forall item_room (itemsFree ctx);
  iv_busy : Forall item_full (itemsBusy ctx);
  iv_loc : Forall item_full (th_loc ctx);
  iv_spent : Forall item_room (th_spent ctx);
  iv_bytes : totalSizeBytes ctx = queued_bytes (th_loc ctx ++ itemsBusy ctx);
  iv_sent : map snd (rs_calls ctx) ++ map item_bytes (th_loc ctx ++ itemsBusy ctx) = sent;
  iv_seq : map fst (rs_calls ctx) ++ map ri_seqno (th_loc ctx ++ itemsBusy ctx) = seqZ 0 (len sent);
  iv_next : rs_seqno ctx = len sent;
  iv_order : StronglySorted before (itemsBusy ctx);
  iv_bound : Forall (fun e => 0 <= ri_scheduled_TSuS e <= 2 ^ 61 + len sent) (itemsBusy ctx);
  iv_hist : hist_wf (histTransmit ctx);
  iv_seen : seen (histTransmit ctx) = len (rs_calls ctx);
  iv_cb : outputCb ctx = true;
  iv_size : 0 <= itemLengthBytes ctx
}.

Definition shared (ctx : smoother_rtp_context_s) :=
  (itemsFree ctx, itemsBusy ctx, th_loc ctx, th_spent ctx, (totalSizeBytes ctx, rs_calls ctx, rs_seqno ctx, histTransmit ctx),
   (outputCb ctx, itemLengthBytes ctx)).

(** The fields only the writer changes. *)
Definition writers (ctx : smoother_rtp_context_s) :=
  (ba ctx, histReceive ctx, (voteCompleteSSRC ctx, expectedSSRC ctx, expectedCount ctx, expectedValidateConditions ctx),
   (tsFirst ctx, walltimeFirstTimestampuS ctx, latencyuS ctx), (didTimestampReset ctx, lastTimestampResetTime ctx)).

Lemma rs_inv_ext sent c c' : shared c' = shared c -> rs_inv sent c -> rs_inv sent c'.
Proof. intros [= E1 E2 E3 E4 E5 E6 E7 E8 E9 E10] []. constructor; congruence. Qed.

Lemma rs_sizes sent ctx : rs_inv sent ctx -> len (rs_calls ctx) + len (th_loc ctx) + len (itemsBusy ctx) = len sent /\
  0 <= queued_bytes (th_loc ctx ++ itemsBusy ctx) <= len (concat sent).
Proof.
  intros H. pose proof (iv_sent _ _ H) as E. split.
  - rewrite <- E. unfold len. rewrite length_app, !length_map, length_app. lia.
  - rewrite <- E. unfold queued_bytes. rewrite concat_app, len_app. pose proof (len_nonneg (concat (map snd (rs_calls ctx)))).
    pose proof (len_nonneg (concat (map item_bytes (th_loc ctx ++ itemsBusy ctx)))). lia.
Qed.

(** ** The thread *)

Definition step_ok (op : thread_step) : Prop := match op with ThreadOutput tv => timeval_wf tv | _ => True end.

(** Amounts that no counter overflows on. *)
Definition small (sent : list (list Z)) : Prop := len sent < 2 ^ 50 /\ len (concat sent) < 2 ^ 60.

Lemma rtp_output_item_spec sent ctx tv e l : rs_inv sent ctx -> th_loc ctx = e :: l -> small sent -> timeval_wf tv ->
  exists h, output_item ctx tv e =
    Some (ctx <| histTransmit := h |> <| rs_calls := rs_calls ctx ++ [(ri_seqno e, item_bytes e)] |>
              <| totalSizeBytes := queued_bytes (l ++ itemsBusy ctx) |> <| last_seqno := ri_seqno e |>) /\
    hist_wf h /\ seen h = len (rs_calls ctx) + 1.
Proof.
  intros Hinv Hloc [Hs Hs2] Htv. destruct (rs_sizes _ _ Hinv) as [Hsz Hq]. destruct Hinv. rewrite Hloc in *.
  apply Forall_cons_1 in iv_loc0 as [He Hl]. pose proof (item_length e He) as Hlen. destruct He as [_ He].
  unfold output_item. rewrite iv_cb0. cbn [negb].
  pose proof (len_nonneg (rs_calls ctx)). pose proof (len_nonneg (itemsBusy ctx)). rewrite len_cons in Hsz. pose proof (len_nonneg l).
  destruct (hist_step_spec (histTransmit ctx) (OpInterval tv) iv_hist0 Htv) as (h & Eh & Hh & Hseen); [lia|].
  cbn [hist_step] in Eh. destruct (ltn_histogram_interval_update _ _) as [[h' z]|]; [|done]. injection Eh as ->. step.
  rewrite rds_slice by lia. step. change (slice (ri_buf e) 0 (ri_lengthBytes e)) with (item_bytes e).
  cbn [app] in iv_bytes0, Hq. rewrite rtp_queued_cons in iv_bytes0, Hq.
  assert (0 <= queued_bytes (l ++ itemsBusy ctx)) by (unfold queued_bytes; apply len_nonneg).
  rewrite i64_ok_Some by lia. step. exists h. split; [|split; [done|rewrite Hseen; cbn [recorded]; lia]].
  by replace (totalSizeBytes ctx - ri_lengthBytes e) with (queued_bytes (l ++ itemsBusy ctx)) by lia.
Qed.

Lemma rtp_thread_do_spec sent ctx op : rs_inv sent ctx -> small sent -> step_ok op ->
  exists ctx', thread_do ctx op = Some ctx' /\ rs_inv sent ctx' /\ writers ctx' = writers ctx.
Proof.
  intros Hinv Hs Hop. assert (Hstay : exists ctx', Some ctx = Some ctx' /\ rs_inv sent ctx' /\ writers ctx' = writers ctx) by (by exists ctx).
  unfold thread_do. destruct op as [uS|tv|]; destruct (th_loc ctx) as [|e l] eqn:El; try exact Hstay.
  - destruct (th_spent ctx) as [|e l] eqn:Ee; [|exact Hstay]. eexists. split; [done|]. split; [|done].
    pose proof (due_prefix uS _ (iv_order _ _ Hinv)) as Hp.
    destruct Hinv. rewrite El in *. constructor; cbn; unfold const; rewrite ?Hp; try done; try by apply forall_filter.
    by apply sorted_filter.
  - destruct (rtp_output_item_spec sent ctx tv e l Hinv El Hs Hop) as (h & -> & Hh & Hseen). step.
    eexists. split; [reflexivity|]. split; [|done].
    destruct Hinv. rewrite El in *. apply Forall_cons_1 in iv_loc0 as [He Hl]. constructor; cbn; unfold const; try done.
    + apply Forall_app. split; [done|]. apply Forall_singleton. apply He.
    + rewrite map_app, <- app_assoc. exact iv_sent0.
    + rewrite map_app, <- app_assoc. exact iv_seq0.
    + rewrite len_app. exact Hseen.
  - eexists. split; [reflexivity|]. split; [|done]. destruct Hinv. rewrite El in *. constructor; cbn; unfold const; rewrite ?El; try done.
    apply Forall_app. split; [done|]. apply Forall_map. exact iv_spent0.
Qed.

(** ** The buffer *)

(** The buffer holds the bytes [V]. *)
Record ba_holds (V : list Z) (b : byte_array_s) : Prop := {
  bh_buf : exists rest, ba_buf b = V ++ rest;
  bh_length : ba_lengthBytes b = len V;
  bh_max : ba_maxLengthBytes b = len (ba_buf b)
}.

Lemma rtp_append_spec malloc V w b : malloc_gives malloc -> ba_holds V b -> len V + len w < 2 ^ 31 ->
  exists b', byte_array_append malloc b w (len w) = Some (b', len V + len w) /\ ba_holds (V ++ w) b'.
Proof.
  intros Hmal [[rest Hr] Hl Hm] Hn. pose proof (len_nonneg V). pose proof (len_nonneg w). pose proof (len_nonneg rest).
  unfold byte_array_append. rewrite Hl, int_ok_Some by lia. step.
  assert (exists b1 r1, (if ba_maxLengthBytes b <? len V + len w
     then b0 ← realloc malloc (ba_buf b) (len V + len w);
          Some (b <| ba_buf := b0 |> <| ba_maxLengthBytes := len V + len w |>)
     else Some b) = Some b1 /\ ba_buf b1 = V ++ r1 /\ ba_maxLengthBytes b1 = len (ba_buf b1) /\
     ba_lengthBytes b1 = len V /\ len w <= len r1) as (b1 & r1 & -> & B1 & B2 & B3 & B4).
  { rewrite Hm. case_if.
    - destruct (realloc_grows malloc (ba_buf b) (len V + len w) Hmal) as (l & -> & Hll); [lia|]. step.
      eexists _, (rest ++ l). split; [reflexivity|]. cbn. unfold const. split; [by rewrite Hr, <- app_assoc|].
      split; [done|]. split; [done|]. rewrite Hr, <- app_assoc, len_app in Hll. lia.
    - exists b, rest. split_and!; try done. rewrite Hr, len_app in E. lia. }
  step. rewrite rds_slice by lia. step. assert (slice w 0 (len w) = w) as -> by (unfold slice, len; rewrite Nat2Z.id; apply firstn_all).
  rewrite B3, B1. rewrite wrs_Some by (rewrite ?len_app; lia). step. eexists. split; [reflexivity|].
  constructor; cbn; unfold const.
  - eexists. rewrite take_len_app, <- app_assoc. reflexivity.
  - by rewrite len_app.
  - rewrite B2, B1. rewrite !len_app, len_take, len_drop; rewrite ?len_app; lia.
Qed.

Lemma rtp_trim_spec V n b : ba_holds V b -> 0 <= n <= len V ->
  exists b', byte_array_trim b n = Some b' /\ ba_holds (drop (Z.to_nat n) V) b'.
Proof.
  intros [[rest Hr] Hl Hm] Hn. unfold byte_array_trim. rewrite Hl. zdec. pose proof (len_nonneg rest).
  assert (Hb : len (ba_buf b) = len V + len rest) by (by rewrite Hr, len_app).
  rewrite rds_slice by lia. step. rewrite Hr, slice_app_l by lia. unfold slice.
  assert (Hd : len (drop (Z.to_nat n) V) = len V - n) by (by apply len_drop).
  rewrite take_ge by (rewrite length_drop; unfold len in *; lia).
  rewrite wrs_Some by (rewrite ?len_app; lia). step. eexists. split; [reflexivity|]. constructor; cbn; unfold const.
  - by eexists.
  - by rewrite Hd.
  - rewrite Hm, Hb. pose proof (len_app V rest). autorewrite with len. rewrite Hd, len_drop; autorewrite with len; lia.
Qed.

(** ** The frames of the buffer *)

Lemma hdr_at_ext p q : (forall i, 0 <= i < 12 -> byte_at p i = byte_at q i) -> hdr_at p = hdr_at q.
Proof. intros H. unfold hdr_at. cbv zeta. rewrite !H by lia. done. Qed.

Lemma is_frame_ssrc p ssrc : is_frame p ssrc = true -> rh_ssrc (hdr_at p) = ssrc.
Proof.
  unfold is_frame. cbv zeta. destruct (negb (_ =? 2)); [done|]. destruct (negb (_ =? 33)); [done|]. destruct (_ =? 1); [done|].
  destruct (negb (_ =? 0)); [done|]. destruct (Z.eqb_spec (rh_ssrc (hdr_at p)) ssrc); done.
Qed.

(** What is found in a buffer that holds [V]: the offsets, with a frame of [V]
    at each, that are a frame apart. *)
Record found (V : list Z) (ssrc : Z) (arr : list rtp_frame_position_s) : Prop := {
  fo_chain : chained arr;
  fo_room : Forall (fun e => 0 <= fp_offset e /\ fp_offset e + 376 < len V) arr;
  fo_frame : Forall (fun e => is_frame (slice V (fp_offset e) 213) ssrc = true) arr;
  fo_header : Forall (fun e => fp_frame e = hdr_at (slice V (fp_offset e) 213)) arr
}.

Lemma found_cons V ssrc a arr : found V ssrc (a :: arr) -> found V ssrc arr.
Proof.
  intros [C R F H]. apply Forall_cons_1 in R as [_ R]. apply Forall_cons_1 in F as [_ F]. apply Forall_cons_1 in H as [_ H].
  constructor; try done. destruct arr; [done|]. apply C.
Qed.

Lemma positions_spec V ssrc b : ba_holds V b -> len V < 2 ^ 31 ->
  exists arr, rtp_frame_queryPositions (fun _ => true) (ba_buf b) (ba_lengthBytes b) 0 ssrc = Some (Some arr, 0) /\ found V ssrc arr /\
    forall k, 0 <= k < len V - 376 -> is_frame (slice V k 213) ssrc = true -> covered 0 k arr.
Proof.
  intros [[rest Hr] Hl _] HV. pose proof (len_nonneg V). pose proof (len_nonneg rest).
  destruct (rtp_positions_found (ba_buf b) (ba_lengthBytes b) 0 ssrc) as (arr & -> & C & F & R & A); [rewrite Hr, len_app; lia|lia|lia|].
  exists arr. rewrite Hl in *. rewrite Hr in *. split; [done|]. split.
  - assert (Hi : Forall (fun e => (0 <= fp_offset e /\ fp_offset e + 376 < len V) /\ is_frame (slice V (fp_offset e) 213) ssrc = true /\
      fp_frame e = hdr_at (slice V (fp_offset e) 213)) arr).
    { rewrite List.Forall_forall in *. intros e He. specialize (R e He). destruct (F e He) as (i & Hi & Eo & H1 & H2).
      rewrite Z.add_0_l in Eo. subst i. cbv beta in R. rewrite slice_app_l in H1, H2 by lia. split_and!; (done || lia). }
    constructor; [done|..]; revert Hi; apply List.Forall_impl; intros e (? & ? & ?); done.
  - intros k Hk Hf. apply A; [done|]. by rewrite slice_app_l by lia.
Qed.

(** The bytes from each offset to the next. *)
Fixpoint pieces (V : list Z) (arr : list rtp_frame_position_s) : list (list Z) :=
  match arr with
  | a :: rest => match rest with [] => [] | b :: _ => slice V (fp_offset a) (fp_offset b - fp_offset a) :: pieces V rest end
  | [] => []
  end.

Definition last_offset (arr : list rtp_frame_position_s) : Z := match list.last arr with Some e => fp_offset e | None => 0 end.

Lemma found_last V ssrc a arr : found V ssrc (a :: arr) ->
  fp_offset a <= last_offset (a :: arr) /\ last_offset (a :: arr) + 376 < len V /\
  is_frame (slice V (last_offset (a :: arr)) 213) ssrc = true.
Proof.
  revert a. induction arr as [|b arr IH]; intros a Hf.
  - destruct Hf as [_ R F _]. apply Forall_cons_1 in R as [R _]. apply Forall_cons_1 in F as [F _]. unfold last_offset. cbn. split_and!; (done || lia).
  - destruct (IH b (found_cons _ _ _ _ Hf)) as (H1 & H2 & H3). destruct (fo_chain _ _ _ Hf) as (C & _ & _).
    change (last_offset (a :: b :: arr)) with (last_offset (b :: arr)). split_and!; (done || lia).
Qed.

(** The pieces, in order, are the buffer from the first offset to the last. *)
Lemma pieces_concat V ssrc a arr : found V ssrc (a :: arr) ->
  take (Z.to_nat (fp_offset a)) V ++ concat (pieces V (a :: arr)) = take (Z.to_nat (last_offset (a :: arr))) V.
Proof.
  revert a. induction arr as [|b arr IH]; intros a Hf; [by rewrite app_nil_r|].
  change (last_offset (a :: b :: arr)) with (last_offset (b :: arr)). rewrite <- (IH b (found_cons _ _ _ _ Hf)).
  cbn [pieces concat]. rewrite app_assoc. f_equal. destruct (fo_chain _ _ _ Hf) as (C & _ & _).
  pose proof (fo_room _ _ _ Hf) as R. apply Forall_cons_1 in R as [Ra R]. apply Forall_cons_1 in R as [Rb _].
  pose proof (slice_split V 0 (fp_offset a) (fp_offset b)) as E. rewrite Z.add_0_l in E. symmetry. apply E; lia.
Qed.

(** What the smoother queues: a frame of the stream with what follows it. *)
Definition frame_piece (ssrc : Z) (p : list Z) : Prop := 200 <= len p /\ rh_ssrc (hdr_at p) = ssrc.

Lemma pieces_frames V ssrc arr : found V ssrc arr -> Forall (frame_piece ssrc) (pieces V arr).
Proof.
  induction arr as [|a arr IH]; intros Hf; [constructor|]. cbn [pieces]. destruct arr as [|b arr]; [constructor|].
  constructor; [|apply IH; by eapply found_cons]. destruct (fo_chain _ _ _ Hf) as (C & _ & _).
  pose proof (fo_room _ _ _ Hf) as R. apply Forall_cons_1 in R as [Ra R]. apply Forall_cons_1 in R as [Rb _].
  pose proof (fo_frame _ _ _ Hf) as F. apply Forall_cons_1 in F as [F _]. split; [rewrite len_slice; lia|].
  rewrite <- (is_frame_ssrc _ _ F). f_equal. apply hdr_at_ext. intros i Hi. by rewrite !byte_at_slice by lia.
Qed.

Lemma hdr_ts_range p : bytes p -> 0 <= rh_ts (hdr_at p) < 2 ^ 32 /\ 0 <= ntohl (rh_ts (hdr_at p)) < 2 ^ 32.
Proof.
  intros Hp. cbn [hdr_at rh_ts]. pose proof (byte_at_is_byte p 4 Hp). pose proof (byte_at_is_byte p 5 Hp).
  pose proof (byte_at_is_byte p 6 Hp). pose proof (byte_at_is_byte p 7 Hp). unfold is_byte in *.
  split; [lia|]. unfold ntohl. zlia.
Qed.

Lemma frame_ts_range V ssrc i e arr : found V ssrc (e :: arr) -> bytes V -> 0 <= frame_ts i e < 2 ^ 32.
Proof.
  intros Hf HV. pose proof (fo_header _ _ _ Hf) as H. apply Forall_cons_1 in H as [H _]. unfold frame_ts. rewrite H.
  case_if; apply hdr_ts_range; by apply bytes_slice.
Qed.

(** ** The writer's steps *)

Section Writer.
Context (malloc : Z -> option (list Z)) (sched : nat -> list thread_step).
Context (gettimeofday : nat -> timeval) (time : nat -> Z) (alloc : nat -> nat -> alloc_result).
Context (Hmalloc : malloc_gives malloc) (Hsched : forall n, Forall step_ok (sched n)).
Context (Hclock : forall n, timeval_wf (gettimeofday n) /\ 2 ^ 47 <= tv_sec (gettimeofday n) * 1000000).
Context (Hbuf : forall n i, alloc n i <> NoBuffer) (Hitem : forall n, exists i, (i < 64)%nat /\ alloc n i = AllocOk).

Lemma rtp_interfere_spec sent ctx : rs_inv sent ctx -> small sent ->
  exists ctx', interfere sched ctx = Some ctx' /\ rs_inv sent ctx' /\ writers ctx' = writers ctx.
Proof.
  intros Hinv Hs. unfold interfere. apply (foldM_inv (fun c => rs_inv sent c /\ writers c = writers ctx)).
  - intros c op Hin (Hc & Hw). destruct (rtp_thread_do_spec sent c op Hc Hs) as (c' & E & Hc' & Hw').
    { specialize (Hsched (rs_turn ctx)). rewrite List.Forall_forall in Hsched. apply Hsched. by apply list_elem_of_In. }
    exists c'. split; [done|]. split; [done|]. by rewrite Hw'.
  - split; [by apply (rs_inv_ext _ ctx)|done].
Qed.

Lemma rtp_add_items sent rs : forall ctx, rs_inv sent ctx -> Forall (fun r => r <> NoBuffer) rs ->
  exists ctx', foldM add_item rs ctx = Some ctx' /\ rs_inv sent ctx' /\ writers ctx' = writers ctx /\
    (AllocOk ∈ rs \/ itemsFree ctx <> [] -> itemsFree ctx' <> []).
Proof.
  induction rs as [|r rs IH]; intros ctx Hinv Hrs.
  { exists ctx. repeat (split; [done|]). intros [H|H]; [by apply not_elem_of_nil in H|done]. }
  apply Forall_cons_1 in Hrs as [Hr Hrs]. cbn [foldM]. unfold add_item at 2, itemAlloc. destruct r; [|step|done].
  - step. match goal with |- context [foldM _ _ ?c] => destruct (IH c) as (ctx' & -> & H1 & H2 & H3) end; [|done|].
    + destruct Hinv. constructor; cbn; unfold const; try done. apply Forall_app. split; [done|]. apply Forall_singleton.
      unfold item_room. cbn. unfold const. by rewrite len_replicate.
    + exists ctx'. split; [done|]. split; [done|]. split; [by rewrite H2|]. intros _. apply H3. right. cbn. unfold const. by destruct (itemsFree ctx).
  - destruct (IH ctx Hinv Hrs) as (ctx' & -> & H1 & H2 & H3). exists ctx'. repeat (split; [done|]).
    intros [H|H]; apply H3; [left|by right]. by inversion H.
Qed.

Lemma rtp_take_item_spec sent ctx : rs_inv sent ctx -> small sent ->
  exists ctx' item, take_item sched alloc ctx = Some (ctx', item) /\ rs_inv sent ctx' /\ item_room item /\ writers ctx' = writers ctx.
Proof.
  intros Hinv Hs. unfold take_item. destruct (rtp_interfere_spec sent ctx Hinv Hs) as (c1 & -> & H1 & W1). step.
  assert (exists c2, (match itemsFree c1 with [] => foldM add_item (map (alloc (rs_turn c1)) (seq 0 64)) c1 | _ => Some c1 end) = Some c2 /\
    rs_inv sent c2 /\ writers c2 = writers c1 /\ itemsFree c2 <> []) as (c2 & -> & H2 & W2 & N2).
  { destruct (itemsFree c1) eqn:E; [|exists c1; rewrite E; split_and!; done].
    destruct (rtp_add_items sent (map (alloc (rs_turn c1)) (seq 0 64)) c1 H1) as (c2 & -> & ? & ? & N); [|exists c2; repeat (split; [done|])].
    - apply Forall_map, List.Forall_forall. intros i _. apply Hbuf.
    - apply N. left. destruct (Hitem (rs_turn c1)) as (i & Hi & Ha). rewrite <- Ha. apply list_elem_of_In, in_map, in_seq. lia. }
  step. destruct (itemsFree c2) as [|item l] eqn:E; [done|]. eexists _, item. split; [reflexivity|].
  destruct H2. rewrite E in *. apply Forall_cons_1 in iv_free0 as [Hi Hl]. split; [by constructor|]. split; [done|]. cbn. by rewrite <- W1, <- W2.
Qed.

(** The clock in microseconds. *)
Lemma rtp_now_us n : 2 ^ 47 <= makeTimestampFromTimeval (gettimeofday n) < 2 ^ 60.
Proof.
  destruct (Hclock n) as [[Hs Hu] H]. unfold makeTimestampFromTimeval. rewrite i64_id by lia. rewrite u64_id by lia. lia.
Qed.

(** The time base: none, or a 32-bit time stamp and the time of its arrival. *)
Definition based (ctx : smoother_rtp_context_s) : Prop :=
  (tsFirst ctx = -1 \/ 0 <= tsFirst ctx < 2 ^ 32 /\ 2 ^ 47 <= walltimeFirstTimestampuS ctx < 2 ^ 60) /\ 0 <= latencyuS ctx < 2 ^ 31.

Lemma rtp_scheduled_bound ctx ts : 0 <= tsFirst ctx < 2 ^ 32 -> 0 <= ts < 2 ^ 32 -> 2 ^ 47 <= walltimeFirstTimestampuS ctx < 2 ^ 60 ->
  0 <= latencyuS ctx < 2 ^ 31 -> 0 <= getScheduledOutputuS ctx ts <= 2 ^ 61.
Proof.
  intros Hf Hp Hw Hl. unfold getScheduledOutputuS. cbv zeta.
  assert (0 <= ltntstools_pts_diff (tsFirst ctx) ts < 2 ^ 34).
  { unfold ltntstools_pts_diff, MAX_PTS_VALUE. case_if; [rewrite (i64_id (_ - _)) by lia|]; rewrite i64_id by lia; lia. }
  rewrite i64_id by lia. assert (0 <= Z.quot (ltntstools_pts_diff (tsFirst ctx) ts * 300) 27 < 2 ^ 43) by zlia.
  rewrite !u64_id; rewrite ?u64_id; lia.
Qed.

Definition steady (ctx : smoother_rtp_context_s) :=
  (ba ctx, histReceive ctx, (voteCompleteSSRC ctx, expectedSSRC ctx, expectedCount ctx, expectedValidateConditions ctx),
   (didTimestampReset ctx, lastTimestampResetTime ctx)).

Lemma rtp_steady_writers c c' : writers c' = writers c -> steady c' = steady c.
Proof. unfold writers, steady. congruence. Qed.

Lemma based_writers c c' : writers c' = writers c -> based c -> based c'.
Proof. unfold writers, based. intros [= _ _ _ _ _ _ -> -> -> _ _]. done. Qed.

(** The filled item holds the piece. *)
Lemma rtp_fill_item_spec sent ctx item src ts : rs_inv sent ctx -> item_room item -> based ctx -> 0 <= ts < 2 ^ 32 -> 0 < len src ->
  exists ctx' item', fill_item malloc gettimeofday ctx item src (len src) ts = Some (ctx', item') /\
    rs_inv sent ctx' /\ steady ctx' = steady ctx /\ item_full item' /\ item_bytes item' = src /\
    0 <= ri_scheduled_TSuS item' <= 2 ^ 61 /\ based ctx'.
Proof.
  intros Hinv Hm [Hb Hla] Hts Hsrc. unfold fill_item. cbv zeta.
  change (ri_maxLengthBytes (item <| ri_received_TSuS := ?t |>)) with (ri_maxLengthBytes item).
  change (ri_buf (item <| ri_received_TSuS := ?t |>)) with (ri_buf item).
  set (it0 := item <| ri_received_TSuS := makeTimestampFromTimeval (gettimeofday (rs_turn ctx)) |>).
  assert (exists it1, (if ri_maxLengthBytes item <? len src
    then b ← realloc malloc (ri_buf item) (len src); Some (it0 <| ri_buf := b |> <| ri_maxLengthBytes := len src |>) else Some it0) = Some it1 /\
    item_room it1 /\ len src <= len (ri_buf it1) /\ ri_received_TSuS it1 = makeTimestampFromTimeval (gettimeofday (rs_turn ctx)))
    as (it1 & E1 & R1 & L1 & T1).
  { rewrite Hm. case_if.
    - destruct (realloc_grows malloc (ri_buf item) (len src) Hmalloc) as (l & -> & Hl); [lia|]. step. eexists. split; [reflexivity|].
      unfold item_room. cbn. unfold const. rewrite Hl. split_and!; done || lia.
    - exists it0. split; [done|]. split; [exact Hm|]. split; [exact E|done]. }
  rewrite E1. step. rewrite wrs_Some by lia. step. rewrite Z.add_0_l. change (take (Z.to_nat 0) (ri_buf it1)) with (@nil Z). cbn [app].
  assert (Hbl : len (src ++ drop (Z.to_nat (len src)) (ri_buf it1)) = len (ri_buf it1)) by (rewrite len_app, len_drop by lia; lia).
  eexists _, _. split; [reflexivity|].
  set (c1 := if tsFirst ctx =? -1 then _ else _).
  assert (Hc1 : shared c1 = shared ctx /\ steady c1 = steady ctx /\ latencyuS c1 = latencyuS ctx /\
    0 <= tsFirst c1 < 2 ^ 32 /\ 2 ^ 47 <= walltimeFirstTimestampuS c1 < 2 ^ 60).
  { unfold c1. destruct (Z.eqb_spec (tsFirst ctx) (-1)) as [Ef|Ef]; split_and!; try done; try lia.
    - cbn; unfold const; lia.
    - cbn; unfold const; lia.
    - cbn. unfold const. rewrite T1. apply rtp_now_us.
    - cbn. unfold const. rewrite T1. apply rtp_now_us. }
  destruct Hc1 as (C1 & C2 & C3 & C4 & C5).
  split; [by apply (rs_inv_ext _ ctx)|]. split; [exact C2|]. split.
  { split; unfold item_room in *; cbn; unfold const; rewrite Hbl; [done|lia]. }
  split; [unfold item_bytes; cbn; unfold const; apply take_len_app|]. split.
  - cbn. unfold const. apply rtp_scheduled_bound; cbn; unfold const; try done. by rewrite C3.
  - split; [right|]; cbn; unfold const; [done|by rewrite C3].
Qed.

Lemma rtp_queue_item_spec sent ctx item : rs_inv sent ctx -> small (sent ++ [item_bytes item]) -> item_full item ->
  0 <= ri_scheduled_TSuS item <= 2 ^ 61 ->
  exists ctx', queue_item sched ctx item = Some ctx' /\ rs_inv (sent ++ [item_bytes item]) ctx' /\ writers ctx' = writers ctx.
Proof.
  intros Hinv Hs Hi Ht. assert (Hss := Hs). destruct Hs as [Hs1 Hs2]. rewrite len_app in Hs1. rewrite concat_app, len_app in Hs2. cbn [concat] in Hs2.
  rewrite ?app_nil_r in Hs2. change (len [item_bytes item]) with 1 in Hs1. pose proof (len_nonneg (item_bytes item)).
  destruct (rtp_interfere_spec sent ctx Hinv) as (c1 & E1 & H1 & W1); [split; lia|]. destruct (rs_sizes _ _ H1) as [Hsz Hq].
  unfold queue_item. rewrite E1. step. rewrite (iv_bytes _ _ H1). rewrite <- (item_length _ Hi).
  rewrite i64_ok_Some by lia. step. eexists. split; [reflexivity|]. split; [|exact W1].
  assert (Ho : Forall (fun x => ri_scheduled_TSuS x <= order_time (itemsBusy c1) (ri_scheduled_TSuS item)) (itemsBusy c1) /\
    0 <= order_time (itemsBusy c1) (ri_scheduled_TSuS item) <= 2 ^ 61 + (len sent + 1)).
  { pose proof (len_nonneg sent). unfold order_time. destruct (list.last (itemsBusy c1)) as [lst|] eqn:El.
    - pose proof (sorted_last _ _ (iv_order _ _ H1) El) as Hl. pose proof (iv_bound _ _ H1) as Hb. rewrite List.Forall_forall in Hb.
      specialize (Hb lst). cbv beta in Hb. apply list.last_Some in El as [k Ek].
      assert (Hin : In lst (itemsBusy c1)) by (rewrite Ek; apply in_or_app; right; by left). specialize (Hb Hin).
      case_if; [rewrite u64_id by lia|]; (split; [|lia]); revert Hl; apply List.Forall_impl; unfold before; lia.
    - apply list.last_None in El as ->. split; [constructor|lia]. }
  destruct Ho as [Ho1 Ho2]. assert (Hll : len (sent ++ [item_bytes item]) = len sent + 1) by (by rewrite len_app).
  destruct H1. constructor; cbn; unfold const; try done.
  - apply Forall_app. split; [done|]. by apply Forall_singleton.
  - rewrite app_assoc, !rtp_queued_app, rtp_queued_cons. unfold item_bytes. cbn. unfold const. change (queued_bytes []) with 0. lia.
  - rewrite app_assoc, map_app, app_assoc, iv_sent0. done.
  - rewrite app_assoc, map_app, app_assoc, iv_seq0, Hll, iv_next0. rewrite seqZ_app by (try apply len_nonneg; lia). f_equal.
  - rewrite iv_next0, Hll, u64_id by (pose proof (len_nonneg sent); lia). done.
  - apply sorted_item_snoc; [done|]. exact Ho1.
  - apply Forall_app. split; [|apply Forall_singleton; rewrite Hll; exact Ho2]. revert iv_bound0. apply List.Forall_impl. rewrite Hll. lia.
Qed.

Lemma rtp_write2_spec sent ctx src ts : rs_inv sent ctx -> based ctx -> small (sent ++ [src]) -> 0 <= ts < 2 ^ 32 -> 0 < len src ->
  exists ctx', smoother_rtp_write2 malloc sched gettimeofday alloc ctx src (len src) ts = Some ctx' /\
    rs_inv (sent ++ [src]) ctx' /\ steady ctx' = steady ctx /\ based ctx'.
Proof.
  intros Hinv Hb Hs Hts Hsrc. unfold smoother_rtp_write2.
  assert (Hs0 : small sent).
  { destruct Hs as [H1 H2]. rewrite concat_app, len_app in H2. rewrite len_app in H1. change (len [src]) with 1 in H1.
    pose proof (len_nonneg (concat [src])). split; lia. }
  destruct (rtp_take_item_spec sent ctx Hinv Hs0) as (c1 & item & -> & H1 & Hroom & W1). step.
  destruct (rtp_fill_item_spec sent c1 item src ts H1 Hroom (based_writers _ _ W1 Hb) Hts Hsrc) as (c2 & it & -> & H2 & S2 & Hfull & Hby & Hsch & B2). step.
  rewrite <- Hby in Hs. destruct (rtp_queue_item_spec sent c2 it H2 Hs Hfull Hsch) as (c3 & -> & H3 & W3).
  exists c3. rewrite Hby in H3. split; [done|]. split; [done|]. split; [|by apply (based_writers c2)].
  rewrite (rtp_steady_writers _ _ W3), S2. by apply rtp_steady_writers.
Qed.

(** ** One write *)

Lemma write_frames_spec V ssrc arr : forall sent ctx i trim, arr <> [] -> found V ssrc arr -> ba_holds V (ba ctx) -> bytes V ->
  len V < 2 ^ 31 -> rs_inv sent ctx -> based ctx -> small (sent ++ pieces V arr) ->
  exists ctx', write_frames malloc sched gettimeofday alloc ctx arr i trim =
      Some (ctx', match arr with [_] => trim | _ => last_offset arr end) /\
    rs_inv (sent ++ pieces V arr) ctx' /\ steady ctx' = steady ctx /\ based ctx'.
Proof.
  induction arr as [|a arr IH]; intros sent ctx i trim Hne Hf Hb HV Hl Hinv Hbase Hs; [done|]. cbn [write_frames].
  destruct arr as [|b arr].
  { rewrite (fo_chain _ _ _ Hf : fp_lengthBytes a = 0). rewrite app_nil_r in *. by exists ctx. }
  destruct (fo_chain _ _ _ Hf) as (C & El & _). pose proof (fo_room _ _ _ Hf) as R. apply Forall_cons_1 in R as [Ra R].
  apply Forall_cons_1 in R as [Rb _]. rewrite El, u32_id by lia. destruct (Z.eqb_spec (fp_offset b - fp_offset a) 0); [lia|].
  rewrite i32_id by lia. destruct (bh_buf _ _ Hb) as [rest Hr]. pose proof (len_nonneg rest).
  rewrite rds_slice by (rewrite ?Hr, ?len_app; lia). step. rewrite Hr, slice_app_l by lia.
  set (p := slice V (fp_offset a) (fp_offset b - fp_offset a)). change (pieces V (a :: b :: arr)) with (p :: pieces V (b :: arr)) in *.
  assert (Hp : len p = fp_offset b - fp_offset a) by (unfold p; rewrite len_slice; lia). rewrite cons_middle, app_assoc in Hs.
  destruct (rtp_write2_spec sent ctx p (frame_ts i a)) as (c1 & E1 & H1 & S1 & B1);
    [done|done| |by eapply frame_ts_range|lia|].
  { destruct Hs as [Hs1 Hs2]. rewrite concat_app, len_app in Hs2. rewrite len_app in Hs1.
    pose proof (len_nonneg (pieces V (b :: arr))). pose proof (len_nonneg (concat (pieces V (b :: arr)))). split; lia. }
  rewrite Hp in E1. rewrite E1. step. rewrite u32_id by lia. replace (fp_offset a + (fp_offset b - fp_offset a)) with (fp_offset b) by lia.
  destruct (IH (sent ++ [p]) c1 (i + 1) (fp_offset b)) as (c2 & E2 & H2 & S2 & B2); try done.
  - by eapply found_cons.
  - by injection S1 as -> _.
  - exists c2. rewrite E2. split; [by destruct arr|]. rewrite cons_middle, app_assoc. split; [done|]. split; [by rewrite S2|done].
Qed.

Definition timing (ctx : smoother_rtp_context_s) := (tsFirst ctx, walltimeFirstTimestampuS ctx, latencyuS ctx).

(** The SSRC is that of the first bytes written. *)
Record voted (stream : list Z) (ctx : smoother_rtp_context_s) : Prop := {
  vo_range : 0 <= expectedValidateConditions ctx <= 10;
  vo_open : voteCompleteSSRC ctx = 0 -> expectedValidateConditions ctx < 10;
  vo_none : stream = [] -> voteCompleteSSRC ctx = 0 /\ expectedValidateConditions ctx = 0;
  vo_some : stream <> [] -> 12 <= len stream /\ 1 <= expectedValidateConditions ctx /\ expectedSSRC ctx = rh_ssrc (hdr_at stream)
}.

Lemma hdr_at_app p q : 12 <= len p -> hdr_at (p ++ q) = hdr_at p.
Proof. intros H. apply hdr_at_ext. intros i Hi. rewrite byte_at_app by lia. by zdec. Qed.

(** What the vote can read: twelve bytes while it is open. *)
Definition vote_reads (ctx : smoother_rtp_context_s) (src : list Z) : Prop :=
  0 < len src /\ (voteCompleteSSRC ctx = 0 -> 12 <= len src).

Lemma vote_spec stream ctx src : voted stream ctx -> vote_reads ctx src -> exists ctx', vote ctx src = Some ctx' /\
  voted (stream ++ src) ctx' /\ shared ctx' = shared ctx /\ timing ctx' = timing ctx /\ ba ctx' = ba ctx /\
  histReceive ctx' = histReceive ctx /\ (stream <> [] -> expectedSSRC ctx' = expectedSSRC ctx).
Proof.
  intros [V1 V2 V3 V4] [Hpos Hsrc]. assert (Hne : stream ++ src <> []) by (destruct src; [done|by destruct stream]).
  assert (Hfirst : stream = [] -> 12 <= len src) by (intros E; apply Hsrc, V3, E).
  assert (Hcat : stream <> [] -> 12 <= len (stream ++ src) /\ rh_ssrc (hdr_at (stream ++ src)) = rh_ssrc (hdr_at stream)).
  { intros Hs. destruct (V4 Hs) as (L & _ & _). rewrite len_app. split; [lia|]. by rewrite hdr_at_app. }
  assert (Hv : forall c, 1 <= expectedValidateConditions c <= 10 -> (voteCompleteSSRC c = 0 -> expectedValidateConditions c < 10) ->
    (stream <> [] -> expectedSSRC c = expectedSSRC ctx) -> (stream = [] -> expectedSSRC c = rh_ssrc (hdr_at src)) -> voted (stream ++ src) c).
  { intros c C1 C2 C3 C4. constructor; [lia|done|done|intros _]. destruct (decide (stream = [])) as [->|Hs].
    { cbn [app]. rewrite C4 by done. specialize (Hfirst eq_refl). split_and!; (done || lia). }
    destruct (Hcat Hs) as [L1 ->]. destruct (V4 Hs) as (_ & _ & <-). rewrite C3 by done. split_and!; (done || lia). }
  unfold vote. destruct (Z.eqb_spec (voteCompleteSSRC ctx) 0) as [Ev|Ev]; cbn [negb].
  2: { exists ctx. split; [done|]. split; [|done]. assert (Hs : stream <> []) by (intros ->; by destruct V3). destruct (V4 Hs) as (_ & ? & _).
       apply Hv; intros; (done || lia). }
  specialize (V2 Ev). specialize (Hsrc Ev). rewrite rds_slice by lia. step. rewrite (hdr_at_ext (slice src 0 12) src) by (intros i Hi; by rewrite byte_at_slice by lia).
  change (expectedValidateConditions (ctx <| expectedCount := ?x |>)) with (expectedValidateConditions ctx).
  change (expectedSSRC (ctx <| expectedCount := ?x |>)) with (expectedSSRC ctx).
  destruct (Z.eqb_spec (expectedValidateConditions ctx) 0) as [E0|E0].
  - assert (Hs : stream = []) by (destruct (decide (stream = [])) as [|Hs]; [done|destruct (V4 Hs) as (_ & ? & _); lia]).
    eexists. split; [reflexivity|]. cbn. unfold const. split; [|done]. apply Hv; cbn; unfold const; intros; (done || lia).
  - assert (Hs : stream <> []) by (intros ->; by destruct V3). destruct (V4 Hs) as (_ & V5 & _).
    destruct (Z.eqb_spec (expectedSSRC ctx) (rh_ssrc (hdr_at src))) as [Es|Es]; (eexists; split; [reflexivity|]); cbn; unfold const.
    + rewrite u32_id by lia. destruct (Z.eqb_spec (expectedValidateConditions ctx + 1) 10); cbn; unfold const; (split; [|done]);
        apply Hv; cbn; unfold const; rewrite ?u32_id; intros; (done || lia).
    + destruct (Z.eqb_spec (expectedValidateConditions ctx) 10); [lia|]. split; [|done]. apply Hv; cbn; unfold const; intros; (done || lia).
Qed.

(** What holds after the bytes [stream] were written: [skip] was dropped before
    the first frame, [sent] queued, the rest is in the buffer. *)
Record rs_state (stream skip : list Z) (sent : list (list Z)) (V : list Z) (ctx : smoother_rtp_context_s) : Prop := {
  st_inv : rs_inv sent ctx;
  st_based : based ctx;
  st_hist : hist_wf (histReceive ctx) /\ seen (histReceive ctx) <= len stream;
  st_voted : voted stream ctx;
  st_holds : ba_holds V (ba ctx);
  st_bytes : bytes V;
  st_stream : stream = skip ++ concat sent ++ V;
  st_pieces : Forall (frame_piece (rh_ssrc (hdr_at stream))) sent;
  st_start : sent = [] /\ skip = [] \/ sent <> [] /\ 376 < len V /\ is_frame (slice V 0 213) (rh_ssrc (hdr_at stream)) = true;
  st_skip : forall k, 0 <= k < len skip -> is_frame (slice stream k 213) (rh_ssrc (hdr_at stream)) = false
}.

Lemma check_reset_same ctx now : shared (check_reset ctx now) = shared ctx /\ ba (check_reset ctx now) = ba ctx /\
  histReceive (check_reset ctx now) = histReceive ctx /\ (forall s, voted s ctx -> voted s (check_reset ctx now)) /\
  (based ctx -> based (check_reset ctx now)).
Proof.
  unfold check_reset. cbv zeta.
  assert (H : forall c, shared c = shared ctx -> ba c = ba ctx -> histReceive c = histReceive ctx -> (forall s, voted s ctx -> voted s c) ->
    (based ctx -> based c) -> let r := if negb (didTimestampReset c =? 0) then c <| tsFirst := -1 |> <| didTimestampReset := 0 |> else c in
    shared r = shared ctx /\ ba r = ba ctx /\ histReceive r = histReceive ctx /\ (forall s, voted s ctx -> voted s r) /\ (based ctx -> based r)).
  { intros c H1 H2 H3 H4 H5. cbv zeta. destruct (negb _); [|done]. split_and!; try done.
    - intros s Hs. apply H4 in Hs as []. by constructor.
    - intros Hb. apply H5 in Hb as [_ Hb]. split; [by left|exact Hb]. }
  destruct (lastTimestampResetTime ctx + 60 <=? now); apply H; try done; intros s []; by constructor.
Qed.

Lemma voted_steady s c c' : steady c' = steady c -> voted s c -> voted s c'.
Proof. intros [= _ _ E1 E2 _ E4 _ _] []. constructor; rewrite ?E1, ?E2, ?E4; done. Qed.

Lemma process_spec V ssrc sent ctx a b l : found V ssrc (a :: b :: l) -> ba_holds V (ba ctx) -> bytes V -> len V < 2 ^ 31 ->
  rs_inv sent ctx -> based ctx -> small (sent ++ pieces V (a :: b :: l)) ->
  exists ctx', process_frames malloc sched gettimeofday time alloc ctx (a :: b :: l) a b = Some ctx' /\
    rs_inv (sent ++ pieces V (a :: b :: l)) ctx' /\ based ctx' /\ ba_holds (drop (Z.to_nat (last_offset (a :: b :: l))) V) (ba ctx') /\
    histReceive ctx' = histReceive ctx /\ forall s, voted s ctx -> voted s ctx'.
Proof.
  intros Hf Hb HV Hl Hinv Hbase Hs. unfold process_frames. cbv zeta.
  destruct (found_last _ _ _ _ Hf) as (L1 & L2 & _). pose proof (fo_room _ _ _ Hf) as R. apply Forall_cons_1 in R as [Ra _].
  set (c0 := check_jump ctx a b). assert (H0 : shared c0 = shared ctx /\ ba c0 = ba ctx /\ histReceive c0 = histReceive ctx /\
    (forall s, voted s ctx -> voted s c0) /\ (based ctx -> based c0)).
  { unfold c0, check_jump. destruct (_ <? _); [|done]. split_and!; try done. by intros s []. }
  destruct H0 as (S0 & B0 & R0 & V0 & T0). clearbody c0.
  set (c1 := c0 <| measuredLatencyMs := Z.quot (ltntstools_pts_diff (tsHead c0) (tsTail c0)) 90 |>).
  destruct (write_frames_spec V ssrc (a :: b :: l) sent c1 0 0) as (c2 & E2 & H2 & S2 & B2); try done.
  { change (ba c1) with (ba c0). by rewrite B0. }
  { by apply (rs_inv_ext _ ctx). }
  { apply T0 in Hbase. exact Hbase. }
  rewrite E2. step. rewrite i32_id by lia.
  assert (E3 : ba c2 = ba ctx /\ histReceive c2 = histReceive ctx) by (injection S2 as -> -> _; split; [exact B0|exact R0]).
  destruct E3 as [E3 E4]. rewrite E3. destruct (rtp_trim_spec V (last_offset (a :: b :: l)) (ba ctx) Hb) as (b' & -> & Hb'); [lia|]. step.
  eexists. split; [reflexivity|].
  match goal with |- context [check_reset ?c ?t] => destruct (check_reset_same c t) as (Q1 & Q2 & Q3 & Q4 & Q5) end.
  split; [apply (rs_inv_ext _ c2); [by rewrite Q1|done]|]. split; [apply Q5; exact B2|]. split; [by rewrite Q2|].
  split; [rewrite Q3; exact E4|]. intros s Hv. apply Q4. apply V0 in Hv.
  assert (Hc1 : voted s c1) by (by destruct Hv). apply (voted_steady _ _ _ S2) in Hc1. by destruct Hc1.
Qed.

(** A buffer that starts with a frame has it as its first entry. *)
Lemma first_offset V ssrc arr : found V ssrc arr -> (forall k, 0 <= k < len V - 376 -> is_frame (slice V k 213) ssrc = true -> covered 0 k arr) ->
  forall k, 0 <= k < len V - 376 -> is_frame (slice V k 213) ssrc = true -> exists a l, arr = a :: l /\ 0 <= fp_offset a <= k.
Proof.
  intros Hf Hc k Hk Hfr. destruct (Hc k Hk Hfr) as (o & Ho & Hr). destruct arr as [|a l]; [by apply not_elem_of_nil in Ho|].
  exists a, l. split; [done|]. pose proof (fo_room _ _ _ Hf) as R. apply Forall_cons_1 in R as [Ra _]. split; [lia|].
  enough (forall e, In e (a :: l) -> fp_offset a <= fp_offset e) as H.
  { rewrite map_map in Ho. apply list_elem_of_In, in_map_iff in Ho as (e & <- & He). specialize (H e He). cbn in Hr. lia. }
  clear - Hf. revert a Hf. induction l as [|b l IH]; intros a Hf e [<-|He]; try lia; [done|].
  specialize (IH b (found_cons _ _ _ _ Hf) e He). destruct (fo_chain _ _ _ Hf) as (C & _ & _). lia.
Qed.

Lemma sent_small V ssrc arr sent stream skip : stream = skip ++ concat sent ++ V -> found V ssrc arr -> Forall (frame_piece ssrc) sent ->
  len stream < 2 ^ 50 -> small (sent ++ pieces V arr).
Proof.
  intros E Hf Hs Hl. assert (Hp : Forall (frame_piece ssrc) (sent ++ pieces V arr)) by (apply Forall_app; split; [done|by apply pieces_frames]).
  assert (Hc : len (concat (sent ++ pieces V arr)) <= len stream).
  { rewrite E, concat_app, !len_app. pose proof (len_nonneg skip). enough (len (concat (pieces V arr)) <= len V) by lia.
    destruct arr as [|a arr]; [apply len_nonneg|]. pose proof (pieces_concat _ _ _ _ Hf) as Ec. apply (f_equal len) in Ec.
    destruct (found_last _ _ _ _ Hf) as (L1 & L2 & _). pose proof (fo_room _ _ _ Hf) as R. apply Forall_cons_1 in R as [Ra _].
    rewrite len_app, !len_take in Ec by lia. lia. }
  split; [|lia]. enough (len (sent ++ pieces V arr) <= len (concat (sent ++ pieces V arr))) by lia.
  clear - Hp. induction Hp as [|p l [H _] _ IH]; [done|]. cbn [concat]. rewrite len_cons, len_app. lia.
Qed.

Lemma rtp_write_spec stream skip sent V ctx src tv : rs_state stream skip sent V ctx -> bytes src -> vote_reads ctx src -> timeval_wf tv ->
  ba_lengthBytes (ba ctx) + len src < 2 ^ 31 -> len (stream ++ src) < 2 ^ 50 ->
  exists ctx' skip' sent' V', smoother_rtp_write malloc (fun _ => true) sched gettimeofday time alloc ctx src (len src) tv = Some (ctx', 0) /\
    rs_state (stream ++ src) skip' sent' V' ctx'.
Proof.
  intros [S1 S2 [S3 S4] S5 S6 S7 S8 S9 S10 S11] Hsrc Hls Htv Hfit Hlen. unfold smoother_rtp_write.
  pose proof (len_nonneg stream). assert (Hpos := proj1 Hls). rewrite len_app in Hlen. rewrite (bh_length _ _ S6) in Hfit.
  destruct (hist_step_spec (histReceive ctx) (OpInterval tv) S3 Htv) as (h & Eh & Hh & Hseen); [lia|].
  cbn [hist_step] in Eh. destruct (ltn_histogram_interval_update _ _) as [[h' z]|]; [|done]. injection Eh as ->. step.
  assert (S5' : voted stream (ctx <| histReceive := h |>)) by (by destruct S5).
  destruct (vote_spec stream _ src S5' Hls) as (c1 & -> & V1 & W1 & T1 & B1 & H1 & _). step.
  rewrite B1. change (ba (ctx <| histReceive := h |>)) with (ba ctx).
  destruct (rtp_append_spec malloc V src (ba ctx) Hmalloc S6 Hfit) as (b & -> & Hb). step. cbv zeta.
  set (c2 := c1 <| ba := b |>). set (stream' := stream ++ src) in *.
  assert (Hs' : stream' = skip ++ concat sent ++ (V ++ src)) by (unfold stream'; by rewrite S8, <- !app_assoc).
  assert (HV : len (V ++ src) < 2 ^ 31) by (rewrite len_app; lia).
  assert (HVb : bytes (V ++ src)) by (by apply Forall_app).
  destruct (vo_some _ _ V1) as (Vl & _ & Vs); [unfold stream'; destruct src; [done|by destruct stream]|].
  change (expectedSSRC c2) with (expectedSSRC c1). rewrite Vs.
  assert (Hkeep : stream <> [] -> rh_ssrc (hdr_at stream') = rh_ssrc (hdr_at stream)).
  { intros Hne. destruct (vo_some _ _ S5 Hne) as (L & _ & _). unfold stream'. by rewrite hdr_at_app. }
  set (ssrc := rh_ssrc (hdr_at stream')) in *.
  assert (Hsent : Forall (frame_piece ssrc) sent).
  { destruct (decide (stream = [])) as [->|Hne]; [|by rewrite Hkeep]. symmetry in S8. apply app_nil in S8 as [_ S8].
    apply app_nil in S8 as [S8 _]. destruct sent as [|p sent]; [constructor|]. exfalso. apply Forall_cons_1 in S9 as [[Hp _] _].
    cbn [concat] in S8. apply app_nil in S8 as [-> _]. by cbn in Hp. }
  assert (Hstart : sent = [] /\ skip = [] \/ stream <> [] /\ sent <> [] /\ 376 < len V /\ is_frame (slice V 0 213) ssrc = true).
  { destruct S10 as [S10|(Hn & Hl & Hfr)]; [by left|right]. assert (Hne : stream <> []).
    { intros ->. symmetry in S8. apply app_nil in S8 as [_ S8]. apply app_nil in S8 as [_ ->]. by cbn in Hl. }
    by rewrite Hkeep. }
  assert (Hskip : forall k, 0 <= k < len skip -> is_frame (slice stream' k 213) ssrc = false).
  { intros k Hk. destruct Hstart as [[_ ->]|(Hne & _ & Hl & _)]; [change (len (@nil Z)) with 0 in Hk; lia|]. rewrite Hkeep by done.
    unfold stream'. rewrite slice_app_l; [by apply S11|lia|lia|]. rewrite S8, !len_app. pose proof (len_nonneg (concat sent)). lia. }
  destruct (positions_spec (V ++ src) ssrc b Hb HV) as (arr & Ea & Hf & Hcov).
  change (ba c2) with b. rewrite Ea. step. change (0 <? 0) with false. cbv iota.
  assert (Hbase : based c2) by (injection T1 as T1 T2 T3; unfold based, c2; cbn; rewrite T1, T2, T3; exact S2).
  assert (Hinv : rs_inv sent c2) by (by apply (rs_inv_ext _ ctx)).
  assert (Hv2 : voted stream' c2) by (by destruct V1).
  assert (Hh2 : hist_wf (histReceive c2) /\ seen (histReceive c2) <= len stream').
  { change (histReceive c2) with (histReceive c1). rewrite H1. cbn. unfold const. split; [done|]. unfold stream'. rewrite len_app.
    cbn [recorded] in Hseen. lia. }
  assert (Hstay : rs_state stream' skip sent (V ++ src) c2).
  { constructor; try done. destruct Hstart as [?|(_ & Hn & Hl & Hfr)]; [by left|right]. rewrite len_app. split; [done|]. split; [lia|].
    by rewrite slice_app_l by lia. }
  destruct arr as [|e0 [|e1 l]]; [by exists c2, skip, sent, (V ++ src)..|].
  destruct (process_spec (V ++ src) ssrc sent c2 e0 e1 l) as (c3 & -> & H3 & B3 & A3 & R3 & V3); try done.
  { apply (sent_small _ ssrc _ _ stream' skip); try done. unfold stream'. rewrite len_app. lia. }
  step. destruct (found_last _ _ _ _ Hf) as (L1 & L2 & L3). pose proof (fo_room _ _ _ Hf) as R. apply Forall_cons_1 in R as [Ra _].
  set (arr := e0 :: e1 :: l) in *. set (skip' := skip ++ take (Z.to_nat (fp_offset e0)) (V ++ src)).
  assert (Hcases : sent = [] /\ skip = [] \/ skip' = skip /\ fp_offset e0 = 0).
  { destruct Hstart as [?|(_ & _ & Hl & Hfr)]; [by left|right]. destruct (first_offset _ _ _ Hf Hcov 0) as (a & l' & Ear & Ha).
    - rewrite len_app. pose proof (len_nonneg src). lia.
    - by rewrite slice_app_l by lia.
    - injection Ear as <- _. unfold skip'. replace (fp_offset e0) with 0 by lia. by rewrite app_nil_r. }
  pose proof (pieces_concat _ _ _ _ Hf) as Ec. fold arr in Ec.
  assert (Hcut : stream' = skip' ++ concat (sent ++ pieces (V ++ src) arr) ++ drop (Z.to_nat (last_offset arr)) (V ++ src)).
  { rewrite Hs', concat_app. rewrite <- (take_drop (Z.to_nat (last_offset arr)) (V ++ src)) at 1. rewrite <- Ec.
    destruct Hcases as [[-> ->]|[-> E0]]; [cbn [concat app]; unfold skip'; cbn [app]; by rewrite <- app_assoc|].
    rewrite E0. cbn [app]. by rewrite <- !app_assoc. }
  exists c3, skip', (sent ++ pieces (V ++ src) arr), (drop (Z.to_nat (last_offset arr)) (V ++ src)). split; [done|]. constructor; try done.
  - by rewrite R3.
  - by apply V3.
  - by apply bytes_drop.
  - apply Forall_app. split; [done|by apply pieces_frames].
  - right. split; [by destruct sent|]. rewrite len_drop by lia. split; [lia|]. unfold slice in *. change (Z.to_nat 0) with 0%nat. by rewrite drop_0.
  - fold ssrc. destruct Hcases as [[-> ->]|[-> _]]; [|done]. intros k Hk. unfold skip' in Hk. cbn [app] in Hk. rewrite len_take in Hk by lia.
    cbn [app concat] in Hs'. rewrite Hs'. destruct (is_frame (slice (V ++ src) k 213) ssrc) eqn:Ef; [|done].
    destruct (first_offset _ _ _ Hf Hcov k) as (a & l' & Ear & Ha); [lia|done|]. injection Ear as <- _. lia.
Qed.

Lemma state_thread stream skip sent V ctx op : rs_state stream skip sent V ctx -> len stream < 2 ^ 50 -> step_ok op ->
  exists ctx', thread_do ctx op = Some ctx' /\ rs_state stream skip sent V ctx'.
Proof.
  intros [S1 S2 S3 S4 S5 S6 S7 S8 S9 S10] Hl Hop. assert (Hs : small sent).
  { rewrite <- (app_nil_r sent). apply (sent_small V (rh_ssrc (hdr_at stream)) [] sent stream skip); done. }
  destruct (rtp_thread_do_spec sent ctx op S1 Hs Hop) as (ctx' & E & H & W). exists ctx'. split; [done|].
  pose proof (based_writers _ _ W S2) as B. pose proof (rtp_steady_writers _ _ W) as St. pose proof (voted_steady stream _ _ St S4) as Vo.
  injection St as E1 E2 _. constructor; try done; by rewrite ?E1, ?E2.
Qed.

Lemma rtp_alloc_spec now n bytes latencyMS : timeval_wf now -> 0 <= latencyMS < 2 ^ 21 ->
  exists ctx, smoother_rtp_alloc malloc time alloc true true (fun _ => true) now n bytes latencyMS = Some (Some ctx) /\
    rs_state [] [] [] [] ctx.
Proof.
  intros Hnow Hl. unfold smoother_rtp_alloc. cbn [negb]. cbv zeta. rewrite int_ok_Some by lia. step.
  unfold byte_array_init. destruct (Hmalloc (8000 * 188)) as (b & -> & Hb); [lia|].
  unfold ltn_histogram_alloc_video_defaults.
  destruct (hist_alloc_wf now "receive arrival times" 0 (16 * 1000)) as (h1 & -> & W1 & N1 & _); [lia|lia|done|]. step.
  destruct (hist_alloc_wf now "transmit arrival times" 0 (16 * 1000)) as (h2 & -> & W2 & N2 & _); [lia|lia|done|]. step.
  match goal with |- context [foldM _ _ ?c] => set (c0 := c) end.
  destruct (rtp_add_items [] (map (alloc 0) (seq 0 (Z.to_nat n))) c0) as (ctx & -> & H1 & H2 & _).
  - constructor; try done; try constructor. change (itemLengthBytes c0) with (if bytes <? 12 + 7 * 188 then 12 + 7 * 188 else bytes).
    destruct (Z.ltb_spec bytes (12 + 7 * 188)); lia.
  - apply Forall_map, List.Forall_forall. intros i _. apply Hbuf.
  - step. exists ctx. split; [done|]. assert (E : ba ctx = ba c0 /\ histReceive ctx = h1) by (injection H2 as -> -> _; done).
    destruct E as [Eb Eh]. constructor; try done; rewrite ?Eb, ?Eh.
    + apply (based_writers c0 _ H2). split; [by left|]. change (latencyuS c0) with (latencyMS * 1000). lia.
    + rewrite N1. done.
    + apply (voted_steady [] c0); [by apply rtp_steady_writers|]. by constructor.
    + constructor; [by eexists|done|]. symmetry. exact Hb.
    + constructor.
    + by left.
    + intros k Hk. change (len (@nil Z)) with 0 in Hk. lia.
Qed.
End Writer.

(** ** The smoother as a whole *)

(** The environment: there is memory, the thread's steps and the clock are well
    formed, the clock is past 1974, and of 64 new items one at least is made. *)
Record environment_ok (malloc : Z -> option (list Z)) (sched : nat -> list thread_step) (gettimeofday : nat -> timeval)
    (alloc : nat -> nat -> alloc_result) : Prop := {
  en_malloc : malloc_gives malloc;
  en_sched : forall n, Forall step_ok (sched n);
  en_clock : forall n, timeval_wf (gettimeofday n) /\ 2 ^ 47 <= tv_sec (gettimeofday n) * 1000000;
  en_buffer : forall n i, alloc n i <> NoBuffer;
  en_item : forall n, exists i, (i < 64)%nat /\ alloc n i = AllocOk
}.

Section System.
Context (malloc : Z -> option (list Z)) (sched : nat -> list thread_step).
Context (gettimeofday : nat -> timeval) (time : nat -> Z) (alloc : nat -> nat -> alloc_result).

(** A write that the buffer's lengths, of type int, can hold, and that has at
    least twelve bytes while the vote on the SSRC is open. *)
Definition write_fits (ctx : smoother_rtp_context_s) (src : list Z) : Prop :=
  bytes src /\ vote_reads ctx src /\ ba_lengthBytes (ba ctx) + len src < 2 ^ 31.

Definition rtp_write (ctx : smoother_rtp_context_s) (src : list Z) (tv : timeval) : option (smoother_rtp_context_s * Z) :=
  smoother_rtp_write malloc (fun _ => true) sched gettimeofday time alloc ctx src (len src) tv.

(** The states of a smoother that the bytes [stream] were written to. *)
Inductive reaches : list Z -> smoother_rtp_context_s -> Prop :=
  | reach_alloc now n bytes latencyMS ctx : timeval_wf now -> 0 <= latencyMS < 2 ^ 21 ->
      smoother_rtp_alloc malloc time alloc true true (fun _ => true) now n bytes latencyMS = Some (Some ctx) -> reaches [] ctx
  | reach_write stream ctx src tv ctx' r : reaches stream ctx -> write_fits ctx src -> timeval_wf tv ->
      rtp_write ctx src tv = Some (ctx', r) -> reaches (stream ++ src) ctx'
  | reach_thread stream ctx op ctx' : reaches stream ctx -> step_ok op -> thread_do ctx op = Some ctx' -> reaches stream ctx'
  | reach_size stream ctx ctx' n : reaches stream ctx -> smoother_rtp_get_size sched ctx = Some (ctx', n) -> reaches stream ctx'.

Lemma state_size stream skip sent V ctx : environment_ok malloc sched gettimeofday alloc -> rs_state stream skip sent V ctx ->
  len stream < 2 ^ 50 -> exists ctx' n, smoother_rtp_get_size sched ctx = Some (ctx', n) /\ rs_state stream skip sent V ctx'.
Proof.
  intros [E1 E2 _ _ _] Hs Hl. unfold smoother_rtp_get_size, interfere.
  assert (exists c, foldM thread_do (sched (rs_turn ctx)) (ctx <| rs_turn := S (rs_turn ctx) |>) = Some c /\
    rs_state stream skip sent V c) as (c & -> & Hc); [apply (foldM_inv (rs_state stream skip sent V))|].
  - intros c op Hin Hc. apply state_thread; [done|done|]. specialize (E2 (rs_turn ctx)). rewrite List.Forall_forall in E2.
    apply E2. by apply list_elem_of_In.
  - destruct Hs as [S1 S2 S3 S4 S5 S6 S7 S8 S9 S10]. constructor; try done; [by destruct S1|by destruct S4].
  - step. by eexists _, _.
Qed.

Lemma reaches_state stream ctx : environment_ok malloc sched gettimeofday alloc -> reaches stream ctx -> len stream < 2 ^ 50 ->
  exists skip sent V, rs_state stream skip sent V ctx.
Proof.
  intros Henv. assert (He := Henv). destruct He as [E1 E2 E3 E4 E5].
  induction 1 as [now n bytes latencyMS ctx Hn Hl Ea|stream ctx src tv ctx' r _ IH (F1 & F2 & F3) Htv Ew|stream ctx op ctx' _ IH Hop Eo|stream ctx ctx' n _ IH Es];
    intros Hlen.
  - destruct (rtp_alloc_spec malloc time alloc E1 E4 now n bytes latencyMS Hn Hl) as (c & Ec & Hc). rewrite Ec in Ea. injection Ea as <-.
    by exists [], [], [].
  - destruct IH as (skip & sent & V & Hs); [rewrite len_app in Hlen; pose proof (len_nonneg src); lia|].
    destruct (rtp_write_spec malloc sched gettimeofday time alloc E1 E2 E3 E4 E5 stream skip sent V ctx src tv Hs F1 F2 Htv F3 Hlen)
      as (c & skip' & sent' & V' & Ec & Hc). unfold rtp_write in Ew. rewrite Ec in Ew. injection Ew as <- _. by exists skip', sent', V'.
  - destruct (IH Hlen) as (skip & sent & V & Hs). destruct (state_thread stream skip sent V ctx op Hs Hlen Hop) as (c & Ec & Hc).
    rewrite Ec in Eo. injection Eo as <-. by exists skip, sent, V.
  - destruct (IH Hlen) as (skip & sent & V & Hs). destruct (state_size stream skip sent V ctx Henv Hs Hlen) as (c & k & Ec & Hc).
    rewrite Ec in Es. injection Es as <- _. by exists skip, sent, V.
Qed.

Lemma reaches_fits stream ctx src : environment_ok malloc sched gettimeofday alloc -> reaches stream ctx -> bytes src -> vote_reads ctx src ->
  len stream + len src < 2 ^ 31 -> write_fits ctx src.
Proof.
  intros Henv Hr Hb Hl Hs. pose proof (len_nonneg src). destruct (reaches_state stream ctx Henv Hr) as (skip & sent & V & S); [lia|].
  split; [done|]. split; [done|]. rewrite (bh_length _ _ (st_holds _ _ _ _ _ S)).
  pose proof (f_equal len (st_stream _ _ _ _ _ S)) as E. rewrite !len_app in E. pose proof (len_nonneg skip). pose proof (len_nonneg (concat sent)). lia.
Qed.

Lemma reaches_step stream ctx src tv : environment_ok malloc sched gettimeofday alloc -> reaches stream ctx ->
  len (stream ++ src) < 2 ^ 50 -> write_fits ctx src -> timeval_wf tv ->
  exists ctx', rtp_write ctx src tv = Some (ctx', 0) /\ reaches (stream ++ src) ctx'.
Proof.
  intros Henv Hr Hlen Hw Htv. assert (Hl : len stream < 2 ^ 50) by (rewrite len_app in Hlen; pose proof (len_nonneg src); lia).
  destruct (reaches_state stream ctx Henv Hr Hl) as (skip & sent & V & Hs). assert (Hw0 := Hw). destruct Hw as (F1 & F2 & F3).
  assert (He := Henv). destruct He as [E1 E2 E3 E4 E5].
  destruct (rtp_write_spec malloc sched gettimeofday time alloc E1 E2 E3 E4 E5 stream skip sent V ctx src tv Hs F1 F2 Htv F3 Hlen)
    as (c & _ & _ & _ & Ec & _). exists c. split; [exact Ec|]. by eapply reach_write.
Qed.

Lemma reaches_start : environment_ok malloc sched gettimeofday alloc -> exists ctx, reaches [] ctx.
Proof.
  intros [E1 E2 E3 E4 E5]. destruct (rtp_alloc_spec malloc time alloc E1 E4 (Timeval 0 0) 1 0 0) as (c & Ec & _); [split; cbn; lia|lia|].
  exists c. eapply (reach_alloc (Timeval 0 0) 1 0 0); [split; cbn; lia|lia|exact Ec].
Qed.

(** C13: Whatever the thread does between the writer's steps, and however the
    stream is cut into writes, if each write has at least twelve bytes while the
    vote on the SSRC is open (until ten writes began with the same SSRC; a
    shorter one is read beyond its end, [short_first_write], although the header
    file takes fragments), one byte afterwards, and the buffer with it fewer
    than 2^31: no write faults; only what precedes the first
    frame of the stream's SSRC is dropped, and there no frame starts; what the
    callback got, then what the thread holds, then the busy list, then the
    buffer are the rest of the stream, in order; each piece starts with an RTP
    header of that SSRC; and the size reported is that of the items held. *)
Theorem rtp_smoother_loses_nothing stream ctx src tv :
  environment_ok malloc sched gettimeofday alloc -> reaches stream ctx -> len (stream ++ src) < 2 ^ 50 ->
  write_fits ctx src -> timeval_wf tv ->
  let ssrc := rh_ssrc (hdr_at stream) in
  let sent := map snd (rs_calls ctx) ++ map item_bytes (th_loc ctx ++ itemsBusy ctx) in
  (exists skip, stream = skip ++ concat sent ++ take (Z.to_nat (ba_lengthBytes (ba ctx))) (ba_buf (ba ctx)) /\
    (sent = [] -> skip = []) /\ forall k, 0 <= k < len skip -> is_frame (slice stream k 213) ssrc = false) /\
  Forall (frame_piece ssrc) sent /\
  totalSizeBytes ctx = len (concat (map item_bytes (th_loc ctx ++ itemsBusy ctx))) /\
  exists ctx', rtp_write ctx src tv = Some (ctx', 0) /\ reaches (stream ++ src) ctx'.
Proof.
  intros Henv Hr Hlen Hw Htv. cbv zeta. assert (Hl : len stream < 2 ^ 50) by (rewrite len_app in Hlen; pose proof (len_nonneg src); lia).
  destruct (reaches_state stream ctx Henv Hr Hl) as (skip & sent & V & [S1 S2 S3 S4 [[rest Hb] Hbl _] S6 S7 S8 S9 S10]).
  rewrite (iv_sent _ _ S1). rewrite Hb, Hbl, take_len_app.
  split; [|split; [done|split; [apply (iv_bytes _ _ S1)|by apply reaches_step]]].
  exists skip. split; [done|]. split; [|done]. intros ->. destruct S9 as [[_ ->]|(Hn & _)]; [done|]. by destruct Hn.
Qed.

(** C14: The items are numbered in the order of the stream, and the busy list is
    at all times in the order of its schedule, whatever the RTP time stamps are
    and whenever the time base is reset: when the thread looks, the items that
    are due are the first ones of the list, it takes all of them and no other,
    and the callback gets them without a gap in the numbers. *)
Theorem rtp_smoother_in_order stream ctx :
  environment_ok malloc sched gettimeofday alloc -> reaches stream ctx -> len stream < 2 ^ 50 ->
  (exists n, map fst (rs_calls ctx) ++ map ri_seqno (th_loc ctx ++ itemsBusy ctx) = seqZ 0 n /\ rs_seqno ctx = n) /\
  StronglySorted before (itemsBusy ctx) /\
  forall uS, let ctx' := queue_take ctx uS in
    th_loc ctx' ++ itemsBusy ctx' = itemsBusy ctx /\
    Forall (fun e => ri_scheduled_TSuS e <= u64 uS) (th_loc ctx') /\ Forall (fun e => u64 uS < ri_scheduled_TSuS e) (itemsBusy ctx').
Proof.
  intros Henv Hr Hl. destruct (reaches_state stream ctx Henv Hr Hl) as (skip & sent & V & Hs). pose proof (st_inv _ _ _ _ _ Hs) as [].
  split; [by exists (len sent)|]. split; [done|]. intros uS. cbv zeta. split; [by apply due_prefix|].
  cbn [queue_take]. unfold queue_take. cbn. unfold const. clear. split.
  - apply List.Forall_forall. intros e He. apply filter_In in He as [_ He]. unfold due in He. by apply Z.leb_le in He.
  - apply List.Forall_forall. intros e He. apply filter_In in He as [_ He]. unfold due in He. apply negb_true_iff in He. by apply Z.leb_gt in He.
Qed.
End System.

(** ** A run *)

Definition rtp_frame (ssrc seq ts : Z) : list Z :=
  [0x80; 33; seq / 256; seq mod 256; ts / 16777216 mod 256; ts / 65536 mod 256; ts / 256 mod 256; ts mod 256; ssrc; 0; 0; 0] ++
  0x47 :: replicate 187 0.

Definition witness_stream : list Z :=
  rtp_frame 7 0 0 ++ rtp_frame 7 1 2700 ++ rtp_frame 7 2 5400 ++ rtp_frame 7 3 8100.

Definition test_malloc (n : Z) : option (list Z) := Some (replicate (Z.to_nat n) 0).
Definition test_now (n : nat) : timeval := Timeval 1700000000 0.
Definition test_sched (n : nat) : list thread_step :=
  [ThreadTake 1700000000200000; ThreadOutput (Timeval 1700000000 0); ThreadReturn].

Lemma rtp_witness_environment : environment_ok test_malloc test_sched test_now (fun _ _ => AllocOk).
Proof.
  constructor; try done.
  - intros m Hm. eexists. split; [done|]. apply len_replicate. lia.
  - intros m. repeat constructor; cbn; lia.
  - intros m. by exists 0%nat; split; [lia|].
Qed.

Lemma witness_reached : exists ctx, reaches test_malloc test_sched test_now (fun _ => 0) (fun _ _ => AllocOk) witness_stream ctx.
Proof.
  pose proof rtp_witness_environment as Henv. destruct (reaches_start test_malloc test_sched test_now (fun _ => 0) (fun _ _ => AllocOk) Henv) as (c & Hc).
  destruct (reaches_step test_malloc test_sched test_now (fun _ => 0) (fun _ _ => AllocOk) [] c witness_stream (Timeval 0 0) Henv Hc)
    as (c' & _ & Hr); [by vm_compute| |split; cbn; lia|by exists c'].
  apply (reaches_fits test_malloc test_sched test_now (fun _ => 0) (fun _ _ => AllocOk) [] c witness_stream Henv Hc);
    [by apply bytes_check; vm_compute|split; [by vm_compute|by intros _; vm_compute]|by vm_compute].
Qed.

Lemma rtp_smoother_loses_nothing_witness : exists ctx ctx',
  reaches test_malloc test_sched test_now (fun _ => 0) (fun _ _ => AllocOk) witness_stream ctx /\
  rtp_write test_malloc test_sched test_now (fun _ => 0) (fun _ _ => AllocOk) ctx (rtp_frame 7 4 10800) (Timeval 0 0) = Some (ctx', 0) /\
  Forall (frame_piece 7) (map snd (rs_calls ctx) ++ map item_bytes (th_loc ctx ++ itemsBusy ctx)).
Proof.
  pose proof rtp_witness_environment as Henv. destruct witness_reached as (ctx & Hr).
  destruct (rtp_smoother_loses_nothing test_malloc test_sched test_now (fun _ => 0) (fun _ _ => AllocOk) witness_stream ctx
    (rtp_frame 7 4 10800) (Timeval 0 0)) as (_ & Hf & _ & ctx' & E & _).
  - exact Henv.
  - exact Hr.
  - by vm_compute.
  - apply (reaches_fits test_malloc test_sched test_now (fun _ => 0) (fun _ _ => AllocOk) witness_stream ctx _ Henv Hr);
      [by apply bytes_check; vm_compute|split; [by vm_compute|by intros _; vm_compute]|by vm_compute].
  - split; cbn; lia.
  - exists ctx, ctx'. split; [exact Hr|]. split; [exact E|]. exact Hf.
Defined.

Lemma rtp_smoother_in_order_witness : exists ctx,
  reaches test_malloc test_sched test_now (fun _ => 0) (fun _ _ => AllocOk) witness_stream ctx /\ StronglySorted before (itemsBusy ctx).
Proof.
  pose proof rtp_witness_environment as Henv. destruct witness_reached as (ctx & Hr).
  destruct (rtp_smoother_in_order test_malloc test_sched test_now (fun _ => 0) (fun _ _ => AllocOk) witness_stream ctx) as (_ & H & _).
  - exact Henv.
  - exact Hr.
  - by vm_compute.
  - exists ctx. split; [exact Hr|exact H].
Defined.

(** ** What the code does outside these hypotheses, and what the schedule is worth *)

Definition small_context (h : ltn_histogram_s) : smoother_rtp_context_s :=
  {| itemsFree := []; itemsBusy := []; outputCb := true; walltimeFirstTimestampuS := 0; tsFirst := -1; tsTail := -1; tsHead := -1;
     latencyuS := 100000; bitsReceivedSinceLastPCR := 0; rs_seqno := 0; last_seqno := 0; voteCompleteSSRC := 0;
     expectedSSRC := 0; expectedCount := 0; expectedValidateConditions := 0; itemLengthBytes := 1328; totalSizeBytes := 0;
     ba := {| ba_buf := []; ba_maxLengthBytes := 0; ba_lengthBytes := 0 |}; didTimestampReset := 0; lastTimestampResetTime := 0;
     measuredLatencyMs := 0; histReceive := h; histTransmit := h; th_loc := []; th_spent := []; rs_calls := []; rs_turn := 0 |}.

Definition small_start : option smoother_rtp_context_s :=
  h ← ltn_histogram_alloc true true (Timeval 1700000000 0) (Some "receive"%string) 0 10; Some (small_context h).

Definition small_write (sched : nat -> list thread_step) (ctx : smoother_rtp_context_s) (src : list Z) : option smoother_rtp_context_s :=
  fst <$> rtp_write test_malloc sched test_now (fun _ => 0) (fun _ _ => AllocOk) ctx src (Timeval 1700000000 0).

(** Frames 30 ms apart: the time stamp of the third is not put in the host's
    order, and the frame is due 75 minutes late. *)
Example third_frame_late :
  map ri_scheduled_TSuS <$> (itemsBusy <$> (ctx ← small_start; small_write (fun _ => []) ctx (witness_stream ++ rtp_frame 7 4 10800))) =
  Some [1700000000100000; 1700000000130000; 1700004489316000].
Proof. vm_compute. reflexivity. Qed.

(** The time stamp wraps at 32 bits, the schedule reckons with 33: the frame
    after the wrap is due 13 hours late. *)
Example wrap_late :
  map ri_scheduled_TSuS <$> (itemsBusy <$> (ctx ← small_start; small_write (fun _ => []) ctx
    (rtp_frame 7 0 (2 ^ 32 - 1350) ++ rtp_frame 7 1 1350 ++ rtp_frame 7 2 4050 ++ rtp_frame 7 3 6750))) =
  Some [1700000000100000; 1700047721988833].
Proof. vm_compute. reflexivity. Qed.

(** When the SSRC changes, nothing is found any more, and the buffer only grows. *)
Example ssrc_change_grows :
  (ctx ← small_start; ctx ← small_write (fun _ => []) ctx witness_stream;
   ctx ← small_write (fun _ => []) ctx (rtp_frame 8 4 10800 ++ rtp_frame 8 5 13500);
   ctx ← small_write (fun _ => []) ctx (rtp_frame 8 6 16200 ++ rtp_frame 8 7 18900);
   Some (len (itemsBusy ctx), ba_lengthBytes (ba ctx))) = Some (3, 1000).
Proof. vm_compute. reflexivity. Qed.

(** The SSRC is taken from the first write wherever that starts: three bytes
    before the first frame are enough for nothing to be found. *)
Example misaligned_start_grows :
  (ctx ← small_start; ctx ← small_write (fun _ => []) ctx ([1; 2; 3] ++ witness_stream);
   Some (len (itemsBusy ctx), ba_lengthBytes (ba ctx))) = Some (0, 803).
Proof. vm_compute. reflexivity. Qed.

(** A first write shorter than an RTP header is read beyond its end. *)
Example short_first_write : (ctx ← small_start; small_write (fun _ => []) ctx [0x80; 33; 0; 0]) = None.
Proof. vm_compute. reflexivity. Qed.

(** A reset while the thread holds items: the bytes it then outputs are taken
    off a count that is 0 already. *)
Example rtp_reset_in_flight :
  (ctx ← small_start; ctx ← small_write (fun _ => []) ctx witness_stream;
   ctx ← thread_do ctx (ThreadTake 1700000000100000);
   ctx ← smoother_rtp_reset (fun _ => []) ctx;
   ctx ← thread_do ctx (ThreadOutput (Timeval 1700000000 0));
   Some (totalSizeBytes ctx)) = Some (-200).
Proof. vm_compute. reflexivity. Qed.
