(* ===== verification/Ac3.v ===== *)
(** * The AC-3 header: src/ac3.c, libltntstools/ac3.h

    The parser of a sync frame reads its fields one after the other into a
    structure of the caller.  A step takes the reader and the structure it
    fills, and gives both back; a field the syntax does not carry keeps what the
    caller's memory held.  The printer is left out. *)
From Stdlib Require Import ZArith Lia Bool.
From stdpp Require Import base numbers list option.
From coqutil Require Import Datatypes.RecordSettersUsingExistingGetters.
From S2P Require Import Prelude Bits BitStream.

(** ** The structures *)

Record ltn_ac3_header_syncinfo_s := { syncword : Z; crc1 : Z; fscod : Z; frmsizecod : Z }.

Record ltn_ac3_header_bsi_s := {
  bsid : Z;
  bsmod : Z;
  acmod : Z;
  acmod_nfchans : Z;
  cmixlev : Z;
  surmixlev : Z;
  dsurmod : Z;
  lfeon : Z;
  dialnorm : Z;
  compre : Z;
  compr : Z;
  langcode : Z;
  langcod : Z;
  audprodie : Z;
  mixlevel : Z;
  roomtyp : Z;
  dialnorm2 : Z;
  compr2e : Z;
  compr2 : Z;
  langcod2e : Z;
  langcod2 : Z;
  audprodi2e : Z;
  mixlevel2 : Z;
  roomtyp2 : Z;
  copyrightb : Z;
  origbs : Z;
  timecod1e : Z;
  timecod1 : Z;
  timecod2e : Z;
  timecod2 : Z;
  addbsie : Z;
  addbsil : Z;
  addbsi : list Z;
  xbsi1e : Z;
  dmixmod : Z;
  ltrtcmixlev : Z;
  ltrtsurmixlev : Z;
  lorocmixlev : Z;
  lorosurmixlev : Z;
  xbsi2e : Z;
  dsurexmod : Z;
  dheadphonmod : Z;
  adconvtyp : Z;
  xbsi2 : Z;
  encinfo : Z
}.

Record ltn_ac3_header_audioblk_s := { blksw : list Z; dithflag : list Z; dynrnge : Z; dynrng : Z }.

Record ltn_ac3_header_syncframe_s := {
  syncinfo : ltn_ac3_header_syncinfo_s;
  bsi : ltn_ac3_header_bsi_s;
  audioblk : list ltn_ac3_header_audioblk_s
}.

(** ** Steps of the parser *)

Section Steps.
Context {R : Type}.
Implicit Types st : klbs_context * R.

(** [field = klbs_read_bits(bs, n)]: the fields are of 32 bits. *)
Definition get_field (n : Z) (put : Z -> R -> R) st : option (klbs_context * R) :=
  '(v, bs) ← klbs_read_bits st.1 n;
  Some (bs, put (u32 v) st.2).

(** A constant is stored. *)
Definition store (f : R -> R) st : option (klbs_context * R) := Some (st.1, f st.2).

Definition if_field (c : R -> bool) (p : klbs_context * R -> option (klbs_context * R)) st : option (klbs_context * R) :=
  if c st.2 then p st else Some st.

Fixpoint steps (l : list (klbs_context * R -> option (klbs_context * R))) st : option (klbs_context * R) :=
  match l with [] => Some st | p :: l => st ← p st; steps l st end.

(** [array[i] = klbs_read_bits(bs, n)] for [i] from [i0]; [m]: how often. *)
Fixpoint get_array (n : Z) (array : R -> list Z) (put : list Z -> R -> R) (i : Z) (m : nat) st : option (klbs_context * R) :=
  match m with
  | O => Some st
  | S m =>
      '(v, bs) ← klbs_read_bits st.1 n;
      l ← wr (array st.2) i (u32 v);
      get_array n array put (i + 1) m (bs, put l st.2)
  end.
End Steps.

Definition set_flag (v : Z) : bool := negb (v =? 0).

Definition parse_syncinfo : klbs_context * ltn_ac3_header_syncinfo_s -> option (klbs_context * ltn_ac3_header_syncinfo_s) :=
  steps [
    get_field 16 (fun v s => s <| syncword := v |>);
    get_field 16 (fun v s => s <| crc1 := v |>);
    get_field 2 (fun v s => s <| fscod := v |>);
    get_field 6 (fun v s => s <| frmsizecod := v |>)].

Definition nfchans (mode : Z) : Z := nth (Z.to_nat mode) [2; 1; 2; 3; 3; 4; 4; 5] 0.

(** Three front channels; a surround channel. *)
Definition has_centre (mode : Z) : bool := negb (Z.land mode 1 =? 0) && negb (mode =? 1).
Definition has_surround (mode : Z) : bool := negb (Z.land mode 4 =? 0).

Definition bsi_step : Type := klbs_context * ltn_ac3_header_bsi_s -> option (klbs_context * ltn_ac3_header_bsi_s).

Definition parse_mode : bsi_step :=
  steps [
    get_field 5 (fun v b => b <| bsid := v |>);
    get_field 3 (fun v b => b <| bsmod := v |>);
    get_field 3 (fun v b => b <| acmod := v |>);
    store (fun b => b <| cmixlev := 0 |> <| surmixlev := 0 |> <| dsurmod := 0 |>);
    store (fun b => b <| acmod_nfchans := nfchans (acmod b) |>);
    if_field (fun b => has_centre (acmod b)) (get_field 2 (fun v b => b <| cmixlev := v |>));
    if_field (fun b => has_surround (acmod b)) (get_field 2 (fun v b => b <| surmixlev := v |>));
    if_field (fun b => acmod b =? 2) (get_field 2 (fun v b => b <| dsurmod := v |>))].

Definition parse_service : bsi_step :=
  steps [
    get_field 1 (fun v b => b <| lfeon := v |>);
    get_field 5 (fun v b => b <| dialnorm := i32 v |>);
    store (fun b => b <| dialnorm := dialnorm b * -1 |>);
    get_field 1 (fun v b => b <| compre := v |>);
    store (fun b => b <| compr := 0 |>);
    if_field (fun b => set_flag (compre b)) (get_field 8 (fun v b => b <| compr := v |>));
    get_field 1 (fun v b => b <| langcode := v |>);
    if_field (fun b => set_flag (langcode b)) (get_field 8 (fun v b => b <| langcod := v |>));
    get_field 1 (fun v b => b <| audprodie := v |>);
    if_field (fun b => set_flag (audprodie b)) (steps [
      get_field 5 (fun v b => b <| mixlevel := v |>);
      get_field 2 (fun v b => b <| roomtyp := v |>)])].

(** The second channel of the mode 1 + 1. *)
Definition parse_dual : bsi_step :=
  if_field (fun b => acmod b =? 0) (steps [
    get_field 5 (fun v b => b <| dialnorm2 := i32 v |>);
    store (fun b => b <| dialnorm2 := dialnorm2 b * -1 |>);
    get_field 1 (fun v b => b <| compr2e := v |>);
    if_field (fun b => set_flag (compr2e b)) (get_field 8 (fun v b => b <| compr2 := v |>));
    get_field 1 (fun v b => b <| langcod2e := v |>);
    if_field (fun b => set_flag (langcod2e b)) (get_field 8 (fun v b => b <| langcod2 := v |>));
    get_field 1 (fun v b => b <| audprodi2e := v |>);
    if_field (fun b => set_flag (audprodi2e b)) (steps [
      get_field 5 (fun v b => b <| mixlevel2 := v |>);
      get_field 2 (fun v b => b <| roomtyp2 := v |>)])]).

Definition parse_rights : bsi_step :=
  steps [
    get_field 1 (fun v b => b <| copyrightb := v |>);
    get_field 1 (fun v b => b <| origbs := v |>)].

Definition parse_timecodes : bsi_step :=
  steps [
    get_field 1 (fun v b => b <| timecod1e := v |>);
    if_field (fun b => set_flag (timecod1e b)) (get_field 14 (fun v b => b <| timecod1 := v |>));
    get_field 1 (fun v b => b <| timecod2e := v |>);
    if_field (fun b => set_flag (timecod2e b)) (get_field 14 (fun v b => b <| timecod2 := v |>))].

Definition parse_alternate : bsi_step :=
  steps [
    get_field 1 (fun v b => b <| xbsi1e := v |>);
    if_field (fun b => set_flag (xbsi1e b)) (steps [
      get_field 2 (fun v b => b <| dmixmod := v |>);
      get_field 3 (fun v b => b <| ltrtcmixlev := v |>);
      get_field 3 (fun v b => b <| ltrtsurmixlev := v |>);
      get_field 3 (fun v b => b <| lorocmixlev := v |>);
      get_field 3 (fun v b => b <| lorosurmixlev := v |>)]);
    get_field 1 (fun v b => b <| xbsi2e := v |>);
    if_field (fun b => set_flag (xbsi2e b)) (steps [
      get_field 2 (fun v b => b <| dsurexmod := v |>);
      get_field 2 (fun v b => b <| dheadphonmod := v |>);
      get_field 1 (fun v b => b <| adconvtyp := v |>);
      get_field 8 (fun v b => b <| xbsi2 := v |>);
      get_field 1 (fun v b => b <| encinfo := v |>)])].

Definition parse_syntax (st : klbs_context * ltn_ac3_header_bsi_s) : option (klbs_context * ltn_ac3_header_bsi_s) :=
  if bsid st.2 =? 8 then parse_timecodes st else if bsid st.2 =? 6 then parse_alternate st else Some st.

(** The additional information: [addbsil + 1] bytes. *)
Definition parse_addbsi : bsi_step :=
  steps [
    store (fun b => b <| addbsil := 0 |>);
    get_field 1 (fun v b => b <| addbsie := v |>);
    if_field (fun b => set_flag (addbsie b)) (steps [
      get_field 6 (fun v b => b <| addbsil := v |>);
      fun st => get_array 8 addbsi (fun l b => b <| addbsi := l |>) 0 (Z.to_nat (addbsil st.2 + 1)) st])].

Definition parse_bsi : bsi_step :=
  steps [parse_mode; parse_service; parse_dual; parse_rights; parse_syntax; parse_addbsi].

Definition parse_audioblk (channels : Z) :
    klbs_context * ltn_ac3_header_audioblk_s -> option (klbs_context * ltn_ac3_header_audioblk_s) :=
  steps [
    get_array 1 blksw (fun l b => b <| blksw := l |>) 0 (Z.to_nat channels);
    get_array 1 dithflag (fun l b => b <| dithflag := l |>) 0 (Z.to_nat channels);
    get_field 1 (fun v b => b <| dynrnge := v |>);
    if_field (fun b => set_flag (dynrnge b)) (get_field 8 (fun v b => b <| dynrng := v |>))].

(** The loop over the six blocks of the array. *)
Fixpoint parse_audioblks (channels : Z) (bs : klbs_context) (blks : list ltn_ac3_header_audioblk_s)
    : option (klbs_context * list ltn_ac3_header_audioblk_s) :=
  match blks with
  | [] => Some (bs, [])
  | b :: l =>
      '(bs, b) ← parse_audioblk channels (bs, b);
      '(bs, l) ← parse_audioblks channels bs l;
      Some (bs, b :: l)
  end.

Definition ltntstools_ac3_header_parse (sf : ltn_ac3_header_syncframe_s) (buf : list Z) (lengthBytes : Z)
    : option (ltn_ac3_header_syncframe_s * Z) :=
  let bs := klbs_read_set_buffer buf lengthBytes in
  if lengthBytes <? 8 + 14 then Some (sf, -1) else
  '(bs, si) ← parse_syncinfo (bs, syncinfo sf);
  '(bs, b) ← parse_bsi (bs, bsi sf);
  '(bs, blks) ← parse_audioblks (acmod_nfchans b) bs (audioblk sf);
  Some ({| syncinfo := si; bsi := b; audioblk := blks |}, 0).
