(* ===== verification/Ac3Spec.v ===== *)
(** * What the AC-3 parser promises

    The syntax of A/52 up to the first fields of the first audio block as a value
    ([ac3_frame]) and its bits ([frame_bits]); the parser inverts it, whatever the
    caller's memory held.

    Behind these fields the parser goes on as if five more blocks of the same few
    fields followed at once.  They do not: the values it stores for the blocks
    but the first are bits of the first block.  What it takes the buffer for is
    a value of its own ([ac3_reading], [reading_bits]); every buffer of 94 bytes
    has one, so that the parser does not leave it. *)
From Stdlib Require Import ZArith Lia Bool.
From stdpp Require Import base numbers list option.
From coqutil Require Import Datatypes.RecordSettersUsingExistingGetters.
From S2P Require Import Prelude Bits BitStream Ac3.

(** ** The syntax (A/52, 5.3 and D2.1) *)

Definition opt_bits {A} (f : A -> list bool) (o : option A) : list bool :=
  match o with Some a => bits_of 1 1 ++ f a | None => bits_of 1 0 end.

Definition opt_wf {A} (W : A -> Prop) (o : option A) : Prop := match o with Some a => W a | None => True end.

(** A value of [n] bits. *)
Definition fits (n : nat) (v : Z) : Prop := 0 <= v < 2 ^ Z.of_nat n.

Record ac3_sync := { x_syncword : Z; x_crc1 : Z; x_fscod : Z; x_frmsizecod : Z }.

Definition sync_bits (x : ac3_sync) : list bool :=
  bits_of 16 (x_syncword x) ++ bits_of 16 (x_crc1 x) ++ bits_of 2 (x_fscod x) ++ bits_of 6 (x_frmsizecod x).

Definition sync_wf (x : ac3_sync) : Prop :=
  fits 16 (x_syncword x) /\ fits 16 (x_crc1 x) /\ fits 2 (x_fscod x) /\ fits 6 (x_frmsizecod x).

(** The levels are zero where the mode has none. *)
Record ac3_mode := { x_bsid : Z; x_bsmod : Z; x_acmod : Z; x_cmixlev : Z; x_surmixlev : Z; x_dsurmod : Z }.

Definition if_bits (c : bool) (l : list bool) : list bool := if c then l else [].

Definition mode_bits (x : ac3_mode) : list bool :=
  bits_of 5 (x_bsid x) ++ bits_of 3 (x_bsmod x) ++ bits_of 3 (x_acmod x) ++
  if_bits (has_centre (x_acmod x)) (bits_of 2 (x_cmixlev x)) ++
  if_bits (has_surround (x_acmod x)) (bits_of 2 (x_surmixlev x)) ++
  if_bits (x_acmod x =? 2) (bits_of 2 (x_dsurmod x)).

Definition level_wf (c : bool) (v : Z) : Prop := fits (if c then 2 else 0) v.

Definition mode_wf (x : ac3_mode) : Prop :=
  fits 5 (x_bsid x) /\ fits 3 (x_bsmod x) /\ fits 3 (x_acmod x) /\ level_wf (has_centre (x_acmod x)) (x_cmixlev x) /\
  level_wf (has_surround (x_acmod x)) (x_surmixlev x) /\ level_wf (x_acmod x =? 2) (x_dsurmod x).

(** A channel: the dialogue normalisation, the compression, the language, and
    the level and type of the mixing room. *)
Record ac3_channel := { x_dialnorm : Z; x_compr : option Z; x_langcod : option Z; x_audprod : option (Z * Z) }.

Definition room_bits (p : Z * Z) : list bool := bits_of 5 p.1 ++ bits_of 2 p.2.
Definition room_wf (p : Z * Z) : Prop := fits 5 p.1 /\ fits 2 p.2.

Definition channel_bits (x : ac3_channel) : list bool :=
  bits_of 5 (x_dialnorm x) ++ opt_bits (bits_of 8) (x_compr x) ++ opt_bits (bits_of 8) (x_langcod x) ++ opt_bits room_bits (x_audprod x).

Definition channel_wf (x : ac3_channel) : Prop :=
  fits 5 (x_dialnorm x) /\ opt_wf (fits 8) (x_compr x) /\ opt_wf (fits 8) (x_langcod x) /\ opt_wf room_wf (x_audprod x).

(** The mixes and the surround, headphone and converter modes of annex D. *)
Record ac3_mix := { x_dmixmod : Z; x_ltrtcmixlev : Z; x_ltrtsurmixlev : Z; x_lorocmixlev : Z; x_lorosurmixlev : Z }.
Record ac3_modes := { x_dsurexmod : Z; x_dheadphonmod : Z; x_adconvtyp : Z; x_xbsi2 : Z; x_encinfo : Z }.

Definition mix_bits (x : ac3_mix) : list bool :=
  bits_of 2 (x_dmixmod x) ++ bits_of 3 (x_ltrtcmixlev x) ++ bits_of 3 (x_ltrtsurmixlev x) ++ bits_of 3 (x_lorocmixlev x) ++ bits_of 3 (x_lorosurmixlev x).
Definition mix_wf (x : ac3_mix) : Prop :=
  fits 2 (x_dmixmod x) /\ fits 3 (x_ltrtcmixlev x) /\ fits 3 (x_ltrtsurmixlev x) /\ fits 3 (x_lorocmixlev x) /\ fits 3 (x_lorosurmixlev x).
Definition modes_bits (x : ac3_modes) : list bool :=
  bits_of 2 (x_dsurexmod x) ++ bits_of 2 (x_dheadphonmod x) ++ bits_of 1 (x_adconvtyp x) ++ bits_of 8 (x_xbsi2 x) ++ bits_of 1 (x_encinfo x).
Definition modes_wf (x : ac3_modes) : Prop :=
  fits 2 (x_dsurexmod x) /\ fits 2 (x_dheadphonmod x) /\ fits 1 (x_adconvtyp x) /\ fits 8 (x_xbsi2 x) /\ fits 1 (x_encinfo x).

(** What the value of bsid selects. *)
Inductive ac3_extra :=
  | Timecodes (timecod1 timecod2 : option Z)
  | Alternate (xbsi1 : option ac3_mix) (xbsi2 : option ac3_modes)
  | NoExtra.

Definition extra_bits (x : ac3_extra) : list bool :=
  match x with
  | Timecodes t1 t2 => opt_bits (bits_of 14) t1 ++ opt_bits (bits_of 14) t2
  | Alternate m1 m2 => opt_bits mix_bits m1 ++ opt_bits modes_bits m2
  | NoExtra => []
  end.

Definition extra_wf (id : Z) (x : ac3_extra) : Prop :=
  match x with
  | Timecodes t1 t2 => id = 8 /\ opt_wf (fits 14) t1 /\ opt_wf (fits 14) t2
  | Alternate m1 m2 => id = 6 /\ opt_wf mix_wf m1 /\ opt_wf modes_wf m2
  | NoExtra => id <> 8 /\ id <> 6
  end.

(** [n] bits for each value. *)
Definition values_bits (n : nat) (l : list Z) : list bool := concat (map (bits_of n) l).

Definition addbsi_bits (l : list Z) : list bool := bits_of 6 (len l - 1) ++ values_bits 8 l.
Definition addbsi_wf (l : list Z) : Prop := 1 <= len l <= 64 /\ Forall (fits 8) l.

Record ac3_block := { x_blksw : list Z; x_dithflag : list Z; x_dynrng : option Z }.

Definition block_bits (x : ac3_block) : list bool :=
  values_bits 1 (x_blksw x) ++ values_bits 1 (x_dithflag x) ++ opt_bits (bits_of 8) (x_dynrng x).
Definition block_wf (channels : Z) (x : ac3_block) : Prop :=
  (len (x_blksw x) = channels /\ Forall (fits 1) (x_blksw x)) /\ (len (x_dithflag x) = channels /\ Forall (fits 1) (x_dithflag x)) /\
  opt_wf (fits 8) (x_dynrng x).

Record ac3_bsi := {
  x_mode : ac3_mode;
  x_lfeon : Z;
  x_first : ac3_channel;
  x_second : option ac3_channel;
  x_rights : Z * Z;
  x_extra : ac3_extra;
  x_addbsi : option (list Z)
}.

Definition bsi_bits (x : ac3_bsi) : list bool :=
  mode_bits (x_mode x) ++ bits_of 1 (x_lfeon x) ++ channel_bits (x_first x) ++
  match x_second x with Some c => channel_bits c | None => [] end ++
  bits_of 1 (x_rights x).1 ++ bits_of 1 (x_rights x).2 ++ extra_bits (x_extra x) ++ opt_bits addbsi_bits (x_addbsi x).

Definition bsi_wf (x : ac3_bsi) : Prop :=
  mode_wf (x_mode x) /\ fits 1 (x_lfeon x) /\ channel_wf (x_first x) /\
  match x_second x with Some c => x_acmod (x_mode x) = 0 /\ channel_wf c | None => x_acmod (x_mode x) <> 0 end /\
  (fits 1 (x_rights x).1 /\ fits 1 (x_rights x).2) /\ extra_wf (x_bsid (x_mode x)) (x_extra x) /\ opt_wf addbsi_wf (x_addbsi x).

(** *** The header: the synchronisation, the bit stream information and the first
    fields of the first audio block *)
Record ac3_frame := { f_sync : ac3_sync; f_bsi : ac3_bsi; f_block : ac3_block }.

Definition frame_bits (x : ac3_frame) : list bool :=
  sync_bits (f_sync x) ++ bsi_bits (f_bsi x) ++ block_bits (f_block x).

(** Of the two syntaxes: bsid 8, and 6 for the alternate one of annex D. *)
Definition frame_wf (x : ac3_frame) : Prop :=
  sync_wf (f_sync x) /\ bsi_wf (f_bsi x) /\ (x_bsid (x_mode (f_bsi x)) = 8 \/ x_bsid (x_mode (f_bsi x)) = 6) /\
  block_wf (nfchans (x_acmod (x_mode (f_bsi x)))) (f_block x).

(** *** What the parser takes a buffer for: six blocks back to back *)
Record ac3_reading := { x_sync : ac3_sync; x_bsi : ac3_bsi; x_blocks : list ac3_block }.

Definition reading_bits (x : ac3_reading) : list bool :=
  sync_bits (x_sync x) ++ bsi_bits (x_bsi x) ++ concat (map block_bits (x_blocks x)).

Definition reading_wf (x : ac3_reading) : Prop :=
  sync_wf (x_sync x) /\ bsi_wf (x_bsi x) /\
  (length (x_blocks x) = 6%nat /\ Forall (block_wf (nfchans (x_acmod (x_mode (x_bsi x))))) (x_blocks x)).

(** ** What a caller reads off the structure *)

Definition opt (flag : Z) {A} (v : A) : option A := if set_flag flag then Some v else None.

Definition view_sync (s : ltn_ac3_header_syncinfo_s) : ac3_sync :=
  {| x_syncword := syncword s; x_crc1 := crc1 s; x_fscod := fscod s; x_frmsizecod := frmsizecod s |}.
Definition view_mode (b : ltn_ac3_header_bsi_s) : ac3_mode :=
  {| x_bsid := bsid b; x_bsmod := bsmod b; x_acmod := acmod b; x_cmixlev := cmixlev b; x_surmixlev := surmixlev b; x_dsurmod := dsurmod b |}.
Definition view_first (b : ltn_ac3_header_bsi_s) : ac3_channel :=
  {| x_dialnorm := - dialnorm b; x_compr := opt (compre b) (compr b); x_langcod := opt (langcode b) (langcod b);
     x_audprod := opt (audprodie b) (mixlevel b, roomtyp b) |}.
Definition view_second (b : ltn_ac3_header_bsi_s) : option ac3_channel :=
  if acmod b =? 0 then
    Some {| x_dialnorm := - dialnorm2 b; x_compr := opt (compr2e b) (compr2 b); x_langcod := opt (langcod2e b) (langcod2 b);
            x_audprod := opt (audprodi2e b) (mixlevel2 b, roomtyp2 b) |}
  else None.
Definition view_rights (b : ltn_ac3_header_bsi_s) : Z * Z := (copyrightb b, origbs b).
Definition view_extra (b : ltn_ac3_header_bsi_s) : ac3_extra :=
  if bsid b =? 8 then Timecodes (opt (timecod1e b) (timecod1 b)) (opt (timecod2e b) (timecod2 b)) else
  if bsid b =? 6 then
    Alternate
      (opt (xbsi1e b) {| x_dmixmod := dmixmod b; x_ltrtcmixlev := ltrtcmixlev b; x_ltrtsurmixlev := ltrtsurmixlev b;
                         x_lorocmixlev := lorocmixlev b; x_lorosurmixlev := lorosurmixlev b |})
      (opt (xbsi2e b) {| x_dsurexmod := dsurexmod b; x_dheadphonmod := dheadphonmod b; x_adconvtyp := adconvtyp b;
                         x_xbsi2 := xbsi2 b; x_encinfo := encinfo b |})
  else NoExtra.
Definition view_addbsi (b : ltn_ac3_header_bsi_s) : option (list Z) :=
  opt (addbsie b) (take (Z.to_nat (addbsil b + 1)) (addbsi b)).

Definition view_bsi (b : ltn_ac3_header_bsi_s) : ac3_bsi :=
  {| x_mode := view_mode b; x_lfeon := lfeon b; x_first := view_first b; x_second := view_second b; x_rights := view_rights b;
     x_extra := view_extra b; x_addbsi := view_addbsi b |}.

Definition view_block (channels : Z) (b : ltn_ac3_header_audioblk_s) : ac3_block :=
  {| x_blksw := take (Z.to_nat channels) (blksw b); x_dithflag := take (Z.to_nat channels) (dithflag b);
     x_dynrng := opt (dynrnge b) (dynrng b) |}.

Definition view (sf : ltn_ac3_header_syncframe_s) : ac3_reading :=
  {| x_sync := view_sync (syncinfo sf); x_bsi := view_bsi (bsi sf);
     x_blocks := map (view_block (acmod_nfchans (bsi sf))) (audioblk sf) |}.

(** The arrays of the structure have their sizes. *)
Definition block_arrays (b : ltn_ac3_header_audioblk_s) : Prop := len (blksw b) = 8 /\ len (dithflag b) = 8.
Record frame_arrays (sf : ltn_ac3_header_syncframe_s) : Prop := {
  fa_addbsi : len (addbsi (bsi sf)) = 64;
  fa_blocks : length (audioblk sf) = 6%nat;
  fa_block : Forall block_arrays (audioblk sf)
}.

(** ** Reading *)

Section Reads.
Context {R : Type}.

(** From [r] the step takes the bits and leaves [r']. *)
Definition reads (p : klbs_context * R -> option (klbs_context * R)) (r : R) (bits : list bool) (r' : R) : Prop :=
  forall c rest, klbs_wf c -> unread c = bits ++ rest -> exists c', p (c, r) = Some (c', r') /\ klbs_wf c' /\ unread c' = rest.

Lemma read_value c n v rest : klbs_wf c -> (n <= 32)%nat -> fits n v -> unread c = bits_of n v ++ rest ->
  exists c', klbs_read_bits c (Z.of_nat n) = Some (v, c') /\ klbs_wf c' /\ unread c' = rest.
Proof.
  intros Hc Hn Hv Hu. pose proof (length_bits_of n v) as Hl.
  destruct (read_bits_spec c (Z.of_nat n) Hc) as (c' & E & Hc' & Hu' & _); [lia|rewrite Hu, length_app; lia|].
  rewrite Nat2Z.id in *. rewrite Hu, take_app_length', bits_val_bits_of in E by done. rewrite Hu, drop_app_length' in Hu' by done.
  rewrite Z.mod_small in E by exact Hv. by exists c'.
Qed.

Lemma fits_u32 n v : (n <= 32)%nat -> fits n v -> u32 v = v.
Proof. intros Hn Hv. unfold fits in Hv. apply u32_id. pose proof (Z.pow_le_mono_r 2 (Z.of_nat n) 32). lia. Qed.

Lemma reads_get n put r v : (n <= 32)%nat -> fits n v -> reads (get_field (Z.of_nat n) put) r (bits_of n v) (put v r).
Proof.
  intros Hn Hv c rest Hc Hu. destruct (read_value c n v rest Hc Hn Hv Hu) as (c' & E & Hc' & Hu').
  exists c'. unfold get_field. cbn [fst snd]. rewrite E. step. by rewrite (fits_u32 n).
Qed.

Lemma reads_store f r : reads (store f) r [] (f r).
Proof. intros c rest Hc Hu. by exists c. Qed.

Lemma reads_if_fieldtrue c p r bits r' : c r = true -> reads p r bits r' -> reads (if_field c p) r bits r'.
Proof. intros Hc Hp b rest Hb Hu. unfold if_field. cbn [fst snd]. rewrite Hc. by apply Hp. Qed.

Lemma reads_if_fieldfalse c p r : c r = false -> reads (if_field c p) r [] r.
Proof. intros Hc b rest Hb Hu. exists b. unfold if_field. cbn [fst snd]. by rewrite Hc. Qed.

Lemma reads_nil r : reads (steps []) r [] r.
Proof. intros c rest Hc Hu. by exists c. Qed.

Lemma reads_cons p l r b1 r1 b2 r2 : reads p r b1 r1 -> reads (steps l) r1 b2 r2 -> reads (steps (p :: l)) r (b1 ++ b2) r2.
Proof.
  intros H1 H2 c rest Hc Hu. rewrite <- app_assoc in Hu. destruct (H1 c _ Hc Hu) as (c1 & E1 & Hc1 & Hu1).
  destruct (H2 c1 _ Hc1 Hu1) as (c2 & E2 & Hc2 & Hu2). exists c2. cbn [steps]. rewrite E1. step. done.
Qed.

Lemma reads_bits p r b b' r' : reads p r b r' -> b = b' -> reads p r b' r'.
Proof. by intros H <-. Qed.

(** An array with the laws of a field. *)
Lemma reads_array n array put : (n <= 32)%nat ->
  (forall l r, array (put l r) = l) -> (forall l l' r, put l (put l' r) = put l r) -> (forall r, put (array r) r = r) ->
  forall vs i r, Forall (fits n) vs -> 0 <= i -> i + len vs <= len (array r) ->
  reads (get_array (Z.of_nat n) array put i (length vs)) r (values_bits n vs)
    (put (take (Z.to_nat i) (array r) ++ vs ++ drop (Z.to_nat (i + len vs)) (array r)) r).
Proof.
  intros Hn L1 L2 L3. induction vs as [|v vs IH]; intros i r Hv Hi Hl c rest Hc Hu.
  - exists c. cbn [get_array length app]. rewrite len_nil, Z.add_0_r, take_drop, L3. done.
  - apply Forall_cons_1 in Hv as [Hv Hvs]. rewrite len_cons in Hl. pose proof (len_nonneg vs).
    unfold values_bits in Hu. cbn [map concat] in Hu. rewrite <- app_assoc in Hu.
    destruct (read_value c n v _ Hc Hn Hv Hu) as (c1 & E1 & Hc1 & Hu1). cbn [get_array length fst snd]. rewrite E1. step.
    rewrite (fits_u32 n) by done. unfold wr. zdec. cbn [andb]. step.
    destruct (IH (i + 1) (put (set_at (array r) i v) r) Hvs) with (c := c1) (rest := rest) as (c2 & E2 & Hc2 & Hu2);
      [lia|rewrite L1, len_set_at; lia|done|done|].
    exists c2. rewrite E2, L1, L2. split; [|done]. f_equal. f_equal. f_equal. unfold set_at.
    rewrite len_cons. replace (Z.to_nat (i + 1)) with (S (Z.to_nat i)) by lia. replace (i + 1 + len vs) with (i + (len vs + 1)) by lia.
    rewrite (take_S_r _ _ v) by (apply list_lookup_insert_eq; unfold len in *; lia).
    rewrite take_insert_ge, drop_insert_lt by lia. by rewrite <- app_assoc.
Qed.

Lemma reads_array_all n array put vs r : (n <= 32)%nat ->
  (forall l r, array (put l r) = l) -> (forall l l' r, put l (put l' r) = put l r) -> (forall r, put (array r) r = r) ->
  Forall (fits n) vs -> len vs <= len (array r) ->
  reads (get_array (Z.of_nat n) array put 0 (length vs)) r (values_bits n vs) (put (vs ++ drop (length vs) (array r)) r).
Proof.
  intros Hn L1 L2 L3 Hv Hl. pose proof (reads_array n array put Hn L1 L2 L3 vs 0 r Hv) as H.
  change (take (Z.to_nat 0) (array r)) with (@nil Z) in H. rewrite Z.add_0_l in H. unfold len in H at 3. rewrite Nat2Z.id in H. apply H; lia.
Qed.
End Reads.

(** ** Reading the groups of fields *)

Section Groups.
Context {R : Type}.
Implicit Types (r : R) (l : list (klbs_context * R -> option (klbs_context * R))).

Lemma steps_app l1 l2 st : steps (l1 ++ l2) st = (st ← steps l1 st; steps l2 st).
Proof. revert st. induction l1 as [|p l1 IH]; intros st; [done|]. cbn [app steps]. destruct (p st) as [st'|]; [apply IH|done]. Qed.

Lemma reads_cons_store f l r b r' : reads (steps l) (f r) b r' -> reads (steps (store f :: l)) r b r'.
Proof. apply (reads_cons (store f) l r [] (f r)), reads_store. Qed.

Lemma reads_cons_true c p l r b r' : c r = true -> reads (steps (p :: l)) r b r' -> reads (steps (if_field c p :: l)) r b r'.
Proof. intros Hc Hp x rest Hx Hu. cbn [steps]. unfold if_field. cbn [snd]. rewrite Hc. by apply Hp. Qed.

Lemma reads_cons_false c p l r b r' : c r = false -> reads (steps l) r b r' -> reads (steps (if_field c p :: l)) r b r'.
Proof. intros Hc Hp x rest Hx Hu. cbn [steps]. unfold if_field. cbn [snd]. rewrite Hc. by apply Hp. Qed.

Lemma reads_flat l1 l r b r' : reads (steps (l1 ++ l)) r b r' -> reads (steps (steps l1 :: l)) r b r'.
Proof. intros H x rest Hx Hu. cbn [steps]. rewrite <- steps_app. by apply H. Qed.

Lemma reads_bits_end p r b r' : reads p r (b ++ []) r' -> reads p r b r'.
Proof. by rewrite app_nil_r. Qed.
End Groups.

(** Reads field after field, in the order of the bits. *)
Ltac read_step :=
  match goal with
  | |- reads (steps []) _ _ _ => apply reads_nil
  | |- reads (steps (get_field ?n _ :: _)) _ _ _ =>
      let m := eval vm_compute in (Z.to_nat n) in
      eapply reads_cons; [apply (reads_get m); [lia|assumption]|]
  | |- reads (steps (store _ :: _)) _ _ _ => apply reads_cons_store
  | |- reads (steps (steps _ :: _)) _ _ _ => apply reads_flat; cbn [app]
  | |- reads (steps (if_field _ _ :: _)) _ _ _ =>
      first [apply reads_cons_true; [first [reflexivity|assumption]|] | apply reads_cons_false; [first [reflexivity|assumption]|]]
  end.

Ltac read_all := apply reads_bits_end; rewrite <- ?app_assoc; cbn [app]; repeat read_step.

Lemma sync_read r x : sync_wf x -> exists r', reads parse_syncinfo r (sync_bits x) r' /\ view_sync r' = x.
Proof.
  intros (H1 & H2 & H3 & H4). eexists. split; [unfold parse_syncinfo, sync_bits; read_all|]. by destruct x.
Qed.

Lemma mode_read r x : mode_wf x -> exists r', reads parse_mode r (mode_bits x) r' /\ view_mode r' = x /\
  acmod_nfchans r' = nfchans (x_acmod x) /\ addbsi r' = addbsi r.
Proof.
  intros (H1 & H2 & H3 & H4 & H5 & H6). unfold parse_mode, mode_bits.
  assert (Z0 : forall v, fits 0 v -> v = 0) by (unfold fits; cbn; lia). unfold level_wf in *.
  destruct (has_centre (x_acmod x)) eqn:E1, (has_surround (x_acmod x)) eqn:E2, (x_acmod x =? 2) eqn:E3; cbn [if_bits];
    (eexists; split; [read_all|]); (split; [|done]); destruct x; cbn in *; unfold const, view_mode; cbn; f_equal; auto; symmetry; auto.
Qed.

Lemma reads_single {R} (p : klbs_context * R -> option (klbs_context * R)) r b r' : reads (steps [p]) r b r' -> reads p r b r'.
Proof.
  intros H c rest Hc Hu. destruct (H c rest Hc Hu) as (c' & E & H'). exists c'. split; [|done]. cbn [steps] in E.
  by destruct (p (c, r)).
Qed.

(** What a group of fields leaves alone: the fields of the groups before it. *)
Definition held0 (b : ltn_ac3_header_bsi_s) := (view_mode b, acmod_nfchans b, addbsi b).
Definition held1 (b : ltn_ac3_header_bsi_s) := (held0 b, lfeon b, view_first b).
Definition held2 (b : ltn_ac3_header_bsi_s) := (held1 b, view_second b).
Definition held3 (b : ltn_ac3_header_bsi_s) := (held2 b, view_rights b).
Definition held4 (b : ltn_ac3_header_bsi_s) := (view_mode b, acmod_nfchans b, lfeon b, view_first b, view_second b, view_rights b, view_extra b).

Lemma dialnorm_sign v : fits 5 v -> - (i32 v * -1) = v.
Proof. unfold fits. intros H. rewrite i32_id; lia. Qed.

Lemma service_read r lfe x : fits 1 lfe -> channel_wf x -> exists r', reads parse_service r (bits_of 1 lfe ++ channel_bits x) r' /\
  (lfeon r', view_first r') = (lfe, x) /\ held0 r' = held0 r.
Proof.
  intros Hl (H1 & H2 & H3 & H4). unfold parse_service, channel_bits. assert (F0 : fits 1 0) by done. assert (F1 : fits 1 1) by done.
  pose proof (dialnorm_sign _ H1) as Hd.
  destruct x as [d [c|] [la|] [[m t]|]]; cbn [x_dialnorm x_compr x_langcod x_audprod opt_bits opt_wf] in *;
    unfold room_bits, room_wf in *; cbn [fst snd] in *; destruct_and?;
    (eexists; split; [read_all|]); (split; [|reflexivity]); cbn; unfold const, view_first; cbn; unfold const; by rewrite Hd.
Qed.

Lemma dual_read r x : match x with Some c => acmod r = 0 /\ channel_wf c | None => acmod r <> 0 end ->
  exists r', reads parse_dual r (match x with Some c => channel_bits c | None => [] end) r' /\ view_second r' = x /\ held1 r' = held1 r.
Proof.
  intros Hx. destruct x as [x|].
  2: { exists r. split; [|split; [|done]]; [|unfold view_second]; destruct (Z.eqb_spec (acmod r) 0) as [E|E]; try done.
       apply reads_if_fieldfalse. by apply Z.eqb_neq. }
  destruct Hx as (Ha & H1 & H2 & H3 & H4). apply Z.eqb_eq in Ha. unfold parse_dual, channel_bits.
  assert (F0 : fits 1 0) by done. assert (F1 : fits 1 1) by done. pose proof (dialnorm_sign _ H1) as Hd.
  destruct x as [d [c|] [la|] [[m t]|]]; cbn [x_dialnorm x_compr x_langcod x_audprod opt_bits opt_wf] in *;
    unfold room_bits, room_wf in *; cbn [fst snd] in *; destruct_and?;
    (eexists; split; [apply reads_single; read_all|]); (split; [|reflexivity]);
    cbn; unfold const, view_second; cbn; unfold const; by rewrite Ha, Hd.
Qed.

Lemma rights_read r x : fits 1 x.1 -> fits 1 x.2 -> exists r', reads parse_rights r (bits_of 1 x.1 ++ bits_of 1 x.2) r' /\
  view_rights r' = x /\ held2 r' = held2 r.
Proof. intros H1 H2. unfold parse_rights. eexists. split; [read_all|]. split; [by destruct x|reflexivity]. Qed.

Lemma timecodes_read r t1 t2 : opt_wf (fits 14) t1 -> opt_wf (fits 14) t2 -> exists r',
  reads parse_timecodes r (opt_bits (bits_of 14) t1 ++ opt_bits (bits_of 14) t2) r' /\
  (opt (timecod1e r') (timecod1 r') = t1 /\ opt (timecod2e r') (timecod2 r') = t2) /\ held3 r' = held3 r.
Proof.
  intros H1 H2. unfold parse_timecodes. assert (F0 : fits 1 0) by done. assert (F1 : fits 1 1) by done.
  destruct t1, t2; cbn [opt_bits opt_wf] in *; (eexists; split; [read_all|]); (split; [split|]; reflexivity).
Qed.

Definition mix_of (b : ltn_ac3_header_bsi_s) : ac3_mix :=
  {| x_dmixmod := dmixmod b; x_ltrtcmixlev := ltrtcmixlev b; x_ltrtsurmixlev := ltrtsurmixlev b;
     x_lorocmixlev := lorocmixlev b; x_lorosurmixlev := lorosurmixlev b |}.
Definition modes_of (b : ltn_ac3_header_bsi_s) : ac3_modes :=
  {| x_dsurexmod := dsurexmod b; x_dheadphonmod := dheadphonmod b; x_adconvtyp := adconvtyp b; x_xbsi2 := xbsi2 b; x_encinfo := encinfo b |}.

Lemma alternate_read r m1 m2 : opt_wf mix_wf m1 -> opt_wf modes_wf m2 -> exists r',
  reads parse_alternate r (opt_bits mix_bits m1 ++ opt_bits modes_bits m2) r' /\
  (opt (xbsi1e r') (mix_of r') = m1 /\ opt (xbsi2e r') (modes_of r') = m2) /\ held3 r' = held3 r.
Proof.
  intros H1 H2. unfold parse_alternate. assert (F0 : fits 1 0) by done. assert (F1 : fits 1 1) by done.
  destruct m1 as [[]|], m2 as [[]|]; unfold opt_bits, opt_wf, mix_wf, modes_wf, mix_bits, modes_bits in *;
    cbn [x_dmixmod x_ltrtcmixlev x_ltrtsurmixlev x_lorocmixlev x_lorosurmixlev x_dsurexmod x_dheadphonmod x_adconvtyp x_xbsi2 x_encinfo] in *;
    destruct_and?; (eexists; split; [read_all|]); (split; [split|]; reflexivity).
Qed.

Lemma extra_read r x : extra_wf (bsid r) x -> exists r', reads parse_syntax r (extra_bits x) r' /\ view_extra r' = x /\ held3 r' = held3 r.
Proof.
  intros Hx. assert (Hid : forall r', held3 r' = held3 r -> bsid r' = bsid r) by (unfold held3, held2, held1, held0, view_mode; congruence).
  destruct x as [t1 t2|m1 m2|]; destruct Hx as (E & H1).
  - destruct H1 as [H1 H2]. destruct (timecodes_read r t1 t2 H1 H2) as (r' & Hr & (V1 & V2) & Hh). exists r'. split_and!; [|by unfold view_extra; rewrite (Hid r' Hh), E, V1, V2|done].
    intros c rest Hc Hu. unfold parse_syntax. cbn [snd]. rewrite E. by apply Hr.
  - destruct H1 as [H1 H2]. destruct (alternate_read r m1 m2 H1 H2) as (r' & Hr & (V1 & V2) & Hh). exists r'.
    split_and!; [|by unfold view_extra; rewrite (Hid r' Hh), E; fold (mix_of r') (modes_of r'); rewrite V1, V2|done].
    intros c rest Hc Hu. unfold parse_syntax. cbn [snd]. rewrite E. by apply Hr.
  - apply Z.eqb_neq in E, H1. exists r. split_and!; [|by unfold view_extra; rewrite E, H1|done].
    intros c rest Hc Hu. unfold parse_syntax. cbn [snd]. rewrite E, H1. by exists c.
Qed.

Lemma addbsi_read r x : opt_wf addbsi_wf x -> len (addbsi r) = 64 -> exists r', reads parse_addbsi r (opt_bits addbsi_bits x) r' /\
  view_addbsi r' = x /\ held4 r' = held4 r /\ len (addbsi r') = 64.
Proof.
  intros Hx Hl. unfold parse_addbsi. assert (F0 : fits 1 0) by done. assert (F1 : fits 1 1) by done. destruct x as [l|].
  2: { cbn [opt_bits]. eexists. split; [read_all|]. split_and!; [reflexivity|reflexivity|exact Hl]. }
  destruct Hx as [Hn Hl8]. cbn [opt_bits]. unfold addbsi_bits. assert (F6 : fits 6 (len l - 1)) by (unfold fits; cbn; lia).
  eexists. split.
  - apply reads_bits_end. rewrite <- ?app_assoc. cbn [app]. do 5 read_step. eapply reads_cons; [|apply reads_nil].
    intros c rest Hc Hu. cbn [snd].
    match goal with |- context [get_array 8 addbsi ?put 0 (Z.to_nat (addbsil ?b + 1))] =>
      change (addbsil b) with (len l - 1); change 8 with (Z.of_nat 8);
      replace (Z.to_nat (len l - 1 + 1)) with (length l) by (unfold len; lia);
      refine (reads_array_all 8 addbsi put l b _ _ _ _ Hl8 _ c rest Hc Hu) end; try done; try lia.
    + by intros [].
    + cbn. unfold const. lia.
  - cbn. unfold const. split_and!; [|reflexivity|].
    + unfold view_addbsi. cbn. unfold const. f_equal. replace (len l - 1 + 1) with (len l) by lia. apply take_len_app.
    + rewrite len_app. unfold len in *. rewrite length_drop. lia.
Qed.

Lemma bsi_read r x : bsi_wf x -> len (addbsi r) = 64 -> exists r', reads parse_bsi r (bsi_bits x) r' /\
  view_bsi r' = x /\ acmod_nfchans r' = nfchans (x_acmod (x_mode x)) /\ len (addbsi r') = 64.
Proof.
  intros (H1 & H2 & H3 & H4 & [H5 H6] & H7 & H8) Hl. unfold parse_bsi, bsi_bits.
  destruct (mode_read r _ H1) as (r1 & R1 & V1 & N1 & A1).
  destruct (service_read r1 _ _ H2 H3) as (r2 & R2 & V2 & K2).
  assert (E2 : view_mode r2 = x_mode x /\ acmod_nfchans r2 = nfchans (x_acmod (x_mode x)) /\ addbsi r2 = addbsi r)
    by (unfold held0 in K2; split_and!; congruence).
  destruct E2 as (E2 & N2 & A2).
  assert (Em : acmod r2 = x_acmod (x_mode x)) by (by rewrite <- E2).
  rewrite <- Em in H4. destruct (dual_read r2 _ H4) as (r3 & R3 & V3 & K3).
  destruct (rights_read r3 _ H5 H6) as (r4 & R4 & V4 & K4).
  assert (K24 : held1 r4 = held1 r2) by (unfold held2 in K4; congruence).
  assert (E4 : view_mode r4 = x_mode x /\ acmod_nfchans r4 = nfchans (x_acmod (x_mode x)) /\ addbsi r4 = addbsi r /\ lfeon r4 = x_lfeon x /\
    view_first r4 = x_first x) by (unfold held1, held0 in K24; split_and!; congruence).
  destruct E4 as (E4 & N4 & A4 & L4 & F4).
  assert (Ei : bsid r4 = x_bsid (x_mode x)) by (by rewrite <- E4). rewrite <- Ei in H7.
  destruct (extra_read r4 _ H7) as (r5 & R5 & V5 & K5).
  assert (A5 : len (addbsi r5) = 64) by (unfold held3, held2, held1, held0 in K5; congruence).
  destruct (addbsi_read r5 _ H8 A5) as (r6 & R6 & V6 & K6 & A6). exists r6. split.
  - apply reads_bits_end. rewrite <- !app_assoc. eapply reads_cons; [exact R1|]. rewrite app_assoc. eapply reads_cons; [exact R2|].
    eapply reads_cons; [exact R3|]. rewrite app_assoc. eapply reads_cons; [exact R4|]. eapply reads_cons; [exact R5|].
    eapply reads_cons; [exact R6|]. apply reads_nil.
  - assert (E6 : view_mode r6 = view_mode r5 /\ acmod_nfchans r6 = acmod_nfchans r5 /\ lfeon r6 = lfeon r5 /\ view_first r6 = view_first r5 /\
      view_second r6 = view_second r5 /\ view_rights r6 = view_rights r5 /\ view_extra r6 = view_extra r5)
      by (unfold held4 in K6; split_and!; congruence).
    assert (E5 : view_mode r5 = view_mode r4 /\ acmod_nfchans r5 = acmod_nfchans r4 /\ lfeon r5 = lfeon r4 /\ view_first r5 = view_first r4 /\
      view_second r5 = view_second r4 /\ view_rights r5 = view_rights r4)
      by (unfold held3, held2, held1, held0 in K5; split_and!; congruence).
    assert (E3 : view_second r4 = view_second r3) by (unfold held2 in K4; congruence).
    destruct E6 as (B1 & B2 & B3 & B4 & B5 & B6 & B7), E5 as (C1 & C2 & C3 & C4 & C5 & C6).
    split; [|split; [congruence|exact A6]]. unfold view_bsi. destruct x. cbn [x_mode x_lfeon x_first x_second x_rights x_extra x_addbsi] in *.
    f_equal; congruence.
Qed.

Lemma block_read n r x : 0 <= n <= 8 -> block_arrays r -> block_wf n x -> exists r', reads (parse_audioblk n) r (block_bits x) r' /\
  view_block n r' = x /\ block_arrays r'.
Proof.
  intros Hn [A1 A2] ((L1 & W1) & (L2 & W2) & W3). unfold parse_audioblk, block_bits. assert (F0 : fits 1 0) by done. assert (F1 : fits 1 1) by done.
  assert (N1 : Z.to_nat n = length (x_blksw x)) by (unfold len in L1; lia). assert (N2 : Z.to_nat n = length (x_dithflag x)) by (unfold len in L2; lia).
  set (r1 := r <| blksw := x_blksw x ++ drop (Z.to_nat n) (blksw r) |>).
  set (r2 := r1 <| dithflag := x_dithflag x ++ drop (Z.to_nat n) (dithflag r) |>).
  assert (R1 : reads (get_array 1 blksw (fun l b => b <| blksw := l |>) 0 (Z.to_nat n)) r (values_bits 1 (x_blksw x)) r1).
  { unfold r1. rewrite N1. apply (reads_array_all 1 blksw (fun l (b : ltn_ac3_header_audioblk_s) => b <| blksw := l |>)); try done; try lia. by intros []. }
  assert (R2 : reads (get_array 1 dithflag (fun l b => b <| dithflag := l |>) 0 (Z.to_nat n)) r1 (values_bits 1 (x_dithflag x)) r2).
  { unfold r2. rewrite N2. apply (reads_array_all 1 dithflag (fun l (b : ltn_ac3_header_audioblk_s) => b <| dithflag := l |>) _ r1); try done; [lia|by intros []|]. change (dithflag r1) with (dithflag r). lia. }
  assert (A3 : len (x_blksw x ++ drop (Z.to_nat n) (blksw r)) = 8) by (unfold len in *; rewrite length_app, length_drop; lia).
  assert (A4 : len (x_dithflag x ++ drop (Z.to_nat n) (dithflag r)) = 8) by (unfold len in *; rewrite length_app, length_drop; lia).
  destruct x as [w d [v|]]; cbn [x_blksw x_dithflag x_dynrng opt_bits opt_wf] in *; (eexists; split;
    [apply reads_bits_end; rewrite <- ?app_assoc; cbn [app]; eapply reads_cons; [exact R1|]; eapply reads_cons; [exact R2|]; repeat read_step|]).
  all: split; [|split; cbn; unfold const; done].
  all: unfold view_block; cbn; unfold const; rewrite N1 at 1; rewrite N2 at 2; by rewrite !take_app_length.
Qed.

Lemma blocks_read n xs : forall blks, 0 <= n <= 8 -> Forall block_arrays blks -> Forall (block_wf n) xs -> length blks = length xs ->
  forall c rest, klbs_wf c -> unread c = concat (map block_bits xs) ++ rest -> exists c' blks', parse_audioblks n c blks = Some (c', blks') /\
    klbs_wf c' /\ unread c' = rest /\ map (view_block n) blks' = xs /\ Forall block_arrays blks'.
Proof.
  induction xs as [|x xs IH]; intros [|b blks] Hn Ha Hx Hl c rest Hc Hu; try done; [by exists c, []|].
  apply Forall_cons_1 in Ha as [Hb Ha]. apply Forall_cons_1 in Hx as [Hx Hxs]. injection Hl as Hl. cbn [map concat] in Hu. rewrite <- app_assoc in Hu.
  destruct (block_read n b x Hn Hb Hx) as (b' & R & V & A). destruct (R c _ Hc Hu) as (c1 & E1 & Hc1 & Hu1).
  destruct (IH blks Hn Ha Hxs Hl c1 rest Hc1 Hu1) as (c2 & l & E2 & Hc2 & Hu2 & V2 & A2).
  exists c2, (b' :: l). cbn [parse_audioblks]. rewrite E1. step. rewrite E2. step. cbn [map]. rewrite V, V2. split_and!; try done. by constructor.
Qed.

Lemma nfchans_range m : fits 3 m -> 0 <= nfchans m <= 8.
Proof.
  unfold fits, nfchans. intros H. change (2 ^ Z.of_nat 3) with 8 in H.
  assert (Hm : m = 0 \/ m = 1 \/ m = 2 \/ m = 3 \/ m = 4 \/ m = 5 \/ m = 6 \/ m = 7) by lia. destruct Hm as [->|[->|[->|[->|[->|[->|[->| ->]]]]]]]; by vm_compute.
Qed.

Lemma parse_reads sf buf x rest : reading_wf x -> frame_arrays sf -> bytes buf -> 22 <= len buf < 2 ^ 31 ->
  buf_bits buf = reading_bits x ++ rest ->
  exists sf', ltntstools_ac3_header_parse sf buf (len buf) = Some (sf', 0) /\ view sf' = x /\
    acmod_nfchans (bsi sf') = nfchans (x_acmod (x_mode (x_bsi x))) /\ frame_arrays sf'.
Proof.
  intros (H1 & H2 & H3 & H4) [A1 A2 A3] Hb Hl Hbits. unfold ltntstools_ac3_header_parse. cbv zeta. zdec.
  assert (Hwf : klbs_wf (klbs_read_set_buffer buf (len buf))) by (apply set_buffer_wf; done || lia).
  assert (Hu : unread (klbs_read_set_buffer buf (len buf)) = reading_bits x ++ rest).
  { rewrite <- Hbits. unfold unread, klbs_read_set_buffer, klbs_write_set_buffer, klbs_init. cbn [bs_reg_used bs_reg bs_buflen bs_buflen_used bs_buf].
    change (Z.to_nat 0) with 0%nat. change (take 0 (byte_bits 0)) with (@nil bool). cbn [app]. rewrite drop_0. unfold len. rewrite Nat2Z.id. by rewrite take_ge. }
  unfold reading_bits in Hu. rewrite <- !app_assoc in Hu.
  destruct (sync_read (syncinfo sf) _ H1) as (si & R1 & V1). destruct (R1 _ _ Hwf Hu) as (c1 & -> & Hc1 & Hu1). step.
  destruct (bsi_read (bsi sf) _ H2 A1) as (b & R2 & V2 & N2 & A4). destruct (R2 _ _ Hc1 Hu1) as (c2 & -> & Hc2 & Hu2). step.
  rewrite N2. assert (H23 := H2). destruct H23 as ((_ & _ & Hm & _) & _).
  destruct (blocks_read _ (x_blocks x) (audioblk sf) (nfchans_range _ Hm) A3 H4) with (c := c2) (rest := rest) as (c3 & l & -> & _ & _ & V3 & A5);
    [congruence|done|done|]. step.
  eexists. split; [reflexivity|]. split; [|split; [exact N2|]].
  - unfold view. cbn [syncinfo bsi audioblk]. rewrite V1, V2, N2, V3. by destruct x.
  - constructor; cbn [bsi audioblk]; [done| |done]. rewrite <- H3, <- V3. by rewrite length_map.
Qed.

(** ** Every buffer is a header *)

(** Of any [m] bits a prefix is an encoding. *)
Definition total {A} (W : A -> Prop) (f : A -> list bool) (m : nat) : Prop :=
  forall bits, (m <= length bits)%nat -> exists a rest, W a /\ bits = f a ++ rest /\ (length bits <= m + length rest)%nat.

Lemma bits_of_bits_val l : bits_of (length l) (bits_val l) = l.
Proof.
  induction l as [|b l IH]; [done|]. cbn [length bits_of]. rewrite bits_val_cons. pose proof (bits_val_range l) as Hr.
  set (n := length l) in *. f_equal.
  - rewrite Z.testbit_odd, Z.shiftr_div_pow2, Z.div_add_l by lia. rewrite (Z.div_small (bits_val l)) by lia. by destruct b.
  - rewrite <- IH at 2. apply bits_of_ext. intros i Hi. rewrite <- (Z.mod_pow2_bits_low (_ + _) (Z.of_nat n)) by lia.
    rewrite Z.add_comm, Z_mod_plus_full. by rewrite Z.mod_small.
Qed.

Lemma total_field n : total (fits n) (bits_of n) n.
Proof.
  intros bits Hl. exists (bits_val (take n bits)), (drop n bits). pose proof (bits_val_range (take n bits)) as Hr.
  rewrite length_take, Nat.min_l in Hr by lia. split; [exact Hr|]. split; [|rewrite length_drop; lia].
  rewrite <- (take_drop n bits) at 1. f_equal. pose proof (bits_of_bits_val (take n bits)) as E. by rewrite length_take, Nat.min_l in E by lia.
Qed.

Lemma total_map {A B} (W : A -> Prop) f m (W' : B -> Prop) f' (h : A -> B) :
  total W f m -> (forall a, W a -> W' (h a) /\ f a = f' (h a)) -> total W' f' m.
Proof.
  intros H Hh bits Hl. destruct (H bits Hl) as (a & rest & Ha & -> & Hr). destruct (Hh a Ha) as [Hw E]. exists (h a), rest.
  split; [done|]. split; [by rewrite E|done].
Qed.

(** What follows may depend on what came before. *)
Lemma total_dep {A B} (W : A -> Prop) f m (W' : A -> B -> Prop) f' m' n : total W f m -> (forall a, W a -> total (W' a) (f' a) (m' a)) ->
  (forall a, W a -> (m + m' a <= n)%nat) -> total (fun p => W p.1 /\ W' p.1 p.2) (fun p => f p.1 ++ f' p.1 p.2) n.
Proof.
  intros H H' Hn bits Hl. destruct (H bits) as (a & rest & Ha & E & Hr).
  { destruct (H (replicate m false)) as (a & _ & Ha & _ & _); [by rewrite length_replicate|]. specialize (Hn a Ha). lia. }
  subst bits. rewrite length_app in *. specialize (Hn a Ha).
  destruct (H' a Ha rest) as (b & rest' & Hb & -> & Hr'); [lia|]. exists (a, b), rest'. split; [done|]. cbn [fst snd].
  split; [by rewrite <- app_assoc|]. rewrite length_app in *. lia.
Qed.

Lemma total_pair {A B} (W : A -> Prop) f m (W' : B -> Prop) f' m' : total W f m -> total W' f' m' ->
  total (fun p => W p.1 /\ W' p.2) (fun p => f p.1 ++ f' p.2) (m + m').
Proof. intros H H'. by apply (total_dep W f m (fun _ => W') (fun _ => f') (fun _ => m')). Qed.

Lemma total_weaken {A} (W : A -> Prop) f m m' : total W f m -> (m <= m')%nat -> total W f m'.
Proof. intros H Hm bits Hl. destruct (H bits) as (a & rest & Ha & E & Hr); [lia|]. exists a, rest. split; [done|]. split; [done|lia]. Qed.

Lemma total_opt {A} (W : A -> Prop) f m : total W f m -> total (opt_wf W) (opt_bits f) (S m).
Proof.
  intros H bits Hl. destruct (total_field 1 bits) as (v & rest & Hv & -> & Hr); [lia|]. rewrite length_app, length_bits_of in Hl.
  unfold fits in Hv. change (2 ^ Z.of_nat 1) with 2 in Hv. destruct (Z.eq_dec v 0) as [->|Hn].
  - exists None, rest. rewrite length_app, length_bits_of. split; [done|]. split; [done|lia].
  - replace v with 1 by lia. destruct (H rest) as (a & rest' & Ha & -> & Hr'); [lia|]. exists (Some a), rest'. split; [done|].
    cbn [opt_bits]. rewrite !length_app, !length_bits_of in *. split; [by rewrite <- app_assoc|lia].
Qed.

Lemma total_values n k : total (fun l => length l = k /\ Forall (fits n) l) (values_bits n) (k * n).
Proof.
  induction k as [|k IH]; intros bits Hl; [by exists [], bits|]. cbn [Nat.mul] in *.
  destruct (total_pair _ _ _ _ _ _ (total_field n) IH bits) as ([v l] & rest & [Hv [Hk Hf]] & E & Hr); [lia|].
  exists (v :: l), rest. cbn [fst snd] in *. split; [split; [cbn; lia|by constructor]|]. split; [exact E|lia].
Qed.

Lemma total_if (c : bool) : total (level_wf c) (fun v => if_bits c (bits_of 2 v)) (if c then 2 else 0).
Proof.
  destruct c; [apply total_field|]. intros bits Hl. exists 0, bits. split; [done|]. split; [done|lia].
Qed.

Lemma total_room : total room_wf room_bits 7.
Proof. apply (total_pair _ _ _ _ _ _ (total_field 5) (total_field 2)). Qed.

Lemma total_sync : total sync_wf sync_bits 40.
Proof.
  apply (total_map _ _ _ _ _ (fun '(a, (b, (c, d))) => {| x_syncword := a; x_crc1 := b; x_fscod := c; x_frmsizecod := d |})
    (total_pair _ _ _ _ _ _ (total_field 16) (total_pair _ _ _ _ _ _ (total_field 16) (total_pair _ _ _ _ _ _ (total_field 2) (total_field 6))))).
  by intros (a & b & c & d).
Qed.

Lemma total_channel : total channel_wf channel_bits 31.
Proof.
  apply (total_map _ _ _ _ _ (fun '(a, (b, (c, d))) => {| x_dialnorm := a; x_compr := b; x_langcod := c; x_audprod := d |})
    (total_pair _ _ _ _ _ _ (total_field 5) (total_pair _ _ _ _ _ _ (total_opt _ _ _ (total_field 8))
      (total_pair _ _ _ _ _ _ (total_opt _ _ _ (total_field 8)) (total_opt _ _ _ total_room))))).
  by intros (a & b & c & d).
Qed.

Lemma total_mix : total mix_wf mix_bits 14.
Proof.
  apply (total_map _ _ _ _ _ (fun '(a, (b, (c, (d, e)))) =>
      {| x_dmixmod := a; x_ltrtcmixlev := b; x_ltrtsurmixlev := c; x_lorocmixlev := d; x_lorosurmixlev := e |})
    (total_pair _ _ _ _ _ _ (total_field 2) (total_pair _ _ _ _ _ _ (total_field 3) (total_pair _ _ _ _ _ _ (total_field 3)
      (total_pair _ _ _ _ _ _ (total_field 3) (total_field 3)))))).
  by intros (a & b & c & d & e).
Qed.

Lemma total_modes : total modes_wf modes_bits 14.
Proof.
  apply (total_map _ _ _ _ _ (fun '(a, (b, (c, (d, e)))) =>
      {| x_dsurexmod := a; x_dheadphonmod := b; x_adconvtyp := c; x_xbsi2 := d; x_encinfo := e |})
    (total_pair _ _ _ _ _ _ (total_field 2) (total_pair _ _ _ _ _ _ (total_field 2) (total_pair _ _ _ _ _ _ (total_field 1)
      (total_pair _ _ _ _ _ _ (total_field 8) (total_field 1)))))).
  by intros (a & b & c & d & e).
Qed.

Lemma total_extra id : total (extra_wf id) extra_bits 30.
Proof.
  destruct (Z.eq_dec id 8) as [->|H8]; [|destruct (Z.eq_dec id 6) as [->|H6]].
  - apply (total_map _ _ _ _ _ (fun p => Timecodes p.1 p.2)
      (total_pair _ _ _ _ _ _ (total_opt _ _ _ (total_field 14)) (total_opt _ _ _ (total_field 14)))). by intros p Hp.
  - apply (total_map _ _ _ _ _ (fun p => Alternate p.1 p.2)
      (total_pair _ _ _ _ _ _ (total_opt _ _ _ total_mix) (total_opt _ _ _ total_modes))). by intros p Hp.
  - intros bits Hl. exists NoExtra, bits. split; [done|]. split; [done|lia].
Qed.

Lemma total_addbsi : total addbsi_wf addbsi_bits 518.
Proof.
  apply (total_map _ _ _ _ _ snd (total_dep (fits 6) (bits_of 6) 6 (fun v l => length l = Z.to_nat (v + 1) /\ Forall (fits 8) l)
    (fun _ => values_bits 8) (fun v => (Z.to_nat (v + 1) * 8)%nat) 518 (total_field 6) (fun v _ => total_values 8 (Z.to_nat (v + 1))) ltac:(unfold fits; cbn; lia))).
  intros [v l] [Hv [Hl Hf]]. cbn [fst snd] in *. unfold fits in Hv. change (2 ^ Z.of_nat 6) with 64 in Hv.
  assert (E : len l = v + 1) by (unfold len; lia). split; [split; [lia|done]|]. unfold addbsi_bits. by replace (len l - 1) with v by lia.
Qed.

Lemma total_block n : 0 <= n -> total (block_wf n) block_bits (Z.to_nat n * 1 + (Z.to_nat n * 1 + 9)).
Proof.
  intros Hn. apply (total_map _ _ _ _ _ (fun '(a, (b, c)) => {| x_blksw := a; x_dithflag := b; x_dynrng := c |})
    (total_pair _ _ _ _ _ _ (total_values 1 (Z.to_nat n)) (total_pair _ _ _ _ _ _ (total_values 1 (Z.to_nat n)) (total_opt _ _ _ (total_field 8))))).
  intros (a & b & c) ([Ha Fa] & [Hb Fb] & Hc). cbn [fst snd] in *. split; [|done]. unfold block_wf, len. cbn. rewrite Ha, Hb, Z2Nat.id by lia. done.
Qed.

Lemma total_list {A} (W : A -> Prop) f m k : total W f m -> total (fun l => length l = k /\ Forall W l) (fun l => concat (map f l)) (k * m).
Proof.
  intros H. induction k as [|k IH]; intros bits Hl; [by exists [], bits|]. cbn [Nat.mul] in *.
  destruct (total_pair _ _ _ _ _ _ H IH bits) as ([v l] & rest & [Hv [Hk Hf]] & E & Hr); [lia|].
  exists (v :: l), rest. cbn [fst snd] in *. split; [split; [cbn; lia|by constructor]|]. split; [exact E|lia].
Qed.

Lemma total_second mode : total (fun o => match o with Some c => mode = 0 /\ channel_wf c | None => mode <> 0 end)
  (fun o => match o with Some c => channel_bits c | None => [] end) (if mode =? 0 then 31 else 0).
Proof.
  destruct (Z.eqb_spec mode 0) as [->|Hm].
  - apply (total_map _ _ _ _ _ Some total_channel). by intros c Hc.
  - intros bits Hl. exists None, bits. split; [done|]. split; [done|lia].
Qed.

(** The bits of the mode's levels, and all that follows the mode. *)
Definition levels_length (mode : Z) : nat :=
  (if has_centre mode then 2 else 0) + ((if has_surround mode then 2 else 0) + (if mode =? 2 then 2 else 0)).

Definition body_length (mode : Z) : nat :=
  levels_length mode + (1 + (31 + ((if mode =? 0 then 31 else 0) + ((1 + 1) + (30 + (519 + 6 * (Z.to_nat (nfchans mode) * 1 + (Z.to_nat (nfchans mode) * 1 + 9)))))))).

Lemma body_length_max mode : fits 3 mode -> (body_length mode <= 701)%nat.
Proof.
  unfold fits. intros H. change (2 ^ Z.of_nat 3) with 8 in H.
  assert (Hm : mode = 0 \/ mode = 1 \/ mode = 2 \/ mode = 3 \/ mode = 4 \/ mode = 5 \/ mode = 6 \/ mode = 7) by lia.
  destruct Hm as [->|[->|[->|[->|[->|[->|[->| ->]]]]]]]; apply Nat.leb_le; by vm_compute.
Qed.

Lemma nfchans_nonneg m : 0 <= nfchans m.
Proof. unfold nfchans. destruct (Z.to_nat m) as [|[|[|[|[|[|[|[|[|k]]]]]]]]]; cbn [nth]; lia. Qed.

Lemma total_header : total reading_wf reading_bits 752.
Proof.
  set (body := fun ids : Z * (Z * Z) => total_pair _ _ _ _ _ _
    (total_pair _ _ _ _ _ _ (total_if (has_centre ids.2.2)) (total_pair _ _ _ _ _ _ (total_if (has_surround ids.2.2)) (total_if (ids.2.2 =? 2))))
    (total_pair _ _ _ _ _ _ (total_field 1) (total_pair _ _ _ _ _ _ total_channel (total_pair _ _ _ _ _ _ (total_second ids.2.2)
      (total_pair _ _ _ _ _ _ (total_pair _ _ _ _ _ _ (total_field 1) (total_field 1)) (total_pair _ _ _ _ _ _ (total_extra ids.1)
        (total_pair _ _ _ _ _ _ (total_opt _ _ _ total_addbsi) (total_list _ _ _ 6 (total_block _ (nfchans_nonneg ids.2.2)))))))))).
  pose proof (total_pair _ _ _ _ _ _ (total_field 5) (total_pair _ _ _ _ _ _ (total_field 3) (total_field 3))) as ids.
  pose proof (total_dep _ _ _ _ _ _ 712 ids (fun i _ => body i)) as rest.
  assert (Hmax : forall a : Z * (Z * Z), fits 5 a.1 /\ fits 3 a.2.1 /\ fits 3 a.2.2 -> (5 + (3 + 3) + body_length a.2.2 <= 712)%nat).
  { intros a (_ & _ & Ha). pose proof (body_length_max _ Ha). lia. }
  refine (total_map _ _ _ _ _ (fun '(sy, ((id, (bm, am)), ((c, (su, d)), (lf, (ch, (se, (rg, (ex, (ad, bl))))))))) =>
    {| x_sync := sy; x_blocks := bl; x_bsi := {|
         x_mode := {| x_bsid := id; x_bsmod := bm; x_acmod := am; x_cmixlev := c; x_surmixlev := su; x_dsurmod := d |};
         x_lfeon := lf; x_first := ch; x_second := se; x_rights := rg; x_extra := ex; x_addbsi := ad |} |})
    (total_pair _ _ _ _ _ _ total_sync (rest Hmax)) _).
  intros (sy & (id & bm & am) & (c & su & d) & lf & ch & se & [r1 r2] & ex & ad & bl). cbn [fst snd].
  intros (H1 & (H2 & H3 & H4) & (H5 & H6 & H7) & H8 & H9 & H10 & H11 & H12 & H13 & H14). split; [done|].
  unfold reading_bits, bsi_bits, mode_bits. cbn [x_sync x_bsi x_blocks x_mode x_bsid x_bsmod x_acmod x_cmixlev x_surmixlev x_dsurmod x_lfeon x_first x_second x_rights x_extra x_addbsi fst snd].
  by rewrite <- !app_assoc.
Qed.

(** ** The parser *)

(** The bits behind the first fields of the first block, read as five blocks. *)
Lemma five_blocks n bits : 0 <= n <= 5 -> (95 <= length bits)%nat ->
  exists l rest, length l = 5%nat /\ Forall (block_wf n) l /\ bits = concat (map block_bits l) ++ rest.
Proof.
  intros Hn Hb. destruct (total_list _ _ _ 5 (total_block n (proj1 Hn)) bits) as (l & rest & [H1 H2] & E & _); [lia|].
  by exists l, rest.
Qed.

Lemma nfchans_five m : fits 3 m -> 0 <= nfchans m <= 5.
Proof.
  intros H. pose proof (nfchans_nonneg m). split; [done|]. unfold fits in H. change (2 ^ Z.of_nat 3) with 8 in H.
  unfold nfchans. destruct (Z.to_nat m) as [|[|[|[|[|[|[|[|[|k]]]]]]]]]; cbn [nth]; lia.
Qed.

(** C25: The parser inverts the syntax of A/52 up to the first fields of the first
    audio block: a buffer that starts with the synchronisation information, the
    bit stream information of bsid 8 or 6, and the block switch and dither flags
    and the dynamic range of the first block, gives them back, whatever the
    structure held before and whatever follows, if 95 more bits follow, as they
    do in every whole frame; each optional field is read off the structure by
    its flag.  Nothing is said of the other five blocks, which the parser looks
    for in the wrong place. *)
Theorem ac3_header_roundtrip sf buf x rest : frame_wf x -> frame_arrays sf -> bytes buf -> 22 <= len buf < 2 ^ 31 ->
  buf_bits buf = frame_bits x ++ rest -> (95 <= length rest)%nat ->
  exists sf', ltntstools_ac3_header_parse sf buf (len buf) = Some (sf', 0) /\
    view_sync (syncinfo sf') = f_sync x /\ view_bsi (bsi sf') = f_bsi x /\
    view_block (nfchans (x_acmod (x_mode (f_bsi x)))) <$> head (audioblk sf') = Some (f_block x).
Proof.
  intros (H1 & H2 & _ & H4) Hs Hb Hl E H95. assert (Hm : fits 3 (x_acmod (x_mode (f_bsi x)))) by apply H2.
  destruct (five_blocks _ rest (nfchans_five _ Hm) H95) as (l & rest' & L & W & ->).
  destruct (parse_reads sf buf {| x_sync := f_sync x; x_bsi := f_bsi x; x_blocks := f_block x :: l |} rest')
    as (sf' & Hp & Hv & Hn & _); try done.
  - split; [done|]. split; [done|]. cbn [x_blocks x_bsi length]. split; [by rewrite L|]. by constructor.
  - rewrite E. unfold frame_bits, reading_bits. cbn [x_sync x_bsi x_blocks map concat]. by rewrite <- !app_assoc.
  - exists sf'. split; [done|]. split; [exact (f_equal x_sync Hv)|]. split; [exact (f_equal x_bsi Hv)|].
    apply (f_equal x_blocks) in Hv. unfold view in Hv. cbn [x_blocks] in Hv. rewrite Hn in Hv. cbn [x_bsi] in Hv.
    destruct (audioblk sf') as [|b bs]; [done|]. cbn [map head fmap option_fmap option_map] in *. by injection Hv as ->.
Qed.

Definition blank (v : Z) : ltn_ac3_header_syncframe_s :=
  {| syncinfo := {| syncword := v; crc1 := v; fscod := v; frmsizecod := v |};
     bsi := {| bsid := v; bsmod := v; acmod := v; acmod_nfchans := v; cmixlev := v; surmixlev := v; dsurmod := v; lfeon := v;
       dialnorm := v; compre := v; compr := v; langcode := v; langcod := v; audprodie := v; mixlevel := v; roomtyp := v;
       dialnorm2 := v; compr2e := v; compr2 := v; langcod2e := v; langcod2 := v; audprodi2e := v; mixlevel2 := v; roomtyp2 := v;
       copyrightb := v; origbs := v; timecod1e := v; timecod1 := v; timecod2e := v; timecod2 := v; addbsie := v; addbsil := v;
       addbsi := replicate 64 v; xbsi1e := v; dmixmod := v; ltrtcmixlev := v; ltrtsurmixlev := v; lorocmixlev := v;
       lorosurmixlev := v; xbsi2e := v; dsurexmod := v; dheadphonmod := v; adconvtyp := v; xbsi2 := v; encinfo := v |};
     audioblk := replicate 6 {| blksw := replicate 8 v; dithflag := replicate 8 v; dynrnge := v; dynrng := v |} |}.

Lemma blank_arrays v : frame_arrays (blank v).
Proof. constructor; try done. by repeat constructor. Qed.

(** A frame of five channels and the low frequency effects. *)
Definition sample_frame : list Z := [0x0b; 0x77; 0; 0; 0x1e; 0x40; 0xe9; 0xd8; 0xc0] ++ replicate 15 0.

Definition sample_header : ac3_frame :=
  {| f_sync := {| x_syncword := 0x0b77; x_crc1 := 0; x_fscod := 0; x_frmsizecod := 0x1e |};
     f_bsi := {|
       x_mode := {| x_bsid := 8; x_bsmod := 0; x_acmod := 7; x_cmixlev := 1; x_surmixlev := 0; x_dsurmod := 0 |};
       x_lfeon := 1; x_first := {| x_dialnorm := 27; x_compr := None; x_langcod := None; x_audprod := None |};
       x_second := None; x_rights := (1, 1); x_extra := Timecodes None None; x_addbsi := None |};
     f_block := {| x_blksw := replicate 5 0; x_dithflag := replicate 5 0; x_dynrng := None |} |}.

Lemma sample_wf : frame_wf sample_header.
Proof.
  split; [by vm_compute|]. split; [by vm_compute|]. split; [by left|].
  split_and!; try done; by repeat constructor.
Qed.

Lemma ac3_header_roundtrip_witness : exists sf',
  ltntstools_ac3_header_parse (blank 9) sample_frame 24 = Some (sf', 0) /\
  view_sync (syncinfo sf') = f_sync sample_header /\ view_bsi (bsi sf') = f_bsi sample_header /\
  view_block 5 <$> head (audioblk sf') = Some (f_block sample_header).
Proof.
  apply (ac3_header_roundtrip (blank 9) sample_frame sample_header (drop 80 (buf_bits sample_frame))).
  - exact sample_wf.
  - apply blank_arrays.
  - by apply bytes_check; vm_compute.
  - by vm_compute.
  - by vm_compute.
  - apply Nat.leb_le. by vm_compute.
Defined.

(** 94 bytes are enough: the parser reads any such buffer without leaving it,
    and what it finds is well formed and is what the buffer starts with, so that
    the header found is the only reading of the buffer. *)
Theorem ac3_parse_total sf buf : frame_arrays sf -> bytes buf -> 94 <= len buf < 2 ^ 31 ->
  exists sf' rest, ltntstools_ac3_header_parse sf buf (len buf) = Some (sf', 0) /\ reading_wf (view sf') /\
    buf_bits buf = reading_bits (view sf') ++ rest.
Proof.
  intros Hs Hb Hl. destruct (total_header (buf_bits buf)) as (x & rest & Hx & E & _); [rewrite length_buf_bits; unfold len in Hl; lia|].
  destruct (parse_reads sf buf x rest Hx Hs Hb) as (sf' & H1 & H2 & _); [lia|done|]. exists sf', rest. by rewrite H2.
Qed.

Lemma ac3_parse_total_witness : exists sf' rest,
  ltntstools_ac3_header_parse (blank 9) (replicate 94 0xff) 94 = Some (sf', 0) /\ buf_bits (replicate 94 0xff) = reading_bits (view sf') ++ rest.
Proof.
  destruct (ac3_parse_total (blank 9) (replicate 94 0xff)) as (sf' & rest & H1 & _ & H2).
  - apply blank_arrays.
  - by apply bytes_check; vm_compute.
  - by vm_compute.
  - exists sf', rest. split; [exact H1|exact H2].
Defined.

(** A buffer that is too short is refused and the structure left alone. *)
Example short_refused : ltntstools_ac3_header_parse (blank 9) (replicate 21 0) 21 = Some (blank 9, -1).
Proof. done. Qed.

(** The 22 bytes the parser asks for are not enough: the additional information
    alone may be 64 bytes long, and is read beyond the end of the buffer. *)
Example header_overrun : ltntstools_ac3_header_parse (blank 9) (replicate 22 0xff) 22 = None.
Proof. by vm_compute. Qed.

(** 94 bytes are the longest header. *)
Example longest_header :
  let frame n := [0x0b; 0x77; 0; 0; 0x1e; 0x47] ++ replicate n 0xff in
  ltntstools_ac3_header_parse (blank 9) (frame 87%nat) 93 = None /\
  (snd <$> ltntstools_ac3_header_parse (blank 9) (frame 88%nat) 94) = Some 0.
Proof. by vm_compute. Qed.
