(* ===== verification/Demux.v ===== *)
(** * The demultiplexer: src/demux.c, demux-pid.c, demux-types.h, and the query
    of streammodel.c it makes

    One PES extractor for each audio, video and SMPTE 2064 stream of a PAT; every
    packet goes to all of them.  A packet an extractor delivers is kept in the
    list of its PID until it is two seconds old, and handed to the user.
    [dx_calls]: what the user's callback was given, oldest first, with the PID.

    [None] is undefined behaviour or a call of exit or abort.  The extractors'
    calls during one write are made here after it: they do not touch the
    extractor.  The messages are left out. *)
From Stdlib Require Import ZArith Lia Bool.
From stdpp Require Import base numbers list option.
From coqutil Require Import Datatypes.RecordSettersUsingExistingGetters.
From S2P Require Import Prelude Ts Clock Stats Descriptor Pat PatServices PesExtractor.

Definition MAX_PIDS : Z := 8192.
Definition ITEM_EXPIRE_MS : Z := 2000.

Inductive payload_e := P_UNDEFINED | P_AUDIO | P_VIDEO | P_SMPTE2064.

Record demux_pid_pes_item_s := { di_pes : extracted_pes; di_ts : timeval }.

Record demux_pid_s := {
  dp_pidNr : Z;
  dp_payload : payload_e;
  dp_pesList : list demux_pid_pes_item_s;
  dp_pesListCount : Z;
  dp_pe : option pes_extractor_s
}.

(** [dx_cb]: a callback for PES packets is registered; [dx_pidIndex]: the
    positions, in the array of PIDs, of the pointers of the index. *)
Record demux_ctx_s := {
  dx_verbose : Z;
  dx_cb : bool;
  dx_pat : ltntstools_pat_s;
  dx_pids : list demux_pid_s;
  dx_pidIndex : list Z;
  dx_calls : list (Z * extracted_pes)
}.

Definition _getPIDContext (ctx : demux_ctx_s) (pidNr : Z) : option demux_pid_s :=
  dx_pids ctx !! Z.to_nat (Z.land pidNr 0x1fff).

Definition set_pid (ctx : demux_ctx_s) (pidNr : Z) (pid : demux_pid_s) : demux_ctx_s :=
  ctx <| dx_pids := <[Z.to_nat (Z.land pidNr 0x1fff) := pid]> (dx_pids ctx) |>.

(** ** One PID *)

Definition demux_pid_init (pidNr : Z) : demux_pid_s :=
  {| dp_pidNr := pidNr; dp_payload := P_UNDEFINED; dp_pesList := []; dp_pesListCount := 0; dp_pe := None |}.

Definition demux_pid_set_estype (pid : demux_pid_s) (estype : payload_e) : demux_pid_s := pid <| dp_payload := estype |>.
Definition demux_pid_set_payload (pid : demux_pid_s) (payload : payload_e) : demux_pid_s := pid <| dp_payload := payload |>.

Definition _itemAgeMs (item : demux_pid_pes_item_s) (now : timeval) : option Z :=
  d ← ltn_timeval_subtract_ms now (di_ts item); Some (u32 d).

(** The first item leaves the list. *)
Definition _itemFree (pid : demux_pid_s) : demux_pid_s :=
  pid <| dp_pesList := tail (dp_pesList pid) |> <| dp_pesListCount := u32 (dp_pesListCount pid - 1) |>.

(** The loop over the items [l] of the list, up to the first young one. *)
Fixpoint expire (now : timeval) (l : list demux_pid_pes_item_s) (pid : demux_pid_s) : option demux_pid_s :=
  match l with
  | [] => Some pid
  | e :: l =>
      age ← _itemAgeMs e now;
      if age <? ITEM_EXPIRE_MS then Some pid else expire now l (_itemFree pid)
  end.

Definition keep_pes (now : timeval) (pid : demux_pid_s) (pes : extracted_pes) : option demux_pid_s :=
  let pid := pid <| dp_pesList := dp_pesList pid ++ [{| di_pes := pes; di_ts := now |}] |>
                 <| dp_pesListCount := u32 (dp_pesListCount pid + 1) |> in
  expire now (dp_pesList pid) pid.

(** [ok]: the item is allocated. *)
Definition demux_pid_pe_callback (ok : bool) (now : timeval) (pidNr : Z) (ctx : demux_ctx_s) (pes : extracted_pes)
    : option demux_ctx_s :=
  if negb ok then Some ctx else
  pid ← _getPIDContext ctx pidNr;
  pid ← keep_pes now pid pes;
  let ctx := set_pid ctx pidNr pid in
  Some (if dx_cb ctx then ctx <| dx_calls := dx_calls ctx ++ [(dp_pidNr pid, pes)] |> else ctx).

(** The release of the list and of the extractor. *)
Definition demux_pid_uninit (pid : demux_pid_s) : option demux_pid_s :=
  pid ← (match dp_pe pid with
         | Some pe => _ ← ltntstools_pes_extractor_free pe; Some (pid <| dp_pe := None |>)
         | None => Some pid
         end);
  Some (foldl (fun pid _ => _itemFree pid) pid (dp_pesList pid)).

Definition ltntstools_demux_free (ctx : demux_ctx_s) : option demux_ctx_s :=
  pids ← mapM demux_pid_uninit (dx_pids ctx); Some (ctx <| dx_pids := pids |>).

(** ** The streams of a PAT *)

(** streammodel.c: the return value and the PID. *)
Definition ltntstools_streammodel_query_first_program_pcr_pid (pat : option ltntstools_pat_s) : option (Z * Z) :=
  match pat with
  | None => Some (-1, 0)
  | Some pat =>
      r ← find_in (fun p =>
            if pp_program_number p =? 0 then None else
            if pm_stream_count (pp_pmt p) =? 0 then None else
            if negb (pm_PCR_PID (pp_pmt p) =? 0) then Some (u16 (pm_PCR_PID (pp_pmt p))) else None)
          (pa_programs pat) (pa_program_count pat);
      Some (match r with Some pcrpid => (0, pcrpid) | None => (-1, 0) end)
  end.

(** What the environment answers when an extractor is allocated. *)
Record alloc_env := {
  ae_stats : nat -> bool;
  ae_items : nat;
  ae_pcr_items : nat;
  ae_tv : timeval;
  ae_now : Z;
  ae_env : env
}.

Section Memory.
Context (malloc : Z -> option (list Z)) (malloc_ok : Z -> bool).

(** An extractor for the stream joins the index.  Its allocation never returns
    an error.  [pcr]: it is told the PCR PID of the first program. *)
Definition add_extractor (A : Z -> alloc_env) (ctx : demux_ctx_s) (nr streamId : Z) (payload : payload_e) (pcr : bool)
    : option demux_ctx_s :=
  pid ← _getPIDContext ctx nr;
  pe ← ltntstools_pes_extractor_alloc malloc (ae_stats (A nr)) (ae_items (A nr)) (ae_pcr_items (A nr)) (ae_tv (A nr)) (ae_now (A nr))
         nr streamId true (-1) (-1);
  '(r, pcrpid) ← ltntstools_streammodel_query_first_program_pcr_pid (Some (dx_pat ctx));
  pe ← (if pcr && (0 <=? r)
        then '(pe, _) ← ltntstools_pes_extractor_set_pcr_pid (ae_env (A nr)) pe pcrpid; Some pe
        else Some pe);
  Some ((set_pid ctx nr (demux_pid_set_estype (pid <| dp_pe := Some pe |>) payload))
          <| dx_pidIndex := dx_pidIndex ctx ++ [Z.land nr 0x1fff] |>).

(** A PID that has an extractor ends the process. *)
Definition add_stream (A : Z -> alloc_env) (ctx : demux_ctx_s) (stream : ltntstools_pmt_entry_s) : option demux_ctx_s :=
  let nr := u16 (es_elementary_PID stream) in
  pid ← _getPIDContext ctx nr;
  match dp_pe pid with
  | Some _ => None
  | None =>
      if es_stream_type stream =? 0x06 then
        r ← ltntstools_descriptor_list_contains_smpte2064_registration (es_descr_list stream);
        if r =? 0 then Some ctx else add_extractor A ctx nr 0xbf P_SMPTE2064 false
      else
        audio ← ltntstools_pmt_entry_is_audio stream;
        if negb (audio =? 0) then add_extractor A ctx nr 0xc0 P_AUDIO true else
        if negb (ltntstools_is_ESPayloadType_Video (es_stream_type stream) =? 0) then add_extractor A ctx nr 0xe0 P_VIDEO true
        else Some ctx
  end.

Definition add_program (A : Z -> alloc_env) (ctx : demux_ctx_s) (program : ltntstools_pat_program_s) : option demux_ctx_s :=
  if pp_program_number program =? 0 then Some ctx else
  fold_in (add_stream A) (pm_streams (pp_pmt program)) (pm_stream_count (pp_pmt program)) ctx.

(** [ok i]: the allocations; [callbacks]: whether a callback for PES packets is
    among them, if they are given.  The inner [None] is the return value -1; a
    failed copy of the PAT is dereferenced. *)
Definition ltntstools_demux_alloc_from_pat (ok : nat -> bool) (A : Z -> alloc_env) (callbacks : option bool)
    (pat : option ltntstools_pat_s) : option (option demux_ctx_s) :=
  match pat with
  | None => Some None
  | Some pat =>
      if negb (ok 0%nat) then Some None else
      clone ← ltntstools_pat_clone (ok 1%nat) (Some pat);
      let cb := match callbacks with Some cb_pes => ok 2%nat && cb_pes | None => false end in
      ctx ← fold_in (add_program A) (pa_programs pat) (pa_program_count clone)
        {| dx_verbose := 0; dx_cb := cb; dx_pat := clone; dx_pids := map demux_pid_init (seqZ 0 MAX_PIDS);
           dx_pidIndex := []; dx_calls := [] |};
      Some (Some ctx)
  end.

(** ** Writing *)

(** What the environment answers during a write: to the extractor of a PID for
    each packet, and to the callback for the packets it is given. *)
Record demux_env := {
  de_env : Z -> Z -> env;
  de_now : Z -> Z -> Z;
  de_item : Z -> nat -> bool;
  de_clock : Z -> nat -> timeval
}.

Fixpoint callbacks (W : demux_env) (pidNr : Z) (i : nat) (l : list extracted_pes) (ctx : demux_ctx_s) : option demux_ctx_s :=
  match l with
  | [] => Some ctx
  | pes :: l =>
      ctx ← demux_pid_pe_callback (de_item W pidNr i) (de_clock W pidNr i) pidNr ctx pes;
      callbacks W pidNr (S i) l ctx
  end.

(** All packets to one extractor. *)
Definition write_pid (W : demux_env) (pkts : list Z) (packetCount : Z) (ctx : demux_ctx_s) (index : Z) : option demux_ctx_s :=
  entry ← _getPIDContext ctx index;
  let nr := dp_pidNr entry in
  pid ← _getPIDContext ctx nr;
  match dp_pe pid with
  | None => Some ctx
  | Some pe =>
      '(pe', _) ← ltntstools_pes_extractor_write malloc malloc_ok (de_env W nr) (de_now W nr) pe pkts (i32 packetCount);
      callbacks W nr 0 (drop (length (pe_calls pe)) (pe_calls pe')) (set_pid ctx nr (pid <| dp_pe := Some pe' |>))
  end.

Definition ltntstools_demux_write (W : demux_env) (ctx : option demux_ctx_s) (pkts : option (list Z)) (packetCount : Z)
    : option (option demux_ctx_s * Z) :=
  match ctx, pkts with
  | Some c, Some pkts =>
      if packetCount =? 0 then Some (ctx, -1) else
      c ← foldM (write_pid W pkts packetCount) (dx_pidIndex c) c;
      Some (Some c, packetCount)
  | _, _ => Some (ctx, -1)
  end.
End Memory.
