(* ===== verification/DemuxSpec.v ===== *)
(** * What the demultiplexer promises

    The extractors it makes for a PAT, and that it is the product of them: each
    works as if it were alone, and what it delivers is what the user gets and
    what the list of its PID keeps. *)
From Stdlib Require Import ZArith Lia Bool.
From stdpp Require Import base numbers list option.
From coqutil Require Import Datatypes.RecordSettersUsingExistingGetters.
From S2P Require Import Prelude Ts RingBuffer Clock Histogram Stats StatsSpec Descriptor Pat PatServices PesExtractor Demux.

(** ** The streams selected *)

(** What the library's queries say of a stream: audio by its type or by the
    descriptors of a private stream. *)
Definition audio_stream (s : ltntstools_pmt_entry_s) : bool :=
  match ltntstools_pmt_entry_is_audio s with Some r => negb (r =? 0) | None => false end.

Definition private_stream (s : ltntstools_pmt_entry_s) : bool := es_stream_type s =? 0x06.

(** The kind of a stream, independently of what is done with it: SMPTE 2064 in
    a private stream, audio, or video. *)
Definition stream_kind (s : ltntstools_pmt_entry_s) : option payload_e :=
  if private_stream s && existsb is_smpte2064_registration (dl_entries (es_descr_list s)) then Some P_SMPTE2064
  else if audio_stream s then Some P_AUDIO
  else if negb (ltntstools_is_ESPayloadType_Video (es_stream_type s) =? 0) then Some P_VIDEO
  else None.

(** The audio that gets no extractor: AC-3 and the like in private streams. *)
Definition private_audio (s : ltntstools_pmt_entry_s) : bool :=
  private_stream s && match stream_kind s with Some P_AUDIO => true | _ => false end.

Definition stream_id (k : payload_e) : Z :=
  match k with P_SMPTE2064 => 0xbf | P_AUDIO => 0xc0 | P_VIDEO => 0xe0 | P_UNDEFINED => 0 end.

(** The streams of the programs, the network table left out. *)
Definition pat_streams (pat : ltntstools_pat_s) : list ltntstools_pmt_entry_s :=
  concat (map (fun g => pmt_used (pp_pmt g)) (List.filter (fun g => negb (pp_program_number g =? 0)) (pat_used pat))).

Definition select (s : ltntstools_pmt_entry_s) : list (Z * payload_e) :=
  if private_audio s then [] else
  match stream_kind s with Some k => [(es_elementary_PID s, k)] | None => [] end.

(** The test of the code: a private stream is looked at for SMPTE 2064 only. *)
Lemma select_code s :
  select s = match (if es_stream_type s =? 0x06 then
                      if existsb is_smpte2064_registration (dl_entries (es_descr_list s)) then Some P_SMPTE2064 else None
                    else if negb (ltntstools_is_ESPayloadType_Audio (es_stream_type s) =? 0) then Some P_AUDIO
                    else if negb (ltntstools_is_ESPayloadType_Video (es_stream_type s) =? 0) then Some P_VIDEO
                    else None) with Some k => [(es_elementary_PID s, k)] | None => [] end.
Proof.
  unfold select, private_audio, stream_kind, private_stream. destruct (Z.eqb_spec (es_stream_type s) 6) as [E|E]; cbn [andb].
  - destruct (existsb _ _); [done|]. rewrite E. change (ltntstools_is_ESPayloadType_Video 6) with 0.
    change (0 =? 0) with true. cbn [negb]. by destruct (audio_stream s).
  - unfold audio_stream, ltntstools_pmt_entry_is_audio. rewrite (proj2 (Z.eqb_neq _ _) E). cbn [negb].
    by destruct (ltntstools_is_ESPayloadType_Audio (es_stream_type s) =? 0).
Qed.

Definition selected (l : list ltntstools_pmt_entry_s) : list (Z * payload_e) := concat (map select l).

(** A stream shares its PID with one that was selected before. *)
Fixpoint clash (sel : list (Z * payload_e)) (l : list ltntstools_pmt_entry_s) : bool :=
  match l with
  | [] => false
  | s :: l => existsb (fun p => p.1 =? es_elementary_PID s) sel || clash (sel ++ select s) l
  end.

Definition kind_of (nr : Z) (sel : list (Z * payload_e)) : option payload_e := snd <$> List.find (fun p => p.1 =? nr) sel.

(** ** Allocation *)

Lemma land_pid nr : 0 <= nr < 8192 -> Z.land nr 0x1fff = nr.
Proof. intros H. change 0x1fff with (Z.ones 13). rewrite Z.land_ones by lia. apply Z.mod_small. lia. Qed.

Lemma get_pid ctx nr : 0 <= nr < 8192 -> _getPIDContext ctx nr = dx_pids ctx !! Z.to_nat nr.
Proof. intros H. unfold _getPIDContext. by rewrite land_pid. Qed.

Lemma get_set ctx nr nr' d : 0 <= nr < 8192 -> 0 <= nr' < 8192 -> len (dx_pids ctx) = 8192 ->
  dx_pids (set_pid ctx nr d) !! Z.to_nat nr' = if nr' =? nr then Some d else dx_pids ctx !! Z.to_nat nr'.
Proof.
  intros H H' Hl. unfold set_pid. cbn. unfold const. rewrite land_pid by done. destruct (Z.eqb_spec nr' nr) as [->|Hn].
  - apply list_lookup_insert_eq. unfold len in Hl. lia.
  - apply list_lookup_insert_ne. lia.
Qed.

Lemma kind_of_app nr sel k : kind_of nr (sel ++ [(nr, k)]) = match kind_of nr sel with Some k' => Some k' | None => Some k end.
Proof.
  unfold kind_of. induction sel as [|[a b] sel IH]; cbn [app List.find fst]; [by rewrite Z.eqb_refl|]. by destruct (a =? nr).
Qed.

Lemma kind_of_other nr nr' sel k : nr' <> nr -> kind_of nr' (sel ++ [(nr, k)]) = kind_of nr' sel.
Proof.
  intros Hn. unfold kind_of. induction sel as [|[a b] sel IH]; cbn [app List.find fst].
  - destruct (Z.eqb_spec nr nr'); [by subst|done].
  - by destruct (a =? nr').
Qed.

Lemma kind_of_none nr sel : existsb (fun p => p.1 =? nr) sel = false -> kind_of nr sel = None /\ nr ∉ map fst sel.
Proof.
  unfold kind_of. induction sel as [|[a b] sel IH]; cbn [existsb List.find map fst]; [by split; [|apply not_elem_of_nil]|].
  destruct (Z.eqb_spec a nr) as [->|Hn]; [done|]. intros H. destruct (IH H) as [E Hi]. split; [done|].
  rewrite not_elem_of_cons. split; [congruence|done].
Qed.

Lemma kind_of_some nr sel : existsb (fun p => p.1 =? nr) sel = true -> is_Some (kind_of nr sel).
Proof.
  unfold kind_of. induction sel as [|[a b] sel IH]; cbn [existsb List.find fst]; [done|]. destruct (a =? nr); [by eexists|exact IH].
Qed.

Definition answers (A : Z -> alloc_env) : Prop :=
  forall nr, ae_stats (A nr) = (fun _ => true) /\ timeval_wf (ae_tv (A nr)) /\ (0 < ae_pcr_items (A nr))%nat.

Definition takes_pcr (k : payload_e) : bool := match k with P_SMPTE2064 => false | _ => true end.

Section Alloc.
Context (malloc : Z -> option (list Z)) (Hmalloc : malloc_gives malloc) (A : Z -> alloc_env) (HA : answers A) (pat : ltntstools_pat_s).

(** The extractor of a stream: its ring has 4 MiB and grows to 32; it is told
    the PCR PID of the first program that has one, the stream's or not. *)
Definition extractor_for (nr : Z) (k : payload_e) : option pes_extractor_s :=
  pe ← ltntstools_pes_extractor_alloc malloc (ae_stats (A nr)) (ae_items (A nr)) (ae_pcr_items (A nr)) (ae_tv (A nr)) (ae_now (A nr))
         nr (stream_id k) true 4194304 33554432;
  '(r, pcrpid) ← ltntstools_streammodel_query_first_program_pcr_pid (Some pat);
  if takes_pcr k && (0 <=? r) then fst <$> ltntstools_pes_extractor_set_pcr_pid (ae_env (A nr)) pe pcrpid else Some pe.

(** A PID before the first packet, with its extractor if it is selected. *)
Record fresh (nr : Z) (k : option payload_e) (d : demux_pid_s) : Prop := {
  fr_nr : dp_pidNr d = nr;
  fr_list : dp_pesList d = [];
  fr_count : dp_pesListCount d = 0;
  fr_payload : dp_payload d = default P_UNDEFINED k;
  fr_pe : dp_pe d = k ← k; extractor_for nr k
}.

Record built (cb : bool) (sel : list (Z * payload_e)) (ctx : demux_ctx_s) : Prop := {
  bu_index : dx_pidIndex ctx = map fst sel;
  bu_range : Forall (fun p => 0 <= p.1 < 8192) sel;
  bu_len : len (dx_pids ctx) = 8192;
  bu_pids : forall nr, 0 <= nr < 8192 -> exists d, dx_pids ctx !! Z.to_nat nr = Some d /\ fresh nr (kind_of nr sel) d;
  bu_pat : dx_pat ctx = pat;
  bu_cb : dx_cb ctx = cb;
  bu_calls : dx_calls ctx = [];
  bu_nodup : NoDup (map fst sel)
}.

Section Streams.
Context (Hpat : pat_ok pat).

Lemma extractor_for_made nr k : exists pe, extractor_for nr k = Some pe /\
  pe_pid pe = nr /\ pe_streamId pe = stream_id k /\ pe_cb pe = true /\ pe_calls pe = [].
Proof.
  destruct (HA nr) as (Ea & Htv & _). unfold extractor_for, ltntstools_pes_extractor_alloc. rewrite Ea.
  destruct (stats_alloc_spec 0 (ae_tv (A nr)) Htv) as (s & -> & _); [lia|]. step.
  unfold ltntstools_streammodel_query_first_program_pcr_pid. destruct Hpat.
  rewrite find_in_spec by (unfold LTNTSTOOLS_PAT_ENTRIES_MAX in *; lia). step.
  destruct (head _) as [pcr|]; step; [|rewrite andb_false_r; by eexists]. destruct (takes_pcr k && _); by eexists.
Qed.

Lemma add_extractor_spec cb sel ctx nr k : built cb sel ctx -> 0 <= nr < 8192 -> existsb (fun p => p.1 =? nr) sel = false ->
  exists ctx', add_extractor malloc A ctx nr (stream_id k) k (takes_pcr k) = Some ctx' /\ built cb (sel ++ [(nr, k)]) ctx'.
Proof.
  intros [B1 B2 B3 B4 B5 B6 B7 B8] Hn Hc. destruct (kind_of_none _ _ Hc) as [Kn Ki].
  unfold add_extractor. rewrite get_pid by done. destruct (B4 nr Hn) as (d & Ed & Fd). rewrite Ed, B5. step.
  destruct (extractor_for_made nr k) as (pe & Epe & _). assert (Ef := Epe). unfold extractor_for in Epe.
  change (ltntstools_pes_extractor_alloc malloc (ae_stats (A nr)) (ae_items (A nr)) (ae_pcr_items (A nr)) (ae_tv (A nr)) (ae_now (A nr))
    nr (stream_id k) true (-1) (-1)) with
   (ltntstools_pes_extractor_alloc malloc (ae_stats (A nr)) (ae_items (A nr)) (ae_pcr_items (A nr)) (ae_tv (A nr)) (ae_now (A nr))
    nr (stream_id k) true 4194304 33554432).
  apply bind_Some in Epe as (pe0 & -> & Epe). step. apply bind_Some in Epe as ([r pcrpid] & -> & Epe). step.
  assert ((if takes_pcr k && (0 <=? r) then '(pe, _) ← ltntstools_pes_extractor_set_pcr_pid (ae_env (A nr)) pe0 pcrpid; Some pe else Some pe0) = Some pe) as ->.
  { rewrite <- Epe. destruct (takes_pcr k && _); [|done]. by destruct (ltntstools_pes_extractor_set_pcr_pid _ _ _) as [[]|]. }
  step. rewrite land_pid by done. eexists. split; [reflexivity|]. constructor; try done.
  - cbn. unfold const. by rewrite B1, map_app.
  - apply Forall_app. split; [done|]. by apply Forall_singleton.
  - cbn. unfold const. unfold len in *. by rewrite length_insert.
  - intros nr' Hn'. change (dx_pids (?c <| dx_pidIndex := ?l |>)) with (dx_pids c). rewrite get_set by done.
    destruct (Z.eqb_spec nr' nr) as [->|Hne].
    + eexists. split; [done|]. rewrite kind_of_app, Kn. destruct Fd as [F1 F2 F3 _ _]. constructor; cbn; unfold const; done.
    + destruct (B4 nr' Hn') as (d' & Ed' & Fd'). exists d'. split; [done|]. by rewrite kind_of_other.
  - rewrite map_app. apply list.NoDup_app. split; [done|]. split; [|by apply list.NoDup_singleton]. intros x Hx Hx'. apply list_elem_of_singleton in Hx' as ->. done.
Qed.

Lemma add_stream_spec cb sel ctx s : built cb sel ctx -> pmt_entry_ok s -> 0 <= es_elementary_PID s < 8192 ->
  if existsb (fun p => p.1 =? es_elementary_PID s) sel then add_stream malloc A ctx s = None
  else exists ctx', add_stream malloc A ctx s = Some ctx' /\ built cb (sel ++ select s) ctx'.
Proof.
  intros Hb Hs Hn. unfold add_stream. rewrite u16_id by lia. rewrite get_pid by done.
  destruct (bu_pids _ _ _ Hb _ Hn) as (d & -> & Fd). step. rewrite (fr_pe _ _ _ Fd). destruct (existsb _ sel) eqn:Ec.
  - destruct (kind_of_some _ _ Ec) as [k ->]. cbn [mbind option_bind].
    by destruct (extractor_for_made (es_elementary_PID s) k) as (pe & -> & _).
  - destruct (kind_of_none _ _ Ec) as [-> _]. cbn [mbind option_bind].
    assert (Hstay : exists ctx', Some ctx = Some ctx' /\ built cb (sel ++ []) ctx') by (exists ctx; by rewrite app_nil_r).
    rewrite select_code. destruct (es_stream_type s =? 6) eqn:E6.
    + unfold ltntstools_descriptor_list_contains_smpte2064_registration. rewrite contains_spec by done. step.
      destruct (existsb is_smpte2064_registration _); [|exact Hstay]. by apply (add_extractor_spec cb sel ctx _ P_SMPTE2064).
    + unfold ltntstools_pmt_entry_is_audio. destruct (ltntstools_is_ESPayloadType_Audio (es_stream_type s) =? 0); cbn [negb].
      * rewrite E6. step. change (0 =? 0) with true. cbn [negb].
        destruct (ltntstools_is_ESPayloadType_Video (es_stream_type s) =? 0); cbn [negb]; [exact Hstay|]. by apply (add_extractor_spec cb sel ctx _ P_VIDEO).
      * step. change (1 =? 0) with false. cbn [negb]. by apply (add_extractor_spec cb sel ctx _ P_AUDIO).
Qed.

Lemma select_streams_spec cb l : forall sel ctx, built cb sel ctx -> Forall pmt_entry_ok l ->
  Forall (fun s => 0 <= es_elementary_PID s < 8192) l ->
  if clash sel l then foldM (add_stream malloc A) l ctx = None
  else exists ctx', foldM (add_stream malloc A) l ctx = Some ctx' /\ built cb (sel ++ selected l) ctx'.
Proof.
  induction l as [|s l IH]; intros sel ctx Hb Ho Hr; cbn [clash foldM]; [exists ctx; by rewrite app_nil_r|].
  apply Forall_cons_1 in Ho as [Hs Ho]. apply Forall_cons_1 in Hr as [Hn Hr].
  pose proof (add_stream_spec cb sel ctx s Hb Hs Hn) as H. destruct (existsb _ sel); cbn [orb]; [by rewrite H|].
  destruct H as (c & -> & Hc). step. specialize (IH (sel ++ select s) c Hc Ho Hr).
  unfold selected. cbn [map concat]. by rewrite app_assoc.
Qed.

End Streams.

Lemma add_programs_flat l ctx : Forall (fun g => pmt_ok (pp_pmt g)) l ->
  foldM (add_program malloc A) l ctx =
  foldM (add_stream malloc A) (concat (map (fun g => pmt_used (pp_pmt g)) (List.filter (fun g => negb (pp_program_number g =? 0)) l))) ctx.
Proof.
  intros H. revert ctx. induction H as [|g l Hg _ IH]; intros ctx; [done|]. cbn [foldM List.filter].
  change (add_program malloc A ctx g) with (if pp_program_number g =? 0 then Some ctx else
    fold_in (add_stream malloc A) (pm_streams (pp_pmt g)) (pm_stream_count (pp_pmt g)) ctx).
  destruct (pp_program_number g =? 0); cbn [negb]; [step; apply IH|]. cbn [map concat]. rewrite foldM_app.
  destruct Hg. rewrite fold_in_spec by (unfold LTNTSTOOLS_PMT_ENTRIES_MAX in *; lia). fold (pmt_used (pp_pmt g)).
  destruct (foldM _ (pmt_used (pp_pmt g)) ctx); [step; apply IH|done].
Qed.

Lemma built_start cb : built cb [] {| dx_verbose := 0; dx_cb := cb; dx_pat := pat; dx_pids := map demux_pid_init (seqZ 0 MAX_PIDS);
  dx_pidIndex := []; dx_calls := [] |}.
Proof.
  constructor; try done; cbn [dx_pids].
  - intros nr Hn. exists (demux_pid_init nr). split; [|done]. rewrite list_lookup_fmap, lookup_seqZ_lt by (unfold MAX_PIDS; lia).
    cbn [fmap option_fmap option_map]. do 2 f_equal. lia.
  - constructor.
Qed.
End Alloc.

Lemma alloc_built malloc A cb pat : malloc_gives malloc -> answers A -> pat_ok pat ->
  Forall (fun s => 0 <= es_elementary_PID s < 8192) (pat_streams pat) ->
  let r := ltntstools_demux_alloc_from_pat malloc (fun _ => true) A (Some cb) (Some pat) in
  if clash [] (pat_streams pat) then r = None
  else exists ctx, r = Some (Some ctx) /\ built malloc A pat cb (selected (pat_streams pat)) ctx.
Proof.
  intros Hmal HA Hpat Hr. cbv zeta. unfold ltntstools_demux_alloc_from_pat. cbn [negb andb ltntstools_pat_clone]. step.
  assert (Hp := Hpat). destruct Hp. rewrite fold_in_spec by (unfold LTNTSTOOLS_PAT_ENTRIES_MAX in *; lia).
  change (take (Z.to_nat (pa_program_count pat)) (pa_programs pat)) with (pat_used pat).
  assert (Hu : Forall (fun g => pmt_ok (pp_pmt g)) (pat_used pat)) by (by apply pat_used_ok).
  rewrite add_programs_flat by done. fold (pat_streams pat).
  assert (Hs : Forall pmt_entry_ok (pat_streams pat)).
  { unfold pat_streams. revert Hu. generalize (pat_used pat). intros l Hl. induction Hl as [|g l Hg _ IH]; [constructor|]. cbn [List.filter].
    destruct (negb _); [|done]. cbn [map concat]. apply Forall_app. split; [by apply pmt_used_ok|done]. }
  pose proof (select_streams_spec malloc A HA pat Hpat cb (pat_streams pat) [] _ (built_start malloc A pat cb) Hs Hr) as H.
  destruct (clash [] (pat_streams pat)); [by rewrite H|]. destruct H as (ctx & -> & H). step. by exists ctx.
Qed.


(** ** What an extractor delivers *)

(** The callback was called for [news] more. *)
Definition delivers (ctx ctx' : pes_extractor_s) (news : list extracted_pes) : Prop := pe_calls ctx' = pe_calls ctx ++ news.
Definition extends (ctx ctx' : pes_extractor_s) : Prop := exists news, delivers ctx ctx' news.

Lemma extends_same ctx ctx' : pe_calls ctx' = pe_calls ctx -> extends ctx ctx'.
Proof. intros E. exists []. unfold delivers. by rewrite E, app_nil_r. Qed.

Lemma extends_trans a b c : extends a b -> extends b c -> extends a c.
Proof. unfold extends, delivers. intros [n1 H1] [n2 H2]. exists (n1 ++ n2). by rewrite H2, H1, app_assoc. Qed.

(** Case analysis of a computation that succeeded. *)
Ltac inv_run :=
  repeat match goal with
  | H : Some _ = Some _ |- _ => injection H as H
  | H : None = Some _ |- _ => discriminate H
  | H : _ ≫= _ = Some _ |- _ => apply bind_Some in H as (? & ? & H)
  | H : (let '(_, _) := ?x in _) = Some _ |- _ => destruct x
  | H : (if ?b then _ else _) = Some _ |- _ => destruct b
  | H : match ?x with _ => _ end = Some _ |- _ => destruct x eqn:?
  | H : (_, _) = (_, _) |- _ => injection H as ? ?
  end; subst.

Lemma clean_ring_calls ctx ctx' : clean_ring ctx = Some ctx' -> pe_calls ctx' = pe_calls ctx.
Proof. unfold clean_ring. intros H. inv_run. done. Qed.

Lemma check_loss_calls ctx ctx' : check_loss ctx = Some ctx' -> pe_calls ctx' = pe_calls ctx.
Proof.
  unfold check_loss. cbv zeta. intros H. inv_run; [done|]. cbn. unfold const. match goal with H : clean_ring _ = _ |- _ => by rewrite (clean_ring_calls _ _ H) end.
Qed.

Lemma append_payload_calls malloc ctx pkt offset ctx' o : append_payload malloc ctx pkt offset = Some (ctx', o) -> pe_calls ctx' = pe_calls ctx.
Proof. unfold append_payload. cbv zeta. intros H. inv_run. done. Qed.

Lemma update_stats_calls E ctx pkt ctx' : update_stats E ctx pkt = Some ctx' -> pe_calls ctx' = pe_calls ctx.
Proof.
  unfold update_stats. cbv zeta. intros H. apply bind_Some in H as (stats & _ & H). injection H as <-.
  match goal with |- context [foldl _ ?c ?l] => destruct (notified c stats l) as [v Hv] end. rewrite Hv. done.
Qed.

Lemma order_output_extends ctx pes ctx' : order_output ctx pes = Some ctx' -> extends ctx ctx'.
Proof.
  unfold order_output. destruct (_list_find_oldest _) as [[item rest]|]; [|intros [= <-]; by apply extends_same]. cbv zeta. intros H. inv_run.
  unfold extends, delivers. cbn. unfold const. destruct (it_pes item) as [p|]; [by exists [p]|exists []; by rewrite app_nil_r].
Qed.

Lemma process_ring_extends malloc malloc_ok ctx ctx' r : _processRing malloc malloc_ok ctx = Some (ctx', r) -> extends ctx ctx'.
Proof.
  unfold _processRing. cbv zeta. intros H. inv_run; try by apply extends_same.
  unfold process_unit in H. cbv zeta in H.
  match type of H with context [if pe_largestRingFrame ?a <? ?b then ?c else ?d] =>
    set (c1 := if pe_largestRingFrame a <? b then c else d) in *; assert (E : pe_calls c1 = pe_calls ctx) by (unfold c1; by destruct (_ <? _)) end.
  clearbody c1. inv_run; [unfold extends, delivers; cbn; unfold const; rewrite E; by eexists| |by apply extends_same].
  match goal with H : order_output _ _ = Some _ |- _ => apply order_output_extends in H; eapply extends_trans; [|exact H]; by apply extends_same end.
Qed.

Lemma append_packet_extends malloc malloc_ok now ctx pkt ctx' : append_packet malloc malloc_ok now ctx pkt = Some ctx' -> extends ctx ctx'.
Proof.
  unfold append_packet. cbv zeta. intros H. destruct (_ =? 2); [injection H as <-; by apply extends_same|].
  destruct (_ && _); [injection H as <-; by apply extends_same|]. apply bind_Some in H as (c1 & E1 & H).
  assert (X1 : pe_calls c1 = pe_calls ctx).
  { destruct (_ && _) in E1; [|by injection E1 as <-]. by rewrite (clean_ring_calls _ _ E1). }
  clear E1. destruct (_ && _) in H.
  { inv_run. match goal with H : append_payload _ _ _ _ = _ |- _ => apply append_payload_calls in H; apply extends_same; congruence end. }
  destruct (_ && _) in H; [|injection H as <-; by apply extends_same]. apply bind_Some in H as ([c2 r2] & E2 & H).
  apply process_ring_extends in E2. apply bind_Some in H as (c3 & E3 & H). apply clean_ring_calls in E3. inv_run.
  unfold updatePcrList in *. inv_run.
  match goal with H : append_payload _ _ _ _ = _ |- _ => apply append_payload_calls in H end.
  eapply extends_trans; [by apply extends_same|]. eapply extends_trans; [exact E2|]. apply extends_same. cbn in *. unfold const in *. congruence.
Qed.

Lemma extractor_packet_extends malloc malloc_ok E now ctx pkt ctx' :
  extractor_packet malloc malloc_ok E now ctx pkt = Some ctx' -> extends ctx ctx'.
Proof.
  unfold extractor_packet. intros H. apply bind_Some in H as (c1 & E1 & H). apply update_stats_calls in E1.
  destruct (negb _); [injection H as <-; by apply extends_same|]. apply bind_Some in H as (c2 & E2 & H). apply check_loss_calls in E2.
  apply append_packet_extends in H. eapply extends_trans; [|exact H]. apply extends_same. congruence.
Qed.

Lemma extractor_write_extends malloc malloc_ok E now ctx pkts n ctx' r :
  ltntstools_pes_extractor_write malloc malloc_ok E now ctx pkts n = Some (ctx', r) -> extends ctx ctx'.
Proof.
  unfold ltntstools_pes_extractor_write. destruct (negb _); [intros [= <- _]; by apply extends_same|]. intros H. inv_run.
  match goal with H : extractor_loop _ _ ?f _ _ _ _ ?i _ = _ |- _ => revert H; generalize f i end. intros fuel. revert ctx.
  induction fuel as [|fuel IH]; intros ctx i H; [done|]. cbn [extractor_loop] in H. destruct (_ <=? i); [injection H as <-; by apply extends_same|].
  apply bind_Some in H as (pkt & _ & H). apply bind_Some in H as (c & E1 & H). apply extractor_packet_extends in E1.
  eapply extends_trans; [exact E1|]. by eapply IH.
Qed.

(** ** Writing *)

(** What a PID holds after its extractor delivered [all]: the youngest of them,
    counted. *)
Record keeps (all : list extracted_pes) (d : demux_pid_s) : Prop := {
  ke_suffix : exists old, all = old ++ map di_pes (dp_pesList d);
  ke_count : dp_pesListCount d = len (dp_pesList d);
  ke_last : all <> [] -> dp_pesList d <> [];
  ke_times : Forall (fun e => timeval_wf (di_ts e)) (dp_pesList d)
}.

Lemma age_defined e now : timeval_wf now -> timeval_wf (di_ts e) -> exists a, _itemAgeMs e now = Some a.
Proof. intros H1 H2. unfold _itemAgeMs. destruct (subtract_ms_defined now (di_ts e) H1 H2) as [d ->]. step. by eexists. Qed.

Lemma age_self pes now : timeval_wf now -> _itemAgeMs {| di_pes := pes; di_ts := now |} now = Some 0.
Proof.
  intros [H1 H2]. unfold _itemAgeMs, ltn_timeval_subtract_ms, ltn_timeval_to_ms. cbn [di_ts].
  assert (0 <= Z.quot (tv_usec now) 1000 < 1000) by (destruct H2; zlia). unfold i64_ok.
  zdec. cbn [andb]. step. zdec. cbn [andb]. step. replace (_ - _) with 0 by lia. done.
Qed.

(** The newest item is young, so that the list does not empty. *)
Lemma expire_spec now l new pid : timeval_wf now -> Forall (fun e => timeval_wf (di_ts e)) l -> di_ts new = now ->
  dp_pesList pid = l ++ [new] -> dp_pesListCount pid = len (l ++ [new]) -> len (l ++ [new]) < 2 ^ 32 ->
  exists old l', l = old ++ l' /\ expire now (l ++ [new]) pid =
    Some (pid <| dp_pesList := l' ++ [new] |> <| dp_pesListCount := len (l' ++ [new]) |>).
Proof.
  intros Hn Hl Hnew. revert pid. induction Hl as [|e l He Hl IH]; intros pid E Ec Hlen; cbn [app expire].
  - destruct new as [pes ts]. cbn in Hnew. subst ts. rewrite age_self by done. step. change (0 <? ITEM_EXPIRE_MS) with true. cbv iota.
    exists [], []. split; [done|]. destruct pid; cbn in *; subst; reflexivity.
  - destruct (age_defined e now Hn He) as [a ->]. step. destruct (a <? ITEM_EXPIRE_MS).
    + exists [], (e :: l). split; [done|]. destruct pid; cbn in *; subst; reflexivity.
    + cbn [app] in E, Ec, Hlen. rewrite len_cons in Ec, Hlen. pose proof (len_nonneg (l ++ [new])).
      destruct (IH (_itemFree pid)) as (old & l' & -> & Eq).
      * cbn. unfold const. by rewrite E.
      * cbn. unfold const. rewrite Ec, u32_id; lia.
      * lia.
      * exists (e :: old), l'. split; [done|]. rewrite Eq. destruct pid; cbn in *; subst; reflexivity.
Qed.

Lemma keep_pes_spec all d pes now : keeps all d -> timeval_wf now -> len all < 2 ^ 31 ->
  exists d', keep_pes now d pes = Some d' /\ keeps (all ++ [pes]) d' /\ dp_pe d' = dp_pe d /\ dp_pidNr d' = dp_pidNr d.
Proof.
  intros [[old H1] H2 H3 H4] Hn Hl. unfold keep_pes. cbv zeta. pose proof (len_nonneg (dp_pesList d)).
  assert (Hd : len (dp_pesList d) <= len all) by (rewrite H1, len_app; unfold len; rewrite length_map; lia).
  set (new := {| di_pes := pes; di_ts := now |}). rewrite H2, u32_id by lia.
  set (p := d <| dp_pesList := dp_pesList d ++ [new] |> <| dp_pesListCount := len (dp_pesList d) + 1 |>).
  change (dp_pesList p) with (dp_pesList d ++ [new]).
  destruct (expire_spec now (dp_pesList d) new p Hn H4) as (o & l' & El & ->); try done.
  { by rewrite len_app. }
  { rewrite len_app. change (len [new]) with 1. lia. }
  eexists. split; [reflexivity|]. split; [|done]. constructor; cbn; unfold const.
  - exists (old ++ map di_pes o). rewrite H1, El, !map_app, <- !app_assoc. done.
  - done.
  - intros _. by destruct l'.
  - apply Forall_app. split; [|by apply Forall_singleton]. rewrite El in H4. by apply Forall_app in H4 as [_ ?].
Qed.

Definition calls_of (pe : option pes_extractor_s) : list extracted_pes := match pe with Some pe => pe_calls pe | None => [] end.

(** What the user was given for a PID. *)
Definition given (nr : Z) (ctx : demux_ctx_s) : list extracted_pes := map snd (List.filter (fun c => c.1 =? nr) (dx_calls ctx)).

(** [P]: the extractors of the PIDs.  [D]: what they delivered; what is being
    handed on is not yet in it. *)
Record holds (P : Z -> option pes_extractor_s) (D : Z -> list extracted_pes) (ctx : demux_ctx_s) : Prop := {
  ho_len : len (dx_pids ctx) = 8192;
  ho_pid : forall nr, 0 <= nr < 8192 -> exists d, dx_pids ctx !! Z.to_nat nr = Some d /\ dp_pidNr d = nr /\ dp_pe d = P nr /\ keeps (D nr) d;
  ho_given : forall nr, given nr ctx = D nr;
  ho_cb : dx_cb ctx = true
}.

Definition upd {T} (nr : Z) (v : T) (f : Z -> T) : Z -> T := fun n => if n =? nr then v else f n.

Definition env_ok (W : demux_env) : Prop := (forall nr i, de_item W nr i = true) /\ forall nr i, timeval_wf (de_clock W nr i).

Lemma callback_spec now nr P D ctx pes : holds P D ctx -> 0 <= nr < 8192 -> timeval_wf now -> len (D nr) < 2 ^ 31 ->
  exists ctx', demux_pid_pe_callback true now nr ctx pes = Some ctx' /\ holds P (upd nr (D nr ++ [pes]) D) ctx' /\ dx_pidIndex ctx' = dx_pidIndex ctx.
Proof.
  intros [H1 H2 H3 H4] Hn Hnow Hl. unfold demux_pid_pe_callback. cbn [negb]. rewrite get_pid by done.
  destruct (H2 nr Hn) as (d & -> & E1 & E2 & Hk). step. destruct (keep_pes_spec _ _ pes now Hk Hnow Hl) as (d' & -> & Hk' & E3 & E4). step.
  change (dx_cb (set_pid ctx nr d')) with (dx_cb ctx). rewrite H4. eexists. split; [reflexivity|]. split; [|done]. constructor; try done.
  - cbn. unfold const, len in *. by rewrite length_insert.
  - intros n Hn'. change (dx_pids (?c <| dx_calls := ?l |>)) with (dx_pids c). rewrite get_set by done. unfold upd.
    destruct (Z.eqb_spec n nr) as [->|Hne]; [|by apply H2]. exists d'. split_and!; congruence || done.
  - intros n. unfold given, upd. cbn. unfold const. rewrite filter_app, map_app. rewrite E4, E1. cbn [List.filter fst].
    specialize (H3 n). unfold given in H3. rewrite (Z.eqb_sym n nr). destruct (Z.eqb_spec nr n) as [->|Hne]; cbn [map snd]; rewrite H3; [done|by rewrite app_nil_r].
Qed.

Lemma holds_ext P P' D D' ctx : (forall n, P n = P' n) -> (forall n, D n = D' n) -> holds P D ctx -> holds P' D' ctx.
Proof.
  intros HP HD [H1 H2 H3 H4]. constructor; try done; [|intros n; by rewrite <- HD].
  intros n Hn. destruct (H2 n Hn) as (d & ?). exists d. by rewrite <- HP, <- HD.
Qed.

Lemma callbacks_spec W nr P news : forall i D ctx, env_ok W -> 0 <= nr < 8192 -> holds P D ctx -> len (D nr) + len news < 2 ^ 31 ->
  exists ctx', callbacks W nr i news ctx = Some ctx' /\ holds P (upd nr (D nr ++ news) D) ctx' /\ dx_pidIndex ctx' = dx_pidIndex ctx.
Proof.
  induction news as [|pes news IH]; intros i D ctx HW Hn H Hl; cbn [callbacks].
  - exists ctx. split_and!; try done. apply (holds_ext P P D); [done| |done]. intros n. unfold upd. rewrite app_nil_r.
    by destruct (Z.eqb_spec n nr) as [->|].
  - rewrite len_cons in Hl. pose proof (len_nonneg news). rewrite (proj1 HW nr i).
    destruct (callback_spec (de_clock W nr i) nr P D ctx pes H Hn (proj2 HW nr i)) as (c & -> & Hc & Ei); [lia|]. step.
    destruct (IH (S i) _ c HW Hn Hc) as (ctx' & -> & Hc' & Ei').
    { unfold upd. rewrite Z.eqb_refl, len_app. change (len [pes]) with 1. lia. }
    exists ctx'. split_and!; [done| |congruence]. revert Hc'. apply holds_ext; [done|]. intros n. unfold upd. rewrite Z.eqb_refl.
    destruct (n =? nr); [by rewrite <- app_assoc|done].
Qed.

(** The PIDs hold the extractors [P], and what these delivered was given. *)
Definition agrees (P : Z -> option pes_extractor_s) : demux_ctx_s -> Prop := holds P (fun n => calls_of (P n)).

Section Product.
Context (malloc : Z -> option (list Z)) (malloc_ok : Z -> bool).

Definition write_alone (W : demux_env) (ps : list (list Z)) (nr : Z) (pe : pes_extractor_s) : option pes_extractor_s :=
  '(pe', _) ← ltntstools_pes_extractor_write malloc malloc_ok (de_env W nr) (de_now W nr) pe (concat ps) (len ps); Some pe'.

Lemma write_alone_extends W ps nr pe pe' : write_alone W ps nr pe = Some pe' -> extends pe pe'.
Proof. unfold write_alone. intros H. apply bind_Some in H as ([c r] & E & H). injection H as <-. by apply extractor_write_extends in E. Qed.

Lemma write_pid_spec W ps P nr ctx pe pe' : env_ok W -> len ps < 2 ^ 31 -> 0 <= nr < 8192 -> agrees P ctx -> P nr = Some pe ->
  write_alone W ps nr pe = Some pe' -> len (pe_calls pe') < 2 ^ 31 ->
  exists ctx', write_pid malloc malloc_ok W (concat ps) (len ps) ctx nr = Some ctx' /\ agrees (upd nr (Some pe') P) ctx' /\
    dx_pidIndex ctx' = dx_pidIndex ctx.
Proof.
  intros HW Hps Hn [H1 H2 H3 H4] EP Ew Hl. destruct (write_alone_extends _ _ _ _ _ Ew) as [news En]. unfold delivers in En.
  unfold write_pid. rewrite get_pid by done. destruct (H2 nr Hn) as (d & Ed & E1 & E2 & Hk). rewrite Ed. step. rewrite E1, get_pid, Ed by done. step.
  rewrite E2, EP. pose proof (len_nonneg ps). rewrite i32_id by lia. unfold write_alone in Ew.
  apply bind_Some in Ew as ([pe2 r] & -> & Ew). injection Ew as ->. step. rewrite En, drop_app_length.
  destruct (callbacks_spec W nr (upd nr (Some pe') P) news 0 (fun n => calls_of (P n)) (set_pid ctx nr (d <| dp_pe := Some pe' |>)) HW Hn)
    as (ctx' & -> & HF & Ei).
  - constructor; try done.
    + cbn. unfold const, len in *. by rewrite length_insert.
    + intros n Hn'. rewrite get_set by done. unfold upd. destruct (Z.eqb_spec n nr) as [->|]; [|by apply H2].
      eexists. split; [done|]. split; [done|]. split; [done|]. by destruct Hk.
  - cbv beta. rewrite EP. cbn [calls_of]. rewrite En, len_app in Hl. done.
  - exists ctx'. split_and!; [done| |done]. revert HF. apply holds_ext; [done|]. intros n. unfold upd.
    destruct (Z.eqb_spec n nr) as [->|]; [|done]. rewrite EP. cbn [calls_of]. by rewrite En.
Qed.

(** The extractors after a write. *)
Definition next (l : list Z) (W : demux_env) (ps : list (list Z)) (P : Z -> option pes_extractor_s) (nr : Z) : option pes_extractor_s :=
  if decide (nr ∈ l) then pe ← P nr; write_alone W ps nr pe else P nr.

Lemma write_pids_spec W ps (HW : env_ok W) (Hps : len ps < 2 ^ 31) l : forall P ctx, NoDup l -> agrees P ctx ->
  Forall (fun nr => 0 <= nr < 8192 /\ exists pe pe', P nr = Some pe /\ write_alone W ps nr pe = Some pe' /\ len (pe_calls pe') < 2 ^ 31) l ->
  exists ctx', foldM (write_pid malloc malloc_ok W (concat ps) (len ps)) l ctx = Some ctx' /\ agrees (next l W ps P) ctx' /\
    dx_pidIndex ctx' = dx_pidIndex ctx.
Proof.
  induction l as [|nr l IH]; intros P ctx Hd HP Hl; cbn [foldM].
  - by exists ctx.
  - apply list.NoDup_cons in Hd as [Hnr Hd]. apply Forall_cons_1 in Hl as [(Hn & pe & pe' & EP & Ew & Hc) Hl].
    destruct (write_pid_spec W ps P nr ctx pe pe' HW Hps Hn HP EP Ew Hc) as (c & -> & Hc' & Ei). step.
    destruct (IH (upd nr (Some pe') P) c Hd Hc') as (ctx' & -> & H & Ei').
    + apply list.Forall_forall. intros n Hin. destruct (proj1 (list.Forall_forall _ _) Hl n Hin) as (Hn' & a & a' & E & E').
      split; [done|]. exists a, a'. split; [|done]. unfold upd. by destruct (Z.eqb_spec n nr) as [->|].
    + exists ctx'. split_and!; [done| |congruence].
      assert (Heq : forall n, next l W ps (upd nr (Some pe') P) n = next (nr :: l) W ps P n).
      { intros n. unfold next, upd. destruct (Z.eqb_spec n nr) as [->|Hne].
        - rewrite decide_False by done. rewrite decide_True by (by left). by rewrite EP.
        - destruct (decide (n ∈ l)) as [Hi|Hi]; [rewrite decide_True by (by right)|rewrite decide_False by (by rewrite not_elem_of_cons)]; done. }
      revert H. apply holds_ext; [exact Heq|]. intros n. by rewrite Heq.
Qed.

(** Writes of whole packets, one after the other. *)
Definition demux_call : Type := demux_env * list (list Z).

Definition demux_run (ctx : demux_ctx_s) (calls : list demux_call) : option demux_ctx_s :=
  foldM (fun ctx '(W, ps) => '(c, _) ← ltntstools_demux_write malloc malloc_ok W (Some ctx) (Some (concat ps)) (len ps); c) calls ctx.

(** The same writes for one extractor. *)
Definition run_alone (nr : Z) (calls : list demux_call) (pe : pes_extractor_s) : option pes_extractor_s :=
  extractor_run malloc malloc_ok pe (map (fun '(W, ps) => (de_env W nr, de_now W nr, ps)) calls).

Definition demux_call_ok (c : demux_call) : Prop := env_ok c.1 /\ c.2 <> [] /\ len c.2 < 2 ^ 31.

Lemma run_alone_cons nr W ps calls pe : run_alone nr ((W, ps) :: calls) pe = pe ← write_alone W ps nr pe; run_alone nr calls pe.
Proof. unfold run_alone, write_alone, extractor_run. done. Qed.

Lemma run_alone_extends nr calls : forall pe pe', run_alone nr calls pe = Some pe' -> extends pe pe'.
Proof.
  induction calls as [|[W ps] calls IH]; intros pe pe'; [intros [= <-]; by apply extends_same|]. rewrite run_alone_cons.
  intros H. apply bind_Some in H as (c & E & H). apply write_alone_extends in E. eapply extends_trans; [exact E|by apply IH].
Qed.

Lemma demux_run_spec calls : forall P ctx, Forall demux_call_ok calls -> agrees P ctx -> NoDup (dx_pidIndex ctx) ->
  Forall (fun nr => 0 <= nr < 8192 /\ exists pe pe', P nr = Some pe /\ run_alone nr calls pe = Some pe' /\ len (pe_calls pe') < 2 ^ 31) (dx_pidIndex ctx) ->
  exists ctx', demux_run ctx calls = Some ctx' /\ dx_pidIndex ctx' = dx_pidIndex ctx /\
    agrees (fun nr => if decide (nr ∈ dx_pidIndex ctx) then pe ← P nr; run_alone nr calls pe else P nr) ctx'.
Proof.
  induction calls as [|[W ps] calls IH]; intros P ctx Hok HP Hd Hl.
  - exists ctx. split_and!; try done. revert HP. assert (Heq : forall n, P n = if decide (n ∈ dx_pidIndex ctx) then pe ← P n; run_alone n [] pe else P n).
    { intros n. destruct (decide _); [|done]. by destruct (P n). }
    apply holds_ext; [exact Heq|]. intros n. by rewrite <- Heq.
  - apply Forall_cons_1 in Hok as [(HW & Hne & Hps) Hok]. cbn [fst snd] in *. unfold demux_run. cbn [foldM]. unfold ltntstools_demux_write.
    assert (0 < len ps) by (destruct ps; [done|]; rewrite len_cons; pose proof (len_nonneg ps); lia).
    destruct (Z.eqb_spec (len ps) 0) as [|_]; [lia|].
    destruct (write_pids_spec W ps HW Hps (dx_pidIndex ctx) P ctx Hd HP) as (c & -> & Hc & Ei).
    { eapply List.Forall_impl; [|exact Hl]. intros nr (Hn & pe & pe' & E & Er & Hb). split; [done|]. rewrite run_alone_cons in Er.
      apply bind_Some in Er as (pe1 & E1 & Er). exists pe, pe1. split_and!; [done|done|]. apply run_alone_extends in Er as [news En].
      unfold delivers in En. rewrite En, len_app in Hb. pose proof (len_nonneg news). lia. }
    step. destruct (IH (next (dx_pidIndex ctx) W ps P) c Hok Hc) as (ctx' & E & Ei' & HF); [by rewrite Ei| |].
    { rewrite Ei. apply list.Forall_forall. intros nr Hin. destruct (proj1 (list.Forall_forall _ _) Hl nr Hin) as (Hn & pe & pe' & EP & Er & Hb).
      split; [done|]. rewrite run_alone_cons in Er. apply bind_Some in Er as (pe1 & E1 & Er). exists pe1, pe'. split_and!; [|done|done].
      unfold next. rewrite decide_True by done. by rewrite EP. }
    exists ctx'. split_and!; [exact E|congruence|]. rewrite Ei in HF.
    assert (Heq : forall n, (if decide (n ∈ dx_pidIndex ctx) then pe ← next (dx_pidIndex ctx) W ps P n; run_alone n calls pe else next (dx_pidIndex ctx) W ps P n) =
      (if decide (n ∈ dx_pidIndex ctx) then pe ← P n; run_alone n ((W, ps) :: calls) pe else P n)).
    { intros n. unfold next. destruct (decide _); [|done]. destruct (P n) as [pe|]; [|done]. cbn [mbind option_bind]. by rewrite run_alone_cons. }
    revert HF. apply holds_ext; [exact Heq|]. intros n. by rewrite Heq.
Qed.
End Product.

(** The extractor of a PID of an array. *)
Definition extractor_of (ctx : demux_ctx_s) (nr : Z) : option pes_extractor_s :=
  if (0 <=? nr) && (nr <? 8192) then d ← _getPIDContext ctx nr; dp_pe d else None.

Lemma extractor_of_pid ctx nr d : 0 <= nr < 8192 -> _getPIDContext ctx nr = Some d -> extractor_of ctx nr = dp_pe d.
Proof. intros H E. unfold extractor_of. zdec. cbn [andb]. by rewrite E. Qed.

Section Built.
Context (malloc : Z -> option (list Z)) (A : Z -> alloc_env) (HA : answers A) (pat : ltntstools_pat_s) (Hpat : pat_ok pat).

Lemma built_extractor cb sel ctx nr : built malloc A pat cb sel ctx -> 0 <= nr < 8192 ->
  extractor_of ctx nr = (k ← kind_of nr sel; extractor_for malloc A pat nr k).
Proof.
  intros H Hn. destruct (bu_pids _ _ _ _ _ _ H nr Hn) as (d & Ed & F). rewrite (extractor_of_pid ctx nr d) by (done || by rewrite get_pid). apply F.
Qed.

Lemma built_agrees sel ctx : built malloc A pat true sel ctx -> agrees (extractor_of ctx) ctx.
Proof.
  intros Hb. assert (H := Hb). destruct H as [B1 B2 B3 B4 B5 B6 B7 B8].
  assert (Hnone : forall nr, calls_of (extractor_of ctx nr) = []).
  { intros nr. destruct (decide (0 <= nr < 8192)) as [Hn|Hn].
    - rewrite (built_extractor _ _ _ _ Hb Hn). destruct (kind_of nr sel) as [k|]; [|done]. cbn [mbind option_bind].
      by destruct (extractor_for_made malloc A HA pat Hpat nr k) as (pe & -> & _ & _ & _ & ?).
    - unfold extractor_of. replace ((0 <=? nr) && (nr <? 8192)) with false by (symmetry; lia). done. }
  constructor; try done.
  - intros nr Hn. destruct (B4 nr Hn) as (d & Ed & [F1 F2 F3 F4 F5]). exists d. rewrite Hnone. split_and!; try done.
    + by rewrite (extractor_of_pid ctx nr d) by (done || by rewrite get_pid).
    + constructor; rewrite ?F2, ?F3; try done. by exists [].
  - intros nr. rewrite Hnone. unfold given. by rewrite B7.
Qed.

Lemma built_indexed cb sel ctx nr : built malloc A pat cb sel ctx -> 0 <= nr < 8192 ->
  nr ∈ dx_pidIndex ctx <-> is_Some (extractor_of ctx nr).
Proof.
  intros Hb Hn. rewrite (built_extractor _ _ _ _ Hb Hn), (bu_index _ _ _ _ _ _ Hb). destruct (existsb (fun p => p.1 =? nr) sel) eqn:Ec.
  - destruct (kind_of_some _ _ Ec) as [k ->]. cbn [mbind option_bind].
    destruct (extractor_for_made malloc A HA pat Hpat nr k) as (pe & -> & _). split; [by eexists|]. intros _.
    apply existsb_exists in Ec as ([a b] & Hi & Ha). cbn [fst] in Ha. apply Z.eqb_eq in Ha as ->. apply list_elem_of_fmap.
    exists (nr, b). split; [done|]. by apply list_elem_of_In.
  - destruct (kind_of_none _ _ Ec) as [-> Ki]. split; [done|]. by intros [? ?].
Qed.
End Built.

(** C23: The demultiplexer is the product of its extractors.  If each of them
    could do its writes alone, the demultiplexer does them, and for every PID
    its extractor is then in the state it would have reached alone; the user was
    given for the PID exactly the packets it delivered, in order; and its list
    holds, counted, the youngest of these, at least the last one.  A PID
    without an extractor has nothing delivered. *)
Theorem demux_is_product malloc malloc_ok A pat ctx calls :
  malloc_gives malloc -> answers A -> pat_ok pat -> Forall (fun s => 0 <= es_elementary_PID s < 8192) (pat_streams pat) ->
  ltntstools_demux_alloc_from_pat malloc (fun _ => true) A (Some true) (Some pat) = Some (Some ctx) ->
  Forall demux_call_ok calls ->
  (forall nr pe, 0 <= nr < 8192 -> extractor_of ctx nr = Some pe ->
    exists pe', run_alone malloc malloc_ok nr calls pe = Some pe' /\ len (pe_calls pe') < 2 ^ 31) ->
  exists ctx', demux_run malloc malloc_ok ctx calls = Some ctx' /\ dx_pidIndex ctx' = dx_pidIndex ctx /\
    forall nr, 0 <= nr < 8192 -> exists d, _getPIDContext ctx' nr = Some d /\ dp_pidNr d = nr /\
      match extractor_of ctx nr with
      | None => dp_pe d = None /\ given nr ctx' = []
      | Some pe => exists pe' old, run_alone malloc malloc_ok nr calls pe = Some pe' /\ dp_pe d = Some pe' /\
          given nr ctx' = pe_calls pe' /\ pe_calls pe' = old ++ map di_pes (dp_pesList d) /\
          dp_pesListCount d = len (dp_pesList d) /\ (pe_calls pe' <> [] -> dp_pesList d <> [])
      end.
Proof.
  intros Hmal HA Hpat Hr Ealloc Hcalls Halone. pose proof (alloc_built malloc A true pat Hmal HA Hpat Hr) as H. cbv zeta in H.
  destruct (clash [] (pat_streams pat)); [congruence|]. destruct H as (c & E & Hb). rewrite Ealloc in E. injection E as <-.
  destruct (demux_run_spec malloc malloc_ok calls (extractor_of ctx) ctx Hcalls (built_agrees malloc A HA pat Hpat _ _ Hb)) as (ctx' & Er & Ei & [A1 A2 A3 A4]).
  - rewrite (bu_index _ _ _ _ _ _ Hb). exact (bu_nodup _ _ _ _ _ _ Hb).
  - apply list.Forall_forall. intros nr Hi. assert (Hn : 0 <= nr < 8192).
    { rewrite (bu_index _ _ _ _ _ _ Hb) in Hi. apply list_elem_of_fmap in Hi as ([a k] & -> & Hi).
      exact (proj1 (list.Forall_forall _ _) (bu_range _ _ _ _ _ _ Hb) _ Hi). }
    split; [done|]. destruct (proj1 (built_indexed malloc A HA pat Hpat _ _ _ nr Hb Hn) Hi) as [pe Ep]. destruct (Halone nr pe Hn Ep) as (pe' & ?). by exists pe, pe'.
  - exists ctx'. split; [done|]. split; [done|]. intros nr Hn. destruct (A2 nr Hn) as (d & Ed & E1 & E2 & [[old K1] K2 K3 _]).
    exists d. rewrite get_pid by done. split; [done|]. split; [done|]. specialize (A3 nr). cbv beta in *.
    pose proof (built_indexed malloc A HA pat Hpat _ _ _ nr Hb Hn) as Hi. destruct (extractor_of ctx nr) as [pe|] eqn:Ep.
    + rewrite decide_True in * by (by apply Hi). destruct (Halone nr pe Hn Ep) as (pe' & Ea & _). cbn [mbind option_bind] in *.
      rewrite Ea in *. cbn [calls_of] in *. exists pe', old. by split_and!.
    + rewrite decide_False in * by (intros Hx; apply Hi in Hx as [? ?]; done). done.
Qed.

(** ** Concrete runs *)

Definition test_answers (nr : Z) : alloc_env :=
  {| ae_stats := fun _ => true; ae_items := 60; ae_pcr_items := 12; ae_tv := Timeval 1000 0; ae_now := 1000; ae_env := test_env 1000 |}.

Lemma test_answers_ok : answers test_answers.
Proof. intros nr. split; [done|]. split; [split; cbn; lia|cbn; lia]. Qed.

Lemma some_malloc_gives : malloc_gives some_malloc.
Proof. intros n Hn. eexists. split; [reflexivity|]. apply len_replicate. lia. Qed.


(** One video stream; no PID is given for the PCR. *)
Definition one_video : ltntstools_pat_s :=
  let g := sample_program 1 [sample_stream 0x1b 0x31] descriptor_list_zero in
  sample_pat 1 [{| pp_program_number := 1; pp_program_map_PID := 0x101;
                   pp_pmt := {| pm_version_number := 0; pm_program_number := 1; pm_current_next_indicator := 1; pm_PCR_PID := 0;
                                pm_stream_count := 1; pm_streams := pm_streams (pp_pmt g); pm_descr_list := descriptor_list_zero |};
                   pp_service_id := 0; pp_service_type := 0; pp_service_name := replicate 32 0; pp_service_provider := replicate 32 0 |}].

Definition test_world (sec : Z) : demux_env :=
  {| de_env := fun _ _ => test_env sec; de_now := fun _ _ => sec; de_item := fun _ _ => true; de_clock := fun _ _ => Timeval sec 0 |}.

Definition test_writes : list demux_call :=
  [(test_world 1000, [unit_packet 0 1 []; unit_packet 1 2 unit_header]); (test_world 1001, [unit_packet 0 3 [9]; unit_packet 1 4 unit_header])].

Lemma one_video_ok : pat_ok one_video.
Proof.
  apply sample_pat_ok; [cbn; lia|lia|]. constructor; [|constructor].
  destruct (sample_program_ok 1 [sample_stream 0x1b 0x31]) as [M1 M2 M3 M4]; [cbn; lia|repeat constructor|]. by constructor.
Qed.

(** The extractor of the stream, alone. *)
Lemma one_video_alone : exists pe pe', extractor_for some_malloc test_answers one_video 0x31 P_VIDEO = Some pe /\
  run_alone some_malloc (fun _ => true) 0x31 test_writes pe = Some pe' /\
  map ex_rawBuffer (pe_calls pe') = [unit_header ++ replicate 170 7 ++ [9] ++ replicate 183 7].
Proof.
  destruct (foldM (assembly_step (fun _ => true) 0x31 0 (unit_max 33554432)) (sent unit_calls) assembly_start) as [st|] eqn:E.
  2: { exfalso. vm_compute in E. discriminate E. }
  destruct (extractor_alloc_spec some_malloc some_malloc_gives 1000 ltac:(lia) 60 12 (Timeval 1000 0) 1000 0x31 0xe0 0 4194304 33554432)
    as (pe & Ea & Hx); [split; cbn; lia|lia|lia|lia|].
  assert (Hs : (ltntstools_pes_extractor_set_skip_data pe 0).1 = pe).
  { unfold ltntstools_pes_extractor_alloc in Ea. apply bind_Some in Ea as (s & _ & Ea).
    destruct (ltntstools_notification_register_callback _ _ _ _) in Ea. injection Ea as <-. reflexivity. }
  rewrite Hs in Hx.
  destruct (extractor_run_spec some_malloc (fun _ => true) some_malloc_gives 1000 ltac:(lia) 0x31 0 33554432 ltac:(lia) unit_calls assembly_start pe st) as (pe' & Er & Hx');
    [|by vm_compute|exact Hx|exact E|].
  { repeat (apply Forall_cons_2; [split; [intros i; apply test_env_wf; lia|split; [|by repeat (apply Forall_cons_2; [by apply bytes_check|]); apply Forall_nil_2]]|]);
      [..|apply Forall_nil_2]; unfold packets; repeat (apply Forall_cons_2; [reflexivity|]); apply Forall_nil_2. }
  exists pe, pe'. split; [|split; [exact Er|]].
  - unfold extractor_for. change (ltntstools_pes_extractor_alloc some_malloc _ _ _ _ _ _ _ _ _ _) with
      (ltntstools_pes_extractor_alloc some_malloc (fun _ => true) 60 12 (Timeval 1000 0) 1000 0x31 0xe0 true 4194304 33554432).
    rewrite Ea. step. replace (ltntstools_streammodel_query_first_program_pcr_pid (Some one_video)) with (Some (-1, 0)) by (by vm_compute). reflexivity.
  - assert (Ho := xt_out _ _ _ _ _ _ Hx'). unfold outputs in Ho. apply (f_equal (map fst)) in Ho. rewrite map_map in Ho. cbn [fst] in Ho.
    etransitivity; [exact Ho|]. vm_compute in E. injection E as <-. reflexivity.
Qed.

Lemma demux_is_product_witness : exists ctx ctx',
  ltntstools_demux_alloc_from_pat some_malloc (fun _ => true) test_answers (Some true) (Some one_video) = Some (Some ctx) /\
  demux_run some_malloc (fun _ => true) ctx test_writes = Some ctx' /\
  map ex_rawBuffer (given 0x31 ctx') = [unit_header ++ replicate 170 7 ++ [9] ++ replicate 183 7] /\ given 0x32 ctx' = [].
Proof.
  assert (Hr : Forall (fun s => 0 <= es_elementary_PID s < 8192) (pat_streams one_video)) by (cbn; repeat constructor; cbn; lia).
  pose proof (alloc_built some_malloc test_answers true one_video some_malloc_gives test_answers_ok one_video_ok Hr) as H.
  cbv zeta in H. replace (clash [] (pat_streams one_video)) with false in H by (by vm_compute). destruct H as (ctx & E & Hb).
  assert (Hk : forall nr, kind_of nr (selected (pat_streams one_video)) = if 0x31 =? nr then Some P_VIDEO else None).
  { intros nr. change (selected (pat_streams one_video)) with [(0x31, P_VIDEO)]. unfold kind_of. cbn [List.find fst]. by destruct (0x31 =? nr). }
  assert (Hx : forall nr, 0 <= nr < 8192 -> extractor_of ctx nr = if 0x31 =? nr then extractor_for some_malloc test_answers one_video 0x31 P_VIDEO else None).
  { intros nr Hn. rewrite (built_extractor some_malloc test_answers one_video true _ ctx nr Hb Hn), Hk. by destruct (Z.eqb_spec 0x31 nr) as [<-|]. }
  destruct one_video_alone as (pe & pe' & Ep & Er & Eo). rewrite Ep in Hx.
  destruct (demux_is_product some_malloc (fun _ => true) test_answers one_video ctx test_writes some_malloc_gives test_answers_ok one_video_ok Hr E)
    as (ctx' & Hrun & _ & Hp).
  - assert (Hw : forall sec, 0 <= sec < 10000 -> env_ok (test_world sec)) by (intros sec Hs; split; [done|intros; split; cbn; lia]).
    repeat (apply Forall_cons_2; [split; [apply Hw; lia|split; [done|reflexivity]]|]). apply Forall_nil_2.
  - intros nr p Hn. rewrite (Hx nr Hn). destruct (Z.eqb_spec 0x31 nr) as [<-|]; [|done]. intros [= <-]. exists pe'. split; [exact Er|].
    apply (f_equal length) in Eo. rewrite length_map in Eo. unfold len. rewrite Eo. reflexivity.
  - exists ctx, ctx'. split; [exact E|]. split; [exact Hrun|]. split.
    + destruct (Hp 0x31 ltac:(lia)) as (d & _ & _ & Hd). rewrite (Hx 0x31 ltac:(lia)) in Hd. cbn [Z.eqb Pos.eqb] in Hd.
      destruct Hd as (p & old & Ep' & _ & -> & _). rewrite Er in Ep'. injection Ep' as <-. exact Eo.
    + destruct (Hp 0x32 ltac:(lia)) as (d & _ & _ & Hd). rewrite (Hx 0x32 ltac:(lia)) in Hd. by destruct Hd as [_ ?].
Defined.

(** ** Where the code does not do what it means to *)

(** Two programs that carry the same audio end the process. *)
Lemma shared_audio_exits : let s := sample_stream 0x0f 0x32 in
  clash [] (pat_streams (sample_pat 2 [sample_program 1 [s] descriptor_list_zero; sample_program 2 [s] descriptor_list_zero])) = true.
Proof. by vm_compute. Qed.

(** AC-3 as a private stream with its descriptor is audio to the PMT's query,
    but gets no extractor. *)
Definition ac3_list : ltntstools_descriptor_list_s :=
  {| dl_count := 1; dl_array := {| d_tag := 0x6a; d_len := 0; d_data := replicate 256 0 |} :: replicate 15 descriptor_zero |}.
Lemma private_audio_skipped :
  let s := {| es_stream_type := 0x06; es_elementary_PID := 0x33; es_descr_list := ac3_list |} in
  ltntstools_pmt_entry_is_audio s = Some 0x6a /\ stream_kind s = Some P_AUDIO /\ private_audio s = true /\ select s = [].
Proof. split_and!; by vm_compute. Qed.

(** Streams of a second program are timed with the PCR of the first. *)
Lemma first_pcr_for_all : let g := sample_program 1 [sample_stream 0x1b 0x31] descriptor_list_zero in
  let g2 := sample_program 2 [sample_stream 0x1b 0x41] descriptor_list_zero in
  ltntstools_streammodel_query_first_program_pcr_pid
    (Some (sample_pat 2 [g; {| pp_program_number := 2; pp_program_map_PID := 0x102; pp_pmt := (pp_pmt g2) <| pm_PCR_PID := 0x41 |>;
       pp_service_id := 0; pp_service_type := 0; pp_service_name := []; pp_service_provider := [] |}])) = Some (0, 0x31).
Proof. by vm_compute. Qed.

(** After the wall clock is set back, the packets kept look very old: the next
    one expires them. *)
Lemma clock_set_back_expires pes : _itemAgeMs {| di_pes := pes; di_ts := Timeval 1001 0 |} (Timeval 1000 0) = Some (2 ^ 32 - 1000).
Proof. by vm_compute. Qed.

(** A copy of the PAT that could not be made is dereferenced. *)
Lemma failed_clone_dereferenced malloc A cb pat :
  ltntstools_demux_alloc_from_pat malloc (fun n => negb (Nat.eqb n 1)) A cb (Some pat) = None.
Proof. reflexivity. Qed.
