(* ===== verification/StreamModel.v ===== *)
(** * The stream model: src/streammodel.c, streammodel-extractors.c,
    streammodel-types.h

    Two models of the stream: [mx_current], the last complete one, and
    [mx_next], in which the PAT, PMT and SDT are collected by decoders of
    libdvbpsi, one per table and PID.  A write pushes packets to the decoders of
    the next model; their callbacks fill it, and when its PMTs are all there it
    is compared with the current one and takes its place.

    libdvbpsi is the class [Dvbpsi].  [None] is undefined behaviour, a failed
    assertion or a call of exit.  The two storages of the models are exchanged
    by role; decoders are pushed in the next model only, so that the model of a
    callback is the next one.  The callbacks of a push are made here after it
    and do not touch the decoder that makes them.  The numbers of PMTs are not
    bounded: they count tables of one collection.  The messages and the mutex,
    under which each operation runs, are left out. *)
From Stdlib Require Import ZArith Lia Bool String.
From stdpp Require Import base numbers list option.
From coqutil Require Import Datatypes.RecordSettersUsingExistingGetters.
From S2P Require Import Prelude Ts SectionExtractor Clock Stats Pat Tr101290Events Tr101290.

Definition MAX_PID_PARSERS : Z := 24.
Definition MAX_SDT_ENTRIES : Z := 128.
Definition MAX_ROM_PIDS : Z := 0x2000.
Definition TSTOOLS_PID_PAT : Z := 0.

(** ** libdvbpsi *)

Record dvbpsi_sdt_service_t := { i_service_id : Z; sv_p_first_descriptor : list dvbpsi_descriptor_t }.

Inductive table :=
| TABLE_PAT (p_pat : dvbpsi_pat_t)
| TABLE_PMT (p_pmt : dvbpsi_pmt_t)
| TABLE_SDT (p_first_service : list dvbpsi_sdt_service_t).

(** What is attached to a decoder. *)
Inductive attached := AT_PAT | AT_PMT (number : Z) | AT_DEMUX.

(** A push gives the tables it decoded, which are passed to the callback.  The
    function given to [dvbpsi_AttachDemux] tells for a table ID and an
    extension whether the callback attaches a decoder of SDTs. *)
Class Dvbpsi := {
  dvbpsi_t : Type;
  dvbpsi_new : option dvbpsi_t;
  dvbpsi_pat_attach : dvbpsi_t -> option dvbpsi_t;
  dvbpsi_pmt_attach : dvbpsi_t -> Z -> option dvbpsi_t;
  dvbpsi_AttachDemux : dvbpsi_t -> (Z -> Z -> bool) -> option dvbpsi_t;
  dvbpsi_packet_push : dvbpsi_t -> list Z -> dvbpsi_t * list table
}.

Definition NewSubtable (i_table_id i_extension : Z) : bool := i_table_id =? 0x42.

(** ** The state *)

Inductive pidType_e := PT_UNKNOWN | PT_PAT | PT_PMT | PT_ES | PT_SDT.
#[global] Instance pidType_eq_dec : EqDecision pidType_e.
Proof. solve_decision. Defined.

Record streammodel_sdt_s := {
  sd_service_id : Z;
  sd_service_type : Z;
  sd_service_name : list Z;
  sd_service_provider : list Z
}.
#[global] Instance sdt_eq_dec : EqDecision streammodel_sdt_s.
Proof. solve_decision. Defined.

Record se_array_item_s := {
  ei_pid : Z;
  ei_tableId : Z;
  ei_name : string;
  ei_hdl : sectionextractor_ctx;
  ei_complete : Z;
  ei_crcValid : Z;
  ei_context : Z
}.

Section Model.
Context {PSI : Dvbpsi}.

Record streammodel_pid_parser_s := {
  mp_dvbpsi : option (dvbpsi_t * option attached);
  mp_pmt : option dvbpsi_pmt_t;
  mp_programNumber : Z
}.

Record streammodel_pid_s := {
  md_pid : Z;
  md_present : Z;
  md_pidType : pidType_e;
  md_parser : list streammodel_pid_parser_s;
  md_pat : option dvbpsi_pat_t;
  md_packetCount : Z;
  md_lastUpdate : timeval
}.

(** [mr_tables] is not in the code: the PATs and PMTs the model took since it
    was initialised, oldest first. *)
Record streammodel_rom_s := {
  mr_nr : Z;
  mr_totalPMTsInPAT : Z;
  mr_parsedPMTs : Z;
  mr_modelComplete : Z;
  mr_allowableWriteTime : timeval;
  mr_pmtCollectionTimer : timeval;
  mr_pids : list streammodel_pid_s;
  mr_sdtCount : Z;
  mr_sdt : list streammodel_sdt_s;
  mr_tables : list table
}.

(** [mx_cb]: a callback is registered; [mx_calls]: what it was given. *)
Record streammodel_ctx_s := {
  mx_currentModelVersion : Z;
  mx_current : streammodel_rom_s;
  mx_next : streammodel_rom_s;
  mx_modelChanged : Z;
  mx_lastPATCC : Z;
  mx_now : timeval;
  mx_writePackets : Z;
  mx_restartModel : Z;
  mx_restartReason : Z;
  mx_enableSectionCRCChecks : Z;
  mx_seCount : Z;
  mx_seArray : list se_array_item_s;
  mx_cb : bool;
  mx_calls : list streammodel_callback_args_s
}.

(** The memory of a [calloc]. *)
Definition parser_zero : streammodel_pid_parser_s := {| mp_dvbpsi := None; mp_pmt := None; mp_programNumber := 0 |}.
Definition pid_zero : streammodel_pid_s :=
  {| md_pid := 0; md_present := 0; md_pidType := PT_UNKNOWN; md_parser := replicate 24 parser_zero; md_pat := None;
     md_packetCount := 0; md_lastUpdate := Timeval 0 0 |}.
Definition sdt_zero : streammodel_sdt_s :=
  {| sd_service_id := 0; sd_service_type := 0; sd_service_name := replicate 128 0; sd_service_provider := replicate 128 0 |}.
Definition rom_zero : streammodel_rom_s :=
  {| mr_nr := 0; mr_totalPMTsInPAT := 0; mr_parsedPMTs := 0; mr_modelComplete := 0; mr_allowableWriteTime := Timeval 0 0;
     mr_pmtCollectionTimer := Timeval 0 0; mr_pids := replicate (Z.to_nat MAX_ROM_PIDS) pid_zero; mr_sdtCount := 0;
     mr_sdt := replicate 128 sdt_zero; mr_tables := [] |}.

(** ** Decoders *)

(** The decoder of a kind is detached. *)
Definition detach (kind : attached -> bool) (h : option (dvbpsi_t * option attached)) : option (option (dvbpsi_t * option attached)) :=
  match h with
  | Some (d, Some a) => if kind a then Some (Some (d, None)) else None
  | _ => None
  end.

Definition dvbpsi_pat_detach := detach (fun a => match a with AT_PAT => true | _ => false end).
Definition dvbpsi_pmt_detach := detach (fun a => match a with AT_PMT _ => true | _ => false end).
Definition dvbpsi_DetachDemux := detach (fun a => match a with AT_DEMUX => true | _ => false end).

(** A decoder with something attached must not be deleted: an assertion. *)
Definition dvbpsi_delete (h : option (dvbpsi_t * option attached)) : option unit :=
  match h with Some (_, Some _) => None | _ => Some tt end.

Definition set_dvbpsi (h : option (dvbpsi_t * option attached)) (p : streammodel_pid_parser_s) : streammodel_pid_parser_s :=
  p <| mp_dvbpsi := h |>.

(** ** Models *)

Definition is_attached (p : streammodel_pid_parser_s) : bool := match mp_dvbpsi p with Some _ => true | None => false end.

(** One parser of a PID: its PMT and its decoder go. *)
Definition parser_release (pidType : pidType_e) (p : streammodel_pid_parser_s) : option streammodel_pid_parser_s :=
  let p := p <| mp_pmt := None |> in
  h ← (if bool_decide (pidType = PT_PMT) && is_attached p then dvbpsi_pmt_detach (mp_dvbpsi p) else Some (mp_dvbpsi p));
  _ ← dvbpsi_delete h;
  Some (set_dvbpsi None p).

Definition pid_initialize (i : Z) (ps : streammodel_pid_s) : option streammodel_pid_s :=
  let ps := ps <| md_present := 0 |> <| md_pid := i |> <| md_pat := None |> in
  p0 ← aget (md_parser ps) 0;
  h ← (if bool_decide (md_pidType ps = PT_PAT) && is_attached p0 then dvbpsi_pat_detach (mp_dvbpsi p0) else Some (mp_dvbpsi p0));
  let p0 := set_dvbpsi h p0 in
  h ← (if (md_pid ps =? 0x11) && (bool_decide (md_pidType ps = PT_SDT) || bool_decide (md_pidType ps = PT_ES)) && is_attached p0
       then dvbpsi_DetachDemux (mp_dvbpsi p0) else Some (mp_dvbpsi p0));
  parser ← aset (md_parser ps) 0 (set_dvbpsi h p0);
  parser ← mapM (parser_release (md_pidType ps)) parser;
  Some (ps <| md_parser := parser |> <| md_packetCount := 0 |>).

(** The PIDs of the array, from number [i] on. *)
Fixpoint pids_initialize (i : Z) (pids : list streammodel_pid_s) : option (list streammodel_pid_s) :=
  match pids with
  | [] => Some []
  | ps :: pids => ps ← pid_initialize i ps; pids ← pids_initialize (i + 1) pids; Some (ps :: pids)
  end.

(** The SDT entries stay, and the type and the program numbers of the PIDs. *)
Definition _rom_initialize (rom : streammodel_rom_s) (nr : Z) : option streammodel_rom_s :=
  pids ← pids_initialize 0 (mr_pids rom);
  Some (rom <| mr_pids := pids |> <| mr_nr := nr |> <| mr_modelComplete := 0 |> <| mr_parsedPMTs := 0 |>
            <| mr_totalPMTsInPAT := 0 |>
            <| mr_pmtCollectionTimer := Timeval 0 (tv_usec (mr_pmtCollectionTimer rom)) |> <| mr_tables := [] |>).

Definition _rom_activate (ctx : streammodel_ctx_s) : option streammodel_ctx_s :=
  next ← _rom_initialize (mx_current ctx) (mr_nr (mx_current ctx));
  Some (ctx <| mx_current := mx_next ctx |>
            <| mx_next := next <| mr_allowableWriteTime := timeradd (Timeval 0 (500 * 1000)) (mx_now ctx) |> |>).

Definition _rom_find_pid (rom : streammodel_rom_s) (pid : Z) : option streammodel_pid_s := aget (mr_pids rom) (u16 pid).

Definition rom_set_pid (rom : streammodel_rom_s) (pid : Z) (ps : streammodel_pid_s) : option streammodel_rom_s :=
  pids ← aset (mr_pids rom) (u16 pid) ps; Some (rom <| mr_pids := pids |>).

(** ** Queries *)

(** The first entry of the service. *)
Definition fill_service (rom : streammodel_rom_s) (g : ltntstools_pat_program_s) : option ltntstools_pat_program_s :=
  r ← find_in (fun s => if sd_service_id s =? pp_program_number g then Some s else None) (mr_sdt rom) (mr_sdtCount rom);
  match r with
  | None => Some g
  | Some s =>
      name ← strncpy (pp_service_name g) (sd_service_name s) 32;
      provider ← strncpy (pp_service_provider g) (sd_service_provider s) 32;
      Some {| pp_program_number := pp_program_number g; pp_program_map_PID := pp_program_map_PID g; pp_pmt := pp_pmt g;
              pp_service_id := sd_service_id s; pp_service_type := sd_service_type s;
              pp_service_name := name; pp_service_provider := provider |}
  end.

(** The PMTs of a program that the parsers of its PID keep. *)
Definition fill_pmts (number : Z) (parser : list streammodel_pid_parser_s) (pat : ltntstools_pat_s) : option ltntstools_pat_s :=
  fold_in (fun pat p =>
             match mp_pmt p with
             | Some t =>
                 if mp_programNumber p =? number
                 then pat ← ltntstools_pat_add_from_existing (Some pat) (Some t); pat
                 else Some pat
             | None => Some pat
             end) parser MAX_PID_PARSERS pat.

Definition fill_program (rom : streammodel_rom_s) (pat : ltntstools_pat_s) (i : Z) : option ltntstools_pat_s :=
  g ← aget (pa_programs pat) i;
  if pp_program_number g =? 0 then Some pat else
  g ← fill_service rom g;
  programs ← aset (pa_programs pat) i g;
  let pat := set_program pat (pa_program_count pat) programs in
  c ← _rom_find_pid rom (pp_program_map_PID g);
  if md_present c =? 0 then Some pat else fill_pmts (pp_program_number g) (md_parser c) pat.

(** The return value, and the object if one was made.  [ok]: its allocation
    succeeds. *)
Definition _streammodel_query_model (ok : bool) (rom : streammodel_rom_s) : option (Z * option ltntstools_pat_s) :=
  if mr_modelComplete rom =? 0 then Some (-1, None) else
  ps ← _rom_find_pid rom 0;
  match md_pat ps with
  | None => Some (-1, None)
  | Some stream_pat =>
      newpat ← ltntstools_pat_alloc_from_existing ok (Some stream_pat);
      newpat ← newpat;
      newpat ← foldM (fill_program rom) (seqZ 0 (pa_program_count newpat)) newpat;
      Some (0, Some newpat)
  end.

Definition ltntstools_streammodel_query_model (ok : bool) (ctx : streammodel_ctx_s) : option (Z * option ltntstools_pat_s) :=
  if mr_modelComplete (mx_current ctx) =? 1 then _streammodel_query_model ok (mx_current ctx) else Some (-1, None).

Definition ltntstools_streammodel_get_current_version (ctx : streammodel_ctx_s) : Z := mx_currentModelVersion ctx.

Definition ltntstools_streammodel_is_model_mpts (pat : ltntstools_pat_s) : option Z :=
  validServices ← fold_in (fun n g => Some (if pp_program_number g =? 0 then n else n + 1)) (pa_programs pat) (pa_program_count pat) 0;
  Some (if 1 <? validServices then 1 else 0).

(** ** Completion *)

Definition next_version (ctx : streammodel_ctx_s) : streammodel_ctx_s :=
  ctx <| mx_currentModelVersion := u64 (mx_currentModelVersion ctx + 1) |> <| mx_modelChanged := 1 |>.

Definition _rom_compare_current_next (ok : bool) (ctx : streammodel_ctx_s) : option (streammodel_ctx_s * Z) :=
  '(_, patCurrent) ← _streammodel_query_model ok (mx_current ctx);
  '(_, patNext) ← _streammodel_query_model ok (mx_next ctx);
  ctx ←
    match patCurrent, patNext with
    | Some c, Some n =>
        ret ← ltntstools_pat_compare c n;
        Some (if negb (ret =? 0) then next_version ctx
              else if mx_restartReason ctx =? 1 then (next_version ctx) <| mx_restartReason := 0 |> else ctx)
    | None, Some _ => Some (next_version ctx)
    | _, None => Some ctx
    end;
  Some (ctx, mx_modelChanged ctx).

Definition _rom_next_complete (ok : bool) (ctx : streammodel_ctx_s) : option streammodel_ctx_s :=
  '(ctx, r) ← _rom_compare_current_next ok (ctx <| mx_next := (mx_next ctx) <| mr_modelComplete := 1 |> |>);
  Some (if r =? 1 then ctx else ctx <| mx_restartReason := 0 |> <| mx_restartModel := 1 |>).

(** ** Section extractors: streammodel-extractors.c

    [section n]: the memory of the extractor that becomes item [n], if its
    allocation succeeds. *)
Section Extractors.
Context (section : Z -> option (list Z)).

(** A failure takes the last item away. *)
Definition extractors_add (ctx : streammodel_ctx_s) (pid tableId : Z) (name : string) (context : Z) : option (streammodel_ctx_s * Z) :=
  found ← (if tableId =? 0x02
           then fold_from (fun b item => Some (b || (ei_pid item =? pid))) (mx_seArray ctx) (Z.to_nat (mx_seCount ctx - 9)) 9 false
           else Some false);
  if (found : bool) then Some (ctx, 0) else
  if mx_seCount ctx <? 0 then None else
  match section (mx_seCount ctx) with
  | None =>
      if mx_seCount ctx =? 0 then None else
      let seCount := mx_seCount ctx - 1 in
      Some (ctx <| mx_seCount := seCount |> <| mx_seArray := take (Z.to_nat seCount) (mx_seArray ctx) |>, -1)
  | Some memory =>
      Some (ctx <| mx_seCount := mx_seCount ctx + 1 |>
                <| mx_seArray := take (Z.to_nat (mx_seCount ctx)) (mx_seArray ctx) ++
                     [{| ei_pid := pid; ei_tableId := tableId; ei_name := name;
                         ei_hdl := ltntstools_sectionextractor_alloc pid tableId memory; ei_complete := 0;
                         ei_crcValid := 0; ei_context := context |}] |>, 0)
  end.

Definition dvb_tables : list (Z * Z * string * Z) :=
  [(0x00, 0x00, "PAT", STREAMMODEL_CB_CONTEXT_PAT);
   (0x10, 0x40, "NIT", STREAMMODEL_CB_CONTEXT_NIT);
   (0x11, 0x4A, "BAT", STREAMMODEL_CB_CONTEXT_BAT);
   (0x11, 0x42, "SDT", STREAMMODEL_CB_CONTEXT_SDT);
   (0x12, 0x4E, "EIT", STREAMMODEL_CB_CONTEXT_EIT);
   (0x12, 0x4F, "EIT", STREAMMODEL_CB_CONTEXT_EIT);
   (0x12, 0x5F, "EIT", STREAMMODEL_CB_CONTEXT_EIT);
   (0x12, 0x6F, "EIT", STREAMMODEL_CB_CONTEXT_EIT);
   (0x14, 0x73, "TOT", STREAMMODEL_CB_CONTEXT_TOT)]%string.

Definition extractors_alloc (ctx : streammodel_ctx_s) : option (streammodel_ctx_s * Z) :=
  if mx_enableSectionCRCChecks ctx =? 0 then Some (ctx, 0) else
  ctx ← foldM (fun ctx '(pid, tableId, name, context) => '(ctx, _) ← extractors_add ctx pid tableId name context; Some ctx)
          dvb_tables ctx;
  Some (ctx, 0).

(** The packet goes to item [i]; [pkt] is the buffer from the packet on. *)
Definition _write_pkt (pkt : list Z) (ctx : streammodel_ctx_s) (i : Z) : option streammodel_ctx_s :=
  item ← aget (mx_seArray ctx) i;
  '(_, hdl, complete, crcValid) ← ltntstools_sectionextractor_write (ei_hdl item) pkt 1 (ei_crcValid item);
  let item := item <| ei_hdl := hdl |> <| ei_complete := complete |> <| ei_crcValid := crcValid |> in
  arr ← aset (mx_seArray ctx) i item;
  let ctx := ctx <| mx_seArray := arr |> in
  Some (if negb (complete =? 0) && mx_cb ctx
        then ctx <| mx_calls := mx_calls ctx ++ [{| cb_status := STREAMMODEL_CB_CRC_STATUS; cb_context := ei_context item; cb_arg := crcValid |}] |>
        else ctx).

(** The items of the fixed PIDs; any other packet goes to all the others. *)
Definition items_of (pid seCount : Z) : list Z :=
  if pid =? 0x00 then [0] else
  if pid =? 0x10 then [1] else
  if pid =? 0x11 then [2; 3] else
  if pid =? 0x12 then [4; 5; 6; 7] else
  if pid =? 0x14 then [8] else seqZ 9 (seCount - 9).

Definition extractors_write (ctx : streammodel_ctx_s) (pkts : list Z) (packetCount : Z) : option streammodel_ctx_s :=
  packet_fold (fun ctx pkt => foldM (_write_pkt pkt) (items_of (ltntstools_pid pkt) (mx_seCount ctx)) ctx) packetCount pkts ctx.

Definition extractors_free (ctx : streammodel_ctx_s) : streammodel_ctx_s :=
  if mx_enableSectionCRCChecks ctx =? 0 then ctx else ctx <| mx_seArray := [] |>.

(** ** Callbacks of the decoders *)

Definition sdt_add (rom : streammodel_rom_s) (sdt : streammodel_sdt_s) : option (streammodel_rom_s * Z) :=
  if MAX_SDT_ENTRIES <=? mr_sdtCount rom then Some (rom, -1) else
  known ← find_in (fun s => if bool_decide (s = sdt) then Some tt else None) (mr_sdt rom) (mr_sdtCount rom);
  match known with
  | Some _ => Some (rom, 0)
  | None =>
      arr ← aset (mr_sdt rom) (mr_sdtCount rom) sdt;
      Some (rom <| mr_sdt := arr |> <| mr_sdtCount := mr_sdtCount rom + 1 |>, 0)
  end.

(** The service descriptor; nothing is copied from an absent string. *)
Definition service_descriptor (data : list Z) (sdt : streammodel_sdt_s) : option streammodel_sdt_s :=
  pl ← rd data 1;
  nl ← rd data (2 + pl);
  provider ← (if pl =? 0 then Some (sd_service_provider sdt) else strncpy (sd_service_provider sdt) (drop 2 data) pl);
  name ← (if nl =? 0 then Some (sd_service_name sdt) else strncpy (sd_service_name sdt) (drop (Z.to_nat (2 + pl + 1)) data) nl);
  Some (sdt <| sd_service_provider := provider |> <| sd_service_name := name |>).

(** The type is stored in the array's next entry. *)
Definition sdt_descriptor '((rom, sdt) : streammodel_rom_s * streammodel_sdt_s) (d : dvbpsi_descriptor_t)
    : option (streammodel_rom_s * streammodel_sdt_s) :=
  if i_tag d =? 0x48 then
    e ← aget (mr_sdt rom) (mr_sdtCount rom);
    service_type ← rd (p_data d) 0;
    arr ← aset (mr_sdt rom) (mr_sdtCount rom) (e <| sd_service_type := service_type |>);
    let rom := rom <| mr_sdt := arr |> in
    sdt ← service_descriptor (p_data d) sdt;
    '(rom, _) ← sdt_add rom sdt;
    Some (rom, sdt)
  else Some (rom, sdt).

Fixpoint sdt_services (l : list dvbpsi_sdt_service_t) (rom : streammodel_rom_s) : option streammodel_rom_s :=
  match l with
  | [] => Some rom
  | s :: l =>
      if MAX_SDT_ENTRIES <=? mr_sdtCount rom then Some rom else
      '(rom, _) ← foldM sdt_descriptor (sv_p_first_descriptor s) (rom, sdt_zero <| sd_service_id := i_service_id s |>);
      sdt_services l rom
  end.

Definition cb_sdt (ctx : streammodel_ctx_s) (p_first_service : list dvbpsi_sdt_service_t) : option streammodel_ctx_s :=
  rom ← sdt_services p_first_service (mx_next ctx); Some (ctx <| mx_next := rom |>).

Definition mark_es (rom : streammodel_rom_s) (es : dvbpsi_pmt_es_t) : option streammodel_rom_s :=
  if 0x10 <=? es_i_pid es then
    ps ← _rom_find_pid rom (es_i_pid es);
    rom_set_pid rom (es_i_pid es) (ps <| md_present := 1 |> <| md_pidType := PT_ES |>)
  else Some rom.

(** The last parser of the program, or the first of the PID. *)
Definition parser_of (number : Z) (parser : list streammodel_pid_parser_s) : option Z :=
  '(idx, _) ← fold_in (fun '(idx, j) p => Some (if mp_programNumber p =? number then (j, j + 1) else (idx, j + 1))) parser MAX_PID_PARSERS (0, 0);
  Some idx.

(** [nr]: the PID whose decoder makes the call. *)
Definition cb_pmt (ok : bool) (nr : Z) (ctx : streammodel_ctx_s) (p_pmt : dvbpsi_pmt_t) : option streammodel_ctx_s :=
  rom ← foldM mark_es (p_first_es p_pmt) (mx_next ctx);
  ps ← _rom_find_pid rom nr;
  idx ← parser_of (i_program_number p_pmt) (md_parser ps);
  p ← aget (md_parser ps) idx;
  parser ← aset (md_parser ps) idx (p <| mp_pmt := Some p_pmt |>);
  rom ← rom_set_pid rom nr (ps <| md_parser := parser |>);
  let rom := rom <| mr_parsedPMTs := mr_parsedPMTs rom + 1 |> <| mr_tables := mr_tables rom ++ [TABLE_PMT p_pmt] |> in
  let ctx := ctx <| mx_next := rom |> in
  if mr_parsedPMTs rom =? mr_totalPMTsInPAT rom then _rom_next_complete ok ctx else Some ctx.

(** The first parser without a decoder, or the first of the PID. *)
Definition free_parser (parser : list streammodel_pid_parser_s) : option Z :=
  r ← find_in (fun '(j, p) => if is_attached p then None else Some j) (zip (seqZ 0 MAX_PID_PARSERS) parser) MAX_PID_PARSERS;
  Some (default 0 r).

(** A parser for the PMT of a program. *)
Definition add_parser (number : Z) (m : streammodel_pid_s) : option streammodel_pid_s :=
  let m := m <| md_present := 1 |> <| md_pidType := PT_PMT |> in
  idx ← free_parser (md_parser m);
  p ← aget (md_parser m) idx;
  _ ← (if is_attached p then h ← dvbpsi_pmt_detach (mp_dvbpsi p); dvbpsi_delete h else Some tt);
  d ← dvbpsi_new;
  d ← dvbpsi_pmt_attach d number;
  parser ← aset (md_parser m) idx (p <| mp_dvbpsi := Some (d, Some (AT_PMT number)) |> <| mp_programNumber := number |>);
  Some (m <| md_parser := parser |>).

Definition pat_program (ctx : streammodel_ctx_s) '((number, pid) : Z * Z) : option streammodel_ctx_s :=
  if 0 <? number then
    ctx ← (if mx_enableSectionCRCChecks ctx =? 0 then Some ctx
           else '(ctx, _) ← extractors_add ctx pid 0x02 "PMT" STREAMMODEL_CB_CONTEXT_PMT; Some ctx);
    m ← _rom_find_pid (mx_next ctx) pid;
    m ← add_parser number m;
    rom ← rom_set_pid (mx_next ctx) pid m;
    Some (ctx <| mx_next := rom <| mr_totalPMTsInPAT := mr_totalPMTsInPAT rom + 1 |> |>)
  else Some ctx.

(** A new version while the PMTs of the last one are collected starts again. *)
Definition cb_pat (nr : Z) (ctx : streammodel_ctx_s) (p_pat : dvbpsi_pat_t) : option streammodel_ctx_s :=
  changed ← (if mr_totalPMTsInPAT (mx_next ctx) =? 0 then Some false else
             m ← _rom_find_pid (mx_next ctx) 0;
             prior ← md_pat m;
             Some (negb (pat_i_version prior =? pat_i_version p_pat) && negb (pat_b_current_next p_pat =? 0)));
  if (changed : bool) then Some (ctx <| mx_restartModel := 1 |>) else
  let rom := (mx_next ctx) <| mr_pmtCollectionTimer := timeradd (Timeval 1 0) (mx_now ctx) |> <| mr_totalPMTsInPAT := 0 |> in
  ctx ← foldM pat_program (p_first_program p_pat) (ctx <| mx_next := rom |>);
  ps ← _rom_find_pid (mx_next ctx) nr;
  rom ← rom_set_pid (mx_next ctx) nr (ps <| md_pat := Some p_pat |>);
  Some (ctx <| mx_next := rom <| mr_tables := mr_tables rom ++ [TABLE_PAT p_pat] |> |>).

Definition psi_callback (ok : bool) (nr : Z) (ctx : streammodel_ctx_s) (t : table) : option streammodel_ctx_s :=
  match t with
  | TABLE_PAT p_pat => cb_pat nr ctx p_pat
  | TABLE_PMT p_pmt => cb_pmt ok nr ctx p_pmt
  | TABLE_SDT p_first_service => cb_sdt ctx p_first_service
  end.

(** ** Writing *)

(** A packet for decoder [j] of a PID; one with nothing attached fails. *)
Definition push_parser (ok : bool) (nr : Z) (pkt : list Z) (ctx : streammodel_ctx_s) (j : Z) : option streammodel_ctx_s :=
  ps ← _rom_find_pid (mx_next ctx) nr;
  p ← aget (md_parser ps) j;
  match mp_dvbpsi p with
  | None => Some ctx
  | Some (_, None) => None
  | Some (d, Some a) =>
      let '(d, tables) := dvbpsi_packet_push d pkt in
      parser ← aset (md_parser ps) j (set_dvbpsi (Some (d, Some a)) p);
      rom ← rom_set_pid (mx_next ctx) nr (ps <| md_parser := parser |>);
      foldM (psi_callback ok nr) tables (ctx <| mx_next := rom |>)
  end.

Definition set_parser0 (h : dvbpsi_t * option attached) (ps : streammodel_pid_s) : option streammodel_pid_s :=
  p ← aget (md_parser ps) 0;
  parser ← aset (md_parser ps) 0 (set_dvbpsi (Some h) p);
  Some (ps <| md_parser := parser |>).

(** The continuity of the PAT. *)
Definition check_pat_cc (pkt : list Z) (ctx : streammodel_ctx_s) : streammodel_ctx_s :=
  let ctx := if negb (mx_lastPATCC ctx =? 0xea) && negb (ltntstools_isCCInError pkt (mx_lastPATCC ctx) =? 0)
             then ctx <| mx_restartModel := 1 |> <| mx_restartReason := 1 |> <| mx_writePackets := 1 |> else ctx in
  ctx <| mx_lastPATCC := ltntstools_continuity_counter pkt |>.

(** The decoder of the SDT; without memory for it the attachment fails an
    assertion. *)
Definition sdt_decoder (ctx : streammodel_ctx_s) (pid : Z) : option streammodel_ctx_s :=
  ps ← _rom_find_pid (mx_next ctx) pid;
  if (pid =? 0x11) && (md_packetCount ps =? 0) then
    d ← dvbpsi_new;
    let h := match dvbpsi_AttachDemux d NewSubtable with Some d => (d, Some AT_DEMUX) | None => (d, None) end in
    ps ← set_parser0 h (ps <| md_present := 1 |> <| md_pidType := PT_SDT |>);
    rom ← rom_set_pid (mx_next ctx) pid (ps <| md_packetCount := u64 (md_packetCount ps + 1) |>);
    Some (ctx <| mx_next := rom |>)
  else Some ctx.

(** The first loop of the write: the continuity of the PAT, and the SDT. *)
Definition sdt_packet (ok : bool) (ctx : streammodel_ctx_s) (pkt : list Z) : option streammodel_ctx_s :=
  let pid := ltntstools_pid pkt in
  if 0x1fff <? pid then Some ctx else
  let ctx := if pid =? TSTOOLS_PID_PAT then check_pat_cc pkt ctx else ctx in
  ctx ← sdt_decoder ctx pid;
  if pid =? 0x11 then push_parser ok pid (take 188 pkt) ctx 0 else Some ctx.

(** The decoder of the PAT, before the first packet. *)
Definition pat_decoder (ctx : streammodel_ctx_s) (pid : Z) : option streammodel_ctx_s :=
  ps ← _rom_find_pid (mx_next ctx) pid;
  if (pid =? 0) && (md_packetCount ps =? 0) then
    d ← dvbpsi_new;
    d ← dvbpsi_pat_attach d;
    ps ← set_parser0 (d, Some AT_PAT) (ps <| md_present := 1 |> <| md_pidType := PT_PAT |>);
    rom ← rom_set_pid (mx_next ctx) pid ps;
    Some (ctx <| mx_next := rom |>)
  else Some ctx.

(** The second loop, for one packet. *)
Definition model_packet (ok : bool) (ctx : streammodel_ctx_s) (pkt : list Z) : option streammodel_ctx_s :=
  let pid := ltntstools_pid pkt in
  ctx ← pat_decoder ctx pid;
  ps ← _rom_find_pid (mx_next ctx) pid;
  ctx ← (if md_present ps =? 0 then Some ctx else foldM (push_parser ok pid (take 188 pkt)) (seqZ 0 MAX_PID_PARSERS) ctx);
  ps ← _rom_find_pid (mx_next ctx) pid;
  rom ← rom_set_pid (mx_next ctx) pid (ps <| md_packetCount := u64 (md_packetCount ps + 1) |> <| md_lastUpdate := mx_now ctx |>);
  Some (ctx <| mx_next := rom |>).

Definition restart (ctx : streammodel_ctx_s) : option streammodel_ctx_s :=
  next ← _rom_initialize (mx_next ctx) (mr_nr (mx_next ctx));
  let future := if mx_restartReason ctx =? 1 then Timeval 0 (500 * 1000)
                else if mx_restartReason ctx =? 0 then Timeval 15 0 else Timeval 0 0 in
  Some (ctx <| mx_restartModel := 0 |> <| mx_next := next <| mr_allowableWriteTime := timeradd future (mx_now ctx) |> |>).

(** A restart ends the loop. *)
Fixpoint model_loop (ok : bool) (n : nat) (i : Z) (pkts : list Z) (ctx : streammodel_ctx_s) : option streammodel_ctx_s :=
  match n with
  | O => Some ctx
  | S n' =>
      if mx_writePackets ctx =? 0 then Some ctx else
      let pkt := drop (Z.to_nat (i * 188)) pkts in
      _ ← rds pkt 0 188;
      let pid := ltntstools_pid pkt in
      if (0x1fff <? pid) || (pid =? 0x11) then model_loop ok n' (i + 1) pkts ctx else
      ctx ← model_packet ok ctx pkt;
      if negb (mx_restartModel ctx =? 0) then restart ctx else model_loop ok n' (i + 1) pkts ctx
  end.

(** The time to collect the PMTs is over. *)
Definition check_collection (ctx : streammodel_ctx_s) : option streammodel_ctx_s :=
  let next := mx_next ctx in
  if negb (tv_sec (mr_pmtCollectionTimer next) =? 0) && timer_ge (mx_now ctx) (mr_pmtCollectionTimer next) &&
     (negb (mr_totalPMTsInPAT next =? 0) && (mr_parsedPMTs next <? mr_totalPMTsInPAT next))
  then next ← _rom_initialize next (mr_nr next);
       Some (ctx <| mx_next := next |> <| mx_writePackets := 1 |> <| mx_current := (mx_current ctx) <| mr_modelComplete := 0 |> |>)
  else Some ctx.

(** Result: the packets written, or (size_t)-1, and [*complete] if it is set. *)
Definition ltntstools_streammodel_write (ok : bool) (ctx : option streammodel_ctx_s) (pkt : option (list Z)) (packetCount : Z)
    (timestamp : timeval) : option (option streammodel_ctx_s * Z * option Z) :=
  match ctx, pkt with
  | Some ctx, Some pkts =>
      if packetCount <=? 0 then Some (Some ctx, u64 (-1), None) else
      let ctx := ctx <| mx_now := timestamp |> in
      let ctx := ctx <| mx_writePackets := if timer_ge timestamp (mr_allowableWriteTime (mx_next ctx)) then 1 else 0 |> in
      ctx ← check_collection ctx;
      ctx ← (if mx_enableSectionCRCChecks ctx =? 0 then Some ctx else
             ctx ← (if mx_seCount ctx =? 0 then '(ctx, _) ← extractors_alloc ctx; Some ctx else Some ctx);
             extractors_write ctx pkts packetCount);
      ctx ← packet_fold (sdt_packet ok) packetCount pkts ctx;
      ctx ← model_loop ok (Z.to_nat packetCount) 0 pkts ctx;
      if negb (mx_modelChanged ctx =? 0) then
        ctx ← _rom_activate ctx; Some (Some (ctx <| mx_modelChanged := 0 |>), packetCount, Some 1)
      else Some (Some ctx, packetCount, Some 0)
  | ctx, _ => Some (ctx, u64 (-1), None)
  end.
End Extractors.

(** ** The context *)

(** [None] of the result: no memory, -1. *)
Definition ltntstools_streammodel_alloc (ok : bool) : option (option streammodel_ctx_s) :=
  if negb ok then Some None else
  r0 ← _rom_initialize rom_zero 0;
  r1 ← _rom_initialize rom_zero 1;
  ctx ← _rom_activate
    {| mx_currentModelVersion := 0; mx_current := r0; mx_next := r1; mx_modelChanged := 0; mx_lastPATCC := 0xea;
       mx_now := Timeval 0 0; mx_writePackets := 0; mx_restartModel := 0; mx_restartReason := 0;
       mx_enableSectionCRCChecks := 0; mx_seCount := 0; mx_seArray := []; mx_cb := false; mx_calls := [] |};
  Some (Some ctx).

Definition ltntstools_streammodel_free (ctx : option streammodel_ctx_s) : option (option streammodel_ctx_s) :=
  match ctx with
  | None => Some None
  | Some ctx =>
      current ← _rom_initialize (mx_current ctx) (mr_nr (mx_current ctx));
      next ← _rom_initialize (mx_next ctx) (mr_nr (mx_next ctx));
      Some (Some (extractors_free (ctx <| mx_current := current |> <| mx_next := next |>)))
  end.

Definition ltntstools_streammodel_enable_tr101290_section_checks (ctx : streammodel_ctx_s) (cb : bool) : streammodel_ctx_s * Z :=
  (ctx <| mx_enableSectionCRCChecks := 1 |> <| mx_cb := cb |>, 0).
End Model.
