(* ===== verification/StreamModelInv.v ===== *)
(** * The invariant of the stream model

    What libdvbpsi promises and what is required of the stream, as two classes;
    the decoders of each PID; and what a model holds after the tables it took. *)
From Stdlib Require Import ZArith Lia Bool String.
From stdpp Require Import base numbers list option.
From coqutil Require Import Datatypes.RecordSettersUsingExistingGetters.
From S2P Require Import Prelude Ts SectionExtractor Clock Stats Descriptor Pat Tr101290Events Tr101290 Tr101290Spec StreamModel.

(** ** What libdvbpsi decodes *)

(** The fields of the tables, as dvbpsi documents them: a decoder gives tables
    of the kind it was attached for, that of a PMT those of its program number;
    numbers are not negative and PIDs have 13 bits. *)
Definition table_kind (a : attached) (t : table) : Prop :=
  match a, t with
  | AT_PAT, TABLE_PAT p => Forall (fun x => 0 <= x.1 /\ 0 <= x.2 < 8192) (p_first_program p)
  | AT_PMT n, TABLE_PMT t => i_program_number t = n /\ dvbpsi_pmt_ok t /\ Forall (fun es => 0 <= es_i_pid es < 8192) (p_first_es t)
  | AT_DEMUX, TABLE_SDT l => True
  | _, _ => False
  end.

(** [decodes pkts d a h]: decoder [d] was created, [a] was attached to it, and
    it was given packets of [pkts] only, from which it decoded the tables [h]. *)
Inductive decodes {PSI : Dvbpsi} (pkts : list Z -> Prop) : dvbpsi_t -> attached -> list table -> Prop :=
| decodes_pat d d' : dvbpsi_new = Some d -> dvbpsi_pat_attach d = Some d' -> decodes pkts d' AT_PAT []
| decodes_pmt d n d' : dvbpsi_new = Some d -> dvbpsi_pmt_attach d n = Some d' -> decodes pkts d' (AT_PMT n) []
| decodes_demux d d' : dvbpsi_new = Some d -> dvbpsi_AttachDemux d NewSubtable = Some d' -> decodes pkts d' AT_DEMUX []
| decodes_push d a h pkt : decodes pkts d a h -> pkts pkt ->
    decodes pkts (dvbpsi_packet_push d pkt).1 a (h ++ (dvbpsi_packet_push d pkt).2).

(** What libdvbpsi promises: whatever the packets, tables of the kind. *)
Class DvbpsiLaws (PSI : Dvbpsi) := {
  psi_tables : forall d a h pkt, decodes (fun _ => True) d a h -> Forall (table_kind a) (dvbpsi_packet_push d pkt).2
}.

(** There is memory for the decoders. *)
Class PsiMemory (PSI : Dvbpsi) := {
  psi_memory : exists d, dvbpsi_new = Some d /\ (exists d', dvbpsi_pat_attach d = Some d') /\
    (forall n, exists d', dvbpsi_pmt_attach d n = Some d') /\ (exists d', dvbpsi_AttachDemux d NewSubtable = Some d')
}.

(** ** What is required of the stream *)

Definition service_data (data : list Z) : Prop :=
  exists type provider name rest, data = type :: len provider :: provider ++ len name :: name ++ rest /\
    len provider <= 128 /\ len name <= 128.

(** At most one service descriptor for a service. *)
Definition service_ok (s : dvbpsi_sdt_service_t) : Prop :=
  exists before d after, sv_p_first_descriptor s = before ++ d ++ after /\
    Forall (fun d => i_tag d <> 0x48) before /\ Forall (fun d => i_tag d <> 0x48) after /\
    (length d <= 1)%nat /\ Forall (fun d => service_data (p_data d)) d.

(** The PATs place programs on the PIDs [pmt_pid] and the PMTs no stream on
    one of them. *)
Definition stream_table (pmt_pid : Z -> Prop) (t : table) : Prop :=
  match t with
  | TABLE_PAT p => Forall (fun x => 0 < x.1 -> pmt_pid x.2) (p_first_program p)
  | TABLE_PMT t => Forall (fun es => ~ pmt_pid (es_i_pid es)) (p_first_es t)
  | TABLE_SDT l => Forall service_ok l
  end.

(** The packets a caller writes are [in_stream]: the PIDs of its PMTs are
    [pmt_pid], no other table or stream is on one of them, and its services
    have the descriptors [service_ok] allows.  Nothing makes a multiplex be so:
    [es_on_pmt_aborts], [provider_overflows] and [second_descriptor_outside] in
    StreamModelSpec.v are what the code does with the others. *)
Class StreamOk (PSI : Dvbpsi) := {
  in_stream : list Z -> Prop;
  pmt_pid : Z -> Prop;
  pmt_pid_pat : ~ pmt_pid 0;
  pmt_pid_sdt : ~ pmt_pid 0x11;
  stream_tables : forall d a h pkt, decodes in_stream d a h -> in_stream pkt ->
    Forall (stream_table pmt_pid) (dvbpsi_packet_push d pkt).2
}.

Section Laws.
Context {PSI : Dvbpsi} {LAWS : DvbpsiLaws PSI} {STREAM : StreamOk PSI}.

Definition program_ok (x : Z * Z) : Prop := 0 <= x.1 /\ 0 <= x.2 < 8192 /\ (0 < x.1 -> pmt_pid x.2).
Definition es_ok (es : dvbpsi_pmt_es_t) : Prop := 0 <= es_i_pid es < 8192 /\ ~ pmt_pid (es_i_pid es).

(** What a callback is given. *)
Definition table_for (a : attached) (t : table) : Prop :=
  match a, t with
  | AT_PAT, TABLE_PAT p => Forall program_ok (p_first_program p)
  | AT_PMT n, TABLE_PMT t => i_program_number t = n /\ dvbpsi_pmt_ok t /\ Forall es_ok (p_first_es t)
  | AT_DEMUX, TABLE_SDT l => Forall service_ok l
  | _, _ => False
  end.

Lemma decodes_mono (P Q : list Z -> Prop) d a h : (forall pkt, P pkt -> Q pkt) -> decodes P d a h -> decodes Q d a h.
Proof. intros H. induction 1; [by eapply decodes_pat|by eapply decodes_pmt|by eapply decodes_demux|apply decodes_push; auto]. Qed.

Lemma kind_in_stream a t : table_kind a t -> stream_table pmt_pid t -> table_for a t.
Proof.
  destruct a, t; cbn; try done; rewrite !list.Forall_forall.
  - intros H1 H2 x Hx. destruct (H1 x Hx) as [? ?]. split; [done|]. split; [done|]. by apply H2.
  - intros (? & ? & H1) H2. split; [done|]. split; [done|]. intros x Hx. split; [by apply H1|by apply H2].
Qed.

(** A packet of the stream for a decoder of the stream. *)
Lemma psi_push d a h pkt : decodes in_stream d a h -> in_stream pkt ->
  decodes in_stream (dvbpsi_packet_push d pkt).1 a (h ++ (dvbpsi_packet_push d pkt).2) /\
  Forall (table_for a) (dvbpsi_packet_push d pkt).2.
Proof.
  intros Hd Hp. split; [by apply decodes_push|]. pose proof (stream_tables d a h pkt Hd Hp) as H1.
  pose proof (psi_tables d a h pkt (decodes_mono _ _ _ _ _ (fun _ _ => I) Hd)) as H2.
  apply list.Forall_forall. intros t Ht. apply kind_in_stream; [by eapply (proj1 (list.Forall_forall _ _) H2)|by eapply (proj1 (list.Forall_forall _ _) H1)].
Qed.

Lemma psi_new {MEMORY : PsiMemory PSI} : exists d, dvbpsi_new = Some d /\
  (exists d', dvbpsi_pat_attach d = Some d' /\ decodes in_stream d' AT_PAT []) /\
  (forall n, exists d', dvbpsi_pmt_attach d n = Some d' /\ decodes in_stream d' (AT_PMT n) []) /\
  (exists d', dvbpsi_AttachDemux d NewSubtable = Some d' /\ decodes in_stream d' AT_DEMUX []).
Proof.
  destruct psi_memory as (d & E & [d1 E1] & E2 & [d3 E3]). exists d. split; [done|]. split; [exists d1|split; [|exists d3]].
  - split; [done|]. by eapply decodes_pat.
  - intros n. destruct (E2 n) as [d2 Ed]. exists d2. split; [done|]. by eapply decodes_pmt.
  - split; [done|]. by eapply decodes_demux.
Qed.
End Laws.

(** ** The PIDs of a model *)

Section Spec.
Context {PSI : Dvbpsi} {LAWS : DvbpsiLaws PSI} {MEMORY : PsiMemory PSI} {STREAM : StreamOk PSI}.

(** A decoder is attached only where [pid_initialize] detaches it. *)
Definition decoder_ok (nr j : Z) (ptype : pidType_e) (q : streammodel_pid_parser_s) : Prop :=
  match mp_dvbpsi q with
  | None => True
  | Some (_, None) => False
  | Some (d, Some a) => (exists h, decodes in_stream d a h) /\
      match a with
      | AT_PAT => nr = 0 /\ j = 0 /\ ptype = PT_PAT
      | AT_DEMUX => nr = 0x11 /\ j = 0 /\ (ptype = PT_SDT \/ ptype = PT_ES)
      | AT_PMT n => pmt_pid nr /\ 0 < n /\ ptype = PT_PMT /\ mp_programNumber q = n
      end
  end.

Definition parser_ok (nr j : Z) (ptype : pidType_e) (q : streammodel_pid_parser_s) : Prop :=
  decoder_ok nr j ptype q /\ forall t, mp_pmt q = Some t -> dvbpsi_pmt_ok t.

Record pid_ok (nr : Z) (ps : streammodel_pid_s) : Prop := {
  po_parsers : len (md_parser ps) = 24;
  po_parser : forall j q, aget (md_parser ps) j = Some q -> parser_ok nr j (md_pidType ps) q;
  po_pat : forall p, md_pat ps = Some p -> Forall (program_ok) (p_first_program p)
}.

Record pid_clean (ps : streammodel_pid_s) : Prop := {
  pc_parsers : len (md_parser ps) = 24;
  pc_parser : Forall (fun q => mp_dvbpsi q = None /\ mp_pmt q = None) (md_parser ps);
  pc_pat : md_pat ps = None
}.

Lemma clean_ok nr ps : pid_clean ps -> pid_ok nr ps.
Proof.
  intros [H1 H2 H3]. constructor; [done| |by rewrite H3]. intros j q Hq. apply aget_Some in Hq as [_ Hq].
  destruct (Forall_lookup_1 _ _ _ _ H2 Hq) as [E1 E2]. split; [by unfold decoder_ok; rewrite E1|by rewrite E2].
Qed.

Lemma pid_zero_clean : pid_clean pid_zero.
Proof. constructor; [reflexivity| |done]. by apply Forall_replicate. Qed.

(** What [parser_release] copes with. *)
Definition releasable (ptype : pidType_e) (q : streammodel_pid_parser_s) : Prop :=
  match mp_dvbpsi q with
  | None => True
  | Some (_, None) => ptype <> PT_PMT
  | Some (_, Some (AT_PMT _)) => ptype = PT_PMT
  | _ => False
  end.

Lemma parser_release_spec ptype q : releasable ptype q ->
  exists q', parser_release ptype q = Some q' /\ mp_dvbpsi q' = None /\ mp_pmt q' = None /\ mp_programNumber q' = mp_programNumber q.
Proof.
  unfold releasable, parser_release, is_attached. change (mp_dvbpsi (q <| mp_pmt := None |>)) with (mp_dvbpsi q).
  destruct (mp_dvbpsi q) as [[d [[|n|]|]]|]; intros H; try done.
  - subst. rewrite bool_decide_eq_true_2 by done. cbn. by eexists.
  - rewrite bool_decide_eq_false_2 by done. cbn. by eexists.
  - rewrite andb_false_r. cbn. by eexists.
Qed.

Lemma release_all ptype l : Forall (releasable ptype) l ->
  exists l', mapM (parser_release ptype) l = Some l' /\ length l' = length l /\ Forall (fun q => mp_dvbpsi q = None /\ mp_pmt q = None) l'.
Proof.
  induction 1 as [|q l Hq _ (l' & E & El & Hl)]; [by exists []|]. destruct (parser_release_spec _ _ Hq) as (q' & Eq & H1 & H2 & _).
  cbn [mapM]. rewrite Eq. cbn. rewrite E. cbn. eexists. split; [done|]. split; [by cbn; rewrite El|]. by constructor.
Qed.

Lemma aget_insert {T} (l : list T) i j x : 0 <= i < len l -> aget (<[Z.to_nat i := x]> l) j = if j =? i then Some x else aget l j.
Proof.
  intros Hi. unfold aget, len in *. destruct (Z.eqb_spec j i) as [->|Hn].
  - destruct (Z.ltb_spec i 0); [lia|]. apply list_lookup_insert_eq. lia.
  - case_if; [done|]. apply list_lookup_insert_ne. lia.
Qed.

Lemma aget_insert0 {T} (l : list T) j x : 0 < len l -> aget (<[0%nat := x]> l) j = if j =? 0 then Some x else aget l j.
Proof. intros H. exact (aget_insert l 0 j x ltac:(lia)). Qed.

Lemma forall_aget {T} (P : T -> Prop) l : (forall j x, aget l j = Some x -> P x) -> Forall P l.
Proof. intros H. apply Forall_lookup_2. intros i x E. apply (H (Z.of_nat i)), aget_Some. split; [lia|by rewrite Nat2Z.id]. Qed.

Lemma pid_initialize_spec nr ps : pid_ok nr ps -> exists ps', pid_initialize nr ps = Some ps' /\ pid_clean ps' /\ md_packetCount ps' = 0.
Proof.
  intros [Hl Hp _]. unfold pid_initialize.
  match goal with |- context [aget (md_parser ?x) 0] => change (md_parser x) with (md_parser ps); change (md_pidType x) with (md_pidType ps);
    change (md_pid x) with nr; change (md_parser x) with (md_parser ps) end.
  destruct (aget_lt (md_parser ps) 0) as [p0 E0]; [lia|]. rewrite E0. step. destruct (Hp 0 p0 E0) as [Hd0 _]. unfold decoder_ok in Hd0.
  assert (forall q0 ptype, md_pidType ps = ptype -> releasable ptype q0 ->
    exists ps', (parser ← aset (md_parser ps) 0 q0; parser ← mapM (parser_release ptype) parser;
      Some (ps <| md_present := 0 |> <| md_pid := nr |> <| md_pat := None |> <| md_parser := parser |> <| md_packetCount := 0 |>)) = Some ps' /\
      pid_clean ps' /\ md_packetCount ps' = 0) as Hrest.
  { intros q0 ptype Et Hq0. rewrite aset_Some by lia. step. change (Z.to_nat 0) with 0%nat.
    destruct (release_all ptype (<[0%nat := q0]> (md_parser ps))) as (l' & -> & El & Hl').
    { apply forall_aget. intros j q. change 0%nat with (Z.to_nat 0). rewrite aget_insert by lia. destruct (Z.eqb_spec j 0) as [|Hj]; [by intros [= <-]|].
      intros Eq. destruct (Hp j q Eq) as [Hd _]. unfold decoder_ok in Hd. unfold releasable. rewrite <- Et.
      destruct (mp_dvbpsi q) as [[d [[|n|]|]]|]; try done; [by destruct Hd as (_ & _ & ? & _)|by destruct Hd as (_ & _ & _ & ? & _)|by destruct Hd as (_ & _ & ? & _)]. }
    cbn. eexists. split; [reflexivity|]. split; [|done]. constructor; [|exact Hl'|done]. unfold len. cbn. unfold const. rewrite El, length_insert. exact Hl. }
  unfold is_attached. destruct (mp_dvbpsi p0) as [[d [[|n|]|]]|] eqn:Ed; try done.
  - destruct Hd0 as (_ & -> & _ & Et). rewrite Et. cbn. apply (Hrest _ PT_PAT Et). by cbn.
  - destruct Hd0 as (_ & _ & _ & Et & _). rewrite Et. cbn. rewrite Ed, andb_false_r. cbn. apply (Hrest _ PT_PMT Et). by cbn.
  - destruct Hd0 as (_ & -> & _ & [Et|Et]); rewrite Et; cbn; rewrite Ed; cbn; apply (Hrest _ _ Et); by cbn.
  - rewrite andb_false_r. cbn. rewrite Ed, andb_false_r. cbn. apply (Hrest _ _ eq_refl). by cbn.
Qed.

(** ** What a model has gathered *)

Definition pid_at (rom : streammodel_rom_s) (nr : Z) : streammodel_pid_s := default pid_zero (mr_pids rom !! Z.to_nat nr).
Definition put (rom : streammodel_rom_s) (nr : Z) (ps : streammodel_pid_s) : streammodel_rom_s :=
  rom <| mr_pids := <[Z.to_nat nr := ps]> (mr_pids rom) |>.

(** Of a parser: the program's number, the PMT, the decoder of PMTs. *)
#[local] Notation "'shape'" := (Z * option dvbpsi_pmt_t * option (dvbpsi_t * Z))%type.
Definition shape_of (q : streammodel_pid_parser_s) : shape :=
  (mp_programNumber q, mp_pmt q, match mp_dvbpsi q with Some (d, Some (AT_PMT n)) => Some (d, n) | _ => None end).
Definition view (rom : streammodel_rom_s) (nr : Z) : list shape := map shape_of (md_parser (pid_at rom nr)).

(** The position of the last [n], or 0. *)
Definition last_index (n : Z) (l : list Z) : Z := (foldl (fun '(i, j) x => if x =? n then (j, j + 1) else (i, j + 1)) (0, 0) l).1.

Definition numbers (v : list shape) : list Z := map fst (map fst v).
Definition slots (n : Z) (v : list shape) : list dvbpsi_pmt_t := omap (fun x => if x.1 =? n then x.2 else None) (map fst v).
Definition of_program (n : Z) (pmts : list dvbpsi_pmt_t) : list dvbpsi_pmt_t := List.filter (fun t => i_program_number t =? n) pmts.
Definition last_pmt (n : Z) (pmts : list dvbpsi_pmt_t) : option dvbpsi_pmt_t :=
  list.last (of_program n pmts).
Definition wanted (p : dvbpsi_pat_t) : list (Z * Z) := List.filter (fun x => 0 <? x.1) (p_first_program p).

(** After one PAT and the PMTs [pmts].  [heard]: what the decoder of a program
    has given beyond these. *)
Record gathered (heard : Z -> list table) (p : dvbpsi_pat_t) (pmts : list dvbpsi_pmt_t) (rom : streammodel_rom_s) : Prop := {
  ga_pat : md_pat (pid_at rom 0) = Some p;
  ga_total : mr_totalPMTsInPAT rom = len (wanted p);
  ga_parsed : mr_parsedPMTs rom = len pmts;
  ga_decoders : forall nr j m t d n, 0 <= nr < 8192 -> view rom nr !! j = Some (m, t, Some (d, n)) ->
    (n, nr) ∈ wanted p /\ decodes in_stream d (AT_PMT n) (map TABLE_PMT (of_program n pmts) ++ heard n);
  ga_unique : forall nr j j' m m' t t' d d' n, 0 <= nr < 8192 -> view rom nr !! j = Some (m, t, Some (d, n)) ->
    view rom nr !! j' = Some (m', t', Some (d', n)) -> j = j';
  ga_slots : forall nr j m t k, 0 <= nr < 8192 -> view rom nr !! j = Some (m, Some t, k) ->
    last_index m (numbers (view rom nr)) = Z.of_nat j;
  ga_pmts : forall n nr, (n, nr) ∈ wanted p -> slots n (view rom nr) = option_list (last_pmt n pmts);
  ga_present : forall n nr, (n, nr) ∈ wanted p -> md_present (pid_at rom nr) <> 0;
  ga_complete : mr_modelComplete rom = 1 -> len (wanted p) <= len pmts;
  ga_from : Forall (fun t => exists nr, (i_program_number t, nr) ∈ wanted p) pmts
}.

Record gathers_nothing (rom : streammodel_rom_s) : Prop := {
  gn_pat : md_pat (pid_at rom 0) = None;
  gn_total : mr_totalPMTsInPAT rom = 0;
  gn_parsed : mr_parsedPMTs rom = 0;
  gn_complete : mr_modelComplete rom = 0;
  gn_view : forall nr, 0 <= nr < 8192 -> Forall (fun x : shape => x.1.2 = None /\ x.2 = None) (view rom nr)
}.

Definition history (heard : Z -> list table) (rom : streammodel_rom_s) : Prop :=
  match mr_tables rom with
  | [] => gathers_nothing rom
  | TABLE_PAT p :: ts => forall pmts, ts = map TABLE_PMT pmts -> NoDup (map fst (wanted p)) -> gathered heard p pmts rom
  | _ => False
  end.

Definition sdt_ok (s : streammodel_sdt_s) : Prop := len (sd_service_name s) = 128 /\ len (sd_service_provider s) = 128.

Record sdts_ok (rom : streammodel_rom_s) : Prop := {
  so_count : 0 <= mr_sdtCount rom <= 128;
  so_len : len (mr_sdt rom) = 128;
  so_entries : Forall sdt_ok (mr_sdt rom);
  so_types : Forall (fun s => sd_service_type s = 0) (take (Z.to_nat (mr_sdtCount rom)) (mr_sdt rom))
}.

Record base_ok (rom : streammodel_rom_s) : Prop := {
  bo_len : len (mr_pids rom) = 8192;
  bo_pids : forall nr, 0 <= nr < 8192 -> pid_ok nr (pid_at rom nr);
  bo_sdt : sdts_ok rom
}.

Record rom_ok (heard : Z -> list table) (rom : streammodel_rom_s) : Prop := {
  ro_base : base_ok rom;
  ro_pat : mr_tables rom <> [] -> is_Some (md_pat (pid_at rom 0));
  ro_complete : mr_modelComplete rom = 0 \/ mr_modelComplete rom = 1;
  ro_history : history heard rom
}.

Definition nothing (n : Z) : list table := [].

Lemma find_pid rom nr : len (mr_pids rom) = 8192 -> 0 <= nr < 8192 -> _rom_find_pid rom nr = Some (pid_at rom nr).
Proof.
  intros Hl Hn. unfold _rom_find_pid, pid_at. rewrite u16_id by lia. unfold aget. zdec.
  destruct (lookup_lt_is_Some_2 (mr_pids rom) (Z.to_nat nr)) as [ps ->]; [unfold len in Hl; lia|done].
Qed.

Lemma set_pid rom nr ps : len (mr_pids rom) = 8192 -> 0 <= nr < 8192 -> rom_set_pid rom nr ps = Some (put rom nr ps).
Proof. intros Hl Hn. unfold rom_set_pid. rewrite u16_id, aset_Some by lia. done. Qed.

Lemma pid_at_put rom nr ps nr' : len (mr_pids rom) = 8192 -> 0 <= nr < 8192 -> 0 <= nr' < 8192 ->
  pid_at (put rom nr ps) nr' = if nr' =? nr then ps else pid_at rom nr'.
Proof.
  intros Hl Hn Hn'. unfold pid_at, put. cbn. unfold const, len in *. destruct (Z.eqb_spec nr' nr) as [->|Hne].
  - by rewrite list_lookup_insert_eq by lia.
  - by rewrite list_lookup_insert_ne by lia.
Qed.

Lemma len_put rom nr ps : len (mr_pids (put rom nr ps)) = len (mr_pids rom).
Proof. unfold put, len. cbn. unfold const. by rewrite length_insert. Qed.

(** Two models that gathered the same. *)
Record same_view (rom rom' : streammodel_rom_s) : Prop := {
  sv_total : mr_totalPMTsInPAT rom' = mr_totalPMTsInPAT rom;
  sv_parsed : mr_parsedPMTs rom' = mr_parsedPMTs rom;
  sv_complete : mr_modelComplete rom' = mr_modelComplete rom;
  sv_tables : mr_tables rom' = mr_tables rom;
  sv_view : forall nr, 0 <= nr < 8192 -> view rom' nr = view rom nr;
  sv_pat : md_pat (pid_at rom' 0) = md_pat (pid_at rom 0);
  sv_present : forall nr, 0 <= nr < 8192 -> md_present (pid_at rom nr) <> 0 -> md_present (pid_at rom' nr) <> 0
}.

Lemma wanted_range rom p n nr : base_ok rom -> md_pat (pid_at rom 0) = Some p -> (n, nr) ∈ wanted p ->
  0 < n /\ 0 <= nr < 8192 /\ pmt_pid nr.
Proof.
  intros H E Hi. apply list_elem_of_In in Hi. apply filter_In in Hi as [Hi Hn]. cbn [fst] in Hn.
  assert (Hr := po_pat _ _ (bo_pids _ H 0 ltac:(lia)) p E). apply (proj1 (List.Forall_forall _ _) Hr) in Hi as (_ & H1 & H2).
  cbn [fst snd] in *. assert (0 < n) by lia. auto.
Qed.

Lemma history_same heard rom rom' : base_ok rom -> history heard rom -> same_view rom rom' -> history heard rom'.
Proof.
  intros Hr H [S1 S2 S3 S4 S5 S6 S7]. unfold history in *. rewrite S4. destruct (mr_tables rom) as [|[p| |] ts]; try done.
  - destruct H as [H1 H2 H3 H4 H5]. constructor; try congruence. intros nr Hn. rewrite S5 by done. auto.
  - intros pmts E Hd. destruct (H pmts E Hd) as [G1 G2 G3 G4 GU G5 G6 G7 G8 G9].
    assert (Hw := fun n nr => wanted_range rom p n nr Hr G1).
    constructor; try congruence; intros *.
    + intros Hn. rewrite S5 by done. by apply G4.
    + intros Hn. rewrite S5 by done. by apply GU.
    + intros Hn. rewrite S5 by done. by apply G5.
    + intros Hi. rewrite S5 by (by eapply Hw). auto.
    + intros Hi. apply S7; [by eapply Hw|by eapply G7].
    + rewrite S3. auto.
Qed.

Lemma base_put rom nr ps : base_ok rom -> 0 <= nr < 8192 -> pid_ok nr ps -> base_ok (put rom nr ps).
Proof.
  intros [Hl Hp Hs] Hn Hok. constructor; [by rewrite len_put| |by destruct Hs; constructor].
  intros nr' Hn'. rewrite pid_at_put by done. destruct (Z.eqb_spec nr' nr) as [->|]; auto.
Qed.

(** A PID changes, but not what was gathered. *)
Lemma put_ok heard rom nr ps : rom_ok heard rom -> 0 <= nr < 8192 -> pid_ok nr ps ->
  map shape_of (md_parser ps) = view rom nr -> (nr = 0 -> md_pat ps = md_pat (pid_at rom 0)) ->
  (md_present (pid_at rom nr) <> 0 -> md_present ps <> 0) ->
  rom_ok heard (put rom nr ps) /\ same_view rom (put rom nr ps).
Proof.
  intros [Hb H2 H3 H4] Hn Hp Hs Hpt Hpr. assert (Hl := bo_len _ Hb).
  assert (Hv : same_view rom (put rom nr ps)).
  { constructor; try done.
    - intros nr' Hn'. unfold view at 1. rewrite pid_at_put by done. by destruct (Z.eqb_spec nr' nr) as [->|].
    - rewrite pid_at_put by lia. destruct (Z.eqb_spec 0 nr) as [<-|]; auto.
    - intros nr' Hn'. rewrite pid_at_put by done. by destruct (Z.eqb_spec nr' nr) as [->|]. }
  split; [|done]. constructor; [by apply base_put| |exact H3|by apply (history_same heard rom)].
  rewrite (sv_pat _ _ Hv). exact H2.
Qed.

(** ** Initialisation *)

Lemma initialize_pids l : forall i, 0 <= i -> (forall k ps, l !! k = Some ps -> pid_ok (i + Z.of_nat k) ps) ->
  exists l', pids_initialize i l = Some l' /\ length l' = length l /\ Forall (fun ps => pid_clean ps /\ md_packetCount ps = 0) l'.
Proof.
  induction l as [|ps l IH]; intros i Hi Hok; [by exists []|]. cbn [pids_initialize].
  destruct (pid_initialize_spec i ps) as (ps' & -> & Hc); [replace i with (i + Z.of_nat 0) by lia; by apply Hok|]. step.
  destruct (IH (i + 1)) as (l' & -> & El & Hl'); [lia| |].
  { intros k x Hx. replace (i + 1 + Z.of_nat k) with (i + Z.of_nat (S k)) by lia. by apply Hok. }
  step. eexists. split; [done|]. split; [by cbn; rewrite El|by constructor].
Qed.

Lemma clean_view ps : pid_clean ps -> Forall (fun x : shape => x.1.2 = None /\ x.2 = None) (map shape_of (md_parser ps)).
Proof.
  intros [_ H _]. apply Forall_map. eapply List.Forall_impl; [|exact H]. intros q [E1 E2]. unfold shape_of. cbn. by rewrite E1, E2.
Qed.

Lemma rom_initialize_spec rom nr : base_ok rom ->
  exists rom', _rom_initialize rom nr = Some rom' /\ (forall heard, rom_ok heard rom') /\ mr_tables rom' = [] /\
    (forall n, 0 <= n < 8192 -> pid_clean (pid_at rom' n) /\ md_packetCount (pid_at rom' n) = 0) /\
    mr_sdt rom' = mr_sdt rom /\ mr_sdtCount rom' = mr_sdtCount rom /\ mr_nr rom' = nr.
Proof.
  intros [Hl Hp Hs]. unfold _rom_initialize.
  destruct (initialize_pids (mr_pids rom) 0) as (l' & E & El & Hc); [lia| |].
  { intros k ps Hk. assert (Hk' := lookup_lt_Some _ _ _ Hk). unfold len in Hl. specialize (Hp (Z.of_nat k) ltac:(lia)).
    unfold pid_at in Hp. by rewrite Nat2Z.id, Hk in Hp. }
  rewrite E. step.
  eexists. split; [reflexivity|]. cbn. unfold const.
  match goal with |- context [rom_ok _ ?r] => set (rom' := r) end.
  assert (Hat : forall nr, 0 <= nr < 8192 -> pid_clean (pid_at rom' nr) /\ md_packetCount (pid_at rom' nr) = 0).
  { intros n Hn. unfold pid_at. change (mr_pids rom') with l'. destruct (lookup_lt_is_Some_2 l' (Z.to_nat n)) as [ps Eq]; [unfold len in Hl; lia|].
    rewrite Eq. cbn. exact (Forall_lookup_1 _ _ _ _ Hc Eq). }
  split; [|done]. intros heard. constructor; try done.
  - constructor.
    + change (mr_pids rom') with l'. unfold len in *. by rewrite El.
    + intros n Hn. by apply clean_ok, Hat.
    + destruct Hs. by constructor.
  - by left.
  - unfold history. change (mr_tables rom') with (@nil table). constructor; try done; [by apply Hat|].
    intros n Hn. by apply clean_view, Hat.
Qed.

Lemma rom_zero_base : base_ok rom_zero.
Proof.
  constructor.
  - cbn [mr_pids rom_zero]. by rewrite len_replicate.
  - intros n Hn. apply clean_ok. unfold pid_at. cbn [mr_pids rom_zero]. rewrite lookup_replicate_2 by (unfold MAX_ROM_PIDS; lia). exact pid_zero_clean.
  - constructor; cbn [mr_sdt mr_sdtCount rom_zero]; [lia|reflexivity| |done]. by apply Forall_replicate.
Qed.

(** ** Decoders *)

Lemma pid_ok_insert nr ps j q : pid_ok nr ps -> 0 <= j < 24 -> parser_ok nr j (md_pidType ps) q ->
  pid_ok nr (ps <| md_parser := <[Z.to_nat j := q]> (md_parser ps) |>).
Proof.
  intros [H1 H2 H3] Hj Hq. constructor; [|intros i x|done].
  - cbn. unfold const. unfold len in *. by rewrite length_insert.
  - cbn. unfold const. rewrite aget_insert by lia. destruct (Z.eqb_spec i j) as [->|]; [by intros [= <-]|apply H2].
Qed.

Lemma map_insert {A B} (f : A -> B) l i x : map f (<[i := x]> l) = <[i := f x]> (map f l).
Proof. exact (list_fmap_insert f l i x). Qed.

Lemma lookup_map {A B} (f : A -> B) l i : map f l !! i = f <$> l !! i.
Proof. exact (list_lookup_fmap f l i). Qed.

Lemma map_insert_same {A B} (f : A -> B) l i x y : l !! i = Some x -> f y = f x -> map f (<[i := y]> l) = map f l.
Proof. intros E Hf. rewrite map_insert, Hf. apply list_insert_id. by rewrite lookup_map, E. Qed.

Lemma shape_insert (l : list streammodel_pid_parser_s) j q q' : aget l j = Some q -> shape_of q' = shape_of q ->
  map shape_of (<[Z.to_nat j := q']> l) = map shape_of l.
Proof. intros [_ E]%aget_Some Hs. by eapply map_insert_same. Qed.

(** The parser [j] of a PID takes another form of its decoder. *)
Definition with_decoder (rom : streammodel_rom_s) (nr j : Z) (q : streammodel_pid_parser_s) (h : dvbpsi_t * option attached)
    : streammodel_rom_s :=
  let ps := pid_at rom nr in put rom nr (ps <| md_parser := <[Z.to_nat j := set_dvbpsi (Some h) q]> (md_parser ps) |>).

Lemma parser_at rom nr j : base_ok rom -> 0 <= nr < 8192 -> 0 <= j < 24 -> exists q,
  aget (md_parser (pid_at rom nr)) j = Some q /\ parser_ok nr j (md_pidType (pid_at rom nr)) q.
Proof.
  intros H Hn Hj. destruct (bo_pids _ H nr Hn) as [H1 H2 _]. destruct (aget_lt (md_parser (pid_at rom nr)) j) as [q E]; [lia|].
  exists q. split; [done|by apply H2].
Qed.

(** A decoder of PATs or SDTs: what was gathered stays. *)
Lemma store_other heard rom nr j q d a d' : rom_ok heard rom -> 0 <= nr < 8192 -> 0 <= j < 24 ->
  aget (md_parser (pid_at rom nr)) j = Some q -> mp_dvbpsi q = Some (d, Some a) -> (forall n, a <> AT_PMT n) ->
  (exists h, decodes in_stream d' a h) ->
  let rom' := with_decoder rom nr j q (d', Some a) in rom_ok heard rom' /\ same_view rom rom'.
Proof.
  intros H Hn Hj Hq Ed Ha Hd. cbv zeta. assert (Hp := bo_pids _ (ro_base _ _ H) nr Hn). destruct (po_parser _ _ Hp j q Hq) as [Hdq Ht].
  apply put_ok; [done|done| | |by intros ->|done].
  - apply pid_ok_insert; try done. split; [|exact Ht]. unfold decoder_ok in *. rewrite Ed in Hdq. cbn. unfold const.
    destruct a as [|n|]; [tauto|by destruct (Ha n)|tauto].
  - cbn. unfold const. unfold view. apply (shape_insert _ j q); [done|]. unfold shape_of. rewrite Ed. cbn. unfold const.
    destruct a as [|n|]; [done|by destruct (Ha n)|done].
Qed.

Lemma view_insert rom nr j q h nr' : base_ok rom -> 0 <= nr < 8192 -> 0 <= nr' < 8192 ->
  view (with_decoder rom nr j q h) nr' =
  if nr' =? nr then <[Z.to_nat j := shape_of (set_dvbpsi (Some h) q)]> (view rom nr) else view rom nr'.
Proof.
  intros H Hn Hn'. unfold view, with_decoder. rewrite pid_at_put by (done || apply H). destruct (Z.eqb_spec nr' nr) as [->|]; [|done].
  cbn. unfold const. by rewrite map_insert.
Qed.

Definition upd_heard (heard : Z -> list table) (n : Z) (ts : list table) (m : Z) : list table := if m =? n then ts else heard m.

Lemma numbers_unique p n nr nr' : NoDup (map fst (wanted p)) -> (n, nr) ∈ wanted p -> (n, nr') ∈ wanted p -> nr = nr'.
Proof.
  intros Hd H1 H2. apply list_elem_of_lookup in H1 as [i Hi]. apply list_elem_of_lookup in H2 as [k Hk].
  assert (i = k) as ->; [|congruence]. eapply NoDup_lookup; [exact Hd| |]; rewrite lookup_map; [by rewrite Hi|by rewrite Hk].
Qed.

(** One decoder of the view is ahead. *)
Lemma gathered_ahead p pmts rom rom' nr k m t d n d' ts : base_ok rom -> gathered nothing p pmts rom -> NoDup (map fst (wanted p)) ->
  0 <= nr < 8192 -> view rom nr !! k = Some (m, t, Some (d, n)) ->
  (forall nr', 0 <= nr' < 8192 -> view rom' nr' = if nr' =? nr then <[k := (m, t, Some (d', n))]> (view rom nr) else view rom nr') ->
  (forall nr', 0 <= nr' < 8192 -> md_pat (pid_at rom' nr') = md_pat (pid_at rom nr') /\ md_present (pid_at rom' nr') = md_present (pid_at rom nr')) ->
  mr_totalPMTsInPAT rom' = mr_totalPMTsInPAT rom -> mr_parsedPMTs rom' = mr_parsedPMTs rom -> mr_modelComplete rom' = mr_modelComplete rom ->
  (forall h, decodes in_stream d (AT_PMT n) h -> decodes in_stream d' (AT_PMT n) (h ++ ts)) ->
  gathered (upd_heard nothing n ts) p pmts rom'.
Proof.
  intros Hb [G1 G2 G3 G4 GU G5 G6 G7 G8 G9] Hnd Hn Hk Hv Hpp T1 T2 T3 Hd.
  assert (Hw := fun n nr => wanted_range rom p n nr Hb G1).
  assert (Hat : forall nr' j x, 0 <= nr' < 8192 -> view rom' nr' !! j = Some x -> exists y, view rom nr' !! j = Some y /\ y.1 = x.1 /\
    (nr' = nr /\ j = k /\ x.2 = Some (d', n) /\ y.2 = Some (d, n) \/ x.2 = y.2)).
  { intros nr' j x Hn' Hj. rewrite Hv in Hj by done. destruct (Z.eqb_spec nr' nr) as [->|]; [|by exists x; auto].
    destruct (decide (j = k)) as [->|Hjk].
    - rewrite list_lookup_insert_eq in Hj by (by eapply lookup_lt_Some). injection Hj as <-. eexists. split; [exact Hk|]. auto 10.
    - rewrite list_lookup_insert_ne in Hj by done. exists x. auto. }
  assert (Hfst : forall nr', 0 <= nr' < 8192 -> map fst (view rom' nr') = map fst (view rom nr')).
  { intros nr' Hn'. rewrite Hv by done. destruct (Z.eqb_spec nr' nr) as [->|]; [|done]. by apply (map_insert_same _ _ _ _ _ Hk). }
  assert (Hnum : forall nr', 0 <= nr' < 8192 -> numbers (view rom' nr') = numbers (view rom nr')) by (intros; unfold numbers; by rewrite Hfst).
  assert (Hsl : forall c nr', 0 <= nr' < 8192 -> slots c (view rom' nr') = slots c (view rom nr')) by (intros; unfold slots; by rewrite Hfst).
  constructor; try congruence.
  - by rewrite (proj1 (Hpp 0 ltac:(lia))).
  - intros nr' j m' t' e n' Hn' Hj. destruct (Hat _ _ _ Hn' Hj) as ([[m2 t2] y2] & Hy & _ & [(-> & -> & E1 & E2)|E]); cbn [fst snd] in *.
    + injection E1 as -> ->. subst y2. destruct (G4 _ _ _ _ _ _ Hn Hy) as [Hi Hdd]. split; [done|]. unfold upd_heard. rewrite Z.eqb_refl.
      unfold nothing in Hdd. rewrite app_nil_r in Hdd. by apply Hd.
    + subst y2. destruct (G4 _ _ _ _ _ _ Hn' Hy) as [Hi Hdd]. split; [done|]. unfold upd_heard. destruct (Z.eqb_spec n' n) as [->|]; [|done].
      assert (nr' = nr) as -> by (eapply numbers_unique; [done|done|by eapply G4]).
      assert (j = k) as -> by exact (GU _ _ _ _ _ _ _ _ _ _ Hn Hy Hk).
      rewrite Hv, Z.eqb_refl, list_lookup_insert_eq in Hj by (done || by eapply lookup_lt_Some). injection Hj as -> -> ->.
      rewrite Hk in Hy. injection Hy as <- <- <-. unfold nothing in Hdd. rewrite app_nil_r in Hdd. by apply Hd.
  - intros nr' j j' m1 m2 t1 t2 d1 d2 n' Hn' H1 H2. destruct (Hat _ _ _ Hn' H1) as ([[? ?] y1] & Hy1 & _ & C1).
    destruct (Hat _ _ _ Hn' H2) as ([[? ?] y2] & Hy2 & _ & C2). cbn [fst snd] in *.
    assert (exists e1, y1 = Some (e1, n')) as [e1 ->] by (destruct C1 as [(_ & _ & [= _ ->] & ->)|<-]; by eexists).
    assert (exists e2, y2 = Some (e2, n')) as [e2 ->] by (destruct C2 as [(_ & _ & [= _ ->] & ->)|<-]; by eexists).
    exact (GU _ _ _ _ _ _ _ _ _ _ Hn' Hy1 Hy2).
  - intros nr' j m' t' x Hn' Hj. destruct (Hat _ _ _ Hn' Hj) as ([[m2 t2] y2] & Hy & E & _). cbn [fst snd] in E. injection E as -> ->.
    rewrite Hnum by done. by apply (G5 _ _ _ _ _ Hn' Hy).
  - intros c nr' Hi. rewrite Hsl by (by eapply Hw). auto.
  - intros c nr' Hi. destruct (Hw _ _ Hi) as (_ & Hr & _). rewrite (proj2 (Hpp nr' Hr)). by eapply G7.
  - rewrite T3. auto.
Qed.

(** A decoder of PMTs: it is ahead by what it gives. *)
Lemma store_pmt rom nr j q d n d' ts : rom_ok nothing rom -> 0 <= nr < 8192 -> 0 <= j < 24 ->
  aget (md_parser (pid_at rom nr)) j = Some q -> mp_dvbpsi q = Some (d, Some (AT_PMT n)) ->
  (forall h, decodes in_stream d (AT_PMT n) h -> decodes in_stream d' (AT_PMT n) (h ++ ts)) ->
  rom_ok (upd_heard nothing n ts) (with_decoder rom nr j q (d', Some (AT_PMT n))).
Proof.
  intros [Hb H2 H3 H4] Hn Hj Hq Ed Hd. assert (Hp := bo_pids _ Hb nr Hn). destruct (po_parser _ _ Hp j q Hq) as [Hdq Ht].
  assert (Hq' := Hq). apply aget_Some in Hq' as [_ Hq'].
  assert (Hw : view rom nr !! Z.to_nat j = Some (mp_programNumber q, mp_pmt q, Some (d, n))).
  { unfold view. rewrite lookup_map, Hq'. cbn. unfold shape_of. by rewrite Ed. }
  set (rom' := with_decoder _ _ _ _ _).
  assert (Hpp : forall nr', 0 <= nr' < 8192 -> md_pat (pid_at rom' nr') = md_pat (pid_at rom nr') /\ md_present (pid_at rom' nr') = md_present (pid_at rom nr')).
  { intros nr' Hn'. unfold rom', with_decoder. rewrite pid_at_put by (done || apply Hb). by destruct (Z.eqb_spec nr' nr) as [->|]. }
  constructor.
  - apply base_put; [done|done|]. apply pid_ok_insert; [done|done|]. split; [|exact Ht]. unfold decoder_ok in *. rewrite Ed in Hdq.
    cbn. unfold const. destruct Hdq as [[h Hh] ?]. split; [by exists (h ++ ts); apply Hd|done].
  - rewrite (proj1 (Hpp 0 ltac:(lia))). exact H2.
  - exact H3.
  - unfold history in *. change (mr_tables rom') with (mr_tables rom). destruct (mr_tables rom) as [|[p| |] tl]; try done.
    + pose proof (Forall_lookup_1 _ _ _ _ (gn_view _ H4 nr Hn) Hw) as [_ Hx]. done.
    + intros pmts E Hnd. eapply (gathered_ahead p pmts rom); try done; [by apply H4|]. intros nr' Hn'. by apply view_insert.
Qed.

(** The first parser of a PID that has no PMTs gets a decoder. *)
Lemma new_decoder heard rom nr ptype d a : rom_ok heard rom -> 0 <= nr < 8192 -> ~ pmt_pid nr ->
  (forall t q, mp_dvbpsi q = Some (d, Some a) -> parser_ok nr 0 ptype (q <| mp_pmt := t |>) <-> (forall x, t = Some x -> dvbpsi_pmt_ok x)) ->
  (forall j q, j <> 0 -> parser_ok nr j (md_pidType (pid_at rom nr)) q -> parser_ok nr j ptype q) -> (forall n, a <> AT_PMT n) ->
  exists ps', set_parser0 (d, Some a) ((pid_at rom nr) <| md_present := 1 |> <| md_pidType := ptype |>) = Some ps' /\
    md_pat ps' = md_pat (pid_at rom nr) /\ md_packetCount ps' = md_packetCount (pid_at rom nr) /\
    (exists q, aget (md_parser ps') 0 = Some q /\ mp_dvbpsi q = Some (d, Some a)) /\
    forall c, rom_ok heard (put rom nr (ps' <| md_packetCount := c |>)) /\ same_view rom (put rom nr (ps' <| md_packetCount := c |>)).
Proof.
  intros H Hn Hpm Hok Hother Ha. assert (Hp := bo_pids _ (ro_base _ _ H) nr Hn). destruct Hp as [P1 P2 P3].
  destruct (parser_at rom nr 0 (ro_base _ _ H) Hn ltac:(lia)) as (q & Eq & Hd & Ht). unfold set_parser0.
  change (md_parser (_ <| md_pidType := ptype |>)) with (md_parser (pid_at rom nr)). rewrite Eq. step. rewrite aset_Some by lia. step.
  eexists. split; [reflexivity|]. split; [done|]. split; [done|]. split.
  { exists (set_dvbpsi (Some (d, Some a)) q). split; [|done].
    change (aget (<[0%nat := set_dvbpsi (Some (d, Some a)) q]> (md_parser (pid_at rom nr))) 0 = Some (set_dvbpsi (Some (d, Some a)) q)).
    by rewrite aget_insert0 by lia. }
  intros c. apply put_ok; [done|done| |cbn; unfold const|by intros ->|done].
  - constructor; [| |exact P3]; cbn; unfold const; [by rewrite len_insert|]. intros j x.
    rewrite aget_insert0 by lia. destruct (Z.eqb_spec j 0) as [->|Hj].
    + intros [= <-]. specialize (Hok (mp_pmt q) (set_dvbpsi (Some (d, Some a)) q) eq_refl). by apply Hok.
    + intros Hx. apply Hother; [done|]. by apply P2.
  - apply (shape_insert _ 0 q); [done|]. unfold shape_of. cbn. unfold const. f_equal. unfold decoder_ok in Hd.
    assert (match mp_dvbpsi q with Some (d, Some (AT_PMT n)) => Some (d, n) | _ => None end = @None (dvbpsi_t * Z)) as ->.
    { destruct (mp_dvbpsi q) as [[e [[|n|]|]]|]; try done. by destruct Hd as (_ & ? & _). }
    destruct a as [|n|]; [done|by destruct (Ha n)|done].
Qed.

Definition other_fields (ctx ctx' : streammodel_ctx_s) : Prop := ctx' = ctx <| mx_next := mx_next ctx' |>.

(** The other PIDs stay what they are. *)
Definition except (P : Z -> Prop) (rom rom' : streammodel_rom_s) : Prop :=
  forall nr, 0 <= nr < 8192 -> ~ P nr -> pid_at rom' nr = pid_at rom nr.

Lemma put_except rom nr ps : len (mr_pids rom) = 8192 -> 0 <= nr < 8192 -> except (eq nr) rom (put rom nr ps).
Proof. intros Hl Hn nr' Hn' Hne. rewrite pid_at_put by done. destruct (Z.eqb_spec nr' nr) as [->|]; [done|done]. Qed.

Lemma sdt_decoder_spec heard ctx pid : rom_ok heard (mx_next ctx) -> 0 <= pid < 8192 ->
  exists rom', sdt_decoder ctx pid = Some (ctx <| mx_next := rom' |>) /\ rom_ok heard rom' /\ same_view (mx_next ctx) rom' /\
    except (eq 0x11) (mx_next ctx) rom'.
Proof.
  pose proof pmt_pid_sdt as Hsdt. intros H Hn. assert (Hb := ro_base _ _ H). unfold sdt_decoder. rewrite find_pid by (done || apply Hb). step.
  destruct (Z.eqb_spec pid 0x11) as [->|]; cbn [andb]; [|exists (mx_next ctx); split; [by destruct ctx|]; split; [done|]; split; [by constructor|by intros nr]].
  destruct (md_packetCount _ =? 0); [|exists (mx_next ctx); split; [by destruct ctx|]; split; [done|]; split; [by constructor|by intros nr]].
  destruct (psi_new) as (d & -> & _ & _ & d' & E & Hd). step. rewrite E.
  destruct (new_decoder heard (mx_next ctx) 0x11 PT_SDT d' AT_DEMUX H Hn pmt_pid_sdt) as (ps' & -> & _ & _ & _ & Hput).
  - intros t q Eq. unfold parser_ok, decoder_ok. cbn. unfold const. rewrite Eq. split; [tauto|]. intros ?. split; [|done]. split; [by eexists|tauto].
  - intros j q Hj [Hq Ht]. split; [|done]. unfold decoder_ok in *. destruct (mp_dvbpsi q) as [[e [[|n|]|]]|]; try done; tauto.
  - done.
  - step. rewrite set_pid by (lia || apply Hb). step. eexists. split; [reflexivity|]. destruct (Hput (u64 (md_packetCount ps' + 1))) as [H1 H2].
    split; [exact H1|]. split; [exact H2|]. by apply put_except; [apply Hb|].
Qed.

Lemma pat_decoder_spec heard ctx pid : rom_ok heard (mx_next ctx) -> 0 <= pid < 8192 ->
  exists rom', pat_decoder ctx pid = Some (ctx <| mx_next := rom' |>) /\ rom_ok heard rom' /\ same_view (mx_next ctx) rom' /\
    except (eq 0) (mx_next ctx) rom' /\
    (pid = 0 -> md_packetCount (pid_at (mx_next ctx) 0) = 0 -> exists q d, aget (md_parser (pid_at rom' 0)) 0 = Some q /\
       mp_dvbpsi q = Some (d, Some AT_PAT) /\ decodes in_stream d AT_PAT [] /\ md_packetCount (pid_at rom' 0) = 0) /\
    (pid <> 0 \/ md_packetCount (pid_at (mx_next ctx) 0) <> 0 -> rom' = mx_next ctx).
Proof.
  pose proof pmt_pid_pat as Hpat. intros H Hn. assert (Hb := ro_base _ _ H). unfold pat_decoder. rewrite find_pid by (done || apply Hb). step.
  assert (Hstay : pid <> 0 \/ md_packetCount (pid_at (mx_next ctx) 0) <> 0 -> exists rom', Some ctx = Some (ctx <| mx_next := rom' |>) /\
    rom_ok heard rom' /\ same_view (mx_next ctx) rom' /\ except (eq 0) (mx_next ctx) rom' /\
    (pid = 0 -> md_packetCount (pid_at (mx_next ctx) 0) = 0 -> exists q d, aget (md_parser (pid_at rom' 0)) 0 = Some q /\
       mp_dvbpsi q = Some (d, Some AT_PAT) /\ decodes in_stream d AT_PAT [] /\ md_packetCount (pid_at rom' 0) = 0) /\
    (pid <> 0 \/ md_packetCount (pid_at (mx_next ctx) 0) <> 0 -> rom' = mx_next ctx)).
  { intros Hc. exists (mx_next ctx). split; [by destruct ctx|]. split; [done|]. split; [by constructor|]. split; [by intros nr|]. split; [|done].
    intros -> E. destruct Hc; done. }
  destruct (Z.eqb_spec pid 0) as [->|]; cbn [andb]; [|by apply Hstay; left].
  destruct (Z.eqb_spec (md_packetCount (pid_at (mx_next ctx) 0)) 0) as [E0|]; [|by apply Hstay; right]. clear Hstay.
  destruct (psi_new) as (d & -> & (d' & E & Hd) & _). step. rewrite E. step.
  destruct (new_decoder heard (mx_next ctx) 0 PT_PAT d' AT_PAT H Hn pmt_pid_pat) as (ps' & -> & _ & Ec & (q & Eq & Ed) & Hput).
  - intros t q Eq. unfold parser_ok, decoder_ok. cbn. unfold const. rewrite Eq. split; [tauto|]. intros ?. split; [|done]. split; [by eexists|tauto].
  - intros j q Hj [Hq Ht]. split; [|done]. unfold decoder_ok in *. destruct (mp_dvbpsi q) as [[e [[|n|]|]]|]; try done; [tauto|tauto|by destruct Hq as (_ & ? & _)].
  - done.
  - step. rewrite set_pid by (lia || apply Hb). step. eexists. split; [reflexivity|].
    destruct (Hput (md_packetCount ps')) as [H1 H2]. replace (ps' <| md_packetCount := md_packetCount ps' |>) with ps' in * by (by destruct ps').
    split; [exact H1|]. split; [exact H2|]. split; [by apply put_except; [apply Hb|]|]. split.
    + intros _ _. exists q, d'. rewrite pid_at_put by (lia || apply Hb). rewrite Z.eqb_refl. split; [done|]. split; [done|]. split; [done|congruence].
    + intros [?|?]; done.
Qed.

Lemma mark_es_spec heard rom es : rom_ok heard rom -> es_ok es ->
  exists rom', mark_es rom es = Some rom' /\ rom_ok heard rom' /\ same_view rom rom' /\ except (eq (es_i_pid es)) rom rom' /\ pid_at rom' 0 = pid_at rom 0.
Proof.
  intros H [Hr Hn]. assert (Hb := ro_base _ _ H). unfold mark_es. destruct (Z.leb_spec 0x10 (es_i_pid es)).
  2: { exists rom. split; [done|]. split; [done|]. split; [by constructor|]. split; [by intros nr|done]. }
  rewrite find_pid by (done || apply Hb). step. rewrite set_pid by (done || apply Hb). eexists. split; [reflexivity|].
  destruct (bo_pids _ Hb _ Hr) as [P1 P2 P3].
  match goal with |- context [put rom _ ?x] => destruct (put_ok heard rom (es_i_pid es) x H Hr) as [X1 X2]; [|done|lia|done|] end.
  - constructor; [done| |done]. intros j q Hq. destruct (P2 j q Hq) as [Hd Ht]. split; [|done]. unfold decoder_ok in *. cbn. unfold const.
    destruct (mp_dvbpsi q) as [[e [[|n|]|]]|]; try done.
    + destruct Hd as (_ & ? & _). lia.
    + by destruct Hd as (_ & ? & _).
    + tauto.
  - split; [exact X1|]. split; [exact X2|]. split; [by apply put_except; [apply Hb|]|]. rewrite pid_at_put by (lia || apply Hb).
    destruct (Z.eqb_spec 0 (es_i_pid es)); [lia|done].
Qed.

(** ** Services *)

Lemma service_descriptor_spec data sdt : service_data data -> sdt_ok sdt -> exists sdt', service_descriptor data sdt = Some sdt' /\
  sdt_ok sdt' /\ sd_service_type sdt' = sd_service_type sdt.
Proof.
  intros (type & provider & name & rest & -> & Hp & Hn) [S1 S2]. pose proof (len_nonneg provider). pose proof (len_nonneg name). pose proof (len_nonneg rest).
  unfold service_descriptor. change (rd (type :: ?x :: ?l) 1) with (Some x). step.
  change (type :: len provider :: provider ++ len name :: name ++ rest) with ((type :: len provider :: provider) ++ len name :: name ++ rest).
  rewrite rd_mid by (rewrite !len_cons; lia). step.
  assert (exists l, (if len provider =? 0 then Some (sd_service_provider sdt) else
    strncpy (sd_service_provider sdt) (drop 2 ((type :: len provider :: provider) ++ len name :: name ++ rest)) (len provider)) = Some l /\ len l = 128) as (l1 & -> & L1).
  { destruct (_ =? 0); [by eexists|]. rewrite <- S2. apply strncpy_spec; [lia|]. change (drop 2 _) with (provider ++ len name :: name ++ rest). rewrite len_app. pose proof (len_nonneg (len name :: name ++ rest)). lia. }
  step.
  assert (exists l, (if len name =? 0 then Some (sd_service_name sdt) else
    strncpy (sd_service_name sdt) (drop (Z.to_nat (2 + len provider + 1)) ((type :: len provider :: provider) ++ len name :: name ++ rest)) (len name)) = Some l /\ len l = 128) as (l2 & -> & L2).
  { destruct (_ =? 0); [by eexists|]. rewrite <- S1. apply strncpy_spec; [lia|].
    rewrite len_drop; rewrite ?len_app, ?len_cons, ?len_app; lia. }
  step. eexists. split; [reflexivity|]. done.
Qed.

Definition same_but_sdt (rom rom' : streammodel_rom_s) : Prop := rom' = rom <| mr_sdt := mr_sdt rom' |> <| mr_sdtCount := mr_sdtCount rom' |>.

Lemma same_sdt_trans a b c : same_but_sdt a b -> same_but_sdt b c -> same_but_sdt a c.
Proof. unfold same_but_sdt. destruct a, b, c. cbn. unfold const. intros [=] [=]. by subst. Qed.

Lemma sdt_add_spec rom sdt : sdts_ok rom -> sdt_ok sdt -> sd_service_type sdt = 0 ->
  exists rom' r, sdt_add rom sdt = Some (rom', r) /\ sdts_ok rom' /\ same_but_sdt rom rom'.
Proof.
  intros [S1 S2 S3 S4] Hs Ht. unfold sdt_add. unfold MAX_SDT_ENTRIES. destruct (Z.leb_spec 128 (mr_sdtCount rom)); [by exists rom, (-1); destruct rom|].
  rewrite find_in_spec by lia. step. destruct (head _); [by exists rom, 0; destruct rom|]. rewrite aset_Some by lia. step.
  eexists _, _. split; [reflexivity|]. split; [|reflexivity]. constructor; cbn; unfold const.
  - lia.
  - by rewrite len_insert.
  - by apply Forall_insert.
  - replace (Z.to_nat (mr_sdtCount rom + 1)) with (S (Z.to_nat (mr_sdtCount rom))) by lia.
    erewrite take_S_r by (apply list_lookup_insert_eq; unfold len in S2; lia). rewrite take_insert_ge by lia.
    apply Forall_app. split; [exact S4|by apply Forall_singleton].
Qed.

Lemma sdt_descriptor_spec rom sdt d : sdts_ok rom -> mr_sdtCount rom < 128 -> sdt_ok sdt -> sd_service_type sdt = 0 -> service_data (p_data d) ->
  exists rom' sdt', sdt_descriptor (rom, sdt) d = Some (rom', sdt') /\ sdts_ok rom' /\ same_but_sdt rom rom'.
Proof.
  intros [S1 S2 S3 S4] Hc Hs Ht Hd. unfold sdt_descriptor. destruct (i_tag d =? 0x48); [|exists rom, sdt; split; [done|]; split; [done|by destruct rom]].
  destruct (aget_lt (mr_sdt rom) (mr_sdtCount rom)) as [e Ee]; [lia|]. rewrite Ee. step.
  assert (exists c, rd (p_data d) 0 = Some c) as [c ->] by (destruct Hd as (type & ? & ? & ? & -> & _); by exists type). step.
  rewrite aset_Some by lia. step. destruct (service_descriptor_spec (p_data d) sdt Hd Hs) as (sdt' & -> & Hs' & Ht'). step.
  match goal with |- context [sdt_add ?r _] => set (rom1 := r) end. assert (He := Ee). apply aget_Some in He as [_ He].
  destruct (sdt_add_spec rom1 sdt') as (rom' & r & -> & Hok & Hsame); [|done|congruence|].
  - constructor; cbn; unfold const; [done|by rewrite len_insert| |by rewrite take_insert_ge by lia].
    apply Forall_insert; [done|]. apply (Forall_lookup_1 _ _ _ _ S3 He).
  - step. exists rom', sdt'. split; [done|]. split; [done|]. eapply same_sdt_trans; [|exact Hsame]. reflexivity.
Qed.

Lemma skip_descriptors ds st : Forall (fun d => i_tag d <> 0x48) ds -> foldM sdt_descriptor ds st = Some st.
Proof.
  induction 1 as [|d ds Hd _ IH]; [done|]. cbn [foldM]. replace (sdt_descriptor st d) with (Some st); [exact IH|]. destruct st as [rom sdt].
  unfold sdt_descriptor. by destruct (Z.eqb_spec (i_tag d) 0x48).
Qed.

Lemma sdt_services_spec l : forall rom, sdts_ok rom -> Forall service_ok l ->
  exists rom', sdt_services l rom = Some rom' /\ sdts_ok rom' /\ same_but_sdt rom rom'.
Proof.
  induction l as [|s l IH]; intros rom Hr Hl; cbn [sdt_services]; [by exists rom; destruct rom|]. unfold MAX_SDT_ENTRIES.
  destruct (Z.leb_spec 128 (mr_sdtCount rom)); [by exists rom; destruct rom|].
  apply Forall_cons_1 in Hl as [(before & d & after & -> & Hb & Ha & Hd & Hdd) Hl].
  set (sdt := sdt_zero <| sd_service_id := i_service_id s |>).
  assert (exists rom' sdt', foldM sdt_descriptor (before ++ d ++ after) (rom, sdt) = Some (rom', sdt') /\ sdts_ok rom' /\ same_but_sdt rom rom')
    as (rom' & sdt' & -> & Hr' & Hsame).
  { rewrite foldM_app, skip_descriptors by done. step. rewrite foldM_app. destruct d as [|d [|]]; [|step; cbn [foldM]|cbn in Hd; lia].
    - cbn [foldM]. step. rewrite skip_descriptors by done. exists rom, sdt. split; [done|]. split; [done|by destruct rom].
    - apply Forall_cons_1 in Hdd as [Hdd _]. destruct (sdt_descriptor_spec rom sdt d Hr) as (rom' & sdt' & -> & ? & ?); try done.
      step. rewrite skip_descriptors by done. by exists rom', sdt'. }
  step. destruct (IH rom' Hr' Hl) as (rom2 & -> & H2 & Hsame2). exists rom2. split; [done|]. split; [done|]. by eapply same_sdt_trans.
Qed.

Lemma same_sdt_ok heard rom rom' : rom_ok heard rom -> sdts_ok rom' -> same_but_sdt rom rom' -> rom_ok heard rom' /\ same_view rom rom' /\ except (fun _ => False) rom rom'.
Proof.
  intros [[H1 H2 H3] H4 H5 H6] Hs E. unfold same_but_sdt in E. revert E. generalize (mr_sdt rom'), (mr_sdtCount rom'). intros a c ->.
  split; [|split; [by constructor|done]].
  constructor; try done. unfold history in *. cbn. unfold const. change (mr_tables (_ <| mr_sdtCount := _ |>)) with (mr_tables rom).
  destruct (mr_tables rom) as [|[p| |] ts]; try done.
  - destruct H6; by constructor.
  - intros pmts E Hd. destruct (H6 pmts E Hd). by constructor.
Qed.

(** ** A PMT arrives *)

Lemma last_index_from n l : forall i j, exists r, foldl (fun '(i, j) x => if x =? n then (j, j + 1) else (i, j + 1)) (i, j) l = (r, j + len l) /\
  (r = i /\ n ∉ l \/ exists k, l !! k = Some n /\ r = j + Z.of_nat k).
Proof.
  induction l as [|x l IH]; intros i j; cbn [foldl].
  - exists i. rewrite len_nil, Z.add_0_r. split; [done|]. left. split; [done|]. apply not_elem_of_nil.
  - rewrite len_cons. destruct (Z.eqb_spec x n) as [->|Hn].
    + destruct (IH j (j + 1)) as (r & E & H). exists r. split; [rewrite E; f_equal; lia|]. right.
      destruct H as [[-> _]|(k & Hk & ->)]; [exists 0%nat; split; [done|lia]|]. exists (S k). split; [done|lia].
    + destruct (IH i (j + 1)) as (r & E & H). exists r. split; [rewrite E; f_equal; lia|].
      destruct H as [[-> Hi]|(k & Hk & ->)]; [left; split; [done|]; rewrite not_elem_of_cons; split; congruence || done|].
      right. exists (S k). split; [done|lia].
Qed.

Lemma last_index_spec n l : n ∈ l -> exists k, l !! k = Some n /\ last_index n l = Z.of_nat k.
Proof.
  intros Hn. unfold last_index. destruct (last_index_from n l 0 0) as (r & -> & [[_ H]|(k & Hk & ->)]); [done|]. exists k. by rewrite Z.add_0_l.
Qed.

Lemma parser_of_spec n parser : len parser = 24 -> parser_of n parser = Some (last_index n (numbers (map shape_of parser))).
Proof.
  intros Hl. unfold parser_of, MAX_PID_PARSERS. rewrite fold_in_spec by lia. rewrite take_ge by (unfold len in Hl; lia). unfold last_index.
  assert (Hf : forall st, foldM (fun '(idx, j) p => Some (if mp_programNumber p =? n then (j, j + 1) else (idx, j + 1))) parser st =
    Some (foldl (fun '(i, j) x => if x =? n then (j, j + 1) else (i, j + 1)) st (numbers (map shape_of parser)))).
  { clear Hl. induction parser as [|q l IH]; intros [i j]; [done|]. cbn [foldM]. step. rewrite IH. unfold numbers. cbn. done. }
  rewrite Hf. step. by destruct (foldl _ _ _).
Qed.

Lemma omap_none {A B} (f : A -> option B) l : (forall k x, l !! k = Some x -> f x = None) -> omap f l = [].
Proof.
  induction l as [|x l IH]; intros H; [done|]. cbn. rewrite (H 0%nat x eq_refl). apply IH. intros k y Hk. by apply (H (S k)).
Qed.

(** One position is replaced: it was the only one that counted, or it does not count. *)
Lemma omap_insert_only {A B} (f : A -> option B) l i x y : (i < length l)%nat -> f x = Some y ->
  (forall k z, l !! k = Some z -> k <> i -> f z = None) -> omap f (<[i := x]> l) = [y].
Proof.
  intros Hi Hf Ho. rewrite insert_take_drop, omap_app by done. cbn. rewrite Hf.
  rewrite (omap_none f (take i l)), (omap_none f (drop (S i) l)); [done| |].
  - intros k z. rewrite lookup_drop. intros Hk. apply (Ho _ _ Hk). lia.
  - intros k z Hk. apply lookup_take_Some in Hk as [Hk ?]. apply (Ho _ _ Hk). lia.
Qed.

Lemma omap_insert_none {A B} (f : A -> option B) (l : list A) (i : nat) x y : l !! i = Some x -> f x = None -> f y = None -> omap f (<[i := y]> l) = omap f l.
Proof.
  intros Hi Hx Hy. rewrite <- (take_drop_middle l i x Hi) at 2. rewrite insert_take_drop, !omap_app by (by eapply lookup_lt_Some).
  cbn. by rewrite Hx, Hy.
Qed.

Lemma of_program_snoc n pmts t : of_program n (pmts ++ [t]) = of_program n pmts ++ if i_program_number t =? n then [t] else [].
Proof. unfold of_program. rewrite filter_app. cbn [List.filter]. by destruct (_ =? n). Qed.

Lemma last_pmt_snoc n pmts t : last_pmt n (pmts ++ [t]) = if i_program_number t =? n then Some t else last_pmt n pmts.
Proof. unfold last_pmt. rewrite of_program_snoc. destruct (_ =? n); [by rewrite last_snoc|by rewrite app_nil_r]. Qed.

Lemma numbers_lookup (v : list shape) k n t x : v !! k = Some (n, t, x) -> numbers v !! k = Some n.
Proof. intros E. unfold numbers. rewrite map_map, lookup_map. exact (f_equal (fmap (fun x : shape => x.1.1)) E). Qed.

Lemma numbers_lookup_inv (v : list shape) k n : numbers v !! k = Some n -> exists t x, v !! k = Some (n, t, x).
Proof.
  unfold numbers. rewrite map_map. intros E. apply (list_lookup_fmap_Some (fun x : shape => x.1.1)) in E as ([[m t] x] & -> & E).
  exists t, x. exact E.
Qed.

Lemma numbers_insert (v : list shape) k n t x t' x' : v !! k = Some (n, t, x) -> numbers (<[k := (n, t', x')]> v) = numbers v.
Proof. intros E. unfold numbers. rewrite !map_map. exact (map_insert_same (fun x : shape => x.1.1) v k (n, t, x) (n, t', x') E eq_refl). Qed.

(** The PMT of the program of a decoder goes to its slot. *)
Lemma gathered_pmt p pmts t ts rom rom' nr j x d n : base_ok rom -> NoDup (map fst (wanted p)) -> i_program_number t = n ->
  gathered (upd_heard nothing n (TABLE_PMT t :: ts)) p pmts rom ->
  0 <= nr < 8192 -> view rom nr !! j = Some (n, x, Some (d, n)) ->
  (forall nr', 0 <= nr' < 8192 -> view rom' nr' =
     let i := Z.to_nat (last_index n (numbers (view rom nr))) in
     if nr' =? nr then alter (fun y : shape => (y.1.1, Some t, y.2)) i (view rom nr) else view rom nr') ->
  md_pat (pid_at rom' 0) = md_pat (pid_at rom 0) ->
  (forall nr', 0 <= nr' < 8192 -> md_present (pid_at rom nr') <> 0 -> md_present (pid_at rom' nr') <> 0) ->
  mr_totalPMTsInPAT rom' = mr_totalPMTsInPAT rom -> mr_parsedPMTs rom' = mr_parsedPMTs rom + 1 -> mr_modelComplete rom' = mr_modelComplete rom ->
  gathered (upd_heard nothing n ts) p (pmts ++ [t]) rom'.
Proof.
  intros Hb Hnd Et [G1 G2 G3 G4 GU G5 G6 G7 G8 G9] Hn Hj Hv Hp Hpr T1 T2 T3. subst n. set (n := i_program_number t) in *.
  assert (Hw := fun n nr => wanted_range rom p n nr Hb G1).
  assert (Hnr : (n, nr) ∈ wanted p) by (exact (proj1 (G4 _ _ _ _ _ _ Hn Hj))).
  destruct (last_index_spec n (numbers (view rom nr))) as (i & Hi & Ei).
  { apply list_elem_of_lookup. exists j. by eapply numbers_lookup. }
  rewrite Ei in Hv. cbv zeta in Hv. rewrite Nat2Z.id in Hv.
  apply numbers_lookup_inv in Hi as (ti & di & Evi).
  assert (Hins : alter (fun y : shape => (y.1.1, Some t, y.2)) i (view rom nr) = <[i := (n, Some t, di)]> (view rom nr)).
  { apply list_eq. intros k. destruct (decide (k = i)) as [->|Hk].
    - rewrite list_lookup_alter_eq, list_lookup_insert_eq, Evi by (by eapply lookup_lt_Some). done.
    - by rewrite list_lookup_alter_ne, list_lookup_insert_ne by done. }
  rewrite Hins in Hv. clear Hins. assert (Hil := lookup_lt_Some _ _ _ Evi).
  assert (Hat : forall nr' k y, 0 <= nr' < 8192 -> view rom' nr' !! k = Some y -> exists z, view rom nr' !! k = Some z /\ z.1.1 = y.1.1 /\ z.2 = y.2 /\
    (nr' = nr /\ k = i \/ z.1.2 = y.1.2)).
  { intros nr' k y Hn' Hk. rewrite Hv in Hk by done. destruct (Z.eqb_spec nr' nr) as [->|]; [|by exists y; auto].
    destruct (decide (k = i)) as [->|Hki].
    - rewrite list_lookup_insert_eq in Hk by done. injection Hk as <-. eexists. split; [exact Evi|]. auto.
    - rewrite list_lookup_insert_ne in Hk by done. exists y. auto. }
  assert (Hnum : forall nr', 0 <= nr' < 8192 -> numbers (view rom' nr') = numbers (view rom nr')).
  { intros nr' Hn'. rewrite Hv by done. destruct (Z.eqb_spec nr' nr) as [->|]; [|done]. by eapply numbers_insert. }
  constructor.
  - congruence.
  - congruence.
  - rewrite T2, G3, len_app. done.
  - intros nr' k m t' e n' Hn' Hk. destruct (Hat _ _ _ Hn' Hk) as ([[m2 t2] y2] & Hy & E1 & E2 & _). cbn [fst snd] in *. subst.
    destruct (G4 _ _ _ _ _ _ Hn' Hy) as [Hin Hd]. split; [done|]. rewrite of_program_snoc, map_app, <- app_assoc. unfold upd_heard in *. fold n.
    destruct (Z.eqb_spec n' n) as [->|Hne]; [by rewrite Z.eqb_refl|]. destruct (Z.eqb_spec n n'); [by subst|]. exact Hd.
  - intros nr' k k' m1 m2 t1 t2 d1 d2 n' Hn' H1 H2. destruct (Hat _ _ _ Hn' H1) as ([[? ?] ?] & Hy1 & _ & E1 & _).
    destruct (Hat _ _ _ Hn' H2) as ([[? ?] ?] & Hy2 & _ & E2 & _). cbn [fst snd] in *. subst. exact (GU _ _ _ _ _ _ _ _ _ _ Hn' Hy1 Hy2).
  - intros nr' k m t' y Hn' Hk. rewrite Hnum by done. destruct (Hat _ _ _ Hn' Hk) as ([[m2 t2] y2] & Hy & E1 & _ & C). cbn [fst snd] in *. subst m2.
    destruct C as [[-> ->]| ->]; [|by apply (G5 _ _ _ _ _ Hn' Hy)]. rewrite Evi in Hy. injection Hy as <- _ _. exact Ei.
  - intros m nr' Hi. destruct (Hw _ _ Hi) as (_ & Hr & _). rewrite last_pmt_snoc. fold n. rewrite Hv by done.
    destruct (Z.eqb_spec n m) as [<-|Hne].
    + assert (nr' = nr) as -> by (by eapply numbers_unique). rewrite Z.eqb_refl. unfold slots. rewrite map_insert. cbn [fst].
      apply omap_insert_only; [by rewrite length_map|cbn; by rewrite Z.eqb_refl|]. intros k [zn zt] Hk Hki. apply list_lookup_fmap_Some in Hk as ([[m2 t2] y2] & [= -> ->] & Ek). cbn. destruct (Z.eqb_spec m2 n) as [->|]; [|done].
      destruct t2 as [t2|]; [|done]. exfalso. pose proof (G5 _ _ _ _ _ Hn Ek). lia.
    + destruct (Z.eqb_spec nr' nr) as [->|]; [|by apply G6]. unfold slots. rewrite map_insert. cbn [fst].
      rewrite (omap_insert_none _ _ i (n, ti)); [by apply G6|by rewrite lookup_map, Evi| |]; cbn; by destruct (Z.eqb_spec n m).
  - intros m nr' Hi. apply Hpr; [by eapply Hw|by eapply G7].
  - rewrite T3. intros E. specialize (G8 E). rewrite len_app. change (len [t]) with 1. lia.
  - apply Forall_app. split; [exact G9|]. apply Forall_singleton. by exists nr.
Qed.
End Spec.
