(* ===== verification/StreamModelQuery.v ===== *)
(** * What a query of the stream model answers

    The object built from a model lists the programs of its PAT, with the PMT
    each parser keeps; and the comparison of two such objects. *)
From Stdlib Require Import ZArith Lia Bool String.
From stdpp Require Import base numbers list option.
From coqutil Require Import Datatypes.RecordSettersUsingExistingGetters.
From S2P Require Import Prelude Ts Stats Descriptor Pat StreamModel StreamModelInv.

(** The header and the programs are those of a PAT; the names have room. *)
Record object_of (p : dvbpsi_pat_t) (m : ltntstools_pat_s) : Prop := {
  ob_ok : pat_ok m;
  ob_keys : map program_key (pat_used m) = take 64 (p_first_program p);
  ob_names : Forall (fun g => len (pp_service_name g) = 32 /\ len (pp_service_provider g) = 32) (pa_programs m);
  ob_id : pa_transport_stream_id m = i_ts_id p;
  ob_version : pa_version_number m = pat_i_version p;
  ob_current : pa_current_next_indicator m = pat_b_current_next p
}.

Lemma add_programs_keep (P : ltntstools_pmt_s -> list Z -> list Z -> Prop) l : forall m m', add_programs l m = Some m' ->
  Forall (fun g => P (pp_pmt g) (pp_service_name g) (pp_service_provider g)) (pa_programs m) ->
  Forall (fun g => P (pp_pmt g) (pp_service_name g) (pp_service_provider g)) (pa_programs m') /\
  pa_transport_stream_id m' = pa_transport_stream_id m /\ pa_version_number m' = pa_version_number m /\
  pa_current_next_indicator m' = pa_current_next_indicator m.
Proof.
  induction l as [|[number pid] l IH]; intros m m'; cbn [add_programs]; [by intros [= <-]|].
  destruct (_ <? _); [|by intros [= <-]]. intros H Hp. apply bind_Some in H as (g & Eg & H). apply bind_Some in H as (programs & Ea & H).
  apply aget_Some in Eg as [_ Eg]. unfold aset in Ea. destruct (_ && _); [|done]. injection Ea as <-. apply IH in H; [exact H|].
  cbn [set_program pa_programs]. apply Forall_insert; [done|]. cbn. exact (Forall_lookup_1 _ _ _ _ Hp Eg).
Qed.

Lemma alloc_object p : exists m, ltntstools_pat_alloc_from_existing true (Some p) = Some (Some m) /\ object_of p m /\
  Forall (fun g => pp_pmt g = pmt_zero) (pa_programs m).
Proof.
  unfold ltntstools_pat_alloc_from_existing, ltntstools_pat_alloc. step.
  match goal with |- context [add_programs _ ?m0] => destruct (add_programs_spec (p_first_program p) m0) as (m & E & Hok & Hk) end.
  { destruct pat_zero_ok as [H1 H2 H3]. by constructor. }
  rewrite E. step. exists m. split; [done|].
  destruct (add_programs_keep (fun pmt a b => pmt = pmt_zero /\ len a = 32 /\ len b = 32) _ _ _ E) as (Hf & Hh).
  { cbn [pa_programs pat_zero]. by apply Forall_replicate. }
  split; [|eapply List.Forall_impl; [|exact Hf]; by intros g (? & _)].
  constructor; try done; try apply Hh. eapply List.Forall_impl; [|exact Hf]. by intros g (_ & ?).
Qed.

Lemma program_index_first f (l : list ltntstools_pat_program_s) n : forall i k g, 0 <= i -> i + Z.of_nat k < i + Z.of_nat n -> l !! (Z.to_nat i + k)%nat = Some g -> f g = true ->
  (forall k' g', (k' < k)%nat -> l !! (Z.to_nat i + k')%nat = Some g' -> f g' = false) -> program_index f l n i = Some (Some (i + Z.of_nat k)).
Proof.
  induction n as [|n IH]; intros i k g Hi Hk Hg Hf Ho; [lia|]. cbn [program_index]. destruct k as [|k].
  - replace (Z.to_nat i + 0)%nat with (Z.to_nat i) in Hg by lia. unfold aget. case_if; [lia|]. rewrite Hg. step. rewrite Hf. do 2 f_equal. lia.
  - destruct (lookup_lt_is_Some_2 l (Z.to_nat i)) as [g0 E0]; [apply lookup_lt_Some in Hg; lia|].
    unfold aget. case_if; [lia|]. rewrite E0. step. rewrite (Ho 0%nat g0) by (lia || by rewrite Nat.add_0_r).
    rewrite (IH (i + 1) k g); [do 2 f_equal; lia|lia|lia| |done|].
    + rewrite <- Hg. f_equal. lia.
    + intros k' g' Hk' Hg'. apply (Ho (S k') g'); [lia|]. rewrite <- Hg'. f_equal. lia.
Qed.

Lemma used_lookup m i g : pat_used m !! i = Some g <-> pa_programs m !! i = Some g /\ Z.of_nat i < pa_program_count m.
Proof. unfold pat_used. rewrite lookup_take_Some. split; intros [? ?]; (split; [done|lia]). Qed.

Lemma add_existing_object t p m : dvbpsi_pmt_ok t -> object_of p m -> exists m',
  ltntstools_pat_add_from_existing (Some m) (Some t) = Some (Some m') /\ object_of p m' /\ pa_program_count m' = pa_program_count m /\
  forall i g, pat_used m !! i = Some g -> pp_program_number g = i_program_number t ->
    (forall k g', (k < i)%nat -> pat_used m !! k = Some g' -> pp_program_number g' <> i_program_number t) ->
    exists e, add_pmt t (pp_pmt g) = Some e /\ pa_programs m' = <[i := with_pmt g e]> (pa_programs m).
Proof.
  intros Ht [O1 O2 O3 O4 O5 O6]. destruct (add_from_existing_spec t m Ht O1) as (m' & E & Hok & Hk). exists m'. split; [done|].
  destruct O1 as [C1 C2 C3]. unfold ltntstools_pat_add_from_existing in E. apply bind_Some in E as (r & Er & E). destruct r as [j|].
  - apply bind_Some in E as (g & Eg & E). apply bind_Some in E as (e & Ee & E). apply bind_Some in E as (programs & Ep & E). injection E as <-.
    unfold aset in Ep. destruct (_ && _); [|done]. injection Ep as <-. split; [|split; [done|]].
    + constructor; try done; [by rewrite Hk|]. cbn [set_program pa_programs]. apply Forall_insert; [done|]. apply aget_Some in Eg as [_ Eg].
      exact (Forall_lookup_1 _ _ _ _ O3 Eg).
    + intros i g' Hi Hn Ho. apply used_lookup in Hi as [Hi Hc].
      rewrite (program_index_first _ _ _ 0 i g') in Er; [|lia|lia|exact Hi|by apply Z.eqb_eq|].
      * injection Er as <-. rewrite Z.add_0_l in *. apply aget_Some in Eg as [_ Eg]. rewrite Nat2Z.id, Hi in Eg. injection Eg as <-.
        exists e. split; [done|]. cbn [set_program pa_programs]. by rewrite Nat2Z.id.
      * intros k g2 Hk2 Hg2. apply Z.eqb_neq, (Ho k g2); [lia|]. apply used_lookup. split; [done|lia].
  - injection E as <-. split; [by constructor|]. split; [done|]. intros i g Hi Hn Ho. exfalso. apply used_lookup in Hi as [Hi Hc].
    rewrite (program_index_first _ _ _ 0 i g) in Er; [done|lia|lia|exact Hi|by apply Z.eqb_eq|].
    intros k g2 Hk2 Hg2. apply Z.eqb_neq, (Ho k g2); [lia|]. apply used_lookup. split; [done|lia].
Qed.

(** ** The comparison of two objects *)

Definition stream_content (s : ltntstools_pmt_entry_s) : Z * Z := (es_stream_type s, es_elementary_PID s).
Definition pmt_content (m : ltntstools_pmt_s) : Z * Z * Z * Z * list (Z * Z) :=
  (pm_version_number m, pm_program_number m, pm_PCR_PID m, pm_current_next_indicator m, map stream_content (pmt_used m)).
Definition program_content (g : ltntstools_pat_program_s) := (program_key g, pmt_content (pp_pmt g)).

(** What the comparison looks at: no descriptor and no service. *)
Definition pat_content (m : ltntstools_pat_s) :=
  (pa_transport_stream_id m, pa_version_number m, pa_current_next_indicator m, map program_content (pat_used m)).

(** [r] says whether two things are the same. *)
Definition tells (same : Prop) (r : Z) : Prop := r = 0 /\ same \/ r = -1 /\ ~ same.

Lemma compare_loop_spec {T U} (compare : T -> T -> option Z) (f : T -> U) (P : T -> Prop) (a b : list T) n :
  (forall x y, P x -> P y -> exists r, compare x y = Some r /\ tells (f x = f y) r) -> Forall P a -> Forall P b ->
  forall i, 0 <= i -> i + Z.of_nat n <= len a -> i + Z.of_nat n <= len b ->
  exists r, compare_loop compare a b n i = Some r /\
    tells (map f (take n (drop (Z.to_nat i) a)) = map f (take n (drop (Z.to_nat i) b))) r.
Proof.
  intros Hc Ha Hb. induction n as [|n IH]; intros i Hi La Lb; cbn [compare_loop].
  { exists 0. split; [done|]. by left. }
  destruct (aget_ok P a i Ha) as (x & Ex & Px); [lia|]. destruct (aget_ok P b i Hb) as (y & Ey & Py); [lia|]. rewrite Ex, Ey. step.
  destruct (Hc x y Px Py) as (r & -> & Hr). step. apply aget_Some in Ex as [_ Ex], Ey as [_ Ey].
  rewrite (drop_S a x), (drop_S b y) by done. rewrite !firstn_cons. cbn [map].
  destruct (IH (i + 1)) as (r' & E & Hr'); [lia..|]. replace (Z.to_nat (i + 1)) with (S (Z.to_nat i)) in Hr' by lia.
  destruct Hr as [[-> Hs]|[-> Hs]]; cbn [negb Z.eqb].
  - rewrite E. exists r'. split; [done|]. rewrite Hs. destruct Hr' as [[-> H]|[-> H]]; [left; by rewrite H|right]. split; [done|]. by intros [=].
  - exists (-1). split; [done|]. right. split; [done|]. by intros [=].
Qed.

(** One comparison before the others. *)
Lemma compare_field (a b : Z) (rest : option Z) (same all : Prop) : (all <-> a = b /\ same) ->
  (a = b -> exists r, rest = Some r /\ tells same r) ->
  exists r, (if negb (a =? b) then Some (-1) else rest) = Some r /\ tells all r.
Proof.
  intros Hall Hr. destruct (Z.eqb_spec a b) as [E|]; cbn [negb]; [|exists (-1); split; [done|]; right; tauto].
  destruct (Hr E) as (r & -> & [[-> H]|[-> H]]); eexists; (split; [done|]); [left|right]; tauto.
Qed.

Lemma len_same {T U} (f : T -> U) (l1 l2 : list T) c1 c2 : 0 <= c1 <= len l1 -> 0 <= c2 <= len l2 ->
  map f (take (Z.to_nat c1) l1) = map f (take (Z.to_nat c2) l2) -> c1 = c2.
Proof. intros H1 H2 E. apply (f_equal length) in E. rewrite !length_map, !length_take in E. unfold len in *. lia. Qed.

Lemma pmt_compare_spec a b : pmt_ok a -> pmt_ok b -> exists r, ltntstools_pmt_compare a b = Some r /\ tells (pmt_content a = pmt_content b) r.
Proof.
  intros [A1 A2 _ _] [B1 B2 _ _]. unfold ltntstools_pmt_compare, pmt_content, LTNTSTOOLS_PMT_ENTRIES_MAX in *.
  eapply compare_field; [|intros E1; eapply compare_field; [|intros E2; eapply compare_field; [|intros E3; eapply compare_field; [|intros E4; eapply compare_field; [|intros E5]]]]].
  5: { instantiate (1 := map stream_content (pmt_used a) = map stream_content (pmt_used b)). instantiate (1 := map stream_content (pmt_used a) = map stream_content (pmt_used b)). split; [|tauto].
    intros E. split; [|done]. eapply len_same; [| |exact E]; lia. }
  5: { unfold pmt_used. rewrite <- E5. apply (compare_loop_spec _ stream_content (fun _ => True) _ _ (Z.to_nat (pm_stream_count a))) with (i := 0); [|by apply Forall_true|by apply Forall_true|lia..].
    intros x y _ _. eexists. split; [reflexivity|]. unfold ltntstools_pmt_entry_compare, stream_content, tells.
    destruct (Z.eqb_spec (es_stream_type x) (es_stream_type y)) as [->|]; [|right; by split; [|intros [=]]].
    destruct (Z.eqb_spec (es_elementary_PID x) (es_elementary_PID y)) as [->|]; [by left|right; by split; [|intros [=]]]. }
  4: reflexivity. 3: reflexivity. 2: reflexivity.
  rewrite !pair_equal_spec. tauto.
Qed.

Lemma pat_compare_spec a b : pat_ok a -> pat_ok b -> exists r, ltntstools_pat_compare a b = Some r /\ tells (pat_content a = pat_content b) r.
Proof.
  intros [A1 A2 A3] [B1 B2 B3]. unfold ltntstools_pat_compare, pat_content, LTNTSTOOLS_PAT_ENTRIES_MAX in *.
  eapply compare_field; [|intros E1; eapply compare_field; [|intros E2; eapply compare_field; [|intros E3; eapply compare_field; [|intros E4]]]].
  4: { instantiate (1 := map program_content (pat_used a) = map program_content (pat_used b)). instantiate (1 := map program_content (pat_used a) = map program_content (pat_used b)). split; [|tauto].
    intros E. split; [|done]. eapply len_same; [| |exact E]; lia. }
  4: { unfold pat_used. rewrite <- E4. apply (compare_loop_spec _ program_content (fun g => pmt_ok (pp_pmt g)) _ _ (Z.to_nat (pa_program_count a))) with (i := 0); [|done|done|lia..].
    intros x y Px Py. unfold ltntstools_pat_program_compare, program_content, program_key.
    eapply compare_field; [|intros N1; eapply compare_field; [|intros N2; by apply pmt_compare_spec]]; [|reflexivity].
    rewrite !pair_equal_spec. tauto. }
  3: reflexivity. 2: reflexivity.
  rewrite !pair_equal_spec. tauto.
Qed.

Section Query.
Context {PSI : Dvbpsi} {LAWS : DvbpsiLaws PSI} {MEMORY : PsiMemory PSI} {STREAM : StreamOk PSI}.

Lemma fill_pmts_slots n parser m : len parser = 24 ->
  fill_pmts n parser m = foldM (fun m t => r ← ltntstools_pat_add_from_existing (Some m) (Some t); r) (slots n (map shape_of parser)) m.
Proof.
  intros Hl. unfold fill_pmts, MAX_PID_PARSERS. rewrite fold_in_spec by lia. rewrite take_ge by (unfold len in Hl; lia). clear Hl.
  revert m. induction parser as [|q l IH]; intros m; [done|]. cbn [foldM]. unfold slots. cbn [map omap list_omap shape_of fst snd]. fold (slots n (map shape_of l)).
  destruct (mp_pmt q) as [t|]; [|destruct (_ =? n); step; apply IH]. destruct (_ =? n); [|step; apply IH].
  cbn [foldM]. destruct (ltntstools_pat_add_from_existing _ _) as [[m'|]|]; step; [apply IH|done|done].
Qed.

Lemma fill_service_spec rom g : sdts_ok rom -> len (pp_service_name g) = 32 /\ len (pp_service_provider g) = 32 ->
  exists g', fill_service rom g = Some g' /\ program_key g' = program_key g /\ pp_pmt g' = pp_pmt g /\
    len (pp_service_name g') = 32 /\ len (pp_service_provider g') = 32.
Proof.
  intros [S1 S2 S3 S4] [N1 N2]. unfold fill_service. rewrite find_in_spec by lia. step.
  destruct (head _) as [s|] eqn:Eh; [|by exists g]. 
  assert (Hs : sdt_ok s).
  { assert (Hi : s ∈ omap (fun s => if sd_service_id s =? pp_program_number g then Some s else None) (take (Z.to_nat (mr_sdtCount rom)) (mr_sdt rom)))
      by (destruct (omap _ _); [done|injection Eh as ->; left]).
    apply list_elem_of_omap in Hi as (x & Hx & E). destruct (_ =? _); [|done]. injection E as ->.
    apply list_elem_of_lookup in Hx as [k Hk]. apply lookup_take_Some in Hk as [Hk _]. exact (Forall_lookup_1 _ _ _ _ S3 Hk). }
  destruct Hs as [L1 L2]. destruct (strncpy_spec (pp_service_name g) (sd_service_name s) 32) as (a & -> & La); [lia|lia|]. step.
  destruct (strncpy_spec (pp_service_provider g) (sd_service_provider s) 32) as (b & -> & Lb); [lia|lia|]. step.
  eexists. split; [reflexivity|]. split; [done|]. split; [done|]. cbn. lia.
Qed.

Lemma add_all_object p ts : forall m, Forall dvbpsi_pmt_ok ts -> object_of p m -> exists m',
  foldM (fun m t => r ← ltntstools_pat_add_from_existing (Some m) (Some t); r) ts m = Some m' /\ object_of p m' /\ pa_program_count m' = pa_program_count m.
Proof.
  induction ts as [|t ts IH]; intros m Ht Hm; [by exists m|]. apply Forall_cons_1 in Ht as [Ht Hts]. cbn [foldM].
  destruct (add_existing_object t p m Ht Hm) as (m1 & -> & H1 & C1 & _). step. destruct (IH m1 Hts H1) as (m' & -> & ? & ?). exists m'. split_and!; [done|done|congruence].
Qed.

Lemma slots_ok nr ps n : pid_ok nr ps -> Forall dvbpsi_pmt_ok (slots n (map shape_of (md_parser ps))).
Proof.
  intros H. unfold slots. apply list.Forall_forall. intros t Ht. apply list_elem_of_omap in Ht as ([m x] & Hx & E). cbn in E. destruct (m =? n); [|done]. subst x.
  apply list_elem_of_lookup in Hx as [k Hk]. rewrite map_map in Hk. apply (list_lookup_fmap_Some (fun x => (shape_of x).1)) in Hk as (q & [= -> Eq] & Hq).
  destruct (po_parser _ _ H (Z.of_nat k) q) as [_ Hp]; [apply aget_Some; split; [lia|by rewrite Nat2Z.id]|]. by apply Hp.
Qed.

(** The PMT of a program, of none at all. *)
Definition pmt_of (o : option dvbpsi_pmt_t) : ltntstools_pmt_s :=
  match o with Some t => default pmt_zero (add_pmt t pmt_zero) | None => pmt_zero end.

Lemma fill_program_spec rom p m i : base_ok rom -> Forall (program_ok) (p_first_program p) -> object_of p m -> 0 <= i < pa_program_count m ->
  exists m', fill_program rom m i = Some m' /\ object_of p m' /\ pa_program_count m' = pa_program_count m /\
  forall g, pat_used m !! Z.to_nat i = Some g ->
    (pp_program_number g = 0 -> m' = m) /\
    (pp_program_number g <> 0 -> md_present (pid_at rom (pp_program_map_PID g)) <> 0 ->
     forall o, slots (pp_program_number g) (view rom (pp_program_map_PID g)) = option_list o ->
       (forall t, o = Some t -> i_program_number t = pp_program_number g) ->
       (forall k g', (k < Z.to_nat i)%nat -> pat_used m !! k = Some g' -> pp_program_number g' <> pp_program_number g) ->
       pp_pmt g = pmt_zero ->
       exists g', pa_programs m' = <[Z.to_nat i := g']> (pa_programs m) /\ program_key g' = program_key g /\ pp_pmt g' = pmt_of o).
Proof.
  intros Hb Hpr Hm Hi. assert (Hm' := Hm). destruct Hm' as [[C1 C2 C3] O2 O3 O4 O5 O6]. unfold fill_program.
  destruct (aget_lt (pa_programs m) i) as [g Eg]; [lia|]. rewrite Eg. step. apply aget_Some in Eg as [_ Eg].
  assert (Hu : pat_used m !! Z.to_nat i = Some g) by (apply used_lookup; split; [done|lia]). rewrite Hu.
  destruct (Z.eqb_spec (pp_program_number g) 0) as [E0|N0].
  { exists m. split; [done|]. split; [done|]. split; [done|]. intros g' [= <-]. by split. }
  destruct (fill_service_spec rom g (bo_sdt _ Hb) (Forall_lookup_1 _ _ _ _ O3 Eg)) as (g1 & -> & K1 & P1 & N1). step.
  rewrite aset_Some by lia. step. set (m1 := set_program m _ _).
  assert (Hm1 : object_of p m1).
  { constructor; try done.
    - constructor; cbn [m1 set_program pa_program_count pa_programs]; [done|by rewrite len_insert|]. apply Forall_insert; [done|]. rewrite P1. exact (Forall_lookup_1 _ _ _ _ C3 Eg).
    - rewrite <- O2. unfold pat_used. cbn [m1 set_program pa_program_count pa_programs]. rewrite take_insert_lt by lia. by apply (map_insert_same _ _ _ _ _ Hu).
    - cbn [m1 set_program pa_programs]. by apply Forall_insert. }
  assert (Kn : pp_program_number g1 = pp_program_number g /\ pp_program_map_PID g1 = pp_program_map_PID g) by (by injection K1).
  destruct Kn as [-> ->].
  assert (Hr : 0 <= pp_program_map_PID g < 8192).
  { assert (Hin : program_key g ∈ p_first_program p).
    { assert (Ht : program_key g ∈ take 64 (p_first_program p)) by (rewrite <- O2; apply (list_elem_of_fmap_2 program_key); by eapply list_elem_of_lookup_2).
      apply elem_of_take in Ht as (k & Hk & _). by eapply list_elem_of_lookup_2. }
    apply (proj1 (list.Forall_forall _ _) Hpr) in Hin as (_ & ? & _). done. }
  rewrite find_pid by (done || apply Hb). step. assert (Hp := bo_pids _ Hb _ Hr).
  destruct (Z.eqb_spec (md_present (pid_at rom (pp_program_map_PID g))) 0) as [Ep|Np].
  { exists m1. split; [done|]. split; [done|]. split; [done|]. intros g' [= <-]. by split. }
  rewrite fill_pmts_slots by apply Hp. fold (view rom (pp_program_map_PID g)).
  destruct (add_all_object p (slots (pp_program_number g) (view rom (pp_program_map_PID g))) m1 (slots_ok _ _ _ Hp) Hm1) as (m' & E & H' & Cm).
  exists m'. split; [done|]. split; [done|]. split; [by rewrite Cm|]. intros g' [= <-]. split; [done|]. intros _ _ o Ho Hnum Hfirst Hz.
  assert (Hmine : pa_programs m1 = <[Z.to_nat i := g1]> (pa_programs m)) by done. rewrite Ho in E. destruct o as [t|]; [change (option_list (Some t)) with [t] in *|change (option_list None) with (@nil dvbpsi_pmt_t) in *]; cbn [foldM] in E.
  - assert (Htok : dvbpsi_pmt_ok t) by (pose proof (slots_ok _ _ (pp_program_number g) Hp) as Hs; change (map shape_of _) with (view rom (pp_program_map_PID g)) in Hs; rewrite Ho in Hs; by apply Forall_cons_1 in Hs as [? _]).
    destruct (add_existing_object t p m1 Htok Hm1) as (m2 & E2 & _ & _ & Hadd). rewrite E2 in E. cbn in E. injection E as <-.
    destruct (Hadd (Z.to_nat i) g1) as (e & Ee & Epr).
    + apply used_lookup. rewrite Hmine. split; [by apply list_lookup_insert_eq, (lookup_lt_Some _ _ _ Eg)|cbn [m1 set_program pa_program_count]; lia].
    + rewrite (Hnum t eq_refl). by injection K1.
    + intros k g' Hk Hg'. rewrite (Hnum t eq_refl). apply used_lookup in Hg' as [Hg' Hc]. rewrite Hmine, list_lookup_insert_ne in Hg' by lia.
      apply (Hfirst k g' Hk). by apply used_lookup.
    + exists (with_pmt g1 e). rewrite Epr, Hmine, list_insert_insert_eq. split; [done|]. split; [by rewrite <- K1|]. cbn [with_pmt pp_pmt pmt_of].
      rewrite P1, Hz in Ee. by rewrite Ee.
  - injection E as <-. exists g1. split; [done|]. split; [done|]. by rewrite P1, Hz.
Qed.

(** The PMT an object lists for a program. *)
Definition listed (want : Z -> option dvbpsi_pmt_t) (g : ltntstools_pat_program_s) : Prop :=
  pp_pmt g = if pp_program_number g =? 0 then pmt_zero else pmt_of (want (pp_program_number g)).

Lemma wanted_elem p n nr : (n, nr) ∈ wanted p <-> (n, nr) ∈ p_first_program p /\ 0 < n.
Proof. unfold wanted. rewrite !list_elem_of_In, filter_In. cbn. by rewrite Z.ltb_lt. Qed.

Lemma wanted_first (l : list (Z * Z)) : forall i k n a b, NoDup (map fst (List.filter (fun x => 0 <? x.1) l)) ->
  l !! i = Some (n, a) -> l !! k = Some (n, b) -> 0 < n -> i = k.
Proof.
  assert (Hin : forall (l : list (Z * Z)) k n a, l !! k = Some (n, a) -> 0 < n -> n ∈ map fst (List.filter (fun x => 0 <? x.1) l)).
  { intros l' k n a H Hn. apply list_elem_of_In, in_map_iff. exists (n, a). split; [done|]. apply filter_In. split; [|cbn; lia].
    apply list_elem_of_In. by eapply list_elem_of_lookup_2. }
  induction l as [|[x y] l IH]; intros i k n a b Hd Hi Hk Hn; [done|]. cbn [List.filter fst] in Hd.
  assert (Hd' : NoDup (map fst (List.filter (fun x => 0 <? x.1) l))) by (destruct (0 <? x); [by apply list.NoDup_cons in Hd as [_ ?]|done]).
  destruct i as [|i], k as [|k]; try done.
  - cbn in Hi. injection Hi as -> ->. rewrite (proj2 (Z.ltb_lt 0 n) Hn) in Hd. cbn [map fst] in Hd. apply list.NoDup_cons in Hd as [Hd _]. by destruct Hd; eapply Hin.
  - cbn in Hk. injection Hk as -> ->. rewrite (proj2 (Z.ltb_lt 0 n) Hn) in Hd. cbn [map fst] in Hd. apply list.NoDup_cons in Hd as [Hd _]. by destruct Hd; eapply Hin.
  - f_equal. by eapply IH.
Qed.

Lemma object_key p m k g : object_of p m -> pat_used m !! k = Some g -> p_first_program p !! k = Some (program_key g).
Proof.
  intros [_ O _ _ _ _] H. assert (E : map program_key (pat_used m) !! k = Some (program_key g)) by (by rewrite lookup_map, H).
  rewrite O in E. by apply lookup_take_Some in E as [E _].
Qed.

Section Fill.
Context (rom : streammodel_rom_s) (p : dvbpsi_pat_t) (want : Z -> option dvbpsi_pmt_t) (fine : Prop).
Context (Hb : base_ok rom) (Hpr : Forall (program_ok) (p_first_program p)).
Context (Hfine : fine -> NoDup (map fst (wanted p)) /\ forall n nr, (n, nr) ∈ wanted p ->
  md_present (pid_at rom nr) <> 0 /\ slots n (view rom nr) = option_list (want n) /\ forall t, want n = Some t -> i_program_number t = n).

Definition filled (i : Z) (m : ltntstools_pat_s) : Prop :=
  forall k g, pat_used m !! k = Some g -> if Z.of_nat k <? i then listed want g else pp_pmt g = pmt_zero.

Lemma fill_step i m : object_of p m -> 0 <= i < pa_program_count m -> (fine -> filled i m) ->
  exists m', fill_program rom m i = Some m' /\ object_of p m' /\ pa_program_count m' = pa_program_count m /\ (fine -> filled (i + 1) m').
Proof.
  intros Hm Hi Hf. destruct (fill_program_spec rom p m i Hb Hpr Hm Hi) as (m' & E & H' & C & Hg). exists m'. split_and!; try done.
  intros F. specialize (Hf F). destruct (Hfine F) as [Hnd Hw]. intros k g Hk.
  assert (H0 := ob_ok _ _ Hm). destruct H0 as [P1 P2 _]. destruct (lookup_lt_is_Some_2 (pat_used m) (Z.to_nat i)) as [gi Ei].
  { unfold pat_used, len in *. rewrite length_take. lia. }
  destruct (Hg gi Ei) as [Hz Hnz]. clear Hg. assert (Hzi := Hf _ _ Ei). rewrite Z2Nat.id in Hzi by lia. rewrite (proj2 (Z.ltb_ge i i)) in Hzi by lia.
  destruct (Z.eqb_spec (pp_program_number gi) 0) as [E0|N0].
  - rewrite (Hz E0) in Hk. specialize (Hf k g Hk). destruct (Z.ltb_spec (Z.of_nat k) (i + 1)); destruct (Z.ltb_spec (Z.of_nat k) i); try done; [|lia].
    assert (k = Z.to_nat i) as -> by lia. rewrite Ei in Hk. injection Hk as ->. unfold listed. by rewrite E0.
  - assert (Hkey := object_key _ _ _ _ Hm Ei). assert (Hin : program_key gi ∈ p_first_program p) by (by eapply list_elem_of_lookup_2).
    assert (Hpos : 0 < pp_program_number gi) by (destruct (proj1 (list.Forall_forall _ _) Hpr _ Hin) as (? & _); cbn in *; lia).
    destruct (Hw (pp_program_number gi) (pp_program_map_PID gi)) as (Hpres & Hsl & Hnum); [by apply wanted_elem|].
    destruct (Hnz N0 Hpres _ Hsl Hnum) as (g' & Epr & Kg & Pg); [|done|].
    { intros k' g2 Hk' E2 En. assert (k' = Z.to_nat i); [|lia]. apply (object_key _ _ _ _ Hm) in E2. unfold program_key in *. rewrite En in E2.
      by eapply wanted_first. }
    apply used_lookup in Hk as [Hk Hc]. rewrite Epr in Hk. destruct (decide (k = Z.to_nat i)) as [->|Hne].
    + rewrite list_lookup_insert_eq in Hk by (unfold len in P2; lia). injection Hk as <-. rewrite Z2Nat.id by lia. case_if; [|lia].
      unfold listed. injection Kg as -> _. by rewrite (proj2 (Z.eqb_neq _ 0) N0).
    + rewrite list_lookup_insert_ne in Hk by lia. assert (Hk2 : pat_used m !! k = Some g) by (apply used_lookup; split; [done|lia]).
      specialize (Hf k g Hk2). destruct (Z.ltb_spec (Z.of_nat k) (i + 1)); destruct (Z.ltb_spec (Z.of_nat k) i); try done; lia.
Qed.

Lemma fill_all c : forall i m, object_of p m -> 0 <= i -> i + Z.of_nat c = pa_program_count m -> (fine -> filled i m) ->
  exists m', foldM (fill_program rom) (seqZ i (Z.of_nat c)) m = Some m' /\ object_of p m' /\ (fine -> filled (i + Z.of_nat c) m').
Proof.
  induction c as [|c IH]; intros i m Hm Hi Hc Hf; [exists m; by rewrite Z.add_0_r|].
  rewrite seqZ_cons by lia. cbn [foldM]. destruct (fill_step i m Hm ltac:(lia) Hf) as (m1 & -> & H1 & C1 & F1). step.
  replace (Z.pred (Z.of_nat (S c))) with (Z.of_nat c) by lia. replace (Z.succ i) with (i + 1) by lia.
  destruct (IH (i + 1) m1 H1 ltac:(lia) ltac:(lia) F1) as (m' & -> & H' & F'). exists m'. split_and!; [done|done|].
  replace (i + Z.of_nat (S c)) with (i + 1 + Z.of_nat c) by lia. done.
Qed.

(** A complete model answers with its PAT, and the PMTs. *)
Lemma query_model : mr_modelComplete rom <> 0 -> md_pat (pid_at rom 0) = Some p ->
  exists m, _streammodel_query_model true rom = Some (0, Some m) /\ object_of p m /\ (fine -> Forall (listed want) (pat_used m)).
Proof.
  intros Hc Hp. unfold _streammodel_query_model. rewrite (proj2 (Z.eqb_neq _ 0) Hc), find_pid by (lia || apply Hb). step. rewrite Hp.
  destruct (alloc_object p) as (m0 & -> & H0 & Hz). step. step. assert (P := ob_ok _ _ H0). destruct P as [P1 P2 _].
  destruct (fill_all (Z.to_nat (pa_program_count m0)) 0 m0 H0) as (m & E & Hm & F); [lia|lia| |].
  { intros _ k g Hk. apply used_lookup in Hk as [Hk _]. case_if; [lia|]. exact (Forall_lookup_1 _ _ _ _ Hz Hk). }
  rewrite Z2Nat.id in E by lia. rewrite E. step. exists m. split_and!; [done|done|]. intros Hf. specialize (F Hf).
  apply Forall_lookup_2. intros k g Hk. specialize (F k g Hk). apply lookup_lt_Some in Hk as Hl. unfold pat_used in Hl. rewrite length_take in Hl.
  assert (pa_program_count m = pa_program_count m0); [|destruct (Z.ltb_spec (Z.of_nat k) (0 + Z.of_nat (Z.to_nat (pa_program_count m0)))); [done|lia]].
  assert (L : length (pat_used m) = length (pat_used m0)).
  { rewrite <- (length_map program_key), <- (length_map program_key (pat_used m0)). by rewrite (ob_keys _ _ Hm), (ob_keys _ _ H0). }
  assert (Pm := ob_ok _ _ Hm). destruct Pm as [Q1 Q2 _]. unfold pat_used, len in *. rewrite !length_take in L. lia.
Qed.
End Fill.
End Query.
