(* ===== verification/StreamModelSpec.v ===== *)
(** * The stream model at work

    Every operation keeps the invariant of the model, on a stream that is as
    [StreamOk] asks; what a query answers is the PAT and the PMTs that were
    taken; and, at the end, what other streams do to the model. *)
From Stdlib Require Import ZArith Lia Bool String.
From stdpp Require Import base numbers list option.
From coqutil Require Import Datatypes.RecordSettersUsingExistingGetters.
From S2P Require Import Prelude Ts SectionExtractor Clock Stats StatsSpec Descriptor Pat Tr101290Events Tr101290 Tr101290Spec StreamModel StreamModelInv StreamModelQuery.

Section Spec.
Context {PSI : Dvbpsi} {LAWS : DvbpsiLaws PSI} {MEMORY : PsiMemory PSI} {STREAM : StreamOk PSI}.

Record ctx_ok (heard : Z -> list table) (ctx : streammodel_ctx_s) : Prop := {
  co_current : rom_ok nothing (mx_current ctx);
  co_next : rom_ok heard (mx_next ctx);
  co_checks : mx_enableSectionCRCChecks ctx = 0
}.

(** ** Completion *)

Lemma query_total rom : base_ok rom -> exists r o, _streammodel_query_model true rom = Some (r, o) /\ forall m, o = Some m -> pat_ok m.
Proof.
  intros Hb. destruct (Z.eqb_spec (mr_modelComplete rom) 0) as [E|N].
  { exists (-1), None. unfold _streammodel_query_model. by rewrite E. }
  destruct (md_pat (pid_at rom 0)) as [p|] eqn:Ep.
  - destruct (query_model rom p (fun _ => None) False Hb (po_pat _ _ (bo_pids _ Hb 0 ltac:(lia)) p Ep)) as (m & E & Hm & _); try done.
    exists 0, (Some m). split; [done|]. intros m' [= <-]. apply Hm.
  - exists (-1), None. unfold _streammodel_query_model. rewrite (proj2 (Z.eqb_neq _ _) N), find_pid by (lia || apply Hb). step. by rewrite Ep.
Qed.

(** What a completion changes beside the models. *)
Record reported (ctx ctx' : streammodel_ctx_s) : Prop := {
  re_current : mx_current ctx' = mx_current ctx;
  re_next : mx_next ctx' = mx_next ctx;
  re_checks : mx_enableSectionCRCChecks ctx' = mx_enableSectionCRCChecks ctx
}.

Lemma compare_next ctx : base_ok (mx_current ctx) -> base_ok (mx_next ctx) ->
  exists ctx', _rom_compare_current_next true ctx = Some (ctx', mx_modelChanged ctx') /\ reported ctx ctx'.
Proof.
  intros Hc Hn. unfold _rom_compare_current_next. destruct (query_total _ Hc) as (r1 & o1 & -> & O1). step.
  destruct (query_total _ Hn) as (r2 & o2 & -> & O2). step. destruct o1 as [m1|], o2 as [m2|]; try (step; eexists; split; [reflexivity|done]).
  destruct (pat_compare_spec m1 m2 (O1 _ eq_refl) (O2 _ eq_refl)) as (r & -> & _). step. eexists. split; [reflexivity|].
  destruct (negb _); [done|]. destruct (_ =? 1); done.
Qed.

Lemma next_complete ctx : base_ok (mx_current ctx) -> base_ok (mx_next ctx) ->
  exists ctx', _rom_next_complete true ctx = Some ctx' /\ mx_current ctx' = mx_current ctx /\
    mx_next ctx' = (mx_next ctx) <| mr_modelComplete := 1 |> /\ mx_enableSectionCRCChecks ctx' = mx_enableSectionCRCChecks ctx.
Proof.
  intros Hc Hn. unfold _rom_next_complete. set (c1 := ctx <| mx_next := _ |>).
  destruct (compare_next c1 Hc) as (c2 & -> & [R1 R2 R3]); [destruct Hn as [? ? []]; by constructor|]. step. eexists. split; [reflexivity|].
  destruct (_ =? 1); [by auto|]. cbn. unfold const. by auto.
Qed.

Lemma complete_ok heard rom : rom_ok heard rom -> mr_tables rom <> [] -> mr_parsedPMTs rom = mr_totalPMTsInPAT rom ->
  rom_ok heard (rom <| mr_modelComplete := 1 |>).
Proof.
  intros [[H1 H2 [S1 S2 S3 S4]] H3 _ H5] Ht Heq. constructor; [by constructor|exact H3|by right|]. unfold history in *. cbn. unfold const.
  change (mr_tables (_ <| mr_modelComplete := 1 |>)) with (mr_tables rom). destruct (mr_tables rom) as [|[p| |] ts]; try done.
  intros pmts E Hd. destruct (H5 pmts E Hd). constructor; try done. intros _. lia.
Qed.

(** ** The callbacks *)

Definition decoder_at (rom : streammodel_rom_s) (nr n : Z) : Prop := exists j x d, view rom nr !! j = Some (n, x, Some (d, n)).

Lemma mark_all heard l : forall rom, rom_ok heard rom -> Forall (es_ok) l -> exists rom', foldM mark_es l rom = Some rom' /\
  rom_ok heard rom' /\ same_view rom rom'.
Proof.
  induction l as [|es l IH]; intros rom H Hl; [exists rom; split; [done|]; split; [done|by constructor]|]. apply Forall_cons_1 in Hl as [He Hl].
  cbn [foldM]. destruct (mark_es_spec heard rom es H He) as (r1 & -> & H1 & V1 & _). step.
  destruct (IH r1 H1 Hl) as (r2 & -> & H2 & V2). exists r2. split; [done|]. split; [done|]. destruct V1, V2. constructor; try congruence.
  - intros nr Hn. by rewrite sv_view0, sv_view by done.
  - eauto.
Qed.

Lemma decoder_tables heard rom nr n : rom_ok heard rom -> 0 <= nr < 8192 -> decoder_at rom nr n -> exists p ts, mr_tables rom = TABLE_PAT p :: ts.
Proof.
  intros H Hn (j & x & d & Hj). pose proof (ro_history _ _ H) as Hh. unfold history in Hh.
  destruct (mr_tables rom) as [|[p| |] ts]; [|by eexists _, _|done|done].
  by destruct (Forall_lookup_1 _ _ _ _ (gn_view _ Hh nr Hn) Hj).
Qed.

Lemma map_alter {A B} (f : A -> B) (g : A -> A) (h : B -> B) l : (forall x, f (g x) = h (f x)) -> forall i, map f (alter g i l) = alter h i (map f l).
Proof. intros H. induction l as [|x l IH]; intros [|i]; cbn; [done|done|by rewrite H|]. f_equal. apply IH. Qed.

(** A PMT is stored. *)
Definition with_pmt_at (rom : streammodel_rom_s) (nr : Z) (i : nat) (t : dvbpsi_pmt_t) : streammodel_rom_s :=
  let ps := pid_at rom nr in put rom nr (ps <| md_parser := alter (fun q => q <| mp_pmt := Some t |>) i (md_parser ps) |>).

Lemma view_with_pmt rom nr i t nr' : len (mr_pids rom) = 8192 -> 0 <= nr < 8192 -> 0 <= nr' < 8192 ->
  view (with_pmt_at rom nr i t) nr' = if nr' =? nr then alter (fun y => (y.1.1, Some t, y.2)) i (view rom nr) else view rom nr'.
Proof.
  intros Hl Hn Hn'. unfold view, with_pmt_at. rewrite pid_at_put by done. destruct (Z.eqb_spec nr' nr) as [->|]; [|done].
  cbn. unfold const. by apply map_alter.
Qed.

Lemma alter_insert {A} (f : A -> A) (l : list A) (i : nat) x : l !! i = Some x -> alter f i l = <[i := f x]> l.
Proof. revert i. induction l as [|y l IH]; intros [|i] H; try done; cbn in *; [by injection H as ->|]. f_equal. by apply IH. Qed.

Lemma pmts_snoc tl t pmts : tl ++ [TABLE_PMT t] = map TABLE_PMT pmts -> exists pmts', pmts = pmts' ++ [t] /\ tl = map TABLE_PMT pmts'.
Proof.
  intros E. symmetry in E. apply map_eq_app in E as (l1 & l2 & -> & E1 & E2). destruct l2 as [|t2 [|]]; try done. injection E2 as ->. by exists l1.
Qed.

(** The callback of a decoder of PMTs. *)
Lemma cb_pmt_spec nr n t ts ctx : 0 <= nr < 8192 -> ctx_ok (upd_heard nothing n (TABLE_PMT t :: ts)) ctx -> decoder_at (mx_next ctx) nr n ->
  i_program_number t = n -> dvbpsi_pmt_ok t -> Forall (es_ok) (p_first_es t) ->
  exists ctx', cb_pmt true nr ctx t = Some ctx' /\ ctx_ok (upd_heard nothing n ts) ctx' /\ decoder_at (mx_next ctx') nr n.
Proof.
  intros Hn [Hc Hx Hk] Hd Et Ht Hes. unfold cb_pmt.
  destruct (mark_all _ (p_first_es t) (mx_next ctx) Hx Hes) as (rom & -> & Hr & Hv). step. assert (Hb := ro_base _ _ Hr).
  rewrite find_pid by (done || apply Hb). step. assert (Hp := bo_pids _ Hb nr Hn). rewrite parser_of_spec by apply Hp. step.
  assert (Hdr : decoder_at rom nr n) by (destruct Hd as (j & x & d & Hj); exists j, x, d; by rewrite (sv_view _ _ Hv)).
  rewrite Et. destruct (last_index_spec n (numbers (view rom nr))) as (i & Hi & Ei).
  { destruct Hdr as (j & x & d & Hj). apply list_elem_of_lookup. exists j. by eapply numbers_lookup. }
  assert (Ei' := Ei). unfold view in Ei. rewrite Ei. apply numbers_lookup_inv in Hi as (x0 & d0 & Hi).
  unfold view in Hi. rewrite lookup_map in Hi. destruct (md_parser (pid_at rom nr) !! i) as [q|] eqn:Eq; [|done].
  assert (Hil : 0 <= Z.of_nat i < 24) by (apply lookup_lt_Some in Eq; pose proof (po_parsers _ _ Hp); unfold len in *; lia).
  assert (Eg : aget (md_parser (pid_at rom nr)) (Z.of_nat i) = Some q) by (apply aget_Some; split; [lia|by rewrite Nat2Z.id]).
  rewrite Eg. step. rewrite aset_Some by (pose proof (po_parsers _ _ Hp); lia). step. rewrite set_pid by (done || apply Hb). step.
  rewrite Nat2Z.id, <- (alter_insert (fun q => q <| mp_pmt := Some t |>) _ _ _ Eq). fold (with_pmt_at rom nr i t).
  match goal with |- context [mr_parsedPMTs ?r =? _] => set (rom2 := r) end.
  assert (Hb2 : base_ok rom2).
  { assert (base_ok (with_pmt_at rom nr i t)) as [? ? []]; [|by constructor; [| |constructor]].
    apply base_put; [done..|]. rewrite (alter_insert _ _ _ _ Eq), <- (Nat2Z.id i). apply pid_ok_insert; [done|done|].
    destruct (po_parser _ _ Hp _ _ Eg) as [Hq _]. split; [exact Hq|]. intros t' [= <-]. exact Ht. }
  assert (Hview : forall nr', 0 <= nr' < 8192 -> view rom2 nr' =
    if nr' =? nr then alter (fun y => (y.1.1, Some t, y.2)) i (view rom nr) else view rom nr').
  { intros nr' Hn'. rewrite <- view_with_pmt by (done || apply Hb). done. }
  assert (Hat0 : forall nr', 0 <= nr' < 8192 -> md_pat (pid_at rom2 nr') = md_pat (pid_at rom nr') /\ md_present (pid_at rom2 nr') = md_present (pid_at rom nr')).
  { intros nr' Hn'. change (pid_at rom2 nr') with (pid_at (with_pmt_at rom nr i t) nr'). unfold with_pmt_at. rewrite pid_at_put by (done || apply Hb).
    by destruct (Z.eqb_spec nr' nr) as [->|]. }
  assert (Hd2 : decoder_at rom2 nr n).
  { destruct Hdr as (j & x & d & Hj). destruct (decide (j = i)) as [->|Hj'].
    - exists i, (Some t), d. rewrite Hview, Z.eqb_refl by done. by rewrite list_lookup_alter_eq, Hj.
    - exists j, x, d. rewrite Hview, Z.eqb_refl by done. by rewrite list_lookup_alter_ne by done. }
  destruct (decoder_tables _ rom nr n Hr Hn Hdr) as (p & tl & Etl).
  assert (Hok2 : rom_ok (upd_heard nothing n ts) rom2).
  { constructor; [done| |apply Hr|].
    - intros _. rewrite (proj1 (Hat0 0 ltac:(lia))). apply (ro_pat _ _ Hr). by rewrite Etl.
    - pose proof (ro_history _ _ Hr) as Hh. unfold history in *. change (mr_tables rom2) with (mr_tables rom ++ [TABLE_PMT t]). rewrite Etl in *. cbn [app].
      intros pmts E Hnd. apply pmts_snoc in E as (pmts' & -> & ->). destruct Hdr as (j & x & d & Hj).
      apply (gathered_pmt p pmts' t ts rom rom2 nr j x d n); try done; [by apply Hh| | |].
      + intros nr' Hn'. rewrite Ei', Nat2Z.id. by apply Hview.
      + by apply Hat0.
      + intros nr' Hn'. by rewrite (proj2 (Hat0 nr' Hn')). }
  destruct (Z.eqb_spec (mr_parsedPMTs rom2) (mr_totalPMTsInPAT rom2)) as [Eq2|].
  - destruct (next_complete (ctx <| mx_next := rom2 |>)) as (c2 & -> & C1 & C2 & C3); [apply Hc|done|]. exists c2. split; [done|].
    split; [|rewrite C2; exact Hd2]. constructor; [by rewrite C1| |by rewrite C3]. rewrite C2. apply complete_ok; [done|change (mr_tables rom ++ [TABLE_PMT t] <> []); by destruct (mr_tables rom)|done].
  - eexists. split; [reflexivity|]. split; [by constructor|exact Hd2].
Qed.

(** *** The callback of the decoder of PATs *)

Lemma free_parser_spec parser : len parser = 24 -> exists j, free_parser parser = Some j /\ 0 <= j < 24.
Proof.
  intros Hl. unfold free_parser, MAX_PID_PARSERS. rewrite find_in_spec.
  2: { unfold len. rewrite length_zip_with_l_eq; rewrite length_seqZ; [lia|]. unfold len in Hl. lia. }
  step. eexists. split; [reflexivity|]. match goal with |- context [head ?l] => destruct (head l) as [j|] eqn:E end; cbn [default from_option id]; [|lia].
  assert (Hj : j ∈ omap (fun '(j, p) => if is_attached p then None else Some j) (take (Z.to_nat 24) (zip (seqZ 0 24) parser)))
    by (destruct (omap _ _); [done|injection E as ->; left]).
  apply list_elem_of_omap in Hj as ([i q] & Hi & Ei). destruct (is_attached q); [done|]. injection Ei as ->.
  apply elem_of_take in Hi as (k & Hk & _). apply lookup_zip_with_Some in Hk as (x & y & [= -> ->] & Hx & _). apply lookup_seqZ in Hx as [-> ?]. lia.
Qed.

Lemma add_parser_spec nr n m : pid_ok nr m -> 0 <= nr < 8192 -> pmt_pid nr -> 0 < n -> exists m',
  add_parser n m = Some m' /\ pid_ok nr m' /\ md_pat m' = md_pat m /\ md_present m' = 1 /\
  exists i q d, md_parser m !! i = Some q /\ decodes in_stream d (AT_PMT n) [] /\
    map shape_of (md_parser m') = <[i := (n, mp_pmt q, Some (d, n))]> (map shape_of (md_parser m)).
Proof.
  pose proof pmt_pid_pat as Hpat. pose proof pmt_pid_sdt as Hsdt. intros [H1 H2 H3] Hr Hn Hpos. unfold add_parser.
  change (md_parser (_ <| md_pidType := PT_PMT |>)) with (md_parser m). destruct (free_parser_spec _ H1) as (j & -> & Hj). step.
  destruct (aget_lt (md_parser m) j) as [q Eq]; [lia|]. rewrite Eq. step. assert (Hq := H2 j q Eq). destruct Hq as [Hd Ht].
  assert ((if is_attached q then h ← dvbpsi_pmt_detach (mp_dvbpsi q); dvbpsi_delete h else Some tt) = Some tt) as ->.
  { unfold is_attached, decoder_ok in *. destruct (mp_dvbpsi q) as [[e [[|c|]|]]|]; try done; [by destruct Hd as (_ & -> & _)|by destruct Hd as (_ & -> & _)]. }
  step. destruct psi_new as (d0 & -> & _ & Hp & _). step. destruct (Hp n) as (d & -> & Hdec). step. rewrite aset_Some by lia. step.
  eexists. split; [reflexivity|]. split; [|split; [done|]; split; [done|]].
  - match goal with |- pid_ok nr ?x => set (m' := x) end.
    assert (Hm : pid_ok nr (m <| md_present := 1 |> <| md_pidType := PT_PMT |>)).
    { constructor; [done| |done]. intros i x Hx. destruct (H2 i x Hx) as [Hdx Htx]. split; [|done]. unfold decoder_ok in *.
      destruct (mp_dvbpsi x) as [[e [[|c|]|]]|]; try done; [by destruct Hdx as (_ & -> & _)| |by destruct Hdx as (_ & -> & _)].
      destruct Hdx as (? & ? & ? & _ & ?). auto. }
    apply (pid_ok_insert nr _ j (q <| mp_dvbpsi := Some (d, Some (AT_PMT n)) |> <| mp_programNumber := n |>) Hm Hj).
    split; [|exact Ht]. unfold decoder_ok. cbn. unfold const. split; [by eexists|done].
  - apply aget_Some in Eq as [_ Eq]. exists (Z.to_nat j), q, d. split; [done|]. split; [done|]. cbn. unfold const. by rewrite map_insert.
Qed.

(** While the programs of a PAT are gone through: [l], so far. *)
Record adding (rom rom' : streammodel_rom_s) (l : list (Z * Z)) : Prop := {
  ad_base : base_ok rom';
  ad_total : mr_totalPMTsInPAT rom' = len l;
  ad_pat : pid_at rom' 0 = pid_at rom 0;
  ad_parsed : mr_parsedPMTs rom' = mr_parsedPMTs rom;
  ad_complete : mr_modelComplete rom' = mr_modelComplete rom;
  ad_tables : mr_tables rom' = mr_tables rom;
  ad_fresh : gathers_nothing rom -> NoDup (map fst l) ->
    (forall nr j m t d n, 0 <= nr < 8192 -> view rom' nr !! j = Some (m, t, Some (d, n)) -> (n, nr) ∈ l /\ decodes in_stream d (AT_PMT n) []) /\
    (forall nr j j' m m' t t' d d' n, 0 <= nr < 8192 -> view rom' nr !! j = Some (m, t, Some (d, n)) ->
       view rom' nr !! j' = Some (m', t', Some (d', n)) -> j = j') /\
    (forall nr j m t k, 0 <= nr < 8192 -> view rom' nr !! j = Some (m, t, k) -> t = None) /\
    (forall n nr, 0 <= nr < 8192 -> (n, nr) ∈ l -> md_present (pid_at rom' nr) <> 0)
}.

Lemma adding_none rom rom' : base_ok rom' -> mr_totalPMTsInPAT rom' = 0 -> (forall nr, pid_at rom' nr = pid_at rom nr) ->
  mr_parsedPMTs rom' = mr_parsedPMTs rom -> mr_modelComplete rom' = mr_modelComplete rom -> mr_tables rom' = mr_tables rom ->
  adding rom rom' [].
Proof.
  intros Hb H1 H2 H3 H4 H5. constructor; try done. intros Hg _.
  assert (Hv : forall nr j m t k, 0 <= nr < 8192 -> view rom' nr !! j = Some (m, t, k) -> t = None /\ k = None).
  { intros nr j m t k Hn Hj. unfold view in Hj. rewrite H2 in Hj. exact (Forall_lookup_1 _ _ _ _ (gn_view _ Hg nr Hn) Hj). }
  split; [|split; [|split]].
  - intros * Hn Hj. by apply Hv in Hj as [_ ?].
  - intros * Hn Hj. by apply Hv in Hj as [_ ?].
  - intros * Hn Hj. by apply Hv in Hj as [? _].
  - intros n nr _ Hi. by apply not_elem_of_nil in Hi.
Qed.

Lemma adding_step rom r1 l n pid : adding rom r1 l -> 0 < n -> 0 <= pid < 8192 -> pmt_pid pid -> exists m r2,
  add_parser n (pid_at r1 pid) = Some m /\ rom_set_pid r1 pid m = Some r2 /\
  adding rom (r2 <| mr_totalPMTsInPAT := mr_totalPMTsInPAT r2 + 1 |>) (l ++ [(n, pid)]).
Proof.
  pose proof pmt_pid_pat as Hpat. intros [A1 A2 A3 A4 A5 A6 A7] Hpos Hr Hn.
  destruct (add_parser_spec pid n _ (bo_pids _ A1 pid Hr) Hr Hn Hpos) as (m & E & Hm & _ & Hpres & i & q & d & Hi & Hdec & Hs).
  exists m, (put r1 pid m). split; [done|]. split; [apply set_pid; [apply A1|done]|].
  set (r2 := (put r1 pid m) <| mr_totalPMTsInPAT := _ |>).
  assert (Hat : forall nr, 0 <= nr < 8192 -> pid_at r2 nr = if nr =? pid then m else pid_at r1 nr).
  { intros nr Hnr. change (pid_at r2 nr) with (pid_at (put r1 pid m) nr). apply pid_at_put; [apply A1|done|done]. }
  assert (Hv : forall nr, 0 <= nr < 8192 -> view r2 nr = if nr =? pid then <[i := (n, mp_pmt q, Some (d, n))]> (view r1 pid) else view r1 nr).
  { intros nr Hnr. unfold view at 1. rewrite Hat by done. by destruct (Z.eqb_spec nr pid) as [->|]. }
  constructor; try done.
  - destruct (base_put r1 pid m A1 Hr Hm) as [? ? []]. by constructor; [| |constructor].
  - change (mr_totalPMTsInPAT r1 + 1 = len (l ++ [(n, pid)])). rewrite len_app, A2. done.
  - rewrite Hat by lia. destruct (Z.eqb_spec 0 pid); [by subst|done].
  - intros Hg Hnd. rewrite map_app in Hnd. apply list.NoDup_app in Hnd as (Hnd & Hnew & _).
    destruct (A7 Hg Hnd) as (F1 & F2 & F3 & F4). clear A7.
    assert (Hno : forall nr, (n, nr) ∉ l).
    { intros nr Hi'. apply (Hnew n); [|left]. apply (list_elem_of_fmap_2 fst) in Hi'. exact Hi'. }
    assert (Hil : (i < length (view r1 pid))%nat) by (unfold view; rewrite length_map; by eapply lookup_lt_Some).
    assert (Hcase : forall nr j y, 0 <= nr < 8192 -> view r2 nr !! j = Some y ->
      nr = pid /\ j = i /\ y = (n, mp_pmt q, Some (d, n)) \/ (nr <> pid \/ j <> i) /\ view r1 nr !! j = Some y).
    { intros nr j y Hnr Hj. rewrite Hv in Hj by done. destruct (Z.eqb_spec nr pid) as [->|]; [|by auto].
      destruct (decide (j = i)) as [->|Hji]; [left; rewrite list_lookup_insert_eq in Hj by done; by injection Hj as <-|].
      right. rewrite list_lookup_insert_ne in Hj by done. auto. }
    split; [|split; [|split]].
    + intros * Hnr Hj. destruct (Hcase _ _ _ Hnr Hj) as [(-> & _ & [= -> -> -> ->])|[_ H]].
      * split; [apply elem_of_app; right; left|done].
      * destruct (F1 _ _ _ _ _ _ Hnr H) as [? ?]. split; [apply elem_of_app; by left|done].
    + intros * Hnr H1 H2. destruct (Hcase _ _ _ Hnr H1) as [(-> & -> & [= -> -> -> ->])|[_ H]].
      * destruct (Hcase _ _ _ Hnr H2) as [(_ & -> & _)|[_ H']]; [done|]. by destruct (F1 _ _ _ _ _ _ Hnr H') as [?%Hno _].
      * destruct (Hcase _ _ _ Hnr H2) as [(-> & -> & [= -> -> -> ->])|[_ H']]; [by destruct (F1 _ _ _ _ _ _ Hnr H) as [?%Hno _]|].
        exact (F2 _ _ _ _ _ _ _ _ _ _ Hnr H H').
    + intros * Hnr Hj. destruct (Hcase _ _ _ Hnr Hj) as [(-> & _ & [= -> -> ->])|[_ H]]; [|by eapply F3].
      apply (F3 pid i (mp_programNumber q) _ (shape_of q).2 Hr). unfold view. by rewrite lookup_map, Hi.
    + intros n' nr Hnr Hin. rewrite Hat by done. destruct (Z.eqb_spec nr pid) as [->|]; [lia|]. apply (F4 n' nr Hnr).
      apply elem_of_app in Hin as [?|Hin]; [done|]. apply list_elem_of_singleton in Hin. congruence.
Qed.

Definition programs_of (l : list (Z * Z)) : list (Z * Z) := List.filter (fun x => 0 <? x.1) l.

Lemma pat_programs section rom l : forall ctx done, mx_enableSectionCRCChecks ctx = 0 -> Forall (program_ok) l ->
  adding rom (mx_next ctx) done -> exists rom', foldM (pat_program section) l ctx = Some (ctx <| mx_next := rom' |>) /\
    adding rom rom' (done ++ programs_of l).
Proof.
  induction l as [|[n pid] l IH]; intros ctx don Hc Hl Ha.
  { exists (mx_next ctx). split; [by destruct ctx|by rewrite app_nil_r]. }
  apply Forall_cons_1 in Hl as [(Hn & Hr & Hp) Hl]. cbn [foldM fst snd] in *. unfold pat_program at 2. unfold programs_of. cbn [List.filter fst].
  fold (programs_of l). destruct (Z.ltb_spec 0 n) as [Hpos|].
  - rewrite Hc. cbn [Z.eqb]. step. destruct (adding_step rom (mx_next ctx) don n pid Ha Hpos Hr (Hp Hpos)) as (m & r2 & E & Es & Ha2).
    rewrite find_pid by (done || apply Ha). step. rewrite E. step. rewrite Es. step.
    match goal with |- context [foldM _ l ?c] => destruct (IH c (don ++ [(n, pid)])) as (rom' & E' & H') end; [done|done|exact Ha2|].
    exists rom'. split; [exact E'|]. by rewrite <- app_assoc in H'.
  - step. by apply IH.
Qed.

Lemma wanted_programs p : wanted p = programs_of (p_first_program p).
Proof. reflexivity. Qed.

Lemma cb_pat_spec section ctx p : ctx_ok nothing ctx -> Forall (program_ok) (p_first_program p) ->
  exists ctx', cb_pat section 0 ctx p = Some ctx' /\ ctx_ok nothing ctx'.
Proof.
  intros [Hc Hn Hk] Hp. assert (Hb := ro_base _ _ Hn). unfold cb_pat.
  assert (exists b, (if mr_totalPMTsInPAT (mx_next ctx) =? 0 then Some false else
     m ← _rom_find_pid (mx_next ctx) 0; prior ← md_pat m;
     Some (negb (pat_i_version prior =? pat_i_version p) && negb (pat_b_current_next p =? 0))) = Some b) as [b ->].
  { destruct (Z.eqb_spec (mr_totalPMTsInPAT (mx_next ctx)) 0); [by eexists|]. rewrite find_pid by (lia || apply Hb). step.
    destruct (ro_pat _ _ Hn) as [q ->]; [|step; by eexists]. intros E. pose proof (ro_history _ _ Hn) as Hh. unfold history in Hh. rewrite E in Hh.
    by destruct Hh. }
  step. destruct b; [eexists; split; [reflexivity|]; by constructor|].
  set (r0 := (mx_next ctx) <| mr_pmtCollectionTimer := _ |> <| mr_totalPMTsInPAT := 0 |>).
  assert (Hb0 : base_ok r0) by (destruct Hb as [? ? []]; by constructor; [| |constructor]).
  assert (Hk0 : mx_enableSectionCRCChecks (ctx <| mx_next := r0 |>) = 0) by exact Hk.
  destruct (pat_programs section (mx_next ctx) (p_first_program p) _ [] Hk0 Hp) as (r1 & -> & Ha); [by apply adding_none|].
  step. cbn [app] in Ha. rewrite <- wanted_programs in Ha. destruct Ha as [A1 A2 A3 A4 A5 A6 A7].
  change (mx_next (_ <| mx_next := r1 |>)) with r1. rewrite find_pid by (lia || apply A1). step. rewrite set_pid by (lia || apply A1). step.
  eexists. split; [reflexivity|]. constructor; [done| |done]. cbn [mx_next]. unfold const.
  match goal with |- rom_ok _ ?r => change r with ((put r1 0 ((pid_at r1 0) <| md_pat := Some p |>)) <| mr_tables := mr_tables r1 ++ [TABLE_PAT p] |>) end.
  set (r2 := (put r1 0 _) <| mr_tables := _ |>).
  assert (Hat : forall nr, 0 <= nr < 8192 -> pid_at r2 nr = if nr =? 0 then (pid_at r1 0) <| md_pat := Some p |> else pid_at r1 nr).
  { intros nr Hnr. by apply (pid_at_put r1 0); [apply A1|lia|]. }
  assert (Hv : forall nr, 0 <= nr < 8192 -> view r2 nr = view r1 nr).
  { intros nr Hnr. unfold view. rewrite Hat by done. by destruct (Z.eqb_spec nr 0) as [->|]. }
  constructor.
  - assert (base_ok (put r1 0 ((pid_at r1 0) <| md_pat := Some p |>))) as [? ? []]; [|by constructor; [| |constructor]].
    apply base_put; [done|lia|]. destruct (bo_pids _ A1 0 ltac:(lia)) as [P1 P2 P3]. constructor; [done|done|]. by intros q [= <-].
  - intros _. rewrite Hat by lia. by eexists.
  - change (mr_modelComplete r1 = 0 \/ mr_modelComplete r1 = 1). rewrite A5. apply Hn.
  - pose proof (ro_history _ _ Hn) as Hh. unfold history in *. change (mr_tables r2) with (mr_tables r1 ++ [TABLE_PAT p]). rewrite A6.
    destruct (mr_tables (mx_next ctx)) as [|[q| |] ts]; [|..]; try done; cbn [app].
    + intros pmts E Hnd. destruct pmts; [|done]. destruct (A7 Hh Hnd) as (F1 & F2 & F3 & F4).
      assert (Hw : forall n nr, (n, nr) ∈ wanted p -> 0 <= nr < 8192 /\ n <> 0).
      { intros n nr Hi. apply wanted_elem in Hi as [Hi Hpos]. apply (proj1 (list.Forall_forall _ _) Hp) in Hi as (_ & ? & _). cbn in *. lia. }
      constructor.
      * by rewrite Hat by lia.
      * done.
      * change (mr_parsedPMTs r1 = 0). rewrite A4. apply Hh.
      * intros nr j m t d n Hnr. rewrite Hv by done. intros Hj. by apply (F1 _ _ _ _ _ _ Hnr Hj).
      * intros nr j j' m m' t t' d d' n Hnr. rewrite Hv by done. by apply F2.
      * intros nr j m t k Hnr. rewrite Hv by done. intros Hj. by apply (F3 _ _ _ _ _ Hnr) in Hj.
      * intros n nr Hi. destruct (Hw n nr Hi) as [Hnr _]. rewrite Hv by done. cbn. unfold slots. apply omap_none.
        intros k [c t] Hk'. apply list_lookup_fmap_Some in Hk' as ([[c' t'] y] & [= -> ->] & Hy). cbn. rewrite (F3 _ _ _ _ _ Hnr Hy). by destruct (_ =? _).
      * intros n nr Hi. destruct (Hw n nr Hi) as [Hnr _]. rewrite Hat by done. specialize (F4 n nr Hnr Hi). destruct (Z.eqb_spec nr 0) as [->|]; [exact F4|done].
      * change (mr_modelComplete r1 = 1 -> len (wanted p) <= len (@nil dvbpsi_pmt_t)). rewrite A5, (gn_complete _ Hh). lia.
      * by apply Forall_nil_2.
    + intros pmts E. exfalso. assert (TABLE_PAT p ∈ map TABLE_PMT pmts) as Hin by (rewrite <- E; apply elem_of_app; right; left).
      apply list_elem_of_In, in_map_iff in Hin as (x & ? & _). done.
Qed.

Lemma cb_sdt_spec heard ctx l : ctx_ok heard ctx -> Forall service_ok l ->
  exists ctx', cb_sdt ctx l = Some ctx' /\ ctx_ok heard ctx'.
Proof.
  intros [Hc Hn Hk] Hl. unfold cb_sdt. destruct (sdt_services_spec l _ (bo_sdt _ (ro_base _ _ Hn)) Hl) as (rom & -> & Hs & Hsame). step.
  eexists. split; [reflexivity|]. constructor; [done| |done]. by apply (same_sdt_ok heard (mx_next ctx)).
Qed.

Lemma heard_nothing n rom : rom_ok (upd_heard nothing n []) rom -> rom_ok nothing rom.
Proof.
  intros [H1 H2 H3 H4]. constructor; try done. unfold history in *. destruct (mr_tables rom) as [|[p| |] ts]; try done.
  intros pmts E Hd. destruct (H4 pmts E Hd) as [G1 G2 G3 G4]. constructor; try done. intros * Hn Hj. destruct (G4 _ _ _ _ _ _ Hn Hj) as [? H].
  split; [done|]. unfold upd_heard, nothing in *. by destruct (_ =? n).
Qed.

(** ** Packets *)

Section Write.
Context (section : Z -> option (list Z)).

Lemma pmt_callbacks nr n ts : 0 <= nr < 8192 -> Forall (table_for (AT_PMT n)) ts -> forall ctx,
  ctx_ok (upd_heard nothing n ts) ctx -> decoder_at (mx_next ctx) nr n ->
  exists ctx', foldM (psi_callback section true nr) ts ctx = Some ctx' /\ ctx_ok nothing ctx'.
Proof.
  intros Hn Hts. induction Hts as [|t ts Ht _ IH]; intros ctx Hc Hd.
  - exists ctx. split; [done|]. destruct Hc. constructor; try done. by eapply heard_nothing.
  - destruct t as [|t|]; try done. destruct Ht as (Et & Hok & Hes). cbn [foldM psi_callback].
    destruct (cb_pmt_spec nr n t ts ctx Hn Hc Hd Et Hok Hes) as (c1 & -> & H1 & D1). step. by apply IH.
Qed.

Lemma other_callbacks a ts nr : (a = AT_PAT /\ nr = 0 \/ a = AT_DEMUX) -> Forall (table_for a) ts -> forall ctx, ctx_ok nothing ctx ->
  exists ctx', foldM (psi_callback section true nr) ts ctx = Some ctx' /\ ctx_ok nothing ctx'.
Proof.
  intros Ha Hts. induction Hts as [|t ts Ht _ IH]; intros ctx Hc; [by exists ctx|]. cbn [foldM].
  assert (exists c1, psi_callback section true nr ctx t = Some c1 /\ ctx_ok nothing c1) as (c1 & E & H1).
  { destruct Ha as [[-> ->]| ->], t; try done; [by apply cb_pat_spec|by apply cb_sdt_spec]. }
  rewrite E. step. by apply IH.
Qed.

Lemma push_parser_spec nr pkt ctx j : in_stream pkt -> ctx_ok nothing ctx -> 0 <= nr < 8192 -> 0 <= j < 24 ->
  exists ctx', push_parser section true nr pkt ctx j = Some ctx' /\ ctx_ok nothing ctx'.
Proof.
  intros Hin Hc Hn Hj. assert (Hr := co_next _ _ Hc). assert (Hb := ro_base _ _ Hr). unfold push_parser. rewrite find_pid by (done || apply Hb). step.
  destruct (parser_at _ nr j Hb Hn Hj) as (q & Eq & Hd & Ht). rewrite Eq. step. unfold decoder_ok in Hd.
  destruct (mp_dvbpsi q) as [[d [a|]]|] eqn:Ed; [|done|by exists ctx]. destruct Hd as [[h Hh] Ha].
  pose proof (psi_push d a h pkt Hh Hin) as Hpush. assert (Hpush' := fun h Hh => proj1 (psi_push d a h pkt Hh Hin)). destruct (dvbpsi_packet_push d pkt) as [d' ts].
  cbn [fst snd] in *. destruct Hpush as [Hdec Hts].
  rewrite aset_Some by (pose proof (po_parsers _ _ (bo_pids _ Hb nr Hn)); lia). step. rewrite set_pid by (done || apply Hb). step.
  fold (with_decoder (mx_next ctx) nr j q (d', Some a)). set (ctx1 := ctx <| mx_next := _ |>).
  destruct a as [|n|].
  - apply (other_callbacks AT_PAT); [by left; split; [|apply Ha]|done|]. constructor; try apply Hc.
    eapply store_other; try done. by eexists.
  - apply (pmt_callbacks nr n); [done|done| |].
    + constructor; try apply Hc. by eapply store_pmt.
    + exists (Z.to_nat j), (mp_pmt q), d'. change (mx_next ctx1) with (with_decoder (mx_next ctx) nr j q (d', Some (AT_PMT n))).
      rewrite view_insert, Z.eqb_refl by done. destruct Ha as (_ & _ & _ & En). rewrite list_lookup_insert_eq; [by rewrite <- En|].
      unfold view. rewrite length_map. pose proof (po_parsers _ _ (bo_pids _ Hb nr Hn)) as Hl. unfold len in Hl. lia.
  - apply (other_callbacks AT_DEMUX); [by right|done|]. constructor; try apply Hc. eapply store_other; try done. by eexists.
Qed.

Lemma ctx_next heard ctx rom : ctx_ok heard ctx -> rom_ok heard rom -> ctx_ok heard (ctx <| mx_next := rom |>).
Proof. intros [H1 _ H3] H. by constructor. Qed.

Lemma sdt_packet_spec ctx pkt : in_stream (take 188 pkt) -> ctx_ok nothing ctx ->
  exists ctx', sdt_packet section true ctx pkt = Some ctx' /\ ctx_ok nothing ctx'.
Proof.
  intros Hin Hc. pose proof (pid_range pkt) as Hp. unfold sdt_packet. case_if; [lia|].
  set (c1 := if _ =? TSTOOLS_PID_PAT then check_pat_cc pkt ctx else ctx).
  assert (H1 : ctx_ok nothing c1) by (unfold c1, check_pat_cc; destruct Hc; destruct (_ =? TSTOOLS_PID_PAT); [destruct (negb _ && _)|]; by constructor).
  destruct (sdt_decoder_spec nothing c1 _ (co_next _ _ H1) Hp) as (rom & -> & Hr & _). step.
  destruct (Z.eqb_spec (ltntstools_pid pkt) 0x11) as [->|]; [|eexists; split; [reflexivity|by apply ctx_next]].
  apply push_parser_spec; [done|by apply ctx_next|lia|lia].
Qed.

Lemma model_packet_spec ctx pkt : in_stream (take 188 pkt) -> ctx_ok nothing ctx ->
  exists ctx', model_packet section true ctx pkt = Some ctx' /\ ctx_ok nothing ctx'.
Proof.
  intros Hin Hc. pose proof (pid_range pkt) as Hp. unfold model_packet.
  destruct (pat_decoder_spec nothing ctx _ (co_next _ _ Hc) Hp) as (rom & -> & Hr & _). step.
  assert (H1 := ctx_next _ _ _ Hc Hr). set (c1 := ctx <| mx_next := rom |>) in *. assert (Hb := ro_base _ _ (co_next _ _ H1)).
  rewrite find_pid by (done || apply Hb). step.
  assert (exists c2, (if md_present (pid_at (mx_next c1) (ltntstools_pid pkt)) =? 0 then Some c1
    else foldM (push_parser section true (ltntstools_pid pkt) (take 188 pkt)) (seqZ 0 MAX_PID_PARSERS) c1) = Some c2 /\ ctx_ok nothing c2) as (c2 & -> & H2).
  { destruct (_ =? 0); [by exists c1|]. apply foldM_inv; [|done]. intros c j Hj Hcj. apply elem_of_seqZ in Hj. unfold MAX_PID_PARSERS in Hj.
    by apply push_parser_spec. }
  step. assert (Hr2 := co_next _ _ H2). assert (Hb2 := ro_base _ _ Hr2). rewrite find_pid by (done || apply Hb2). step.
  rewrite set_pid by (done || apply Hb2). step. eexists. split; [reflexivity|]. apply ctx_next; [done|].
  destruct (bo_pids _ Hb2 _ Hp) as [P1 P2 P3]. apply put_ok; try done. by intros ->.
Qed.

Lemma rom_ok_times heard rom a b : rom_ok heard rom -> rom_ok heard (rom <| mr_allowableWriteTime := a |> <| mr_pmtCollectionTimer := b |>).
Proof.
  intros [[H1 H2 [S1 S2 S3 S4]] H3 H4 H5]. constructor; [by constructor|exact H3|exact H4|]. unfold history in *. cbn. unfold const.
  match goal with |- match mr_tables ?r with _ => _ end => change (mr_tables r) with (mr_tables rom) end.
  destruct (mr_tables rom) as [|[p| |] ts]; try done; [destruct H5; by constructor|].
  intros pmts E Hd. destruct (H5 pmts E Hd). by constructor.
Qed.

Lemma restart_spec ctx : ctx_ok nothing ctx -> exists ctx', restart ctx = Some ctx' /\ ctx_ok nothing ctx'.
Proof.
  intros Hc. unfold restart. destruct (rom_initialize_spec (mx_next ctx) (mr_nr (mx_next ctx)) (ro_base _ _ (co_next _ _ Hc))) as (r & -> & Hr & _). step.
  eexists. split; [reflexivity|]. destruct Hc. constructor; try done. exact (rom_ok_times nothing r _ (mr_pmtCollectionTimer r) (Hr nothing)).
Qed.

Lemma model_loop_spec n : forall i pkts ctx, 0 <= i -> (i + Z.of_nat n) * 188 <= len pkts ->
  (forall k, i <= k < i + Z.of_nat n -> in_stream (take 188 (drop (Z.to_nat (k * 188)) pkts))) -> ctx_ok nothing ctx ->
  exists ctx', model_loop section true n i pkts ctx = Some ctx' /\ ctx_ok nothing ctx'.
Proof.
  induction n as [|n IH]; intros i pkts ctx Hi Hl Hin Hc; cbn [model_loop]; [by exists ctx|]. destruct (_ =? 0); [by exists ctx|].
  destruct (rds_exists (drop (Z.to_nat (i * 188)) pkts) 0 188) as (q & -> & _); [lia|lia|rewrite len_drop; lia|]. step.
  destruct (_ || _); [apply IH; [lia|lia|intros; apply Hin; lia|done]|].
  destruct (model_packet_spec ctx (drop (Z.to_nat (i * 188)) pkts) (Hin i ltac:(lia)) Hc) as (c1 & -> & H1). step.
  destruct (negb _); [by apply restart_spec|]. apply IH; [lia|lia|intros; apply Hin; lia|done].
Qed.

Lemma check_collection_spec ctx : ctx_ok nothing ctx -> exists ctx', check_collection ctx = Some ctx' /\ ctx_ok nothing ctx'.
Proof.
  intros Hc. unfold check_collection. destruct (_ && _); [|by exists ctx].
  destruct (rom_initialize_spec (mx_next ctx) (mr_nr (mx_next ctx)) (ro_base _ _ (co_next _ _ Hc))) as (r & -> & Hr & _). step.
  eexists. split; [reflexivity|]. destruct Hc as [[H1 H3 H4 H5] _ Hk]. constructor; [|exact (Hr nothing)|done].
  match goal with |- rom_ok _ ?r => change r with ((mx_current ctx) <| mr_modelComplete := 0 |>) end.
  constructor; [destruct H1 as [? ? []]; by constructor; [| |constructor]|exact H3|by left|]. unfold history in *. cbn. unfold const.
  match goal with |- match mr_tables ?r with _ => _ end => change (mr_tables r) with (mr_tables (mx_current ctx)) end.
  destruct (mr_tables (mx_current ctx)) as [|[p| |] ts]; try done; [destruct H5; by constructor|].
  intros pmts E Hd. destruct (H5 pmts E Hd). by constructor.
Qed.

Lemma activate_spec ctx : base_ok (mx_current ctx) -> rom_ok nothing (mx_next ctx) -> mx_enableSectionCRCChecks ctx = 0 ->
  exists ctx', _rom_activate ctx = Some ctx' /\ ctx_ok nothing ctx' /\ mx_current ctx' = mx_next ctx.
Proof.
  intros Hc Hn Hk. unfold _rom_activate. destruct (rom_initialize_spec (mx_current ctx) (mr_nr (mx_current ctx)) Hc) as (r & -> & Hr & _). step.
  eexists. split; [reflexivity|]. split; [|done]. constructor; [exact Hn| |exact Hk].
  exact (rom_ok_times nothing r _ (mr_pmtCollectionTimer r) (Hr nothing)).
Qed.

(** The packets of a buffer of packets. *)
Lemma buffer_packet ps k : packets ps -> 0 <= k < len ps -> Forall in_stream ps -> in_stream (take 188 (drop (Z.to_nat (k * 188)) (concat ps))).
Proof.
  intros Hps. revert k. induction Hps as [|p ps Hp Hps IH]; intros k Hk Hin; [change (len []) with 0 in Hk; lia|].
  apply list.Forall_cons in Hin as [Hin1 Hin2]. cbn [concat]. rewrite len_cons in Hk. unfold len in Hp.
  destruct (Z.eqb_spec k 0) as [->|Hne]; [by rewrite drop_0, take_app_length' by lia|].
  replace (Z.to_nat (k * 188)) with (length p + Z.to_nat ((k - 1) * 188))%nat by lia. rewrite <- drop_drop, drop_app_length. apply IH; [lia|done].
Qed.

Lemma tails_packets ps : packets ps -> Forall in_stream ps -> forall q, q ∈ tails ps -> in_stream (take 188 q).
Proof.
  induction 1 as [|p ps Hp Hps IH]; intros Hin q; cbn [tails]; [by intros ?%not_elem_of_nil|]. apply list.Forall_cons in Hin as [Hin1 Hin2].
  intros [->|Hq]%elem_of_cons; [|by apply IH]. cbn [concat]. unfold len in Hp. by rewrite take_app_length' by lia.
Qed.

(** A write of whole packets of the stream. *)
Lemma model_write_spec ctx ps t : ctx_ok nothing ctx -> packets ps -> Forall in_stream ps -> ps <> [] ->
  exists ctx' c, ltntstools_streammodel_write section true (Some ctx) (Some (concat ps)) (len ps) t = Some (Some ctx', len ps, Some c) /\
    ctx_ok nothing ctx' /\ (c = 0 \/ c = 1).
Proof.
  intros Hc Hps Hin Hne. assert (Hl : 0 < len ps) by (destruct ps; [done|rewrite len_cons; pose proof (len_nonneg ps); lia]).
  unfold ltntstools_streammodel_write. case_if; [lia|]. set (c0 := ctx <| mx_now := t |> <| mx_writePackets := _ |>).
  assert (H0 : ctx_ok nothing c0) by (destruct Hc; by constructor).
  destruct (check_collection_spec c0 H0) as (c1 & -> & H1). step. rewrite (co_checks _ _ H1). cbn [Z.eqb]. step.
  rewrite packet_fold_spec by done.
  destruct (foldM_inv (ctx_ok nothing) (sdt_packet section true) (tails ps)) with (s := c1) as (c2 & -> & H2);
    [intros s x Hx Hs; apply sdt_packet_spec; [by apply (tails_packets ps)|done]|done|]. step.
  destruct (model_loop_spec (Z.to_nat (len ps)) 0 (concat ps) c2) as (c3 & -> & H3); [lia|rewrite len_concat by done; lia|intros; apply buffer_packet; [done|lia|done]|done|]. step.
  destruct (negb _); [|by exists c3, 0; auto].
  destruct (activate_spec c3 (ro_base _ _ (co_current _ _ H3)) (co_next _ _ H3) (co_checks _ _ H3)) as (c4 & -> & H4 & _). step.
  eexists _, 1. split; [reflexivity|]. split; [|by right]. destruct H4. by constructor.
Qed.

Lemma model_alloc_spec : exists ctx, ltntstools_streammodel_alloc true = Some (Some ctx) /\ ctx_ok nothing ctx.
Proof.
  unfold ltntstools_streammodel_alloc. generalize rom_zero, rom_zero_base. intros z Hz. cbn [negb].
  destruct (rom_initialize_spec z 0 Hz) as (r0 & -> & Hr0 & _). step.
  destruct (rom_initialize_spec z 1 Hz) as (r1 & -> & Hr1 & _). step.
  match goal with |- context [_rom_activate ?c] => destruct (activate_spec c) as (c1 & -> & H1 & _) end; [apply (Hr0 nothing)|apply (Hr1 nothing)|done|].
  step. by exists c1.
Qed.

(** The writes of a caller: the packets and the time of each. *)
Definition streammodel_run (ctx : streammodel_ctx_s) (calls : list (list (list Z) * timeval)) : option streammodel_ctx_s :=
  foldM (fun ctx '(ps, t) =>
    '(ctx, _, _) ← ltntstools_streammodel_write section true (Some ctx) (Some (concat ps)) (len ps) t; ctx) calls ctx.

Lemma run_spec calls : Forall (fun c => packets c.1 /\ Forall in_stream c.1) calls -> forall ctx, ctx_ok nothing ctx ->
  exists ctx', streammodel_run ctx calls = Some ctx' /\ ctx_ok nothing ctx'.
Proof.
  unfold streammodel_run. intros Hcalls. apply foldM_inv. intros ctx [ps t] Hi Hc.
  apply (proj1 (list.Forall_forall _ _) Hcalls) in Hi as [Hi Hin]. cbn [fst] in Hi, Hin. destruct (decide (ps = [])) as [->|Hne].
  - cbn [concat]. unfold ltntstools_streammodel_write. change (len []) with 0. cbn. by exists ctx.
  - destruct (model_write_spec ctx ps t Hc Hi Hin Hne) as (c1 & c & -> & H1 & _). step. by exists c1.
Qed.

Lemma free_spec ctx : ctx_ok nothing ctx -> exists ctx', ltntstools_streammodel_free (Some ctx) = Some (Some ctx').
Proof.
  intros [Hc Hn Hk]. unfold ltntstools_streammodel_free.
  destruct (rom_initialize_spec _ (mr_nr (mx_current ctx)) (ro_base _ _ Hc)) as (r0 & -> & _). step.
  destruct (rom_initialize_spec _ (mr_nr (mx_next ctx)) (ro_base _ _ Hn)) as (r1 & -> & _). step. by eexists.
Qed.

Lemma query_spec ctx : ctx_ok nothing ctx -> exists r o, ltntstools_streammodel_query_model true ctx = Some (r, o) /\ forall m, o = Some m -> pat_ok m.
Proof.
  intros Hc. unfold ltntstools_streammodel_query_model. destruct (_ =? 1); [|by exists (-1), None]. apply query_total, (co_current _ _ Hc).
Qed.

(** C10: On a stream whose PMTs keep to PIDs of their own, neither 0 nor 0x11
    and with no elementary stream on them, and whose services have at most one
    service descriptor with names of at most 128 bytes, and with memory for
    the decoders, the stream model never fails: whatever packets of the stream
    are written, in whatever order and at whatever times, to a new model, no
    decoder is deleted while it is attached, no array is left, every write
    takes its packets and says whether there is a new model, a query answers,
    and the model can be freed.  (On other streams it does fail: see
    [es_on_pmt_aborts], [provider_overflows], [second_descriptor_outside].) *)
Theorem streammodel_write_safe calls ps t : Forall (fun c => packets c.1 /\ Forall in_stream c.1) calls ->
  packets ps -> Forall in_stream ps -> ps <> [] ->
  exists ctx0 ctx ctx' c r o freed, ltntstools_streammodel_alloc true = Some (Some ctx0) /\ streammodel_run ctx0 calls = Some ctx /\
    ltntstools_streammodel_write section true (Some ctx) (Some (concat ps)) (len ps) t = Some (Some ctx', len ps, Some c) /\
    (c = 0 \/ c = 1) /\ ltntstools_streammodel_query_model true ctx' = Some (r, o) /\
    (forall m, o = Some m -> pat_ok m) /\ ltntstools_streammodel_free (Some ctx') = Some (Some freed).
Proof.
  intros Hcalls Hps Hin Hne. destruct model_alloc_spec as (ctx0 & E0 & H0). destruct (run_spec calls Hcalls ctx0 H0) as (ctx & E1 & H1).
  destruct (model_write_spec ctx ps t H1 Hps Hin Hne) as (ctx' & c & E2 & H2 & Hc). destruct (query_spec ctx' H2) as (r & o & E3 & Ho).
  destruct (free_spec ctx' H2) as (freed & E4). exists ctx0, ctx, ctx', c, r, o, freed. auto 10.
Qed.

(** ** What a query answers *)

Lemma program_numbers p : map fst (wanted p) = List.filter (fun n => 0 <? n) (map fst (p_first_program p)).
Proof.
  unfold wanted. induction (p_first_program p) as [|[n nr] l IH]; [done|]. cbn [List.filter map fst]. destruct (0 <? n); cbn [map fst]; by rewrite IH.
Qed.

Lemma last_pmt_elem n pmts t : last_pmt n pmts = Some t -> t ∈ pmts /\ i_program_number t = n.
Proof.
  unfold last_pmt. intros E. assert (Hi : t ∈ of_program n pmts) by exact (list.last_Some_elem_of _ _ E).
  apply list_elem_of_In, filter_In in Hi as [Hi Hn]. split; [by apply list_elem_of_In|lia].
Qed.

Lemma last_pmt_some n pmts t : t ∈ pmts -> i_program_number t = n -> exists t', last_pmt n pmts = Some t'.
Proof.
  intros Hi Hn. unfold last_pmt. assert (Ht : t ∈ of_program n pmts).
  { apply list_elem_of_In, filter_In. split; [by apply list_elem_of_In|lia]. }
  destruct (list.last (of_program n pmts)) as [t'|] eqn:E; [by exists t'|]. apply list.last_None in E. rewrite E in Ht. by apply not_elem_of_nil in Ht.
Qed.

(** As many PMTs of different programs as there are programs: all are there. *)
Lemma all_programs p pmts n : NoDup (map i_program_number pmts) -> len (wanted p) <= len pmts ->
  Forall (fun t => exists nr, (i_program_number t, nr) ∈ wanted p) pmts -> n ∈ map fst (wanted p) -> exists t, last_pmt n pmts = Some t.
Proof.
  intros Hnd Hl Hf Hn. assert (Hin : n ∈ map i_program_number pmts).
  { apply list_elem_of_In. refine (NoDup_length_incl (proj1 (base.NoDup_ListNoDup _) Hnd) _ _ n (proj1 (list_elem_of_In _ _) Hn)).
    - rewrite !length_map. unfold len in Hl. lia.
    - intros m Hm. apply in_map_iff in Hm as (t & <- & Ht). apply (proj1 (List.Forall_forall _ _) Hf) in Ht as (nr & Hi).
      apply in_map_iff. exists (i_program_number t, nr). split; [done|]. by apply list_elem_of_In. }
  apply list_elem_of_In, in_map_iff in Hin as (t & <- & Ht). apply (last_pmt_some _ _ t); [by apply list_elem_of_In|done].
Qed.

(** C9: What a query answers, on a stream as for a safe write, when the current
    model was completed from one PAT, which gives each program number once,
    and from PMTs: the programs of that PAT, in order, each with the last PMT
    taken for it; when no program gave its PMT twice, every program has one. *)
Theorem streammodel_query_tables calls ctx0 ctx p pmts : Forall (fun c => packets c.1 /\ Forall in_stream c.1) calls ->
  ltntstools_streammodel_alloc true = Some (Some ctx0) -> streammodel_run ctx0 calls = Some ctx ->
  mr_modelComplete (mx_current ctx) = 1 -> mr_tables (mx_current ctx) = TABLE_PAT p :: map TABLE_PMT pmts ->
  NoDup (List.filter (fun n => 0 <? n) (map fst (p_first_program p))) ->
  exists m, ltntstools_streammodel_query_model true ctx = Some (0, Some m) /\ object_of p m /\
    Forall (listed (fun n => last_pmt n pmts)) (pat_used m) /\
    (NoDup (map i_program_number pmts) -> forall n nr, (n, nr) ∈ p_first_program p -> 0 < n ->
     exists t, t ∈ pmts /\ i_program_number t = n /\ last_pmt n pmts = Some t).
Proof.
  intros Hcalls E0 Erun Hcomp Htab Hnd. rewrite <- program_numbers in Hnd. destruct model_alloc_spec as (ctx1 & E1 & H1). pose proof (eq_trans (eq_sym E1) E0) as E. injection E as ->. clear E0 E1.
  destruct (run_spec calls Hcalls ctx0 H1) as (ctx2 & E2 & H2). rewrite E2 in Erun. injection Erun as ->.
  assert (Hr := co_current _ _ H2). assert (Hb := ro_base _ _ Hr). pose proof (ro_history _ _ Hr) as Hh. unfold history in Hh. rewrite Htab in Hh.
  destruct (Hh pmts eq_refl Hnd) as [G1 G2 G3 G4 GU G5 G6 G7 G8 G9].
  assert (Hpr := po_pat _ _ (bo_pids _ Hb 0 ltac:(lia)) p G1).
  destruct (query_model (mx_current ctx) p (fun n => last_pmt n pmts) True Hb Hpr) as (m & Em & Hm & Hl); [|lia|done|].
  { intros _. split; [done|]. intros n nr Hi. split_and!; [by eapply G7|by apply G6|]. intros t Ht. by apply last_pmt_elem in Ht as [_ ?]. }
  exists m. unfold ltntstools_streammodel_query_model. rewrite Hcomp. cbn [Z.eqb Pos.eqb]. split_and!; [done|done|by apply Hl|].
  intros Hnd2 n nr Hi Hpos. destruct (all_programs p pmts n Hnd2 (G8 Hcomp) G9) as (t & Et).
  { apply (list_elem_of_fmap_2 fst (wanted p) (n, nr)). by apply wanted_elem. }
  exists t. destruct (last_pmt_elem _ _ _ Et). auto.
Qed.

(** Every service type stored is 0: it is stored in the next entry first. *)
Lemma service_types_lost calls ctx0 ctx : Forall (fun c => packets c.1 /\ Forall in_stream c.1) calls ->
  ltntstools_streammodel_alloc true = Some (Some ctx0) -> streammodel_run ctx0 calls = Some ctx ->
  Forall (fun s => sd_service_type s = 0) (take (Z.to_nat (mr_sdtCount (mx_current ctx))) (mr_sdt (mx_current ctx))).
Proof.
  intros Hcalls E0 Erun. destruct model_alloc_spec as (ctx1 & E1 & H1). pose proof (eq_trans (eq_sym E1) E0) as E. injection E as ->. clear E0 E1.
  destruct (run_spec calls Hcalls ctx0 H1) as (ctx2 & E2 & H2). rewrite E2 in Erun. injection Erun as ->. apply H2.
Qed.
End Write.

(** ** When a new model is reported *)

(** The object of a model. *)
Definition model_of (rom : streammodel_rom_s) : option ltntstools_pat_s :=
  match _streammodel_query_model true rom with Some (_, o) => o | None => None end.

(** The content changed, or the PAT was interrupted. *)
Definition is_new (current next : option ltntstools_pat_s) (restartReason : Z) : Prop :=
  match current, next with
  | Some c, Some n => pat_content c <> pat_content n \/ restartReason = 1
  | None, Some _ => True
  | _, None => False
  end.

(** C26: When the PMTs are all there a new version is reported if and only if
    the programs, their PIDs, versions or streams are not those of the current
    model, there is none, or the continuity of the PAT was broken; otherwise the
    collection starts again and the version stays. *)
Theorem new_model_reported heard ctx : ctx_ok heard ctx -> mx_modelChanged ctx = 0 ->
  exists ctx', _rom_next_complete true ctx = Some ctx' /\
    let new := is_new (model_of (mx_current ctx)) (model_of ((mx_next ctx) <| mr_modelComplete := 1 |>)) (mx_restartReason ctx) in
    (new /\ mx_modelChanged ctx' = 1 /\ mx_currentModelVersion ctx' = u64 (mx_currentModelVersion ctx + 1) /\ mx_restartModel ctx' = mx_restartModel ctx \/
     ~ new /\ mx_modelChanged ctx' = 0 /\ mx_currentModelVersion ctx' = mx_currentModelVersion ctx /\ mx_restartModel ctx' = 1).
Proof.
  intros Hc Hm. unfold _rom_next_complete. set (next := (mx_next ctx) <| mr_modelComplete := 1 |>). unfold _rom_compare_current_next, model_of.
  assert (Hb : base_ok next) by (destruct (ro_base _ _ (co_next _ _ Hc)) as [? ? []]; by constructor; [| |constructor]).
  change (mx_current (ctx <| mx_next := next |>)) with (mx_current ctx). change (mx_next (ctx <| mx_next := next |>)) with next.
  destruct (query_total _ (ro_base _ _ (co_current _ _ Hc))) as (r1 & o1 & -> & O1). step. destruct (query_total next Hb) as (r2 & o2 & -> & O2). step.
  destruct o1 as [m1|], o2 as [m2|]; cbn [is_new].
  - destruct (pat_compare_spec m1 m2 (O1 _ eq_refl) (O2 _ eq_refl)) as (r & -> & Hr). step. cbn [mx_restartReason].
    change (mx_restartReason (ctx <| mx_next := next |>)) with (mx_restartReason ctx).
    destruct Hr as [[-> Hs]|[-> Hs]]; cbn [negb Z.eqb]; [|eexists; split; [reflexivity|]; left; auto].
    destruct (Z.eqb_spec (mx_restartReason ctx) 1) as [|Hne]; [eexists; split; [reflexivity|]; left; auto|].
    step. change (mx_modelChanged (ctx <| mx_next := next |>)) with (mx_modelChanged ctx). rewrite Hm. cbn [Z.eqb].
    eexists. split; [reflexivity|]. right. split; [tauto|]. auto.
  - step. change (mx_modelChanged (ctx <| mx_next := next |>)) with (mx_modelChanged ctx). rewrite Hm. cbn [Z.eqb].
    eexists. split; [reflexivity|]. right. auto.
  - step. eexists. split; [reflexivity|]. left. auto.
  - step. change (mx_modelChanged (ctx <| mx_next := next |>)) with (mx_modelChanged ctx). rewrite Hm. cbn [Z.eqb].
    eexists. split; [reflexivity|]. right. auto.
Qed.

End Spec.

(** The state after some writes to a new model. *)
Definition observe {PSI : Dvbpsi} {T} (f : streammodel_ctx_s -> T) (calls : list (list (list Z) * timeval)) : option T :=
  r ← ltntstools_streammodel_alloc true; ctx ← r; ctx ← streammodel_run (fun _ => None) ctx calls; Some (f ctx).

Lemma observed {PSI : Dvbpsi} {T} (f : streammodel_ctx_s -> T) calls v : observe f calls = Some v ->
  exists ctx0 ctx, ltntstools_streammodel_alloc true = Some (Some ctx0) /\ streammodel_run (fun _ => None) ctx0 calls = Some ctx /\ f ctx = v.
Proof.
  unfold observe. generalize (ltntstools_streammodel_alloc true). intros [[ctx0|]|] E; try done. cbn [mbind option_bind] in E.
  destruct (streammodel_run (fun _ => None) ctx0 calls) as [ctx|] eqn:Er; [|done]. injection E as <-. by exists ctx0, ctx.
Qed.

(** ** A stream of two programs *)

Definition model_pat : dvbpsi_pat_t :=
  {| i_ts_id := 1; pat_i_version := 0; pat_b_current_next := 1; p_first_program := [(0, 0x10); (1, 0x100); (2, 0x101)] |}.
Definition model_pmt (n : Z) : dvbpsi_pmt_t :=
  {| i_program_number := n; pmt_i_version := 0; pmt_b_current_next := 1; i_pcr_pid := 0x200 + n; pmt_p_first_descriptor := [];
     p_first_es := [{| es_i_type := 0x1b; es_i_pid := 0x200 + n mod 256; es_p_first_descriptor := [] |}] |}.

(** Every packet is a table. *)
#[local] Instance model_psi : Dvbpsi :=
  {| dvbpsi_t := option attached;
     dvbpsi_new := Some None;
     dvbpsi_pat_attach _ := Some (Some AT_PAT);
     dvbpsi_pmt_attach _ n := Some (Some (AT_PMT n));
     dvbpsi_AttachDemux _ _ := Some (Some AT_DEMUX);
     dvbpsi_packet_push d _ :=
       (d, match d with Some AT_PAT => [TABLE_PAT model_pat] | Some (AT_PMT n) => [TABLE_PMT (model_pmt n)] | _ => [] end) |}.

#[local] Instance model_memory : PsiMemory model_psi.
Proof. constructor. exists None. split; [done|]. split; [by eexists|]. split; [intros n; by eexists|by eexists]. Defined.

Lemma model_decodes pkts d a h : decodes pkts d a h -> d = Some a.
Proof. induction 1 as [d d' _ E|d n d' _ E|d d' _ E|d a h pkt _ IH _]; [by injection E|by injection E|by injection E|exact IH]. Qed.

#[local] Instance model_laws : DvbpsiLaws model_psi.
Proof.
  constructor. intros d a h pkt ->%model_decodes. cbn. destruct a as [|n|]; [| |by apply Forall_nil_2]; (apply Forall_cons_2; [|by apply Forall_nil_2]); cbn.
  - repeat (apply Forall_cons_2; [cbn; lia|]). by apply Forall_nil_2.
  - split; [done|]. split; [constructor; cbn; repeat (apply Forall_cons_2 || apply Forall_nil_2)|].
    apply Forall_cons_2; [|by apply Forall_nil_2]. cbn. pose proof (Z.mod_pos_bound n 256). lia.
Defined.

#[local] Instance model_stream : StreamOk model_psi.
Proof.
  refine {| in_stream := fun _ => True; pmt_pid nr := 0x100 <= nr < 0x200 |}; [lia|lia|].
  intros d a h pkt ->%model_decodes _. cbn. destruct a as [|n|]; [| |by apply Forall_nil_2]; (apply Forall_cons_2; [|by apply Forall_nil_2]); cbn.
  - repeat (apply Forall_cons_2; [cbn; lia|]). by apply Forall_nil_2.
  - apply Forall_cons_2; [|by apply Forall_nil_2]. cbn. pose proof (Z.mod_pos_bound n 256). lia.
Defined.

Definition model_pkt (pid cc : Z) : list Z := [0x47; 0x40 + pid / 256; pid mod 256; 0x10 + cc] ++ replicate 184 0xff.
Definition model_write : list (list Z) := [model_pkt 0 0; model_pkt 0x100 0; model_pkt 0x101 0].

Lemma model_write_packets : Forall (fun c : list (list Z) * timeval => packets c.1 /\ Forall in_stream c.1) [(model_write, Timeval 1 0)].
Proof. by repeat constructor. Qed.

Lemma streammodel_write_safe_witness : exists ctx0 ctx ctx' c r o freed, ltntstools_streammodel_alloc true = Some (Some ctx0) /\
  streammodel_run (fun _ => None) ctx0 [(model_write, Timeval 1 0)] = Some ctx /\
  ltntstools_streammodel_write (fun _ => None) true (Some ctx) (Some (concat model_write)) 3 (Timeval 2 0) = Some (Some ctx', 3, Some c) /\
  (c = 0 \/ c = 1) /\ ltntstools_streammodel_query_model true ctx' = Some (r, o) /\
  (forall m, o = Some m -> pat_ok m) /\ ltntstools_streammodel_free (Some ctx') = Some (Some freed).
Proof. exact (streammodel_write_safe (fun _ => None) [(model_write, Timeval 1 0)] model_write (Timeval 2 0) model_write_packets
  (proj1 (Forall_inv model_write_packets)) (proj2 (Forall_inv model_write_packets)) ltac:(done)). Defined.

Lemma streammodel_query_tables_witness : exists ctx m, ltntstools_streammodel_query_model true ctx = Some (0, Some m) /\ object_of model_pat m /\
  Forall (listed (fun n => last_pmt n [model_pmt 1; model_pmt 2])) (pat_used m).
Proof.
  destruct (observed (fun ctx => (mr_modelComplete (mx_current ctx), mr_tables (mx_current ctx))) [(model_write, Timeval 1 0)]
    (1, TABLE_PAT model_pat :: map TABLE_PMT [model_pmt 1; model_pmt 2])) as (ctx0 & ctx & E0 & E1 & E); [by vm_compute|].
  destruct (streammodel_query_tables (fun _ => None) [(model_write, Timeval 1 0)] ctx0 ctx model_pat [model_pmt 1; model_pmt 2]
    model_write_packets E0 E1 (f_equal fst E) (f_equal snd E)) as (m & Em & Hm & Hl & _).
  - apply (bool_decide_unpack _). by vm_compute.
  - exists ctx, m. split; [exact Em|]. split; [exact Hm|exact Hl].
Defined.

Lemma new_model_reported_witness : exists ctx ctx', mx_modelChanged ctx = 0 /\ _rom_next_complete true ctx = Some ctx' /\
  mx_modelChanged ctx' = 1 /\ mx_currentModelVersion ctx' = 1.
Proof.
  assert (Hw : Forall (fun c : list (list Z) * timeval => packets c.1 /\ Forall in_stream c.1) [(take 2 model_write, Timeval 1 0)]) by by repeat constructor.
  destruct (observed (fun ctx => (mx_modelChanged ctx, mx_currentModelVersion ctx, match _rom_next_complete true ctx with Some c => mx_modelChanged c | None => -1 end))
    [(take 2 model_write, Timeval 1 0)] (0, 0, 1)) as (ctx0 & ctx & E0 & E1 & E); [by vm_compute|].
  destruct model_alloc_spec as (ctx1 & Ea & H1). pose proof (eq_trans (eq_sym Ea) E0) as E2. injection E2 as ->.
  destruct (run_spec (fun _ => None) _ Hw ctx0 H1) as (ctx2 & Er & H2). pose proof (eq_trans (eq_sym Er) E1) as E3. injection E3 as ->.
  destruct (new_model_reported nothing ctx H2 (f_equal (fun x => x.1.1) E)) as (ctx' & En & [(_ & Hm & Hv & _)|(_ & Hm & _)]).
  - exists ctx, ctx'. split; [exact (f_equal (fun x => x.1.1) E)|]. split; [exact En|]. split; [exact Hm|]. rewrite Hv. pose proof (f_equal (fun x => x.1.2) E) as Ev. cbn in Ev. by rewrite Ev.
  - exfalso. pose proof (f_equal snd E) as Es. cbn in Es. rewrite En, Hm in Es. done.
Defined.

(** ** What goes wrong *)

(** The last PMT and a PAT with a continuity error in one write: a model is
    announced, and it is empty. *)
Lemma interrupted_model_empty : exists ctx, observe (fun ctx =>
    match ltntstools_streammodel_write (fun _ => None) true (Some ctx) (Some (model_pkt 0x101 0 ++ model_pkt 0 5)) 2 (Timeval 1 100) with
    | Some (Some ctx', _, c) => (c, ltntstools_streammodel_query_model true ctx')
    | _ => (None, None)
    end) [(take 2 model_write, Timeval 1 0)] = Some ctx /\ ctx = (Some 1, Some (-1, None)).
Proof. eexists. split; [by vm_compute|done]. Qed.

(** Two PMTs of the first program complete a model of two. *)
Lemma parsed_not_distinct : observe (fun ctx =>
    match ltntstools_streammodel_query_model true ctx with
    | Some (r, Some m) => (r, map (fun g => pm_stream_count (pp_pmt g)) (pat_used m))
    | _ => (-1, [])
    end) [([model_pkt 0 0; model_pkt 0x100 0; model_pkt 0x100 1], Timeval 1 0)] = Some (0, [0; 1; 0]).
Proof. by vm_compute. Qed.

Section Faults.
Context {PSI : Dvbpsi}.

(** A stream on the PID of a PMT: its decoder is deleted while it is attached. *)
Lemma es_on_pmt_aborts rom es d n nr : mr_pids rom !! Z.to_nat nr = Some (pid_zero <| md_pidType := PT_PMT |>
    <| md_parser := {| mp_dvbpsi := Some (d, Some (AT_PMT n)); mp_pmt := None; mp_programNumber := n |} :: replicate 23 parser_zero |>) ->
  nr = 0x100 -> es_i_pid es = nr -> exists rom' ps, mark_es rom es = Some rom' /\ _rom_find_pid rom' nr = Some ps /\ pid_initialize nr ps = None.
Proof.
  intros E -> Ee. unfold mark_es. rewrite Ee. cbn [Z.leb Z.compare Pos.compare Pos.compare_cont]. unfold _rom_find_pid, rom_set_pid.
  change (u16 0x100) with 0x100. assert (Hl := lookup_lt_Some _ _ _ E).
  unfold aget. cbn [Z.ltb Z.compare]. rewrite E. step. rewrite aset_Some by (unfold len; lia). step.
  eexists _, _. split; [reflexivity|]. cbn [mr_pids]. split; [by apply list_lookup_insert_eq|]. reflexivity.
Qed.

(** A name of more than 128 bytes leaves the buffer. *)
Lemma provider_overflows : service_descriptor (1 :: 129 :: replicate 129 0x41 ++ [0]) sdt_zero = None.
Proof. reflexivity. Qed.

(** The second service descriptor of the service that fills the array. *)
Lemma second_descriptor_outside rom sdt d : mr_sdtCount rom = 128 -> len (mr_sdt rom) = 128 -> i_tag d = 0x48 ->
  sdt_descriptor (rom, sdt) d = None.
Proof.
  intros Hc Hl Ht. unfold sdt_descriptor. rewrite Ht, Hc. cbn [Z.eqb Pos.eqb]. rewrite aget_ge; [done|lia].
Qed.

(** The 25th program of a PID takes the decoder of the first. *)
Lemma parser_taken d n : free_parser (replicate 24 {| mp_dvbpsi := Some (d, Some (AT_PMT n)); mp_pmt := None; mp_programNumber := n |}) = Some 0.
Proof. reflexivity. Qed.

(** A failed allocation gives up the extractor before it. *)
Lemma failed_extractor_loses (section : Z -> option (list Z)) ctx pid : mx_seCount ctx = 9 -> section 9 = None ->
  exists ctx', extractors_add section ctx pid 0 "x" 0 = Some (ctx', -1) /\ mx_seCount ctx' = 8.
Proof. intros Hc Hs. unfold extractors_add. cbn [Z.eqb]. step. rewrite Hc, Hs. by eexists. Qed.

(** A packet of any other PID goes to the extractors of all the PMTs. *)
Lemma pmt_extractors_shared : items_of 0x1234 12 = [9; 10; 11].
Proof. reflexivity. Qed.
End Faults.
