(* ===== verification/XorgList.v ===== *)
(** * The intrusive lists: src/xorg-list.h, libltntstools/xorg-list.h

    Circular doubly-linked lists of nodes that live inside other objects, under
    a head that is a node too.  The nodes are a store of addresses, so that the
    aliasing of the lists is modelled; an access to an address that is no node
    fails.  An entry of a list is named by its node ([container_of] is the
    constant distance between the two).  The components' models use the
    sequences that these lists are proved to hold. *)
From Stdlib Require Import ZArith Lia Bool.
From stdpp Require Import base numbers list option gmap fin_maps.
From S2P Require Import Prelude.

Record xorg_list := { l_next : Z; l_prev : Z }.

#[local] Notation "'store'" := (gmap Z xorg_list).

Definition get_next (h : store) (p : Z) : option Z := l_next <$> h !! p.
Definition get_prev (h : store) (p : Z) : option Z := l_prev <$> h !! p.
Definition set_next (h : store) (p n : Z) : option store :=
  e ← h !! p; Some (<[p := {| l_next := n; l_prev := l_prev e |}]> h).
Definition set_prev (h : store) (p n : Z) : option store :=
  e ← h !! p; Some (<[p := {| l_next := l_next e; l_prev := n |}]> h).

(** ** The operations *)

Definition xorg_list_init (h : store) (list : Z) : option store :=
  h ← set_prev h list list; set_next h list list.

Definition __xorg_list_add (h : store) (entry prev next : Z) : option store :=
  h ← set_prev h next entry;
  h ← set_next h entry next;
  h ← set_prev h entry prev;
  set_next h prev entry.

Definition xorg_list_add (h : store) (entry head : Z) : option store :=
  next ← get_next h head; __xorg_list_add h entry head next.

Definition xorg_list_append (h : store) (entry head : Z) : option store :=
  prev ← get_prev h head; __xorg_list_add h entry prev head.

Definition __xorg_list_del (h : store) (prev next : Z) : option store :=
  h ← set_prev h next prev; set_next h prev next.

Definition xorg_list_del (h : store) (entry : Z) : option store :=
  prev ← get_prev h entry;
  next ← get_next h entry;
  h ← __xorg_list_del h prev next;
  xorg_list_init h entry.

Definition xorg_list_is_empty (h : store) (head : Z) : option bool :=
  next ← get_next h head; Some (next =? head).

Definition xorg_list_first_entry (h : store) (ptr : Z) : option Z := get_next h ptr.
Definition xorg_list_last_entry (h : store) (ptr : Z) : option Z := get_prev h ptr.

(** The loops, for a body that changes the store and a state of its own. *)
Section Loops.
Context {S : Type} (body : store * S -> Z -> option (store * S)).

Fixpoint for_each_from (fuel : nat) (head pos : Z) (st : store * S) : option (store * S) :=
  match fuel with
  | O => None
  | Datatypes.S fuel =>
      if pos =? head then Some st else
      st ← body st pos;
      next ← get_next st.1 pos;
      for_each_from fuel head next st
  end.

Definition xorg_list_for_each_entry (fuel : nat) (head : Z) (st : store * S) : option (store * S) :=
  pos ← get_next st.1 head; for_each_from fuel head pos st.

(** Backwards: only libltntstools/xorg-list.h has this one. *)
Fixpoint for_each_reverse_from (fuel : nat) (head pos : Z) (st : store * S) : option (store * S) :=
  match fuel with
  | O => None
  | Datatypes.S fuel =>
      if pos =? head then Some st else
      st ← body st pos;
      prev ← get_prev st.1 pos;
      for_each_reverse_from fuel head prev st
  end.

Definition xorg_list_for_each_entry_reverse (fuel : nat) (head : Z) (st : store * S) : option (store * S) :=
  pos ← get_prev st.1 head; for_each_reverse_from fuel head pos st.

(** The next entry is read before the body. *)
Fixpoint for_each_safe_from (fuel : nat) (head pos tmp : Z) (st : store * S) : option (store * S) :=
  match fuel with
  | O => None
  | Datatypes.S fuel =>
      if pos =? head then Some st else
      st ← body st pos;
      next ← get_next st.1 tmp;
      for_each_safe_from fuel head tmp next st
  end.

Definition xorg_list_for_each_entry_safe (fuel : nat) (head : Z) (st : store * S) : option (store * S) :=
  pos ← get_next st.1 head; tmp ← get_next st.1 pos; for_each_safe_from fuel head pos tmp st.
End Loops.

(** ** The sequence of a list *)

(** From [p], the nodes [l], then [q]. *)
Fixpoint links (h : store) (p : Z) (l : list Z) (q : Z) : Prop :=
  match l with
  | [] => get_next h p = Some q /\ get_prev h q = Some p
  | x :: l => get_next h p = Some x /\ get_prev h x = Some p /\ links h x l q
  end.

Definition holds (h : store) (head : Z) (l : list Z) : Prop := NoDup (head :: l) /\ links h head l head.

Lemma links_app h l1 : forall p x l2 q, links h p (l1 ++ x :: l2) q <-> links h p l1 x /\ links h x l2 q.
Proof. induction l1 as [|y l1 IH]; intros p x l2 q; cbn [links app]; [tauto|]. rewrite IH. tauto. Qed.

(** Only the next nodes of [p] and [l] and the previous nodes of [l] and [q] count. *)
Lemma links_same h h' l : forall p q, (forall a, a ∈ (p :: l) -> get_next h' a = get_next h a) ->
  (forall a, a ∈ l ++ [q] -> get_prev h' a = get_prev h a) -> links h p l q -> links h' p l q.
Proof.
  induction l as [|x l IH]; intros p q Hn Hp; cbn [links].
  - intros [H1 H2]. rewrite Hn, Hp by left. done.
  - intros (H1 & H2 & H3). rewrite Hn, Hp by left. split_and!; [done|done|]. apply IH; [| |done]; intros a Ha; [apply Hn|apply Hp]; by right.
Qed.

Lemma get_set_next h p n h' a : set_next h p n = Some h' -> get_next h' a = (if decide (a = p) then Some n else get_next h a) /\ get_prev h' a = get_prev h a.
Proof.
  unfold set_next, get_next, get_prev. destruct (h !! p) as [e|] eqn:E; [|done]. intros [= <-]. destruct (decide (a = p)) as [->|Hn].
  - by rewrite lookup_insert_eq, E.
  - by rewrite lookup_insert_ne by done.
Qed.

Lemma get_set_prev h p n h' a : set_prev h p n = Some h' -> get_prev h' a = (if decide (a = p) then Some n else get_prev h a) /\ get_next h' a = get_next h a.
Proof.
  unfold set_prev, get_next, get_prev. destruct (h !! p) as [e|] eqn:E; [|done]. intros [= <-]. destruct (decide (a = p)) as [->|Hn].
  - by rewrite lookup_insert_eq, E.
  - by rewrite lookup_insert_ne by done.
Qed.

Definition node (h : store) (p : Z) : Prop := is_Some (h !! p).

Lemma set_next_total h p n : node h p -> exists h', set_next h p n = Some h' /\ forall a, node h' a <-> node h a.
Proof.
  intros [e E]. unfold set_next, node. rewrite E. eexists. split; [reflexivity|]. intros a. destruct (decide (a = p)) as [->|].
  - rewrite lookup_insert_eq, E. by split; intros; eexists.
  - by rewrite lookup_insert_ne by done.
Qed.

Lemma set_prev_total h p n : node h p -> exists h', set_prev h p n = Some h' /\ forall a, node h' a <-> node h a.
Proof.
  intros [e E]. unfold set_prev, node. rewrite E. eexists. split; [reflexivity|]. intros a. destruct (decide (a = p)) as [->|].
  - rewrite lookup_insert_eq, E. by split; intros; eexists.
  - by rewrite lookup_insert_ne by done.
Qed.

(** One edge, the last of a path, is led elsewhere. *)
Lemma relink h h' z q' q l : forall p, NoDup (p :: l) -> list.last (p :: l) = Some z -> links h p l q ->
  (forall a, a ∈ (p :: l) -> a <> z -> get_next h' a = get_next h a) -> get_next h' z = Some q' ->
  (forall a, a ∈ l -> get_prev h' a = get_prev h a) -> get_prev h' q' = Some z -> links h' p l q'.
Proof.
  induction l as [|x l IH]; intros p Hd Hl Hk Hn Hz Hp Hq; cbn [links] in *.
  - injection Hl as ->. done.
  - destruct Hk as (K1 & K2 & K3). apply list.NoDup_cons in Hd as [Hpx Hd]. rewrite last_cons_cons in Hl.
    assert (p <> z) by (intros ->; apply Hpx; by apply list.last_Some_elem_of).
    split_and!; [rewrite Hn; [done|left|done]|rewrite Hp; [done|left]|].
    apply IH; try done; intros a Ha; [intros ?; apply Hn; [by right|done]|apply Hp; by right].
Qed.

Lemma links_nodes h l : forall p q a, links h p l q -> a ∈ (p :: l ++ [q]) -> node h a.
Proof.
  unfold node. assert (Hs : forall a v, get_next h a = Some v \/ get_prev h a = Some v -> is_Some (h !! a)).
  { intros a v. unfold get_next, get_prev. destruct (h !! a); [by eexists|]. by intros [?|?]. }
  induction l as [|x l IH]; intros p q a Hk Ha; cbn [links app] in *.
  - destruct Hk as [K1 K2]. rewrite !elem_of_cons in Ha. destruct Ha as [-> |[-> |Ha]]; [by eapply Hs; left|by eapply Hs; right|by apply not_elem_of_nil in Ha].
  - destruct Hk as (K1 & K2 & K3). apply elem_of_cons in Ha as [->|Ha]; [by eapply Hs; left|]. by eapply IH.
Qed.

Lemma holds_node h hd l a : holds h hd l -> a ∈ (hd :: l) -> node h a.
Proof. intros [_ H] Ha. eapply links_nodes; [exact H|]. rewrite app_comm_cons. apply elem_of_app. by left. Qed.

(** The node after [l1] and the one before [l2] in a list [l1 ++ l2]. *)
Definition before_of (hd : Z) (l1 : list Z) : Z := default hd (list.last l1).
Definition after_of (hd : Z) (l2 : list Z) : Z := default hd (head l2).

Lemma last_before hd l : list.last (hd :: l) = Some (before_of hd l).
Proof.
  unfold before_of. destruct l as [|x l]; [done|]. rewrite last_cons_cons. destruct (list.last (x :: l)) as [z|] eqn:E; [done|].
  by apply list.last_None in E.
Qed.

Lemma before_in hd l : before_of hd l ∈ (hd :: l).
Proof. apply list.last_Some_elem_of, last_before. Qed.

Lemma after_in hd l : after_of hd l ∈ (hd :: l).
Proof. unfold after_of. destruct l as [|x l]; [left|right; left]. Qed.

(** The edge between [l1] and [l2]. *)
Lemma links_edge h l1 : forall p l2 q, links h p (l1 ++ l2) q <-> links h p l1 (after_of q l2) /\
  match l2 with [] => True | x :: l => links h x l q end.
Proof. intros p [|x l2] q; [rewrite app_nil_r; cbn; tauto|]. rewrite links_app. done. Qed.

Lemma links_ends h l : forall p q, links h p l q -> get_next h (before_of p l) = Some q /\ get_prev h q = Some (before_of p l).
Proof.
  induction l as [|x l IH]; intros p q Hk; cbn [links] in *; [done|]. destruct Hk as (_ & _ & H). apply IH in H.
  replace (before_of p (x :: l)) with (before_of x l); [done|]. pose proof (last_before p (x :: l)) as E1. rewrite last_cons_cons, last_before in E1. by injection E1.
Qed.

(** What one operation may change: these nodes. *)
Definition changes_only (h h' : gmap Z xorg_list) (nodes : list Z) : Prop :=
  (forall a, a ∉ nodes -> get_next h' a = get_next h a /\ get_prev h' a = get_prev h a) /\ forall a, node h' a <-> node h a.

Lemma add_links h entry prev next : node h entry -> node h prev -> node h next -> entry <> prev -> entry <> next -> exists h',
  __xorg_list_add h entry prev next = Some h' /\ changes_only h h' [entry; prev; next] /\
  (forall a, get_next h' a = if decide (a = prev) then Some entry else if decide (a = entry) then Some next else get_next h a) /\
  (forall a, get_prev h' a = if decide (a = entry) then Some prev else if decide (a = next) then Some entry else get_prev h a).
Proof.
  intros N1 N2 N3 D1 D2. unfold __xorg_list_add. destruct (set_prev_total h next entry N3) as (h1 & E1 & M1). rewrite E1. step.
  destruct (set_next_total h1 entry next) as (h2 & E2 & M2); [by apply M1|]. rewrite E2. step.
  destruct (set_prev_total h2 entry prev) as (h3 & E3 & M3); [by apply M2, M1|]. rewrite E3. step.
  destruct (set_next_total h3 prev entry) as (h4 & E4 & M4); [by apply M3, M2, M1|].
  assert (A : forall a, get_next h4 a = (if decide (a = prev) then Some entry else if decide (a = entry) then Some next else get_next h a) /\
    get_prev h4 a = (if decide (a = entry) then Some prev else if decide (a = next) then Some entry else get_prev h a)).
  { intros a. destruct (get_set_next _ _ _ _ a E4) as [X1 X2]. destruct (get_set_prev _ _ _ _ a E3) as [Y1 Y2].
    destruct (get_set_next _ _ _ _ a E2) as [Z1 Z2]. destruct (get_set_prev _ _ _ _ a E1) as [W1 W2]. by rewrite X1, X2, Y1, Y2, Z1, Z2, W1, W2. }
  exists h4. split; [done|]. split; [|split; intros a; apply A]. split.
  - intros a Ha. destruct (A a) as [-> ->]. rewrite !not_elem_of_cons in Ha. destruct Ha as (? & ? & ? & _). by rewrite !decide_False by done.
  - intros a. by rewrite M4, M3, M2, M1.
Qed.

Lemma del_links h entry prev next : node h prev -> node h next -> node h entry -> get_prev h entry = Some prev -> get_next h entry = Some next ->
  entry <> prev -> entry <> next -> exists h',
  xorg_list_del h entry = Some h' /\ changes_only h h' [entry; prev; next] /\
  (forall a, get_next h' a = if decide (a = entry) then Some entry else if decide (a = prev) then Some next else get_next h a) /\
  (forall a, get_prev h' a = if decide (a = entry) then Some entry else if decide (a = next) then Some prev else get_prev h a).
Proof.
  intros N1 N2 N3 P1 P2 D1 D2. unfold xorg_list_del, __xorg_list_del, xorg_list_init. rewrite P1, P2. step.
  destruct (set_prev_total h next prev N2) as (h1 & E1 & M1). rewrite E1. step.
  destruct (set_next_total h1 prev next) as (h2 & E2 & M2); [by apply M1|]. rewrite E2. step.
  destruct (set_prev_total h2 entry entry) as (h3 & E3 & M3); [by apply M2, M1|]. rewrite E3. step.
  destruct (set_next_total h3 entry entry) as (h4 & E4 & M4); [by apply M3, M2, M1|].
  assert (A : forall a, get_next h4 a = (if decide (a = entry) then Some entry else if decide (a = prev) then Some next else get_next h a) /\
    get_prev h4 a = (if decide (a = entry) then Some entry else if decide (a = next) then Some prev else get_prev h a)).
  { intros a. destruct (get_set_next _ _ _ _ a E4) as [X1 X2]. destruct (get_set_prev _ _ _ _ a E3) as [Y1 Y2].
    destruct (get_set_next _ _ _ _ a E2) as [Z1 Z2]. destruct (get_set_prev _ _ _ _ a E1) as [W1 W2]. by rewrite X1, X2, Y1, Y2, Z1, Z2, W1, W2. }
  exists h4. split; [done|]. split; [|split; intros a; apply A]. split.
  - intros a Ha. destruct (A a) as [-> ->]. rewrite !not_elem_of_cons in Ha. destruct Ha as (? & ? & ? & _). by rewrite !decide_False by done.
  - intros a. by rewrite M4, M3, M2, M1.
Qed.

Lemma nodup_split (hd : Z) (l1 : list Z) (e : Z) (l2 : list Z) : NoDup (hd :: l1 ++ e :: l2) -> NoDup (hd :: l1 ++ l2) /\ (e ∉ (hd :: l1 ++ l2)) /\
  NoDup (hd :: l1) /\ NoDup (e :: l2) /\ (hd ∉ l2) /\ forall a, a ∈ (hd :: l1) -> a ∉ l2.
Proof.
  intros H. change (hd :: l1 ++ e :: l2) with ((hd :: l1) ++ e :: l2) in H. apply list.NoDup_app in H as (H1 & H2 & H3). assert (H3' := H3). apply list.NoDup_cons in H3' as [H4 H5].
  assert (H2' : forall a, a ∈ (hd :: l1) -> a ∉ l2) by (intros a Ha Hi; apply (H2 a Ha); by right).
  split_and!; try done.
  - change (hd :: l1 ++ l2) with ((hd :: l1) ++ l2). by apply list.NoDup_app.
  - change (hd :: l1 ++ l2) with ((hd :: l1) ++ l2). rewrite elem_of_app. intros [Hi|Hi]; [by apply (H2 e Hi); left|done].
  - apply H2'. left.
Qed.

(** An entry is put between two neighbours. *)
Lemma add_holds h hd l1 l2 e : holds h hd (l1 ++ l2) -> node h e -> e ∉ (hd :: l1 ++ l2) -> exists h',
  __xorg_list_add h e (before_of hd l1) (after_of hd l2) = Some h' /\ holds h' hd (l1 ++ e :: l2) /\
  changes_only h h' (e :: hd :: l1 ++ l2).
Proof.
  intros Hh Ne He. assert (Hnode := fun a => holds_node h hd _ a Hh). destruct Hh as [Hd Hk].
  assert (Hsub1 : forall a, a ∈ (hd :: l1) -> a ∈ (hd :: l1 ++ l2)).
  { intros a Ha. change (hd :: l1 ++ l2) with ((hd :: l1) ++ l2). apply elem_of_app. by left. }
  assert (Hsub2 : forall a, a ∈ (hd :: l2) -> a ∈ (hd :: l1 ++ l2)).
  { intros a Ha. apply elem_of_cons in Ha as [->|Ha]; [left|right; apply elem_of_app; by right]. }
  assert (Hb := Hsub1 _ (before_in hd l1)). assert (Ha := Hsub2 _ (after_in hd l2)).
  assert (Hd' : NoDup (hd :: l1 ++ e :: l2)).
  { change (hd :: l1 ++ l2) with ((hd :: l1) ++ l2) in *. change (hd :: l1 ++ e :: l2) with ((hd :: l1) ++ e :: l2).
    apply list.NoDup_app in Hd as (D1 & D2 & D3). apply list.NoDup_app. rewrite elem_of_app in He. split_and!; [done| |apply list.NoDup_cons; tauto].
    intros a Hi [->|Hi']%elem_of_cons; [tauto|by apply (D2 a)]. }
  destruct (nodup_split _ _ _ _ Hd') as (_ & _ & D1 & D2 & D3 & D4).
  destruct (add_links h e (before_of hd l1) (after_of hd l2)) as (h' & E & [C1 C2] & Kn & Kp);
    [done|by apply Hnode|by apply Hnode|by intros ->|by intros ->|].
  exists h'. split; [done|]. split.
  - split; [done|]. apply links_edge in Hk as [K1 K2]. apply links_app. split.
    + eapply (relink h h' (before_of hd l1)); [exact D1|apply last_before|exact K1| | | |].
      * intros a Hi Hne. rewrite Kn, !decide_False; [done|by intros ->; apply He, Hsub1|done].
      * by rewrite Kn, decide_True.
      * intros a Hi. rewrite Kp, !decide_False; [done| |intros ->; apply He, Hsub1; by right].
        intros ->. unfold after_of in Hi. destruct l2 as [|y l2]; [by apply list.NoDup_cons in D1 as [? _]|]. apply (D4 y); [by right|left].
      * by rewrite Kp, decide_True.
    + destruct l2 as [|y l2]; cbn [links after_of head default from_option id] in *.
      * rewrite Kn, Kp. rewrite (decide_False (P := e = _)), (decide_True (P := e = e)) by (done || by intros ->).
        rewrite decide_False, decide_True by (done || by intros ->; apply He; left). done.
      * rewrite Kn, Kp. rewrite (decide_False (P := e = _)), (decide_True (P := e = e)) by (done || by intros ->).
        rewrite decide_False, decide_True by (done || by intros ->; apply He, Ha). split_and!; [done|done|].
        apply list.NoDup_cons in D2 as [D5 D6]. apply list.NoDup_cons in D6 as [D7 D8].
        eapply links_same; [| |exact K2]; intros a Hi.
        -- rewrite Kn, !decide_False; [done|by intros ->|]. intros ->. by apply (D4 _ (before_in hd l1)).
        -- rewrite Kp, !decide_False; [done| |]; apply elem_of_app in Hi as [Hi|Hi]; try apply list_elem_of_singleton in Hi as ->.
           ++ by intros ->.
           ++ intros ->. apply D3. left.
           ++ intros ->. apply D5. by right.
           ++ intros ->. apply He. left.
  - split; [|done]. intros a Hi. apply C1. rewrite !not_elem_of_cons in *. destruct Hi as (? & ? & Hi). rewrite not_elem_of_app in Hi.
    split_and!; [done| | |by apply not_elem_of_nil].
    + intros ->. apply elem_of_cons in Hb as [|Hb]; [done|]. apply elem_of_app in Hb. tauto.
    + intros ->. apply elem_of_cons in Ha as [|Ha]; [done|]. apply elem_of_app in Ha. tauto.
Qed.

Lemma append_holds h hd l e : holds h hd l -> node h e -> e ∉ (hd :: l) -> exists h',
  xorg_list_append h e hd = Some h' /\ holds h' hd (l ++ [e]) /\ changes_only h h' (e :: hd :: l).
Proof.
  intros H Ne He. destruct (links_ends _ _ _ _ (proj2 H)) as [_ Hp]. unfold xorg_list_append. rewrite Hp. step.
  destruct (add_holds h hd l [] e) as (h' & E & Hh & Hc); rewrite ?app_nil_r; try done. exists h'. rewrite app_nil_r in Hc. done.
Qed.

Lemma prepend_holds h hd l e : holds h hd l -> node h e -> e ∉ (hd :: l) -> exists h',
  xorg_list_add h e hd = Some h' /\ holds h' hd (e :: l) /\ changes_only h h' (e :: hd :: l).
Proof.
  intros H Ne He. unfold xorg_list_add. assert (get_next h hd = Some (after_of hd l)) as -> by (destruct H as [_ H]; destruct l; apply H). step.
  by apply (add_holds h hd [] l e).
Qed.

Lemma del_holds h hd l1 e l2 : holds h hd (l1 ++ e :: l2) -> exists h',
  xorg_list_del h e = Some h' /\ holds h' hd (l1 ++ l2) /\ holds h' e [] /\ changes_only h h' (e :: hd :: l1 ++ l2).
Proof.
  intros Hh. assert (Hnode := fun a => holds_node h hd _ a Hh). destruct Hh as [Hd Hk].
  destruct (nodup_split _ _ _ _ Hd) as (D0 & He & D1 & D2 & D3 & D4).
  assert (Hsub1 : forall a, a ∈ (hd :: l1) -> a ∈ (hd :: l1 ++ l2)).
  { intros a Ha. change (hd :: l1 ++ l2) with ((hd :: l1) ++ l2). apply elem_of_app. by left. }
  assert (Hsub2 : forall a, a ∈ (hd :: l2) -> a ∈ (hd :: l1 ++ l2)).
  { intros a Ha. apply elem_of_cons in Ha as [->|Ha]; [left|right; apply elem_of_app; by right]. }
  assert (Hsub : forall a, a ∈ (hd :: l1 ++ l2) -> node h a).
  { intros a Ha. apply Hnode. rewrite !elem_of_cons, !elem_of_app, ?elem_of_cons in *. tauto. }
  assert (Hb := Hsub1 _ (before_in hd l1)). assert (Ha := Hsub2 _ (after_in hd l2)).
  apply links_app in Hk as [K1 K2]. destruct (links_ends _ _ _ _ K1) as [Eb1 Eb2].
  assert (K2' : get_next h e = Some (after_of hd l2) /\ get_prev h (after_of hd l2) = Some e) by (destruct l2; cbn in *; tauto).
  destruct K2' as [Ea1 Ea2].
  destruct (del_links h e (before_of hd l1) (after_of hd l2)) as (h' & E & [C1 C2] & Kn & Kp);
    [by apply Hsub|by apply Hsub|apply Hnode; right; apply elem_of_app; right; left|done|done|by intros ->|by intros ->|].
  exists h'. split; [done|]. split; [|split].
  - split; [done|]. apply links_edge. split.
    + eapply (relink h h' (before_of hd l1)); [exact D1|apply last_before|exact K1| | | |].
      * intros a Hi Hne. rewrite Kn, !decide_False; [done|done|by intros ->; apply He, Hsub1].
      * rewrite Kn, decide_False, decide_True; [done|done|intros Eq; apply He; by rewrite <- Eq].
      * intros a Hi. rewrite Kp, !decide_False; [done| |intros ->; apply He, Hsub1; by right].
        intros ->. unfold after_of in Hi. destruct l2 as [|y l2]; [by apply list.NoDup_cons in D1 as [? _]|]. apply (D4 y); [by right|left].
      * rewrite Kp, decide_False, decide_True; [done|done|intros Eq; apply He; by rewrite <- Eq].
    + destruct l2 as [|y l2]; [done|]. cbn [links after_of head default from_option id] in *. destruct K2 as (_ & _ & K2).
      apply list.NoDup_cons in D2 as [D5 D6]. apply list.NoDup_cons in D6 as [D7 D8].
      eapply links_same; [| |exact K2]; intros a Hi.
      * rewrite Kn, !decide_False; [done| |by intros ->]. intros ->. by apply (D4 _ (before_in hd l1)).
      * rewrite Kp, !decide_False; [done| |]; apply elem_of_app in Hi as [Hi|Hi]; try apply list_elem_of_singleton in Hi as ->.
        -- by intros ->.
        -- intros ->. apply D3. left.
        -- intros ->. apply D5. by right.
        -- intros ->. apply He. left.
  - split; [apply list.NoDup_singleton|]. cbn. by rewrite Kn, Kp, !decide_True.
  - split; [|done]. intros a Hi. apply C1. rewrite !not_elem_of_cons in *. destruct Hi as (? & ? & Hi). rewrite not_elem_of_app in Hi.
    split_and!; [done| | |by apply not_elem_of_nil].
    + intros ->. apply elem_of_cons in Hb as [|Hb]; [done|]. apply elem_of_app in Hb. tauto.
    + intros ->. apply elem_of_cons in Ha as [|Ha]; [done|]. apply elem_of_app in Ha. tauto.
Qed.

(** ** Many lists in one store *)

Definition lists : Type := list (Z * list Z).

(** Every list is held, and no node is in two of them. *)
Definition represents (h : gmap Z xorg_list) (s : lists) : Prop :=
  Forall (fun '(hd, l) => holds h hd l) s /\ NoDup (concat (map (fun '(hd, l) => hd :: l) s)).

Definition all_nodes (s : lists) : list Z := concat (map (fun '(hd, l) => hd :: l) s).

Lemma changes_holds h h' nodes hd l : holds h hd l -> changes_only h h' nodes -> (forall a, a ∈ (hd :: l) -> a ∉ nodes) -> holds h' hd l.
Proof.
  intros [Hd Hk] [Hc _] Hn. split; [done|]. eapply links_same; [| |exact Hk]; intros a Ha; apply Hc, Hn; [done|].
  apply elem_of_app in Ha as [Ha|Ha]; [by right|]. apply list_elem_of_singleton in Ha as ->. left.
Qed.

(** One list changes, within its nodes and the node [e], which is in no list. *)
Lemma represents_update h h' s1 hd l s2 l' nodes : represents h (s1 ++ (hd, l) :: s2) -> holds h' hd l' -> changes_only h h' nodes ->
  (forall a, a ∈ nodes -> a ∈ (hd :: l) \/ a ∉ all_nodes (s1 ++ (hd, l) :: s2)) ->
  (forall a, a ∈ l' -> a ∈ l \/ a ∉ all_nodes (s1 ++ (hd, l) :: s2)) ->
  represents h' (s1 ++ (hd, l') :: s2).
Proof.
  intros [Hf Hd] Hh Hc Hn Hl. unfold all_nodes in *. rewrite map_app, concat_app in *. cbn [map concat] in *.
  apply Forall_app in Hf as [F1 F2]. apply Forall_cons_1 in F2 as [F2 F3].
  apply list.NoDup_app in Hd as (D1 & D2 & D3). apply list.NoDup_app in D3 as (D3 & D4 & D5).
  set (n1 := concat (map _ s1)) in *. set (n2 := concat (map _ s2)) in *.
  assert (Hother : forall s, (forall x, x ∈ s -> x ∈ s1 \/ x ∈ s2) -> Forall (fun '(hd, l) => holds h hd l) s -> Forall (fun '(hd, l) => holds h' hd l) s).
  { intros s Hs. rewrite !list.Forall_forall. intros H [hd2 k] Hi. specialize (H _ Hi). eapply changes_holds; [exact H|exact Hc|].
    intros a Ha Hin. assert (Hin12 : a ∈ n1 \/ a ∈ n2).
    { destruct (Hs _ Hi) as [Hs1|Hs2]; [left|right]; apply list_elem_of_In, in_concat; exists (hd2 :: k); (split; [|by apply list_elem_of_In]);
        apply in_map_iff; exists (hd2, k); (split; [done|by apply list_elem_of_In]). }
    destruct (Hn a Hin) as [Hm|Hm].
    - destruct Hin12 as [H1|H2]; [apply (D2 a H1), elem_of_app; by left|by apply (D4 a Hm)].
    - apply Hm. rewrite !elem_of_app. destruct Hin12; [by left|by right; right]. }
  assert (Hl' : forall a, a ∈ (hd :: l') -> (a ∉ n1) /\ (a ∉ n2)).
  { intros a Ha. assert (a ∈ (hd :: l) \/ a ∉ (n1 ++ (hd :: l) ++ n2)) as [Hm|Hm].
    { apply elem_of_cons in Ha as [->|Ha]; [by left; left|]. destruct (Hl a Ha) as [|]; [by left; right|by right]. }
    - split; [intros H1; apply (D2 a H1), elem_of_app; by left|by apply D4].
    - rewrite !not_elem_of_app in Hm. tauto. }
  split.
  - apply Forall_app. split; [apply Hother; [by left|done]|]. apply Forall_cons_2; [done|]. apply Hother; [by right|done].
  - rewrite map_app, concat_app. cbn [map concat]. apply list.NoDup_app. split_and!; [done| |apply list.NoDup_app; split_and!; [apply Hh| |done]].
    + intros a Ha Hb. apply elem_of_app in Hb as [Hb|Hb]; [by apply Hl' in Hb as [? _]|]. apply (D2 a Ha), elem_of_app. by right.
    + intros a Ha. by apply Hl'.
Qed.

(** ** The operations on the sequences *)

Inductive list_op := OpAdd (entry head : Z) | OpAppend (entry head : Z) | OpDel (entry : Z).

Definition op_entry (op : list_op) : Z := match op with OpAdd e _ | OpAppend e _ | OpDel e => e end.

Definition list_step (h : gmap Z xorg_list) (op : list_op) : option (gmap Z xorg_list) :=
  match op with
  | OpAdd e hd => xorg_list_add h e hd
  | OpAppend e hd => xorg_list_append h e hd
  | OpDel e => xorg_list_del h e
  end.

(** The list that [sel] accepts takes the sequence [f] gives. *)
Fixpoint update (sel : Z -> list Z -> bool) (f : list Z -> list Z) (s : lists) : option lists :=
  match s with
  | [] => None
  | (hd, l) :: s => if sel hd l then Some ((hd, f l) :: s) else s ← update sel f s; Some ((hd, l) :: s)
  end.

Definition without (e : Z) (l : list Z) : list Z := List.filter (fun x => negb (x =? e)) l.

(** An entry to add is in no list, one to delete is in a list. *)
Definition seq_step (s : lists) (op : list_op) : option lists :=
  match op with
  | OpAdd e hd => if bool_decide (e ∈ all_nodes s) then None else update (fun h _ => h =? hd) (cons e) s
  | OpAppend e hd => if bool_decide (e ∈ all_nodes s) then None else update (fun h _ => h =? hd) (fun l => l ++ [e]) s
  | OpDel e => update (fun _ l => bool_decide (e ∈ l)) (without e) s
  end.

Lemma update_inv sel f s s' : update sel f s = Some s' -> exists s1 hd l s2, s = s1 ++ (hd, l) :: s2 /\ s' = s1 ++ (hd, f l) :: s2 /\ sel hd l = true.
Proof.
  revert s'. induction s as [|[hd l] s IH]; intros s'; cbn [update]; [done|]. destruct (sel hd l) eqn:E.
  - intros [= <-]. by exists [], hd, l, s.
  - intros H. apply bind_Some in H as (s0 & E0 & [= <-]). destruct (IH _ E0) as (s1 & hd' & l' & s2 & -> & -> & Es).
    by exists ((hd, l) :: s1), hd', l', s2.
Qed.

Lemma represents_at h s1 hd l s2 : represents h (s1 ++ (hd, l) :: s2) -> holds h hd l /\ forall a, a ∈ (hd :: l) -> a ∈ all_nodes (s1 ++ (hd, l) :: s2).
Proof.
  intros [Hf _]. apply Forall_app in Hf as [_ Hf]. apply Forall_cons_1 in Hf as [Hf _]. split; [done|]. intros a Ha. unfold all_nodes.
  rewrite map_app, concat_app. cbn [map concat]. apply elem_of_app. right. apply elem_of_app. by left.
Qed.

Lemma without_split e l1 l2 : e ∉ (l1 ++ l2) -> without e (l1 ++ e :: l2) = l1 ++ l2.
Proof.
  intros He. assert (Hid : forall l, e ∉ l -> without e l = l).
  { induction l as [|x l IH]; intros Hl; [done|]. cbn. rewrite not_elem_of_cons in Hl. destruct Hl as [Hx Hl].
    destruct (Z.eqb_spec x e); [done|]. cbn [negb]. f_equal. by apply IH. }
  rewrite not_elem_of_app in He. destruct He as [H1 H2]. unfold without in *. rewrite List.filter_app. cbn [List.filter]. rewrite Z.eqb_refl. cbn [negb]. by rewrite !Hid.
Qed.

Lemma list_step_spec h s op s' : represents h s -> node h (op_entry op) -> seq_step s op = Some s' -> exists h',
  list_step h op = Some h' /\ represents h' s' /\ forall a, node h' a <-> node h a.
Proof.
  assert (Hins : forall e f s, node h e -> represents h s -> bool_decide (e ∈ all_nodes s) = false -> forall hd s', update (fun h _ => h =? hd) f s = Some s' ->
    (forall l, holds h hd l -> e ∉ (hd :: l) -> exists h', list_step h op = Some h' /\ holds h' hd (f l) /\ changes_only h h' (e :: hd :: l)) ->
    (forall l a, a ∈ f l -> a = e \/ a ∈ l) -> exists h', list_step h op = Some h' /\ represents h' s' /\ forall a, node h' a <-> node h a).
  { clear s s'. intros e f s Ne Hr He hd s' Hu Hop Hf. apply bool_decide_eq_false in He.
    destruct (update_inv _ _ _ _ Hu) as (s1 & hd' & l & s2 & -> & -> & Es). apply Z.eqb_eq in Es as ->.
    destruct (represents_at _ _ _ _ _ Hr) as [Hh Hin]. destruct (Hop l Hh) as (h' & E & Hh' & Hc); [by intros ?%Hin|].
    exists h'. split; [done|]. split; [|apply Hc]. eapply represents_update; [exact Hr|done|exact Hc| |].
    - intros a Ha. apply elem_of_cons in Ha as [->|Ha]; [by right|by left].
    - intros a Ha. destruct (Hf l a Ha) as [->|]; [by right|by left]. }
  destruct op as [e hd|e hd|e]; cbn [op_entry seq_step]; intros Hr Ne Hs.
  - destruct (bool_decide _) eqn:He; [done|]. eapply Hins; [exact Ne|exact Hr|exact He|exact Hs| |].
    + intros l Hh Hn. by apply prepend_holds.
    + intros l a Ha. by apply elem_of_cons in Ha.
  - destruct (bool_decide _) eqn:He; [done|]. eapply Hins; [exact Ne|exact Hr|exact He|exact Hs| |].
    + intros l Hh Hn. by apply append_holds.
    + intros l a Ha. apply elem_of_app in Ha as [|Ha]; [by right|]. apply list_elem_of_singleton in Ha. by left.
  - clear Hins. destruct (update_inv _ _ _ _ Hs) as (s1 & hd & l & s2 & -> & -> & Es). apply bool_decide_eq_true in Es.
    apply list_elem_of_split in Es as (l1 & l2 & ->). destruct (represents_at _ _ _ _ _ Hr) as [Hh Hin].
    destruct (nodup_split _ _ _ _ (proj1 Hh)) as (_ & He & _). destruct (del_holds _ _ _ _ _ Hh) as (h' & E & H1 & _ & Hc).
    exists h'. split; [done|]. split; [|apply Hc]. rewrite without_split by (intros ?; apply He; by right).
    eapply represents_update; [exact Hr|done|exact Hc| |].
    + intros a Ha. left. rewrite !elem_of_cons, !elem_of_app, ?elem_of_cons in *. tauto.
    + intros a Ha. left. rewrite !elem_of_app, ?elem_of_cons in *. tauto.
Qed.

(** ** The loops visit the sequence *)

Definition reading {S : Type} (f : S -> Z -> option S) (st : gmap Z xorg_list * S) (x : Z) : option (gmap Z xorg_list * S) :=
  s ← f st.2 x; Some (st.1, s).

(** The body that takes its entry out of the list. *)
Definition deleting {S : Type} (f : S -> Z -> option S) (st : gmap Z xorg_list * S) (x : Z) : option (gmap Z xorg_list * S) :=
  h ← xorg_list_del st.1 x; s ← f st.2 x; Some (h, s).

Lemma for_each_from_spec {S} (f : S -> Z -> option S) h hd l : forall p fuel s, links h p l hd -> hd ∉ l -> (length l < fuel)%nat ->
  (next ← get_next h p; for_each_from (reading f) fuel hd next (h, s)) = (s ← foldM f l s; Some (h, s)).
Proof.
  induction l as [|x l IH]; intros p fuel s Hk Hn Hf; (destruct fuel as [|fuel]; [cbn in Hf; lia|]); cbn [links] in Hk.
  - destruct Hk as [-> _]. step. cbn [for_each_from foldM]. by rewrite Z.eqb_refl.
  - destruct Hk as (-> & _ & Hk). rewrite not_elem_of_cons in Hn. destruct Hn as [Hx Hn]. step. cbn [for_each_from foldM].
    rewrite (proj2 (Z.eqb_neq x hd)) by done. change (reading f (h, s) x) with (s' ← f s x; Some (h, s')). destruct (f s x) as [s'|]; step; [|done]. cbn [fst].
    apply IH; [done|done|cbn in Hf; lia].
Qed.

Lemma for_each_spec {S} (f : S -> Z -> option S) h hd l s : holds h hd l ->
  xorg_list_for_each_entry (reading f) (Datatypes.S (length l)) hd (h, s) = (s ← foldM f l s; Some (h, s)).
Proof. intros [Hd Hk]. apply list.NoDup_cons in Hd as [Hn _]. by apply for_each_from_spec; [| |lia]. Qed.

Lemma for_each_reverse_from_spec {S} (f : S -> Z -> option S) h hd l : forall q fuel s, links h hd l q -> hd ∉ l -> (length l < fuel)%nat ->
  (prev ← get_prev h q; for_each_reverse_from (reading f) fuel hd prev (h, s)) = (s ← foldM f (rev l) s; Some (h, s)).
Proof.
  induction l as [|x l IH] using rev_ind; intros q fuel s Hk Hn Hf; (destruct fuel as [|fuel]; [cbn in Hf; lia|]).
  - destruct Hk as [_ ->]. step. cbn [for_each_reverse_from foldM rev]. by rewrite Z.eqb_refl.
  - apply links_app in Hk as [Hk [_ ->]]. rewrite not_elem_of_app, list_elem_of_singleton in Hn. destruct Hn as [Hn Hx]. rewrite length_app in Hf. cbn in Hf.
    step. rewrite rev_app_distr. cbn [rev app for_each_reverse_from foldM].
    rewrite (proj2 (Z.eqb_neq x hd)) by congruence. change (reading f (h, s) x) with (s' ← f s x; Some (h, s')). destruct (f s x) as [s'|]; step; [|done].
    cbn [fst]. apply IH; [done|done|lia].
Qed.

Lemma for_each_reverse_spec {S} (f : S -> Z -> option S) h hd l s : holds h hd l ->
  xorg_list_for_each_entry_reverse (reading f) (Datatypes.S (length l)) hd (h, s) = (s ← foldM f (rev l) s; Some (h, s)).
Proof. intros [Hd Hk]. apply list.NoDup_cons in Hd as [Hn _]. by apply for_each_reverse_from_spec; [| |lia]. Qed.

Lemma next_after h hd l : holds h hd l -> get_next h hd = Some (after_of hd l).
Proof. intros [_ Hk]. destruct l; apply Hk. Qed.

Lemma for_each_safe_from_spec {S} (f : S -> Z -> option S) hd l : forall h fuel s tmp, holds h hd l -> (length l < fuel)%nat ->
  l = [] \/ tmp = after_of hd (tail l) -> exists h', holds h' hd [] /\
  for_each_safe_from (deleting f) fuel hd (after_of hd l) tmp (h, s) = (s ← foldM f l s; Some (h', s)).
Proof.
  induction l as [|x l IH]; intros h fuel s tmp Hh Hf Ht; (destruct fuel as [|fuel]; [cbn in Hf; lia|]).
  - exists h. split; [done|]. cbn [for_each_safe_from foldM after_of head default from_option]. by rewrite Z.eqb_refl.
  - destruct Ht as [|Ht]; [done|]. cbn [tail] in Ht. subst tmp. cbn [for_each_safe_from after_of head default from_option id foldM].
    assert (x <> hd) by (destruct Hh as [Hd _]; apply list.NoDup_cons in Hd as [Hd _]; intros ->; apply Hd; left).
    rewrite (proj2 (Z.eqb_neq x hd)) by done. destruct (del_holds h hd [] x l Hh) as (h1 & E & H1 & _ & _). cbn [app] in H1.
    assert (exists tmp', get_next h1 (after_of hd l) = Some tmp' /\ (l = [] \/ tmp' = after_of hd (tail l))) as (tmp' & En & Ht').
    { destruct l as [|y l]; [exists hd; split; [apply (next_after h1 hd [] H1)|by left]|]. destruct H1 as [_ (_ & _ & Hk)]. exists (after_of hd l).
      split; [|by right]. cbn [after_of head default from_option id]. destruct l; apply Hk. }
    change (deleting f (h, s) x) with (h1 ← xorg_list_del h x; s' ← f s x; Some (h1, s')). rewrite E. step. destruct (f s x) as [s'|]; step.
    + cbn [fst]. rewrite En. step. apply IH; [done|cbn in Hf; lia|done].
    + destruct (IH h1 fuel s tmp' H1) as (h' & Hh' & _); [cbn in Hf; lia|done|]. by exists h'.
Qed.

Lemma for_each_safe_spec {S} (f : S -> Z -> option S) h hd l s : holds h hd l -> exists h', holds h' hd [] /\
  xorg_list_for_each_entry_safe (deleting f) (Datatypes.S (length l)) hd (h, s) = (s ← foldM f l s; Some (h', s)).
Proof.
  intros Hh. unfold xorg_list_for_each_entry_safe. cbn [fst]. rewrite (next_after _ _ _ Hh). step.
  assert (exists tmp, get_next h (after_of hd l) = Some tmp /\ (l = [] \/ tmp = after_of hd (tail l))) as (tmp & -> & Ht).
  { destruct l as [|y l]; [exists hd; split; [apply (next_after h hd [] Hh)|by left]|]. destruct Hh as [_ (_ & _ & Hk)]. exists (after_of hd l).
    split; [|by right]. destruct l; apply Hk. }
  step. apply for_each_safe_from_spec; [done|lia|done].
Qed.

(** C6: The intrusive lists hold sequences: whatever entries are added,
    appended and deleted, on any number of lists that share the store, no
    pointer is lost; afterwards [xorg_list_is_empty] is true exactly for the
    empty sequence (its comment says the opposite), and a list has its first and
    last entry, is visited by the loops, and is taken apart by the loop that
    deletes, as the sequence says. *)
Theorem xorg_lists_hold_sequences h s ops s' : represents h s -> Forall (fun op => node h (op_entry op)) ops -> foldM seq_step ops s = Some s' ->
  exists h', foldM list_step ops h = Some h' /\ represents h' s' /\ forall hd l, (hd, l) ∈ s' ->
    xorg_list_is_empty h' hd = Some (bool_decide (l = [])) /\
    xorg_list_first_entry h' hd = Some (default hd (head l)) /\ xorg_list_last_entry h' hd = Some (default hd (list.last l)) /\
    (forall (S : Type) (f : S -> Z -> option S) x,
       xorg_list_for_each_entry (reading f) (Datatypes.S (length l)) hd (h', x) = (x ← foldM f l x; Some (h', x))) /\
    (forall (S : Type) (f : S -> Z -> option S) x,
       xorg_list_for_each_entry_reverse (reading f) (Datatypes.S (length l)) hd (h', x) = (x ← foldM f (rev l) x; Some (h', x))) /\
    forall (S : Type) (f : S -> Z -> option S) x, exists h2, holds h2 hd [] /\
      xorg_list_for_each_entry_safe (deleting f) (Datatypes.S (length l)) hd (h', x) = (x ← foldM f l x; Some (h2, x)).
Proof.
  intros Hr Hn Hs. assert (exists h', foldM list_step ops h = Some h' /\ represents h' s') as (h' & E & Hr').
  { revert h s Hr Hn Hs. induction ops as [|op ops IH]; intros h s Hr Hn Hs; cbn [foldM] in *; [injection Hs as ->; by exists h|].
    apply bind_Some in Hs as (s1 & E1 & Hs). apply Forall_cons_1 in Hn as [Hn Hns].
    destruct (list_step_spec h s op s1 Hr Hn E1) as (h1 & -> & H1 & M1). step. apply (IH h1 s1); [done| |done].
    eapply List.Forall_impl; [|exact Hns]. intros o. cbn. by rewrite M1. }
  exists h'. split; [done|]. split; [done|]. intros hd l Hi. apply list_elem_of_split in Hi as (s1 & s2 & ->).
  destruct (represents_at _ _ _ _ _ Hr') as [Hh _]. assert (Hne : hd ∉ l) by (destruct Hh as [Hd _]; by apply list.NoDup_cons in Hd as [? _]).
  unfold xorg_list_is_empty, xorg_list_first_entry, xorg_list_last_entry. rewrite (next_after _ _ _ Hh). step.
  split; [|split; [done|split; [apply (links_ends _ _ _ _ (proj2 Hh))|split; [|split]; intros S f x; [by apply for_each_spec|by apply for_each_reverse_spec|by apply for_each_safe_spec]]]].
  f_equal. unfold after_of. destruct l as [|y l]; cbn [head default from_option id]; [by rewrite Z.eqb_refl|].
  rewrite bool_decide_eq_false_2 by done. apply Z.eqb_neq. intros ->. apply Hne. left.
Qed.

Lemma init_holds h p : node h p -> exists h', xorg_list_init h p = Some h' /\ holds h' p [] /\ changes_only h h' [p].
Proof.
  intros Hp. unfold xorg_list_init. destruct (set_prev_total h p p Hp) as (h1 & E1 & M1). rewrite E1. step.
  destruct (set_next_total h1 p p) as (h2 & E2 & M2); [by apply M1|]. exists h2. split; [done|].
  assert (A : forall a, get_next h2 a = (if decide (a = p) then Some p else get_next h a) /\ get_prev h2 a = (if decide (a = p) then Some p else get_prev h a)).
  { intros a. destruct (get_set_next _ _ _ _ a E2) as [X1 X2]. destruct (get_set_prev _ _ _ _ a E1) as [Y1 Y2]. by rewrite X1, X2, Y1, Y2. }
  split; [split; [apply list.NoDup_singleton|]; cbn [links]; destruct (A p) as [-> ->]; by rewrite !decide_True|]. split.
  - intros a Ha. rewrite not_elem_of_cons in Ha. destruct (A a) as [-> ->]. rewrite !decide_False by tauto. done.
  - intros a. by rewrite M2, M1.
Qed.

(** Two lists and three entries. *)
Definition sample_store : gmap Z xorg_list :=
  list_to_map (map (fun p => (p, {| l_next := p; l_prev := p |})) [1; 2; 10; 11; 12]).
Definition sample_ops : list list_op := [OpAppend 10 1; OpAppend 11 1; OpAdd 12 1; OpDel 10; OpAppend 10 2].

Lemma xorg_lists_hold_sequences_witness : exists h', foldM list_step sample_ops sample_store = Some h' /\
  represents h' [(1, [12; 11]); (2, [10])] /\
  xorg_list_for_each_entry (reading (fun s x => Some (s ++ [x]))) 3 1 (h', []) = Some (h', [12; 11]).
Proof.
  destruct (xorg_lists_hold_sequences sample_store [(1, []); (2, [])] sample_ops [(1, [12; 11]); (2, [10])]) as (h' & E & Hr & Hl).
  - split; [|apply (bool_decide_unpack _); by vm_compute].
    repeat (apply Forall_cons_2; [split; [apply list.NoDup_singleton|split; reflexivity]|]). by apply Forall_nil_2.
  - repeat (apply Forall_cons_2; [vm_compute; by eexists|]). by apply Forall_nil_2.
  - by vm_compute.
  - exists h'. split; [exact E|]. split; [exact Hr|]. destruct (Hl 1 [12; 11]) as (_ & _ & _ & Hf & _); [left|]. exact (Hf _ (fun s x => Some (s ++ [x])) []).
Defined.
