(* ===== verification/SegmentWriter.v ===== *)
(** * The segment writer: src/segmentwriter.c, src/time.c

    Callers queue items; a thread takes them from the queue and writes them to
    a file, or to a new file every minute.  The calls of the callers and the
    turns of the thread are the steps of a run; during a turn callers may push,
    which is in the environment of the turn.

    The file system is a map from names to contents: what a file was given
    is in it, whether the C library still buffers it or not, and a write takes
    all it is given.  The clock, [localtime_r], the success of allocations and
    of fopen come from the environment.  The bytes written are not bounded.
    Left out: the change of a file's owner, the free space of the disk, and
    the log, which is compiled out, but not the message formatted for it. *)
From Stdlib Require Import ZArith Lia Bool.
From stdpp Require Import base numbers list option gmap.
From coqutil Require Import Datatypes.RecordSettersUsingExistingGetters.
From S2P Require Import Prelude KlQueue.

(** ** Time stamps: time.c *)

Record tm := { tm_year : Z; tm_mon : Z; tm_mday : Z; tm_hour : Z; tm_min : Z; tm_sec : Z }.

(** The characters before the NUL. *)
Fixpoint cstr (l : list Z) : list Z :=
  match l with [] => [] | c :: l => if c =? 0 then [] else c :: cstr l end.

Section Time.
Context (localtime_r : Z -> tm).

(** [now]: what time returns; the result is the buffer and the return value. *)
Definition libltntstools_getTimestamp (buf : list Z) (buflen : Z) (when : option Z) (now : Z) : option (list Z * Z) :=
  if buflen <? 16 then Some (buf, -1) else
  let t := localtime_r (default now when) in
  buf ← wrs buf 0 (padded 10 4 (tm_year t + 1900) ++ padded 10 2 (tm_mon t + 1) ++ padded 10 2 (tm_mday t) ++ [0x2d] ++
                   padded 10 2 (tm_hour t) ++ padded 10 2 (tm_min t) ++ padded 10 2 (tm_sec t) ++ [0]);
  Some (buf, 0).

Definition libltntstools_getTimestamp_seperated (buf : list Z) (buflen : Z) (when : option Z) (now : Z) : option (list Z * Z) :=
  if buflen <? 16 then Some (buf, -1) else
  let t := localtime_r (default now when) in
  buf ← wrs buf 0 (padded 10 4 (tm_year t + 1900) ++ [0x2d] ++ padded 10 2 (tm_mon t + 1) ++ [0x2d] ++ padded 10 2 (tm_mday t) ++ [0x20] ++
                   padded 10 2 (tm_hour t) ++ [0x3a] ++ padded 10 2 (tm_min t) ++ [0x3a] ++ padded 10 2 (tm_sec t) ++ [0]);
  Some (buf, 0).
End Time.

(** ** The state *)

Record q_item_s := { qi_ptr : list Z; qi_lengthBytes : Z; qi_datetime : Z }.

(** A file that was opened, and what went into it; not in the code. *)
Record segment := { sg_name : list Z; sg_open : Z; sg_header : list Z; sg_items : list q_item_s }.

(** [sw_files]: the disk.  [sw_queued], [sw_segments] are not in the code: the
    items queued and the files opened, oldest first. *)
Record ltntstools_segmentwriter_s := {
  sw_lastOpen : Z;
  sw_q : klqueue_s q_item_s;
  sw_writeMode : Z;
  sw_threadTerminate : Z;
  sw_threadTerminated : Z;
  sw_threadRunning : Z;
  sw_recordingStartTime : Z;
  sw_totalBytesWritten : Z;
  sw_totalSegmentsCreated : Z;
  sw_fh : option (list Z);
  sw_filenamePrefix : list Z;
  sw_filenameSuffix : list Z;
  sw_filename : option (list Z);
  sw_fileHeader : option (list Z);
  sw_fileHeaderLength : Z;
  sw_files : gmap (list Z) (list Z);
  sw_queued : list q_item_s;
  sw_segments : list segment
}.

(** ** Items *)

(** [ok], [ok_ptr]: the allocations succeed; [memory]: what the second holds.
    The inner [None] is NULL.  A negative length is too much memory. *)
Definition q_item_malloc (ok ok_ptr : bool) (memory : list Z) (buf : option (list Z)) (lengthBytes : Z) : option (option q_item_s) :=
  if negb ok then Some None else
  if negb ok_ptr || (lengthBytes <? 0) then Some None else
  ptr ← match buf with Some buf => rds buf 0 lengthBytes | None => Some memory end;
  Some (Some {| qi_ptr := ptr; qi_lengthBytes := lengthBytes; qi_datetime := 0 |}).

(** [ok_q]: the queue has memory for the item.  Without it the item is not
    queued, and nobody has it any more; the caller is not told. *)
Definition push_item (ok_q : bool) (s : ltntstools_segmentwriter_s) (qi : q_item_s) : ltntstools_segmentwriter_s :=
  s <| sw_q := klqueue_push ok_q (sw_q s) qi |> <| sw_queued := if ok_q then sw_queued s ++ [qi] else sw_queued s |>.

Definition stamped (qi : q_item_s) (now : Z) : q_item_s :=
  {| qi_ptr := qi_ptr qi; qi_lengthBytes := qi_lengthBytes qi; qi_datetime := now |}.

Definition ltntstools_segmentwriter_object_alloc (ok ok_ptr : bool) (memory : list Z) (length : Z) : option (option q_item_s * Z) :=
  qi ← q_item_malloc ok ok_ptr memory None (i32 length);
  Some (match qi with None => (None, -1) | Some qi => (Some qi, 0) end).

Definition ltntstools_segmentwriter_object_write (ok_q : bool) (s : ltntstools_segmentwriter_s) (object : q_item_s) (now : Z) : ltntstools_segmentwriter_s * Z :=
  (push_item ok_q s (stamped object now), qi_lengthBytes object).

(** The result is 0, whether the data was queued or not. *)
Definition ltntstools_segmentwriter_write (ok ok_ptr ok_q : bool) (s : ltntstools_segmentwriter_s) (buf : list Z) (length now : Z)
    : option (ltntstools_segmentwriter_s * Z) :=
  qi ← q_item_malloc ok ok_ptr [] (Some buf) (i32 length);
  match qi with
  | None => Some (s, 0)
  | Some qi => Some (push_item ok_q s (stamped qi now), 0)
  end.

Definition ltntstools_segmentwriter_set_header (ok : bool) (s : ltntstools_segmentwriter_s) (buf : list Z) (length : Z)
    : option (ltntstools_segmentwriter_s * Z) :=
  let s := match sw_fileHeader s with
           | Some _ => s <| sw_fileHeader := None |> <| sw_fileHeaderLength := 0 |>
           | None => s
           end in
  if negb ok then Some (s, -1) else
  let fileHeaderLength := i32 length in
  header ← rds buf 0 fileHeaderLength;
  Some (s <| sw_fileHeader := Some header |> <| sw_fileHeaderLength := fileHeaderLength |>, 0).

(** ** The thread *)

(** The readings of the clock of a turn, the success of fopen, and the items
    that callers get into the queue before each test of it. *)
Record sw_env := {
  se_now : Z;
  se_stamp : Z;
  se_open : Z;
  se_fopen : bool;
  se_pushed : nat -> list q_item_s
}.

Definition fwrite (s : ltntstools_segmentwriter_s) (name data : list Z) : ltntstools_segmentwriter_s :=
  s <| sw_files := <[name := default [] (sw_files s !! name) ++ data]> (sw_files s) |>
    <| sw_totalBytesWritten := sw_totalBytesWritten s + len data |>.

(** The last file opened gets an item. *)
Definition record_item (qi : q_item_s) (l : list segment) : list segment :=
  match list.last l with
  | Some sg => removelast l ++ [{| sg_name := sg_name sg; sg_open := sg_open sg; sg_header := sg_header sg; sg_items := sg_items sg ++ [qi] |}]
  | None => l
  end.

Section Thread.
Context (localtime_r : Z -> tm).

(** After a minute the file of a segmented recording is closed. *)
Definition close_minute (now : Z) (s : ltntstools_segmentwriter_s) : ltntstools_segmentwriter_s :=
  match sw_fh s with
  | Some _ => if (sw_writeMode s =? 1) && (sw_lastOpen s + 60 <=? now) then s <| sw_fh := None |> else s
  | None => s
  end.

(** The name of the next file, in a buffer of 512 characters. *)
Definition name_file (stamp : Z) (s : ltntstools_segmentwriter_s) : option ltntstools_segmentwriter_s :=
  match sw_fh s with
  | Some _ => Some s
  | None =>
      if (sw_writeMode s =? 0) || (sw_writeMode s =? 1) then
        '(ts, _) ← libltntstools_getTimestamp localtime_r (replicate 64 0) 64 None stamp;
        let filename := sw_filenamePrefix s ++ [0x2d] ++ cstr ts ++ sw_filenameSuffix s in
        if 512 <? len filename + 1 then None else Some (s <| sw_filename := Some filename |>)
      else Some s
  end.

(** A message of at most 256 characters holds the name. *)
Definition open_file (e : sw_env) (s : ltntstools_segmentwriter_s) : option ltntstools_segmentwriter_s :=
  match sw_fh s with
  | Some _ => Some s
  | None =>
      filename ← sw_filename s;
      if 256 <? 8 + len filename + 2 then None else
      n ← int_ok (sw_totalSegmentsCreated s + 1);
      let s := s <| sw_lastOpen := se_open e |>
                 <| sw_recordingStartTime := if sw_recordingStartTime s =? 0 then se_open e else sw_recordingStartTime s |>
                 <| sw_totalSegmentsCreated := n |> in
      if negb (se_fopen e) then Some s else
      header ← match sw_fileHeader s with
               | Some h => rds h 0 (sw_fileHeaderLength s)
               | None => if sw_fileHeaderLength s =? 0 then Some [] else None
               end;
      let s := s <| sw_fh := Some filename |> <| sw_files := <[filename := []]> (sw_files s) |>
                 <| sw_segments := sw_segments s ++ [{| sg_name := filename; sg_open := se_open e; sg_header := header; sg_items := [] |}] |> in
      Some (fwrite s filename header)
  end.

(** The loop over the queue; [k]: the tests of the queue so far. *)
Fixpoint pop_loop (e : sw_env) (name : list Z) (fuel k : nat) (maxwrites : Z) (s : ltntstools_segmentwriter_s) : option ltntstools_segmentwriter_s :=
  match fuel with
  | O => None
  | S fuel =>
      let s := foldl (push_item true) s (se_pushed e k) in
      if klqueue_empty (sw_q s) =? 1 then Some s else
      '(q, item, ret) ← klqueue_pop_non_blocking WaitError (sw_q s);
      let s := s <| sw_q := q |> in
      if negb (ret =? 0) then Some s else
      qi ← item;
      let maxwrites := if (sw_writeMode s =? 1) && (sw_lastOpen s + 60 <=? qi_datetime qi) then 0 else maxwrites in
      data ← rds (qi_ptr qi) 0 (qi_lengthBytes qi);
      let s := (fwrite s name data) <| sw_segments := record_item qi (sw_segments s) |> in
      if maxwrites <=? 0 then Some s else pop_loop e name fuel (S k) (maxwrites - 1) s
  end.

Definition _write (e : sw_env) (s : ltntstools_segmentwriter_s) : option ltntstools_segmentwriter_s :=
  let s := close_minute (se_now e) s in
  s ← name_file (se_stamp e) s;
  s ← open_file e s;
  match sw_fh s with
  | Some name => pop_loop e name 1002 0 1000 s
  | None => Some s
  end.

(** One turn of the thread. *)
Definition ltntstools_segmentwriter_threadFunc (e : sw_env) (s : ltntstools_segmentwriter_s) : option ltntstools_segmentwriter_s :=
  if klqueue_empty (sw_q s) =? 1 then Some s else _write e s.

(** ** The life of a writer *)

(** The thread runs. *)
Definition ltntstools_segmentwriter_alloc (filenamePrefix : list Z) (filenameSuffix : option (list Z)) (writeMode : Z) : ltntstools_segmentwriter_s :=
  {| sw_lastOpen := 0; sw_q := klqueue_initialize; sw_writeMode := writeMode; sw_threadTerminate := 0; sw_threadTerminated := 0;
     sw_threadRunning := 1; sw_recordingStartTime := 0; sw_totalBytesWritten := 0; sw_totalSegmentsCreated := 0; sw_fh := None;
     sw_filenamePrefix := filenamePrefix; sw_filenameSuffix := default [0x2e; 0x74; 0x73] filenameSuffix; sw_filename := None;
     sw_fileHeader := None; sw_fileHeaderLength := 0; sw_files := ∅; sw_queued := []; sw_segments := [] |}.

Fixpoint drain (fuel : nat) (q : klqueue_s q_item_s) : option (klqueue_s q_item_s) :=
  match fuel with
  | O => None
  | S fuel =>
      if klqueue_empty q =? 1 then Some q else
      '(q, item, ret) ← klqueue_pop_non_blocking WaitError q;
      if negb (ret =? 0) then drain fuel q else _ ← item; drain fuel q
  end.

(** [last]: the turn in which the thread finds that it must end.  What is in
    the queue then is lost. *)
Definition ltntstools_segmentwriter_free (last : option sw_env) (s : ltntstools_segmentwriter_s) : option ltntstools_segmentwriter_s :=
  s ← (if sw_threadRunning s =? 0 then Some s else
       s ← match last with
           | Some e => ltntstools_segmentwriter_threadFunc e (s <| sw_threadTerminate := 1 |>)
           | None => Some (s <| sw_threadTerminate := 1 |>)
           end;
       Some (s <| sw_threadRunning := 0 |> <| sw_threadTerminated := 1 |>));
  q ← drain (S (length (q_head (sw_q s)))) (sw_q s);
  Some (s <| sw_fh := None |> <| sw_fileHeader := None |> <| sw_fileHeaderLength := 0 |> <| sw_q := klqueue_destroy q |>).
End Thread.

(** ** Queries *)

Definition ltntstools_segmentwriter_get_segment_count (s : ltntstools_segmentwriter_s) : Z :=
  match sw_fh s with None => -1 | Some _ => sw_totalSegmentsCreated s end.
Definition ltntstools_segmentwriter_get_recording_size (s : ltntstools_segmentwriter_s) : Z :=
  match sw_fh s with None => -1 | Some _ => sw_totalBytesWritten s end.
Definition ltntstools_segmentwriter_get_recording_start_time (s : ltntstools_segmentwriter_s) : Z :=
  match sw_fh s with None => -1 | Some _ => sw_recordingStartTime s end.

(** A negative length is a very large number to strncpy. *)
Definition ltntstools_segmentwriter_get_current_filename (s : ltntstools_segmentwriter_s) (dst : list Z) (lengthBytes : Z) : option (list Z * Z) :=
  match sw_fh s with
  | None => Some (dst, -1)
  | Some _ =>
      filename ← sw_filename s;
      if lengthBytes <? 0 then None else
      dst ← strncpy dst (filename ++ [0]) lengthBytes;
      Some (dst, 0)
  end.
Definition ltntstools_segmentwriter_get_queue_depth (s : ltntstools_segmentwriter_s) : Z := i32 (klqueue_count (sw_q s)).
