(* ===== verification/SegmentWriterSpec.v ===== *)
(** * The segment writer loses nothing

    What was queued is in the files, in order, and then in the queue, in every
    interleaving of the callers with the thread; and when the clock does not
    run backwards, a file of a segmented recording holds one minute. *)
From Stdlib Require Import ZArith Lia Bool.
From stdpp Require Import base numbers list option gmap.
From coqutil Require Import Datatypes.RecordSettersUsingExistingGetters.
From S2P Require Import Prelude KlQueue SegmentWriter.

(** ** What the files hold *)

Definition item_ok (i : q_item_s) : Prop := len (qi_ptr i) = qi_lengthBytes i.

Definition bytes_of (l : list q_item_s) : list Z := concat (map qi_ptr l).
Definition file_of (sg : segment) : list Z := sg_header sg ++ bytes_of (sg_items sg).

(** The files, a later one in the place of an earlier one of its name. *)
Definition disk_of (l : list segment) : gmap (list Z) (list Z) := foldl (fun m sg => <[sg_name sg := file_of sg]> m) ∅ l.
Definition written (l : list segment) : list q_item_s := concat (map sg_items l).
Definition size_of (l : list segment) : Z := len (concat (map file_of l)).

Definition with_item (sg : segment) (qi : q_item_s) : segment :=
  {| sg_name := sg_name sg; sg_open := sg_open sg; sg_header := sg_header sg; sg_items := sg_items sg ++ [qi] |}.

Lemma record_last l sg qi : record_item qi (l ++ [sg]) = l ++ [with_item sg qi].
Proof. unfold record_item. by rewrite list.last_snoc, removelast_last. Qed.

Lemma file_with_item sg qi : file_of (with_item sg qi) = file_of sg ++ qi_ptr qi.
Proof. unfold file_of, bytes_of. cbn [with_item sg_header sg_items]. rewrite map_app, concat_app. cbn. by rewrite app_nil_r, app_assoc. Qed.

Lemma disk_snoc l sg : disk_of (l ++ [sg]) = <[sg_name sg := file_of sg]> (disk_of l).
Proof. unfold disk_of. by rewrite foldl_app. Qed.

Lemma written_snoc l sg : written (l ++ [sg]) = written l ++ sg_items sg.
Proof. unfold written. rewrite map_app, concat_app. cbn. by rewrite app_nil_r. Qed.

Lemma size_snoc l sg : size_of (l ++ [sg]) = size_of l + len (file_of sg).
Proof. unfold size_of. rewrite map_app, concat_app, len_app. cbn. by rewrite app_nil_r. Qed.

(** ** The invariant *)

(** All items but the last were queued in the minute of the file. *)
Definition short (sg : segment) : Prop := exists body tl, sg_items sg = body ++ tl /\ (length tl <= 1)%nat /\
  Forall (fun i => qi_datetime i < sg_open sg + 60) body.

(** A minute lies between two files. *)
Definition apart (l : list segment) : Prop := forall i a b, l !! i = Some a -> l !! S i = Some b -> sg_open a + 60 <= sg_open b.

Record time_ok (c : Z) (s : ltntstools_segmentwriter_s) : Prop := {
  tk_queue : Forall (fun i => qi_datetime i <= c) (q_head (sw_q s));
  tk_written : Forall (fun sg => sg_open sg <= c /\ Forall (fun i => qi_datetime i <= c) (sg_items sg)) (sw_segments s);
  tk_short : sw_writeMode s = 1 -> Forall short (sw_segments s);
  tk_apart : sw_writeMode s = 1 -> apart (sw_segments s);
  tk_closed : sw_writeMode s = 1 -> sw_fh s = None -> forall sg, list.last (sw_segments s) = Some sg -> sg_open sg + 60 <= c
}.

Definition opened (s : ltntstools_segmentwriter_s) (l : list segment) (sg : segment) : Prop :=
  sw_segments s = l ++ [sg] /\ sg_open sg = sw_lastOpen s /\ sw_fh s = Some (sg_name sg).

(** [timed]: the clock does not run backwards; [c]: its last reading; [n]: the
    turns so far; [names]: the length of the prefix and the suffix. *)
Record sw_inv (names : Z) (timed : Prop) (c n : Z) (s : ltntstools_segmentwriter_s) : Prop := {
  iv_flow : written (sw_segments s) ++ q_head (sw_q s) = sw_queued s;
  iv_count : q_item_count (sw_q s) = len (q_head (sw_q s));
  iv_items : Forall item_ok (q_head (sw_q s));
  iv_header : match sw_fileHeader s with Some h => len h = sw_fileHeaderLength s | None => sw_fileHeaderLength s = 0 end;
  iv_files : sw_files s = disk_of (sw_segments s);
  iv_total : sw_totalBytesWritten s = size_of (sw_segments s);
  iv_open : forall name, sw_fh s = Some name -> exists l sg, opened s l sg;
  iv_mode : sw_writeMode s = 0 \/ sw_writeMode s = 1;
  iv_single : sw_writeMode s = 0 -> (length (sw_segments s) <= 1)%nat /\ (sw_fh s = None -> sw_segments s = []);
  iv_created : 0 <= sw_totalSegmentsCreated s <= n;
  iv_names : len (sw_filenamePrefix s) + len (sw_filenameSuffix s) = names;
  iv_time : timed -> time_ok c s
}.

Lemma time_ok_later c c' s : c <= c' -> time_ok c s -> time_ok c' s.
Proof.
  intros Hc [H1 H2 H3 H4 H5]. constructor; try done.
  - eapply List.Forall_impl; [|exact H1]. cbn. lia.
  - eapply List.Forall_impl; [|exact H2]. intros sg [? H]. split; [lia|]. eapply List.Forall_impl; [|exact H]. cbn. lia.
  - intros Hm Hf sg Hs. specialize (H5 Hm Hf sg Hs). lia.
Qed.

Lemma inv_later names timed c c' n n' s : (timed -> c <= c') -> n <= n' -> sw_inv names timed c n s -> sw_inv names timed c' n' s.
Proof. intros Hc Hn [H1 H2 H3 H4 H5 H6 H7 H8 H9 H10 H11 H12]. constructor; try done; [lia|]. intros T. by eapply time_ok_later; [apply Hc|apply H12]. Qed.

(** ** Items enter the queue *)

Lemma push_items l : forall s, q_item_count (sw_q s) = len (q_head (sw_q s)) -> len (q_head (sw_q s)) + len l < 2 ^ 63 ->
  foldl (push_item true) s l = s <| sw_q := {| q_head := q_head (sw_q s) ++ l; q_item_count := len (q_head (sw_q s) ++ l) |} |> <| sw_queued := sw_queued s ++ l |>.
Proof.
  induction l as [|x l IH]; intros s Hc Hl; cbn [foldl].
  - rewrite !app_nil_r, <- Hc. destruct s as [? []]; done.
  - rewrite len_cons in Hl. pose proof (len_nonneg l). pose proof (len_nonneg (q_head (sw_q s))).
    assert (Hq : sw_q (push_item true s x) = {| q_head := q_head (sw_q s) ++ [x]; q_item_count := len (q_head (sw_q s) ++ [x]) |}).
    { cbn. unfold const, klqueue_push. cbn. f_equal. rewrite Hc, u64_id, len_app by lia. done. }
    rewrite IH; rewrite Hq; cbn [q_head q_item_count]; [|done|rewrite len_app; change (len [x]) with 1; lia].
    change (sw_queued (push_item true s x)) with (sw_queued s ++ [x]). rewrite <- !app_assoc. reflexivity.
Qed.

Lemma inv_push names timed c n s l : sw_inv names timed c n s -> Forall item_ok l -> len (q_head (sw_q s)) + len l < 2 ^ 63 ->
  (timed -> Forall (fun i => qi_datetime i <= c) l) -> exists s', foldl (push_item true) s l = s' /\
    sw_inv names timed c n s' /\ sw_queued s' = sw_queued s ++ l /\ q_head (sw_q s') = q_head (sw_q s) ++ l /\
    sw_fh s' = sw_fh s /\ sw_segments s' = sw_segments s /\ sw_lastOpen s' = sw_lastOpen s /\ sw_writeMode s' = sw_writeMode s.
Proof.
  intros [H1 H2 H3 H4 H5 H6 H7 H8 H9 H10 H11 H12] Hi Hl Ht. eexists. split; [by apply push_items|]. split; [|done]. constructor; try done.
  - change (written (sw_segments s) ++ q_head (sw_q s) ++ l = sw_queued s ++ l). by rewrite app_assoc, H1.
  - change (Forall item_ok (q_head (sw_q s) ++ l)). by apply Forall_app.
  - intros T. destruct (H12 T) as [K1 K2 K3 K4 K5]. constructor; try done.
    change (Forall (fun i => qi_datetime i <= c) (q_head (sw_q s) ++ l)). apply Forall_app. split; [done|exact (Ht T)].
Qed.

(** ** Items go to the file *)

(** The items queued in the minute of the file. *)
Definition tight (sg : segment) : Prop := Forall (fun i => qi_datetime i < sg_open sg + 60) (sg_items sg).

Lemma apart_same l sg sg' : sg_open sg' = sg_open sg -> apart (l ++ [sg]) -> apart (l ++ [sg']).
Proof.
  intros E H i a b Ha Hb.
  assert (Hat : forall j x, (l ++ [sg']) !! j = Some x -> exists y, (l ++ [sg]) !! j = Some y /\ sg_open y = sg_open x).
  { intros j x. rewrite !lookup_app. destruct (l !! j) as [z|]; [intros [= ->]; by exists x|]. intros Hj. apply list_lookup_singleton_Some in Hj as [-> ->]. by exists sg. }
  destruct (Hat _ _ Ha) as (a' & Ha' & <-). destruct (Hat _ _ Hb) as (b' & Hb' & <-). by eapply H.
Qed.

Lemma write_item names timed c n s l sg qi rest : sw_inv names timed c n s -> opened s l sg -> q_head (sw_q s) = qi :: rest ->
  len (q_head (sw_q s)) < 2 ^ 63 -> (timed -> sw_writeMode s = 1 -> tight sg) ->
  let s' := (fwrite (s <| sw_q := {| q_head := rest; q_item_count := u64 (q_item_count (sw_q s) - 1) |} |>) (sg_name sg) (qi_ptr qi))
    <| sw_segments := record_item qi (sw_segments s) |> in
  sw_inv names timed c n s' /\ opened s' l (with_item sg qi).
Proof.
  intros [H1 H2 H3 H4 H5 H6 H7 H8 H9 H10 H11 H12] (Es & Eo & Ef) Eq Hl Ht s'. rewrite Eq in *. rewrite len_cons in *. pose proof (len_nonneg rest).
  assert (Es' : sw_segments s' = l ++ [with_item sg qi]) by (change (record_item qi (sw_segments s) = l ++ [with_item sg qi]); by rewrite Es, record_last).
  assert (Eq' : sw_q s' = {| q_head := rest; q_item_count := len rest |}).
  { change (sw_q s') with {| q_head := rest; q_item_count := u64 (q_item_count (sw_q s) - 1) |}. f_equal. rewrite H2, u64_id by lia. lia. }
  apply Forall_cons_1 in H3 as [I1 I2].
  split; [|by split; [|split]]. constructor; try done; rewrite ?Es', ?Eq'; cbn [q_head q_item_count]; try done.
  - change (sw_queued s') with (sw_queued s). rewrite <- H1, Es, !written_snoc. cbn [with_item sg_items]. by rewrite <- !app_assoc.
  - change (sw_files s') with (<[sg_name sg := default [] (sw_files s !! sg_name sg) ++ qi_ptr qi]> (sw_files s)).
    rewrite H5, Es, !disk_snoc, lookup_insert_eq, insert_insert_eq. cbn [default from_option id]. by rewrite file_with_item.
  - change (sw_totalBytesWritten s') with (sw_totalBytesWritten s + len (qi_ptr qi)). rewrite H6, Es, !size_snoc, file_with_item, len_app. lia.
  - intros name E. exists l, (with_item sg qi). split_and!; [exact Es'|exact Eo|exact Ef].
  - intros Hm. destruct (H9 Hm) as [L F]. rewrite Es, !length_app in *. split; [exact L|]. intros E. change (sw_fh s') with (sw_fh s) in E. congruence.
  - intros T. destruct (H12 T) as [K1 K2 K3 K4 K5]. rewrite Eq, Es in *. apply Forall_cons_1 in K1 as [D1 D2].
    constructor; rewrite ?Es', ?Eq'; change (sw_writeMode s') with (sw_writeMode s).
    + exact D2.
    + apply Forall_app in K2 as [K2 K2']. apply Forall_cons_1 in K2' as [[O1 O2] _]. apply Forall_app. split; [done|]. apply Forall_cons_2; [|by apply Forall_nil_2].
      split; [exact O1|]. cbn [with_item sg_items]. apply Forall_app. split; [done|]. by apply Forall_singleton.
    + intros Hm. specialize (K3 Hm). apply Forall_app in K3 as [K3 _]. apply Forall_app. split; [done|]. apply Forall_singleton.
      exists (sg_items sg), [qi]. split_and!; [done|cbn; lia|exact (Ht T Hm)].
    + intros Hm. by eapply apart_same; [|apply K4].
    + intros Hm E. change (sw_fh s') with (sw_fh s) in E. congruence.
Qed.

Definition items_from (e : sw_env) (k fuel : nat) : list q_item_s := concat (map (se_pushed e) (seq k fuel)).

Lemma items_from_S e k fuel : items_from e k (S fuel) = se_pushed e k ++ items_from e (S k) fuel.
Proof. reflexivity. Qed.

Lemma sw_loop_spec names timed c n e fuel : forall k maxwrites s l sg, sw_inv names timed c n s -> opened s l sg ->
  (timed -> sw_writeMode s = 1 -> tight sg) -> 0 <= maxwrites -> maxwrites + 1 <= Z.of_nat fuel -> Forall item_ok (items_from e k fuel) ->
  len (q_head (sw_q s)) + len (items_from e k fuel) < 2 ^ 63 -> (timed -> Forall (fun i => qi_datetime i <= c) (items_from e k fuel)) ->
  exists s' p, pop_loop e (sg_name sg) fuel k maxwrites s = Some s' /\ sw_inv names timed c n s' /\
    sw_queued s' = sw_queued s ++ p /\ p `prefix_of` items_from e k fuel /\ sw_writeMode s' = sw_writeMode s /\
    (length (written (sw_segments s)) <= length (written (sw_segments s')))%nat /\
    (q_head (sw_q s) <> [] -> (length (written (sw_segments s)) < length (written (sw_segments s')))%nat).
Proof.
  induction fuel as [|fuel IH]; intros k maxwrites s l sg Hs Ho Ht Hm0 Hm Hi Hl Hc; [lia|]. cbn [pop_loop].
  rewrite items_from_S in *. apply Forall_app in Hi as [I1 I2]. rewrite len_app in Hl. pose proof (len_nonneg (items_from e (S k) fuel)).
  assert (Hc1 : timed -> Forall (fun i => qi_datetime i <= c) (se_pushed e k)) by (intros T; specialize (Hc T); by apply Forall_app in Hc as [? _]).
  assert (Hc2 : timed -> Forall (fun i => qi_datetime i <= c) (items_from e (S k) fuel)) by (intros T; specialize (Hc T); by apply Forall_app in Hc as [_ ?]).
  destruct (inv_push names timed c n s (se_pushed e k) Hs I1) as (s1 & -> & H1 & Q1 & E1 & F1 & S1 & O1 & M1); [lia|done|].
  assert (Ho1 : opened s1 l sg) by (destruct Ho as (? & ? & ?); split; [congruence|]; split; congruence).
  unfold klqueue_empty, klqueue_count. rewrite (iv_count _ _ _ _ _ H1).
  destruct (q_head (sw_q s1)) as [|qi rest] eqn:Eq.
  - rewrite len_nil. cbn [Z.eqb]. exists s1, (se_pushed e k). split; [done|]. split; [done|].
    split; [done|]. split; [by eexists|]. split; [done|]. rewrite S1. split; [done|]. intros Hne. symmetry in E1. apply app_eq_nil in E1 as [E1 _]. congruence.
  - rewrite len_cons. pose proof (len_nonneg rest). rewrite (proj2 (Z.eqb_neq (len rest + 1) 0)) by lia. cbn [Z.eqb].
    unfold klqueue_pop_non_blocking, take_first. rewrite Eq. step. cbn [negb Z.eqb]. step.
    assert (Hq1 : len (q_head (sw_q s1)) = len (q_head (sw_q s)) + len (se_pushed e k)) by (rewrite Eq, E1, len_app; done).
    assert (Hqi : item_ok qi) by (pose proof (iv_items _ _ _ _ _ H1) as Hall; rewrite Eq in Hall; by apply Forall_cons_1 in Hall as [? _]).
    match goal with |- context [sw_writeMode ?x =? 1] => change (sw_writeMode x) with (sw_writeMode s1); change (sw_lastOpen x) with (sw_lastOpen s1) end.
    match goal with |- context [if ?b then 0 else maxwrites] => set (due := b) end.
    replace (rds (qi_ptr qi) 0 (qi_lengthBytes qi)) with (Some (qi_ptr qi)) by (rewrite <- Hqi; symmetry; apply rds_all). step.
    destruct (write_item names timed c n s1 l sg qi rest H1 Ho1 Eq) as [H2 Ho2]; [lia|by rewrite M1|].
    match goal with |- context [record_item qi (sw_segments ?x)] => change (sw_segments x) with (sw_segments s1) end.
    set (s2 := (fwrite _ _ _) <| sw_segments := _ |>) in *.
    assert (G2 : length (written (sw_segments s2)) = S (length (written (sw_segments s1)))).
    { destruct Ho1 as (W1 & _ & _). destruct Ho2 as (W2 & _ & _). rewrite W1, W2, !written_snoc, !length_app. cbn [with_item sg_items]. rewrite length_app. cbn. lia. }
    destruct (Z.leb_spec (if due then 0 else maxwrites) 0) as [|Hgo].
    + exists s2, (se_pushed e k). split; [done|]. split; [done|]. split; [exact Q1|]. split; [by eexists|]. split; [exact M1|]. rewrite <- S1. lia.
    + destruct due eqn:Ed; [lia|]. destruct (IH (S k) (maxwrites - 1) s2 l (with_item sg qi) H2 Ho2) as (s3 & p & E3 & H3 & Q3 & P3 & M3 & L3 & _);
        [|lia|lia|done|change (q_head (sw_q s2)) with rest; rewrite Eq, len_cons in Hq1; lia|done|].
      { intros T Hmode. change (sw_writeMode s2) with (sw_writeMode s1) in Hmode. unfold tight. cbn [with_item sg_items sg_open]. apply Forall_app.
        split; [apply (Ht T); congruence|]. apply Forall_singleton. unfold due in Ed. rewrite Hmode in Ed. cbn [Z.eqb Pos.eqb andb] in Ed.
        destruct Ho1 as (_ & -> & _). zbool. lia. }
      exists s3, (se_pushed e k ++ p). split; [exact E3|]. split; [exact H3|]. split; [rewrite Q3; change (sw_queued s2) with (sw_queued s1); by rewrite Q1, app_assoc|].
      split; [by apply prefix_app|]. split; [by rewrite M3, <- M1|]. rewrite <- S1. lia.
Qed.

(** ** The name of a file *)

Definition tm_ok (t : tm) : Prop :=
  0 <= tm_year t + 1900 <= 9999 /\ 0 <= tm_mon t <= 11 /\ 1 <= tm_mday t <= 31 /\ 0 <= tm_hour t <= 23 /\ 0 <= tm_min t <= 59 /\ 0 <= tm_sec t <= 60.

Definition printable (l : list Z) : Prop := Forall (fun c => c <> 0) l.

Lemma padded_spec k v : 0 <= v < 10 ^ Z.of_nat (S k) -> (k < 20)%nat -> length (padded 10 (S k) v) = S k /\ printable (padded 10 (S k) v).
Proof.
  intros Hv Hk. split; [by apply padded_length|]. apply Forall_app. split; [apply Forall_replicate; lia|].
  clear Hk. revert v Hv. generalize 20%nat. intros n. induction n as [|n IH]; intros v Hv; [by apply Forall_nil_2|]. cbn [digits]. unfold digit_char. destruct (Z.ltb_spec v 10).
  - apply Forall_singleton. lia.
  - apply Forall_app. split; [apply IH; split; [apply Z.div_pos; lia|apply Z.le_lt_trans with v; [|lia]; zlia]|].
    pose proof (Z.mod_pos_bound v 10). rewrite (proj2 (Z.ltb_lt _ 10)) by lia. apply Forall_singleton. lia.
Qed.

Lemma cstr_app l k : printable l -> cstr (l ++ 0 :: k) = l.
Proof. induction l as [|c l IH]; [done|]. intros [Hc Hl]%Forall_cons_1. cbn [app cstr]. rewrite (proj2 (Z.eqb_neq c 0)) by done. by rewrite IH. Qed.

(** Fifteen characters and the NUL. *)
Lemma timestamp_spec localtime_r when now : tm_ok (localtime_r (default now when)) -> exists buf stamp,
  libltntstools_getTimestamp localtime_r (replicate 64 0) 64 when now = Some (buf, 0) /\ cstr buf = stamp /\ len stamp = 15 /\ printable stamp.
Proof.
  intros (T1 & T2 & T3 & T4 & T5 & T6). unfold libltntstools_getTimestamp. cbn [Z.ltb Z.compare Pos.compare Pos.compare_cont].
  set (t := localtime_r (default now when)) in *.
  destruct (padded_spec 3 (tm_year t + 1900)) as [L1 P1]; [change (10 ^ _) with 10000; lia|lia|].
  destruct (padded_spec 1 (tm_mon t + 1)) as [L2 P2]; [change (10 ^ _) with 100; lia|lia|].
  destruct (padded_spec 1 (tm_mday t)) as [L3 P3]; [change (10 ^ _) with 100; lia|lia|].
  destruct (padded_spec 1 (tm_hour t)) as [L4 P4]; [change (10 ^ _) with 100; lia|lia|].
  destruct (padded_spec 1 (tm_min t)) as [L5 P5]; [change (10 ^ _) with 100; lia|lia|].
  destruct (padded_spec 1 (tm_sec t)) as [L6 P6]; [change (10 ^ _) with 100; lia|lia|].
  set (y := padded 10 4 _) in *. set (mo := padded 10 2 (tm_mon t + 1)) in *. set (d := padded 10 2 (tm_mday t)) in *.
  set (h := padded 10 2 (tm_hour t)) in *. set (mi := padded 10 2 (tm_min t)) in *. set (sc := padded 10 2 (tm_sec t)) in *.
  set (stamp := y ++ mo ++ d ++ [0x2d] ++ h ++ mi ++ sc).
  replace (y ++ mo ++ d ++ [0x2d] ++ h ++ mi ++ sc ++ [0]) with (stamp ++ [0]) by (unfold stamp; by rewrite <- !app_assoc).
  assert (L : len stamp = 15) by (unfold stamp, len; rewrite !length_app, L1, L2, L3, L4, L5, L6; done).
  assert (P : printable stamp) by (unfold stamp; unfold printable in *; rewrite !Forall_app; split_and!; try done; apply Forall_singleton; lia).
  rewrite wrs_Some by (rewrite ?len_app, ?L; by vm_compute). step. eexists _, stamp. split; [reflexivity|]. split; [|done].
  cbn [take Z.to_nat app]. rewrite <- app_assoc. by apply cstr_app.
Qed.

(** ** A turn of the thread *)

Definition same_items (s s' : ltntstools_segmentwriter_s) : Prop :=
  sw_q s' = sw_q s /\ sw_queued s' = sw_queued s /\ sw_writeMode s' = sw_writeMode s /\ written (sw_segments s') = written (sw_segments s).

Definition last_tight (s : ltntstools_segmentwriter_s) : Prop := forall l sg, opened s l sg -> sw_writeMode s = 1 -> tight sg.

Lemma close_spec names (timed : Prop) c n now s : sw_inv names timed c n s -> (timed -> c <= now) -> exists s',
  close_minute now s = s' /\ sw_inv names timed now n s' /\ same_items s s' /\ (timed -> last_tight s').
Proof.
  intros Hs Hc. eexists. split; [reflexivity|].
  assert (Hn : sw_inv names timed now n s) by (eapply inv_later; [exact Hc|apply Z.le_refl|exact Hs]).
  unfold close_minute. destruct (sw_fh s) as [name|] eqn:Ef; [|split; [done|]; split; [done|]; intros T l sg (_ & _ & E); congruence].
  destruct (iv_open _ _ _ _ _ Hs name Ef) as (l & sg & Ho). assert (Ho' := Ho). destruct Ho as (Es & Eo & _).
  destruct ((sw_writeMode s =? 1) && (sw_lastOpen s + 60 <=? now)) eqn:Ed.
  - zbool. destruct Hn as [H1 H2 H3 H4 H5 H6 H7 H8 H9 H10 H11 H12]. split; [|split; [done|]; intros T l1 sg1 (_ & _ & E); done].
    constructor; try done.
    + intros Hm. change (sw_writeMode s = 0) in Hm. lia.
    + intros T. destruct (H12 T) as [K1 K2 K3 K4 K5]. constructor; try done. intros Hm _ sg1 E1. change (list.last (sw_segments s) = Some sg1) in E1.
      rewrite Es, list.last_snoc in E1. injection E1 as <-. lia.
  - split; [done|]. split; [done|]. intros T l1 sg1 (Es1 & Eo1 & _) Hm. unfold tight.
    destruct (iv_time _ _ _ _ _ Hs T) as [_ K2 _ _ _]. rewrite Es1 in K2. apply Forall_app in K2 as [_ K2]. apply Forall_cons_1 in K2 as [[_ K2] _].
    eapply List.Forall_impl; [|exact K2]. intros i Hi. cbn in Hi. rewrite Hm in Ed. cbn [Z.eqb Pos.eqb andb] in Ed. zbool. specialize (Hc T). lia.
Qed.

Lemma same_items_trans a b c : same_items a b -> same_items b c -> same_items a c.
Proof. intros (? & ? & ? & ?) (? & ? & ? & ?). split_and!; congruence. Qed.

Lemma name_spec localtime_r names (timed : Prop) c n stamp s : sw_inv names timed c n s -> tm_ok (localtime_r stamp) -> names <= 230 ->
  (timed -> last_tight s) -> exists s', name_file localtime_r stamp s = Some s' /\ sw_inv names timed c n s' /\ same_items s s' /\
  (timed -> last_tight s') /\ (sw_fh s' = None -> exists f, sw_filename s' = Some f /\ len f = names + 16).
Proof.
  intros Hs Ht Hn Hl. unfold name_file. destruct (sw_fh s) as [name|] eqn:Ef.
  - exists s. split; [done|]. split; [done|]. split; [done|]. split; [done|]. congruence.
  - assert (Em : (sw_writeMode s =? 0) || (sw_writeMode s =? 1) = true) by (destruct (iv_mode _ _ _ _ _ Hs) as [-> | ->]; done). rewrite Em.
    destruct (timestamp_spec localtime_r None stamp Ht) as (buf & ts & -> & Ec & L & _). step. rewrite Ec.
    pose proof (iv_names _ _ _ _ _ Hs) as En.
    assert (Lf : len (sw_filenamePrefix s ++ [0x2d] ++ ts ++ sw_filenameSuffix s) = names + 16) by (rewrite !len_app, L; change (len [0x2d]) with 1; lia).
    rewrite Lf. rewrite (proj2 (Z.ltb_ge 512 (names + 16 + 1))) by lia. eexists. split; [reflexivity|].
    split; [destruct Hs as [H1 H2 H3 H4 H5 H6 H7 H8 H9 H10 H11 H12]; constructor; try done; intros T; destruct (H12 T); by constructor|].
    split; [done|]. split; [intros T l sg (_ & _ & E); change (sw_fh s = Some (sg_name sg)) in E; congruence|].
    intros _. by eexists.
Qed.

Lemma apart_snoc l sg : apart l -> (forall a, list.last l = Some a -> sg_open a + 60 <= sg_open sg) -> apart (l ++ [sg]).
Proof.
  intros H Hl i a b Ha Hb. apply lookup_app_Some in Hb as [Hb|[Hge Hb]].
  - apply lookup_app_Some in Ha as [Ha|[Hge Ha]]; [by eapply H|]. apply lookup_lt_Some in Hb. lia.
  - apply list_lookup_singleton_Some in Hb as [Hi <-]. apply Hl. rewrite last_lookup.
    apply lookup_app_Some in Ha as [Ha|[Hge2 _]]; [|lia]. by replace (pred (length l)) with i by lia.
Qed.

(** After the file is opened, it is the last one, and without items. *)
Lemma open_spec names (timed : Prop) c n e s : sw_inv names timed c n s -> n < 2 ^ 31 - 1 -> names <= 230 -> (timed -> last_tight s) ->
  (sw_fh s = None -> exists f, sw_filename s = Some f /\ len f = names + 16) -> (timed -> c <= se_open e) ->
  exists s', open_file e s = Some s' /\ sw_inv names timed (Z.max c (se_open e)) (n + 1) s' /\ same_items s s' /\ (timed -> last_tight s') /\
  (se_fopen e = true -> is_Some (sw_fh s')).
Proof.
  intros Hs Hn Hnames Hl Hf Hc. unfold open_file. destruct (sw_fh s) as [name|] eqn:Ef.
  { exists s. split; [done|]. split; [eapply inv_later; [| |exact Hs]; lia|]. split; [done|]. split; [done|]. intros _. rewrite Ef. by eexists. }
  destruct (Hf eq_refl) as (f & -> & Lf). step. rewrite (proj2 (Z.ltb_ge 256 _)) by lia.
  assert (Hs' : sw_inv names timed (Z.max c (se_open e)) n s) by (eapply inv_later; [| |exact Hs]; lia).
  destruct Hs' as [H1 H2 H3 H4 H5 H6 H7 H8 H9 H10 H11 H12]. rewrite int_ok_Some by lia. step.
  destruct (negb (se_fopen e)) eqn:Eo.
  { eexists. split; [reflexivity|]. split; [|split; [done|split; [|by destruct (se_fopen e)]]].
    - constructor; try done; [intros name E; change (sw_fh s = Some name) in E; congruence|change (0 <= sw_totalSegmentsCreated s + 1 <= n + 1); lia|].
      intros T. destruct (H12 T). by constructor.
    - intros T l sg (_ & _ & E). change (sw_fh s = Some (sg_name sg)) in E. congruence. }
  assert (exists h, match sw_fileHeader s with Some h => rds h 0 (sw_fileHeaderLength s) | None => if sw_fileHeaderLength s =? 0 then Some [] else None end = Some h) as [h Eh].
  { destruct (sw_fileHeader s) as [h|]; [exists h; rewrite <- H4; apply rds_all|rewrite H4; by exists []]. }
  change (sw_fileHeader (_ <| sw_totalSegmentsCreated := _ |>)) with (sw_fileHeader s).
  change (sw_fileHeaderLength (_ <| sw_totalSegmentsCreated := _ |>)) with (sw_fileHeaderLength s). rewrite Eh. step.
  set (sg := {| sg_name := f; sg_open := se_open e; sg_header := h; sg_items := [] |}).
  eexists. split; [reflexivity|].
  match goal with |- sw_inv _ _ _ _ ?x /\ _ => set (s' := x) end.
  assert (Es' : sw_segments s' = sw_segments s ++ [sg]) by reflexivity.
  assert (Ew : written (sw_segments s') = written (sw_segments s)) by (rewrite Es', written_snoc; cbn [sg sg_items]; by rewrite app_nil_r).
  split; [|split; [by split_and!|]; split; [|intros _; by eexists]].
  - constructor; try done; rewrite ?Ew, ?Es'.
    + done.
    + change (<[f := default [] (<[f := []]> (sw_files s) !! f) ++ h]> (<[f := []]> (sw_files s)) = disk_of (sw_segments s ++ [sg])).
      rewrite lookup_insert_eq, insert_insert_eq, disk_snoc, H5. unfold file_of. cbn [sg sg_header sg_items sg_name default from_option id app bytes_of map concat]. by rewrite app_nil_r.
    + change (sw_totalBytesWritten s + len h = size_of (sw_segments s ++ [sg])). rewrite size_snoc, H6. unfold file_of. cbn [sg sg_header sg_items bytes_of map concat]. by rewrite app_nil_r.
    + intros name E. exists (sw_segments s), sg. split; [done|]. split; [done|]. reflexivity.
    + intros Hm. destruct (H9 Hm) as [_ E]. rewrite (E Ef). split; [cbn; lia|done].
    + change (0 <= sw_totalSegmentsCreated s + 1 <= n + 1). lia.
    + intros T. destruct (H12 T) as [K1 K2 K3 K4 K5]. constructor; rewrite ?Es'; try done.
      * apply Forall_app. split; [done|]. apply Forall_singleton. cbn [sg sg_open sg_items]. split; [lia|by apply Forall_nil_2].
      * intros Hm. apply Forall_app. split; [by apply K3|]. apply Forall_singleton. exists [], []. split_and!; [done|cbn; lia|by apply Forall_nil_2].
      * intros Hm. apply apart_snoc; [by apply K4|]. intros a Ea. destruct (iv_time _ _ _ _ _ Hs T) as [_ _ _ _ K]. specialize (K Hm Ef a Ea). specialize (Hc T). cbn [sg sg_open]. lia.
  - intros T l1 sg1 (E1 & _ & _) _. rewrite Es' in E1. apply app_inj_tail in E1 as [_ <-]. by apply Forall_nil_2.
Qed.

(** The most tests of the queue in a turn. *)
Definition turn_items (e : sw_env) : list q_item_s := items_from e 0 1002.

Record turn_ok (localtime_r : Z -> tm) (e : sw_env) : Prop := {
  to_time : tm_ok (localtime_r (se_stamp e));
  to_items : Forall item_ok (turn_items e)
}.

(** A turn between the readings [c] and [c'] of the clock. *)
Definition turn_timed (c : Z) (e : sw_env) (c' : Z) : Prop :=
  c <= se_now e /\ se_now e <= se_open e <= c' /\ Forall (fun i => qi_datetime i <= c') (turn_items e).

Lemma turn_spec localtime_r names (timed : Prop) c c' n e s : sw_inv names timed c n s -> turn_ok localtime_r e -> (timed -> turn_timed c e c') ->
  n < 2 ^ 31 - 1 -> names <= 230 -> len (q_head (sw_q s)) + len (turn_items e) < 2 ^ 63 ->
  exists s' p, ltntstools_segmentwriter_threadFunc localtime_r e s = Some s' /\ sw_inv names timed c' (n + 1) s' /\
    sw_queued s' = sw_queued s ++ p /\ p `prefix_of` turn_items e /\ sw_writeMode s' = sw_writeMode s /\
    (se_fopen e = true -> q_head (sw_q s) <> [] -> (length (written (sw_segments s)) < length (written (sw_segments s')))%nat).
Proof.
  intros Hs [Ht Hi] Hc Hn Hnames Hl. unfold ltntstools_segmentwriter_threadFunc.
  assert (Hcc : timed -> c <= c') by (intros T; destruct (Hc T) as (? & ? & _); lia).
  unfold klqueue_empty, klqueue_count. rewrite (iv_count _ _ _ _ _ Hs). destruct (Z.eqb_spec (len (q_head (sw_q s))) 0) as [E0|Hne]; cbn [Z.eqb Pos.eqb].
  { exists s, []. split; [done|]. split; [eapply inv_later; [exact Hcc| |exact Hs]; lia|]. rewrite app_nil_r. split; [done|]. split; [apply prefix_nil|].
    split; [done|]. intros _ Hne. destruct (q_head (sw_q s)) as [|x l]; [done|]. rewrite len_cons in E0. pose proof (len_nonneg l). lia. }
  unfold _write. destruct (close_spec names timed c n (se_now e) s Hs) as (s1 & -> & H1 & I1 & T1); [intros T; by destruct (Hc T)|].
  destruct (name_spec localtime_r names timed (se_now e) n (se_stamp e) s1 H1 Ht Hnames T1) as (s2 & -> & H2 & I2 & T2 & F2). step.
  destruct (open_spec names timed (se_now e) n e s2 H2 Hn Hnames T2 F2) as (s3 & -> & H3 & I3 & T3 & F3); [intros T; by destruct (Hc T) as (_ & [? _] & _)|]. step.
  assert (H3' : sw_inv names timed c' (n + 1) s3) by (refine (inv_later _ _ _ _ _ _ _ _ _ H3); [intros T; destruct (Hc T) as (? & ? & _); lia|lia]).
  destruct (same_items_trans _ _ _ I1 (same_items_trans _ _ _ I2 I3)) as (Iq & Iqd & Im & Iw).
  destruct (sw_fh s3) as [name|] eqn:Ef.
  - destruct (iv_open _ _ _ _ _ H3' name Ef) as (l & sg & Ho). assert (name = sg_name sg) as -> by (destruct Ho as (_ & _ & E); congruence).
    destruct (sw_loop_spec names timed c' (n + 1) e 1002 0 1000 s3 l sg H3' Ho) as (s4 & p & E4 & H4 & Q4 & P4 & M4 & L4 & G4);
      [intros T; by apply (T3 T l)|lia|lia|done|by rewrite Iq|intros T; by destruct (Hc T) as (_ & _ & ?)|].
    exists s4, p. rewrite <- Iqd, <- Im, <- Iw, <- Iq. split; [exact E4|]. split; [done|]. split; [done|]. split; [done|]. split; [done|]. intros _. exact G4.
  - exists s3, []. rewrite app_nil_r. split; [done|]. split; [done|]. split; [done|]. split; [apply prefix_nil|]. split; [done|].
    intros Hf. destruct (F3 Hf) as [x E]. congruence.
Qed.

(** ** A run *)

(** Callers and the thread take steps. *)
Inductive sw_op :=
  | SwWrite (ok ok_ptr ok_q : bool) (buf : list Z) (length now : Z)
  | SwObject (ok ok_ptr ok_q : bool) (memory fill : list Z) (length now : Z)
  | SwHeader (ok : bool) (buf : list Z) (length : Z)
  | SwThread (e : sw_env).

(** An object is filled by the caller before it is written. *)
Definition filled (fill : list Z) (qi : q_item_s) : q_item_s :=
  {| qi_ptr := fill; qi_lengthBytes := qi_lengthBytes qi; qi_datetime := qi_datetime qi |}.

Section Run.
Context (localtime_r : Z -> tm).

Definition sw_step (op : sw_op) (s : ltntstools_segmentwriter_s) : option ltntstools_segmentwriter_s :=
  match op with
  | SwWrite ok ok_ptr ok_q buf length now => '(s, _) ← ltntstools_segmentwriter_write ok ok_ptr ok_q s buf length now; Some s
  | SwObject ok ok_ptr ok_q memory fill length now =>
      '(object, _) ← ltntstools_segmentwriter_object_alloc ok ok_ptr memory length;
      match object with
      | Some object => Some (ltntstools_segmentwriter_object_write ok_q s (filled fill object) now).1
      | None => Some s
      end
  | SwHeader ok buf length => '(s, _) ← ltntstools_segmentwriter_set_header ok s buf length; Some s
  | SwThread e => ltntstools_segmentwriter_threadFunc localtime_r e s
  end.

Definition sw_run (ops : list sw_op) (s : ltntstools_segmentwriter_s) : option ltntstools_segmentwriter_s := foldM (fun s op => sw_step op s) ops s.

Definition op_ok (op : sw_op) : Prop :=
  match op with
  | SwWrite _ _ _ buf length _ => 0 <= length <= len buf /\ length < 2 ^ 31
  | SwObject _ _ _ _ fill length _ => length = len fill /\ length < 2 ^ 31
  | SwHeader _ buf length => 0 <= length <= len buf /\ length < 2 ^ 31
  | SwThread e => turn_ok localtime_r e
  end.
End Run.

(** What an operation queues. *)
Definition queued_by (op : sw_op) (p : list q_item_s) : Prop :=
  match op with
  | SwWrite ok ok_ptr ok_q buf length now =>
      p = if ok && ok_ptr && ok_q then [{| qi_ptr := take (Z.to_nat length) buf; qi_lengthBytes := length; qi_datetime := now |}] else []
  | SwObject ok ok_ptr ok_q _ fill length now =>
      p = if ok && ok_ptr && ok_q then [{| qi_ptr := fill; qi_lengthBytes := length; qi_datetime := now |}] else []
  | SwHeader _ _ _ => p = []
  | SwThread e => p `prefix_of` turn_items e
  end.

Definition most_items (op : sw_op) : Z :=
  match op with SwThread e => len (turn_items e) | SwHeader _ _ _ => 0 | _ => 1 end.

(** An operation that ends before the clock shows [c']. *)
Definition op_timed (c : Z) (op : sw_op) (c' : Z) : Prop :=
  match op with
  | SwWrite _ _ _ _ _ now | SwObject _ _ _ _ _ _ now => c <= c' /\ now <= c'
  | SwHeader _ _ _ => c <= c'
  | SwThread e => turn_timed c e c'
  end.

(** The clock does not run backwards. *)
Inductive clock_runs : Z -> list sw_op -> Prop :=
  | clock_end c : clock_runs c []
  | clock_step c op c' ops : op_timed c op c' -> clock_runs c' ops -> clock_runs c (op :: ops).

Lemma push_one names (timed : Prop) c n s it : sw_inv names timed c n s -> item_ok it -> len (q_head (sw_q s)) + 1 < 2 ^ 63 ->
  (timed -> qi_datetime it <= c) -> sw_inv names timed c n (push_item true s it) /\ sw_queued (push_item true s it) = sw_queued s ++ [it] /\
  sw_writeMode (push_item true s it) = sw_writeMode s.
Proof.
  intros Hs Hi Hl Ht. destruct (inv_push names timed c n s [it] Hs) as (s' & <- & H & Q & _ & _ & _ & _ & M); [by apply Forall_singleton|done|intros T; apply Forall_singleton; by apply Ht|].
  done.
Qed.

(** Without memory in the queue nothing changes. *)
Lemma push_failed s it : push_item false s it = s.
Proof. by destruct s as [? []]. Qed.

Lemma step_spec localtime_r names (timed : Prop) c c' n op s : sw_inv names timed c n s -> op_ok localtime_r op -> (timed -> op_timed c op c') ->
  n < 2 ^ 31 - 1 -> names <= 230 -> len (q_head (sw_q s)) + most_items op < 2 ^ 63 ->
  exists s' p, sw_step localtime_r op s = Some s' /\ sw_inv names timed c' (n + 1) s' /\ sw_queued s' = sw_queued s ++ p /\ queued_by op p /\
    sw_writeMode s' = sw_writeMode s.
Proof.
  intros Hs Ho Ht Hn Hnames Hl. destruct op as [ok okp okq buf length now|ok okp okq memory fill length now|ok buf length|e]; cbn [sw_step op_ok op_timed most_items queued_by] in *.
  - assert (Hs' : sw_inv names timed c' (n + 1) s) by (refine (inv_later _ _ _ _ _ _ _ _ _ Hs); [intros T; by destruct (Ht T)|lia]).
    unfold ltntstools_segmentwriter_write, q_item_malloc. rewrite i32_id by lia.
    destruct ok; [|exists s, []; by rewrite app_nil_r]. destruct okp; [|exists s, []; by rewrite app_nil_r]. cbn [negb orb andb].
    rewrite (proj2 (Z.ltb_ge length 0)) by lia. rewrite rds_Some by lia. step.
    set (it := {| qi_ptr := take (Z.to_nat length) buf; qi_lengthBytes := length; qi_datetime := now |}).
    destruct (push_one names timed c' (n + 1) s it Hs') as (H1 & H2 & H3); [unfold item_ok; cbn [it qi_ptr qi_lengthBytes]; rewrite len_take; lia|done|intros T; by destruct (Ht T)|].
    destruct okq; [by exists (push_item true s it), [it]|]. exists s, []. unfold ltntstools_segmentwriter_object_write. cbn [fst]. by rewrite push_failed, app_nil_r.
  - assert (Hs' : sw_inv names timed c' (n + 1) s) by (refine (inv_later _ _ _ _ _ _ _ _ _ Hs); [intros T; by destruct (Ht T)|lia]).
    destruct Ho as [-> Ho]. pose proof (len_nonneg fill). unfold ltntstools_segmentwriter_object_alloc, q_item_malloc. rewrite i32_id by lia.
    destruct ok; [|exists s, []; by rewrite app_nil_r]. destruct okp; [|exists s, []; by rewrite app_nil_r]. cbn [negb orb andb].
    rewrite (proj2 (Z.ltb_ge (len fill) 0)) by lia. step.
    set (it := {| qi_ptr := fill; qi_lengthBytes := len fill; qi_datetime := now |}).
    destruct (push_one names timed c' (n + 1) s it Hs') as (H1 & H2 & H3); [done|done|intros T; by destruct (Ht T)|].
    destruct okq; [by exists (push_item true s it), [it]|]. exists s, []. unfold ltntstools_segmentwriter_object_write. cbn [fst]. by rewrite push_failed, app_nil_r.
  - assert (Hs' : sw_inv names timed c' (n + 1) s) by (refine (inv_later _ _ _ _ _ _ _ _ _ Hs); [done|lia]).
    destruct Hs' as [H1 H2 H3 H4 H5 H6 H7 H8 H9 H10 H11 H12]. unfold ltntstools_segmentwriter_set_header. rewrite i32_id by lia.
    set (s0 := match sw_fileHeader s with Some _ => _ | None => s end).
    assert (E0 : s0 = s <| sw_fileHeader := None |> <| sw_fileHeaderLength := 0 |>).
    { unfold s0. destruct (sw_fileHeader s) eqn:E; [done|]. destruct s. cbn in E, H4 |- *. unfold const. by rewrite E, H4. }
    rewrite E0. destruct ok; cbn [negb].
    + rewrite rds_Some by lia. step. eexists _, []. rewrite app_nil_r. split; [reflexivity|]. split; [|done].
      constructor; try done; [|intros T; destruct (H12 T); by constructor].
      change (len (take (Z.to_nat length) (drop (Z.to_nat 0) buf)) = length). rewrite drop_0, len_take; lia.
    + step. eexists _, []. rewrite app_nil_r. split; [reflexivity|]. split; [|done].
      constructor; try done. intros T; destruct (H12 T); by constructor.
  - destruct (turn_spec localtime_r names timed c c' n e s Hs Ho Ht Hn Hnames Hl) as (s' & p & E & H & Q & P & M & _). by exists s', p.
Qed.

Definition total_items (ops : list sw_op) : Z := fold_right (fun op n => most_items op + n) 0 ops.

Lemma most_nonneg op : 0 <= most_items op.
Proof. destruct op as [| | |e]; cbn [most_items]; [lia|lia|lia|apply len_nonneg]. Qed.

Lemma total_items_nonneg ops : 0 <= total_items ops.
Proof. unfold total_items. induction ops as [|op ops IH]; cbn [fold_right]; [lia|]. pose proof (most_nonneg op). lia. Qed.

Lemma queued_most op p : queued_by op p -> len p <= most_items op.
Proof.
  destruct op as [ok okp okq ? ? ?|ok okp okq ? ? ? ?| |e]; cbn [queued_by most_items]; [intros ->|intros ->|intros ->|intros [k E]].
  - destruct (ok && okp && okq); [change (1 <= 1)|change (0 <= 1)]; lia.
  - destruct (ok && okp && okq); [change (1 <= 1)|change (0 <= 1)]; lia.
  - change (0 <= 0). lia.
  - rewrite E, len_app. pose proof (len_nonneg k). lia.
Qed.

Lemma inv_queue_len names timed c n s : sw_inv names timed c n s -> len (q_head (sw_q s)) <= len (sw_queued s).
Proof. intros H. rewrite <- (iv_flow _ _ _ _ _ H), len_app. pose proof (len_nonneg (written (sw_segments s))). lia. Qed.

Lemma sw_run_spec localtime_r names (b : bool) ops : forall c n s, sw_inv names (b = true) c n s -> Forall (op_ok localtime_r) ops -> (b = true -> clock_runs c ops) ->
  n + len ops < 2 ^ 31 -> names <= 230 -> len (sw_queued s) + total_items ops < 2 ^ 63 ->
  exists s' ps c', sw_run localtime_r ops s = Some s' /\ sw_inv names (b = true) c' (n + len ops) s' /\ Forall2 queued_by ops ps /\
    sw_queued s' = sw_queued s ++ concat ps /\ sw_writeMode s' = sw_writeMode s.
Proof.
  induction ops as [|op ops IH]; intros c n s Hs Ho Hc Hn Hnames Hl; unfold sw_run; cbn [foldM].
  - exists s, [], c. rewrite app_nil_r, Z.add_0_r. by split_and!.
  - apply Forall_cons_1 in Ho as [O1 O2]. rewrite len_cons in Hn |- *. pose proof (len_nonneg ops). cbn [total_items fold_right] in Hl. fold (total_items ops) in Hl.
    pose proof (total_items_nonneg ops). pose proof (most_nonneg op). pose proof (inv_queue_len _ _ _ _ _ Hs).
    assert (exists c', (b = true -> op_timed c op c') /\ (b = true -> clock_runs c' ops)) as (c' & T1 & T2).
    { destruct b; [|by exists c]. specialize (Hc eq_refl). inversion Hc; subst. by exists c'. }
    destruct (step_spec localtime_r names (b = true) c c' n op s Hs O1 T1) as (s1 & p & -> & V1 & Q1 & P1 & M1); [lia|done|lia|]. step.
    pose proof (queued_most _ _ P1).
    destruct (IH c' (n + 1) s1 V1 O2 T2) as (s2 & ps & c2 & E2 & V2 & P2 & Q2 & M2); [lia|done|rewrite Q1, len_app; lia|].
    exists s2, (p :: ps), c2. split; [exact E2|]. split; [by replace (n + (len ops + 1)) with (n + 1 + len ops) by lia|]. split; [by constructor|].
    split; [rewrite Q2, Q1, <- app_assoc; done|congruence].
Qed.

(** ** Theorems *)

(** What the callers of [alloc] may ask for. *)
Definition alloc_ok (prefix : list Z) (suffix : option (list Z)) (mode : Z) : Prop :=
  (mode = 0 \/ mode = 1) /\ len prefix + len (default [0x2e; 0x74; 0x73] suffix) <= 230.

Definition run_ok (localtime_r : Z -> tm) (ops : list sw_op) : Prop :=
  Forall (op_ok localtime_r) ops /\ len ops < 2 ^ 31 /\ total_items ops < 2 ^ 63.

Lemma sw_alloc_inv prefix suffix mode timed c : alloc_ok prefix suffix mode ->
  sw_inv (len prefix + len (default [0x2e; 0x74; 0x73] suffix)) timed c 0 (ltntstools_segmentwriter_alloc prefix suffix mode).
Proof.
  intros [Hm Hl]. constructor; try done. intros _. split; [cbn; lia|done].
Qed.

Lemma reached localtime_r prefix suffix mode (b : bool) c ops : alloc_ok prefix suffix mode -> run_ok localtime_r ops -> (b = true -> clock_runs c ops) ->
  exists s ps c', sw_run localtime_r ops (ltntstools_segmentwriter_alloc prefix suffix mode) = Some s /\
    sw_inv (len prefix + len (default [0x2e; 0x74; 0x73] suffix)) (b = true) c' (len ops) s /\ Forall2 queued_by ops ps /\
    sw_queued s = concat ps /\ sw_writeMode s = mode.
Proof.
  intros Ha (Ho & Hn & Hl) Hc. pose proof (sw_alloc_inv prefix suffix mode (b = true) c Ha) as Hi. destruct Ha as [_ Hnames].
  destruct (sw_run_spec localtime_r _ b ops c 0 _ Hi Ho Hc Hn Hnames Hl) as (s & ps & c' & E & V & P & Q & M). by exists s, ps, c'.
Qed.


(** C16: While the clock does not run backwards, in a segmented recording the
    items of a file were queued in the minute of the file, but for the last
    one, and a minute lies between the opening of two files. *)
Theorem segment_holds_a_minute localtime_r prefix suffix c ops :
  alloc_ok prefix suffix 1 -> run_ok localtime_r ops -> clock_runs c ops ->
  exists s, sw_run localtime_r ops (ltntstools_segmentwriter_alloc prefix suffix 1) = Some s /\
    Forall short (sw_segments s) /\ apart (sw_segments s).
Proof.
  intros Ha Hr Hc. destruct (reached localtime_r prefix suffix 1 true c ops Ha Hr (fun _ => Hc)) as (s & ps & c' & E & V & _ & _ & M).
  exists s. split; [exact E|]. destruct (iv_time _ _ _ _ _ V eq_refl) as [_ _ K3 K4 _]. by split; [apply K3|apply K4].
Qed.

(** A turn in which nothing is queued and a file can be opened. *)
Definition quiet (localtime_r : Z -> tm) (e : sw_env) : Prop := tm_ok (localtime_r (se_stamp e)) /\ se_fopen e = true /\ forall k, se_pushed e k = [].

Lemma quiet_items localtime_r e : quiet localtime_r e -> turn_items e = [].
Proof.
  intros (_ & _ & H). unfold turn_items. assert (Hn : forall n k, items_from e k n = []); [|apply Hn].
  induction n as [|n IH]; intros k; [done|]. by rewrite items_from_S, H, IH.
Qed.

Lemma turn_idle localtime_r names timed c n e s : sw_inv names timed c n s -> q_head (sw_q s) = [] -> ltntstools_segmentwriter_threadFunc localtime_r e s = Some s.
Proof. intros Hs Eq. unfold ltntstools_segmentwriter_threadFunc, klqueue_empty, klqueue_count. by rewrite (iv_count _ _ _ _ _ Hs), Eq. Qed.

Lemma drains localtime_r names es : forall c n s, sw_inv names False c n s -> Forall (quiet localtime_r) es -> n + len es < 2 ^ 31 -> names <= 230 ->
  (length (q_head (sw_q s)) <= length es)%nat -> len (q_head (sw_q s)) < 2 ^ 63 ->
  exists s', sw_run localtime_r (map SwThread es) s = Some s' /\ q_head (sw_q s') = [] /\ written (sw_segments s') = sw_queued s.
Proof.
  induction es as [|e es IH]; intros c n s Hs He Hn Hnames Hl Hb; unfold sw_run; cbn [map foldM].
  - exists s. split; [done|]. assert (E : q_head (sw_q s) = []) by (destruct (q_head (sw_q s)); [done|cbn in Hl; lia]).
    split; [done|]. by rewrite <- (iv_flow _ _ _ _ _ Hs), E, app_nil_r.
  - apply Forall_cons_1 in He as [E1 E2]. rewrite len_cons in Hn. pose proof (len_nonneg es). pose proof (quiet_items _ _ E1) as Ei. assert (Hq := E1). destruct Hq as (Q1 & Q2 & _).
    destruct (turn_spec localtime_r names False c c n e s Hs) as (s1 & p & E & V & Q & P & M & G);
      [split; [done|rewrite Ei; by apply Forall_nil_2]|done|lia|done|rewrite Ei, len_nil; lia|]. cbn [sw_step]. rewrite E. step.
    rewrite Ei in P. apply prefix_nil_inv in P as ->. rewrite app_nil_r in Q.
    assert (Hlen : (length (q_head (sw_q s1)) <= length es /\ length (q_head (sw_q s1)) <= length (q_head (sw_q s)))%nat).
    { pose proof (f_equal length (iv_flow _ _ _ _ _ Hs)) as F1. pose proof (f_equal length (iv_flow _ _ _ _ _ V)) as F2. rewrite Q, <- F1, !length_app in F2.
      destruct (decide (q_head (sw_q s) = [])) as [Eq|Hne]; [|specialize (G Q2 Hne); cbn [length] in Hl; lia].
      rewrite (turn_idle _ _ _ _ _ e s Hs Eq) in E. injection E as <-. rewrite Eq. cbn. lia. }
    destruct (IH c (n + 1) s1 V E2) as (s2 & R & R1 & R2); [lia|done|apply Hlen|unfold len in *; lia|].
    exists s2. split; [exact R|]. split; [done|congruence].
Qed.

(** C17: Whatever happened before, the thread writes all that is queued, in at
    most one turn for each item, once nothing more is queued and files can be
    opened. *)
Theorem segmentwriter_drains localtime_r prefix suffix mode ops :
  alloc_ok prefix suffix mode -> run_ok localtime_r ops ->
  exists s ps, sw_run localtime_r ops (ltntstools_segmentwriter_alloc prefix suffix mode) = Some s /\ Forall2 queued_by ops ps /\
    forall es, Forall (quiet localtime_r) es -> len ops + len es < 2 ^ 31 -> len (q_head (sw_q s)) <= len es ->
    exists s', sw_run localtime_r (map SwThread es) s = Some s' /\ q_head (sw_q s') = [] /\ written (sw_segments s') = concat ps.
Proof.
  intros Ha Hr. destruct (reached localtime_r prefix suffix mode false 0 ops Ha Hr) as (s & ps & c' & E & V & P & Q & _); [done|].
  exists s, ps. split; [exact E|]. split; [done|]. intros es He Hn Hl. rewrite <- Q. destruct Ha as [_ Ha].
  apply (drains localtime_r (len prefix + len (default [0x2e; 0x74; 0x73] suffix)) es c' (len ops)); try done; [|unfold len in *; lia|unfold len in *; lia].
  destruct V as [H1 H2 H3 H4 H5 H6 H7 H8 H9 H10 H11 H12]. by constructor.
Qed.

(** Without memory in the queue an object is lost, and the caller is told that
    it was written. *)
Lemma object_lost s qi now :
  ltntstools_segmentwriter_object_write false s qi now = (s, qi_lengthBytes qi).
Proof. unfold ltntstools_segmentwriter_object_write. by rewrite push_failed. Qed.

(** What is in the queue when the writer is released goes to no file. *)
Lemma free_drops_queue localtime_r names timed c n s : sw_inv names timed c n s -> len (q_head (sw_q s)) < 2 ^ 63 ->
  exists s', ltntstools_segmentwriter_free localtime_r None s = Some s' /\ sw_files s' = sw_files s /\ q_head (sw_q s') = [].
Proof.
  intros Hs Hl. assert (Hd : forall l, len l < 2 ^ 63 -> drain (S (length l)) {| q_head := l; q_item_count := len l |} = Some {| q_head := []; q_item_count := 0 |}).
  { induction l as [|x l IH]; intros L; [done|]. rewrite len_cons in L. pose proof (len_nonneg l). cbn [length drain]. unfold klqueue_empty, klqueue_count. cbn [q_item_count].
    rewrite len_cons, (proj2 (Z.eqb_neq (len l + 1) 0)) by lia. cbn [Z.eqb]. unfold klqueue_pop_non_blocking, take_first. cbn [q_head q_item_count]. step. cbn [negb Z.eqb]. step.
    rewrite u64_id by lia. replace (len l + 1 - 1) with (len l) by lia. apply IH. lia. }
  unfold ltntstools_segmentwriter_free.
  assert (Eq : sw_q s = {| q_head := q_head (sw_q s); q_item_count := len (q_head (sw_q s)) |}) by (pose proof (iv_count _ _ _ _ _ Hs); destruct (sw_q s); cbn in *; congruence).
  destruct (sw_threadRunning s =? 0); step.
  - rewrite Eq, Hd by done. step. eexists. split; [reflexivity|]. done.
  - change (sw_q (s <| sw_threadTerminate := 1 |> <| sw_threadRunning := 0 |> <| sw_threadTerminated := 1 |>)) with (sw_q s). rewrite Eq, Hd by done. step. eexists. split; [reflexivity|]. done.
Qed.

(** ** A recording of two minutes *)

Definition sample_localtime (t : Z) : tm :=
  {| tm_year := 125; tm_mon := 0; tm_mday := 2; tm_hour := t / 3600 mod 24; tm_min := t / 60 mod 60; tm_sec := t mod 60 |}.
Definition sample_turn (now : Z) (pushed : list q_item_s) : sw_env :=
  {| se_now := now; se_stamp := now; se_open := now; se_fopen := true; se_pushed := fun k => match k with O => pushed | S _ => [] end |}.
Definition sample_prefix : list Z := [0x61].
Definition late_item : q_item_s := {| qi_ptr := [5]; qi_lengthBytes := 1; qi_datetime := 161 |}.
Definition sample_recording : list sw_op :=
  [SwHeader true [0x47] 1; SwWrite true true true [1; 2] 2 100; SwThread (sample_turn 101 []); SwObject true true true [0; 0] [3; 4] 2 159;
   SwThread (sample_turn 160 [late_item]); SwWrite true true true [6] 1 162; SwThread (sample_turn 162 [])].

Lemma sample_localtime_ok t : 0 <= t -> tm_ok (sample_localtime t).
Proof.
  intros H. unfold tm_ok, sample_localtime. cbn. pose proof (Z.mod_pos_bound (t / 3600) 24). pose proof (Z.mod_pos_bound (t / 60) 60). pose proof (Z.mod_pos_bound t 60). lia.
Qed.

Lemma sample_items now l : turn_items (sample_turn now l) = l.
Proof.
  assert (Hn : forall n k, items_from (sample_turn now l) (S k) n = []).
  { induction n as [|n IH]; intros k; [done|]. by rewrite items_from_S, IH. }
  unfold turn_items. rewrite items_from_S, Hn. apply app_nil_r.
Qed.

Lemma sample_run_ok : run_ok sample_localtime sample_recording.
Proof.
  split; [|split; [done|]].
  - repeat (apply Forall_cons_2; [|]); [done|by split|..|by apply Forall_nil_2]; try by split.
    all: split; [apply sample_localtime_ok; done|rewrite sample_items; try by apply Forall_nil_2].
    by apply Forall_singleton.
  - unfold sample_recording, total_items. cbn [fold_right most_items]. rewrite !sample_items. done.
Qed.

Lemma sample_recording_clock : clock_runs 100 sample_recording.
Proof.
  unfold sample_recording. apply clock_step with 100; [done|]. apply clock_step with 100; [done|].
  apply clock_step with 101; [split; [done|split; [done|rewrite sample_items; by apply Forall_nil_2]]|].
  apply clock_step with 159; [done|]. apply clock_step with 161; [split; [done|split; [done|rewrite sample_items; by apply Forall_singleton]]|].
  apply clock_step with 162; [done|]. apply clock_step with 162; [split; [done|split; [done|rewrite sample_items; by apply Forall_nil_2]]|]. apply clock_end.
Qed.


Lemma segment_holds_a_minute_witness : exists s,
  sw_run sample_localtime sample_recording (ltntstools_segmentwriter_alloc sample_prefix None 1) = Some s /\
  Forall short (sw_segments s) /\ apart (sw_segments s).
Proof.
  apply (segment_holds_a_minute sample_localtime sample_prefix None 100 sample_recording); [split; [by right|done]|exact sample_run_ok|exact sample_recording_clock].
Defined.

Lemma segmentwriter_drains_witness : exists s s',
  sw_run sample_localtime (take 2 sample_recording) (ltntstools_segmentwriter_alloc sample_prefix None 0) = Some s /\
  sw_run sample_localtime [SwThread (sample_turn 101 [])] s = Some s' /\ q_head (sw_q s') = [].
Proof.
  destruct (segmentwriter_drains sample_localtime sample_prefix None 0 (take 2 sample_recording)) as (s & ps & E & _ & H).
  - split; [by left|done].
  - split; [|done]. apply (List.Forall_forall _ _). intros op Hop. destruct Hop as [<-|[<-|[]]]; done.
  - assert (Hq : len (q_head (sw_q s)) = 1).
    { assert (Hx : len (default [] (q_head ∘ sw_q <$> sw_run sample_localtime (take 2 sample_recording) (ltntstools_segmentwriter_alloc sample_prefix None 0))) = 1) by (by vm_compute).
      rewrite E in Hx. exact Hx. }
    destruct (H [sample_turn 101 []]) as (s' & E' & Hs & _); [|done|by rewrite Hq|].
    + apply Forall_singleton. split; [by apply sample_localtime_ok|]. split; [done|]. by intros [|k].
    + exists s, s'. done.
Defined.
