(* ===== verification/Probes.v ===== *)
(** * The probes: src/probes.c

    The latency probe looks for an encoder's time stamp in a buffer and compares
    it with the clock; the scheduler probe sleeps for a millisecond, again and
    again, and counts the sleeps that were too long.  The histogram's report,
    which is text, is not modelled. *)
From Stdlib Require Import ZArith Lia Bool String.
From stdpp Require Import base numbers list option.
From coqutil Require Import Datatypes.RecordSettersUsingExistingGetters.
From S2P Require Import Prelude Clock Histogram SeiTimestamp.

(** ** The latency of an encoder *)

Record ltnencoder_sei_ctx_s := { latencyMs : Z }.

Definition ltntstools_probe_ltnencoder_alloc (ok : bool) : option ltnencoder_sei_ctx_s * Z :=
  if negb ok then (None, -1) else (Some {| latencyMs := -1 |}, 0).

Definition ltntstools_probe_ltnencoder_get_total_latency (hdl : option ltnencoder_sei_ctx_s) : Z :=
  match hdl with None => -1 | Some ctx => latencyMs ctx end.

(** [now]: the time of day. *)
Definition _ltnencoder_sei_timestamp_query (now : timeval) (buf : list Z) (offset : Z) : option ltnencoder_sei_ctx_s :=
  '(walltimeEncoderFrameEntry, _) ← sei_timestamp_value_timeval_query (drop (Z.to_nat offset) buf) 2;
  ms ← ltn_timeval_subtract_ms now walltimeEncoderFrameEntry;
  Some {| latencyMs := ms |}.

Definition ltntstools_probe_ltnencoder_sei_timestamp_query (now : timeval) (ctx : ltnencoder_sei_ctx_s) (buf : list Z) (lengthBytes : Z)
    : option (ltnencoder_sei_ctx_s * Z) :=
  offset ← ltn_uuid_find buf (u32 lengthBytes);
  if 0 <=? offset then ctx ← _ltnencoder_sei_timestamp_query now buf offset; Some (ctx, 0) else Some (ctx, -1).

(** ** The accuracy of the scheduler *)

Record scheduler_probe_ctx_s := {
  sp_threadRunning : Z;
  sp_threadTerminate : Z;
  sp_threadTerminated : Z;
  schedulerAccuracy1ms : ltn_histogram_s;
  beyond3msCount : Z
}.

(** The clock before and after a sleep, and when the sample is stored. *)
Record nap := { nap_begin : timeval; nap_end : timeval; nap_stored : timeval }.

(** One turn of the loop. *)
Definition scheduler_turn (ctx : scheduler_probe_ctx_s) (n : nap) : option scheduler_probe_ctx_s :=
  '(h, ms) ← ltn_histogram_sample_end (nap_end n) (nap_stored n) (ltn_histogram_sample_begin (nap_begin n) (schedulerAccuracy1ms ctx));
  let ctx := ctx <| schedulerAccuracy1ms := h |> in
  if 3 <=? ms then c ← i64_ok (beyond3msCount ctx + 1); Some (ctx <| beyond3msCount := c |>) else Some ctx.

(** [naps]: the sleeps before [free] sets the flag. *)
Definition scheduler_probe_threadFunc (naps : list nap) (ctx : scheduler_probe_ctx_s) : option scheduler_probe_ctx_s :=
  let ctx := ctx <| sp_threadTerminated := 0 |> <| sp_threadRunning := 1 |> in
  ctx ← foldM scheduler_turn naps ctx;
  Some (ctx <| sp_threadRunning := 1 |> <| sp_threadTerminated := 1 |>).

(** A histogram that cannot be allocated is used all the same. *)
Definition ltntstools_probe_scheduler_alloc (ok hist_ok buckets_ok : bool) (now : timeval) : option (option scheduler_probe_ctx_s * Z) :=
  if negb ok then Some (None, -1) else
  h ← ltn_histogram_alloc_video_defaults hist_ok buckets_ok now (Some "1ms scheduler accuracy"%string);
  Some (Some {| sp_threadRunning := 0; sp_threadTerminate := 0; sp_threadTerminated := 0; schedulerAccuracy1ms := h; beyond3msCount := 0 |}, 0).

Definition ltntstools_probe_scheduler_get_3ms_error_count (hdl : option scheduler_probe_ctx_s) : Z :=
  match hdl with None => -1 | Some ctx => beyond3msCount ctx end.

(** ** What the latency probe measures *)

(** A getter that succeeds does not see what follows the buffer. *)
Lemma rd_app_l l k i v : rd l i = Some v -> rd (l ++ k) i = Some v.
Proof. unfold rd. destruct (i <? 0); [done|]. apply lookup_app_l_Some. Qed.

Lemma field_get_app r post nr x : sei_timestamp_field_get r nr = Some x -> sei_timestamp_field_get (r ++ post) nr = Some x.
Proof.
  unfold sei_timestamp_field_get. destruct (_ || _); [done|]. cbv zeta. intros H.
  destruct (rd r (field_offset nr)) as [a|] eqn:Ea; [|done]. destruct (rd r (field_offset nr + 1)) as [b|] eqn:Eb; [|done].
  destruct (rd r (field_offset nr + 3)) as [c|] eqn:Ec; [|done]. destruct (rd r (field_offset nr + 4)) as [d|] eqn:Ed; [|done].
  by rewrite (rd_app_l _ _ _ _ Ea), (rd_app_l _ _ _ _ Eb), (rd_app_l _ _ _ _ Ec), (rd_app_l _ _ _ _ Ed).
Qed.

(** What an encoder puts into the stream at the time [t]. *)
Definition encoder_record (t : timeval) : option (list Z) :=
  r ← sei_timestamp_alloc true; '(r, _) ← sei_timestamp_value_timeval_set r SEI_TIMESTAMP_PAYLOAD_LENGTH 2 t; Some r.

Lemma encoder_record_spec t : 0 <= tv_sec t < 2 ^ 32 -> 0 <= tv_usec t < 2 ^ 32 -> exists r, encoder_record t = Some r /\ len r = 70 /\
  slice r 0 16 = ltn_uuid_sei_timestamp /\ sei_timestamp_value_timeval_query r 2 = Some (t, 0).
Proof.
  intros Hs Hu. unfold encoder_record. destruct (sei_timestamp_alloc true) as [r0|] eqn:E0; [|done]. step.
  assert (L0 : len r0 = 70) by (vm_compute in E0; by injection E0 as <-). assert (U0 : slice r0 0 16 = ltn_uuid_sei_timestamp) by (vm_compute in E0; by injection E0 as <-).
  clear E0. unfold sei_timestamp_value_timeval_set. rewrite !u32_id by lia.
  destruct (sei_field_roundtrip r0 SEI_TIMESTAMP_PAYLOAD_LENGTH 2 (tv_sec t)) as (r1 & -> & L1 & G1 & O1 & U1); [change SEI_TIMESTAMP_PAYLOAD_LENGTH with 70; lia|lia|done|]. step.
  destruct (sei_field_roundtrip r1 SEI_TIMESTAMP_PAYLOAD_LENGTH (2 + 1) (tv_usec t)) as (r2 & -> & L2 & G2 & O2 & U2); [change SEI_TIMESTAMP_PAYLOAD_LENGTH with 70; lia|lia|done|]. step.
  exists r2. split; [done|]. split; [lia|]. split; [congruence|]. unfold sei_timestamp_value_timeval_query. rewrite (O2 2), G1, G2 by done. step. by destruct t.
Qed.

Lemma uuid_missing buf : first_occurrence ltn_uuid_sei_timestamp buf 0 None -> ltn_uuid_find buf (len buf) = Some (-1).
Proof.
  intros Hno. unfold ltn_uuid_find. case_if; [done|]. destruct (memmem_first_occurrence buf ltn_uuid_sei_timestamp) as (j & -> & Hj); [done|]. step.
  destruct j as [j|]; [|done]. destruct Hj as (Hj0 & Hj1 & _). by destruct (Hno j).
Qed.

(** The milliseconds of a time of day. *)
Definition whole_ms (t : timeval) : Z := tv_sec t * 1000 + tv_usec t / 1000.

Lemma subtract_ms_whole x y ms : timeval_wf x -> timeval_wf y -> ltn_timeval_subtract_ms x y = Some ms -> ms = whole_ms x - whole_ms y.
Proof.
  intros [] []. unfold ltn_timeval_subtract_ms, ltn_timeval_to_ms, whole_ms, i64_ok. rewrite !Z.quot_div_nonneg by lia.
  intros E. repeat (case_match; cbn [mbind option_bind] in E; try done). by injection E as <-.
Qed.

(** C38: the latency probe: in a buffer that holds the record an encoder makes at
    the time [t], in one piece, where the identifier of such records is found
    for the first time, the record is found and the latency is the
    milliseconds from [t] to the time of the call, 0 and negative ones
    included; a buffer without the identifier gives -1 and leaves the latency
    as it was. *)
Theorem latency_measured ctx pre post t now r :
  timeval_wf now -> timeval_wf t -> tv_sec t < 2 ^ 32 -> encoder_record t = Some r -> len (pre ++ r ++ post) < 2 ^ 31 ->
  first_occurrence ltn_uuid_sei_timestamp (pre ++ r ++ post) 0 (Some (len pre)) ->
  exists ctx', ltntstools_probe_ltnencoder_sei_timestamp_query now ctx (pre ++ r ++ post) (len (pre ++ r ++ post)) = Some (ctx', 0) /\
    ltntstools_probe_ltnencoder_get_total_latency (Some ctx') = whole_ms now - whole_ms t /\
    forall now' buf, len buf < 2 ^ 31 -> first_occurrence ltn_uuid_sei_timestamp buf 0 None ->
    ltntstools_probe_ltnencoder_sei_timestamp_query now' ctx' buf (len buf) = Some (ctx', -1).
Proof.
  intros Hn Ht Hs Hr Hl Hf. destruct (subtract_ms_defined now t Hn Ht) as [ms Ems]. pose proof (subtract_ms_whole now t ms Hn Ht Ems) as Hms.
  destruct (encoder_record_spec t) as (r' & Er & L & U & Q); [destruct Ht; lia|destruct Ht; lia|]. assert (r' = r) as -> by congruence.
  pose proof (len_nonneg pre). pose proof (len_nonneg post).
  assert (Hx : ltn_uuid_find (pre ++ r ++ post) (len (pre ++ r ++ post)) = Some (len pre)).
  { unfold ltn_uuid_find. change SEI_TIMESTAMP_PAYLOAD_LENGTH with 70. rewrite (proj2 (Z.ltb_ge _ _)) by (rewrite !len_app; lia).
    destruct (memmem_first_occurrence (pre ++ r ++ post) ltn_uuid_sei_timestamp) as (j & -> & Hj); [done|]. step.
    destruct j as [j|]; [|by destruct Hf as (_ & Ho & _); destruct (Hj (len pre))].
    destruct Hf as (_ & Hf1 & Hf2). destruct Hj as (Hj0 & Hj1 & Hj2). f_equal.
    destruct (Z.lt_trichotomy j (len pre)) as [?|[?|?]]; [by destruct (Hf2 j)|done|by destruct (Hj2 (len pre))]. }
  unfold ltntstools_probe_ltnencoder_sei_timestamp_query. rewrite u32_id by (pose proof (len_nonneg (pre ++ r ++ post)); lia). rewrite Hx. step.
  rewrite (proj2 (Z.leb_le 0 (len pre))) by done. unfold _ltnencoder_sei_timestamp_query.
  assert (Hq : sei_timestamp_value_timeval_query (drop (Z.to_nat (len pre)) (pre ++ r ++ post)) 2 = Some (t, 0)).
  { rewrite drop_len_app. unfold sei_timestamp_value_timeval_query in Q |- *.
    destruct (sei_timestamp_field_get r 2) as [x|] eqn:E2; [|done]. destruct (sei_timestamp_field_get r (2 + 1)) as [y|] eqn:E3; [|done].
    by rewrite (field_get_app _ post _ _ E2), (field_get_app _ post _ _ E3). }
  rewrite Hq. step. rewrite Ems. step. exists {| latencyMs := ms |}. split; [done|]. split; [exact Hms|].
  intros now' buf Hb Hno. pose proof (len_nonneg buf). rewrite u32_id by lia. by rewrite uuid_missing.
Qed.

Definition sample_record : list Z := default [] (encoder_record (Timeval 1700000000 250000)).

Lemma latency_measured_witness : exists ctx',
  ltntstools_probe_ltnencoder_sei_timestamp_query (Timeval 1700000001 0) {| latencyMs := -1 |} ([0; 1] ++ sample_record ++ [2]) 73 = Some (ctx', 0) /\
  ltntstools_probe_ltnencoder_get_total_latency (Some ctx') = 750.
Proof.
  destruct (latency_measured {| latencyMs := -1 |} [0; 1] [2] (Timeval 1700000000 250000) (Timeval 1700000001 0) sample_record) as (ctx' & E & H & _).
  - done.
  - done.
  - done.
  - by vm_compute.
  - by vm_compute.
  - destruct (memmem_first_occurrence ([0; 1] ++ sample_record ++ [2]) ltn_uuid_sei_timestamp) as (j & E & Hj); [done|].
    assert (j = Some (len [0; 1])) as -> by (vm_compute in E; by injection E as <-). exact Hj.
  - exists ctx'. split; [exact E|exact H].
Defined.

(** A time stamp at the end of a buffer is read from after the buffer. *)
Lemma probe_overruns : ltntstools_probe_ltnencoder_sei_timestamp_query (Timeval 1 0) {| latencyMs := -1 |} (replicate 60 0 ++ ltn_uuid_sei_timestamp) 76 = None.
Proof. by vm_compute. Qed.

(** ** What the scheduler probe counts *)

Definition nap_wf (n : nap) : Prop := timeval_wf (nap_begin n) /\ timeval_wf (nap_end n).

(** The milliseconds of a sleep. *)
Definition slept (n : nap) : Z := u64 (default 0 (ltn_timeval_subtract_ms (nap_end n) (nap_begin n))).

Lemma turn_counts ctx n : hist_wf (schedulerAccuracy1ms ctx) -> nap_wf n -> seen (schedulerAccuracy1ms ctx) + 1 < 2 ^ 63 ->
  0 <= beyond3msCount ctx <= seen (schedulerAccuracy1ms ctx) ->
  exists ctx', scheduler_turn ctx n = Some ctx' /\ hist_wf (schedulerAccuracy1ms ctx') /\
    seen (schedulerAccuracy1ms ctx') = seen (schedulerAccuracy1ms ctx) + 1 /\
    beyond3msCount ctx' = beyond3msCount ctx + (if 3 <=? slept n then 1 else 0).
Proof.
  intros Hh [Hb He] Hs Hc. unfold scheduler_turn.
  destruct (hist_step_spec _ (OpSampleBegin (nap_begin n)) Hh Hb) as (h1 & E1 & W1 & S1); [lia|]. cbn [hist_step recorded] in E1, S1. injection E1 as E1. rewrite E1.
  destruct (hist_step_spec h1 (OpSampleEnd (nap_end n) (nap_stored n)) W1 He) as (h2 & E2 & W2 & S2); [lia|]. cbn [hist_step recorded] in E2, S2.
  destruct (ltn_histogram_sample_end (nap_end n) (nap_stored n) h1) as [[h ms]|] eqn:E; [|done]. injection E2 as ->. step.
  assert (Hms : ms = slept n).
  { unfold ltn_histogram_sample_end in E. replace (sampleLast h1) with (nap_begin n) in E by (by rewrite <- E1). unfold slept.
    destruct (ltn_timeval_subtract_ms (nap_end n) (nap_begin n)) as [d|]; [|done]. cbn [mbind option_bind] in E. cbn [default from_option id].
    set (h0 := h1 <| sampleMs := u64 d |>) in E. assert (Hx : forall h', (if hist_out_of_range h0 (sampleMs h0) then Some (hist_miss h0) else hist_hit (nap_stored n) h0 (sampleMs h0)) = Some h' -> sampleMs h' = u64 d).
    { intros h'. destruct (hist_out_of_range _ _); [by intros [= <-]|]. unfold hist_hit. destruct (_ !! _); [|done]. by intros [= <-]. }
    destruct (if hist_out_of_range h0 (sampleMs h0) then _ else _) as [h'|] eqn:Eh; [|done]. cbn in E. injection E as <- <-. by apply Hx. }
  rewrite Hms. destruct (3 <=? slept n).
  - change (beyond3msCount (ctx <| schedulerAccuracy1ms := h2 |>)) with (beyond3msCount ctx). rewrite i64_ok_Some by lia. step. eexists. split; [reflexivity|]. split; [done|]. split; [|done]. change (seen h2 = seen (schedulerAccuracy1ms ctx) + 1). lia.
  - eexists. split; [reflexivity|]. split; [done|]. split; [|cbn; lia]. change (seen h2 = seen (schedulerAccuracy1ms ctx) + 1). lia.
Qed.

(** The histogram has a sample of every sleep, and the count is that of the
    sleeps of three milliseconds and more. *)
Lemma scheduler_counts now naps : timeval_wf now -> Forall nap_wf naps -> len naps < 2 ^ 62 -> exists ctx ctx',
  ltntstools_probe_scheduler_alloc true true true now = Some (Some ctx, 0) /\ scheduler_probe_threadFunc naps ctx = Some ctx' /\
  seen (schedulerAccuracy1ms ctx') = len naps /\
  ltntstools_probe_scheduler_get_3ms_error_count (Some ctx') = len (filter (fun n => 3 <= slept n) naps).
Proof.
  intros Hn Hw Hl. unfold ltntstools_probe_scheduler_alloc. cbn [negb].
  destruct (hist_alloc_wf now "1ms scheduler accuracy" 0 (16 * 1000)) as (h & E & W & S0 & _); [lia|lia|done|].
  unfold ltn_histogram_alloc_video_defaults. rewrite E. step. eexists _. unfold scheduler_probe_threadFunc.
  set (ctx := {| sp_threadRunning := 0; sp_threadTerminate := 0; sp_threadTerminated := 0; schedulerAccuracy1ms := h; beyond3msCount := 0 |}).
  assert (Hrun : forall l c, Forall nap_wf l -> hist_wf (schedulerAccuracy1ms c) -> 0 <= beyond3msCount c <= seen (schedulerAccuracy1ms c) -> seen (schedulerAccuracy1ms c) + len l < 2 ^ 62 ->
    exists c', foldM scheduler_turn l c = Some c' /\ seen (schedulerAccuracy1ms c') = seen (schedulerAccuracy1ms c) + len l /\
    beyond3msCount c' = beyond3msCount c + len (filter (fun n => 3 <= slept n) l)).
  { induction l as [|n l IH]; intros c H1 H2 H3 H4; cbn [foldM]; [exists c; rewrite !Z.add_0_r; done|]. apply Forall_cons_1 in H1 as [H1 H1']. rewrite len_cons in *. pose proof (len_nonneg l).
    destruct (turn_counts c n H2 H1) as (c1 & -> & W1 & S1 & B1); [lia|done|]. step.
    destruct (IH c1) as (c2 & -> & S2 & B2); [done|done|destruct (3 <=? slept n); lia|lia|]. exists c2. split; [done|]. split; [lia|].
    rewrite B2, B1, filter_cons. destruct (Z.leb_spec 3 (slept n)); [rewrite decide_True, len_cons by done|rewrite decide_False by lia]; lia. }
  destruct (Hrun naps (ctx <| sp_threadTerminated := 0 |> <| sp_threadRunning := 1 |>)) as (c' & -> & S1 & B1); [done|done| |change (seen h + len naps < 2 ^ 62); lia|].
  { change (0 <= 0 <= seen h). lia. }
  step. eexists. split; [reflexivity|]. split; [reflexivity|]. split; [change (seen (schedulerAccuracy1ms c') = len naps)|change (beyond3msCount c' = len (filter (fun n => 3 <= slept n) naps))].
  - rewrite S1. change (seen h + len naps = len naps). lia.
  - rewrite B1. done.
Qed.
