(* ===== verification/ProcNetUdp.v ===== *)
(** * The sockets of the system: src/proc-net-udp.c

    A thread reads /proc/net/udp every three seconds into a table, adds the
    processes that use each socket, and tells how many datagrams each socket
    dropped since a reset.  The text of the file, the entries of /proc and the
    content of fresh memory come from the environment; sscanf, fgets and atoi
    are modelled as far as the code uses them.  The table is read by the thread
    without the mutex; here a refresh is one step.  The addresses in ASCII and
    the printer are left out. *)
From Stdlib Require Import ZArith Lia Bool String.
From stdpp Require Import base numbers list option.
From coqutil Require Import Datatypes.RecordSettersUsingExistingGetters.
From S2P Require Import Prelude.

(** ** The C library *)

Definition is_space (c : Z) : bool := (c =? 0x20) || ((0x09 <=? c) && (c <=? 0x0d)).

Fixpoint skip_space (l : list Z) : list Z :=
  match l with c :: l' => if is_space c then skip_space l' else l | [] => [] end.

Definition digit_value (c : Z) : option Z :=
  if (0x30 <=? c) && (c <=? 0x39) then Some (c - 0x30) else
  if (0x41 <=? c) && (c <=? 0x46) then Some (c - 0x37) else
  if (0x61 <=? c) && (c <=? 0x66) then Some (c - 0x57) else None.

Definition digit_in (base c : Z) : option Z :=
  match digit_value c with Some d => if d <? base then Some d else None | None => None end.

(** The value of the digits at the front, added to [acc], and the rest. *)
Fixpoint read_digits (base acc : Z) (l : list Z) : Z * list Z :=
  match l with
  | c :: l' => match digit_in base c with Some d => read_digits base (acc * base + d) l' | None => (acc, l) end
  | [] => (acc, [])
  end.

(** The subject of strtol: at least one digit, after a prefix in base 16. *)
Definition skip_prefix (base : Z) (l : list Z) : list Z :=
  match l with
  | z :: c :: l' => if (base =? 16) && (z =? 0x30) && ((c =? 0x58) || (c =? 0x78)) then l' else l
  | _ => l
  end.

Definition unsigned_number (base : Z) (l : list Z) : option (Z * list Z) :=
  match skip_prefix base l with
  | c :: l' => match digit_in base c with Some _ => Some (read_digits base 0 (c :: l')) | None => None end
  | [] => None
  end.

Definition number (base : Z) (l : list Z) : option (Z * list Z) :=
  match skip_space l with
  | c :: l' =>
      if c =? 0x2d then '(v, r) ← unsigned_number base l'; Some (- v, r) else
      if c =? 0x2b then unsigned_number base l' else unsigned_number base (c :: l')
  | [] => None
  end.

Definition atoi (l : list Z) : option Z :=
  match number 10 l with Some (v, _) => int_ok v | None => Some 0 end.

(** The hexadecimal digits at the front, at most [n]. *)
Fixpoint hex_span (n : nat) (l : list Z) : list Z * list Z :=
  match n, l with
  | S n, c :: l' => match digit_value c with Some _ => let '(t, r) := hex_span n l' in (c :: t, r) | None => ([], l) end
  | _, _ => ([], l)
  end.

(** The directives of a format: a blank, a character, a number of a type's
    range, one that is not stored, and a string of hexadecimal digits. *)
Inductive directive := DBlank | DChar (c : Z) | DNumber (base lo hi : Z) | DSkip (base : Z) | DHex (width : nat).
Inductive scanned := SNumber (v : Z) | SText (l : list Z).

(** The values stored.  A number that its type cannot hold is undefined. *)
Fixpoint sscanf (format : list directive) (l : list Z) : option (list scanned) :=
  match format with
  | [] => Some []
  | DBlank :: format => sscanf format (skip_space l)
  | DChar c :: format => match l with x :: l => if x =? c then sscanf format l else Some [] | [] => Some [] end
  | DNumber base lo hi :: format =>
      match number base l with
      | Some (v, l) => if (lo <=? v) && (v <=? hi) then r ← sscanf format l; Some (SNumber v :: r) else None
      | None => Some []
      end
  | DSkip base :: format => match number base l with Some (_, l) => sscanf format l | None => Some [] end
  | DHex width :: format =>
      match hex_span width l with
      | ([], _) => Some []
      | (t, l) => r ← sscanf format l; Some (SText t :: r)
      end
  end.

(** fgets of at most [n] characters: the line, the rest, and whether the end
    of the file was met. *)
Fixpoint fgets (n : nat) (l : list Z) : list Z * list Z * bool :=
  match n, l with
  | O, _ => ([], l, false)
  | S _, [] => ([], [], true)
  | S n, c :: l => if c =? 0x0a then ([c], l, false) else let '(t, r, e) := fgets n l in (c :: t, r, e)
  end.

(** ** The table *)

Definition LTNTSTOOLS_PROC_NET_UDP__MAX_PIDS : Z := 4.
Definition DEFAULT_REFRESH_MS : Z := 3000.

Record ltntstools_proc_net_udp_item_s := {
  pu_inode : Z;
  pu_uid : Z;
  pu_sl : Z;
  pu_local_addr : Z;
  pu_local_port : Z;
  pu_remote_addr : Z;
  pu_remote_port : Z;
  pu_drops : Z;
  pu_drops_reset : Z;
  pu_drops_delta : Z;
  pu_pidList : list (Z * list Z)
}.

Record ltntstools_proc_net_udp_ctx_s := { pu_refreshPeriodMS : Z; pu_items : list ltntstools_proc_net_udp_item_s }.

Definition ltntstools_proc_net_udp_alloc (ok : bool) : option ltntstools_proc_net_udp_ctx_s * Z :=
  if negb ok then (None, -1) else (Some {| pu_refreshPeriodMS := DEFAULT_REFRESH_MS; pu_items := [] |}, 0).

(** A copy of the table; none without sockets. *)
Definition ltntstools_proc_net_udp_item_query (ctx : ltntstools_proc_net_udp_ctx_s) : option (list ltntstools_proc_net_udp_item_s) * Z :=
  if len (pu_items ctx) =? 0 then (None, -1) else (Some (pu_items ctx), 0).

Fixpoint find_inode_from (i : nat) (array : list ltntstools_proc_net_udp_item_s) (inode : Z) : option (nat * ltntstools_proc_net_udp_item_s) :=
  match array with
  | [] => None
  | e :: array => if pu_inode e =? inode then Some (i, e) else find_inode_from (S i) array inode
  end.

Definition ltntstools_proc_net_udp_find_inode (array : list ltntstools_proc_net_udp_item_s) (inode : Z) : option (nat * ltntstools_proc_net_udp_item_s) :=
  find_inode_from 0 array inode.

Definition reset_item (e : ltntstools_proc_net_udp_item_s) : ltntstools_proc_net_udp_item_s :=
  e <| pu_drops_reset := pu_drops e |> <| pu_drops_delta := 0 |>.

Definition ltntstools_proc_net_udp_items_reset_drops (ctx : ltntstools_proc_net_udp_ctx_s) : ltntstools_proc_net_udp_ctx_s :=
  ctx <| pu_items := map reset_item (pu_items ctx) |>.

(** ** The sockets *)

Definition u64_max : Z := 0xffffffffffffffff.
Definition DUint64 : directive := DNumber 10 0 u64_max.
Definition DUint32Hex : directive := DNumber 16 0 0xffffffff.

(** "%ld: %64[0-9A-Fa-f]:%X %64[0-9A-Fa-f]:%X %*X %*x:%*x %*x:%*x %*x %lu%*d %lu %*d %*x %lu" *)
Definition line_format : list directive :=
  [DNumber 10 (-0x8000000000000000) 0x7fffffffffffffff; DChar 0x3a; DBlank; DHex 64; DChar 0x3a; DUint32Hex; DBlank; DHex 64; DChar 0x3a; DUint32Hex; DBlank;
   DSkip 16; DBlank; DSkip 16; DChar 0x3a; DSkip 16; DBlank; DSkip 16; DChar 0x3a; DSkip 16; DBlank; DSkip 16; DBlank;
   DUint64; DSkip 10; DBlank; DUint64; DBlank; DSkip 10; DBlank; DSkip 16; DBlank; DUint64].

(** The text of an address, in a buffer of 64 characters. *)
Definition scan_addr (t : list Z) (uninitialised : Z) : option Z :=
  if 64 <=? len t then None else
  r ← sscanf [DUint32Hex] t;
  Some (match r with [SNumber v] => v | _ => uninitialised end).

(** A line of the file; [uninitialised]: what the new item held as
    [drops_reset].  The inner [None] is a line that is not that of a socket. *)
Definition parse_line (uninitialised : Z) (line : list Z) : option (option ltntstools_proc_net_udp_item_s) :=
  fields ← sscanf line_format line;
  match fields with
  | [SNumber sl; SText locaddr; SNumber lport; SText remaddr; SNumber rport; SNumber uid; SNumber inode; SNumber drops] =>
      local_addr ← scan_addr locaddr 0;
      remote_addr ← scan_addr remaddr 0;
      Some (Some {| pu_inode := inode; pu_uid := uid; pu_sl := u64 sl; pu_local_addr := local_addr; pu_local_port := u16 lport;
                    pu_remote_addr := remote_addr; pu_remote_port := u16 rport; pu_drops := drops; pu_drops_reset := uninitialised;
                    pu_drops_delta := uninitialised; pu_pidList := [] |})
  | _ => Some None
  end.

(** The drops since the reset, from the entry [e] of the table before. *)
Definition account_drops (e : option (nat * ltntstools_proc_net_udp_item_s)) (i : ltntstools_proc_net_udp_item_s) : ltntstools_proc_net_udp_item_s :=
  match e with
  | Some (_, e) =>
      if negb (pu_drops e =? pu_drops i)
      then i <| pu_drops_delta := u64 (pu_drops i - pu_drops_reset i) |>
      else i <| pu_drops_reset := pu_drops_reset e |> <| pu_drops_delta := u64 (pu_drops i - pu_drops_reset e) |>
  | None => i <| pu_drops_reset := pu_drops i |> <| pu_drops_delta := 0 |>
  end.

(** [memory k]: the memory that the item of the line [k] is put into. *)
Fixpoint read_sockets (old : list ltntstools_proc_net_udp_item_s) (memory : nat -> Z) (fuel k : nat) (file : list Z)
    (items : list ltntstools_proc_net_udp_item_s) : option (list ltntstools_proc_net_udp_item_s) :=
  match fuel with
  | O => None
  | S fuel =>
      match file with
      | [] => Some items
      | _ =>
          let '(line, file, eof) := fgets 255 file in
          if eof then Some items else
          i ← parse_line (memory k) line;
          match i with
          | None => read_sockets old memory fuel (S k) file items
          | Some i => read_sockets old memory fuel (S k) file (items ++ [account_drops (ltntstools_proc_net_udp_find_inode old (pu_inode i)) i])
          end
      end
  end.

(** ** The processes *)

(** A process directory: its name, and, if it can be opened, its file
    descriptors, of which each is a directory or has the text of its link. *)
Record proc_entry := { pe_name : list Z; pe_fds : option (list (bool * option (list Z))) }.

Definition PATH_MAX : nat := 4096.

Section Processes.
Context (comm : Z -> list Z).

(** One place of the list stays empty. *)
Definition _tableHelperItemAddProcess (item : ltntstools_proc_net_udp_item_s) (pid : Z) : ltntstools_proc_net_udp_item_s :=
  if len (pu_pidList item) + 1 <? LTNTSTOOLS_PROC_NET_UDP__MAX_PIDS
  then item <| pu_pidList := pu_pidList item ++ [(pid, comm pid)] |> else item.

Definition _tableHelperItemFindiNode (inode : Z) (items : list ltntstools_proc_net_udp_item_s) : option (nat * ltntstools_proc_net_udp_item_s) :=
  find_inode_from 0 items inode.

(** The link of a socket is socket:[...], of which atoi sees all but the last
    character. *)
Definition add_link (name link : list Z) (items : list ltntstools_proc_net_udp_item_s) : option (list ltntstools_proc_net_udp_item_s) :=
  if negb (bool_decide (take 6 link = bytes_of_string "socket"%string)) then Some items else
  inode ← atoi (removelast link);
  match _tableHelperItemFindiNode (u64 inode) items with
  | None => Some items
  | Some (n, item) => pid ← atoi name; Some (<[n := _tableHelperItemAddProcess item (u64 pid)]> items)
  end.

Definition add_fd (name : list Z) (items : list ltntstools_proc_net_udp_item_s) '((dir, link) : bool * option (list Z))
    : option (list ltntstools_proc_net_udp_item_s) :=
  if dir then Some items else
  match link with
  | None | Some [] => Some items
  | Some link => add_link name (take (PATH_MAX - 1) link) items
  end.

Definition add_process (items : list ltntstools_proc_net_udp_item_s) (de : proc_entry) : option (list ltntstools_proc_net_udp_item_s) :=
  match pe_name de with
  | c :: _ =>
      if negb ((0x30 <=? c) && (c <=? 0x39)) then Some items else
      match pe_fds de with None => Some items | Some fds => foldM (add_fd (pe_name de)) fds items end
  | [] => Some items
  end.

(** [proc]: the entries of /proc, if it can be opened. *)
Definition _tableBuilderProcesses (proc : option (list proc_entry)) (items : list ltntstools_proc_net_udp_item_s)
    : option (list ltntstools_proc_net_udp_item_s * Z) :=
  match proc with
  | None => Some (items, -1)
  | Some entries => items ← foldM add_process entries items; Some (items, 0)
  end.

(** ** The thread *)

Record proc_env := { pr_file : option (list Z); pr_memory : nat -> Z; pr_proc : option (list proc_entry) }.

Definition _tableBuilderSockets (e : proc_env) (ctx : ltntstools_proc_net_udp_ctx_s) : option (ltntstools_proc_net_udp_ctx_s * Z) :=
  match pr_file e with
  | None => Some (ctx, -1)
  | Some file =>
      items ← read_sockets (pu_items ctx) (pr_memory e) (S (length file)) 0 file [];
      '(items, _) ← _tableBuilderProcesses (pr_proc e) items;
      Some (ctx <| pu_items := items |>, 0)
  end.

(** A turn of 20 milliseconds. *)
Definition proc_net_udp_turn (e : proc_env) '((ctx, queryPeriodMs) : ltntstools_proc_net_udp_ctx_s * Z) : option (ltntstools_proc_net_udp_ctx_s * Z) :=
  let queryPeriodMs := queryPeriodMs + 20 in
  if pu_refreshPeriodMS ctx <=? queryPeriodMs then '(ctx, _) ← _tableBuilderSockets e ctx; Some (ctx, 0) else Some (ctx, queryPeriodMs).

Definition proc_net_udp_threadfunc (turns : list proc_env) (ctx : ltntstools_proc_net_udp_ctx_s) : option ltntstools_proc_net_udp_ctx_s :=
  '(ctx, _) ← foldM (fun st e => proc_net_udp_turn e st) turns (ctx, 0); Some ctx.
End Processes.

(** ** Reading what the kernel prints *)

Definition base_ok (base : Z) : Prop := base = 10 \/ base = 16.

Lemma digit_char_value base d : base_ok base -> 0 <= d < base -> digit_in base (digit_char d) = Some d.
Proof.
  intros Hb Hd. unfold digit_in, digit_value, digit_char. destruct (Z.ltb_spec d 10).
  - zdec. cbn [andb]. f_equal. rewrite (Z.add_simpl_l 0x30 d). destruct Hb; subst; by zdec.
  - destruct Hb; [lia|subst]. zdec. cbn [andb]. replace (55 + d - 55) with d by lia. by zdec.
Qed.

(** Digits are read back, up to what is no digit. *)
Definition stops (base : Z) (l : list Z) : Prop := match l with c :: _ => digit_in base c = None | [] => True end.

Definition all_digits (base : Z) (l : list Z) : Prop := Forall (fun c => is_Some (digit_in base c)) l.

Lemma read_digits_app base l : forall acc k, all_digits base l -> read_digits base acc (l ++ k) = read_digits base (read_digits base acc l).1 k.
Proof.
  induction l as [|c l IH]; intros acc k H; [done|]. apply Forall_cons_1 in H as [[d E] H]. cbn [app read_digits]. rewrite E. by apply IH.
Qed.

Lemma read_stops base l acc : stops base l -> read_digits base acc l = (acc, l).
Proof. destruct l as [|c l]; [done|]. cbn [stops read_digits]. by intros ->. Qed.

Lemma digits_read base fuel : base_ok base -> forall v, 0 <= v < base ^ Z.of_nat fuel -> (0 < fuel)%nat ->
  digits base fuel v <> [] /\ all_digits base (digits base fuel v) /\ forall k, read_digits base 0 (digits base fuel v ++ k) = read_digits base v k.
Proof.
  intros Hb. assert (B : 2 <= base) by (destruct Hb; subst; lia). induction fuel as [|fuel IH]; intros v Hv Hf; [lia|]. cbn [digits]. destruct (Z.ltb_spec v base).
  - split; [done|]. split; [apply Forall_singleton; rewrite digit_char_value by (done || lia); by eexists|]. intros k. cbn [app read_digits].
    by rewrite digit_char_value by (done || lia).
  - destruct fuel as [|fuel]; [change (Z.of_nat 1) with 1 in Hv; rewrite Z.pow_1_r in Hv; lia|]. rewrite Nat2Z.inj_succ, Z.pow_succ_r in Hv by lia.
    destruct (IH (v / base)) as (N & A & R); [split; [apply Z.div_pos; lia|apply Z.div_lt_upper_bound; lia]|lia|].
    assert (Hd : 0 <= v mod base < base) by (apply Z.mod_pos_bound; lia).
    split; [by destruct (digits base (S fuel) (v / base))|]. split.
    + apply Forall_app. split; [done|]. apply Forall_singleton. rewrite digit_char_value by done. by eexists.
    + intros k. rewrite <- app_assoc, R. cbn [app read_digits]. rewrite digit_char_value by done. f_equal. pose proof (Z.div_mod v base). lia.
Qed.

(** The text of a number, in digits. *)
Record numeral (base : Z) (ds : list Z) (v : Z) : Prop := {
  nu_some : ds <> [];
  nu_digits : all_digits base ds;
  nu_value : forall k, read_digits base 0 (ds ++ k) = read_digits base v k
}.

Lemma zeros_read base n k : base_ok base -> read_digits base 0 (replicate n 0x30 ++ k) = read_digits base 0 k.
Proof. intros Hb. induction n as [|n IH]; [done|]. cbn [replicate app read_digits]. destruct Hb; subst; exact IH. Qed.

Lemma padded_numeral base width v : base_ok base -> 0 <= v < base ^ 20 -> numeral base (padded base width v) v.
Proof.
  intros Hb Hv. destruct (digits_read base 20 Hb v Hv) as (N & A & R); [lia|]. unfold padded. constructor.
  - intros E. apply app_eq_nil in E as [_ E]. done.
  - apply Forall_app. split; [|done]. apply Forall_replicate. destruct Hb; subst; by eexists.
  - intros k. rewrite <- app_assoc, zeros_read by done. apply R.
Qed.

Lemma some_numeral base ds : ds <> [] -> all_digits base ds -> exists v, numeral base ds v.
Proof. intros N A. exists (read_digits base 0 ds).1. constructor; [done|done|]. intros k. by apply read_digits_app. Qed.

(** What follows a number. *)
Definition ends (l : list Z) : Prop := match l with c :: _ => digit_value c = None /\ c <> 0x58 /\ c <> 0x78 | [] => True end.

Lemma digit_bounds base c : is_Some (digit_in base c) -> 0x30 <= c <= 0x66 /\ c <> 0x58 /\ is_space c = false /\ is_Some (digit_value c).
Proof.
  unfold digit_in. intros [d H]. destruct (digit_value c) as [x|] eqn:E; [|done]. unfold digit_value in E.
  assert (0x30 <= c <= 0x39 \/ 0x41 <= c <= 0x46 \/ 0x61 <= c <= 0x66) by (destruct (_ && _) eqn:E1 in E; [zbool; lia|]; destruct (_ && _) eqn:E2 in E; [zbool; lia|];
    destruct (_ && _) eqn:E3 in E; [zbool; lia|done]).
  split; [lia|]. split; [lia|]. split; [|by eexists]. unfold is_space. zdec. done.
Qed.

Lemma ends_stops base l : ends l -> stops base l.
Proof. destruct l as [|c l]; [done|]. intros [H _]. unfold stops, digit_in. by rewrite H. Qed.

Lemma number_read base ds v n k : numeral base ds v -> ends k -> number base (replicate n 0x20 ++ ds ++ k) = Some (v, k).
Proof.
  intros [N A R] Hk. unfold number. assert (Hsp : forall m l, skip_space (replicate m 0x20 ++ l) = skip_space l) by (induction m as [|m IH]; [done|exact IH]).
  rewrite Hsp. destruct ds as [|c ds]; [done|]. assert (A' := A). apply Forall_cons_1 in A' as [Hc A']. pose proof (digit_bounds base c Hc) as (B1 & B2 & B3 & B4).
  cbn [app skip_space]. rewrite B3. zdec. unfold unsigned_number.
  assert (Hp : skip_prefix base (c :: ds ++ k) = c :: ds ++ k).
  { unfold skip_prefix. destruct (ds ++ k) as [|x r] eqn:E; [done|]. assert (x <> 0x58 /\ x <> 0x78) as [X1 X2].
    { destruct ds as [|y ds]; cbn [app] in E; [subst k; by destruct Hk as [_ ?]|]. injection E as -> _. apply Forall_cons_1 in A' as [Hy _].
      pose proof (digit_bounds base x Hy). lia. }
    rewrite (proj2 (Z.eqb_neq x 0x58) X1), (proj2 (Z.eqb_neq x 0x78) X2). by rewrite andb_false_r. }
  rewrite Hp. destruct Hc as [d ->]. change (c :: ds ++ k) with ((c :: ds) ++ k). rewrite R. f_equal. by apply read_stops, ends_stops.
Qed.

Lemma hex_span_read ds k : forall n, all_digits 16 ds -> (length ds <= n)%nat -> ends k -> hex_span n (ds ++ k) = (ds, k).
Proof.
  induction ds as [|c ds IH]; intros n A L Hk; cbn [app].
  - destruct n as [|n], k as [|c k]; try done. cbn [hex_span]. by destruct Hk as [-> _].
  - destruct n as [|n]; [cbn in L; lia|]. apply Forall_cons_1 in A as [Hc A]. pose proof (digit_bounds 16 c Hc) as (_ & _ & _ & [x Ex]).
    cbn [hex_span]. rewrite Ex, IH; [done|done|cbn in L; lia|done].
Qed.

(** ** A line of the file *)

Lemma scan_number base lo hi format ds v n k : numeral base ds v -> ends k -> lo <= v <= hi ->
  sscanf (DNumber base lo hi :: format) (replicate n 0x20 ++ ds ++ k) = (r ← sscanf format k; Some (SNumber v :: r)).
Proof. intros H Hk Hv. cbn [sscanf]. rewrite (number_read base ds v n k H Hk). by zdec. Qed.

Lemma scan_skip base format ds n k : ds <> [] -> all_digits base ds -> ends k ->
  sscanf (DSkip base :: format) (replicate n 0x20 ++ ds ++ k) = sscanf format k.
Proof. intros N A Hk. destruct (some_numeral base ds N A) as [v H]. cbn [sscanf]. by rewrite (number_read base ds v n k H Hk). Qed.

Lemma scan_hex width format ds k : ds <> [] -> all_digits 16 ds -> (length ds <= width)%nat -> ends k ->
  sscanf (DHex width :: format) (ds ++ k) = (r ← sscanf format k; Some (SText ds :: r)).
Proof. intros N A L Hk. cbn [sscanf]. rewrite hex_span_read by done. by destruct ds. Qed.

Lemma scan_blanks base ds format n k : ds <> [] -> all_digits base ds -> sscanf (DBlank :: format) (replicate n 0x20 ++ ds ++ k) = sscanf format (ds ++ k).
Proof.
  intros N A. cbn [sscanf]. f_equal. assert (Hsp : forall m l, skip_space (replicate m 0x20 ++ l) = skip_space l) by (induction m as [|m IH]; [done|exact IH]).
  rewrite Hsp. destruct ds as [|c ds]; [done|]. apply Forall_cons_1 in A as [Hc _]. pose proof (digit_bounds base c Hc) as (_ & _ & B & _). cbn [app skip_space]. by rewrite B.
Qed.

(** The numbers that the code reads. *)
Record socket_line := {
  sk_sl : Z; sk_laddr : Z; sk_lport : Z; sk_raddr : Z; sk_rport : Z; sk_uid : Z; sk_inode : Z; sk_drops : Z
}.

(** What it passes over: blanks, the other numbers, and the end of the line. *)
Record line_rest := {
  lr_blanks : nat; lr_st : list Z; lr_tx : list Z; lr_rx : list Z; lr_tr : list Z; lr_when : list Z; lr_retr : list Z;
  lr_blanks_uid : nat; lr_blanks_timeout : nat; lr_timeout : list Z; lr_ref : list Z; lr_pointer : list Z; lr_tail : list Z
}.

Notation "'blanks' n" := (replicate n 0x20) (at level 10).

(** "%5d: %08X:%04X %08X:%04X %02X %08X:%08X %02X:%08lX %08X %5u %8d %lu %d %pK %u" *)
Definition kernel_line (s : socket_line) (r : line_rest) : list Z :=
  blanks (lr_blanks r) ++ padded 10 1 (sk_sl s) ++ 0x3a ::
  blanks 1 ++ padded 16 8 (sk_laddr s) ++ 0x3a :: padded 16 4 (sk_lport s) ++
  blanks 1 ++ padded 16 8 (sk_raddr s) ++ 0x3a :: padded 16 4 (sk_rport s) ++
  blanks 1 ++ lr_st r ++ blanks 1 ++ lr_tx r ++ 0x3a :: lr_rx r ++ blanks 1 ++ lr_tr r ++ 0x3a :: lr_when r ++ blanks 1 ++ lr_retr r ++
  blanks (S (lr_blanks_uid r)) ++ padded 10 1 (sk_uid s) ++ blanks (S (lr_blanks_timeout r)) ++ lr_timeout r ++
  blanks 1 ++ padded 10 1 (sk_inode s) ++ blanks 1 ++ lr_ref r ++ blanks 1 ++ lr_pointer r ++ blanks 1 ++ padded 10 1 (sk_drops s) ++ lr_tail r.

Definition socket_ok (s : socket_line) : Prop :=
  0 <= sk_sl s < 2 ^ 63 /\ 0 <= sk_laddr s < 2 ^ 32 /\ 0 <= sk_lport s < 2 ^ 16 /\ 0 <= sk_raddr s < 2 ^ 32 /\ 0 <= sk_rport s < 2 ^ 16 /\
  0 <= sk_uid s < 2 ^ 32 /\ 0 <= sk_inode s < 2 ^ 64 /\ 0 <= sk_drops s < 2 ^ 32.

Definition text_ok (base : Z) (l : list Z) : Prop := l <> [] /\ all_digits base l.

Definition rest_ok (r : line_rest) : Prop :=
  Forall (text_ok 16) [lr_st r; lr_tx r; lr_rx r; lr_tr r; lr_when r; lr_retr r; lr_pointer r] /\ Forall (text_ok 10) [lr_timeout r; lr_ref r] /\ ends (lr_tail r).

Lemma padded_text base width v : base_ok base -> 0 <= v < base ^ 20 -> text_ok base (padded base width v).
Proof. intros Hb Hv. by destruct (padded_numeral base width v Hb Hv). Qed.

(** An address of eight digits. *)
Lemma addr_read v : 0 <= v < 2 ^ 32 -> scan_addr (padded 16 8 v) 0 = Some v /\ (length (padded 16 8 v) <= 64)%nat.
Proof.
  intros Hv. assert (Hl : length (padded 16 8 v) = 8%nat).
  { unfold padded. rewrite length_app, length_replicate. pose proof (digits_length 16 20 7 v). change (16 ^ Z.of_nat 8) with (2 ^ 32) in *. lia. }
  split; [|lia]. unfold scan_addr. unfold len. rewrite Hl. cbn [Z.leb Z.compare Z.of_nat Pos.of_succ_nat Pos.succ Pos.compare Pos.compare_cont].
  pose proof (scan_number 16 0 0xffffffff [] (padded 16 8 v) v 0 [] (padded_numeral 16 8 v (or_intror eq_refl) ltac:(lia)) I ltac:(lia)) as H.
  cbn [replicate app] in H. rewrite app_nil_r in H. unfold DUint32Hex. by rewrite H.
Qed.

Lemma ends_blank n l : ends (blanks (S n) ++ l).
Proof. by split. Qed.
Lemma ends_colon l : ends (0x3a :: l).
Proof. by split. Qed.

Lemma scan_char c format l : sscanf (DChar c :: format) (c :: l) = sscanf format l.
Proof. cbn [sscanf]. by rewrite Z.eqb_refl. Qed.

(** A number or text without blanks before it. *)
Lemma scan_number_here base lo hi format ds v k : numeral base ds v -> ends k -> lo <= v <= hi ->
  sscanf (DNumber base lo hi :: format) (ds ++ k) = (r ← sscanf format k; Some (SNumber v :: r)).
Proof. exact (scan_number base lo hi format ds v 0 k). Qed.
Lemma scan_skip_here base format ds k : text_ok base ds -> ends k -> sscanf (DSkip base :: format) (ds ++ k) = sscanf format k.
Proof. intros [N A]. exact (scan_skip base format ds 0 k N A). Qed.
Lemma scan_blanks_before base ds format n k : text_ok base ds -> sscanf (DBlank :: format) (blanks n ++ ds ++ k) = sscanf format (ds ++ k).
Proof. intros [N A]. by apply (scan_blanks base). Qed.

(** Every line that the kernel prints for a socket is read back: the
    numbers the code stores are those printed, whatever the others are. *)
Theorem socket_line_roundtrip uninitialised s r : socket_ok s -> rest_ok r ->
  parse_line uninitialised (kernel_line s r) =
    Some (Some {| pu_inode := sk_inode s; pu_uid := sk_uid s; pu_sl := sk_sl s; pu_local_addr := sk_laddr s; pu_local_port := sk_lport s;
                  pu_remote_addr := sk_raddr s; pu_remote_port := sk_rport s; pu_drops := sk_drops s; pu_drops_reset := uninitialised;
                  pu_drops_delta := uninitialised; pu_pidList := [] |}).
Proof.
  intros (S1 & S2 & S3 & S4 & S5 & S6 & S7 & S8) (R1 & R2 & R3). apply Forall_cons_1 in R1 as [T1 [T2 [T3 [T4 [T5 [T6 [T7 _]%Forall_cons_1]%Forall_cons_1]%Forall_cons_1]%Forall_cons_1]%Forall_cons_1]%Forall_cons_1]. apply Forall_cons_1 in R2 as [T8 [T9 _]%Forall_cons_1].
  assert (P16 : forall w v, 0 <= v < 2 ^ 32 -> numeral 16 (padded 16 w v) v) by (intros w v Hv; apply padded_numeral; [by right|change (16 ^ 20) with (2 ^ 80); lia]).
  assert (P10 : forall w v, 0 <= v < 2 ^ 64 -> numeral 10 (padded 10 w v) v) by (intros w v Hv; apply padded_numeral; [by left|lia]).
  assert (X16 : forall w v, 0 <= v < 2 ^ 32 -> text_ok 16 (padded 16 w v)) by (intros w v Hv; by destruct (P16 w v Hv)).
  assert (X10 : forall w v, 0 <= v < 2 ^ 64 -> text_ok 10 (padded 10 w v)) by (intros w v Hv; by destruct (P10 w v Hv)).
  destruct (addr_read (sk_laddr s) S2) as [A1 L1]. destruct (addr_read (sk_raddr s) S4) as [A2 L2].
  destruct (X16 8%nat _ S2) as [N1 D1]. destruct (X16 8%nat _ S4) as [N2 D2].
  unfold parse_line, line_format, kernel_line, DUint64, DUint32Hex, u64_max.
  rewrite (scan_number 10 _ _ _ _ (sk_sl s)) by (try apply ends_colon; try apply P10; lia). rewrite scan_char.
  rewrite (scan_blanks_before 16) by (by apply X16). rewrite scan_hex by (done || apply ends_colon). rewrite scan_char.
  rewrite (scan_number_here 16 _ _ _ _ (sk_lport s)) by (try apply ends_blank; try apply P16; lia).
  rewrite (scan_blanks_before 16) by (by apply X16). rewrite scan_hex by (done || apply ends_colon). rewrite scan_char.
  rewrite (scan_number_here 16 _ _ _ _ (sk_rport s)) by (try apply ends_blank; try apply P16; lia).
  rewrite (scan_blanks_before 16), scan_skip_here by (done || apply ends_blank).
  rewrite (scan_blanks_before 16), scan_skip_here, scan_char, scan_skip_here by (done || apply ends_blank || apply ends_colon).
  rewrite (scan_blanks_before 16), scan_skip_here, scan_char, scan_skip_here by (done || apply ends_blank || apply ends_colon).
  rewrite (scan_blanks_before 16), scan_skip_here by (done || apply ends_blank).
  rewrite (scan_blanks_before 10), (scan_number_here 10 _ _ _ _ (sk_uid s)) by (try apply ends_blank; try apply X10; try apply P10; lia).
  destruct T8 as [N8 D8]. rewrite (scan_skip 10 _ (lr_timeout r)) by (done || apply ends_blank).
  rewrite (scan_blanks_before 10), (scan_number_here 10 _ _ _ _ (sk_inode s)) by (try apply ends_blank; try apply X10; try apply P10; lia).
  rewrite (scan_blanks_before 10), scan_skip_here by (done || apply ends_blank).
  rewrite (scan_blanks_before 16), scan_skip_here by (done || apply ends_blank).
  rewrite (scan_blanks_before 10), (scan_number_here 10 _ _ _ _ (sk_drops s)) by (done || (try apply X10; try apply P10; lia)).
  cbn [sscanf mbind option_bind]. rewrite A1. cbn [mbind option_bind]. rewrite A2. cbn [mbind option_bind]. by rewrite u64_id, !u16_id by lia.
Qed.

Definition sample_socket : socket_line :=
  {| sk_sl := 1203; sk_laddr := 0; sk_lport := 0xD459; sk_raddr := 0; sk_rport := 0; sk_uid := 70; sk_inode := 20892; sk_drops := 12 |}.
Definition sample_rest : line_rest :=
  {| lr_blanks := 2; lr_st := [0x30; 0x37]; lr_tx := replicate 8 0x30; lr_rx := replicate 8 0x30; lr_tr := [0x30; 0x30]; lr_when := replicate 8 0x30;
     lr_retr := replicate 8 0x30; lr_blanks_uid := 3; lr_blanks_timeout := 7; lr_timeout := [0x30]; lr_ref := [0x32]; lr_pointer := replicate 16 0x30; lr_tail := [0x20; 0x0a] |}.

Lemma sample_rest_ok : rest_ok sample_rest.
Proof.
  assert (H : forall b l, l <> [] -> forallb (fun c => match digit_in b c with Some _ => true | None => false end) l = true -> text_ok b l).
  { intros b l N F. split; [done|]. apply List.Forall_forall. intros c Hc. rewrite forallb_forall in F. specialize (F c Hc). destruct (digit_in b c); [by eexists|done]. }
  split; [|split; [|by split]]; repeat (apply Forall_cons_2; [by apply H|]); by apply Forall_nil_2.
Qed.

Lemma socket_line_roundtrip_witness : parse_line 7 (kernel_line sample_socket sample_rest) =
  Some (Some {| pu_inode := 20892; pu_uid := 70; pu_sl := 1203; pu_local_addr := 0; pu_local_port := 54361; pu_remote_addr := 0; pu_remote_port := 0;
                pu_drops := 12; pu_drops_reset := 7; pu_drops_delta := 7; pu_pidList := [] |}).
Proof. apply (socket_line_roundtrip 7 sample_socket sample_rest); [unfold socket_ok, sample_socket; cbn; lia|exact sample_rest_ok]. Defined.

(** ** The processes are not found *)

Lemma atoi_socket link : take 6 link = bytes_of_string "socket"%string -> atoi (removelast link) = Some 0.
Proof.
  intros H. assert (link = [0x73; 0x6f; 0x63; 0x6b; 0x65; 0x74] ++ drop 6 link) as -> by (rewrite <- (take_drop 6 link) at 1; by rewrite H).
  destruct (drop 6 link); reflexivity.
Qed.

Lemma find_from_inode items inode : forall i, Forall (fun e => pu_inode e <> inode) items -> find_inode_from i items inode = None.
Proof.
  induction items as [|e items IH]; intros i H; [done|]. apply Forall_cons_1 in H as [H1 H2]. cbn [find_inode_from]. rewrite (proj2 (Z.eqb_neq _ _) H1). by apply IH.
Qed.

(** The number that follows "socket:[" is never read: no process is ever listed
    with a socket that has an inode. *)
Lemma processes_never_found comm proc items : Forall (fun e => pu_inode e <> 0) items ->
  exists ret, _tableBuilderProcesses comm proc items = Some (items, ret).
Proof.
  intros Hi. destruct proc as [entries|]; [|by exists (-1)]. exists 0. cbn [_tableBuilderProcesses].
  assert (Hl : forall name link, add_link comm name link items = Some items).
  { intros name link. unfold add_link. case_bool_decide as Hs; [|done]. cbn [negb]. rewrite atoi_socket by done. step. unfold _tableHelperItemFindiNode. change (u64 0) with 0. by rewrite find_from_inode. }
  assert (Hf : forall name fds, foldM (add_fd comm name) fds items = Some items).
  { intros name. induction fds as [|[dir link] fds IH]; [done|]. cbn [foldM]. assert (Ha : add_fd comm name items (dir, link) = Some items).
    { unfold add_fd. destruct dir; [done|]. destruct link as [[|c link]|]; [done|apply Hl|done]. }
    rewrite Ha. exact IH. }
  assert (Hp : foldM (add_process comm) entries items = Some items).
  { induction entries as [|de entries IH]; [done|]. cbn [foldM]. assert (Ha : add_process comm items de = Some items).
    { unfold add_process. destruct (pe_name de) as [|c name]; [done|]. destruct (negb _); [done|]. destruct (pe_fds de); [apply Hf|done]. }
    rewrite Ha. exact IH. }
  by rewrite Hp.
Qed.

(** ** The table *)

Definition newline_free (l : list Z) : Prop := Forall (fun c => c <> 0x0a) l.

Lemma fgets_line l : forall n k, newline_free l -> (length l < n)%nat -> fgets n (l ++ 0x0a :: k) = (l ++ [0x0a], k, false).
Proof.
  induction l as [|c l IH]; intros n k H L; (destruct n as [|n]; [cbn in L; lia|]); [done|]. apply Forall_cons_1 in H as [H1 H2].
  cbn [app fgets]. rewrite (proj2 (Z.eqb_neq _ _) H1), IH by (done || (cbn in L; lia)). done.
Qed.

Definition file_of_lines (lines : list (list Z)) : list Z := concat (map (fun l => l ++ [0x0a]) lines).

(** The items of the lines, from the memory of the line [k] on. *)
Fixpoint listed_items (old : list ltntstools_proc_net_udp_item_s) (memory : nat -> Z) (k : nat) (lines : list (list Z)) : option (list ltntstools_proc_net_udp_item_s) :=
  match lines with
  | [] => Some []
  | l :: lines =>
      i ← parse_line (memory k) (l ++ [0x0a]);
      r ← listed_items old memory (S k) lines;
      Some (match i with Some i => account_drops (ltntstools_proc_net_udp_find_inode old (pu_inode i)) i :: r | None => r end)
  end.

Lemma read_sockets_lines old memory lines : forall fuel k items r, Forall (fun l => newline_free l /\ (length l < 255)%nat) lines -> (length lines < fuel)%nat ->
  listed_items old memory k lines = Some r -> read_sockets old memory fuel k (file_of_lines lines) items = Some (items ++ r).
Proof.
  induction lines as [|l lines IH]; intros fuel k items r H L Hr; (destruct fuel as [|fuel]; [cbn in L; lia|]); cbn [listed_items] in Hr.
  - injection Hr as <-. by rewrite app_nil_r.
  - apply Forall_cons_1 in H as [[H1 H2] H3]. destruct (parse_line (memory k) (l ++ [0x0a])) as [i|] eqn:Ei; [|done]. cbn [mbind option_bind] in Hr.
    destruct (listed_items old memory (S k) lines) as [r'|] eqn:Er; [|done]. cbn [mbind option_bind] in Hr. injection Hr as <-.
    assert (Ef : file_of_lines (l :: lines) = l ++ 0x0a :: file_of_lines lines) by (unfold file_of_lines; cbn [map concat]; by rewrite <- app_assoc).
    rewrite Ef. cbn [read_sockets]. rewrite fgets_line by done. rewrite Ei.
    destruct (l ++ 0x0a :: file_of_lines lines) eqn:Ed; [by apply app_eq_nil in Ed as [_ ?]|]. cbn [mbind option_bind].
    destruct i as [i|]; rewrite (IH fuel (S k) _ r' H3) by (done || (cbn in L; lia)); [by rewrite <- app_assoc|done].
Qed.

(** What is true of the drops of a socket in a new table. *)
Definition drops_ok (old : list ltntstools_proc_net_udp_item_s) (it : ltntstools_proc_net_udp_item_s) : Prop :=
  match ltntstools_proc_net_udp_find_inode old (pu_inode it) with
  | None => pu_drops_reset it = pu_drops it /\ pu_drops_delta it = 0
  | Some (_, e) => pu_drops e = pu_drops it -> pu_drops_reset it = pu_drops_reset e /\ pu_drops_delta it = u64 (pu_drops it - pu_drops_reset e)
  end.

Lemma account_drops_ok old i : drops_ok old (account_drops (ltntstools_proc_net_udp_find_inode old (pu_inode i)) i) /\
  pu_drops (account_drops (ltntstools_proc_net_udp_find_inode old (pu_inode i)) i) = pu_drops i /\
  pu_inode (account_drops (ltntstools_proc_net_udp_find_inode old (pu_inode i)) i) = pu_inode i.
Proof.
  unfold drops_ok. assert (Ei : forall e, pu_inode (account_drops e i) = pu_inode i) by (intros [[? e]|]; cbn; [destruct (negb _); done|done]).
  assert (Ed : forall e, pu_drops (account_drops e i) = pu_drops i) by (intros [[? e]|]; cbn; [destruct (negb _); done|done]).
  rewrite Ei, Ed. split; [|done]. destruct (ltntstools_proc_net_udp_find_inode old (pu_inode i)) as [[n e]|]; [|done].
  cbn [account_drops]. intros ->. by rewrite Z.eqb_refl.
Qed.

(** A refresh lists the sockets of the file in its order; a socket that is new
    starts at its drops, one whose drops did not change keeps its reset. *)
Theorem sockets_listed comm e ctx header ss :
  newline_free header -> (length header < 255)%nat -> parse_line (pr_memory e 0) (header ++ [0x0a]) = Some None ->
  Forall (fun sr => socket_ok (fst sr) /\ rest_ok (snd sr) /\ sk_inode (fst sr) <> 0 /\
    exists l, kernel_line (fst sr) (snd sr) = l ++ [0x0a] /\ newline_free l /\ (length l < 255)%nat) ss ->
  pr_file e = Some (header ++ 0x0a :: concat (map (fun sr => kernel_line (fst sr) (snd sr)) ss)) ->
  exists items, _tableBuilderSockets comm e ctx = Some (ctx <| pu_items := items |>, 0) /\
    map pu_inode items = map (fun sr => sk_inode (fst sr)) ss /\ map pu_drops items = map (fun sr => sk_drops (fst sr)) ss /\
    Forall (drops_ok (pu_items ctx)) items.
Proof.
  intros Hn Hl Hh Hs Hf.
  assert (exists ls, map (fun l => l ++ [0x0a]) ls = map (fun sr => kernel_line (fst sr) (snd sr)) ss /\ Forall (fun l => newline_free l /\ (length l < 255)%nat) ls) as (ls & El & Fl).
  { clear Hf. induction Hs as [|sr ss (_ & _ & _ & l & E & N & L) _ (ls & El & Fl)]; [by exists []|]. exists (l :: ls). cbn [map]. rewrite E, El. split; [done|by apply Forall_cons_2]. }
  assert (Hi : forall k, exists items, listed_items (pu_items ctx) (pr_memory e) k ls = Some items /\
    map pu_inode items = map (fun sr => sk_inode (fst sr)) ss /\ map pu_drops items = map (fun sr => sk_drops (fst sr)) ss /\ Forall (drops_ok (pu_items ctx)) items).
  { clear Hf Fl. revert ls El. induction Hs as [|sr ss (O1 & O2 & _ & _) _ IH]; intros [|l ls] El k; cbn [map] in El; try done; [exists []; by split_and!|].
    injection El as E El. destruct (IH ls El (S k)) as (items & Ei & E1 & E2 & E3). cbn [listed_items]. rewrite E, socket_line_roundtrip by done. step. rewrite Ei. step.
    match goal with |- context [account_drops _ ?x] => set (it := x) end. destruct (account_drops_ok (pu_items ctx) it) as (D1 & D2 & D3).
    eexists. split; [reflexivity|]. cbn [map]. rewrite D2, D3, E1, E2. split; [done|]. split; [done|by apply Forall_cons_2]. }
  destruct (Hi 1%nat) as (items & Ei & E1 & E2 & E3). exists items. unfold _tableBuilderSockets. rewrite Hf.
  assert (Efile : header ++ 0x0a :: concat (map (fun sr => kernel_line (fst sr) (snd sr)) ss) = file_of_lines (header :: ls))
    by (unfold file_of_lines; cbn [map concat]; by rewrite El, <- app_assoc).
  rewrite Efile. rewrite (read_sockets_lines (pu_items ctx) (pr_memory e) (header :: ls) _ 0 [] items).
  - cbn [app]. step. destruct (processes_never_found comm (pr_proc e) items) as [ret ->]; [|by step].
    assert (F : Forall (fun n => n <> 0) (map pu_inode items)) by (rewrite E1; apply List.Forall_map; eapply List.Forall_impl; [|exact Hs]; intros sr (_ & _ & ? & _); done).
    exact (proj1 (List.Forall_map _ _ _) F).
  - by apply Forall_cons_2.
  - assert (Hlen : forall l, (length l <= length (file_of_lines l))%nat).
    { induction l as [|x l IH]; [done|]. unfold file_of_lines in *. cbn [map concat]. rewrite !length_app. cbn. lia. }
    specialize (Hlen (header :: ls)). lia.
  - cbn [listed_items]. rewrite Hh. step. by rewrite Ei.
Qed.

(** A socket that dropped since the last table counts from what the memory held. *)
Lemma drops_from_memory e i n : pu_drops e <> pu_drops i -> pu_drops_delta (account_drops (Some (n, e)) i) = u64 (pu_drops i - pu_drops_reset i).
Proof. intros H. cbn [account_drops]. by rewrite (proj2 (Z.eqb_neq _ _) H). Qed.
