(* ===== verification/Multicast.v ===== *)
(** * Multicast reception: src/igmp.c, src/udp_receiver.c

    Groups are joined and left on the network interfaces, by a caller that only
    wants the membership (igmp.c) or by the receiver of UDP datagrams
    (udp_receiver.c), whose thread hands the datagrams to a callback.  What the
    system calls return comes from the environment; the sockets that are open,
    the requests that were granted and the calls of the callback are recorded.
    The messages are left out. *)
From Stdlib Require Import ZArith Lia Bool.
From stdpp Require Import base numbers list option.
From coqutil Require Import Datatypes.RecordSettersUsingExistingGetters.
From S2P Require Import Prelude.

(** ** The interfaces *)

Inductive membership := IP_ADD_MEMBERSHIP | IP_DROP_MEMBERSHIP.

(** An entry of getifaddrs: the name without its case, the flags, the address
    with its family, if it has one, and what getnameinfo and setsockopt say. *)
Record ifaddrs := {
  ifa_name : list Z;
  ifa_broadcast : bool;
  ifa_up : bool;
  ifa_addr : option (bool * Z);
  ifa_named : bool;
  ifa_granted : bool
}.

(** A request that the system granted: group and interface. *)
Record ip_mreq := { mr_option : membership; imr_multiaddr : Z; imr_interface : Z }.

(** The interface is one to modify; the inner [Some] is its address.  The flags
    are tested before the address, which a null pointer fails. *)
Definition should_modify (ifname : option (list Z)) (cursor : ifaddrs) : option (option Z) :=
  if negb (ifa_broadcast cursor && ifa_up cursor) then Some None else
  '(inet, addr) ← ifa_addr cursor;
  if negb inet || negb (ifa_named cursor) then Some None else
  match ifname with
  | Some name => if bool_decide (name = ifa_name cursor) then Some (Some addr) else Some None
  | None => Some (Some addr)
  end.

(** The requests granted, and whether one was refused, which ends the loop. *)
Fixpoint modify_loop (ifname : option (list Z)) (group : Z) (opt : membership) (addrs : list ifaddrs) : option (list ip_mreq * bool) :=
  match addrs with
  | [] => Some ([], true)
  | cursor :: addrs =>
      m ← should_modify ifname cursor;
      match m with
      | None => modify_loop ifname group opt addrs
      | Some addr =>
          if negb (ifa_granted cursor) then Some ([], false) else
          '(l, ok) ← modify_loop ifname group opt addrs;
          Some ({| mr_option := opt; imr_multiaddr := group; imr_interface := addr |} :: l, ok)
      end
  end.

(** [addrs]: the interfaces, if the system tells them. *)
Definition modifyMulticastInterfaces (ifname : option (list Z)) (group : Z) (opt : membership) (addrs : option (list ifaddrs))
    : option (list ip_mreq * Z) :=
  match addrs with
  | None => Some ([], -1)
  | Some addrs => '(l, ok) ← modify_loop ifname group opt addrs; Some (l, if ok && negb (len l =? 0) then 0 else -1)
  end.

(** The group as ntohl gives it. *)
Definition IN_MULTICAST (a : Z) : bool := Z.land a 0xf0000000 =? 0xe0000000.

(** What the system has of the process. *)
Record system := { sy_sockets : list Z; sy_granted : list ip_mreq }.

(** ** igmp.c *)

Record ltntstools_igp_ctx_s := { ig_skt : Z; ig_group : Z; ig_ifname : list Z }.

(** [group]: the address that inet_addr reads; [skt]: the socket that is made. *)
Definition ltntstools_igmp_join (ok : bool) (skt : option Z) (addrs : option (list ifaddrs)) (sys : system) (group : option Z) (ifname : option (list Z))
    : option (system * option ltntstools_igp_ctx_s * Z) :=
  match ifname, group with
  | Some ifname, Some group =>
      if negb ok then Some (sys, None, -1) else
      if negb (IN_MULTICAST group) then Some (sys, None, -1) else
      match skt with
      | None => Some (sys, None, -1)
      | Some skt =>
          let sys := sys <| sy_sockets := skt :: sy_sockets sys |> in
          '(l, ret) ← modifyMulticastInterfaces (Some ifname) group IP_ADD_MEMBERSHIP addrs;
          let sys := sys <| sy_granted := sy_granted sys ++ l |> in
          if negb (ret =? 0) then Some (sys, None, -1) else
          Some (sys, Some {| ig_skt := skt; ig_group := group; ig_ifname := ifname |}, 0)
      end
  | _, _ => Some (sys, None, -1)
  end.

(** The result does not tell whether the group was left. *)
Definition ltntstools_igmp_drop (addrs : option (list ifaddrs)) (sys : system) (handle : option ltntstools_igp_ctx_s) : option (system * Z) :=
  match handle with
  | None => Some (sys, 0)
  | Some ctx =>
      '(l, _) ← modifyMulticastInterfaces (Some (ig_ifname ctx)) (ig_group ctx) IP_DROP_MEMBERSHIP addrs;
      Some (sys <| sy_granted := sy_granted sys ++ l |>, 0)
  end.

(** ** udp_receiver.c *)

(** [ur_calls]: the calls of the callback, where the data starts in the buffer
    and its length. *)
Record ltntstools_udp_receiver_s := {
  ur_skt : Z;
  ur_group : Z;
  ur_stripRTPHeader : bool;
  ur_rxbuffer_size : Z;
  ur_threadStarted : bool;
  ur_thread_running : Z;
  ur_thread_terminate : Z;
  ur_thread_complete : Z;
  ur_cb : bool;
  ur_calls : list (Z * Z)
}.

(** The results of the calls that make a receiver. *)
Record receiver_env := {
  re_skt : option Z; re_rcvbuf : bool; re_reuse : bool; re_bind : bool; re_nonblocking : bool; re_buffer : bool
}.

(** The address is cut to 31 characters before inet_addr reads it. *)
Definition ltntstools_udp_receiver_alloc (e : receiver_env) (sys : system) (group : option Z) (cb : bool) (stripRTPHeader : Z)
    : system * option ltntstools_udp_receiver_s * Z :=
  match group with
  | None => (sys, None, -1)
  | Some group =>
      match re_skt e with
      | None => (sys, None, -1)
      | Some skt =>
          let sys := sys <| sy_sockets := skt :: sy_sockets sys |> in
          if negb (re_rcvbuf e) then (sys, None, -1) else
          if negb (re_reuse e) then (sys, None, -1) else
          if negb (re_bind e) then (sys, None, -1) else
          if negb (re_nonblocking e) then (sys, None, -1) else
          if negb (re_buffer e) then (sys, None, -1) else
          (sys, Some {| ur_skt := skt; ur_group := group; ur_stripRTPHeader := negb (stripRTPHeader =? 0); ur_rxbuffer_size := 2048;
                        ur_threadStarted := false; ur_thread_running := 0; ur_thread_terminate := 0; ur_thread_complete := 0;
                        ur_cb := cb; ur_calls := [] |}, 0)
      end
  end.

(** The thread is not running. *)
Definition ltntstools_udp_receiver_free (addrs : option (list ifaddrs)) (sys : system) (ctx : ltntstools_udp_receiver_s) : option system :=
  if ur_skt ctx =? -1 then Some sys else
  sys ← (if IN_MULTICAST (ur_group ctx)
         then '(l, _) ← modifyMulticastInterfaces None (ur_group ctx) IP_DROP_MEMBERSHIP addrs; Some (sys <| sy_granted := sy_granted sys ++ l |>)
         else Some sys);
  Some (sys <| sy_sockets := filter (fun s => s <> ur_skt ctx) (sy_sockets sys) |>).

Definition change_multicast (opt : membership) (addrs : option (list ifaddrs)) (sys : system) (ctx : ltntstools_udp_receiver_s) (ifname : option (list Z))
    : option (system * Z) :=
  match ifname with
  | None => None
  | Some ifname =>
      if negb (IN_MULTICAST (ur_group ctx)) then Some (sys, -1) else
      '(l, ret) ← modifyMulticastInterfaces (Some ifname) (ur_group ctx) opt addrs;
      Some (sys <| sy_granted := sy_granted sys ++ l |>, ret)
  end.

Definition ltntstools_udp_receiver_join_multicast := change_multicast IP_ADD_MEMBERSHIP.
Definition ltntstools_udp_receiver_drop_multicast := change_multicast IP_DROP_MEMBERSHIP.

(** What poll says, and then recv: the bytes received, or -1. *)
Inductive poll_result := PollTimeout | PollError | PollReady (received : Z).

Definition udp_receiver_turn (ctx : ltntstools_udp_receiver_s) (r : poll_result) : ltntstools_udp_receiver_s :=
  match r with
  | PollTimeout | PollError => ctx
  | PollReady received =>
      let rxbytes := u64 received in
      if negb (rxbytes =? 0) && ur_cb ctx && negb (ur_stripRTPHeader ctx)
      then ctx <| ur_calls := ur_calls ctx ++ [(0, i32 rxbytes)] |>
      else if negb (rxbytes =? 0) && ur_cb ctx && ur_stripRTPHeader ctx
      then ctx <| ur_calls := ur_calls ctx ++ [(12, i32 (u64 (rxbytes - 12) / 188 * 188))] |>
      else ctx
  end.

Definition udp_receiver_threadfunc (turns : list poll_result) (ctx : ltntstools_udp_receiver_s) : ltntstools_udp_receiver_s :=
  let ctx := foldl udp_receiver_turn (ctx <| ur_thread_running := 1 |>) turns in
  ctx <| ur_thread_complete := 1 |> <| ur_thread_running := 0 |>.

(** The thread may be started once. *)
Definition ltntstools_udp_receiver_thread_start (created : bool) (ctx : ltntstools_udp_receiver_s) : option (ltntstools_udp_receiver_s * Z) :=
  if ur_threadStarted ctx then None else
  if created then Some (ctx <| ur_threadStarted := true |>, 0) else Some (ctx, 11).

(** ** Groups are joined on the interfaces asked for *)

(** The interfaces up for broadcast have an address. *)
Definition addressed (i : ifaddrs) : Prop := ifa_broadcast i = true -> ifa_up i = true -> is_Some (ifa_addr i).

Definition selected (ifname : option (list Z)) (i : ifaddrs) : option Z :=
  match ifa_addr i with
  | Some (inet, addr) =>
      if ifa_broadcast i && ifa_up i && inet && ifa_named i && (match ifname with Some n => bool_decide (n = ifa_name i) | None => true end)
      then Some addr else None
  | None => None
  end.

Lemma should_modify_spec ifname i : addressed i -> should_modify ifname i = Some (selected ifname i).
Proof.
  intros H. unfold should_modify, selected, addressed in *. destruct (ifa_broadcast i), (ifa_up i); cbn [andb negb]; try by destruct (ifa_addr i) as [[? ?]|].
  destruct H as [[inet addr] ->]; [done|done|]. step. destruct inet, (ifa_named i); cbn [negb orb andb]; try done.
  destruct ifname as [n|]; [|done]. by destruct (bool_decide _).
Qed.

Definition requests (ifname : option (list Z)) (group : Z) (opt : membership) (addrs : list ifaddrs) : list ip_mreq :=
  omap (fun i => (fun a => {| mr_option := opt; imr_multiaddr := group; imr_interface := a |}) <$> selected ifname i) addrs.

Lemma modify_loop_spec ifname group opt addrs : Forall addressed addrs -> exists l ok, modify_loop ifname group opt addrs = Some (l, ok) /\
  l `prefix_of` requests ifname group opt addrs /\
  (ok = true <-> Forall (fun i => is_Some (selected ifname i) -> ifa_granted i = true) addrs) /\
  (ok = true -> l = requests ifname group opt addrs).
Proof.
  unfold requests. induction addrs as [|i addrs IH]; intros H; cbn [modify_loop omap list_omap].
  - exists [], true. split; [done|]. split; [done|]. split; [|done]. split; [intros _; by apply Forall_nil_2|done].
  - apply Forall_cons_1 in H as [H1 H2]. destruct (IH H2) as (l & ok & -> & P & A & B). rewrite should_modify_spec by done. step.
    destruct (selected ifname i) as [a|] eqn:Es; cbn [fmap option_fmap option_map].
    + destruct (ifa_granted i) eqn:Eg; cbn [negb]; step.
      * eexists _, ok. split; [reflexivity|]. split; [by apply prefix_cons|]. split; [|intros E; by rewrite B].
        rewrite A. split; [intros F; apply Forall_cons_2; [by intros _|done]|intros F; by apply Forall_cons_1 in F as [_ ?]].
      * exists [], false. split; [done|]. split; [apply prefix_nil|]. split; [|done]. split; [done|]. intros F. apply Forall_cons_1 in F as [F _].
        rewrite Es, Eg in F. by discriminate F.
    + exists l, ok. split; [done|]. split; [done|]. split; [|done]. rewrite A. split; [intros F; apply Forall_cons_2; [by rewrite Es; intros [? ?]|done]|].
      intros F. by apply Forall_cons_1 in F as [_ ?].
Qed.

(** A change succeeds when an interface is selected and every selected one
    grants it; then each selected one was asked, once. *)
Theorem membership_changed ifname group opt addrs : Forall addressed addrs -> exists l ret,
  modifyMulticastInterfaces ifname group opt (Some addrs) = Some (l, ret) /\ (ret = 0 \/ ret = -1) /\
  l `prefix_of` requests ifname group opt addrs /\
  (ret = 0 <-> requests ifname group opt addrs <> [] /\ Forall (fun i => is_Some (selected ifname i) -> ifa_granted i = true) addrs) /\
  (ret = 0 -> l = requests ifname group opt addrs).
Proof.
  intros H. unfold modifyMulticastInterfaces. destruct (modify_loop_spec ifname group opt addrs H) as (l & ok & -> & P & A & B). step.
  eexists _, _. split; [reflexivity|]. assert (L0 : (len l =? 0) = true <-> l = []).
  { destruct l as [|x l]; [done|]. rewrite len_cons. pose proof (len_nonneg l). split; [intros E; apply Z.eqb_eq in E; lia|done]. }
  destruct ok; cbn [andb].
  - specialize (B eq_refl) as <-. destruct (len l =? 0) eqn:E; cbn [negb].
    + destruct L0 as [L0 _]. specialize (L0 eq_refl) as ->. split; [by right|]. split; [done|]. split; [|done]. split; [done|]. by intros [? _].
    + split; [by left|]. split; [done|]. split; [|done]. split; [|done]. intros _. split; [|by apply A]. intros ->. by destruct L0 as [_ ?].
  - split; [by right|]. split; [done|]. split; [|done]. split; [done|]. intros [_ F]. by apply A in F.
Qed.

(** A group that is joined and left keeps its socket. *)
Lemma igmp_socket_leaks ok skt addrs addrs' sys group ifname sys1 ctx sys2 :
  ltntstools_igmp_join ok (Some skt) addrs sys group ifname = Some (sys1, Some ctx, 0) ->
  ltntstools_igmp_drop addrs' sys1 (Some ctx) = Some (sys2, 0) -> skt ∈ sy_sockets sys2.
Proof.
  unfold ltntstools_igmp_join, ltntstools_igmp_drop. destruct ifname as [n|], group as [g|]; try done. destruct ok; [|done]. destruct (IN_MULTICAST g); [|done]. cbn [negb].
  destruct (modifyMulticastInterfaces (Some n) g _ addrs) as [[l ret]|]; [|done]. step. destruct (ret =? 0); [|done]. cbn [negb]. intros [= <- <-].
  cbn [ig_ifname ig_group]. destruct (modifyMulticastInterfaces _ _ _ addrs') as [[l' ret']|]; [|done]. step. intros [= <-]. left.
Qed.

(** ** The callback sees received packets *)

Definition datagram (r : poll_result) : Prop := match r with PollReady n => 12 <= n <= 2048 | _ => True end.

(** Datagrams that hold an RTP header are handed over within the buffer; without
    the header, as whole packets. *)
Theorem callbacks_in_buffer turns ctx : Forall datagram turns -> ur_calls ctx = [] ->
  Forall (fun c => 0 <= c.1 /\ 0 <= c.2 /\ c.1 + c.2 <= 2048 /\ (ur_stripRTPHeader ctx = true -> c.1 = 12 /\ (188 | c.2)))
    (ur_calls (udp_receiver_threadfunc turns ctx)).
Proof.
  intros Ht Hc. change (ur_calls (udp_receiver_threadfunc turns ctx)) with (ur_calls (foldl udp_receiver_turn (ctx <| ur_thread_running := 1 |>) turns)).
  set (P := fun c : Z * Z => 0 <= c.1 /\ 0 <= c.2 /\ c.1 + c.2 <= 2048 /\ (ur_stripRTPHeader ctx = true -> c.1 = 12 /\ (188 | c.2))).
  assert (H : forall l c, Forall datagram l -> ur_stripRTPHeader c = ur_stripRTPHeader ctx -> Forall P (ur_calls c) -> Forall P (ur_calls (foldl udp_receiver_turn c l))).
  { induction l as [|r l IH]; intros c Hl Es Hp; [done|]. apply Forall_cons_1 in Hl as [Hr Hl]. cbn [foldl]. destruct r as [| |n]; cbn [udp_receiver_turn]; [by apply IH..|].
    cbn [datagram] in Hr. assert (E : u64 n = n) by (apply u64_id; lia). rewrite !E.
    destruct (negb (n =? 0) && ur_cb c && negb (ur_stripRTPHeader c)) eqn:B1; [|destruct (negb (n =? 0) && ur_cb c && ur_stripRTPHeader c) eqn:B2; [|by apply IH]].
    - apply IH; [done|exact Es|]. change (Forall P (ur_calls c ++ [(0, i32 n)])). apply Forall_app. split; [done|]. apply Forall_singleton.
      rewrite i32_id by lia. apply andb_true_iff in B1 as [_ B1]. unfold P. cbn [fst snd]. rewrite <- Es. destruct (ur_stripRTPHeader c); [done|]. split_and!; [lia..|done].
    - apply IH; [done|exact Es|]. change (Forall P (ur_calls c ++ [(12, i32 (u64 (n - 12) / 188 * 188))])). apply Forall_app. split; [done|]. apply Forall_singleton.
      rewrite u64_id by lia. assert (0 <= (n - 12) / 188 * 188 <= n - 12) by zlia. rewrite i32_id by lia. unfold P. cbn [fst snd].
      split_and!; [lia..|]. intros _. split; [done|]. apply Z.divide_factor_r. }
  apply H; [done|done|]. change (Forall P (ur_calls ctx)). rewrite Hc. by apply Forall_nil_2.
Qed.

Definition sample_receiver (strip : bool) : ltntstools_udp_receiver_s :=
  {| ur_skt := 3; ur_group := 0xe3010101; ur_stripRTPHeader := strip; ur_rxbuffer_size := 2048; ur_threadStarted := true; ur_thread_running := 0;
     ur_thread_terminate := 0; ur_thread_complete := 0; ur_cb := true; ur_calls := [] |}.

(** An error of recv is taken for data, and a datagram shorter than the header
    for a very long one. *)
Lemma recv_error_delivered : ur_calls (udp_receiver_turn (sample_receiver false) (PollReady (-1))) = [(0, -1)].
Proof. reflexivity. Qed.
Lemma short_datagram_delivered : ur_calls (udp_receiver_turn (sample_receiver true) (PollReady 4)) = [(12, -72)].
Proof. vm_compute. reflexivity. Qed.
